(* ===== verification/_CoqProject ===== *)
-Q . S2P
Prelude.v
Kstrtox.v
Printf.v
Ringbuf.v
Cli.v
DspState.v
DspLog.v
DspLoad.v
AdfDebug.v
Rtc.v
SignOfLife.v
LifeCycle.v
TraceRing.v
Logger.v
LdPort.v
Max20342.v
VsCooler.v
VsGov.v
VsZone.v
Of.v
ThermalAdc.v
VsSensor.v
Sysrst.v
BatteryMetrics.v
Idme.v
Fusb251.v
Pubadc.v
AmznLd.v
Workqueue.v
Keycombo.v
AmznKeycombo.v
P922x.v
P922xCal.v
P922xFlow.v
P922xSession.v
P922xCharge.v
P922xProbe.v
P922xAttr.v
VsProbe.v
Holdings.v
Acenna.v
AcennaProbe.v
Dstsblt.v
Mdump.v
Hall.v
