(* ===== verification/Prelude.v ===== *)
(** * A verification library for the Amazon device-support code of the FireOS
      kernel tree

    The repository is the source release of a Fire tablet: the Linux 5.4 kernel
    for the MT8169 with vendor and Amazon drivers, a boot loader and a set of
    third-party user-space packages. This library models the code Amazon wrote
    for its devices in the kernel tree (everything below is under
    [src/platform/kernel/mediatek/mt8169/5.4/], written [K/]) and proves what
    makes it correct, or where it is not.

    ** Parts, and the files that model them

    - [Prelude] (this file): C integers ([u8] .. [s64]), error numbers, bit
      fields, byte buffers, tactics and generic lemmas.
    - [Kstrtox], [Printf]: the kernel's integer parsers ([K/lib/kstrtox.c]),
      scanning and formatting ([K/lib/vsprintf.c]), as far as the drivers use
      them.
    - DSP framework ([K/drivers/staging/amazon/dspframework/src/]): the host
      shares memory sections with an audio DSP.
      [Ringbuf]: ringbuf.c, the ring buffer, against a queue of bytes.
      [Cli]: cli.c, command lines split into the ring buffer the DSP reads.
      [DspState]: state.c, the state words. [DspLog]: log.c, reading a log ring
      the DSP keeps writing. [DspLoad]: load.c, parsing a firmware and
      allocating its sections. [AdfDebug]: adf_debug.c, the debugfs handlers
      that copy sections from and to the DSP and call the other parts.
    - Sign of life ([K/drivers/staging/amazon/]): why the device went down.
      [Rtc]: the RTC scratch registers, an interface ([LcrRtc]) with its laws
      and the register file that satisfies them. [SignOfLife]: the store of
      four reason codes and a parity bit in two registers
      (amzn_sign_of_life_rtc_impl.c), against a map from groups to reasons.
      [LifeCycle]: the driver (amzn_sign_of_life_v3.c) over a record of platform
      operations, from the requests of one session to the report of the next
      boot.
    - [Logger]: K/drivers/misc/amazon_logger.c, over an interface to the trace
      ring buffer with its laws. [TraceRing]: the interface, and the buffer of
      pages that overwrite each other (K/kernel/trace/ring_buffer.c), as far as
      the logger uses it, which keeps them.
    - USB-C liquid detection. [LdPort]: what the three drivers share, the port
      they act on (switch, Type-C role, charger) and the settings of their
      intervals. [Max20342] (K/drivers/usb/typec/max20342/): I2C register access
      with bus errors, measurement, reaction, the VBUS work and its interleaving
      with the detection, attributes, probe and shutdown. [Fusb251]
      (K/drivers/usb/typec/fusb251/): the same for a chip that reports flags.
      [AmznLd] (K/drivers/usb/typec/amzn_ld/amzn_ld.c): the generic driver over
      ADC channels, with its debouncing; [Pubadc]
      (K/drivers/usb/typec/pubadc_manage/pubadc_manage.c): the
      multiplexer in front of the channel it shares with the battery.
    - Keys. [Workqueue]: the kernel's workqueue and timer, as far as a driver
      sees them. [Keycombo] (K/drivers/input/keycombo.c): the state machine that
      waits for a set of keys, against the times the set was held.
      [AmznKeycombo] (K/drivers/staging/amazon/amzn_keycombo.c): the
      combination from the device tree, and its functions, which record their
      reason through [LifeCycle].
      [Hall] (K/drivers/input/misc/hall/bu520.c): the sensor of the cover, its
      interrupt, which asks for the next edge, and the work that reports the lid,
      both in the parts between which the pin may move.
    - Device tree and identity data. [Of]: the reading of properties
      (K/drivers/of/property.c and of.h). [Idme] (K/drivers/misc/idme.c):
      the identity data below [/idme], sensor calibration.
    - [BatteryMetrics] (K/drivers/power/supply/battery_metrics.c): the battery events and
      what they log through [Logger].
    - [P922x], [P922xCal] (K/drivers/power/supply/idtp922x_wireless_power.c):
      the wireless charging receiver: transfers in chunks over a bus that may
      fail, measurements, current calibration from the identity data, the
      updates of the OTP (against the promise of the chip's boot loader) and of
      the SRAM, register attributes. [P922xFlow]: its charging flow, every
      handler and delayed work in a state monad over the driver and what it acts
      on. [P922xSession]: a logic of triples over that monad, and what holds of
      the locks, sessions and authentication in every order of events.
      [P922xCharge]: the input current and the works that move it.
      [P922xProbe]: the device tree, the pin states, and what the probe
      acquires, releases on its way out and leaves to the removal, up to the
      flow a probe hands over. [P922xAttr]: the attributes, the calibration by
      hand, and the interrupt lines over suspend and resume.
    - Virtual-sensor thermal management
      ([K/drivers/thermal/virtual_sensor_tablet/]). [VsCooler]: the cooler
      drivers (virtual_sensor_cooler_*.c) and the calls of
      virtual_sensor_interface.c they act through, over an interface to the
      kernel's list_sort ([ListSort]). [VsGov]: the governor
      (virtual_sensor_gov.c) over an interface to cooling devices
      ([CoolingOps], [CoolingLaws]), which the CPU budget coolers implement, so
      that the governor's theorems hold of the budget they set. [VsZone]: the
      thermal zones (virtual_sensor_tablet_thermal.c): the moving averages, the
      rising rate that finds foreign objects on the wireless charger, modes,
      trips, attributes; a critical trip goes through [LifeCycle].
      [VsSensor]: the thermal sensors (virtual_sensor_thermal_sensor.c) and
      their registration with the zones. [VsProbe]: the device tree of coolers
      and zones, the probes and removals, and the thermal core that binds the
      ones to the others (K/drivers/thermal/thermal_core.c), whichever is there
      first. [Sysrst]: the cooler that resets the
      device (K/drivers/thermal/sysrst_cooling.c). [ThermalAdc]: the thermistors
      (K/drivers/thermal/thermal-generic-adc.c) and the PMIC's sensors
      (K/drivers/thermal/mediatek/pmic_temp.c), whose critical trips also go through
      [LifeCycle], as does the wireless receiver's.
    - Neural accelerator (K/drivers/misc/amazon/acenna_kmod.c, in the build
      with plat_acenna.h; the header of the MT8169 build is not in the
      repository). [Acenna]: the file through which clients allocate, map and
      synchronise buffers of DMA memory and reach the registers, over an
      interface to the allocator ([DmaCoherent]), with the page faults of the
      mappings and the interrupt. [AcennaProbe]: device and module life cycle as
      resources held, and the attributes. [Holdings]: resources acquired and
      released.
    - Logs of a crash. [Mdump] (K/drivers/misc/mdump.c): the buffer shared with
      the boot loader, with the mark of why the device goes down and the boot
      loader's messages. [Dstsblt] (K/drivers/misc/dsts/dstsblt.c): regions of
      reserved memory with a log, read through a device until they are locked.

    ** State and operations

    Each C struct is a [Record] with the C field names, each global that a
    driver changes is a field of a record threaded through its operations, each
    function a [Definition] of the same name that returns the new state and the
    result. Undefined behaviour (an access outside of an object, a bad
    [kfree], a division by 0) is [None] (or [Oops] of an [outcome], which also tells a wait for ever, [Blocks]); an error code is the negative number
    the C code returns. Loops are structural: over the list they visit, or over
    a number of rounds the code bounds itself (retries, table sizes, bits of a
    word: [SignOfLife.count_mask_bits] counts at most the 32 bits of its mask);
    the loops over a ring buffer run on the bytes it holds, so no fuel can run
    out, and the theorems state that the operations return.
    Allocation, registration and other answers of the kernel are arguments of
    the operation. Locks are modelled as the atomicity they give; where code
    runs outside of a lock and this matters the halves are separate
    definitions ([LdPort.vbus_read], [LdPort.vbus_report]). Of the wireless
    receiver each handler and each run of a work is one step; its lock is a
    part of the state, so that a handler that keeps it makes the next one wait
    ([Blocks]). The handlers of the cover's sensor and its work are three parts
    each, since their pin is read before what they do with it. Log messages to
    the console are left out.

    ** What the theorems show

    - Refinement: the ring buffer is a queue ([Ringbuf.rb_run_refines]), the
      register store a map ([SignOfLife.store_refines]), a boot reports what the
      last session recorded ([LifeCycle.boot_reports_session]), the state words
      a two-entry history ([DspState.state_history]), a detection run its
      decision table ([Max20342.routine_refines], [Fusb251.fusb251_refines],
      [AmznLd.liquid_refines]), the shared ADC two channels of their own
      ([Pubadc.inputs_separate]), a combination from the device tree fires when
      its keys were held ([AmznKeycombo.dt_combo_fires]), the governor a
      hysteresis staircase ([VsGov.gov_staircase]), the coolers "the strictest
      wins" ([VsCooler.budget_strictest], [VsCooler.charge_current_strictest]),
      a zone on the reset cooler reboots once for every climb over its trip
      ([Sysrst.thermal_reset_exact]), and the coolers of a zone are the ones the
      device tree declares, in whatever order drivers are probed
      ([VsProbe.binding_as_declared]), and the most urgent mark of a session is
      what is left for the boot loader ([Mdump.reason_left_and_shown]).
    - Equivalence with a reference: what a set of keys held means
      ([Keycombo.combo_held_exact]), interpolation on a table
      ([ThermalAdc.adc_interpolates]), debouncing as a count of samples
      ([AmznLd.debounce_exact]), charger-state events as changes
      ([BatteryMetrics.chg_state_reports_changes]), the adaptive current limit
      as the average of six readings ([P922xCharge.adaptive_follows_average]),
      a probe of the accelerator as its first bad answer
      ([AcennaProbe.probe_exact]), its module as calls that balance
      ([AcennaProbe.module_balanced]), the mode of a mapping as a formula of the
      settings ([AcennaProbe.mode_governs_mappings]), the requests that
      synchronise ([Acenna.sync_exact]), and an end that is reported until it is
      cleared ([Acenna.halt_reported]), the set-up of a log region
      ([Dstsblt.init_exact]) and the statistics of its calls
      ([Dstsblt.info_exact]).
    - Across components: a critical trip, a long press and a thermistor's trip
      are what the next boot reports ([VsZone.critical_trip_reported],
      [AmznKeycombo.long_press_reported], [ThermalAdc.last_critical_reported]).
    - Invariants and safety: a zone's temperature stays within the ranges of its
      sensors ([VsZone.zone_temp_bounded]) and a rate is the one of its window
      ([VsZone.rate_window]), all sections are loaded or none
      ([DspLoad.load_all_or_nothing]), a bit flip in the store is detected
      ([SignOfLife.bit_flip_detected]) and bits of other users survive
      ([SignOfLife.foreign_bits_kept]), the port is a limited sink exactly while
      wet, but for one after a reset by hand ([Max20342.protection_follows_switch],
      [Fusb251.fusb251_protection], [AmznLd.liquid_protection]), the generic driver's state stays well typed
      ([AmznLd.liquid_stays_typed]), a firmware reported as loaded is in the
      chip ([P922x.sram_success_means_loaded], [P922x.otp_programs_image]), the
      drains of the battery add up ([BatteryMetrics.drains_telescope]), the
      wireless dock and its thermal zone follow the charging flow and a session
      leaves nothing behind but what is never reset
      ([P922xSession.session_ends]) from the probe on
      ([P922xProbe.probed_flow_safe]); a probe that fails leaves nothing behind
      but in three cases that are stated, or faults on an error pointer
      ([P922xProbe.probe_balanced]); the pin
      states and the interrupt lines follow the driver's state
      ([P922xProbe.pins_follow], [P922xAttr.lines_follow]); the accelerator's
      memory is that of its areas and a closed file gives it back
      ([Acenna.buffers_accounted]), and a fault inside a buffer gets the page of
      the first buffer that carries the mapping's address, its own where no other
      does ([Acenna.fault_serves_own_buffer]); a locked log is gone for
      every client, whatever it does ([Dstsblt.locked_forgets], as
      noninterference); the lid switch is the level of its pin once nothing is
      under way and the last trigger was set for the level the pin had
      ([Hall.lid_follows]).
    - Termination: the calls of a combination come in pairs and its works run
      out ([Keycombo.combo_calls_paired]), the search over the receiver's
      temperature table ends ([P922xCal.ntc_search_ends]), so do the steps up of
      its current and the retries of its voltage switch
      ([P922xCharge.step_charging_ends], [P922xCharge.switch_gives_up]).
    - Round trips: commands, firmware, state writes, log entries (but old ones
      that were overwritten), calibrations and sensor parameters arrive ([Cli.cli_send_words],
      [DspLoad.load_then_check], [AdfDebug.state_node_roundtrip],
      [Logger.log_then_read], [Idme.sensorcal_roundtrip], [Idme.alscal_exact],
      [P922xCal.cal_data_roundtrip], [P922xAttr.forced_calibration_shown],
      [P922xAttr.fod_store_shown], [VsSensor.params_roundtrip]), a boot loader's
      logs are read whole and in order ([Dstsblt.log_read_exact],
      [Mdump.messages_served]), an
      authentication survives a reboot ([P922xSession.auth_survives_reboot]);
      printed numbers scan back ([Printf.scan_d_pct_d]).
    - Bounds: the parsers accept exactly the numbers that fit
      ([Kstrtox.kstrtoull_exact]), records are cut at their buffer
      ([Logger.counter_record_prefix]), a frequency fits its power
      ([VsCooler.freq_fits]), no event takes the wireless 10 W current out of
      its bounds ([P922xCharge.input_current_bounded]), the receiver's voltages
      are exact up to stated readings ([P922xAttr.readings_exact]).
    - Behaviour that is proved and not what the code means to do. Memory: a
      write of exactly the free size drops the whole buffer
      ([Ringbuf.write_exact_overflow_loses_all]), error paths that free a wild
      pointer or miss a test ([DspLoad.error_path_bad_free],
      [AmznLd.missing_pin_state_oops], [P922xCal.register_attributes]), buffers
      that are overrun ([AmznKeycombo.keys_up_overflow],
      [Sysrst.cooler_name_unterminated], [P922xCal.cal_data_roundtrip],
      [P922xAttr.forced_calibration_shown]), a driver that stays bound to what
      its probe freed ([P922xProbe.probe_balanced]), a zone that keeps instances
      of a cooler that was removed ([VsProbe.removal_leaves]), types that overrun
      their array and error pointers that are used ([VsProbe.cooler_type_errors]), sensors used
      after their removal or before their set-up
      ([VsSensor.removed_sensor_faults], [BatteryMetrics.reports_before_init_oops]),
      memory beyond a buffer or of another client's buffer that a mapping of the
      accelerator reaches ([Acenna.fault_beyond_buffer],
      [Acenna.stale_address_serves]), requests outside of its areas and
      registers ([Acenna.ioctl_wild_exact]), blocks it loses
      ([Acenna.alloc_race_leaks]), a region it takes from another driver
      ([AcennaProbe.probe_exact]), a probe that fails with success
      ([Hall.hall_probe_exact]) and an edge of the cover that is lost
      ([Hall.missed_edge]).
      Reports: one shutdown reason is never reported
      ([LifeCycle.power_key_shutdown_lost]), a short read loses an entry
      ([Logger.short_read_loses]), an event that fits on no page disables a log
      ([Logger.extension_disables]), a failed calibration reads as applied
      ([P922xCal.failed_update_reports_success]), a critical battery is never
      reported ([BatteryMetrics.low_battery_masked]), a sixth thermistor reads 0
      ([ThermalAdc.sixth_thermistor_reads_zero]). Protection: built-in
      thresholds that oscillate, a reset that keeps the current limit, a race
      and a failing bus that leave a wet port unprotected
      ([Max20342.default_buffer_oscillates], [Max20342.reset_keeps_limit],
      [Max20342.vbus_race_unprotected], [Fusb251.bus_failure_reads_dry]), a
      multiplexer that was not switched ([Pubadc.stale_selection_misreads]),
      coolers stuck below 0 degrees, released by another zone or dragged by a
      neighbour ([VsGov.cold_never_unthrottles],
      [VsGov.other_zone_unthrottles], [VsGov.hysteresis_leaks]), a tiny budget
      that lifts the limit and an attribute off by one
      ([VsCooler.tiny_budget_lifts], [VsCooler.levels_store_off_by_one]), a zone
      that is not polled again after it was disabled
      ([VsZone.disabled_zone_never_polled]) and locks that a failed allocation
      or an early return never releases ([VsZone.window_failure_deadlocks],
      [P922xSession.lock_leak]).

    Each property with hypotheses is applied to a concrete input by the lemma
    of its name with [_witness].

    ** What is not modelled, and why

    The upstream kernel, vendor drivers, boot loader and third-party packages
    are not Amazon's logic, except where Amazon's code relies on a function
    whose text decides what it does (parsers, device tree, work queues, binding,
    the trace ring buffer).
    In [VsProbe] the allocations of the core and the files it makes are granted,
    and the unregistration of a zone, whose driver frees managed memory by hand
    right after, ends the run. In [Acenna] the pages of a mapping without the
    fault handler are the DMA layer's, and the callbacks of power management,
    which do nothing in this build, have no definition. [Mdump] leaves out
    compressed dumps and [Dstsblt] mapping and debugging, which the configuration
    does not build; what the boot loader makes of [Mdump]'s buffer is not assumed. What is left of Amazon's own drivers has nothing to prove:
    metricslog.c is a setter and a getter of one pointer, the copies of drivers
    below src/platform/device/amazon are earlier versions of the ones modelled
    here, and the hooks in upstream files (input, suspend, mmc) count events and format a
    metric for [Logger]. So have poll and release operations that do nothing.
    The hardware behind the drivers (the DSP, the
    PMIC, the charger, cpufreq) is what is written to it and what it answers.
    The configuration is the one of raspite_defconfig (metrics, sign of life
    and foreign object detection enabled, one CPU cluster). *)

From Stdlib Require Import ZArith Lia.
From stdpp Require Import base tactics numbers list gmap strings option.

#[global] Open Scope Z_scope.

(** ** Machine integers

    An [n]-bit C integer is a [Z]; [uN]/[sN] are the wrap-around performed by
    a conversion to the unsigned/signed type (the kernel is built with
    [-fno-strict-overflow], so signed arithmetic wraps too). *)

Definition wrapU (w z : Z) : Z := z mod 2 ^ w.
Definition wrapS (w z : Z) : Z := (z + 2 ^ (w - 1)) mod 2 ^ w - 2 ^ (w - 1).

Abbreviation u8 := (wrapU 8).
Abbreviation u16 := (wrapU 16).
Abbreviation u32 := (wrapU 32).
Abbreviation u64 := (wrapU 64).
Abbreviation s8 := (wrapS 8).
Abbreviation s16 := (wrapS 16).
Abbreviation s32 := (wrapS 32).
Abbreviation s64 := (wrapS 64).

(** ** Kernel error numbers (returned negated) *)

Definition EPERM := 1.
Definition EINTR := 4.
Definition EAGAIN := 11.
Definition ENOMEM := 12.
Definition EFAULT := 14.
Definition EEXIST := 17.
Definition ENODEV := 19.
Definition EINVAL := 22.
Definition EPROBE_DEFER := 517.

(** ** Outcomes of calls that may hang or fault *)

(** What a call comes to: a value, a wait on a lock nobody releases, or a
    fault of the kernel (a division by 0, a bad address). *)
Inductive outcome (A : Type) :=
| Ret (a : A)
| Blocks
| Oops.
Arguments Ret {A} a.
Arguments Blocks {A}.
Arguments Oops {A}.

#[global] Instance outcome_bind : MBind outcome :=
  fun A B k m => match m with Ret a => k a | Blocks => Blocks | Oops => Oops end.

Definition or_oops {A} (o : option A) : outcome A := match o with Some a => Ret a | None => Oops end.

(** ** Bit fields of device registers *)

(** [(v & mask) >> shift] *)
Definition field_get (mask shift v : Z) : Z := Z.shiftr (Z.land v mask) shift.
(** [(v & ~mask) | ((x << shift) & mask)] *)
Definition field_set (mask shift v x : Z) : Z :=
  Z.lor (Z.land v (Z.lnot mask)) (Z.land (Z.shiftl x shift) mask).
(** The mask of [width] bits at [shift]. *)
Definition mask_of (width shift : Z) : Z := Z.shiftl (Z.ones width) shift.

(** ** Byte buffers

    A C buffer is the list of its bytes; a copy that would touch a byte
    outside of it, or whose length is negative (a huge [size_t]), is the
    undefined behaviour [None]. *)

Definition byte_at (l : list Z) (i : Z) : Z := l !!! Z.to_nat i.

(** The [n] bytes of [src] from offset [off] on, as a [memcpy] reads them. *)
Definition mem_get (src : list Z) (off n : Z) : option (list Z) :=
  if (0 <=? off) && (0 <=? n) && (off + n <=? Z.of_nat (length src))
  then Some (take (Z.to_nat n) (drop (Z.to_nat off) src))
  else None.

(** [dst] after a [memcpy] of the bytes [d] to its offset [off]. *)
Definition mem_put (dst : list Z) (off : Z) (d : list Z) : option (list Z) :=
  if (0 <=? off) && (off + Z.of_nat (length d) <=? Z.of_nat (length dst))
  then Some (take (Z.to_nat off) dst ++ d ++ drop (Z.to_nat off + length d) dst)
  else None.

(** Little-endian words of [n] bytes. *)
Fixpoint le_dec (l : list Z) : Z :=
  match l with
  | [] => 0
  | b :: l => b + 256 * le_dec l
  end.
Fixpoint le_enc (n : nat) (v : Z) : list Z :=
  match n with
  | O => []
  | S n => v mod 256 :: le_enc n (v / 256)
  end.

(** The 32-bit word of a buffer at a byte offset, and its update. *)
Definition get32 (buf : list Z) (off : Z) : option Z :=
  d ← mem_get buf off 4; Some (le_dec d).
Definition put32 (buf : list Z) (off v : Z) : option (list Z) := mem_put buf off (le_enc 4 v).

(** ** Lemmas on machine integers *)

Lemma wrapU_range w z : 0 <= w -> 0 <= wrapU w z < 2 ^ w.
Proof. intros; apply Z.mod_pos_bound, Z.pow_pos_nonneg; lia. Qed.

Lemma wrapU_id w z : 0 <= z < 2 ^ w -> wrapU w z = z.
Proof. apply Z.mod_small. Qed.

Lemma wrapS_id w z : 0 < w -> - 2 ^ (w - 1) <= z < 2 ^ (w - 1) -> wrapS w z = z.
Proof.
  intros Hw Hz; unfold wrapS.
  assert (H2 : 2 ^ w = 2 * 2 ^ (w - 1)).
  { replace w with (Z.succ (w - 1)) at 1 by lia. apply Z.pow_succ_r; lia. }
  rewrite Z.mod_small; lia.
Qed.

Lemma wrapS_range w z : 0 < w -> - 2 ^ (w - 1) <= wrapS w z < 2 ^ (w - 1).
Proof.
  intros Hw; unfold wrapS.
  assert (H2 : 2 ^ w = 2 * 2 ^ (w - 1)).
  { replace w with (Z.succ (w - 1)) at 1 by lia. apply Z.pow_succ_r; lia. }
  pose proof (Z.mod_pos_bound (z + 2 ^ (w - 1)) (2 ^ w)); lia.
Qed.

(** Narrowing to a signed type forgets a wider unsigned wrap. *)
Lemma wrapS_wrapU w v z : 0 < w <= v -> wrapS w (wrapU v z) = wrapS w z.
Proof.
  intros Hw. unfold wrapS, wrapU. f_equal.
  rewrite <- (Z.add_mod_idemp_l (z mod 2 ^ v)) by lia.
  rewrite Z.mod_mod_divide.
  - by rewrite Z.add_mod_idemp_l by lia.
  - exists (2 ^ (v - w)). rewrite <- Z.pow_add_r by lia. f_equal; lia.
Qed.

Lemma s32_id z : -2147483648 <= z < 2147483648 -> s32 z = z.
Proof. intros; apply wrapS_id; lia. Qed.

Lemma s64_id z : - 2 ^ 63 <= z < 2 ^ 63 -> s64 z = z.
Proof. intros. apply wrapS_id; lia. Qed.

Lemma u16_id z : 0 <= z < 65536 -> u16 z = z.
Proof. intros; apply wrapU_id; lia. Qed.

Lemma u32_id z : 0 <= z < 4294967296 -> u32 z = z.
Proof. intros; apply wrapU_id; lia. Qed.

Lemma u8_id z : 0 <= z < 256 -> u8 z = z.
Proof. intros; apply wrapU_id; lia. Qed.

(** A 32-bit word read as signed and stored back. *)
Lemma u32_s32 w : 0 <= w < 4294967296 -> u32 (s32 w) = w.
Proof.
  intros Hw. unfold wrapS, wrapU. change (2 ^ (32 - 1)) with 2147483648.
  change (2 ^ 32) with 4294967296. rewrite Zminus_mod_idemp_l.
  replace (w + 2147483648 - 2147483648) with w by lia. by apply Z.mod_small.
Qed.

(** Erase every wrap-around whose argument [lia] can bound. *)
Ltac unwrap :=
  repeat first
    [ rewrite s32_id by lia | rewrite u16_id by lia
    | rewrite u32_id by lia | rewrite u8_id by lia ].

(** Case analysis on the boolean integer comparisons of a model. *)
Ltac zcases :=
  repeat match goal with
  | |- context [ ?a <? ?b ] => destruct (Z.ltb_spec a b)
  | |- context [ ?a <=? ?b ] => destruct (Z.leb_spec a b)
  | |- context [ ?a =? ?b ] => destruct (Z.eqb_spec a b)
  end.

Ltac zcases_in H :=
  repeat match type of H with
  | context [ ?a <? ?b ] => destruct (Z.ltb_spec a b)
  | context [ ?a <=? ?b ] => destruct (Z.leb_spec a b)
  | context [ ?a =? ?b ] => destruct (Z.eqb_spec a b)
  end.

(** ** Lemmas on bit fields *)

Create Rewrite HintDb bits.
#[export] Hint Rewrite Z.lor_spec Z.land_spec Z.lxor_spec Z.bits_0 : bits.
#[export] Hint Rewrite Z.shiftr_spec Z.lnot_spec using lia : bits.

(** Equality of integers by their bits, deciding the boolean structure. *)
Ltac bits_by i :=
  apply Z.bits_inj'; intros i ?; autorewrite with bits.
Ltac bool_cases :=
  repeat match goal with |- context [ Z.testbit ?v ?i ] => destruct (Z.testbit v i) end;
  reflexivity || (try discriminate).

Lemma mask_of_spec width shift i :
  0 <= width -> 0 <= shift -> 0 <= i ->
  Z.testbit (mask_of width shift) i = (shift <=? i) && (i <? shift + width).
Proof.
  intros; unfold mask_of. rewrite Z.shiftl_spec by lia.
  destruct (Z.leb_spec shift i); cbn [andb].
  - rewrite Z.testbit_ones_nonneg by lia.
    destruct (Z.ltb_spec (i - shift) width), (Z.ltb_spec i (shift + width)); lia.
  - apply Z.testbit_neg_r; lia.
Qed.

Lemma field_get_set width shift v x :
  0 <= width -> 0 <= shift ->
  field_get (mask_of width shift) shift (field_set (mask_of width shift) shift v x)
  = x mod 2 ^ width.
Proof.
  intros; rewrite <- Z.land_ones by lia. unfold field_get, field_set.
  bits_by i. rewrite Z.shiftl_spec, mask_of_spec, Z.testbit_ones_nonneg by lia.
  replace (i + shift - shift) with i by lia.
  destruct (Z.leb_spec shift (i + shift)), (Z.ltb_spec (i + shift) (shift + width)),
    (Z.ltb_spec i width); try lia; cbn; bool_cases.
Qed.

Lemma field_get_set_disjoint m1 s1 m2 s2 v x :
  0 <= s1 -> Z.land m1 m2 = 0 ->
  field_get m1 s1 (field_set m2 s2 v x) = field_get m1 s1 v.
Proof.
  intros Hs Hd; unfold field_get, field_set. bits_by i.
  assert (Hi : Z.testbit m1 (i + s1) && Z.testbit m2 (i + s1) = false)
    by (rewrite <- Z.land_spec, Hd; apply Z.bits_0).
  generalize (Z.testbit (Z.shiftl x s2) (i + s1)); intros b.
  destruct (Z.testbit v (i + s1)), (Z.testbit m1 (i + s1)), (Z.testbit m2 (i + s1)), b;
    try reflexivity; discriminate.
Qed.

(** Bits outside the mask survive an update of the field. *)
Lemma field_set_outside mask shift v x i :
  0 <= i -> Z.testbit mask i = false ->
  Z.testbit (field_set mask shift v x) i = Z.testbit v i.
Proof.
  intros Hi Hm; unfold field_set. autorewrite with bits. rewrite Hm.
  rewrite Bool.andb_false_r, Bool.orb_false_r. apply Bool.andb_true_r.
Qed.

Lemma Z_bounded_bits n v :
  0 <= n -> 0 <= v -> (forall i, n <= i -> Z.testbit v i = false) -> v < 2 ^ n.
Proof.
  intros Hn Hv Hb. destruct (Z.eq_dec v 0) as [->|Hnz]; [apply Z.pow_pos_nonneg; lia|].
  apply Z.log2_lt_pow2; [lia|].
  destruct (Z.lt_ge_cases (Z.log2 v) n) as [|Hge]; [done|].
  specialize (Hb _ Hge). rewrite Z.bit_log2 in Hb by lia. done.
Qed.

Lemma testbit_above n v i : 0 <= v < 2 ^ n -> n <= i -> Z.testbit v i = false.
Proof.
  intros [Hv Hn] Hi. destruct (Z.eq_dec v 0) as [->|]; [apply Z.bits_0|].
  apply Z.bits_above_log2; [lia|].
  apply Z.lt_le_trans with n; [apply Z.log2_lt_pow2; lia | lia].
Qed.

Lemma field_set_range n mask shift v x :
  0 <= n -> 0 <= v < 2 ^ n -> 0 <= mask < 2 ^ n ->
  0 <= field_set mask shift v x < 2 ^ n.
Proof.
  intros Hn Hv Hm.
  assert (Hpos : 0 <= field_set mask shift v x).
  { unfold field_set. apply Z.lor_nonneg; split; apply Z.land_nonneg; [left|right]; lia. }
  split; [done|]. apply Z_bounded_bits; [done|done|]. intros i Hi.
  unfold field_set. rewrite Z.lor_spec, !Z.land_spec.
  rewrite (testbit_above n v i), (testbit_above n mask i) by lia.
  cbn. apply Bool.andb_false_r.
Qed.

Lemma field_get_range n mask shift v :
  0 <= n -> 0 <= shift -> 0 <= mask -> Z.shiftr mask shift < 2 ^ n ->
  0 <= field_get mask shift v < 2 ^ n.
Proof.
  intros Hn Hs Hm Hb. unfold field_get.
  assert (Hpos : 0 <= Z.shiftr (Z.land v mask) shift)
    by (apply Z.shiftr_nonneg, Z.land_nonneg; lia).
  split; [done|]. apply Z_bounded_bits; [done|done|]. intros i Hi.
  rewrite Z.shiftr_spec, Z.land_spec, <- (Z.shiftr_spec mask) by lia.
  rewrite (testbit_above n (Z.shiftr mask shift)).
  - apply Bool.andb_false_r.
  - split; [by apply Z.shiftr_nonneg | done].
  - done.
Qed.

(** A word put together from a high part and [n] low bits. *)
Lemma lor_shiftl n h l : 0 <= n -> 0 <= l < 2 ^ n -> Z.lor (Z.shiftl h n) l = h * 2 ^ n + l.
Proof.
  intros Hn Hl. assert (Hd : Z.land (Z.shiftl h n) l = 0).
  { apply Z.bits_inj'. intros i Hi. rewrite Z.land_spec, Z.bits_0. destruct (Z.ltb_spec i n).
    - by rewrite Z.shiftl_spec_low.
    - rewrite (testbit_above n l i) by lia. apply Bool.andb_false_r. }
  by rewrite <- Z.lxor_lor, <- Z.add_nocarry_lxor, Z.shiftl_mul_pow2 by done.
Qed.

(** ** Lemmas on byte buffers *)

Lemma mem_get_Some src off n d :
  mem_get src off n = Some d ->
  0 <= off /\ 0 <= n /\ off + n <= Z.of_nat (length src) /\ length d = Z.to_nat n /\
  forall i, 0 <= i < n -> byte_at d i = byte_at src (off + i).
Proof.
  unfold mem_get. destruct (Z.leb_spec 0 off), (Z.leb_spec 0 n),
    (Z.leb_spec (off + n) (Z.of_nat (length src))); cbn; try discriminate.
  intros [= <-]. repeat split; try lia.
  - rewrite length_take, length_drop; lia.
  - intros i Hi. unfold byte_at. rewrite !list_lookup_total_alt.
    rewrite lookup_take_lt by lia. rewrite lookup_drop. do 2 f_equal; lia.
Qed.

Lemma mem_get_is_Some src off n :
  0 <= off -> 0 <= n -> off + n <= Z.of_nat (length src) -> is_Some (mem_get src off n).
Proof. intros; unfold mem_get; zcases; cbn; eauto; lia. Qed.

Lemma mem_put_Some dst off d dst' :
  mem_put dst off d = Some dst' ->
  0 <= off /\ off + Z.of_nat (length d) <= Z.of_nat (length dst) /\
  length dst' = length dst /\
  forall i, 0 <= i ->
    byte_at dst' i =
    if (off <=? i) && (i <? off + Z.of_nat (length d)) then byte_at d (i - off)
    else byte_at dst i.
Proof.
  unfold mem_put. destruct (Z.leb_spec 0 off),
    (Z.leb_spec (off + Z.of_nat (length d)) (Z.of_nat (length dst))); cbn; try discriminate.
  intros [= <-]. repeat split; try lia.
  - rewrite !length_app, length_take, length_drop; lia.
  - intros i Hi. unfold byte_at. rewrite !list_lookup_total_alt.
    destruct (Z.leb_spec off i); cbn.
    + rewrite lookup_app_r by (rewrite length_take; lia). rewrite length_take.
      destruct (Z.ltb_spec i (off + Z.of_nat (length d))).
      * rewrite lookup_app_l by lia. do 2 f_equal; lia.
      * rewrite lookup_app_r by lia. rewrite lookup_drop. do 2 f_equal; lia.
    + rewrite lookup_app_l by (rewrite length_take; lia).
      rewrite lookup_take_lt by lia. done.
Qed.

Lemma mem_put_is_Some dst off d :
  0 <= off -> off + Z.of_nat (length d) <= Z.of_nat (length dst) -> is_Some (mem_put dst off d).
Proof. intros; unfold mem_put; zcases; cbn; eauto; lia. Qed.

(** Two byte lists are equal when they have the same length and bytes. *)
Lemma bytes_eq (l k : list Z) :
  length l = length k ->
  (forall i, 0 <= i < Z.of_nat (length l) -> byte_at l i = byte_at k i) -> l = k.
Proof.
  intros Hlen Hb. apply list_eq_same_length with (length l); [done|done|].
  intros i x y Hi Hx Hy. specialize (Hb (Z.of_nat i)).
  unfold byte_at in Hb. rewrite Nat2Z.id, !list_lookup_total_alt, Hx, Hy in Hb.
  cbn in Hb. apply Hb; lia.
Qed.

Lemma length_le_enc n v : length (le_enc n v) = n.
Proof. revert v; induction n as [|n IH]; intros v; [done|]. cbn. by rewrite IH. Qed.

Lemma le_dec_enc n v : 0 <= v < 256 ^ Z.of_nat n -> le_dec (le_enc n v) = v.
Proof.
  revert v; induction n as [|n IH]; intros v Hv; cbn [le_enc le_dec]; [cbn in Hv; lia|].
  rewrite Nat2Z.inj_succ, Z.pow_succ_r in Hv by lia.
  rewrite IH.
  - pose proof (Z.div_mod v 256 ltac:(lia)). lia.
  - split; [apply Z.div_pos; lia | apply Z.div_lt_upper_bound; lia].
Qed.

(** Reading back what [mem_put] wrote, and what it did not write. *)
Lemma mem_get_put_eq dst off d dst' :
  mem_put dst off d = Some dst' -> mem_get dst' off (Z.of_nat (length d)) = Some d.
Proof.
  intros Hp. apply mem_put_Some in Hp as (Ho & Hl & Hlen & Hb).
  destruct (mem_get_is_Some dst' off (Z.of_nat (length d))) as [d' Hd]; [lia..|].
  rewrite Hd. f_equal. apply mem_get_Some in Hd as (_ & _ & _ & Hl' & Hb').
  apply bytes_eq; [lia|]. intros i Hi. rewrite Hb' by lia. rewrite Hb by lia.
  destruct (Z.leb_spec off (off + i)), (Z.ltb_spec (off + i) (off + Z.of_nat (length d)));
    cbn; try lia. f_equal; lia.
Qed.

Lemma mem_get_put_ne dst off d dst' a n :
  mem_put dst off d = Some dst' ->
  a + n <= off \/ off + Z.of_nat (length d) <= a ->
  mem_get dst' a n = mem_get dst a n.
Proof.
  intros Hp Hd. apply mem_put_Some in Hp as (Ho & Hl & Hlen & Hb).
  destruct (mem_get dst' a n) as [x|] eqn:Hx, (mem_get dst a n) as [y|] eqn:Hy; try done.
  - f_equal. apply mem_get_Some in Hx as (? & ? & ? & Hlx & Hbx).
    apply mem_get_Some in Hy as (? & ? & ? & Hly & Hby).
    apply bytes_eq; [lia|]. intros i Hi. rewrite Hbx, Hby, Hb by lia.
    destruct (Z.leb_spec off (a + i)), (Z.ltb_spec (a + i) (off + Z.of_nat (length d))); cbn; lia || done.
  - apply mem_get_Some in Hx as (? & ? & ? & _). destruct (mem_get_is_Some dst a n); [lia..|congruence].
  - apply mem_get_Some in Hy as (? & ? & ? & _). destruct (mem_get_is_Some dst' a n); [lia..|congruence].
Qed.

Lemma get32_put32_eq buf off v buf' :
  put32 buf off v = Some buf' -> 0 <= v < 4294967296 -> get32 buf' off = Some v.
Proof.
  unfold put32, get32. intros Hp Hv. pose proof (mem_get_put_eq _ _ _ _ Hp) as Hg.
  rewrite length_le_enc in Hg. change (Z.of_nat 4) with 4 in Hg. rewrite Hg.
  cbn [mbind option_bind]. by rewrite le_dec_enc by (change (256 ^ Z.of_nat 4) with 4294967296; lia).
Qed.

Lemma get32_put32_ne buf off v buf' a :
  put32 buf off v = Some buf' -> a + 4 <= off \/ off + 4 <= a -> get32 buf' a = get32 buf a.
Proof.
  unfold put32, get32. intros Hp Hd. erewrite mem_get_put_ne; [done | done |].
  rewrite length_le_enc. lia.
Qed.

Lemma put32_is_Some buf off v :
  0 <= off -> off + 4 <= Z.of_nat (length buf) -> is_Some (put32 buf off v).
Proof. intros. apply mem_put_is_Some; [done|]. by rewrite length_le_enc. Qed.

Lemma length_put32 buf off v buf' : put32 buf off v = Some buf' -> length buf' = length buf.
Proof. intros Hp. by apply mem_put_Some in Hp as (_ & _ & -> & _). Qed.

(** ** Lemmas on lists *)

Lemma list_filter_all {A} (P : A -> Prop) `{!forall x, Decision (P x)} (l : list A) :
  Forall P l -> filter P l = l.
Proof. induction 1 as [|x l Hx _ IH]; [done|]. by rewrite filter_cons_True, IH. Qed.

Lemma list_filter_none {A} (P : A -> Prop) `{!forall x, Decision (P x)} (l : list A) :
  Forall (fun x => ~ P x) l -> filter P l = [].
Proof. induction 1 as [|x l Hx _ IH]; [done|]. by rewrite filter_cons_False. Qed.
