(* ===== verification/Kstrtox.v ===== *)
(** * Integer parsing of the kernel (lib/kstrtox.c)

    The functions the drivers' sysfs and debugfs handlers parse their input
    with. A C string is the list of its characters before the NUL; a parse is
    [inl value] or [inr error]. *)

From stdpp Require Import base tactics numbers list option.
From S2P Require Import Prelude.

Definition ERANGE : Z := 34.

(** ** The code *)

Definition char_at (s : list Z) (i : nat) : Z := default 0 (s !! i).

(** [_tolower]: c | 0x20. *)
Definition _tolower (c : Z) : Z := Z.lor c 32.

Definition isxdigit (c : Z) : bool :=
  ((48 <=? c) && (c <=? 57)) || ((97 <=? _tolower c) && (_tolower c <=? 102)).

Definition _parse_integer_fixup_radix (s : list Z) (base : Z) : list Z * Z :=
  let base :=
    if base =? 0 then
      if char_at s 0 =? 48 then
        if (_tolower (char_at s 1) =? 120) && isxdigit (char_at s 2) then 16 else 8
      else 10
    else base in
  if (base =? 16) && (char_at s 0 =? 48) && (_tolower (char_at s 1) =? 120)
  then (drop 2 s, base) else (s, base).

(** [val], or -1 where the loop breaks. *)
Definition digit_value (c : Z) : Z :=
  let lc := Z.lor c 32 in
  if (48 <=? c) && (c <=? 57) then c - 48
  else if (97 <=? lc) && (lc <=? 102) then lc - 97 + 10
  else -1.

Definition ULLONG_MAX : Z := 18446744073709551615.

(** The loop of [_parse_integer]: the value, the number of characters and the
    overflow bit. [res & (~0ull << 60)] is [res >= 2^60]. *)
Fixpoint _parse_integer (s : list Z) (base res : Z) (rv : nat) (overflow : bool)
  : Z * nat * bool :=
  match s with
  | [] => (res, rv, overflow)
  | c :: s =>
    let val := digit_value c in
    if (val <? 0) || (base <=? val) then (res, rv, overflow) else
    let overflow :=
      if negb (Z.land res (u64 (Z.shiftl ULLONG_MAX 60)) =? 0)
      then overflow || (u64 (ULLONG_MAX - val) / base <? res) else overflow in
    _parse_integer s base (u64 (res * base + val)) (S rv) overflow
  end.

Definition _kstrtoull (s : list Z) (base : Z) : Z + Z :=
  let '(s, base) := _parse_integer_fixup_radix s base in
  let '(res, rv, overflow) := _parse_integer s base 0 0 false in
  if overflow then inr (- ERANGE)
  else if (rv =? 0)%nat then inr (- EINVAL)
  else
    let s := drop rv s in
    let s := if char_at s 0 =? 10 then drop 1 s else s in
    if negb (char_at s 0 =? 0) then inr (- EINVAL) else inl res.

Definition kstrtoull (s : list Z) (base : Z) : Z + Z :=
  _kstrtoull (if char_at s 0 =? 43 then drop 1 s else s) base.

Definition kstrtoll (s : list Z) (base : Z) : Z + Z :=
  if char_at s 0 =? 45 then
    match _kstrtoull (drop 1 s) base with
    | inr e => inr e
    | inl tmp => if 0 <? s64 (u64 (- tmp)) then inr (- ERANGE) else inl (s64 (u64 (- tmp)))
    end
  else
    match kstrtoull s base with
    | inr e => inr e
    | inl tmp => if s64 tmp <? 0 then inr (- ERANGE) else inl (s64 tmp)
    end.

(** The narrowing wrappers: the value must survive the conversion. *)
Definition narrow (conv : Z -> Z) (r : Z + Z) : Z + Z :=
  match r with
  | inr e => inr e
  | inl tmp => if negb (tmp =? conv tmp) then inr (- ERANGE) else inl (conv tmp)
  end.

Definition _kstrtoul (s : list Z) (base : Z) : Z + Z := narrow u64 (kstrtoull s base).
Definition _kstrtol (s : list Z) (base : Z) : Z + Z := narrow s64 (kstrtoll s base).
Definition kstrtouint (s : list Z) (base : Z) : Z + Z := narrow u32 (kstrtoull s base).
Definition kstrtoint (s : list Z) (base : Z) : Z + Z := narrow s32 (kstrtoll s base).
Definition kstrtou16 (s : list Z) (base : Z) : Z + Z := narrow u16 (kstrtoull s base).
Definition kstrtos16 (s : list Z) (base : Z) : Z + Z := narrow s16 (kstrtoll s base).
Definition kstrtou8 (s : list Z) (base : Z) : Z + Z := narrow u8 (kstrtoull s base).
Definition kstrtos8 (s : list Z) (base : Z) : Z + Z := narrow s8 (kstrtoll s base).

(** ** Specification *)

(** The value of a digit string, without any bound. *)
Definition numeral (base : Z) (ds : list Z) : Z :=
  foldl (fun acc c => acc * base + digit_value c) 0 ds.

Definition is_digit (base c : Z) : Prop := 0 <= digit_value c < base.

(** Digits of a base from 2 to 16, at least one, not the prefix of base 16. *)
Definition digits (base : Z) (ds : list Z) : Prop :=
  2 <= base <= 16 /\ ds <> [] /\ Forall (is_digit base) ds.

(** What may follow a number: nothing or one newline. *)
Definition line_end (l : list Z) : Prop := l = [] \/ l = [10].

#[global] Arguments _kstrtoull : simpl never.

(** ** Theorems *)

Lemma overflow_mask res : 0 <= res < 2 ^ 64 ->
  (Z.land res (u64 (Z.shiftl ULLONG_MAX 60)) =? 0) = (res <? 2 ^ 60).
Proof.
  intros Hr. change (u64 (Z.shiftl ULLONG_MAX 60)) with (Z.shiftl (Z.ones 4) 60).
  assert (Hl : Z.land res (Z.shiftl (Z.ones 4) 60) = Z.shiftl (Z.land (Z.shiftr res 60) (Z.ones 4)) 60).
  { apply Z.bits_inj'; intros i Hi. rewrite Z.land_spec, !Z.shiftl_spec, Z.land_spec by lia.
    destruct (Z.lt_ge_cases i 60) as [Hlt|Hge].
    - by rewrite !(Z.testbit_neg_r _ (i - 60)), andb_false_r by lia.
    - rewrite Z.shiftr_spec by lia. do 2 f_equal; lia. }
  rewrite Hl, Z.land_ones, Z.shiftr_div_pow2, Z.shiftl_mul_pow2 by lia.
  assert (0 <= res / 2 ^ 60 < 2 ^ 4)
    by (split; [apply Z.div_pos; lia | apply Z.div_lt_upper_bound; lia]).
  rewrite Z.mod_small by lia.
  pose proof (Z.div_mod res (2 ^ 60) ltac:(lia)). pose proof (Z.mod_pos_bound res (2 ^ 60) ltac:(lia)).
  destruct (Z.ltb_spec res (2 ^ 60)), (Z.eqb_spec (res / 2 ^ 60 * 2 ^ 60) 0); try lia; nia.
Qed.

(** One step of the loop computes with overflow exactly when the value does. *)
Lemma step_overflow base res val :
  2 <= base <= 16 -> 0 <= val < base -> 0 <= res < 2 ^ 64 ->
  (if negb (Z.land res (u64 (Z.shiftl ULLONG_MAX 60)) =? 0)
   then (u64 (ULLONG_MAX - val) / base <? res) else false)
  = (2 ^ 64 <=? res * base + val).
Proof.
  intros Hb Hv Hr. rewrite overflow_mask by done.
  rewrite (wrapU_id 64) by (unfold ULLONG_MAX; lia).
  destruct (Z.ltb_spec res (2 ^ 60)); cbn [negb].
  - symmetry. apply Z.leb_gt. nia.
  - pose proof (Z.div_mod (ULLONG_MAX - val) base ltac:(lia)).
    pose proof (Z.mod_pos_bound (ULLONG_MAX - val) base ltac:(lia)).
    unfold ULLONG_MAX in *.
    destruct (Z.ltb_spec ((18446744073709551615 - val) / base) res),
      (Z.leb_spec (2 ^ 64) (res * base + val)); try done; nia.
Qed.

Definition numeral_from (base acc : Z) (ds : list Z) : Z :=
  foldl (fun acc c => acc * base + digit_value c) acc ds.

Lemma numeral_from_ge base acc ds :
  2 <= base -> 0 <= acc -> Forall (is_digit base) ds -> acc <= numeral_from base acc ds.
Proof.
  intros Hb Ha Hd. revert acc Ha. induction Hd as [|c ds Hc _ IH]; intros acc Ha; [cbn; lia|].
  unfold numeral_from in *. cbn [foldl]. unfold is_digit in Hc.
  etransitivity; [|apply IH]; nia.
Qed.

(** The loop over digits that are followed by no digit. *)
Lemma parse_digits base ds tl : forall res rv ovf acc,
  2 <= base <= 16 -> Forall (is_digit base) ds ->
  match tl with [] => True | c :: _ => digit_value c < 0 end ->
  0 <= acc -> (ovf = false -> res = acc /\ acc < 2 ^ 64) -> (ovf = true -> 2 ^ 64 <= acc) ->
  0 <= res < 2 ^ 64 ->
  exists res', _parse_integer (ds ++ tl) base res rv ovf =
    (res', (rv + length ds)%nat, 2 ^ 64 <=? numeral_from base acc ds) /\
    (numeral_from base acc ds < 2 ^ 64 -> res' = numeral_from base acc ds).
Proof.
  induction ds as [|c ds IH]; intros res rv ovf acc Hb Hd Htl Ha Hf Ht Hr.
  - exists res. cbn [app length numeral_from foldl]. rewrite Nat.add_0_r. split.
    + replace (2 ^ 64 <=? acc) with ovf.
      * destruct tl as [|c tl]; [done|]. cbn [_parse_integer].
        destruct (Z.ltb_spec (digit_value c) 0); [done|lia].
      * destruct ovf; [specialize (Ht eq_refl)|destruct (Hf eq_refl)]; symmetry;
          [apply Z.leb_le | apply Z.leb_gt]; lia.
    + intros Hlt. destruct ovf; [specialize (Ht eq_refl); lia | by destruct (Hf eq_refl)].
  - apply Forall_cons_1 in Hd as [Hc Hd]. unfold is_digit in Hc. cbn [app _parse_integer].
    destruct (Z.ltb_spec (digit_value c) 0), (Z.leb_spec base (digit_value c)); try lia. cbn [orb].
    set (o := if negb _ then _ else _).
    assert (Ho : o = ovf || (2 ^ 64 <=? res * base + digit_value c)).
    { rewrite <- (step_overflow base res (digit_value c)) by lia. subst o.
      destruct (negb _); [done|]. by rewrite orb_false_r. }
    destruct (IH (u64 (res * base + digit_value c)) (S rv) o (acc * base + digit_value c))
      as (res' & Hp & Hv); [done | done | done | nia | | | apply wrapU_range; lia |].
    + rewrite Ho. intros E. apply orb_false_iff in E as [E1 E2]. destruct (Hf E1) as [-> Hlt].
      apply Z.leb_gt in E2. split; [apply wrapU_id; nia | lia].
    + rewrite Ho. destruct ovf; cbn [orb]; [intros _; specialize (Ht eq_refl); nia|].
      destruct (Hf eq_refl) as [-> _]. intros E. by apply Z.leb_le in E.
    + exists res'. rewrite Hp. cbn [length]. rewrite <- Nat.add_succ_comm. by split.
Qed.

Lemma digit_not_sign c base : is_digit base c -> c <> 43 /\ c <> 45 /\ c <> 10.
Proof. unfold is_digit. intros [Hd _]. split_and!; intros ->; by apply Hd. Qed.

Lemma digit_nonzero c base : is_digit base c -> c <> 0.
Proof. unfold is_digit. intros [Hd _] ->. by apply Hd. Qed.

(** A digit string that does not start with the base-16 prefix. *)
Definition no_prefix (base : Z) (ds : list Z) : Prop :=
  base = 16 -> char_at ds 0 = 48 -> _tolower (char_at ds 1) <> 120.

Lemma kstrtoull_digits base ds tl :
  digits base ds -> line_end tl -> no_prefix base (ds ++ tl) ->
  _kstrtoull (ds ++ tl) base =
    if numeral base ds <? 2 ^ 64 then inl (numeral base ds) else inr (- ERANGE).
Proof.
  intros (Hb & Hne & Hd) Htl Hnp. unfold _kstrtoull, _parse_integer_fixup_radix.
  destruct (Z.eqb_spec base 0); [lia|].
  replace ((base =? 16) && (char_at (ds ++ tl) 0 =? 48) && (_tolower (char_at (ds ++ tl) 1) =? 120))
    with false.
  2: { symmetry. unfold no_prefix in Hnp.
       destruct (Z.eqb_spec base 16), (Z.eqb_spec (char_at (ds ++ tl) 0) 48),
         (Z.eqb_spec (_tolower (char_at (ds ++ tl) 1)) 120); try done. by destruct Hnp. }
  destruct (parse_digits base ds tl 0 0 false 0) as (res & Hp & Hv);
    [lia | done | by destruct Htl as [-> | ->] | lia | lia | done | lia |].
  rewrite Hp. fold (numeral base ds) in *. change (numeral_from base 0 ds) with (numeral base ds) in *.
  destruct (Z.leb_spec (2 ^ 64) (numeral base ds)), (Z.ltb_spec (numeral base ds) (2 ^ 64)); try lia; [done|].
  destruct ((0 + length ds =? 0)%nat) eqn:Hz;
    [apply Nat.eqb_eq in Hz; destruct ds; [done | cbn in Hz; lia]|].
  cbn [Nat.add]. rewrite drop_app_length, Hv by done. by destruct Htl as [-> | ->].
Qed.

Lemma kstrtoull_unsigned base ds tl : digits base ds -> kstrtoull (ds ++ tl) base = _kstrtoull (ds ++ tl) base.
Proof.
  intros (_ & Hne & Hd). unfold kstrtoull. destruct ds as [|c ds]; [done|].
  apply Forall_cons_1 in Hd as [Hc _]. destruct (digit_not_sign _ _ Hc) as (Hn & _).
  change (char_at ((c :: ds) ++ tl) 0) with c. by destruct (Z.eqb_spec c 43).
Qed.

(** The parser's overflow check is exact: a string of digits of a base
    from 2 to 16, with an optional plus sign and final newline, is parsed to
    its value when that fits 64 bits, and refused with -ERANGE otherwise,
    whatever its length. *)
Theorem kstrtoull_exact base plus ds tl :
  digits base ds -> line_end tl -> no_prefix base (ds ++ tl) -> plus = [] \/ plus = [43] ->
  kstrtoull (plus ++ ds ++ tl) base =
    if numeral base ds <? 2 ^ 64 then inl (numeral base ds) else inr (- ERANGE).
Proof.
  intros Hd Htl Hnp Hp. rewrite <- (kstrtoull_digits base ds tl) by done.
  destruct Hp as [-> | ->]; [exact (kstrtoull_unsigned base ds tl Hd)|done].
Qed.

(** Digits alone never look like a base-16 prefix; [n] of them are below base^n. *)
Lemma digits_no_prefix base ds : digits base ds -> no_prefix base ds.
Proof.
  intros (_ & _ & Hd) Hb H0. subst base. unfold char_at in *. destruct ds as [|c [|d ds]]; cbn; [done|done|].
  apply Forall_cons_1 in Hd as [_ Hd]. apply Forall_cons_1 in Hd as [[Hd _] _].
  unfold _tolower, digit_value in *. intros E. rewrite E in Hd.
  destruct ((48 <=? d) && (d <=? 57)) eqn:Hc; [|done].
  apply andb_true_iff in Hc as [H1 H2]. apply Z.leb_le in H1, H2.
  assert (Hin : d ∈ seqZ 48 10) by (apply elem_of_seqZ; lia).
  assert (Ha : forallb (fun d => negb (Z.lor d 32 =? 120)) (seqZ 48 10) = true) by (vm_compute; reflexivity).
  rewrite forallb_forall in Ha. specialize (Ha d (proj1 (list_elem_of_In _ _) Hin)). by rewrite E in Ha.
Qed.

Lemma numeral_from_lt base ds : forall acc,
  2 <= base -> 0 <= acc -> Forall (is_digit base) ds ->
  numeral_from base acc ds < (acc + 1) * base ^ Z.of_nat (length ds).
Proof.
  unfold numeral_from. induction ds as [|c ds IH]; intros acc Hb Ha Hd; cbn [foldl length].
  { change (Z.of_nat 0) with 0. rewrite Z.pow_0_r. lia. }
  apply Forall_cons_1 in Hd as [[Hc0 Hc] Hd]. rewrite Nat2Z.inj_succ, Z.pow_succ_r by lia.
  specialize (IH (acc * base + digit_value c) Hb ltac:(nia) Hd).
  pose proof (Z.pow_pos_nonneg base (Z.of_nat (length ds)) ltac:(lia) ltac:(lia)). nia.
Qed.

(** A short number is parsed to its value. *)
Lemma kstrtouint_range s base v : kstrtouint s base = inl v -> 0 <= v < 2 ^ 32.
Proof.
  unfold kstrtouint, narrow. destruct (kstrtoull s base) as [w|]; [|done].
  destruct (negb _); [done|]. intros [= <-]. by apply (wrapU_range 32).
Qed.

Lemma kstrtouint_short base ds :
  digits base ds -> base ^ Z.of_nat (length ds) <= 2 ^ 32 -> kstrtouint ds base = inl (numeral base ds).
Proof.
  intros Hd Hlt. pose proof (digits_no_prefix base ds Hd) as Hnp.
  assert (Hn : 0 <= numeral base ds < 2 ^ 32).
  { destruct Hd as (Hb & _ & Hf). split; [apply (numeral_from_ge base 0); [lia|lia|done]|].
    pose proof (numeral_from_lt base ds 0 ltac:(lia) ltac:(lia) Hf). unfold numeral_from, numeral in *. lia. }
  unfold kstrtouint. rewrite <- (app_nil_r ds) in Hnp |- * at 1.
  rewrite kstrtoull_unsigned, kstrtoull_digits by (done || by left).
  destruct (Z.ltb_spec (numeral base ds) (2 ^ 64)); [|lia]. cbn [narrow].
  rewrite u32_id by lia. by rewrite Z.eqb_refl.
Qed.

Lemma s64_high z : 2 ^ 63 <= z < 2 ^ 64 -> s64 z = z - 2 ^ 64.
Proof.
  intros. unfold wrapS. change (2 ^ (64 - 1)) with (2 ^ 63).
  replace (z + 2 ^ 63) with ((z - 2 ^ 63) + 1 * 2 ^ 64) by lia.
  rewrite Z.mod_add, Z.mod_small by lia. lia.
Qed.

Lemma numeral_nonneg base ds : digits base ds -> 0 <= numeral base ds.
Proof. intros (Hb & _ & Hd). apply (numeral_from_ge base 0); [lia | lia | done]. Qed.

(** Signed parsing is exact too: a digit string with an optional minus sign
    gives kstrtoint its value exactly when that is an [int], and -ERANGE
    otherwise. *)
Theorem kstrtoint_exact base (neg : bool) ds tl :
  digits base ds -> line_end tl -> no_prefix base (ds ++ tl) ->
  let v := if neg then - numeral base ds else numeral base ds in
  kstrtoint ((if neg then [45] else []) ++ ds ++ tl) base =
    if (- 2 ^ 31 <=? v) && (v <? 2 ^ 31) then inl v else inr (- ERANGE).
Proof.
  intros Hd Htl Hnp v. pose proof (numeral_nonneg base ds Hd) as Hpos.
  pose proof (kstrtoull_digits base ds tl Hd Htl Hnp) as Hu.
  unfold kstrtoint, kstrtoll. set (n := numeral base ds) in *.
  assert (Hnar : forall x, narrow s32 (inl x) =
    if (- 2 ^ 31 <=? x) && (x <? 2 ^ 31) then inl x else inr (- ERANGE)).
  { intros x. unfold narrow. pose proof (wrapS_range 32 x ltac:(lia)) as Hr.
    change (2 ^ (32 - 1)) with (2 ^ 31) in Hr.
    destruct (Z.leb_spec (- 2 ^ 31) x), (Z.ltb_spec x (2 ^ 31)); cbn [andb].
    - rewrite s32_id by lia. by rewrite Z.eqb_refl.
    - destruct (Z.eqb_spec x (s32 x)); [lia|done].
    - destruct (Z.eqb_spec x (s32 x)); [lia|done].
    - lia. }
  destruct neg; subst v.
  - change (char_at ([45] ++ ds ++ tl) 0 =? 45) with true.
    change (drop 1 ([45] ++ ds ++ tl)) with (ds ++ tl). rewrite Hu.
    destruct (Z.ltb_spec n (2 ^ 64)).
    + destruct (Z.eq_dec n 0) as [->|Hn0]; [reflexivity|].
      assert (Hw : u64 (- n) = 2 ^ 64 - n).
      { unfold wrapU. replace (- n) with ((2 ^ 64 - n) + (-1) * 2 ^ 64) by lia.
        rewrite Z.mod_add, Z.mod_small by lia. done. }
      rewrite Hw. destruct (Z.le_gt_cases n (2 ^ 63)).
      * rewrite (s64_high (2 ^ 64 - n)) by lia.
        replace (2 ^ 64 - n - 2 ^ 64) with (- n) by lia.
        destruct (Z.ltb_spec 0 (- n)); [lia|]. apply Hnar.
      * rewrite s64_id by lia. destruct (Z.ltb_spec 0 (2 ^ 64 - n)); [|lia].
        destruct (Z.leb_spec (- 2 ^ 31) (- n)); [lia|done].
    + destruct (Z.leb_spec (- 2 ^ 31) (- n)); [lia|done].
  - assert (Hc0 : char_at ([] ++ ds ++ tl) 0 <> 45 /\ char_at ([] ++ ds ++ tl) 0 <> 43).
    { destruct Hd as (_ & Hne & Hdg). destruct ds as [|c ds]; [done|].
      apply Forall_cons_1 in Hdg as [Hc _]. destruct (digit_not_sign _ _ Hc) as (? & ? & _). done. }
    destruct Hc0 as [H1 H2]. apply Z.eqb_neq in H1, H2. rewrite H1.
    unfold kstrtoull. rewrite H2. change ([] ++ ds ++ tl) with (ds ++ tl). rewrite Hu.
    destruct (Z.ltb_spec n (2 ^ 64)).
    + destruct (Z.lt_ge_cases n (2 ^ 63)).
      * rewrite s64_id by lia. destruct (Z.ltb_spec n 0); [lia|]. apply Hnar.
      * rewrite s64_high by lia. destruct (Z.ltb_spec (n - 2 ^ 64) 0); [|lia].
        destruct (Z.leb_spec (- 2 ^ 31) n), (Z.ltb_spec n (2 ^ 31)); try lia; done.
    + destruct (Z.leb_spec (- 2 ^ 31) n), (Z.ltb_spec n (2 ^ 31)); try lia; done.
Qed.

Lemma kstrtoull_exact_witness :
  kstrtoull [43; 102; 70; 10] 16 = inl 255.
Proof.
  apply (kstrtoull_exact 16 [43] [102; 70] [10]).
  - split; [lia|]. split; [discriminate|]. repeat constructor; vm_compute; discriminate.
  - by right.
  - intros _ H. discriminate H.
  - by right.
Defined.

Lemma kstrtoint_exact_witness :
  kstrtoint [45; 50; 49; 52; 55; 52; 56; 51; 54; 52; 57] 10 = inr (- ERANGE).
Proof.
  apply (kstrtoint_exact 10 true [50; 49; 52; 55; 52; 56; 51; 54; 52; 57] []).
  - split; [lia|]. split; [discriminate|]. repeat constructor; vm_compute; discriminate.
  - by left.
  - intros H. discriminate H.
Defined.
