(* ===== verification/Printf.v ===== *)
(** * Kernel formatting and scanning (lib/vsprintf.c)

    The conversions the drivers use: [%s], [%d], [%02x] on output; on input
    the [%d] of [vsscanf] and [simple_strtol]. Strings are lists of
    characters without their terminator. *)

From Stdlib Require Import String.
From stdpp Require Import base tactics numbers list option pretty.
From S2P Require Import Prelude Kstrtox.

(** A C string is the list of its characters. *)
Fixpoint str (s : string) : list Z :=
  match s with
  | EmptyString => []
  | String c s => Z.of_nat (Ascii.nat_of_ascii c) :: str s
  end.

(** [%s], [%d] and [%ld]. *)
Definition pct_s (s : option (list Z)) : list Z := default (str "(null)") s.
Definition pct_d (z : Z) : list Z := str (pretty z).

(** [%02x] of a byte. *)
Definition hex_digit (d : Z) : Z := if d <? 10 then 48 + d else 87 + d.
Definition pct_02x (b : Z) : list Z := [hex_digit (b / 16); hex_digit (b mod 16)].

(** [snprintf(str, size, ...)] of a text, into a fresh buffer. *)
Definition snprintf (sz : Z) (text : list Z) : list Z := take (Z.to_nat (sz - 1)) text.

Definition PAGE_SIZE : Z := 4096.
Definition INT_MAX : Z := 2147483647.

(** ** Scanning *)

Definition isspace (c : Z) : bool :=
  (c =? 32) || ((9 <=? c) && (c <=? 13)) || (c =? 160).
Definition isdigit (c : Z) : bool := (48 <=? c) && (c <=? 57).

Fixpoint skip_spaces (s : list Z) : list Z :=
  match s with
  | c :: r => if isspace c then skip_spaces r else s
  | [] => []
  end.

(** [simple_strtoull(cp, &endp, base)]: the value modulo 2^64 and the rest. *)
Definition simple_strtoull (s : list Z) (base : Z) : Z * list Z :=
  let '(s, base) := _parse_integer_fixup_radix s base in
  let '(res, rv, _) := _parse_integer s base 0 0 false in
  (res, drop rv s).

Definition simple_strtol (s : list Z) (base : Z) : Z * list Z :=
  if char_at s 0 =? 45
  then let '(v, r) := simple_strtoull (drop 1 s) base in (s64 (- v), r)
  else let '(v, r) := simple_strtoull s base in (s64 v, r).

(** The [%d] of [vsscanf]: the [int] stored and the rest of the input. *)
Definition scan_d (s : list Z) : option (Z * list Z) :=
  let s := skip_spaces s in
  let digit := if char_at s 0 =? 45 then char_at s 1 else char_at s 0 in
  if negb (isdigit digit) then None
  else let '(v, r) := simple_strtol s 10 in Some (s32 v, r).

(** [sscanf(buf, "%d\n", &a) == 1] and [sscanf(buf, "%d %d\n", &a, &b) == 2]. *)
Definition sscanf_d (s : list Z) : option Z := fst <$> scan_d s.
Definition sscanf_d_d (s : list Z) : option (Z * Z) :=
  '(a, r) ← scan_d s; '(b, _) ← scan_d (skip_spaces r); Some (a, b).

Example sscanf_d_d_ex : sscanf_d_d (str "3 -1500") = Some (3, -1500).
Proof. vm_compute. reflexivity. Qed.

(** ** Printing a number and scanning it back *)

(** The digits the printer produces. *)
Lemma pretty_digits x : forall s, (0 < x)%N ->
  exists ds, str (pretty_N_go x s) = ds ++ str s /\ digits 10 ds /\ Forall (fun c => isdigit c = true) ds /\ numeral 10 ds = Z.of_N x.
Proof.
  induction (N.lt_wf_0 x) as [x _ IH]; intros s Hx. rewrite pretty_N_go_step by done.
  set (c := pretty_N_char (x `mod` 10)).
  assert (Hc : exists v, 0 <= v < 10 /\ Z.of_N (x `mod` 10) = v /\ Z.of_nat (Ascii.nat_of_ascii c) = 48 + v).
  { pose proof (N.mod_lt x 10 ltac:(lia)) as Hm. unfold c. clear IH c.
    generalize dependent (x `mod` 10)%N. intros m Hm. exists (Z.of_N m). split; [lia|split; [done|]].
    destruct m as [|p]; [done|]. do 4 (destruct p as [p|p|]; try done; try lia). }
  destruct Hc as (v & Hv & Ev & Ec).
  assert (Hd : digit_value (48 + v) = v).
  { unfold digit_value. destruct (Z.leb_spec 48 (48 + v)), (Z.leb_spec (48 + v) 57); try lia. cbn [andb]. lia. }
  assert (Hi : isdigit (48 + v) = true)
    by (unfold isdigit; destruct (Z.leb_spec 48 (48 + v)), (Z.leb_spec (48 + v) 57); done || lia).
  destruct (N.eq_0_gt_0_cases (x `div` 10)) as [E|E].
  - rewrite E, pretty_N_go_0. exists [48 + v]. cbn [str]. rewrite Ec. split; [done|]. split; [|split].
    + split; [lia|]. split; [done|]. repeat constructor; unfold is_digit; lia.
    + by repeat constructor.
    + unfold numeral. cbn [foldl]. rewrite Hd. pose proof (N.div_mod x 10 ltac:(lia)). lia.
  - destruct (IH _ (N.div_lt x 10 Hx eq_refl) (String c s) E) as (ds & H1 & (_ & H2 & H3) & H4 & H5).
    exists (ds ++ [48 + v]). rewrite H1. cbn [str]. rewrite Ec, <- app_assoc. split; [done|]. split; [|split].
    + split; [lia|]. split; [by destruct ds|]. apply Forall_app. split; [done|]. repeat constructor; unfold is_digit; lia.
    + apply Forall_app. split; [done|]. by repeat constructor.
    + unfold numeral in *. rewrite foldl_snoc, H5, Hd. pose proof (N.div_mod x 10 ltac:(lia)). lia.
Qed.

Lemma pct_d_nonneg z : 0 <= z ->
  exists ds, pct_d z = ds /\ digits 10 ds /\ Forall (fun c => isdigit c = true) ds /\ numeral 10 ds = z.
Proof.
  intros Hz. destruct (Z.eq_dec z 0) as [->|Hne].
  { exists [48]. split; [done|]. split; [|split; [by repeat constructor|done]]. split; [lia|]. split; [done|]. repeat constructor; cbn; lia. }
  destruct (pretty_digits (Z.to_N z) "" ltac:(lia)) as (ds & H1 & H2 & H3 & H4). exists ds. split; [|split; [done|split; [done|lia]]].
  unfold pct_d. destruct z as [|p|p]; [done| |done]. cbn [str] in H1. rewrite app_nil_r in H1. rewrite <- H1.
  change (pretty (Z.pos p)) with (pretty (N.pos p)). done.
Qed.

Lemma pct_d_neg z : z < 0 -> pct_d z = 45 :: pct_d (- z).
Proof. intros Hz. destruct z as [|p|p]; [done..|]. done. Qed.

(** What may follow a number that is scanned. *)
Definition number_end (tl : list Z) : Prop := match tl with [] => True | c :: _ => digit_value c < 0 end.

Lemma strtoull_base base ds tl : digits base ds -> no_prefix base (ds ++ tl) -> number_end tl -> numeral base ds < 2 ^ 64 ->
  simple_strtoull (ds ++ tl) base = (numeral base ds, tl).
Proof.
  intros (Hb & Hne & Hd) Hp Htl Hn. unfold simple_strtoull, _parse_integer_fixup_radix. destruct (Z.eqb_spec base 0); [lia|].
  replace ((base =? 16) && (char_at (ds ++ tl) 0 =? 48) && (_tolower (char_at (ds ++ tl) 1) =? 120)) with false.
  2: { symmetry. unfold no_prefix in Hp. destruct (Z.eqb_spec base 16), (Z.eqb_spec (char_at (ds ++ tl) 0) 48); cbn [andb]; try done.
       apply Z.eqb_neq. by apply Hp. }
  destruct (parse_digits base ds tl 0 0 false 0 Hb Hd Htl) as (res' & E & Hr); [lia|done|done|lia|].
  rewrite E. rewrite (Hr Hn). cbn [Nat.add]. by rewrite drop_app_length.
Qed.
Lemma strtoull_digits ds tl : digits 10 ds -> number_end tl -> numeral 10 ds < 2 ^ 64 ->
  simple_strtoull (ds ++ tl) 10 = (numeral 10 ds, tl).
Proof. intros Hd Htl Hn. by apply strtoull_base. Qed.

(** An [int] printed with [%d] is scanned back with [%d], whatever follows
    that is no digit. *)
Lemma scan_d_pct_d z tl : - 2147483648 <= z < 2147483648 -> number_end tl -> scan_d (pct_d z ++ tl) = Some (z, tl).
Proof.
  intros Hz Htl. destruct (Z.lt_ge_cases z 0) as [Hneg|Hpos].
  - rewrite pct_d_neg by done. destruct (pct_d_nonneg (- z) ltac:(lia)) as (ds & -> & Hds & Hi & Hn).
    unfold scan_d. cbn [app skip_spaces]. change (isspace 45) with false. cbv zeta iota.
    change (char_at (45 :: ds ++ tl) 0 =? 45) with true. cbv iota.
    assert (E : isdigit (char_at (45 :: ds ++ tl) 1) = true).
    { destruct Hds as (_ & Hne & _). destruct ds as [|c ds]; [done|]. apply list.Forall_cons in Hi as [Hc _]. exact Hc. }
    rewrite E. cbn [negb]. unfold simple_strtol. change (char_at (45 :: ds ++ tl) 0 =? 45) with true. cbv iota.
    change (drop 1 (45 :: ds ++ tl)) with (ds ++ tl). rewrite strtoull_digits by (done || lia). rewrite Hn, s64_id, s32_id by lia. do 2 f_equal. lia.
  - destruct (pct_d_nonneg z Hpos) as (ds & -> & Hds & Hi & Hn). pose proof Hds as (_ & Hne & _).
    destruct ds as [|c ds]; [done|]. apply list.Forall_cons in Hi as [Hc Hi].
    assert (Hc' : isspace c = false /\ (c =? 45) = false).
    { unfold isdigit, isspace in *. apply andb_true_iff in Hc as [H1 H2]. apply Z.leb_le in H1, H2. zcases; cbn; split; done || lia. }
    destruct Hc' as [Hsp Hm]. unfold scan_d. cbn [app skip_spaces]. rewrite Hsp. cbv zeta.
    change (char_at (c :: ds ++ tl) 0) with c. rewrite Hm, Hc. cbn [negb]. unfold simple_strtol.
    change (char_at (c :: ds ++ tl) 0) with c. rewrite Hm.
    change (c :: ds ++ tl) with ((c :: ds) ++ tl). rewrite strtoull_digits by (done || lia).
    rewrite Hn, s64_id, s32_id by lia. done.
Qed.
