(* ===== verification/Ringbuf.v ===== *)
(** * DSP framework: the ring buffer (dspframework/src/ringbuf.c)

    The struct [adfRingbuf_t] (offsets relative to the struct itself, the
    [CFG_RINGBUF_USE_PTR == 0] build), the byte block it manages, every
    operation of [ringbuf.c], and the queue of bytes they implement. *)

From stdpp Require Import base tactics numbers list option.
From S2P Require Import Prelude.

(** adf_status.h *)
Definition ADF_STATUS_OK : Z := 0.
Definition ADF_STATUS_GENERAL_ERROR : Z := -1.
Definition ADF_STATUS_NOT_SUPPORTED : Z := -6.

(** ** Data *)

(** [u0]/[u1] are the two words of the union ([cli.argc]/[cli.rc], or
    [log.bootReason]/[log.rsvd]). *)
Record adfRingbuf_t := mkRingbuf {
  base : Z; limit : Z; wp : Z; rp : Z; drop_ : Z; dropunit : Z; u0 : Z; u1 : Z }.

(** The struct together with the memory behind it: the block of [bytes] that
    starts [org] bytes after the struct. *)
Record ring := mkRing { hdr : adfRingbuf_t; org : Z; bytes : list Z }.

Definition set_rp (h : adfRingbuf_t) (v : Z) : adfRingbuf_t :=
  mkRingbuf (base h) (limit h) (wp h) v (drop_ h) (dropunit h) (u0 h) (u1 h).
Definition set_wp (h : adfRingbuf_t) (v : Z) : adfRingbuf_t :=
  mkRingbuf (base h) (limit h) v (rp h) (drop_ h) (dropunit h) (u0 h) (u1 h).
Definition set_drop (h : adfRingbuf_t) (v : Z) : adfRingbuf_t :=
  mkRingbuf (base h) (limit h) (wp h) (rp h) v (dropunit h) (u0 h) (u1 h).
Definition set_cli (h : adfRingbuf_t) (argc rc : Z) : adfRingbuf_t :=
  mkRingbuf (base h) (limit h) (wp h) (rp h) (drop_ h) (dropunit h) argc rc.
Definition with_hdr (r : ring) (h : adfRingbuf_t) : ring := mkRing h (org r) (bytes r).
Definition with_bytes (r : ring) (b : list Z) : ring := mkRing (hdr r) (org r) b.

(** ** The macros of ringbuf.h *)

Definition ADF_RINGBUF_MOVE_PTR (ptr offset base limit : Z) : Z :=
  if offset <? s32 (limit - ptr) then s32 (ptr + offset)
  else s32 (ptr + offset - (limit - base)).

Definition ADF_RINGBUF_IN_RANGE (ptr base limit : Z) : bool :=
  (base <=? ptr) && (ptr <? limit).

Definition ADF_RINGBUF_CALC_RW_SIZE (ptrS ptrE base limit : Z) : Z :=
  if ptrS <=? ptrE then s32 (ptrE - ptrS) else s32 ((limit - ptrS) + (ptrE - base)).

Definition ADF_RINGBUF_CALC_WR_SIZE (ptrS ptrE base limit : Z) : Z :=
  if ptrS <? ptrE then s32 (ptrE - ptrS) else s32 ((limit - ptrS) + (ptrE - base)).

(** ** The operations

    A pointer argument that may be [NULL] is an [option]; the result [None]
    of an operation is a copy outside of a buffer. *)

(** [_adfRingbuf_checkDrop]; [available - sizeof(int32_t)] is computed in
    [size_t] and converted back to [int32_t]. *)
Definition adfRingbuf_checkDrop (h : adfRingbuf_t) (len : Z) : adfRingbuf_t * Z :=
  let available := ADF_RINGBUF_CALC_WR_SIZE (wp h) (rp h) (base h) (limit h) in
  if available <=? len then
    if 0 <? dropunit h then
      let dropLen := s32 (len - available + dropunit h - 1) in
      let dropLen := s32 (dropLen - Z.rem dropLen (dropunit h)) in
      let h := set_drop h (s32 (drop_ h + dropLen)) in
      (set_rp h (ADF_RINGBUF_MOVE_PTR (rp h) dropLen (base h) (limit h)), len)
    else (h, s32 (u64 (available - 4)))
  else (h, len).

Definition adfRingbuf_checkValid (h : adfRingbuf_t) (buf size : Z) : bool :=
  if negb (base h =? buf) || negb (limit h - base h =? size) then false
  else ADF_RINGBUF_IN_RANGE (rp h) (base h) (limit h)
       && ADF_RINGBUF_IN_RANGE (wp h) (base h) (limit h).

Definition adfRingbuf_getUsedSize (rBuf : option ring) : Z :=
  match rBuf with
  | None => 0
  | Some r => let h := hdr r in ADF_RINGBUF_CALC_RW_SIZE (rp h) (wp h) (base h) (limit h)
  end.

Definition adfRingbuf_getFreeSize (rBuf : option ring) : Z :=
  match rBuf with
  | None => 0
  | Some r => let h := hdr r in ADF_RINGBUF_CALC_WR_SIZE (wp h) (rp h) (base h) (limit h)
  end.

(** [nonnull]: the destination [data] is not [NULL]; the result is the bytes
    copied to it (their number is the return value). *)
Definition adfRingbuf_read (rBuf : option ring) (nonnull : bool) (len : Z) : option (list Z) :=
  match rBuf with
  | None => Some []
  | Some r =>
    if negb nonnull || (len =? 0) then Some [] else
    let h := hdr r in
    let remain := ADF_RINGBUF_CALC_RW_SIZE (rp h) (wp h) (base h) (limit h) in
    let len := if remain <? len then remain else len in
    let lenToEnd := s32 (limit h - rp h) in
    if len <=? lenToEnd then mem_get (bytes r) (rp h - org r) len
    else
      a ← mem_get (bytes r) (rp h - org r) lenToEnd;
      b ← mem_get (bytes r) (base h - org r) (len - lenToEnd);
      Some (a ++ b)
  end.

Definition adfRingbuf_flush (rBuf : option ring) (len : Z) : option ring * Z :=
  match rBuf with
  | None => (None, 0)
  | Some r =>
    if len =? 0 then (Some r, 0) else
    let h := hdr r in
    let remain := ADF_RINGBUF_CALC_RW_SIZE (rp h) (wp h) (base h) (limit h) in
    let len := if remain <? len then remain else len in
    (Some (with_hdr r (set_rp h (ADF_RINGBUF_MOVE_PTR (rp h) len (base h) (limit h)))), len)
  end.

(** A zero [dropunit] divides by zero here when the request does not fit. *)
Definition adfRingbuf_reserve (rBuf : option ring) (len : Z) : option (option ring * Z) :=
  match rBuf with
  | None => Some (None, 0)
  | Some r =>
    if len =? 0 then Some (Some r, 0) else
    let h := hdr r in
    let available := ADF_RINGBUF_CALC_WR_SIZE (wp h) (rp h) (base h) (limit h) in
    len ← (if available <=? len then
             if dropunit h =? 0 then None
             else Some (available - Z.rem available (dropunit h))
           else Some len);
    Some (Some (with_hdr r (set_rp h
      (ADF_RINGBUF_MOVE_PTR (rp h) (s32 (limit h - base h - len)) (base h) (limit h)))), len)
  end.

(** The copy of [adfRingbuf_write]: [len] bytes of [data] to the write
    pointer, in two pieces when they run past the end of the buffer. *)
Definition rb_copy_in (h : adfRingbuf_t) (org : Z) (bytes data : list Z) (len : Z)
  : option (list Z) :=
  let lenToEnd := s32 (limit h - wp h) in
  if len <=? lenToEnd then
    d ← mem_get data 0 len;
    mem_put bytes (wp h - org) d
  else
    d1 ← mem_get data 0 lenToEnd;
    b1 ← mem_put bytes (wp h - org) d1;
    d2 ← mem_get data lenToEnd (len - lenToEnd);
    mem_put b1 (base h - org) d2.

Definition adfRingbuf_write (rBuf : option ring) (data : option (list Z)) (len : Z)
  : option (option ring * Z) :=
  match rBuf, data with
  | Some r, Some data =>
    if len =? 0 then Some (Some r, 0) else
    let '(h, len) := adfRingbuf_checkDrop (hdr r) len in
    b ← rb_copy_in h (org r) (bytes r) data len;
    let h := set_wp h (ADF_RINGBUF_MOVE_PTR (wp h) len (base h) (limit h)) in
    Some (Some (mkRing h (org r) b), len)
  | _, _ => Some (rBuf, 0)
  end.

Definition adfRingbuf_add (rBuf : option ring) (len : Z) : option ring * Z :=
  match rBuf with
  | None => (None, 0)
  | Some r =>
    if len =? 0 then (Some r, 0) else
    let '(h, len) := adfRingbuf_checkDrop (hdr r) len in
    (Some (with_hdr r (set_wp h (ADF_RINGBUF_MOVE_PTR (wp h) len (base h) (limit h)))), len)
  end.

(** [ptr] is given by its offset from the struct ([new] in the code). *)
Definition adfRingbuf_apply (rBuf : option ring) (new : Z) : option ring * Z :=
  match rBuf with
  | None => (None, 0)
  | Some r =>
    let h := hdr r in
    if (new =? wp h) || negb (ADF_RINGBUF_IN_RANGE new (base h) (limit h)) then (Some r, 0) else
    let len := ADF_RINGBUF_CALC_RW_SIZE (wp h) new (base h) (limit h) in
    let '(h, len) := adfRingbuf_checkDrop h len in
    (Some (with_hdr r (set_wp h (ADF_RINGBUF_MOVE_PTR (wp h) len (base h) (limit h)))), len)
  end.

Definition adfRingbuf_reset (rBuf : option ring) : option ring * Z :=
  match rBuf with
  | None => (None, ADF_STATUS_NOT_SUPPORTED)
  | Some r =>
    let h := hdr r in
    if (base h =? 0) || (limit h =? 0) then (Some r, ADF_STATUS_NOT_SUPPORTED) else
    (Some (with_hdr r (set_drop (set_wp (set_rp h (base h)) (base h)) 0)), ADF_STATUS_OK)
  end.

(** [buf]: the buffer's offset from the struct, [None] for [NULL]. *)
Definition adfRingbuf_init (rBuf : option ring) (buf : option Z) (size dropunit : Z)
  : option ring * Z :=
  match rBuf, buf with
  | Some r, Some buf =>
    if (size =? 0) || negb (Z.land size 3 =? 0) then (rBuf, ADF_STATUS_NOT_SUPPORTED) else
    let h := hdr r in
    let h := mkRingbuf (s32 buf) (s32 (buf + size)) (wp h) (rp h) (drop_ h) dropunit 0 0 in
    adfRingbuf_reset (Some (with_hdr r h))
  | _, _ => (rBuf, ADF_STATUS_NOT_SUPPORTED)
  end.

Definition adfRingbuf_deinit (rBuf : option ring) : Z :=
  match rBuf with None => ADF_STATUS_NOT_SUPPORTED | Some _ => ADF_STATUS_OK end.

(** ** Specification: a bounded queue of bytes *)

Definition size_of (r : ring) : Z := limit (hdr r) - base (hdr r).
Definition used (r : ring) : Z := adfRingbuf_getUsedSize (Some r).
Definition avail (r : ring) : Z := adfRingbuf_getFreeSize (Some r).

(** The offset [i] bytes after [ptr], going around once. *)
Definition adv (h : adfRingbuf_t) (ptr i : Z) : Z :=
  if i <? limit h - ptr then ptr + i else ptr + i - (limit h - base h).

(** The bytes between the read and the write pointer, oldest first. *)
Definition content (r : ring) : list Z :=
  (λ i : nat, byte_at (bytes r) (adv (hdr r) (rp (hdr r)) (Z.of_nat i) - org r))
    <$> seq 0 (Z.to_nat (used r)).

(** The invariant of an initialised ring buffer. *)
Record rb_wf (r : ring) : Prop := {
  wf_org : base (hdr r) = org r;
  wf_len : size_of r = Z.of_nat (length (bytes r));
  wf_nonzero : base (hdr r) <> 0 /\ limit (hdr r) <> 0;
  wf_base : -1073741824 <= base (hdr r);
  wf_limit : limit (hdr r) <= 1073741824;
  wf_size : 0 < size_of r < 268435456;
  wf_rp : base (hdr r) <= rp (hdr r) < limit (hdr r);
  wf_wp : base (hdr r) <= wp (hdr r) < limit (hdr r);
  wf_unit : 0 <= dropunit (hdr r) <= size_of r }.

(** Least multiple of [u] not below [x] (for [0 <= x], [0 < u]). *)
Definition round_up (x u : Z) : Z := (x + u - 1) / u * u.

(** What a write of [d] does to a queue [q] in a buffer of [size] bytes; [None]
    is a copy out of bounds. *)
Definition spec_write (size unit : Z) (q d : list Z) : option (list Z * Z) :=
  let len := Z.of_nat (length d) in
  let av := size - Z.of_nat (length q) in
  if len <? av then Some (q ++ d, len)
  else if 0 <? unit then
    let k := round_up (len - av) unit in
    if k =? len - av then Some ([], len)
    else Some (drop (Z.to_nat k) q ++ d, len)
  else if av <? 4 then None
  else Some (q ++ take (Z.to_nat (av - 4)) d, av - 4).

(** ** Client operations and their runs *)

Inductive rb_op := RbWrite (d : list Z) | RbFlush (n : Z) | RbRead (n : Z) | RbReset.

Definition rb_run1 (r : ring) (op : rb_op) : option (ring * list Z) :=
  match op with
  | RbWrite d =>
    '(r', _) ← adfRingbuf_write (Some r) (Some d) (Z.of_nat (length d));
    r' ← r'; Some (r', [])
  | RbFlush n => r' ← (adfRingbuf_flush (Some r) n).1; Some (r', [])
  | RbRead n => o ← adfRingbuf_read (Some r) true n; Some (r, o)
  | RbReset => r' ← (adfRingbuf_reset (Some r)).1; Some (r', [])
  end.

Definition spec_run1 (size unit : Z) (q : list Z) (op : rb_op) : option (list Z * list Z) :=
  match op with
  | RbWrite d => '(q', _) ← spec_write size unit q d; Some (q', [])
  | RbFlush n => Some (drop (Z.to_nat n) q, [])
  | RbRead n => Some (q, take (Z.to_nat n) q)
  | RbReset => Some ([], [])
  end.

Fixpoint rb_run (r : ring) (ops : list rb_op) : option (ring * list (list Z)) :=
  match ops with
  | [] => Some (r, [])
  | op :: ops =>
    '(r, o) ← rb_run1 r op; '(r, os) ← rb_run r ops; Some (r, o :: os)
  end.

Fixpoint spec_run (size unit : Z) (q : list Z) (ops : list rb_op)
  : option (list Z * list (list Z)) :=
  match ops with
  | [] => Some (q, [])
  | op :: ops =>
    '(q, o) ← spec_run1 size unit q op; '(q, os) ← spec_run size unit q ops; Some (q, o :: os)
  end.

(** The requests a client may make: lengths are not negative, and one write
    fits in the buffer with a drop unit to spare. *)
Definition op_ok (size unit : Z) (op : rb_op) : Prop :=
  match op with
  | RbWrite d => Z.of_nat (length d) + unit - 1 <= size /\ Z.of_nat (length d) <= size
  | RbFlush n | RbRead n => 0 <= n < 2147483648
  | RbReset => True
  end.

Definition word_op (op : rb_op) : Prop :=
  match op with
  | RbWrite d => Z.of_nat (length d) mod 4 = 0
  | RbFlush n => n mod 4 = 0
  | RbRead _ | RbReset => True
  end.

Definition sample_ring (unit : Z) : ring :=
  mkRing (mkRingbuf 32 40 38 36 0 unit 0 0) 32 [1; 2; 3; 4; 5; 6; 7; 8].

Definition word_ring : ring := mkRing (mkRingbuf 32 40 32 32 0 0 0 0) 32 [1; 2; 3; 4; 5; 6; 7; 8].

#[global] Arguments adfRingbuf_write : simpl never.
#[global] Arguments adfRingbuf_read : simpl never.
#[global] Arguments adfRingbuf_flush : simpl never.
#[global] Arguments adfRingbuf_reset : simpl never.
#[global] Arguments spec_write : simpl never.

(** ** Pointer arithmetic *)

Section Pointers.
Context (r : ring) (Hwf : rb_wf r).
Abbreviation h := (hdr r).

Lemma used_eq :
  used r = if rp h <=? wp h then wp h - rp h else size_of r - (rp h - wp h).
Proof using Hwf.
  destruct Hwf. unfold used, adfRingbuf_getUsedSize, ADF_RINGBUF_CALC_RW_SIZE, size_of in *.
  zcases; unwrap; lia.
Qed.

Lemma avail_eq : avail r = size_of r - used r.
Proof using Hwf.
  rewrite used_eq. destruct Hwf.
  unfold avail, adfRingbuf_getFreeSize, ADF_RINGBUF_CALC_WR_SIZE, size_of in *.
  zcases; unwrap; lia.
Qed.

Lemma used_range : 0 <= used r < size_of r.
Proof using Hwf. rewrite used_eq. destruct Hwf. unfold size_of in *. zcases; lia. Qed.

Lemma move_adv ptr i :
  base h <= ptr < limit h -> 0 <= i <= size_of r ->
  ADF_RINGBUF_MOVE_PTR ptr i (base h) (limit h) = adv h ptr i /\
  base h <= adv h ptr i < limit h.
Proof using Hwf.
  destruct Hwf. unfold ADF_RINGBUF_MOVE_PTR, adv, size_of in *. intros.
  rewrite (s32_id (limit h - ptr)) by lia. zcases; unwrap; lia.
Qed.

Lemma length_content : length (content r) = Z.to_nat (used r).
Proof using. unfold content. by rewrite length_fmap, length_seq. Qed.

Lemma content_byte i :
  0 <= i < used r -> byte_at (content r) i = byte_at (bytes r) (adv h (rp h) i - org r).
Proof using.
  intros. unfold content. unfold byte_at at 1. rewrite list_lookup_total_alt.
  rewrite list_lookup_fmap, lookup_seq_lt by lia. cbn. do 3 f_equal; lia.
Qed.
End Pointers.

(** A ring is determined, as a queue, by the bytes at its pointers. *)
Lemma content_intro r q :
  used r = Z.of_nat (length q) ->
  (forall i, 0 <= i < used r -> byte_at (bytes r) (adv (hdr r) (rp (hdr r)) i - org r) = byte_at q i) ->
  content r = q.
Proof.
  intros Hu Hb. apply bytes_eq; rewrite length_content; [lia|].
  intros i Hi. rewrite content_byte by lia. apply Hb; lia.
Qed.

Lemma byte_at_app_l (l k : list Z) i :
  0 <= i < Z.of_nat (length l) -> byte_at (l ++ k) i = byte_at l i.
Proof. intros. unfold byte_at. rewrite !list_lookup_total_alt, lookup_app_l by lia. done. Qed.

Lemma byte_at_app_r (l k : list Z) i :
  Z.of_nat (length l) <= i -> byte_at (l ++ k) i = byte_at k (i - Z.of_nat (length l)).
Proof.
  intros. unfold byte_at. rewrite !list_lookup_total_alt, lookup_app_r by lia.
  do 2 f_equal; lia.
Qed.

Lemma byte_at_drop (l : list Z) n i :
  0 <= n -> 0 <= i -> byte_at (drop (Z.to_nat n) l) i = byte_at l (n + i).
Proof.
  intros. unfold byte_at. rewrite !list_lookup_total_alt, lookup_drop. do 2 f_equal; lia.
Qed.

Lemma byte_at_take (l : list Z) n i :
  0 <= i < n -> byte_at (take (Z.to_nat n) l) i = byte_at l i.
Proof.
  intros. unfold byte_at. rewrite !list_lookup_total_alt, lookup_take_lt by lia. done.
Qed.

(** ** The copy into the ring *)

Lemma rb_copy_in_spec r data len :
  rb_wf r -> 0 <= len <= size_of r -> len <= Z.of_nat (length data) ->
  exists b, rb_copy_in (hdr r) (org r) (bytes r) data len = Some b /\
    length b = length (bytes r) /\
    (forall i, 0 <= i < len ->
       byte_at b (adv (hdr r) (wp (hdr r)) i - org r) = byte_at data i) /\
    (forall i, len <= i < size_of r ->
       byte_at b (adv (hdr r) (wp (hdr r)) i - org r)
       = byte_at (bytes r) (adv (hdr r) (wp (hdr r)) i - org r)).
Proof.
  intros Hwf Hlen Hdata. destruct Hwf. unfold rb_copy_in, size_of, adv in *.
  set (h := hdr r) in *. rewrite s32_id by lia. destruct (Z.leb_spec len (limit h - wp h)).
  - destruct (mem_get_is_Some data 0 len) as [d Hd]; [lia..|]. rewrite Hd; cbn.
    apply mem_get_Some in Hd as (_ & _ & _ & Hl & Hdb).
    destruct (mem_put_is_Some (bytes r) (wp h - org r) d) as [b Hb]; [lia..|].
    exists b. split; [done|]. apply mem_put_Some in Hb as (_ & _ & Hlb & Hbb).
    split; [done|]. split; intros i Hi; rewrite Hbb by (zcases; lia).
    + zcases; cbn; try lia. rewrite Hdb by lia. f_equal; lia.
    + zcases; cbn; try lia; done.
  - destruct (mem_get_is_Some data 0 (limit h - wp h)) as [d1 Hd1]; [lia..|]. rewrite Hd1; cbn.
    apply mem_get_Some in Hd1 as (_ & _ & _ & Hl1 & Hd1b).
    destruct (mem_put_is_Some (bytes r) (wp h - org r) d1) as [b1 Hb1]; [lia..|]. rewrite Hb1; cbn.
    apply mem_put_Some in Hb1 as (_ & _ & Hlb1 & Hb1b).
    destruct (mem_get_is_Some data (limit h - wp h) (len - (limit h - wp h))) as [d2 Hd2]; [lia..|].
    rewrite Hd2; cbn. apply mem_get_Some in Hd2 as (_ & _ & _ & Hl2 & Hd2b).
    destruct (mem_put_is_Some b1 (base h - org r) d2) as [b Hb]; [lia..|].
    exists b. split; [done|]. apply mem_put_Some in Hb as (_ & _ & Hlb & Hbb).
    split; [congruence|]. split; intros i Hi; rewrite Hbb by (zcases; lia).
    + zcases; cbn; try lia.
      * rewrite Hb1b by lia. zcases; cbn; try lia. rewrite Hd1b by lia. f_equal; lia.
      * rewrite Hd2b by lia. f_equal; lia.
    + zcases; cbn; try lia; rewrite Hb1b by lia; zcases; cbn; try lia; done.
Qed.

(** ** Moving the read pointer *)

(** [adv] of a moved pointer: positions count from the new pointer. *)
Lemma adv_adv r ptr k i :
  rb_wf r -> base (hdr r) <= ptr < limit (hdr r) -> 0 <= k -> 0 <= i -> k + i < size_of r ->
  adv (hdr r) (adv (hdr r) ptr k) i = adv (hdr r) ptr (k + i).
Proof. intros [] **. unfold adv, size_of in *. zcases; lia. Qed.

Lemma wf_set_rp r v :
  rb_wf r -> base (hdr r) <= v < limit (hdr r) -> rb_wf (with_hdr r (set_rp (hdr r) v)).
Proof. intros [] ?. constructor; unfold size_of in *; cbn in *; auto; lia. Qed.

Lemma wf_set_drop r v : rb_wf r -> rb_wf (with_hdr r (set_drop (hdr r) v)).
Proof. intros []. constructor; done. Qed.

Lemma wf_set_wp r v b :
  rb_wf r -> base (hdr r) <= v < limit (hdr r) -> length b = length (bytes r) ->
  rb_wf (mkRing (set_wp (hdr r) v) (org r) b).
Proof. intros [] ? ?. constructor; unfold size_of in *; cbn in *; auto; lia. Qed.

(** Advancing the read pointer by [k] drops the [k] oldest bytes. *)
Lemma advance_rp_content r k :
  rb_wf r -> 0 <= k <= used r ->
  let r' := with_hdr r (set_rp (hdr r) (adv (hdr r) (rp (hdr r)) k)) in
  rb_wf r' /\ used r' = used r - k /\ content r' = drop (Z.to_nat k) (content r).
Proof.
  intros Hwf Hk r'. pose proof (used_range r Hwf) as Hu. pose proof (used_eq r Hwf) as Hue.
  assert (Hrp : base (hdr r) <= rp (hdr r) < limit (hdr r)) by apply Hwf.
  pose proof (move_adv r Hwf (rp (hdr r)) k Hrp ltac:(lia)) as [_ Hrange].
  assert (Hwf' : rb_wf r') by (by apply wf_set_rp).
  assert (Hu' : used r' = used r - k).
  { rewrite (used_eq r' Hwf'), Hue. destruct Hwf. unfold adv, size_of in *. cbn in *.
    zcases; zcases_in Hue; zcases_in Hrange; lia. }
  split; [done|]. split; [done|].
  apply content_intro; rewrite Hu'.
  - rewrite length_drop, length_content; lia.
  - intros i Hi. rewrite byte_at_drop, content_byte by lia. cbn. f_equal. f_equal.
    apply (adv_adv r); auto; lia.
Qed.

Lemma flush_spec r n :
  rb_wf r -> 0 <= n < 2147483648 ->
  exists r', adfRingbuf_flush (Some r) n = (Some r', Z.min n (used r)) /\
    rb_wf r' /\ content r' = drop (Z.to_nat n) (content r) /\
    used r' = used r - Z.min n (used r) /\ size_of r' = size_of r /\
    dropunit (hdr r') = dropunit (hdr r).
Proof.
  intros Hwf Hn. pose proof (used_range r Hwf) as Hu. unfold adfRingbuf_flush.
  destruct (Z.eqb_spec n 0) as [->|Hnz].
  { exists r. rewrite drop_0. repeat split; auto; try apply Hwf; f_equal; lia. }
  change (ADF_RINGBUF_CALC_RW_SIZE _ _ _ _) with (used r).
  assert (Hmin : (if used r <? n then used r else n) = Z.min n (used r)) by (zcases; lia).
  rewrite Hmin.
  assert (Hrp : base (hdr r) <= rp (hdr r) < limit (hdr r)) by apply Hwf.
  destruct (move_adv r Hwf (rp (hdr r)) (Z.min n (used r)) Hrp ltac:(lia)) as [-> _].
  destruct (advance_rp_content r (Z.min n (used r)) Hwf ltac:(lia)) as (Hwf' & Hu' & Hc).
  eexists. split; [reflexivity|]. split; [done|]. split; [|done].
  rewrite Hc. pose proof (length_content r) as Hl.
  destruct (Z.le_ge_cases n (used r)); [by rewrite Z.min_l by lia|].
  rewrite Z.min_r by lia. rewrite !drop_ge by lia. done.
Qed.

Lemma read_spec r n :
  rb_wf r -> 0 <= n < 2147483648 ->
  adfRingbuf_read (Some r) true n = Some (take (Z.to_nat n) (content r)).
Proof.
  intros Hwf Hn. pose proof (used_range r Hwf) as Hu. pose proof (length_content r) as Hl.
  unfold adfRingbuf_read. cbn [negb orb]. destruct (Z.eqb_spec n 0) as [->|Hnz]; [done|].
  change (ADF_RINGBUF_CALC_RW_SIZE _ _ _ _) with (used r).
  assert (Hmin : (if used r <? n then used r else n) = Z.min n (used r)) by (zcases; lia).
  rewrite Hmin. set (m := Z.min n (used r)) in *.
  assert (Hget : forall d, length d = Z.to_nat m ->
    (forall i, 0 <= i < m ->
       byte_at d i = byte_at (bytes r) (adv (hdr r) (rp (hdr r)) i - org r)) ->
    Some d = Some (take (Z.to_nat n) (content r))).
  { intros d Hd Hb. f_equal. apply bytes_eq; rewrite Hd.
    - rewrite length_take. lia.
    - intros i Hi. rewrite byte_at_take, content_byte by lia. apply Hb; lia. }
  destruct Hwf. unfold size_of in *. rewrite s32_id by lia.
  destruct (Z.leb_spec m (limit (hdr r) - rp (hdr r))).
  - destruct (mem_get_is_Some (bytes r) (rp (hdr r) - org r) m) as [d Hd]; [lia..|].
    rewrite Hd. apply mem_get_Some in Hd as (_ & _ & _ & Hdl & Hdb).
    apply Hget; [done|]. intros i Hi. rewrite Hdb by lia. unfold adv. zcases; f_equal; lia.
  - set (e := limit (hdr r) - rp (hdr r)) in *.
    destruct (mem_get_is_Some (bytes r) (rp (hdr r) - org r) e) as [d1 Hd1]; [lia..|].
    rewrite Hd1. cbn. apply mem_get_Some in Hd1 as (_ & _ & _ & Hl1 & Hb1).
    destruct (mem_get_is_Some (bytes r) (base (hdr r) - org r) (m - e)) as [d2 Hd2]; [lia..|].
    rewrite Hd2. cbn. apply mem_get_Some in Hd2 as (_ & _ & _ & Hl2 & Hb2).
    apply Hget; [rewrite length_app; lia|]. intros i Hi. unfold adv.
    destruct (Z.ltb_spec i (limit (hdr r) - rp (hdr r))).
    + rewrite byte_at_app_l, Hb1 by lia. f_equal; lia.
    + rewrite byte_at_app_r, Hb2 by lia. f_equal; lia.
Qed.

(** ** Writing *)

(** The room made by [_adfRingbuf_checkDrop] before a write of [len] bytes. *)
Lemma round_up_bounds x u : 0 <= x -> 0 < u -> x <= round_up x u <= x + u - 1.
Proof.
  intros. unfold round_up.
  pose proof (Z.div_mod (x + u - 1) u ltac:(lia)).
  pose proof (Z.mod_pos_bound (x + u - 1) u ltac:(lia)). nia.
Qed.

Lemma checkDrop_spec r len :
  rb_wf r -> 0 <= len -> len + dropunit (hdr r) - 1 <= size_of r -> len <= size_of r ->
  adfRingbuf_checkDrop (hdr r) len =
  if avail r <=? len then
    if 0 <? dropunit (hdr r) then
      let k := round_up (len - avail r) (dropunit (hdr r)) in
      (set_rp (set_drop (hdr r) (s32 (drop_ (hdr r) + k))) (adv (hdr r) (rp (hdr r)) k), len)
    else (hdr r, avail r - 4)
  else (hdr r, len).
Proof.
  intros Hwf Hlen Hfit Hsz. pose proof (avail_eq r Hwf) as Ha. pose proof (used_range r Hwf).
  unfold adfRingbuf_checkDrop.
  change (ADF_RINGBUF_CALC_WR_SIZE _ _ _ _) with (avail r).
  destruct (Z.leb_spec (avail r) len); [|done].
  assert (Hunit : 0 <= dropunit (hdr r) <= size_of r) by apply Hwf.
  assert (Hsize : 0 < size_of r < 268435456) by apply Hwf.
  destruct (Z.ltb_spec 0 (dropunit (hdr r))).
  - set (k := round_up (len - avail r) (dropunit (hdr r))).
    pose proof (round_up_bounds (len - avail r) (dropunit (hdr r)) ltac:(lia) ltac:(lia)).
    rewrite (s32_id (len - _ + _ - 1)) by lia.
    replace (len - avail r + dropunit (hdr r) - 1 - _) with k.
    2: { unfold k, round_up. rewrite Z.rem_mod_nonneg by lia.
         pose proof (Z.div_mod (len - avail r + dropunit (hdr r) - 1) (dropunit (hdr r))). nia. }
    rewrite (s32_id k) by lia. cbn.
    assert (Hrp : base (hdr r) <= rp (hdr r) < limit (hdr r)) by apply Hwf.
    destruct (move_adv r Hwf (rp (hdr r)) k Hrp ltac:(lia)) as [-> _]. done.
  - f_equal. rewrite wrapS_wrapU by lia. apply s32_id; lia.
Qed.

(** Writing [len <= avail] bytes that are already known to fit. *)
Lemma put_content r data len :
  rb_wf r -> 0 <= len <= avail r -> len <= Z.of_nat (length data) ->
  exists b, rb_copy_in (hdr r) (org r) (bytes r) data len = Some b /\
    let r' := mkRing (set_wp (hdr r)
                (ADF_RINGBUF_MOVE_PTR (wp (hdr r)) len (base (hdr r)) (limit (hdr r)))) (org r) b in
    rb_wf r' /\ size_of r' = size_of r /\ dropunit (hdr r') = dropunit (hdr r) /\
    content r' = if len <? avail r then content r ++ take (Z.to_nat len) data else [].
Proof.
  intros Hwf Hlen Hdata.
  pose proof (used_range r Hwf) as Hu. pose proof (avail_eq r Hwf) as Ha.
  destruct (rb_copy_in_spec r data len Hwf ltac:(lia) Hdata) as (b & Hb & Hlb & Hin & Hout).
  exists b. split; [done|]. cbv zeta.
  assert (Hwp : base (hdr r) <= wp (hdr r) < limit (hdr r)) by apply Hwf.
  destruct (move_adv r Hwf (wp (hdr r)) len Hwp ltac:(lia)) as [-> Hrange].
  set (r' := mkRing _ _ _).
  assert (Hwf' : rb_wf r') by (by apply wf_set_wp).
  assert (Hused : used r' = if len <? avail r then used r + len else 0).
  { rewrite Ha, (used_eq r' Hwf'). pose proof (used_eq r Hwf) as Hue. destruct Hwf.
    unfold adv, size_of in *. cbn in *. zcases; zcases_in Hue; zcases_in Hrange; lia. }
  split_and!; [done..|]. apply content_intro; rewrite Hused.
  - zcases; [|done]. rewrite length_app, length_take, length_content. lia.
  - intros i Hi. destruct (Z.ltb_spec len (avail r)); [|lia]. cbn.
    assert (Hpos : forall j, 0 <= j < used r + len ->
      adv (hdr r) (rp (hdr r)) j =
      adv (hdr r) (wp (hdr r)) (if j <? used r then j - used r + size_of r else j - used r)).
    { intros j Hj. pose proof (used_eq r Hwf) as Hue. destruct Hwf.
      unfold adv, size_of in *. zcases; zcases_in Hue; lia. }
    change (adv (set_wp _ _)) with (adv (hdr r)). rewrite Hpos by lia.
    destruct (Z.ltb_spec i (used r)).
    + rewrite byte_at_app_l by (rewrite length_content; lia).
      rewrite Hout, content_byte, Hpos by lia. zcases; lia || done.
    + rewrite byte_at_app_r by (rewrite length_content; lia).
      rewrite Hin by lia. rewrite length_content, byte_at_take by lia. f_equal; lia.
Qed.

Lemma take_whole (d : list Z) : take (Z.to_nat (Z.of_nat (length d))) d = d.
Proof. apply take_ge; lia. Qed.

(** [adfRingbuf_write] does to the bytes in the ring what [spec_write] says,
    the undefined copy of a negative length included. *)
Lemma write_spec r d :
  rb_wf r -> op_ok (size_of r) (dropunit (hdr r)) (RbWrite d) ->
  match spec_write (size_of r) (dropunit (hdr r)) (content r) d with
  | Some (q, n) =>
    exists r', adfRingbuf_write (Some r) (Some d) (Z.of_nat (length d)) = Some (Some r', n) /\
      rb_wf r' /\ content r' = q /\ size_of r' = size_of r /\
      dropunit (hdr r') = dropunit (hdr r)
  | None => adfRingbuf_write (Some r) (Some d) (Z.of_nat (length d)) = None
  end.
Proof.
  intros Hwf [Hfit Hsz]. pose proof (used_range r Hwf) as Hu. pose proof (avail_eq r Hwf) as Ha.
  unfold adfRingbuf_write, spec_write.
  rewrite length_content, Z2Nat.id by lia. rewrite <- Ha.
  destruct (Z.eqb_spec (Z.of_nat (length d)) 0) as [Hz|Hnz].
  { rewrite Hz. destruct (Z.ltb_spec 0 (avail r)); [|lia]. exists r. destruct d; [|done]. rewrite app_nil_r. done. }
  rewrite checkDrop_spec by (auto; lia).
  destruct (Z.leb_spec (avail r) (Z.of_nat (length d))),
    (Z.ltb_spec (Z.of_nat (length d)) (avail r)); try lia.
  - destruct (Z.ltb_spec 0 (dropunit (hdr r))).
    + cbv zeta. set (k := round_up _ _).
      pose proof (round_up_bounds (Z.of_nat (length d) - avail r) (dropunit (hdr r))
                    ltac:(lia) ltac:(lia)) as Hk. fold k in Hk.
      set (r0 := with_hdr r (set_drop (hdr r) (s32 (drop_ (hdr r) + k)))).
      assert (Hwf0 : rb_wf r0) by by apply wf_set_drop.
      destruct (advance_rp_content r0 k Hwf0) as (Hwf1 & Hu1 & Hc1); [change (used r0) with (used r); lia|].
      set (r1 := with_hdr r0 _) in *.
      change (used r0) with (used r) in Hu1. change (content r0) with (content r) in Hc1.
      pose proof (avail_eq r1 Hwf1) as Ha1. change (size_of r1) with (size_of r) in Ha1.
      destruct (put_content r1 d (Z.of_nat (length d)) Hwf1 ltac:(lia) ltac:(lia))
        as (b & Hb & Hwf2 & Hs2 & Hd2 & Hc2).
      change (rb_copy_in (hdr r1) (org r1) (bytes r1)) with
        (rb_copy_in (hdr r1) (org r) (bytes r)) in Hb.
      change (set_rp (set_drop (hdr r) _) _) with (hdr r1). rewrite Hb. cbn [mbind option_bind].
      rewrite take_whole in Hc2.
      destruct (Z.eqb_spec k (Z.of_nat (length d) - avail r)) as [He|Hne];
        eexists; (split; [reflexivity|]); (split; [exact Hwf2|]); (split; [|done]);
        (etransitivity; [exact Hc2|]);
        destruct (Z.ltb_spec (Z.of_nat (length d)) (avail r1)); try lia; by rewrite ?Hc1.
    + destruct (Z.ltb_spec (avail r) 4).
      * unfold rb_copy_in. destruct Hwf. unfold size_of in *. rewrite s32_id by lia.
        unfold mem_get. zcases; cbn; try lia; done.
      * destruct (put_content r d (avail r - 4) Hwf ltac:(lia) ltac:(lia))
          as (b & Hb & Hwf2 & Hs2 & Hd2 & Hc2).
        rewrite Hb. cbn [mbind option_bind]. eexists. split; [reflexivity|]. split; [exact Hwf2|].
        (split; [|done]). etransitivity; [exact Hc2|].
        destruct (Z.ltb_spec (avail r - 4) (avail r)); [done|lia].
  - destruct (put_content r d (Z.of_nat (length d)) Hwf ltac:(lia) ltac:(lia))
      as (b & Hb & Hwf2 & Hs2 & Hd2 & Hc2).
    rewrite Hb. cbn [mbind option_bind]. eexists. split; [reflexivity|]. split; [exact Hwf2|].
    (split; [|done]). etransitivity; [exact Hc2|]. rewrite take_whole.
    destruct (Z.ltb_spec (Z.of_nat (length d)) (avail r)); [done|lia].
Qed.

Lemma reset_spec r :
  rb_wf r ->
  exists r', adfRingbuf_reset (Some r) = (Some r', ADF_STATUS_OK) /\
    rb_wf r' /\ content r' = [] /\ size_of r' = size_of r /\ dropunit (hdr r') = dropunit (hdr r).
Proof.
  intros Hwf. unfold adfRingbuf_reset. destruct (wf_nonzero _ Hwf).
  destruct (Z.eqb_spec (base (hdr r)) 0), (Z.eqb_spec (limit (hdr r)) 0); try done. cbn.
  eexists. split; [reflexivity|].
  match goal with |- rb_wf ?x /\ _ => assert (Hwf' : rb_wf x) end.
  { destruct Hwf. constructor; unfold size_of in *; cbn in *; auto; lia. }
  split_and!; [done| |done|done]. apply content_intro; rewrite used_eq by done; cbn; zcases; lia.
Qed.

(** ** Properties *)

Lemma rb_run_spec r ops :
  rb_wf r -> Forall (op_ok (size_of r) (dropunit (hdr r))) ops ->
  match spec_run (size_of r) (dropunit (hdr r)) (content r) ops with
  | Some (q, os) => exists r', rb_run r ops = Some (r', os) /\ rb_wf r' /\ content r' = q
  | None => rb_run r ops = None
  end.
Proof.
  intros Hwf Hops. revert r Hwf Hops.
  induction ops as [|op ops IH]; intros r Hwf Hops; cbn; [by eauto|].
  apply Forall_cons_1 in Hops as [Hop Hops].
  assert (Hstep : match spec_run1 (size_of r) (dropunit (hdr r)) (content r) op with
    | Some (q, o) => exists r', rb_run1 r op = Some (r', o) /\ rb_wf r' /\ content r' = q /\
        size_of r' = size_of r /\ dropunit (hdr r') = dropunit (hdr r)
    | None => rb_run1 r op = None
    end).
  { destruct op as [d|n|n|]; cbn.
    - pose proof (write_spec r d Hwf Hop) as Hw.
      destruct (spec_write _ _ _ d) as [[q n]|]; cbn; [|by rewrite Hw].
      destruct Hw as (r' & -> & ?). exists r'. done.
    - destruct (flush_spec r n Hwf Hop) as (r' & -> & ? & ? & _ & ?). exists r'. done.
    - rewrite read_spec by done. cbn. exists r. done.
    - destruct (reset_spec r Hwf) as (r' & -> & ?). exists r'. done. }
  destruct (spec_run1 _ _ _ op) as [[q o]|]; cbn; [|by rewrite Hstep].
  destruct Hstep as (r' & -> & Hwf' & <- & Hs & Hd). cbn.
  rewrite <- Hs, <- Hd in Hops |- *. specialize (IH r' Hwf' Hops).
  destruct (spec_run _ _ _ ops) as [[q' os]|]; cbn; [|by rewrite IH].
  destruct IH as (r'' & -> & ? & ?). eauto.
Qed.

(** C17. Refinement: for every sequence of legal client requests, the ring
    buffer code behaves as the bounded byte queue [spec_run]: it returns the
    same bytes to the readers, holds the same bytes at the end, keeps its
    invariant, and makes an out-of-bounds copy exactly when the
    specification says so. *)
Theorem rb_run_refines r ops :
  rb_wf r -> Forall (op_ok (size_of r) (dropunit (hdr r))) ops ->
  match spec_run (size_of r) (dropunit (hdr r)) (content r) ops with
  | Some (q, os) => exists r', rb_run r ops = Some (r', os) /\ rb_wf r' /\ content r' = q
  | None => rb_run r ops = None
  end.
Proof. apply rb_run_spec. Qed.

(** [adfRingbuf_init] on any struct and any 4-byte-multiple block behind
    it establishes the invariant with an empty queue and no dropped bytes;
    a zero or unaligned size is rejected and changes nothing. *)
Theorem init_establishes r size unit :
  org r <> 0 -> org r + size <> 0 -> size = Z.of_nat (length (bytes r)) ->
  -1073741824 <= org r -> org r + size <= 1073741824 -> 0 <= size < 268435456 ->
  0 <= unit <= size ->
  if (size =? 0) || negb (Z.land size 3 =? 0)
  then adfRingbuf_init (Some r) (Some (org r)) size unit = (Some r, ADF_STATUS_NOT_SUPPORTED)
  else exists r', adfRingbuf_init (Some r) (Some (org r)) size unit = (Some r', ADF_STATUS_OK) /\
    rb_wf r' /\ content r' = [] /\ size_of r' = size /\ drop_ (hdr r') = 0 /\
    adfRingbuf_checkValid (hdr r') (org r) size = true.
Proof.
  intros Ho Hl Hs Hlo Hhi Hsz Hu. unfold adfRingbuf_init.
  destruct ((size =? 0) || negb (Z.land size 3 =? 0)) eqn:E; [done|].
  apply orb_false_iff in E as [E0 _]. apply Z.eqb_neq in E0.
  rewrite !s32_id by lia. unfold adfRingbuf_reset. cbn.
  destruct (Z.eqb_spec (org r) 0), (Z.eqb_spec (org r + size) 0); try done. cbn.
  eexists. split; [reflexivity|].
  match goal with |- rb_wf ?x /\ _ => assert (Hwf : rb_wf x) end.
  { constructor; unfold size_of; cbn; auto; lia. }
  split_and!; [done| |unfold size_of; cbn; lia|done|].
  - apply content_intro; rewrite used_eq by done; cbn; zcases; lia.
  - unfold adfRingbuf_checkValid, ADF_RINGBUF_IN_RANGE. cbn.
    rewrite Z.eqb_refl. zcases; cbn; lia || done.
Qed.

(** A write that overflows the free space by an exact multiple of the
    drop unit makes the write pointer catch up with the read pointer: the
    whole queue, new data included, is lost, although the drop counter only
    records the overflow. *)
Theorem write_exact_overflow_loses_all r d :
  rb_wf r -> op_ok (size_of r) (dropunit (hdr r)) (RbWrite d) ->
  0 < dropunit (hdr r) -> avail r <= Z.of_nat (length d) ->
  (Z.of_nat (length d) - avail r) mod dropunit (hdr r) = 0 ->
  exists r', adfRingbuf_write (Some r) (Some d) (Z.of_nat (length d))
             = Some (Some r', Z.of_nat (length d)) /\ rb_wf r' /\ content r' = [] /\ used r' = 0.
Proof.
  intros Hwf Hok Hu Hov Hmod. pose proof (used_range r Hwf). pose proof (avail_eq r Hwf) as Ha.
  pose proof (write_spec r d Hwf Hok) as Hw. unfold spec_write in Hw.
  rewrite length_content, Z2Nat.id in Hw by lia. rewrite <- Ha in Hw.
  destruct (Z.ltb_spec (Z.of_nat (length d)) (avail r)); [lia|].
  destruct (Z.ltb_spec 0 (dropunit (hdr r))); [|lia].
  assert (Hk : round_up (Z.of_nat (length d) - avail r) (dropunit (hdr r))
               = Z.of_nat (length d) - avail r).
  { unfold round_up. set (x := Z.of_nat (length d) - avail r) in *. set (u := dropunit (hdr r)) in *.
    apply Z.div_exact in Hmod; [|lia]. rewrite Hmod at 1.
    replace (u * (x / u) + u - 1) with ((u - 1) + (x / u) * u) by lia.
    rewrite Z.div_add, (Z.div_small (u - 1)) by lia. lia. }
  rewrite Hk, Z.eqb_refl in Hw. destruct Hw as (r' & He & Hwf' & Hc & _).
  exists r'. split_and!; [done..|]. pose proof (used_range r' Hwf').
  pose proof (length_content r') as Hl. rewrite Hc in Hl. cbn [length] in Hl. lia.
Qed.

(** The abstract queue under word-sized requests and no drop unit. *)
Lemma nodrop_spec_run1 size q op :
  size mod 4 = 0 -> Z.of_nat (length q) mod 4 = 0 -> Z.of_nat (length q) < size ->
  op_ok size 0 op -> word_op op ->
  exists q' o, spec_run1 size 0 q op = Some (q', o) /\
    Z.of_nat (length q') mod 4 = 0 /\ Z.of_nat (length q') < size.
Proof.
  intros Hs Hq Hlt Hop Hw. destruct op as [d|n|n|]; cbn in *.
  - unfold spec_write. change (0 <? 0) with false. cbn.
    destruct (Z.ltb_spec (Z.of_nat (length d)) (size - Z.of_nat (length q))); cbn.
    + do 2 eexists; split; [reflexivity|]. rewrite length_app. split; [|lia].
      by rewrite Nat2Z.inj_add, Z.add_mod, Hq, Hw by lia.
    + destruct (Z.ltb_spec (size - Z.of_nat (length q)) 4); cbn.
      { exfalso. Z.div_mod_to_equations. lia. }
      do 2 eexists; split; [reflexivity|]. rewrite length_app, length_take. split; [|lia].
      rewrite Nat.min_l, Nat2Z.inj_add, Z2Nat.id by lia.
      replace (Z.of_nat (length q) + _) with (size + (-1) * 4) by lia.
      by rewrite Z.mod_add by lia.
  - do 2 eexists; split; [reflexivity|]. rewrite length_drop. split; [|lia].
    Z.div_mod_to_equations. lia.
  - eauto.
  - do 2 eexists; split; [reflexivity|]. cbn. split; [done|lia].
Qed.

Lemma nodrop_spec_run size ops q :
  size mod 4 = 0 -> Z.of_nat (length q) mod 4 = 0 -> Z.of_nat (length q) < size ->
  Forall (op_ok size 0) ops -> Forall word_op ops ->
  exists q' os, spec_run size 0 q ops = Some (q', os) /\ Z.of_nat (length q') mod 4 = 0.
Proof.
  intros Hs. revert q. induction ops as [|op ops IH]; intros q Hq Hlt Hops Hw; cbn; [eauto|].
  apply Forall_cons_1 in Hops as [Hop Hops]. apply Forall_cons_1 in Hw as [Hw1 Hw].
  destruct (nodrop_spec_run1 size q op) as (q1 & o & -> & Hq1 & Hlt1); [done..|]. cbn.
  destruct (IH q1 Hq1 Hlt1 Hops Hw) as (q' & os & -> & Hq'). cbn. eauto.
Qed.

(** Without a drop unit, clients that always write and flush whole 32-bit
    words never cause an out-of-bounds copy, whatever the sequence of
    requests, and the queue stays a whole number of words. *)
Theorem nodrop_words_safe r ops :
  rb_wf r -> dropunit (hdr r) = 0 -> size_of r mod 4 = 0 -> used r mod 4 = 0 ->
  Forall (op_ok (size_of r) 0) ops -> Forall word_op ops ->
  exists r' os, rb_run r ops = Some (r', os) /\ rb_wf r' /\ used r' mod 4 = 0.
Proof.
  intros Hwf Hunit Hs4 Hu4 Hops Hwords. pose proof (used_range r Hwf) as Hur.
  destruct (nodrop_spec_run (size_of r) ops (content r)) as (q' & os & Hrun & Hq');
    [done|rewrite length_content, Z2Nat.id by lia; lia..|done|done|].
  pose proof (rb_run_spec r ops Hwf) as Href. rewrite Hunit, Hrun in Href.
  destruct (Href Hops) as (r' & Hr' & Hwf' & Hc). exists r', os. split_and!; [done..|].
  pose proof (used_range r' Hwf'). rewrite <- Hc, length_content, Z2Nat.id in Hq' by lia. done.
Qed.

(** [adfRingbuf_reserve] gives back what [adfRingbuf_flush] took. *)
Lemma move_back r k :
  rb_wf r -> 0 <= k <= used r -> 
  ADF_RINGBUF_MOVE_PTR (adv (hdr r) (rp (hdr r)) k) (s32 (limit (hdr r) - base (hdr r) - k))
    (base (hdr r)) (limit (hdr r)) = rp (hdr r).
Proof.
  intros Hwf Hk. pose proof (used_range r Hwf). destruct Hwf.
  unfold ADF_RINGBUF_MOVE_PTR, adv, size_of in *.
  rewrite (s32_id (limit (hdr r) - base (hdr r) - k)) by lia.
  destruct (Z.ltb_spec k (limit (hdr r) - rp (hdr r)));
    rewrite (s32_id (limit (hdr r) - _)) by lia; zcases; unwrap; lia.
Qed.

(** Reserving is the inverse of flushing: after flushing [n] bytes of a
    queue that holds them, reserving [n] bytes restores the very same state. *)
Theorem reserve_undoes_flush r n :
  rb_wf r -> 0 < n <= used r ->
  exists r', adfRingbuf_flush (Some r) n = (Some r', n) /\
    adfRingbuf_reserve (Some r') n = Some (Some r, n).
Proof.
  intros Hwf Hn. pose proof (used_range r Hwf) as Hu.
  assert (Hrp : base (hdr r) <= rp (hdr r) < limit (hdr r)) by apply Hwf.
  destruct (advance_rp_content r n Hwf ltac:(lia)) as (Hwf' & Hu' & _).
  set (r' := with_hdr r (set_rp (hdr r) (adv (hdr r) (rp (hdr r)) n))) in *.
  pose proof (avail_eq r' Hwf') as Ha'. change (size_of r') with (size_of r) in Ha'.
  exists r'. split.
  - unfold adfRingbuf_flush. change (ADF_RINGBUF_CALC_RW_SIZE _ _ _ _) with (used r).
    destruct (Z.eqb_spec n 0), (Z.ltb_spec (used r) n); try lia.
    by destruct (move_adv r Hwf (rp (hdr r)) n Hrp ltac:(lia)) as [-> _].
  - unfold adfRingbuf_reserve. change (ADF_RINGBUF_CALC_WR_SIZE _ _ _ _) with (avail r').
    destruct (Z.eqb_spec n 0), (Z.leb_spec (avail r') n); try lia. cbn.
    change (set_rp (set_rp ?h _) ?v) with (set_rp h v).
    rewrite move_back by (auto; lia). by destruct r as [[]].
Qed.

(** ** Witnesses *)

Lemma sample_wf unit : 0 <= unit <= 8 -> rb_wf (sample_ring unit).
Proof. intros. constructor; unfold size_of; cbn; lia. Qed.

Lemma rb_run_refines_witness :
  exists r', rb_run (sample_ring 2) [RbWrite [9; 9; 9]; RbRead 2; RbFlush 3; RbWrite [7; 7; 7; 7; 7]]
             = Some (r', [[]; [5; 6]; []; []]) /\ rb_wf r' /\ content r' = [9; 9; 7; 7; 7; 7; 7].
Proof.
  assert (Hops : Forall (op_ok (size_of (sample_ring 2)) (dropunit (hdr (sample_ring 2))))
    [RbWrite [9; 9; 9]; RbRead 2; RbFlush 3; RbWrite [7; 7; 7; 7; 7]])
    by (repeat constructor; cbn; unfold size_of; cbn; lia).
  exact (rb_run_refines (sample_ring 2) _ (sample_wf 2 ltac:(lia)) Hops).
Defined.

Lemma init_establishes_witness :
  exists r', adfRingbuf_init (Some (sample_ring 0)) (Some 32) 8 4 = (Some r', ADF_STATUS_OK) /\
    rb_wf r' /\ content r' = [] /\ size_of r' = 8 /\ drop_ (hdr r') = 0 /\
    adfRingbuf_checkValid (hdr r') 32 8 = true.
Proof. apply (init_establishes (sample_ring 0) 8 4); cbn; lia. Defined.

Lemma write_exact_overflow_loses_all_witness :
  exists r', adfRingbuf_write (Some (sample_ring 1)) (Some [9; 9; 9; 9; 9; 9; 9]) 7
             = Some (Some r', 7) /\ rb_wf r' /\ content r' = [] /\ used r' = 0.
Proof.
  apply (write_exact_overflow_loses_all (sample_ring 1) [9; 9; 9; 9; 9; 9; 9]);
    [apply sample_wf; lia|cbn; unfold size_of; cbn; lia|cbn; lia|vm_compute; discriminate|reflexivity].
Defined.

Lemma nodrop_words_safe_witness :
  exists r' os, rb_run word_ring [RbWrite [1; 1; 1; 1; 1; 1; 1; 1]; RbWrite [2; 2; 2; 2]]
    = Some (r', os) /\ rb_wf r' /\ used r' mod 4 = 0.
Proof.
  apply nodrop_words_safe; [constructor; unfold size_of; cbn; lia|reflexivity..| |];
    repeat constructor; cbn; unfold size_of; cbn; lia.
Defined.

Lemma reserve_undoes_flush_witness :
  exists r', adfRingbuf_flush (Some (sample_ring 2)) 2 = (Some r', 2) /\
    adfRingbuf_reserve (Some r') 2 = Some (Some (sample_ring 2), 2).
Proof.
  apply (reserve_undoes_flush (sample_ring 2) 2);
    [apply sample_wf; lia|vm_compute; split; [reflexivity|discriminate]].
Defined.
