(* ===== verification/Cli.v ===== *)
(** * DSP framework: the command line to the DSP (dspframework/src/cli.c)

    [adfCli_send] splits a command at separators and writes the parameters,
    each with a terminating NUL, into the ring buffer shared with the DSP. *)

From stdpp Require Import base tactics numbers list option.
From S2P Require Import Prelude Ringbuf.

(** ** The code *)

(** [' '], ['\t'], ['\r'] and ['\n']. *)
Definition is_separator (c : Z) : bool := (c =? 32) || (c =? 9) || (c =? 13) || (c =? 10).

(** The [for] loop, from index [i]; [rest] are the characters from [i] on and
    [paramP] is an offset in [inBuf]. *)
Fixpoint cli_loop (inBuf rest : list Z) (i paramP : Z) (rbuf : ring) : option ring :=
  match rest with
  | [] => Some rbuf
  | c :: rest =>
    if is_separator c then
      let paramLen := i - paramP in
      if 0 <? paramLen then
        '(rb, _) ← adfRingbuf_write (Some rbuf) (Some (drop (Z.to_nat paramP) inBuf)) (u32 paramLen);
        '(rb, _) ← adfRingbuf_write rb (Some [0; 0]) 1;
        rbuf ← rb;
        let rbuf := with_hdr rbuf (set_cli (hdr rbuf) (s32 (u0 (hdr rbuf) + 1)) (u1 (hdr rbuf))) in
        cli_loop inBuf rest (i + 1) (i + 1) rbuf
      else cli_loop inBuf rest (i + 1) paramP rbuf
    else cli_loop inBuf rest (i + 1) paramP rbuf
  end.

(** [None]: a read past [inBuf] or a copy outside of the ring. *)
Definition adfCli_send (cliAddr : option ring) (inBuf : list Z) (inBufLen : Z)
  : option (option ring * Z) :=
  match cliAddr with
  | None => Some (None, inBufLen)
  | Some rbuf =>
    rbuf ← (adfRingbuf_reset (Some rbuf)).1;
    let rbuf := with_hdr rbuf (set_cli (hdr rbuf) 0 0) in
    chars ← mem_get inBuf 0 (Z.max 0 inBufLen);
    rbuf ← cli_loop inBuf chars 0 0 rbuf;
    let rbuf := if 0 <? u0 (hdr rbuf)
                then with_hdr rbuf (set_cli (hdr rbuf) (u0 (hdr rbuf)) 1) else rbuf in
    Some (Some rbuf, inBufLen)
  end.

(** ** Specification *)

(** The parameters of a command, [cur] being the characters since [paramP]: a
    separator that directly follows another one stays in the next parameter. *)
Fixpoint cli_params (cur rest : list Z) : list (list Z) :=
  match rest with
  | [] => []
  | c :: rest =>
    if is_separator c && (0 <? Z.of_nat (length cur)) then cur :: cli_params [] rest
    else cli_params (cur ++ [c]) rest
  end.

(** Parameters as the DSP finds them in the ring. *)
Definition cli_encode (ps : list (list Z)) : list Z := mjoin ((λ p, p ++ [0]) <$> ps).

(** Words, each followed by its separator. *)
Definition cli_line (ws : list (list Z * Z)) : list Z := mjoin ((λ w, w.1 ++ [w.2]) <$> ws).

Definition word (w : list Z) : Prop := w <> [] /\ Forall (fun c => is_separator c = false) w.
Definition word_sep (w : list Z * Z) : Prop := word w.1 /\ is_separator w.2 = true.

(** ** Theorems *)

(** A write that fits appends its bytes and moves only the write pointer. *)
Lemma write_fits r data len :
  rb_wf r -> 0 < len < avail r -> len <= Z.of_nat (length data) ->
  exists r', adfRingbuf_write (Some r) (Some data) len = Some (Some r', len) /\
    rb_wf r' /\ size_of r' = size_of r /\ content r' = content r ++ take (Z.to_nat len) data /\
    u0 (hdr r') = u0 (hdr r) /\ u1 (hdr r') = u1 (hdr r) /\ org r' = org r.
Proof.
  intros Hwf Hlen Hdata. unfold adfRingbuf_write.
  destruct (Z.eqb_spec len 0); [lia|]. unfold adfRingbuf_checkDrop.
  change (ADF_RINGBUF_CALC_WR_SIZE _ _ _ _) with (avail r).
  destruct (Z.leb_spec (avail r) len); [lia|].
  destruct (put_content r data len Hwf ltac:(lia) Hdata) as (b & Hb & Hwf2 & Hs2 & _ & Hc2).
  rewrite Hb. cbn [mbind option_bind]. eexists. split; [reflexivity|].
  split_and!; [done | done | | done | done | done]. etransitivity; [exact Hc2|].
  destruct (Z.ltb_spec len (avail r)); [done|lia].
Qed.

(** Only the header words [u0]/[u1] change with [set_cli]. *)
Lemma set_cli_wf r a b :
  rb_wf r -> let r' := with_hdr r (set_cli (hdr r) a b) in
  rb_wf r' /\ content r' = content r /\ size_of r' = size_of r.
Proof. intros []. split_and!; [|done..]. constructor; auto. Qed.

Lemma length_cli_encode_cons p ps :
  Z.of_nat (length (cli_encode (p :: ps))) = Z.of_nat (length p) + 1 + Z.of_nat (length (cli_encode ps)).
Proof.
  change (cli_encode (p :: ps)) with ((p ++ [0]) ++ cli_encode ps).
  rewrite !length_app. cbn [length]. lia.
Qed.

Lemma cli_loop_spec inBuf rest : forall pre r paramP,
  inBuf = pre ++ rest -> rb_wf r -> 0 <= paramP <= Z.of_nat (length pre) ->
  Z.of_nat (length inBuf) < 2147483648 -> 0 <= u0 (hdr r) -> u0 (hdr r) + Z.of_nat (length rest) < 2147483648 ->
  let ps := cli_params (drop (Z.to_nat paramP) pre) rest in
  used r + Z.of_nat (length (cli_encode ps)) < size_of r ->
  exists r', cli_loop inBuf rest (Z.of_nat (length pre)) paramP r = Some r' /\
    rb_wf r' /\ size_of r' = size_of r /\ content r' = content r ++ cli_encode ps /\
    u0 (hdr r') = u0 (hdr r) + Z.of_nat (length ps) /\ u1 (hdr r') = u1 (hdr r) /\
    org r' = org r.
Proof.
  induction rest as [|c rest IH]; intros pre r paramP Hin Hwf HP Hlen Hu0 Hu0' ps Hfit.
  { exists r. subst ps. cbn. rewrite app_nil_r, Z.add_0_r. split_and!; done. }
  assert (Hin' : inBuf = (pre ++ [c]) ++ rest) by (by rewrite <- app_assoc).
  assert (Hl' : Z.of_nat (length (pre ++ [c])) = Z.of_nat (length pre) + 1)
    by (rewrite length_app; cbn [length]; lia).
  assert (Hdl : length (drop (Z.to_nat paramP) pre) = Z.to_nat (Z.of_nat (length pre) - paramP))
    by (rewrite length_drop; lia).
  cbn [cli_loop cli_params length] in *. subst ps.
  assert (Hskip : drop (Z.to_nat paramP) (pre ++ [c]) = drop (Z.to_nat paramP) pre ++ [c])
    by (apply drop_app_le; lia).
  destruct (is_separator c); cbn [andb] in *;
    [|specialize (IH (pre ++ [c]) r paramP Hin' Hwf ltac:(lia) Hlen Hu0 ltac:(lia));
      rewrite Hskip, Hl' in IH; by apply IH].
  rewrite Hdl in *.
  destruct (Z.ltb_spec 0 (Z.of_nat (length pre) - paramP)) as [Hpos|];
    destruct (Z.ltb_spec 0 (Z.of_nat (Z.to_nat (Z.of_nat (length pre) - paramP)))); try lia;
    [|specialize (IH (pre ++ [c]) r paramP Hin' Hwf ltac:(lia) Hlen Hu0 ltac:(lia));
      rewrite Hskip, Hl' in IH; by apply IH].
  rewrite length_cli_encode_cons, Hdl in Hfit.
  pose proof (avail_eq r Hwf) as Ha.
  assert (Hil : Z.of_nat (length inBuf) = Z.of_nat (length pre) + 1 + Z.of_nat (length rest))
    by (rewrite Hin, length_app; cbn [length]; lia).
  rewrite u32_id by lia.
  destruct (write_fits r (drop (Z.to_nat paramP) inBuf) (Z.of_nat (length pre) - paramP) Hwf)
    as (r1 & -> & Hwf1 & Hs1 & Hc1 & Ha1 & Hb1 & Ho1); [lia | rewrite length_drop; lia |].
  cbn [mbind option_bind].
  assert (Ht : take (Z.to_nat (Z.of_nat (length pre) - paramP)) (drop (Z.to_nat paramP) inBuf)
               = drop (Z.to_nat paramP) pre).
  { rewrite Hin, drop_app_le by lia. rewrite <- Hdl. by rewrite take_app_length. }
  rewrite Ht in Hc1.
  assert (Hu1 : used r1 = used r + (Z.of_nat (length pre) - paramP)).
  { pose proof (length_content r1) as H1. pose proof (length_content r) as H0.
    pose proof (used_range r Hwf). pose proof (used_range r1 Hwf1).
    rewrite Hc1, length_app, Hdl in H1. lia. }
  pose proof (avail_eq r1 Hwf1) as Hav1.
  destruct (write_fits r1 [0; 0] 1 Hwf1) as (r2 & -> & Hwf2 & Hs2 & Hc2 & Ha2 & Hb2 & Ho2);
    [lia | cbn [length]; lia |].
  cbn [mbind option_bind]. change (take (Z.to_nat 1) [0; 0]) with [0] in Hc2.
  destruct (set_cli_wf r2 (s32 (u0 (hdr r2) + 1)) (u1 (hdr r2)) Hwf2) as (Hwf3 & Hc3 & Hs3).
  set (r3 := with_hdr r2 _) in *.
  assert (Hu3 : u0 (hdr r3) = u0 (hdr r) + 1)
    by (cbn; rewrite Ha2, Ha1; apply s32_id; lia).
  assert (Hused3 : used r3 = used r + (Z.of_nat (length pre) - paramP) + 1).
  { pose proof (length_content r3) as H3. rewrite Hc3, Hc2, length_app, length_content in H3.
    cbn [length] in H3. pose proof (used_range r3 Hwf3). pose proof (used_range r1 Hwf1). lia. }
  destruct (IH (pre ++ [c]) r3 (Z.of_nat (length pre) + 1) Hin' Hwf3 ltac:(lia) Hlen ltac:(lia) ltac:(lia))
    as (r' & Hr & Hwf' & Hs' & Hc' & Hu' & Hb' & Ho').
  { rewrite drop_ge by lia. rewrite Hused3, Hs3, Hs2, Hs1. lia. }
  rewrite Hl' in Hr. rewrite drop_ge in Hc', Hu' by lia.
  exists r'. split; [exact Hr|]. split; [done|]. split; [congruence|]. split.
  - rewrite Hc', Hc3, Hc2, Hc1. unfold cli_encode. cbn. by rewrite <- !app_assoc.
  - cbn [length]. split; [lia|]. rewrite Hb', Ho'. cbn. split; congruence.
Qed.

(** What [adfCli_send] leaves in the ring, for a command that fits. *)
Lemma cli_send_spec r inBuf :
  rb_wf r -> Z.of_nat (length inBuf) < 2147483648 ->
  Z.of_nat (length (cli_encode (cli_params [] inBuf))) < size_of r ->
  exists r', adfCli_send (Some r) inBuf (Z.of_nat (length inBuf))
             = Some (Some r', Z.of_nat (length inBuf)) /\ rb_wf r' /\
    content r' = cli_encode (cli_params [] inBuf) /\
    u0 (hdr r') = Z.of_nat (length (cli_params [] inBuf)) /\
    u1 (hdr r') = (if 0 <? Z.of_nat (length (cli_params [] inBuf)) then 1 else 0) /\
    size_of r' = size_of r /\ org r' = org r.
Proof.
  intros Hwf Hlen Hfit. unfold adfCli_send.
  destruct (reset_spec r Hwf) as (r0 & Hr0 & Hwf0 & Hc0 & Hs0 & _).
  assert (Ho0 : org r0 = org r).
  { unfold adfRingbuf_reset in Hr0. destruct (_ || _); by injection Hr0 as <-. }
  rewrite Hr0. cbn [fst mbind option_bind].
  destruct (set_cli_wf r0 0 0 Hwf0) as (Hwf1 & Hc1 & Hs1). set (r1 := with_hdr r0 _) in *.
  replace (mem_get inBuf 0 (Z.max 0 (Z.of_nat (length inBuf)))) with (Some inBuf).
  2: { unfold mem_get. rewrite Z.max_r by lia. zcases; cbn; try lia.
       by rewrite drop_0, take_ge by lia. }
  cbn [mbind option_bind].
  assert (Hused : used r1 = 0).
  { pose proof (length_content r1) as Hl. rewrite Hc1, Hc0 in Hl. cbn [length] in Hl.
    pose proof (used_range r1 Hwf1). lia. }
  destruct (cli_loop_spec inBuf inBuf [] r1 0 eq_refl Hwf1) as (r2 & Hr2 & Hwf2 & Hs2 & Hc2 & Hu2 & Hv2 & Ho2);
    [done | done | cbn; lia | cbn; lia | rewrite drop_nil, Hused, Hs1, Hs0; lia |].
  change (Z.of_nat (length [])) with 0 in Hr2. rewrite Hr2. cbn [mbind option_bind].
  rewrite drop_nil, Hc1, Hc0 in Hc2. cbn [app] in Hc2. rewrite drop_nil in Hu2.
  change (u0 (hdr r1)) with 0 in Hu2. rewrite Z.add_0_l in Hu2. rewrite Hu2.
  destruct (Z.ltb_spec 0 (Z.of_nat (length (cli_params [] inBuf)))).
  - destruct (set_cli_wf r2 (Z.of_nat (length (cli_params [] inBuf))) 1 Hwf2) as (Hwf3 & Hc3 & Hs3).
    eexists. split; [reflexivity|]. split_and!; [done | by rewrite Hc3 | done | done | |].
    + etransitivity; [exact Hs3|]. etransitivity; [exact Hs2|]. etransitivity; [exact Hs1 | exact Hs0].
    + etransitivity; [exact Ho2 | exact Ho0].
  - exists r2. split_and!; try done; [|etransitivity; [exact Ho2 | exact Ho0]].
    etransitivity; [exact Hs2|]. etransitivity; [exact Hs1 | exact Hs0].
Qed.

(** *** The parameters of well-formed and of other lines *)

Lemma cli_params_word cur w s rest :
  Forall (fun c => is_separator c = false) w -> is_separator s = true -> (0 < length (cur ++ w))%nat ->
  cli_params cur (w ++ s :: rest) = (cur ++ w) :: cli_params [] rest.
Proof.
  revert cur; induction w as [|c w IH]; intros cur Hw Hs Hne.
  - rewrite app_nil_r in *. cbn [app cli_params]. rewrite Hs.
    destruct (Z.ltb_spec 0 (Z.of_nat (length cur))); [done|lia].
  - apply Forall_cons_1 in Hw as [Hc Hw]. cbn [app cli_params]. rewrite Hc. cbn [andb].
    rewrite IH by (auto; rewrite length_app; cbn [length]; rewrite length_app; cbn [length]; lia).
    by rewrite <- app_assoc.
Qed.

Lemma cli_params_line ws rest :
  Forall word_sep ws -> cli_params [] (cli_line ws ++ rest) = ws.*1 ++ cli_params [] rest.
Proof.
  intros Hws. induction Hws as [|[w s] ws [[Hne Hw] Hs] _ IH]; [done|].
  change (cli_line ((w, s) :: ws)) with ((w ++ [s]) ++ cli_line ws).
  rewrite <- !app_assoc. cbn [app].
  rewrite cli_params_word by (first [assumption | destruct w; [done|cbn; lia]]). by rewrite IH.
Qed.

Lemma cli_params_tail cur t : Forall (fun c => is_separator c = false) t -> cli_params cur t = [].
Proof.
  intros Ht. revert cur. induction Ht as [|c t Hc _ IH]; intros cur; [done|].
  cbn [cli_params]. rewrite Hc. apply IH.
Qed.

Lemma length_cli_encode_line ws : length (cli_encode ws.*1) = length (cli_line ws).
Proof.
  induction ws as [|[w s] ws IH]; [done|].
  change (cli_line ((w, s) :: ws)) with ((w ++ [s]) ++ cli_line ws).
  change (cli_encode ((w, s) :: ws).*1) with ((w ++ [0]) ++ cli_encode ws.*1).
  rewrite !length_app, IH. cbn [length]. done.
Qed.

(** Round trip: a command of words, each followed by one separator, is
    left in the DSP's ring as exactly those words with terminating NULs,
    [argc] counts them, and the ring is flagged valid; nothing else of an
    earlier command remains. *)
Theorem cli_send_words r ws :
  rb_wf r -> Forall word_sep ws -> ws <> [] ->
  Z.of_nat (length (cli_line ws)) < size_of r ->
  exists r', adfCli_send (Some r) (cli_line ws) (Z.of_nat (length (cli_line ws)))
             = Some (Some r', Z.of_nat (length (cli_line ws))) /\ rb_wf r' /\
    content r' = cli_encode ws.*1 /\ u0 (hdr r') = Z.of_nat (length ws) /\ u1 (hdr r') = 1.
Proof.
  intros Hwf Hws Hne Hfit. pose proof (cli_params_line ws [] Hws) as Hp.
  rewrite app_nil_r in Hp. cbn [cli_params] in Hp. rewrite app_nil_r in Hp.
  assert (Hsz : size_of r < 268435456) by apply Hwf.
  pose proof (length_cli_encode_line ws) as Hel.
  destruct (cli_send_spec r (cli_line ws) Hwf ltac:(lia)) as (r' & Hr & Hwf' & Hc & Hu & Hv & _);
    rewrite Hp in *; [lia|].
  rewrite length_fmap in *. exists r'. split_and!; [done..|].
  rewrite Hv. destruct ws; [done|]. cbn [length]. by destruct (Z.ltb_spec 0 (Z.of_nat (S (length ws)))); [|lia].
Qed.

(** Two separators in a row and a missing final separator corrupt the
    command: the second separator becomes the first character of the next
    parameter, and the characters after the last separator are not sent. *)
Theorem cli_send_separators r a s1 s2 b s3 t :
  rb_wf r -> word a -> word b -> Forall (fun c => is_separator c = false) t ->
  is_separator s1 = true -> is_separator s2 = true -> is_separator s3 = true ->
  let line := a ++ s1 :: s2 :: b ++ s3 :: t in
  Z.of_nat (length line) < size_of r ->
  exists r', adfCli_send (Some r) line (Z.of_nat (length line))
             = Some (Some r', Z.of_nat (length line)) /\
    content r' = cli_encode [a; s2 :: b] /\ u0 (hdr r') = 2.
Proof.
  intros Hwf [Ha Hwa] [Hb Hwb] Ht H1 H2 H3 line Hfit.
  assert (Hp : cli_params [] line = [a; s2 :: b]).
  { unfold line. rewrite (cli_params_word [] a) by (first [assumption | destruct a; [done|cbn; lia]]).
    cbn [app cli_params length]. rewrite H2. change (0 <? Z.of_nat 0) with false. cbn [andb app].
    rewrite (cli_params_word [s2] b) by (auto; cbn; lia).
    by rewrite cli_params_tail. }
  assert (Hsz : size_of r < 268435456) by apply Hwf.
  destruct (cli_send_spec r line Hwf ltac:(lia)) as (r' & Hr & _ & Hc & Hu & _); rewrite Hp in *.
  - unfold line in Hfit. rewrite !length_app in Hfit. cbn [length] in Hfit.
    rewrite length_app in Hfit. cbn [length] in Hfit.
    rewrite !length_cli_encode_cons. cbn [length cli_encode]. change (length (cli_encode [])) with 0%nat. lia.
  - exists r'. done.
Qed.

(** ** Instances of the properties *)

Definition cli_ring : ring := mkRing (mkRingbuf 32 48 38 36 5 0 7 (-1)) 32 (replicate 16 255).

Lemma cli_ring_wf : rb_wf cli_ring.
Proof. constructor; cbn; lia || done. Qed.

Lemma cli_send_words_witness :
  exists r', adfCli_send (Some cli_ring) [115; 101; 116; 32; 51; 10] 6 = Some (Some r', 6) /\
    content r' = [115; 101; 116; 0; 51; 0] /\ u0 (hdr r') = 2.
Proof.
  destruct (cli_send_words cli_ring [([115; 101; 116], 32); ([51], 10)] cli_ring_wf)
    as (r' & H1 & _ & H2 & H3 & _).
  - repeat constructor; discriminate.
  - discriminate.
  - vm_compute; reflexivity.
  - exists r'. split; [exact H1|]. split; [exact H2 | exact H3].
Defined.

Lemma cli_send_separators_witness :
  exists r', adfCli_send (Some cli_ring) [97; 32; 32; 98; 32; 99] 6 = Some (Some r', 6) /\
    content r' = [97; 0; 32; 98; 0].
Proof.
  destruct (cli_send_separators cli_ring [97] 32 32 [98] 32 [99] cli_ring_wf) as (r' & H1 & H2 & _);
    [repeat constructor; discriminate | repeat constructor; discriminate | repeat constructor
    | reflexivity | reflexivity | reflexivity | vm_compute; reflexivity |].
  exists r'. split; [exact H1 | exact H2].
Defined.
