(* ===== verification/DspState.v ===== *)
(** * DSP framework: the state words (dspframework/src/state.c)

    The current state, the last state and the option flag are the first three
    32-bit words of the STA section's buffer. *)

From stdpp Require Import base tactics numbers list option.
From S2P Require Import Prelude.

(** ** state.h *)

Definition ADF_STATE_DEF : Z := 0.
Definition ADF_STATE_INIT : Z := 16.   (* 0x10 *)
Definition ADF_STATE_RUN : Z := 32.    (* 0x20 *)
Definition ADF_STATE_LPWR : Z := 64.   (* 0x40 *)
Definition ADF_STATE_VAD : Z := 65.    (* 0x41 *)
Definition ADF_STATE_ERR : Z := 240.   (* 0xF0 *)
Definition ADF_OPT_NONE : Z := 0.

(** ** The code *)

(** The three pointers as offsets from [addr], and the result; [NULL] for an
    address that is [NULL]. *)
Definition _adfState_addrConv {A} (addr : option A) : option (Z * Z * Z) * Z :=
  match addr with
  | Some _ => (Some (0, 4, 8), 0)
  | None => (None, -1)
  end.

(** Reads the word the conversion picks; [None] is an access outside of the
    buffer. *)
Definition read_word (addr : option (list Z)) (pick : Z * Z * Z -> Z) (default : Z) : option Z :=
  match addr, _adfState_addrConv addr with
  | Some buf, (Some p, _) => get32 buf (pick p)
  | _, _ => Some default
  end.

Definition adfState_getLast (addr : option (list Z)) : option Z :=
  read_word addr (fun p => p.1.2) ADF_STATE_DEF.
Definition adfState_get (addr : option (list Z)) : option Z :=
  read_word addr (fun p => p.1.1) ADF_STATE_DEF.
Definition adfState_getOpt (addr : option (list Z)) : option Z :=
  read_word addr (fun p => p.2) ADF_OPT_NONE.

Definition adfState_set (addr : option (list Z)) (state : Z) : option (option (list Z)) :=
  match addr, _adfState_addrConv addr with
  | Some buf, (Some (adfState, adfStateLast, _), _) =>
    cur ← get32 buf adfState;
    if cur =? state then Some (Some buf) else
    buf ← put32 buf adfStateLast cur;
    buf ← put32 buf adfState state;
    Some (Some buf)
  | _, _ => Some addr
  end.

Definition adfState_setOpt (addr : option (list Z)) (opt : Z) : option (option (list Z)) :=
  match addr, _adfState_addrConv addr with
  | Some buf, (Some (_, _, adfStateOpt), _) =>
    buf ← put32 buf adfStateOpt opt; Some (Some buf)
  | _, _ => Some addr
  end.

(** ** Specification *)

(** A request to the state words. *)
Inductive state_op := StSet (state : Z) | StOpt (opt : Z).

Definition run_state_op (buf : option (list Z)) (o : state_op) : option (option (list Z)) :=
  match o with StSet s => adfState_set buf s | StOpt v => adfState_setOpt buf v end.

Fixpoint run_state (buf : option (list Z)) (os : list state_op) : option (option (list Z)) :=
  match os with
  | [] => Some buf
  | o :: os => buf ← run_state_op buf o; run_state buf os
  end.

(** The history of distinct states, newest first, and the option. *)
Definition hist_step (h : list Z * Z) (o : state_op) : list Z * Z :=
  match o with
  | StSet s => (if decide (head h.1 = Some s) then h.1 else s :: h.1, h.2)
  | StOpt v => (h.1, v)
  end.

Definition op_word (o : state_op) : Prop :=
  match o with StSet v | StOpt v => 0 <= v < 4294967296 end.

(** The words show the two newest entries of the history. *)
Definition shows (buf : list Z) (h : list Z * Z) : Prop :=
  exists a b rest, h.1 = a :: b :: rest /\
    adfState_get (Some buf) = Some a /\ adfState_getLast (Some buf) = Some b /\
    adfState_getOpt (Some buf) = Some h.2.

#[global] Arguments adfState_set : simpl never.
#[global] Arguments adfState_get : simpl never.

(** ** Theorems *)

Lemma state_step buf h o :
  12 <= Z.of_nat (length buf) -> op_word o -> shows buf h ->
  Forall (fun v => 0 <= v < 4294967296) h.1 ->
  exists buf', run_state_op (Some buf) o = Some (Some buf') /\
    length buf' = length buf /\ shows buf' (hist_step h o) /\
    Forall (fun v => 0 <= v < 4294967296) (hist_step h o).1 /\
    (forall a, 12 <= a -> get32 buf' a = get32 buf a).
Proof.
  intros Hlen Ho (a & b & rest & Hh & Ha & Hb & Hop) Hw.
  unfold adfState_get, adfState_getLast, adfState_getOpt, read_word in Ha, Hb, Hop.
  cbn [_adfState_addrConv fst snd] in Ha, Hb, Hop.
  destruct o as [s|v]; cbn [run_state_op hist_step op_word] in *.
  - unfold adfState_set. cbn [_adfState_addrConv]. rewrite Ha. cbn [mbind option_bind].
    rewrite Hh. cbn [head fst]. destruct (Z.eqb_spec a s) as [->|Hne].
    { exists buf. rewrite decide_True by done. split_and!; [done | done | | by rewrite <- Hh | done].
      exists s, b, rest. split_and!; done. }
    rewrite decide_False by congruence.
    destruct (put32_is_Some buf 4 a) as [b1 H1]; [lia..|]. rewrite H1. cbn [mbind option_bind].
    destruct (put32_is_Some b1 0 s) as [b2 H2]; [lia | rewrite (length_put32 _ _ _ _ H1); lia |].
    rewrite H2. cbn [mbind option_bind]. exists b2.
    assert (Ha32 : 0 <= a < 4294967296) by (rewrite Hh in Hw; by apply Forall_inv in Hw).
    split_and!; [done | by rewrite (length_put32 _ _ _ _ H2), (length_put32 _ _ _ _ H1) | | | ].
    + exists s, a, (b :: rest). unfold adfState_get, adfState_getLast, adfState_getOpt, read_word.
      cbn [_adfState_addrConv fst snd]. split_and!; [done | | |].
      * by rewrite (get32_put32_eq _ _ _ _ H2).
      * rewrite (get32_put32_ne _ _ _ _ 4 H2) by lia. by rewrite (get32_put32_eq _ _ _ _ H1).
      * rewrite (get32_put32_ne _ _ _ _ 8 H2), (get32_put32_ne _ _ _ _ 8 H1) by lia. done.
    + rewrite <- Hh. by constructor.
    + intros x Hx. by rewrite (get32_put32_ne _ _ _ _ x H2), (get32_put32_ne _ _ _ _ x H1) by lia.
  - unfold adfState_setOpt. cbn [_adfState_addrConv].
    destruct (put32_is_Some buf 8 v) as [b1 H1]; [lia..|]. rewrite H1. cbn [mbind option_bind].
    exists b1. split_and!; [done | by rewrite (length_put32 _ _ _ _ H1) | | done |].
    + exists a, b, rest. unfold adfState_get, adfState_getLast, adfState_getOpt, read_word.
      cbn [_adfState_addrConv fst snd]. split_and!; [done | | |].
      * by rewrite (get32_put32_ne _ _ _ _ 0 H1) by lia.
      * by rewrite (get32_put32_ne _ _ _ _ 4 H1) by lia.
      * by rewrite (get32_put32_eq _ _ _ _ H1).
    + intros x Hx. by rewrite (get32_put32_ne _ _ _ _ x H1) by lia.
Qed.

(** Refinement: for any sequence of state and option updates the three
    words show the newest two entries of the history of distinct states and
    the last option; setting the state it already has never overwrites the
    last state, and no byte after the words is touched. *)
Theorem state_history buf h os :
  12 <= Z.of_nat (length buf) -> Forall op_word os -> shows buf h ->
  Forall (fun v => 0 <= v < 4294967296) h.1 ->
  exists buf', run_state (Some buf) os = Some (Some buf') /\
    shows buf' (foldl hist_step h os) /\
    (forall a, 12 <= a -> get32 buf' a = get32 buf a).
Proof.
  intros Hlen Hos. revert buf h Hlen. induction Hos as [|o os Ho _ IH]; intros buf h Hlen Hsh Hw.
  - exists buf. done.
  - destruct (state_step buf h o Hlen Ho Hsh Hw) as (b1 & Hr & Hl1 & Hsh1 & Hw1 & Hk1).
    destruct (IH b1 (hist_step h o)) as (b2 & Hr2 & Hsh2 & Hk2); [lia | done | done |].
    exists b2. cbn [run_state foldl]. rewrite Hr. cbn [mbind option_bind].
    split_and!; [done | done |]. intros a Ha. by rewrite Hk2, Hk1.
Qed.

Lemma state_history_witness :
  exists buf', run_state (Some (replicate 16 0)) [StSet 16; StSet 32; StSet 32; StOpt 7]
    = Some (Some buf') /\ shows buf' ([32; 16; 0; 0], 7).
Proof.
  destruct (state_history (replicate 16 0) ([0; 0], 0) [StSet 16; StSet 32; StSet 32; StOpt 7])
    as (b & H1 & H2 & _).
  - vm_compute; discriminate.
  - repeat constructor; cbn; lia.
  - exists 0, 0, []. done.
  - repeat constructor; lia.
  - exists b. split; [exact H1 | exact H2].
Defined.
