(* ===== verification/DspLog.v ===== *)
(** * DSP framework: dumping the DSP's log (dspframework/src/log.c)

    The log section is a ring buffer the DSP writes; the host reads a copy of
    it and recomputes the read pointer itself, either from the oldest byte or
    from a position and a two-byte magic remembered by a "clear". *)

From stdpp Require Import base tactics numbers list option.
From S2P Require Import Prelude Ringbuf.

(** ** The code *)

(** [ADF_RINGBUF_MOVE_PTR] with the [size_t] offset
    [limit - base - sizeof(uint16_t)]: the comparison is unsigned. *)
Definition move_back2 (ptr base limit : Z) : Z :=
  let offset := u64 (limit - base - 2) in
  if offset <? u64 (limit - ptr) then s32 (ptr + offset)
  else s32 (ptr + offset - (limit - base)).

(** [check] and [magic] start at 0 and keep the bytes a short read leaves. *)
Definition adfLog_reCalcHeader (rbuf : ring) (flag : Z) (chk_overlap : bool)
  : option (ring * Z) :=
  let rptr := Z.land flag 65535 in
  let h := hdr rbuf in
  rbuf ←
    (if wp h <? limit h then
       let rbuf := with_hdr rbuf (set_rp h (wp h + 1)) in
       check ← adfRingbuf_read (Some rbuf) true 1;
       Some (if le_dec check =? 0 then with_hdr rbuf (set_rp (hdr rbuf) (base h)) else rbuf)
     else Some (with_hdr rbuf (set_rp h (base h))));
  rbuf ←
    (if ADF_RINGBUF_IN_RANGE rptr (base h) (limit h) then
       if negb chk_overlap then Some (with_hdr rbuf (set_rp (hdr rbuf) rptr))
       else
         let rbufDSP := hdr rbuf in
         let tmp := with_hdr rbuf
           (set_wp (set_rp (hdr rbuf) (move_back2 rptr (base h) (limit h))) rptr) in
         magic ← adfRingbuf_read (Some tmp) true 2;
         let rbuf := with_hdr tmp rbufDSP in
         Some (if le_dec magic =? Z.land (Z.shiftr flag 16) 65535
               then with_hdr rbuf (set_rp (hdr rbuf) rptr) else rbuf)
     else Some rbuf);
  Some (rbuf, adfRingbuf_getUsedSize (Some rbuf)).

(** The buffer of [size + 1] bytes, or [NULL]. *)
Definition adfLog_allocAndReadRbuf (rbuf : ring) (size : Z) (vmalloc_ok : bool)
  : option (option (list Z)) :=
  if size <=? 0 then Some None
  else if negb vmalloc_ok then Some None
  else
    data ← adfRingbuf_read (Some rbuf) true size;
    Some (Some (data ++ replicate (Z.to_nat (size + 1) - length data) 0)).

(** The bytes a [%s] prints. *)
Fixpoint c_str (buf : list Z) : list Z :=
  match buf with
  | [] => []
  | c :: buf => if c =? 0 then [] else c :: c_str buf
  end.

(** [*logFlag]: its two high bytes are overwritten by the bytes read. *)
Definition overlay_high (v : Z) (l : list Z) : Z :=
  le_dec (take 2 (le_enc 4 v) ++ l ++ drop (2 + length l) (le_enc 4 v)).

Definition adfLog_clearHistory (logAddr : option ring) (logFlag : Z) : option (option ring * Z) :=
  match logAddr with
  | None => Some (None, logFlag)
  | Some rbuf =>
    let h := hdr rbuf in
    let logFlag := u32 (wp h) in
    let rbuf := with_hdr rbuf (set_rp h (move_back2 (wp h) (base h) (limit h))) in
    l ← adfRingbuf_read (Some rbuf) true 2;
    Some (Some rbuf, overlay_high logFlag l)
  end.

(** The result, the ring and what is printed to the file. *)
Definition adfLog_dump (logAddr : option ring) (logFlag : Z) (file : bool) (vmalloc_ok : bool)
  : option (option ring * Z * list Z) :=
  match logAddr with
  | None => Some (logAddr, - EINVAL, [])
  | Some rbuf =>
    if negb file then Some (logAddr, - EINVAL, []) else
    '(rbuf, remain) ← adfLog_reCalcHeader rbuf logFlag true;
    if 0 <? remain then
      logBuf ← adfLog_allocAndReadRbuf rbuf remain vmalloc_ok;
      match logBuf with
      | Some logBuf => Some (Some rbuf, 0, c_str logBuf)
      | None => Some (Some rbuf, - ENOMEM, [])
      end
    else Some (Some rbuf, 0, [])
  end.

(** The [strsep(&logStr, "\r\n")] loop: the pieces between separators, empty
    ones dropped; [cur] is the piece read so far. *)
Fixpoint strsep_lines (cur s : list Z) : list (list Z) :=
  match s with
  | [] => if decide (cur = []) then [] else [cur]
  | c :: s =>
    if (c =? 13) || (c =? 10) then
      if decide (cur = []) then strsep_lines [] s else cur :: strsep_lines [] s
    else strsep_lines (cur ++ [c]) s
  end.

(** The lines printed to the kernel log; [logFlag] may be [NULL]. *)
Definition adfLog_print (logAddr : option ring) (logFlag : option Z) (vmalloc_ok : bool)
  : option (option ring * Z * list (list Z)) :=
  match logAddr with
  | None => Some (logAddr, - EINVAL, [])
  | Some rbuf =>
    '(rbuf, remain) ← adfLog_reCalcHeader rbuf (default 0 logFlag) false;
    if 0 <? remain then
      logBuf ← adfLog_allocAndReadRbuf rbuf remain vmalloc_ok;
      match logBuf with
      | Some logBuf => Some (Some rbuf, 0, strsep_lines [] (c_str logBuf))
      | None => Some (Some rbuf, - ENOMEM, [])
      end
    else Some (Some rbuf, 0, [])
  end.

(** [logFliter] maps a line to a pointer; the last line's result wins. *)
Definition adfLog_query {A} (logAddr : option ring) (fliter : list Z -> option A) (vmalloc_ok : bool)
  : option (option ring * option A) :=
  match logAddr with
  | None => Some (logAddr, None)
  | Some rbuf =>
    '(rbuf, remain) ← adfLog_reCalcHeader rbuf 0 false;
    if 0 <? remain then
      logBuf ← adfLog_allocAndReadRbuf rbuf remain vmalloc_ok;
      match logBuf with
      | Some logBuf =>
        Some (Some rbuf, foldl (fun _ line => fliter line) None (strsep_lines [] (c_str logBuf)))
      | None => Some (Some rbuf, None)
      end
    else Some (Some rbuf, None)
  end.

(** ** Specification *)

(** The ring read from position [p] on. *)
Definition log_from (r : ring) (p : Z) : ring := with_hdr r (set_rp (hdr r) p).

(** The oldest byte: the whole ring when the byte after the write pointer has
    ever been written (log text has no NUL), else the base. *)
Definition oldest (r : ring) : Z :=
  let p := adv (hdr r) (wp (hdr r)) 1 in
  if byte_at (bytes r) (p - org r) =? 0 then base (hdr r) else p.

(** The two bytes before position [p]. *)
Definition magic_at (r : ring) (p : Z) : Z :=
  let a := adv (hdr r) p (size_of r - 2) in
  let b := adv (hdr r) p (size_of r - 1) in
  byte_at (bytes r) (a - org r) + 256 * byte_at (bytes r) (b - org r).

(** Where a dump starts. *)
Definition log_start (r : ring) (flag : Z) (chk : bool) : Z :=
  let rptr := Z.land flag 65535 in
  if ADF_RINGBUF_IN_RANGE rptr (base (hdr r)) (limit (hdr r))
     && (negb chk || (magic_at r rptr =? Z.land (Z.shiftr flag 16) 65535))
  then rptr else oldest r.

(** The log bytes a dump shows. *)
Definition log_view (r : ring) (flag : Z) (chk : bool) : list Z :=
  content (log_from r (log_start r flag chk)).

Definition is_bytes (l : list Z) : Prop := Forall (fun b => 0 <= b < 256) l.

#[global] Arguments adfLog_reCalcHeader : simpl never.
#[global] Arguments move_back2 : simpl never.

(** ** Lemmas *)

Lemma mem_get_0 src off : 0 <= off <= Z.of_nat (length src) -> mem_get src off 0 = Some [].
Proof. intros. unfold mem_get. zcases; cbn; lia || done. Qed.

Section Rings.
Context (r : ring) (Hwf : rb_wf r) (Hsize : 4 <= size_of r).
Abbreviation h := (hdr r).

Lemma move_back2_adv p :
  base h <= p < limit h -> move_back2 p (base h) (limit h) = adv h p (size_of r - 2).
Proof using Hwf Hsize.
  intros Hp. destruct Hwf. unfold move_back2, adv, size_of in *.
  rewrite !(wrapU_id 64) by lia. zcases; apply s32_id; lia.
Qed.

Lemma adv_range p i : base h <= p < limit h -> 0 <= i <= size_of r -> base h <= adv h p i < limit h.
Proof using Hwf Hsize. intros Hp Hi. by destruct (move_adv r Hwf p i Hp Hi). Qed.

(** A read pointer at the limit reads as one at the base. *)
Lemma read_at_limit n :
  0 <= n -> adfRingbuf_read (Some (log_from r (limit h))) true n
            = adfRingbuf_read (Some (log_from r (base h))) true n.
Proof using Hwf Hsize.
  intros Hn. unfold adfRingbuf_read. cbn [negb orb]. destruct (Z.eqb_spec n 0); [done|].
  cbn [log_from with_hdr hdr set_rp rp wp base limit org bytes]. unfold ADF_RINGBUF_CALC_RW_SIZE.
  destruct Hwf. unfold size_of in *.
  destruct (Z.leb_spec (limit h) (wp h)); [lia|]. destruct (Z.leb_spec (base h) (wp h)); [|lia].
  replace (limit h - limit h + (wp h - base h)) with (wp h - base h) by lia.
  rewrite !s32_id by lia.
  set (len := if wp h - base h <? n then wp h - base h else n).
  assert (Hlen : 0 <= len < limit h - base h) by (unfold len; zcases; lia).
  destruct (Z.leb_spec len (limit h - base h)); [|lia].
  destruct (Z.leb_spec len (limit h - limit h)).
  - assert (len = 0) as -> by lia. by rewrite !mem_get_0 by lia.
  - replace (limit h - limit h) with 0 by lia. rewrite mem_get_0 by lia. rewrite Z.sub_0_r.
    cbn [mbind option_bind]. by destruct (mem_get (bytes r) (base h - org r) len).
Qed.

Lemma used_at_limit : used (log_from r (limit h)) = used (log_from r (base h)).
Proof using Hwf Hsize.
  destruct Hwf. unfold used, adfRingbuf_getUsedSize, ADF_RINGBUF_CALC_RW_SIZE, log_from, size_of in *.
  cbn. zcases; f_equal; lia.
Qed.

(** The position [p], with the limit read as the base. *)
Definition norm (p : Z) : Z := if p =? limit h then base h else p.

Lemma norm_wp1 : norm (wp h + 1) = adv h (wp h) 1.
Proof using Hwf Hsize. destruct Hwf. unfold norm, adv, size_of in *. zcases; lia. Qed.

Lemma norm_id p : base h <= p < limit h -> norm p = p.
Proof using. intros. unfold norm. zcases; lia. Qed.

Lemma read_norm p n :
  0 <= n -> adfRingbuf_read (Some (log_from r p)) true n
            = adfRingbuf_read (Some (log_from r (norm p))) true n.
Proof using Hwf Hsize.
  intros Hn. unfold norm. destruct (Z.eqb_spec p (limit h)) as [->|]; [by apply read_at_limit | done].
Qed.

Lemma used_norm p : used (log_from r p) = used (log_from r (norm p)).
Proof using Hwf Hsize.
  unfold norm. destruct (Z.eqb_spec p (limit h)) as [->|]; [apply used_at_limit | done].
Qed.

Lemma log_from_wf p : base h <= p < limit h -> rb_wf (log_from r p).
Proof using Hwf Hsize. by apply wf_set_rp. Qed.

Lemma oldest_range : base h <= oldest r < limit h.
Proof using Hwf Hsize.
  unfold oldest. destruct Hwf. destruct (byte_at _ _ =? 0); [unfold size_of in *; lia|].
  apply adv_range; unfold size_of in *; lia.
Qed.

(** The byte after the write pointer, as the first read of the recalculation
    finds it. *)
Lemma read_check :
  exists c, adfRingbuf_read (Some (log_from r (wp h + 1))) true 1 = Some [c] /\
    c = byte_at (bytes r) (adv h (wp h) 1 - org r).
Proof using Hwf Hsize.
  assert (Hp : base h <= adv h (wp h) 1 < limit h) by (destruct Hwf; apply adv_range; lia).
  rewrite read_norm, norm_wp1 by lia.
  pose proof (log_from_wf _ Hp) as Hwf'. rewrite read_spec by (auto; lia).
  assert (Hu : used (log_from r (adv h (wp h) 1)) = size_of r - 1).
  { rewrite used_eq by done. destruct Hwf. unfold adv, size_of in *. cbn. zcases; lia. }
  pose proof (length_content (log_from r (adv h (wp h) 1))) as Hl. rewrite Hu in Hl.
  pose proof (content_byte (log_from r (adv h (wp h) 1)) 0 ltac:(lia)) as Hb.
  destruct (content (log_from r (adv h (wp h) 1))) as [|c l]; [cbn [length] in Hl; lia|].
  exists c. split; [done|]. change (byte_at (c :: l) 0) with c in Hb. rewrite Hb.
  cbn [log_from with_hdr hdr set_rp rp bytes org]. f_equal. f_equal. destruct Hwf. unfold adv, size_of in *. cbn in *. zcases_in Hp; zcases; lia.
Qed.

(** The magic before an in-range position. *)
Lemma read_magic p :
  base h <= p < limit h ->
  adfRingbuf_read (Some (with_hdr r (set_wp (set_rp h (move_back2 p (base h) (limit h))) p))) true 2
  = Some [byte_at (bytes r) (adv h p (size_of r - 2) - org r);
          byte_at (bytes r) (adv h p (size_of r - 1) - org r)].
Proof using Hwf Hsize.
  intros Hp. rewrite move_back2_adv by done. set (tmp := with_hdr r _).
  pose proof (adv_range p (size_of r - 2) Hp ltac:(lia)) as Ha.
  assert (Hwf' : rb_wf tmp).
  { destruct Hwf. constructor; unfold size_of in *; cbn in *; auto; lia. }
  rewrite read_spec by (auto; lia).
  assert (Hu : used tmp = 2).
  { rewrite used_eq by done. destruct Hwf. unfold adv, size_of in *. cbn in *. zcases; zcases_in Ha; lia. }
  pose proof (length_content tmp) as Hl. rewrite Hu in Hl.
  pose proof (content_byte tmp 0 ltac:(lia)) as Hb0. pose proof (content_byte tmp 1 ltac:(lia)) as Hb1.
  destruct (content tmp) as [|x [|y [|]]]; cbn [length] in Hl; try lia.
  change (byte_at [x; y] 0) with x in Hb0. change (byte_at [x; y] 1) with y in Hb1.
  assert (E0 : adv (hdr tmp) (rp (hdr tmp)) 0 = adv h p (size_of r - 2)).
  { subst tmp. destruct Hwf. unfold adv, size_of in *. cbn in *. zcases_in Ha; zcases; lia. }
  assert (E1 : adv (hdr tmp) (rp (hdr tmp)) 1 = adv h p (size_of r - 1)).
  { subst tmp. destruct Hwf. unfold adv, size_of in *. cbn in *. zcases_in Ha; zcases; lia. }
  rewrite E0 in Hb0. rewrite E1 in Hb1. rewrite Hb0, Hb1. done.
Qed.

Lemma le_dec2 a b : le_dec [a; b] = a + 256 * b.
Proof using. cbn. lia. Qed.

(** The recalculated header, with the read pointer at [log_start]. *)
Lemma recalc_spec flag chk :
  exists p, adfLog_reCalcHeader r flag chk = Some (log_from r p, used (log_from r p)) /\
    norm p = log_start r flag chk /\ base h <= norm p < limit h.
Proof using Hwf Hsize.
  unfold adfLog_reCalcHeader. destruct (Z.ltb_spec (wp h) (limit h)); [|destruct Hwf; lia].
  destruct read_check as (c & Hc & Hcv). unfold log_from in Hc. rewrite Hc.
  cbn [mbind option_bind]. replace (le_dec [c]) with c by (cbn; lia).
  assert (Hst : exists p0, (if c =? 0 then with_hdr (with_hdr r (set_rp h (wp h + 1)))
      (set_rp (hdr (with_hdr r (set_rp h (wp h + 1)))) (base h))
      else with_hdr r (set_rp h (wp h + 1))) = log_from r p0 /\ norm p0 = oldest r).
  { unfold oldest. rewrite <- Hcv. destruct (c =? 0).
    - exists (base h). split; [done|]. apply norm_id. destruct Hwf. unfold size_of in *. lia.
    - exists (wp h + 1). split; [done|]. apply norm_wp1. }
  destruct Hst as (p0 & -> & Hp0). pose proof oldest_range as Ho.
  unfold log_start. destruct (ADF_RINGBUF_IN_RANGE _ _ _) eqn:Hin; cbn [andb].
  - assert (Hr : base h <= Z.land flag 65535 < limit h).
    { unfold ADF_RINGBUF_IN_RANGE in Hin. apply andb_true_iff in Hin as [H1 H2].
      apply Z.leb_le in H1. apply Z.ltb_lt in H2. lia. }
    destruct chk; cbn [negb orb].
    + change (set_wp (set_rp (hdr (log_from r p0)) ?a) ?b) with (set_wp (set_rp h a) b).
      change (with_hdr (log_from r p0) ?x) with (with_hdr r x).
      rewrite read_magic by done. cbn [mbind option_bind]. rewrite le_dec2. fold (magic_at r (Z.land flag 65535)).
      change (with_hdr (with_hdr r _) (hdr (log_from r p0))) with (log_from r p0).
      destruct (magic_at r (Z.land flag 65535) =? Z.land (Z.shiftr flag 16) 65535).
      * exists (Z.land flag 65535). rewrite norm_id by done. done.
      * exists p0. rewrite Hp0. done.
    + exists (Z.land flag 65535). rewrite norm_id by done. done.
  - exists p0. rewrite Hp0. done.
Qed.

Lemma alloc_read p :
  base h <= norm p < limit h -> 0 < used (log_from r (norm p)) ->
  exists k, adfLog_allocAndReadRbuf (log_from r p) (used (log_from r p)) true
            = Some (Some (content (log_from r (norm p)) ++ 0 :: replicate k 0)).
Proof using Hwf Hsize.
  intros Hp Hu. rewrite used_norm. unfold adfLog_allocAndReadRbuf.
  destruct (Z.leb_spec (used (log_from r (norm p))) 0); [lia|]. cbn [negb].
  pose proof (log_from_wf _ Hp) as Hwf'. pose proof (used_range _ Hwf') as Hur.
  assert (Hs : size_of (log_from r (norm p)) < 268435456) by apply Hwf'.
  rewrite read_norm by lia. rewrite read_spec by (auto; lia). cbn [mbind option_bind].
  pose proof (length_content (log_from r (norm p))) as Hl.
  rewrite take_ge by lia. exists 0%nat. rewrite Hl.
  replace (Z.to_nat (used (log_from r (norm p)) + 1) - Z.to_nat (used (log_from r (norm p))))%nat
    with 1%nat by lia. done.
Qed.
End Rings.

Lemma c_str_pad l k : c_str (l ++ 0 :: k) = c_str l.
Proof. induction l as [|c l IH]; [done|]. cbn. by rewrite IH. Qed.

Lemma c_str_text l : Forall (fun c => c <> 0) l -> c_str l = l.
Proof.
  induction 1 as [|c l Hc _ IH]; [done|]. cbn. destruct (Z.eqb_spec c 0); [done|]. by rewrite IH.
Qed.

Lemma view_empty r p : used (log_from r p) = 0 -> content (log_from r p) = [].
Proof. intros Hu. apply length_zero_iff_nil. by rewrite length_content, Hu. Qed.

(** What a dump prints. *)
Lemma dump_spec r flag :
  rb_wf r -> 4 <= size_of r ->
  exists r', adfLog_dump (Some r) flag true true = Some (Some r', 0, c_str (log_view r flag true)).
Proof.
  intros Hwf Hs. unfold adfLog_dump. cbn [negb].
  destruct (recalc_spec r Hwf Hs flag true) as (p & -> & Hn & Hp). cbn [mbind option_bind].
  exists (log_from r p). unfold log_view. rewrite <- Hn.
  pose proof (used_range _ (log_from_wf r Hwf Hs _ Hp)) as Hu. rewrite (used_norm r Hwf Hs) at 1.
  destruct (Z.ltb_spec 0 (used (log_from r (norm r p)))).
  - destruct (alloc_read r Hwf Hs p Hp) as [k Hk]; [done|]. rewrite Hk. cbn [mbind option_bind].
    by rewrite c_str_pad.
  - rewrite view_empty by lia. done.
Qed.

Lemma print_spec r flag :
  rb_wf r -> 4 <= size_of r ->
  exists r', adfLog_print (Some r) (Some flag) true =
    Some (Some r', 0, strsep_lines [] (c_str (log_view r flag false))) /\ exists p, r' = log_from r p.
Proof.
  intros Hwf Hs. unfold adfLog_print. change (default 0 (Some flag)) with flag.
  destruct (recalc_spec r Hwf Hs flag false) as (p & -> & Hn & Hp). cbn [mbind option_bind].
  exists (log_from r p). split; [|by eexists]. unfold log_view. rewrite <- Hn.
  pose proof (used_range _ (log_from_wf r Hwf Hs _ Hp)) as Hu. rewrite (used_norm r Hwf Hs) at 1.
  destruct (Z.ltb_spec 0 (used (log_from r (norm r p)))).
  - destruct (alloc_read r Hwf Hs p Hp) as [k Hk]; [done|]. rewrite Hk. cbn [mbind option_bind].
    by rewrite c_str_pad.
  - rewrite view_empty by lia. done.
Qed.

(** What a write does to the ring's bytes and write pointer. *)
Lemma write_effect r d :
  rb_wf r -> 0 < dropunit (hdr r) -> d <> [] ->
  op_ok (size_of r) (dropunit (hdr r)) (RbWrite d) ->
  exists r2, adfRingbuf_write (Some r) (Some d) (Z.of_nat (length d)) = Some (Some r2, Z.of_nat (length d)) /\
    rb_wf r2 /\ base (hdr r2) = base (hdr r) /\ limit (hdr r2) = limit (hdr r) /\ org r2 = org r /\
    wp (hdr r2) = adv (hdr r) (wp (hdr r)) (Z.of_nat (length d)) /\
    (forall i, 0 <= i < size_of r -> byte_at (bytes r2) (adv (hdr r) (wp (hdr r)) i - org r) =
       if i <? Z.of_nat (length d) then byte_at d i
       else byte_at (bytes r) (adv (hdr r) (wp (hdr r)) i - org r)).
Proof.
  intros Hwf Hu Hne Hok. pose proof (write_spec r d Hwf Hok) as Hw.
  destruct Hok as [Hfit Hsz]. unfold adfRingbuf_write in *.
  assert (Hlen : 0 < Z.of_nat (length d)) by (destruct d; [done|cbn; lia]).
  destruct (Z.eqb_spec (Z.of_nat (length d)) 0); [lia|].
  rewrite checkDrop_spec in * by (auto; lia).
  set (hn := if avail r <=? Z.of_nat (length d) then _ else _) in *.
  assert (Hhn : exists rp', hn = (hn.1, Z.of_nat (length d)) /\ hn.1 = set_rp (set_drop (hdr r) (drop_ hn.1)) rp').
  { subst hn. destruct (avail r <=? _); [destruct (Z.ltb_spec 0 (dropunit (hdr r))); [|lia]|].
    - eexists. split; reflexivity.
    - exists (rp (hdr r)). split; [done|]. by destruct (hdr r). }
  clearbody hn. destruct hn as [h1 n1]. cbn [fst] in Hhn. destruct Hhn as (rp' & [= ->] & Hh).
  assert (Hci : forall b, rb_copy_in h1 (org r) (bytes r) b (Z.of_nat (length d))
                = rb_copy_in (hdr r) (org r) (bytes r) b (Z.of_nat (length d)))
    by (intros; rewrite Hh; done).
  destruct (rb_copy_in_spec r d (Z.of_nat (length d)) Hwf ltac:(lia) ltac:(lia))
    as (b & Hb & Hlb & Hin & Hout).
  rewrite Hci, Hb in *. cbn [mbind option_bind] in *.
  eexists. split; [reflexivity|].
  assert (Hwp : base (hdr r) <= wp (hdr r) < limit (hdr r)) by apply Hwf.
  destruct (move_adv r Hwf (wp (hdr r)) (Z.of_nat (length d)) Hwp ltac:(lia)) as [Hmv _].
  split_and!.
  - destruct (spec_write _ _ _ d) as [[q m]|]; [|done]. destruct Hw as (r' & [= <- _] & ? & _). done.
  - by rewrite Hh.
  - by rewrite Hh.
  - done.
  - cbn [hdr set_wp wp]. rewrite Hh. cbn. exact Hmv.
  - intros i Hi. cbn [bytes]. destruct (Z.ltb_spec i (Z.of_nat (length d)));
      [apply Hin; lia | apply Hout; lia].
Qed.

Lemma le_enc4_small v : 0 <= v < 65536 -> le_enc 4 v = [v mod 256; v / 256; 0; 0].
Proof.
  intros Hv. cbn [le_enc]. assert (v / 256 < 256) by (apply Z.div_lt_upper_bound; lia).
  assert (0 <= v / 256) by (apply Z.div_pos; lia).
  rewrite (Z.mod_small (v / 256) 256), (Z.div_small (v / 256) 256) by lia. done.
Qed.

(** The flag a clear leaves: position in the low half, magic in the high. *)
Lemma flag_halves v a b :
  0 <= v < 65536 -> 0 <= a < 256 -> 0 <= b < 256 ->
  Z.land (overlay_high (u32 v) [a; b]) 65535 = v /\
  Z.land (Z.shiftr (overlay_high (u32 v) [a; b]) 16) 65535 = a + 256 * b.
Proof.
  intros Hv Ha Hb. rewrite u32_id by lia. unfold overlay_high. rewrite le_enc4_small by lia.
  cbn [take drop app length Nat.add le_dec].
  pose proof (Z.div_mod v 256 ltac:(lia)).
  replace (v mod 256 + 256 * (v / 256 + 256 * (a + 256 * (b + 256 * 0))))
    with (v + (a + 256 * b) * 65536) by lia.
  change 65535 with (Z.ones 16). rewrite !Z.land_ones, Z.shiftr_div_pow2 by lia.
  change (2 ^ 16) with 65536. split.
  - rewrite Z.mod_add, Z.mod_small by lia. done.
  - rewrite Z.div_add, Z.div_small, Z.add_0_l, Z.mod_small by lia. done.
Qed.

Lemma byte_at_range l i : is_bytes l -> 0 <= i < Z.of_nat (length l) -> 0 <= byte_at l i < 256.
Proof.
  intros Hl Hi. unfold byte_at. rewrite list_lookup_total_alt.
  destruct (lookup_lt_is_Some_2 l (Z.to_nat i)) as [x Hx]; [lia|]. rewrite Hx. cbn.
  unfold is_bytes in Hl. rewrite Forall_lookup in Hl. by apply (Hl _ _ Hx).
Qed.

Lemma clear_spec r flag :
  rb_wf r -> 4 <= size_of r ->
  exists rc, adfLog_clearHistory (Some r) flag = Some (Some rc, overlay_high (u32 (wp (hdr r)))
    [byte_at (bytes r) (adv (hdr r) (wp (hdr r)) (size_of r - 2) - org r);
     byte_at (bytes r) (adv (hdr r) (wp (hdr r)) (size_of r - 1) - org r)]).
Proof.
  intros Hwf Hs. unfold adfLog_clearHistory.
  assert (Hwp : base (hdr r) <= wp (hdr r) < limit (hdr r)) by apply Hwf.
  pose proof (read_magic r Hwf Hs (wp (hdr r)) Hwp) as Hm.
  assert (Hw : forall x, set_wp (set_rp (hdr r) x) (wp (hdr r)) = set_rp (hdr r) x)
    by (intros; by destruct (hdr r)).
  rewrite Hw in Hm. rewrite Hm. cbn [mbind option_bind]. eauto.
Qed.

(** Clearing the log and dumping it later shows exactly what the DSP wrote
    in between: for text [d] that leaves the two bytes before the cleared
    position alone, on a ring whose offsets fit the 16 bits of the flag. *)
Theorem clear_then_dump r d flag :
  rb_wf r -> 4 <= size_of r -> 0 < base (hdr r) -> limit (hdr r) <= 65536 -> is_bytes (bytes r) ->
  0 < dropunit (hdr r) -> d <> [] -> Forall (fun c => c <> 0) d ->
  op_ok (size_of r) (dropunit (hdr r)) (RbWrite d) -> Z.of_nat (length d) + 2 <= size_of r ->
  exists rc flag' r2 r', adfLog_clearHistory (Some r) flag = Some (Some rc, flag') /\
    adfRingbuf_write (Some r) (Some d) (Z.of_nat (length d)) = Some (Some r2, Z.of_nat (length d)) /\
    adfLog_dump (Some r2) flag' true true = Some (Some r', 0, d).
Proof.
  intros Hwf Hs Hb Hl Hbytes Hu Hne Htext Hok Hfit.
  destruct (clear_spec r flag Hwf Hs) as (rc & Hc).
  destruct (write_effect r d Hwf Hu Hne Hok) as (r2 & Hw & Hwf2 & Hb2 & Hl2 & Ho2 & Hwp2 & Hby2).
  set (flag' := overlay_high _ _) in Hc. exists rc, flag', r2.
  assert (Hs2 : size_of r2 = size_of r) by (unfold size_of; lia).
  destruct (dump_spec r2 flag' Hwf2 ltac:(lia)) as (r' & Hd). exists r'. split_and!; [done..|].
  rewrite Hd. do 2 f_equal.
  assert (Hwp : base (hdr r) <= wp (hdr r) < limit (hdr r)) by apply Hwf.
  assert (Hadv : forall p i, adv (hdr r2) p i = adv (hdr r) p i) by (intros; unfold adv; by rewrite Hb2, Hl2).
  assert (Hrange : forall i, 0 <= i < size_of r ->
    0 <= byte_at (bytes r) (adv (hdr r) (wp (hdr r)) i - org r) < 256).
  { intros i Hi. apply byte_at_range; [done|].
    pose proof (adv_range r Hwf Hs _ i Hwp ltac:(lia)). destruct Hwf. unfold size_of in *. lia. }
  destruct (flag_halves (wp (hdr r))
    (byte_at (bytes r) (adv (hdr r) (wp (hdr r)) (size_of r - 2) - org r))
    (byte_at (bytes r) (adv (hdr r) (wp (hdr r)) (size_of r - 1) - org r))) as [Hlo Hhi];
    [lia | apply Hrange; lia | apply Hrange; lia |]. fold flag' in Hlo, Hhi.
  assert (Hstart : log_start r2 flag' true = wp (hdr r)).
  { unfold log_start. rewrite Hlo, Hhi. unfold ADF_RINGBUF_IN_RANGE. rewrite Hb2, Hl2.
    destruct (Z.leb_spec (base (hdr r)) (wp (hdr r))), (Z.ltb_spec (wp (hdr r)) (limit (hdr r))); try lia.
    cbn [negb orb andb]. unfold magic_at. rewrite Hs2, !Hadv, Ho2, !Hby2 by lia.
    destruct (Z.ltb_spec (size_of r - 2) (Z.of_nat (length d))); [lia|].
    destruct (Z.ltb_spec (size_of r - 1) (Z.of_nat (length d))); [lia|].
    by rewrite Z.eqb_refl. }
  unfold log_view. rewrite Hstart.
  assert (Hwf3 : rb_wf (log_from r2 (wp (hdr r)))) by (apply wf_set_rp; [done|lia]).
  assert (Hc2 : content (log_from r2 (wp (hdr r))) = d).
  { assert (Hus : used (log_from r2 (wp (hdr r))) = Z.of_nat (length d)).
    { rewrite used_eq by done. unfold log_from. cbn. rewrite Hwp2. unfold adv, size_of in *. cbn.
      zcases; lia. }
    apply content_intro; rewrite Hus; [done|]. intros i Hi.
    change (adv (hdr (log_from r2 (wp (hdr r))))) with (adv (hdr r2)). rewrite Hadv.
    change (org (log_from r2 _)) with (org r2). rewrite Ho2. cbn. rewrite Hby2 by lia.
    destruct (Z.ltb_spec i (Z.of_nat (length d))); [done|lia]. }
  rewrite Hc2. by apply c_str_text.
Qed.

(** A dump whose remembered position was overwritten, or was never set,
    starts at the oldest byte of the ring: nothing the ring still holds is
    skipped, whatever the DSP's own read pointer says. *)
Theorem dump_from_oldest r flag rp' :
  rb_wf r -> 4 <= size_of r -> base (hdr r) <= rp' < limit (hdr r) ->
  (magic_at r (Z.land flag 65535) <> Z.land (Z.shiftr flag 16) 65535 \/
   ADF_RINGBUF_IN_RANGE (Z.land flag 65535) (base (hdr r)) (limit (hdr r)) = false) ->
  exists r', adfLog_dump (Some (log_from r rp')) flag true true =
    Some (Some r', 0, c_str (content (log_from r (oldest r)))) /\
    used (log_from r (oldest r)) =
      if byte_at (bytes r) (adv (hdr r) (wp (hdr r)) 1 - org r) =? 0
      then wp (hdr r) - base (hdr r) else size_of r - 1.
Proof.
  intros Hwf Hs Hrp Hf. pose proof (log_from_wf r Hwf Hs _ Hrp) as Hwf'.
  destruct (dump_spec (log_from r rp') flag Hwf' Hs) as (r' & Hd). exists r'. rewrite Hd.
  assert (Hst : log_start (log_from r rp') flag true = oldest r).
  { unfold log_start. change (magic_at (log_from r rp')) with (magic_at r).
    change (oldest (log_from r rp')) with (oldest r).
    change (base (hdr (log_from r rp'))) with (base (hdr r)).
    change (limit (hdr (log_from r rp'))) with (limit (hdr r)). cbn [negb orb].
    destruct Hf as [Hf| ->]; [|done]. apply Z.eqb_neq in Hf. rewrite Hf.
    by rewrite andb_false_r. }
  unfold log_view. rewrite Hst. split; [done|].
  rewrite used_eq by (apply log_from_wf, oldest_range; done).
  pose proof (norm_wp1 r Hwf Hs) as Hn. unfold norm in Hn. unfold oldest.
  change (size_of (log_from r ?p)) with (size_of r).
  destruct (byte_at _ _ =? 0); cbn [log_from with_hdr hdr set_rp rp wp];
    [|rewrite <- Hn]; destruct Hwf; unfold size_of in *; zcases; lia.
Qed.

(** ** Instances of the properties *)

(** An 8-byte log holding "abc", and one that has wrapped. *)
Definition small_log : ring := mkRing (mkRingbuf 32 40 35 32 0 1 0 0) 32 [97; 98; 99; 0; 0; 0; 0; 0].
Definition wrapped_log : ring :=
  mkRing (mkRingbuf 32 40 34 35 9 1 0 0) 32 [105; 106; 99; 100; 101; 102; 103; 104].

Lemma clear_then_dump_witness :
  exists rc flag' r2 r', adfLog_clearHistory (Some wrapped_log) 0 = Some (Some rc, flag') /\
    adfRingbuf_write (Some wrapped_log) (Some [120; 121; 122]) 3 = Some (Some r2, 3) /\
    adfLog_dump (Some r2) flag' true true = Some (Some r', 0, [120; 121; 122]).
Proof.
  apply (clear_then_dump wrapped_log [120; 121; 122] 0); unfold size_of; cbn; try lia; try discriminate.
  - constructor; unfold size_of; cbn; lia || done.
  - repeat constructor; lia.
  - repeat constructor; lia.
Defined.

Lemma dump_from_oldest_witness :
  exists r', adfLog_dump (Some (log_from wrapped_log 38)) 0 true true =
    Some (Some r', 0, [100; 101; 102; 103; 104; 105; 106]).
Proof.
  destruct (dump_from_oldest wrapped_log 0 38) as (r' & H & _);
    [constructor; unfold size_of; cbn; lia || done | unfold size_of; cbn; lia | cbn; lia
    | right; reflexivity |].
  exists r'. exact H.
Defined.
