(* ===== verification/DspLoad.v ===== *)
(** * DSP framework: loading a firmware (dspframework/src/load.c)

    A firmware is a byte string: a 0x80-byte header, the section table and the
    sections' contents. Loading copies the BIN sections to the DSP and
    allocates one buffer for each of the STA, CLI and LOG sections. *)

From stdpp Require Import base tactics numbers list option gmap.
From S2P Require Import Prelude.

(** ** fwheader.h and load.h *)

Definition ADF_FW_MAGIC : Z := 1314540865.   (* 0x4E5A4D41 *)
Definition ADF_FW_HDRLEN : Z := 128.         (* 0x80 *)
Definition DSP_CORE_NUM : Z := 1.
Definition LOAD_OK : Z := 0.                 (* ADF_STATUS_OK *)
Definition LOAD_ERROR : Z := -1.             (* ADF_STATUS_GENERAL_ERROR *)

(** [data] is an address, 0 for [NULL]. *)
Record adfFwHdr_secInfo_t := mkSec {
  name : list Z; addr : Z; size : Z; offset : Z; data : Z; reserved0 : Z; reserved1 : Z }.

Record adfFwHdr_t := mkFwHdr { magic : Z; seccnt : Z; secarray : list adfFwHdr_secInfo_t }.

Definition set_data (s : adfFwHdr_secInfo_t) (p : Z) : adfFwHdr_secInfo_t :=
  mkSec (name s) (addr s) (size s) (offset s) p (reserved0 s) (reserved1 s).
Definition set_reserved (s : adfFwHdr_secInfo_t) (r0 r1 : Z) : adfFwHdr_secInfo_t :=
  mkSec (name s) (addr s) (size s) (offset s) (data s) r0 r1.

(** The strings [strcmp] compares the four name bytes with: equal strings end
    inside the array. *)
Definition sec_BIN : list Z := [66; 73; 78; 0].
Definition sec_STA : list Z := [83; 84; 65; 0].
Definition sec_CLI : list Z := [67; 76; 73; 0].
Definition sec_LOG : list Z := [76; 79; 71; 0].
Definition name_is (s : adfFwHdr_secInfo_t) (n : list Z) : bool := bool_decide (name s = n).

(** The structs as they lie in memory (64-bit pointers). *)
Definition sec_at (b : list Z) (o : Z) : option adfFwHdr_secInfo_t :=
  nm ← mem_get b o 4; a ← get32 b (o + 4); s ← get32 b (o + 8); f ← get32 b (o + 12);
  d ← mem_get b (o + 16) 8; r0 ← get32 b (o + 24); r1 ← get32 b (o + 28);
  Some (mkSec nm a s f (le_dec d) r0 r1).
Fixpoint secs_at (b : list Z) (o : Z) (n : nat) : option (list adfFwHdr_secInfo_t) :=
  match n with
  | O => Some []
  | S n => s ← sec_at b o; r ← secs_at b (o + 32) n; Some (s :: r)
  end.
Definition hdr_at (b : list Z) : option adfFwHdr_t :=
  m ← get32 b 0; c ← get32 b 4; r ← secs_at b ADF_FW_HDRLEN (Z.to_nat c); Some (mkFwHdr m c r).

(** ** The loader's state *)

(** [dspHeader] comes with the size of its allocation; [heap] maps the
    address of each live block to its bytes; [kmalloc_ok] are the answers of
    the next allocations (success once exhausted). *)
Record loader (D : Type) := mkLoader {
  dspHeader : option (Z * adfFwHdr_t); staData : Z; cliData : Z; logData : Z;
  heap : gmap Z (list Z); next : Z; kmalloc_ok : list bool; dev : D }.
Arguments mkLoader {D}.
Arguments dspHeader {D} _.
Arguments staData {D} _.
Arguments cliData {D} _.
Arguments logData {D} _.
Arguments heap {D} _.
Arguments next {D} _.
Arguments kmalloc_ok {D} _.
Arguments dev {D} _.

(** ** The code *)

Section Load.
Context {D : Type}.
Implicit Type l : loader D.

Definition adfLoad_checkMagic (src : list Z) : option bool :=
  m ← get32 src 0; Some (m =? ADF_FW_MAGIC).

(** The first section of that name and its index; a [NULL] header is read
    ([None]). *)
Fixpoint find_section (secs : list adfFwHdr_secInfo_t) (i : nat) (secName : list Z)
  : option (nat * adfFwHdr_secInfo_t) :=
  match secs with
  | [] => None
  | s :: secs => if name_is s secName then Some (i, s) else find_section secs (S i) secName
  end.
Definition adfLoad_GetSecInfo (dspHeader : option (Z * adfFwHdr_t)) (secName : list Z)
  : option (option (nat * adfFwHdr_secInfo_t)) :=
  match dspHeader with
  | None => None
  | Some (_, h) => Some (find_section (secarray h) 0 secName)
  end.

(** [kmalloc]: a fresh block of stale bytes, or [NULL]. *)
Definition kmalloc l (n : Z) : loader D * Z :=
  let ok := default true (head (kmalloc_ok l)) in
  if ok then
    (mkLoader (dspHeader l) (staData l) (cliData l) (logData l)
       (<[next l := replicate (Z.to_nat n) 90]> (heap l)) (next l + 1) (tail (kmalloc_ok l)) (dev l),
     next l)
  else
    (mkLoader (dspHeader l) (staData l) (cliData l) (logData l) (heap l) (next l)
       (tail (kmalloc_ok l)) (dev l), 0).

Definition set_ptrs l (sta cli log : Z) : loader D :=
  mkLoader (dspHeader l) sta cli log (heap l) (next l) (kmalloc_ok l) (dev l).
Definition set_heap l (h : gmap Z (list Z)) : loader D :=
  mkLoader (dspHeader l) (staData l) (cliData l) (logData l) h (next l) (kmalloc_ok l) (dev l).
Definition set_dev l (d : D) : loader D :=
  mkLoader (dspHeader l) (staData l) (cliData l) (logData l) (heap l) (next l) (kmalloc_ok l) d.
Definition set_header l (h : option (Z * adfFwHdr_t)) : loader D :=
  mkLoader h (staData l) (cliData l) (logData l) (heap l) (next l) (kmalloc_ok l) (dev l).

(** [memset(p, 0, n)] on a block: it must be live and long enough. *)
Definition memset0 l (p n : Z) : option (loader D) :=
  b ← heap l !! p;
  b ← mem_put b 0 (replicate (Z.to_nat n) 0);
  Some (set_heap l (<[p := b]> (heap l))).

(** The locals of the loop: [hostDst], [baseAddr] and [binSize]. *)
Record cursor := mkCursor { hostDst : Z; baseAddr : Z; binSize : Z }.

(** One section of the table: the loop body of [adfLoad_init]. The boolean is
    false on [goto ERROR]. *)
Definition load_section (binCpy : option (D -> Z -> list Z -> D * bool)) (src : list Z)
    l (c : cursor) (info : adfFwHdr_secInfo_t)
  : option (loader D * cursor * adfFwHdr_secInfo_t * bool) :=
  if name_is info sec_BIN then
    let binSize := u32 (binSize c + size info) in
    let baseAddr := if baseAddr c =? 0 then addr info else baseAddr c in
    let hostDst := if hostDst c =? 0 then addr info else hostDst c in
    let dstAddr := u64 (hostDst + (addr info - baseAddr)) in
    let c := mkCursor hostDst baseAddr binSize in
    match binCpy with
    | Some binCpy =>
      d ← mem_get src (offset info) (size info);
      let '(dv, ok) := binCpy (dev l) dstAddr d in
      Some (set_dev l dv, c, info, ok)
    | None => Some (l, c, info, false)
    end
  else if name_is info sec_STA || name_is info sec_CLI || name_is info sec_LOG then
    let '(l, p) :=
      if name_is info sec_STA then
        let '(l, p) := if staData l =? 0 then kmalloc l (size info) else (l, staData l) in
        (set_ptrs l p (cliData l) (logData l), p)
      else if name_is info sec_CLI then
        let '(l, p) := if cliData l =? 0 then kmalloc l (size info) else (l, cliData l) in
        (set_ptrs l (staData l) p (logData l), p)
      else
        let '(l, p) := if logData l =? 0 then kmalloc l (size info) else (l, logData l) in
        (set_ptrs l (staData l) (cliData l) p, p) in
    let info := set_data info p in
    if p =? 0 then Some (l, c, info, false)
    else l ← memset0 l p (size info); Some (l, c, info, true)
  else Some (l, c, info, true).

(** The loop; the sections after a failing one stay as they were. *)
Fixpoint load_sections (binCpy : option (D -> Z -> list Z -> D * bool)) (src : list Z)
    l (c : cursor) (secs : list adfFwHdr_secInfo_t)
  : option (loader D * cursor * list adfFwHdr_secInfo_t * bool) :=
  match secs with
  | [] => Some (l, c, [], true)
  | info :: secs =>
    '(l, c, info, ok) ← load_section binCpy src l c info;
    if negb ok then Some (l, c, info :: secs, false)
    else '(l, c, secs, ok) ← load_sections binCpy src l c secs; Some (l, c, info :: secs, ok)
  end.

(** The loop of the error path: [kfree] of every section's [data]; freeing an
    address that is no live block is [None]. *)
Fixpoint free_sections (h : gmap Z (list Z)) (secs : list adfFwHdr_secInfo_t)
  : option (gmap Z (list Z)) :=
  match secs with
  | [] => Some h
  | s :: secs =>
    if data s =? 0 then free_sections h secs
    else match h !! data s with
         | Some _ => free_sections (delete (data s) h) secs
         | None => None
         end
  end.

(** The code at [ERROR], with the section table as the loop left it. *)
Definition load_error l (secs : list adfFwHdr_secInfo_t) : option (loader D * Z) :=
  h ← free_sections (heap l) secs;
  Some (set_ptrs (set_header (set_heap l h) None) 0 0 0, LOAD_ERROR).

Definition headerSize_of (seccnt : Z) : Z := u32 (ADF_FW_HDRLEN + seccnt * 32).

(** [None]: a read outside of the firmware, a write outside of a block, or a
    bad [kfree]. The header's own block is not in [heap]. *)
Definition adfLoad_init (src : list Z) (dst sz : Z)
    (binCpy : option (D -> Z -> list Z -> D * bool)) (dspId : Z) l : option (loader D * Z) :=
  cnt ← get32 src 4;
  let headerSize := headerSize_of cnt in
  if DSP_CORE_NUM <=? dspId then Some (l, LOAD_ERROR) else
  let '(l, cap) :=
    match dspHeader l with
    | Some (cap, _) => (l, Some cap)
    | None =>
      let ok := default true (head (kmalloc_ok l)) in
      (mkLoader None (staData l) (cliData l) (logData l) (heap l) (next l) (tail (kmalloc_ok l)) (dev l),
       if ok then Some (Z.land (u32 (headerSize + 7)) (Z.lnot 7)) else None)
    end in
  match cap with
  | None => Some (l, LOAD_ERROR)
  | Some cap =>
    bytes ← mem_get src 0 headerSize;
    if cap <? headerSize then None else
    hdr ← hdr_at bytes;
    '(l, c, secs, ok) ← load_sections binCpy src l (mkCursor dst 0 0) (secarray hdr);
    if negb ok then load_error l secs
    else if negb (sz =? u32 (headerSize + binSize c)) then load_error l secs
    else Some (set_header l (Some (cap, mkFwHdr (magic hdr) (seccnt hdr) secs)), LOAD_OK)
  end.

(** The loop of [adfLoad_initCheck]: [false] at the first mismatch or failed
    [vmalloc]. *)
Fixpoint check_sections (binRead : Z -> Z -> option (list Z)) (src : list Z)
    (vmalloc_ok : bool) (hostDst baseAddr : Z) (secs : list adfFwHdr_secInfo_t) : option bool :=
  match secs with
  | [] => Some true
  | info :: secs =>
    if name_is info sec_BIN then
      let baseAddr := if baseAddr =? 0 then addr info else baseAddr in
      let hostDst := if hostDst =? 0 then addr info else hostDst in
      let binAddr := u64 (hostDst + (addr info - baseAddr)) in
      if negb vmalloc_ok then Some false else
      match binRead binAddr (size info) with
      | Some binBuf =>
        binData ← mem_get src (offset info) (size info);
        if decide (binData = binBuf) then check_sections binRead src vmalloc_ok hostDst baseAddr secs
        else Some false
      | None => check_sections binRead src vmalloc_ok hostDst baseAddr secs
      end
    else check_sections binRead src vmalloc_ok hostDst baseAddr secs
  end.

Definition adfLoad_initCheck (src : list Z) (dst : Z) (binRead : Z -> Z -> option (list Z))
    (vmalloc_ok : bool) : option bool :=
  hdr ← hdr_at src;
  check_sections binRead src vmalloc_ok dst 0 (secarray hdr).
End Load.

(** ** Specification *)

(** What the loader's users assume of a DSP's memory: a copy that succeeds
    writes exactly its bytes, a read that succeeds returns the bytes there. *)
Class DspMem (D : Type) := {
  dsp_copy : D -> Z -> list Z -> D * bool;
  dsp_read : D -> Z -> Z -> option (list Z);
  peek : D -> Z -> Z;
  copy_peek : forall d a bs d', dsp_copy d a bs = (d', true) -> forall x,
    peek d' x = if (a <=? x) && (x <? a + Z.of_nat (length bs)) then byte_at bs (x - a) else peek d x;
  read_peek : forall d a n bs, dsp_read d a n = Some bs ->
    length bs = Z.to_nat n /\ forall i, 0 <= i < n -> byte_at bs i = peek d (a + i) }.

Definition special (s : adfFwHdr_secInfo_t) : bool :=
  name_is s sec_STA || name_is s sec_CLI || name_is s sec_LOG.

(** How many sections bear a name. *)
Definition count (n : list Z) (secs : list adfFwHdr_secInfo_t) : nat :=
  length (filter (fun s => name s = n) secs).

(** A firmware the loader may be given: at most one section of each special
    name, no [data] pointers in the file, BIN contents inside the file. *)
Record fw_ok (src : list Z) (hdr : adfFwHdr_t) : Prop := {
  fw_hdr : hdr_at src = Some hdr;
  fw_room : 0 <= seccnt hdr /\ ADF_FW_HDRLEN + seccnt hdr * 32 <= Z.of_nat (length src) < 4294967288;
  fw_once : (count sec_STA (secarray hdr) <= 1 /\ count sec_CLI (secarray hdr) <= 1 /\
             count sec_LOG (secarray hdr) <= 1)%nat;
  fw_data : Forall (fun s => data s = 0) (secarray hdr);
  fw_bins : Forall (fun s => name s = sec_BIN ->
    0 <= offset s /\ 0 <= size s /\ offset s + size s <= Z.of_nat (length src)) (secarray hdr) }.

(** Sum of the sizes of the BIN sections, as the 32-bit counter computes it. *)
Fixpoint bin_total (acc : Z) (secs : list adfFwHdr_secInfo_t) : Z :=
  match secs with
  | [] => acc
  | s :: secs => bin_total (if name_is s sec_BIN then u32 (acc + size s) else acc) secs
  end.

(** Where the BIN sections go: start address and size. *)
Fixpoint targets (hostDst baseAddr : Z) (secs : list adfFwHdr_secInfo_t) : list (Z * Z) :=
  match secs with
  | [] => []
  | s :: secs =>
    if name_is s sec_BIN then
      let baseAddr := if baseAddr =? 0 then addr s else baseAddr in
      let hostDst := if hostDst =? 0 then addr s else hostDst in
      (u64 (hostDst + (addr s - baseAddr)), size s) :: targets hostDst baseAddr secs
    else targets hostDst baseAddr secs
  end.

Definition apart (a b : Z * Z) : Prop := a.1 + a.2 <= b.1 \/ b.1 + b.2 <= a.1.
Fixpoint pairwise_apart (ts : list (Z * Z)) : Prop :=
  match ts with
  | [] => True
  | t :: ts => Forall (apart t) ts /\ pairwise_apart ts
  end.

(** A loader no firmware has been loaded with. *)
Definition fresh {D} (l : loader D) : Prop :=
  0 < next l /\ forall p, is_Some (heap l !! p) -> p < next l.
Definition unloaded {D} (l : loader D) : Prop :=
  dspHeader l = None /\ staData l = 0 /\ cliData l = 0 /\ logData l = 0.

#[global] Arguments load_section : simpl never.
#[global] Arguments mem_get : simpl never.

(** ** Parsing a prefix *)

Lemma mem_get_prefix src n b o k :
  mem_get src 0 n = Some b -> 0 <= o -> o + k <= n -> mem_get b o k = mem_get src o k.
Proof.
  intros Hb Ho Hk. apply mem_get_Some in Hb as (_ & Hn & Hl & Hlb & Hbb). cbn in Hl.
  destruct (Z.leb_spec 0 k).
  - destruct (mem_get_is_Some b o k) as [x Hx]; [lia..|].
    destruct (mem_get_is_Some src o k) as [y Hy]; [lia..|]. rewrite Hx, Hy. f_equal.
    apply mem_get_Some in Hx as (_ & _ & _ & Hlx & Hbx).
    apply mem_get_Some in Hy as (_ & _ & _ & Hly & Hby).
    apply bytes_eq; [lia|]. intros i Hi. rewrite Hbx, Hby, Hbb by lia. f_equal; lia.
  - unfold mem_get. destruct (Z.leb_spec 0 k); [lia|]. by rewrite !andb_false_r.
Qed.

Lemma get32_prefix src n b o :
  mem_get src 0 n = Some b -> 0 <= o -> o + 4 <= n -> get32 b o = get32 src o.
Proof. intros. unfold get32. by erewrite mem_get_prefix. Qed.

Lemma sec_at_prefix src n b o :
  mem_get src 0 n = Some b -> 0 <= o -> o + 32 <= n -> sec_at b o = sec_at src o.
Proof.
  intros Hb Ho Hn. unfold sec_at.
  rewrite !(mem_get_prefix src n b _ _ Hb), !(get32_prefix src n b _ Hb) by lia. done.
Qed.

Lemma secs_at_prefix src n b k : forall o,
  mem_get src 0 n = Some b -> 0 <= o -> o + 32 * Z.of_nat k <= n -> secs_at b o k = secs_at src o k.
Proof.
  induction k as [|k IH]; intros o Hb Ho Hn; [done|]. cbn [secs_at].
  rewrite (sec_at_prefix src n b o Hb), IH by (auto; lia). done.
Qed.

(** The header copied out of a firmware is the header of the firmware. *)
Lemma hdr_at_prefix src hdr b :
  fw_ok src hdr -> mem_get src 0 (ADF_FW_HDRLEN + seccnt hdr * 32) = Some b ->
  hdr_at b = Some hdr /\ get32 src 4 = Some (seccnt hdr).
Proof.
  intros [Hh Hr _ _ _] Hb. unfold hdr_at in *. unfold ADF_FW_HDRLEN in *.
  rewrite !(get32_prefix src _ b _ Hb) by lia.
  destruct (get32 src 0) as [m|]; [|done]. destruct (get32 src 4) as [c|]; [|done]. cbn [mbind option_bind] in *.
  destruct (secs_at src 128 (Z.to_nat c)) as [secs|] eqn:Hs; [|done]. cbn [mbind option_bind] in Hh.
  injection Hh as <-. cbn [seccnt] in *.
  rewrite (secs_at_prefix src _ b (Z.to_nat c) 128 Hb) by lia. by rewrite Hs.
Qed.

(** ** One section *)

Section LoadLemmas.
Context {D : Type}.
Implicit Type l : loader D.

(** At most one section is left for a pointer that is still [NULL], none
    otherwise. *)
Definition left_once (l : loader D) (secs : list adfFwHdr_secInfo_t) : Prop :=
  (count sec_STA secs <= if (staData l =? 0)%Z then 1 else 0)%nat /\
  (count sec_CLI secs <= if (cliData l =? 0)%Z then 1 else 0)%nat /\
  (count sec_LOG secs <= if (logData l =? 0)%Z then 1 else 0)%nat.

Lemma count_cons n s secs :
  count n (s :: secs) = ((if name_is s n then 1 else 0) + count n secs)%nat.
Proof.
  unfold count, name_is. rewrite filter_cons.
  case_decide; case_bool_decide; done.
Qed.

Lemma memset0_live l p n b :
  heap l !! p = Some b -> length b = Z.to_nat n ->
  memset0 l p n = Some (set_heap l (<[p := replicate (Z.to_nat n) 0]> (heap l))).
Proof.
  intros Hp Hb. unfold memset0. rewrite Hp. cbn [mbind option_bind].
  unfold mem_put. rewrite length_replicate, Hb.
  destruct (Z.leb_spec (0 + Z.of_nat (Z.to_nat n)) (Z.of_nat (Z.to_nat n))); [|lia].
  cbn [andb Z.leb]. change (0 <=? 0) with true. cbn [andb mbind option_bind].
  change (Z.to_nat 0) with 0%nat. cbn [take app Nat.add].
  by rewrite drop_ge, app_nil_r by lia.
Qed.

Lemma memset0_fresh l p n :
  heap l !! p = Some (replicate (Z.to_nat n) 90) ->
  memset0 l p n = Some (set_heap l (<[p := replicate (Z.to_nat n) 0]> (heap l))).
Proof. intros. eapply memset0_live; [done | apply length_replicate]. Qed.

(** What a section does to the heap: nothing, or one new zeroed block. *)
Definition heap_step (l l' : loader D) (s s' : adfFwHdr_secInfo_t) : Prop :=
  (data s' = 0 /\ heap l' = heap l /\ next l' = next l) \/
  (data s' = next l /\ next l' = next l + 1 /\
   heap l' = <[next l := replicate (Z.to_nat (size s)) 0]> (heap l)).

Lemma kmalloc_cases l n :
  (exists k, kmalloc l n =
    (mkLoader (dspHeader l) (staData l) (cliData l) (logData l)
       (<[next l := replicate (Z.to_nat n) 90]> (heap l)) (next l + 1) k (dev l), next l)) \/
  (exists k, kmalloc l n =
    (mkLoader (dspHeader l) (staData l) (cliData l) (logData l) (heap l) (next l) k (dev l), 0)).
Proof. unfold kmalloc. destruct (default true (head (kmalloc_ok l))); eauto. Qed.

(** A special section of a loader [l] whose pointer for it is [ptr]. *)
Ltac special_section ptr :=
  destruct (Z.eqb_spec ptr 0) as [E|]; [|lia];
  match goal with |- context [kmalloc ?l (size ?s)] =>
    destruct (kmalloc_cases l (size s)) as [[k ->]|[k ->]] end;
  cbn [staData cliData logData];
  [ match goal with |- context [next ?l =? 0] => destruct (Z.eqb_spec (next l) 0); [lia|] end;
    rewrite memset0_fresh by (apply lookup_insert_eq);
    eexists _, _, _, _; (split; [done|]); cbn [set_ptrs set_heap heap next];
    split_and!; [right; split_and!; [done..|apply insert_insert_eq] | | done | done | cbn; lia | done];
    unfold left_once; cbn; match goal with |- context [next ?l =? 0] => destruct (Z.eqb_spec (next l) 0) end; lia
  | rewrite Z.eqb_refl; eexists _, _, _, _; (split; [done|]);
    split_and!; [left; done | | done | done | done | done]; unfold left_once; cbn; rewrite ?E; cbn; lia ].

Lemma load_section_spec binCpy src l c s secs :
  fresh l -> left_once l (s :: secs) -> data s = 0 ->
  (name s = sec_BIN -> 0 <= offset s /\ 0 <= size s /\ offset s + size s <= Z.of_nat (length src)) ->
  exists l' c' s' ok, load_section binCpy src l c s = Some (l', c', s', ok) /\
    heap_step l l' s s' /\ left_once l' secs /\ name s' = name s /\ size s' = size s /\
    (ok = true -> special s = true -> data s' <> 0) /\
    (ok = true -> binSize c' = if name_is s sec_BIN then u32 (binSize c + size s) else binSize c).
Proof.
  intros [Hn Hf] (O1 & O2 & O3) Hd Hbin. rewrite !count_cons in *. unfold load_section, special.
  assert (Hne : sec_BIN <> sec_STA /\ sec_BIN <> sec_CLI /\ sec_BIN <> sec_LOG /\ sec_STA <> sec_CLI
                /\ sec_STA <> sec_LOG /\ sec_CLI <> sec_LOG) by done.
  destruct (name_is s sec_BIN) eqn:HB.
  { unfold name_is in HB. apply bool_decide_eq_true in HB. specialize (Hbin HB).
    unfold name_is. rewrite HB. rewrite !bool_decide_false by (destruct_and! Hne; done). cbn [orb].
    assert (Hl : left_once l secs) by (unfold left_once; lia).
    destruct binCpy as [cp|].
    - destruct (mem_get_is_Some src (offset s) (size s)) as [d Hg]; [lia..|]. rewrite Hg.
      cbn [mbind option_bind]. destruct (cp _ _ d) as [dv ok]. eexists _, _, _, _. split; [done|].
      split_and!; [by left | done | done | done | done | done].
    - eexists _, _, _, _. split; [done|]. split_and!; [by left | done | done | done | done | done]. }
  destruct (name_is s sec_STA) eqn:HS; cbn [orb]; [special_section (staData l)|].
  destruct (name_is s sec_CLI) eqn:HC; cbn [orb]; [special_section (cliData l)|].
  destruct (name_is s sec_LOG) eqn:HL; cbn [orb]; [special_section (logData l)|].
  eexists _, _, _, _. split; [done|].
  split_and!; [by left | unfold left_once; lia | done | done | done | done].
Qed.

(** *** Freeing what was allocated *)

Lemma free_lookup secs : forall h h' (a : Z) (x : list Z),
  free_sections h secs = Some h' -> h' !! a = Some x -> h !! a = Some x.
Proof.
  induction secs as [|s secs IH]; intros h h' a x Hf Hx; cbn [free_sections] in Hf; [congruence|].
  destruct (data s =? 0); [by eapply IH|]. destruct (h !! data s) eqn:Hs; [|done].
  specialize (IH _ _ _ _ Hf Hx). rewrite lookup_delete_Some in IH. tauto.
Qed.

Lemma free_delete secs : forall h h' (a : Z),
  free_sections h secs = Some h' -> Forall (fun s => data s <> a) secs ->
  free_sections (delete a h) secs = Some (delete a h').
Proof.
  induction secs as [|s secs IH]; intros h h' a Hf Ha; cbn [free_sections] in *; [congruence|].
  apply Forall_cons_1 in Ha as [Hs Ha]. destruct (data s =? 0); [by apply IH|].
  rewrite lookup_delete_ne by done. destruct (h !! data s); [|done].
  rewrite delete_delete. by apply IH.
Qed.

Lemma free_nothing secs h : Forall (fun s => data s = 0) secs -> free_sections h secs = Some h.
Proof.
  induction 1 as [|s secs Hs _ IH]; [done|]. cbn [free_sections]. by rewrite Hs.
Qed.

Lemma heap_step_fresh l l' s s' : fresh l -> heap_step l l' s s' -> fresh l' /\ next l <= next l'.
Proof.
  intros [Hn Hf] [(_ & Hh & Hx)|(_ & Hx & Hh)]; unfold fresh; rewrite Hh, Hx.
  - split; [done|lia].
  - split; [|lia]. split; [lia|]. intros p Hp. rewrite lookup_insert_is_Some' in Hp.
    destruct Hp as [<-|Hp]; [lia|]. specialize (Hf p Hp). lia.
Qed.

Lemma load_sections_spec binCpy src secs : forall l c,
  fresh l -> left_once l secs -> Forall (fun s => data s = 0) secs ->
  Forall (fun s => name s = sec_BIN ->
    0 <= offset s /\ 0 <= size s /\ offset s + size s <= Z.of_nat (length src)) secs ->
  exists l' c' secs' ok, load_sections binCpy src l c secs = Some (l', c', secs', ok) /\
    free_sections (heap l') secs' = Some (heap l) /\
    Forall (fun s => data s = 0 \/ next l <= data s) secs' /\
    (ok = true -> Forall2 (fun s s' => name s' = name s /\ size s' = size s /\
       (special s = true -> heap l' !! data s' = Some (replicate (Z.to_nat (size s)) 0))) secs secs' /\
     binSize c' = bin_total (binSize c) secs).
Proof.
  induction secs as [|s secs IH]; intros l c Hf Ho Hd Hb.
  { eexists l, c, [], true. cbn. split_and!; done. }
  apply Forall_cons_1 in Hd as [Hds Hd]. apply Forall_cons_1 in Hb as [Hbs Hb].
  destruct (load_section_spec binCpy src l c s secs Hf Ho Hds Hbs)
    as (l1 & c1 & s1 & ok & Hl & Hst & Ho1 & Hnm & Hsz & Hnz & Hbsz).
  destruct (heap_step_fresh _ _ _ _ Hf Hst) as [Hf1 Hnx]. cbn [load_sections]. rewrite Hl.
  cbn [mbind option_bind].
  assert (Hfree : forall h' secs', free_sections h' secs' = Some (heap l1) ->
    Forall (fun s => data s = 0 \/ next l1 <= data s) secs' ->
    free_sections h' (s1 :: secs') = Some (heap l)).
  { intros h' secs' Hfs Hge. cbn [free_sections].
    destruct Hst as [(H0 & Hh & _)|(H0 & Hx & Hh)]; rewrite H0.
    - cbn. by rewrite <- Hh.
    - destruct Hf as [Hpos Hdom]. destruct (Z.eqb_spec (next l) 0); [lia|].
      assert (Hin : heap l1 !! next l = Some (replicate (Z.to_nat (size s)) 0))
        by (rewrite Hh; apply lookup_insert_eq).
      rewrite (free_lookup _ _ _ _ _ Hfs Hin).
      rewrite (free_delete _ _ _ (next l) Hfs).
      + rewrite Hh, delete_insert_id; [done|].
        destruct (heap l !! next l) eqn:He; [|done]. specialize (Hdom (next l) ltac:(eauto)). lia.
      + eapply Forall_impl; [exact Hge|]. cbn. intros s0 [->|]; lia. }
  assert (Hs1 : data s1 = 0 \/ next l <= data s1) by (destruct Hst as [(? & _)|(? & _)]; lia).
  destruct ok; cbn [negb].
  - destruct (IH l1 c1 Hf1 Ho1 Hd Hb) as (l2 & c2 & secs2 & ok2 & -> & Hfr & Hge & Hok).
    cbn [mbind option_bind]. exists l2, c2, (s1 :: secs2), ok2. split; [done|]. split_and!.
    + by apply Hfree.
    + constructor; [done|]. eapply Forall_impl; [exact Hge|]. cbn. intros s0 []; lia.
    + intros E. destruct (Hok E) as [Hall Hbt]. split.
      * constructor; [|done]. split_and!; [done|done|]. intros Hsp.
        destruct Hst as [(H0 & _)|(H0 & _ & Hh)]; [by destruct (Hnz eq_refl Hsp)|].
        apply (free_lookup _ _ _ _ _ Hfr). rewrite H0, Hh. apply lookup_insert_eq.
      * rewrite Hbt. cbn [bin_total]. by rewrite Hbsz.
  - exists l1, c1, (s1 :: secs), false. split; [done|]. split_and!.
    + apply Hfree; [by apply free_nothing|]. eapply Forall_impl; [exact Hd|]. cbn. auto.
    + constructor; [done|]. eapply Forall_impl; [exact Hd|]. cbn. auto.
    + done.
Qed.

(** C30. All or nothing: loading a well-formed firmware for the first time
    never goes outside of the file or frees wrongly. Either it succeeds - the
    file's size is then the header plus the BIN sections, the header is kept
    and every STA, CLI and LOG section owns a zeroed block of its size - or it
    reports an error and everything it allocated has been freed. *)
Theorem load_all_or_nothing (src : list Z) hdr dst sz binCpy l :
  fw_ok src hdr -> fresh l -> unloaded l ->
  exists l' ret, adfLoad_init src dst sz binCpy 0 l = Some (l', ret) /\
    ((ret = LOAD_OK /\
      sz = u32 (ADF_FW_HDRLEN + seccnt hdr * 32 + bin_total 0 (secarray hdr)) /\
      exists cap secs', dspHeader l' = Some (cap, mkFwHdr (magic hdr) (seccnt hdr) secs') /\
        Forall2 (fun s s' => name s' = name s /\ size s' = size s /\
          (special s = true -> heap l' !! data s' = Some (replicate (Z.to_nat (size s)) 0)))
          (secarray hdr) secs') \/
     (ret = LOAD_ERROR /\ unloaded l' /\ heap l' = heap l)).
Proof.
  intros Hfw Hf (Hd & Hsta & Hcli & Hlog).
  destruct (fw_room _ _ Hfw) as [Hc Hroom]. unfold ADF_FW_HDRLEN in *.
  destruct (mem_get_is_Some src 0 (128 + seccnt hdr * 32)) as [b Hb]; [lia..|].
  destruct (hdr_at_prefix src hdr b Hfw Hb) as [Hh H4]. unfold adfLoad_init. rewrite H4.
  cbn [mbind option_bind]. change (DSP_CORE_NUM <=? 0) with false.
  assert (Hhs : headerSize_of (seccnt hdr) = 128 + seccnt hdr * 32)
    by (unfold headerSize_of, ADF_FW_HDRLEN; apply u32_id; lia).
  rewrite Hhs, Hd. set (l0 := mkLoader None _ _ _ _ _ _ _).
  destruct (default true (head (kmalloc_ok l))); [|exists l0, LOAD_ERROR; split; [done|]; right; done].
  rewrite Hb. cbn [mbind option_bind].
  assert (Hcap : 128 + seccnt hdr * 32 <= Z.land (u32 (128 + seccnt hdr * 32 + 7)) (Z.lnot 7)).
  { rewrite u32_id by lia. change 7 with (Z.ones 3) at 2.
    rewrite <- Z.ldiff_land, Z.ldiff_ones_r, Z.shiftl_mul_pow2, Z.shiftr_div_pow2 by lia.
    change (2 ^ 3) with 8.
    replace (128 + seccnt hdr * 32 + 7) with (7 + (16 + seccnt hdr * 4) * 8) by lia.
    rewrite Z.div_add by lia. change (7 / 8) with 0. lia. }
  destruct (Z.ltb_spec (Z.land (u32 (128 + seccnt hdr * 32 + 7)) (Z.lnot 7)) (128 + seccnt hdr * 32)); [lia|].
  rewrite Hh. cbn [mbind option_bind].
  assert (Ho : left_once l0 (secarray hdr)).
  { unfold left_once, l0. cbn. rewrite Hsta, Hcli, Hlog. cbn. apply (fw_once _ _ Hfw). }
  destruct (load_sections_spec binCpy src (secarray hdr) l0 (mkCursor dst 0 0) Hf Ho
    (fw_data _ _ Hfw) (fw_bins _ _ Hfw)) as (l2 & c2 & secs2 & ok & -> & Hfr & _ & Hok).
  cbn [mbind option_bind]. unfold load_error. rewrite Hfr. cbn [mbind option_bind].
  destruct ok; cbn [negb]; [|eexists _, _; split; [done|]; by right].
  destruct (Hok eq_refl) as [Hall Hbt]. cbn [binSize] in Hbt. rewrite Hbt.
  destruct (Z.eqb_spec sz (u32 (128 + seccnt hdr * 32 + bin_total 0 (secarray hdr)))); cbn [negb];
    [|eexists _, _; split; [done|]; by right].
  eexists _, _. split; [done|]. left. split; [done|]. split; [done|]. by eexists _, _.
Qed.
End LoadLemmas.

(** *** What is in the DSP's memory *)

Section Check.
Context {D : Type} `{DspMem D}.
Implicit Type l : loader D.

(** The byte ranges of the copies of a section list are the only ones that
    change. *)
Lemma load_section_dev src l c s l' c' s' ok :
  load_section (Some dsp_copy) src l c s = Some (l', c', s', ok) ->
  if name_is s sec_BIN then
    let base := if baseAddr c =? 0 then addr s else baseAddr c in
    let host := if hostDst c =? 0 then addr s else hostDst c in
    hostDst c' = host /\ baseAddr c' = base /\
    exists d, mem_get src (offset s) (size s) = Some d /\
      dsp_copy (dev l) (u64 (host + (addr s - base))) d = (dev l', ok)
  else dev l' = dev l /\ hostDst c' = hostDst c /\ baseAddr c' = baseAddr c.
Proof.
  unfold load_section. destruct (name_is s sec_BIN).
  - destruct (mem_get src (offset s) (size s)) as [d|] eqn:Hg; [|done]. cbn [mbind option_bind].
    destruct (dsp_copy _ _ d) as [dv ok'] eqn:Hc. intros [= <- <- <- <-]. cbn. split_and!; try done.
    exists d. split; [done|]. exact Hc.
  - assert (Hk : forall n, dev (kmalloc l n).1 = dev l)
      by (intros n; unfold kmalloc; by destruct (default true _)).
    destruct (name_is s sec_STA || name_is s sec_CLI || name_is s sec_LOG); [|by intros [= <- <- <- <-]].
    set (lp := if name_is s sec_STA then _ else _).
    assert (Hlp : dev lp.1 = dev l).
    { unfold lp. specialize (Hk (size s)).
      destruct (name_is s sec_STA); [destruct (staData l =? 0)|
        destruct (name_is s sec_CLI); [destruct (cliData l =? 0)|destruct (logData l =? 0)]];
        try done; destruct (kmalloc l (size s)) as [lk p]; exact Hk. }
    clearbody lp. destruct lp as [l1 p]. cbn [fst] in Hlp.
    destruct (p =? 0); [by intros [= <- <- <- <-]|]. unfold memset0.
    destruct (heap l1 !! p); [|done]. cbn [mbind option_bind].
    destruct (mem_put _ _ _); [|done]. cbn [mbind option_bind]. by intros [= <- <- <- <-].
Qed.

(** Bytes apart from every remaining target stay. *)
Lemma load_sections_frame src secs : forall l c l' c' secs' ok,
  load_sections (Some dsp_copy) src l c secs = Some (l', c', secs', ok) -> ok = true ->
  forall x, Forall (fun t => x < t.1 \/ t.1 + t.2 <= x) (targets (hostDst c) (baseAddr c) secs) ->
  peek (dev l') x = peek (dev l) x.
Proof.
  induction secs as [|s secs IH]; intros l c l' c' secs' ok Hl Hok x Hx; cbn [load_sections] in Hl.
  { by injection Hl as <- <- <- <-. }
  destruct (load_section _ src l c s) as [[[[l1 c1] s1] ok1]|] eqn:Hs; [|done].
  cbn [mbind option_bind] in Hl. apply load_section_dev in Hs.
  destruct ok1; cbn [negb] in Hl; [|congruence].
  destruct (load_sections _ src l1 c1 secs) as [[[[l2 c2] secs2] ok2]|] eqn:Hr; [|done].
  cbn [mbind option_bind] in Hl. injection Hl as <- <- <- ->. cbn [targets] in Hx.
  destruct (name_is s sec_BIN).
  - destruct Hs as (Hh & Hb & d & Hg & Hc). cbv zeta in Hx. apply Forall_cons_1 in Hx as [Hx1 Hx].
    rewrite (IH _ _ _ _ _ _ Hr Hok) by (by rewrite Hh, Hb).
    rewrite (copy_peek _ _ _ _ Hc). cbn [fst snd] in Hx1.
    apply mem_get_Some in Hg as (_ & _ & _ & Hlen & _).
    destruct (Z.leb_spec (u64 ((if hostDst c =? 0 then addr s else hostDst c) +
      (addr s - (if baseAddr c =? 0 then addr s else baseAddr c)))) x); [|done].
    destruct (Z.ltb_spec x (u64 ((if hostDst c =? 0 then addr s else hostDst c) +
      (addr s - (if baseAddr c =? 0 then addr s else baseAddr c))) + Z.of_nat (length d))); [lia|done].
  - destruct Hs as (Hd & Hh & Hb). rewrite <- Hd. apply (IH _ _ _ _ _ _ Hr Hok). by rewrite Hh, Hb.
Qed.

Lemma load_sections_check src secs : forall l c l' c' secs',
  load_sections (Some dsp_copy) src l c secs = Some (l', c', secs', true) ->
  pairwise_apart (targets (hostDst c) (baseAddr c) secs) ->
  check_sections (dsp_read (dev l')) src true (hostDst c) (baseAddr c) secs = Some true.
Proof.
  induction secs as [|s secs IH]; intros l c l' c' secs' Hl Hp; [done|]. cbn [load_sections] in Hl.
  destruct (load_section _ src l c s) as [[[[l1 c1] s1] ok1]|] eqn:Hs; [|done].
  cbn [mbind option_bind] in Hl. apply load_section_dev in Hs.
  destruct ok1; cbn [negb] in Hl; [|congruence].
  destruct (load_sections _ src l1 c1 secs) as [[[[l2 c2] secs2] ok2]|] eqn:Hr; [|done].
  cbn [mbind option_bind] in Hl. injection Hl as <- <- <- ->. cbn [check_sections targets] in *.
  destruct (name_is s sec_BIN).
  - destruct Hs as (Hh & Hb & d & Hg & Hc). cbv zeta in *. rewrite <- Hh, <- Hb in *.
    destruct Hp as [Hap Hp]. specialize (IH _ _ _ _ _ Hr Hp). rewrite Hg. cbn [negb mbind option_bind].
    pose proof (mem_get_Some _ _ _ _ Hg) as (_ & Hsz & _ & Hlen & _).
    destruct (dsp_read (dev l2) _ (size s)) as [bs|] eqn:Hrd; [|exact IH].
    apply read_peek in Hrd as [Hlb Hbb]. rewrite decide_True; [exact IH|].
    apply bytes_eq; [lia|]. intros i Hi. rewrite Hbb by lia.
    rewrite (load_sections_frame _ _ _ _ _ _ _ _ Hr eq_refl).
    + rewrite (copy_peek _ _ _ _ Hc).
      destruct (Z.leb_spec (u64 (hostDst c1 + (addr s - baseAddr c1))) (u64 (hostDst c1 + (addr s - baseAddr c1)) + i)); [|lia].
      destruct (Z.ltb_spec (u64 (hostDst c1 + (addr s - baseAddr c1)) + i) (u64 (hostDst c1 + (addr s - baseAddr c1)) + Z.of_nat (length d))); [|lia].
      cbn [andb]. f_equal. lia.
    + eapply Forall_impl; [exact Hap|]. intros t Ht. unfold apart in Ht. cbn [fst snd] in Ht. lia.
  - destruct Hs as (Hd & Hh & Hb). rewrite <- Hh, <- Hb in *. by eapply IH.
Qed.

(** A load that reports success passes the loader's own check: with a DSP
    memory that keeps what is copied to it, BIN sections that do not overlap
    there read back as the bytes of the file. *)
Theorem load_then_check (src : list Z) hdr dst sz l l' :
  fw_ok src hdr -> pairwise_apart (targets dst 0 (secarray hdr)) ->
  adfLoad_init src dst sz (Some dsp_copy) 0 l = Some (l', LOAD_OK) ->
  adfLoad_initCheck src dst (dsp_read (dev l')) true = Some true.
Proof.
  intros Hfw Hap Hi. unfold adfLoad_initCheck. rewrite (fw_hdr _ _ Hfw). cbn [mbind option_bind].
  unfold adfLoad_init in Hi. destruct (fw_room _ _ Hfw) as [Hc Hroom]. unfold ADF_FW_HDRLEN in *.
  destruct (mem_get_is_Some src 0 (128 + seccnt hdr * 32)) as [b Hb]; [lia..|].
  destruct (hdr_at_prefix src hdr b Hfw Hb) as [Hh H4]. rewrite H4 in Hi. cbn [mbind option_bind] in Hi.
  change (DSP_CORE_NUM <=? 0) with false in Hi.
  assert (Hhs : headerSize_of (seccnt hdr) = 128 + seccnt hdr * 32)
    by (unfold headerSize_of, ADF_FW_HDRLEN; apply u32_id; lia).
  rewrite Hhs in Hi.
  destruct (match dspHeader l with Some (cap, _) => _ | None => _ end) as [l1 [cap|]]; [|done].
  rewrite Hb in Hi. cbn [mbind option_bind] in Hi.
  destruct (cap <? 128 + seccnt hdr * 32); [done|]. rewrite Hh in Hi. cbn [mbind option_bind] in Hi.
  destruct (load_sections _ src l1 _ _) as [[[[l2 c2] secs2] ok]|] eqn:Hl; [|done].
  cbn [mbind option_bind] in Hi. destruct ok; cbn [negb] in Hi.
  - apply load_sections_check in Hl; [|done].
    destruct (sz =? _); cbn [negb] in Hi; [injection Hi as <-; exact Hl|].
    unfold load_error in Hi. destruct (free_sections _ _); done.
  - unfold load_error in Hi. destruct (free_sections _ _); done.
Qed.
End Check.

(** *** A firmware that makes the error path free twice *)

(** Two STA sections and a size that does not match. *)
Definition double_sta : list Z :=
  le_enc 4 ADF_FW_MAGIC ++ le_enc 4 2 ++ replicate 120 0 ++
  sec_STA ++ le_enc 4 0 ++ le_enc 4 16 ++ le_enc 4 0 ++ replicate 16 0 ++
  sec_STA ++ le_enc 4 0 ++ le_enc 4 16 ++ le_enc 4 0 ++ replicate 16 0.

(** A firmware with a pointer in a BIN section's [data] field. *)
Definition stray_data : list Z :=
  le_enc 4 ADF_FW_MAGIC ++ le_enc 4 1 ++ replicate 120 0 ++
  sec_BIN ++ le_enc 4 4096 ++ le_enc 4 0 ++ le_enc 4 160 ++ le_enc 8 57005 ++ replicate 8 0.

Lemma load_sta_null {D} (l : loader D) binCpy src c s :
  name s = sec_STA -> staData l = 0 -> kmalloc_ok l = [] -> next l <> 0 ->
  load_section binCpy src l c s =
    Some (mkLoader (dspHeader l) (next l) (cliData l) (logData l)
            (<[next l := replicate (Z.to_nat (size s)) 0]> (heap l)) (next l + 1) [] (dev l),
          c, set_data s (next l), true).
Proof.
  intros Hn H0 Hk Hx. unfold load_section, name_is. rewrite Hn, H0. cbn [Z.eqb].
  rewrite bool_decide_false by done. rewrite bool_decide_true by done. cbn [orb].
  unfold kmalloc. rewrite Hk. change (default true (head [])) with true. cbn iota beta zeta.
  destruct (Z.eqb_spec (next l) 0); [done|]. rewrite memset0_fresh by (apply lookup_insert_eq).
  cbn. by rewrite insert_insert_eq.
Qed.

Lemma load_sta_again {D} (l : loader D) binCpy p src c s :
  name s = sec_STA -> staData l = p -> p <> 0 ->
  heap l !! p = Some (replicate (Z.to_nat (size s)) 0) ->
  load_section binCpy src l c s =
    Some (set_heap (set_ptrs l p (cliData l) (logData l))
            (<[p := replicate (Z.to_nat (size s)) 0]> (heap l)), c, set_data s p, true).
Proof.
  intros Hn Hp Hnz Hb. unfold load_section, name_is. rewrite Hn, Hp.
  rewrite bool_decide_false by done. rewrite bool_decide_true by done. cbn [orb].
  assert (E : (p =? 0) = false) by (by apply Z.eqb_neq). rewrite E. cbn iota beta zeta. rewrite E.
  change (size (set_data s p)) with (size s).
  by rewrite (memset0_live (set_ptrs l p (cliData l) (logData l)) p (size s) _ Hb) by apply length_replicate.
Qed.

#[local] Arguments insert : simpl never.
#[local] Arguments lookup : simpl never.
#[local] Arguments delete : simpl never.

Lemma double_sta_facts :
  get32 double_sta 4 = Some 2 /\ mem_get double_sta 0 192 = Some double_sta /\
  hdr_at double_sta = Some (mkFwHdr ADF_FW_MAGIC 2
    [mkSec sec_STA 0 16 0 0 0 0; mkSec sec_STA 0 16 0 0 0 0]).
Proof. split_and!; vm_compute; reflexivity. Qed.

Lemma stray_data_facts :
  get32 stray_data 4 = Some 1 /\ mem_get stray_data 0 160 = Some stray_data /\
  hdr_at stray_data = Some (mkFwHdr ADF_FW_MAGIC 1 [mkSec sec_BIN 4096 0 160 57005 0 0]).
Proof. split_and!; vm_compute; reflexivity. Qed.

(** The error path trusts the file: a firmware with two sections of one
    name, or with a non-zero [data] field in a BIN section, makes it free a
    block twice or free an address out of the file, on any loader that has
    not loaded yet. *)
Theorem error_path_bad_free {D} (l : loader D) (cp : D -> Z -> list Z -> D * bool) dst :
  fresh l -> unloaded l -> kmalloc_ok l = [] -> heap l !! 57005 = None ->
  adfLoad_init double_sta dst 0 (Some cp) 0 l = None /\
  adfLoad_init stray_data dst 0 (Some cp) 0 l = None.
Proof.
  intros [Hn Hf] (Hd & Hs & Hc & Hl) Hk Hno.
  destruct l as [hd sta cli log hp nx ks dv]. cbn in Hn, Hf, Hd, Hs, Hc, Hl, Hk, Hno. subst.
  split; unfold adfLoad_init.
  - rewrite (proj1 double_sta_facts). cbn [mbind option_bind].
    change (headerSize_of 2) with 192. change (DSP_CORE_NUM <=? 0) with false.
    cbn [dspHeader kmalloc_ok head default tail staData cliData logData heap next dev].
    change (default true None) with true. cbn iota.
    rewrite (proj1 (proj2 double_sta_facts)). cbn [mbind option_bind].
    change (Z.land (u32 (192 + 7)) (Z.lnot 7)) with 192. change (192 <? 192) with false.
    rewrite (proj2 (proj2 double_sta_facts)). cbn [mbind option_bind secarray load_sections].
    rewrite load_sta_null by (cbn; done || lia). cbn [mbind option_bind negb next heap dev].
    erewrite (load_sta_again _ _ nx) by (cbn; done || lia || apply lookup_insert_eq).
    cbn [mbind option_bind negb binSize]. change (0 =? _) with false. cbn [negb].
    unfold load_error, set_data, set_heap, set_ptrs. cbn [heap free_sections data].
    rewrite insert_insert_eq. destruct (Z.eqb_spec nx 0); [lia|].
    by rewrite lookup_insert_eq, lookup_delete_eq.
  - rewrite (proj1 stray_data_facts). cbn [mbind option_bind].
    change (headerSize_of 1) with 160. change (DSP_CORE_NUM <=? 0) with false.
    cbn [dspHeader kmalloc_ok head default tail staData cliData logData heap next dev].
    change (default true None) with true. cbn iota.
    rewrite (proj1 (proj2 stray_data_facts)). cbn [mbind option_bind].
    change (Z.land (u32 (160 + 7)) (Z.lnot 7)) with 160. change (160 <? 160) with false.
    rewrite (proj2 (proj2 stray_data_facts)). cbn [mbind option_bind secarray load_sections].
    unfold load_section. change (name_is _ sec_BIN) with true.
    cbn [offset size baseAddr hostDst binSize addr mbind option_bind].
    change (mem_get stray_data 160 0) with (Some (@nil Z)). cbn [mbind option_bind dev].
    destruct (cp dv _ _) as [d' []]; cbn [mbind option_bind negb binSize]; [change (0 =? _) with false|];
      cbn [negb]; unfold load_error; cbn [heap set_dev free_sections data];
      change (57005 =? 0) with false; by rewrite Hno.
Qed.

(** ** Instances of the properties *)

(** A memory that always answers. *)
#[export] Instance flat_mem : DspMem (Z -> Z).
Proof.
  refine {| dsp_copy d a bs :=
              (fun x => if (a <=? x) && (x <? a + Z.of_nat (length bs)) then byte_at bs (x - a) else d x, true);
            dsp_read d a n := Some ((fun i : nat => d (a + Z.of_nat i)) <$> seq 0 (Z.to_nat n));
            peek d x := d x |}.
  - by intros d a bs d' [= <-] x.
  - intros d a n bs [= <-]. split; [by rewrite length_fmap, length_seq|]. intros i Hi.
    unfold byte_at. rewrite list_lookup_total_alt, list_lookup_fmap, lookup_seq_lt by lia. cbn.
    f_equal. lia.
Defined.

(** One BIN section of four bytes and an STA section. *)
Definition small_fw : list Z :=
  le_enc 4 ADF_FW_MAGIC ++ le_enc 4 2 ++ replicate 120 0 ++
  sec_BIN ++ le_enc 4 4096 ++ le_enc 4 4 ++ le_enc 4 192 ++ replicate 16 0 ++
  sec_STA ++ le_enc 4 0 ++ le_enc 4 16 ++ le_enc 4 0 ++ replicate 16 0 ++ [10; 20; 30; 40].

Definition small_hdr : adfFwHdr_t := mkFwHdr ADF_FW_MAGIC 2
  [mkSec sec_BIN 4096 4 192 0 0 0; mkSec sec_STA 0 16 0 0 0 0].

Definition blank_loader : loader (Z -> Z) := mkLoader None 0 0 0 ∅ 1 [] (fun _ => 0).

Lemma small_fw_ok : fw_ok small_fw small_hdr.
Proof.
  split.
  - vm_compute; reflexivity.
  - vm_compute; split; [discriminate | split; [discriminate | reflexivity]].
  - vm_compute; repeat split; repeat constructor.
  - repeat constructor.
  - constructor; [intros _; vm_compute; repeat split; discriminate|].
    constructor; [intros H; discriminate H | constructor].
Qed.

Lemma blank_fresh : fresh blank_loader /\ unloaded blank_loader.
Proof. split; [|done]. split; [done|]. intros p [x Hx]. done. Qed.

Lemma load_all_or_nothing_witness :
  exists l' ret, adfLoad_init small_fw 0 196 (Some dsp_copy) 0 blank_loader = Some (l', ret) /\
    (ret = LOAD_OK \/ ret = LOAD_ERROR /\ heap l' = heap blank_loader).
Proof.
  destruct (load_all_or_nothing small_fw small_hdr 0 196 (Some dsp_copy) blank_loader small_fw_ok
    (proj1 blank_fresh) (proj2 blank_fresh)) as (l' & ret & H & [(H1 & _)|(H1 & _ & H2)]);
    exists l', ret; (split; [exact H|]); [left; exact H1 | right; split; [exact H1 | exact H2]].
Defined.

Lemma load_then_check_witness :
  exists l', adfLoad_init small_fw 0 196 (Some dsp_copy) 0 blank_loader = Some (l', LOAD_OK) /\
    adfLoad_initCheck small_fw 0 (dsp_read (dev l')) true = Some true.
Proof.
  eexists. split; [vm_compute; reflexivity|].
  eapply (load_then_check small_fw small_hdr 0 196 blank_loader _ small_fw_ok).
  - vm_compute. split; [constructor|exact I].
  - vm_compute; reflexivity.
Defined.

Lemma error_path_bad_free_witness :
  adfLoad_init double_sta 0 0 (Some dsp_copy) 0 blank_loader = None.
Proof.
  exact (proj1 (error_path_bad_free blank_loader dsp_copy 0 (proj1 blank_fresh) (proj2 blank_fresh)
    eq_refl eq_refl)).
Defined.
