(* ===== verification/AdfDebug.v ===== *)
(** * DSP framework: the debugfs nodes (dspframework/src/adf_debug.c)

    The handlers copy the STA, CLI and LOG sections from the DSP's memory into
    the loader's buffers, work on the copies with [Cli], [DspState] and
    [DspLog], and write them back. *)

From stdpp Require Import base tactics numbers list option gmap.
From S2P Require Import Prelude Kstrtox Ringbuf Cli DspState DspLog DspLoad.

(** ** adf_debug.h *)

Definition ADF_DEBUG_LOG_CLEAR_CMD : list Z := [99; 108; 101; 97; 114; 10]. (* clear\n *)
Definition ADF_DEBUG_LOG_CLEAR_CMD_LEN : Z := 6.
Definition ADF_DEBUG_CHAR_LEN : Z := 1.
Definition sizeof_adfRingbuf_t : Z := 32.
Definition ADF_LOG_DUMP_RECENT : Z := 0.
Definition ADF_LOG_DUMP_ALL : Z := 1.

(** ** A ring buffer inside a section's buffer *)

(** The struct at the start of a buffer, over the [n] bytes after it. *)
Definition ring_at (b : list Z) (n : Z) : option ring :=
  w0 ← get32 b 0; w1 ← get32 b 4; w2 ← get32 b 8; w3 ← get32 b 12;
  w4 ← get32 b 16; w5 ← get32 b 20; w6 ← get32 b 24; w7 ← get32 b 28;
  d ← mem_get b 32 n;
  Some (mkRing (mkRingbuf (s32 w0) (s32 w1) (s32 w2) (s32 w3) (s32 w4) (s32 w5) w6 w7) 32 d).

Definition hdr_words (h : adfRingbuf_t) : list Z :=
  mjoin (le_enc 4 <$> [u32 (base h); u32 (limit h); u32 (wp h); u32 (rp h); u32 (drop_ h);
                       u32 (dropunit h); u32 (u0 h); u32 (u1 h)]).

(** The buffer after an operation left the ring as [r]. *)
Definition put_ring (b : list Z) (r : ring) : list Z :=
  hdr_words (hdr r) ++ bytes r ++ drop (32 + length (bytes r)) b.

(** ** The code *)

(** What a handler prints. *)
Inductive msg := MsgBadHeader | MsgReadFail | MsgText (s : list Z) | MsgState (s : Z)
  | MsgLines (ls : list (list Z)).

Section Debug.
Context {D : Type}.
(** The platform's accessors: a read returns its result and the bytes it put
    into the buffer, a write the new memory and its error. *)
Context (adf_dbg_mem_read : D -> Z -> Z -> Z * list Z).
Context (adf_dbg_mem_write : D -> Z -> list Z -> D * Z).
Implicit Type l : loader D.

(** [adf_dbg_mem_read(info->addr, info->data, n)]. *)
Definition read_section l (info : adfFwHdr_secInfo_t) (n : Z) : option (loader D * Z) :=
  b ← heap l !! data info;
  let '(ret, d) := adf_dbg_mem_read (dev l) (addr info) n in
  b ← mem_put b 0 d;
  Some (set_heap l (<[data info := b]> (heap l)), ret).

(** [adf_dbg_mem_write(info->addr, info->data, info->size)]. *)
Definition write_section l (info : adfFwHdr_secInfo_t) : option (loader D * Z) :=
  b ← heap l !! data info;
  d ← mem_get b 0 (size info);
  let '(dv, err) := adf_dbg_mem_write (dev l) (addr info) d in
  Some (set_dev l dv, err).

Definition totalLen (info : adfFwHdr_secInfo_t) : Z :=
  s32 (u64 (u64 (size info - 8) / ADF_DEBUG_CHAR_LEN - sizeof_adfRingbuf_t)).

Definition _adfDebug_logBufCheck l (logInfo : option adfFwHdr_secInfo_t) : option bool :=
  match logInfo with
  | None => Some false
  | Some info =>
    if data info =? 0 then Some false
    else if 0 <? totalLen info then
      b ← heap l !! data info;
      r ← ring_at b 0;
      Some (adfRingbuf_checkValid (hdr r) sizeof_adfRingbuf_t (totalLen info))
    else Some false
  end.

(** Runs [f] on the ring of a section's buffer. *)
Definition with_ring {A} l (info : adfFwHdr_secInfo_t) (n : Z) (f : ring -> option (ring * A))
  : option (loader D * A) :=
  b ← heap l !! data info;
  r ← ring_at b n;
  '(r, a) ← f r;
  Some (set_heap l (<[data info := put_ring b r]> (heap l)), a).

(** Updates the [i]th section of the kept header. *)
Definition set_section l (i : nat) (s : adfFwHdr_secInfo_t) : loader D :=
  match dspHeader l with
  | Some (cap, h) =>
    set_header l (Some (cap, mkFwHdr (magic h) (seccnt h) (<[i := s]> (secarray h))))
  | None => l
  end.

(** The body common to the handlers: the core's private data, then the header
    check; [k] runs when the magic matches. [priv] is [file->private]. *)
Definition with_header {A} l (dspId : Z) (no_priv no_header no_magic : A)
    (k : option (loader D * A)) : option (loader D * A) :=
  if DSP_CORE_NUM <=? dspId then Some (l, no_priv)
  else match dspHeader l with
       | None => Some (l, no_header)
       | Some (_, h) => if magic h =? ADF_FW_MAGIC then k else Some (l, no_magic)
       end.

Definition some_ring (o : option (option ring * Z * list Z)) : option (ring * (list Z)) :=
  '(r, _, out) ← o; r ← r; Some (r, out).

Definition _adfDebug_readLog l (priv : option Z) (vmalloc_ok : bool)
  : option (loader D * (Z * list msg)) :=
  match priv with
  | None => Some (l, (- EINVAL, []))
  | Some p =>
    let dspId := Z.land p 255 in
    with_header l dspId (0, []) (0, [MsgBadHeader]) (0, [])
      (logInfo ← adfLoad_GetSecInfo (dspHeader l) sec_LOG;
       match logInfo with
       | None => Some (l, (0, []))
       | Some (_, info) =>
         l ← memset0 l (data info) (size info);
         '(l, ret) ← read_section l info (size info);
         if ret =? 0 then Some (l, (0, [MsgReadFail])) else
         ok ← _adfDebug_logBufCheck l (Some info);
         if negb ok then Some (l, (0, [])) else
         '(l, out) ← with_ring l info (totalLen info)
                      (fun r => some_ring (adfLog_dump (Some r) (reserved0 info) true vmalloc_ok));
         Some (l, (0, [MsgText out]))
       end)
  end.

(** [userbuf]: the bytes written; [copy_ok] the result of [copy_from_user]. *)
Definition _adfDebug_writeCli l (priv : option Z) (userbuf : list Z) (vmalloc_ok copy_ok : bool)
  : option (loader D * Z) :=
  let count := Z.of_nat (length userbuf) in
  match priv with
  | None => Some (l, - EINVAL)
  | Some p =>
    if negb vmalloc_ok then Some (l, - ENOMEM)
    else if negb copy_ok then Some (l, - EFAULT)
    else
      with_header l (Z.land p 255) count count count
        (if (count =? ADF_DEBUG_LOG_CLEAR_CMD_LEN) && bool_decide (userbuf = ADF_DEBUG_LOG_CLEAR_CMD)
         then
           logInfo ← adfLoad_GetSecInfo (dspHeader l) sec_LOG;
           match logInfo with
           | None => Some (l, count)
           | Some (i, info) =>
             '(l, ret) ← read_section l info (size info);
             if ret <=? 0 then Some (l, count) else
             ok ← _adfDebug_logBufCheck l (Some info);
             if negb ok then Some (l, count) else
             '(l, flag) ← with_ring l info (totalLen info)
                (fun r => '(r, flag) ← adfLog_clearHistory (Some r) (reserved0 info); r ← r; Some (r, flag));
             Some (set_section l i (set_reserved info flag (reserved1 info)), count)
           end
         else
           staInfo ← adfLoad_GetSecInfo (dspHeader l) sec_STA;
           cliInfo ← adfLoad_GetSecInfo (dspHeader l) sec_CLI;
           '(_, staInfo) ← staInfo;      (* a missing section is dereferenced *)
           '(l, ret) ← read_section l staInfo (size staInfo);
           if ret =? 0 then Some (l, count) else
           '(_, cliInfo) ← cliInfo;
           '(l, ret) ← read_section l cliInfo (size cliInfo);
           if ret =? 0 then Some (l, count) else
           '(l, _) ← with_ring l cliInfo (size cliInfo - sizeof_adfRingbuf_t)
              (fun r => '(r, n) ← adfCli_send (Some r) userbuf (s32 count); r ← r; Some (r, n));
           '(l, _) ← write_section l cliInfo;
           Some (l, count))
  end.

Definition _adfDebug_readState l (priv : option Z) : option (loader D * (Z * list msg)) :=
  match priv with
  | None => Some (l, (- EINVAL, []))
  | Some p =>
    with_header l (Z.land p 255) (0, []) (0, [MsgBadHeader]) (0, [])
      (staInfo ← adfLoad_GetSecInfo (dspHeader l) sec_STA;
       match staInfo with
       | None => Some (l, (0, []))
       | Some (_, info) =>
         '(l, ret) ← read_section l info (size info);
         if ret =? 0 then Some (l, (0, [MsgReadFail])) else
         b ← heap l !! data info;
         s ← adfState_get (Some b);
         Some (l, (0, [MsgState s]))
       end)
  end.

Definition _adfDebug_writeState l (priv : option Z) (userbuf : list Z) (vmalloc_ok copy_ok : bool)
  : option (loader D * Z) :=
  let count := Z.of_nat (length userbuf) in
  match priv with
  | None => Some (l, - EINVAL)
  | Some p =>
    if negb vmalloc_ok then Some (l, - ENOMEM)
    else if negb copy_ok then Some (l, - EFAULT)
    else
      with_header l (Z.land p 255) count count count
        (staInfo ← adfLoad_GetSecInfo (dspHeader l) sec_STA;
         match staInfo with
         | None => Some (l, count)
         | Some (_, info) =>
           match kstrtou8 (c_str userbuf) 16 with
           | inr _ => Some (l, count)
           | inl sta =>
             '(l, ret) ← read_section l info (size info);
             if ret =? 0 then Some (l, count) else
             b ← heap l !! data info;
             b' ← adfState_set (Some b) sta;
             b' ← b';
             '(l, _) ← write_section (set_heap l (<[data info := b']> (heap l))) info;
             Some (l, count)
           end
         end)
  end.

(** One CLI command of [adfDebug_query]. *)
Definition query_cmd (cliInfo : adfFwHdr_secInfo_t) (o : option (loader D)) (cmd : list Z)
  : option (loader D) :=
  l ← o;
  l ← memset0 l (data cliInfo) (size cliInfo);
  '(l, ret) ← read_section l cliInfo (size cliInfo);
  if ret <=? 0 then Some l else
  '(l, _) ← with_ring l cliInfo (size cliInfo - sizeof_adfRingbuf_t)
     (fun r => '(r, n) ← adfCli_send (Some r) cmd (Z.of_nat (length cmd)); r ← r; Some (r, n));
  '(l, _) ← write_section l cliInfo;
  Some l.

Definition adfDebug_query {A} l (dspId : Z) (cliCmds : list (list Z)) (logFliter : list Z -> option A)
    (vmalloc_ok : bool) : option (loader D * option A) :=
  with_header l dspId None None None
    (staInfo ← adfLoad_GetSecInfo (dspHeader l) sec_STA;
     cliInfo ← adfLoad_GetSecInfo (dspHeader l) sec_CLI;
     logInfo ← adfLoad_GetSecInfo (dspHeader l) sec_LOG;
     match staInfo, cliInfo, logInfo with
     | Some (_, staInfo), Some (_, cliInfo), Some (_, logInfo) =>
       l ← memset0 l (data staInfo) (size staInfo);
       '(l, ret) ← read_section l staInfo (size staInfo);
       dspState ← (if ret =? 0 then Some ADF_STATE_DEF
                   else b ← heap l !! data staInfo; adfState_get (Some b));
       if (dspState <? ADF_STATE_RUN) || (ADF_STATE_ERR <=? dspState) then Some (l, None) else
       l ← foldl (query_cmd cliInfo) (Some l) cliCmds;
       l ← memset0 l (data logInfo) (size logInfo);
       '(l, ret) ← read_section l logInfo (size logInfo);
       if ret <=? 0 then Some (l, None) else
       ok ← _adfDebug_logBufCheck l (Some logInfo);
       if negb ok then Some (l, None) else
       with_ring l logInfo (totalLen logInfo)
         (fun r => '(r, a) ← adfLog_query (Some r) logFliter vmalloc_ok; r ← r; Some (r, a))
     | _, _, _ => Some (l, None)
     end).

Definition adfDebug_queryState l (dspId : Z) : option (loader D * Z) :=
  with_header l dspId ADF_STATE_DEF ADF_STATE_DEF ADF_STATE_DEF
    (staInfo ← adfLoad_GetSecInfo (dspHeader l) sec_STA;
     match staInfo with
     | None => Some (l, ADF_STATE_DEF)
     | Some (_, info) =>
       '(l, ret) ← read_section l info (size info);
       if ret =? 0 then Some (l, ADF_STATE_DEF) else
       b ← heap l !! data info;
       s ← adfState_get (Some b);
       Some (l, s)
     end).

(** The lines printed to the kernel log by [adfLog_print]. *)
Definition print_section l (info : adfFwHdr_secInfo_t) (flag : option Z) (vmalloc_ok : bool)
  : option (loader D * list (list Z)) :=
  with_ring l info (totalLen info)
    (fun r => '(r, _, out) ← adfLog_print (Some r) flag vmalloc_ok; r ← r; Some (r, out)).

(** A [NULL] header or a missing LOG section is dereferenced ([None]). *)
Definition adfDebug_printLog l (dspId mode : Z) (vmalloc_ok : bool)
  : option (loader D * list (list Z)) :=
  if DSP_CORE_NUM <=? dspId then Some (l, []) else
  logInfo ← adfLoad_GetSecInfo (dspHeader l) sec_LOG;
  if mode =? ADF_LOG_DUMP_RECENT then
    '(i, info) ← logInfo;
    b ← heap l !! data info;
    wptr ← get32 b 8;
    '(l, ret) ← read_section l info sizeof_adfRingbuf_t;
    if (0 <? ret) && (u32 (s32 wptr) =? reserved1 info) then Some (l, []) else
    '(l, ret) ← read_section l info (size info);
    ok ← (if 0 <? ret then _adfDebug_logBufCheck l (Some info) else Some false);
    '(l, out) ← (if ok : bool then print_section l info (Some (reserved1 info)) vmalloc_ok
                 else Some (l, []));
    Some (set_section l i (set_reserved info (reserved0 info) (u32 (s32 wptr))), out)
  else if mode =? ADF_LOG_DUMP_ALL then
    '(_, info) ← logInfo;
    '(l, ret) ← read_section l info (size info);
    if ret <=? 0 then Some (l, []) else
    ok ← _adfDebug_logBufCheck l (Some info);
    if negb ok then Some (l, []) else print_section l info None vmalloc_ok
  else Some (l, []).
End Debug.

(** ** Lemmas on a ring in a buffer *)

#[local] Arguments mem_get : simpl never.
#[local] Arguments mem_put : simpl never.
#[local] Arguments insert : simpl never.
#[local] Arguments lookup : simpl never.
#[local] Arguments adfLog_print : simpl never.
#[local] Arguments kstrtou8 : simpl never.

Lemma mem_get_app_r (a b : list Z) off n :
  0 <= off -> Z.of_nat (length a) <= off ->
  mem_get (a ++ b) off n = mem_get b (off - Z.of_nat (length a)) n.
Proof.
  intros H0 Ha. unfold mem_get. rewrite length_app.
  replace (off + n <=? Z.of_nat (length a + length b))
    with (off - Z.of_nat (length a) + n <=? Z.of_nat (length b)) by (zcases; lia).
  replace (0 <=? off - Z.of_nat (length a)) with (0 <=? off) by (zcases; lia).
  rewrite drop_app_ge by lia.
  replace (Z.to_nat off - length a)%nat with (Z.to_nat (off - Z.of_nat (length a))) by lia. done.
Qed.

Lemma mem_get_app_l (a b : list Z) off n :
  0 <= off -> 0 <= n -> off + n <= Z.of_nat (length a) -> mem_get (a ++ b) off n = mem_get a off n.
Proof.
  intros H0 Hn Ha. unfold mem_get. rewrite length_app.
  destruct (Z.leb_spec (off + n) (Z.of_nat (length a + length b))); [|lia].
  destruct (Z.leb_spec (off + n) (Z.of_nat (length a))); [|lia].
  rewrite drop_app_le by lia. by rewrite take_app_le by (rewrite length_drop; lia).
Qed.

(** The [i]th of a sequence of words. *)
Lemma get32_words ws rest : forall (i : nat) v,
  ws !! i = Some v -> 0 <= v < 4294967296 ->
  get32 (mjoin (le_enc 4 <$> ws) ++ rest) (4 * Z.of_nat i) = Some v.
Proof.
  induction ws as [|w ws IH]; intros [|i] v Hi Hv; try done.
  - injection Hi as ->. change (mjoin (le_enc 4 <$> v :: ws)) with (le_enc 4 v ++ mjoin (le_enc 4 <$> ws)).
    rewrite <- app_assoc. unfold get32. rewrite mem_get_app_l by (rewrite ?length_le_enc; lia).
    pose proof (le_dec_enc 4 v) as Hd. change (256 ^ Z.of_nat 4) with 4294967296 in Hd.
    pose proof (length_le_enc 4 v) as Hl.
    destruct (mem_get_is_Some (le_enc 4 v) 0 4) as [x Hx]; [lia | lia | rewrite Hl; lia |].
    change (4 * Z.of_nat 0) with 0. rewrite Hx. cbn [mbind option_bind].
    unfold mem_get in Hx. rewrite Hl in Hx. cbn in Hx. injection Hx as <-. f_equal. exact (Hd Hv).
  - change (mjoin (le_enc 4 <$> w :: ws)) with (le_enc 4 w ++ mjoin (le_enc 4 <$> ws)).
    rewrite <- app_assoc. unfold get32. rewrite mem_get_app_r by (rewrite ?length_le_enc; lia).
    rewrite length_le_enc. replace (4 * Z.of_nat (S i) - Z.of_nat 4) with (4 * Z.of_nat i) by lia.
    by apply IH.
Qed.

Lemma length_hdr_words h : length (hdr_words h) = 32%nat.
Proof. done. Qed.

(** A ring written to a buffer and read back. *)
Lemma ring_at_put_ring b r n :
  n = Z.of_nat (length (bytes r)) -> org r = 32 ->
  ring_at (put_ring b r) n =
    Some (with_hdr r (let h := hdr r in
      mkRingbuf (s32 (u32 (base h))) (s32 (u32 (limit h))) (s32 (u32 (wp h))) (s32 (u32 (rp h)))
        (s32 (u32 (drop_ h))) (s32 (u32 (dropunit h))) (u32 (u0 h)) (u32 (u1 h)))).
Proof.
  intros -> Ho. unfold ring_at.
  assert (Hd : mem_get (put_ring b r) 32 (Z.of_nat (length (bytes r))) = Some (bytes r)).
  { unfold put_ring. rewrite mem_get_app_r by (rewrite ?length_hdr_words; lia).
    rewrite length_hdr_words, mem_get_app_l by lia. change (32 - Z.of_nat 32) with 0.
    unfold mem_get. cbn [Z.leb].
    destruct (Z.leb_spec 0 (Z.of_nat (length (bytes r)))); [|lia].
    destruct (Z.leb_spec (0 + Z.of_nat (length (bytes r))) (Z.of_nat (length (bytes r)))); [|lia].
    change (0 <=? 0) with true. cbn [andb]. rewrite drop_0, Nat2Z.id, take_ge by lia. done. }
  rewrite Hd. unfold put_ring, hdr_words.
  set (ws := [u32 (base (hdr r)); _; _; _; _; _; _; _]). set (rest := bytes r ++ _).
  assert (Hw : forall (i : nat) o v, o = 4 * Z.of_nat i -> ws !! i = Some (u32 v) ->
    get32 (mjoin (le_enc 4 <$> ws) ++ rest) o = Some (u32 v)).
  { intros i o v -> Hi. apply get32_words; [done | apply (wrapU_range 32); lia]. }
  rewrite (Hw 0%nat 0 (base (hdr r)) eq_refl eq_refl), (Hw 1%nat 4 (limit (hdr r)) eq_refl eq_refl),
    (Hw 2%nat 8 (wp (hdr r)) eq_refl eq_refl), (Hw 3%nat 12 (rp (hdr r)) eq_refl eq_refl),
    (Hw 4%nat 16 (drop_ (hdr r)) eq_refl eq_refl), (Hw 5%nat 20 (dropunit (hdr r)) eq_refl eq_refl),
    (Hw 6%nat 24 (u0 (hdr r)) eq_refl eq_refl), (Hw 7%nat 28 (u1 (hdr r)) eq_refl eq_refl).
  cbn [mbind option_bind]. by rewrite <- Ho.
Qed.

Lemma get_wp_put_ring b r : get32 (put_ring b r) 8 = Some (u32 (wp (hdr r))).
Proof.
  unfold put_ring, hdr_words. apply (get32_words _ _ 2%nat); [done | apply (wrapU_range 32); lia].
Qed.

(** ** The nodes against a DSP *)

Lemma mem_put_all b d : length d = length b -> mem_put b 0 d = Some d.
Proof.
  intros Hl. unfold mem_put. rewrite Hl.
  destruct (Z.leb_spec (0 + Z.of_nat (length b)) (Z.of_nat (length b))); [|lia].
  change (0 <=? 0) with true. change (Z.to_nat 0) with 0%nat. cbn [andb take app Nat.add].
  by rewrite drop_ge, app_nil_r by lia.
Qed.

Lemma mem_get_all b n : n = Z.of_nat (length b) -> mem_get b 0 n = Some b.
Proof.
  intros ->. unfold mem_get.
  destruct (Z.leb_spec (0 + Z.of_nat (length b)) (Z.of_nat (length b))); [|lia].
  destruct (Z.leb_spec 0 (Z.of_nat (length b))); [|lia].
  change (0 <=? 0) with true. cbn [andb]. change (Z.to_nat 0) with 0%nat.
  by rewrite drop_0, take_ge by lia.
Qed.

Lemma state_set_get b v :
  8 <= Z.of_nat (length b) -> 0 <= v < 4294967296 ->
  exists b', adfState_set (Some b) v = Some (Some b') /\ length b' = length b /\
    adfState_get (Some b') = Some v.
Proof.
  intros Hl Hv. unfold adfState_set, adfState_get, read_word. cbn [_adfState_addrConv fst].
  destruct (mem_get_is_Some b 0 4) as [x Hx]; [lia..|].
  assert (Hg : get32 b 0 = Some (le_dec x)) by (unfold get32; by rewrite Hx).
  rewrite Hg. cbn [mbind option_bind]. destruct (Z.eqb_spec (le_dec x) v) as [<-|]; [by exists b|].
  destruct (put32_is_Some b 4 (le_dec x)) as [b1 H1]; [lia..|]. rewrite H1. cbn [mbind option_bind].
  pose proof (length_put32 _ _ _ _ H1) as Hl1.
  destruct (put32_is_Some b1 0 v) as [b2 H2]; [lia..|]. rewrite H2. cbn [mbind option_bind].
  exists b2. split_and!; [done | by rewrite (length_put32 _ _ _ _ H2) |].
  by apply (get32_put32_eq _ _ _ _ H2).
Qed.

Lemma length_put_ring b r :
  (32 + length (bytes r) <= length b)%nat -> length (put_ring b r) = length b.
Proof. intros Hl. unfold put_ring. rewrite !length_app, length_hdr_words, length_drop. lia. Qed.

Lemma ring_at_facts m n r :
  ring_at m n = Some r -> org r = 32 /\ Z.of_nat (length (bytes r)) = n.
Proof.
  unfold ring_at. intros H.
  repeat match type of H with
  | (?o ≫= _) = Some _ => destruct o eqn:?; cbn [mbind option_bind] in H; [|discriminate H]
  end.
  injection H as <-. split; [done|]. cbn [bytes].
  match goal with E : mem_get _ _ _ = Some _ |- _ => apply mem_get_Some in E as (_ & ? & _ & -> & _) end.
  lia.
Qed.

Lemma encode_length ps : (length ps <= length (cli_encode ps))%nat.
Proof.
  induction ps as [|p ps IH]; [done|].
  change (cli_encode (p :: ps)) with ((p ++ [0]) ++ cli_encode ps).
  rewrite !length_app. cbn [length]. lia.
Qed.

Lemma find_section_insert secs : forall k nm i s s',
  find_section secs k nm = Some ((k + i)%nat, s) -> name s' = name s ->
  find_section (<[i := s']> secs) k nm = Some ((k + i)%nat, s').
Proof.
  induction secs as [|x secs IH]; intros k nm i s s' Hf Hn; [done|]. cbn [find_section] in Hf.
  destruct (name_is x nm) eqn:Hx.
  - injection Hf as Hk ->. assert (i = 0%nat) as -> by lia.
    change (<[0%nat := s']> (s :: secs)) with (s' :: secs). cbn [find_section].
    assert (Hx' : name_is s' nm = true) by (unfold name_is in *; by rewrite Hn).
    rewrite Hx'. by rewrite Nat.add_0_r.
  - destruct i as [|i].
    + exfalso. rewrite Nat.add_0_r in Hf. revert Hf. clear.
      assert (H : forall secs j p, find_section secs j nm = Some p -> (j <= p.1)%nat).
      { intros l. induction l as [|y l IH]; intros j p Hf; [done|]. cbn in Hf.
        destruct (name_is y nm); [by injection Hf as <-|]. specialize (IH _ _ Hf). lia. }
      intros Hf. specialize (H _ _ _ Hf). cbn in H. lia.
    + change (<[S i := s']> (x :: secs)) with (x :: <[i := s']> secs). cbn [find_section]. rewrite Hx.
      replace (k + S i)%nat with (S k + i)%nat in * by lia. by eapply IH.
Qed.

(** The DSP's LOG memory [m] holds a valid ring [r] for the section. *)
Record log_section (info : adfFwHdr_secInfo_t) (m : list Z) (r : ring) : Prop := {
  lg_len : Z.of_nat (length m) = size info;
  lg_size : 32 <= size info < 2147483648;
  lg_ring : ring_at m (totalLen info) = Some r;
  lg_wf : rb_wf r;
  lg_four : 4 <= size_of r;
  lg_total : size_of r = totalLen info;
  lg_base : base (hdr r) = 32;
  lg_fit : totalLen info + 32 <= size info;
  lg_data : data info <> 0 }.

Lemma ring_at_header m n r :
  ring_at m n = Some r -> 32 <= Z.of_nat (length m) -> ring_at m 0 = Some (mkRing (hdr r) 32 []).
Proof.
  intros Hring Hl. unfold ring_at in Hring |- *.
  repeat match type of Hring with
  | (?o ≫= _) = Some _ => destruct o eqn:?; cbn [mbind option_bind] in Hring |- *; [|discriminate Hring]
  end.
  injection Hring as <-. by rewrite mem_get_0 by lia.
Qed.

Lemma log_check_valid info m r :
  log_section info m r -> adfRingbuf_checkValid (hdr r) sizeof_adfRingbuf_t (totalLen info) = true.
Proof.
  intros [_ _ _ [] _ Htl Hb _ _]. unfold size_of in *.
  unfold adfRingbuf_checkValid, sizeof_adfRingbuf_t, ADF_RINGBUF_IN_RANGE.
  rewrite Hb, <- Htl, Hb. rewrite !Z.eqb_refl. cbn [negb orb].
  destruct (Z.leb_spec 32 (rp (hdr r))), (Z.ltb_spec (rp (hdr r)) (limit (hdr r))),
    (Z.leb_spec 32 (wp (hdr r))), (Z.ltb_spec (wp (hdr r)) (limit (hdr r))); try lia; done.
Qed.

Section Nodes.
Context {D : Type} (rd : D -> Z -> Z -> Z * list Z) (wr : D -> Z -> list Z -> D * Z).

(** The platform's accessors, as far as the nodes rely on them: what a
    successful write put there is what a later read of as many bytes gets. *)
Class DspLink : Prop :=
  link_write_read : forall d a bs, (wr d a bs).2 = 0 ->
    rd (wr d a bs).1 a (Z.of_nat (length bs)) = (1, bs).

(** A section of a loaded firmware with its buffer. *)
Record section_ready (l : loader D) (nm : list Z) (i : nat) (info : adfFwHdr_secInfo_t) (b : list Z)
  : Prop := {
  sr_header : exists cap h, dspHeader l = Some (cap, h) /\ magic h = ADF_FW_MAGIC /\
                find_section (secarray h) 0 nm = Some (i, info);
  sr_buf : heap l !! data info = Some b;
  sr_len : Z.of_nat (length b) = size info }.

Lemma read_section_all (l : loader D) nm i info b d ret :
  section_ready l nm i info b -> rd (dev l) (addr info) (size info) = (ret, d) ->
  Z.of_nat (length d) = size info ->
  read_section rd l info (size info) = Some (set_heap l (<[data info := d]> (heap l)), ret).
Proof.
  intros [_ Hb Hl] Hr Hd. unfold read_section. rewrite Hb, Hr. cbn [mbind option_bind].
  by rewrite mem_put_all by lia.
Qed.

Lemma find_sec (l : loader D) nm i info b :
  section_ready l nm i info b -> adfLoad_GetSecInfo (dspHeader l) nm = Some (Some (i, info)).
Proof. intros [(cap & h & Hd & _ & Hf) _ _]. unfold adfLoad_GetSecInfo. by rewrite Hd, Hf. Qed.

Lemma with_header_ok {A} (l : loader D) nm i info b (x y z : A) k :
  section_ready l nm i info b -> with_header l 0 x y z k = k.
Proof.
  intros [(cap & h & Hd & Hm & _) _ _]. unfold with_header. rewrite Hd, Hm.
  by rewrite Z.eqb_refl.
Qed.

(** Writing a state to the state node and reading the node back gives the
    state written: for any hexadecimal text the kernel's parser accepts, the
    read-modify-write of the STA section and the next read of it agree. *)
Theorem state_node_roundtrip `{!DspLink} (l : loader D) i info b userbuf v ret d :
  section_ready l sec_STA i info b -> 8 <= size info ->
  kstrtou8 (c_str userbuf) 16 = inl v -> 0 <= v < 256 ->
  rd (dev l) (addr info) (size info) = (ret, d) -> ret <> 0 -> Z.of_nat (length d) = size info ->
  (forall bs, (wr (dev l) (addr info) bs).2 = 0) ->
  exists l1 l2, _adfDebug_writeState rd wr l (Some 0) userbuf true true
                = Some (l1, Z.of_nat (length userbuf)) /\
    _adfDebug_readState rd l1 (Some 0) = Some (l2, (0, [MsgState v])).
Proof.
  intros Hs Hsz Hk Hv Hr Hret Hd Hw.
  destruct (state_set_get d v) as (b' & Hset & Hl' & Hget); [lia..|].
  unfold _adfDebug_writeState. change (Z.land 0 255) with 0. cbn [negb].
  rewrite (with_header_ok _ _ _ _ _ _ _ _ _ Hs), (find_sec _ _ _ _ _ Hs). cbn [mbind option_bind].
  rewrite Hk, (read_section_all _ _ _ _ _ _ _ Hs Hr Hd). cbn [mbind option_bind].
  destruct (Z.eqb_spec ret 0); [done|]. cbn [set_heap heap]. rewrite lookup_insert_eq.
  cbn [mbind option_bind]. rewrite Hset. cbn [mbind option_bind]. rewrite insert_insert_eq.
  unfold write_section. cbn [set_heap heap dev]. rewrite lookup_insert_eq. cbn [mbind option_bind].
  rewrite mem_get_all by lia. cbn [mbind option_bind].
  pose proof (Hw b') as Hwb. pose proof (link_write_read (dev l) (addr info) b' Hwb) as Hlink.
  destruct (wr (dev l) (addr info) b') as [dv err] eqn:Ewr. cbn [mbind option_bind fst snd] in *.
  eexists _, _. split; [reflexivity|].
  set (l1 := set_dev _ dv).
  assert (Hs1 : section_ready l1 sec_STA i info b').
  { destruct Hs as [Hh _ _]. split; [exact Hh | apply lookup_insert_eq | lia]. }
  replace (Z.of_nat (length b')) with (size info) in Hlink by lia.
  unfold _adfDebug_readState. change (Z.land 0 255) with 0.
  rewrite (with_header_ok _ _ _ _ _ _ _ _ _ Hs1), (find_sec _ _ _ _ _ Hs1). cbn [mbind option_bind].
  rewrite (read_section_all _ _ _ _ _ _ _ Hs1 Hlink) by lia. cbn [mbind option_bind set_heap heap].
  change (1 =? 0) with false. rewrite lookup_insert_eq. cbn [mbind option_bind]. rewrite Hget. done.
Qed.

(** A command line of words written to the debug node reaches the DSP: the
    CLI section in the DSP's memory then holds a ring with exactly the words,
    their count, and the flag that announces a command. *)
Theorem cli_node_delivers `{!DspLink} (l : loader D) i info b ci cinfo cb ws ret d cret cd r :
  section_ready l sec_STA i info b -> section_ready l sec_CLI ci cinfo cb ->
  data info <> data cinfo ->
  rd (dev l) (addr info) (size info) = (ret, d) -> ret <> 0 -> Z.of_nat (length d) = size info ->
  rd (dev l) (addr cinfo) (size cinfo) = (cret, cd) -> cret <> 0 -> Z.of_nat (length cd) = size cinfo ->
  ring_at cd (size cinfo - 32) = Some r -> rb_wf r -> 32 <= size cinfo ->
  Forall word_sep ws -> ws <> [] -> Z.of_nat (length (cli_line ws)) < size_of r ->
  cli_line ws <> ADF_DEBUG_LOG_CLEAR_CMD ->
  (forall bs, (wr (dev l) (addr cinfo) bs).2 = 0) ->
  exists l1 m r', _adfDebug_writeCli rd wr l (Some 0) (cli_line ws) true true
                = Some (l1, Z.of_nat (length (cli_line ws))) /\
    rd (dev l1) (addr cinfo) (size cinfo) = (1, m) /\
    ring_at m (size cinfo - 32) = Some r' /\
    content r' = cli_encode ws.*1 /\ u0 (hdr r') = Z.of_nat (length ws) /\ u1 (hdr r') = 1.
Proof.
  intros Hs Hc Hne Hr Hret Hd Hcr Hcret Hcd Hring Hwf Hsz Hws Hnil Hfit Hclear Hw.
  unfold _adfDebug_writeCli. change (Z.land 0 255) with 0. cbn [negb].
  rewrite (with_header_ok _ _ _ _ _ _ _ _ _ Hs). rewrite bool_decide_false by done.
  rewrite andb_false_r, (find_sec _ _ _ _ _ Hs), (find_sec _ _ _ _ _ Hc). cbn [mbind option_bind].
  rewrite (read_section_all _ _ _ _ _ _ _ Hs Hr Hd). cbn [mbind option_bind].
  destruct (Z.eqb_spec ret 0); [done|].
  set (l0 := set_heap l _).
  assert (Hc0 : section_ready l0 sec_CLI ci cinfo cb).
  { destruct Hc as [Hh Hb Hl]. split; [exact Hh | | exact Hl]. cbn. by rewrite lookup_insert_ne. }
  rewrite (read_section_all _ _ _ _ _ _ _ Hc0 Hcr Hcd). cbn [mbind option_bind].
  destruct (Z.eqb_spec cret 0); [done|].
  assert (Hsize : size_of r < 268435456) by apply Hwf.
  rewrite (s32_id (Z.of_nat (length (cli_line ws)))) by lia.
  pose proof (cli_params_line ws [] Hws) as Hp. rewrite app_nil_r in Hp. cbn [cli_params] in Hp.
  rewrite app_nil_r in Hp.
  destruct (cli_send_spec r (cli_line ws) Hwf ltac:(lia))
    as (r1 & Hsend & Hwf1 & Hcont & Hu0 & Hu1 & Hs1 & Ho1).
  { rewrite Hp, length_cli_encode_line. lia. }
  rewrite Hp, length_fmap in *. destruct (ring_at_facts _ _ _ Hring) as [Hor Hlr].
  pose proof (wf_len _ Hwf) as Hl0. pose proof (wf_len _ Hwf1) as Hl1.
  unfold with_ring. cbn [set_heap heap]. rewrite lookup_insert_eq. cbn [mbind option_bind].
  change sizeof_adfRingbuf_t with 32. rewrite Hring. cbn [mbind option_bind]. rewrite Hsend.
  cbn [mbind option_bind]. rewrite insert_insert_eq.
  assert (Hlp : Z.of_nat (length (put_ring cd r1)) = size cinfo) by (rewrite length_put_ring by lia; lia).
  unfold write_section. cbn [set_heap heap dev]. rewrite lookup_insert_eq. cbn [mbind option_bind].
  rewrite mem_get_all by lia. cbn [mbind option_bind].
  pose proof (link_write_read (dev l) (addr cinfo) (put_ring cd r1) (Hw _)) as Hlink.
  change (dev l0) with (dev l).
  destruct (wr (dev l) (addr cinfo) (put_ring cd r1)) as [dv err]. cbn [mbind option_bind fst] in *.
  rewrite Hlp in Hlink.
  eexists _, (put_ring cd r1), _. split; [reflexivity|]. split; [exact Hlink|].
  split; [apply ring_at_put_ring; lia|].
  destruct Hwf1 as [W1 W2 W3 W4 W5 W6 W7 W8 W9]. unfold size_of in W2, W6.
  split_and!.
  - rewrite <- Hcont. unfold content, used, adfRingbuf_getUsedSize, adv. cbn [with_hdr hdr base limit wp rp bytes org].
    rewrite !wrapS_wrapU, !s32_id by lia. done.
  - cbn [with_hdr hdr u0]. rewrite Hu0. apply u32_id.
    assert (Hlw : Z.of_nat (length ws) <= Z.of_nat (length (cli_line ws))).
    { rewrite <- length_cli_encode_line. rewrite <- (length_fmap fst ws). apply inj_le, encode_length. }
    lia.
  - cbn [with_hdr hdr u1]. rewrite Hu1. destruct ws; [done|]. cbn [length].
    by destruct (Z.ltb_spec 0 (Z.of_nat (S (length ws)))); [|lia].
Qed.

(** One periodic print that finds a changed write pointer. *)
Lemma print_recent (l : loader D) i info b m r w :
  section_ready l sec_LOG i info b -> log_section info m r ->
  (forall n, 0 <= n <= size info -> rd (dev l) (addr info) n = (1, take (Z.to_nat n) m)) ->
  get32 b 8 = Some w -> 0 <= w < 4294967296 -> w <> reserved1 info ->
  exists l1 r', adfDebug_printLog rd l 0 ADF_LOG_DUMP_RECENT true
      = Some (l1, strsep_lines [] (c_str (log_view r (reserved1 info) false))) /\
    dev l1 = dev l /\ wp (hdr r') = wp (hdr r) /\
    section_ready l1 sec_LOG i (set_reserved info (reserved0 info) w) (put_ring m r').
Proof.
  intros Hs [Hm Hsz Hring Hwf H4 Htl Hb32 Hfit Hdata] Hrd Hw Hwr Hne.
  destruct (ring_at_facts _ _ _ Hring) as [Hor Hlr].
  unfold adfDebug_printLog. change (DSP_CORE_NUM <=? 0) with false.
  rewrite (find_sec _ _ _ _ _ Hs). cbn [mbind option_bind].
  change (ADF_LOG_DUMP_RECENT =? ADF_LOG_DUMP_RECENT) with true. cbn iota.
  destruct Hs as [(cap & h & Hhd & Hmg & Hfs) Hb Hl].
  rewrite Hb. cbn [mbind option_bind]. rewrite Hw. cbn [mbind option_bind].
  unfold read_section. rewrite Hb, (Hrd sizeof_adfRingbuf_t) by (unfold sizeof_adfRingbuf_t; lia).
  cbn [mbind option_bind].
  destruct (mem_put_is_Some b 0 (take (Z.to_nat sizeof_adfRingbuf_t) m)) as [b1 Hb1];
    [lia | rewrite length_take; unfold sizeof_adfRingbuf_t; lia |].
  rewrite Hb1. cbn [mbind option_bind]. apply mem_put_Some in Hb1 as (_ & _ & Hlb1 & _).
  change (0 <? 1) with true. cbn [andb]. rewrite u32_s32 by done.
  destruct (Z.eqb_spec w (reserved1 info)); [done|].
  cbn [set_heap heap dev]. rewrite lookup_insert_eq. cbn [mbind option_bind].
  rewrite (Hrd (size info)) by lia. cbn [mbind option_bind].
  rewrite take_ge by lia. rewrite mem_put_all by lia. cbn [mbind option_bind].
  change (0 <? 1) with true. cbn iota. rewrite insert_insert_eq.
  unfold _adfDebug_logBufCheck. destruct (Z.eqb_spec (data info) 0); [done|].
  destruct (Z.ltb_spec 0 (totalLen info)); [|lia]. cbn [set_heap heap]. rewrite lookup_insert_eq.
  cbn [mbind option_bind].
  rewrite (ring_at_header _ _ _ Hring) by lia. cbn [mbind option_bind hdr].
  rewrite (log_check_valid _ m r) by (constructor; done). unfold print_section, with_ring. cbn [set_heap heap]. rewrite lookup_insert_eq.
  cbn [mbind option_bind]. rewrite Hring. cbn [mbind option_bind].
  destruct (print_spec r (reserved1 info) Hwf H4) as (r' & Hp & Hr').
  rewrite Hp. cbn [mbind option_bind]. rewrite insert_insert_eq.
  eexists _, r'. split; [reflexivity|].
  unfold set_section. cbn [set_heap dspHeader]. rewrite Hhd. cbn [set_header dev set_heap].
  destruct Hr' as (p & ->). split; [done|]. split; [done|]. split.
  - eexists cap, _. split; [reflexivity|]. split; [exact Hmg|]. cbn [secarray].
    apply (find_section_insert _ 0 _ i info); [done | done].
  - cbn. apply lookup_insert_eq.
  - rewrite length_put_ring by (cbn [log_from with_hdr bytes]; lia). cbn [set_reserved size]. lia.
Qed.

(** The periodic log print repeats itself: with no new log in the DSP, a
    second periodic call prints once more everything after the write pointer
    that the first call found in its stale copy, because the position it
    remembers is read before the copy is refreshed. *)
Theorem periodic_print_repeats (l : loader D) i info b m r w0 :
  section_ready l sec_LOG i info b -> log_section info m r ->
  (forall n, 0 <= n <= size info -> rd (dev l) (addr info) n = (1, take (Z.to_nat n) m)) ->
  get32 b 8 = Some w0 -> 0 <= w0 < 4294967296 -> w0 <> reserved1 info -> w0 <> wp (hdr r) ->
  exists l1 l2, adfDebug_printLog rd l 0 ADF_LOG_DUMP_RECENT true
      = Some (l1, strsep_lines [] (c_str (log_view r (reserved1 info) false))) /\
    adfDebug_printLog rd l1 0 ADF_LOG_DUMP_RECENT true
      = Some (l2, strsep_lines [] (c_str (log_view r w0 false))).
Proof.
  intros Hs Hlog Hrd Hw Hwr Hne1 Hne2.
  destruct (print_recent l i info b m r w0 Hs Hlog Hrd Hw Hwr Hne1) as (l1 & r' & H1 & Hdv & Hwp & Hs1).
  destruct (print_recent l1 i _ (put_ring m r') m r (wp (hdr r)) Hs1) as (l2 & r2 & H2 & _).
  - destruct Hlog. split; done.
  - rewrite Hdv. exact Hrd.
  - rewrite get_wp_put_ring, Hwp. f_equal. apply u32_id. destruct Hlog as [_ _ _ [] _ _ Hb _ _]. lia.
  - destruct Hlog as [_ _ _ [] _ _ Hb _ _]. lia.
  - cbn [set_reserved reserved1]. congruence.
  - exists l1, l2. split; [exact H1 | exact H2].
Qed.
End Nodes.

(** ** Instances of the properties *)

Definition flat_read (d : Z -> Z) (a n : Z) : Z * list Z :=
  (1, (fun i : nat => d (a + Z.of_nat i)) <$> seq 0 (Z.to_nat n)).
Definition flat_write (d : Z -> Z) (a : Z) (bs : list Z) : (Z -> Z) * Z :=
  (fun x => if (a <=? x) && (x <? a + Z.of_nat (length bs)) then byte_at bs (x - a) else d x, 0).

Lemma flat_read_prefix d a bs n :
  0 <= n <= Z.of_nat (length bs) ->
  flat_read (flat_write d a bs).1 a n = (1, take (Z.to_nat n) bs).
Proof.
  intros Hn. unfold flat_read. f_equal. apply bytes_eq; rewrite length_fmap, length_seq;
    [rewrite length_take; lia|].
  intros i Hi. rewrite byte_at_take by lia. unfold byte_at at 1.
  rewrite list_lookup_total_alt, list_lookup_fmap, lookup_seq_lt by lia. cbn.
  destruct (Z.leb_spec a (a + Z.of_nat (Z.to_nat i))),
    (Z.ltb_spec (a + Z.of_nat (Z.to_nat i)) (a + Z.of_nat (length bs))); try lia. cbn. f_equal. lia.
Qed.

Lemma flat_link : DspLink flat_read flat_write.
Proof. intros d a bs _. rewrite flat_read_prefix by lia. by rewrite take_ge by lia. Qed.

(** A CLI ring of 16 bytes and a LOG ring of 8 bytes that holds "abc". *)
Definition cli_mem : list Z := put_ring (replicate 48 0) (mkRing (mkRingbuf 32 48 32 32 0 0 0 0) 32 (replicate 16 0)).
Definition log_ring : ring := mkRing (mkRingbuf 32 40 35 32 0 1 0 0) 32 [97; 98; 99; 0; 0; 0; 0; 0].
Definition log_mem : list Z := put_ring (replicate 48 0) log_ring.
Definition flat_dsp : Z -> Z :=
  (flat_write (flat_write (fun _ => 0) 8192 cli_mem).1 12288 log_mem).1.

Definition sta_info : adfFwHdr_secInfo_t := mkSec sec_STA 4096 16 0 1 0 0.
Definition cli_info : adfFwHdr_secInfo_t := mkSec sec_CLI 8192 48 0 2 0 0.
Definition log_info : adfFwHdr_secInfo_t := mkSec sec_LOG 12288 48 0 3 0 7.

Definition loaded : loader (Z -> Z) :=
  mkLoader (Some (224, mkFwHdr ADF_FW_MAGIC 3 [sta_info; cli_info; log_info])) 1 2 3
    (list_to_map [(1, replicate 16 0); (2, replicate 48 0); (3, replicate 48 0)]) 4 [] flat_dsp.

Lemma loaded_ready :
  section_ready loaded sec_STA 0 sta_info (replicate 16 0) /\
  section_ready loaded sec_CLI 1 cli_info (replicate 48 0) /\
  section_ready loaded sec_LOG 2 log_info (replicate 48 0).
Proof. split_and!; (split; [eexists _, _; split_and!; reflexivity | reflexivity | reflexivity]). Qed.

Lemma state_node_roundtrip_witness :
  exists l1 l2, _adfDebug_writeState flat_read flat_write loaded (Some 0) [52; 49; 10] true true = Some (l1, 3) /\
    _adfDebug_readState flat_read l1 (Some 0) = Some (l2, (0, [MsgState 65])).
Proof.
  pose proof flat_link.
  eapply (state_node_roundtrip flat_read flat_write loaded 0 sta_info (replicate 16 0) [52; 49; 10] 65 1);
    [apply loaded_ready | cbn; lia | vm_compute; reflexivity | lia | reflexivity | discriminate
    | reflexivity | reflexivity].
Defined.

Lemma cli_node_delivers_witness :
  exists l1 m r', _adfDebug_writeCli flat_read flat_write loaded (Some 0) [103; 111; 32; 49; 10] true true = Some (l1, 5) /\
    flat_read (dev l1) 8192 48 = (1, m) /\ ring_at m 16 = Some r' /\ content r' = [103; 111; 0; 49; 0].
Proof.
  pose proof flat_link.
  destruct (cli_node_delivers flat_read flat_write loaded 0 sta_info (replicate 16 0) 1 cli_info (replicate 48 0)
    [([103; 111], 32); ([49], 10)] 1 (replicate 16 0) 1 cli_mem
    (mkRing (mkRingbuf 32 48 32 32 0 0 0 0) 32 (replicate 16 0)))
    as (l1 & m & r' & H1 & H2 & H3 & H4 & _);
    [apply loaded_ready | apply loaded_ready | discriminate | reflexivity | discriminate | reflexivity
    | vm_compute; reflexivity | discriminate | vm_compute; reflexivity | vm_compute; reflexivity
    | constructor; unfold size_of; cbn; lia || done | vm_compute; discriminate
    | repeat constructor; discriminate | discriminate | vm_compute; reflexivity | discriminate | reflexivity |].
  exists l1, m, r'. split; [exact H1|]. split; [exact H2|]. split; [exact H3 | exact H4].
Defined.

Lemma periodic_print_repeats_witness :
  exists l1 l2, adfDebug_printLog flat_read loaded 0 ADF_LOG_DUMP_RECENT true = Some (l1, [[97; 98; 99]]) /\
    adfDebug_printLog flat_read l1 0 ADF_LOG_DUMP_RECENT true = Some (l2, [[97; 98; 99]]).
Proof.
  apply (periodic_print_repeats flat_read loaded 2 log_info (replicate 48 0) log_mem log_ring 0).
  - apply loaded_ready.
  - constructor; [reflexivity | cbn; lia | vm_compute; reflexivity
      | constructor; unfold size_of; cbn; lia || done | unfold size_of; cbn; lia | reflexivity
      | reflexivity | vm_compute; discriminate | discriminate].
  - intros n Hn. exact (flat_read_prefix _ 12288 log_mem n Hn).
  - reflexivity.
  - lia.
  - discriminate.
  - discriminate.
Defined.
