(* ===== verification/Rtc.v ===== *)
(** * The RTC scratch registers (drivers/rtc/rtc-mt6397.c)

    The interface the sign-of-life driver uses ([lcr_rtc_read],
    [lcr_rtc_write], [lcr_rtc_write_trigger] of amzn_sign_of_life_rtc.h), as a
    class with its laws, and the register file that implements it. *)

From stdpp Require Import base tactics numbers list gmap option.
From S2P Require Import Prelude.

(** ** Interface *)

Class LcrRtc (S : Type) := {
  lcr_rtc_read : S -> Z -> Z;
  lcr_rtc_write : S -> Z -> Z -> S;
  lcr_rtc_write_trigger : S -> S }.

(** What a client may assume of registers that answer. *)
Class LcrRtcLaws (S : Type) `{LcrRtc S} := {
  read_range : forall s a, 0 <= lcr_rtc_read s a < 65536;
  read_write_eq : forall s a v, lcr_rtc_read (lcr_rtc_write s a v) a = u16 v;
  read_write_ne : forall s a b v, a <> b ->
    lcr_rtc_read (lcr_rtc_write s a v) b = lcr_rtc_read s b;
  read_trigger : forall s a, lcr_rtc_read (lcr_rtc_write_trigger s) a = lcr_rtc_read s a }.

(** ** Implementation *)

Definition RTC_AL_DOW : Z := 32.      (* 0x0020 *)
Definition RTC_SPAR0 : Z := 48.       (* 0x0030 *)
Definition RTC_SPAR0_LPRST : Z := 512. (* BIT(9) *)

(** The driver's global [mt6397_rtc_proxy] ([None] before the probe) and the
    16-bit cells behind its regmap, counting write triggers. *)
Record mt6397_rtc := mkRtc { regmap : gmap Z Z; triggers : nat }.

Definition regmap_read (r : mt6397_rtc) (a : Z) : Z := default 0 (regmap r !! a).
Definition regmap_write (r : mt6397_rtc) (a v : Z) : mt6397_rtc :=
  mkRtc (<[a := u16 v]> (regmap r)) (triggers r).

Definition mtk_rtc_write (proxy : option mt6397_rtc) (addr data : Z)
  : option mt6397_rtc * Z :=
  match proxy with
  | Some rtc => (Some (regmap_write rtc addr data), 0)
  | None => (None, -1)
  end.

Definition mtk_rtc_read (proxy : option mt6397_rtc) (addr : Z) : Z :=
  match proxy with
  | Some rtc => u16 (regmap_read rtc addr)
  | None => 0
  end.

Definition mtk_rtc_write_trigger_out (proxy : option mt6397_rtc) : option mt6397_rtc :=
  match proxy with
  | Some rtc => Some (mkRtc (regmap rtc) (triggers rtc + 1))
  | None => None
  end.

(** Reads [RTC_SPAR0], sets the long-press-reset bit, writes and triggers. *)
Definition mtk_rtc_mark_sw_lprst (rtc : mt6397_rtc) : mt6397_rtc * Z :=
  let data := Z.lor (regmap_read rtc RTC_SPAR0) RTC_SPAR0_LPRST in
  let rtc := regmap_write rtc RTC_SPAR0 data in
  (mkRtc (regmap rtc) (triggers rtc + 1), 0).

(** The interface on a probed RTC. *)
#[export] Instance mt6397_lcr : LcrRtc mt6397_rtc := {|
  lcr_rtc_read r a := mtk_rtc_read (Some r) a;
  lcr_rtc_write r a v := default r (mtk_rtc_write (Some r) a v).1;
  lcr_rtc_write_trigger r := default r (mtk_rtc_write_trigger_out (Some r)) |}.

#[export] Instance mt6397_lcr_laws : LcrRtcLaws mt6397_rtc.
Proof.
  split; cbn; unfold regmap_read, regmap_write; cbn; intros.
  - apply (wrapU_range 16); lia.
  - rewrite lookup_insert_eq. cbn. apply u16_id, (wrapU_range 16). lia.
  - by rewrite lookup_insert_ne.
  - done.
Qed.
