(* ===== verification/SignOfLife.v ===== *)
(** * Sign of life: the life cycle reason store and its driver

    [amzn_sign_of_life_rtc_impl.c] packs four 3-bit reason codes and one
    parity bit into two RTC registers; [amzn_sign_of_life_v3.c] turns them
    into the life cycle reason of the last boot. *)

From Stdlib Require Import String.
From stdpp Require Import base tactics numbers list option gmap.
From S2P Require Import Prelude Rtc.

(** ** amzn_sign_of_life.h *)

Inductive life_cycle_reason_t :=
| LIFE_CYCLE_NOT_AVAILABLE
| WARMBOOT_BY_KERNEL_PANIC | WARMBOOT_BY_KERNEL_WATCHDOG | WARMBOOT_BY_HW_WATCHDOG
| WARMBOOT_BY_SW | COLDBOOT_BY_USB | COLDBOOT_BY_POWER_KEY | COLDBOOT_BY_POWER_SUPPLY
| SHUTDOWN_BY_LONG_PWR_KEY_PRESS | SHUTDOWN_BY_SW | SHUTDOWN_BY_PWR_KEY
| SHUTDOWN_BY_SUDDEN_POWER_LOSS | SHUTDOWN_BY_UNKNOWN_REASONS
| THERMAL_SHUTDOWN_REASON_BATTERY | THERMAL_SHUTDOWN_REASON_PMIC
| THERMAL_SHUTDOWN_REASON_SOC | THERMAL_SHUTDOWN_REASON_MODEM
| THERMAL_SHUTDOWN_REASON_WIFI | THERMAL_SHUTDOWN_REASON_PCB | THERMAL_SHUTDOWN_REASON_BTS
| LIFE_CYCLE_SMODE_NONE | LIFE_CYCLE_SMODE_LOW_BATTERY
| LIFE_CYCLE_SMODE_WARM_BOOT_USB_CONNECTED | LIFE_CYCLE_SMODE_OTA
| LIFE_CYCLE_SMODE_FACTORY_RESET | LIFE_CYCLE_SMODE_RTC_CHECK_FAIL.

#[export] Instance life_cycle_reason_eq_dec : EqDecision life_cycle_reason_t.
Proof. solve_decision. Defined.

(** The enum's values. *)
Definition lcr_value (r : life_cycle_reason_t) : Z :=
  match r with
  | LIFE_CYCLE_NOT_AVAILABLE => -1
  | WARMBOOT_BY_KERNEL_PANIC => 256 | WARMBOOT_BY_KERNEL_WATCHDOG => 257
  | WARMBOOT_BY_HW_WATCHDOG => 258 | WARMBOOT_BY_SW => 259
  | COLDBOOT_BY_USB => 260 | COLDBOOT_BY_POWER_KEY => 261 | COLDBOOT_BY_POWER_SUPPLY => 262
  | SHUTDOWN_BY_LONG_PWR_KEY_PRESS => 513 | SHUTDOWN_BY_SW => 514 | SHUTDOWN_BY_PWR_KEY => 515
  | SHUTDOWN_BY_SUDDEN_POWER_LOSS => 516 | SHUTDOWN_BY_UNKNOWN_REASONS => 517
  | THERMAL_SHUTDOWN_REASON_BATTERY => 769 | THERMAL_SHUTDOWN_REASON_PMIC => 770
  | THERMAL_SHUTDOWN_REASON_SOC => 771 | THERMAL_SHUTDOWN_REASON_MODEM => 772
  | THERMAL_SHUTDOWN_REASON_WIFI => 773 | THERMAL_SHUTDOWN_REASON_PCB => 774
  | THERMAL_SHUTDOWN_REASON_BTS => 775
  | LIFE_CYCLE_SMODE_NONE => 1024 | LIFE_CYCLE_SMODE_LOW_BATTERY => 1025
  | LIFE_CYCLE_SMODE_WARM_BOOT_USB_CONNECTED => 1026 | LIFE_CYCLE_SMODE_OTA => 1027
  | LIFE_CYCLE_SMODE_FACTORY_RESET => 1028 | LIFE_CYCLE_SMODE_RTC_CHECK_FAIL => 1029
  end.

(** ** amzn_sign_of_life_rtc.h: registers and fields *)

Definition BOOT_REASON_REG := RTC_SPAR0.
Definition SHUTDOWN_REASON_REG := RTC_SPAR0.
Definition THERMAL_SHUTDOWN_REASON_REG := RTC_AL_DOW.
Definition SPECIAL_MODE_REASON_REG := RTC_AL_DOW.
Definition PARITY_REG := RTC_AL_DOW.
Definition QUIE_REG := RTC_AL_DOW.
Definition RTC_BOOT_MASK := 7168.              (* 0x1C00 *)
Definition RTC_BOOT_SHIFT := 10.
Definition RTC_SHUTDOWN_MASK := 57344.         (* 0xE000 *)
Definition RTC_SHUTDOWN_SHIFT := 13.
Definition RTC_THERMAL_SHUTDOWN_MASK := 1792.  (* 0x0700 *)
Definition RTC_THERMAL_SHUTDOWN_SHIFT := 8.
Definition RTC_SPECIAL_MODE_MASK := 14336.     (* 0x3800 *)
Definition RTC_SPECIAL_MODE_SHIFT := 11.
Definition RTC_LIFE_CYCLE_REASON_PARITY_MASK := 16384. (* 0x4000 *)
Definition RTC_LIFE_CYCLE_REASON_PARITY_SHIFT := 14.
Definition PMIC_RTC_QUIESCENT := 32768.        (* 1U << 15 *)

(** ** Tables of amzn_sign_of_life_rtc_impl.c *)

Inductive life_reason_type := BOOT | SHUTDOWN | THERMAL_SHUTDOWN | SPECIAL.

#[export] Instance life_reason_type_eq_dec : EqDecision life_reason_type.
Proof. solve_decision. Defined.

(** A map entry is its RTC code and its reason. *)
Definition rtc_lcr_map : Type := Z * life_cycle_reason_t.

Record sign_of_life_private_data := mkPdata {
  mask : Z; shift : Z; reg : Z; rtc_to_lcr : list rtc_lcr_map }.

Definition rtc_to_boot_reason : list rtc_lcr_map :=
  [ (0, LIFE_CYCLE_NOT_AVAILABLE); (1, WARMBOOT_BY_KERNEL_PANIC);
    (2, WARMBOOT_BY_KERNEL_WATCHDOG); (3, WARMBOOT_BY_HW_WATCHDOG); (4, WARMBOOT_BY_SW) ].

Definition rtc_to_shutdown_reason : list rtc_lcr_map :=
  [ (0, LIFE_CYCLE_NOT_AVAILABLE); (1, SHUTDOWN_BY_LONG_PWR_KEY_PRESS); (2, SHUTDOWN_BY_SW);
    (3, SHUTDOWN_BY_PWR_KEY); (4, SHUTDOWN_BY_SUDDEN_POWER_LOSS);
    (5, SHUTDOWN_BY_UNKNOWN_REASONS) ].

Definition rtc_to_thermal_shutdown_reason : list rtc_lcr_map :=
  [ (0, LIFE_CYCLE_NOT_AVAILABLE); (1, THERMAL_SHUTDOWN_REASON_BATTERY);
    (2, THERMAL_SHUTDOWN_REASON_PMIC); (3, THERMAL_SHUTDOWN_REASON_SOC);
    (4, THERMAL_SHUTDOWN_REASON_MODEM); (5, THERMAL_SHUTDOWN_REASON_WIFI);
    (6, THERMAL_SHUTDOWN_REASON_PCB); (7, THERMAL_SHUTDOWN_REASON_BTS) ].

Definition rtc_to_special_mode_reason : list rtc_lcr_map :=
  [ (0, LIFE_CYCLE_NOT_AVAILABLE); (1, LIFE_CYCLE_SMODE_LOW_BATTERY);
    (2, LIFE_CYCLE_SMODE_WARM_BOOT_USB_CONNECTED); (3, LIFE_CYCLE_SMODE_OTA);
    (4, LIFE_CYCLE_SMODE_FACTORY_RESET) ].

(** The array [life_cycle_reason[LIFE_REASON_NUM]], by its index. *)
Definition life_cycle_reason (g : life_reason_type) : sign_of_life_private_data :=
  match g with
  | BOOT => mkPdata RTC_BOOT_MASK RTC_BOOT_SHIFT BOOT_REASON_REG rtc_to_boot_reason
  | SHUTDOWN =>
    mkPdata RTC_SHUTDOWN_MASK RTC_SHUTDOWN_SHIFT SHUTDOWN_REASON_REG rtc_to_shutdown_reason
  | THERMAL_SHUTDOWN =>
    mkPdata RTC_THERMAL_SHUTDOWN_MASK RTC_THERMAL_SHUTDOWN_SHIFT THERMAL_SHUTDOWN_REASON_REG
      rtc_to_thermal_shutdown_reason
  | SPECIAL =>
    mkPdata RTC_SPECIAL_MODE_MASK RTC_SPECIAL_MODE_SHIFT SPECIAL_MODE_REASON_REG
      rtc_to_special_mode_reason
  end.

Definition life_reasons : list life_reason_type := [BOOT; SHUTDOWN; THERMAL_SHUTDOWN; SPECIAL].

(** ** Searches *)

Fixpoint find_rtc (table : list rtc_lcr_map) (reason : life_cycle_reason_t) : option Z :=
  match table with
  | [] => None
  | (rtc, lcr) :: rest => if decide (lcr = reason) then Some rtc else find_rtc rest reason
  end.

Definition search_rtc_by_lcr (table : list rtc_lcr_map) (reason : life_cycle_reason_t) : Z :=
  match find_rtc table reason with
  | Some rtc => rtc
  | None => match table with (rtc, _) :: _ => rtc | [] => 0 end
  end.

Fixpoint find_lcr (table : list rtc_lcr_map) (reason : Z) : option life_cycle_reason_t :=
  match table with
  | [] => None
  | (rtc, lcr) :: rest => if rtc =? reason then Some lcr else find_lcr rest reason
  end.

Definition search_lcr_by_rtc (table : list rtc_lcr_map) (reason : Z) : life_cycle_reason_t :=
  match find_lcr table reason with
  | Some lcr => lcr
  | None => match table with (_, lcr) :: _ => lcr | [] => LIFE_CYCLE_NOT_AVAILABLE end
  end.

(** [do { bit_count++; } while (0 != (mask >>= 1))]; the mask is 32 bits wide. *)
Fixpoint count_mask_bits (fuel : nat) (mask bit_count : Z) : Z :=
  match fuel with
  | O => bit_count
  | S fuel =>
    let mask := Z.shiftr mask 1 in
    if mask =? 0 then bit_count + 1 else count_mask_bits fuel mask (bit_count + 1)
  end.

(** [for (...) { x ^= (parity & 1); parity >>= 1; }] *)
Fixpoint xor_bits (n : nat) (parity x : Z) : Z :=
  match n with
  | O => x
  | S n => xor_bits n (Z.shiftr parity 1) (Z.lxor x (Z.land parity 1))
  end.

(** ** The store *)

Section Store.
Context {S : Type} `{LcrRtc S}.

(** One round of the loop of [get_sign_of_life_parity] over the groups. *)
Definition parity_round (s : S) (acc : Z * Z) (g : life_reason_type) : Z * Z :=
  let '(parity, bit_count) := acc in
  let pd := life_cycle_reason g in
  let rtc_value := lcr_rtc_read s (reg pd) in
  let rtc_breason := u16 (field_get (mask pd) (shift pd) rtc_value) in
  (u32 (Z.lor parity (Z.shiftl rtc_breason bit_count)),
   count_mask_bits 32 (Z.shiftr (mask pd) (shift pd)) bit_count).

Definition get_sign_of_life_parity (s : S) : Z :=
  let '(parity, bit_count) := foldl (parity_round s) (0, 0) life_reasons in
  xor_bits (Z.to_nat bit_count) parity 0.

Definition check_sign_of_life_parity (s : S) : bool :=
  let x := get_sign_of_life_parity s in
  let rtc_value := lcr_rtc_read s PARITY_REG in
  let reg_parity := u16 (field_get RTC_LIFE_CYCLE_REASON_PARITY_MASK
                           RTC_LIFE_CYCLE_REASON_PARITY_SHIFT rtc_value) in
  reg_parity =? x.

Definition clear_reg (s : S) (a m : Z) : S :=
  lcr_rtc_write_trigger (lcr_rtc_write s a (u16 (Z.land (lcr_rtc_read s a) (Z.lnot m)))).

Definition rtc_clear_life_cycle_reason (s : S) : S :=
  let s := foldl (fun s g => clear_reg s (reg (life_cycle_reason g)) (mask (life_cycle_reason g)))
             s life_reasons in
  clear_reg s PARITY_REG RTC_LIFE_CYCLE_REASON_PARITY_MASK.

(** The out parameter [*reason] is passed in and returned. *)
Definition rtc_read_life_cycle_reason (s : S) (reason : life_cycle_reason_t)
    (pdata : option sign_of_life_private_data) : Z * life_cycle_reason_t :=
  match pdata with
  | None => (-EINVAL, reason)
  | Some pd =>
    if reg pd =? 0 then (-EINVAL, reason) else
    let rtc_value := lcr_rtc_read s (reg pd) in
    let rtc_breason := u16 (field_get (mask pd) (shift pd) rtc_value) in
    if negb (check_sign_of_life_parity s) then (0, LIFE_CYCLE_SMODE_RTC_CHECK_FAIL)
    else (0, search_lcr_by_rtc (rtc_to_lcr pd) rtc_breason)
  end.

Definition rtc_write_life_cycle_reason (s : S) (reason : life_cycle_reason_t)
    (pdata : option sign_of_life_private_data) : S * Z :=
  match pdata with
  | None => (s, -EINVAL)
  | Some pd =>
    let life_cycle_breason := u16 (search_rtc_by_lcr (rtc_to_lcr pd) reason) in
    let rtc_breason := lcr_rtc_read s (reg pd) in
    let rtc_breason := u16 (field_set (mask pd) (shift pd) rtc_breason life_cycle_breason) in
    let s := lcr_rtc_write_trigger (lcr_rtc_write s (reg pd) rtc_breason) in
    (* write parity *)
    let rtc_breason := lcr_rtc_read s PARITY_REG in
    let rtc_breason := u16 (field_set RTC_LIFE_CYCLE_REASON_PARITY_MASK
                              RTC_LIFE_CYCLE_REASON_PARITY_SHIFT rtc_breason
                              (get_sign_of_life_parity s)) in
    (lcr_rtc_write_trigger (lcr_rtc_write s PARITY_REG rtc_breason), 0)
  end.

Definition rtc_mark_quiescent (s : S) (value : Z) : S * Z :=
  let v := lcr_rtc_read s QUIE_REG in
  let v := if value =? 0 then u16 (Z.land v (Z.lnot PMIC_RTC_QUIESCENT))
           else u16 (Z.lor v PMIC_RTC_QUIESCENT) in
  (lcr_rtc_write_trigger (lcr_rtc_write s QUIE_REG v), 0).
End Store.

(** ** The boot reason on the kernel command line *)

Definition bootreason_keyword : string := "androidboot.bootreason"%string.
Definition POWER_KEY_BOOT : string := "=PowerKey"%string.
Definition USB_BOOT : string := "=usb"%string.
Definition WATCHDOG_SW : string := "=Watchdog"%string.
Definition WATCHDOG_HW : string := "=wdt_hw"%string.
Definition KERNEL_PANIC : string := "=kernel_panic"%string.

(** The [strcmp] chain of [get_android_bootreason]. *)
Definition classify_bootreason (s : string) : life_cycle_reason_t :=
  if String.eqb POWER_KEY_BOOT s then COLDBOOT_BY_POWER_KEY
  else if String.eqb USB_BOOT s then COLDBOOT_BY_USB
  else if String.eqb WATCHDOG_SW s then WARMBOOT_BY_KERNEL_WATCHDOG
  else if String.eqb WATCHDOG_HW s then WARMBOOT_BY_HW_WATCHDOG
  else if String.eqb KERNEL_PANIC s then WARMBOOT_BY_KERNEL_PANIC
  else LIFE_CYCLE_NOT_AVAILABLE.

(** The value of [lcr_boot] after the call. [bootreason_str] has 32 bytes: a
    longer value, or the terminator one past the end, is [None]. *)
Definition get_android_bootreason (cmd : string) (lcr_boot : life_cycle_reason_t)
  : option life_cycle_reason_t :=
  match String.index 0 bootreason_keyword cmd with
  | None => Some lcr_boot
  | Some i =>
    let ptr := String.substring i (String.length cmd - i) cmd in
    match String.index 0 " "%string ptr with
    | None => Some lcr_boot
    | Some e =>
      let size := Z.of_nat e - Z.of_nat (String.length bootreason_keyword) in
      if size <=? 0 then Some lcr_boot
      else if 32 <=? size then None
      else Some (classify_bootreason
                   (String.substring (String.length bootreason_keyword) (Z.to_nat size) ptr))
    end
  end.

(** A string without spaces. *)
Fixpoint no_space (s : string) : Prop :=
  match s with
  | EmptyString => True
  | String c s => c <> Ascii.ascii_of_nat 32 /\ no_space s
  end.

(** ** The platform operations *)

(** What the RTC implementation keeps: the registers and the global
    [lcr_boot]. *)
Record lcr_platform (S : Type) := mkPlat { plat_rtc : S; lcr_boot : life_cycle_reason_t }.
Arguments mkPlat {S} _ _.
Arguments plat_rtc {S} _.
Arguments lcr_boot {S} _.

(** [sign_of_life_ops]: function pointers, [None] when [NULL]. A read takes
    and returns its out parameter. *)
Record sign_of_life_ops (P : Type) := mkOps {
  read_boot_reason : option (P -> life_cycle_reason_t -> Z * life_cycle_reason_t);
  write_boot_reason : option (P -> life_cycle_reason_t -> P * Z);
  read_shutdown_reason : option (P -> life_cycle_reason_t -> Z * life_cycle_reason_t);
  write_shutdown_reason : option (P -> life_cycle_reason_t -> P * Z);
  read_thermal_shutdown_reason : option (P -> life_cycle_reason_t -> Z * life_cycle_reason_t);
  write_thermal_shutdown_reason : option (P -> life_cycle_reason_t -> P * Z);
  read_special_mode : option (P -> life_cycle_reason_t -> Z * life_cycle_reason_t);
  write_special_mode : option (P -> life_cycle_reason_t -> P * Z);
  lcr_reset : option (P -> P * Z) }.

Arguments mkOps {P}.
Arguments read_boot_reason {P} _.
Arguments write_boot_reason {P} _.
Arguments read_shutdown_reason {P} _.
Arguments write_shutdown_reason {P} _.
Arguments read_thermal_shutdown_reason {P} _.
Arguments write_thermal_shutdown_reason {P} _.
Arguments read_special_mode {P} _.
Arguments write_special_mode {P} _.
Arguments lcr_reset {P} _.

Section Platform.
Context {S : Type} `{LcrRtc S}.

Definition rtc_read_boot_reason (p : lcr_platform S) (r : life_cycle_reason_t) :=
  let '(ret, r) := rtc_read_life_cycle_reason (plat_rtc p) r (Some (life_cycle_reason BOOT)) in
  if bool_decide (r = LIFE_CYCLE_NOT_AVAILABLE) && (ret =? 0) then (ret, lcr_boot p) else (ret, r).

Definition rtc_read_reason (g : life_reason_type) (p : lcr_platform S) (r : life_cycle_reason_t) :=
  rtc_read_life_cycle_reason (plat_rtc p) r (Some (life_cycle_reason g)).

Definition rtc_write_reason (g : life_reason_type) (p : lcr_platform S) (r : life_cycle_reason_t) :=
  let '(s, ret) := rtc_write_life_cycle_reason (plat_rtc p) r (Some (life_cycle_reason g)) in
  (mkPlat s (lcr_boot p), ret).

Definition rtc_lcr_reset (p : lcr_platform S) : lcr_platform S * Z :=
  (mkPlat (rtc_clear_life_cycle_reason (plat_rtc p)) (lcr_boot p), 0).

Definition life_cycle_platform_init : sign_of_life_ops (lcr_platform S) := {|
  read_boot_reason := Some rtc_read_boot_reason;
  write_boot_reason := Some (rtc_write_reason BOOT);
  read_shutdown_reason := Some (rtc_read_reason SHUTDOWN);
  write_shutdown_reason := Some (rtc_write_reason SHUTDOWN);
  read_thermal_shutdown_reason := Some (rtc_read_reason THERMAL_SHUTDOWN);
  write_thermal_shutdown_reason := Some (rtc_write_reason THERMAL_SHUTDOWN);
  read_special_mode := Some (rtc_read_reason SPECIAL);
  write_special_mode := Some (rtc_write_reason SPECIAL);
  lcr_reset := Some rtc_lcr_reset |}.
End Platform.

(** ** Abstract view: four codes and a parity bit *)

Section View.
Context {S : Type} `{LcrRtc S}.

(** The 3-bit code a group holds, and the stored parity bit. *)
Definition code (s : S) (g : life_reason_type) : Z :=
  field_get (mask (life_cycle_reason g)) (shift (life_cycle_reason g))
    (lcr_rtc_read s (reg (life_cycle_reason g))).
Definition parity_bit (s : S) : Z :=
  field_get RTC_LIFE_CYCLE_REASON_PARITY_MASK RTC_LIFE_CYCLE_REASON_PARITY_SHIFT
    (lcr_rtc_read s PARITY_REG).
End View.

(** The parity of four codes. *)
Definition parity4 (b sh th sp : Z) : Z :=
  xor_bits 12 (Z.lor (Z.lor (Z.lor b (Z.shiftl sh 3)) (Z.shiftl th 6)) (Z.shiftl sp 9)) 0.

(** The code a group stores for a reason, and the reason a code is read as. *)
Definition encode (g : life_reason_type) (r : life_cycle_reason_t) : Z :=
  search_rtc_by_lcr (rtc_to_lcr (life_cycle_reason g)) r.
Definition decode (g : life_reason_type) (c : Z) : life_cycle_reason_t :=
  search_lcr_by_rtc (rtc_to_lcr (life_cycle_reason g)) c.

(** The reasons a group can record. *)
Definition recordable (g : life_reason_type) (r : life_cycle_reason_t) : bool :=
  existsb (fun e => bool_decide (e.2 = r)) (rtc_to_lcr (life_cycle_reason g)).

Definition codes3 : list Z := [0; 1; 2; 3; 4; 5; 6; 7].

(** The bits of a register that belong to the store. *)
Definition lcr_bits (a : Z) : Z :=
  if a =? RTC_SPAR0 then 64512        (* 0xFC00 *)
  else if a =? RTC_AL_DOW then 32512  (* 0x7F00 *)
  else 0.

(** ** Abstract specification: one reason per group *)

Definition lcr_store : Type := life_reason_type -> life_cycle_reason_t.

Inductive store_op :=
| OpRecord (g : life_reason_type) (r : life_cycle_reason_t)
| OpClear
| OpQuiesce (value : Z)
| OpRead (g : life_reason_type).

(** The specification of one operation, and what a read returns. *)
Definition spec_step (st : lcr_store) (o : store_op) : lcr_store * option life_cycle_reason_t :=
  match o with
  | OpRecord g r =>
    (fun h => if decide (g = h)
              then (if recordable g r then r else LIFE_CYCLE_NOT_AVAILABLE) else st h, None)
  | OpClear => (fun _ => LIFE_CYCLE_NOT_AVAILABLE, None)
  | OpQuiesce _ => (st, None)
  | OpRead g => (st, Some (st g))
  end.

Definition code_step {S} `{LcrRtc S} (s : S) (o : store_op) : S * option life_cycle_reason_t :=
  match o with
  | OpRecord g r => ((rtc_write_life_cycle_reason s r (Some (life_cycle_reason g))).1, None)
  | OpClear => (rtc_clear_life_cycle_reason s, None)
  | OpQuiesce v => ((rtc_mark_quiescent s v).1, None)
  | OpRead g =>
    (s, Some (rtc_read_life_cycle_reason s LIFE_CYCLE_NOT_AVAILABLE
                (Some (life_cycle_reason g))).2)
  end.

(** The results of a run of operations. *)
Fixpoint run_ops {A} (step : A -> store_op -> A * option life_cycle_reason_t)
    (a : A) (ops : list store_op) : list life_cycle_reason_t :=
  match ops with
  | [] => []
  | o :: ops =>
    let '(a, r) := step a o in
    match r with Some r => r :: run_ops step a ops | None => run_ops step a ops end
  end.

(** ** Theorems *)

Lemma mask_eq g :
  mask (life_cycle_reason g) = mask_of 3 (shift (life_cycle_reason g)).
Proof. destruct g; reflexivity. Qed.

Lemma shift_pos g : 0 <= shift (life_cycle_reason g).
Proof. destruct g; cbv; discriminate. Qed.

Lemma codes_elem c : 0 <= c < 8 -> c ∈ codes3.
Proof.
  intros. unfold codes3. rewrite !elem_of_cons.
  destruct (decide (c = 0)), (decide (c = 1)), (decide (c = 2)), (decide (c = 3)),
    (decide (c = 4)), (decide (c = 5)), (decide (c = 6)); auto 10. 
  do 7 right. left. lia.
Qed.

Lemma encode_range g r : 0 <= encode g r < 8.
Proof. destruct g, r; cbv; split; congruence. Qed.

Lemma decode_encode g r :
  decode g (encode g r) = if recordable g r then r else LIFE_CYCLE_NOT_AVAILABLE.
Proof. destruct g, r; reflexivity. Qed.

(** Checking a statement about four codes on all of them. *)
Lemma forall_codes (P : Z -> Z -> Z -> Z -> bool) :
  forallb (fun a => forallb (fun b => forallb (fun c => forallb (P a b c) codes3) codes3) codes3)
    codes3 = true ->
  forall a b c d, 0 <= a < 8 -> 0 <= b < 8 -> 0 <= c < 8 -> 0 <= d < 8 -> P a b c d = true.
Proof.
  intros Hall a b c d Ha Hb Hc Hd. rewrite List.forallb_forall in Hall.
  specialize (Hall a ltac:(by apply list_elem_of_In, codes_elem)).
  rewrite List.forallb_forall in Hall. specialize (Hall b ltac:(by apply list_elem_of_In, codes_elem)).
  rewrite List.forallb_forall in Hall. specialize (Hall c ltac:(by apply list_elem_of_In, codes_elem)).
  rewrite List.forallb_forall in Hall. apply (Hall d). by apply list_elem_of_In, codes_elem.
Qed.

Lemma parity4_bit a b c d :
  0 <= a < 8 -> 0 <= b < 8 -> 0 <= c < 8 -> 0 <= d < 8 -> 0 <= parity4 a b c d < 2.
Proof.
  intros Ha Hb Hc Hd.
  pose proof (forall_codes (fun a b c d => (0 <=? parity4 a b c d) && (parity4 a b c d <? 2))
    ltac:(vm_compute; reflexivity) a b c d Ha Hb Hc Hd) as HH.
  apply andb_true_iff in HH as [H1 H2]. apply Z.leb_le in H1. by apply Z.ltb_lt in H2.
Qed.

(** *** The store through its codes *)

Section StoreLemmas.
Context {S : Type} `{LcrRtcLaws S}.
Implicit Type s : S.

Lemma code_range s g : 0 <= code s g < 8.
Proof.
  apply (field_get_range 3); [lia | apply shift_pos | destruct g; cbv; discriminate |].
  destruct g; reflexivity.
Qed.

Lemma parity_bit_range s : 0 <= parity_bit s < 2.
Proof. apply (field_get_range 1); [lia | | | ]; cbv; [discriminate | discriminate | reflexivity]. Qed.

Lemma code_u16 s g : u16 (code s g) = code s g.
Proof. apply u16_id. pose proof (code_range s g). lia. Qed.

Lemma get_parity_codes s :
  get_sign_of_life_parity s = parity4 (code s BOOT) (code s SHUTDOWN)
    (code s THERMAL_SHUTDOWN) (code s SPECIAL).
Proof.
  unfold get_sign_of_life_parity, life_reasons, parity_round. cbn [foldl].
  fold (code s BOOT). fold (code s SHUTDOWN). fold (code s THERMAL_SHUTDOWN). fold (code s SPECIAL).
  rewrite !code_u16.
  pose proof (forall_codes (fun a b c d =>
     xor_bits 12 (u32 (Z.lor (u32 (Z.lor (u32 (Z.lor (u32 (Z.lor 0 (Z.shiftl a 0)))
       (Z.shiftl b 3))) (Z.shiftl c 6))) (Z.shiftl d 9))) 0 =? parity4 a b c d)
    ltac:(vm_compute; reflexivity) _ _ _ _ (code_range s BOOT) (code_range s SHUTDOWN)
    (code_range s THERMAL_SHUTDOWN) (code_range s SPECIAL)) as HH.
  apply Z.eqb_eq in HH. exact HH.
Qed.

(** The parity check, on the codes. *)
Lemma check_parity_codes s :
  check_sign_of_life_parity s =
  (parity_bit s =? parity4 (code s BOOT) (code s SHUTDOWN) (code s THERMAL_SHUTDOWN) (code s SPECIAL)).
Proof.
  unfold check_sign_of_life_parity. rewrite get_parity_codes. fold (parity_bit s).
  rewrite u16_id; [done|]. pose proof (parity_bit_range s). lia.
Qed.

Lemma rtc_read_codes s g r :
  rtc_read_life_cycle_reason s r (Some (life_cycle_reason g)) =
  (0, if check_sign_of_life_parity s then decode g (code s g) else LIFE_CYCLE_SMODE_RTC_CHECK_FAIL).
Proof.
  unfold rtc_read_life_cycle_reason.
  replace (reg (life_cycle_reason g) =? 0) with false by (by destruct g).
  fold (code s g). rewrite code_u16. by destruct (check_sign_of_life_parity s).
Qed.

(** One read-modify-write of a field of a register. *)
Definition set_reg_field s a m sh x : S :=
  lcr_rtc_write_trigger (lcr_rtc_write s a (u16 (field_set m sh (lcr_rtc_read s a) x))).

Lemma set_reg_field_read s a m sh x b :
  0 <= m < 65536 ->
  lcr_rtc_read (set_reg_field s a m sh x) b =
  if a =? b then field_set m sh (lcr_rtc_read s a) x else lcr_rtc_read s b.
Proof.
  intros Hm. unfold set_reg_field. rewrite read_trigger.
  destruct (Z.eqb_spec a b) as [<-|].
  - rewrite read_write_eq. pose proof (read_range s a).
    assert (Hr : 0 <= field_set m sh (lcr_rtc_read s a) x < 65536)
      by (apply (field_set_range 16); lia).
    by rewrite !u16_id by (rewrite ?u16_id; lia).
  - by apply read_write_ne.
Qed.

(** Setting the field of one group leaves the other groups' codes alone. *)
Lemma set_reg_field_code s g x h :
  code (set_reg_field s (reg (life_cycle_reason g)) (mask (life_cycle_reason g))
          (shift (life_cycle_reason g)) x) h =
  if decide (g = h) then x mod 8 else code s h.
Proof.
  unfold code at 1. rewrite set_reg_field_read by (destruct g; split; cbv; congruence).
  destruct (decide (g = h)) as [->|Hne].
  - rewrite Z.eqb_refl, mask_eq. rewrite field_get_set; [done | lia | apply shift_pos].
  - destruct (Z.eqb_spec (reg (life_cycle_reason g)) (reg (life_cycle_reason h))) as [Hr|]; [|done].
    rewrite Hr, field_get_set_disjoint; [done | apply shift_pos |].
    clear -Hne Hr. destruct g, h; first [done | reflexivity | by cbv in Hr].
Qed.

Lemma set_reg_field_parity s g x :
  parity_bit (set_reg_field s (reg (life_cycle_reason g)) (mask (life_cycle_reason g))
          (shift (life_cycle_reason g)) x) = parity_bit s.
Proof.
  unfold parity_bit. rewrite set_reg_field_read by (destruct g; split; cbv; congruence).
  destruct (Z.eqb_spec (reg (life_cycle_reason g)) PARITY_REG) as [Hr|]; [|done].
  rewrite Hr, field_get_set_disjoint; [done | by cbv |].
  clear -Hr. destruct g; first [reflexivity | by cbv in Hr].
Qed.

Lemma set_parity_code s x h :
  code (set_reg_field s PARITY_REG RTC_LIFE_CYCLE_REASON_PARITY_MASK
          RTC_LIFE_CYCLE_REASON_PARITY_SHIFT x) h = code s h.
Proof.
  unfold code. rewrite set_reg_field_read by (split; cbv; congruence).
  destruct (Z.eqb_spec PARITY_REG (reg (life_cycle_reason h))) as [Hr|]; [|done].
  rewrite Hr, field_get_set_disjoint; [done | apply shift_pos |].
  clear -Hr. destruct h; first [reflexivity | by cbv in Hr].
Qed.

Lemma set_parity_parity s x :
  parity_bit (set_reg_field s PARITY_REG RTC_LIFE_CYCLE_REASON_PARITY_MASK
          RTC_LIFE_CYCLE_REASON_PARITY_SHIFT x) = x mod 2.
Proof.
  unfold parity_bit. rewrite set_reg_field_read by (split; cbv; congruence).
  rewrite Z.eqb_refl. exact (field_get_set 1 14 _ x ltac:(lia) ltac:(lia)).
Qed.

(** The whole write, as two field updates. *)
Lemma write_eq s g r :
  rtc_write_life_cycle_reason s r (Some (life_cycle_reason g)) =
  let s' := set_reg_field s (reg (life_cycle_reason g)) (mask (life_cycle_reason g))
              (shift (life_cycle_reason g)) (encode g r) in
  (set_reg_field s' PARITY_REG RTC_LIFE_CYCLE_REASON_PARITY_MASK
     RTC_LIFE_CYCLE_REASON_PARITY_SHIFT (get_sign_of_life_parity s'), 0).
Proof.
  unfold rtc_write_life_cycle_reason. fold (encode g r).
  rewrite (u16_id (encode g r)) by (pose proof (encode_range g r); lia). done.
Qed.

Lemma write_code s g r h :
  code (rtc_write_life_cycle_reason s r (Some (life_cycle_reason g))).1 h =
  if decide (g = h) then encode g r else code s h.
Proof.
  rewrite write_eq. cbn [fst]. rewrite set_parity_code, set_reg_field_code.
  destruct (decide (g = h)); [|done]. apply Z.mod_small, encode_range.
Qed.

Lemma write_parity_ok s g r :
  check_sign_of_life_parity (rtc_write_life_cycle_reason s r (Some (life_cycle_reason g))).1 = true.
Proof.
  rewrite check_parity_codes, !write_code. rewrite write_eq. cbn [fst].
  rewrite set_parity_parity, get_parity_codes, !set_reg_field_code.
  rewrite (Z.mod_small (encode g r) 8) by apply encode_range.
  rewrite Z.mod_small; [apply Z.eqb_refl|].
  apply parity4_bit; repeat case_decide; subst;
    first [apply encode_range | apply code_range].
Qed.

Lemma clear_reg_field s a m sh : clear_reg s a m = set_reg_field s a m sh 0.
Proof.
  unfold clear_reg, set_reg_field, field_set.
  by rewrite Z.shiftl_0_l, Z.land_0_l, Z.lor_0_r.
Qed.

Lemma clear_eq s :
  rtc_clear_life_cycle_reason s =
  set_reg_field (foldl (fun s g => set_reg_field s (reg (life_cycle_reason g))
      (mask (life_cycle_reason g)) (shift (life_cycle_reason g)) 0) s life_reasons)
    PARITY_REG RTC_LIFE_CYCLE_REASON_PARITY_MASK RTC_LIFE_CYCLE_REASON_PARITY_SHIFT 0.
Proof.
  unfold rtc_clear_life_cycle_reason, life_reasons. cbn [foldl].
  rewrite (clear_reg_field _ _ _ RTC_LIFE_CYCLE_REASON_PARITY_SHIFT).
  assert (Hg : forall s g, clear_reg s (reg (life_cycle_reason g)) (mask (life_cycle_reason g)) =
    set_reg_field s (reg (life_cycle_reason g)) (mask (life_cycle_reason g))
      (shift (life_cycle_reason g)) 0) by (intros; apply clear_reg_field).
  by rewrite !Hg.
Qed.

Lemma clear_code s g : code (rtc_clear_life_cycle_reason s) g = 0.
Proof.
  rewrite clear_eq, set_parity_code. unfold life_reasons. cbn [foldl].
  rewrite !set_reg_field_code. by destruct g.
Qed.

Lemma clear_parity_ok s : check_sign_of_life_parity (rtc_clear_life_cycle_reason s) = true.
Proof.
  rewrite check_parity_codes, !clear_code, clear_eq, set_parity_parity. reflexivity.
Qed.

Lemma quiescent_eq s v :
  (rtc_mark_quiescent s v).1 =
  set_reg_field s QUIE_REG PMIC_RTC_QUIESCENT 15 (if v =? 0 then 0 else 1).
Proof.
  unfold rtc_mark_quiescent, set_reg_field, field_set. cbn [fst]. destruct (v =? 0).
  - by rewrite Z.shiftl_0_l, Z.land_0_l, Z.lor_0_r.
  - change (Z.land (Z.shiftl 1 15) PMIC_RTC_QUIESCENT) with PMIC_RTC_QUIESCENT.
    do 3 f_equal. bits_by i. bool_cases.
Qed.

(** An update of bits outside the store leaves codes and parity alone. *)
Lemma set_reg_outside s a m sh x :
  0 <= m < 65536 -> Z.land m (lcr_bits a) = 0 ->
  (forall g, code (set_reg_field s a m sh x) g = code s g) /\
  parity_bit (set_reg_field s a m sh x) = parity_bit s.
Proof.
  intros Hm Hd. split; [intros g; unfold code|unfold parity_bit];
    rewrite set_reg_field_read by done.
  - destruct (Z.eqb_spec a (reg (life_cycle_reason g))) as [->|]; [|done].
    apply field_get_set_disjoint; [apply shift_pos|].
    apply Z.bits_inj'; intros i Hi. rewrite Z.bits_0. apply (f_equal (fun z => Z.testbit z i)) in Hd.
    assert (Hs : Z.land (mask (life_cycle_reason g)) (lcr_bits (reg (life_cycle_reason g)))
                 = mask (life_cycle_reason g)) by (by destruct g).
    rewrite <- Hs. autorewrite with bits in Hd |- *.
    by rewrite <- Bool.andb_assoc, (Bool.andb_comm (Z.testbit (lcr_bits _) i)), Hd, Bool.andb_false_r.
  - destruct (Z.eqb_spec a PARITY_REG) as [->|]; [|done].
    apply field_get_set_disjoint; [by cbv|].
    apply Z.bits_inj'; intros i Hi. rewrite Z.bits_0. apply (f_equal (fun z => Z.testbit z i)) in Hd.
    change RTC_LIFE_CYCLE_REASON_PARITY_MASK
      with (Z.land RTC_LIFE_CYCLE_REASON_PARITY_MASK (lcr_bits PARITY_REG)).
    autorewrite with bits in Hd |- *.
    by rewrite <- Bool.andb_assoc, (Bool.andb_comm (Z.testbit (lcr_bits _) i)), Hd, Bool.andb_false_r.
Qed.

Lemma quiescent_store s v :
  (forall g, code (rtc_mark_quiescent s v).1 g = code s g) /\
  check_sign_of_life_parity (rtc_mark_quiescent s v).1 = check_sign_of_life_parity s.
Proof.
  rewrite quiescent_eq.
  destruct (set_reg_outside s QUIE_REG PMIC_RTC_QUIESCENT 15 (if v =? 0 then 0 else 1)) as [Hc Hp];
    [by cbv | reflexivity|].
  split; [done|]. by rewrite !check_parity_codes, !Hc, Hp.
Qed.

(** The store seen as the specification's map. *)
Definition abs_store s : lcr_store := fun g => decode g (code s g).

Lemma code_step_sim s st o :
  check_sign_of_life_parity s = true -> (forall g, st g = abs_store s g) ->
  check_sign_of_life_parity (code_step s o).1 = true /\
  (forall g, (spec_step st o).1 g = abs_store (code_step s o).1 g) /\
  (code_step s o).2 = (spec_step st o).2.
Proof.
  intros Hp Hst. unfold abs_store in *. destruct o as [g r| |v|g]; cbn [code_step spec_step fst snd].
  - split_and!; [apply write_parity_ok | | done]. intros h. rewrite write_code.
    destruct (decide (g = h)) as [->|]; [by rewrite decode_encode | by rewrite Hst].
  - split_and!; [apply clear_parity_ok | | done]. intros g. rewrite clear_code. by destruct g.
  - destruct (quiescent_store s v) as [Hc Hq]. rewrite Hq. split_and!; [done | | done].
    intros g. by rewrite Hc, Hst.
  - split_and!; [done | done |]. rewrite rtc_read_codes, Hp. cbn [snd]. by rewrite Hst.
Qed.

(** Bits of the registers the store does not own. *)
Lemma set_reg_field_frame s b m sh x a i :
  0 <= m < 65536 -> Z.land m (Z.lnot (lcr_bits b)) = 0 -> 0 <= i ->
  Z.testbit (lcr_bits a) i = false ->
  Z.testbit (lcr_rtc_read (set_reg_field s b m sh x) a) i = Z.testbit (lcr_rtc_read s a) i.
Proof.
  intros Hm Hd Hi Ha. rewrite set_reg_field_read by done.
  destruct (Z.eqb_spec b a) as [->|]; [|done].
  apply field_set_outside; [done|].
  apply (f_equal (fun z => Z.testbit z i)) in Hd. autorewrite with bits in Hd.
  rewrite Ha in Hd. by rewrite Bool.andb_true_r in Hd.
Qed.

Lemma write_frame s r g a i :
  0 <= i -> Z.testbit (lcr_bits a) i = false ->
  Z.testbit (lcr_rtc_read (rtc_write_life_cycle_reason s r (Some (life_cycle_reason g))).1 a) i
  = Z.testbit (lcr_rtc_read s a) i.
Proof.
  intros Hi Ha. rewrite write_eq. cbn [fst].
  rewrite set_reg_field_frame; [| by cbv | reflexivity | done | done].
  apply set_reg_field_frame; [by destruct g; cbv | by destruct g | done | done].
Qed.

Lemma clear_frame s a i :
  0 <= i -> Z.testbit (lcr_bits a) i = false ->
  Z.testbit (lcr_rtc_read (rtc_clear_life_cycle_reason s) a) i = Z.testbit (lcr_rtc_read s a) i.
Proof.
  intros Hi Ha. rewrite clear_eq. unfold life_reasons. cbn [foldl].
  by rewrite !set_reg_field_frame by (done || (by cbv) || reflexivity).
Qed.
End StoreLemmas.

(** *** Properties of the store *)

Section StoreProperties.
Context {S : Type} `{LcrRtcLaws S}.
Implicit Type s : S.

(** C23. The two RTC registers implement a map from the four groups to
    reasons: starting from registers whose parity is right, any sequence of
    writes, clears, quiescent marks and reads returns exactly what the map
    [spec_step] returns, where a write stores the reason if the group's table
    knows it and "not available" otherwise. *)
Theorem store_refines (ops : list store_op) s :
  check_sign_of_life_parity s = true ->
  run_ops code_step s ops = run_ops spec_step (abs_store s) ops.
Proof.
  intros Hp. assert (Hst : forall g, abs_store s g = abs_store s g) by done.
  revert Hst. generalize (abs_store s) at 1 3. revert s Hp.
  induction ops as [|o ops IH]; intros s Hp st Hst; [done|].
  destruct (code_step_sim s st o Hp Hst) as (Hp' & Hst' & Hr). cbn [run_ops].
  destruct (code_step s o) as [s' r], (spec_step st o) as [st' r'].
  cbn [fst snd] in *. subst r'. rewrite (IH s' Hp' st' Hst'). done.
Qed.

Lemma field_get_lxor m sh v x :
  0 <= sh -> field_get m sh (Z.lxor v x) = Z.lxor (field_get m sh v) (field_get m sh x).
Proof. intros; unfold field_get. bits_by i. bool_cases. Qed.

(** One flipped bit, seen by the codes and the parity bit. *)
Lemma flip_codes s s' a i :
  (forall b, lcr_rtc_read s' b = if b =? a then Z.lxor (lcr_rtc_read s b) (2 ^ i)
                                 else lcr_rtc_read s b) ->
  (forall g, code s' g = Z.lxor (code s g)
     (if reg (life_cycle_reason g) =? a
      then field_get (mask (life_cycle_reason g)) (shift (life_cycle_reason g)) (2 ^ i) else 0)) /\
  parity_bit s' = Z.lxor (parity_bit s)
     (if PARITY_REG =? a
      then field_get RTC_LIFE_CYCLE_REASON_PARITY_MASK RTC_LIFE_CYCLE_REASON_PARITY_SHIFT (2 ^ i)
      else 0).
Proof.
  intros Hr. split; [intros g; unfold code|unfold parity_bit]; rewrite Hr;
    destruct (Z.eqb _ a); rewrite ?Z.lxor_0_r; try done; apply field_get_lxor;
    [apply shift_pos | by cbv].
Qed.

(** The check on flipped codes, for one flip pattern. *)
Lemma flip_detected_pattern fb fs ft fp q s :
  forallb (fun a => forallb (fun b => forallb (fun c => forallb (fun d =>
     negb (Z.lxor (parity4 a b c d) q =?
           parity4 (Z.lxor a fb) (Z.lxor b fs) (Z.lxor c ft) (Z.lxor d fp)))
     codes3) codes3) codes3) codes3 = true ->
  (Z.lxor (parity4 (code s BOOT) (code s SHUTDOWN) (code s THERMAL_SHUTDOWN) (code s SPECIAL)) q
   =? parity4 (Z.lxor (code s BOOT) fb) (Z.lxor (code s SHUTDOWN) fs)
        (Z.lxor (code s THERMAL_SHUTDOWN) ft) (Z.lxor (code s SPECIAL) fp)) = false.
Proof.
  intros Hall. pose proof (forall_codes _ Hall _ _ _ _ (code_range s BOOT) (code_range s SHUTDOWN)
    (code_range s THERMAL_SHUTDOWN) (code_range s SPECIAL)) as HH.
  by apply negb_true_iff in HH.
Qed.

Lemma lcr_bits_cases a i :
  0 <= i -> Z.testbit (lcr_bits a) i = true ->
  a = RTC_SPAR0 /\ 10 <= i < 16 \/ a = RTC_AL_DOW /\ 8 <= i < 15.
Proof.
  intros Hi Hb. unfold lcr_bits in Hb.
  destruct (Z.eqb_spec a RTC_SPAR0) as [->|]; [left|destruct (Z.eqb_spec a RTC_AL_DOW) as [->|]; [right|]].
  - split; [done|]. change 64512 with (mask_of 6 10) in Hb.
    rewrite mask_of_spec in Hb by lia. apply andb_true_iff in Hb as [H1 H2].
    apply Z.leb_le in H1. apply Z.ltb_lt in H2. lia.
  - split; [done|]. change 32512 with (mask_of 7 8) in Hb.
    rewrite mask_of_spec in Hb by lia. apply andb_true_iff in Hb as [H1 H2].
    apply Z.leb_le in H1. apply Z.ltb_lt in H2. lia.
  - by rewrite Z.bits_0 in Hb.
Qed.

(** A single bit of the store that changes behind the driver's back (in a
    code or in the parity bit itself) is never taken for a reason: every group
    then reads as "RTC check fail", whatever was recorded. *)
Theorem bit_flip_detected s s' a i g r :
  check_sign_of_life_parity s = true ->
  0 <= i -> Z.testbit (lcr_bits a) i = true ->
  (forall b, lcr_rtc_read s' b = if b =? a then Z.lxor (lcr_rtc_read s b) (2 ^ i)
                                 else lcr_rtc_read s b) ->
  rtc_read_life_cycle_reason s' r (Some (life_cycle_reason g))
  = (0, LIFE_CYCLE_SMODE_RTC_CHECK_FAIL).
Proof.
  intros Hp Hi Hb Hr. rewrite rtc_read_codes, check_parity_codes.
  rewrite check_parity_codes in Hp. apply Z.eqb_eq in Hp.
  destruct (flip_codes s s' a i Hr) as [Hc Hq]. rewrite Hq, !Hc, Hp.
  rewrite flip_detected_pattern; [done|].
  destruct (lcr_bits_cases a i Hi Hb) as [[-> Hr1]|[-> Hr1]]; clear -Hr1.
  - assert (i = 10 \/ i = 11 \/ i = 12 \/ i = 13 \/ i = 14 \/ i = 15) as Hd by lia.
    destruct_or! Hd; subst i; vm_compute; reflexivity.
  - assert (i = 8 \/ i = 9 \/ i = 10 \/ i = 11 \/ i = 12 \/ i = 13 \/ i = 14) as Hd by lia.
    destruct_or! Hd; subst i; vm_compute; reflexivity.
Qed.

(** Recording a reason and clearing the store change no bit of any
    register other than the store's own: the reset flags in the low bits of
    RTC_SPAR0 and the quiescent bit of RTC_AL_DOW survive. *)
Theorem foreign_bits_kept s r g a i :
  0 <= i -> Z.testbit (lcr_bits a) i = false ->
  Z.testbit (lcr_rtc_read (rtc_write_life_cycle_reason s r (Some (life_cycle_reason g))).1 a) i
    = Z.testbit (lcr_rtc_read s a) i /\
  Z.testbit (lcr_rtc_read (rtc_clear_life_cycle_reason s) a) i = Z.testbit (lcr_rtc_read s a) i.
Proof. split; [by apply write_frame | by apply clear_frame]. Qed.
End StoreProperties.

(** *** The boot reason on the command line *)


Open Scope string_scope.

Lemma substring_skip (a b : string) n : String.substring (String.length a) n (a ++ b) = String.substring 0 n b.
Proof. induction a as [|c a IH]; [done|]. exact IH. Qed.

Lemma substring_take (a b : string) : String.substring 0 (String.length a) (a ++ b) = a.
Proof. induction a as [|c a IH]; [by destruct b|]. exact (f_equal (String c) IH). Qed.

Lemma substring_all (a : string) : String.substring 0 (String.length a) a = a.
Proof. induction a as [|c a IH]; [done|]. by (exact (f_equal (String c) IH) || exact (f_equal S IH)). Qed.

Lemma string_length_app (a b : string) :
  String.length (a ++ b) = (String.length a + String.length b)%nat.
Proof. induction a as [|c a IH]; [done|]. by (exact (f_equal (String c) IH) || exact (f_equal S IH)). Qed.

Lemma string_app_assoc (a b c : string) : (a ++ b) ++ c = a ++ (b ++ c).
Proof. induction a as [|x a IH]; [done|]. exact (f_equal (String x) IH). Qed.

Lemma no_space_app a b : no_space a -> no_space b -> no_space (a ++ b).
Proof. induction a as [|c a IH]; cbn; [done|]. intros [H1 H2] Hb. split; auto. Qed.

Lemma index_first_space u rest :
  no_space u -> String.index 0 " " (u ++ String (Ascii.ascii_of_nat 32) rest) = Some (String.length u).
Proof.
  induction u as [|c u IH]; intros Hu.
  - by destruct rest.
  - destruct Hu as [Hc Hu]. specialize (IH Hu).
    assert (Hp : String.prefix " " (String c u ++ String (Ascii.ascii_of_nat 32) rest) = false).
    { change ((if Ascii.ascii_dec (Ascii.ascii_of_nat 32) c
        then String.prefix "" (u ++ String (Ascii.ascii_of_nat 32) rest) else false) = false).
      destruct (Ascii.ascii_dec (Ascii.ascii_of_nat 32) c) as [E|]; [by destruct Hc | done]. }
    change ((String c u ++ String (Ascii.ascii_of_nat 32) rest))
      with (String c (u ++ String (Ascii.ascii_of_nat 32) rest)) in *.
    cbn [String.index]. rewrite Hp, IH. done.
Qed.

(** On a command line [pre androidboot.bootreason v rest] whose first
    occurrence of the keyword is the one shown, the boot reason is the
    classification of [v] when it fits the 32-byte buffer with its terminator,
    and any longer value overruns the buffer on the stack. *)
Theorem bootreason_parsed pre v rest b :
  let cmd := pre ++ bootreason_keyword ++ v ++ String (Ascii.ascii_of_nat 32) rest in
  String.index 0 bootreason_keyword cmd = Some (String.length pre) ->
  no_space v -> v <> "" ->
  get_android_bootreason cmd b =
  if (32 <=? Z.of_nat (String.length v))%Z then None else Some (classify_bootreason v).
Proof.
  intros cmd Hk Hv Hne. unfold get_android_bootreason. rewrite Hk. subst cmd.
  rewrite string_length_app, Nat.add_comm, Nat.add_sub, substring_skip, substring_all.
  rewrite <- string_app_assoc, index_first_space by (by apply no_space_app; [cbv; naive_solver|]).
  rewrite string_length_app, string_app_assoc, substring_skip.
  replace (Z.of_nat (String.length bootreason_keyword + String.length v) -
           Z.of_nat (String.length bootreason_keyword))%Z with (Z.of_nat (String.length v)) by lia.
  rewrite Nat2Z.id, substring_take.
  destruct (Z.leb_spec (Z.of_nat (String.length v)) 0); [|done].
  destruct v; [done|]. cbn [String.length] in *. lia.
Qed.

Lemma bootreason_parsed_witness :
  get_android_bootreason "root=/dev/ram androidboot.bootreason=wdt_hw quiet" LIFE_CYCLE_NOT_AVAILABLE
  = Some WARMBOOT_BY_HW_WATCHDOG.
Proof.
  apply (bootreason_parsed "root=/dev/ram " "=wdt_hw" "quiet"); [reflexivity | | discriminate].
  repeat split; discriminate.
Defined.

Close Scope string_scope.

(** *** Instances of the properties *)

(** Registers after a factory reset of the store, with foreign bits set. *)
Definition example_regs : mt6397_rtc :=
  mkRtc (list_to_map [(RTC_SPAR0, 512 + 64); (RTC_AL_DOW, 32768 + 5)]) 0.

Lemma store_refines_witness :
  run_ops code_step example_regs
    [OpRecord THERMAL_SHUTDOWN THERMAL_SHUTDOWN_REASON_PCB; OpRecord BOOT WARMBOOT_BY_SW;
     OpQuiesce 0; OpRead THERMAL_SHUTDOWN; OpRead BOOT; OpClear; OpRead BOOT]
  = [THERMAL_SHUTDOWN_REASON_PCB; WARMBOOT_BY_SW; LIFE_CYCLE_NOT_AVAILABLE].
Proof. rewrite store_refines; [reflexivity | vm_compute; reflexivity]. Defined.

Lemma bit_flip_detected_witness :
  rtc_read_life_cycle_reason (mkRtc (list_to_map [(RTC_SPAR0, 1024 + 576); (RTC_AL_DOW, 32773)]) 0)
    LIFE_CYCLE_NOT_AVAILABLE (Some (life_cycle_reason SPECIAL))
  = (0, LIFE_CYCLE_SMODE_RTC_CHECK_FAIL).
Proof.
  apply (bit_flip_detected example_regs _ RTC_SPAR0 10); [reflexivity | lia | reflexivity |].
  intros b. destruct (Z.eqb_spec b RTC_SPAR0) as [->|Hb]; [reflexivity|].
  cbn. unfold regmap_read. cbn. destruct (decide (b = RTC_AL_DOW)) as [->|Hb2]; [reflexivity|].
  by rewrite !lookup_insert_ne by congruence.
Defined.

Lemma foreign_bits_kept_witness :
  Z.testbit (lcr_rtc_read (rtc_write_life_cycle_reason example_regs WARMBOOT_BY_SW
    (Some (life_cycle_reason BOOT))).1 RTC_SPAR0) 9 = true /\
  Z.testbit (lcr_rtc_read (rtc_clear_life_cycle_reason example_regs) RTC_AL_DOW) 15 = true.
Proof.
  split.
  - destruct (foreign_bits_kept example_regs WARMBOOT_BY_SW BOOT RTC_SPAR0 9) as [-> _];
      [lia | reflexivity | reflexivity].
  - destruct (foreign_bits_kept example_regs WARMBOOT_BY_SW BOOT RTC_AL_DOW 15) as [_ ->];
      [lia | reflexivity | reflexivity].
Defined.
