(* ===== verification/LifeCycle.v ===== *)
(** * Sign of life: the driver (drivers/staging/amazon/amzn_sign_of_life_v3.c)

    The driver keeps the platform's operations and the index of the reason it
    found at boot; it is written against the record of operations
    [sign_of_life_ops] and is used here with the RTC implementation of
    [SignOfLife]. *)

From Stdlib Require Import String.
From stdpp Require Import base tactics numbers list option gmap.
From S2P Require Import Prelude Rtc SignOfLife.

(** ** Data *)

(** [struct sign_of_life_reason_data]. *)
Record sign_of_life_reason_data := mkReason {
  reason_value : life_cycle_reason_t; life_cycle_reasons : string; life_cycle_type : string }.

Definition lcr_data : list sign_of_life_reason_data :=
  [ mkReason LIFE_CYCLE_NOT_AVAILABLE "Life Cycle Reason Not Available" "LCR_abnormal";
    mkReason SHUTDOWN_BY_SW "Software Shutdown" "LCR_normal";
    mkReason SHUTDOWN_BY_LONG_PWR_KEY_PRESS "Long Pressed Power Key Shutdown" "LCR_abnormal";
    mkReason THERMAL_SHUTDOWN_REASON_PMIC "PMIC Overheated Thermal Shutdown" "LCR_abnormal";
    mkReason THERMAL_SHUTDOWN_REASON_BATTERY "Battery Overheated Thermal Shutdown" "LCR_abnormal";
    mkReason THERMAL_SHUTDOWN_REASON_SOC "SOC Overheated Thermal Shutdown" "LCR_abnormal";
    mkReason THERMAL_SHUTDOWN_REASON_PCB "PCB Overheated Thermal Shutdown" "LCR_abnormal";
    mkReason THERMAL_SHUTDOWN_REASON_WIFI "WIFI Overheated Thermal Shutdown" "LCR_abnormal";
    mkReason THERMAL_SHUTDOWN_REASON_BTS "BTS Overheated Thermal Shutdown" "LCR_abnormal";
    mkReason THERMAL_SHUTDOWN_REASON_MODEM "Modem Overheated Thermal Shutdown" "LCR_abnormal";
    mkReason LIFE_CYCLE_SMODE_LOW_BATTERY "Low Battery Shutdown" "LCR_normal";
    mkReason SHUTDOWN_BY_SUDDEN_POWER_LOSS "Sudden Power Loss Shutdown" "LCR_abnormal";
    mkReason SHUTDOWN_BY_UNKNOWN_REASONS "Unknown Shutdown" "LCR_abnormal";
    mkReason COLDBOOT_BY_POWER_KEY "Cold Boot By Power Key" "LCR_normal";
    mkReason COLDBOOT_BY_USB "Cold Boot By USB" "LCR_normal";
    mkReason COLDBOOT_BY_POWER_SUPPLY "Cold Boot By Power Supply" "LCR_normal";
    mkReason WARMBOOT_BY_SW "Warm Boot By Software" "LCR_normal";
    mkReason WARMBOOT_BY_KERNEL_PANIC "Warm Boot By Kernel Panic" "LCR_abnormal";
    mkReason WARMBOOT_BY_KERNEL_WATCHDOG "Warm Boot By Kernel Watchdog" "LCR_abnormal";
    mkReason WARMBOOT_BY_HW_WATCHDOG "Warm Boot By HW Watchdog" "LCR_abnormal";
    mkReason LIFE_CYCLE_SMODE_WARM_BOOT_USB_CONNECTED "Power Off Charging Mode" "LCR_normal";
    mkReason LIFE_CYCLE_SMODE_FACTORY_RESET "Factory Reset Reboot" "LCR_normal";
    mkReason LIFE_CYCLE_SMODE_OTA "OTA Reboot" "LCR_normal";
    mkReason LIFE_CYCLE_SMODE_RTC_CHECK_FAIL "RTC Check Fail" "LCR_normal" ].

(** [struct dev_sol]. *)
Record dev_sol (P : Type) := mkSol {
  version : string; life_cycle_reason_idx : Z; sol_ops : sign_of_life_ops P }.
Arguments mkSol {P}.
Arguments version {P} _.
Arguments life_cycle_reason_idx {P} _.
Arguments sol_ops {P} _.

(** The driver's globals and the platform the operations act on. *)
Record driver (P : Type) := mkDriver {
  p_dev_sol : option (dev_sol P); is_charger_mode : bool; platform : P }.
Arguments mkDriver {P}.
Arguments p_dev_sol {P} _.
Arguments is_charger_mode {P} _.
Arguments platform {P} _.

(** [NOTIFY_DONE] and the reboot notifier's codes. *)
Definition SYS_RESTART := 1.
Definition SYS_POWER_OFF := 3.
Definition NOTIFY_DONE := 0.

(** ** Operations *)

(** The loop of [search_lcr_table], from index [i] on. *)
Fixpoint search_lcr_from (table : list sign_of_life_reason_data) (i : Z)
    (reason : life_cycle_reason_t) : Z :=
  match table with
  | [] => 0
  | d :: rest =>
    if decide (reason_value d = reason) then i else search_lcr_from rest (i + 1) reason
  end.

(** Starts from [table[1]]: [table[0]] is the default value. *)
Definition search_lcr_table (table : list sign_of_life_reason_data) (reason : life_cycle_reason_t)
  : Z :=
  search_lcr_from (drop 1 table) 1 reason.

Section Driver.
Context {P : Type}.

(** Built with CONFIG_AMAZON_DRV_TEST. *)
Definition clear_life_cycle_reason (d : driver P) : driver P * Z :=
  match p_dev_sol d with
  | None => (d, -1)
  | Some sol =>
    match lcr_reset (sol_ops sol) with
    | None => (d, -1)
    | Some reset =>
      (mkDriver (p_dev_sol d) (is_charger_mode d) (reset (platform d)).1, 0)
    end
  end.

Definition read_op (sol : dev_sol P) (type : life_reason_type)
  : option (P -> life_cycle_reason_t -> Z * life_cycle_reason_t) :=
  match type with
  | BOOT => read_boot_reason (sol_ops sol)
  | SHUTDOWN => read_shutdown_reason (sol_ops sol)
  | THERMAL_SHUTDOWN => read_thermal_shutdown_reason (sol_ops sol)
  | SPECIAL => read_special_mode (sol_ops sol)
  end.

Definition read_life_cycle_reason (d : driver P) (type : life_reason_type) : Z :=
  match p_dev_sol d with
  | None => -1
  | Some sol =>
    match read_op sol type with
    | None => -1
    | Some read =>
      let '(ret, life_reason) := read (platform d) LIFE_CYCLE_NOT_AVAILABLE in
      if ret <? 0 then -1 else
      let index := search_lcr_table lcr_data life_reason in
      if index =? 0 then -1 else index
    end
  end.

(** Steps 1 to 4 of the lookup: the first reason that is positive and in the
    table; the last one's index is taken whatever it is. *)
Definition lookup_index (thermal shutdown boot s_mode : life_cycle_reason_t) : Z :=
  let search r := if 0 <? lcr_value r then search_lcr_table lcr_data r else 0 in
  let index := search thermal in
  if negb (index =? 0) then index else
  let index := search shutdown in
  if negb (index =? 0) then index else
  let index := search boot in
  if negb (index =? 0) then index else search s_mode.

Definition life_cycle_reason_lookup (d : driver P) : driver P * Z :=
  match p_dev_sol d with
  | None => (d, -1)
  | Some sol =>
    match read_boot_reason (sol_ops sol), read_shutdown_reason (sol_ops sol),
      read_thermal_shutdown_reason (sol_ops sol), read_special_mode (sol_ops sol) with
    | Some rb, Some rs, Some rt, Some rm =>
      let '(ret, boot_reason) := rb (platform d) LIFE_CYCLE_NOT_AVAILABLE in
      if ret <? 0 then (d, -1) else
      let '(ret, shutdown_reason) := rs (platform d) LIFE_CYCLE_NOT_AVAILABLE in
      if ret <? 0 then (d, -1) else
      let '(ret, thermal_shutdown_reason) := rt (platform d) LIFE_CYCLE_NOT_AVAILABLE in
      if ret <? 0 then (d, -1) else
      let '(ret, s_mode) := rm (platform d) LIFE_CYCLE_NOT_AVAILABLE in
      if ret <? 0 then (d, -1) else
      let index := lookup_index thermal_shutdown_reason shutdown_reason boot_reason s_mode in
      (mkDriver (Some (mkSol (version sol) (u8 index) (sol_ops sol))) (is_charger_mode d)
         (platform d), index)
    | _, _, _, _ => (d, -1)
    end
  end.

Definition life_cycle_reason_show (d : driver P) : list string :=
  match p_dev_sol d with
  | Some sol =>
    match lcr_data !! Z.to_nat (life_cycle_reason_idx sol) with
    | Some e => [String.append "lc_version:" (version sol); String.append "lc_reason:" (life_cycle_reasons e);
                 String.append "lc_type:" (life_cycle_type e)]
    | None => []
    end
  | None => ["life cycle reason driver is not initialized"%string]
  end.

(** The four setters: the write's result is ignored. *)
Definition set_with (d : driver P)
    (op : sign_of_life_ops P -> option (P -> life_cycle_reason_t -> P * Z))
    (reason : life_cycle_reason_t) : driver P * Z :=
  match p_dev_sol d with
  | None => (d, -1)
  | Some sol =>
    match op (sol_ops sol) with
    | None => (d, -1)
    | Some write =>
      (mkDriver (p_dev_sol d) (is_charger_mode d) (write (platform d) reason).1, 0)
    end
  end.

Definition life_cycle_set_boot_reason (d : driver P) := set_with d write_boot_reason.
Definition life_cycle_set_shutdown_reason (d : driver P) := set_with d write_shutdown_reason.
Definition life_cycle_set_thermal_shutdown_reason (d : driver P) :=
  set_with d write_thermal_shutdown_reason.
Definition life_cycle_set_special_mode (d : driver P) := set_with d write_special_mode.

Definition life_cycle_reboot_notifier (d : driver P) (code : Z) : driver P * Z :=
  (if code =? SYS_RESTART then (life_cycle_set_boot_reason d WARMBOOT_BY_SW).1
   else if code =? SYS_POWER_OFF then (life_cycle_set_shutdown_reason d SHUTDOWN_BY_SW).1
   else d, NOTIFY_DONE).
End Driver.

(** The driver on the RTC platform. *)
Section Boot.
Context {S : Type} `{LcrRtc S}.

(** [dev_sol_init] of a boot whose kernel command line is [cmd];
    [kzalloc_ok] and [charging] are the allocator's and
    [is_charging_mode]'s answers. [None]: the command line's boot reason
    overran its buffer. *)
Definition dev_sol_init (d : driver (lcr_platform S)) (kzalloc_ok charging : bool) (cmd : string)
  : option (driver (lcr_platform S) * Z) :=
  if negb kzalloc_ok then
    Some (mkDriver None (is_charger_mode d) (platform d), - ENOMEM)
  else
    let sol := mkSol "3.0"%string 0 life_cycle_platform_init in
    lcr ← get_android_bootreason cmd (lcr_boot (platform d));
    let d := mkDriver (Some sol) (is_charger_mode d) (mkPlat (plat_rtc (platform d)) lcr) in
    let d := (life_cycle_reason_lookup d).1 in
    let d := mkDriver (p_dev_sol d) (is_charger_mode d || charging) (platform d) in
    let d :=
      if is_charger_mode d then d else
      match lcr_reset (sol_ops sol) with
      | Some reset => mkDriver (p_dev_sol d) (is_charger_mode d) (reset (platform d)).1
      | None => d
      end in
    Some (d, 0).
End Boot.

(** ** Specification *)

(** The reasons [/proc/life_cycle_reason] can name. *)
Definition known (r : life_cycle_reason_t) : bool :=
  existsb (fun e => bool_decide (reason_value e = r)) (drop 1 lcr_data).

Fixpoint first_known (rs : list life_cycle_reason_t) : life_cycle_reason_t :=
  match rs with
  | [] => LIFE_CYCLE_NOT_AVAILABLE
  | r :: rs => if known r then r else first_known rs
  end.

(** What a boot reports for a store and a command line's boot reason. *)
Definition spec_report (st : lcr_store) (lcr : life_cycle_reason_t) : life_cycle_reason_t :=
  first_known [ st THERMAL_SHUTDOWN; st SHUTDOWN;
                (if decide (st BOOT = LIFE_CYCLE_NOT_AVAILABLE) then lcr else st BOOT);
                st SPECIAL ].

(** The reason the driver's proc file names. *)
Definition reported {P} (d : driver P) : option life_cycle_reason_t :=
  sol ← p_dev_sol d; reason_value <$> lcr_data !! Z.to_nat (life_cycle_reason_idx sol).

(** One request of the running system. *)
Inductive request :=
| ReqSet (g : life_reason_type) (r : life_cycle_reason_t)
| ReqReboot (code : Z).

Definition serve {S} `{LcrRtc S} (d : driver (lcr_platform S)) (q : request)
  : driver (lcr_platform S) :=
  match q with
  | ReqSet BOOT r => (life_cycle_set_boot_reason d r).1
  | ReqSet SHUTDOWN r => (life_cycle_set_shutdown_reason d r).1
  | ReqSet THERMAL_SHUTDOWN r => (life_cycle_set_thermal_shutdown_reason d r).1
  | ReqSet SPECIAL r => (life_cycle_set_special_mode d r).1
  | ReqReboot code => (life_cycle_reboot_notifier d code).1
  end.

(** The store operation a request amounts to. *)
Definition request_op (q : request) : list store_op :=
  match q with
  | ReqSet g r => [OpRecord g r]
  | ReqReboot code =>
    if code =? SYS_RESTART then [OpRecord BOOT WARMBOOT_BY_SW]
    else if code =? SYS_POWER_OFF then [OpRecord SHUTDOWN SHUTDOWN_BY_SW] else []
  end.

(** The store after a session's requests. *)
Definition spec_session (st : lcr_store) (qs : list request) : lcr_store :=
  foldl (fun st o => (spec_step st o).1) st (mjoin (request_op <$> qs)).

(** A request that leaves the reason of group [g] alone. *)
Definition spares (g : life_reason_type) (q : request) : bool :=
  match q with
  | ReqSet h _ => negb (bool_decide (h = g))
  | ReqReboot code =>
    match g with
    | BOOT => negb (code =? SYS_RESTART)
    | SHUTDOWN => negb (code =? SYS_POWER_OFF)
    | _ => true
    end
  end.

(** ** Theorems *)

#[local] Arguments rtc_read_life_cycle_reason : simpl never.
#[local] Arguments rtc_write_life_cycle_reason : simpl never.
#[local] Arguments rtc_clear_life_cycle_reason : simpl never.
#[local] Arguments rtc_read_boot_reason : simpl never.
#[local] Arguments rtc_read_reason : simpl never.
#[local] Arguments check_sign_of_life_parity : simpl never.
#[local] Arguments lookup_index : simpl never.
#[local] Arguments life_cycle_reason_lookup : simpl never.
#[local] Arguments life_cycle_reason : simpl never.

(** The index the lookup computes for one reason. *)
Definition report_index (r : life_cycle_reason_t) : Z :=
  if 0 <? lcr_value r then search_lcr_table lcr_data r else 0.

Lemma report_index_known r :
  (report_index r =? 0) = negb (known r) /\ 0 <= report_index r < 24.
Proof. destruct r; vm_compute; repeat split; congruence. Qed.

Lemma report_index_value r :
  reason_value <$> lcr_data !! Z.to_nat (report_index r) =
  Some (if known r then r else LIFE_CYCLE_NOT_AVAILABLE).
Proof. by destruct r. Qed.

Lemma lookup_index_eq t s b m :
  lookup_index t s b m = report_index (first_known [t; s; b; m]).
Proof.
  unfold lookup_index. fold (report_index t) (report_index s) (report_index b) (report_index m).
  cbn [first_known].
  destruct (report_index_known t) as [-> _], (report_index_known s) as [-> _],
    (report_index_known b) as [-> _].
  destruct (known t), (known s), (known b); try done.
  destruct (known m) eqn:Hm; [done|].
  destruct (report_index_known m) as [H1 _]. rewrite Hm in H1. by apply Z.eqb_eq in H1.
Qed.

Lemma first_known_cases rs :
  known (first_known rs) = true \/ first_known rs = LIFE_CYCLE_NOT_AVAILABLE.
Proof. induction rs as [|r rs IH]; [by right|]. cbn [first_known]. destruct (known r) eqn:E; auto. Qed.

Lemma lookup_index_value t s b m :
  reason_value <$> lcr_data !! Z.to_nat (u8 (lookup_index t s b m)) = Some (first_known [t; s; b; m]).
Proof.
  rewrite lookup_index_eq. destruct (report_index_known (first_known [t; s; b; m])) as [_ Hr].
  rewrite u8_id by lia. rewrite report_index_value.
  by destruct (first_known_cases [t; s; b; m]) as [-> | ->].
Qed.

Lemma spec_session_app st qs qs' : spec_session st (qs ++ qs') = spec_session (spec_session st qs) qs'.
Proof. unfold spec_session. by rewrite fmap_app, join_app, foldl_app. Qed.

Lemma spec_step_spares st g q :
  spares g q = true -> foldl (fun st o => (spec_step st o).1) st (request_op q) g = st g.
Proof.
  destruct q as [h r|c]; cbn.
  - case_bool_decide; [done|]. intros _. by rewrite decide_False.
  - destruct (Z.eqb_spec c SYS_RESTART) as [->|]; [by destruct g|].
    destruct (Z.eqb_spec c SYS_POWER_OFF) as [->|]; by destruct g.
Qed.

Lemma session_spares g qs : forall st,
  Forall (fun q => spares g q = true) qs -> spec_session st qs g = st g.
Proof.
  induction qs as [|q qs IH]; intros st Hqs; [done|]. apply list.Forall_cons in Hqs as [Hq Hqs].
  change (q :: qs) with ([q] ++ qs). rewrite spec_session_app, IH by done.
  unfold spec_session. cbn [fmap list_fmap mjoin list_join]. rewrite app_nil_r. by apply spec_step_spares.
Qed.

Section BootTheorems.
Context {S : Type} `{LcrRtcLaws S}.

(** What a boot reports for any content of the registers. *)
Definition boot_report (s : S) (lcr : life_cycle_reason_t) : life_cycle_reason_t :=
  if check_sign_of_life_parity s then spec_report (abs_store s) lcr
  else LIFE_CYCLE_SMODE_RTC_CHECK_FAIL.

Lemma read_boot_eq (p : lcr_platform S) :
  rtc_read_boot_reason p LIFE_CYCLE_NOT_AVAILABLE =
  (0, if check_sign_of_life_parity (plat_rtc p)
      then (if decide (abs_store (plat_rtc p) BOOT = LIFE_CYCLE_NOT_AVAILABLE)
            then lcr_boot p else abs_store (plat_rtc p) BOOT)
      else LIFE_CYCLE_SMODE_RTC_CHECK_FAIL).
Proof.
  unfold rtc_read_boot_reason. rewrite rtc_read_codes.
  fold (abs_store (plat_rtc p) BOOT). destruct (check_sign_of_life_parity (plat_rtc p)); [|done].
  rewrite andb_true_r. by case_decide; case_bool_decide.
Qed.

(** The lookup of the RTC platform. *)
Lemma lookup_eq (d : driver (lcr_platform S)) sol :
  p_dev_sol d = Some sol -> sol_ops sol = life_cycle_platform_init ->
  exists idx, life_cycle_reason_lookup d =
    (mkDriver (Some (mkSol (version sol) idx (sol_ops sol))) (is_charger_mode d) (platform d),
     lookup_index
       (rtc_read_reason THERMAL_SHUTDOWN (platform d) LIFE_CYCLE_NOT_AVAILABLE).2
       (rtc_read_reason SHUTDOWN (platform d) LIFE_CYCLE_NOT_AVAILABLE).2
       (rtc_read_boot_reason (platform d) LIFE_CYCLE_NOT_AVAILABLE).2
       (rtc_read_reason SPECIAL (platform d) LIFE_CYCLE_NOT_AVAILABLE).2) /\
    reason_value <$> lcr_data !! Z.to_nat idx =
      Some (boot_report (plat_rtc (platform d)) (lcr_boot (platform d))).
Proof.
  intros Hsol Hops. eexists. unfold life_cycle_reason_lookup. rewrite Hsol, Hops. cbn.
  rewrite read_boot_eq. unfold rtc_read_reason. rewrite !rtc_read_codes. cbn.
  split; [reflexivity|]. rewrite lookup_index_value. unfold boot_report, spec_report, abs_store.
  by destruct (check_sign_of_life_parity (plat_rtc (platform d))).
Qed.

Lemma init_spec (s : S) charging cmd lcr ch0 sol0 lcr0 :
  get_android_bootreason cmd lcr0 = Some lcr ->
  exists d, dev_sol_init (mkDriver sol0 ch0 (mkPlat s lcr0)) true charging cmd = Some (d, 0) /\
    reported d = Some (boot_report s lcr) /\
    (exists sol, p_dev_sol d = Some sol /\ sol_ops sol = life_cycle_platform_init) /\
    plat_rtc (platform d) = if ch0 || charging then s else rtc_clear_life_cycle_reason s.
Proof.
  intros Hcmd. unfold dev_sol_init. cbn. rewrite Hcmd. cbn.
  destruct (lookup_eq (mkDriver (Some (mkSol "3.0"%string 0 life_cycle_platform_init)) ch0
              (mkPlat s lcr)) _ eq_refl eq_refl) as (idx & Hl & Hr).
  rewrite Hl. cbn in *. eexists. split; [reflexivity|].
  destruct (ch0 || charging); cbn; unfold reported; cbn; eauto.
Qed.

(** A session of requests, on the store. *)
Lemma serve_spec (d : driver (lcr_platform S)) sol qs :
  p_dev_sol d = Some sol -> sol_ops sol = life_cycle_platform_init ->
  check_sign_of_life_parity (plat_rtc (platform d)) = true ->
  p_dev_sol (foldl serve d qs) = Some sol /\
  check_sign_of_life_parity (plat_rtc (platform (foldl serve d qs))) = true /\
  forall g, abs_store (plat_rtc (platform (foldl serve d qs))) g =
    spec_session (abs_store (plat_rtc (platform d))) qs g.
Proof.
  intros Hsol Hops Hp. unfold spec_session.
  assert (Hst : forall g, abs_store (plat_rtc (platform d)) g = abs_store (plat_rtc (platform d)) g)
    by done.
  revert Hst. generalize (abs_store (plat_rtc (platform d))) at 1 3. revert d Hsol Hp.
  induction qs as [|q qs IH]; intros d Hsol Hp st Hst; [by split_and!; [..|intros; rewrite Hst]|].
  cbn [foldl fmap list_fmap mjoin list_join]. rewrite foldl_app.
  assert (Hq : p_dev_sol (serve d q) = Some sol /\
    check_sign_of_life_parity (plat_rtc (platform (serve d q))) = true /\
    forall g, foldl (fun st o => (spec_step st o).1) st (request_op q) g =
      abs_store (plat_rtc (platform (serve d q))) g).
  { assert (Hset : forall g r op, op (sol_ops sol) = Some (rtc_write_reason g) ->
      p_dev_sol (set_with d op r).1 = Some sol /\
      check_sign_of_life_parity (plat_rtc (platform (set_with d op r).1)) = true /\
      forall h, (spec_step st (OpRecord g r)).1 h = abs_store (plat_rtc (platform (set_with d op r).1)) h).
    { intros g r op Hop. unfold set_with. rewrite Hsol, Hop. cbn.
      unfold rtc_write_reason.
      destruct (code_step_sim (plat_rtc (platform d)) st (OpRecord g r) Hp Hst) as (H1 & H2 & _).
      cbn [code_step fst] in H1, H2.
      destruct (rtc_write_life_cycle_reason _ r _) as [s ret]. cbn in *. split_and!; done. }
    destruct q as [[] r|c]; cbn [serve request_op foldl]; try (apply Hset; by rewrite Hops).
    unfold life_cycle_reboot_notifier. cbn [fst].
    destruct (c =? SYS_RESTART); [apply Hset; by rewrite Hops|].
    destruct (c =? SYS_POWER_OFF); [apply Hset; by rewrite Hops|]. done. }
  destruct Hq as (H1 & H2 & H3). by apply IH.
Qed.

(** A session leaves the bits of other users of the registers alone. *)
Lemma serve_frame (d : driver (lcr_platform S)) sol qs a i :
  p_dev_sol d = Some sol -> sol_ops sol = life_cycle_platform_init ->
  0 <= i -> Z.testbit (lcr_bits a) i = false ->
  Z.testbit (lcr_rtc_read (plat_rtc (platform (foldl serve d qs))) a) i =
  Z.testbit (lcr_rtc_read (plat_rtc (platform d)) a) i.
Proof.
  intros Hsol Hops Hi Ha. revert d Hsol. induction qs as [|q qs IH]; intros d Hsol; [done|]. cbn [foldl].
  assert (Hset : forall g r op, op (sol_ops sol) = Some (rtc_write_reason g) ->
    p_dev_sol (set_with d op r).1 = Some sol /\
    Z.testbit (lcr_rtc_read (plat_rtc (platform (set_with d op r).1)) a) i =
    Z.testbit (lcr_rtc_read (plat_rtc (platform d)) a) i).
  { intros g r op Hop. unfold set_with. rewrite Hsol, Hop. split; [done|].
    cbn [fst platform]. rewrite <- (write_frame (plat_rtc (platform d)) r g a i Hi Ha).
    unfold rtc_write_reason. by destruct (rtc_write_life_cycle_reason _ r _). }
  assert (Hq : p_dev_sol (serve d q) = Some sol /\
    Z.testbit (lcr_rtc_read (plat_rtc (platform (serve d q))) a) i =
    Z.testbit (lcr_rtc_read (plat_rtc (platform d)) a) i).
  { destruct q as [[] r|c]; cbn [serve]; try (eapply Hset; by rewrite Hops).
    unfold life_cycle_reboot_notifier. cbn [fst].
    destruct (c =? SYS_RESTART); [eapply Hset; by rewrite Hops|].
    destruct (c =? SYS_POWER_OFF); [eapply Hset; by rewrite Hops|]. done. }
  destruct Hq as [H1 H2]. by rewrite IH.
Qed.

Lemma spec_report_ext st st' lcr :
  (forall g, st g = st' g) -> spec_report st lcr = spec_report st' lcr.
Proof. intros Hst. unfold spec_report. by rewrite !Hst. Qed.

(** The registers after a session, as a boot reads them. *)
Lemma session_report (d : driver (lcr_platform S)) sol qs lcr :
  p_dev_sol d = Some sol -> sol_ops sol = life_cycle_platform_init ->
  check_sign_of_life_parity (plat_rtc (platform d)) = true ->
  boot_report (plat_rtc (platform (foldl serve d qs))) lcr =
  spec_report (spec_session (abs_store (plat_rtc (platform d))) qs) lcr.
Proof.
  intros H1 H2 H3. destruct (serve_spec d sol qs H1 H2 H3) as (_ & Hp & Hst).
  unfold boot_report. rewrite Hp. by apply spec_report_ext.
Qed.

Lemma clean_store (s : S) g : abs_store (rtc_clear_life_cycle_reason s) g = LIFE_CYCLE_NOT_AVAILABLE.
Proof. unfold abs_store. rewrite clear_code. by destruct g. Qed.

(** C19. End to end: whatever reasons and reboot notifications a session of the
    running driver records, the next boot (command line with a parsable boot
    reason, registers as the session left them) names in its proc file the
    first reason the table knows, in the order thermal shutdown, shutdown,
    boot (the command line's when none was recorded), special mode; it then
    empties the store, unless the device is only charging, when the registers
    are left as they are. *)
Theorem boot_reports_session (d : driver (lcr_platform S)) sol qs charging cmd lcr :
  p_dev_sol d = Some sol -> sol_ops sol = life_cycle_platform_init ->
  check_sign_of_life_parity (plat_rtc (platform d)) = true ->
  get_android_bootreason cmd LIFE_CYCLE_NOT_AVAILABLE = Some lcr ->
  let s := plat_rtc (platform (foldl serve d qs)) in
  exists d', dev_sol_init (mkDriver None false (mkPlat s LIFE_CYCLE_NOT_AVAILABLE)) true charging cmd
             = Some (d', 0) /\
    reported d' = Some (spec_report (spec_session (abs_store (plat_rtc (platform d))) qs) lcr) /\
    (if charging then plat_rtc (platform d') = s
     else forall g, abs_store (plat_rtc (platform d')) g = LIFE_CYCLE_NOT_AVAILABLE).
Proof.
  intros H1 H2 H3 Hcmd s.
  destruct (init_spec s charging cmd lcr false None _ Hcmd) as (d' & Hi & Hr & _ & Hs).
  exists d'. split; [done|]. rewrite Hr. unfold s. rewrite (session_report d sol) by done.
  split; [done|]. rewrite Hs. destruct charging; [done|]. cbn. apply clean_store.
Qed.

(** The power-key shutdown is recorded but never reported: the store keeps
    SHUTDOWN_BY_PWR_KEY, but the driver's table lacks it, so a boot after it
    names the command line's reason, or none. *)
Theorem power_key_shutdown_lost (d : driver (lcr_platform S)) sol charging cmd lcr :
  p_dev_sol d = Some sol -> sol_ops sol = life_cycle_platform_init ->
  check_sign_of_life_parity (plat_rtc (platform d)) = true ->
  (forall g, abs_store (plat_rtc (platform d)) g = LIFE_CYCLE_NOT_AVAILABLE) ->
  get_android_bootreason cmd LIFE_CYCLE_NOT_AVAILABLE = Some lcr ->
  let d1 := (life_cycle_set_shutdown_reason d SHUTDOWN_BY_PWR_KEY).1 in
  abs_store (plat_rtc (platform d1)) SHUTDOWN = SHUTDOWN_BY_PWR_KEY /\
  exists d', dev_sol_init (mkDriver None false (mkPlat (plat_rtc (platform d1)) LIFE_CYCLE_NOT_AVAILABLE))
               true charging cmd = Some (d', 0) /\
    reported d' = Some (if known lcr then lcr else LIFE_CYCLE_NOT_AVAILABLE).
Proof.
  intros H1 H2 H3 Hna Hcmd d1.
  destruct (serve_spec d sol [ReqSet SHUTDOWN SHUTDOWN_BY_PWR_KEY] H1 H2 H3) as (_ & _ & Hst).
  split; [exact (Hst SHUTDOWN)|].
  destruct (init_spec (plat_rtc (platform d1)) charging cmd lcr false None _ Hcmd)
    as (d' & Hi & Hr & _).
  exists d'. split; [done|]. rewrite Hr. f_equal.
  etransitivity; [exact (session_report d sol [ReqSet SHUTDOWN SHUTDOWN_BY_PWR_KEY] lcr H1 H2 H3)|].
  unfold spec_report, spec_session. cbn. rewrite !Hna. cbn. by destruct (known lcr).
Qed.

(** A store whose parity is wrong, by whatever corruption, makes the boot
    report "RTC Check Fail", and a normal boot repairs it: the store is then
    empty with a right parity. *)
Theorem corrupted_store_reported (s : S) cmd lcr charging :
  check_sign_of_life_parity s = false ->
  get_android_bootreason cmd LIFE_CYCLE_NOT_AVAILABLE = Some lcr ->
  exists d, dev_sol_init (mkDriver None false (mkPlat s LIFE_CYCLE_NOT_AVAILABLE)) true charging cmd
            = Some (d, 0) /\
    life_cycle_reason_show d = ["lc_version:3.0"; "lc_reason:RTC Check Fail"; "lc_type:LCR_normal"]%string /\
    check_sign_of_life_parity (plat_rtc (platform d)) = negb charging.
Proof.
  intros Hp Hcmd. unfold dev_sol_init. cbn. rewrite Hcmd. cbn.
  unfold life_cycle_reason_lookup. cbn.
  rewrite read_boot_eq. cbn. unfold rtc_read_reason. cbn [plat_rtc]. rewrite !rtc_read_codes, Hp.
  destruct charging; eexists; (split; [reflexivity|]); (split; [reflexivity|]); cbn.
  - done.
  - apply clear_parity_ok.
Qed.
End BootTheorems.

(** ** Instances of the properties *)

Definition running (r : mt6397_rtc) : driver (lcr_platform mt6397_rtc) :=
  mkDriver (Some (mkSol "3.0"%string 0 life_cycle_platform_init)) false
    (mkPlat r LIFE_CYCLE_NOT_AVAILABLE).

Lemma boot_reports_session_witness :
  exists d', dev_sol_init (mkDriver None false
      (mkPlat (plat_rtc (platform (foldl serve (running example_regs)
         [ReqSet SPECIAL LIFE_CYCLE_SMODE_OTA; ReqReboot SYS_RESTART;
          ReqSet THERMAL_SHUTDOWN THERMAL_SHUTDOWN_REASON_WIFI]))) LIFE_CYCLE_NOT_AVAILABLE))
      true false "quiet" = Some (d', 0) /\
    reported d' = Some THERMAL_SHUTDOWN_REASON_WIFI.
Proof.
  destruct (boot_reports_session (running example_regs) _
    [ReqSet SPECIAL LIFE_CYCLE_SMODE_OTA; ReqReboot SYS_RESTART;
     ReqSet THERMAL_SHUTDOWN THERMAL_SHUTDOWN_REASON_WIFI] false "quiet"
    LIFE_CYCLE_NOT_AVAILABLE eq_refl eq_refl) as (d' & H1 & H2 & _);
    [vm_compute; reflexivity | reflexivity |].
  exists d'. split; [exact H1|]. rewrite H2. reflexivity.
Defined.

Lemma power_key_shutdown_lost_witness :
  exists d', dev_sol_init (mkDriver None false (mkPlat (plat_rtc (platform
      (life_cycle_set_shutdown_reason (running example_regs) SHUTDOWN_BY_PWR_KEY).1))
      LIFE_CYCLE_NOT_AVAILABLE)) true false "quiet" = Some (d', 0) /\
    reported d' = Some LIFE_CYCLE_NOT_AVAILABLE.
Proof.
  destruct (power_key_shutdown_lost (running example_regs) _ false "quiet"
    LIFE_CYCLE_NOT_AVAILABLE eq_refl eq_refl) as (_ & d' & H1 & H2);
    [vm_compute; reflexivity | intros []; vm_compute; reflexivity | reflexivity |].
  exists d'. split; [exact H1 | exact H2].
Defined.

Lemma corrupted_store_reported_witness :
  exists d, dev_sol_init (mkDriver None false
      (mkPlat (mkRtc (list_to_map [(RTC_SPAR0, 1024); (RTC_AL_DOW, 0)]) 0) LIFE_CYCLE_NOT_AVAILABLE))
      true false "quiet" = Some (d, 0) /\
    check_sign_of_life_parity (plat_rtc (platform d)) = true.
Proof.
  destruct (corrupted_store_reported (mkRtc (list_to_map [(RTC_SPAR0, 1024); (RTC_AL_DOW, 0)]) 0)
    "quiet" LIFE_CYCLE_NOT_AVAILABLE false) as (d & H1 & _ & H2);
    [vm_compute; reflexivity | reflexivity |].
  exists d. split; [exact H1 | exact H2].
Defined.
