(* ===== verification/TraceRing.v ===== *)
(** * The trace ring buffer (kernel/trace/ring_buffer.c)

    What [Logger] and its readers use of it: reserving, committing and consuming
    events on one CPU, each uninterrupted. Every CPU has a ring of pages and a
    page of the reader. In the overwrite mode a writer that needs a page takes
    the oldest of a full ring, with all the events on it. *)

From stdpp Require Import base tactics numbers list option.
From S2P Require Import Prelude.

Definition BUF_PAGE_SIZE : Z := 4080.
Definition BUF_MAX_DATA_SIZE : Z := BUF_PAGE_SIZE - 8.
Definition RB_EVNT_HDR_SIZE : Z := 4.
Definition RB_MAX_SMALL_DATA : Z := 112.
Definition RB_LEN_TIME_EXTEND : Z := 8.

Definition align4 (n : Z) : Z := Z.land (n + 3) (Z.lnot 3).

(** ** The interface *)

(** [ring_buffer]: an event is its data. Reserving may move on to another page
    and so overwrite events; [None] is a refusal. *)
Class TraceRing (B : Type) := {
  ring_reserve : B -> nat -> Z -> option Z * B;
  ring_commit : B -> nat -> list Z -> B;
  ring_consume : B -> nat -> option (list Z * B);
  possible_cpus : B -> list nat }.

(** The largest request that fits on a page together with a time extension. *)
Definition RING_SAFE_SIZE : Z := BUF_MAX_DATA_SIZE - RB_LEN_TIME_EXTEND.
(** What is never overwritten at once: two pages full of events. *)
Definition RING_KEPT_SIZE : Z := 2 * BUF_PAGE_SIZE.
(** The space of events, with their headers and time extensions, at most. *)
Definition space_of (d : list Z) : Z := Z.of_nat (length d) + 16.
Definition space (es : list (list Z)) : Z := foldr (fun d n => space_of d + n) 0 es.

(** What clients rely on, in terms of the events of a CPU not yet read. *)
Class TraceRingLaws (B : Type) `{TraceRing B} := {
  ring_ok : B -> Prop;
  queued : B -> nat -> list (list Z);
  law_refused b cpu n : BUF_MAX_DATA_SIZE < n -> ring_reserve b cpu n = (None, b);
  (** a write appends its event; of the others it may lose some, but none of the
      newest that take no more than two pages *)
  law_write b cpu n :
    ring_ok b -> cpu ∈ possible_cpus b -> 8 < n <= RING_SAFE_SIZE ->
    exists b1, ring_reserve b cpu n = (Some (align4 n), b1) /\
      forall d, Z.of_nat (length d) = align4 n ->
        let b2 := ring_commit b1 cpu d in
        ring_ok b2 /\ possible_cpus b2 = possible_cpus b /\ (forall j, j <> cpu -> queued b2 j = queued b j) /\
        exists kept, queued b2 cpu = kept ++ [d] /\ kept `sublist_of` queued b cpu /\
          forall s, s `suffix_of` queued b cpu -> space s <= RING_KEPT_SIZE -> s `suffix_of` kept;
  law_consume b cpu :
    ring_ok b ->
    match queued b cpu with
    | [] => ring_consume b cpu = None
    | e :: q => exists b', ring_consume b cpu = Some (e, b') /\ ring_ok b' /\
        possible_cpus b' = possible_cpus b /\ queued b' cpu = q /\ forall j, j <> cpu -> queued b' j = queued b j
    end;
  law_cpus b : ring_ok b -> NoDup (possible_cpus b) }.

(** ** The pages *)

(** The bytes written of a page and its events not yet read. *)
Record buffer_page := mkBpage { written : Z; unread : list (list Z) }.
(** The page of the reader once it took one, and the pages of the ring that are
    in use, the newest first. Writes go to the newest page. *)
Record ring_buffer_per_cpu := mkCpuBuffer { reader_page : option buffer_page; ring_pages : list buffer_page }.
(** [record_disabled]: set by a failed check, for good. [late]: for each
    reservation to come, whether 2^27 ns or more have passed since the last event
    of its CPU. *)
Record ring_buffer := mkRing {
  nr_pages : nat; buffers : list ring_buffer_per_cpu; record_disabled : bool; late : list bool }.

Definition fresh_page : buffer_page := mkBpage 0 [].
Definition rb_allocate_cpu_buffer : ring_buffer_per_cpu := mkCpuBuffer None [fresh_page].
(** [ring_buffer_alloc] for some bytes on some CPUs. *)
Definition ring_buffer_alloc (size : Z) (cpus : nat) (late : list bool) : ring_buffer :=
  mkRing (Nat.max 2 (Z.to_nat ((size + BUF_PAGE_SIZE - 1) / BUF_PAGE_SIZE))) (replicate cpus rb_allocate_cpu_buffer) false late.

Definition rb_calculate_event_length (length : Z) : Z :=
  let length := if length =? 0 then 1 else length in
  let length := if RB_MAX_SMALL_DATA <? length then length + 4 else length in
  let length := align4 (length + RB_EVNT_HDR_SIZE) in
  if length =? RB_LEN_TIME_EXTEND + 4 then length + 4 else length.
(** Of an event of that size. *)
Definition ring_buffer_event_length (size : Z) : Z :=
  let length := size - RB_EVNT_HDR_SIZE in
  if RB_MAX_SMALL_DATA + 4 <? length then length - 4 else length.

Definition tail_page (c : ring_buffer_per_cpu) : buffer_page :=
  match ring_pages c with p :: _ => p | [] => default fresh_page (reader_page c) end.
Definition set_tail (c : ring_buffer_per_cpu) (p : buffer_page) : ring_buffer_per_cpu :=
  match ring_pages c with
  | _ :: l => mkCpuBuffer (reader_page c) (p :: l)
  | [] => mkCpuBuffer (Some p) []
  end.

(** On to the next page: the oldest when all are in use. *)
Definition rb_move_tail (nr : nat) (c : ring_buffer_per_cpu) : ring_buffer_per_cpu :=
  mkCpuBuffer (reader_page c) (fresh_page :: take (nr - 1) (ring_pages c)).

(** Whether the reservation succeeds within [loops] rounds. *)
Fixpoint rb_reserve_next_event (nr loops : nat) (c : ring_buffer_per_cpu) (size : Z) : bool * ring_buffer_per_cpu :=
  match loops with
  | O => (false, c)
  | S loops =>
    let p := tail_page c in
    if BUF_PAGE_SIZE <? written p + size then rb_reserve_next_event nr loops (rb_move_tail nr c) size
    else (true, set_tail c (mkBpage (written p + size) (unread p)))
  end.

Definition ring_buffer_lock_reserve (b : ring_buffer) (cpu : nat) (length : Z) : option Z * ring_buffer :=
  if record_disabled b then (None, b) else
  match buffers b !! cpu with
  | None => (None, b)
  | Some c =>
    if BUF_MAX_DATA_SIZE <? length then (None, b) else
    let size := rb_calculate_event_length length in
    let extend := if default false (head (late b)) then RB_LEN_TIME_EXTEND else 0 in
    let '(ok, c) := rb_reserve_next_event (nr_pages b) 1000 c (size + extend) in
    (if ok then Some (ring_buffer_event_length size) else None,
     mkRing (nr_pages b) (<[cpu := c]> (buffers b)) (negb ok) (tail (late b)))
  end.

Definition rb_commit (c : ring_buffer_per_cpu) (d : list Z) : ring_buffer_per_cpu :=
  let p := tail_page c in set_tail c (mkBpage (written p) (unread p ++ [d])).
Definition ring_buffer_unlock_commit (b : ring_buffer) (cpu : nat) (d : list Z) : ring_buffer :=
  mkRing (nr_pages b) (alter (fun c => rb_commit c d) cpu (buffers b)) (record_disabled b) (late b).

(** The oldest page with an event becomes the reader's. *)
Fixpoint rb_swap_reader (pages : list buffer_page) : option (list Z * buffer_page * list buffer_page) :=
  match pages with
  | [] => None
  | p :: pages =>
    match unread p with
    | e :: es => Some (e, mkBpage (written p) es, pages)
    | [] => rb_swap_reader pages
    end
  end.
Definition rb_get_reader_page (c : ring_buffer_per_cpu) : option (list Z * ring_buffer_per_cpu) :=
  match unread (default fresh_page (reader_page c)) with
  | e :: es => Some (e, mkCpuBuffer (Some (mkBpage (written (default fresh_page (reader_page c))) es)) (ring_pages c))
  | [] =>
    '(e, p, pages) ← rb_swap_reader (rev (ring_pages c));
    Some (e, mkCpuBuffer (Some p) (rev pages))
  end.
Definition ring_buffer_consume (b : ring_buffer) (cpu : nat) : option (list Z * ring_buffer) :=
  c ← buffers b !! cpu;
  '(e, c) ← rb_get_reader_page c;
  Some (e, mkRing (nr_pages b) (<[cpu := c]> (buffers b)) (record_disabled b) (late b)).

#[export] Instance ring_buffer_ring : TraceRing ring_buffer := {|
  ring_reserve := ring_buffer_lock_reserve;
  ring_commit := ring_buffer_unlock_commit;
  ring_consume := ring_buffer_consume;
  possible_cpus b := seq 0 (length (buffers b)) |}.

(** ** The pages implement the interface *)

Lemma align4_spec n : 0 <= n -> exists k, align4 n = 4 * k /\ n <= align4 n <= n + 3.
Proof.
  intros Hn. unfold align4. change 3 with (Z.ones 2) at 2 4 6.
  rewrite <- Z.ldiff_land, Z.ldiff_ones_r, Z.shiftl_mul_pow2, Z.shiftr_div_pow2 by lia.
  change (2 ^ 2) with 4. exists ((n + 3) / 4). pose proof (Z.div_mod (n + 3) 4 ltac:(lia)).
  pose proof (Z.mod_pos_bound (n + 3) 4 ltac:(lia)). lia.
Qed.

(** What an event of a request takes, and the length it then has. *)
Lemma event_length n :
  8 < n -> ring_buffer_event_length (rb_calculate_event_length n) = align4 n /\
    0 < rb_calculate_event_length n <= align4 n + 8 /\ rb_calculate_event_length n <= n + 11.
Proof.
  intros Hn. unfold ring_buffer_event_length, rb_calculate_event_length, RB_MAX_SMALL_DATA, RB_EVNT_HDR_SIZE, RB_LEN_TIME_EXTEND.
  destruct (Z.eqb_spec n 0); [lia|]. destruct (align4_spec n) as (k & Ek & Hk); [lia|].
  destruct (Z.ltb_spec 112 n).
  - destruct (align4_spec (n + 4 + 4)) as (j & Ej & Hj); [lia|]. destruct (Z.eqb_spec (align4 (n + 4 + 4)) (8 + 4)); [lia|].
    destruct (Z.ltb_spec (112 + 4) (align4 (n + 4 + 4) - 4)); lia.
  - destruct (align4_spec (n + 4)) as (j & Ej & Hj); [lia|]. destruct (Z.eqb_spec (align4 (n + 4)) (8 + 4)); [lia|].
    destruct (Z.ltb_spec (112 + 4) (align4 (n + 4) - 4)); lia.
Qed.

Lemma space_cons d l : space (d :: l) = space_of d + space l.
Proof. done. Qed.
Lemma space_of_pos d : 16 <= space_of d.
Proof. unfold space_of. lia. Qed.
Lemma space_app l k : space (l ++ k) = space l + space k.
Proof. induction l as [|d l IH]; cbn [app]; [done|]. rewrite !space_cons. lia. Qed.
Lemma space_nonneg l : 0 <= space l.
Proof. induction l as [|d l IH]; [done|]. rewrite space_cons. pose proof (space_of_pos d). lia. Qed.

(** Of two ends of a list the one with less space is an end of the other. *)
Lemma suffix_lighter (l s k : list (list Z)) :
  s `suffix_of` l -> k `suffix_of` l -> space s <= space k -> s `suffix_of` k.
Proof.
  intros [s0 ->] [k0 E] Hs. apply app_eq_inv in E as [(k1 & -> & ->)|(k1 & -> & ->)].
  - by exists k1.
  - rewrite space_app in Hs. destruct k1 as [|d k1]; [done|]. pose proof (space_nonneg k1).
    cbn [app] in Hs. rewrite space_cons in Hs. pose proof (space_of_pos d). lia.
Qed.

(** The events of a CPU, the oldest first. *)
Definition page_events (pages : list buffer_page) : list (list Z) := mjoin (unread <$> rev pages).
Definition cpu_events (c : ring_buffer_per_cpu) : list (list Z) :=
  unread (default fresh_page (reader_page c)) ++ page_events (ring_pages c).

(** What is written of a page of the ring is its events, none of which was read;
    and an event goes to the next page only when it does not fit. *)
Definition page_ok (p : buffer_page) : Prop := 0 <= written p <= BUF_PAGE_SIZE /\ written p <= space (unread p).
Fixpoint chained (pages : list buffer_page) : Prop :=
  match pages with
  | q :: (p :: _) as pages => BUF_PAGE_SIZE < written p + space (take 1 (unread q)) /\ chained pages
  | _ => True
  end.
Record cpu_ok (nr : nat) (c : ring_buffer_per_cpu) : Prop := {
  cpu_pages : Forall page_ok (ring_pages c); cpu_chained : chained (ring_pages c); cpu_length : (length (ring_pages c) <= nr)%nat }.

Lemma chained_app l k : chained (l ++ k) -> chained l.
Proof.
  induction l as [|q l IH]; [done|]. destruct l as [|p l]; [done|]. cbn. intros [H1 H2]. split; [exact H1|]. by apply IH.
Qed.

Lemma page_events_cons p l : page_events (p :: l) = page_events l ++ unread p.
Proof. unfold page_events. cbn [rev]. rewrite fmap_app, join_app. cbn [fmap list_fmap mjoin list_join]. by rewrite app_nil_r. Qed.
Lemma page_events_app l k : page_events (l ++ k) = page_events k ++ page_events l.
Proof. unfold page_events. by rewrite rev_app_distr, fmap_app, join_app. Qed.

(** Four pages of the ring hold more than two pages of events. *)
Lemma four_pages l : Forall page_ok l -> chained l -> (4 <= length l)%nat -> RING_KEPT_SIZE < space (page_events l).
Proof.
  intros Hp Hc Hl. destruct l as [|p4 [|p3 [|p2 [|p1 l]]]]; cbn in Hl; try lia. clear Hl.
  apply list.Forall_cons in Hp as [P4 Hp]. apply list.Forall_cons in Hp as [P3 Hp].
  apply list.Forall_cons in Hp as [P2 Hp]. apply list.Forall_cons in Hp as [P1 _].
  destruct Hc as (C3 & _ & C1 & _). unfold page_ok, RING_KEPT_SIZE in *.
  assert (Ht : forall p, space (take 1 (unread p)) <= space (unread p)).
  { intros p. destruct (unread p) as [|d es]; [done|]. change (take 1 (d :: es)) with [d]. pose proof (space_nonneg es). rewrite !space_cons. change (space []) with 0. lia. }
  pose proof (Ht p4). pose proof (Ht p2). rewrite !page_events_cons, !space_app. pose proof (space_nonneg (page_events l)). lia.
Qed.

(** A write on a CPU: an event that fits on a fresh page finds room. *)
Lemma rb_write nr loops c size d :
  cpu_ok nr c -> (5 <= nr)%nat -> 0 < size <= BUF_PAGE_SIZE -> size <= space_of d ->
  exists c1, rb_reserve_next_event nr (S (S loops)) c size = (true, c1) /\
    let c2 := rb_commit c1 d in
    cpu_ok nr c2 /\ exists kept, cpu_events c2 = kept ++ [d] /\ kept `sublist_of` cpu_events c /\
      forall s, s `suffix_of` cpu_events c -> space s <= RING_KEPT_SIZE -> s `suffix_of` kept.
Proof.
  intros [Hp Hc Hl] Hn Hs Hd. cbn [rb_reserve_next_event].
  destruct (Z.ltb_spec BUF_PAGE_SIZE (written (tail_page c) + size)) as [Hfull|Hfit].
  - cbn [rb_move_tail tail_page ring_pages written fresh_page]. destruct (Z.ltb_spec BUF_PAGE_SIZE (0 + size)); [lia|].
    eexists. split; [reflexivity|]. unfold rb_commit. cbn [set_tail rb_move_tail ring_pages reader_page tail_page written unread fresh_page app].
    set (l := take (nr - 1) (ring_pages c)).
    assert (El : ring_pages c = l ++ drop (nr - 1) (ring_pages c)) by (symmetry; apply take_drop).
    assert (Hp' : Forall page_ok l) by by apply Forall_take. assert (Hc' : chained l) by (apply (chained_app _ (drop (nr - 1) (ring_pages c))); by rewrite <- El).
    split.
    { constructor; cbn [ring_pages].
      - constructor; [|done]. unfold page_ok; cbn. lia.
      - destruct l as [|p l'] eqn:E; [done|]. split; [|done].
        assert (Et : tail_page c = p) by (unfold tail_page; by rewrite El). rewrite Et in Hfull. cbn. lia.
      - cbn. subst l. rewrite length_take. lia. }
    unfold cpu_events at 1. cbn [reader_page ring_pages]. rewrite page_events_cons. cbn [unread].
    exists (unread (default fresh_page (reader_page c)) ++ page_events l). split; [by rewrite app_assoc|].
    assert (Ev : cpu_events c = unread (default fresh_page (reader_page c)) ++ page_events (drop (nr - 1) (ring_pages c)) ++ page_events l)
      by (unfold cpu_events; rewrite El at 1; by rewrite page_events_app).
    rewrite Ev. split.
    { apply sublist_app; [done|]. by apply sublist_inserts_l. }
    intros s Hsuf Hsp. destruct (decide (length (ring_pages c) <= nr - 1)%nat) as [Hle|Hgt].
    { rewrite (drop_ge (ring_pages c)) in Hsuf by done. exact Hsuf. }
    assert (Hk : s `suffix_of` page_events l).
    { eapply suffix_lighter; [exact Hsuf| |].
      - exists (unread (default fresh_page (reader_page c)) ++ page_events (drop (nr - 1) (ring_pages c))). by rewrite app_assoc.
      - assert (H4 : RING_KEPT_SIZE < space (page_events l)); [|lia]. apply four_pages; [done..|]. subst l. rewrite length_take. lia. }
    by apply suffix_app_r.
  - eexists. split; [reflexivity|]. unfold rb_commit, tail_page, set_tail in *. destruct c as [r l]. cbn [ring_pages reader_page] in *.
    destruct l as [|p l]; cbn [ring_pages reader_page written unread default from_option] in *.
    + split; [by constructor|]. unfold cpu_events. cbn. exists (unread (default fresh_page r)). by rewrite !app_nil_r.
    + apply list.Forall_cons in Hp as [[P1 P2] Hp]. split.
      { constructor; cbn [ring_pages]; [|destruct l as [|q l]; [done|]|done].
        - constructor; [|done]. split; cbn; [lia|]. rewrite space_app. cbn. lia.
        - destruct Hc as [C1 C2]. split; [|done]. cbn [written unread]. destruct (unread p) as [|e es]; [|exact C1].
          apply list.Forall_cons in Hp as [[Q _] _]. cbn in C1. lia. }
      unfold cpu_events. cbn [reader_page ring_pages]. rewrite !page_events_cons. cbn [unread].
      exists (unread (default fresh_page r) ++ page_events l ++ unread p). by rewrite !app_assoc.
Qed.

Lemma rb_swap_reader_spec pages :
  match mjoin (unread <$> pages) with
  | [] => rb_swap_reader pages = None
  | e :: q => exists p rest, rb_swap_reader pages = Some (e, p, rest) /\ unread p ++ mjoin (unread <$> rest) = q /\
      rest `suffix_of` pages
  end.
Proof.
  induction pages as [|p pages IH]; [done|]. cbn [fmap list_fmap mjoin list_join rb_swap_reader].
  destruct (unread p) as [|e es]; cbn [app].
  - revert IH. destruct (mjoin (unread <$> pages)) as [|e q]; [done|].
    intros (p' & rest & I1 & I2 & I3). exists p', rest. split_and!; [done..|]. by apply suffix_cons_r.
  - exists (mkBpage (written p) es), pages. split_and!; [done..|]. by exists [p].
Qed.

Lemma rb_read nr c :
  cpu_ok nr c ->
  match cpu_events c with
  | [] => rb_get_reader_page c = None
  | e :: q => exists c', rb_get_reader_page c = Some (e, c') /\ cpu_ok nr c' /\ cpu_events c' = q
  end.
Proof.
  intros [Hp Hc Hl]. unfold cpu_events, rb_get_reader_page. destruct (unread (default fresh_page (reader_page c))) as [|e es]; cbn [app].
  - pose proof (rb_swap_reader_spec (rev (ring_pages c))) as Hs. unfold page_events.
    destruct (mjoin (unread <$> rev (ring_pages c))) as [|e q]; [by rewrite Hs|].
    destruct Hs as (p & rest & -> & E & [k Hk]). cbn [mbind option_bind]. eexists. split; [reflexivity|].
    assert (Er : ring_pages c = rev rest ++ rev k) by (rewrite <- (rev_involutive (ring_pages c)), Hk; apply rev_app_distr).
    rewrite Er in *. split.
    + constructor; cbn [ring_pages]; [by apply Forall_app in Hp as [Hp _]|by eapply chained_app|rewrite length_app in Hl; lia].
    + cbn [reader_page ring_pages default from_option]. unfold page_events. by rewrite rev_involutive.
  - eexists. split; [reflexivity|]. by split.
Qed.

Definition trace_ring_ok (b : ring_buffer) : Prop :=
  record_disabled b = false /\ (5 <= nr_pages b)%nat /\ Forall (cpu_ok (nr_pages b)) (buffers b).
Definition trace_ring_queued (b : ring_buffer) (cpu : nat) : list (list Z) :=
  match buffers b !! cpu with Some c => cpu_events c | None => [] end.

Lemma elem_of_cpus (b : ring_buffer) cpu : cpu ∈ possible_cpus b -> exists c, buffers b !! cpu = Some c.
Proof. intros H%elem_of_seq. apply lookup_lt_is_Some. lia. Qed.

Lemma trace_ring_write (b : ring_buffer) cpu n :
  trace_ring_ok b -> cpu ∈ possible_cpus b -> 8 < n <= RING_SAFE_SIZE ->
  exists b1, ring_reserve b cpu n = (Some (align4 n), b1) /\
    forall d, Z.of_nat (length d) = align4 n ->
      let b2 := ring_commit b1 cpu d in
      trace_ring_ok b2 /\ possible_cpus b2 = possible_cpus b /\
      (forall j, j <> cpu -> trace_ring_queued b2 j = trace_ring_queued b j) /\
      exists kept, trace_ring_queued b2 cpu = kept ++ [d] /\ kept `sublist_of` trace_ring_queued b cpu /\
        forall s, s `suffix_of` trace_ring_queued b cpu -> space s <= RING_KEPT_SIZE -> s `suffix_of` kept.
Proof.
  intros (Hdis & Hn & Hok) Hcpu Hsize. destruct (elem_of_cpus b cpu Hcpu) as [c Ec].
  destruct (event_length n ltac:(lia)) as (El & Hs1 & Hs2).
  cbn [ring_reserve ring_commit ring_buffer_ring]. unfold ring_buffer_lock_reserve. rewrite Hdis, Ec, El.
  unfold RING_SAFE_SIZE, BUF_MAX_DATA_SIZE, BUF_PAGE_SIZE, RB_LEN_TIME_EXTEND in *.
  destruct (Z.ltb_spec (4080 - 8) n); [lia|]. set (size := rb_calculate_event_length n) in *.
  set (extend := if default false (head (late b)) then 8 else 0). assert (He : 0 <= extend <= 8) by (subst extend; destruct (default _ _); lia).
  pose proof (proj1 (list.Forall_lookup _ _) Hok cpu c Ec) as Hc.
  assert (Hfits : size + extend <= 4080).
  { destruct (align4_spec (n + 8)) as (k & Ek & Hk); [lia|]. destruct (align4_spec n) as (j & Ej & Hj); [lia|]. lia. }
  destruct (rb_reserve_next_event (nr_pages b) 1000 c (size + extend)) as [ok c1] eqn:Er.
  assert (Hw : forall d, Z.of_nat (length d) = align4 n ->
    ok = true /\ let c2 := rb_commit c1 d in cpu_ok (nr_pages b) c2 /\ exists kept, cpu_events c2 = kept ++ [d] /\
      kept `sublist_of` cpu_events c /\ forall s, s `suffix_of` cpu_events c -> space s <= RING_KEPT_SIZE -> s `suffix_of` kept).
  { intros d Hlen. destruct (rb_write (nr_pages b) 998 c (size + extend) d Hc Hn) as (c1' & E & W); [unfold BUF_PAGE_SIZE; lia|unfold space_of; lia|].
    rewrite Er in E. injection E as -> ->. by split. }
  destruct (Hw (replicate (Z.to_nat (align4 n)) 0)) as [-> _].
  { rewrite length_replicate. destruct (align4_spec n) as (j & Ej & Hj); [lia|]. lia. }
  eexists. split; [reflexivity|]. intros d Hlen. destruct (Hw d Hlen) as (_ & W1 & kept & W2 & W3 & W4).
  assert (Hlt : (cpu < length (buffers b))%nat) by by eapply lookup_lt_Some.
  unfold ring_buffer_unlock_commit, trace_ring_ok, trace_ring_queued. cbn [nr_pages buffers possible_cpus].
  assert (Ea : alter (fun c => rb_commit c d) cpu (<[cpu:=c1]> (buffers b)) = <[cpu:=rb_commit c1 d]> (buffers b)).
  { apply list_eq. intros j. destruct (decide (j = cpu)) as [->|Hj].
    - by rewrite list_lookup_alter_eq, !list_lookup_insert_eq.
    - by rewrite list_lookup_alter_ne, !list_lookup_insert_ne by done. }
  rewrite Ea. split_and!.
  - done.
  - done.
  - by apply Forall_insert.
  - cbn [possible_cpus ring_buffer_ring buffers]. by rewrite length_insert.
  - intros j Hj. by rewrite list_lookup_insert_ne by done.
  - rewrite list_lookup_insert_eq by done. rewrite Ec. by exists kept.
Qed.

Lemma trace_ring_consume (b : ring_buffer) cpu :
  trace_ring_ok b ->
  match trace_ring_queued b cpu with
  | [] => ring_consume b cpu = None
  | e :: q => exists b', ring_consume b cpu = Some (e, b') /\ trace_ring_ok b' /\ possible_cpus b' = possible_cpus b /\
      trace_ring_queued b' cpu = q /\ forall j, j <> cpu -> trace_ring_queued b' j = trace_ring_queued b j
  end.
Proof.
  intros (Hd & Hn & Hok). unfold trace_ring_queued at 1. cbn [ring_consume ring_buffer_ring]. unfold ring_buffer_consume.
  destruct (buffers b !! cpu) as [c|] eqn:Ec; [|done]. cbn [mbind option_bind].
  pose proof (rb_read _ c (proj1 (list.Forall_lookup _ _) Hok cpu c Ec)) as Hr.
  destruct (cpu_events c) as [|e q]; [by rewrite Hr|]. destruct Hr as (c' & -> & R1 & R2). cbn [mbind option_bind].
  eexists. split; [reflexivity|]. assert (Hlt : (cpu < length (buffers b))%nat) by by eapply lookup_lt_Some.
  unfold trace_ring_ok, trace_ring_queued. cbn [nr_pages buffers possible_cpus]. split_and!.
  - done.
  - done.
  - by apply Forall_insert.
  - cbn [possible_cpus ring_buffer_ring buffers]. by rewrite length_insert.
  - by rewrite list_lookup_insert_eq.
  - intros j Hj. by rewrite list_lookup_insert_ne.
Qed.

#[export] Program Instance ring_buffer_laws : TraceRingLaws ring_buffer := {|
  ring_ok := trace_ring_ok; queued := trace_ring_queued;
  law_write := trace_ring_write; law_consume := trace_ring_consume |}.
Next Obligation.
  intros b cpu n Hn. cbn. unfold ring_buffer_lock_reserve. destruct (record_disabled b); [done|]. destruct (buffers b !! cpu) as [c|]; [|done].
  destruct (Z.ltb_spec BUF_MAX_DATA_SIZE n); [done|lia].
Qed.
Next Obligation. intros b _. apply NoDup_seq. Qed.

(** A new buffer of five pages or more is empty. *)
Lemma ring_buffer_alloc_ok size cpus late :
  4 * BUF_PAGE_SIZE < size -> ring_ok (ring_buffer_alloc size cpus late) /\
    possible_cpus (ring_buffer_alloc size cpus late) = seq 0 cpus /\
    forall i, queued (ring_buffer_alloc size cpus late) i = [].
Proof.
  intros Hs. unfold BUF_PAGE_SIZE in *. split; [|split].
  - assert (Hn : 5 <= (size + 4080 - 1) / 4080) by (apply Z.div_le_lower_bound; lia).
    assert (Hn' : (5 <= nr_pages (ring_buffer_alloc size cpus late))%nat) by (cbn; unfold BUF_PAGE_SIZE; lia).
    split; [done|]. split; [exact Hn'|]. cbn [buffers ring_buffer_alloc]. apply Forall_replicate.
    constructor; cbn; [by constructor|done|cbn in Hn'; lia].
  - cbn [possible_cpus ring_buffer_ring ring_buffer_alloc buffers]. by rewrite length_replicate.
  - intros i. cbn. unfold trace_ring_queued. cbn [buffers ring_buffer_alloc].
    destruct (replicate cpus rb_allocate_cpu_buffer !! i) as [c|] eqn:E; [|done]. apply lookup_replicate in E as [-> _]. done.
Qed.
