(* ===== verification/Logger.v ===== *)
(** * The metrics and vitals logger (drivers/misc/amazon_logger.c)

    Producers format a message and commit one entry to the per-CPU trace ring
    buffer of a log; a reader of the misc device consumes one entry per read. *)

From Stdlib Require Import String.
From stdpp Require Import base tactics numbers list option pretty.
From S2P Require Import Prelude Kstrtox Printf TraceRing.

(** ** Constants *)

Definition VITAL_ENTRY_MAX_PAYLOAD : Z := 512.
Definition LOGGER_ENTRY_MAX_PAYLOAD : Z := 4076.
Definition MINERVA_LOG_MAX_SIZE : Z := 4096.
Definition sizeof_logger_entry : Z := 20.
Definition ANDROID_LOG_INFO : Z := 4.

(** ** Writing an entry *)

(** [struct logger_entry]: len, pad, pid, tid, sec, nsec. *)
Definition entry_header (len pid tid sec nsec : Z) : list Z :=
  le_enc 2 (u16 len) ++ le_enc 2 0 ++ le_enc 4 (u32 pid) ++ le_enc 4 (u32 tid) ++
  le_enc 4 (u32 sec) ++ le_enc 4 (u32 nsec).

(** The second loop: what is copied of each vector. *)
Fixpoint copy_iov (iov : list (list Z)) (total_len header_len : Z) : list Z :=
  match iov with
  | [] => []
  | v :: iov =>
    let len := Z.min (Z.of_nat (length v)) (header_len - total_len) in
    take (Z.to_nat len) v ++ copy_iov iov (total_len + len) header_len
  end.

(** What the current task and clock give: CPU, pid, tid, seconds, nanoseconds. *)
Record context := mkCtx { cpu : nat; tgid : Z; pid : Z; tv_sec : Z; tv_nsec : Z }.

Section Logger.
Context {B : Type} `{TraceRing B}.

(** An event that is too short is committed with what it held ([stale]). *)
Definition logger_kernel_write (buf : B) (c : context) (stale : list Z) (iov : list (list Z))
  : B * Z :=
  let total_len := Z.of_nat (length (mjoin iov)) in
  let len := u16 (Z.min total_len LOGGER_ENTRY_MAX_PAYLOAD) in
  match ring_reserve buf (cpu c) (sizeof_logger_entry + len) with
  | (None, buf) => (buf, - ENOMEM)
  | (Some event_len, buf) =>
    if event_len <? sizeof_logger_entry + len then (ring_commit buf (cpu c) stale, - ENOMEM)
    else
      let data := entry_header len (tgid c) (pid c) (tv_sec c) (tv_nsec c) ++ copy_iov iov 0 len in
      (ring_commit buf (cpu c)
         (data ++ replicate (Z.to_nat event_len - length data) 0), 0)
  end.

(** The loggers after [amazon_logger_init], and the [metrics_init] flag. *)
Record loggers := mkLoggers { metrics_buf : B; vitals_buf : B; metrics_init : bool }.

(** [' '] becomes ['_']. *)
Definition no_spaces (s : list Z) : list Z := (fun c => if c =? 32 then 95 else c) <$> s.

Definition vectors (priority : Z) (domain : option (list Z)) (msg : list Z) : list (list Z) :=
  [ [Z.land priority 255]; default (str "kernel") domain ++ [0]; msg ++ [0] ].

Definition log_to_metrics (g : loggers) (c : context) (stale : list Z) (priority : Z)
    (domain log_msg : option (list Z)) : loggers * Z :=
  match log_msg with
  | Some log_msg =>
    if metrics_init g then
      let '(b, ret) := logger_kernel_write (metrics_buf g) c stale
                         (vectors priority domain (no_spaces log_msg)) in
      (mkLoggers b (vitals_buf g) (metrics_init g), ret)
    else (g, - EINVAL)
  | None => (g, - EINVAL)
  end.

(** [text] is what the format and its arguments print, [None] when
    [vsnprintf] fails. *)
Definition minerva_metrics_log (g : loggers) (c : context) (stale : list Z) (buf_ok : bool)
    (max_size : Z) (text : option (list Z)) : loggers * Z :=
  if MINERVA_LOG_MAX_SIZE <? max_size then (g, - EINVAL)
  else if negb (metrics_init g) || negb buf_ok then (g, - EINVAL)
  else match text with
  | None => (g, - EINVAL)
  | Some text =>
    if max_size <=? Z.of_nat (length text) then (g, - EINVAL)
    else
      let '(b, ret) := logger_kernel_write (metrics_buf g) c stale
        (vectors ANDROID_LOG_INFO (Some (str "Minerva_Metrics_Log")) (no_spaces text)) in
      (mkLoggers b (vitals_buf g) (metrics_init g), ret)
  end.

Definition log_to_vitals (g : loggers) (c : context) (stale : list Z) (priority : Z)
    (domain log_msg : option (list Z)) : loggers * Z :=
  match log_msg with
  | Some log_msg =>
    if metrics_init g then
      let '(b, ret) := logger_kernel_write (vitals_buf g) c stale (vectors priority domain log_msg) in
      (mkLoggers (metrics_buf g) b (metrics_init g), ret)
    else (g, - EINVAL)
  | None => (g, - EINVAL)
  end.

(** ** Formatting *)

(** [metadata_length += snprintf(&metadata_msg[metadata_length],
    VITAL_ENTRY_MAX_PAYLOAD - metadata_length, ...)]: the size is a [size_t];
    a size above INT_MAX makes the kernel's vsnprintf return 0, a size of 0
    makes it write nothing. *)
Definition snprintf_at (st : list Z * Z) (text : list Z) : list Z * Z :=
  let '(metadata_msg, metadata_length) := st in
  let sz := u64 (VITAL_ENTRY_MAX_PAYLOAD - metadata_length) in
  if INT_MAX <? sz then (metadata_msg, metadata_length)
  else if sz =? 0 then (metadata_msg, metadata_length + Z.of_nat (length text))
  else (metadata_msg ++ take (Z.to_nat (sz - 1)) text, metadata_length + Z.of_nat (length text)).

(** [p && strlen(p)]. *)
Definition nonempty (s : option (list Z)) : bool :=
  match s with Some (_ :: _) => true | _ => false end.

(** The record's text, [what] being "counter" or "timer" and [unit2] their
    short names. *)
Definition vital_text (program source key : option (list Z)) (type value : Z)
    (what tag : string) (unit_ : option (list Z)) (tail : list Z) : list Z :=
  pct_s program ++ str ":" ++ pct_s source ++ str ":type=" ++ pct_d type ++ str ";DV;1," ++
  (match key with Some k => str "key=" ++ k ++ str ";DV;1," | None => [] end) ++
  str what ++ str "=" ++ pct_d value ++ str ";" ++ str tag ++ str ";1,unit=" ++ pct_s unit_ ++
  str ";DV;1" ++ tail ++ str ":HI".

Definition counter_metadata (metadata : option (list Z)) : list Z :=
  if nonempty metadata
  then snprintf VITAL_ENTRY_MAX_PAYLOAD (str ",metadata=" ++ pct_s metadata ++ str ";DV;1")
  else [].

Definition log_counter_to_vitals (g : loggers) (c : context) (stale : list Z) (priority : Z)
    (domain program source key : option (list Z)) (counter_value : Z)
    (unit_ metadata : option (list Z)) (type : Z) : loggers * Z :=
  let text := vital_text program source key type counter_value "counter" "CT" unit_
                (counter_metadata metadata) in
  log_to_vitals g c stale priority domain (Some (snprintf VITAL_ENTRY_MAX_PAYLOAD text)).

Definition log_timer_to_vitals (g : loggers) (c : context) (stale : list Z) (priority : Z)
    (domain program source key : option (list Z)) (timer_value : Z)
    (unit_ : option (list Z)) (type : Z) : loggers * Z :=
  let text := vital_text program source key type timer_value "timer" "TI" unit_ [] in
  log_to_vitals g c stale priority domain (Some (snprintf VITAL_ENTRY_MAX_PAYLOAD text)).

Definition quote : list Z := [34].

(** The pieces of the Minerva metadata, as each call of snprintf prints them. *)
Definition dimension_piece (group_id schema_id dimensions : option (list Z)) : list Z :=
  quote ++ str "d" ++ quote ++ str "#{" ++ quote ++ str "groupId" ++ quote ++ str "#" ++ quote ++
  pct_s group_id ++ quote ++ str "$" ++ quote ++ str "schemaId" ++ quote ++ str "#" ++ quote ++
  pct_s schema_id ++ quote ++
  (if nonempty dimensions then str "$" ++ pct_s dimensions else []) ++ str "}".
Definition annotation_piece (annotations : option (list Z)) : list Z :=
  (if nonempty annotations
   then str "$" ++ quote ++ str "m" ++ quote ++ str "#{" ++ pct_s annotations ++ str "}" else [])
  ++ str "};DV;1".
Definition metadata_piece (metadata : option (list Z)) : list Z :=
  if nonempty metadata then str ",metadata=" ++ pct_s metadata ++ str "!{" else str ",metadata=!{".

Definition counter_metadata_v2 (group_id schema_id metadata dimensions annotations : option (list Z))
  : list Z * Z :=
  let st := snprintf_at ([], 0) (metadata_piece metadata) in
  let st := snprintf_at st (dimension_piece group_id schema_id dimensions) in
  snprintf_at st (annotation_piece annotations).

Definition timer_metadata_v2 (group_id schema_id dimensions annotations : option (list Z))
  : list Z * Z :=
  let st := snprintf_at ([], 0) (str ",metadata=!{" ++ dimension_piece group_id schema_id dimensions) in
  snprintf_at st (annotation_piece annotations).

Definition log_counter_to_vitals_v2 (g : loggers) (c : context) (stale : list Z) (priority : Z)
    (group_id schema_id domain program source key : option (list Z)) (counter_value : Z)
    (unit_ metadata : option (list Z)) (type : Z) (dimensions annotations : option (list Z))
  : loggers * Z :=
  let tail := (counter_metadata_v2 group_id schema_id metadata dimensions annotations).1 in
  let text := vital_text program source key type counter_value "counter" "CT" unit_ tail in
  log_to_vitals g c stale priority domain (Some (snprintf VITAL_ENTRY_MAX_PAYLOAD text)).

Definition log_timer_to_vitals_v2 (g : loggers) (c : context) (stale : list Z) (priority : Z)
    (group_id schema_id domain program source key : option (list Z)) (timer_value : Z)
    (unit_ : option (list Z)) (type : Z) (dimensions annotations : option (list Z))
  : loggers * Z :=
  let tail := (timer_metadata_v2 group_id schema_id dimensions annotations).1 in
  let text := vital_text program source key type timer_value "timer" "TI" unit_ tail in
  log_to_vitals g c stale priority domain (Some (snprintf VITAL_ENTRY_MAX_PAYLOAD text)).

(** ** Reading an entry *)

Definition ring_empty_cpu (b : B) (cpu : nat) : bool :=
  match ring_consume b cpu with Some _ => false | None => true end.

Fixpoint find_cpu (b : B) (cpus : list nat) : option nat :=
  match cpus with
  | [] => None
  | cpu :: cpus => if ring_empty_cpu b cpu then find_cpu b cpus else Some cpu
  end.
Definition ring_buffer_find_cpu (b : B) : option nat := find_cpu b (possible_cpus b).
Definition ring_buffer_empty (b : B) : bool :=
  match ring_buffer_find_cpu b with Some _ => false | None => true end.

(** What ends a wait: [ring_buffer_wait]'s result, whether a signal is
    pending, and the buffer at that time. *)
Record wakeup := mkWake { wait_ret : Z; signal : bool; woken : B }.

(** A read returns a value and the bytes given to the caller, or sleeps. *)
Inductive read_result := Sleeps | Returns (ret : Z) (out : list Z).

(** Under the mutex: exactly one entry is consumed. *)
Definition read_entry (b : B) (cpu : nat) (count : Z) (copy_ok : bool) : B * read_result :=
  match ring_consume b cpu with
  | None => (b, Returns 0 [])
  | Some (e, b) =>
    let len := Z.min (Z.of_nat (length e)) (sizeof_logger_entry + le_dec (take 2 e)) in
    if count <? len then (b, Returns (- EINVAL) [])
    else if negb copy_ok then (b, Returns (- EFAULT) [])
    else (b, Returns len (take (Z.to_nat len) e))
  end.

(** [wakes] are the wake-ups to come; the reader sleeps when there are none
    left. *)
Fixpoint amazon_logger_read (b : B) (nonblock : bool) (count : Z) (copy_ok : bool)
    (wakes : list wakeup) : B * read_result :=
  match ring_buffer_find_cpu b with
  | Some cpu => read_entry b cpu count copy_ok
  | None =>
    if nonblock then (b, Returns (- EAGAIN) [])
    else match wakes with
         | [] => (b, Sleeps)
         | w :: wakes =>
           if negb (wait_ret w =? 0) then (woken w, Returns (wait_ret w) [])
           else if signal w then (woken w, Returns (- EINTR) [])
           else amazon_logger_read (woken w) nonblock count copy_ok wakes
         end
  end.
End Logger.
Arguments mkLoggers {B}.
Arguments metrics_buf {B} _.
Arguments vitals_buf {B} _.
Arguments metrics_init {B} _.
Arguments mkWake {B}.

(** ** Creating the logs *)

(** [struct amazon_logger] on [log_list]: its minor and whether the memory is
    still allocated. *)
Record amazon_logger := mkLogger { minor : Z; allocated : bool }.

(** The first log of that minor; a freed one on the way is read ([None]). *)
Fixpoint get_log_from_minor (log_list : list amazon_logger) (m : Z) : option (option Z) :=
  match log_list with
  | [] => Some None
  | log :: rest =>
    if negb (allocated log) then None
    else if minor log =? m then Some (Some (minor log)) else get_log_from_minor rest m
  end.

(** [create_log]: the answers of kzalloc, kstrdup and ring_buffer_alloc, and
    the result of misc_register with the minor it picked. The error value is
    [inr]. *)
Definition create_log (log_list : list amazon_logger) (log_ok name_ok buf_ok : bool)
    (ret new_minor : Z) : list amazon_logger * (Z + Z) :=
  if negb log_ok then (log_list, inr (- ENOMEM))
  else if negb name_ok then (log_list, inr (- ENOMEM))
  else if negb buf_ok then (log_list, inr (- ENOMEM))
  else if negb (ret =? 0) then
    (* the log is already on the list when its memory is freed *)
    (log_list ++ [mkLogger 255 false], inr ret)
  else (log_list ++ [mkLogger new_minor true], inl new_minor).

Definition amazon_logger_open (log_list : list amazon_logger) (m : Z) : option Z :=
  log ← get_log_from_minor log_list m;
  Some (match log with Some _ => 0 | None => - ENODEV end).

(** [amazon_logger_init], with each creation's answers; the flag is
    [metrics_init]. *)
Definition amazon_logger_init (a b : bool * bool * bool * Z * Z) : list amazon_logger * bool * Z :=
  let '(l1, n1, b1, r1, m1) := a in
  let '(l2, n2, b2, r2, m2) := b in
  let '(log_list, res) := create_log [] l1 n1 b1 r1 m1 in
  match res with
  | inr _ => (log_list, false, -1)
  | inl _ =>
    let '(log_list, res) := create_log log_list l2 n2 b2 r2 m2 in
    match res with
    | inr _ => (log_list, false, -1)
    | inl _ => (log_list, true, 0)
    end
  end.

(** Frees every log of the list; freeing one twice is [None]. *)
Fixpoint amazon_logger_exit (log_list : list amazon_logger) : option unit :=
  match log_list with
  | [] => Some tt
  | log :: rest => if allocated log then amazon_logger_exit rest else None
  end.

(** ** Specification *)

(** One request to the metrics log. *)
Record request := mkReq {
  rq_ctx : context; rq_prio : Z; rq_domain : option (list Z); rq_msg : list Z }.

Definition payload (q : request) : list Z :=
  take 4076 (mjoin (vectors (rq_prio q) (rq_domain q) (no_spaces (rq_msg q)))).

(** The entry a reader gets: the header with the payload's length, and the
    payload. *)
Definition entry (q : request) : list Z :=
  let c := rq_ctx q in
  entry_header (Z.of_nat (length (payload q))) (tgid c) (pid c) (tv_sec c) (tv_nsec c) ++ payload q.

(** Metrics are logged in [AMAZON_METRICS_BUF_SIZE] bytes a CPU. *)
Definition AMAZON_METRICS_BUF_SIZE : Z := 16 * 1024.

(** What the ring buffer grants at any time, and what it never grants; between
    the two a time extension may not fit. *)
Definition granted (q : request) : bool := sizeof_logger_entry + Z.of_nat (length (payload q)) <=? RING_SAFE_SIZE.
Definition refused (q : request) : bool := BUF_MAX_DATA_SIZE <? sizeof_logger_entry + Z.of_nat (length (payload q)).
Definition sized (q : request) : Prop := granted q = true \/ refused q = true.

(** The entries of a CPU, and the room they take in the ring. *)
Definition entries (qs : list request) (i : nat) : list (list Z) :=
  entry <$> filter (fun q => cpu (rq_ctx q) = i /\ granted q = true) qs.
Definition room (e : list Z) : Z := align4 (Z.of_nat (length e)) + 16.

Section Run.
Context {B : Type} `{TraceRing B}.
(** A run of requests with their results, then [n] reads of 4096 bytes that do
    not block. *)
Definition log_request (x : loggers (B:=B) * list Z) (q : request) : loggers (B:=B) * list Z :=
  let '(g, rets) := x in
  let '(g, ret) := log_to_metrics g (rq_ctx q) [] (rq_prio q) (rq_domain q) (Some (rq_msg q)) in
  (g, rets ++ [ret]).
Fixpoint read_all (b : B) (n : nat) : list read_result :=
  match n with
  | O => []
  | S n => let '(b, r) := amazon_logger_read b true 4096 true [] in r :: read_all b n
  end.
End Run.

(** The text of a vitals record before any truncation. *)
Definition minerva_metadata (group_id schema_id metadata dimensions annotations : option (list Z))
  : list Z :=
  metadata_piece metadata ++ dimension_piece group_id schema_id dimensions ++
  annotation_piece annotations.

#[global] Arguments le_enc : simpl never.
#[local] Arguments logger_kernel_write : simpl never.

(** ** Theorems *)

Lemma copy_iov_spec iov : forall t h,
  0 <= h - t -> copy_iov iov t h = take (Z.to_nat (h - t)) (mjoin iov).
Proof.
  induction iov as [|v iov IH]; intros t h Hh; cbn [copy_iov]; [by destruct (Z.to_nat (h - t))|].
  change (mjoin (v :: iov)) with (v ++ mjoin iov). rewrite IH by lia.
  destruct (Z.le_gt_cases (Z.of_nat (length v)) (h - t)).
  - rewrite Z.min_l by lia. rewrite (take_ge v) by lia. rewrite take_app_ge by lia.
    do 2 f_equal. lia.
  - rewrite Z.min_r by lia. replace (h - (t + (h - t))) with 0 by lia.
    change (Z.to_nat 0) with 0%nat. rewrite take_0, app_nil_r. by rewrite take_app_le by lia.
Qed.

Lemma length_entry_header len p t s n : length (entry_header len p t s n) = 20%nat.
Proof. unfold entry_header. rewrite !length_app, !length_le_enc. done. Qed.

Lemma vectors_length p d m : Z.of_nat (length (mjoin (vectors p d m))) =
  3 + Z.of_nat (length (default (str "kernel") d)) + Z.of_nat (length m).
Proof.
  unfold vectors. change (mjoin [?a; ?b; ?c]) with (a ++ b ++ c ++ []).
  rewrite app_nil_r, !length_app. cbn [length]. lia.
Qed.

(** An entry followed by the padding of its event. *)
Definition padded (q : request) : list Z :=
  entry q ++ replicate (Z.to_nat (align4 (Z.of_nat (length (entry q)))) - length (entry q)) 0.

Lemma payload_length q : (length (payload q) <= 4076)%nat.
Proof. unfold payload. rewrite length_take. lia. Qed.

Lemma length_entry q : length (entry q) = (20 + length (payload q))%nat.
Proof. unfold entry. by rewrite length_app, length_entry_header. Qed.

Lemma payload_spec q :
  let iov := vectors (rq_prio q) (rq_domain q) (no_spaces (rq_msg q)) in
  u16 (Z.min (Z.of_nat (length (mjoin iov))) LOGGER_ENTRY_MAX_PAYLOAD) = Z.of_nat (length (payload q)) /\
  copy_iov iov 0 (Z.of_nat (length (payload q))) = payload q.
Proof.
  cbv zeta. unfold LOGGER_ENTRY_MAX_PAYLOAD. set (iov := vectors _ _ _).
  assert (Hp : payload q = take 4076 (mjoin iov)) by done.
  assert (Hl : Z.of_nat (length (payload q)) = Z.min 4076 (Z.of_nat (length (mjoin iov)))) by (rewrite Hp, length_take; lia).
  split; [rewrite u16_id by lia; lia|]. rewrite copy_iov_spec, Z.sub_0_r, Nat2Z.id by lia. rewrite Hp at 2.
  destruct (Nat.le_gt_cases (length (mjoin iov)) 4076).
  - by rewrite !take_ge by lia.
  - f_equal. lia.
Qed.

(** The end of an event that is only padding does not count. *)
Definition shown (e : list Z) : list Z := take (Z.to_nat (sizeof_logger_entry + le_dec (take 2 e))) e.

Lemma le_dec_entry_len q : le_dec (take 2 (padded q)) = Z.of_nat (length (payload q)).
Proof.
  unfold padded, entry, entry_header. rewrite <- !app_assoc.
  rewrite take_app_le by (rewrite length_le_enc; lia). rewrite take_ge by (rewrite length_le_enc; lia).
  pose proof (payload_length q). rewrite u16_id by lia. apply le_dec_enc.
  change (256 ^ Z.of_nat 2) with 65536. lia.
Qed.

Lemma shown_padded q : shown (padded q) = entry q.
Proof.
  unfold shown. rewrite le_dec_entry_len. unfold sizeof_logger_entry, padded.
  rewrite take_app_le by (rewrite length_entry; lia). rewrite take_ge by (rewrite length_entry; lia). done.
Qed.

Lemma length_padded q : Z.of_nat (length (padded q)) = align4 (Z.of_nat (length (entry q))).
Proof.
  unfold padded. rewrite length_app, length_replicate. destruct (align4_spec (Z.of_nat (length (entry q)))) as (k & _ & Hk); lia.
Qed.

Lemma entry_fits q : Z.of_nat (length (entry q)) <= 4096.
Proof. rewrite length_entry. pose proof (payload_length q). lia. Qed.

Section Ring.
Context {B : Type} `{TraceRingLaws B}.

(** *** Writing *)

(** The events of a request. *)
Definition of_request (e : list Z) : Prop := exists q, e = padded q.

Lemma write_granted (b : B) q :
  ring_ok b -> cpu (rq_ctx q) ∈ possible_cpus b -> granted q = true ->
  exists b', logger_kernel_write b (rq_ctx q) [] (vectors (rq_prio q) (rq_domain q) (no_spaces (rq_msg q))) = (b', 0) /\
    ring_ok b' /\ possible_cpus b' = possible_cpus b /\ (forall j, j <> cpu (rq_ctx q) -> queued b' j = queued b j) /\
    exists kept, queued b' (cpu (rq_ctx q)) = kept ++ [padded q] /\ kept `sublist_of` queued b (cpu (rq_ctx q)) /\
      forall s, s `suffix_of` queued b (cpu (rq_ctx q)) -> space s <= RING_KEPT_SIZE -> s `suffix_of` kept.
Proof.
  intros Hok Hcpu Hg. unfold granted in Hg. apply Z.leb_le in Hg. destruct (payload_spec q) as [E1 E2].
  unfold logger_kernel_write. rewrite E1, E2. unfold sizeof_logger_entry in *.
  destruct (law_write b (cpu (rq_ctx q)) (20 + Z.of_nat (length (payload q))) Hok Hcpu) as (b1 & Er & Hw); [lia|]. rewrite Er.
  destruct (align4_spec (20 + Z.of_nat (length (payload q)))) as (k & Ek & Hk); [lia|].
  destruct (Z.ltb_spec (align4 (20 + Z.of_nat (length (payload q)))) (20 + Z.of_nat (length (payload q)))); [lia|].
  change (entry_header _ _ _ _ _ ++ payload q) with (entry q).
  assert (Ep : entry q ++ replicate (Z.to_nat (align4 (20 + Z.of_nat (length (payload q)))) - length (entry q)) 0 = padded q).
  { unfold padded. rewrite length_entry. by replace (Z.of_nat (20 + length (payload q))) with (20 + Z.of_nat (length (payload q))) by lia. }
  rewrite Ep. eexists. split; [reflexivity|]. apply Hw. rewrite length_padded, length_entry. f_equal. lia.
Qed.

Lemma write_refused (b : B) q :
  refused q = true ->
  logger_kernel_write b (rq_ctx q) [] (vectors (rq_prio q) (rq_domain q) (no_spaces (rq_msg q))) = (b, - ENOMEM).
Proof.
  intros Hr. unfold refused in Hr. apply Z.ltb_lt in Hr. unfold logger_kernel_write.
  rewrite (proj1 (payload_spec q)). by rewrite law_refused.
Qed.

(** What is queued on a CPU of the events that were logged there. *)
Definition holds (es queue : list (list Z)) : Prop :=
  queue `sublist_of` es /\ Forall of_request es /\ forall s, s `suffix_of` es -> space s <= RING_KEPT_SIZE -> s `suffix_of` queue.

Lemma holds_snoc es queue kept q :
  holds es queue -> kept `sublist_of` queue ->
  (forall s, s `suffix_of` queue -> space s <= RING_KEPT_SIZE -> s `suffix_of` kept) ->
  holds (es ++ [padded q]) (kept ++ [padded q]).
Proof.
  intros (H1 & H2 & H3) Hk Hs. split_and!.
  - apply sublist_app; [by transitivity queue|done].
  - apply Forall_app. split; [done|]. constructor; [by exists q|done].
  - intros s Hsuf Hsp. destruct s as [|e s _] using rev_ind; [apply suffix_nil|].
    apply suffix_snoc_inv_1 in Hsuf as Ee. apply suffix_snoc_inv_2 in Hsuf. subst e. rewrite space_app in Hsp.
    pose proof (space_nonneg [padded q]). apply suffix_app. apply Hs; [apply H3; [done|lia]|lia].
Qed.

Definition logged (qs : list request) (i : nat) : list (list Z) :=
  padded <$> filter (fun q => cpu (rq_ctx q) = i /\ granted q = true) qs.

Lemma log_requests qs : forall (g : loggers (B:=B)) rets (es : nat -> list (list Z)),
  metrics_init g = true -> ring_ok (metrics_buf g) -> (forall i, holds (es i) (queued (metrics_buf g) i)) ->
  Forall (fun q => cpu (rq_ctx q) ∈ possible_cpus (metrics_buf g) /\ sized q) qs ->
  exists g', foldl log_request (g, rets) qs = (g', rets ++ ((fun q => if granted q then 0 else - ENOMEM) <$> qs)) /\
    ring_ok (metrics_buf g') /\ possible_cpus (metrics_buf g') = possible_cpus (metrics_buf g) /\
    forall i, holds (es i ++ logged qs i) (queued (metrics_buf g') i).
Proof.
  induction qs as [|q qs IH]; intros g rets es Hi Hok Hh Hqs; cbn [foldl].
  { exists g. rewrite app_nil_r. split_and!; [done..|]. intros i. unfold logged. cbn. by rewrite app_nil_r. }
  apply list.Forall_cons in Hqs as [[Hcpu Hsz] Hqs]. cbn [fmap list_fmap].
  assert (Hlog : forall b ret, logger_kernel_write (metrics_buf g) (rq_ctx q) [] (vectors (rq_prio q) (rq_domain q) (no_spaces (rq_msg q))) = (b, ret) ->
    log_request (g, rets) q = (mkLoggers b (vitals_buf g) true, rets ++ [ret])).
  { intros b ret E. unfold log_request, log_to_metrics. by rewrite Hi, E. }
  rewrite cons_middle, app_assoc. destruct (granted q) eqn:Eg.
  - destruct (write_granted _ q Hok Hcpu Eg) as (b' & Ew & Hok' & Hc' & Ho & kept & Hq & Hk & Hs). rewrite (Hlog _ _ Ew).
    destruct (IH (mkLoggers b' (vitals_buf g) true) (rets ++ [0]) (fun i => if decide (i = cpu (rq_ctx q)) then es i ++ [padded q] else es i))
      as (g' & E & G1 & G2 & G3); [done|done| |by cbn; rewrite Hc'|].
    { intros i. cbn. destruct (decide (i = cpu (rq_ctx q))) as [->|Hne]; [rewrite Hq; by eapply holds_snoc|]. by rewrite Ho. }
    exists g'. split_and!; [exact E|done|cbn in G2; congruence|]. intros i. specialize (G3 i). unfold logged. rewrite filter_cons.
    destruct (decide (i = cpu (rq_ctx q))) as [->|Hne].
    + rewrite decide_True by done. rewrite fmap_cons, cons_middle, app_assoc. exact G3.
    + rewrite decide_False by (intros [? _]; congruence). exact G3.
  - destruct Hsz as [?|Hr]; [congruence|]. rewrite (Hlog _ _ (write_refused _ q Hr)).
    destruct (IH (mkLoggers (metrics_buf g) (vitals_buf g) true) (rets ++ [- ENOMEM]) es) as (g' & E & G1 & G2 & G3); [done..|].
    exists g'. split_and!; [exact E|done|done|]. intros i. unfold logged. rewrite filter_cons, decide_False by (intros [_ ?]; congruence).
    apply G3.
Qed.

(** *** Reading *)

Lemma read_padded (b b' : B) i q count :
  ring_consume b i = Some (padded q, b') ->
  read_entry b i count true =
    (b', if count <? Z.of_nat (length (entry q)) then Returns (- EINVAL) []
         else Returns (Z.of_nat (length (entry q))) (entry q)).
Proof.
  intros Hc. unfold read_entry. rewrite Hc, le_dec_entry_len.
  assert (Hmin : Z.min (Z.of_nat (length (padded q))) (sizeof_logger_entry + Z.of_nat (length (payload q)))
                 = Z.of_nat (length (entry q))).
  { unfold padded, sizeof_logger_entry. rewrite length_app, length_entry. lia. }
  rewrite Hmin. destruct (count <? Z.of_nat (length (entry q))); [done|]. cbn [negb].
  rewrite Nat2Z.id. unfold padded. by rewrite take_app_length.
Qed.

(** The events of some CPUs, one CPU after the other. *)
Definition events (b : B) (cpus : list nat) : list (list Z) := mjoin (queued b <$> cpus).

Lemma events_ext b b' cpus : (forall j, j ∈ cpus -> queued b' j = queued b j) -> events b' cpus = events b cpus.
Proof.
  intros Hj. unfold events. f_equal. apply list_fmap_ext. intros i x Hx. apply Hj. by eapply list_elem_of_lookup_2.
Qed.

(** The first event in the order of the CPUs. *)
Lemma find_cpu_first (b : B) cpus :
  ring_ok b -> NoDup cpus ->
  match events b cpus with
  | [] => find_cpu b cpus = None
  | e :: rest => exists i b', find_cpu b cpus = Some i /\ ring_consume b i = Some (e, b') /\ ring_ok b' /\
      possible_cpus b' = possible_cpus b /\ events b' cpus = rest
  end.
Proof.
  intros Hok. induction cpus as [|i cpus IH]; intros Hnd; [done|]. apply NoDup_cons in Hnd as [Hi Hnd].
  change (events b (i :: cpus)) with (queued b i ++ events b cpus). cbn [find_cpu]. unfold ring_empty_cpu.
  pose proof (law_consume b i Hok) as Hc. destruct (queued b i) as [|e q] eqn:Eq; cbn [app].
  - rewrite Hc. specialize (IH Hnd). destruct (events b cpus) as [|e rest]; [exact IH|].
    destruct IH as (j & b' & I1 & I2 & I3 & I4 & I5). exists j, b'. split_and!; try done.
    change (events b' (i :: cpus)) with (queued b' i ++ events b' cpus). rewrite I5.
    destruct (decide (j = i)) as [->|Hne]; [by rewrite Hc in I2|].
    pose proof (law_consume b j Hok) as Hcj. destruct (queued b j) as [|e' q']; [by rewrite Hcj in I2|].
    destruct Hcj as (b'' & C1 & _ & _ & _ & C5). rewrite C1 in I2. injection I2 as _ <-.
    by rewrite (C5 i), Eq by done.
  - destruct Hc as (b' & C1 & C2 & C3 & C4 & C5). rewrite C1. exists i, b'. split_and!; try done.
    change (events b' (i :: cpus)) with (queued b' i ++ events b' cpus). rewrite C4. f_equal.
    apply events_ext. intros j Hj. apply C5. intros ->. done.
Qed.

Lemma read_first (b : B) nonblock count wakes e rest :
  ring_ok b -> events b (possible_cpus b) = e :: rest ->
  exists i b', ring_consume b i = Some (e, b') /\ ring_ok b' /\ possible_cpus b' = possible_cpus b /\
    events b' (possible_cpus b') = rest /\
    amazon_logger_read b nonblock count true wakes = read_entry b i count true.
Proof.
  intros Hok He. pose proof (find_cpu_first b (possible_cpus b) Hok (law_cpus b Hok)) as Hf. rewrite He in Hf.
  destruct Hf as (i & b' & F1 & F2 & F3 & F4 & F5). exists i, b'. rewrite F4. split_and!; try done.
  destruct wakes; unfold amazon_logger_read, ring_buffer_find_cpu; by rewrite F1.
Qed.

Lemma read_none (b : B) count :
  ring_ok b -> events b (possible_cpus b) = [] -> amazon_logger_read b true count true [] = (b, Returns (- EAGAIN) []).
Proof.
  intros Hok He. pose proof (find_cpu_first b (possible_cpus b) Hok (law_cpus b Hok)) as Hf. rewrite He in Hf.
  unfold amazon_logger_read, ring_buffer_find_cpu. by rewrite Hf.
Qed.

Definition returned (e : list Z) : read_result := Returns (Z.of_nat (length e)) e.

Lemma read_all_spec n es : forall b : B,
  ring_ok b -> events b (possible_cpus b) = es -> Forall of_request es ->
  read_all b (length es + n) = (returned <$> (shown <$> es)) ++ replicate n (Returns (- EAGAIN) []).
Proof.
  induction es as [|e es IH]; intros b Hok He Hr.
  - cbn [length Nat.add fmap list_fmap app]. induction n as [|n IH]; [done|]. cbn [read_all replicate].
    rewrite (read_none b 4096 Hok He). by f_equal.
  - apply list.Forall_cons in Hr as [[q ->] Hr]. cbn [length Nat.add read_all fmap list_fmap app].
    destruct (read_first b true 4096 [] _ _ Hok He) as (i & b' & Hc & Hok' & _ & He' & Ha).
    rewrite Ha, (read_padded b b' i q 4096 Hc). pose proof (entry_fits q).
    destruct (Z.ltb_spec 4096 (Z.of_nat (length (entry q)))); [lia|]. rewrite shown_padded. f_equal. by apply IH.
Qed.

Lemma space_padded qs : space (padded <$> qs) = foldr (fun e n => room e + n) 0 (entry <$> qs).
Proof.
  induction qs as [|q qs IH]; [done|]. cbn [fmap list_fmap foldr]. rewrite space_cons, IH. unfold space_of, room. by rewrite length_padded.
Qed.

Lemma shown_logged qs i : shown <$> logged qs i = entries qs i.
Proof.
  unfold logged, entries. rewrite <- list_fmap_compose. apply list_fmap_ext. intros j q _. apply shown_padded.
Qed.

(** C36. Log, then read, over any ring buffer that keeps its promises. A metrics
    request whose entry takes no more than 4064 bytes is logged on its CPU; one
    of more than 4072 (a payload above 4052, though the driver cuts at 4076) is
    refused with -ENOMEM; those between depend on the time since the last event
    and are left out. Reads then give entries with the payload's true length and
    the payload, priority, domain and message, each at most once: lower CPUs
    first, those of a CPU in the order they were logged, and then -EAGAIN. The
    ring overwrites, so that old ones may be missing, but never one of the
    newest of a CPU that take two pages together; so when all of a CPU's do, none
    is. *)
Theorem log_then_read (b vb : B) (qs : list request) :
  ring_ok b -> (forall i, queued b i = []) ->
  Forall (fun q => cpu (rq_ctx q) ∈ possible_cpus b /\ sized q) qs ->
  exists g (kept : nat -> list (list Z)),
    foldl log_request (mkLoggers b vb true, []) qs = (g, (fun q => if granted q then 0 else - ENOMEM) <$> qs) /\
    (forall i, kept i `sublist_of` entries qs i /\
      forall s, s `suffix_of` entries qs i -> foldr (fun e n => room e + n) 0 s <= RING_KEPT_SIZE -> s `suffix_of` kept i) /\
    let all := mjoin (kept <$> possible_cpus b) in
    forall n, read_all (metrics_buf g) (length all + n) = (returned <$> all) ++ replicate n (Returns (- EAGAIN) []).
Proof.
  intros Hok He Hqs.
  destruct (log_requests qs (mkLoggers b vb true) [] (fun _ => []) eq_refl Hok) as (g & E & G1 & G2 & G3); [|done|].
  { intros i. cbn. rewrite He. split_and!; [done|done|]. intros s ->%suffix_nil_inv _. done. }
  exists g, (fun i => shown <$> queued (metrics_buf g) i). split; [exact E|]. split.
  - intros i. destruct (G3 i) as (H1 & _ & H3). cbn [app] in *. rewrite <- shown_logged. split; [by apply fmap_sublist|].
    intros s [k Hk] Hs. unfold logged in Hk. rewrite <- list_fmap_compose in Hk.
    apply fmap_app_inv in Hk as (l1 & l2 & -> & -> & Hl).
    assert (Hl2 : (shown ∘ padded) <$> l2 = entry <$> l2) by (apply list_fmap_ext; intros j q _; apply shown_padded).
    rewrite Hl2, <- space_padded in Hs.
    destruct (H3 (padded <$> l2)) as [m Hm]; [exists (padded <$> l1); unfold logged; by rewrite Hl, fmap_app|done|].
    exists (shown <$> m). rewrite Hm, fmap_app. f_equal. by rewrite list_fmap_compose.
  - cbv zeta. intros n. cbn in G2. rewrite <- G2.
    assert (Ej : mjoin ((fun i => shown <$> queued (metrics_buf g) i) <$> possible_cpus (metrics_buf g)) = shown <$> events (metrics_buf g) (possible_cpus (metrics_buf g))).
    { unfold events. generalize (possible_cpus (metrics_buf g)). intros l. induction l as [|i l IH]; [done|]. cbn [fmap list_fmap mjoin list_join].
      rewrite fmap_app. by f_equal. }
    rewrite Ej, length_fmap. apply read_all_spec; [done..|]. unfold events. apply Forall_join, Forall_fmap, Forall_true. intros i. cbn.
    destruct (G3 i) as (H1 & H2 & _). cbn [app] in *. apply list.Forall_forall. intros e Hin. apply (proj1 (list.Forall_forall _ _) H2).
    eapply elem_of_submseteq; [exact Hin|by apply sublist_submseteq].
Qed.

(** A read with a buffer too small for the next entry returns -EINVAL and
    loses the entry: the queue continues with the one after it. *)
Theorem short_read_loses (b : B) q rest nonblock count wakes :
  ring_ok b -> events b (possible_cpus b) = padded q :: rest -> count < Z.of_nat (length (entry q)) ->
  exists b', amazon_logger_read b nonblock count true wakes = (b', Returns (- EINVAL) []) /\
    events b' (possible_cpus b') = rest.
Proof.
  intros Hok He Hc. destruct (read_first b nonblock count wakes _ _ Hok He) as (i & b' & Hcon & _ & _ & He' & Hr).
  exists b'. rewrite Hr, (read_padded b b' i q count Hcon).
  destruct (Z.ltb_spec count (Z.of_nat (length (entry q)))); [done|lia].
Qed.
End Ring.

(** *** Formatting *)

(** The state of the metadata buffer after the pieces [full]: their first 511
    characters, and a length past the buffer once they do not fit. *)
Definition meta_state (st : list Z * Z) (full : list Z) : Prop :=
  st.1 = take 511 full /\ 0 <= st.2 < 2 ^ 62 /\
  (st.2 <= 511 -> st.2 = Z.of_nat (length full)) /\
  (511 < st.2 -> (511 < length full)%nat).

Lemma snprintf_at_state st full text :
  meta_state st full -> st.2 + Z.of_nat (length text) < 2 ^ 62 ->
  meta_state (snprintf_at st text) (full ++ text) /\
  (snprintf_at st text).2 <= st.2 + Z.of_nat (length text).
Proof.
  destruct st as [msg len]. unfold meta_state. cbn [fst snd]. intros (-> & Hl & Hfit & Hover) Ht.
  unfold snprintf_at, VITAL_ENTRY_MAX_PAYLOAD, INT_MAX.
  destruct (Z.le_gt_cases len 512) as [Hle|Hgt].
  - rewrite (wrapU_id 64) by lia. destruct (Z.ltb_spec 2147483647 (512 - len)); [lia|].
    destruct (Z.eqb_spec (512 - len) 0); cbn [fst snd].
    + specialize (Hover ltac:(lia)). rewrite take_app_le by lia. rewrite length_app.
      split_and!; (done || lia).
    + specialize (Hfit ltac:(lia)). rewrite take_ge by lia. rewrite length_app.
      split_and!; try lia.
      rewrite take_app_ge by lia. f_equal. f_equal. lia.
  - assert (Hw : u64 (512 - len) = 2 ^ 64 + 512 - len).
    { unfold wrapU. replace (512 - len) with ((2 ^ 64 + 512 - len) + (-1) * 2 ^ 64) by lia.
      rewrite Z.mod_add, Z.mod_small by lia. done. }
    rewrite Hw. destruct (Z.ltb_spec 2147483647 (2 ^ 64 + 512 - len)); [|lia]. cbn [fst snd].
    specialize (Hover ltac:(lia)). rewrite take_app_le by lia. rewrite length_app.
    split_and!; (done || lia).
Qed.

Lemma counter_metadata_v2_spec gid sid md dims ann :
  Z.of_nat (length (minerva_metadata gid sid md dims ann)) < 2 ^ 62 ->
  (counter_metadata_v2 gid sid md dims ann).1 = take 511 (minerva_metadata gid sid md dims ann).
Proof.
  unfold minerva_metadata, counter_metadata_v2. rewrite !length_app. intros Hlen.
  assert (H0 : meta_state ([], 0) []) by (split_and!; (done || lia)).
  destruct (snprintf_at_state _ [] (metadata_piece md) H0) as [H1 L1]; [cbn [snd]; lia|].
  destruct (snprintf_at_state _ _ (dimension_piece gid sid dims) H1) as [H2 L2]; [cbn [snd] in L1; lia|].
  destruct (snprintf_at_state _ _ (annotation_piece ann) H2) as [H3 L3]; [cbn [snd] in L1; lia|].
  destruct H3 as [-> _]. by rewrite <- !app_assoc.
Qed.

(** Cutting the tail first does not change the cut text. *)
Lemma take_cut_middle (a t b : list Z) n : take n (a ++ take n t ++ b) = take n (a ++ t ++ b).
Proof.
  rewrite !take_app. f_equal. destruct (Nat.le_gt_cases (length t) n).
  - by rewrite (take_ge t) by lia.
  - rewrite length_take, Nat.min_l by lia.
    replace (n - length a - n)%nat with 0%nat by lia.
    replace (n - length a - length t)%nat with 0%nat by lia. cbn [take]. f_equal.
    rewrite take_take. f_equal. lia.
Qed.

(** A Minerva counter record handed to the vitals log is the documented
    text cut at 511 characters, whatever the lengths of the metadata, the
    dimensions and the annotations: no piece is written past the buffers or
    out of place. *)
Theorem counter_record_prefix {B} `{TraceRing B} (g : loggers (B:=B)) c stale prio gid sid domain program source key
    value unit_ md type dims ann :
  Z.of_nat (length (minerva_metadata gid sid md dims ann)) < 2 ^ 62 ->
  log_counter_to_vitals_v2 g c stale prio gid sid domain program source key value unit_ md type dims ann
  = log_to_vitals g c stale prio domain (Some (take 511
      (vital_text program source key type value "counter" "CT" unit_
         (minerva_metadata gid sid md dims ann)))).
Proof.
  intros Hlen. unfold log_counter_to_vitals_v2. rewrite counter_metadata_v2_spec by done.
  f_equal. f_equal. unfold snprintf, VITAL_ENTRY_MAX_PAYLOAD. change (Z.to_nat (512 - 1)) with 511%nat.
  unfold vital_text. rewrite !app_assoc. rewrite <- !(app_assoc _ _ (str ":HI")).
  apply take_cut_middle.
Qed.

(** *** A log whose device cannot be registered *)

(** When the vitals device cannot be registered, its memory is freed while
    it is still on the list of logs: the metrics device still opens, but
    opening any other minor, and unloading the driver, touch the freed log. *)
Theorem failed_register_dangles n m r :
  r <> 0 -> m <> n ->
  let '(log_list, init, ret) :=
    amazon_logger_init (true, true, true, 0, n) (true, true, true, r, 0) in
  ret = -1 /\ init = false /\ amazon_logger_open log_list n = Some 0 /\
  amazon_logger_open log_list m = None /\ amazon_logger_exit log_list = None.
Proof.
  intros Hr Hm. unfold amazon_logger_init, create_log. cbn.
  destruct (Z.eqb_spec r 0); [done|]. cbn. unfold amazon_logger_open. cbn.
  rewrite Z.eqb_refl. destruct (Z.eqb_spec n m); [congruence|]. done.
Qed.

(** ** Instances of the properties *)

Definition sample_ctx (c : nat) : context := mkCtx c 7 8 1 2.
Definition sample_req (c : nat) (s : string) : request := mkReq (sample_ctx c) 4 None (str s).

(** The metrics buffer of two CPUs; nothing waits. *)
Definition sample_ring : ring_buffer := ring_buffer_alloc AMAZON_METRICS_BUF_SIZE 2 [].
Lemma sample_ring_ok : ring_ok sample_ring /\ possible_cpus sample_ring = [0%nat; 1%nat] /\ forall i, queued sample_ring i = [].
Proof. by apply ring_buffer_alloc_ok. Qed.

(** One request is too long: all of the others are read. *)
Lemma log_then_read_witness :
  let long := mkReq (sample_ctx 0) 4 None (replicate (Z.to_nat 4050) 120) in
  exists g, foldl log_request (mkLoggers sample_ring sample_ring true, []) [sample_req 1 "b c"; long; sample_req 0 "a"]
      = (g, [0; - ENOMEM; 0]) /\
    read_all (metrics_buf g) 3
      = [Returns 30 (entry (sample_req 0 "a")); Returns 32 (entry (sample_req 1 "b_c")); Returns (- EAGAIN) []].
Proof.
  intros long. destruct sample_ring_ok as (Hok & Hc & Hq). set (qs := [sample_req 1 "b c"; long; sample_req 0 "a"]).
  destruct (log_then_read sample_ring sample_ring qs Hok Hq) as (g & kept & E & Hk & Hr).
  { rewrite Hc. assert (Hin : forall c, (c < 2)%nat -> c ∈ [0%nat; 1%nat]) by (intros [|[|]]; [by left|by right; left|lia]).
    repeat (apply list.Forall_cons; split; [split; [apply Hin; vm_compute; lia|]|]); [left; reflexivity|right; reflexivity|left; reflexivity|done]. }
  exists g. split; [exact E|]. rewrite Hc in Hr. specialize (Hr 1%nat).
  assert (Hall : forall i, foldr (fun e n => room e + n) 0 (entries qs i) <= RING_KEPT_SIZE -> kept i = entries qs i).
  { intros i Hi. destruct (Hk i) as [H1 H2]. apply (anti_symm sublist); [exact H1|].
    destruct (H2 (entries qs i)) as [k ->]; [done|exact Hi|]. by apply sublist_inserts_l. }
  cbn [fmap list_fmap mjoin list_join] in Hr. rewrite (Hall 0%nat), (Hall 1%nat) in Hr by (vm_compute; discriminate).
  vm_compute in Hr |- *. exact Hr.
Defined.

(** Of six entries of 4000 bytes the oldest page is overwritten. *)
Example overwritten :
  let big k := mkReq (sample_ctx 0) k None (replicate (Z.to_nat 3980) 120) in
  let g := (foldl log_request (mkLoggers sample_ring sample_ring true, []) (big <$> [1; 2; 3; 4; 5; 6])).1 in
  let prio r := match r with Returns n l => (n, nth 20 l 0) | Sleeps => (0, 0) end in
  prio <$> read_all (metrics_buf g) 6 = [(4009, 2); (4009, 3); (4009, 4); (4009, 5); (4009, 6); (- EAGAIN, 0)].
Proof. vm_compute. reflexivity. Qed.

(** An event of 4068 bytes that needs a time extension fits on no page: looking
    for one empties the ring, and after 1000 rounds the buffer is disabled, so
    that this request and all later ones are refused. *)
Example extension_disables :
  let b := ring_buffer_alloc AMAZON_METRICS_BUF_SIZE 2 [false; true] in
  let big := mkReq (sample_ctx 1) 4 None (replicate (Z.to_nat 4038) 120) in
  let x := foldl log_request (mkLoggers b b true, []) [sample_req 1 "a"; big; sample_req 0 "b"] in
  x.2 = [0; - ENOMEM; - ENOMEM] /\ read_all (metrics_buf x.1) 1 = [Returns (- EAGAIN) []].
Proof. vm_compute. by split. Qed.

Lemma short_read_loses_witness :
  let g := (foldl log_request (mkLoggers sample_ring sample_ring true, []) [sample_req 1 "x"; sample_req 1 "y"]).1 in
  exists b', amazon_logger_read (metrics_buf g) true 16 true [] = (b', Returns (- EINVAL) []) /\
    events b' (possible_cpus b') = [padded (sample_req 1 "y")].
Proof.
  intros g. apply (short_read_loses (metrics_buf g) (sample_req 1 "x")); [|vm_compute; reflexivity..].
  destruct sample_ring_ok as (Hok & Hc & Hq).
  destruct (log_requests [sample_req 1 "x"; sample_req 1 "y"] (mkLoggers sample_ring sample_ring true) [] (fun _ => []) eq_refl Hok)
    as (g' & E & G & _).
  - intros i. cbn [metrics_buf]. rewrite Hq. split_and!; [done|done|]. intros s ->%suffix_nil_inv _. done.
  - cbn [metrics_buf]. rewrite Hc. repeat (apply list.Forall_cons; split; [split; [right; left|left; reflexivity]|]). done.
  - subst g. by rewrite E.
Defined.

Lemma counter_record_prefix_witness :
  let g := mkLoggers sample_ring sample_ring true in
  log_counter_to_vitals_v2 g (sample_ctx 0) [] 4 (Some (str "g")) (Some (str "s"))
    None (Some (str "p")) (Some (str "src")) None 3 (Some (str "count")) None 0 None None
  = log_to_vitals g (sample_ctx 0) [] 4 None (Some (take 511
      (vital_text (Some (str "p")) (Some (str "src")) None 0 3 "counter" "CT" (Some (str "count"))
         (minerva_metadata (Some (str "g")) (Some (str "s")) None None None)))).
Proof. intros g. apply counter_record_prefix. vm_compute; reflexivity. Defined.

Lemma failed_register_dangles_witness :
  amazon_logger_open (amazon_logger_init (true, true, true, 0, 60) (true, true, true, -16, 0)).1.1 61 = None.
Proof.
  exact (proj1 (proj2 (proj2 (proj2 (failed_register_dangles 60 61 (-16) ltac:(discriminate) ltac:(discriminate)))))).
Defined.
