(* ===== verification/LdPort.v ===== *)
(** * What the liquid-detection drivers share (drivers/usb/typec)

    The three drivers (max20342.c, fusb251.c, amzn_ld.c) repeat the same code
    around different measurements: register access with retries, attribute
    files, the switch device with its metric, the supplies, and the reaction of
    the port. Here is that code once, over an interface to the driver's own
    state ([LdDevice]), with the invariant the drivers keep: the port is a
    limited sink exactly while a wet state is published. *)

From Stdlib Require Import String.
From stdpp Require Import base tactics numbers list option gmap.
From S2P Require Import Prelude Kstrtox Printf.

(** [enum MAX20342_STATE_TYPE] and the same of the other drivers. *)
Definition TYPE_DRY : Z := 0.
Definition TYPE_WET : Z := 1.
Definition TYPE_WET_VBUS : Z := 2.

Definition I2C_RETRIES : nat := 2.
Definition RECHECK_DELAY_SEC : Z := 5.
Definition IUSB_LIMITATION_UA : Z := 10000.
Definition INVALID_VBUS_MV : Z := 3000.

(** The roles of the type-C port the drivers ask for (tcpm.h). *)
Inductive typec_role := TYPEC_ROLE_SNK | TYPEC_ROLE_TRY_SNK.
(** The states of the MOS control pins (MAX20342). *)
Inductive mos_state := mos_init | mos_low | mos_high.

(** ** The hardware around a driver *)

(** The chip's registers, the results of the next I2C transfers (after them
    every transfer succeeds), the two MOS pins, the role asked of the type-C
    port, the input current limit, the charger's supply and its voltage
    (absent or failing), the battery supply and the result of setting its
    property, the time, and the metrics reported. *)
Record hw := mkHw {
  regs : gmap Z Z; faults : list Z; mos : mos_state * mos_state;
  role : option typec_role; iusb : option Z;
  chg_psy : option (Z + Z); bat_psy : option Z;
  now : Z; metrics : list (Z * Z * Z) }.

Definition reg (h : hw) (r : Z) : Z := default 0 (regs h !! r).
Definition set_reg (h : hw) (r v : Z) : hw :=
  mkHw (<[r := v]> (regs h)) (faults h) (mos h) (role h) (iusb h) (chg_psy h) (bat_psy h) (now h)
       (metrics h).
Definition set_faults (h : hw) f : hw :=
  mkHw (regs h) f (mos h) (role h) (iusb h) (chg_psy h) (bat_psy h) (now h) (metrics h).
Definition set_mos (h : hw) m : hw :=
  mkHw (regs h) (faults h) m (role h) (iusb h) (chg_psy h) (bat_psy h) (now h) (metrics h).
Definition tcpm_typec_change_role (h : hw) r : hw :=
  mkHw (regs h) (faults h) (mos h) (Some r) (iusb h) (chg_psy h) (bat_psy h) (now h) (metrics h).
Definition set_iusb (h : hw) l : hw :=
  mkHw (regs h) (faults h) (mos h) (role h) (Some l) (chg_psy h) (bat_psy h) (now h) (metrics h).
Definition set_chg (h : hw) v : hw :=
  mkHw (regs h) (faults h) (mos h) (role h) (iusb h) v (bat_psy h) (now h) (metrics h).
Definition set_now (h : hw) t : hw :=
  mkHw (regs h) (faults h) (mos h) (role h) (iusb h) (chg_psy h) (bat_psy h) t (metrics h).
Definition log_metric (h : hw) m : hw :=
  mkHw (regs h) (faults h) (mos h) (role h) (iusb h) (chg_psy h) (bat_psy h) (now h) (metrics h ++ [m]).

(** [i2c_transfer] of [n] messages: the number executed or an error. *)
Definition i2c_transfer (h : hw) (n : Z) : Z * hw :=
  match faults h with
  | [] => (n, h)
  | r :: f => (r, set_faults h f)
  end.

(** ** Register access *)

(** The do-while of [max20342_i2c_read], [tries] transfers being left. *)
Fixpoint i2c_read_loop (tries : nat) (h : hw) (reg_ value : Z) : Z * Z * hw :=
  let '(err, h) := i2c_transfer h 2 in
  if err =? 2 then (0, reg h reg_, h)
  else match tries with
       | S (S _ as tries) => i2c_read_loop tries h reg_ value
       | _ => (-1, value, h)
       end.

(** The result, the value of the caller's byte and the hardware. *)
Definition i2c_read (h : hw) (reg_ value : Z) : Z * Z * hw := i2c_read_loop I2C_RETRIES h reg_ value.

Definition i2c_write (h : hw) (reg_ value : Z) : Z * hw :=
  let '(ret, h) := i2c_transfer h 1 in
  (ret, if ret =? 1 then set_reg h reg_ value else h).

(** The field read, 0 when the bus fails. *)
Definition read_interface (h : hw) (reg_ mask shift : Z) : Z * hw :=
  let '(_, reg_val, h) := i2c_read h reg_ 0 in
  (field_get (Z.shiftl mask shift) shift reg_val, h).

(** [reg_val & ~(mask << shift) | (value << shift)] in an unsigned char: the
    value is not masked. *)
Definition config_value (reg_val mask shift value : Z) : Z :=
  u8 (Z.lor (Z.land reg_val (Z.lnot (Z.shiftl mask shift))) (Z.shiftl value shift)).

Definition config_interface (h : hw) (reg_ mask shift value : Z) : hw :=
  let '(_, reg_val, h) := i2c_read h reg_ 0 in
  (i2c_write h reg_ (config_value reg_val mask shift value)).2.

(** ** Attributes *)

Definition show_d (v : Z) : list Z := snprintf PAGE_SIZE (pct_d v ++ [10]).

(** The loop of the register dumps: [temp] survives a failed read. *)
Fixpoint dump_loop (rs : list Z) (h : hw) (temp : Z) : list (Z * Z) * hw :=
  match rs with
  | [] => ([], h)
  | r :: rs =>
    let '(_, temp, h) := i2c_read h r temp in
    let '(l, h) := dump_loop rs h temp in ((r, temp) :: l, h)
  end.

(** One line per register, appended to the caller's (empty) page. *)
Definition dump_line (rv : Z * Z) : list Z :=
  str "reg[0x" ++ pct_02x rv.1 ++ str "]=0x" ++ pct_02x rv.2 ++ [10].

(** The attributes are created in order; the first failure removes the ones
    created so far. [device_create_file]'s results are given by [create]. *)
Fixpoint create_files (create : string -> Z) (todo created : list string) : list string * Z :=
  match todo with
  | [] => (created, 0)
  | a :: todo =>
    if create a <? 0 then ([], create a) else create_files create todo (created ++ [a])
  end.

Definition delete_files (names attrs : list string) : list string := filter (fun a => a ∉ names) attrs.

(** The chip loads its defaults on a software reset: [reset_regs]. *)
Definition sw_reset (reset_regs : gmap Z Z) (h : hw) (ret : Z) : hw :=
  if ret =? 1 then mkHw reset_regs (faults h) (mos h) (role h) (iusb h) (chg_psy h) (bat_psy h) (now h) (metrics h)
  else h.

(** ** Supplies *)

(** [chg_psy]: [None] not found, [inl v] the voltage, [inr e] the error. *)
Definition check_vbus_valid (h : hw) : bool :=
  match chg_psy h with
  | Some (inl v) => INVALID_VBUS_MV <? v
  | _ => false
  end.

Definition limit_charging_current (h : hw) (en : bool) : Z * hw :=
  match bat_psy h with
  | None => (0, h)
  | Some ret => (ret, if ret <? 0 then h else set_iusb h (if en then IUSB_LIMITATION_UA else -1))
  end.

Definition select_interval (work_interval : list Z) (state : Z) : Z :=
  if (0 <=? state) && (state <? 3) then work_interval !!! Z.to_nat state
  else work_interval !!! 1%nat.

(** ** The switch device of a driver *)

(** The published state, the time of its last change, and publishing. *)
Class LdDevice (D : Type) := {
  ld_state : D -> Z; ld_event_ts : D -> Z; ld_publish : D -> Z -> Z -> D }.
Class LdDeviceLaws (D : Type) `{LdDevice D} := {
  ld_state_publish : forall d st ts, ld_state (ld_publish d st ts) = st }.

Section Switch.
Context {D : Type} `{LdDevice D}.

(** The switch's state, the metric with the time spent in the last wet state. *)
Definition report_event (d : D) (h : hw) (event : Z) : D * hw :=
  let pre_event := ld_state d in
  if negb (pre_event =? event) then
    let duration_sec := if pre_event =? TYPE_DRY then 0 else s32 (now h - ld_event_ts d) in
    (ld_publish d event (now h), log_metric h (event, pre_event, duration_sec))
  else (d, h).

(** The VBUS work in its two halves: what it reads, what it reports. *)
Definition vbus_read (d : D) (h : hw) : Z * bool := (ld_state d, check_vbus_valid h).
Definition vbus_report (rd : Z * bool) (d : D) (h : hw) : D * hw :=
  let '(state, valid) := rd in
  if (valid : bool) then
    if state =? TYPE_WET then report_event d h TYPE_WET_VBUS else (d, h)
  else if state =? TYPE_WET_VBUS then report_event d h TYPE_WET else (d, h).
Definition vbus_detect (d : D) (h : hw) : D * hw := vbus_report (vbus_read d h) d h.
End Switch.

(** ** Attachment *)

(** What is attached to the rest of the kernel: the driver's global, whether
    the charger's notifier chain holds our block, the registered switch, the
    attribute files, and whether the memory of the device is allocated. *)
Record attached (D : Type) := mkAtt {
  g_dev : option D; chg1_nb : bool; switch_registered : bool; attrs : list string; allocated : bool }.
Arguments mkAtt {D}.
Arguments g_dev {D}.
Arguments chg1_nb {D}.
Arguments switch_registered {D}.
Arguments attrs {D}.
Arguments allocated {D}.
Definition detached {D} : attached D := mkAtt None false false [] false.

(** A shutdown: the works are cancelled, the files [names] removed and the
    memory freed; the notifier block stays on the charger's chain and the
    switch stays registered. *)
Definition ld_shutdown {D} (names : list string) (a : attached D) : attached D :=
  mkAtt None (chg1_nb a) (switch_registered a) (delete_files names (attrs a)) false.

(** [liquid_dev_event] of the charger: the VBUS work is (re)queued when the
    driver's global is set. *)
Definition CHARGER_DEV_NOTIFY_VBUS_EVENT : Z := 5.
Definition vbus_changed {D} (a : attached D) : bool :=
  match g_dev a with Some _ => true | None => false end.
Definition liquid_dev_event {D} (a : attached D) (event : Z) : bool :=
  if event =? CHARGER_DEV_NOTIFY_VBUS_EVENT then vbus_changed a else false.

(** ** What the drivers promise *)

(** The port is kept a sink and the input current limited; or neither. *)
Definition protected (h : hw) : Prop := role h = Some TYPEC_ROLE_SNK /\ iusb h = Some IUSB_LIMITATION_UA.
Definition unprotected (h : hw) : Prop := role h <> Some TYPEC_ROLE_SNK /\ iusb h <> Some IUSB_LIMITATION_UA.
Definition valid_state (st : Z) : Prop := st = TYPE_DRY \/ st = TYPE_WET \/ st = TYPE_WET_VBUS.

(** The bus works and the battery accepts limits. *)
Definition healthy (h : hw) : Prop := faults h = [] /\ exists r, bat_psy h = Some r /\ 0 <= r.

(** What the two outputs become: changed only on the way into or out of dry. *)
Definition next_outputs (dry : bool) (state : Z) (h : hw) : option typec_role * option Z :=
  if state =? TYPE_DRY
  then if dry then (role h, iusb h) else (Some TYPEC_ROLE_SNK, Some IUSB_LIMITATION_UA)
  else if dry then (Some TYPEC_ROLE_TRY_SNK, Some (-1)) else (role h, iusb h).

Definition wet_state (h : hw) : Z := if check_vbus_valid h then TYPE_WET_VBUS else TYPE_WET.

(** The outputs match the published state. *)
Definition consistent {D} `{LdDevice D} (x : D * hw) : Prop :=
  healthy x.2 /\ valid_state (ld_state x.1) /\
  (ld_state x.1 = TYPE_DRY -> unprotected x.2) /\ (ld_state x.1 <> TYPE_DRY -> protected x.2).

(** A driver that serves events of type [E], and what each of them must do. *)
Class LdDriver (D E : Type) := ld_handle : D * hw -> E -> D * hw.
Class LdDriverLaws (D E : Type) `{LdDevice D, LdDriver D E} :=
  ld_handle_ok : forall x (e : E), healthy x.2 -> valid_state (ld_state x.1) ->
    let y := ld_handle x e in
    healthy y.2 /\ valid_state (ld_state y.1) /\
    (role y.2, iusb y.2) = next_outputs (ld_state y.1 =? TYPE_DRY) (ld_state x.1) x.2.

(** The same hardware but for the registers and the MOS pins. *)
Definition same_outside (h h' : hw) : Prop :=
  faults h' = faults h /\ role h' = role h /\ iusb h' = iusb h /\ chg_psy h' = chg_psy h /\
  bat_psy h' = bat_psy h /\ now h' = now h /\ metrics h' = metrics h.

(** ** Lemmas on the bus *)

Lemma i2c_read_healthy h r v : faults h = [] -> i2c_read h r v = (0, reg h r, h).
Proof. intros Hf. unfold i2c_read, I2C_RETRIES, i2c_read_loop, i2c_transfer. by rewrite Hf. Qed.

Lemma write_healthy h r v : faults h = [] -> i2c_write h r v = (1, set_reg h r v).
Proof. intros Hf. unfold i2c_write, i2c_transfer. by rewrite Hf. Qed.

Lemma config_healthy h r m s v :
  faults h = [] -> config_interface h r m s v = set_reg h r (config_value (reg h r) m s v).
Proof.
  intros Hf. unfold config_interface. rewrite i2c_read_healthy by done. by rewrite write_healthy by done.
Qed.

Lemma read_interface_healthy h r m s :
  faults h = [] -> read_interface h r m s = (field_get (Z.shiftl m s) s (reg h r), h).
Proof. intros Hf. unfold read_interface. by rewrite i2c_read_healthy by done. Qed.

(** Run the accesses on a bus whose transfers succeed. *)
Ltac run_bus Hf :=
  repeat match goal with
  | |- context [config_interface ?h ?r ?m ?s ?v] => rewrite (config_healthy h r m s v) by exact Hf
  | |- context [read_interface ?h ?r ?m ?s] => rewrite (read_interface_healthy h r m s) by exact Hf
  | |- context [i2c_write ?h ?r ?v] => rewrite (write_healthy h r v) by exact Hf
  end.

Lemma reg_set_eq h r v : reg (set_reg h r v) r = v.
Proof. unfold reg, set_reg; cbn. by rewrite lookup_insert_eq. Qed.

Lemma reg_set_ne h r r' v : r <> r' -> reg (set_reg h r v) r' = reg h r'.
Proof. intros; unfold reg, set_reg; cbn. by rewrite lookup_insert_ne. Qed.

Lemma same_outside_refl h : same_outside h h.
Proof. repeat split. Qed.
Lemma same_outside_trans h1 h2 h3 : same_outside h1 h2 -> same_outside h2 h3 -> same_outside h1 h3.
Proof. unfold same_outside; intros; destruct_and!; repeat split; congruence. Qed.
#[export] Hint Resolve same_outside_refl : core.

Lemma dump_healthy rs h t : faults h = [] -> (dump_loop rs h t).2 = h.
Proof.
  intros Hf. revert t. induction rs as [|r rs IH]; intros t; cbn [dump_loop]; [done|].
  rewrite i2c_read_healthy by done. specialize (IH (reg h r)).
  destruct (dump_loop rs h (reg h r)). exact IH.
Qed.

(** Setting a field to 0 clears it. *)
Lemma config_clears v m : 0 <= m -> Z.land (config_value v m 0 0) m = 0.
Proof.
  intros Hm. unfold config_value. rewrite !Z.shiftl_0_r, Z.lor_0_r.
  unfold wrapU. rewrite <- Z.land_ones by lia. apply Z.bits_inj'. intros i Hi.
  rewrite Z.bits_0, !Z.land_spec, Z.lnot_spec by done. bool_cases.
Qed.

Lemma created_all create todo created files ret :
  create_files create todo created = (files, ret) -> 0 <= ret -> files = created ++ todo /\ ret = 0.
Proof.
  revert created. induction todo as [|a todo IH]; intros created; cbn [create_files].
  - intros [= <- <-] _. by rewrite app_nil_r.
  - destruct (Z.ltb_spec (create a) 0); [intros [= <- <-]; lia|]. intros Hc Hr.
    destruct (IH _ Hc Hr) as [-> ->]. by rewrite <- app_assoc.
Qed.

(** ** Lemmas on the reaction *)

Section Reaction.
Context {D : Type} `{LdDeviceLaws D}.

Lemma report_event_state d h e : ld_state (report_event d h e).1 = e.
Proof.
  unfold report_event. destruct (Z.eqb_spec (ld_state d) e) as [<-|]; cbn; [done|]. apply ld_state_publish.
Qed.

(** Reporting touches only the metrics. *)
Lemma report_event_hw d h e :
  let h' := (report_event d h e).2 in
  regs h' = regs h /\ faults h' = faults h /\ mos h' = mos h /\ role h' = role h /\
  iusb h' = iusb h /\ chg_psy h' = chg_psy h /\ bat_psy h' = bat_psy h.
Proof. unfold report_event. destruct (negb _); by split_and!. Qed.

Lemma limit_healthy h en :
  healthy h -> (limit_charging_current h en).2 = set_iusb h (if en then IUSB_LIMITATION_UA else -1).
Proof.
  intros [_ (r & Hb & Hr)]. unfold limit_charging_current. rewrite Hb. cbn [snd].
  destruct (Z.ltb_spec r 0); [lia|done].
Qed.

Lemma wet_state_wet h : wet_state h <> TYPE_DRY /\ valid_state (wet_state h).
Proof. unfold wet_state, valid_state. destruct (check_vbus_valid h); auto. Qed.

Lemma next_outputs_consistent dry st h h' :
  (st = TYPE_DRY -> unprotected h) -> (st <> TYPE_DRY -> protected h) ->
  (role h', iusb h') = next_outputs dry st h ->
  if dry then unprotected h' else protected h'.
Proof.
  intros Hd Hw. unfold next_outputs, unprotected, protected in *.
  destruct (Z.eqb_spec st TYPE_DRY) as [E|N]; destruct dry; intros [= -> ->]; auto; done.
Qed.

(** The VBUS work moves between the two wet states only. *)
Lemma vbus_detect_ok d h :
  healthy h -> valid_state (ld_state d) ->
  let y := vbus_detect d h in
  healthy y.2 /\ valid_state (ld_state y.1) /\
  (role y.2, iusb y.2) = next_outputs (ld_state y.1 =? TYPE_DRY) (ld_state d) h.
Proof.
  intros Hh Hst. unfold vbus_detect, vbus_read, vbus_report.
  assert (Hsame : let y := (d, h) in healthy y.2 /\ valid_state (ld_state y.1) /\
    (role y.2, iusb y.2) = next_outputs (ld_state y.1 =? TYPE_DRY) (ld_state d) h).
  { cbn. split_and!; try done. unfold next_outputs. by destruct (ld_state d =? TYPE_DRY). }
  assert (Hrep : forall e, valid_state e -> e <> TYPE_DRY -> ld_state d <> TYPE_DRY ->
    let y := report_event d h e in healthy y.2 /\ valid_state (ld_state y.1) /\
    (role y.2, iusb y.2) = next_outputs (ld_state y.1 =? TYPE_DRY) (ld_state d) h).
  { intros e He Hne Hs. cbn zeta. rewrite report_event_state.
    destruct (report_event_hw d h e) as (_ & F & _ & R & I & _ & B). split_and!; [|done|].
    - destruct Hh as [Hf (r & Hb & Hr)]. split; [congruence|]. exists r. by rewrite B.
    - unfold next_outputs. destruct (Z.eqb_spec (ld_state d) TYPE_DRY), (Z.eqb_spec e TYPE_DRY); try done.
      by rewrite R, I. }
  destruct (check_vbus_valid h).
  - destruct (Z.eqb_spec (ld_state d) TYPE_WET) as [E|]; [|done].
    apply Hrep; [unfold valid_state; auto|done|by rewrite E].
  - destruct (Z.eqb_spec (ld_state d) TYPE_WET_VBUS) as [E|]; [|done].
    apply Hrep; [unfold valid_state; auto|done|by rewrite E].
Qed.

(** A driver that keeps the interface keeps the port consistent, whatever it
    serves. *)
Lemma driver_consistent {E} `{LdDriver D E, !LdDriverLaws D E} (es : list E) : forall x : D * hw,
  consistent x -> consistent (foldl ld_handle x es).
Proof.
  induction es as [|e es IH]; intros x Hx; [done|]. apply IH. destruct Hx as (Hh & Hst & Hd & Hw).
  destruct (ld_handle_ok x e Hh Hst) as (Hh' & Hst' & Ho).
  pose proof (next_outputs_consistent _ _ _ _ Hd Hw Ho) as Hc. split_and!; [done|done| |].
  - intros E'. by rewrite E' in Hc.
  - intros Hne. destruct (Z.eqb_spec (ld_state (ld_handle x e).1) TYPE_DRY); [done|exact Hc].
Qed.

Lemma consistent_iff (x : D * hw) :
  consistent x -> valid_state (ld_state x.1) /\ (protected x.2 <-> ld_state x.1 <> TYPE_DRY).
Proof.
  intros (_ & V & Hd & Hw). split; [done|]. split; [|exact Hw].
  intros [P1 P2] E. destruct (Hd E) as [U1 _]. by apply U1.
Qed.
End Reaction.
