(* ===== verification/Max20342.v ===== *)
(** * USB-C liquid detection (drivers/usb/typec/max20342/max20342.c)

    The driver measures the two SBU pins periodically, publishes dry, wet or
    wet-with-VBUS through a switch device and, while wet, keeps the port a sink
    and limits the input current. *)

From Stdlib Require Import String Btauto.
From stdpp Require Import base tactics numbers list option gmap.
From S2P Require Import Prelude Kstrtox Printf LdPort.

(** ** Registers and constants (max20342.h) *)

Definition REVISION_ID : Z := 0x00.
Definition COMMON_MASK : Z := 0x0C.
Definition CC_MASK : Z := 0x0D.
Definition BC_MASK : Z := 0x0E.
Definition OVP_MASK : Z := 0x0F.
Definition RES_MASK1 : Z := 0x10.
Definition RES_MASK2 : Z := 0x11.
Definition COMM_CTRL1 : Z := 0x15.
Definition COMM_CTRL3 : Z := 0x19.
Definition CC_CTRL3 : Z := 0x23.
Definition BC_CTRL1 : Z := 0x2B.
Definition RMoistDetVth : Z := 0x50.
Definition MoistDetCtrl : Z := 0x51.
Definition MoistDetPUConfig : Z := 0x52.
Definition MoistDetPDConfig : Z := 0x53.
Definition ADCCtrl1 : Z := 0x5C.
Definition ADCCtrl2 : Z := 0x5D.
Definition ADCResultAvg : Z := 0x60.

Definition mask_int_reg : list Z := [COMMON_MASK; CC_MASK; BC_MASK; OVP_MASK; RES_MASK1; RES_MASK2].

(** [dump_regs]: every register of the map. *)
Definition dump_regs : list Z :=
  [0x00; 0x01; 0x02; 0x03; 0x04; 0x05; 0x06; 0x07; 0x08; 0x09; 0x0A; 0x0B; 0x0C; 0x0D; 0x0E; 0x0F;
   0x10; 0x11; 0x15; 0x16; 0x17; 0x18; 0x19; 0x1A; 0x20; 0x21; 0x22; 0x23; 0x24; 0x25; 0x26; 0x28;
   0x2A; 0x2B; 0x2C; 0x2D; 0x2E; 0x2F; 0x30; 0x31; 0x32; 0x33; 0x34; 0x35; 0x36; 0x37; 0x38; 0x39;
   0x3A; 0x3B; 0x3C; 0x3D; 0x3E; 0x3F; 0x50; 0x51; 0x52; 0x53; 0x54; 0x55; 0x56; 0x57; 0x58; 0x59;
   0x5A; 0x5B; 0x5C; 0x5D; 0x5E; 0x5F; 0x60; 0x61; 0x62; 0x63].

Definition MAX20342_REVISION_ID : Z := 0x01.
Definition TARGET_IPU : Z := 1.
Definition TARGET_RESISTER : Z := 100.
Definition TARGET_VOLTAGE_MAX : Z := 163.
Definition THRESHOLD_L_VAL : Z := 86.
Definition THRESHOLD_H_VAL : Z := 119.
Definition TARGET_ADCGROUNDVTH : Z := 4.

(** ** Register access: the shared code *)

Definition max20342_i2c_read : hw -> Z -> Z -> Z * Z * hw := i2c_read.
Definition max20342_i2c_write : hw -> Z -> Z -> Z * hw := i2c_write.
Definition max20342_read_reg : hw -> Z -> Z -> Z * Z * hw := max20342_i2c_read.
Definition max20342_write_reg : hw -> Z -> Z -> Z * hw := max20342_i2c_write.
Definition max20342_read_interface : hw -> Z -> Z -> Z -> Z * hw := read_interface.
Definition max20342_config_interface : hw -> Z -> Z -> Z -> Z -> hw := config_interface.

(** ** The device *)

(** [struct max20342]: [ld_buffer] is the pair (THRESHOLD_L, THRESHOLD_H),
    [work_interval] the triple (dry, wet, vbus), [det_delay] (sbu1, sbu2). *)
Record max20342 := mkDev {
  target_ipu : Z; target_resister : Z; target_voltage_min : Z; target_voltage_max : Z;
  target_adcgroundvth : Z;
  ipu_result1 : Z; ipu_result2 : Z; adc_result_avg1 : Z; adc_result_avg2 : Z;
  ld_buffer : Z * Z; work_interval : list Z; det_delay : Z * Z;
  mos_is_valid : bool; st_switch : Z; event_ts : Z }.

Definition set_results d i1 i2 a1 a2 : max20342 :=
  mkDev (target_ipu d) (target_resister d) (target_voltage_min d) (target_voltage_max d)
    (target_adcgroundvth d) i1 i2 a1 a2 (ld_buffer d) (work_interval d) (det_delay d)
    (mos_is_valid d) (st_switch d) (event_ts d).
Definition set_targets d ipu vmin vmax : max20342 :=
  mkDev ipu (target_resister d) vmin vmax (target_adcgroundvth d)
    (ipu_result1 d) (ipu_result2 d) (adc_result_avg1 d) (adc_result_avg2 d)
    (ld_buffer d) (work_interval d) (det_delay d) (mos_is_valid d) (st_switch d) (event_ts d).
Definition set_switch d st ts : max20342 :=
  mkDev (target_ipu d) (target_resister d) (target_voltage_min d) (target_voltage_max d)
    (target_adcgroundvth d) (ipu_result1 d) (ipu_result2 d) (adc_result_avg1 d) (adc_result_avg2 d)
    (ld_buffer d) (work_interval d) (det_delay d) (mos_is_valid d) st ts.

#[export] Instance max20342_ld : LdDevice max20342 := {|
  ld_state := st_switch; ld_event_ts := event_ts; ld_publish := set_switch |}.
#[export] Instance max20342_ld_laws : LdDeviceLaws max20342.
Proof. by split. Qed.

(** ** Attributes *)

Definition target_resister_show d := show_d (target_resister d).
Definition target_ipu_show d := show_d (target_ipu d).
Definition target_voltage_min_show d := show_d (target_voltage_min d).
Definition target_voltage_max_show d := show_d (target_voltage_max d).
Definition ipu_result1_show d := show_d (ipu_result1 d).
Definition ipu_result2_show d := show_d (ipu_result2 d).
Definition adc_result_avg1_show d := show_d (adc_result_avg1 d).
Definition adc_result_avg2_show d := show_d (adc_result_avg2 d).

(** A store parses an unsigned number and keeps its low byte. *)
Definition store_u8 d (buff : list Z) (set : Z -> max20342) : max20342 * Z :=
  match kstrtouint buff 0 with
  | inl temp => (set (u8 temp), Z.of_nat (length buff))
  | inr _ => (d, - EINVAL)
  end.
Definition target_ipu_store d buff :=
  store_u8 d buff (fun t => set_targets d t (target_voltage_min d) (target_voltage_max d)).
Definition target_voltage_min_store d buff :=
  store_u8 d buff (fun t => set_targets d (target_ipu d) t (target_voltage_max d)).
Definition target_voltage_max_store d buff :=
  store_u8 d buff (fun t => set_targets d (target_ipu d) (target_voltage_min d) t).

Definition max20342_regdump (h : hw) : hw := (dump_loop dump_regs h 0).2.

Definition regdump_show (h : hw) : list Z * hw :=
  let '(l, h) := dump_loop dump_regs h 0 in (concat (dump_line <$> l), h).

(** [max20342_create_attr]: the attributes in order; the first failure
    removes the ones created so far. *)
Definition attr_names : list string :=
  ["target_resister"; "target_ipu"; "target_voltage_min"; "target_voltage_max"; "ipu_result1";
   "ipu_result2"; "adc_result_avg1"; "adc_result_avg2"; "regdump_liquid"; "resetdev"]%string.

Definition max20342_create_attr (create : string -> Z) : list string * Z :=
  create_files create attr_names [].
Definition max20342_delete_attr : list string -> list string := delete_files attr_names.

(** ** Events, supplies *)

Definition max20342_report_event : max20342 -> hw -> Z -> max20342 * hw := report_event.
Definition max20342_check_vbus_valid : hw -> bool := check_vbus_valid.
Definition max20342_limit_charging_current : hw -> bool -> Z * hw := limit_charging_current.
Definition max20342_select_interval (d : max20342) (state : Z) : Z := select_interval (work_interval d) state.

(** ** Detection *)

Definition max20342_sbu_is_wet (d : max20342) (h : hw) (cur_state : Z) : max20342 * hw :=
  if cur_state =? TYPE_DRY then
    let h := tcpm_typec_change_role h TYPEC_ROLE_SNK in
    let h := (max20342_limit_charging_current h true).2 in
    if max20342_check_vbus_valid h then max20342_report_event d h TYPE_WET_VBUS
    else max20342_report_event d h TYPE_WET
  else if max20342_check_vbus_valid h then
    if negb (cur_state =? TYPE_WET_VBUS) then max20342_report_event d h TYPE_WET_VBUS else (d, h)
  else
    if negb (cur_state =? TYPE_WET) then max20342_report_event d h TYPE_WET else (d, h).

Definition max20342_sbu_is_dry (d : max20342) (h : hw) (cur_state : Z) : max20342 * hw :=
  if negb (cur_state =? TYPE_DRY) then
    let '(d, h) := max20342_report_event d h TYPE_DRY in
    let h := tcpm_typec_change_role h TYPEC_ROLE_TRY_SNK in
    (d, (max20342_limit_charging_current h false).2)
  else (d, h).

(** The chip's answer to a measurement, stored in its result registers while
    the driver sleeps: [ADCCtrl2] and [ADCResultAvg]. *)
Definition sample : Type := Z * Z.
Definition measured (h : hw) (s : sample) : hw := set_reg (set_reg h ADCCtrl2 s.1) ADCResultAvg s.2.

(** Close the switches of one direction, start, sleep and read the result. *)
Definition check_sbu (h : hw) (pull_up pull_down : Z) (s : sample) : Z * Z * hw :=
  let h := max20342_config_interface h MoistDetPUConfig 0x3F 0 pull_up in
  let h := max20342_config_interface h MoistDetPDConfig 0x7F 0 pull_down in
  let h := max20342_config_interface h MoistDetCtrl 0x01 2 0x01 in
  let h := measured h s in
  let '(ipu, h) := max20342_read_interface h ADCCtrl2 0x03 6 in
  let '(adc, h) := max20342_read_interface h ADCResultAvg 0xFF 0 in
  (ipu, adc, h).

Definition SBU1 : Z := 0x04.
Definition SBU2 : Z := 0x08.

Definition max20342_start_detection (d : max20342) (h : hw) (s1 s2 : sample) : max20342 * hw :=
  let h := if mos_is_valid d then set_mos h (mos_high, mos_high) else h in
  let '(i1, a1, h) := check_sbu h SBU1 SBU2 s1 in
  let '(i2, a2, h) := check_sbu h SBU2 SBU1 s2 in
  let h := if mos_is_valid d then set_mos h (mos_low, mos_low) else h in
  (set_results d i1 i2 a1 a2, h).

(** The threshold of the current state, and whether the pins are dry. *)
Definition max20342_get_detection_result (d : max20342) (state : Z) : max20342 * bool :=
  let vmin := if state =? TYPE_DRY then (ld_buffer d).1 else (ld_buffer d).2 in
  let d := set_targets d (target_ipu d) vmin (target_voltage_max d) in
  (d, (ipu_result1 d =? target_ipu d) && (ipu_result2 d =? target_ipu d) &&
      (adc_result_avg1 d <=? target_voltage_max d) && (vmin <=? adc_result_avg1 d) &&
      (adc_result_avg2 d <=? target_voltage_max d) && (vmin <=? adc_result_avg2 d)).

Definition max20342_stop_detection (h : hw) : hw :=
  let h := max20342_config_interface h MoistDetPUConfig 0x3F 0 0 in
  max20342_config_interface h MoistDetPDConfig 0x7F 0 0.

(** The work after [state] was read: the device, the hardware and the seconds
    until the next run. *)
Definition routine_from (state : Z) (d : max20342) (h : hw) (s1 s2 : sample) : max20342 * hw * Z :=
  let '(d, h) := max20342_start_detection d h s1 s2 in
  let '(d, dry) := max20342_get_detection_result d state in
  let '(d, h) := if dry then max20342_sbu_is_dry d h state else max20342_sbu_is_wet d h state in
  let h := max20342_stop_detection h in
  (d, h, max20342_select_interval d state).

Definition max20342_routine_work (running : bool) (d : max20342) (h : hw) (s1 s2 : sample)
  : max20342 * hw * Z :=
  if negb running then (d, h, RECHECK_DELAY_SEC) else routine_from (st_switch d) d h s1 s2.

Definition max20342_vbus_detect : max20342 -> hw -> max20342 * hw := vbus_detect.

(** ** Set-up *)

(** The properties of the device-tree node, [None] when absent. *)
Record dt_node := mkDt {
  dt_work_interval : option (list Z); dt_det_delay : option (Z * Z);
  dt_target_ipu : option Z; dt_target_resister : option Z; dt_ld_buffer : option (Z * Z);
  dt_target_voltage_max : option Z; dt_target_adcgroundvth : option Z }.

(** On a zeroed device; without [ld_buffer] the low threshold is written
    twice and the high one keeps its zero. *)
Definition max20342_parse_dt (np : dt_node) (mos_valid : bool) : max20342 :=
  mkDev (default TARGET_IPU (dt_target_ipu np))
        (default TARGET_RESISTER (dt_target_resister np))
        0
        (default TARGET_VOLTAGE_MAX (dt_target_voltage_max np))
        (default TARGET_ADCGROUNDVTH (dt_target_adcgroundvth np))
        0 0 0 0
        (match dt_ld_buffer np with
         | Some b => b
         | None => let L := THRESHOLD_L_VAL in let L := THRESHOLD_H_VAL in (L, 0)
         end)
        (default [15; 30; 60] (dt_work_interval np))
        (default (300, 300) (dt_det_delay np))
        mos_valid TYPE_DRY 0.

(** The writes that mask the interrupts stop at the first failure. *)
Fixpoint mask_all (rs : list Z) (h : hw) : bool * hw :=
  match rs with
  | [] => (true, h)
  | r :: rs =>
    let '(ret, h) := max20342_write_reg h r 0 in
    if ret <? 0 then (false, h) else mask_all rs h
  end.

Definition max20342_init (d : max20342) (h : hw) : max20342 * hw * Z :=
  let d := set_results d 0 0 0 0 in
  let h := max20342_config_interface h MoistDetCtrl 0x01 2 0 in
  let h := max20342_config_interface h MoistDetCtrl 0x01 4 0 in
  let h := max20342_config_interface h MoistDetCtrl 0x01 3 0 in
  let h := max20342_config_interface h MoistDetPUConfig 0x3F 0 0 in
  let h := max20342_config_interface h MoistDetPDConfig 0x7F 0 0 in
  let '(ok, h) := mask_all mask_int_reg h in
  if negb ok then (d, h, -1) else
  let h := max20342_config_interface h BC_CTRL1 0x01 0 0 in
  let h := max20342_config_interface h CC_CTRL3 0x01 0 0 in
  let h := max20342_config_interface h MoistDetCtrl 0x03 0 (target_ipu d) in
  let h := (max20342_write_reg h RMoistDetVth (target_voltage_min d)).2 in
  let h := max20342_config_interface h ADCCtrl1 0x0F 3 (target_adcgroundvth d) in
  let h := max20342_config_interface h COMM_CTRL1 0x01 2 0x01 in
  let h := max20342_regdump h in
  (d, h, 0).

(** [reset_store]: the routine work is cancelled, the chip reset and set up
    again and the switch set to dry; then the work is queued. *)
Definition reset_store (reset_regs : gmap Z Z) (d : max20342) (h : hw) : max20342 * hw :=
  let '(ret, h) := max20342_write_reg h COMM_CTRL3 0x01 in
  let h := sw_reset reset_regs h ret in
  let '(d, h, _) := max20342_init d h in
  (set_switch d TYPE_DRY (event_ts d), h).

(** ** Probe and shutdown *)

(** The answers of the kernel during a probe. *)
Record probe_env := mkEnv {
  functionality : bool; kzalloc_ok : bool; tcpc : bool; charger : bool; pinctrl_ok : bool;
  switch_ret : Z; create : string -> Z }.

(** [max20342_pinctrl_init] drives both pins to their initial state. *)
Definition max20342_pinctrl_init (e : probe_env) (h : hw) : bool * hw :=
  if pinctrl_ok e then (true, set_mos h (mos_init, mos_init)) else (false, h).

Definition max20342_i2c_probe (e : probe_env) (np : dt_node) (h : hw) : attached max20342 * hw * Z :=
  if negb (functionality e) then (detached, h, - ENODEV)
  else if negb (kzalloc_ok e) then (detached, h, - ENOMEM)
  else
    let '(_, id_val, h) := max20342_read_reg h REVISION_ID 0 in
    if negb (id_val =? MAX20342_REVISION_ID) then (detached, h, - ENODEV)
    else if negb (tcpc e) then (detached, h, - EPROBE_DEFER)
    else if negb (charger e) then (detached, h, - EPROBE_DEFER)
    else
      let '(mos_valid, h) := max20342_pinctrl_init e h in
      let d := max20342_parse_dt np mos_valid in
      let '(d, h, ret) := max20342_init d h in
      if ret <? 0 then (detached, h, ret)
      else if negb (switch_ret e =? 0) then (detached, h, switch_ret e)
      else
        let '(files, ret) := max20342_create_attr (create e) in
        if ret <? 0 then (detached, h, ret)
        else (mkAtt (Some (set_switch d TYPE_DRY (now h))) true true files true, h, 0).

(** The works are cancelled, the files removed and the memory freed; the
    notifier block stays on the charger's chain and the switch registered. *)
Definition max20342_i2c_shutdown : attached max20342 -> attached max20342 := ld_shutdown attr_names.
Definition max20342_vbus_changed : attached max20342 -> bool := vbus_changed.

(** ** What a detection means *)

(** The pull-up current code and the voltage of a sample. *)
Definition ipu_of (s : sample) : Z := field_get (Z.shiftl 0x03 6) 6 s.1.
Definition adc_of (s : sample) : Z := field_get (Z.shiftl 0xFF 0) 0 s.2.

(** Both pins show the expected current and a voltage in the window of the
    present state. *)
Definition pin_dry (d : max20342) (vmin : Z) (s : sample) : bool :=
  (ipu_of s =? target_ipu d) && (vmin <=? adc_of s) && (adc_of s <=? target_voltage_max d).
Definition threshold (d : max20342) (state : Z) : Z :=
  if state =? TYPE_DRY then (ld_buffer d).1 else (ld_buffer d).2.
Definition is_dry (d : max20342) (state : Z) (s1 s2 : sample) : bool :=
  pin_dry d (threshold d state) s1 && pin_dry d (threshold d state) s2.

(** The published state after a run that starts in [state]. *)
Definition next_state (d : max20342) (h : hw) (state : Z) (s1 s2 : sample) : Z :=
  if is_dry d state s1 s2 then TYPE_DRY
  else if max20342_check_vbus_valid h then TYPE_WET_VBUS else TYPE_WET.

(** ** Lemmas on the bus *)

(** Run the accesses on a bus whose transfers succeed. *)
Ltac bus Hf :=
  unfold max20342_config_interface, max20342_read_interface, max20342_write_reg, max20342_i2c_write;
  run_bus Hf.

(** One direction's measurement on a working bus. *)
Lemma check_sbu_healthy h up down s :
  faults h = [] ->
  exists h', check_sbu h up down s = (ipu_of s, adc_of s, h') /\ same_outside h h' /\ mos h' = mos h.
Proof.
  intros Hf. unfold check_sbu, measured. bus Hf.
  rewrite (reg_set_ne _ ADCResultAvg ADCCtrl2) by done. rewrite !reg_set_eq.
  eexists. split; [reflexivity|]. split; [repeat split|reflexivity].
Qed.

Lemma start_detection_healthy d h s1 s2 :
  faults h = [] ->
  exists h', max20342_start_detection d h s1 s2 =
    (set_results d (ipu_of s1) (ipu_of s2) (adc_of s1) (adc_of s2), h') /\
    same_outside h h' /\ (mos_is_valid d = true -> mos h' = (mos_low, mos_low)).
Proof.
  intros Hf. unfold max20342_start_detection.
  set (h0 := if mos_is_valid d then _ else h).
  assert (H0 : same_outside h h0) by (subst h0; destruct (mos_is_valid d); repeat split).
  destruct (check_sbu_healthy h0 SBU1 SBU2 s1) as (h1 & E1 & S1 & _); [by destruct H0 as [-> _]|].
  rewrite E1. pose proof (same_outside_trans _ _ _ H0 S1) as H1.
  destruct (check_sbu_healthy h1 SBU2 SBU1 s2) as (h2 & E2 & S2 & _); [by destruct H1 as [-> _]|].
  rewrite E2. pose proof (same_outside_trans _ _ _ H1 S2) as H2.
  eexists; split; [reflexivity|]. split.
  - destruct (mos_is_valid d); [|done]. apply (same_outside_trans _ h2); [done|repeat split].
  - by intros ->.
Qed.

(** After the detection every pull-up and pull-down switch is open. *)
Lemma stop_detection_healthy h :
  faults h = [] ->
  same_outside h (max20342_stop_detection h) /\
  mos (max20342_stop_detection h) = mos h /\
  Z.land (reg (max20342_stop_detection h) MoistDetPUConfig) 0x3F = 0 /\
  Z.land (reg (max20342_stop_detection h) MoistDetPDConfig) 0x7F = 0.
Proof.
  intros Hf. unfold max20342_stop_detection. bus Hf.
  split; [repeat split|]. split; [done|]. split.
  - rewrite reg_set_ne by done. rewrite reg_set_eq. by apply config_clears.
  - rewrite reg_set_eq. by apply config_clears.
Qed.

(** ** Lemmas on the reaction *)

Definition same_config (d d' : max20342) : Prop :=
  target_ipu d' = target_ipu d /\ target_voltage_max d' = target_voltage_max d /\
  ld_buffer d' = ld_buffer d /\ work_interval d' = work_interval d /\
  mos_is_valid d' = mos_is_valid d.

Lemma same_config_trans d1 d2 d3 : same_config d1 d2 -> same_config d2 d3 -> same_config d1 d3.
Proof. unfold same_config; intros; destruct_and!; repeat split; congruence. Qed.

Lemma same_config_refl d : same_config d d.
Proof. repeat split. Qed.
#[local] Hint Resolve same_config_refl : core.

Lemma is_dry_config d d' st s1 s2 : same_config d d' -> is_dry d' st s1 s2 = is_dry d st s1 s2.
Proof.
  intros (Hi & Hv & Hl & _). unfold is_dry, pin_dry, threshold. by rewrite Hi, Hv, Hl.
Qed.

Lemma report_event_config d h e : same_config d (report_event d h e).1.
Proof. unfold report_event. destruct (negb _); repeat split. Qed.

(** The reaction to a verdict reached in the published state. *)
Definition react (dry : bool) (d : max20342) (h : hw) (state : Z) : max20342 * hw :=
  if dry then max20342_sbu_is_dry d h state else max20342_sbu_is_wet d h state.

Lemma react_spec dry d h r :
  bat_psy h = Some r -> 0 <= r -> valid_state (st_switch d) ->
  st_switch (react dry d h (st_switch d)).1 = (if dry then TYPE_DRY else wet_state h) /\
  same_config d (react dry d h (st_switch d)).1 /\
  let h' := (react dry d h (st_switch d)).2 in
  regs h' = regs h /\ faults h' = faults h /\ mos h' = mos h /\
  (role h', iusb h') = next_outputs dry (st_switch d) h /\
  chg_psy h' = chg_psy h /\ bat_psy h' = bat_psy h.
Proof.
  intros Hb Hr Hst.
  assert (Hl : forall h' en, bat_psy h' = bat_psy h ->
    (limit_charging_current h' en).2 = set_iusb h' (if en then IUSB_LIMITATION_UA else -1)).
  { intros h' en Hb'. unfold limit_charging_current. rewrite Hb', Hb. by destruct (Z.ltb_spec r 0); [lia|]. }
  assert (Hv : forall r0 l, check_vbus_valid (set_iusb (tcpm_typec_change_role h r0) l)
                       = check_vbus_valid h) by reflexivity.
  unfold react, max20342_sbu_is_dry, max20342_sbu_is_wet, wet_state, max20342_limit_charging_current,
    next_outputs, max20342_report_event, max20342_check_vbus_valid.
  rewrite Hl, Hv by done. unfold report_event. cbn [ld_state max20342_ld].
  destruct Hst as [Hst | [Hst | Hst]], dry, (check_vbus_valid h); rewrite Hst;
    cbn -[limit_charging_current]; rewrite ?Hl by done; rewrite ?Hst; repeat split; congruence.
Qed.

(** The whole run, as the specification of its effects. *)
Lemma routine_spec d h s1 s2 :
  healthy h -> valid_state (st_switch d) ->
  exists d' h', max20342_routine_work true d h s1 s2 =
    (d', h', max20342_select_interval d (st_switch d)) /\
  st_switch d' = next_state d h (st_switch d) s1 s2 /\
  (role h', iusb h') = next_outputs (is_dry d (st_switch d) s1 s2) (st_switch d) h /\
  Z.land (reg h' MoistDetPUConfig) 0x3F = 0 /\ Z.land (reg h' MoistDetPDConfig) 0x7F = 0 /\
  (mos_is_valid d = true -> mos h' = (mos_low, mos_low)) /\
  same_config d d' /\ healthy h' /\ chg_psy h' = chg_psy h.
Proof.
  intros [Hf (r & Hb & Hr)] Hst. unfold max20342_routine_work, routine_from; cbn [negb].
  destruct (start_detection_healthy d h s1 s2 Hf) as (h1 & E1 & S1 & M1). rewrite E1.
  destruct S1 as (F1 & R1 & I1 & C1 & B1 & N1 & T1).
  cbn [max20342_get_detection_result]. unfold max20342_get_detection_result.
  set (d1 := set_targets _ _ _ _).
  set (dry := _ && _ && _ && _ && _ && _).
  assert (Hdry : dry = is_dry d (st_switch d) s1 s2).
  { subst dry. unfold is_dry, pin_dry, threshold. cbn. btauto. }
  change (st_switch d) with (st_switch d1) at 1 2.
  destruct (react_spec dry d1 h1 r) as (Est & Ecfg & Er & Ef & Em & Eo & Ec & Eb);
    [congruence | done | exact Hst |].
  unfold react in *.
  destruct (if dry then max20342_sbu_is_dry d1 h1 (st_switch d1) else _) as [d2 h2].
  cbn [fst snd] in *.
  destruct (stop_detection_healthy h2) as (S3 & M3 & PU & PD); [congruence|].
  destruct S3 as (F3 & R3 & I3 & C3 & B3 & N3 & T3).
  exists d2, (max20342_stop_detection h2).
  split.
  { f_equal. destruct Ecfg as (_ & _ & _ & W & _). unfold max20342_select_interval, select_interval.
    rewrite W. reflexivity. }
  split. { rewrite Est. unfold next_state, wet_state, max20342_check_vbus_valid, check_vbus_valid. by rewrite C1, Hdry. }
  split. { rewrite R3, I3, Eo, Hdry. unfold next_outputs. by rewrite R1, I1. }
  split; [done|]. split; [done|]. split; [intros Hm; rewrite M3, Em; auto|].
  split; [destruct Ecfg as (? & ? & ? & ? & ?); by repeat split|].
  split; [split; [congruence|exists r; split; [congruence|done]]|congruence].
Qed.

(** ** Runs and events *)

(** One run of the work under unchanging pins and supply. *)
Definition run (s1 s2 : sample) (x : max20342 * hw) : max20342 * hw :=
  (max20342_routine_work true x.1 x.2 s1 s2).1.

(** What can happen between two instants at which no handler is running: what the
    driver serves, and a write of the attribute "resetdev" ([reset_regs]: the
    registers of the chip after its reset). *)
Inductive served :=
| EvRoutine (running : bool) (s1 s2 : sample)
| EvVbus
| EvSupply (v : option (Z + Z))
| EvStoreIpu (buff : list Z)
| EvStoreMin (buff : list Z)
| EvStoreMax (buff : list Z).
Inductive event := Served (e : served) | EvResetdev (reset_regs : gmap Z Z).

Definition serve (x : max20342 * hw) (e : served) : max20342 * hw :=
  let '(d, h) := x in
  match e with
  | EvRoutine running s1 s2 => (max20342_routine_work running d h s1 s2).1
  | EvVbus => max20342_vbus_detect d h
  | EvSupply v => (d, set_chg h v)
  | EvStoreIpu buff => ((target_ipu_store d buff).1, h)
  | EvStoreMin buff => ((target_voltage_min_store d buff).1, h)
  | EvStoreMax buff => ((target_voltage_max_store d buff).1, h)
  end.
Definition handle (x : max20342 * hw) (e : event) : max20342 * hw :=
  match e with Served e => serve x e | EvResetdev reset_regs => reset_store reset_regs x.1 x.2 end.

Lemma next_state_valid d h st s1 s2 : valid_state (next_state d h st s1 s2).
Proof.
  unfold next_state, valid_state. destruct (is_dry _ _ _ _), (max20342_check_vbus_valid h); auto.
Qed.

Lemma run_spec d h s1 s2 :
  healthy h -> valid_state (st_switch d) ->
  let x := run s1 s2 (d, h) in
  st_switch x.1 = next_state d h (st_switch d) s1 s2 /\
  (role x.2, iusb x.2) = next_outputs (is_dry d (st_switch d) s1 s2) (st_switch d) h /\
  same_config d x.1 /\ healthy x.2 /\ chg_psy x.2 = chg_psy h /\ valid_state (st_switch x.1).
Proof.
  intros Hh Hst. unfold run; cbn [fst snd].
  destruct (routine_spec d h s1 s2 Hh Hst) as (d' & h' & -> & E & O & _ & _ & _ & C & Hh' & Hc).
  cbn [fst snd]. split_and!; try done. rewrite E. apply next_state_valid.
Qed.

Lemma next_state_ext d d' h h' st s1 s2 :
  same_config d d' -> chg_psy h' = chg_psy h -> next_state d' h' st s1 s2 = next_state d h st s1 s2.
Proof.
  intros Hc Hp. unfold next_state, max20342_check_vbus_valid, check_vbus_valid.
  rewrite (is_dry_config d d') by done. by rewrite Hp.
Qed.

(** What every run preserves. *)
Lemma runs_inv n d h s1 s2 :
  healthy h -> valid_state (st_switch d) ->
  let x := Nat.iter n (run s1 s2) (d, h) in
  same_config d x.1 /\ healthy x.2 /\ chg_psy x.2 = chg_psy h /\ valid_state (st_switch x.1).
Proof.
  intros Hh Hst. cbv zeta. induction n as [|n IH]; [split_and!; done|]. rewrite Nat.iter_succ.
  destruct (Nat.iter n (run s1 s2) (d, h)) as [d1 h1]. destruct IH as (C & H1 & P & V).
  destruct (run_spec d1 h1 s1 s2 H1 V) as (_ & _ & C' & H2 & P' & V').
  split_and!; try done; [exact (same_config_trans _ _ _ C C') | by rewrite P'].
Qed.

(** The next run seen from the configuration of the first one. *)
Lemma runs_step n d h s1 s2 :
  healthy h -> valid_state (st_switch d) ->
  let x := Nat.iter n (run s1 s2) (d, h) in
  let y := Nat.iter (S n) (run s1 s2) (d, h) in
  st_switch y.1 = next_state d h (st_switch x.1) s1 s2 /\
  (role y.2, iusb y.2) = next_outputs (is_dry d (st_switch x.1) s1 s2) (st_switch x.1) x.2.
Proof.
  intros Hh Hst. destruct (runs_inv n d h s1 s2 Hh Hst) as (C & H1 & P & V).
  cbv zeta in *. rewrite Nat.iter_succ. destruct (Nat.iter n (run s1 s2) (d, h)) as [d1 h1]. cbn [fst snd] in *.
  destruct (run_spec d1 h1 s1 s2 H1 V) as (E & O & _). rewrite E, O.
  rewrite (next_state_ext d d1 h h1) by done. by rewrite (is_dry_config d d1) by done.
Qed.

(** With ordered thresholds the verdict does not depend on the history. *)
Lemma next_state_idem d h st s1 s2 :
  (ld_buffer d).1 <= (ld_buffer d).2 -> valid_state st ->
  next_state d h (next_state d h st s1 s2) s1 s2 = next_state d h st s1 s2.
Proof.
  intros Hl Hst. unfold next_state at 1 3.
  assert (Hw : forall s, s <> TYPE_DRY -> is_dry d s s1 s2 = is_dry d TYPE_WET s1 s2).
  { intros s Hs. unfold is_dry, threshold. by rewrite (proj2 (Z.eqb_neq _ _) Hs). }
  assert (Hmono : is_dry d TYPE_WET s1 s2 = true -> is_dry d TYPE_DRY s1 s2 = true).
  { unfold is_dry, pin_dry, threshold. cbn. intros H. zcases_in H; cbn in H; try discriminate;
      rewrite ?Bool.andb_false_r in H; try discriminate; zcases; cbn; lia || done. }
  unfold next_state. destruct (decide (st = TYPE_DRY)) as [->|Hn].
  - destruct (is_dry d TYPE_DRY s1 s2) eqn:E; [by rewrite E|].
    destruct (is_dry d (if max20342_check_vbus_valid h then TYPE_WET_VBUS else TYPE_WET) s1 s2) eqn:E2; [|done].
    rewrite Hw in E2 by (destruct (max20342_check_vbus_valid h); done). apply Hmono in E2. congruence.
  - rewrite (Hw st) by done. destruct (is_dry d TYPE_WET s1 s2) eqn:E; [by rewrite Hmono|].
    by rewrite Hw by (destruct (max20342_check_vbus_valid h); done).
Qed.

(** ** Lemmas on events *)

(** Everything that is served keeps the interface's promise. *)
Lemma serve_ok (x : max20342 * hw) e :
  healthy x.2 -> valid_state (st_switch x.1) ->
  let y := serve x e in
  healthy y.2 /\ valid_state (st_switch y.1) /\
  (role y.2, iusb y.2) = next_outputs (st_switch y.1 =? TYPE_DRY) (st_switch x.1) x.2.
Proof.
  destruct x as [d h]. intros Hh Hst. cbn [fst snd] in *.
  assert (Hsame : forall h', healthy h' -> role h' = role h -> iusb h' = iusb h ->
    healthy h' /\ valid_state (st_switch d) /\
    (role h', iusb h') = next_outputs (st_switch d =? TYPE_DRY) (st_switch d) h).
  { intros h' H' R I. split_and!; [done|done|]. unfold next_outputs. rewrite R, I.
    by destruct (st_switch d =? TYPE_DRY). }
  destruct e as [running s1 s2| | v|buff|buff|buff]; cbn [serve].
  - destruct running; [|by apply Hsame].
    destruct (run_spec d h s1 s2 Hh Hst) as (E & O & _ & H' & _ & V). unfold run in *. cbn [fst snd] in *.
    split_and!; [done|done|]. rewrite O, E. f_equal. unfold next_state.
    by destruct (is_dry d (st_switch d) s1 s2), (max20342_check_vbus_valid h).
  - exact (vbus_detect_ok d h Hh Hst).
  - by apply Hsame.
  - unfold target_ipu_store, store_u8. destruct (kstrtouint buff 0); by apply Hsame.
  - unfold target_voltage_min_store, store_u8. destruct (kstrtouint buff 0); by apply Hsame.
  - unfold target_voltage_max_store, store_u8. destruct (kstrtouint buff 0); by apply Hsame.
Qed.

#[export] Instance max20342_driver : LdDriver max20342 served := serve.
#[export] Instance max20342_driver_laws : LdDriverLaws max20342 served.
Proof. exact serve_ok. Qed.

Lemma mask_all_healthy rs h :
  faults h = [] -> exists h', mask_all rs h = (true, h') /\ same_outside h h' /\ mos h' = mos h.
Proof.
  revert h. induction rs as [|r rs IH]; intros h Hf; cbn [mask_all]; [by exists h|].
  unfold max20342_write_reg. rewrite write_healthy by done.
  destruct (IH (set_reg h r 0)) as (h' & E & S & M); [done|]. exists h'. rewrite E. by split_and!.
Qed.

Lemma init_healthy d h :
  faults h = [] ->
  exists h', max20342_init d h = (set_results d 0 0 0 0, h', 0) /\ same_outside h h' /\ mos h' = mos h.
Proof.
  intros Hf. unfold max20342_init. bus Hf.
  match goal with |- context [mask_all _ ?x] => destruct (mask_all_healthy mask_int_reg x Hf) as (h1 & E & S & M) end.
  rewrite E. cbn [negb]. destruct S as (F1 & R1 & I1 & C1 & B1 & N1 & T1).
  assert (Hf1 : faults h1 = []) by (rewrite F1; exact Hf).
  bus Hf1. cbn [snd]. bus Hf1.
  unfold max20342_regdump. rewrite dump_healthy by exact Hf1.
  eexists. split; [reflexivity|]. split; [|exact M]. repeat split; cbn; assumption.
Qed.

Lemma reset_healthy reset_regs d h :
  faults h = [] ->
  exists h', reset_store reset_regs d h = (set_switch (set_results d 0 0 0 0) TYPE_DRY (event_ts d), h') /\
  same_outside h h'.
Proof.
  intros Hf. unfold reset_store, max20342_write_reg. rewrite write_healthy by done. cbn [sw_reset].
  match goal with |- context [max20342_init d ?x] => destruct (init_healthy d x Hf) as (h' & E & S & _) end.
  rewrite E. exists h'. by split.
Qed.

(** ** Resets of the device *)

(** Whether a reset of the device while a wet state was published has left the
    port limited, and no wet state has been published since. *)
Fixpoint left_limited (x : max20342 * hw) (left : bool) (es : list event) : bool :=
  match es with
  | [] => left
  | e :: es =>
    let y := handle x e in
    left_limited y (match e with
      | Served _ => left && (st_switch y.1 =? TYPE_DRY)
      | EvResetdev _ => left || negb (st_switch x.1 =? TYPE_DRY)
      end) es
  end.

(** The port and the published state, given what resets have left. *)
Definition agrees (left : bool) (x : max20342 * hw) : Prop :=
  healthy x.2 /\ valid_state (st_switch x.1) /\ (left = true -> st_switch x.1 = TYPE_DRY) /\
  if negb (st_switch x.1 =? TYPE_DRY) || left then protected x.2 else unprotected x.2.

Lemma handle_agrees left x e : agrees left x ->
  agrees (match e with
    | Served _ => left && (st_switch (handle x e).1 =? TYPE_DRY)
    | EvResetdev _ => left || negb (st_switch x.1 =? TYPE_DRY)
    end) (handle x e).
Proof.
  intros (Hh & Hv & Hl & Hp). destruct e as [e|regs]; cbn [handle].
  - destruct (serve_ok x e Hh Hv) as (Hh' & Hv' & Ho). set (y := serve x e) in *. clearbody y. split_and!; [done|done| |].
    + intros [_ E%Z.eqb_eq]%andb_true_iff. exact E.
    + unfold next_outputs, protected, unprotected in *.
      destruct (Z.eqb_spec (st_switch x.1) TYPE_DRY) as [E|N], (Z.eqb_spec (st_switch y.1) TYPE_DRY), left; cbn [negb orb andb] in *;
        injection Ho as -> ->; first [done | exfalso; by apply N, Hl | by split].
  - destruct x as [d h]. cbn [fst snd] in *. destruct Hh as [Hf (r & Hb & Hr)]. destruct (reset_healthy regs d h Hf) as (h1 & E & F1 & R1 & I1 & C1 & B1 & _). rewrite E.
    split_and!; [split; [cbn; congruence|]; exists r; split; [cbn; congruence|done]|by left|done|].
    cbn [fst snd st_switch set_switch set_results]. rewrite Z.eqb_refl. cbn [negb orb]. unfold protected, unprotected in *. rewrite R1, I1.
    destruct (st_switch d =? TYPE_DRY), left; cbn [negb orb] in *; done.
Qed.

Lemma events_agree es : forall left x, agrees left x -> agrees (left_limited x left es) (foldl handle x es).
Proof. induction es as [|e es IH]; intros left x Hx; [done|]. cbn [left_limited foldl]. by apply IH, handle_agrees. Qed.

Lemma no_reset_no_limit es : forall x, Forall (fun e => match e with Served _ => True | _ => False end) es -> left_limited x false es = false.
Proof. induction es as [|e es IH]; intros x He; [done|]. apply Forall_cons_1 in He as [He Hes]. destruct e; [|done]. cbn [left_limited andb]. by apply IH. Qed.

(** ** Properties *)

(** C24. One run of the detection work, on a working bus and from any published
    state: both pins are measured with the other as ground, the verdict is
    the one of the present state's threshold, the published state becomes dry,
    wet or wet-with-VBUS accordingly, the port's role and the current limit
    change only on the way into and out of dry, all switches are left open and
    the pins low, and the next run is due after the interval of the OLD state. *)
Theorem routine_refines d h s1 s2 :
  healthy h -> valid_state (st_switch d) ->
  exists d' h', max20342_routine_work true d h s1 s2 =
    (d', h', max20342_select_interval d (st_switch d)) /\
  st_switch d' = next_state d h (st_switch d) s1 s2 /\
  (role h', iusb h') = next_outputs (is_dry d (st_switch d) s1 s2) (st_switch d) h /\
  Z.land (reg h' MoistDetPUConfig) 0x3F = 0 /\ Z.land (reg h' MoistDetPDConfig) 0x7F = 0 /\
  (mos_is_valid d = true -> mos h' = (mos_low, mos_low)).
Proof.
  intros Hh Hst. destruct (routine_spec d h s1 s2 Hh Hst) as (d' & h' & E & S & O & PU & PD & M & _).
  exists d', h'. by split_and!.
Qed.

(** C31. With the low threshold below the high one the detection does not
    oscillate: under unchanging pins and supply the first run decides and
    every later run, however many, keeps its state. *)
Theorem hysteresis_settles d h s1 s2 n :
  healthy h -> valid_state (st_switch d) -> (ld_buffer d).1 <= (ld_buffer d).2 ->
  st_switch (Nat.iter (S n) (run s1 s2) (d, h)).1 = next_state d h (st_switch d) s1 s2.
Proof.
  intros Hh Hst Hl. induction n as [|n IH].
  - exact (proj1 (runs_step 0 d h s1 s2 Hh Hst)).
  - rewrite (proj1 (runs_step (S n) d h s1 s2 Hh Hst)), IH. by apply next_state_idem.
Qed.

(** With the built-in thresholds (no "ld_buffer" in the device tree) the
    high threshold is 0: pins at a constant voltage below the 119 of the low
    one make every run flip the published state, the port's role and the
    current limit, for ever. *)
Theorem default_buffer_oscillates np mos_valid h s1 s2 n :
  let d := max20342_parse_dt np mos_valid in
  healthy h -> dt_ld_buffer np = None ->
  ipu_of s1 = target_ipu d -> ipu_of s2 = target_ipu d ->
  0 <= adc_of s1 < THRESHOLD_H_VAL -> 0 <= adc_of s2 ->
  adc_of s1 <= target_voltage_max d -> adc_of s2 <= target_voltage_max d ->
  st_switch (Nat.iter n (run s1 s2) (d, h)).1 = (if Nat.even n then TYPE_DRY else wet_state h) /\
  iusb (Nat.iter (S n) (run s1 s2) (d, h)).2 =
    Some (if Nat.even n then IUSB_LIMITATION_UA else -1).
Proof.
  intros d Hh Hnone I1 I2 A1 A2 M1 M2.
  assert (Hst : valid_state (st_switch d)) by (left; done).
  assert (Hl : ld_buffer d = (THRESHOLD_H_VAL, 0)) by (subst d; unfold max20342_parse_dt; cbn; by rewrite Hnone).
  assert (Hdry : is_dry d TYPE_DRY s1 s2 = false).
  { unfold is_dry, pin_dry, threshold. rewrite Hl. cbn. rewrite (proj2 (Z.leb_gt 119 _)) by (unfold THRESHOLD_H_VAL in *; lia).
    by rewrite Bool.andb_false_r. }
  assert (Hwet : forall s, s <> TYPE_DRY -> is_dry d s s1 s2 = true).
  { intros s Hs. unfold is_dry, pin_dry, threshold. rewrite (proj2 (Z.eqb_neq s _) Hs), Hl. cbn [snd].
    rewrite I1, I2, Z.eqb_refl. zcases; cbn; lia || done. }
  assert (Hw : wet_state h <> TYPE_DRY) by apply wet_state_wet.
  assert (Hs : forall k, st_switch (Nat.iter k (run s1 s2) (d, h)).1 = (if Nat.even k then TYPE_DRY else wet_state h)).
  { induction k as [|k IH]; [done|]. rewrite (proj1 (runs_step k d h s1 s2 Hh Hst)), IH.
    rewrite Nat.even_succ, <- Nat.negb_even. unfold next_state. destruct (Nat.even k); cbn [negb].
    - by rewrite Hdry.
    - by rewrite (Hwet _ Hw). }
  split; [apply Hs|]. pose proof (proj2 (runs_step n d h s1 s2 Hh Hst)) as O. rewrite Hs in O.
  unfold next_outputs in O. destruct (Nat.even n).
  - rewrite Hdry in O. cbn in O. by injection O.
  - rewrite (Hwet _ Hw), (proj2 (Z.eqb_neq _ _) Hw) in O. by injection O.
Qed.

(** C20. On a working bus, with a battery that accepts limits, and whatever
    sequence of runs, VBUS works, supply changes, attribute writes and resets of
    the device is handled one after the other: while a wet state is published the
    port is a limited sink, and while dry is published it is not, but for what a
    reset leaves: after a write of "resetdev" while wet, which publishes dry, the
    port stays limited until a wet state has been published again. *)
Theorem protection_follows_switch d h es :
  consistent (d, h) ->
  let x := foldl handle (d, h) es in
  valid_state (st_switch x.1) /\
  (protected x.2 <-> st_switch x.1 <> TYPE_DRY \/ left_limited (d, h) false es = true) /\
  (Forall (fun e => match e with Served _ => True | EvResetdev _ => False end) es -> protected x.2 <-> st_switch x.1 <> TYPE_DRY).
Proof.
  intros (Hh & Hv & Hd & Hw). assert (H0 : agrees false (d, h)).
  { split_and!; [done|done|done|]. cbn [ld_state max20342_ld fst snd] in *. destruct (Z.eqb_spec (st_switch d) TYPE_DRY); cbn [negb orb]; auto. }
  apply (events_agree es) in H0. cbv zeta. set (x := foldl handle (d, h) es) in *. destruct H0 as (_ & Hv' & _ & Hp).
  assert (Hi : protected x.2 <-> st_switch x.1 <> TYPE_DRY \/ left_limited (d, h) false es = true).
  { destruct (Z.eqb_spec (st_switch x.1) TYPE_DRY), (left_limited (d, h) false es); cbn [negb orb] in Hp; split; auto.
    - intros [P _]. by destruct Hp as [U _].
    - intros [|]; done. }
  split; [done|]. split; [exact Hi|]. intros He. rewrite Hi, no_reset_no_limit by done. split; [by intros [|]|by left].
Qed.

(** The "resetdev" attribute written while wet publishes dry but leaves
    the port a limited sink, and no number of dry runs lifts the limit. *)
Theorem reset_keeps_limit reset_regs d h ss :
  healthy h -> st_switch d <> TYPE_DRY -> protected h ->
  Forall (fun s => is_dry d TYPE_DRY s.1 s.2 = true) ss ->
  let x := foldl (fun x s => run s.1 s.2 x) (reset_store reset_regs d h) ss in
  st_switch x.1 = TYPE_DRY /\ protected x.2.
Proof.
  intros [Hf (r & Hb & Hr)] Hs Hp Hss.
  destruct (reset_healthy reset_regs d h Hf) as (h1 & E & F1 & R1 & I1 & C1 & B1 & _). rewrite E.
  assert (Hinv : forall ss x, Forall (fun s => is_dry d TYPE_DRY s.1 s.2 = true) ss ->
    same_config d x.1 -> healthy x.2 -> st_switch x.1 = TYPE_DRY -> protected x.2 ->
    let y := foldl (fun x s => run s.1 s.2 x) x ss in st_switch y.1 = TYPE_DRY /\ protected y.2).
  { induction ss0 as [|s ss0 IH]; intros [d0 h0] Hall C Hh Hst Hpr; [done|]. cbn [foldl fst snd] in *.
    apply Forall_cons_1 in Hall as [Hdry Hall].
    destruct (run_spec d0 h0 s.1 s.2 Hh) as (E1 & O1 & C' & H' & _); [left; done|].
    rewrite Hst in E1, O1. unfold next_state in E1. rewrite (is_dry_config d d0) in E1, O1 by done.
    rewrite Hdry in E1, O1. apply IH; try done; [exact (same_config_trans _ _ _ C C')|].
    cbn in O1. injection O1 as O1 O2. unfold protected in *. by rewrite O1, O2. }
  apply Hinv; [done| by repeat split | | done | destruct Hp; split; cbn; congruence].
  split; [cbn; congruence|]. exists r. split; [cbn; congruence|done].
Qed.

(** The VBUS work is not ordered with the detection: if it reads "wet"
    before a run that finds the pins dry and reports after it, the published
    state is wet-with-VBUS while the role is restored and the limit lifted, and
    however many runs then find water, the port stays unlimited. *)
Theorem vbus_race_unprotected d h s1 s2 ss :
  consistent (d, h) -> st_switch d = TYPE_WET -> max20342_check_vbus_valid h = true ->
  is_dry d TYPE_WET s1 s2 = true ->
  Forall (fun s => is_dry d TYPE_WET s.1 s.2 = false) ss ->
  let x := run s1 s2 (d, h) in
  let y := foldl (fun x s => run s.1 s.2 x) (vbus_report (vbus_read d h) x.1 x.2) ss in
  st_switch y.1 = TYPE_WET_VBUS /\ unprotected y.2.
Proof.
  intros (Hh & Hst & _ & _) Hw Hv Hdry Hss x. cbn [fst snd] in *.
  destruct (run_spec d h s1 s2 Hh Hst) as (E & O & C & H' & P & V). fold x in E, O, C, H', P, V.
  rewrite Hw, Hdry in O. unfold next_state in E. rewrite Hw, Hdry in E.
  unfold vbus_report, vbus_read. change (ld_state d) with (st_switch d). change (check_vbus_valid h) with (max20342_check_vbus_valid h). rewrite Hw, Hv. cbn [TYPE_WET Z.eqb Pos.eqb].
  pose proof (report_event_state x.1 x.2 TYPE_WET_VBUS) as E2.
  pose proof (report_event_config x.1 x.2 TYPE_WET_VBUS) as C2.
  destruct (report_event_hw x.1 x.2 TYPE_WET_VBUS) as (_ & F2 & _ & R2 & I2 & P2 & B2).
  assert (Hinv : forall ss y, Forall (fun s => is_dry d TYPE_WET s.1 s.2 = false) ss ->
    same_config d y.1 -> healthy y.2 -> chg_psy y.2 = chg_psy h -> st_switch y.1 = TYPE_WET_VBUS ->
    unprotected y.2 ->
    let z := foldl (fun x s => run s.1 s.2 x) y ss in st_switch z.1 = TYPE_WET_VBUS /\ unprotected z.2).
  { induction ss0 as [|s ss0 IH]; intros [d0 h0] Hall Cy Hy Py Sy Uy; [done|]. cbn [foldl fst snd] in *.
    apply Forall_cons_1 in Hall as [Hnd Hall].
    destruct (run_spec d0 h0 s.1 s.2 Hy) as (E1 & O1 & C' & H1 & P1 & _); [right; right; done|].
    assert (Hd0 : is_dry d0 TYPE_WET_VBUS s.1 s.2 = false) by (rewrite (is_dry_config d d0) by done; exact Hnd).
    rewrite Sy in E1, O1. rewrite Hd0 in O1. unfold next_state in E1. rewrite Hd0 in E1.
    assert (Hv0 : max20342_check_vbus_valid h0 = true) by (unfold max20342_check_vbus_valid, check_vbus_valid in *; by rewrite Py).
    rewrite Hv0 in E1. apply IH; try done; [exact (same_config_trans _ _ _ Cy C') | congruence |].
    cbn in O1. injection O1 as O1 O2. unfold unprotected in *. by rewrite O1, O2. }
  destruct H' as [Hf (r & Hb & Hr)].
  apply Hinv; [done | exact (same_config_trans _ _ _ C C2) | | congruence | done |].
  - split; [congruence|]. exists r. split; [congruence|done].
  - injection O as O1 O2. unfold unprotected. rewrite R2, I2, O1, O2. by split.
Qed.

(** A probe that fails leaves nothing attached, one that succeeds attaches
    everything; the shutdown then frees the device while the charger's
    notifier chain still holds its block. *)
Theorem probe_then_shutdown e np h :
  let '(a, _, ret) := max20342_i2c_probe e np h in
  (ret <> 0 -> a = detached) /\
  (ret = 0 -> chg1_nb a = true /\ switch_registered a = true /\ attrs a = attr_names /\
    let b := max20342_i2c_shutdown a in
    attrs b = [] /\ allocated b = false /\ chg1_nb b = true /\
    liquid_dev_event b CHARGER_DEV_NOTIFY_VBUS_EVENT = false).
Proof.
  unfold max20342_i2c_probe. destruct (functionality e); cbn [negb]; [|done].
  destruct (kzalloc_ok e); cbn [negb]; [|done].
  destruct (max20342_read_reg h REVISION_ID 0) as [[? id] h1].
  destruct (Z.eqb_spec id MAX20342_REVISION_ID); cbn [negb]; [|done].
  destruct (tcpc e); cbn [negb]; [|done]. destruct (charger e); cbn [negb]; [|done].
  destruct (max20342_pinctrl_init e h1) as [mv h2].
  destruct (max20342_init (max20342_parse_dt np mv) h2) as [[d h3] ret].
  destruct (Z.ltb_spec ret 0); [split; [done|lia]|].
  destruct (Z.eqb_spec (switch_ret e) 0); cbn [negb]; [|split; done].
  destruct (max20342_create_attr (create e)) as [files ret'] eqn:Ha.
  destruct (Z.ltb_spec ret' 0); [split; [done|lia]|]. split; [done|].
  assert (Hfiles : files = attr_names) by exact (proj1 (created_all _ _ _ _ _ Ha H0)).
  intros _. rewrite Hfiles. by split_and!.
Qed.

(** ** The properties at concrete inputs *)

Definition ex_dt : dt_node := mkDt None None None None (Some (86, 119)) None None.
Definition ex_dev (st : Z) : max20342 := set_switch (max20342_parse_dt ex_dt true) st 0.
Definition ex_hw (r : option typec_role) (l : option Z) (vbus : Z) : hw :=
  mkHw {[ REVISION_ID := 1 ]} [] (mos_init, mos_init) r l (Some (inl vbus)) (Some 0) 0 [].
Definition ex_wet_hw : hw := ex_hw (Some TYPEC_ROLE_SNK) (Some IUSB_LIMITATION_UA) 5000.
Definition ex_dry_pins : sample := (64, 130).
Definition ex_wet_pins : sample := (64, 40).

Lemma ex_healthy r l v : healthy (ex_hw r l v).
Proof. split; [done|]. by exists 0. Qed.

Lemma routine_refines_witness :
  let x := max20342_routine_work true (ex_dev TYPE_DRY) (ex_hw None None 5000) ex_wet_pins ex_dry_pins in
  st_switch x.1.1 = TYPE_WET_VBUS /\ iusb x.1.2 = Some 10000 /\ x.2 = 15.
Proof.
  destruct (routine_refines (ex_dev TYPE_DRY) (ex_hw None None 5000) ex_wet_pins ex_dry_pins
              (ex_healthy _ _ _) (or_introl eq_refl)) as (d' & h' & E & S & O & _).
  rewrite E. cbn [fst snd]. rewrite S. split; [vm_compute; reflexivity|].
  split; [|reflexivity]. exact (f_equal snd O).
Defined.

Lemma hysteresis_settles_witness :
  st_switch (Nat.iter 4 (run (64, 100) (64, 100)) (ex_dev TYPE_WET, ex_wet_hw)).1 = TYPE_WET_VBUS.
Proof.
  rewrite (hysteresis_settles (ex_dev TYPE_WET) ex_wet_hw (64, 100) (64, 100) 3 (ex_healthy _ _ _)
             (or_intror (or_introl eq_refl)) ltac:(vm_compute; discriminate)).
  vm_compute. reflexivity.
Defined.

Lemma default_buffer_oscillates_witness :
  let d := max20342_parse_dt (mkDt None None None None None None None) false in
  st_switch (Nat.iter 7 (run (64, 100) (64, 100)) (d, ex_hw None None 0)).1 = TYPE_WET.
Proof.
  intros d.
  refine (eq_trans (proj1 (default_buffer_oscillates (mkDt None None None None None None None) false
    (ex_hw None None 0) (64, 100) (64, 100) 7 (ex_healthy _ _ _) eq_refl eq_refl eq_refl _ _ _ _)) _);
    try reflexivity; vm_compute; repeat split; discriminate.
Defined.

(** Wet, and reset while wet; at last dry is published and the port is limited. *)
Definition ex_events : list event :=
  [Served (EvRoutine true ex_wet_pins ex_dry_pins); Served (EvSupply None); Served EvVbus; Served (EvStoreIpu (str "1"));
   Served (EvRoutine true ex_wet_pins ex_wet_pins); EvResetdev ∅; Served (EvRoutine true ex_dry_pins ex_dry_pins)].

Lemma protection_follows_switch_witness :
  let x := foldl handle (ex_dev TYPE_DRY, ex_hw None None 5000) ex_events in protected x.2 /\ st_switch x.1 = TYPE_DRY.
Proof.
  destruct (protection_follows_switch (ex_dev TYPE_DRY) (ex_hw None None 5000) ex_events) as (_ & H & _).
  - split; [exact (ex_healthy _ _ _)|]. split; [left; reflexivity|]. split; [intros _; split; discriminate|].
    intros H; destruct (H eq_refl).
  - split; [apply H; right; vm_compute; reflexivity|vm_compute; reflexivity].
Defined.

Lemma reset_keeps_limit_witness :
  let x := foldl (fun x s => run s.1 s.2 x) (reset_store ∅ (ex_dev TYPE_WET) ex_wet_hw)
             [(ex_dry_pins, ex_dry_pins); (ex_dry_pins, ex_dry_pins)] in
  st_switch x.1 = TYPE_DRY /\ iusb x.2 = Some 10000.
Proof.
  destruct (reset_keeps_limit ∅ (ex_dev TYPE_WET) ex_wet_hw
    [(ex_dry_pins, ex_dry_pins); (ex_dry_pins, ex_dry_pins)] (ex_healthy _ _ _)) as [S [_ P]].
  - discriminate.
  - split; reflexivity.
  - repeat constructor.
  - split; [exact S | exact P].
Defined.

Lemma vbus_race_unprotected_witness :
  let x := run ex_dry_pins ex_dry_pins (ex_dev TYPE_WET, ex_wet_hw) in
  let y := foldl (fun x s => run s.1 s.2 x)
             (vbus_report (vbus_read (ex_dev TYPE_WET) ex_wet_hw) x.1 x.2)
             [(ex_wet_pins, ex_wet_pins); (ex_wet_pins, ex_wet_pins)] in
  st_switch y.1 = TYPE_WET_VBUS /\ unprotected y.2.
Proof.
  apply (vbus_race_unprotected (ex_dev TYPE_WET) ex_wet_hw ex_dry_pins ex_dry_pins
           [(ex_wet_pins, ex_wet_pins); (ex_wet_pins, ex_wet_pins)]).
  - split; [exact (ex_healthy _ _ _)|]. split; [right; left; reflexivity|].
    split; [discriminate|]. intros _; split; reflexivity.
  - reflexivity.
  - reflexivity.
  - vm_compute. reflexivity.
  - repeat constructor.
Defined.

Lemma probe_then_shutdown_witness :
  let a := (max20342_i2c_probe (mkEnv true true true true true 0 (fun _ => 0)) ex_dt (ex_hw None None 0)).1.1 in
  attrs a = attr_names /\ chg1_nb (max20342_i2c_shutdown a) = true.
Proof.
  pose proof (probe_then_shutdown (mkEnv true true true true true 0 (fun _ => 0)) ex_dt (ex_hw None None 0)) as H.
  revert H. vm_compute. intros [_ H]. destruct (H eq_refl) as (_ & _ & A & _ & _ & B & _).
  split; [exact A | exact B].
Defined.
