(* ===== verification/VsCooler.v ===== *)
(** * Thermal coolers (drivers/thermal/virtual_sensor_tablet)

    The four cooler drivers (CPU budget, battery charge current, wireless
    charging power, backlight) and the calls of virtual_sensor_interface.c they
    act through. Each driver keeps its coolers on a list sorted by level, and
    applies the strictest. *)

From Stdlib Require Import String.
From stdpp Require Import base tactics numbers list option gmap sorting.
From S2P Require Import Prelude Kstrtox Printf.

(** ** The interface to the kernel's list_sort *)

(** What [list_sort(NULL, head, cmp)] promises for a comparison that is a
    total preorder on the list ([cmp a b <= 0]: [a] may come before [b]). *)
Definition preorder_on (cmp : nat -> nat -> Z) (l : list nat) : Prop :=
  (forall a b, a ∈ l -> b ∈ l -> cmp a b <= 0 \/ cmp b a <= 0) /\
  (forall a b c, a ∈ l -> b ∈ l -> c ∈ l -> cmp a b <= 0 -> cmp b c <= 0 -> cmp a c <= 0).

Class ListSort := {
  list_sort : (nat -> nat -> Z) -> list nat -> list nat;
  list_sort_permutation cmp l : list_sort cmp l ≡ₚ l;
  list_sort_sorted cmp l :
    preorder_on cmp l -> StronglySorted (fun a b => cmp a b <= 0) (list_sort cmp l) }.

(** ** Data (include/linux/thermal_framework.h) *)

Definition THERMAL_MAX_TRIPS : Z := 12.

(** [struct vs_cooler_platform_data]. *)
Record vs_cooler_platform_data := mkPdata {
  type : string; state : Z; max_state : Z; level : Z; thermal_cooler_id : Z; levels : list Z }.

Definition set_state_level (p : vs_cooler_platform_data) (s l : Z) : vs_cooler_platform_data :=
  mkPdata (type p) s (max_state p) l (thermal_cooler_id p) (levels p).
Definition set_levels (p : vs_cooler_platform_data) (ls : list Z) : vs_cooler_platform_data :=
  mkPdata (type p) (state p) (max_state p) (level p) (thermal_cooler_id p) ls.

(** [enum vs_thermal_cooler_id], with the FOD cooler. *)
Definition VS_THERMAL_COOLER_BCCT : Z := 0.
Definition VS_THERMAL_COOLER_BACKLIGHT : Z := 1.
Definition VS_THERMAL_COOLER_BUDGET : Z := 2.
Definition VS_THERMAL_COOLER_WIRELESS_CHG : Z := 3.
Definition VS_THERMAL_COOLER_FOD_WIRELESS_CHG : Z := 4.

(** The coolers of one driver: their data and the order of the driver's list
    ([struct cooler_sort_list] head). *)
Record coolers := mkCoolers { pdatas : list vs_cooler_platform_data; head : list nat }.

Definition get_pdata (c : coolers) (i : nat) : option vs_cooler_platform_data := pdatas c !! i.
Definition set_pdata (c : coolers) (i : nat) (p : vs_cooler_platform_data) : coolers :=
  mkCoolers (<[i := p]> (pdatas c)) (head c).

(** ** The CPU's power limit (virtual_sensor_interface.c, one cluster) *)

Record em_cap_state := mkCap { frequency : Z; power : Z }.

(** [struct vs_cpufreq_cdev]: the policy is its CPUs, the request the largest
    frequency allowed; [None] is a request that is not active. *)
Record vs_cpufreq_cdev := mkCdev {
  max_level : Z; em : list em_cap_state; num_cpus : Z; qos_req : option Z }.

Definition FREQ_QOS_MAX_DEFAULT_VALUE : Z := 2147483647.

(** The answers of cpufreq when the limit is set up: the policy's CPUs, the
    energy model, the valid entries, the allocation, the request's result. *)
Record cpufreq_env := mkCpuEnv {
  policy : option Z; em_cpu : option (list em_cap_state); table_count : Z;
  cdev_alloc : bool; qos_add : Z }.

Definition vs_init_cpufreq_limit_power (e : cpufreq_env) (cdev : option vs_cpufreq_cdev)
  : option vs_cpufreq_cdev * Z :=
  match policy e, em_cpu e with
  | None, _ | _, None => (cdev, -1)
  | Some cpus, Some t =>
    if table_count e =? 0 then (cdev, -1)
    else if negb (cdev_alloc e) then (None, - ENOMEM)
    else
      let qos := if qos_add e <? 0 then None else Some FREQ_QOS_MAX_DEFAULT_VALUE in
      (Some (mkCdev (u32 (table_count e - 1)) t cpus qos), qos_add e)
  end.

(** [freq_qos_update_request]: the value is an [s32]; a request that is not
    active is refused. *)
Definition freq_qos_update_request (c : vs_cpufreq_cdev) (value : Z) : vs_cpufreq_cdev :=
  match qos_req c with
  | None => c
  | Some _ => mkCdev (max_level c) (em c) (num_cpus c) (Some (s32 value))
  end.

(** The loop from [max_level] down to 1: the index it stops at. *)
Fixpoint power_index (table : list em_cap_state) (i : nat) (p : Z) : option nat :=
  match i with
  | O => Some O
  | S j =>
    c ← table !! i;
    if power c <=? p then Some i else power_index table j p
  end.

Definition vs_cpu_power_to_freq (table : list em_cap_state) (max : Z) (p : Z) : option Z :=
  if p =? 0 then frequency <$> table !! Z.to_nat max
  else i ← power_index table (Z.to_nat max) p; frequency <$> table !! i.

(** [set_cpufreq_thermal_power(budget)]; [None]: an access outside the
    table, or a policy without CPUs. Whether the update was refused is not looked
    at. *)
Definition set_cpufreq_thermal_power (e : cpufreq_env) (cdev : option vs_cpufreq_cdev) (budget : Z)
  : option (option vs_cpufreq_cdev * Z) :=
  let budget := u32 budget in
  let '(cdev, ret) := match cdev with
                      | None => vs_init_cpufreq_limit_power e None
                      | Some _ => (cdev, 0)
                      end in
  match cdev with
  | Some c =>
    if num_cpus c =? 0 then None else
    target ← vs_cpu_power_to_freq (em c) (max_level c) (budget / num_cpus c);
    Some (Some (freq_qos_update_request c target), ret)
  | None => Some (None, -1)
  end.

(** ** What the coolers act on *)

(** The CPU limit, the two supplies (absent, or the result of setting a
    property) with the limits last set on them, and the backlight's maximum. *)
Record vs_hw := mkVsHw {
  cpu_env : cpufreq_env; cpufreq_cdev : option vs_cpufreq_cdev;
  bat_psy : option Z; wpc_psy : option Z;
  charge_current : option Z; input_power : option Z; input_current : option Z;
  brightness : option Z }.

Definition set_cpu (h : vs_hw) c : vs_hw :=
  mkVsHw (cpu_env h) c (bat_psy h) (wpc_psy h) (charge_current h) (input_power h) (input_current h) (brightness h).
Definition set_charge_current (h : vs_hw) v : vs_hw :=
  mkVsHw (cpu_env h) (cpufreq_cdev h) (bat_psy h) (wpc_psy h) (Some v) (input_power h) (input_current h) (brightness h).
Definition set_input_power (h : vs_hw) v : vs_hw :=
  mkVsHw (cpu_env h) (cpufreq_cdev h) (bat_psy h) (wpc_psy h) (charge_current h) (Some v) (input_current h) (brightness h).
Definition set_input_current (h : vs_hw) v : vs_hw :=
  mkVsHw (cpu_env h) (cpufreq_cdev h) (bat_psy h) (wpc_psy h) (charge_current h) (input_power h) (Some v) (brightness h).
Definition set_max_brightness (h : vs_hw) v : vs_hw :=
  mkVsHw (cpu_env h) (cpufreq_cdev h) (bat_psy h) (wpc_psy h) (charge_current h) (input_power h) (input_current h) (Some v).

(** [power_supply_set_property] on the battery or the wireless charger. *)
Definition set_on (psy : option Z) (h h' : vs_hw) : vs_hw * Z :=
  match psy with
  | None => (h, -1)
  | Some ret => (if ret <? 0 then h else h', ret)
  end.
Definition set_charging_level_limit (h h' : vs_hw) : vs_hw * Z := set_on (bat_psy h) h h'.
Definition fod_set_charging_level_limit (h h' : vs_hw) : vs_hw * Z := set_on (wpc_psy h) h h'.

(** [vs_set_cooling_level]. *)
Definition vs_set_cooling_level (h : vs_hw) (id level_limit : Z) : option (vs_hw * Z) :=
  if id =? VS_THERMAL_COOLER_BUDGET then
    '(c, ret) ← set_cpufreq_thermal_power (cpu_env h) (cpufreq_cdev h) level_limit;
    Some (set_cpu h c, ret)
  else if id =? VS_THERMAL_COOLER_BCCT then
    Some (set_charging_level_limit h
            (set_charge_current h (if level_limit =? -1 then -1 else s32 (level_limit * 1000))))
  else if id =? VS_THERMAL_COOLER_BACKLIGHT then Some (set_max_brightness h level_limit, 0)
  else if id =? VS_THERMAL_COOLER_WIRELESS_CHG then
    Some (set_charging_level_limit h (set_input_power h level_limit))
  else if id =? VS_THERMAL_COOLER_FOD_WIRELESS_CHG then
    Some (fod_set_charging_level_limit h (set_input_current h level_limit))
  else Some (h, -1).

Section coolers_code.
Context {sort : ListSort}.

(** ** Comparing levels *)

(** [level_cmp]: an entry without data gives [-EINVAL]. *)
Definition level_cmp (c : coolers) (a b : nat) : Z :=
  match get_pdata c a, get_pdata c b with
  | Some pa, Some pb => s32 (level pa - level pb)
  | _, _ => - EINVAL
  end.

(** [thermal_level_compare]: sort the list, the first or the last level; the
    head of an empty list has no data. *)
Definition thermal_level_compare (c : coolers) (positive_seq : bool) : coolers * Z :=
  let l := list_sort (level_cmp c) (head c) in
  (mkCoolers (pdatas c) l,
   match (if positive_seq then l !! 0%nat else last l) ≫= get_pdata c with
   | Some p => level p
   | None => - EINVAL
   end).

(** ** The states of a cooler *)

Definition get_max_state (c : coolers) (i : nat) : option Z := max_state <$> get_pdata c i.
Definition get_cur_state (c : coolers) (i : nat) : option Z := state <$> get_pdata c i.

(** [pdata->levels[state - 1]], [None] outside of the array. *)
Definition level_of (p : vs_cooler_platform_data) (unlimited s : Z) : option Z :=
  if s =? 0 then Some unlimited else levels p !! Z.to_nat (s - 1).

(** The common part of the [set_cur_state] of the list coolers: [None] is an
    access outside of [levels]. *)
Definition list_set_cur_state (unlimited : Z) (apply : vs_hw -> Z -> Z -> option (vs_hw * Z))
    (c : coolers) (h : vs_hw) (i : nat) (s : Z) : option (coolers * vs_hw * Z) :=
  match get_pdata c i with
  | None => Some (c, h, - EINVAL)
  | Some p =>
    if state p =? s then Some (c, h, 0) else
    let st := if max_state p <? s then max_state p else s in
    lv ← level_of p unlimited st;
    if lv =? level p then Some (set_pdata c i (set_state_level p st (level p)), h, 0)
    else
      let '(c, lv) := thermal_level_compare (set_pdata c i (set_state_level p st lv)) true in
      '(h, _) ← apply h (thermal_cooler_id p) lv;
      Some (c, h, 0)
  end.

(** virtual_sensor_cooler_bcct.c: levels in units of 10 uA below 3200.01 mA. *)
Definition BCCT_CURRENT_MAX : Z := 320001.
Definition bcct_limit (lv : Z) : Z := if BCCT_CURRENT_MAX <=? lv then -1 else Z.quot lv 100.
Definition bcct_set_cur_state : coolers -> vs_hw -> nat -> Z -> option (coolers * vs_hw * Z) :=
  list_set_cur_state BCCT_CURRENT_MAX (fun h id lv => vs_set_cooling_level h id (bcct_limit lv)).

(** virtual_sensor_cooler_backlight.c. *)
Definition MAX_BRIGHTNESS : Z := 255.
Definition backlight_set_cur_state : coolers -> vs_hw -> nat -> Z -> option (coolers * vs_hw * Z) :=
  list_set_cur_state MAX_BRIGHTNESS (fun h _ lv => vs_set_cooling_level h VS_THERMAL_COOLER_BACKLIGHT lv).

(** virtual_sensor_cooler_wpc_bcct.c: the cooler "wpc_bcct1" only takes the
    states of the present dock ([psy_type]: the charger's supply is absent,
    fails, or has this type). *)
Definition WPC_CURRENT_MAX : Z := 10000.
Definition wpc_limit (lv : Z) : Z := if WPC_CURRENT_MAX <=? lv then -1 else lv.
Definition POWER_SUPPLY_TYPE_WIRELESS_10W : Z := 18.
Definition dock_policy (t : Z) : Z := if t =? POWER_SUPPLY_TYPE_WIRELESS_10W then 2 else 1.
Definition wpc_set_cur_state (psy_type : option (Z + Z)) (c : coolers) (h : vs_hw) (i : nat) (s : Z)
  : option (coolers * vs_hw * Z) :=
  let set := list_set_cur_state WPC_CURRENT_MAX
               (fun h id lv => vs_set_cooling_level h id (wpc_limit lv)) c h i s in
  match get_pdata c i with
  | None => Some (c, h, - EINVAL)
  | Some p =>
    if state p =? s then Some (c, h, 0)
    else if bool_decide (type p = "wpc_bcct1"%string) then
      match psy_type with
      | None => Some (c, h, - ENODEV)
      | Some (inr err) => Some (c, h, err)
      | Some (inl t) =>
        if negb (s =? 0) && (s <? dock_policy t) then Some (c, h, 0) else set
      end
    else set
  end.

(** ** The CPU budget cooler (virtual_sensor_cooler_budget.c) *)

Definition MAXIMUM_CPU_POWER : Z := 4600.

(** The driver's globals: its coolers, the budget in force, the coolers' and
    the one asked for through the device node, and the hardware. *)
Record budget := mkBudget {
  b_coolers : coolers; _thermal_budget : Z; _thermal_budget_cooler : Z; _thermal_budget_cpu : Z;
  b_hw : vs_hw }.

(** What is passed on: 0 lifts the limit. *)
Definition budget_limit (b : Z) : Z := if b <? MAXIMUM_CPU_POWER then b else 0.

Definition _thermal_budget_notify (w : budget) (budget1 budget2 : Z) : option budget :=
  let thermal_budget := Z.min budget1 budget2 in
  if thermal_budget =? _thermal_budget w then Some w
  else
    '(h, _) ← vs_set_cooling_level (b_hw w) VS_THERMAL_COOLER_BUDGET (budget_limit thermal_budget);
    Some (mkBudget (b_coolers w) thermal_budget (_thermal_budget_cooler w) (_thermal_budget_cpu w) h).

Definition thermal_budget_notify (w : budget) (b : Z) : option budget :=
  let cpu := if b =? 0 then MAXIMUM_CPU_POWER else b in
  let w := mkBudget (b_coolers w) (_thermal_budget w) (_thermal_budget_cooler w) cpu (b_hw w) in
  _thermal_budget_notify w cpu (_thermal_budget_cooler w).

Definition thermal_budget_get (w : budget) : Z := _thermal_budget w.

(** [thermal_budget_write]: the result of the conversion is not looked at. *)
Definition thermal_budget_write (w : budget) (buf : list Z) : option (budget * Z) :=
  let b := match kstrtouint buf 10 with inl v => v | inr _ => 0 end in
  w ← (if negb (b =? 0) then thermal_budget_notify w (s32 b)
       else thermal_budget_notify w MAXIMUM_CPU_POWER);
  Some (w, Z.of_nat (length buf)).

Definition thermal_budget_show (w : budget) : list Z := snprintf 30 (pct_d (_thermal_budget w) ++ [10]).

Definition thermal_budget_set_cur_state (w : budget) (i : nat) (s : Z) : option (budget * Z) :=
  match get_pdata (b_coolers w) i with
  | None => Some (w, - EINVAL)
  | Some p =>
    if state p =? s then Some (w, 0) else
    let st := if max_state p <? s then max_state p else s in
    lv ← level_of p MAXIMUM_CPU_POWER st;
    let '(c, lv) := thermal_level_compare (set_pdata (b_coolers w) i (set_state_level p st lv)) true in
    w ← _thermal_budget_notify (mkBudget c (_thermal_budget w) lv (_thermal_budget_cpu w) (b_hw w))
          (_thermal_budget_cpu w) lv;
    Some (w, 0)
  end.

(** ** The "levels" attribute, the same in the four drivers *)

Fixpoint levels_text (ls : list Z) (i : Z) : list Z :=
  match ls with
  | [] => []
  | l :: ls => pct_d i ++ [32] ++ pct_d l ++ [10] ++ levels_text ls (i + 1)
  end.

(** The page printed so far never exceeds its 20 characters per state. *)
Definition levels_show (p : vs_cooler_platform_data) : list Z :=
  levels_text (take (Z.to_nat (max_state p)) (levels p)) 1.

(** [None]: a store outside of the array. *)
Definition levels_store (p : vs_cooler_platform_data) (buf : list Z)
  : option (vs_cooler_platform_data * Z) :=
  match sscanf_d_d buf with
  | None => Some (p, - EINVAL)
  | Some (st, lv) =>
    if max_state p <=? u64 st then Some (p, - EINVAL)
    else if Z.of_nat (length (levels p)) <=? u64 st then None
    else Some (set_levels p (<[Z.to_nat st := lv]> (levels p)), Z.of_nat (length buf))
  end.

(** ** Probe and remove *)

(** [*_probe]: the cooler's data from the device tree is put first on the
    list; the answers are the registration's and the allocation's. *)
Definition cooler_probe (c : coolers) (p : vs_cooler_platform_data) (registered alloc : bool)
  : coolers * Z :=
  if negb registered then (c, - EINVAL)
  else if negb alloc then (c, - ENOMEM)
  else (mkCoolers (pdatas c ++ [p]) (length (pdatas c) :: head c), 0).

(** [*_remove]: the first entry of the cooler leaves the list. *)
Fixpoint remove_first (i : nat) (l : list nat) : list nat :=
  match l with
  | [] => []
  | j :: l => if (i =? j)%nat then l else j :: remove_first i l
  end.
Definition cooler_remove (c : coolers) (i : nat) : coolers :=
  mkCoolers (pdatas c) (remove_first i (head c)).


(** ** Specification *)

(** [m] is the strictest level on the driver's list. *)
Definition strictest (c : coolers) (m : Z) : Prop :=
  (exists i p, i ∈ head c /\ get_pdata c i = Some p /\ level p = m) /\
  (forall i p, i ∈ head c -> get_pdata c i = Some p -> m <= level p).

Definition small (z : Z) : Prop := -1073741824 <= z < 1073741824.

(** The level of a cooler is the one of its state. *)
Definition cooler_ok (unlimited : Z) (p : vs_cooler_platform_data) : Prop :=
  0 <= state p <= max_state p /\ max_state p <= Z.of_nat (length (levels p)) /\
  level_of p unlimited (state p) = Some (level p) /\ Forall small (levels p).

(** Every cooler is on the list, once. *)
Definition coolers_ok (unlimited : Z) (c : coolers) : Prop :=
  small unlimited /\ Forall (cooler_ok unlimited) (pdatas c) /\
  head c ≡ₚ seq 0 (length (pdatas c)) /\ pdatas c <> [].

(** ** Lemmas on the comparison *)

Lemma level_of_small p unlimited s l :
  small unlimited -> Forall small (levels p) -> level_of p unlimited s = Some l -> small l.
Proof.
  unfold level_of. intros Hu Hl. destruct (s =? 0); [congruence|]. intros Hs.
  by eapply Forall_lookup_1.
Qed.

Lemma level_of_is_Some p unlimited s :
  0 <= s <= Z.of_nat (length (levels p)) -> is_Some (level_of p unlimited s).
Proof.
  intros Hs. unfold level_of. destruct (Z.eqb_spec s 0); [by eexists|].
  apply lookup_lt_is_Some_2. lia.
Qed.

Definition level_small (c : coolers) : Prop :=
  forall i, i ∈ head c -> exists p, get_pdata c i = Some p /\ small (level p).

Lemma level_cmp_preorder c : level_small c -> preorder_on (level_cmp c) (head c).
Proof.
  intros Hs.
  assert (Hc : forall a b pa pb, a ∈ head c -> b ∈ head c -> get_pdata c a = Some pa ->
            get_pdata c b = Some pb -> level_cmp c a b = level pa - level pb).
  { intros a b pa pb Ha Hb Ea Eb. unfold level_cmp. rewrite Ea, Eb.
    destruct (Hs a Ha) as (? & ? & Sa), (Hs b Hb) as (? & ? & Sb). simplify_eq.
    unfold small in *. apply s32_id. lia. }
  split.
  - intros a b Ha Hb. destruct (Hs a Ha) as (pa & Ea & _), (Hs b Hb) as (pb & Eb & _).
    rewrite (Hc a b pa pb), (Hc b a pb pa) by done. lia.
  - intros a b d Ha Hb Hd. destruct (Hs a Ha) as (pa & Ea & _), (Hs b Hb) as (pb & Eb & _),
      (Hs d Hd) as (pd & Ed & _).
    rewrite (Hc a b pa pb), (Hc b d pb pd), (Hc a d pa pd) by done. lia.
Qed.

Lemma compare_strictest c :
  level_small c -> head c <> [] ->
  exists c' m, thermal_level_compare c true = (c', m) /\ pdatas c' = pdatas c /\
    head c' ≡ₚ head c /\ strictest c' m.
Proof.
  intros Hs Hne. unfold thermal_level_compare.
  pose proof (list_sort_permutation (level_cmp c) (head c)) as Hp.
  pose proof (list_sort_sorted (level_cmp c) (head c) (level_cmp_preorder c Hs)) as Hso.
  destruct (list_sort (level_cmp c) (head c)) as [|i l] eqn:E.
  { symmetry in Hp. by apply Permutation_nil_r in Hp. }
  assert (Hi : i ∈ head c) by (rewrite <- Hp; left).
  destruct (Hs i Hi) as (p & Ep & Sp). eexists _, (level p). split.
  { f_equal. cbn. change (get_pdata c i) with (pdatas c !! i) in *. unfold get_pdata in *. by rewrite Ep. }
  split; [done|]. split; [exact Hp|]. split.
  - exists i, p. split; [left|]. split; [exact Ep|done].
  - intros j q Hj Eq. cbn in Hj. apply elem_of_cons in Hj as [->|Hj].
    { change (get_pdata c i = Some q) in Eq. simplify_eq. done. }
    change (get_pdata c j = Some q) in Eq.
    assert (Hjc : j ∈ head c) by (rewrite <- Hp; by right).
    apply StronglySorted_inv in Hso as [_ Hall]. rewrite Forall_forall in Hall.
    specialize (Hall j Hj). destruct (Hs j Hjc) as (q' & Eq' & Sq). simplify_eq.
    unfold level_cmp in Hall. rewrite Ep, Eq in Hall. unfold small in *.
    rewrite s32_id in Hall by lia. lia.
Qed.

Lemma coolers_ok_level_small unlimited c : coolers_ok unlimited c -> level_small c.
Proof.
  intros (Hu & Hall & Hp & _) i Hi. rewrite Hp in Hi. apply elem_of_seq in Hi as [_ Hi].
  destruct (lookup_lt_is_Some_2 (pdatas c) i) as [p Ep]; [lia|]. exists p. split; [done|].
  destruct (Forall_lookup_1 _ _ _ _ Hall Ep) as (_ & _ & Hl & Hs). by eapply level_of_small.
Qed.

Lemma coolers_ok_head unlimited c : coolers_ok unlimited c -> head c <> [].
Proof.
  intros (_ & _ & Hp & Hne) Hn. rewrite Hn in Hp. apply Permutation_nil_l in Hp.
  destruct (pdatas c); done.
Qed.

Lemma coolers_ok_set unlimited c i p :
  coolers_ok unlimited c -> cooler_ok unlimited p -> coolers_ok unlimited (set_pdata c i p).
Proof.
  intros (Hu & Hall & Hp & Hne) Ho. unfold coolers_ok; cbn. rewrite length_insert. split_and!; try done.
  - by apply Forall_insert.
  - intros Hn. apply (f_equal length) in Hn. rewrite length_insert in Hn. by destruct (pdatas c).
Qed.

Lemma coolers_ok_perm unlimited c c' :
  coolers_ok unlimited c -> pdatas c' = pdatas c -> head c' ≡ₚ head c -> coolers_ok unlimited c'.
Proof. intros (Hu & Hall & Hp & Hne) Ed Eh. unfold coolers_ok. rewrite Ed, Eh. by split_and!. Qed.

(** A cooler moved to a state within its bounds. *)
Lemma cooler_ok_move unlimited p s :
  cooler_ok unlimited p -> 0 <= s ->
  let st := if max_state p <? s then max_state p else s in
  exists l, level_of p unlimited st = Some l /\ cooler_ok unlimited (set_state_level p st l) /\
    st = Z.min s (max_state p).
Proof.
  intros (Hs & Hm & Hl & Hsm) Hp st.
  assert (Hst : st = Z.min s (max_state p)) by (subst st; destruct (Z.ltb_spec (max_state p) s); lia).
  destruct (level_of_is_Some p unlimited st) as [l El]; [lia|].
  exists l. split; [done|]. split; [|done]. unfold cooler_ok; cbn.
  split; [lia|]. split; [done|]. split; [exact El|done].
Qed.

(** ** Lemmas on the CPU limit *)

Definition cdev_ok (c : vs_cpufreq_cdev) : Prop :=
  0 < num_cpus c /\ 0 <= max_level c < Z.of_nat (length (em c)).

(** cpufreq answers and takes the request, with an energy model of at most 2^32
    entries. *)
Definition env_ok (e : cpufreq_env) : Prop :=
  exists cpus t, policy e = Some cpus /\ em_cpu e = Some t /\ 0 < cpus /\
    0 < table_count e <= Z.of_nat (length t) /\ table_count e < 4294967296 /\
    cdev_alloc e = true /\ 0 <= qos_add e.

Lemma power_index_spec table i p :
  (i < length table)%nat ->
  exists k, power_index table i p = Some k /\ (k <= i)%nat /\
    (k = O \/ exists c, table !! k = Some c /\ power c <= p) /\
    (forall j c, (k < j <= i)%nat -> table !! j = Some c -> p < power c).
Proof.
  induction i as [|i IH]; intros Hi; cbn [power_index].
  - exists O. split_and!; [done|lia|by left|]. intros; lia.
  - destruct (lookup_lt_is_Some_2 table (S i)) as [c Ec]; [lia|]. rewrite Ec. cbn [mbind option_bind].
    destruct (Z.leb_spec (power c) p).
    + exists (S i). split_and!; [done|lia|right; by exists c|]. intros; lia.
    + destruct IH as (k & Ek & Hk & Hp & Hj); [lia|]. exists k. split_and!; [done|lia|done|].
      intros j d Hjr Ed. destruct (decide (j = S i)) as [->|]; [congruence|]. apply (Hj j); [lia|done].
Qed.

(** What a power per CPU allows: the highest entry of the table that needs no
    more, the lowest one when all need more; and everything when it is 0. *)
Definition allows (c : vs_cpufreq_cdev) (p f : Z) : Prop :=
  exists k e, em c !! k = Some e /\ f = frequency e /\ Z.of_nat k <= max_level c /\
    if p =? 0 then Z.of_nat k = max_level c
    else (k = O \/ power e <= p) /\
      forall j d, Z.of_nat k < Z.of_nat j <= max_level c -> em c !! j = Some d -> p < power d.

Lemma power_to_freq_allows c p :
  cdev_ok c -> exists f, vs_cpu_power_to_freq (em c) (max_level c) p = Some f /\ allows c p f.
Proof.
  intros [_ Hm]. unfold vs_cpu_power_to_freq, allows. destruct (p =? 0).
  - destruct (lookup_lt_is_Some_2 (em c) (Z.to_nat (max_level c))) as [e Ee]; [lia|]. rewrite Ee.
    exists (frequency e). split; [done|]. exists (Z.to_nat (max_level c)), e. split_and!; done || lia.
  - destruct (power_index_spec (em c) (Z.to_nat (max_level c)) p) as (k & -> & Hk & Hle & Hgt); [lia|].
    cbn [mbind option_bind]. destruct (lookup_lt_is_Some_2 (em c) k) as [e Ee]; [lia|]. rewrite Ee.
    exists (frequency e). split; [done|]. exists k, e. split_and!; try done; [lia| |].
    + destruct Hle as [|(e' & Ee' & Hle)]; [by left|right]. congruence.
    + intros j d Hj. apply Hgt. lia.
Qed.

(** The frequency in force for a budget, which is shared by the CPUs. *)
Definition cpu_limited (cdev : option vs_cpufreq_cdev) (limit : Z) : Prop :=
  exists c f, cdev = Some c /\ cdev_ok c /\ allows c (u32 limit / num_cpus c) f /\ qos_req c = Some (s32 f).

Definition cpu_ready (e : cpufreq_env) (cdev : option vs_cpufreq_cdev) : Prop :=
  env_ok e /\ match cdev with None => True | Some c => cdev_ok c /\ qos_req c <> None end.

Lemma set_cpufreq_spec e cdev limit :
  cpu_ready e cdev ->
  exists cdev' ret, set_cpufreq_thermal_power e cdev limit = Some (cdev', ret) /\ 0 <= ret /\
    cpu_limited cdev' limit /\ cpu_ready e cdev'.
Proof.
  intros [He Hc]. unfold set_cpufreq_thermal_power.
  assert (Hgo : forall c ret, cdev_ok c -> qos_req c <> None -> 0 <= ret ->
    exists cdev' ret', (if num_cpus c =? 0 then None else
      target ← vs_cpu_power_to_freq (em c) (max_level c) (u32 limit / num_cpus c);
      Some (Some (freq_qos_update_request c target), ret)) = Some (cdev', ret') /\
      0 <= ret' /\ cpu_limited cdev' limit /\ cpu_ready e cdev').
  { intros c ret Ok Hq Hr. destruct (power_to_freq_allows c (u32 limit / num_cpus c) Ok) as (f & Ef & Hf).
    pose proof Ok as [Hn Hm]. rewrite (proj2 (Z.eqb_neq (num_cpus c) 0)) by lia. rewrite Ef.
    cbn [mbind option_bind]. unfold freq_qos_update_request. destruct (qos_req c); [|done].
    eexists _, _. split; [reflexivity|]. split; [done|].
    split; [|split; [done|by split]]. eexists _, f. split; [reflexivity|]. by split_and!. }
  destruct cdev as [c|]; [by apply Hgo; apply Hc || done|].
  destruct He as (cpus & t & Ep & Em & Hcp & Ht & Hb & Ha & Hq).
  unfold vs_init_cpufreq_limit_power. rewrite Ep, Em, Ha.
  rewrite (proj2 (Z.eqb_neq (table_count e) 0)) by lia. cbn [negb]. rewrite u32_id by lia.
  rewrite (proj2 (Z.ltb_ge (qos_add e) 0)) by lia.
  apply Hgo; [|done..]. split; cbn; lia.
Qed.

(** A request that cpufreq did not take limits nothing, whatever the budget. *)
Lemma inactive_request_lifts e c limit :
  cdev_ok c -> qos_req c = None -> set_cpufreq_thermal_power e (Some c) limit = Some (Some c, 0).
Proof.
  intros Ok Hq. unfold set_cpufreq_thermal_power. destruct (power_to_freq_allows c (u32 limit / num_cpus c) Ok) as (f & Ef & _).
  pose proof Ok as [Hn Hm]. rewrite (proj2 (Z.eqb_neq (num_cpus c) 0)) by lia. rewrite Ef. cbn [mbind option_bind].
  unfold freq_qos_update_request. by rewrite Hq.
Qed.

(** ** The budget cooler against its specification *)

(** A CPU request of 0 stands for the maximum. *)
Definition requested (b : Z) : Z := if b =? 0 then MAXIMUM_CPU_POWER else b.

(** The specification's state: each cooler's state, and the CPU request. *)
Record budget_spec := mkSpec { sp_states : list Z; sp_cpu : Z }.

Inductive budget_op :=
| BSet (i : nat) (s : Z)
| BNotify (b : Z)
| BWrite (buf : list Z).

Definition op_ok (o : budget_op) : Prop := match o with BSet _ s => 0 <= s | _ => True end.

Definition written (buf : list Z) : Z :=
  match kstrtouint buf 10 with
  | inl v => if v =? 0 then MAXIMUM_CPU_POWER else requested (s32 v)
  | inr _ => MAXIMUM_CPU_POWER
  end.

Definition spec_step (maxes : list Z) (s : budget_spec) (o : budget_op) : budget_spec :=
  match o with
  | BSet i st =>
    match maxes !! i with
    | Some m => mkSpec (<[i := Z.min st m]> (sp_states s)) (sp_cpu s)
    | None => s
    end
  | BNotify b => mkSpec (sp_states s) (requested b)
  | BWrite buf => mkSpec (sp_states s) (written buf)
  end.

Definition budget_step (w : budget) (o : budget_op) : option budget :=
  match o with
  | BSet i s => fst <$> thermal_budget_set_cur_state w i s
  | BNotify b => thermal_budget_notify w b
  | BWrite buf => fst <$> thermal_budget_write w buf
  end.

Fixpoint budget_run (w : budget) (os : list budget_op) : option budget :=
  match os with
  | [] => Some w
  | o :: os => w ← budget_step w o; budget_run w os
  end.

(** The budget in force is the smaller of the CPU request and the strictest
    level, and the CPU's frequency limit is the one of this budget (no limit
    was set up before the first budget below the maximum). *)
Definition budget_inv (maxes : list Z) (s : budget_spec) (w : budget) : Prop :=
  coolers_ok MAXIMUM_CPU_POWER (b_coolers w) /\
  max_state <$> pdatas (b_coolers w) = maxes /\
  state <$> pdatas (b_coolers w) = sp_states s /\
  _thermal_budget_cpu w = sp_cpu s /\
  strictest (b_coolers w) (_thermal_budget_cooler w) /\
  _thermal_budget w = Z.min (sp_cpu s) (_thermal_budget_cooler w) /\
  cpu_ready (cpu_env (b_hw w)) (cpufreq_cdev (b_hw w)) /\
  (cpufreq_cdev (b_hw w) = None /\ _thermal_budget w = MAXIMUM_CPU_POWER \/
   cpu_limited (cpufreq_cdev (b_hw w)) (budget_limit (_thermal_budget w))).

(** The hardware matches a budget. *)
Definition hw_matches (h : vs_hw) (b : Z) : Prop :=
  cpu_ready (cpu_env h) (cpufreq_cdev h) /\
  (cpufreq_cdev h = None /\ b = MAXIMUM_CPU_POWER \/ cpu_limited (cpufreq_cdev h) (budget_limit b)).

Lemma notify_spec w b1 b2 :
  hw_matches (b_hw w) (_thermal_budget w) ->
  exists w', _thermal_budget_notify w b1 b2 = Some w' /\ b_coolers w' = b_coolers w /\
    _thermal_budget_cooler w' = _thermal_budget_cooler w /\
    _thermal_budget_cpu w' = _thermal_budget_cpu w /\
    _thermal_budget w' = Z.min b1 b2 /\ hw_matches (b_hw w') (Z.min b1 b2).
Proof.
  intros [Hr Hl]. unfold _thermal_budget_notify. destruct (Z.eqb_spec (Z.min b1 b2) (_thermal_budget w)) as [E|].
  { exists w. rewrite E. by split_and!. }
  unfold vs_set_cooling_level. cbn [Z.eqb Pos.eqb VS_THERMAL_COOLER_BUDGET].
  destruct (set_cpufreq_spec _ _ (budget_limit (Z.min b1 b2)) Hr) as (c & ret & E & _ & Hc & Hr').
  rewrite E. cbn [mbind option_bind]. eexists. split; [reflexivity|]. cbn.
  split_and!; try done. split; [done|]. by right.
Qed.

Lemma cpu_step maxes s w b :
  budget_inv maxes s w ->
  exists w', thermal_budget_notify w b = Some w' /\
    budget_inv maxes (mkSpec (sp_states s) (requested b)) w'.
Proof.
  intros (Hok & Hm & Hs & Hc & Hst & Hb & Hr & Hl). unfold thermal_budget_notify.
  fold (requested b). cbv zeta.
  destruct (notify_spec (mkBudget (b_coolers w) (_thermal_budget w) (_thermal_budget_cooler w) (requested b) (b_hw w))
              (requested b) (_thermal_budget_cooler w)) as (w' & E & C & K & U & T & [R L]); [by split|].
  exists w'. split; [done|]. cbn in *. unfold budget_inv. cbn [sp_states sp_cpu]. rewrite C, K, U, T. by split_and!.
Qed.

Lemma fmap_insert_state {B} (f : vs_cooler_platform_data -> B) (ps : list vs_cooler_platform_data)
    (i : nat) p q :
  ps !! i = Some p -> f q = f p -> f <$> <[i := q]> ps = f <$> ps.
Proof.
  intros Ep Ef. rewrite list_fmap_insert, Ef. apply list_insert_id. by rewrite list_lookup_fmap, Ep.
Qed.

Lemma set_state_step maxes s w i st :
  budget_inv maxes s w -> 0 <= st ->
  exists w' ret, thermal_budget_set_cur_state w i st = Some (w', ret) /\
    budget_inv maxes (spec_step maxes s (BSet i st)) w'.
Proof.
  intros Hinv Hst. pose proof Hinv as (Hok & Hm & Hs & Hc & Hstr & Hb & Hr & Hl).
  unfold thermal_budget_set_cur_state, get_pdata. cbn [spec_step].
  assert (Hmi : maxes !! i = max_state <$> pdatas (b_coolers w) !! i) by (by rewrite <- Hm, list_lookup_fmap).
  rewrite Hmi. destruct (pdatas (b_coolers w) !! i) as [p|] eqn:Ep; cbn [fmap option_fmap option_map].
  2:{ by exists w, (- EINVAL). }
  assert (Hp : cooler_ok MAXIMUM_CPU_POWER p).
  { destruct Hok as (_ & Hall & _). by eapply Forall_lookup_1. }
  assert (Hsi : sp_states s !! i = Some (state p)) by (by rewrite <- Hs, list_lookup_fmap, Ep).
  destruct (Z.eqb_spec (state p) st) as [E|].
  { exists w, 0. split; [done|]. destruct Hp as [Hp _]. rewrite Z.min_l by lia.
    rewrite list_insert_id by congruence. by destruct s. }
  destruct (cooler_ok_move _ p st Hp Hst) as (l & El & Hok' & Emin). rewrite El. cbn [mbind option_bind].
  set (q := set_state_level p (if max_state p <? st then max_state p else st) l) in *.
  pose proof (coolers_ok_set _ _ i q Hok Hok') as Hok2.
  destruct (compare_strictest (set_pdata (b_coolers w) i q)) as (c' & m & Ec & Hpd & Hh & Hstr').
  { by eapply coolers_ok_level_small. } { by eapply coolers_ok_head. }
  rewrite Ec.
  destruct (notify_spec (mkBudget c' (_thermal_budget w) m (_thermal_budget_cpu w) (b_hw w))
    (_thermal_budget_cpu w) m) as (w' & E' & C & K & U & T & [R L]); [by split|].
  rewrite E'. cbn [mbind option_bind]. exists w', 0. split; [done|]. cbn in *.
  unfold budget_inv. cbn [sp_states sp_cpu]. rewrite C, K, U, T, Hpd, Hc.
  split_and!; try done.
  - by eapply coolers_ok_perm.
  - cbn. by rewrite (fmap_insert_state max_state _ _ p).
  - cbn. rewrite list_fmap_insert, Hs. cbn. by rewrite Emin.
  - by rewrite <- Hc.
Qed.

(** C38. CPU budget. Whatever states the thermal framework gives the coolers and
    whatever budgets are requested (through the exported function or the
    device node), no access leaves a table, each cooler's state is its last
    one cut at its maximum, and the budget in force is the smaller of the last
    request and the strictest cooler's level. The frequency limit is then the one
    of the highest entry of the energy model that the budget's share of a CPU
    pays for, the lowest entry when it pays for none; but it is lifted at the
    maximum, and also by a budget smaller than the number of CPUs, whose share
    is 0. This is for coolers that stay and whose levels (below 2^30 in size, so
    that they can be subtracted) are not rewritten, and for a cpufreq that is
    there and takes the request from the first budget on. *)
Theorem budget_strictest maxes s w os :
  budget_inv maxes s w -> Forall op_ok os ->
  exists w', budget_run w os = Some w' /\ budget_inv maxes (foldl (spec_step maxes) s os) w'.
Proof.
  revert s w. induction os as [|o os IH]; intros s w Hinv Hos; [by exists w|].
  apply Forall_cons_1 in Hos as [Ho Hos]. cbn [budget_run foldl].
  assert (Hstep : exists w1, budget_step w o = Some w1 /\ budget_inv maxes (spec_step maxes s o) w1).
  { destruct o as [i st|b|buf]; cbn [budget_step op_ok] in *.
    - destruct (set_state_step maxes s w i st Hinv Ho) as (w1 & r & -> & H1). by exists w1.
    - exact (cpu_step maxes s w b Hinv).
    - unfold thermal_budget_write. cbn [spec_step]. unfold written.
      destruct (kstrtouint buf 10) as [v|e]; [destruct (v =? 0)|]; cbn [negb Z.eqb].
      + destruct (cpu_step maxes s w MAXIMUM_CPU_POWER Hinv) as (w1 & -> & H1). by exists w1.
      + destruct (cpu_step maxes s w (s32 v) Hinv) as (w1 & -> & H1). by exists w1.
      + destruct (cpu_step maxes s w MAXIMUM_CPU_POWER Hinv) as (w1 & -> & H1). by exists w1. }
  destruct Hstep as (w1 & -> & H1). exact (IH _ _ H1 Hos).
Qed.

(** ** The list coolers: the strictest level is applied *)

Section list_cooler.
(** A driver: its unlimited level, how it applies a level, when the hardware
    shows a level, and what stays true of the hardware. *)
Context (unlimited : Z) (apply : vs_hw -> Z -> Z -> option (vs_hw * Z)).
Context (id_ok : Z -> Prop) (hw_ok : vs_hw -> Prop) (shows : vs_hw -> Z -> Prop) (untouched : vs_hw -> Prop).
Hypothesis apply_shows : forall h id lv, id_ok id -> hw_ok h ->
  exists h' ret, apply h id lv = Some (h', ret) /\ hw_ok h' /\ shows h' lv.

(** Each cooler's level is the one of its state, and the hardware shows the
    strictest (or was never touched and no cooler limits anything). *)
Definition list_inv (maxes states : list Z) (c : coolers) (h : vs_hw) : Prop :=
  coolers_ok unlimited c /\ Forall (fun p => id_ok (thermal_cooler_id p)) (pdatas c) /\
  max_state <$> pdatas c = maxes /\ state <$> pdatas c = states /\ hw_ok h /\
  exists m, strictest c m /\ (shows h m \/ untouched h /\ m = unlimited).

Definition list_spec_step (maxes states : list Z) (o : nat * Z) : list Z :=
  match maxes !! o.1 with
  | Some m => <[o.1 := Z.min o.2 m]> states
  | None => states
  end.

Lemma strictest_same_level c i p q m :
  get_pdata c i = Some p -> level q = level p -> strictest c m -> strictest (set_pdata c i q) m.
Proof.
  intros Ep El [(j & r & Hj & Ej & Em) Hall].
  assert (Hget : forall k s, get_pdata (set_pdata c i q) k = Some s ->
            exists s', get_pdata c k = Some s' /\ level s' = level s).
  { intros k s. unfold get_pdata; cbn. destruct (decide (k = i)) as [->|Hn].
    - rewrite list_lookup_insert_eq by (by eapply lookup_lt_Some). intros [= <-]. by exists p.
    - rewrite list_lookup_insert_ne by done. intros ->. by exists s. }
  split.
  - destruct (decide (j = i)) as [->|Hn].
    + exists i, q. split; [done|]. split.
      * unfold get_pdata; cbn. apply list_lookup_insert_eq. by eapply lookup_lt_Some.
      * rewrite El. congruence.
    + exists j, r. split; [done|]. split; [|done]. unfold get_pdata; cbn. by rewrite list_lookup_insert_ne.
  - intros k s Hk Es. destruct (Hget k s Es) as (s' & Es' & <-). by eapply Hall.
Qed.

Lemma list_set_spec maxes states c h i s :
  list_inv maxes states c h -> 0 <= s ->
  exists c' h' ret, list_set_cur_state unlimited apply c h i s = Some (c', h', ret) /\
    list_inv maxes (list_spec_step maxes states (i, s)) c' h'.
Proof.
  intros Hinv Hs0. pose proof Hinv as (Hok & Hid & Hm & Hs & Hh & m & Hstr & Hsh).
  unfold list_set_cur_state, get_pdata, list_spec_step. cbn [fst snd].
  assert (Hmi : maxes !! i = max_state <$> pdatas c !! i) by (by rewrite <- Hm, list_lookup_fmap).
  rewrite Hmi. destruct (pdatas c !! i) as [p|] eqn:Ep; cbn [fmap option_fmap option_map].
  2:{ by exists c, h, (- EINVAL). }
  assert (Hp : cooler_ok unlimited p) by (destruct Hok as (_ & Hall & _); by eapply Forall_lookup_1).
  assert (Hpid : id_ok (thermal_cooler_id p)) by exact (Forall_lookup_1 _ _ _ _ Hid Ep).
  assert (Hsi : states !! i = Some (state p)) by (by rewrite <- Hs, list_lookup_fmap, Ep).
  destruct (Z.eqb_spec (state p) s) as [E|].
  { exists c, h, 0. split; [done|]. destruct Hp as [Hp _]. rewrite Z.min_l by lia.
    rewrite list_insert_id by congruence. done. }
  destruct (cooler_ok_move _ p s Hp Hs0) as (l & El & Hok' & Emin). rewrite El. cbn [mbind option_bind].
  set (st := if max_state p <? s then max_state p else s) in *.
  assert (Hfields : forall q, max_state q = max_state p -> state q = st ->
    thermal_cooler_id q = thermal_cooler_id p ->
    max_state <$> <[i:=q]> (pdatas c) = maxes /\ state <$> <[i:=q]> (pdatas c) = <[i:=Z.min s (max_state p)]> states /\
    Forall (fun p => id_ok (thermal_cooler_id p)) (<[i:=q]> (pdatas c))).
  { intros q E1 E2 E3. split; [by rewrite (fmap_insert_state max_state _ _ p)|].
    split; [by rewrite list_fmap_insert, Hs, E2, Emin|]. apply Forall_insert; [done|]. by rewrite E3. }
  destruct (Z.eqb_spec l (level p)) as [El'|Hne].
  - exists (set_pdata c i (set_state_level p st (level p))), h, 0. split; [done|].
    destruct (Hfields (set_state_level p st (level p))) as (F1 & F2 & F3); [done..|].
    unfold list_inv. split_and!; try done.
    + apply coolers_ok_set; [done|]. by rewrite <- El'.
    + exists m. split; [|done]. by apply (strictest_same_level c i p).
  - set (q := set_state_level p st l) in *.
    pose proof (coolers_ok_set _ _ i q Hok Hok') as Hok2.
    destruct (compare_strictest (set_pdata c i q)) as (c' & m' & Ec & Hpd & Hhd & Hstr').
    { by eapply coolers_ok_level_small. } { by eapply coolers_ok_head. }
    rewrite Ec. destruct (apply_shows h (thermal_cooler_id p) m' Hpid Hh) as (h' & ret & Ea & Hh' & Hsh').
    rewrite Ea. cbn [mbind option_bind]. exists c', h', 0. split; [done|].
    destruct (Hfields q) as (F1 & F2 & F3); [done..|].
    unfold list_inv. rewrite Hpd. split_and!; try done; [by eapply coolers_ok_perm|].
    exists m'. split; [done|by left].
Qed.

Fixpoint list_run (c : coolers) (h : vs_hw) (os : list (nat * Z)) : option (coolers * vs_hw) :=
  match os with
  | [] => Some (c, h)
  | (i, s) :: os =>
    '(c, h, _) ← list_set_cur_state unlimited apply c h i s; list_run c h os
  end.

Lemma list_run_spec maxes states c h os :
  list_inv maxes states c h -> Forall (fun o => 0 <= o.2) os ->
  exists c' h', list_run c h os = Some (c', h') /\
    list_inv maxes (foldl (list_spec_step maxes) states os) c' h'.
Proof.
  revert states c h. induction os as [|[i s] os IH]; intros states c h Hinv Hos; [by exists c, h|].
  apply Forall_cons_1 in Hos as [Ho Hos]. cbn [list_run foldl].
  destruct (list_set_spec maxes states c h i s Hinv Ho) as (c1 & h1 & ret & -> & H1).
  cbn [mbind option_bind]. exact (IH _ _ _ H1 Hos).
Qed.
End list_cooler.

(** The charge current of a level, in uA (-1: no limit). *)
Definition charge_limit (lv : Z) : Z :=
  if BCCT_CURRENT_MAX <=? lv then -1
  else let l := Z.quot lv 100 in if l =? -1 then -1 else s32 (l * 1000).

Definition bcct_run : coolers -> vs_hw -> list (nat * Z) -> option (coolers * vs_hw) :=
  list_run BCCT_CURRENT_MAX (fun h id lv => vs_set_cooling_level h id (bcct_limit lv)).
Definition bcct_inv : list Z -> list Z -> coolers -> vs_hw -> Prop :=
  list_inv BCCT_CURRENT_MAX (fun id => id = VS_THERMAL_COOLER_BCCT)
    (fun h => exists r, bat_psy h = Some r /\ 0 <= r)
    (fun h m => charge_current h = Some (charge_limit m)) (fun h => charge_current h = None).

Lemma bcct_apply_shows h id lv :
  id = VS_THERMAL_COOLER_BCCT -> (exists r, bat_psy h = Some r /\ 0 <= r) ->
  exists h' ret, vs_set_cooling_level h id (bcct_limit lv) = Some (h', ret) /\
    (exists r, bat_psy h' = Some r /\ 0 <= r) /\ charge_current h' = Some (charge_limit lv).
Proof.
  intros -> (r & Hb & Hr). unfold vs_set_cooling_level. cbn [Z.eqb VS_THERMAL_COOLER_BCCT VS_THERMAL_COOLER_BUDGET].
  unfold set_charging_level_limit, set_on. rewrite Hb, (proj2 (Z.ltb_ge r 0)) by lia.
  eexists _, _. split; [reflexivity|]. cbn. split; [by exists r|]. unfold charge_limit, bcct_limit.
  by destruct (BCCT_CURRENT_MAX <=? lv).
Qed.

Lemma bcct_run_spec maxes states c h os :
  bcct_inv maxes states c h -> Forall (fun o => 0 <= o.2) os ->
  exists c' h', bcct_run c h os = Some (c', h') /\
    bcct_inv maxes (foldl (list_spec_step maxes) states os) c' h'.
Proof.
  apply list_run_spec. intros h0 id lv. apply bcct_apply_shows.
Qed.

(** Battery charge current. Whatever states the thermal framework gives the
    coolers in whatever order, every cooler ends in its last state cut at its
    maximum, and the charge current in force is the one of the strictest
    cooler: no limit from 320001 on, else its hundredth in mA. *)
Theorem charge_current_strictest maxes states c h os :
  bcct_inv maxes states c h -> Forall (fun o => 0 <= o.2) os ->
  exists c' h', bcct_run c h os = Some (c', h') /\
    state <$> pdatas c' = foldl (list_spec_step maxes) states os /\
    exists m, strictest c' m /\
      (charge_current h' = Some (charge_limit m) \/ charge_current h' = None /\ m = BCCT_CURRENT_MAX).
Proof.
  intros Hinv Hos. destruct (bcct_run_spec maxes states c h os Hinv Hos) as (c' & h' & E & I).
  exists c', h'. split; [done|]. destruct I as (_ & _ & _ & Hs & _ & m & Hm & Hsh). split; [done|].
  by exists m.
Qed.

(** The frequency limit of a power is the one it allows. *)
Theorem freq_fits c p :
  cdev_ok c -> exists f, vs_cpu_power_to_freq (em c) (max_level c) p = Some f /\ allows c p f.
Proof. apply power_to_freq_allows. Qed.

(** A budget smaller than the number of CPUs divides to 0, which the power
    table takes for "no limit": the tightest budgets lift the limit. *)
Theorem tiny_budget_lifts e c b :
  cdev_ok c -> qos_req c <> None -> 0 < b < num_cpus c -> b < 4294967296 ->
  exists top, em c !! Z.to_nat (max_level c) = Some top /\
    set_cpufreq_thermal_power e (Some c) b =
      Some (Some (mkCdev (max_level c) (em c) (num_cpus c) (Some (s32 (frequency top)))), 0).
Proof.
  intros [Hn Hm] Hq Hb Hb32. destruct (lookup_lt_is_Some_2 (em c) (Z.to_nat (max_level c))) as [top Et]; [lia|].
  exists top. split; [done|]. unfold set_cpufreq_thermal_power.
  rewrite (proj2 (Z.eqb_neq (num_cpus c) 0)) by lia. rewrite u32_id by lia. rewrite Z.div_small by lia.
  unfold vs_cpu_power_to_freq, freq_qos_update_request. cbn [Z.eqb]. rewrite Et. by destruct (qos_req c).
Qed.

(** The "levels" attribute prints the level of state k on line k but a
    store to k changes line k + 1, and a store to the last line is refused. *)
Theorem levels_store_off_by_one p buf k v :
  sscanf_d_d buf = Some (k, v) -> 0 <= k ->
  max_state p <= Z.of_nat (length (levels p)) -> max_state p < 18446744073709551616 ->
  (k = max_state p -> levels_store p buf = Some (p, - EINVAL)) /\
  (k < max_state p -> exists p', levels_store p buf = Some (p', Z.of_nat (length buf)) /\
     level_of p' 0 (k + 1) = Some v /\
     (forall s, 0 <= s -> s <> k + 1 -> level_of p' 0 s = level_of p 0 s)).
Proof.
  intros Hs Hk Hm Hm64. unfold levels_store. rewrite Hs. split.
  - intros ->. unfold wrapU. rewrite Z.mod_small by lia. by rewrite (proj2 (Z.leb_le _ _)) by lia.
  - intros Hlt. assert (Hu : u64 k = k) by (apply Z.mod_small; lia). rewrite Hu.
    rewrite (proj2 (Z.leb_gt _ _)) by lia. rewrite (proj2 (Z.leb_gt (Z.of_nat (length (levels p))) _)) by lia.
    eexists. split; [reflexivity|]. unfold level_of; cbn [levels set_levels]. split.
    + rewrite (proj2 (Z.eqb_neq _ _)) by lia. replace (k + 1 - 1) with k by lia.
      apply list_lookup_insert_eq. lia.
    + intros s Hs0 Hne. destruct (Z.eqb_spec s 0); [done|]. apply list_lookup_insert_ne. lia.
Qed.

End coolers_code.

(** ** A list_sort, and the properties at concrete inputs *)

Section insertion.
Context (cmp : nat -> nat -> Z).
Fixpoint insert_by (x : nat) (l : list nat) : list nat :=
  match l with
  | [] => [x]
  | y :: l' => if cmp x y <=? 0 then x :: l else y :: insert_by x l'
  end.
Definition insertion_sort (l : list nat) : list nat := foldr insert_by [] l.

Lemma insert_by_perm x l : insert_by x l ≡ₚ x :: l.
Proof.
  induction l as [|y l IH]; [done|]. cbn. destruct (cmp x y <=? 0); [done|].
  rewrite IH. constructor.
Qed.

Lemma insertion_perm l : insertion_sort l ≡ₚ l.
Proof. induction l as [|x l IH]; [done|]. cbn. rewrite insert_by_perm. by rewrite IH. Qed.

Lemma preorder_mono l l' : preorder_on cmp l -> (forall x, x ∈ l' -> x ∈ l) -> preorder_on cmp l'.
Proof.
  intros [Ht Htr] Hin. split.
  - intros a b Ha Hb. apply Ht; by apply Hin.
  - intros a b c Ha Hb Hc. apply Htr; by apply Hin.
Qed.

Lemma insert_by_sorted x l :
  preorder_on cmp (x :: l) -> StronglySorted (fun a b => cmp a b <= 0) l ->
  StronglySorted (fun a b => cmp a b <= 0) (insert_by x l).
Proof.
  intros Hp Hs. induction Hs as [|y l Hs IH Hall]; cbn; [by repeat constructor|].
  destruct (Z.leb_spec (cmp x y) 0) as [Hle|Hgt].
  - constructor; [by constructor|]. constructor; [done|].
    rewrite Forall_forall in *. intros z Hz. destruct Hp as [_ Htr].
    apply (Htr x y z); [left | right; left | right; by right | done | by apply Hall].
  - constructor.
    + apply IH. apply (preorder_mono _ _ Hp). intros z [->|Hz]%elem_of_cons; [left | right; by right].
    + rewrite insert_by_perm. constructor; [|done]. destruct Hp as [Ht _].
      destruct (Ht x y) as [?|?]; [left | right; left | lia | done].
Qed.

Lemma insertion_sorted l :
  preorder_on cmp l -> StronglySorted (fun a b => cmp a b <= 0) (insertion_sort l).
Proof.
  induction l as [|x l IH]; intros Hp; [constructor|]. cbn. apply insert_by_sorted.
  - apply (preorder_mono _ _ Hp). intros z. by rewrite !elem_of_cons, insertion_perm.
  - apply IH. apply (preorder_mono _ _ Hp). intros z Hz. by right.
Qed.
End insertion.

#[export] Instance insertion_list_sort : ListSort := {|
  list_sort := insertion_sort;
  list_sort_permutation := insertion_perm;
  list_sort_sorted := insertion_sorted |}.

Definition ex_em : list em_cap_state := [mkCap 500000 100; mkCap 1000000 300; mkCap 2000000 900].
Definition ex_env : cpufreq_env := mkCpuEnv (Some 4) (Some ex_em) 3 true 1.
Definition ex_vs_hw : vs_hw := mkVsHw ex_env None (Some 0) (Some 0) None None None None.
Definition ex_cooler (id : Z) (ls : list Z) (unlimited : Z) : vs_cooler_platform_data :=
  mkPdata "cooler" 0 3 unlimited id ls.
Definition ex_coolers (id unlimited : Z) (a b : list Z) : coolers :=
  mkCoolers [ex_cooler id a unlimited; ex_cooler id b unlimited] [1%nat; 0%nat].

Lemma ex_coolers_ok id unlimited a b :
  small unlimited -> length a = 12%nat -> length b = 12%nat -> Forall small a -> Forall small b ->
  coolers_ok unlimited (ex_coolers id unlimited a b).
Proof.
  intros Hu La Lb Ha Hb. split; [done|]. split.
  - repeat constructor; cbn; try done; rewrite ?La, ?Lb; cbn; lia.
  - split; [|done]. cbn. by apply Permutation_swap.
Qed.

Definition ex_budget : budget :=
  mkBudget (ex_coolers 2 4600 (repeat 2000 12) (repeat 1500 12)) 4600 4600 4600 ex_vs_hw.

Lemma ex_small n : small n -> Forall small (repeat n 12).
Proof. intros. cbn. by repeat (apply Forall_cons; split). Qed.

Lemma ex_budget_inv : budget_inv [3; 3] (mkSpec [0; 0] 4600) ex_budget.
Proof.
  unfold budget_inv. split_and!; try reflexivity.
  - apply ex_coolers_ok; try reflexivity; try apply ex_small; split; lia.
  - split; [exists 0%nat, (ex_cooler 2 (repeat 2000 12) 4600); split; [right; left|by split]|].
    intros i p Hi. cbn in Hi. repeat (apply elem_of_cons in Hi as [->|Hi]; [intros [= <-]; cbn; lia|]).
    by apply elem_of_nil in Hi.
  - split; [|done]. exists 4, ex_em. cbn. split_and!; done || lia.
  - by left.
Qed.

Lemma budget_strictest_witness :
  exists w', budget_run ex_budget [BSet 0 2; BNotify 3000; BSet 1 9; BWrite (str "800")] = Some w' /\
    _thermal_budget w' = 800 /\ cpufreq_cdev (b_hw w') ≫= qos_req = Some 500000.
Proof.
  destruct (budget_strictest [3; 3] (mkSpec [0; 0] 4600) ex_budget
    [BSet 0 2; BNotify 3000; BSet 1 9; BWrite (str "800")] ex_budget_inv) as (w' & E & I).
  - repeat constructor; cbn; lia.
  - exists w'. split; [exact E|]. vm_compute in E. injection E as <-. split; reflexivity.
Defined.

Definition ex_bcct : coolers := ex_coolers 0 320001 (repeat 200000 12) (repeat 150000 12).

Lemma ex_bcct_inv : bcct_inv [3; 3] [0; 0] ex_bcct ex_vs_hw.
Proof.
  unfold bcct_inv, list_inv. split_and!; try reflexivity.
  - apply ex_coolers_ok; try reflexivity; try apply ex_small; split; lia.
  - by repeat constructor.
  - by exists 0.
  - exists 320001. split; [|by right]. split.
    + exists 0%nat, (ex_cooler 0 (repeat 200000 12) 320001). split; [right; left|]. by split.
    + intros i p Hi. cbn in Hi. repeat (apply elem_of_cons in Hi as [->|Hi]; [intros [= <-]; cbn; lia|]).
      by apply elem_of_nil in Hi.
Qed.

Lemma charge_current_strictest_witness :
  exists c' h', bcct_run ex_bcct ex_vs_hw [(0%nat, 2); (1%nat, 1); (1%nat, 0)] = Some (c', h') /\
    state <$> pdatas c' = [2; 0] /\ charge_current h' = Some 2000000.
Proof.
  destruct (charge_current_strictest [3; 3] [0; 0] ex_bcct ex_vs_hw [(0%nat, 2); (1%nat, 1); (1%nat, 0)]
              ex_bcct_inv) as (c' & h' & E & S & _).
  - repeat constructor; cbn; lia.
  - exists c', h'. split; [exact E|]. split; [exact S|]. vm_compute in E. injection E as _ <-. reflexivity.
Defined.

Definition ex_cdev : vs_cpufreq_cdev := mkCdev 2 ex_em 4 (Some 0).

Lemma freq_fits_witness : vs_cpu_power_to_freq ex_em 2 450 = Some 1000000 /\ allows ex_cdev 450 1000000.
Proof.
  destruct (freq_fits ex_cdev 450) as (f & E & H); [split; cbn; lia|]. split; [reflexivity|].
  vm_compute in E. injection E as <-. exact H.
Defined.

Lemma tiny_budget_lifts_witness :
  set_cpufreq_thermal_power ex_env (Some ex_cdev) 3 = Some (Some (mkCdev 2 ex_em 4 (Some 2000000)), 0).
Proof.
  destruct (tiny_budget_lifts ex_env ex_cdev 3) as (top & Et & E); [split; cbn; lia | done | cbn; lia | lia |].
  rewrite E. injection Et as <-. reflexivity.
Defined.

Lemma levels_store_off_by_one_witness :
  exists p', levels_store (ex_cooler 0 (repeat 200000 12) 320001) (str "1 70000") = Some (p', 7) /\
    levels_show p' = str "1 200000
2 70000
3 200000
".
Proof.
  destruct (levels_store_off_by_one (ex_cooler 0 (repeat 200000 12) 320001) (str "1 70000") 1 70000)
    as [_ H]; [vm_compute; reflexivity | lia | cbn; lia | cbn; lia |].
  destruct H as (p' & E & _); [cbn; lia|]. exists p'. split; [exact E|].
  vm_compute in E. injection E as <-. vm_compute. reflexivity.
Defined.
