(* ===== verification/VsGov.v ===== *)
(** * The virtual-sensor thermal governor
      (drivers/thermal/virtual_sensor_tablet/virtual_sensor_gov.c)

    On every update of a zone the governor turns the zone's temperature into a
    state of each of the zone's cooling devices, with hysteresis on the way
    down. It is written against an interface to cooling devices, which the CPU
    budget coolers of [VsCooler] implement. *)

From Stdlib Require Import String.
From stdpp Require Import base tactics numbers list option.
From S2P Require Import Prelude Kstrtox Printf VsCooler.

(** ** The interface to cooling devices *)

(** [struct thermal_cooling_device_ops] over the state [W] of all devices. *)
Class CoolingOps (W : Type) := {
  co_max : W -> nat -> Z;
  co_cur : W -> nat -> Z;
  co_set : W -> nat -> Z -> option W }.

(** What a well-behaved device promises, for the devices [co_dev]. *)
Class CoolingLaws (W : Type) `{CoolingOps W} := {
  co_wf : W -> Prop;
  co_dev : W -> nat -> Prop;
  co_cur_range w i : co_wf w -> co_dev w i -> 0 <= co_cur w i <= co_max w i;
  co_set_spec w i s : co_wf w -> co_dev w i -> 0 <= s <= co_max w i ->
    exists w', co_set w i s = Some w' /\ co_wf w' /\ co_cur w' i = s /\
      (forall j, j <> i -> co_cur w' j = co_cur w j) /\
      (forall j, co_max w' j = co_max w j) /\ (forall j, co_dev w j -> co_dev w' j) }.

(** ** Data *)

(** [struct trip_t]: unsigned long temperatures in millidegrees. *)
Record trip_t := mkTrip { temp : Z; hyst : Z }.

(** A zone: its identity, the number of trips in use, the last temperature and
    the platform data (absent when [devdata] or [pdata] is NULL). *)
Record zone := mkZone { z_id : nat; trips : Z; temperature : Z; pdata_trips : option (list trip_t) }.

(** [struct thermal_instance]; [None] is THERMAL_NO_TARGET. *)
Record instance := mkInst { i_zone : nat; i_trip : Z; i_cdev : nat; target : option Z }.

(** The thermal framework: every instance, the instances of each device in
    its list's order, whether each device is up to date, the devices, and the
    uevents sent (device, TRIP, THERMAL_STATE, temperature of the trip). *)
Record framework (W : Type) := mkFw {
  insts : list instance; cdev_list : nat -> list nat; updated : nat -> bool; devices : W;
  uevents : list (nat * Z * Z * Z) }.
Arguments mkFw {W}.
Arguments insts {W} _.
Arguments cdev_list {W} _.
Arguments updated {W} _.
Arguments devices {W} _.
Arguments uevents {W} _.

Definition set_target (i : instance) (t : option Z) : instance :=
  mkInst (i_zone i) (i_trip i) (i_cdev i) t.

(** [virtual_sensor_thermal_get_trip_temp]: the int kept of the long;
    [None] outside of the array. *)
Definition get_trip_temp (ts : list trip_t) (trip : Z) : option Z :=
  if trip <? 0 then None else (fun t => s32 (temp t)) <$> ts !! Z.to_nat trip.

(** The cooling-down comparison of [virtual_sensor_throttle]:
    [tz->temperature <= trip_temp - hyst] with [hyst] an unsigned long, hence
    on unsigned longs. *)
Definition below_hyst (temperature trip_temp hyst : Z) : bool :=
  u64 temperature <=? u64 (trip_temp - hyst).

Section governor.
Context {W : Type} `{CoolingOps W}.

Definition set_insts (f : framework W) l : framework W :=
  mkFw l (cdev_list f) (updated f) (devices f) (uevents f).
Definition mark (f : framework W) (c : nat) (b : bool) : framework W :=
  mkFw (insts f) (cdev_list f) (fun d => if (d =? c)%nat then b else updated f d) (devices f) (uevents f).
Definition set_devices (f : framework W) w : framework W :=
  mkFw (insts f) (cdev_list f) (updated f) w (uevents f).
Definition send (f : framework W) e : framework W :=
  mkFw (insts f) (cdev_list f) (updated f) (devices f) (uevents f ++ [e]).

(** ** The framework's update of a device (drivers/thermal/thermal_helpers.c) *)

(** The deepest state asked for. *)
Definition deepest (l : list instance) (ids : list nat) : Z :=
  foldl (fun acc id =>
    match l !! id ≫= target with
    | Some t => if acc <? t then t else acc
    | None => acc
    end) 0 ids.

Definition thermal_cdev_update (f : framework W) (c : nat) : option (framework W) :=
  if updated f c then Some f
  else
    w ← co_set (devices f) c (deepest (insts f) (cdev_list f c));
    Some (mark (set_devices f w) c true).

(** ** The governor *)

(** The inner loop: the target after the device's instances, whose own targets
    are all cleared. *)
Fixpoint scan_trips (z : zone) (ts : list trip_t) (ids : list nat) (l : list instance) (tgt : Z)
  : option (list instance * Z) :=
  match ids with
  | [] => Some (l, tgt)
  | id :: ids =>
    ins ← l !! id;
    if trips z <=? i_trip ins then scan_trips z ts ids l tgt
    else
      trip_temp ← get_trip_temp ts (i_trip ins);
      scan_trips z ts ids (<[id := set_target ins None]> l)
        (if trip_temp <=? temperature z then i_trip ins + 1 else tgt)
  end.

(** The state wanted, and whether to ask for it: [cur] against [tgt]. *)
Definition decide_target (z : zone) (ts : list trip_t) (cur tgt : Z) : option (Z * bool) :=
  if cur <? tgt then Some (tgt, true)
  else if tgt <? cur then
    trip_temp ← get_trip_temp ts (cur - 1);
    t ← ts !! Z.to_nat (cur - 1);
    Some (if below_hyst (temperature z) trip_temp (hyst t) then (tgt, true) else (cur, false))
  else Some (tgt, false).

(** One instance [id] of the zone for trip 0, with the target carried over
    from the previous device. *)
Definition throttle_cdev (z : zone) (ts : list trip_t) (f : framework W) (id : nat) (tgt : Z)
  : option (framework W * Z) :=
  ins ← insts f !! id;
  let c := i_cdev ins in
  let max_state := co_max (devices f) c in
  '(l, tgt) ← scan_trips z ts (cdev_list f c) (insts f) tgt;
  let tgt := if max_state <? tgt then max_state else tgt in
  let cur_state := co_cur (devices f) c in
  '(tgt, ask) ← decide_target z ts cur_state tgt;
  let f := if (ask : bool)
           then mark (set_insts f (alter (fun i => set_target i (Some tgt)) id l)) c false
           else set_insts f l in
  if negb (cur_state =? tgt) then
    f ← thermal_cdev_update f c;
    t ← get_trip_temp ts (if tgt =? 0 then 0 else tgt - 1);
    Some (send f (c, tgt - 1, tgt, t), tgt)
  else Some (f, tgt).

(** The outer loop over the zone's instances. *)
Fixpoint throttle_loop (z : zone) (ts : list trip_t) (ids : list nat) (f : framework W) (tgt : Z)
  : option (framework W) :=
  match ids with
  | [] => Some f
  | id :: ids =>
    ins ← insts f !! id;
    if negb (i_trip ins =? 0) then throttle_loop z ts ids f tgt
    else '(f, tgt) ← throttle_cdev z ts f id tgt; throttle_loop z ts ids f tgt
  end.

(** [virtual_sensor_throttle(tz, trip)], [ids] being the zone's instances.
    Only trip 0 is served, so the branch for THERMAL_TRIPS_NONE is never
    taken. *)
Definition virtual_sensor_throttle (z : zone) (ids : list nat) (trip : Z) (f : framework W)
  : option (framework W * Z) :=
  match pdata_trips z with
  | None => Some (f, - EINVAL)
  | Some ts =>
    if negb (trip =? 0) then Some (f, 0)
    else f ← throttle_loop z ts ids f 0; Some (f, 0)
  end.

End governor.

(** ** The CPU budget coolers as cooling devices *)

#[export] Instance budget_cooling {sort : ListSort} : CoolingOps budget := {|
  co_max w i := default 0 (get_max_state (b_coolers w) i);
  co_cur w i := default 0 (get_cur_state (b_coolers w) i);
  co_set w i s := fst <$> thermal_budget_set_cur_state w i s |}.

Definition budget_wf (w : budget) : Prop := exists maxes s, budget_inv maxes s w.

Lemma budget_cur_eq {sort : ListSort} maxes s w i :
  budget_inv maxes s w -> co_cur w i = default 0 (sp_states s !! i) /\ co_max w i = default 0 (maxes !! i).
Proof.
  intros (_ & Hm & Hs & _). cbn. unfold get_cur_state, get_max_state, get_pdata.
  by rewrite <- Hm, <- Hs, !list_lookup_fmap.
Qed.

#[export] Instance budget_cooling_laws {sort : ListSort} : CoolingLaws budget.
Proof.
  refine {| co_wf := budget_wf; co_dev w i := (i < length (pdatas (b_coolers w)))%nat |}.
  - intros w i (maxes & s & Hi) Hd. cbn. unfold get_cur_state, get_max_state, get_pdata.
    destruct (lookup_lt_is_Some_2 _ _ Hd) as [p Ep]. rewrite Ep. cbn.
    destruct Hi as ((_ & Hall & _) & _). by destruct (Forall_lookup_1 _ _ _ _ Hall Ep) as [? _].
  - intros w i st (maxes & s & Hi) Hd Hst.
    rewrite (proj2 (budget_cur_eq _ _ _ i Hi)) in Hst.
    destruct (set_state_step maxes s w i st Hi (proj1 Hst)) as (w' & ret & E & Hi').
    exists w'. cbn [co_set budget_cooling]. rewrite E. split; [done|]. split; [by exists maxes, (spec_step maxes s (BSet i st))|].
    assert (Hl : length (sp_states s) = length (pdatas (b_coolers w)) /\ length maxes = length (pdatas (b_coolers w))).
    { destruct Hi as (_ & Hm & Hs & _). by rewrite <- Hm, <- Hs, !length_fmap. }
    destruct Hl as [Hls Hlm]. destruct (lookup_lt_is_Some_2 maxes i) as [m Em]; [lia|].
    assert (Hsp : sp_states (spec_step maxes s (BSet i st)) = <[i := Z.min st m]> (sp_states s)) by (cbn; by rewrite Em).
    split; [|split; [|split]].
    + rewrite (proj1 (budget_cur_eq _ _ _ i Hi')), Hsp. rewrite list_lookup_insert_eq by lia.
      rewrite Em in Hst. cbn in *. lia.
    + intros j Hj. rewrite (proj1 (budget_cur_eq _ _ _ j Hi')), (proj1 (budget_cur_eq _ _ _ j Hi)), Hsp.
      by rewrite list_lookup_insert_ne.
    + intros j. by rewrite (proj2 (budget_cur_eq _ _ _ j Hi')), (proj2 (budget_cur_eq _ _ _ j Hi)).
    + intros j Hj. destruct Hi' as (_ & _ & Hs' & _). apply (f_equal length) in Hs'.
      rewrite Hsp, length_fmap, length_insert in Hs'. lia.
Defined.

Section governor_lemmas.
Context {W : Type} `{CoolingLaws W}.

(** ** Well-formed zones *)

Definition trip_ok (t : trip_t) : Prop := 0 <= hyst t <= temp t /\ temp t < 2147483648.

(** An instance the inner loop looks at. *)
Definition inst_ok (z : zone) (ts : list trip_t) (l : list instance) (id : nat) : Prop :=
  exists ins, l !! id = Some ins /\ 0 <= i_trip ins < trips z /\
    i_trip ins < Z.of_nat (length ts).

(** The inner loop's step on the target, the instances being [l]. *)
Definition reach (z : zone) (ts : list trip_t) (l : list instance) (a : Z) (id : nat) : Z :=
  match l !! id with
  | Some ins =>
    match get_trip_temp ts (i_trip ins) with
    | Some tmp => if tmp <=? temperature z then i_trip ins + 1 else a
    | None => a
    end
  | None => a
  end.

(** Two instance lists that differ in their targets only. *)
Definition same_shape (l l' : list instance) : Prop :=
  forall id, (fun i => (i_zone i, i_trip i, i_cdev i)) <$> l' !! id =
             (fun i => (i_zone i, i_trip i, i_cdev i)) <$> l !! id.

Lemma same_shape_lookup l l' id ins :
  same_shape l l' -> l !! id = Some ins ->
  exists ins', l' !! id = Some ins' /\ i_zone ins' = i_zone ins /\ i_trip ins' = i_trip ins /\
    i_cdev ins' = i_cdev ins.
Proof.
  intros Hs E. specialize (Hs id). rewrite E in Hs. destruct (l' !! id) as [ins'|]; [|discriminate].
  cbn in Hs. injection Hs as E1 E2 E3. by exists ins'.
Qed.

Lemma same_shape_trans l1 l2 l3 : same_shape l1 l2 -> same_shape l2 l3 -> same_shape l1 l3.
Proof. intros H1 H2 id. by rewrite H2, H1. Qed.

Lemma same_shape_set l id ins t :
  l !! id = Some ins -> same_shape l (<[id := set_target ins t]> l).
Proof.
  intros E j. destruct (decide (j = id)) as [->|].
  - rewrite list_lookup_insert_eq by (by eapply lookup_lt_Some). by rewrite E.
  - by rewrite list_lookup_insert_ne.
Qed.

Lemma inst_ok_shape z ts l l' id : same_shape l l' -> inst_ok z ts l id -> inst_ok z ts l' id.
Proof.
  intros Hs (ins & E & Ht & Hl). destruct (same_shape_lookup _ _ _ _ Hs E) as (ins' & E' & _ & T & _).
  exists ins'. by rewrite T.
Qed.

Lemma reach_shape z ts l l' a id : same_shape l l' -> reach z ts l' a id = reach z ts l a id.
Proof.
  intros Hs. unfold reach. specialize (Hs id).
  destruct (l !! id), (l' !! id); try discriminate; [|done]. cbn in Hs. injection Hs as _ -> _. done.
Qed.

Lemma get_trip_temp_Some ts k :
  0 <= k < Z.of_nat (length ts) -> Forall trip_ok ts ->
  exists t, ts !! Z.to_nat k = Some t /\ get_trip_temp ts k = Some (temp t) /\ trip_ok t.
Proof.
  intros Hk Hok. destruct (lookup_lt_is_Some_2 ts (Z.to_nat k)) as [t Et]; [lia|].
  pose proof (Forall_lookup_1 _ _ _ _ Hok Et) as Ht. exists t. split; [done|]. split; [|done].
  unfold get_trip_temp. rewrite (proj2 (Z.ltb_ge k 0)) by lia. rewrite Et. cbn.
  destruct Ht. by rewrite s32_id by lia.
Qed.

(** ** The inner loop *)

Lemma scan_spec z ts ids l tgt :
  Forall trip_ok ts -> Forall (inst_ok z ts l) ids ->
  exists l', scan_trips z ts ids l tgt = Some (l', foldl (reach z ts l) tgt ids) /\
    same_shape l l' /\
    (forall id, id ∈ ids -> exists ins, l' !! id = Some ins /\ target ins = None) /\
    (forall id, id ∉ ids -> l' !! id = l !! id).
Proof.
  intros Hts. revert l tgt. induction ids as [|id ids IH]; intros l tgt Hall; cbn [scan_trips foldl].
  { exists l. split_and!; try done. intros id Hid. by apply elem_of_nil in Hid. }
  apply Forall_cons_1 in Hall as [Hid Hall]. pose proof Hid as (ins & E & Htr & Hlen).
  rewrite E. cbn [mbind option_bind]. rewrite (proj2 (Z.leb_gt (trips z) _)) by lia.
  destruct (get_trip_temp_Some ts (i_trip ins)) as (t & _ & Et & _); [lia|done|]. rewrite Et. cbn [mbind option_bind].
  pose proof (same_shape_set l id ins None E) as Hsh.
  destruct (IH (<[id := set_target ins None]> l)
              (if temp t <=? temperature z then i_trip ins + 1 else tgt)) as (l' & Es & Hs & Hin & Hout).
  { revert Hall. apply Forall_impl. intros j. by apply inst_ok_shape. }
  exists l'. rewrite Es. split.
  { assert (Hr : reach z ts l tgt id = if temp t <=? temperature z then i_trip ins + 1 else tgt)
      by (unfold reach; by rewrite E, Et).
    rewrite Hr. f_equal. f_equal.
    generalize (if temp t <=? temperature z then i_trip ins + 1 else tgt). clear -Hsh.
    induction ids as [|j ids IH]; intros a; [done|]. cbn. by rewrite (reach_shape z ts l), IH. }
  split; [exact (same_shape_trans _ _ _ Hsh Hs)|]. split.
  - intros j Hj. destruct (decide (j ∈ ids)) as [?|Hn]; [by apply Hin|].
    apply elem_of_cons in Hj as [->|?]; [|done]. rewrite Hout by done.
    exists (set_target ins None). split; [|done]. apply list_lookup_insert_eq. by eapply lookup_lt_Some.
  - intros j Hj. apply not_elem_of_cons in Hj as [Hne Hj]. rewrite Hout by done.
    by apply list_lookup_insert_ne.
Qed.

Lemma reach_range z ts l tgt ids :
  0 <= tgt -> Forall (inst_ok z ts l) ids -> 0 <= foldl (reach z ts l) tgt ids.
Proof.
  revert tgt. induction ids as [|id ids IH]; intros tgt Ht Hall; [done|]. apply Forall_cons_1 in Hall as [Hid Hall].
  cbn. apply IH; [|done]. destruct Hid as (ins & E & Htr & _). unfold reach. rewrite E.
  destruct (get_trip_temp ts (i_trip ins)) as [tmp|]; [|done]. destruct (tmp <=? temperature z); lia.
Qed.

(** Only one instance asks for something: that is what the device gets. *)
Lemma deepest_single l ids id0 t :
  0 <= t -> id0 ∈ ids ->
  (exists ins, l !! id0 = Some ins /\ target ins = Some t) ->
  (forall id, id ∈ ids -> id <> id0 -> l !! id ≫= target = None) ->
  deepest l ids = t.
Proof.
  intros Ht Hin (ins & E & Et) Hnone. unfold deepest.
  assert (Hgen : forall ids acc, 0 <= acc <= t ->
    (forall id, id ∈ ids -> id <> id0 -> l !! id ≫= target = None) ->
    foldl (fun acc id => match l !! id ≫= target with
                         | Some t => if acc <? t then t else acc | None => acc end) acc ids
    = if decide (id0 ∈ ids) then t else acc).
  { induction ids0 as [|j js IH]; intros acc Hacc Hn.
    - cbn. by rewrite decide_False by (by intros ?%elem_of_nil).
    - cbn [foldl]. destruct (decide (j = id0)) as [->|Hj].
      + rewrite E. cbn [mbind option_bind]. rewrite Et. rewrite (decide_True (P := id0 ∈ id0 :: js)) by left.
        rewrite IH; [|destruct (Z.ltb_spec acc t); lia|intros; apply Hn; [by right|done]].
        destruct (decide (id0 ∈ js)); [done|]. destruct (Z.ltb_spec acc t); lia.
      + rewrite Hn by (done || left). rewrite IH; [|done|intros; apply Hn; [by right|done]].
        destruct (decide (id0 ∈ js)) as [Hi|Hi].
        * by rewrite decide_True by (by right).
        * rewrite decide_False; [done|]. intros [?|?]%elem_of_cons; by subst. }
  rewrite Hgen by (done || lia). by rewrite decide_True.
Qed.

(** ** One device *)

(** The staircase of one update: up at once, down only below the hysteresis
    of the present state's trip. *)
Definition stair (ts : list trip_t) (T cur L : Z) : Z :=
  if L <? cur then
    match ts !! Z.to_nat (cur - 1) with
    | Some t => if below_hyst T (temp t) (hyst t) then L else cur
    | None => cur
    end
  else L.

(** What [throttle_cdev] needs of a framework state for the instance [id]. *)
Definition cdev_ready (z : zone) (ts : list trip_t) (f : framework W) (id : nat) (c : nat) : Prop :=
  co_wf (devices f) /\ co_dev (devices f) c /\ co_max (devices f) c <= Z.of_nat (length ts) /\
  Forall trip_ok ts /\ ts <> [] /\ Forall (inst_ok z ts (insts f)) (cdev_list f c) /\ id ∈ cdev_list f c /\
  exists ins, insts f !! id = Some ins /\ i_cdev ins = c.

Lemma decide_stair z ts cur L :
  0 <= cur <= Z.of_nat (length ts) -> Forall trip_ok ts -> 0 <= L ->
  exists ask, decide_target z ts cur L = Some (stair ts (temperature z) cur L, ask) /\
    (ask = negb (cur =? stair ts (temperature z) cur L)).
Proof.
  intros Hcur Hts HL. unfold decide_target, stair.
  destruct (Z.ltb_spec cur L); destruct (Z.ltb_spec L cur); try lia.
  - exists true. split; [done|]. by rewrite (proj2 (Z.eqb_neq cur L)) by lia.
  - destruct (get_trip_temp_Some ts (cur - 1)) as (t & Et & Eg & _); [lia|done|].
    rewrite Eg, Et. cbn [mbind option_bind]. destruct (below_hyst (temperature z) (temp t) (hyst t)).
    + exists true. split; [done|]. by rewrite (proj2 (Z.eqb_neq cur L)) by lia.
    + exists false. split; [done|]. by rewrite Z.eqb_refl.
  - exists false. split; [done|]. assert (cur = L) as -> by lia. by rewrite Z.eqb_refl.
Qed.

Lemma stair_range ts T cur L m : 0 <= cur <= m -> 0 <= L <= m -> 0 <= stair ts T cur L <= m.
Proof.
  intros Hc HL. unfold stair. destruct (L <? cur); [|done].
  destruct (ts !! Z.to_nat (cur - 1)) as [t|]; [|done]. by destruct (below_hyst T (temp t) (hyst t)).
Qed.

(** What one device's update leaves: [t'] is its new state. *)
Definition cdev_done (f f' : framework W) (id c : nat) (t' : Z) : Prop :=
  co_wf (devices f') /\ co_cur (devices f') c = t' /\
  (forall j, j <> c -> co_cur (devices f') j = co_cur (devices f) j) /\
  (forall j, co_max (devices f') j = co_max (devices f) j) /\
  (forall j, co_dev (devices f) j -> co_dev (devices f') j) /\
  cdev_list f' = cdev_list f /\ same_shape (insts f) (insts f') /\
  (forall i, i ∈ cdev_list f c -> i <> id -> insts f' !! i ≫= target = None) /\
  (forall i, i ∉ cdev_list f c -> insts f' !! i = insts f !! i) /\
  (if co_cur (devices f) c =? t' then devices f' = devices f else co_set (devices f) c t' = Some (devices f')).

Lemma throttle_cdev_spec z ts f id c tgt :
  cdev_ready z ts f id c -> 0 <= tgt ->
  let L := Z.min (foldl (reach z ts (insts f)) tgt (cdev_list f c)) (co_max (devices f) c) in
  let t' := stair ts (temperature z) (co_cur (devices f) c) L in
  exists f', throttle_cdev z ts f id tgt = Some (f', t') /\ cdev_done f f' id c t'.
Proof.
  intros (Hwf & Hdev & Hmax & Hts & Hne & Hall & Hid & ins & Ei & Ec) Htgt L t'.
  pose proof (co_cur_range _ _ Hwf Hdev) as Hcur.
  destruct (scan_spec z ts (cdev_list f c) (insts f) tgt Hts Hall) as (l & Es & Hsh & Hin & Hout).
  pose proof (reach_range z ts (insts f) tgt (cdev_list f c) Htgt Hall) as Hr.
  assert (HLr : 0 <= L <= co_max (devices f) c) by (subst L; lia).
  assert (Ht' : 0 <= t' <= co_max (devices f) c) by (by apply stair_range).
  unfold throttle_cdev. rewrite Ei. cbn [mbind option_bind]. rewrite Ec, Es. cbn [mbind option_bind].
  replace (if co_max (devices f) c <? _ then _ else _) with L
    by (subst L; destruct (Z.ltb_spec (co_max (devices f) c) (foldl (reach z ts (insts f)) tgt (cdev_list f c))); lia).
  destruct (decide_stair z ts (co_cur (devices f) c) L) as (ask & -> & Hask); [lia|done|lia|].
  fold t' in Hask |- *. cbn [mbind option_bind]. rewrite Hask.
  destruct (Z.eqb_spec (co_cur (devices f) c) t') as [E|E]; cbn [negb].
  { eexists. split; [reflexivity|]. unfold cdev_done; cbn. rewrite (proj2 (Z.eqb_eq _ _) E). split_and!; try done.
    intros i Hi Hn. destruct (Hin i Hi) as (ins' & -> & Et). exact Et. }
  destruct (Hin id Hid) as (ins' & Ei' & Et').
  set (l1 := alter (fun i => set_target i (Some t')) id l).
  assert (Hl1 : l1 = <[id := set_target ins' (Some t')]> l).
  { subst l1. apply list_eq. intros j. destruct (decide (j = id)) as [->|].
    - rewrite list_lookup_alter_eq, Ei'. by rewrite list_lookup_insert_eq by (by eapply lookup_lt_Some).
    - by rewrite list_lookup_alter_ne, list_lookup_insert_ne. }
  unfold thermal_cdev_update. cbn [updated mark set_insts]. rewrite Nat.eqb_refl. cbn [insts cdev_list devices mark set_insts].
  assert (Hdeep : deepest l1 (cdev_list f c) = t').
  { apply (deepest_single _ _ id); [lia|done| |].
    - exists (set_target ins' (Some t')). split; [|done]. rewrite Hl1.
      apply list_lookup_insert_eq. by eapply lookup_lt_Some.
    - intros j Hj Hnj. rewrite Hl1, list_lookup_insert_ne by done. destruct (Hin j Hj) as (? & -> & Htj). exact Htj. }
  rewrite Hdeep. destruct (co_set_spec (devices f) c t' Hwf Hdev) as (w' & Ew & Hwf' & Hcur' & Hoth & Hmax' & Hdev'); [lia|].
  rewrite Ew. cbn [mbind option_bind].
  destruct (get_trip_temp_Some ts (if t' =? 0 then 0 else t' - 1)) as (t & _ & Eg & _).
  { destruct (Z.eqb_spec t' 0); [|lia]. destruct ts; [done|cbn; lia]. }
  { done. }
  rewrite Eg. cbn [mbind option_bind]. eexists. split; [reflexivity|]. unfold cdev_done; cbn.
  split_and!; try done.
  - rewrite Hl1. apply (same_shape_trans _ _ _ Hsh). by apply same_shape_set.
  - intros i Hi Hn. rewrite Hl1, list_lookup_insert_ne by done. destruct (Hin i Hi) as (? & -> & Hti). exact Hti.
  - intros i Hi. rewrite Hl1, list_lookup_insert_ne by (intros ->; done). by apply Hout.
  - by rewrite (proj2 (Z.eqb_neq _ _) E).
Qed.

(** Instances of other trips are passed over. *)
Lemma throttle_loop_skip z ts ids f tgt :
  Forall (fun id => exists ins, insts f !! id = Some ins /\ i_trip ins <> 0) ids ->
  throttle_loop z ts ids f tgt = Some f.
Proof.
  induction 1 as [|id ids (ins & E & Hn) _ IH]; [done|]. cbn. rewrite E. cbn [mbind option_bind].
  by rewrite (proj2 (Z.eqb_neq _ 0)).
Qed.


(** ** Specification of a zone with one device *)

Definition with_temp (z : zone) (T : Z) : zone := mkZone (z_id z) (trips z) T (pdata_trips z).

(** Updates of the zone at successive temperatures. *)
Fixpoint zone_updates (z : zone) (ids : list nat) (f : framework W) (Ts : list Z)
  : option (framework W) :=
  match Ts with
  | [] => Some f
  | T :: Ts =>
    '(f, _) ← virtual_sensor_throttle (with_temp z T) ids 0 f; zone_updates z ids f Ts
  end.

(** The number of trips reached. *)
Definition wanted (ts : list trip_t) (n : nat) (T : Z) : Z :=
  Z.of_nat (length (filter (fun t => temp t <= T) (take n ts))).

(** Up to the number of trips reached; down only from the hysteresis below
    the trip of the present state. *)
Definition stair_spec (ts : list trip_t) (n : nat) (max cur T : Z) : Z :=
  let L := Z.min (wanted ts n T) max in
  if L <? cur then
    match ts !! Z.to_nat (cur - 1) with
    | Some t => if T <=? temp t - hyst t then L else cur
    | None => cur
    end
  else L.

Definition ascending (ts : list trip_t) : Prop :=
  forall i j ti tj, (i <= j)%nat -> ts !! i = Some ti -> ts !! j = Some tj -> temp ti <= temp tj.

(** One device, bound to the zone's [n] trips in order and to no other zone. *)
Definition one_device (z : zone) (ts : list trip_t) (n c : nat) (f : framework W) : Prop :=
  pdata_trips z = Some ts /\ trips z = Z.of_nat n /\ (0 < n <= length ts)%nat /\
  Forall trip_ok ts /\ ascending ts /\
  co_wf (devices f) /\ co_dev (devices f) c /\ co_max (devices f) c <= Z.of_nat (length ts) /\
  cdev_list f c = seq 0 n /\
  (forall k, (k < n)%nat -> exists ins, insts f !! k = Some ins /\ i_trip ins = Z.of_nat k /\ i_cdev ins = c).

Lemma wanted_all ts n T t :
  ascending ts -> ts !! n = Some t -> temp t <= T -> wanted ts n T = Z.of_nat n.
Proof.
  intros Ha Ht Hle. unfold wanted. rewrite list_filter_all.
  - rewrite length_take. apply lookup_lt_Some in Ht. lia.
  - apply Forall_lookup_2. intros i x Hi.
    assert (Hin : (i < n)%nat) by (apply lookup_lt_Some in Hi; rewrite length_take in Hi; lia).
    rewrite lookup_take_lt in Hi by done. pose proof (Ha i n x t ltac:(lia) Hi Ht). lia.
Qed.

Lemma reach_wanted z ts l n :
  Forall trip_ok ts -> ascending ts -> (n <= length ts)%nat ->
  (forall k, (k < n)%nat -> exists ins, l !! k = Some ins /\ i_trip ins = Z.of_nat k) ->
  foldl (reach z ts l) 0 (seq 0 n) = wanted ts n (temperature z).
Proof.
  intros Hts Ha. induction n as [|n IH]; intros Hn Hl; [done|].
  rewrite seq_S, foldl_app. cbn [foldl Nat.add]. rewrite IH; [|lia|intros; apply Hl; lia].
  destruct (Hl n) as (ins & E & Et); [lia|]. unfold reach. rewrite E, Et.
  destruct (get_trip_temp_Some ts (Z.of_nat n)) as (t & Ett & Eg & _); [lia|done|]. rewrite Eg.
  rewrite Nat2Z.id in Ett.
  assert (Hw : wanted ts (S n) (temperature z) =
    wanted ts n (temperature z) + (if temp t <=? temperature z then 1 else 0)).
  { unfold wanted. rewrite (take_S_r _ _ t) by done. rewrite list.filter_app, length_app.
    destruct (Z.leb_spec (temp t) (temperature z)).
    - rewrite filter_singleton_True by done. cbn. lia.
    - rewrite filter_cons_False by (apply Z.lt_nge; done). cbn. lia. }
  rewrite Hw. destruct (Z.leb_spec (temp t) (temperature z)); [|lia].
  by rewrite (wanted_all ts n _ t).
Qed.

Lemma one_device_done z ts n c f f' id t' :
  one_device z ts n c f -> cdev_done f f' id c t' -> one_device z ts n c f'.
Proof.
  intros (Hp & Htr & Hn & Hts & Ha & Hwf & Hd & Hm & Hl & Hi) (Hwf' & _ & _ & Hmax & Hdev & Hcl & Hsh & _).
  unfold one_device. rewrite Hcl, Hmax. split_and!; try done; try lia; [by apply Hdev|].
  intros k Hk. destruct (Hi k Hk) as (ins & E & T & C).
  destruct (same_shape_lookup _ _ _ _ Hsh E) as (ins' & E' & _ & T' & C'). exists ins'. by rewrite T', C'.
Qed.

(** One update of such a zone. *)
Lemma one_device_update z ts n c f T :
  one_device z ts n c f ->
  exists f', virtual_sensor_throttle (with_temp z T) (seq 0 n) 0 f = Some (f', 0) /\
    one_device z ts n c f' /\
    co_cur (devices f') c =
      stair ts T (co_cur (devices f) c) (Z.min (wanted ts n T) (co_max (devices f) c)) /\
    co_max (devices f') c = co_max (devices f) c /\
    (forall j, j <> c -> co_cur (devices f') j = co_cur (devices f) j) /\
    (if co_cur (devices f) c =? co_cur (devices f') c then devices f' = devices f
     else co_set (devices f) c (co_cur (devices f') c) = Some (devices f')).
Proof.
  intros Hone. pose proof Hone as (Hp & Htr & Hn & Hts & Ha & Hwf & Hd & Hm & Hl & Hi).
  unfold virtual_sensor_throttle. cbn [pdata_trips with_temp]. rewrite Hp. cbn [Z.eqb negb].
  destruct n as [|n]; [lia|]. cbn [seq throttle_loop].
  destruct (Hi O) as (ins & E & T0 & C0); [lia|]. rewrite E. cbn [mbind option_bind].
  rewrite T0. change (negb (Z.of_nat 0 =? 0)) with false. cbv iota.
  assert (Hready : cdev_ready (with_temp z T) ts f 0 c).
  { unfold cdev_ready. rewrite Hl. split_and!; try done; [intros ->; cbn in *; lia| | |].
    - apply Forall_seq. intros k Hk.
      destruct (Hi k) as (ik & Ek & Tk & _); [lia|]. exists ik. cbn [trips with_temp]. rewrite Htr. split_and!; [done|lia..].
    - left.
    - by exists ins. }
  destruct (throttle_cdev_spec (with_temp z T) ts f 0 c 0 Hready) as (f' & E' & Hdone); [lia|].
  rewrite E'. cbn [mbind option_bind].
  rewrite throttle_loop_skip.
  - exists f'. cbn [mbind option_bind]. split; [done|]. split; [exact (one_device_done _ _ _ _ _ _ _ _ Hone Hdone)|].
    destruct Hdone as (_ & Hc & Ho & Hmx & _ & _ & _ & _ & _ & Hset). split; [|split; [done|split; [done|by rewrite Hc]]].
    rewrite Hc, Hl, reach_wanted by (done || lia || (intros k Hk; destruct (Hi k Hk) as (? & ? & ? & _); by eexists)).
    done.
  - apply Forall_seq. intros k Hk.
    destruct Hdone as (_ & _ & _ & _ & _ & _ & Hsh & _).
    destruct (Hi k) as (ik & Ek & Tk & _); [lia|].
    destruct (same_shape_lookup _ _ _ _ Hsh Ek) as (ik' & Ek' & _ & Tk' & _).
    exists ik'. split; [done|]. lia.
Qed.

Lemma stair_stair_spec ts n T cur m :
  Forall trip_ok ts -> 0 <= T < 2147483648 ->
  stair ts T cur (Z.min (wanted ts n T) m) = stair_spec ts n m cur T.
Proof.
  intros Hts HT. unfold stair, stair_spec. destruct (_ <? cur); [|done].
  destruct (ts !! Z.to_nat (cur - 1)) as [t|] eqn:E; [|done].
  pose proof (Forall_lookup_1 _ _ _ _ Hts E) as Ht. unfold trip_ok in Ht. unfold below_hyst.
  assert (Hu : forall x, 0 <= x < 2147483648 -> u64 x = x) by (intros; apply wrapU_id; lia).
  by rewrite !Hu by lia.
Qed.

Lemma stair_cold ts n T cur m :
  Forall trip_ok ts -> -2147483648 <= T < 0 -> 0 <= cur <= m ->
  stair ts T cur (Z.min (wanted ts n T) m) = cur.
Proof.
  intros Hts HT Hc. assert (Hw : wanted ts n T = 0).
  { unfold wanted. rewrite list_filter_none; [done|]. apply Forall_take. revert Hts. apply Forall_impl.
    unfold trip_ok. intros x. lia. }
  rewrite Hw. unfold stair. destruct (Z.ltb_spec (Z.min 0 m) cur); [|lia].
  destruct (ts !! Z.to_nat (cur - 1)) as [t|] eqn:E; [|done].
  pose proof (Forall_lookup_1 _ _ _ _ Hts E) as Ht. unfold trip_ok in Ht. unfold below_hyst.
  assert (Hu : u64 (temp t - hyst t) = temp t - hyst t) by (apply wrapU_id; lia).
  assert (Hn : u64 T = T + 18446744073709551616).
  { unfold wrapU. rewrite <- (Z_mod_plus_full T 1). apply Z.mod_small. lia. }
  rewrite Hu, Hn. by rewrite (proj2 (Z.leb_gt _ _)) by lia.
Qed.

Lemma reach_none z ts l tgt ids :
  Forall (fun t => temperature z < temp t) ts -> Forall trip_ok ts ->
  foldl (reach z ts l) tgt ids = tgt.
Proof.
  intros Hlow Hts. revert tgt. induction ids as [|id ids IH]; intros tgt; [done|]. cbn. rewrite IH.
  unfold reach. destruct (l !! id) as [ins|]; [|done].
  unfold get_trip_temp. destruct (i_trip ins <? 0); [done|].
  destruct (ts !! Z.to_nat (i_trip ins)) as [t|] eqn:E; [|done]. cbn.
  pose proof (Forall_lookup_1 _ _ _ _ Hlow E) as Hl. pose proof (Forall_lookup_1 _ _ _ _ Hts E) as Ht.
  cbn in Hl. unfold trip_ok in Ht. rewrite s32_id by lia. by rewrite (proj2 (Z.leb_gt _ _)) by lia.
Qed.

(** ** Properties *)

(** C35. A zone with one cooling device, at whatever sequence of non-negative
    temperatures: the device's state climbs at once to the number of trips
    reached (cut at its maximum) and comes down only when the temperature is
    below the trip of the present state by that trip's hysteresis; no other
    device is touched and no access leaves the trips. *)
Theorem gov_staircase z ts n c f Ts :
  one_device z ts n c f -> Forall (fun T => 0 <= T < 2147483648) Ts ->
  exists f', zone_updates z (seq 0 n) f Ts = Some f' /\
    co_cur (devices f') c =
      foldl (stair_spec ts n (co_max (devices f) c)) (co_cur (devices f) c) Ts /\
    (forall j, j <> c -> co_cur (devices f') j = co_cur (devices f) j).
Proof.
  intros Hone HTs. revert f Hone. induction HTs as [|T Ts HT _ IH]; intros f Hone; [by exists f|].
  cbn [zone_updates]. destruct (one_device_update z ts n c f T Hone) as (f1 & -> & H1 & Hc & Hm & Ho & _).
  cbn [mbind option_bind]. destruct (IH f1 H1) as (f' & E & Hc' & Ho'). exists f'. split; [done|]. split.
  - rewrite Hc', Hm, Hc. cbn [foldl]. rewrite (stair_stair_spec ts n T) by (done || apply Hone). done.
  - intros j Hj. by rewrite Ho', Ho.
Qed.

(** Below 0 degrees the hysteresis is compared on unsigned longs: a device
    throttled when the temperature turns negative stays in its state for as
    long as it stays negative. *)
Theorem cold_never_unthrottles z ts n c f Ts :
  one_device z ts n c f -> Forall (fun T => -2147483648 <= T < 0) Ts ->
  exists f', zone_updates z (seq 0 n) f Ts = Some f' /\
    co_cur (devices f') c = co_cur (devices f) c.
Proof.
  intros Hone HTs. revert f Hone. induction HTs as [|T Ts HT _ IH]; intros f Hone; [by exists f|].
  cbn [zone_updates]. destruct (one_device_update z ts n c f T Hone) as (f1 & -> & H1 & Hc & Hm & _).
  cbn [mbind option_bind]. destruct (IH f1 H1) as (f' & E & Hc'). exists f'. split; [done|].
  pose proof Hone as (_ & _ & _ & Hts & _ & Hwf & Hd & _).
  pose proof (co_cur_range _ _ Hwf Hd). by rewrite Hc', Hc, stair_cold.
Qed.

(** A device shared by several zones: an update of one zone below all its
    trips, and below the hysteresis of the present state, clears the targets
    of every other zone's instances and releases the device, however hot the
    other zones are. *)
Theorem other_zone_unthrottles z ts f id c ids t :
  pdata_trips z = Some ts -> cdev_ready z ts f id c ->
  (exists ins, insts f !! id = Some ins /\ i_trip ins = 0) ->
  Forall (fun i => exists ins, insts f !! i = Some ins /\ i_trip ins <> 0) ids ->
  Forall (fun t => temperature z < temp t) ts ->
  ts !! Z.to_nat (co_cur (devices f) c - 1) = Some t ->
  0 <= temperature z <= temp t - hyst t ->
  exists f', virtual_sensor_throttle z (id :: ids) 0 f = Some (f', 0) /\
    co_cur (devices f') c = 0 /\
    (forall i, i ∈ cdev_list f c -> i <> id -> insts f' !! i ≫= target = None).
Proof.
  intros Hp Hready (ins & E & Et) Hids Hlow Htr HT. unfold virtual_sensor_throttle. rewrite Hp. cbn [Z.eqb negb].
  cbn [throttle_loop]. rewrite E. cbn [mbind option_bind]. rewrite Et. cbn [Z.eqb negb].
  destruct (throttle_cdev_spec z ts f id c 0 Hready) as (f' & -> & Hdone); [lia|]. cbn [mbind option_bind].
  pose proof Hready as (Hwf & Hd & _ & Hts & _).
  destruct Hdone as (_ & Hc & _ & _ & _ & _ & Hsh & Hnone & _).
  rewrite throttle_loop_skip.
  2:{ revert Hids. apply Forall_impl. intros i (ii & Ei & Ti).
      destruct (same_shape_lookup _ _ _ _ Hsh Ei) as (ii' & Ei' & _ & Ti' & _). exists ii'. split; [done|lia]. }
  cbn [mbind option_bind]. exists f'. split; [done|]. split; [|done]. rewrite Hc, reach_none by done.
  pose proof (co_cur_range _ _ Hwf Hd). unfold stair. rewrite Z.min_l by lia.
  destruct (Z.ltb_spec 0 (co_cur (devices f) c)); [|done]. rewrite Htr.
  pose proof (Forall_lookup_1 _ _ _ _ Hts Htr) as Ht. unfold trip_ok in Ht. unfold below_hyst, wrapU.
  rewrite !Z.mod_small by lia. by rewrite (proj2 (Z.leb_le _ _)) by lia.
Qed.

(** The target is not reset between the devices of a zone: at a
    temperature below every trip, a device held by its hysteresis in state s
    drags the next, idle one to state s (or its maximum). *)
Theorem hysteresis_leaks z ts f id1 id2 c1 c2 t :
  pdata_trips z = Some ts -> c1 <> c2 ->
  cdev_ready z ts f id1 c1 -> cdev_ready z ts f id2 c2 ->
  (forall i, i ∈ [id1; id2] -> exists ins, insts f !! i = Some ins /\ i_trip ins = 0) ->
  Forall (fun t => temperature z < temp t) ts ->
  0 < co_cur (devices f) c1 -> co_cur (devices f) c2 = 0 ->
  ts !! Z.to_nat (co_cur (devices f) c1 - 1) = Some t -> temp t - hyst t < temperature z ->
  exists f', virtual_sensor_throttle z [id1; id2] 0 f = Some (f', 0) /\
    co_cur (devices f') c1 = co_cur (devices f) c1 /\
    co_cur (devices f') c2 = Z.min (co_cur (devices f) c1) (co_max (devices f) c2).
Proof.
  intros Hp Hne R1 R2 Htrip Hlow Hc1 Hc2 Htr HT. unfold virtual_sensor_throttle. rewrite Hp. cbn [Z.eqb negb].
  destruct (Htrip id1) as (i1 & E1 & T1); [left|]. destruct (Htrip id2) as (i2 & E2 & T2); [right; left|].
  cbn [throttle_loop]. rewrite E1. cbn [mbind option_bind]. rewrite T1. cbn [Z.eqb negb].
  destruct (throttle_cdev_spec z ts f id1 c1 0 R1) as (f1 & -> & Hd1); [lia|]. cbn [mbind option_bind].
  pose proof R1 as (Hwf & Hdev1 & _ & Hts & _). pose proof (co_cur_range _ _ Hwf Hdev1) as Hr1.
  pose proof (Forall_lookup_1 _ _ _ _ Hts Htr) as Ht. unfold trip_ok in Ht.
  pose proof (Forall_lookup_1 _ _ _ _ Hlow Htr) as Hl. cbn in Hl.
  assert (Hhold : stair ts (temperature z) (co_cur (devices f) c1)
                    (Z.min (foldl (reach z ts (insts f)) 0 (cdev_list f c1)) (co_max (devices f) c1))
                  = co_cur (devices f) c1).
  { rewrite reach_none by done. unfold stair. rewrite Z.min_l by lia.
    rewrite (proj2 (Z.ltb_lt 0 _)) by lia. rewrite Htr. unfold below_hyst, wrapU.
    rewrite !Z.mod_small by lia. by rewrite (proj2 (Z.leb_gt _ _)) by lia. }
  rewrite Hhold in Hd1 |- *. destruct Hd1 as (Hwf1 & Hcur1 & Hoth1 & Hmax1 & Hdevs1 & Hcl1 & Hsh1 & _).
  destruct (same_shape_lookup _ _ _ _ Hsh1 E2) as (i2' & E2' & _ & T2' & C2').
  rewrite E2'. cbn [mbind option_bind]. rewrite T2', T2. cbn [Z.eqb negb].
  assert (R2' : cdev_ready z ts f1 id2 c2).
  { destruct R2 as (_ & Hdev2 & Hm2 & _ & Hn2 & Hall2 & Hin2 & ins2 & Ei2 & Ec2). simplify_eq.
    unfold cdev_ready. rewrite Hcl1, Hmax1. split_and!; try done.
    - by apply Hdevs1.
    - revert Hall2. apply Forall_impl. intros i. by apply inst_ok_shape.
    - exists i2'. by split. }
  destruct (throttle_cdev_spec z ts f1 id2 c2 (co_cur (devices f) c1) R2') as (f2 & -> & Hd2); [lia|].
  cbn [mbind option_bind]. exists f2. split; [done|].
  destruct Hd2 as (_ & Hcur2 & Hoth2 & _). split; [by rewrite Hoth2|].
  rewrite Hcur2, reach_none, Hmax1, Hoth1, Hc2 by done. unfold stair.
  destruct R2 as (_ & Hdev2 & _). pose proof (co_cur_range _ _ Hwf Hdev2).
  rewrite (proj2 (Z.ltb_ge _ 0)) by lia. done.
Qed.

End governor_lemmas.

(** ** The properties at concrete inputs: zones over the CPU budget coolers *)

Definition ex_trips : list trip_t := [mkTrip 40000 2000; mkTrip 50000 3000; mkTrip 60000 5000].
Definition ex_zone (id : nat) (T : Z) : zone := mkZone id 3 T (Some ex_trips).
Definition ex_inst (z : nat) (trip : Z) (c : nat) : instance := mkInst z trip c None.

(** Zone 0 with its three trips on cooler 0. *)
Definition ex_fw (w : budget) : framework budget :=
  mkFw [ex_inst 0 0 0; ex_inst 0 1 0; ex_inst 0 2 0] (fun c => if (c =? 0)%nat then seq 0 3 else [])
       (fun _ => true) w [].

Lemma ex_trips_ok : Forall trip_ok ex_trips.
Proof. unfold ex_trips. by repeat (apply list.Forall_cons; split; [unfold trip_ok; cbn; lia|]). Qed.

Lemma ex_trips_ascending : ascending ex_trips.
Proof.
  intros i j ti tj Hij Hi Hj. pose proof (lookup_lt_Some _ _ _ Hi) as Li.
  pose proof (lookup_lt_Some _ _ _ Hj) as Lj. cbn in Li, Lj.
  destruct i as [|[|[|i]]], j as [|[|[|j]]]; cbn in *; try lia; simplify_eq; cbn; lia.
Qed.

Lemma ex_budget_wf : budget_wf ex_budget.
Proof. exists [3; 3], (mkSpec [0; 0] 4600). exact ex_budget_inv. Qed.

Lemma ex_one_device w :
  budget_wf w -> length (pdatas (b_coolers w)) = 2%nat -> co_max w 0 = 3 ->
  one_device (ex_zone 0 0) ex_trips 3 0 (ex_fw w).
Proof.
  intros Hw Hlen Hm. unfold one_device. cbn [devices ex_fw cdev_list insts].
  split; [reflexivity|]. split; [reflexivity|]. split; [cbn; lia|].
  split; [exact ex_trips_ok|]. split; [exact ex_trips_ascending|]. split; [exact Hw|].
  split; [change ((0 < length (pdatas (b_coolers w)))%nat); lia|].
  split; [change (co_max w 0 <= 3); lia|]. split; [reflexivity|].
  intros k Hk. destruct k as [|[|[|k]]]; [by eexists..|lia].
Qed.

Lemma gov_staircase_witness :
  exists f', zone_updates (ex_zone 0 0) (seq 0 3) (ex_fw ex_budget) [52000; 48000; 61000; 57000; 54000; 46000] = Some f' /\
    co_cur (devices f') 0 = 1 /\ _thermal_budget (devices f') = 2000.
Proof.
  destruct (gov_staircase (ex_zone 0 0) ex_trips 3 0 (ex_fw ex_budget) [52000; 48000; 61000; 57000; 54000; 46000])
    as (f' & E & C & _).
  - apply ex_one_device; [exact ex_budget_wf | reflexivity | reflexivity].
  - repeat constructor; lia.
  - exists f'. split; [exact E|]. split; [rewrite C; vm_compute; reflexivity|].
    vm_compute in E. injection E as <-. reflexivity.
Defined.

Definition ex_throttled : budget :=
  mkBudget (mkCoolers [mkPdata "cooler" 2 3 2000 2 (repeat 2000 12); ex_cooler 2 (repeat 1500 12) 4600] [0%nat; 1%nat])
    2000 2000 4600 (set_cpu ex_vs_hw (Some (mkCdev 2 ex_em 4 (Some 1000000)))).

Lemma ex_throttled_wf : budget_wf ex_throttled.
Proof.
  exists [3; 3], (mkSpec [2; 0] 4600). unfold budget_inv. split_and!; try reflexivity.
  - split; [unfold small, MAXIMUM_CPU_POWER; lia|]. split; [|by split].
    apply list.Forall_cons; split; [|apply list.Forall_cons; split; [|done]];
      (split; [cbn; lia|]; split; [cbn; lia|]; split; [reflexivity|]; apply ex_small; split; lia).
  - split; [exists 0%nat; eexists; split; [left|by split]|].
    intros i p Hi. cbn in Hi. repeat (apply elem_of_cons in Hi as [->|Hi]; [intros [= <-]; cbn; lia|]).
    by apply elem_of_nil in Hi.
  - split; [|split; [split; cbn; lia|done]]. exists 4, ex_em. cbn. split_and!; done || lia.
  - right. exists (mkCdev 2 ex_em 4 (Some 1000000)), 1000000. split; [reflexivity|]. split; [split; cbn; lia|]. split; [|reflexivity].
    exists 1%nat, (mkCap 1000000 300). split_and!; try done. change (u32 _ / _) with 500. cbn [Z.eqb power]. split; [right; lia|].
    intros j d Hj. cbn in Hj. assert (j = 2%nat) as -> by lia. intros [= <-]. cbn. lia.
Qed.

Lemma cold_never_unthrottles_witness :
  exists f', zone_updates (ex_zone 0 0) (seq 0 3) (ex_fw ex_throttled) [-1000; -5000; -200] = Some f' /\
    co_cur (devices f') 0 = 2.
Proof.
  destruct (cold_never_unthrottles (ex_zone 0 0) ex_trips 3 0 (ex_fw ex_throttled) [-1000; -5000; -200])
    as (f' & E & C).
  - apply ex_one_device; [exact ex_throttled_wf | reflexivity | reflexivity].
  - repeat constructor; lia.
  - exists f'. split; [exact E|]. rewrite C. reflexivity.
Defined.

(** Cooler 0 shared by zone 1 (which asked for state 2) and zone 0. *)
Definition ex_shared : framework budget :=
  mkFw [ex_inst 0 0 0; mkInst 1 0 0 (Some 2)] (fun c => if (c =? 0)%nat then [0; 1]%nat else [])
       (fun _ => true) ex_throttled [].

Lemma ex_shared_inst_ok : Forall (inst_ok (ex_zone 0 30000) ex_trips (insts ex_shared)) [0; 1]%nat.
Proof. repeat (apply list.Forall_cons; split; [eexists; split; [reflexivity|cbn; lia]|]). done. Qed.

Lemma other_zone_unthrottles_witness :
  exists f', virtual_sensor_throttle (ex_zone 0 30000) [0%nat] 0 ex_shared = Some (f', 0) /\
    co_cur (devices f') 0 = 0 /\ insts f' !! 1%nat ≫= target = None.
Proof.
  destruct (other_zone_unthrottles (ex_zone 0 30000) ex_trips ex_shared 0 0 [] (mkTrip 50000 3000))
    as (f' & E & C & N).
  - reflexivity.
  - unfold cdev_ready. split_and!; [exact ex_throttled_wf | cbn; lia | cbn; lia | exact ex_trips_ok
      | discriminate | exact ex_shared_inst_ok | left | eexists; split; reflexivity].
  - eexists. split; reflexivity.
  - constructor.
  - repeat constructor.
  - reflexivity.
  - cbn. lia.
  - exists f'. split; [exact E|]. split; [exact C|]. apply N; [right; left | discriminate].
Defined.

(** Zone 0 with one trip-0 instance on each cooler. *)
Definition ex_two : framework budget :=
  mkFw [ex_inst 0 0 0; ex_inst 0 0 1] (fun c => if (c =? 0)%nat then [0%nat] else [1%nat])
       (fun _ => true) ex_throttled [].

(** A zone whose trips start high, with a wide hysteresis on the second one. *)
Definition wide_trips : list trip_t := [mkTrip 50000 1000; mkTrip 55000 10000; mkTrip 60000 5000].
Definition wide_zone : zone := mkZone 0 3 48000 (Some wide_trips).

Lemma ex_two_ready c : (c < 2)%nat -> cdev_ready wide_zone wide_trips ex_two c c.
Proof.
  intros Hc. assert (Hts : Forall trip_ok wide_trips).
  { unfold wide_trips. by repeat (apply list.Forall_cons; split; [unfold trip_ok; cbn; lia|]). }
  destruct c as [|[|c]]; [| |lia]; unfold cdev_ready;
    (split_and!; [exact ex_throttled_wf | cbn; lia | cbn; lia | exact Hts | discriminate | | left
     | eexists; split; reflexivity]);
    (apply list.Forall_cons; split; [eexists; split; [reflexivity|cbn; lia]|done]).
Qed.

Lemma hysteresis_leaks_witness :
  exists f', virtual_sensor_throttle wide_zone [0; 1]%nat 0 ex_two = Some (f', 0) /\
    co_cur (devices f') 1 = 2 /\ _thermal_budget (devices f') = 1500.
Proof.
  destruct (hysteresis_leaks wide_zone wide_trips ex_two 0 1 0 1 (mkTrip 55000 10000)) as (f' & E & _ & C).
  - reflexivity.
  - discriminate.
  - apply ex_two_ready; lia.
  - apply ex_two_ready; lia.
  - intros i Hi. repeat (apply elem_of_cons in Hi as [->|Hi]; [eexists; split; reflexivity|]).
    by apply elem_of_nil in Hi.
  - repeat constructor.
  - reflexivity.
  - reflexivity.
  - reflexivity.
  - reflexivity.
  - exists f'. split; [exact E|]. split; [exact C|]. vm_compute in E. injection E as <-. reflexivity.
Defined.
