(* ===== verification/VsZone.v ===== *)
(** * The virtual-sensor thermal zones
      (drivers/thermal/virtual_sensor_tablet/virtual_sensor_tablet_thermal.c)

    A zone's temperature is the weighted sum of its sensors, each smoothed by a
    moving average. The zone of the wireless charger (foreign object detection,
    FOD) uses the rate at which its sensor's temperature rises instead. *)

From Stdlib Require Import String.
From stdpp Require Import base tactics numbers list option.
From S2P Require Import Prelude Kstrtox Printf Rtc SignOfLife LifeCycle VsCooler VsGov.

(** ** Foreign object detection *)

(** [struct fod_algo]: the samples are the nodes of the circular list in its
    order, the head [fod_temp] first; [cur_list] is a position in it;
    [timer_start] is seconds and nanoseconds. *)
Record fod_algo := mkFod {
  work_delay : Z; window_size : Z; polling_interval : Z; wpc_online_status : Z;
  fod_temp_cnt : Z; fod_temp : list Z; cur_list : nat; timer_start : Z * Z; fod_locked : bool }.

Definition set_samples (g : fod_algo) cnt temps cur ts : fod_algo :=
  mkFod (work_delay g) (window_size g) (polling_interval g) (wpc_online_status g) cnt temps cur ts
        (fod_locked g).

Definition DMF : Z := 1000.

(** The next node of the circular list. *)
Definition next_node (g : fod_algo) : nat :=
  if (S (cur_list g) =? length (fod_temp g))%nat then O else S (cur_list g).

(** The timer's part of [calculate_raising_rate]: [inl] the state to return
    with, [inr] go on. [now] is the time of day. *)
Definition rate_timer (g : fod_algo) (now : Z * Z) : fod_algo + unit :=
  if negb (fod_temp_cnt g =? 0) then inr ()
  else if (fst (timer_start g) =? 0) || (snd (timer_start g) =? 0)
  then inl (set_samples g (fod_temp_cnt g) (fod_temp g) (cur_list g) now)
  else if u32 (s32 (fst now - fst (timer_start g))) <? work_delay g then inl g
  else inr ().

(** [calculate_raising_rate(data, delay)]: the rate per minute over the window. *)
Definition calculate_raising_rate (g : fod_algo) (now : Z * Z) (data delay : Z)
  : outcome (fod_algo * Z) :=
  if delay =? 0 then Ret (g, 0)
  else match rate_timer g now with
  | inl g => Ret (g, 0)
  | inr _ =>
    if negb (cur_list g <? length (fod_temp g))%nat then Oops else
    let temps := <[cur_list g := s32 data]> (fod_temp g) in
    let next := next_node g in
    if fod_temp_cnt g <=? u32 (window_size g - 1)
    then Ret (set_samples g (u32 (fod_temp_cnt g + 1)) temps next (timer_start g), 0)
    else
      temp_first ← or_oops (temps !! next);
      let divisor := s32 (u32 (delay * u32 (window_size g - 1)) / DMF) in
      if divisor =? 0 then Oops
      else Ret (set_samples g (fod_temp_cnt g) temps next (timer_start g),
                 s32 (Z.quot (s32 (s32 (s32 data - temp_first) * 60)) divisor))
  end.

Definition TIME_TO_WORK : Z := 0.
Definition NUM_OF_COLLECT : Z := 5.
Definition TASK_DURATION : Z := 2000.

(** [virtual_sensor_fod_init]: [reg] is the notifier registration's answer,
    [alloc] the number of nodes that can be allocated. The list of a failed
    allocation is freed through [g_fod], which is not set yet. *)
Definition virtual_sensor_fod_init (reg : Z) (alloc : nat) : outcome (option fod_algo * Z) :=
  if reg <? 0 then Ret (None, reg)
  else
    let n := (Z.to_nat NUM_OF_COLLECT - 1)%nat in
    if (alloc <? n)%nat then Oops
    else Ret (Some (mkFod TIME_TO_WORK NUM_OF_COLLECT TASK_DURATION 0 0 (0 :: replicate n 0) 0 (0, 0) false), reg).

(** [window_size_store]: a failed allocation returns with [fod_lock] held. *)
Definition window_size_store (g : fod_algo) (buf : list Z) (alloc : nat) : outcome (fod_algo * Z) :=
  match kstrtouint buf 0 with
  | inr _ => Ret (g, - EINVAL)
  | inl size =>
    if size <? 2 then Ret (g, - EINVAL)
    else if fod_locked g then Blocks
    else
      let n := (Z.to_nat size - 1)%nat in
      let temps := default 0 (hd_error (fod_temp g)) :: replicate (Nat.min alloc n) 0 in
      if (alloc <? n)%nat
      then Ret (mkFod (work_delay g) size (polling_interval g) (wpc_online_status g) (fod_temp_cnt g)
                  temps 0 (timer_start g) true, - ENOMEM)
      else Ret (mkFod (work_delay g) size (polling_interval g) (wpc_online_status g) 0
                  temps 0 (timer_start g) false, Z.of_nat (length buf))
  end.

Definition fod_delay_store (g : fod_algo) (buf : list Z) : fod_algo * Z :=
  match kstrtouint buf 0 with
  | inr _ => (g, - EINVAL)
  | inl d => (mkFod d (window_size g) (polling_interval g) (wpc_online_status g) (fod_temp_cnt g)
                (fod_temp g) (cur_list g) (timer_start g) (fod_locked g), Z.of_nat (length buf))
  end.

(** ** The zone *)

(** [struct thermal_dev] with its parameters. *)
Record thermal_dev := mkTdev {
  name : string; offset : Z; alpha : Z; weight : Z; off_temp : Z; first_data_get : bool }.
Definition set_off (t : thermal_dev) o f : thermal_dev :=
  mkTdev (name t) (offset t) (alpha t) (weight t) o f.

Inductive thermal_trip_type := THERMAL_TRIP_ACTIVE | THERMAL_TRIP_PASSIVE | THERMAL_TRIP_HOT | THERMAL_TRIP_CRITICAL.

(** What a zone asks of the rest of the kernel. *)
Inductive action :=
| ZoneUpdate
| SetCurState (cdev : string) (state : Z)
| UeventShutdownWarning
| CrashReport
| EnableDcap
| ScheduleWork
| CancelPoll
| LogMetrics (sensor : option string) (temp : Z)
| LogVitals (sensor : option string) (temp : Z).

(** The thermal zone with its platform data: [fod_zone] is whether its type
    starts with "virtual_sensor4"; [tz_instances] are the cooling devices bound
    to it, by type, with the instance's target. *)
Record vzone := mkVz {
  fod_zone : bool; ts_list : list thermal_dev; mode_enabled : bool;
  pd_polling_delay : Z; tz_polling_delay : Z; num_trips : Z; tz_trips : Z;
  vtrips : list trip_t; vtypes : list thermal_trip_type;
  query_count : Z; mask : Z; fod : fod_algo; tz_instances : list (string * Z); actions : list action }.

Definition with_sensing (v : vzone) tds qc m g acts : vzone :=
  mkVz (fod_zone v) tds (mode_enabled v) (pd_polling_delay v) (tz_polling_delay v) (num_trips v)
    (tz_trips v) (vtrips v) (vtypes v) qc m g (tz_instances v) acts.
Definition with_mode (v : vzone) m polling tds g acts : vzone :=
  mkVz (fod_zone v) tds m (pd_polling_delay v) polling (num_trips v) (tz_trips v) (vtrips v) (vtypes v)
    (query_count v) (mask v) g (tz_instances v) acts.
Definition with_trips (v : vzone) ts : vzone :=
  mkVz (fod_zone v) (ts_list v) (mode_enabled v) (pd_polling_delay v) (tz_polling_delay v) (num_trips v)
    (tz_trips v) ts (vtypes v) (query_count v) (mask v) (fod v) (tz_instances v) (actions v).

Definition VIRTUAL_SENSOR_THROTTLE_TIME_MASK : Z := 0x3F.
Definition VIRTUAL_SENSOR_UNTHROTTLE_TIME_MASK : Z := 0x3FF.

(** One sensor's moving average: the first sample as it is (0 for the rising
    rate), then [alpha] thousandths of the new one. *)
Definition smooth (t : thermal_dev) (rate : bool) (temp : Z) : thermal_dev :=
  if negb (first_data_get t) then
    set_off t (if rate then 0 else s64 (temp - offset t)) true
  else
    let sum := s64 (s64 (alpha t * s64 (temp - offset t)) + s64 (s32 (DMF - alpha t) * off_temp t)) in
    set_off t (Z.quot sum DMF) true.

(** [weight * off_temp / DMF]. *)
Definition weighted (t : thermal_dev) : Z := Z.quot (s64 (weight t * off_temp t)) DMF.

(** [!(query_count & mask)]. *)
Definition log_due (qc m : Z) : bool := Z.land qc m =? 0.

(** The loop over the sensors; [reads] are their readings. The result: the
    sensors, the FOD state, the log entries and the zone's temperature. *)
Fixpoint sense (v : vzone) (qc : Z) (now : Z * Z) (tds : list thermal_dev) (reads : list Z)
    (g : fod_algo) (tempv : Z) : outcome (list thermal_dev * fod_algo * list action * Z) :=
  match tds, reads with
  | [], _ => Ret ([], g, [], tempv)
  | t :: tds, temp :: reads =>
    let logs := if log_due qc (mask v) then [LogMetrics (Some (name t)) temp; LogVitals (Some (name t)) temp] else [] in
    let rate := fod_zone v && negb (weight t =? 0) in
    '(g, temp) ← (if negb rate then Ret (g, temp) else
                   if fod_locked g then Blocks else
                   calculate_raising_rate g now temp (tz_polling_delay v));
    let t := smooth t rate temp in
    '(tds, g, logs', tempv) ← sense v qc now tds reads g (s64 (tempv + weighted t));
    Ret (t :: tds, g, logs ++ logs', tempv)
  | _ :: _, [] => Oops
  end.

(** [virtual_sensor_thermal_get_temp], without the copy of the temperature in a
    static that [get_virtualsensor_temp] reads: [comm_ok] is whether the caller is a
    kworker or cat. The comparison with the first trip is on unsigned longs. *)
Definition virtual_sensor_thermal_get_temp (v : vzone) (comm_ok : bool) (now : Z * Z) (reads : list Z)
  : outcome (vzone * (Z + Z)) :=
  if fod_zone v && negb comm_ok then Ret (v, inr (- EINVAL))
  else
    let qc := s32 (query_count v + 1) in
    '(tds, g, logs, tempv) ← sense v qc now (ts_list v) reads (fod v) 0;
    t0 ← or_oops (vtrips v !! 0%nat);
    let mask' := if temp t0 <? u64 tempv then VIRTUAL_SENSOR_THROTTLE_TIME_MASK
                 else VIRTUAL_SENSOR_UNTHROTTLE_TIME_MASK in
    let logs := logs ++ (if log_due qc (mask v) then [LogMetrics None tempv] else [])
                     ++ (if log_due qc mask' then [LogVitals None tempv] else []) in
    Ret (with_sensing v tds qc mask' g (actions v ++ logs), inl (s32 tempv)).

(** ** Modes, trips and attributes *)

Definition forget (t : thermal_dev) : thermal_dev := set_off t (off_temp t) false.

Definition virtual_sensor_thermal_get_mode (v : vzone) : bool := mode_enabled v.

Definition virtual_sensor_thermal_set_mode (v : vzone) (enable : bool) : vzone :=
  let enable := if fod_zone v && (wpc_online_status (fod v) =? 0) then false else enable in
  if negb enable
  then with_mode v false 0 (forget <$> ts_list v) (fod v) (actions v ++ [ZoneUpdate])
  else with_mode v true (tz_polling_delay v) (ts_list v) (fod v) (actions v ++ [ScheduleWork]).

Definition virtual_sensor_thermal_get_trip_type (v : vzone) (trip : nat) : option thermal_trip_type := vtypes v !! trip.
Definition virtual_sensor_thermal_get_trip_temp (v : vzone) (trip : Z) : option Z := get_trip_temp (vtrips v) trip.
Definition virtual_sensor_thermal_get_trip_hyst (v : vzone) (trip : nat) : option Z :=
  (fun t => s32 (hyst t)) <$> vtrips v !! trip.

(** The stores of an int in an unsigned long; [None] outside of the array. *)
Definition set_trip (v : vzone) (trip : nat) (f : trip_t -> trip_t) : option vzone :=
  t ← vtrips v !! trip; Some (with_trips v (<[trip := f t]> (vtrips v))).
Definition virtual_sensor_thermal_set_trip_temp (v : vzone) (trip : nat) (temp : Z) : option vzone :=
  set_trip v trip (fun t => mkTrip (u64 temp) (hyst t)).
Definition virtual_sensor_thermal_set_trip_hyst (v : vzone) (trip : nat) (hyst : Z) : option vzone :=
  set_trip v trip (fun t => mkTrip (temp t) (u64 hyst)).

(** The first critical trip. *)
Fixpoint find_crit (types : list thermal_trip_type) (ts : list trip_t) : option Z :=
  match types, ts with
  | THERMAL_TRIP_CRITICAL :: _, t :: _ => Some (s32 (temp t))
  | _ :: types, _ :: ts => find_crit types ts
  | _, _ => None
  end.
Definition virtual_sensor_thermal_get_crit_temp (v : vzone) : Z + Z :=
  match find_crit (vtypes v) (vtrips v) with Some t => inl t | None => inr (- EINVAL) end.

Definition virtual_sensor_thermal_work (v : vzone) : vzone :=
  if mode_enabled v
  then with_mode v true (tz_polling_delay v) (ts_list v) (fod v) (actions v ++ [ZoneUpdate]) else v.

Definition trips_store (v : vzone) (buf : list Z) : vzone * Z :=
  match sscanf_d buf with
  | None => (v, - EINVAL)
  | Some trips =>
    if trips <? 0 then (v, - EINVAL)
    else (mkVz (fod_zone v) (ts_list v) (mode_enabled v) (pd_polling_delay v) (tz_polling_delay v)
            trips trips (vtrips v) (vtypes v) (query_count v) (mask v) (fod v) (tz_instances v) (actions v),
          Z.of_nat (length buf))
  end.

(** [online]: what [vs_get_wpc_online] answers. *)
Definition polling_store (v : vzone) (buf : list Z) (online : Z) : vzone * Z :=
  match sscanf_d buf with
  | None => (v, - EINVAL)
  | Some d =>
    if d <? 0 then (v, - EINVAL)
    else
      let g := fod v in
      let g := if fod_zone v then mkFod (work_delay g) (window_size g) d (wpc_online_status g)
                 (fod_temp_cnt g) (fod_temp g) (cur_list g) (timer_start g) (fod_locked g) else g in
      let update := negb (fod_zone v) || negb (online =? 0) in
      (mkVz (fod_zone v) (ts_list v) (mode_enabled v) d d (num_trips v) (tz_trips v) (vtrips v) (vtypes v)
         (query_count v) (mask v) g (tz_instances v)
         (actions v ++ (if (update : bool) then [ZoneUpdate] else [])),
       Z.of_nat (length buf))
  end.

Definition WPC_COOLER_NAME : string := "wpc_bcct1".

(** [reset_wpc_cooler]: the first instance of the wireless charger's cooler;
    [get_cur] is what [get_cur_state] of a cooling device answers. *)
Fixpoint reset_wpc_cooler (get_cur : string -> option Z) (l : list (string * Z))
  : list (string * Z) * list action :=
  match l with
  | [] => ([], [])
  | (ty, tgt) :: l =>
    if String.eqb ty WPC_COOLER_NAME then
      match get_cur ty with
      | Some s => if 0 <? s then ((ty, 0) :: l, [SetCurState ty 0]) else ((ty, tgt) :: l, [])
      | None => ((ty, tgt) :: l, [])
      end
    else let '(l, a) := reset_wpc_cooler get_cur l in ((ty, tgt) :: l, a)
  end.

(** [wpc_online_work] of the FOD zone: on, the charger's cooler is reset and
    the zone enabled and polled again; off, it is disabled, the smoothing
    forgotten and the window emptied from its second node. *)
Definition wpc_online_work (get_cur : string -> option Z) (v : vzone) : outcome vzone :=
  let g := fod v in
  if negb (wpc_online_status g =? 0) then
    let '(insts, acts) := reset_wpc_cooler get_cur (tz_instances v) in
    Ret (mkVz (fod_zone v) (ts_list v) true (pd_polling_delay v)
           (if tz_polling_delay v =? 0 then s32 (polling_interval g) else tz_polling_delay v)
           (num_trips v) (tz_trips v) (vtrips v) (vtypes v) (query_count v) (mask v) g insts
           (actions v ++ acts ++ [ScheduleWork]))
  else if fod_locked g then Blocks
  else
    let interval := if polling_interval g =? 0 then u32 (tz_polling_delay v) else polling_interval g in
    Ret (with_mode v false 0 (forget <$> ts_list v)
      (mkFod (work_delay g) (window_size g) interval (wpc_online_status g) 0 (fod_temp g)
         (if (length (fod_temp g) =? 1)%nat then 0 else 1)%nat (0, 0) (fod_locked g))
      (actions v ++ [CancelPoll])).

(** [wpc_online_event] for the charger's supply: the work is queued on a change. *)
Definition wpc_online_event (g : fod_algo) (online : option Z) : fod_algo * bool :=
  match online with
  | None => (g, false)
  | Some o =>
    if wpc_online_status g =? u32 o then (g, false)
    else (mkFod (work_delay g) (window_size g) (polling_interval g) (u32 o) (fod_temp_cnt g) (fod_temp g)
            (cur_list g) (timer_start g) (fod_locked g), true)
  end.

(** [virtual_sensor_thermal_notify]: a critical trip records its reason with the
    sign-of-life driver before the system shuts down. *)
Definition virtual_sensor_thermal_notify {S} `{LcrRtc S} (v : vzone) (d : driver (lcr_platform S))
    (type : thermal_trip_type) : vzone * driver (lcr_platform S) :=
  let v := with_mode v (mode_enabled v) (tz_polling_delay v) (ts_list v) (fod v)
             (actions v ++ [UeventShutdownWarning]) in
  match type with
  | THERMAL_TRIP_CRITICAL =>
    (with_mode v (mode_enabled v) (tz_polling_delay v) (ts_list v) (fod v)
       (actions v ++ [CrashReport; EnableDcap]),
     (life_cycle_set_thermal_shutdown_reason d THERMAL_SHUTDOWN_REASON_PCB).1)
  | _ => (v, d)
  end.

(** [match] (the bind callback): the names of [tbps] are the bound cooling
    devices, those of [cdevs] the device tree's; a device fits a name it is a
    prefix of. *)
Definition match_cdev (tbps : list (option string)) (cdevs : list string) (type : string) : Z :=
  if existsb (fun t => match t with Some t => String.eqb t type | None => false end) tbps then - EEXIST
  else if existsb (fun c => String.prefix type c) cdevs then 0 else - EINVAL.

(** ** The trips of the device tree *)

Definition THERMAL_MAX_TRIPS : nat := 12.

(** [virtual_sensor_thermal_parse_node_int_array]: [array] is the property, of
    [THERMAL_MAX_TRIPS] cells, if it can be read, else the data keep what they
    held. *)
Definition virtual_sensor_thermal_parse_node_int_array (array : option (list Z)) (tripsdata : list Z) : list Z :=
  match array with Some a => a | None => tripsdata end.

Definition trip_type_of (d : Z) (old : thermal_trip_type) : thermal_trip_type :=
  if d =? 0 then THERMAL_TRIP_ACTIVE else if d =? 1 then THERMAL_TRIP_PASSIVE
  else if d =? 2 then THERMAL_TRIP_HOT else if d =? 3 then THERMAL_TRIP_CRITICAL else old.

Inductive convert_what := ConvTemp | ConvType | ConvHyst.
Definition virtual_sensor_thermal_tripsdata_convert (what : convert_what) (data : list Z)
    (trips : list trip_t * list thermal_trip_type) : list trip_t * list thermal_trip_type :=
  match what with
  | ConvType => (trips.1, zip_with trip_type_of data trips.2)
  | ConvTemp => (zip_with (fun d t => mkTrip d (hyst t)) data trips.1, trips.2)
  | ConvHyst => (zip_with (fun d t => mkTrip (temp t) d) data trips.1, trips.2)
  end.

(** [virtual_sensor_thermal_init_trips]: one array for the three properties. *)
Definition virtual_sensor_thermal_init_trips (p_temp p_type p_hyst : option (list Z))
    (trips : list trip_t * list thermal_trip_type) : list trip_t * list thermal_trip_type :=
  let data := replicate THERMAL_MAX_TRIPS 0 in
  let data := virtual_sensor_thermal_parse_node_int_array p_temp data in
  let trips := virtual_sensor_thermal_tripsdata_convert ConvTemp data trips in
  let data := virtual_sensor_thermal_parse_node_int_array p_type data in
  let trips := virtual_sensor_thermal_tripsdata_convert ConvType data trips in
  let data := virtual_sensor_thermal_parse_node_int_array p_hyst data in
  virtual_sensor_thermal_tripsdata_convert ConvHyst data trips.

(** ** Specification *)

(** One call of the thermal core or of an attribute. *)
Inductive zone_op :=
| OpGetTemp (comm_ok : bool) (now : Z * Z) (reads : list Z)
| OpSetMode (enable : bool)
| OpWork
| OpSetTripTemp (trip : nat) (t : Z)
| OpSetTripHyst (trip : nat) (h : Z)
| OpTrips (buf : list Z)
| OpPolling (buf : list Z) (online : Z).

(** The zone after a call and the temperature it reported. *)
Definition zstep (v : vzone) (o : zone_op) : outcome (vzone * list Z) :=
  match o with
  | OpGetTemp c now reads =>
    '(v, r) ← virtual_sensor_thermal_get_temp v c now reads;
    Ret (v, match r with inl t => [t] | inr _ => [] end)
  | OpSetMode e => Ret (virtual_sensor_thermal_set_mode v e, [])
  | OpWork => Ret (virtual_sensor_thermal_work v, [])
  | OpSetTripTemp i t => v ← or_oops (virtual_sensor_thermal_set_trip_temp v i t); Ret (v, [])
  | OpSetTripHyst i h => v ← or_oops (virtual_sensor_thermal_set_trip_hyst v i h); Ret (v, [])
  | OpTrips buf => Ret ((trips_store v buf).1, [])
  | OpPolling buf online => Ret ((polling_store v buf online).1, [])
  end.

Fixpoint zrun (v : vzone) (ops : list zone_op) : outcome (vzone * list Z) :=
  match ops with
  | [] => Ret (v, [])
  | o :: ops => '(v, t) ← zstep v o; '(v, ts) ← zrun v ops; Ret (v, t ++ ts)
  end.

(** The range of a sensor's readings. *)
Definition range : Type := Z * Z.
Definition in_range (r : range) (x : Z) : Prop := fst r <= x <= snd r.

(** A sensor with sane parameters whose average is in its range. *)
Definition sensor_ok (t : thermal_dev) (r : range) : Prop :=
  0 <= alpha t <= DMF /\ 0 <= weight t <= DMF /\
  -1000000 <= fst r - offset t /\ fst r <= snd r /\ snd r - offset t <= 1000000 /\
  (first_data_get t = true -> fst r - offset t <= off_temp t <= snd r - offset t).

(** The temperatures of a zone whose sensors all read the low (high) end. *)
Fixpoint zone_at (f : range -> Z) (tds : list thermal_dev) (rs : list range) : Z :=
  match tds, rs with
  | t :: tds, r :: rs => Z.quot (weight t * (f r - offset t)) DMF + zone_at f tds rs
  | _, _ => 0
  end.

(** What is asked of a call: readings in range, trips that exist. *)
Definition op_ok (n : nat) (rs : list range) (o : zone_op) : Prop :=
  match o with
  | OpGetTemp _ _ reads => Forall2 in_range rs reads
  | OpSetTripTemp i _ | OpSetTripHyst i _ => (i < n)%nat
  | _ => True
  end.

Definition is_get_temp (o : zone_op) : bool := match o with OpGetTemp _ _ _ => true | _ => false end.
Definition is_polling (o : zone_op) : bool := match o with OpPolling _ _ => true | _ => false end.
Definition mode_after (m : bool) (ops : list zone_op) : bool :=
  foldl (fun m o => match o with OpSetMode e => e | _ => m end) m ops.

(** A zone that is not the FOD zone, with the sensors and trips it needs. *)
Definition zone_ok (v : vzone) (rs : list range) : Prop :=
  fod_zone v = false /\ Forall2 sensor_ok (ts_list v) rs /\ (length (ts_list v) <= 1000)%nat /\
  (0 < length (vtrips v))%nat.

(** Successive samples of the rising rate. *)
Fixpoint rates (g : fod_algo) (delay : Z) (xs : list ((Z * Z) * Z)) : outcome (fod_algo * list Z) :=
  match xs with
  | [] => Ret (g, [])
  | (now, x) :: xs =>
    '(g, r) ← calculate_raising_rate g now x delay;
    '(g, rs) ← rates g delay xs;
    Ret (g, r :: rs)
  end.

(** The rate the n-th sample should give: over the last [w] samples, 0 for the
    first [w]. *)
Definition rate_at (w : nat) (d : Z) (xs : list Z) (n : nat) : Z :=
  if (n <? w)%nat then 0 else Z.quot ((xs !!! n - xs !!! (n + 1 - w)%nat) * 60) d.

(** ** Theorems *)

Lemma quot_between a lo hi : lo * DMF <= a <= hi * DMF -> lo <= Z.quot a DMF <= hi.
Proof.
  intros [H1 H2]. split.
  - rewrite <- (Z.quot_mul lo DMF) by done. by apply Z.quot_le_mono.
  - rewrite <- (Z.quot_mul hi DMF) by done. by apply Z.quot_le_mono.
Qed.

Lemma mul_between a x lo hi m k :
  0 <= a <= m -> lo <= x <= hi -> - k <= lo -> hi <= k -> 0 <= k ->
  a * lo <= a * x <= a * hi /\ - (m * k) <= a * x <= m * k.
Proof.
  intros Ha Hx Hl Hh Hk.
  pose proof (Z.mul_le_mono_nonneg_l lo x a ltac:(lia) ltac:(lia)).
  pose proof (Z.mul_le_mono_nonneg_l x hi a ltac:(lia) ltac:(lia)).
  pose proof (Z.mul_le_mono_nonneg_l x k a ltac:(lia) ltac:(lia)).
  pose proof (Z.mul_le_mono_nonneg_l (- k) x a ltac:(lia) ltac:(lia)).
  pose proof (Z.mul_le_mono_nonneg_r a m k ltac:(lia) ltac:(lia)). lia.
Qed.

(** The moving average stays between the extremes of what it averages. *)
Lemma smooth_ok t r x :
  sensor_ok t r -> in_range r x ->
  let t' := smooth t false x in
  sensor_ok t' r /\ first_data_get t' = true /\ weight t' = weight t /\ offset t' = offset t.
Proof.
  intros (Ha & Hw & Hl & Hlh & Hh & Hf) [Hx1 Hx2]. unfold smooth, sensor_ok.
  destruct (first_data_get t) eqn:E; cbn [negb first_data_get set_off alpha weight offset off_temp].
  - specialize (Hf eq_refl). unfold DMF in *.
    rewrite (s64_id (x - offset t)) by lia. rewrite (s32_id (1000 - alpha t)) by lia.
    set (lo := fst r - offset t) in *. set (hi := snd r - offset t) in *.
    destruct (mul_between (alpha t) (x - offset t) lo hi 1000 1000000) as [Hx Hx']; [lia..|].
    destruct (mul_between (1000 - alpha t) (off_temp t) lo hi 1000 1000000) as [Ho Ho']; [lia..|].
    rewrite (s64_id (alpha t * _)), (s64_id ((1000 - alpha t) * _)) by lia.
    rewrite s64_id by lia. split_and!; try done; try lia.
    all: intros _; apply (quot_between _ lo hi); unfold DMF; lia.
  - rewrite s64_id by lia. split_and!; try done; lia.
Qed.

#[local] Arguments smooth : simpl never.

Lemma weighted_between t r :
  sensor_ok t r -> first_data_get t = true ->
  Z.quot (weight t * (fst r - offset t)) DMF <= weighted t <= Z.quot (weight t * (snd r - offset t)) DMF
  /\ -1000000 <= weighted t <= 1000000.
Proof.
  intros (Ha & Hw & Hl & Hlh & Hh & Hf) E. specialize (Hf E).
  destruct (mul_between (weight t) (off_temp t) (fst r - offset t) (snd r - offset t) DMF 1000000)
    as [H1 H2]; [unfold DMF in *; lia..|].
  unfold weighted. rewrite s64_id by (unfold DMF in *; lia). split.
  - split; apply Z.quot_le_mono; done || lia.
  - apply quot_between. unfold DMF in *. lia.
Qed.

(** The loop over the sensors of a zone without rates. *)
Lemma sense_spec v qc now rs reads g tds tempv k :
  fod_zone v = false -> Forall2 sensor_ok tds rs -> Forall2 in_range rs reads ->
  - (1000000 * k) <= tempv <= 1000000 * k -> 0 <= k -> k + Z.of_nat (length tds) <= 1000 ->
  exists tds' logs tempv', sense v qc now tds reads g tempv = Ret (tds', g, logs, tempv') /\
    Forall2 sensor_ok tds' rs /\ length tds' = length tds /\
    (forall f, zone_at f tds' rs = zone_at f tds rs) /\
    tempv + zone_at fst tds rs <= tempv' <= tempv + zone_at snd tds rs /\
    - 1000000000 <= tempv' <= 1000000000.
Proof.
  intros Hz Ht. revert reads tempv k.
  induction Ht as [|t r tds rs Htr Ht IH]; intros reads tempv k Hr Hb Hk Hn; inv Hr.
  { eexists [], [], tempv. cbn in *. split_and!; done || lia. }
  rename select (in_range _ _) into Hx. rename select (Forall2 in_range _ _) into Hxs.
  cbn [sense zone_at length] in *. rewrite Hz. cbn [andb negb].
  destruct (smooth_ok t r y Htr Hx) as (Hok & Hfirst & Hwt & Hoff).
  destruct (weighted_between _ r Hok Hfirst) as [Hw1 Hw2]. rewrite Hwt, Hoff in Hw1.
  cbn [mbind outcome_bind]. rewrite s64_id by lia.
  destruct (IH _ (tempv + weighted (smooth t false y)) (k + 1) Hxs) as (tds' & logs & tempv' & -> & H1 & H2 & H3 & H4 & H5);
    [lia..|].
  eexists _, _, _. split; [reflexivity|]. cbn [length zone_at]. rewrite H2, Hwt, Hoff.
  split_and!; try done; try lia; [by constructor|]. intros f. by rewrite H3.
Qed.

Lemma forget_ok tds rs : Forall2 sensor_ok tds rs -> Forall2 sensor_ok (forget <$> tds) rs.
Proof.
  intros Ht. induction Ht as [|t r ? ? (?&?&?&?&?&?)]; constructor; [|done].
  unfold sensor_ok, forget. cbn. split_and!; done || lia.
Qed.

Lemma zone_at_forget f tds rs : zone_at f (forget <$> tds) rs = zone_at f tds rs.
Proof. revert rs. induction tds as [|t l IH]; intros [|r rs]; cbn; by rewrite ?IH. Qed.

(** One call: the zone stays as it is, and what it reports is in the range of
    its sensors. *)
Lemma zstep_spec v rs o :
  zone_ok v rs -> op_ok (length (vtrips v)) rs o ->
  exists v' ts, zstep v o = Ret (v', ts) /\ zone_ok v' rs /\ length (vtrips v') = length (vtrips v) /\
    (forall f, zone_at f (ts_list v') rs = zone_at f (ts_list v) rs) /\
    length ts = (if is_get_temp o then 1 else 0)%nat /\
    Forall (fun t => zone_at fst (ts_list v) rs <= t <= zone_at snd (ts_list v) rs) ts /\
    mode_enabled v' = (match o with OpSetMode e => e | _ => mode_enabled v end) /\
    (is_polling o = false -> tz_polling_delay v = 0 -> tz_polling_delay v' = 0).
Proof.
  intros (Hz & Ht & Hn & Hp) Ho. destruct o; cbn [zstep op_ok is_get_temp is_polling] in *.
  - unfold virtual_sensor_thermal_get_temp. rewrite Hz. cbn [andb].
    destruct (sense_spec v (s32 (query_count v + 1)) now rs reads (fod v) (ts_list v) 0 0)
      as (tds' & logs & tempv & -> & H1 & H2 & H3 & H4 & H5); [done..|lia|lia|lia|].
    destruct (vtrips v) as [|t0 vt] eqn:Ev; [cbn in Hp; lia|].
    cbn [mbind outcome_bind or_oops lookup list_lookup]. eexists _, _. split; [reflexivity|].
    rewrite (s32_id tempv) by lia. unfold zone_ok. cbn [with_sensing fod_zone ts_list vtrips mode_enabled tz_polling_delay].
    rewrite Ev, H2. split_and!; try done. repeat constructor; lia.
  - eexists _, _. split; [reflexivity|]. unfold virtual_sensor_thermal_set_mode. rewrite Hz. cbn [andb].
    destruct enable; cbn [negb]; unfold zone_ok, with_mode;
      cbn [fod_zone ts_list vtrips mode_enabled tz_polling_delay]; rewrite ?length_fmap;
      split_and!; auto using forget_ok, zone_at_forget.
  - eexists _, _. split; [reflexivity|]. unfold virtual_sensor_thermal_work, zone_ok.
    destruct (mode_enabled v) eqn:E; cbn; rewrite ?E; done.
  - unfold virtual_sensor_thermal_set_trip_temp, set_trip.
    destruct (lookup_lt_is_Some_2 (vtrips v) trip Ho) as [x ->]. cbn.
    eexists _, _. split; [reflexivity|]. unfold zone_ok. cbn. rewrite length_insert. done.
  - unfold virtual_sensor_thermal_set_trip_hyst, set_trip.
    destruct (lookup_lt_is_Some_2 (vtrips v) trip Ho) as [x ->]. cbn.
    eexists _, _. split; [reflexivity|]. unfold zone_ok. cbn. rewrite length_insert. done.
  - eexists _, _. split; [reflexivity|]. unfold trips_store, zone_ok.
    destruct (sscanf_d buf); [destruct (_ <? _)|]; done.
  - eexists _, _. split; [reflexivity|]. unfold polling_store, zone_ok.
    destruct (sscanf_d buf); [destruct (_ <? _)|]; done.
Qed.

Lemma zrun_spec rs ops : forall v,
  zone_ok v rs -> Forall (op_ok (length (vtrips v)) rs) ops ->
  exists v' ts, zrun v ops = Ret (v', ts) /\
    length ts = length (filter (fun o => is_get_temp o = true) ops) /\
    Forall (fun t => zone_at fst (ts_list v) rs <= t <= zone_at snd (ts_list v) rs) ts /\
    mode_enabled v' = mode_after (mode_enabled v) ops /\
    (Forall (fun o => is_polling o = false) ops -> tz_polling_delay v = 0 -> tz_polling_delay v' = 0).
Proof.
  induction ops as [|o ops IH]; intros v Hv Ho.
  { eexists v, []. cbn. split_and!; done. }
  apply list.Forall_cons in Ho as [Ho Hos].
  destruct (zstep_spec v rs o Hv Ho) as (v1 & t & E1 & Hv1 & Hl & Hat & Ht & Hb & Hm & Hpd).
  rewrite <- Hl in Hos. destruct (IH v1 Hv1 Hos) as (v2 & ts & E2 & Hts & Hbs & Hms & Hpds).
  cbn [zrun]. rewrite E1. cbn [mbind outcome_bind]. rewrite E2. cbn [mbind outcome_bind].
  eexists v2, (t ++ ts). split; [done|]. split_and!.
  - rewrite length_app, filter_cons, Ht, Hts. destruct o; cbn; done.
  - apply Forall_app. split; [done|]. by rewrite <- !Hat.
  - rewrite Hms, Hm. by destruct o.
  - intros Hnp H0. apply list.Forall_cons in Hnp as [? ?]. by apply Hpds; [|apply Hpd].
Qed.

(** The temperature of a virtual zone is always between what it would be
    with every sensor at the low and at the high end of its range: over any
    sequence of readings, mode changes, updates and writes to trips and
    attributes, every reading succeeds and the moving averages never leave the
    ranges of their sensors. *)
Theorem zone_temp_bounded v rs ops :
  zone_ok v rs -> Forall (op_ok (length (vtrips v)) rs) ops ->
  exists v' ts, zrun v ops = Ret (v', ts) /\
    length ts = length (filter (fun o => is_get_temp o = true) ops) /\
    Forall (fun t => zone_at fst (ts_list v) rs <= t <= zone_at snd (ts_list v) rs) ts.
Proof.
  intros Hv Ho. destruct (zrun_spec rs ops v Hv Ho) as (v' & ts & H1 & H2 & H3 & _). by exists v', ts.
Qed.

(** A zone that was disabled once is not polled again: whatever follows
    (except a write to its polling attribute), its polling delay stays 0, also
    while its mode, which is the last one set, reads enabled. *)
Theorem disabled_zone_never_polled v rs ops :
  zone_ok v rs -> Forall (op_ok (length (vtrips v)) rs) ops ->
  Forall (fun o => is_polling o = false) ops ->
  exists v' ts, zrun v (OpSetMode false :: ops) = Ret (v', ts) /\
    tz_polling_delay v' = 0 /\ virtual_sensor_thermal_get_mode v' = mode_after false ops.
Proof.
  intros Hv Ho Hnp.
  destruct (zstep_spec v rs (OpSetMode false) Hv I) as (v1 & t & E1 & Hv1 & Hl & _ & _ & _ & Hm & _).
  cbn [zrun]. rewrite E1. cbn [mbind outcome_bind].
  rewrite <- Hl in Ho. destruct (zrun_spec rs ops v1 Hv1 Ho) as (v2 & ts & E2 & _ & _ & Hms & Hpd).
  rewrite E2. cbn [mbind outcome_bind]. eexists v2, _. split; [done|]. split.
  - apply Hpd; [done|]. cbn [zstep] in E1. injection E1 as <- <-.
    unfold virtual_sensor_thermal_set_mode. by destruct Hv as (-> & _).
  - unfold virtual_sensor_thermal_get_mode. by rewrite Hms, Hm.
Qed.

(** ** The rising rate *)

(** The circular list from its cursor: the oldest sample first. *)
Definition ring (g : fod_algo) : list Z := drop (cur_list g) (fod_temp g) ++ take (cur_list g) (fod_temp g).

(** Storing at the cursor and moving on forgets the oldest sample. *)
Lemma ring_step (g : fod_algo) x g' :
  (cur_list g < length (fod_temp g))%nat ->
  fod_temp g' = <[cur_list g := x]> (fod_temp g) -> cur_list g' = next_node g ->
  ring g' = tail (ring g) ++ [x] /\ fod_temp g' !! cur_list g' = hd_error (ring g').
Proof.
  intros Hc Ht Hn. unfold ring. rewrite Ht, Hn. unfold next_node.
  generalize dependent (fod_temp g). generalize (cur_list g). intros c l Hc _.
  assert (Hlen : length (<[c:=x]> l) = length l) by apply length_insert.
  assert (Hins : <[c:=x]> l = take c l ++ [x] ++ drop (S c) l)
    by (rewrite insert_take_drop by done; done).
  destruct (lookup_lt_is_Some_2 l c Hc) as [y Hy].
  assert (Hd : drop c l = y :: drop (S c) l) by (by apply drop_S).
  destruct (Nat.eqb_spec (S c) (length l)) as [E|E].
  - rewrite drop_0, take_0, app_nil_r, Hd. split; [|by destruct (<[c:=x]> l)].
    rewrite Hins, (drop_ge l (S c)) by lia. done.
  - assert (E1 : take (S c) (<[c:=x]> l) = take c l ++ [x]).
    { rewrite Hins, app_assoc, take_app_length'; [done|]. rewrite length_app, length_take. cbn. lia. }
    assert (E2 : drop (S c) (<[c:=x]> l) = drop (S c) l).
    { rewrite drop_insert_lt by lia. done. }
    rewrite E1, E2, Hd. cbn [tail app]. split; [by rewrite app_assoc|].
    rewrite list_lookup_insert_ne by lia.
    destruct (lookup_lt_is_Some_2 l (S c)) as [z Hz]; [lia|].
    by rewrite Hz, (drop_S l z (S c) Hz).
Qed.

(** What the window needs: a node per sample, a running timer or no delay left
    to wait, and no overflow of the products. *)
Record fod_ready (g : fod_algo) (delay : Z) : Prop := {
  fr_window : 2 <= window_size g < 2147483648;
  fr_nodes : Z.of_nat (length (fod_temp g)) = window_size g;
  fr_cur : (cur_list g < length (fod_temp g))%nat;
  fr_delay : 0 < delay /\ delay * (window_size g - 1) < 2147483648 }.

Definition sample_ok (x : Z) : Prop := -17000000 <= x <= 17000000.

(** One sample, the timer having expired. *)
Lemma rate_step g delay now x :
  fod_ready g delay -> sample_ok x -> rate_timer g now = inr () -> 0 <= fod_temp_cnt g <= window_size g ->
  Forall sample_ok (fod_temp g) ->
  let d := Z.quot (delay * (window_size g - 1)) DMF in
  let g' := set_samples g (Z.min (fod_temp_cnt g + 1) (window_size g)) (<[cur_list g := x]> (fod_temp g))
              (next_node g) (timer_start g) in
  calculate_raising_rate g now x delay =
    (if fod_temp_cnt g <? window_size g then Ret (g', 0)
     else if d =? 0 then Oops
     else Ret (g', Z.quot ((x - default 0 (hd_error (ring g'))) * 60) d)) /\
  ring g' = tail (ring g) ++ [x] /\ fod_ready g' delay /\ Forall sample_ok (fod_temp g').
Proof.
  intros [Hw Hnode Hcur Hd] Hx Htm Hcnt Hall d g'.
  assert (Hx32 : s32 x = x) by (apply s32_id; unfold sample_ok in Hx; lia).
  destruct (ring_step g x g' Hcur eq_refl eq_refl) as [Hring Hhd].
  assert (Hr' : fod_ready g' delay).
  { unfold g', next_node. constructor; cbn [set_samples window_size fod_temp cur_list];
      rewrite ?length_insert; try done; try lia.
    destruct (Nat.eqb_spec (S (cur_list g)) (length (fod_temp g))); lia. }
  assert (Hall' : Forall sample_ok (fod_temp g')) by (by apply Forall_insert).
  split; [|done]. unfold calculate_raising_rate.
  destruct (Z.eqb_spec delay 0); [lia|]. rewrite Htm, Hx32.
  destruct (Nat.ltb_spec (cur_list g) (length (fod_temp g))); [|lia]. cbn [negb].
  rewrite (u32_id (window_size g - 1)) by lia.
  destruct (Z.leb_spec (fod_temp_cnt g) (window_size g - 1)), (Z.ltb_spec (fod_temp_cnt g) (window_size g)); try lia.
  { rewrite u32_id by lia. unfold g'. by replace (Z.min _ _) with (fod_temp_cnt g + 1) by lia. }
  unfold g' in Hhd at 1 2. cbn [set_samples fod_temp cur_list] in Hhd. rewrite Hhd.
  destruct (hd_error (ring g')) as [y|] eqn:Ey; cycle 1.
  { exfalso. destruct (ring g'); [|done]. by destruct (tail (ring g)). }
  cbn [or_oops mbind outcome_bind default].
  assert (Hy : sample_ok y).
  { eapply Forall_lookup_1; [exact Hall'|]. exact Hhd. }
  unfold sample_ok in *.
  assert (Hdm : 0 <= delay * (window_size g - 1)) by nia.
  rewrite (u32_id (delay * _)) by lia. unfold id.
  rewrite <- Z.quot_div_nonneg by (unfold DMF; lia). fold d.
  assert (Hdr : 0 <= d < 2147483648).
  { unfold d. split; [by apply Z.quot_pos|]. apply Z.quot_lt_upper_bound; unfold DMF; lia. }
  rewrite (s32_id d) by lia.
  destruct (Z.eqb_spec d 0); [done|].
  rewrite (s32_id (x - y)), (s32_id ((x - y) * 60)) by lia.
  assert (Hq : Z.abs (Z.quot ((x - y) * 60) d) <= Z.abs ((x - y) * 60)).
  { rewrite <- Z.quot_abs by lia. apply Z.quot_le_upper_bound; nia. }
  rewrite s32_id by lia. unfold g'. by replace (Z.min _ _) with (fod_temp_cnt g) by lia.
Qed.

(** The state after the samples [seen]: the ring holds the newest of them, the
    oldest first, behind what is left of its first content [r0]. *)
Definition sampled (r0 seen : list Z) (g : fod_algo) (delay : Z) : Prop :=
  fod_ready g delay /\ Forall sample_ok (fod_temp g) /\ Z.of_nat (length r0) = window_size g /\
  ring g = drop (length seen) (r0 ++ seen) /\
  fod_temp_cnt g = Z.min (Z.of_nat (length seen)) (window_size g).

Lemma sampled_step r0 seen g delay now x :
  sampled r0 seen g delay -> sample_ok x -> rate_timer g now = inr () ->
  let w := Z.to_nat (window_size g) in
  let d := Z.quot (delay * (window_size g - 1)) DMF in
  exists g', sampled r0 (seen ++ [x]) g' delay /\ window_size g' = window_size g /\
    calculate_raising_rate g now x delay =
    if (w <=? length seen)%nat && (d =? 0) then Oops
    else Ret (g', rate_at w d (seen ++ [x]) (length seen)).
Proof.
  intros (Hr & Hall & Hl & Hring & Hcnt) Hx Htm w d.
  pose proof (fr_window _ _ Hr) as Hwin.
  destruct (rate_step g delay now x Hr Hx Htm ltac:(lia) Hall) as (E & Hring' & Hr' & Hall').
  cbv zeta in *. set (g' := set_samples g _ _ _ _) in *. fold d in E. exists g'.
  assert (Hring2 : ring g' = drop (length (seen ++ [x])) (r0 ++ seen ++ [x])).
  { rewrite Hring', Hring, length_app, app_assoc. cbn [length]. rewrite Nat.add_1_r.
    rewrite (drop_app_le (r0 ++ seen)) by (rewrite length_app; lia).
    destruct (lookup_lt_is_Some_2 (r0 ++ seen) (length seen)) as [y Hy]; [rewrite length_app; lia|].
    by rewrite (drop_S _ _ _ Hy). }
  split; [|split; [done|]].
  - split_and!; try done. unfold g'. cbn. rewrite Hcnt, length_app. cbn. lia.
  - rewrite E. unfold rate_at. destruct (Nat.leb_spec w (length seen)).
    + destruct (Z.ltb_spec (fod_temp_cnt g) (window_size g)); [lia|]. cbn [andb].
      destruct (d =? 0); [done|]. destruct (Nat.ltb_spec (length seen) w); [lia|].
      do 4 f_equal. rewrite Hring2, length_app. cbn [length].
      rewrite list_lookup_total_middle by done.
      assert (Hi : (length seen + 1 - w < length (seen ++ [x]))%nat) by (rewrite length_app; cbn; lia).
      destruct (lookup_lt_is_Some_2 _ _ Hi) as [y Hy].
      rewrite (list_lookup_total_correct _ _ _ Hy). f_equal.
      assert (Hy' : (r0 ++ seen ++ [x]) !! (length seen + 1)%nat = Some y).
      { rewrite lookup_app_r by lia. rewrite <- Hy. f_equal. lia. }
      by rewrite (drop_S _ _ _ Hy').
    + destruct (Z.ltb_spec (fod_temp_cnt g) (window_size g)); [|lia]. cbn [andb].
      destruct (Nat.ltb_spec (length seen) w); [done|lia].
Qed.

Lemma rate_at_app w d l k n : (0 < w)%nat -> (n < length l)%nat -> rate_at w d (l ++ k) n = rate_at w d l n.
Proof.
  intros Hw Hn. unfold rate_at. destruct (Nat.ltb_spec n w); [done|].
  by rewrite !lookup_total_app_l by lia.
Qed.

Lemma rates_snoc w d seen x l n :
  (0 < w)%nat ->
  rate_at w d (seen ++ [x]) (length seen) :: (rate_at w d ((seen ++ [x]) ++ l) <$> seq (length seen + 1) n) =
  (rate_at w d (seen ++ x :: l) <$> seq (length seen) (S n)).
Proof.
  intros Hw. rewrite Nat.add_1_r. cbn [seq fmap list_fmap].
  rewrite <- (rate_at_app w d (seen ++ [x]) l) by (done || rewrite length_app; cbn; lia).
  by rewrite <- app_assoc.
Qed.

Lemma rates_spec r0 delay d w xs : forall seen g,
  sampled r0 seen g delay -> Forall (fun p => sample_ok (snd p)) xs ->
  (forall now x, seen = [] -> hd_error xs = Some (now, x) -> rate_timer g now = inr ()) ->
  Z.to_nat (window_size g) = w -> Z.quot (delay * (window_size g - 1)) DMF = d ->
  ((length seen + length xs <= w)%nat \/ d <> 0 ->
   exists g', rates g delay xs =
     Ret (g', rate_at w d (seen ++ xs.*2) <$> seq (length seen) (length xs))) /\
  ((length seen <= w < length seen + length xs)%nat -> d = 0 -> rates g delay xs = Oops).
Proof.
  induction xs as [|[now x] xs IH]; intros seen g Hs Hxs Htm Hw Hd.
  { split; [|cbn; lia]. intros _. by exists g. }
  apply list.Forall_cons in Hxs as [Hx Hxs]. cbn [snd] in Hx.
  assert (Hw0 : (0 < w)%nat) by (destruct Hs as ([] & _); lia).
  assert (Ht : rate_timer g now = inr ()).
  { destruct seen as [|s seen]; [by eapply Htm|]. unfold rate_timer.
    destruct Hs as (Hr & _ & _ & _ & ->). pose proof (fr_window _ _ Hr). cbn [length].
    destruct (Z.eqb_spec (Z.min (Z.of_nat (S (length seen))) (window_size g)) 0); [lia|done]. }
  destruct (sampled_step r0 seen g delay now x Hs Hx Ht) as (g' & Hs' & Hwin & E).
  cbv zeta in E. rewrite Hw, Hd in E.
  destruct (IH (seen ++ [x]) g' Hs' Hxs) as [IH1 IH2];
    [intros ? ? He; by destruct seen|by rewrite Hwin..|].
  rewrite length_app in IH1, IH2. cbn [length] in IH1, IH2. cbn [rates length]. rewrite E.
  destruct (Nat.leb_spec w (length seen)); cbn [andb]; [destruct (Z.eqb_spec d 0)|].
  - split; [lia|done].
  - split; [|done]. intros _. destruct IH1 as (g2 & E2); [by right|].
    exists g2. cbn [mbind outcome_bind]. rewrite E2. cbn [mbind outcome_bind].
    cbn [fmap list_fmap snd]. by rewrite rates_snoc.
  - cbn [mbind outcome_bind]. split.
    + intros Hc. destruct IH1 as (g2 & E2); [lia|]. exists g2. rewrite E2. cbn [mbind outcome_bind].
      by rewrite rates_snoc.
    + intros Hc Hz. rewrite IH2; [done|lia|done].
Qed.

(** Once the wait is over, the rate of each sample is the rise per minute
    over the last [window_size] samples, and 0 while there are fewer before it;
    nothing the window held before it was emptied enters a rate. When the
    window spans less than a second the first full window divides by 0. *)
Theorem rate_window g delay xs :
  fod_ready g delay -> fod_temp_cnt g = 0 -> Forall sample_ok (fod_temp g) ->
  Forall (fun p => sample_ok (snd p)) xs ->
  (forall now x, hd_error xs = Some (now, x) -> rate_timer g now = inr ()) ->
  let w := Z.to_nat (window_size g) in
  let d := Z.quot (delay * (window_size g - 1)) DMF in
  ((length xs <= w)%nat \/ d <> 0 ->
   exists g', rates g delay xs = Ret (g', rate_at w d xs.*2 <$> seq 0 (length xs))) /\
  ((w < length xs)%nat -> d = 0 -> rates g delay xs = Oops).
Proof.
  intros Hr Hc Hall Hxs Htm w d.
  assert (Hs : sampled (ring g) [] g delay).
  { pose proof Hr as [Hw Hn Hcur _]. split_and!; try done.
    - unfold ring. rewrite length_app, length_drop, length_take. lia.
    - cbn. by rewrite app_nil_r.
    - rewrite Hc. cbn. lia. }
  destruct (rates_spec (ring g) delay d w xs [] g Hs Hxs) as [H1 H2]; [by intros ? ? _; apply Htm|done..|].
  split; [exact H1|]. intros. apply H2; [cbn; lia|done].
Qed.

Lemma sense_blocks v qc now g tds : forall reads tempv,
  fod_zone v = true -> fod_locked g = true -> Exists (fun t => weight t <> 0) tds ->
  length reads = length tds -> sense v qc now tds reads g tempv = Blocks.
Proof.
  induction tds as [|t tds IH]; intros [|x reads] tempv Hz Hl Hex Hlen; try done; [by apply Exists_nil in Hex|].
  cbn [sense]. rewrite Hz, Hl. cbn [andb]. destruct (Z.eqb_spec (weight t) 0) as [E|E]; [|done].
  cbn [negb mbind outcome_bind]. rewrite IH; try done; [|by injection Hlen].
  by apply Exists_cons in Hex as [?|?].
Qed.

(** A window that cannot be allocated leaves its lock held: from then on
    every reading of the FOD zone by a sensor with a weight, every later change
    of the window and the work of a pad going offline wait for ever. *)
Theorem window_failure_deadlocks g buf size alloc :
  kstrtouint buf 0 = inl size -> 2 <= size -> fod_locked g = false -> Z.of_nat alloc < size - 1 ->
  exists g', window_size_store g buf alloc = Ret (g', - ENOMEM) /\
    (forall v now reads, fod v = g' -> fod_zone v = true -> Exists (fun t => weight t <> 0) (ts_list v) ->
       length reads = length (ts_list v) -> virtual_sensor_thermal_get_temp v true now reads = Blocks) /\
    (forall buf' size' alloc', kstrtouint buf' 0 = inl size' -> 2 <= size' ->
       window_size_store g' buf' alloc' = Blocks) /\
    (forall v get_cur, fod v = g' -> wpc_online_status g' = 0 -> wpc_online_work get_cur v = Blocks).
Proof.
  intros Hk Hs Hl Ha. unfold window_size_store at 1. rewrite Hk, Hl.
  destruct (Z.ltb_spec size 2); [lia|]. destruct (Nat.ltb_spec alloc (Z.to_nat size - 1)); [|lia].
  eexists. split; [reflexivity|]. split_and!.
  - intros v now reads Hv Hz Hex Hlen. unfold virtual_sensor_thermal_get_temp. rewrite Hz. cbn [andb negb].
    by rewrite sense_blocks; [| |rewrite Hv|..].
  - intros buf' size' alloc' Hk' Hs'. unfold window_size_store. rewrite Hk'.
    destruct (Z.ltb_spec size' 2); [lia|done].
  - intros v get_cur Hv Ho. unfold wpc_online_work. rewrite Hv, Ho. done.
Qed.

(** The thermal reason that stands after more requests: a reason that is not
    thermal cannot be recorded as one and clears it. *)
Definition last_thermal (r : life_cycle_reason_t) (qs : list request) : life_cycle_reason_t :=
  foldl (fun r q => match q with
                    | ReqSet THERMAL_SHUTDOWN r' => if recordable THERMAL_SHUTDOWN r' then r' else LIFE_CYCLE_NOT_AVAILABLE
                    | _ => r
                    end) r qs.

Lemma session_last_thermal qs : forall st,
  spec_session st qs THERMAL_SHUTDOWN = last_thermal (st THERMAL_SHUTDOWN) qs.
Proof.
  induction qs as [|q qs IH]; intros st; [done|]. change (q :: qs) with ([q] ++ qs) at 1. rewrite spec_session_app, IH.
  unfold last_thermal. cbn [foldl]. f_equal. unfold spec_session. cbn [fmap list_fmap mjoin list_join]. rewrite app_nil_r.
  destruct q as [[] r|c]; try (by apply (spec_step_spares st THERMAL_SHUTDOWN)); done.
Qed.

(** C40. A critical trip is what the next boot reports, unless another thermal
    reason comes after it: whatever the session recorded before, and whatever it records
    on its way down, the next boot names the last of the thermal reasons from the
    trip on (one its table knows), before any power-off or restart. This is the
    board temperature when no other driver records a thermal reason after the
    trip. The other trips record nothing. *)
Theorem critical_trip_reported {S} `{LcrRtcLaws S} (v : vzone) (d : driver (lcr_platform S)) sol qs qs' type
    charging cmd lcr :
  p_dev_sol d = Some sol -> sol_ops sol = life_cycle_platform_init ->
  check_sign_of_life_parity (plat_rtc (platform d)) = true ->
  get_android_bootreason cmd LIFE_CYCLE_NOT_AVAILABLE = Some lcr ->
  let d1 := snd (virtual_sensor_thermal_notify v (foldl serve d qs) type) in
  match type with
  | THERMAL_TRIP_CRITICAL =>
    let r := last_thermal THERMAL_SHUTDOWN_REASON_PCB qs' in
    exists d', dev_sol_init (mkDriver None false (mkPlat (plat_rtc (platform (foldl serve d1 qs')))
                 LIFE_CYCLE_NOT_AVAILABLE)) true charging cmd = Some (d', 0) /\
      (known r = true -> reported d' = Some r) /\
      (Forall (fun q => spares THERMAL_SHUTDOWN q = true) qs' -> reported d' = Some THERMAL_SHUTDOWN_REASON_PCB)
  | _ => d1 = foldl serve d qs
  end.
Proof.
  intros H1 H2 H3 Hcmd d1. destruct type; try done. cbv zeta.
  set (q := ReqSet THERMAL_SHUTDOWN THERMAL_SHUTDOWN_REASON_PCB).
  assert (Er : foldl serve d1 qs' = foldl serve d ((qs ++ [q]) ++ qs')) by (by rewrite foldl_app, foldl_snoc).
  rewrite Er.
  destruct (init_spec (plat_rtc (platform (foldl serve d ((qs ++ [q]) ++ qs')))) charging cmd lcr false None _ Hcmd)
    as (d' & Hi & Hr & _).
  exists d'. split; [exact Hi|].
  assert (Hk : known (last_thermal THERMAL_SHUTDOWN_REASON_PCB qs') = true -> reported d' = Some (last_thermal THERMAL_SHUTDOWN_REASON_PCB qs')).
  { intros Hk. rewrite Hr, (session_report d sol) by done. unfold spec_report.
    rewrite spec_session_app, session_last_thermal, spec_session_app.
    change (spec_session (spec_session (abs_store (plat_rtc (platform d))) qs) [q] THERMAL_SHUTDOWN) with THERMAL_SHUTDOWN_REASON_PCB.
    cbn [first_known]. by rewrite Hk. }
  split; [exact Hk|]. intros Hqs.
  assert (Hl : last_thermal THERMAL_SHUTDOWN_REASON_PCB qs' = THERMAL_SHUTDOWN_REASON_PCB).
  { pose proof (session_last_thermal qs' (fun _ => THERMAL_SHUTDOWN_REASON_PCB)) as E. cbn beta in E. rewrite <- E. by apply session_spares. }
  rewrite Hl in Hk. by apply Hk.
Qed.

(** ** Instances of the properties *)

Definition ex_sensor (w : Z) : thermal_dev := mkTdev "board"%string 500 100 w 0 false.
Definition ex_vzone (fodz : bool) (g : fod_algo) : vzone :=
  mkVz fodz [ex_sensor 600; ex_sensor 400] true 3000 3000 2 2
    [mkTrip 45000 1000; mkTrip 85000 0] [THERMAL_TRIP_PASSIVE; THERMAL_TRIP_CRITICAL] 0 1023 g [] [].
Definition ex_fod : fod_algo := mkFod 0 5 2000 1 0 [0; 7; 0; 0; 0] 0 (10, 10) false.
Definition ex_ranges : list range := [(20500, 60500); (30500, 90500)].

Lemma ex_zone_ok : zone_ok (ex_vzone false ex_fod) ex_ranges.
Proof.
  split; [done|]. split; [|cbn; lia].
  repeat constructor; unfold DMF; cbn; lia || discriminate.
Qed.

Lemma zone_temp_bounded_witness :
  exists v' t1 t2, zrun (ex_vzone false ex_fod)
    [OpGetTemp true (0, 0) [20500; 90500]; OpSetMode false; OpWork; OpGetTemp true (0, 0) [60500; 30500]]
    = Ret (v', [t1; t2]) /\ 24000 <= t1 <= 72000 /\ 24000 <= t2 <= 72000.
Proof.
  destruct (zone_temp_bounded (ex_vzone false ex_fod) ex_ranges
    [OpGetTemp true (0, 0) [20500; 90500]; OpSetMode false; OpWork; OpGetTemp true (0, 0) [60500; 30500]]
    ex_zone_ok) as (v' & ts & E & Hl & Hb).
  { repeat constructor; cbn; lia. }
  destruct ts as [|t1 [|t2 [|? ?]]]; try discriminate Hl.
  exists v', t1, t2. split; [exact E|].
  apply list.Forall_cons in Hb as [H1 Hb]. apply list.Forall_cons in Hb as [H2 _].
  cbn in H1, H2. split; assumption.
Defined.

Lemma disabled_zone_never_polled_witness :
  exists v' ts, zrun (ex_vzone false ex_fod) [OpSetMode false; OpSetMode true; OpWork] = Ret (v', ts) /\
    tz_polling_delay v' = 0 /\ virtual_sensor_thermal_get_mode v' = true.
Proof.
  apply (disabled_zone_never_polled (ex_vzone false ex_fod) ex_ranges [OpSetMode true; OpWork] ex_zone_ok);
    repeat constructor.
Defined.

Definition ex_samples : list ((Z * Z) * Z) :=
  [((11, 0), 30000); ((13, 0), 30100); ((15, 0), 30200); ((17, 0), 30300); ((19, 0), 30400);
   ((21, 0), 30700); ((23, 0), 31000)].

Lemma rate_window_witness :
  (exists g', rates ex_fod 2000 ex_samples = Ret (g', [0; 0; 0; 0; 0; 4500; 6000])) /\
  rates ex_fod 200 ex_samples = Oops.
Proof.
  split.
  - destruct (rate_window ex_fod 2000 ex_samples) as [H _];
      [constructor; cbn; lia|reflexivity|repeat constructor; cbn; lia|repeat constructor; cbn; lia
      |intros ? ? [= <- <-]; reflexivity|].
    destruct H as [g' E]; [right; discriminate|]. exists g'. exact E.
  - apply (rate_window ex_fod 200 ex_samples);
      [constructor; cbn; lia|reflexivity|repeat constructor; cbn; lia|repeat constructor; cbn; lia
      |intros ? ? [= <- <-]; reflexivity|cbn; lia|reflexivity].
Defined.

Lemma window_failure_deadlocks_witness :
  exists g', window_size_store ex_fod [49; 48] 3 = Ret (g', - ENOMEM) /\
    virtual_sensor_thermal_get_temp (ex_vzone true g') true (20, 0) [25000; 26000] = Blocks.
Proof.
  destruct (window_failure_deadlocks ex_fod [49; 48] 10 3) as (g' & E & Hg & _);
    [reflexivity|lia|reflexivity|lia|].
  exists g'. split; [exact E|]. apply Hg; [reflexivity|reflexivity| |reflexivity].
  constructor. discriminate.
Defined.

Lemma critical_trip_reported_witness :
  let qs' := [ReqReboot SYS_POWER_OFF; ReqSet SHUTDOWN SHUTDOWN_BY_LONG_PWR_KEY_PRESS] in
  exists d', dev_sol_init (mkDriver None false (mkPlat (plat_rtc (platform (foldl serve
      (snd (virtual_sensor_thermal_notify (ex_vzone false ex_fod) (running example_regs) THERMAL_TRIP_CRITICAL))
      qs'))) LIFE_CYCLE_NOT_AVAILABLE)) true false "quiet" = Some (d', 0) /\
    reported d' = Some THERMAL_SHUTDOWN_REASON_PCB.
Proof.
  intros qs'.
  destruct (critical_trip_reported (ex_vzone false ex_fod) (running example_regs) (mkSol "3.0"%string 0 life_cycle_platform_init) [] qs'
    THERMAL_TRIP_CRITICAL false "quiet" LIFE_CYCLE_NOT_AVAILABLE) as (d' & E & K & _); [reflexivity..|].
  exists d'. split; [exact E|]. apply K. reflexivity.
Defined.
