(* ===== verification/Of.v ===== *)
(** * Device-tree properties (drivers/of/property.c, include/linux/of.h)

    A node's properties are the bytes the device tree holds for them; the
    readers the drivers use decode strings and numbers from them. *)

From Stdlib Require Import String.
From stdpp Require Import base tactics numbers list gmap strings option.
From S2P Require Import Prelude Kstrtox Printf.

Definition ENODATA : Z := 61.
Definition EOVERFLOW : Z := 75.
Definition EILSEQ : Z := 84.

(** The value of a [struct property], if it has one; the properties of a
    [struct device_node] by name. *)
Definition property : Type := option (list Z).
Definition device_node : Type := gmap string property.

Definition of_find_property (np : device_node) (name : string) : option property := np !! name.

(** The value, with its length; [None] is the null pointer. *)
Definition of_get_property (np : device_node) (name : string) : option (list Z) :=
  pp ← of_find_property np name; pp.

(** ** Strings *)

Fixpoint strnlen (p : list Z) : nat :=
  match p with
  | [] => O
  | c :: p => if c =? 0 then O else S (strnlen p)
  end.

(** The loop of [of_property_read_string_helper] from the [i]-th string on:
    how many strings it passed and those it stored; [upto] is [skip + sz] when
    strings are wanted. A round passes at least one byte, so as many rounds as
    there are bytes are enough. *)
Fixpoint read_strings (rounds : nat) (p : list Z) (i : Z) (skip : Z) (upto : option Z)
    (out : list (list Z)) : Z + Z * list (list Z) :=
  match rounds with
  | O => inr (i, out)
  | S rounds =>
    if match p, upto with [], _ => true | _, Some n => n <=? i | _, None => false end then inr (i, out) else
    let l := S (strnlen p) in
    if (length p <? l)%nat then inl (- EILSEQ) else
    read_strings rounds (drop l p) (i + 1) skip upto
      (match upto with
       | Some _ => if skip <=? i then out ++ [take (strnlen p) p] else out
       | None => out
       end)
  end.

Definition of_property_read_string_helper (np : device_node) (name : string)
    (sz : option Z) (skip : Z) : Z * list (list Z) :=
  match of_find_property np name with
  | None => (- EINVAL, [])
  | Some None => (- ENODATA, [])
  | Some (Some value) =>
    match read_strings (length value) value 0 skip ((fun sz => skip + sz) <$> sz) [] with
    | inl err => (err, [])
    | inr (i, out) => (if i - skip <=? 0 then - ENODATA else i - skip, out)
    end
  end.

Definition of_property_count_strings (np : device_node) (name : string) : Z :=
  (of_property_read_string_helper np name None 0).1.

(** The result and the string stored. *)
Definition of_property_read_string_index (np : device_node) (name : string) (index : Z)
  : Z * option (list Z) :=
  let '(rc, out) := of_property_read_string_helper np name (Some 1) index in
  (if rc <? 0 then rc else 0, out !! 0%nat).

(** ** Numbers *)

Definition of_find_property_value_of_size (np : device_node) (name : string) (min max : Z)
  : Z + list Z :=
  match of_find_property np name with
  | None => inl (- EINVAL)
  | Some None => inl (- ENODATA)
  | Some (Some value) =>
    if Z.of_nat (length value) <? min then inl (- EOVERFLOW)
    else if negb (max =? 0) && (max <? Z.of_nat (length value)) then inl (- EOVERFLOW)
    else inr value
  end.

(** [be32_to_cpup]. *)
Definition be32 (p : list Z) : Z := le_dec (rev (take 4 p)).
Definition be32_bytes (v : Z) : list Z := rev (le_enc 4 v).

(** [of_property_read_u32]: the value, or the error. *)
Definition of_property_read_u32 (np : device_node) (name : string) : Z + Z :=
  match of_find_property_value_of_size np name 4 0 with
  | inl err => inl err
  | inr value => inr (be32 value)
  end.

(** [of_property_read_u32_array] of [sz] numbers: the numbers, or the error. *)
Fixpoint be32_words (n : nat) (p : list Z) : list Z :=
  match n with
  | O => []
  | S n => be32 p :: be32_words n (drop 4 p)
  end.
Definition of_property_read_u32_array (np : device_node) (name : string) (sz : nat) : Z + list Z :=
  match of_find_property_value_of_size np name (4 * Z.of_nat sz) 0 with
  | inl err => inl err
  | inr value => inr (be32_words sz value)
  end.

(** [of_property_read_u8]: the first byte, whatever the length. *)
Definition of_property_read_u8 (np : device_node) (name : string) : Z + Z :=
  match of_find_property_value_of_size np name 1 0 with
  | inl err => inl err
  | inr value => inr (value !!! 0%nat)
  end.

(** [of_property_read_s32]: the same number, signed. *)
Definition of_property_read_s32 (np : device_node) (name : string) : Z + Z :=
  match of_property_read_u32 np name with inl err => inl err | inr v => inr (s32 v) end.

(** [of_property_read_u8_array] of [sz] bytes. *)
Definition of_property_read_u8_array (np : device_node) (name : string) (sz : nat) : Z + list Z :=
  match of_find_property_value_of_size np name (Z.of_nat sz) 0 with
  | inl err => inl err
  | inr value => inr (take sz value)
  end.

(** How many elements of a size a property holds. *)
Definition of_property_count_elems_of_size (np : device_node) (name : string) (elem_size : Z) : Z :=
  match of_find_property np name with
  | None => - EINVAL
  | Some None => - ENODATA
  | Some (Some value) =>
    if negb (Z.rem (Z.of_nat (length value)) elem_size =? 0) then - EINVAL
    else Z.quot (Z.of_nat (length value)) elem_size
  end.

(** A GPIO's number, as a property gives it. *)
Definition gpio_is_valid (n : Z) : bool := (0 <=? n) && (n <? 512).

Definition of_property_read_bool (np : device_node) (name : string) : bool :=
  bool_decide (is_Some (of_find_property np name)).

(** ** The encoding of a device tree *)

(** [name = "a", "b"]: every string with its terminator. *)
Definition strings_value (ss : list (list Z)) : list Z := mjoin ((fun s => s ++ [0]) <$> ss).

(** [name = <a b c>]: every cell in big-endian order. *)
Definition cells_value (l : list Z) : list Z := mjoin (be32_bytes <$> l).

Definition c_string (s : list Z) : Prop := Forall (fun c => c <> 0) s.

Lemma str_nonzero_all (s : string) : forallb (fun c => negb (c =? 0)) (str s) = true -> c_string (str s).
Proof.
  intros H. apply Forall_forall. intros c Hc. rewrite forallb_forall in H.
  specialize (H c Hc). by apply negb_true_iff, Z.eqb_neq in H.
Qed.

Lemma strnlen_app s p : c_string s -> strnlen (s ++ 0 :: p) = length s.
Proof.
  induction 1 as [|c s Hc _ IH]; [done|]. cbn. destruct (Z.eqb_spec c 0); [done|]. by rewrite IH.
Qed.

Lemma strings_value_cons s ss : strings_value (s :: ss) = s ++ 0 :: strings_value ss.
Proof. unfold strings_value. cbn. by rewrite <- app_assoc. Qed.

Lemma drop_string s (p : list Z) : drop (S (length s)) (s ++ 0 :: p) = p.
Proof. by rewrite cons_middle, app_assoc, drop_app_length' by (rewrite length_app; cbn; lia). Qed.

(** Reading [ss] passes every string up to the limit and keeps those wanted. *)
Lemma read_strings_ok skip upto ss : forall rounds i out,
  Forall c_string ss -> (length (strings_value ss) <= rounds)%nat ->
  read_strings rounds (strings_value ss) i skip upto out =
    let n := match upto with Some u => Z.to_nat (u - i) `min` length ss | None => length ss end%nat in
    inr (i + Z.of_nat n,
         out ++ match upto with Some _ => drop (Z.to_nat (skip - i)) (take n ss) | None => [] end).
Proof.
  induction ss as [|s ss IH]; intros rounds i out Hss Hr.
  { cbn [strings_value]. replace (strings_value []) with (@nil Z) by done.
    destruct rounds; cbn [read_strings length]; destruct upto; rewrite ?Nat.min_0_r, ?take_nil, ?drop_nil, ?app_nil_r; do 2 f_equal; lia. }
  apply list.Forall_cons in Hss as [Hs Hss]. rewrite strings_value_cons in *.
  rewrite length_app in Hr. cbn [length] in Hr. destruct rounds as [|rounds]; [lia|].
  cbn [read_strings]. rewrite strnlen_app by done.
  assert (Hne : forall (A : Type) (a b : A), match s ++ 0 :: strings_value ss with [] => a | _ => b end = b)
    by (intros; by destruct s).
  rewrite Hne. destruct upto as [u|].
  - destruct (Z.leb_spec u i).
    { replace (Z.to_nat (u - i)) with O by lia. cbn. rewrite drop_nil, app_nil_r. do 2 f_equal. lia. }
    rewrite length_app. cbn [length]. destruct (Nat.ltb_spec (length s + S (length (strings_value ss))) (S (length s))); [lia|].
    rewrite drop_string, take_app_length, IH by (done || lia). cbn [length].
    replace (Z.to_nat (u - i)) with (S (Z.to_nat (u - (i + 1)))) by lia. cbn [Nat.min take].
    f_equal. f_equal; [lia|]. destruct (Z.leb_spec skip i).
    + replace (Z.to_nat (skip - i)) with O by lia. replace (Z.to_nat (skip - (i + 1))) with O by lia.
      cbn. by rewrite <- app_assoc.
    + replace (Z.to_nat (skip - i)) with (S (Z.to_nat (skip - (i + 1)))) by lia. done.
  - rewrite length_app. cbn [length]. destruct (Nat.ltb_spec (length s + S (length (strings_value ss))) (S (length s))); [lia|].
    rewrite drop_string, IH by (done || lia). f_equal. f_equal. cbn [length]. lia.
Qed.

Lemma count_strings_ok np name ss :
  of_find_property np name = Some (Some (strings_value ss)) -> Forall c_string ss -> ss <> [] ->
  of_property_count_strings np name = Z.of_nat (length ss).
Proof.
  intros Hp Hss Hne. unfold of_property_count_strings, of_property_read_string_helper.
  rewrite Hp, read_strings_ok by done. cbn. destruct ss; [done|]. cbn [length].
  zcases; cbn; lia.
Qed.

Lemma read_string_index_ok np name ss i s :
  of_find_property np name = Some (Some (strings_value ss)) -> Forall c_string ss -> ss !! i = Some s ->
  of_property_read_string_index np name (Z.of_nat i) = (0, Some s).
Proof.
  intros Hp Hss Hi. unfold of_property_read_string_index, of_property_read_string_helper.
  rewrite Hp, read_strings_ok by done. cbn [fmap option_fmap option_map app].
  pose proof (lookup_lt_Some _ _ _ Hi). rewrite !Z.sub_0_r.
  replace (Z.to_nat (Z.of_nat i + 1) `min` length ss)%nat with (S i) by lia. rewrite Nat2Z.id.
  destruct (Z.leb_spec (0 + Z.of_nat (S i) - Z.of_nat i) 0); [lia|].
  destruct (Z.ltb_spec (0 + Z.of_nat (S i) - Z.of_nat i) 0); [lia|].
  f_equal. rewrite lookup_drop, Nat.add_0_r, lookup_take_lt by lia. done.
Qed.

Lemma read_u32_ok np name v :
  of_find_property np name = Some (Some (be32_bytes v)) -> 0 <= v < 4294967296 ->
  of_property_read_u32 np name = inr v.
Proof.
  intros Hp Hv. unfold of_property_read_u32, of_find_property_value_of_size.
  rewrite Hp. unfold be32_bytes. rewrite length_rev, length_le_enc. cbn [Z.of_nat].
  destruct (Z.ltb_spec (Z.of_nat 4) 4); [lia|]. cbn [Z.eqb negb andb].
  unfold be32. rewrite take_ge by (rewrite length_rev, length_le_enc; lia).
  rewrite rev_involutive, le_dec_enc; [done|]. change (256 ^ Z.of_nat 4) with 4294967296. lia.
Qed.

Lemma cells_value_cons v l : cells_value (v :: l) = be32_bytes v ++ cells_value l.
Proof. done. Qed.

Lemma length_cells_value l : length (cells_value l) = (4 * length l)%nat.
Proof.
  induction l as [|v l IH]; [done|]. rewrite cells_value_cons. cbn [length].
  rewrite length_app, IH. unfold be32_bytes. rewrite length_rev, length_le_enc. lia.
Qed.

Lemma be32_words_ok l : Forall (fun v => 0 <= v < 2 ^ 32) l -> be32_words (length l) (cells_value l) = l.
Proof.
  induction 1 as [|v l Hv _ IH]; [done|]. rewrite cells_value_cons. cbn [length be32_words].
  assert (Hl : length (be32_bytes v) = 4%nat) by (unfold be32_bytes; by rewrite length_rev, length_le_enc).
  f_equal.
  - unfold be32. rewrite take_app_length' by done. unfold be32_bytes. rewrite rev_involutive, le_dec_enc; [done|].
    change (256 ^ Z.of_nat 4) with (2 ^ 32). lia.
  - rewrite drop_app_length' by done. exact IH.
Qed.

Lemma read_u32_array_ok np name l :
  of_find_property np name = Some (Some (cells_value l)) -> Forall (fun v => 0 <= v < 2 ^ 32) l ->
  of_property_read_u32_array np name (length l) = inr l.
Proof.
  intros Hp Hl. unfold of_property_read_u32_array, of_find_property_value_of_size. rewrite Hp, length_cells_value.
  destruct (Z.ltb_spec (Z.of_nat (4 * length l)) (4 * Z.of_nat (length l))); [lia|]. cbn [negb andb Z.eqb].
  by rewrite be32_words_ok.
Qed.

Lemma count_cells_ok np name l :
  of_find_property np name = Some (Some (cells_value l)) ->
  of_property_count_elems_of_size np name 4 = Z.of_nat (length l).
Proof.
  intros Hp. unfold of_property_count_elems_of_size. rewrite Hp, length_cells_value.
  replace (Z.of_nat (4 * length l)) with (Z.of_nat (length l) * 4) by lia.
  by rewrite Z.rem_mul, Z.quot_mul by lia.
Qed.

(** ** Ranges *)

(** Every property holds bytes. *)
Definition node_bytes (np : device_node) : Prop :=
  map_Forall (fun _ p => match p with Some value => Forall (fun c => 0 <= c < 256) value | None => True end) np.

Lemma le_dec_range l : Forall (fun c => 0 <= c < 256) l -> 0 <= le_dec l < 256 ^ Z.of_nat (length l).
Proof.
  induction 1 as [|c l Hc _ IH]; [done|]. cbn [le_dec length]. rewrite Nat2Z.inj_succ, Z.pow_succ_r by lia. lia.
Qed.

Lemma be32_range p : Forall (fun c => 0 <= c < 256) p -> 0 <= be32 p < 2 ^ 32.
Proof.
  intros Hp. unfold be32. assert (Hr : Forall (fun c => 0 <= c < 256) (rev (take 4 p))).
  { apply list.Forall_forall. intros x Hx. apply list_elem_of_In, in_rev, list_elem_of_In in Hx.
    revert x Hx. apply list.Forall_forall. by apply Forall_take. }
  pose proof (le_dec_range _ Hr) as H. rewrite length_rev in H.
  pose proof (Z.pow_le_mono_r 256 (Z.of_nat (length (take 4 p))) 4 ltac:(lia) ltac:(rewrite length_take; lia)).
  change (256 ^ 4) with (2 ^ 32) in *. lia.
Qed.

Lemma be32_words_range n : forall p, Forall (fun c => 0 <= c < 256) p ->
  Forall (fun v => 0 <= v < 2 ^ 32) (be32_words n p) /\ length (be32_words n p) = n.
Proof.
  induction n as [|n IH]; intros p Hp; cbn [be32_words length]; [done|].
  destruct (IH (drop 4 p) ltac:(by apply Forall_drop)) as [H1 H2]. split; [|by rewrite H2].
  constructor; [by apply be32_range|done].
Qed.

Lemma value_bytes np name min max v :
  node_bytes np -> of_find_property_value_of_size np name min max = inr v -> Forall (fun c => 0 <= c < 256) v.
Proof.
  intros Hn. unfold of_find_property_value_of_size, of_find_property. destruct (np !! name) as [[value|]|] eqn:E; [|done..].
  specialize (Hn name _ E). cbn in Hn. destruct (_ <? _); [done|]. destruct (_ && _); [done|]. by intros [= <-].
Qed.

Lemma read_u32_range np name v : node_bytes np -> of_property_read_u32 np name = inr v -> 0 <= v < 2 ^ 32.
Proof.
  intros Hn. unfold of_property_read_u32. destruct (of_find_property_value_of_size np name 4 0) as [|w] eqn:E; [done|].
  intros [= <-]. by eapply be32_range, value_bytes.
Qed.

Lemma read_u32_array_range np name sz l :
  node_bytes np -> of_property_read_u32_array np name sz = inr l -> Forall (fun v => 0 <= v < 2 ^ 32) l /\ length l = sz.
Proof.
  intros Hn. unfold of_property_read_u32_array.
  destruct (of_find_property_value_of_size np name _ 0) as [|w] eqn:E; [done|].
  intros [= <-]. by eapply be32_words_range, value_bytes.
Qed.
