(* ===== verification/ThermalAdc.v ===== *)
(** * Thermistors and PMIC sensors (drivers/thermal/thermal-generic-adc.c,
      drivers/thermal/mediatek/pmic_temp.c)

    The temperatures the virtual sensors are built from: an ADC value through
    a table of temperatures, or through the calibrated line of the PMIC. A
    critical trip of either records its reason with [LifeCycle]. *)

From Stdlib Require Import String.
From stdpp Require Import base tactics numbers list gmap strings option.
From S2P Require Import Prelude Kstrtox Printf Rtc SignOfLife LifeCycle VsCooler VsGov VsZone Of.

Definition GADC_NTC_NUM : nat := 5.
Definition THERMAL_NAME_LENGTH : nat := 20.
Definition THERMAL_TEMP_INVALID : Z := -274000.
Definition PMIC_TEMP_TZ_NUM : nat := 3.

(** ** Thermistors *)

(** [struct gadc_thermal_info]: the zone's type, the table (temperature and ADC
    value in turn, the length an even number) and the ADC channel. *)
Record gadc_thermal_info := mkGti {
  gti_type : string; lookup_table : option (list Z); nlookup_table : Z; channel : nat }.

(** [mult_frac(x, numer, denom)] of ints. *)
Definition mult_frac (x numer denom : Z) : outcome Z :=
  if denom =? 0 then Oops
  else Ret (s32 (s32 (Z.quot x denom * numer) + Z.quot (s32 (Z.rem x denom * numer)) denom)).

(** The search loop: [rounds] entries are left, from the [i]-th on. *)
Fixpoint adc_index (t : list Z) (rounds i : nat) (val : Z) : nat :=
  match rounds with
  | O => i
  | S rounds => if t !!! (2 * i + 1)%nat <=? val then i else adc_index t rounds (S i) val
  end.

Definition gadc_thermal_adc_to_temp (gti : gadc_thermal_info) (val : Z) : outcome Z :=
  match lookup_table gti with
  | None => Ret val
  | Some t =>
    let n := Z.to_nat (nlookup_table gti) in
    let i := adc_index t n 0 val in
    if (i =? 0)%nat then Ret (t !!! 0%nat)
    else if (n <=? i)%nat then Ret (t !!! (2 * (n - 1))%nat)
    else
      let adc_hi := t !!! (2 * i - 1)%nat in
      let adc_lo := t !!! (2 * i + 1)%nat in
      let temp_hi := t !!! (2 * i - 2)%nat in
      let temp_lo := t !!! (2 * i)%nat in
      m ← mult_frac (s32 (temp_lo - temp_hi)) (s32 (val - adc_hi)) (s32 (adc_lo - adc_hi));
      Ret (s32 (temp_hi + m))
  end.

(** [adc]: the channels' values, [inr] the error of a failed read. The result and what is
    written to [*temp]. *)
Definition gadc_thermal_get_temp (adc : nat -> Z + Z) (gti : gadc_thermal_info) : outcome (Z * option Z) :=
  match adc (channel gti) with
  | inr err => Ret (err, None)
  | inl val => t ← gadc_thermal_adc_to_temp gti val; Ret (0, Some t)
  end.

Definition gadc_thermal_read_linear_lookup_table (np : device_node) (alloc : bool) : Z * option (list Z) * Z :=
  let ntable := of_property_count_elems_of_size np "temperature-lookup-table" 4 in
  if ntable <=? 0 then (0, None, 0)
  else if negb (Z.rem ntable 2 =? 0) then (- EINVAL, None, 0)
  else if negb alloc then (- ENOMEM, None, 0)
  else match of_property_read_u32_array np "temperature-lookup-table" (Z.to_nat ntable) with
       | inl ret => (ret, None, 0)
       | inr t => (0, Some (s32 <$> t), Z.quot ntable 2)
       end.

(** What the kernel answers a probe: the node, the allocations, the channel
    ([inr] an error) and the zone's type. *)
Record gadc_env := mkGadcEnv {
  g_node : option device_node; g_alloc : bool; g_alloc_table : bool; g_channel : nat + Z; g_zone : string + Z }.

(** [gti_ntc]: the sensors in use, at most [GADC_NTC_NUM]; a sensor that does
    not fit is left out and its probe succeeds. *)
Definition gadc_thermal_probe (e : gadc_env) (gti_ntc : list gadc_thermal_info) : list gadc_thermal_info * Z :=
  match g_node e with
  | None => (gti_ntc, - ENODEV)
  | Some np =>
    if negb (g_alloc e) then (gti_ntc, - ENOMEM) else
    let '(ret, table, n) := gadc_thermal_read_linear_lookup_table np (g_alloc_table e) in
    if ret <? 0 then (gti_ntc, ret) else
    match g_channel e with
    | inr err => (gti_ntc, err)
    | inl ch =>
      match g_zone e with
      | inr err => (gti_ntc, err)
      | inl ty => (if (length gti_ntc <? GADC_NTC_NUM)%nat then gti_ntc ++ [mkGti ty table n ch] else gti_ntc, 0)
      end
    end
  end.

(** [tolower] and equality under [strncasecmp] with [THERMAL_NAME_LENGTH]. *)
Definition isupper (c : Z) : bool :=
  ((65 <=? c) && (c <=? 90)) || ((192 <=? c) && (c <=? 222) && negb (c =? 215)).
Definition tolower (c : Z) : Z := if isupper c then c + 32 else c.
Definition same_name (a b : string) : bool :=
  bool_decide (tolower <$> take THERMAL_NAME_LENGTH (str a) = tolower <$> take THERMAL_NAME_LENGTH (str b)).

Definition find_gti (name : string) (gti_ntc : list gadc_thermal_info) : option gadc_thermal_info :=
  snd <$> list_find (fun g => same_name name (gti_type g) = true) gti_ntc.

(** An unknown name, or a failed read, leaves [temp] at 0. *)
Definition get_gadc_thermal_temp (adc : nat -> Z + Z) (gti_ntc : list gadc_thermal_info) (name : string) : outcome Z :=
  match find_gti name gti_ntc with
  | None => Ret 0
  | Some gti => '(_, t) ← gadc_thermal_get_temp adc gti; Ret (default 0 t)
  end.

(** A critical trip records its reason before the shutdown. *)
Definition gadc_thermal_notify {S} `{LcrRtc S} (d : driver (lcr_platform S)) (type : thermal_trip_type)
    : driver (lcr_platform S) :=
  match type with
  | THERMAL_TRIP_CRITICAL => (life_cycle_set_thermal_shutdown_reason d THERMAL_SHUTDOWN_REASON_BTS).1
  | _ => d
  end.

(** ** The PMIC's sensors *)

Record pmic_tz_cali_data := mkCali { cali_factor : Z; slope1 : Z; slope2 : Z; intercept : Z; o_vts : Z }.
Record pmic_tz_data := mkPmic { degc_cali : Z; o_slope : Z; o_slope_sign : Z; sensor_num : Z; cali_data : list pmic_tz_cali_data }.

Definition pmic_raw_to_temp (cali : list pmic_tz_cali_data) (tz_id : nat) (val : Z) : outcome Z :=
  c ← or_oops (cali !! tz_id);
  if slope2 c =? 0 then Oops else Ret (s32 (intercept c + Z.quot (s32 (slope1 c * val)) (slope2 c))).

(** The line of one sensor. *)
Definition convert_params (d : pmic_tz_data) (c : pmic_tz_cali_data) : outcome pmic_tz_cali_data :=
  let signed x := if o_slope_sign d =? 0 then cali_factor c + x else cali_factor c - x in
  let slope2 := s32 (- s32 (signed (o_slope d))) in
  let vbe_t := s32 (- Z.quot (s32 (o_vts c * 1800)) 4096 * 1000) in
  let divisor := s32 (- s32 (signed (s32 (o_slope d * 10)))) in
  if divisor =? 0 then Oops else
  Ret (mkCali (cali_factor c) (100 * 1000 * 10) slope2
         (s32 (Z.quot (s32 (vbe_t * 1000)) divisor + s32 (degc_cali d * (1000 / 2)))) (o_vts c)).

Fixpoint convert_all (d : pmic_tz_data) (n : nat) (l : list pmic_tz_cali_data) : outcome (list pmic_tz_cali_data) :=
  match n, l with
  | O, _ => Ret l
  | S n, c :: l => c ← convert_params d c; l ← convert_all d n l; Ret (c :: l)
  | S _, [] => Oops
  end.
Definition pmic_get_temp_convert_params (d : pmic_tz_data) : outcome pmic_tz_data :=
  l ← convert_all d (Z.to_nat (sensor_num d)) (cali_data d);
  Ret (mkPmic (degc_cali d) (o_slope d) (o_slope_sign d) (sensor_num d) l).

(** [adc]: the value of each sensor's channel. *)
Definition pmic_get_temp (adc : nat -> Z + Z) (d : pmic_tz_data) (tz_id : nat) : outcome (Z * Z) :=
  match adc tz_id with
  | inr _ => Ret (- EINVAL, THERMAL_TEMP_INVALID)
  | inl val => t ← pmic_raw_to_temp (cali_data d) tz_id val; Ret (0, t)
  end.

(** [gpmic_tz]: the sensors registered, in [PMIC_TEMP_TZ_NUM] places. *)
Definition get_pmic_thermal_temp (adc : nat -> Z + Z) (d : pmic_tz_data) (gpmic_tz : list (option nat)) (id : Z) : outcome Z :=
  if Z.of_nat PMIC_TEMP_TZ_NUM <=? id then Ret (-1)
  else if id <? 0 then Oops
  else match mjoin (gpmic_tz !! Z.to_nat id) with
       | Some tz => '(_, t) ← pmic_get_temp adc d tz; Ret t
       | None => Ret 0
       end.

(** [pmic_register_thermal_zones]: the allocations and registrations of its
    rounds, from the [i]-th sensor on. *)
Fixpoint register_from (i : nat) (answers : list (bool * Z)) (gpmic_tz : list (option nat)) : list (option nat) * Z :=
  match answers with
  | [] => (gpmic_tz, 0)
  | (alloc, reg) :: answers =>
    if negb alloc then (gpmic_tz, - ENOMEM)
    else if reg <? 0 then (gpmic_tz, reg)
    else register_from (S i) answers (if (i <? PMIC_TEMP_TZ_NUM)%nat then <[i := Some i]> gpmic_tz else gpmic_tz)
  end.
Definition pmic_register_thermal_zones (d : pmic_tz_data) (answers : list (bool * Z)) (gpmic_tz : list (option nat)) :=
  register_from 0 (take (Z.to_nat (sensor_num d)) answers) gpmic_tz.

Definition pmic_thermal_notify {S} `{LcrRtc S} (d : driver (lcr_platform S)) (type : thermal_trip_type)
    : driver (lcr_platform S) :=
  match type with
  | THERMAL_TRIP_CRITICAL => (life_cycle_set_thermal_shutdown_reason d THERMAL_SHUTDOWN_REASON_PMIC).1
  | _ => d
  end.

(** ** The wireless receiver's sensors

    Their critical trip (idtp922x_wireless_power.c); [thermal] is a zone or NULL. *)
Definition p922x_thermal_notify {S} `{LcrRtc S} (d : driver (lcr_platform S)) (thermal : bool) (type : thermal_trip_type)
    : driver (lcr_platform S) * Z :=
  if negb thermal then (d, - EINVAL) else
  match type with
  | THERMAL_TRIP_CRITICAL => ((life_cycle_set_thermal_shutdown_reason d THERMAL_SHUTDOWN_REASON_BTS).1, 0)
  | _ => (d, 0)
  end.

(** ** Specification *)

(** Linear interpolation on a table of (temperature, ADC value), rounded down
    to the warmer entry's side; the ends of the table are held. *)
Definition interpolate (p q : Z * Z) (val : Z) : Z := p.1 + (q.1 - p.1) * (p.2 - val) / (p.2 - q.2).
Fixpoint ref_from (p : Z * Z) (l : list (Z * Z)) (val : Z) : Z :=
  match l with
  | [] => p.1
  | q :: l => if q.2 <=? val then interpolate p q val else ref_from q l val
  end.
Definition ref_temp (l : list (Z * Z)) (val : Z) : Z :=
  match l with
  | [] => 0
  | p :: l => if p.2 <=? val then p.1 else ref_from p l val
  end.

(** A table for a negative-temperature-coefficient divider: the temperatures
    rise and the ADC values fall, within what the arithmetic holds. *)
Definition entry_ok (p : Z * Z) : Prop := -300000 <= p.1 <= 300000 /\ 0 <= p.2 <= 40000.
Fixpoint chained (p : Z * Z) (l : list (Z * Z)) : Prop :=
  match l with
  | [] => True
  | q :: l => p.1 <= q.1 /\ q.2 < p.2 /\ chained q l
  end.
Definition ntc_table (l : list (Z * Z)) : Prop :=
  Forall entry_ok l /\ match l with [] => False | p :: l => chained p l end.

Definition flatten (l : list (Z * Z)) : list Z := l ≫= (fun p => [p.1; p.2]).

(** A thermistor as the device tree describes it: type, table, channel; and a
    probe of it to which the kernel gives what it asks for. *)
Record ntc := mkNtc { ntc_type : string; ntc_entries : list (Z * Z); ntc_channel : nat }.
Definition ntc_env (x : ntc) : gadc_env :=
  mkGadcEnv (Some {["temperature-lookup-table"%string := Some (cells_value (u32 <$> flatten (ntc_entries x)))]})
    true true (inl (ntc_channel x)) (inl (ntc_type x)).
Definition ntc_gti (x : ntc) : gadc_thermal_info :=
  mkGti (ntc_type x) (Some (flatten (ntc_entries x))) (Z.of_nat (length (ntc_entries x))) (ntc_channel x).
Definition probe_all (xs : list ntc) : list gadc_thermal_info := foldl (fun s x => (gadc_thermal_probe (ntc_env x) s).1) [] xs.

(** The thermal notifications, of a thermistor, a PMIC sensor, the wireless
    receiver or a virtual zone. *)
Inductive thermal_source := Thermistor | Pmic | Receiver | Virtual (v : vzone).
Definition source_reason (s : thermal_source) : life_cycle_reason_t :=
  match s with
  | Thermistor | Receiver => THERMAL_SHUTDOWN_REASON_BTS
  | Pmic => THERMAL_SHUTDOWN_REASON_PMIC
  | Virtual _ => THERMAL_SHUTDOWN_REASON_PCB
  end.
Definition thermal_notify {S} `{LcrRtc S} (d : driver (lcr_platform S)) (n : thermal_source * thermal_trip_type)
    : driver (lcr_platform S) :=
  match n.1 with
  | Thermistor => gadc_thermal_notify d n.2
  | Pmic => pmic_thermal_notify d n.2
  | Receiver => (p922x_thermal_notify d true n.2).1
  | Virtual v => (virtual_sensor_thermal_notify v d n.2).2
  end.

(** The source of the last critical trip, [prev] before. *)
Fixpoint last_critical (prev : life_cycle_reason_t) (ns : list (thermal_source * thermal_trip_type)) : life_cycle_reason_t :=
  match ns with
  | [] => prev
  | (s, THERMAL_TRIP_CRITICAL) :: ns => last_critical (source_reason s) ns
  | _ :: ns => last_critical prev ns
  end.

(** ** Lemmas *)

(** The C expression is the floor of the exact fraction when the table rises
    and the ADC value falls. *)
Lemma mult_frac_floor x a d :
  0 <= x <= 600000 -> 0 <= a <= d -> 0 < d <= 40000 ->
  mult_frac x (- a) (- d) = Ret (x * a / d).
Proof.
  intros Hx Ha Hd. unfold mult_frac. destruct (Z.eqb_spec (- d) 0); [lia|].
  rewrite Z.quot_opp_r, Z.rem_opp_r, Z.quot_div_nonneg, Z.rem_mod_nonneg by lia.
  set (q := x / d). set (r := x mod d).
  assert (E : x = d * q + r) by (apply Z.div_mod; lia).
  assert (Hr : 0 <= r < d) by (apply Z.mod_pos_bound; lia).
  assert (Hq : 0 <= q) by (apply Z.div_pos; lia).
  assert (Hra : 0 <= r * a <= 40000 * 40000) by nia.
  assert (Hqa : 0 <= q * a <= x) by nia.
  assert (Hf : 0 <= r * a / d <= 40000).
  { split; [apply Z.div_pos; lia|]. transitivity r; [apply Z.div_le_upper_bound; nia|lia]. }
  replace (r * - a) with (- (r * a)) by ring. replace (- q * - a) with (q * a) by ring.
  rewrite (s32_id (- (r * a))) by lia. rewrite Z.quot_opp_opp, Z.quot_div_nonneg by lia.
  rewrite (s32_id (q * a)), s32_id by lia. f_equal. clearbody q r. rewrite E. replace ((d * q + r) * a) with (q * a * d + r * a) by ring.
  rewrite Z.div_add_l by lia. done.
Qed.

Lemma flatten_cons p l : flatten (p :: l) = p.1 :: p.2 :: flatten l.
Proof. done. Qed.
Lemma flatten_temp l i p : l !! i = Some p -> flatten l !!! (2 * i)%nat = p.1 /\ flatten l !!! (2 * i + 1)%nat = p.2.
Proof.
  revert i. induction l as [|q l IH]; intros i Hi; [done|]. rewrite flatten_cons.
  destruct i as [|i]; [by injection Hi as ->|]. destruct (IH i Hi) as [H1 H2].
  replace (2 * S i)%nat with (S (S (2 * i))) by lia. replace (S (S (2 * i)) + 1)%nat with (S (S (2 * i + 1))) by lia.
  done.
Qed.

(** The loop from an entry on, over the rest of the table. *)
Lemma adc_index_ref t val l : forall pre p,
  t = flatten (pre ++ p :: l) -> val < p.2 ->
  let i := adc_index t (length l) (S (length pre)) val in
  (S (length pre) <= i <= S (length pre) + length l)%nat /\
  match (pre ++ p :: l) !! i with
  | Some q => exists p', (pre ++ p :: l) !! (i - 1)%nat = Some p' /\ val < p'.2 /\ q.2 <= val /\ ref_from p l val = interpolate p' q val
  | None => exists p', (pre ++ p :: l) !! (i - 1)%nat = Some p' /\ ref_from p l val = p'.1
  end.
Proof.
  induction l as [|q l IH]; intros pre p Ht Hv; cbn [length adc_index].
  - split; [lia|]. rewrite lookup_ge_None_2 by (rewrite length_app; cbn; lia).
    exists p. rewrite lookup_app_r by lia. replace (S (length pre) - 1 - length pre)%nat with O by lia. done.
  - assert (Hq : (pre ++ p :: q :: l) !! S (length pre) = Some q)
      by (rewrite lookup_app_r by lia; replace (S (length pre) - length pre)%nat with 1%nat by lia; done).
    destruct (flatten_temp _ _ _ Hq) as [_ Hadc]. rewrite <- Ht in Hadc. rewrite Hadc. cbn [ref_from].
    destruct (Z.leb_spec q.2 val).
    + split; [lia|]. rewrite Hq. exists p. split; [|done].
      rewrite lookup_app_r by lia. replace (S (length pre) - 1 - length pre)%nat with O by lia. done.
    + specialize (IH (pre ++ [p]) q). rewrite <- !app_assoc, length_app in IH. cbn [app length] in IH.
      rewrite Nat.add_1_r in IH. destruct (IH Ht ltac:(lia)) as [H1 H2]. split; [lia|exact H2].
Qed.

Lemma chained_lookup l : forall p i a b, chained p l -> (p :: l) !! i = Some a -> (p :: l) !! S i = Some b ->
  a.1 <= b.1 /\ b.2 < a.2.
Proof.
  induction l as [|q l IH]; intros p i a b Hc Ha Hb; [by destruct i|]. destruct Hc as (H1 & H2 & H3).
  destruct i as [|i]; [|by apply (IH q i)]. injection Ha as <-. injection Hb as <-. done.
Qed.

Lemma length_flatten l : length (flatten l) = (2 * length l)%nat.
Proof. induction l as [|p l IH]; [done|]. rewrite flatten_cons. cbn [length]. lia. Qed.

Lemma adc_to_temp_ref ty ch l val :
  ntc_table l -> 0 <= val <= 40000 ->
  gadc_thermal_adc_to_temp (mkGti ty (Some (flatten l)) (Z.of_nat (length l)) ch) val = Ret (ref_temp l val).
Proof.
  intros [He Hl] Hv. destruct l as [|p l]; [done|]. unfold gadc_thermal_adc_to_temp. cbn [lookup_table nlookup_table].
  rewrite Nat2Z.id. cbn [length adc_index ref_temp]. cbv zeta.
  change (flatten (p :: l) !!! (2 * 0 + 1)%nat) with p.2. destruct (Z.leb_spec p.2 val) as [|Hp]; [done|].
  destruct (adc_index_ref (flatten (p :: l)) val l [] p eq_refl Hp) as [Hi Hm].
  cbn [length app] in *. set (i := adc_index _ _ _ _) in *. destruct (Nat.eqb_spec i 0); [lia|].
  assert (Hok : forall k a, (p :: l) !! k = Some a -> entry_ok a) by (intros; by eapply list.Forall_lookup_1).
  destruct (Nat.leb_spec (S (length l)) i) as [Hge|Hlt].
  - rewrite lookup_ge_None_2 in Hm by (cbn; lia). destruct Hm as (p' & Hp' & ->).
    replace (i - 1)%nat with (S (length l) - 1)%nat in Hp' by lia.
    by destruct (flatten_temp _ _ _ Hp') as [-> _].
  - destruct (lookup_lt_is_Some_2 (p :: l) i) as [q Hq]; [cbn; lia|]. rewrite Hq in Hm.
    destruct Hm as (p' & Hp' & H1 & H2 & ->).
    destruct (flatten_temp _ _ _ Hq) as [E1 E2]. destruct (flatten_temp _ _ _ Hp') as [E3 E4].
    replace (2 * (i - 1))%nat with (2 * i - 2)%nat in E3, E4 by lia.
    replace (2 * i - 2 + 1)%nat with (2 * i - 1)%nat in E4 by lia. rewrite E1, E2, E3, E4.
    destruct (chained_lookup l p (i - 1) p' q Hl Hp') as [C1 C2]; [by replace (S (i - 1)) with i by lia|].
    destruct (Hok _ _ Hq) as [B1 B2], (Hok _ _ Hp') as [B3 B4].
    rewrite !(s32_id (_ - _)) by lia.
    replace (val - p'.2) with (- (p'.2 - val)) by ring. replace (q.2 - p'.2) with (- (p'.2 - q.2)) by ring.
    rewrite mult_frac_floor by lia. cbn [mbind outcome_bind]. unfold interpolate. rewrite s32_id; [done|].
    assert (0 <= (q.1 - p'.1) * (p'.2 - val) / (p'.2 - q.2) <= q.1 - p'.1).
    { split; [apply Z.div_pos; nia|apply Z.div_le_upper_bound; nia]. }
    lia.
Qed.

(** An interpolated value lies between the entries and falls as the ADC value
    rises. *)
Lemma interpolate_between p q val :
  p.1 <= q.1 -> q.2 < p.2 -> q.2 <= val <= p.2 -> p.1 <= interpolate p q val <= q.1.
Proof.
  intros H1 H2 H3. unfold interpolate.
  assert (0 <= (q.1 - p.1) * (p.2 - val) / (p.2 - q.2) <= q.1 - p.1); [|lia].
  split; [apply Z.div_pos; nia|apply Z.div_le_upper_bound; nia].
Qed.

Lemma ref_from_ge p l val : chained p l -> val <= p.2 -> p.1 <= ref_from p l val.
Proof.
  revert p. induction l as [|q l IH]; intros p Hc Hv; cbn [ref_from]; [lia|]. destruct Hc as (H1 & H2 & H3).
  destruct (Z.leb_spec q.2 val); [by apply interpolate_between|]. etransitivity; [exact H1|]. apply IH; [done|lia].
Qed.

Lemma ref_from_antitone l val val' : forall p, chained p l -> val <= val' < p.2 -> ref_from p l val' <= ref_from p l val.
Proof.
  induction l as [|q l IH]; intros p Hc Hv; cbn [ref_from]; [lia|]. destruct Hc as (H1 & H2 & H3).
  destruct (Z.leb_spec q.2 val'), (Z.leb_spec q.2 val); try lia.
  - unfold interpolate. apply Z.add_le_mono_l, Z.div_le_mono; nia.
  - etransitivity; [apply interpolate_between; lia|]. apply ref_from_ge; [done|lia].
  - apply IH; [done|lia].
Qed.

Lemma ref_temp_antitone l val val' : ntc_table l -> val <= val' -> ref_temp l val' <= ref_temp l val.
Proof.
  intros [_ Hl] Hv. destruct l as [|p l]; [done|]. cbn [ref_temp].
  destruct (Z.leb_spec p.2 val'), (Z.leb_spec p.2 val); try lia.
  - apply ref_from_ge; [done|lia].
  - apply ref_from_antitone; [done|lia].
Qed.

Lemma entries_s32 l : Forall entry_ok l -> Forall (fun v => 0 <= v < 2 ^ 32) (u32 <$> flatten l) /\ s32 <$> (u32 <$> flatten l) = flatten l.
Proof.
  induction 1 as [|[t a] l [Ht Ha] _ [IH1 IH2]]; [done|]. cbn [fst snd] in *. rewrite flatten_cons. split.
  - cbn. repeat constructor; [apply wrapU_range; lia..|exact IH1].
  - assert (Hid : forall v, -300000 <= v <= 300000 -> s32 (u32 v) = v)
      by (intros v Hv; etransitivity; [apply (wrapS_wrapU 32 32 v); lia|apply s32_id; lia]).
    cbn [fmap list_fmap fst snd]. rewrite !Hid by lia. do 2 f_equal. exact IH2.
Qed.

Lemma probe_ntc x s : ntc_table (ntc_entries x) ->
  gadc_thermal_probe (ntc_env x) s = (if (length s <? GADC_NTC_NUM)%nat then s ++ [ntc_gti x] else s, 0).
Proof.
  intros [He Hl]. unfold gadc_thermal_probe, ntc_env. cbn [g_node g_alloc negb].
  unfold gadc_thermal_read_linear_lookup_table. cbn [g_alloc_table negb].
  set (l := ntc_entries x) in *. set (np := {["temperature-lookup-table"%string := _]}).
  assert (Hp : of_find_property np "temperature-lookup-table" = Some (Some (cells_value (u32 <$> flatten l))))
    by apply lookup_singleton_eq.
  destruct (entries_s32 l He) as [E1 E2].
  rewrite (count_cells_ok np _ _ Hp). destruct (Z.leb_spec (Z.of_nat (length (u32 <$> flatten l))) 0) as [Hn|Hn].
  { destruct l; [done|]. rewrite length_fmap, length_flatten in Hn. cbn [length] in Hn. lia. }
  rewrite Nat2Z.id, (read_u32_array_ok np _ _ Hp E1), E2, length_fmap, length_flatten.
  replace (Z.of_nat (2 * length l)) with (Z.of_nat (length l) * 2) by lia. rewrite Z.rem_mul, Z.quot_mul by lia.
  cbn [Z.eqb negb Z.ltb Z.compare g_channel g_zone]. done.
Qed.

Lemma probe_all_ntc xs : Forall (fun x => ntc_table (ntc_entries x)) xs -> probe_all xs = take GADC_NTC_NUM (ntc_gti <$> xs).
Proof.
  induction xs as [|x xs IH] using rev_ind; [done|]. intros [Hxs Hx]%Forall_app. apply list.Forall_cons in Hx as [Hx _].
  unfold probe_all in *. rewrite foldl_snoc, probe_ntc, IH by done. cbn [fst]. rewrite fmap_app, length_take, length_fmap.
  destruct (Nat.ltb_spec (GADC_NTC_NUM `min` length xs) GADC_NTC_NUM).
  - rewrite (take_ge (_ <$> xs)), take_ge; [done|rewrite length_app, !length_fmap; cbn; lia|rewrite length_fmap; lia].
  - rewrite take_app_le; [done|rewrite length_fmap; lia].
Qed.

Lemma find_gti_take name xs k x n :
  xs !! k = Some x -> (forall j y, (j < k)%nat -> xs !! j = Some y -> same_name name (ntc_type y) = false) ->
  (forall j y, (k < j)%nat -> xs !! j = Some y -> same_name name (ntc_type y) = false) ->
  same_name name (ntc_type x) = true ->
  find_gti name (take n (ntc_gti <$> xs)) = if (k <? n)%nat then Some (ntc_gti x) else None.
Proof.
  intros Hk Hlt Hgt Hx. unfold find_gti. destruct (Nat.ltb_spec k n).
  - rewrite (proj2 (list_find_Some _ _ k (ntc_gti x))); [done|]. split_and!.
    + rewrite lookup_take_lt, list_lookup_fmap, Hk by done. done.
    + exact Hx.
    + intros j g Hj Hjk. rewrite lookup_take_lt, list_lookup_fmap in Hj by lia.
      destruct (xs !! j) as [y|] eqn:E; [|done]. injection Hj as <-. cbn. by rewrite (Hlt j y).
  - rewrite (proj2 (list_find_None _ _)); [done|]. apply list.Forall_lookup. intros j g Hj.
    apply lookup_take_Some in Hj as [Hj Hjn]. rewrite list_lookup_fmap in Hj.
    destruct (xs !! j) as [y|] eqn:E; [|done]. injection Hj as <-. cbn. rewrite (Hlt j y) by (done || lia). done.
Qed.

Lemma notify_serves {S} `{LcrRtc S} (d : driver (lcr_platform S)) n :
  thermal_notify d n = match n.2 with THERMAL_TRIP_CRITICAL => serve d (ReqSet THERMAL_SHUTDOWN (source_reason n.1)) | _ => d end.
Proof. by destruct n as [[| | |v] []]. Qed.

(** The notifications, as requests of the session. *)
Definition critical_requests (ns : list (thermal_source * thermal_trip_type)) : list request :=
  n ← ns; match n.2 with THERMAL_TRIP_CRITICAL => [ReqSet THERMAL_SHUTDOWN (source_reason n.1)] | _ => [] end.

Lemma notify_all_serves {S} `{LcrRtc S} ns : forall d : driver (lcr_platform S),
  foldl thermal_notify d ns = foldl serve d (critical_requests ns).
Proof.
  induction ns as [|n ns IH]; intros d; [done|]. cbn [foldl]. rewrite notify_serves, IH.
  unfold critical_requests. cbn [mbind list_bind]. rewrite foldl_app. by destruct n as [s []].
Qed.

Lemma critical_session ns : forall st,
  spec_session st (critical_requests ns) THERMAL_SHUTDOWN = last_critical (st THERMAL_SHUTDOWN) ns.
Proof.
  induction ns as [|[s t] ns IH]; intros st; [done|]. unfold critical_requests in *. cbn [mbind list_bind snd fst].
  rewrite spec_session_app, IH. by destruct s, t.
Qed.

(** ** Theorems *)

(** C22. The thermistor's table is interpolated exactly: for a table whose
    temperatures rise and whose ADC values fall, within what 32 bits hold, the C
    code with its truncating divisions computes the floor of the exact value,
    held at the ends, for every ADC value; so a reading lies within the table
    and never rises when the ADC value rises. *)
Theorem adc_interpolates ty ch l val val' :
  ntc_table l -> 0 <= val <= val' -> val' <= 40000 ->
  let gti := mkGti ty (Some (flatten l)) (Z.of_nat (length l)) ch in
  exists t t', gadc_thermal_adc_to_temp gti val = Ret t /\ gadc_thermal_adc_to_temp gti val' = Ret t' /\
    t = ref_temp l val /\ t' = ref_temp l val' /\ t' <= t.
Proof.
  intros Hl Hv Hv' gti. subst gti. exists (ref_temp l val), (ref_temp l val').
  rewrite !adc_to_temp_ref by (done || lia). split_and!; try done. apply ref_temp_antitone; [done|lia].
Qed.

(** Part of a 10 k thermistor's table, in millidegrees and millivolts. *)
Definition ex_entries : list (Z * Z) := [(-10000, 1600); (0, 1400); (25000, 900); (60000, 400); (125000, 90)].

Lemma ex_table : ntc_table ex_entries.
Proof. split; [repeat constructor; cbn; lia|]. cbn. lia. Qed.

Lemma adc_interpolates_witness :
  ntc_table ex_entries /\ gadc_thermal_adc_to_temp (mkGti "ap_ntc" (Some (flatten ex_entries)) (Z.of_nat (length ex_entries)) 0) 850 = Ret 28500.
Proof.
  split; [exact ex_table|].
  destruct (adc_interpolates "ap_ntc" 0 ex_entries 850 900 ex_table) as (t & t' & -> & _ & -> & _); [lia..|].
  vm_compute. reflexivity.
Defined.

(** From the device tree to a reading: after thermistors of distinct
    names were probed, a name of one of the first five reads its own channel
    through its own table; the sixth and every later one was dropped although its
    probe succeeded, and reads 0 degrees whatever its channel says, as does a
    thermistor whose channel fails. *)
Theorem sixth_thermistor_reads_zero xs k x name (adc : nat -> Z + Z) :
  Forall (fun x => ntc_table (ntc_entries x)) xs -> xs !! k = Some x -> same_name name (ntc_type x) = true ->
  (forall j y, j <> k -> xs !! j = Some y -> same_name name (ntc_type y) = false) ->
  match adc (ntc_channel x) with inl v => 0 <= v <= 40000 | inr _ => True end ->
  (forall s, (gadc_thermal_probe (ntc_env x) s).2 = 0) /\
  get_gadc_thermal_temp adc (probe_all xs) name =
    Ret (if (k <? GADC_NTC_NUM)%nat then match adc (ntc_channel x) with inl v => ref_temp (ntc_entries x) v | inr _ => 0 end else 0).
Proof.
  intros Hxs Hk Hx Hne Hadc. assert (Hl : ntc_table (ntc_entries x)) by (by eapply list.Forall_lookup_1 in Hxs).
  split; [intros s; by rewrite probe_ntc|]. rewrite probe_all_ntc by done. unfold get_gadc_thermal_temp.
  rewrite (find_gti_take name xs k x) by first [done | intros j y Hj Hy; apply (Hne j y); [lia|done]].
  destruct (k <? GADC_NTC_NUM)%nat; [|done]. unfold gadc_thermal_get_temp. cbn [ntc_gti channel].
  destruct (adc (ntc_channel x)) as [v|err]; [|done]. unfold ntc_gti. rewrite adc_to_temp_ref by done. done.
Qed.

Definition ex_ntcs : list ntc :=
  [mkNtc "charge" ex_entries 0; mkNtc "pmic" ex_entries 1; mkNtc "mux_sd" ex_entries 2; mkNtc "mux_9221" ex_entries 3;
   mkNtc "ap_ntc" ex_entries 4; mkNtc "usb_ntc" ex_entries 5].

Lemma sixth_thermistor_reads_zero_witness :
  get_gadc_thermal_temp (fun _ => inl 200) (probe_all ex_ntcs) "AP_NTC" = Ret 101935 /\
  get_gadc_thermal_temp (fun _ => inl 200) (probe_all ex_ntcs) "usb_ntc" = Ret 0.
Proof.
  assert (Ht : Forall (fun x => ntc_table (ntc_entries x)) ex_ntcs) by (do 6 (constructor; [exact ex_table|]); constructor).
  split.
  - destruct (sixth_thermistor_reads_zero ex_ntcs 4 (mkNtc "ap_ntc" ex_entries 4) "AP_NTC" (fun _ => inl 200)) as [_ ->];
      [exact Ht|reflexivity|vm_compute; reflexivity| |cbn; lia|vm_compute; reflexivity].
    intros j y Hj Hy. do 6 (destruct j as [|j]; [first [congruence|injection Hy as <-; vm_compute; reflexivity]|]). done.
  - destruct (sixth_thermistor_reads_zero ex_ntcs 5 (mkNtc "usb_ntc" ex_entries 5) "usb_ntc" (fun _ => inl 200)) as [_ ->];
      [exact Ht|reflexivity|vm_compute; reflexivity| |cbn; lia|reflexivity].
    intros j y Hj Hy. do 6 (destruct j as [|j]; [first [congruence|injection Hy as <-; vm_compute; reflexivity]|]). done.
Defined.

(** Several thermal zones that reach critical trips: the next boot names
    the source of the last one, whatever the order of the notifications and
    whatever the other trips were; without a critical one, what was recorded
    before. *)
Theorem last_critical_reported {S} `{LcrRtcLaws S} (d : driver (lcr_platform S)) sol ns qs charging cmd lcr :
  p_dev_sol d = Some sol -> sol_ops sol = life_cycle_platform_init ->
  check_sign_of_life_parity (plat_rtc (platform d)) = true ->
  Forall (fun q => spares THERMAL_SHUTDOWN q = true) qs ->
  get_android_bootreason cmd LIFE_CYCLE_NOT_AVAILABLE = Some lcr ->
  let d1 := foldl serve (foldl thermal_notify d ns) qs in
  let r := last_critical (abs_store (plat_rtc (platform d)) THERMAL_SHUTDOWN) ns in
  known r = true ->
  exists d', dev_sol_init (mkDriver None false (mkPlat (plat_rtc (platform d1)) LIFE_CYCLE_NOT_AVAILABLE)) true charging cmd
               = Some (d', 0) /\ reported d' = Some r.
Proof.
  intros H1 H2 H3 Hqs Hcmd d1 r Hk.
  destruct (init_spec (plat_rtc (platform d1)) charging cmd lcr false None _ Hcmd) as (d' & Hi & Hrep & _).
  exists d'. split; [exact Hi|]. rewrite Hrep. f_equal. unfold d1. rewrite notify_all_serves, <- foldl_app.
  rewrite (session_report d sol) by done. unfold spec_report.
  rewrite spec_session_app, session_spares, critical_session by done. fold r. cbn [first_known]. by rewrite Hk.
Qed.

Lemma last_critical_reported_witness :
  exists d', dev_sol_init (mkDriver None false (mkPlat (plat_rtc (platform (foldl serve (foldl thermal_notify (running example_regs)
      [(Pmic, THERMAL_TRIP_CRITICAL); (Thermistor, THERMAL_TRIP_CRITICAL); (Pmic, THERMAL_TRIP_HOT)]) [ReqReboot SYS_POWER_OFF])))
      LIFE_CYCLE_NOT_AVAILABLE)) true false "quiet" = Some (d', 0) /\ reported d' = Some THERMAL_SHUTDOWN_REASON_BTS.
Proof.
  destruct (last_critical_reported (running example_regs) _
    [(Pmic, THERMAL_TRIP_CRITICAL); (Thermistor, THERMAL_TRIP_CRITICAL); (Pmic, THERMAL_TRIP_HOT)] [ReqReboot SYS_POWER_OFF]
    false "quiet" LIFE_CYCLE_NOT_AVAILABLE eq_refl eq_refl) as (d' & Hi & Hr);
    [vm_compute; reflexivity|by repeat constructor|reflexivity|vm_compute; reflexivity|].
  exists d'. split; [exact Hi|exact Hr].
Defined.
