(* ===== verification/VsSensor.v ===== *)
(** * The virtual sensors' inputs
      (drivers/thermal/virtual_sensor_tablet/virtual_sensor_thermal_sensor.c, virtual_sensor_interface.c)

    Each platform device of the sensor driver reads one temperature source and
    is entered in the list of the zone its device tree selects; the zones
    ([VsZone]) read their lists. Attributes change a sensor's parameters. *)

From Stdlib Require Import String.
From stdpp Require Import base tactics numbers list gmap strings option pretty.
From S2P Require Import Prelude Kstrtox Printf Rtc SignOfLife LifeCycle VsCooler VsGov VsZone Of ThermalAdc.

Definition OFFLINE_TEMP : Z := 25000.
Definition BUF_SIZE : Z := 128.

(** ** Sources *)

(** The power supplies the code looks up by name. *)
Inductive supply := Battery | Wireless | Charger.
Definition supply_name (s : supply) : string :=
  match s with Battery => "battery" | Wireless => "Wireless" | Charger => "mtk-master-charger" end.

(** The kernel around the driver: whether a supply is registered, its
    temperature and its online property ([None]: the property's call fails), the
    ADC and PMIC of [ThermalAdc]. *)
Record kernel := mkKernel {
  registered : supply -> bool; prop_temp : supply -> option Z; prop_online : supply -> option Z;
  k_adc : nat -> Z + Z; k_ntcs : list gadc_thermal_info;
  k_pmic_adc : nat -> Z + Z; k_pmic : pmic_tz_data; k_gpmic : list (option nat) }.

(** The statics [bat_psy], [wpc_psy] and [chg_psy]: not NULL. *)
Record psy_cache := mkPsy { bat_psy : bool; wpc_psy : bool; chg_psy : bool }.

Definition battery_psy (k : kernel) (c : psy_cache) : psy_cache := mkPsy (bat_psy c || registered k Battery) (wpc_psy c) (chg_psy c).
Definition wireless_psy (k : kernel) (c : psy_cache) : psy_cache := mkPsy (bat_psy c) (wpc_psy c || registered k Wireless) (chg_psy c).
Definition charger_psy (k : kernel) (c : psy_cache) : psy_cache := mkPsy (bat_psy c) (wpc_psy c) (chg_psy c || registered k Charger).

Definition vs_wpc_read_temp (k : kernel) (c : psy_cache) : psy_cache * Z :=
  let c := wireless_psy k c in
  if negb (wpc_psy c) then (c, OFFLINE_TEMP)
  else match prop_temp k Wireless with None => (c, OFFLINE_TEMP) | Some v => (c, s32 (v * 1000)) end.

Definition vs_get_wpc_online (k : kernel) (c : psy_cache) : psy_cache * Z :=
  let c := wireless_psy k c in
  if negb (wpc_psy c) then (c, 0)
  else match prop_online k Wireless with None => (c, 0) | Some v => (c, v) end.

Definition get_battery_temp (k : kernel) (c : psy_cache) : psy_cache * Z :=
  let c := battery_psy k c in
  if negb (bat_psy c) then (c, OFFLINE_TEMP)
  else match prop_temp k Battery with None => (c, OFFLINE_TEMP) | Some v => (c, s32 (v * 100)) end.

Definition get_charger_temp (k : kernel) (c : psy_cache) : psy_cache * Z :=
  let c := charger_psy k c in
  if negb (chg_psy c) then (c, OFFLINE_TEMP)
  else match prop_temp k Charger with None => (c, OFFLINE_TEMP) | Some v => (c, s32 (v * 100)) end.

Definition VS_THERMAL_SENSOR_BATTERY : Z := 1.
Definition VS_THERMAL_SENSOR_PMIC : Z := 3.
Definition VS_THERMAL_SENSOR_THERMISTOR : Z := 5.
Definition VS_THERMAL_SENSOR_WIRELESS_CHG : Z := 6.
Definition VS_THERMAL_SENSOR_CHARGER : Z := 7.

Definition ntc_name : list string := ["charge"; "pmic"; "mux_sd"; "mux_9221"; "ap_ntc"; "usb_ntc"]%string.

(** The thermistor's name is indexed without a test. *)
Definition vs_thermal_sensor_get_temp (k : kernel) (c : psy_cache) (id index : Z) : outcome (psy_cache * Z) :=
  if id =? VS_THERMAL_SENSOR_PMIC then t ← get_pmic_thermal_temp (k_pmic_adc k) (k_pmic k) (k_gpmic k) index; Ret (c, t)
  else if id =? VS_THERMAL_SENSOR_BATTERY then Ret (get_battery_temp k c)
  else if id =? VS_THERMAL_SENSOR_THERMISTOR then
    if index <? 0 then Oops else
    name ← or_oops (ntc_name !! Z.to_nat index); t ← get_gadc_thermal_temp (k_adc k) (k_ntcs k) name; Ret (c, t)
  else if id =? VS_THERMAL_SENSOR_WIRELESS_CHG then Ret (vs_wpc_read_temp k c)
  else if id =? VS_THERMAL_SENSOR_CHARGER then Ret (get_charger_temp k c)
  else Ret (c, OFFLINE_TEMP).

(** ** The device tree *)

Record thermal_dev_params := mkParams {
  p_offset : Z; p_alpha : Z; p_weight : Z; select_device : Z; thermal_sensor_id : Z; aux_channel_num : Z }.
Record thermal_dev_node_names := mkNames {
  offset_name : string; offset_invert_name : string; alpha_name : string; weight_name : string; weight_invert_name : string;
  select_device_name : string; thermal_sensor_id_name : string; aux_channel_num_name : string }.

Definition thermal_sensor_node_names : thermal_dev_node_names :=
  mkNames "thermal_sensor,offset" "thermal_sensor,offset_invert" "thermal_sensor,alpha" "thermal_sensor,weight"
    "thermal_sensor,weight_invert" "select_device" "thermal_sensor_id" "aux_channel_num".

(** A property that cannot be read leaves the value. *)
Definition thermal_parse_node_int (np : device_node) (node_name : string) (cust_val : Z) : Z :=
  match of_property_read_u32 np node_name with inr v => s32 v | inl _ => cust_val end.

(** An empty name is not read; [params] is zeroed by its allocation. *)
Definition thermal_sensor_dt_to_params (np : device_node) (params : thermal_dev_params) (n : thermal_dev_node_names) : thermal_dev_params :=
  let offset := thermal_parse_node_int np (offset_name n) (p_offset params) in
  let alpha := thermal_parse_node_int np (alpha_name n) (p_alpha params) in
  let weight := thermal_parse_node_int np (weight_name n) (p_weight params) in
  let select := thermal_parse_node_int np (select_device_name n) (select_device params) in
  let id := thermal_parse_node_int np (thermal_sensor_id_name n) (thermal_sensor_id params) in
  let named s v old := if String.eqb s "" then old else thermal_parse_node_int np s v in
  let offset_invert := named (offset_invert_name n) 0 0 in
  let offset := if negb (offset_invert =? 0) then s32 (0 - offset) else offset in
  let weight_invert := named (weight_invert_name n) 0 0 in
  let weight := if negb (weight_invert =? 0) then s32 (0 - weight) else weight in
  let aux := named (aux_channel_num_name n) (aux_channel_num params) (aux_channel_num params) in
  mkParams offset alpha weight select id aux.
Definition zero_params : thermal_dev_params := mkParams 0 0 0 0 0 0.

(** ** The driver's devices *)

(** What a probe leaves of a platform device: its three objects (the driver
    data, the [thermal_dev] and its parameters) allocated or freed, its two files
    in place or not, and what they hold. *)
Record sensor := mkSensor {
  vs_live : bool; fw_live : bool; tdp_live : bool; file_params : bool; file_temp : bool; tdp : thermal_dev_params }.
Definition objects_live (s : sensor) : bool := vs_live s && fw_live s && tdp_live s.

(** The zones' lists ([vs_thermal_data]) of indices into the devices; the
    cached supplies. *)
Record sys := mkSys { vs_pdata : list (list nat); devs : list sensor; psys : psy_cache }.
Definition set_devs (y : sys) ds : sys := mkSys (vs_pdata y) ds (psys y).
Definition set_psys (y : sys) c : sys := mkSys (vs_pdata y) (devs y) c.

(** [init_vs_thermal_platform_data]: each compatible node with whether it and
    its parent are available. *)
Definition init_vs_thermal_platform_data (y : sys) (nodes : list (bool * bool)) (alloc : bool) : sys * Z :=
  let n := length (filter (fun a => Is_true (a.1 && a.2)) nodes) in
  if negb alloc then (mkSys [] (devs y) (psys y), - ENOMEM) else (mkSys (replicate n []) (devs y) (psys y), 0).

(** [thermal_dev_register] of the device [i]: an int is compared with the
    number of zones, so a negative one is taken. *)
Definition thermal_dev_register (zones : list (list nat)) (i : nat) (select : Z) : outcome (list (list nat)) :=
  let z := if select <? Z.of_nat (length zones) then select else 0 in
  if z <? 0 then Oops
  else l ← or_oops (zones !! Z.to_nat z); Ret (<[Z.to_nat z := l ++ [i]]> zones).

(** The answers to a probe: three allocations, two files. *)
Record sensor_env := mkSensorEnv { e_vs : bool; e_params : bool; e_fw : bool; e_file_params : bool; e_file_temp : bool }.

(** A failed file is only printed. *)
Definition virtual_sensor_thermal_sensor_probe (y : sys) (np : device_node) (e : sensor_env) : outcome (sys * Z) :=
  if negb (e_vs e) then Ret (y, - ENOMEM)
  else if negb (e_params e) then Ret (y, - ENOMEM)
  else if negb (e_fw e) then Ret (y, - ENOMEM)
  else
    let p := thermal_sensor_dt_to_params np zero_params thermal_sensor_node_names in
    zones ← thermal_dev_register (vs_pdata y) (length (devs y)) (select_device p);
    Ret (mkSys zones (devs y ++ [mkSensor true true true (e_file_params e) (e_file_temp e) p]) (psys y), 0).

(** The module's entry: [reg] is the registration's answer. *)
Definition virtual_sensor_thermal_sensor_init (y : sys) (nodes : list (bool * bool)) (alloc : bool) (reg : Z) : sys * Z :=
  let '(y, ret) := init_vs_thermal_platform_data y nodes alloc in
  if negb (ret =? 0) then (y, ret) else (y, reg).

(** [virtual_sensor_thermal_sensor_remove], one step after the other: the
    objects are freed, then the files removed; the zone's list keeps its node. *)
Inductive remove_step := FreeParams | FreeFw | FreeSensor | RemoveParams | RemoveTemp.
Definition remove_steps : list remove_step := [FreeParams; FreeFw; FreeSensor; RemoveParams; RemoveTemp].
Definition do_remove_step (s : sensor) (r : remove_step) : sensor :=
  match r with
  | FreeParams => mkSensor (vs_live s) (fw_live s) false (file_params s) (file_temp s) (tdp s)
  | FreeFw => mkSensor (vs_live s) false (tdp_live s) (file_params s) (file_temp s) (tdp s)
  | FreeSensor => mkSensor false (fw_live s) (tdp_live s) (file_params s) (file_temp s) (tdp s)
  | RemoveParams => mkSensor (vs_live s) (fw_live s) (tdp_live s) false (file_temp s) (tdp s)
  | RemoveTemp => mkSensor (vs_live s) (fw_live s) (tdp_live s) (file_params s) false (tdp s)
  end.
Definition virtual_sensor_thermal_sensor_remove (y : sys) (i : nat) : sys :=
  set_devs y (alter (fun s => foldl do_remove_step s remove_steps) i (devs y)).

(** ** Readings *)

Definition virtual_sensor_thermal_sensor_read_temp (k : kernel) (c : psy_cache) (s : sensor) : outcome (psy_cache * Z) :=
  if negb (fw_live s && tdp_live s) then Oops
  else vs_thermal_sensor_get_temp k c (thermal_sensor_id (tdp s)) (aux_channel_num (tdp s)).

(** The loop of the zone over its list ([list_for_each_entry]): the readings
    [VsZone.sense] takes. *)
Fixpoint read_list (k : kernel) (c : psy_cache) (ds : list sensor) (l : list nat) : outcome (psy_cache * list Z) :=
  match l with
  | [] => Ret (c, [])
  | i :: l =>
    s ← or_oops (ds !! i);
    '(c, t) ← virtual_sensor_thermal_sensor_read_temp k c s;
    '(c, ts) ← read_list k c ds l; Ret (c, t :: ts)
  end.
Definition zone_reads (k : kernel) (y : sys) (z : nat) : outcome (psy_cache * list Z) :=
  l ← or_oops (vs_pdata y !! z); read_list k (psys y) (devs y) l.

(** ** Attributes *)

(** A file's handler runs while the file is there. *)
Definition with_file {A} (file : sensor -> bool) (y : sys) (i : nat) (f : sensor -> outcome A) : option (outcome A) :=
  s ← devs y !! i; if file s then Some (if objects_live s then f s else Oops) else None.

Definition scnprintf (text : list Z) : list Z := snprintf BUF_SIZE text.

Definition virtual_sensor_thermal_sensor_show_temp (k : kernel) (y : sys) (i : nat) : option (outcome (psy_cache * list Z)) :=
  with_file file_temp y i (fun s =>
    '(c, t) ← vs_thermal_sensor_get_temp k (psys y) (thermal_sensor_id (tdp s)) (aux_channel_num (tdp s));
    Ret (c, scnprintf (pct_d t ++ [10]))).

Definition virtual_sensor_thermal_sensor_show_params (y : sys) (i : nat) : option (outcome (list Z)) :=
  with_file file_params y i (fun s =>
    Ret (scnprintf (str "offset=" ++ pct_d (p_offset (tdp s)) ++ str " alpha=" ++ pct_d (p_alpha (tdp s)) ++
                    str " weight=" ++ pct_d (p_weight (tdp s)) ++ [10]))).

(** The [%19s] of [vsscanf]: up to 19 characters that are no blanks, and the
    rest of the input. *)
Fixpoint scan_word (n : nat) (s : list Z) : list Z * list Z :=
  match n, s with
  | S n, c :: r => if isspace c then ([], s) else let '(w, r) := scan_word n r in (c :: w, r)
  | _, _ => ([], s)
  end.
(** [sscanf(buf, "%19s %d", param, &value) == 2]. *)
Definition sscanf_s_d (buf : list Z) : option (list Z * Z) :=
  match buf with
  | [] => None
  | _ => let '(w, r) := scan_word 19 (skip_spaces buf) in '(v, _) ← scan_d (skip_spaces r); Some (w, v)
  end.

(** The three comparisons follow each other; an unknown name changes nothing
    and is no error. *)
Definition store_param (p : thermal_dev_params) (param : list Z) (value : Z) : thermal_dev_params :=
  let p := if bool_decide (param = str "offset")
           then mkParams value (p_alpha p) (p_weight p) (select_device p) (thermal_sensor_id p) (aux_channel_num p) else p in
  let p := if bool_decide (param = str "alpha")
           then mkParams (p_offset p) value (p_weight p) (select_device p) (thermal_sensor_id p) (aux_channel_num p) else p in
  if bool_decide (param = str "weight")
  then mkParams (p_offset p) (p_alpha p) value (select_device p) (thermal_sensor_id p) (aux_channel_num p) else p.
Definition virtual_sensor_thermal_sensor_store_params (y : sys) (i : nat) (buf : list Z) : option (outcome (sys * Z)) :=
  with_file file_params y i (fun s =>
    match sscanf_s_d buf with
    | Some (param, value) =>
      Ret (set_devs y (<[i := mkSensor (vs_live s) (fw_live s) (tdp_live s) (file_params s) (file_temp s)
                                (store_param (tdp s) param value)]> (devs y)), Z.of_nat (length buf))
    | None => Ret (y, - EINVAL)
    end).

(** ** Specification *)

(** The zone a sensor belongs to, of [n]. *)
Definition zone_of (n : nat) (select : Z) : nat := if select <? Z.of_nat n then Z.to_nat select else 0%nat.

Definition node_params (np : device_node) : thermal_dev_params :=
  thermal_sensor_dt_to_params np zero_params thermal_sensor_node_names.

(** Probes in a row, all allocations granted. *)
Definition all_ok : sensor_env := mkSensorEnv true true true true true.
Fixpoint probe_nodes (y : sys) (nps : list device_node) : outcome sys :=
  match nps with
  | [] => Ret y
  | np :: nps => '(y, _) ← virtual_sensor_thermal_sensor_probe y np all_ok; probe_nodes y nps
  end.

(** The sensors from the [i]-th on that belong to zone [z], in order. *)
Fixpoint members (n z i : nat) (nps : list device_node) : list nat :=
  match nps with
  | [] => []
  | np :: nps => (if (zone_of n (select_device (node_params np)) =? z)%nat then [i] else []) ++ members n z (S i) nps
  end.

(** A parameter by name. *)
Definition get_param (p : thermal_dev_params) (name : list Z) : option Z :=
  if bool_decide (name = str "offset") then Some (p_offset p)
  else if bool_decide (name = str "alpha") then Some (p_alpha p)
  else if bool_decide (name = str "weight") then Some (p_weight p) else None.

(** ** Lemmas *)

Lemma register_spec zones i select :
  zones <> [] -> 0 <= select ->
  thermal_dev_register zones i select = Ret (alter (fun l => l ++ [i]) (zone_of (length zones) select) zones).
Proof.
  intros Hz Hs. unfold thermal_dev_register, zone_of.
  assert (Hn : (0 < length zones)%nat) by (destruct zones; [done|cbn; lia]).
  set (z := if select <? Z.of_nat (length zones) then select else 0).
  assert (Hzr : 0 <= z < Z.of_nat (length zones)) by (unfold z; destruct (Z.ltb_spec select (Z.of_nat (length zones))); lia).
  destruct (Z.ltb_spec z 0); [lia|].
  destruct (lookup_lt_is_Some_2 zones (Z.to_nat z)) as [l Hl]; [lia|]. rewrite Hl. cbn [or_oops mbind outcome_bind].
  replace (if select <? Z.of_nat (length zones) then Z.to_nat select else 0%nat) with (Z.to_nat z)
    by (unfold z; by destruct (select <? _)).
  f_equal. apply list_eq. intros j. destruct (decide (j = Z.to_nat z)) as [->|Hj].
  - by rewrite list_lookup_alter_eq, list_lookup_insert_eq, Hl by lia.
  - by rewrite list_lookup_alter_ne, list_lookup_insert_ne by done.
Qed.

Definition fresh_sensor (np : device_node) : sensor := mkSensor true true true true true (node_params np).

Lemma probe_nodes_spec nps : forall y,
  vs_pdata y <> [] -> Forall (fun np => 0 <= select_device (node_params np)) nps ->
  exists y', probe_nodes y nps = Ret y' /\ devs y' = devs y ++ (fresh_sensor <$> nps) /\ psys y' = psys y /\
    length (vs_pdata y') = length (vs_pdata y) /\
    forall z l, vs_pdata y !! z = Some l -> vs_pdata y' !! z = Some (l ++ members (length (vs_pdata y)) z (length (devs y)) nps).
Proof.
  induction nps as [|np nps IH]; intros y Hy Hs.
  { exists y. cbn. rewrite app_nil_r. split_and!; try done. intros z l. by rewrite app_nil_r. }
  apply list.Forall_cons in Hs as [Hnp Hs]. cbn [probe_nodes]. unfold virtual_sensor_thermal_sensor_probe. cbn [all_ok e_vs e_params e_fw negb].
  fold (node_params np). rewrite register_spec by done. cbn [mbind outcome_bind].
  set (zones := alter _ _ _). set (y1 := mkSys zones _ _).
  assert (Hlen : length zones = length (vs_pdata y)) by apply length_alter.
  destruct (IH y1) as (y' & E & Hd & Hp & Hl & Hz); [|done|].
  { intros E. apply (f_equal length) in E. cbn in E. rewrite Hlen in E. by destruct (vs_pdata y). }
  exists y'. split; [exact E|]. split; [|split; [done|split; [by rewrite Hl|]]].
  - rewrite Hd. cbn [y1 devs]. rewrite <- app_assoc. done.
  - intros z l Hzl. cbn [y1 vs_pdata devs] in Hz. rewrite Hlen, length_app, Nat.add_1_r in Hz. cbn [members].
    assert (Hz1 : zones !! z = Some (l ++ (if (zone_of (length (vs_pdata y)) (select_device (node_params np)) =? z)%nat then [length (devs y)] else []))).
    { unfold zones. rewrite list_lookup_alter. destruct (decide _) as [<-|Hne].
      - by rewrite Hzl, Nat.eqb_refl.
      - rewrite (proj2 (Nat.eqb_neq _ _) Hne), app_nil_r. done. }
    rewrite (Hz _ _ Hz1), <- app_assoc. done.
Qed.

(** No source waits for ever. *)
Lemma get_temp_no_block k c id index : vs_thermal_sensor_get_temp k c id index <> Blocks.
Proof.
  unfold vs_thermal_sensor_get_temp, get_pmic_thermal_temp, get_gadc_thermal_temp, pmic_get_temp, gadc_thermal_get_temp,
    gadc_thermal_adc_to_temp, pmic_raw_to_temp, mult_frac, or_oops.
  repeat case_match; cbn; try done; repeat case_match; done.
Qed.

Lemma read_list_freed k ds i s l : forall c,
  ds !! i = Some s -> fw_live s && tdp_live s = false -> i ∈ l -> read_list k c ds l = Oops.
Proof.
  induction l as [|j l IH]; intros c Hi Hs Hin; [by apply not_elem_of_nil in Hin|]. cbn [read_list].
  destruct (ds !! j) as [sj|] eqn:Ej; [|done]. cbn [or_oops mbind outcome_bind]. apply elem_of_cons in Hin as [<-|Hin].
  - rewrite Hi in Ej. injection Ej as <-. unfold virtual_sensor_thermal_sensor_read_temp. by rewrite Hs.
  - unfold virtual_sensor_thermal_sensor_read_temp. destruct (negb _); [done|].
    destruct (vs_thermal_sensor_get_temp k c _ _) as [[c' t]| |] eqn:E; [|by apply get_temp_no_block in E|done].
    cbn [mbind outcome_bind]. by rewrite (IH c').
Qed.

Lemma scan_word_name n w r : (length w <= n)%nat -> Forall (fun c => isspace c = false) w ->
  match r with [] => True | c :: _ => isspace c = true end -> scan_word n (w ++ r) = (w, r).
Proof.
  revert n. induction w as [|c w IH]; intros n Hn Hw Hr.
  - cbn [app]. destruct n, r as [|c r]; cbn; try done. by rewrite Hr.
  - destruct n; [cbn in Hn; lia|]. apply list.Forall_cons in Hw as [Hc Hw]. cbn [app scan_word]. rewrite Hc, IH; [done|cbn in Hn; lia|done|done].
Qed.

Lemma sscanf_param w v tl :
  w <> [] -> (length w <= 19)%nat -> Forall (fun c => isspace c = false) w ->
  -2147483648 <= v < 2147483648 -> number_end tl ->
  sscanf_s_d (w ++ 32 :: pct_d v ++ tl) = Some (w, v).
Proof.
  intros Hne Hl Hw Hv Htl. unfold sscanf_s_d. destruct w as [|c w]; [done|].
  pose proof Hw as [Hc _]%list.Forall_cons. cbn [app skip_spaces]. rewrite Hc.
  change (c :: w ++ 32 :: pct_d v ++ tl) with ((c :: w) ++ 32 :: pct_d v ++ tl). rewrite scan_word_name by done.
  cbn [skip_spaces]. change (isspace 32) with true. cbv iota.
  assert (Hd : skip_spaces (pct_d v ++ tl) = pct_d v ++ tl).
  { destruct (Z.lt_ge_cases v 0) as [Hn|Hp]; [by rewrite pct_d_neg|].
    destruct (pct_d_nonneg v Hp) as (ds & -> & (_ & Hds & _) & Hi & _). destruct ds as [|d ds]; [done|].
    apply list.Forall_cons in Hi as [Hi _]. cbn [app skip_spaces].
    replace (isspace d) with false; [done|]. unfold isdigit, isspace in *. symmetry.
    apply andb_true_iff in Hi as [H1 H2]. apply Z.leb_le in H1, H2. zcases; done || lia. }
  rewrite Hd, scan_d_pct_d by done. done.
Qed.

(** ** Theorems *)

(** From the device trees to the zones: once the zones were counted,
    every sensor is entered in the list of the zone its node selects, in the order
    of the probes, and in zone 0 if there is no such zone; a zone's list holds
    exactly its members. Without any zone, or for a node that selects a negative
    one, the first access is outside of the array. *)
Theorem register_by_zone y nodes nps :
  let n := length (filter (fun a => Is_true (a.1 && a.2)) nodes) in
  let y0 := (init_vs_thermal_platform_data y nodes true).1 in
  devs y = [] ->
  ((0 < n)%nat -> Forall (fun np => 0 <= select_device (node_params np)) nps ->
   exists y', probe_nodes y0 nps = Ret y' /\ devs y' = fresh_sensor <$> nps /\
     forall z, (z < n)%nat -> vs_pdata y' !! z = Some (members n z 0 nps)) /\
  (forall np e, e_vs e && e_params e && e_fw e = true -> n = 0%nat \/ select_device (node_params np) < 0 ->
   virtual_sensor_thermal_sensor_probe y0 np e = Oops).
Proof.
  intros n y0 Hd. split.
  - intros Hn Hs. destruct (probe_nodes_spec nps y0) as (y' & E & H1 & _ & _ & Hz); [|done|].
    { cbn. fold n. by destruct n; [lia|]. }
    exists y'. split; [done|]. split; [rewrite H1; cbn; by rewrite Hd|]. intros z Hzn.
    cbn in Hz. fold n in Hz. rewrite length_replicate, Hd in Hz. apply (Hz z []). by apply lookup_replicate_2.
  - intros np e He Hbad. unfold virtual_sensor_thermal_sensor_probe. fold (node_params np).
    apply andb_true_iff in He as [[-> ->]%andb_true_iff ->]. cbn [negb]. unfold thermal_dev_register.
    change (vs_pdata y0) with (replicate n (@nil nat)). clearbody n.
    rewrite length_replicate. destruct Hbad as [->|Hneg].
    + destruct (Z.ltb_spec (select_device (node_params np)) (Z.of_nat 0)); [|done].
      destruct (Z.ltb_spec (select_device (node_params np)) 0); [done|lia].
    + destruct (Z.ltb_spec (select_device (node_params np)) (Z.of_nat n)); [|lia].
      destruct (Z.ltb_spec (select_device (node_params np)) 0); [done|lia].
Qed.

(** The parameters attribute: writing one of the three names, a blank and
    a number, whatever follows that is no digit, sets this parameter to the number
    and leaves the others, and the attribute then shows the new values; any other
    name of up to 19 characters with a number is accepted and changes nothing. *)
Theorem params_roundtrip y i s w v tl :
  devs y !! i = Some s -> objects_live s = true -> file_params s = true ->
  w <> [] -> (length w <= 19)%nat -> Forall (fun c => isspace c = false) w ->
  -2147483648 <= v < 2147483648 -> number_end tl ->
  let buf := w ++ 32 :: pct_d v ++ tl in
  exists y' p', virtual_sensor_thermal_sensor_store_params y i buf = Some (Ret (y', Z.of_nat (length buf))) /\
    (forall nm, get_param p' nm = (if bool_decide (nm = w) then (fun _ => v) <$> get_param (tdp s) nm else get_param (tdp s) nm)) /\
    virtual_sensor_thermal_sensor_show_params y' i =
      Some (Ret (scnprintf (str "offset=" ++ pct_d (p_offset p') ++ str " alpha=" ++ pct_d (p_alpha p') ++
                            str " weight=" ++ pct_d (p_weight p') ++ [10]))) /\
    (get_param (tdp s) w = None -> y' = y).
Proof.
  intros Hi Hlive Hf Hne Hl Hw Hv Htl buf. unfold virtual_sensor_thermal_sensor_store_params, with_file.
  rewrite Hi. cbn [mbind option_bind]. rewrite Hf, Hlive. unfold buf. rewrite sscanf_param by done.
  set (s' := mkSensor _ _ _ _ _ (store_param (tdp s) w v)).
  eexists (set_devs y (<[i := s']> (devs y))), (store_param (tdp s) w v). split; [done|]. split; [|split].
  - intros nm. unfold get_param, store_param.
    destruct (decide (w = str "offset")) as [->|N1].
    { rewrite (bool_decide_true (str "offset" = str "offset")) by done. cbn.
      repeat case_bool_decide; cbn; try done; congruence. }
    destruct (decide (w = str "alpha")) as [->|N2].
    { cbn. repeat case_bool_decide; cbn; try done; congruence. }
    destruct (decide (w = str "weight")) as [->|N3].
    { cbn. repeat case_bool_decide; cbn; try done; congruence. }
    rewrite (bool_decide_false (w = str "offset")), (bool_decide_false (w = str "alpha")), (bool_decide_false (w = str "weight")) by done.
    repeat case_bool_decide; cbn; try done; congruence.
  - unfold virtual_sensor_thermal_sensor_show_params, with_file. cbn [set_devs devs].
    rewrite list_lookup_insert_eq by (by eapply lookup_lt_Some). cbn [mbind option_bind].
    change (file_params s') with true. change (objects_live s') with (objects_live s). by rewrite Hlive.
  - intros Hn. assert (E : s' = s).
    { unfold s', get_param, store_param in *. repeat case_bool_decide; try done. rewrite <- Hf. by destruct s. }
    rewrite E, list_insert_id by done. by destruct y.
Qed.

(** Removing a sensor frees its objects first: while its files are still
    there an access faults, after the third step and until they are removed one
    after the other; and nothing takes the sensor out of its zone's list, so that
    the next reading of the zone faults, whatever the other sensors are. *)
Theorem removed_sensor_faults k y i s z l :
  devs y !! i = Some s -> objects_live s = true -> file_params s = true -> file_temp s = true ->
  vs_pdata y !! z = Some l -> i ∈ l ->
  zone_reads k (virtual_sensor_thermal_sensor_remove y i) z = Oops /\
  forall n, (n <= 5)%nat ->
    let y' := set_devs y (<[i := foldl do_remove_step s (take n remove_steps)]> (devs y)) in
    virtual_sensor_thermal_sensor_show_params y' i =
      (if (4 <=? n)%nat then None else if (1 <=? n)%nat then Some Oops else virtual_sensor_thermal_sensor_show_params y i) /\
    (forall buf, (1 <= n)%nat -> virtual_sensor_thermal_sensor_store_params y' i buf = if (4 <=? n)%nat then None else Some Oops) /\
    ((1 <= n)%nat -> virtual_sensor_thermal_sensor_show_temp k y' i = if (5 <=? n)%nat then None else Some Oops).
Proof.
  intros Hi Hlive Hf1 Hf2 Hz Hin. split.
  - unfold zone_reads. cbn [virtual_sensor_thermal_sensor_remove set_devs vs_pdata devs psys]. rewrite Hz. cbn [or_oops mbind outcome_bind].
    eapply read_list_freed; [by rewrite list_lookup_alter_eq, Hi|done|done].
  - intros n Hn y'. unfold virtual_sensor_thermal_sensor_show_params, virtual_sensor_thermal_sensor_store_params,
      virtual_sensor_thermal_sensor_show_temp, with_file. cbn [y' set_devs devs].
    rewrite list_lookup_insert_eq by (by eapply lookup_lt_Some). cbn [mbind option_bind].
    unfold objects_live in *. destruct s as [a b c f1 f2 p]. cbn in Hlive, Hf1, Hf2. subst f1 f2.
    rewrite Hi. cbn [mbind option_bind file_params]. do 6 (destruct n as [|n]; [cbn; rewrite ?andb_false_r, ?Hlive; split_and!; done || lia|]). lia.
Qed.

(** ** Instances of the properties *)

Definition sensor_node (select : Z) : device_node :=
  {["select_device"%string := Some (be32_bytes select); "thermal_sensor_id"%string := Some (be32_bytes 1);
    "thermal_sensor,weight"%string := Some (be32_bytes 1000); "thermal_sensor,alpha"%string := Some (be32_bytes 20)]}.
Definition ex_kernel : kernel :=
  mkKernel (fun _ => true) (fun _ => Some 310) (fun _ => Some 1) (fun _ => inl 0) [] (fun _ => inl 0) (mkPmic 0 0 0 0 []) [].
Definition empty_sys : sys := mkSys [] [] (mkPsy false false false).

Lemma register_by_zone_witness :
  exists y', probe_nodes (init_vs_thermal_platform_data empty_sys [(true, true); (true, false); (true, true)] true).1
      [sensor_node 1; sensor_node 0; sensor_node 7; sensor_node 1] = Ret y' /\
    vs_pdata y' !! 0%nat = Some [1%nat; 2%nat] /\ vs_pdata y' !! 1%nat = Some [0%nat; 3%nat].
Proof.
  destruct (register_by_zone empty_sys [(true, true); (true, false); (true, true)]
    [sensor_node 1; sensor_node 0; sensor_node 7; sensor_node 1] eq_refl) as [H _].
  destruct H as (y' & E & _ & Hz); [vm_compute; lia|repeat constructor; vm_compute; discriminate|].
  exists y'. split; [exact E|]. split; [rewrite (Hz 0%nat) by (vm_compute; lia)|rewrite (Hz 1%nat) by (vm_compute; lia)];
    vm_compute; reflexivity.
Defined.

Definition ex_sys : sys := mkSys [[0%nat]] [fresh_sensor (sensor_node 0)] (mkPsy false false false).

Lemma params_roundtrip_witness :
  exists y' p', virtual_sensor_thermal_sensor_store_params ex_sys 0 (str "offset -1500" ++ [10]) = Some (Ret (y', 13)) /\
    get_param p' (str "offset") = Some (-1500) /\ get_param p' (str "weight") = Some 1000.
Proof.
  destruct (params_roundtrip ex_sys 0 (fresh_sensor (sensor_node 0)) (str "offset") (-1500) [10] eq_refl eq_refl eq_refl)
    as (y' & p' & E & Hp & _); [discriminate|vm_compute; lia|repeat constructor|lia|vm_compute; reflexivity|].
  exists y', p'. split; [exact E|]. rewrite !Hp. split; vm_compute; reflexivity.
Defined.

Lemma removed_sensor_faults_witness :
  zone_reads ex_kernel ex_sys 0 = Ret (mkPsy true false false, [31000]) /\
  zone_reads ex_kernel (virtual_sensor_thermal_sensor_remove ex_sys 0) 0 = Oops.
Proof.
  split; [vm_compute; reflexivity|].
  apply (removed_sensor_faults ex_kernel ex_sys 0 (fresh_sensor (sensor_node 0)) 0 [0%nat]); try reflexivity.
  by apply list_elem_of_singleton.
Defined.
