(* ===== verification/Sysrst.v ===== *)
(** * The system-reset cooler (drivers/thermal/sysrst_cooling.c)

    A cooling device with two states; entering state 1 reboots the system.
    Together with the governor of [VsGov] it makes a thermal reset. *)

From Stdlib Require Import String.
From stdpp Require Import base tactics numbers list option gmap strings.
From S2P Require Import Prelude Kstrtox Printf VsCooler VsGov Of.

(** ** The cooling device *)

(** The global state (an unsigned int) and the calls of [orderly_reboot]. *)
Record sysrst := mkSys { cl_dev_sysrst_state : Z; reboots : nat }.

Definition sysrst_cooling_get_max_state : Z := 1.
Definition sysrst_cooling_get_cur_state (w : sysrst) : Z := cl_dev_sysrst_state w.
Definition sysrst_cooling_set_cur_state (w : sysrst) (state : Z) : sysrst :=
  let st := u32 state in mkSys st (if st =? 1 then S (reboots w) else reboots w).

(** The device is the framework's number 0. *)
#[export] Instance sysrst_cooling : CoolingOps sysrst := {|
  co_max _ _ := sysrst_cooling_get_max_state;
  co_cur w i := match i with O => sysrst_cooling_get_cur_state w | _ => 0 end;
  co_set w i s := match i with O => Some (sysrst_cooling_set_cur_state w s) | _ => None end |}.

#[export] Instance sysrst_cooling_laws : CoolingLaws sysrst.
Proof.
  refine {| co_wf w := 0 <= cl_dev_sysrst_state w <= 1; co_dev _ i := i = O |}.
  - by intros w i Hw ->.
  - intros w i s Hw -> Hs. cbn in Hs. unfold sysrst_cooling_get_max_state in Hs.
    eexists. split; [reflexivity|]. cbn. rewrite u32_id by lia. split_and!; try done; lia || by intros [].
Defined.

(** ** The name of the device *)

Definition THERMAL_NAME_LENGTH : nat := 20.

(** The C string in a buffer; [None] if it is not terminated within it. *)
Fixpoint cstr (buf : list Z) : option (list Z) :=
  match buf with
  | [] => None
  | c :: buf => if c =? 0 then Some [] else (fun s => c :: s) <$> cstr buf
  end.

(** [strncpy] of [strlen] bytes: the terminator is not copied. *)
Definition sysrst_parse_node_string_index (np : device_node) (node_name : string) (index : Z) (cust_string : list Z)
    : option (list Z) :=
  match of_property_read_string_index np node_name index with
  | (0, Some s) => mem_put cust_string 0 s
  | _ => Some cust_string
  end.

(** [cl_dev_sysrst]. *)
Inductive cdev_ptr := CNull | CErr | CDev (type : list Z).

(** The buffer of the name is on the stack: [stale] is what it holds. The
    registration ([register]) answers with an error pointer, never with NULL. *)
Definition sysrst_cooling_probe (np : device_node) (stale : list Z) (register : list Z -> bool) : option (cdev_ptr * Z) :=
  type ← sysrst_parse_node_string_index np "type" 0 stale;
  name ← cstr type;
  let cl_dev_sysrst := if register name then CDev name else CErr in
  Some (cl_dev_sysrst, match cl_dev_sysrst with CNull => - EINVAL | _ => 0 end).

Definition sysrst_cooling_remove (p : cdev_ptr) : cdev_ptr := match p with CNull => CNull | _ => CNull end.

(** ** Specification *)

(** How often a sequence of states enters 1, from [cur] on. *)
Fixpoint entries (cur : Z) (states : list Z) : nat :=
  match states with
  | [] => O
  | s :: states => ((if negb (cur =? s)%Z && (s =? 1)%Z then 1 else 0) + entries s states)%nat
  end.
(** The states of the staircase at successive temperatures. *)
Fixpoint stair_states (ts : list trip_t) (n : nat) (cur : Z) (Ts : list Z) : list Z :=
  match Ts with
  | [] => []
  | T :: Ts => let s := stair_spec ts n 1 cur T in s :: stair_states ts n s Ts
  end.

(** ** Lemmas *)

Lemma zone_reboots z ts n : forall Ts (f : framework sysrst),
  one_device z ts n 0 f -> Forall (fun T => 0 <= T < 2147483648) Ts ->
  exists f', zone_updates z (seq 0 n) f Ts = Some f' /\
    reboots (devices f') = (reboots (devices f) + entries (cl_dev_sysrst_state (devices f))
                              (stair_states ts n (cl_dev_sysrst_state (devices f)) Ts))%nat.
Proof.
  induction Ts as [|T Ts IH]; intros f Hone HTs; [exists f; split; [done|cbn; lia]|].
  apply list.Forall_cons in HTs as [HT HTs]. cbn [zone_updates].
  destruct (one_device_update z ts n 0 f T Hone) as (f1 & -> & H1 & Hc & _ & _ & Hs).
  cbn [mbind option_bind]. destruct (IH f1 H1 HTs) as (f' & E' & R'). exists f'. split; [exact E'|]. rewrite R'.
  rewrite (stair_stair_spec ts n T) in Hc by (done || apply Hone). cbn [co_cur sysrst_cooling co_max] in Hc, Hs.
  unfold sysrst_cooling_get_cur_state, sysrst_cooling_get_max_state in *. cbn [stair_states entries]. rewrite <- Hc in *.
  destruct (Z.eqb_spec (cl_dev_sysrst_state (devices f)) (cl_dev_sysrst_state (devices f1))) as [E|E]; cbn [negb andb].
  - by rewrite Hs.
  - injection Hs as Hs. pose proof (proj1 (proj2 (proj2 (proj2 (proj2 (proj2 H1)))))) as Hwf. cbn in Hwf.
    rewrite <- Hs at 1. unfold sysrst_cooling_set_cur_state. rewrite u32_id by lia. cbn [reboots].
    destruct (_ =? 1); lia.
Qed.

(** The first trip decides about state 1. *)
Lemma stair_states_hot ts n t0 : forall Ts cur,
  ascending ts -> ts !! 0%nat = Some t0 -> (0 < n)%nat -> 0 <= cur <= 1 ->
  Forall (fun s => 0 <= s <= 1) (stair_states ts n cur Ts) /\
  (cur = 0 -> (0 < entries cur (stair_states ts n cur Ts))%nat <-> Exists (fun T => temp t0 <= T) Ts).
Proof.
  induction Ts as [|T Ts IH]; intros cur Ha Ht Hn Hcur; [split; [constructor|cbn; rewrite Exists_nil; lia]|].
  cbn [stair_states entries].
  assert (Hw : 0 <= Z.min (wanted ts n T) 1 <= 1 /\ (Z.min (wanted ts n T) 1 = 1 <-> temp t0 <= T)).
  { unfold wanted. split; [lia|]. destruct n as [|n]; [lia|]. destruct ts as [|t1 ts]; [done|]. injection Ht as ->. cbn [take].
    destruct (decide (temp t0 <= T)) as [Hle|Hgt].
    - rewrite filter_cons_True by done. cbn [length]. split; [done|lia].
    - rewrite list_filter_none; [cbn; lia|]. apply Forall_lookup_2. intros i x Hi.
      assert (Hx : (t0 :: ts) !! i = Some x).
      { change (t0 :: take n ts) with (take (S n) (t0 :: ts)) in Hi. apply lookup_take_Some in Hi. apply Hi. }
      pose proof (Ha 0%nat i t0 x ltac:(lia) ltac:(done) Hx). lia. }
  destruct Hw as [Hr Hw].
  assert (Hs : 0 <= stair_spec ts n 1 cur T <= 1).
  { unfold stair_spec. destruct (Z.ltb_spec (Z.min (wanted ts n T) 1) cur); [|lia].
    destruct (ts !! Z.to_nat (cur - 1)) as [t|]; [destruct (_ <=? _)|]; lia. }
  destruct (IH (stair_spec ts n 1 cur T) Ha Ht Hn Hs) as [H1 H2]. split; [by constructor|].
  intros ->. rewrite Exists_cons.
  assert (E : stair_spec ts n 1 0 T = Z.min (wanted ts n T) 1).
  { unfold stair_spec. destruct (Z.ltb_spec (Z.min (wanted ts n T) 1) 0); [lia|done]. }
  destruct (decide (temp t0 <= T)) as [Hle|Hgt].
  - assert (E1 : stair_spec ts n 1 0 T = 1) by (rewrite E; by apply Hw). rewrite E1. cbn. split; [by left|lia].
  - assert (E0 : stair_spec ts n 1 0 T = 0) by (rewrite E; lia). rewrite E0 in *. cbn [Z.eqb negb andb Nat.add].
    rewrite H2 by done. split; [by right|by intros [?|?]].
Qed.

Lemma cstr_app s l : Forall (fun c => c <> 0) s -> cstr (s ++ l) = (fun t => s ++ t) <$> cstr l.
Proof.
  induction 1 as [|c s Hc _ IH]; cbn; [by destruct (cstr l)|]. destruct (Z.eqb_spec c 0); [done|].
  rewrite IH. by destruct (cstr l).
Qed.

(** ** Properties *)

(** C39. The thermal reset: a zone governed onto the reset cooler alone, from
    state 0, asks for a reboot if and only if some temperature reaches its
    first trip, once for every time the state climbs from 0 to 1. *)
Theorem thermal_reset_exact z ts t0 n f Ts :
  one_device z ts n 0 f -> ts !! 0%nat = Some t0 -> Forall (fun T => 0 <= T < 2147483648) Ts ->
  cl_dev_sysrst_state (devices f) = 0 -> reboots (devices f) = O ->
  exists f', zone_updates z (seq 0 n) f Ts = Some f' /\
    reboots (devices f') = entries 0 (stair_states ts n 0 Ts) /\
    ((0 < reboots (devices f'))%nat <-> Exists (fun T => temp t0 <= T) Ts).
Proof.
  intros Hone Ht HTs Hs Hr. destruct (zone_reboots z ts n Ts f Hone HTs) as (f' & E & R). exists f'.
  rewrite Hr, Hs in R. cbn in R. split; [done|]. split; [done|]. rewrite R.
  destruct Hone as (_ & _ & Hn & _ & Ha & _). by apply (stair_states_hot ts n t0 Ts 0 Ha Ht); [lia|lia|].
Qed.

(** The name of the device is not terminated: a device-tree name that fits
    is followed in the stack buffer by whatever was there, so that the name
    registered is the one of the device tree exactly if the byte after it
    happens to be 0; and a name of more than 20 bytes is copied over the end
    of the buffer. *)
Theorem cooler_name_unterminated np s stale register :
  of_find_property np "type" = Some (Some (strings_value [s])) -> c_string s -> length stale = THERMAL_NAME_LENGTH ->
  sysrst_cooling_probe np stale register =
    (if (THERMAL_NAME_LENGTH <? length s)%nat then None
     else name ← (fun t => s ++ t) <$> cstr (drop (length s) stale);
          Some (if register name then CDev name else CErr, 0)).
Proof.
  intros Hp Hs Hl. unfold sysrst_cooling_probe, sysrst_parse_node_string_index.
  pose proof (read_string_index_ok np "type" [s] 0 s Hp ltac:(by constructor) eq_refl) as Hr. change (Z.of_nat 0) with 0 in Hr. rewrite Hr.
  unfold mem_put. destruct (Nat.ltb_spec THERMAL_NAME_LENGTH (length s)).
  - rewrite Hl. destruct (Z.leb_spec (0 + Z.of_nat (length s)) (Z.of_nat THERMAL_NAME_LENGTH)); [lia|]. done.
  - rewrite Hl. destruct (Z.leb_spec (0 + Z.of_nat (length s)) (Z.of_nat THERMAL_NAME_LENGTH)); [|lia].
    cbn [Z.leb Z.compare andb mbind option_bind]. change (Z.to_nat 0) with O. rewrite take_0. cbn [app Nat.add].
    rewrite cstr_app by exact Hs. destruct (cstr _); [|done]. cbn. by destruct (register _).
Qed.

(** ** The properties at concrete inputs *)

Definition ex_reset_zone : zone := mkZone 0 1 0 (Some [mkTrip 95000 5000]).
Definition ex_reset_fw : framework sysrst :=
  mkFw [mkInst 0 0 0 None] (fun _ => [0%nat]) (fun _ => true) (mkSys 0 0) [].

Lemma ex_reset_one : one_device ex_reset_zone [mkTrip 95000 5000] 1 0 ex_reset_fw.
Proof.
  split_and!; try done; cbn; try lia.
  - repeat constructor; cbn; lia.
  - intros i j ti tj _ Hi Hj. destruct i as [|[]], j as [|[]]; try done. cbn in *. injection Hi as <-. injection Hj as <-. done.
  - intros k Hk. destruct k; [|lia]. by eexists.
Qed.

Lemma thermal_reset_exact_witness :
  exists f', zone_updates ex_reset_zone [0%nat] ex_reset_fw [94000; 95000; 91000; 89000; 96000] = Some f' /\
    reboots (devices f') = 2%nat.
Proof.
  destruct (thermal_reset_exact ex_reset_zone [mkTrip 95000 5000] (mkTrip 95000 5000) 1 ex_reset_fw
              [94000; 95000; 91000; 89000; 96000] ex_reset_one eq_refl ltac:(repeat constructor; lia) eq_refl eq_refl)
    as (f' & E & R & _).
  exists f'. split; [exact E|]. rewrite R. reflexivity.
Defined.

Lemma cooler_name_unterminated_witness :
  sysrst_cooling_probe {[ "type"%string := Some (str "reset" ++ [0]) ]} (replicate 10 65 ++ replicate 10 0) (fun _ => true)
  = Some (CDev (str "resetAAAAA"), 0).
Proof.
  rewrite (cooler_name_unterminated _ (str "reset")); [reflexivity|reflexivity|by apply str_nonzero_all|reflexivity].
Defined.
