(* ===== verification/BatteryMetrics.v ===== *)
(** * Battery metrics (drivers/power/supply/battery_metrics.c)

    The battery and charger drivers report events here; the driver keeps what
    it reported last, the screen and suspend states, and passes records on to
    the metrics logs. A critical battery marks the special mode of the next
    boot ([LifeCycle]). Modelled as the shipped configuration builds it: both
    metrics logs, the sign of life and the screen notifier. *)

From Stdlib Require Import String.
From stdpp Require Import base tactics numbers list option.
From S2P Require Import Prelude Kstrtox Printf Rtc SignOfLife LifeCycle.

Definition BATTERY_METRICS_BUFF_SIZE : Z := 1024.
Definition BATTERY_METRICS_EVENT_SIZE : Z := 128.
Definition SCREEN_OFF : Z := 0.
Definition SCREEN_ON : Z := 1.
Definition SUSPEND_RESUME_INTEVAL_MIN : Z := 30.
Definition BCM_FLAG_CHARGE_TIMER : Z := 1.
Definition BCM_FLAG_SECONDARY_THERMAL : Z := 2.
Definition POWER_SUPPLY_STATUS_CHARGING : Z := 1.
Definition POWER_SUPPLY_TYPE_WIRELESS_10W : Z := 18.
Definition GAUGE_HW_V1000 : Z := 1000.
Definition GAUGE_HW_V2000 : Z := 2000.

(** ** Around the driver *)

(** The properties of the gauge it reads. *)
Inductive gauge_property :=
| GAUGE_PROP_BATTERY_VOLTAGE | GAUGE_PROP_HW_VERSION | GAUGE_PROP_AVERAGE_CURRENT | GAUGE_PROP_COULOMB
| GAUGE_PROP_BATTERY_CURRENT.

(** What it reads of [struct mtk_battery]. *)
Record mtk_battery := mkGm {
  ui_soc : Z; soc : Z; cur_bat_temp : Z; bat_batt_vol : Z; sw_iavg : Z; tbat_precise : Z; disableGM30 : bool }.

(** The battery, the gauge's attributes ([None] without a table, a property
    whose entry is another one's unset) and the boot time (s, ns). *)
Record world := mkWorld { w_gm : mtk_battery; w_attr : option (gauge_property -> option Z); w_now : Z * Z }.

(** The records passed on: the text for the metrics log; the battery schema and
    the adapter schema of the Minerva log; a counter for the vitals log (event,
    key, value, unit, dimensions). *)
Inductive log_call :=
| LogMetrics (domain : string) (text : list Z)
| LogMinerva (g : mtk_battery) (iavg : Z) (event : list Z)
| LogAdapter (adapter_power_mw aicl_ma : Z)
| LogVitals (event : string) (key : option string) (value : Z) (unit : string) (dimensions : list Z).

(** ** State *)

Record screen_state_t := mkScreen {
  screen_on_time : Z * Z; screen_off_time : Z * Z; screen_on_soc : Z; screen_off_soc : Z; screen_state : Z }.
Record pm_state := mkPm {
  suspend_ts : Z * Z; resume_ts : Z * Z; suspend_soc : Z; resume_soc : Z; suspend_bat_car : Z; resume_bat_car : Z }.
Record iavg_data := mkIavg { last_ts : Z * Z; pre_bat_car : Z; pre_screen_state : Z }.

(** [struct bat_metrics_data]; [gm_set] whether [gm] and [gauge] are not NULL,
    [queued] whether the work is queued. *)
Record bat_metrics_data := mkBat {
  is_top_off_mode : bool; metrics_psy_ready : bool; fault_type_old : Z; chg_sts_old : Z; bcm_flag_old : Z;
  aging_old : Z * Z * Z; gm_set : bool; iavg : iavg_data; screen : screen_state_t; pm : pm_state; queued : bool }.

Definition bat_zero : bat_metrics_data :=
  mkBat false false 0 0 0 (0, 0, 0) false (mkIavg (0, 0) 0 0) (mkScreen (0, 0) (0, 0) 0 0 0) (mkPm (0, 0) (0, 0) 0 0 0 0) false.

Definition set_top_off d v : bat_metrics_data :=
  mkBat v (metrics_psy_ready d) (fault_type_old d) (chg_sts_old d) (bcm_flag_old d) (aging_old d) (gm_set d) (iavg d) (screen d) (pm d) (queued d).
Definition set_fault d v : bat_metrics_data :=
  mkBat (is_top_off_mode d) (metrics_psy_ready d) v (chg_sts_old d) (bcm_flag_old d) (aging_old d) (gm_set d) (iavg d) (screen d) (pm d) (queued d).
Definition set_chg_sts d v : bat_metrics_data :=
  mkBat (is_top_off_mode d) (metrics_psy_ready d) (fault_type_old d) v (bcm_flag_old d) (aging_old d) (gm_set d) (iavg d) (screen d) (pm d) (queued d).
Definition set_bcm d v : bat_metrics_data :=
  mkBat (is_top_off_mode d) (metrics_psy_ready d) (fault_type_old d) (chg_sts_old d) v (aging_old d) (gm_set d) (iavg d) (screen d) (pm d) (queued d).
Definition set_aging d v : bat_metrics_data :=
  mkBat (is_top_off_mode d) (metrics_psy_ready d) (fault_type_old d) (chg_sts_old d) (bcm_flag_old d) v (gm_set d) (iavg d) (screen d) (pm d) (queued d).
Definition set_iavg d v q : bat_metrics_data :=
  mkBat (is_top_off_mode d) (metrics_psy_ready d) (fault_type_old d) (chg_sts_old d) (bcm_flag_old d) (aging_old d) (gm_set d) v (screen d) (pm d) q.
Definition set_screen d v : bat_metrics_data :=
  mkBat (is_top_off_mode d) (metrics_psy_ready d) (fault_type_old d) (chg_sts_old d) (bcm_flag_old d) (aging_old d) (gm_set d) (iavg d) v (pm d) (queued d).
Definition set_pm d v : bat_metrics_data :=
  mkBat (is_top_off_mode d) (metrics_psy_ready d) (fault_type_old d) (chg_sts_old d) (bcm_flag_old d) (aging_old d) (gm_set d) (iavg d) (screen d) v (queued d).

(** The new state, the records and the result; a NULL or wild pointer is an
    oops. *)
Definition step : Type := outcome (bat_metrics_data * list log_call * Z).

(** ** Logging *)

Definition bat_metrics_log (domain : string) (text : list Z) : log_call :=
  LogMetrics domain (snprintf BATTERY_METRICS_BUFF_SIZE text).
(** The event's text goes through a buffer of its own; then [gm] is read. *)
Definition bat_metrics_minerva_log (d : bat_metrics_data) (w : world) (event : list Z) : outcome log_call :=
  if gm_set d then Ret (LogMinerva (w_gm w) (Z.quot (sw_iavg (w_gm w)) 10) event) else Oops.
Definition bat_minerva_log (d : bat_metrics_data) (w : world) (text : list Z) : outcome log_call :=
  bat_metrics_minerva_log d w (snprintf (BATTERY_METRICS_EVENT_SIZE - 1) text).

(** ** Gauge *)

Definition metrics_get_property (d : bat_metrics_data) (w : world) (gp : gauge_property) : Z + Z :=
  if negb (metrics_psy_ready d) then inr (- ENODEV)
  else match w_attr w with
       | None => inr (- ENODEV)
       | Some attr => match attr gp with Some v => inl v | None => inr (-524) end
       end.
Definition metrics_get_int_property d w gp : Z := match metrics_get_property d w gp with inl v => v | inr _ => 0 end.

Definition metrics_get_average_current (d : bat_metrics_data) (w : world) : Z :=
  if negb (metrics_psy_ready d) then - ENODEV else
  let ver := metrics_get_int_property d w GAUGE_PROP_HW_VERSION in
  if disableGM30 (w_gm w) then 0
  else if (GAUGE_HW_V1000 <=? ver) && (ver <? GAUGE_HW_V2000) then sw_iavg (w_gm w)
  else metrics_get_int_property d w GAUGE_PROP_AVERAGE_CURRENT.

(** ** Events *)

Definition power_category : list Z := [5000; 7500; 9000; 12000; 15000].
Definition category_text : list string := ["5W"; "7.5W"; "9W"; "12W"; "15W"]%string.
Definition charger_fault_text : list string := ["NONE"; "VBUS_OVP"; "VBAT_OVP"; "SAFETY_TIMEOUT"]%string.
Definition charger_type_text : list string :=
  ["UNKNOWN"; "BATTERY"; "UPS"; "MAINS"; "USB"; "USB_DCP"; "USB_CDP"; "USB_ACA"; "USB_TYPE_C"; "USB_PD"; "USB_PD_DRP";
   "APPLE_BRICK_ID"; "WIRELESS"; "USB_HVDCP"; "USB_HVDCP_3"; "USB_HVDCP_3P5"; "USB_FLOAT"; "WIRELESS_5W"; "WIRELESS_10W"]%string.

(** An element of a table of texts; outside of it the pointer is wild. *)
Definition text_at (table : list string) (i : Z) : outcome (list Z) := or_oops (str <$> table !! Z.to_nat i).

(** [aicl_ma] is unsigned: the test for a negative value never holds. *)
Definition bat_metrics_adapter_power (d : bat_metrics_data) (type aicl_ma : Z) : step :=
  if Z.of_nat (length category_text) <=? type then Ret (d, [], 0) else
  t ← text_at category_text type;
  Ret (d, [bat_metrics_log "battery" (str "adapter_power:def:adapter_" ++ t ++ str "=1;CT;1,aicl=" ++ pct_d (s32 aicl_ma) ++ str ";CT;1:NR");
           LogAdapter (power_category !!! Z.to_nat type) (s32 aicl_ma)], 0).

Definition bat_metrics_chg_fault (d : bat_metrics_data) (w : world) (fault_type : Z) : step :=
  if fault_type_old d =? fault_type then Ret (d, [], 0) else
  let d := set_fault d fault_type in
  if fault_type =? 0 then Ret (d, [], 0) else
  t ← text_at charger_fault_text fault_type;
  m ← bat_minerva_log d w (str "charger_fault_type_" ++ t);
  Ret (d, [bat_metrics_log "battery" (str "charger:def:charger_fault_type_" ++ t ++ str "=1;CT;1:NA"); m], 0).

Definition bat_metrics_bcm_flag (d : bat_metrics_data) (w : world) (bcm_flag : Z) : step :=
  if bcm_flag_old d =? bcm_flag then Ret (d, [], 0) else
  let d := set_bcm d bcm_flag in
  let report t :=
    m ← bat_minerva_log d w (str "bcm_flag_" ++ str t);
    Ret (d, [bat_metrics_log "battery" (str "battery:def:bcm_flag_" ++ str t ++ str "=1;CT;1:NA"); m], 0) in
  if bcm_flag =? BCM_FLAG_CHARGE_TIMER then report "charge_timer"%string
  else if bcm_flag =? BCM_FLAG_SECONDARY_THERMAL then report "secondary_thermal"%string
  else Ret (d, [], 0).

Definition bat_metrics_chrdet (d : bat_metrics_data) (w : world) (chr_type : Z) : step :=
  if (0 <? chr_type) && (chr_type <=? POWER_SUPPLY_TYPE_WIRELESS_10W) then
    t ← text_at charger_type_text chr_type;
    m ← bat_minerva_log d w (str "chg_type_" ++ t);
    Ret (d, [bat_metrics_log "USBCableEvent" (str "bat_metrics_chrdet:charger:chg_type_" ++ t ++ str "=1;CT;1:NR"); m], 0)
  else Ret (d, [], 0).

Definition bat_metrics_chg_state (d : bat_metrics_data) (w : world) (chg_sts : Z) : step :=
  if negb (metrics_psy_ready d) then Ret (d, [], - ENODEV)
  else if chg_sts_old d =? chg_sts then Ret (d, [], 0)
  else
    let vbat := metrics_get_int_property d w GAUGE_PROP_BATTERY_VOLTAGE in
    let ibat_avg := metrics_get_average_current d w in
    let d := set_chg_sts d chg_sts in
    let t := str (if chg_sts =? POWER_SUPPLY_STATUS_CHARGING then "CHARGING" else "DISCHARGING") in
    m ← bat_minerva_log d w (str "POWER_STATUS_" ++ t);
    Ret (d, [bat_metrics_log "battery" (str "charger:def:POWER_STATUS_" ++ t ++ str "=1;CT;1,cap=" ++ pct_d (u32 (soc (w_gm w))) ++
               str ";CT;1,mv=" ++ pct_d vbat ++ str ";CT;1,current_avg=" ++ pct_d ibat_avg ++ str ";CT;1:NR"); m], 0).

Definition bat_metrics_top_off_mode (d : bat_metrics_data) (w : world) (is_on : bool) : step :=
  if negb (metrics_psy_ready d) then Ret (d, [], - ENODEV)
  else if Bool.eqb (is_top_off_mode d) is_on then Ret (d, [], 0)
  else
    let vbat := metrics_get_int_property d w GAUGE_PROP_BATTERY_VOLTAGE in
    let d := set_top_off d is_on in
    if is_on then
      m ← bat_minerva_log d w (str "Charging_Over_7days");
      Ret (d, [bat_metrics_log "battery" (str "battery:def:Charging_Over_7days=1;CT;1,Bat_Vol=" ++ pct_d vbat ++ str ";CT;1,UI_SOC=" ++
                 pct_d (ui_soc (w_gm w)) ++ str ";CT;1,SOC=" ++ pct_d (soc (w_gm w)) ++ str ";CT;1,Bat_Temp=" ++
                 pct_d (tbat_precise (w_gm w)) ++ str ";CT;1:NA"); m], 0)
    else Ret (d, [], 0).

Definition quoted (s : string) : list Z := [34] ++ str s ++ [34].
Definition quoted_d (v : Z) : list Z := [34] ++ pct_d v ++ [34].

Definition bat_metrics_aging (d : bat_metrics_data) (aging_factor bat_cycle qmax : Z) : step :=
  if bool_decide (aging_old d = (aging_factor, bat_cycle, qmax)) then Ret (d, [], 0) else
  let d := set_aging d (aging_factor, bat_cycle, qmax) in
  let dimensions_buf := snprintf 128 (quoted "aging_factor" ++ str "#" ++ quoted_d (Z.quot aging_factor 100) ++ str "$" ++
                                      quoted "bat_cycle" ++ str "#" ++ quoted_d bat_cycle) in
  Ret (d, [bat_metrics_log "battery" (str "battery:def:aging_factor=" ++ pct_d (Z.quot aging_factor 100) ++ str ";CT;1,bat_cycle=" ++
             pct_d bat_cycle ++ str ";CT;1,qmax=" ++ pct_d (Z.quot qmax 10) ++ str ";CT;1:NA");
           LogVitals "aging" None (Z.quot qmax 10) "rate" dimensions_buf], 0).

Definition bat_metrics_invalid_charger (d : bat_metrics_data) (w : world) : step :=
  m ← bat_minerva_log d w (str "invalid_charger");
  Ret (d, [bat_metrics_log "battery" (str "battery:def:invalid_charger=1;CT;1:NA"); m], 0).

(** With the metrics log built in, the Minerva branch is not compiled. *)
Definition bat_metrics_dpm_eoc_mode (d : bat_metrics_data) (w : world) (vcharge : Z) : step :=
  if negb (gm_set d) then Oops else
  Ret (d, [bat_metrics_log "battery" (str "battery:def:dpm_eoc=1;CT;1,Bat_Vol=" ++
             pct_d (metrics_get_int_property d w GAUGE_PROP_BATTERY_VOLTAGE) ++ str ";CT;1,UI_SOC=" ++ pct_d (ui_soc (w_gm w)) ++
             str ";CT;1,SOC=" ++ pct_d (soc (w_gm w)) ++ str ";CT;1,Vcharge=" ++ pct_d (Z.quot vcharge 1000) ++ str ";CT;1:NA")], 0).

(** The mark of the next boot comes after the records. *)
Definition bat_metrics_critical_shutdown {S} `{LcrRtc S} (d : bat_metrics_data) (w : world) (l : driver (lcr_platform S))
    : outcome (driver (lcr_platform S) * list log_call) :=
  m ← bat_minerva_log d w (str "critical_shutdown");
  Ret ((life_cycle_set_special_mode l LIFE_CYCLE_SMODE_LOW_BATTERY).1,
       [bat_metrics_log "battery" (str "battery:def:critical_shutdown=1;CT;1:HI"); m]).

(** What mtk_battery.c does when the battery is empty for too long: the report,
    then [kernel_power_off], whose notifiers include the sign of life's. *)
Definition battery_shutdown {S} `{LcrRtc S} (d : bat_metrics_data) (w : world) (l : driver (lcr_platform S))
    : outcome (driver (lcr_platform S) * list log_call) :=
  '(l, logs) ← bat_metrics_critical_shutdown d w l;
  Ret ((life_cycle_reboot_notifier l SYS_POWER_OFF).1, logs).

(** ** Screen *)

(** [timespec64_sub] of normalised times, and the milliseconds. *)
Definition timespec64_sub (a b : Z * Z) : Z * Z :=
  if a.2 - b.2 <? 0 then (a.1 - b.1 - 1, a.2 - b.2 + 1000000000) else (a.1 - b.1, a.2 - b.2).
Definition elaps_msec (diff : Z * Z) : Z := diff.1 * 1000 + Z.quot diff.2 1000000.

(** The records of one drain. *)
Definition drain_logs (key : string) (diff_soc elapsed : Z) : list log_call :=
  [bat_metrics_log "drain_metrics" (str key ++ str ":def:value=" ++ pct_d diff_soc ++ str ";CT;1,elapsed=" ++ pct_d elapsed ++ str ";TI;1:NR");
   LogVitals "drain" (Some key) elapsed "ms" (snprintf 128 (quoted "diff_soc" ++ str "#" ++ quoted_d diff_soc))].

Definition bat_metrics_screen_on (d : bat_metrics_data) (w : world) : bat_metrics_data * list log_call * Z :=
  if negb (metrics_psy_ready d) then (d, [], - ENODEV) else
  let s := screen d in
  let soc := soc (w_gm w) in
  let logs :=
    if (screen_on_soc s =? -1) || (screen_off_soc s =? -1) then []
    else drain_logs "screen_off_drain" (screen_off_soc s - soc) (elaps_msec (timespec64_sub (w_now w) (screen_off_time s))) in
  (set_screen d (mkScreen (w_now w) (screen_off_time s) soc (screen_off_soc s) SCREEN_ON), logs, 0).

Definition bat_metrics_screen_off (d : bat_metrics_data) (w : world) : bat_metrics_data * list log_call * Z :=
  if negb (metrics_psy_ready d) then (d, [], - ENODEV) else
  let s := screen d in
  let soc := soc (w_gm w) in
  let logs :=
    if (screen_on_soc s =? -1) || (screen_off_soc s =? -1) then []
    else drain_logs "screen_on_drain" (screen_on_soc s - soc) (elaps_msec (timespec64_sub (w_now w) (screen_on_time s))) in
  (set_screen d (mkScreen (screen_on_time s) (w_now w) (screen_on_soc s) soc SCREEN_OFF), logs, 0).

Definition FB_EVENT_BLANK : Z := 9.
Definition FB_BLANK_UNBLANK : Z := 0.
Definition FB_BLANK_POWERDOWN : Z := 4.

(** [blank]: the event's data, if it has any. *)
Definition pm_notifier_callback (d : bat_metrics_data) (w : world) (event : Z) (blank : option Z)
    : bat_metrics_data * list log_call :=
  match blank with
  | Some blank =>
    if event =? FB_EVENT_BLANK then
      if blank =? FB_BLANK_UNBLANK then (bat_metrics_screen_on d w).1
      else if blank =? FB_BLANK_POWERDOWN then (bat_metrics_screen_off d w).1
      else (d, [])
    else (d, [])
  | None => (d, [])
  end.

(** ** Suspend, the periodic work *)

Definition bat_metrics_suspend (d : bat_metrics_data) (w : world) : bat_metrics_data :=
  set_pm d (mkPm (w_now w) (resume_ts (pm d)) (suspend_soc (pm d)) (resume_soc (pm d)) (metrics_get_int_property d w GAUGE_PROP_COULOMB) (resume_bat_car (pm d))).

(** A sleep of less than 30 s leaves -1 for the charge. *)
Definition bat_metrics_resume (d : bat_metrics_data) (w : world) : bat_metrics_data :=
  let p := pm d in
  let sleep_ts := timespec64_sub (w_now w) (suspend_ts p) in
  let resume_bat_car := if sleep_ts.1 <? SUSPEND_RESUME_INTEVAL_MIN then -1
                        else metrics_get_int_property d w GAUGE_PROP_COULOMB in
  set_pm d (mkPm (suspend_ts p) (w_now w) (suspend_soc p) (resume_soc p) (suspend_bat_car p) resume_bat_car).

(** The average current is only printed, but computed: a difference of less
    than a second divides by 0. *)
Definition bat_metrics_work (d : bat_metrics_data) (w : world) : outcome bat_metrics_data :=
  let i := iavg d in
  let state := screen_state (screen d) in
  let bat_car := metrics_get_int_property d w GAUGE_PROP_COULOMB in
  let again := Ret (set_iavg d (mkIavg (w_now w) bat_car state) true) in
  if pre_bat_car i =? -1 then again
  else if negb (state =? pre_screen_state i) then again
  else if (timespec64_sub (w_now w) (last_ts i)).1 =? 0 then Oops else again.

(** ** Initialisation *)

(** The two power supplies are found or not. *)
Definition bat_metrics_init (d : bat_metrics_data) (gauge_psy battery_psy : bool) : bat_metrics_data * Z :=
  let s := screen d in
  let d := set_screen d (mkScreen (screen_on_time s) (screen_off_time s) (-1) (-1) (screen_state s)) in
  let d := set_pm d (mkPm (suspend_ts (pm d)) (resume_ts (pm d)) (-1) (-1) (-1) (-1)) in
  let d := set_iavg d (mkIavg (last_ts (iavg d)) (-1) (pre_screen_state (iavg d))) (queued d) in
  if negb gauge_psy then (d, - ENODEV)
  else if negb battery_psy then (d, - ENODEV)
  else (mkBat (is_top_off_mode d) true (fault_type_old d) (chg_sts_old d) (bcm_flag_old d) (aging_old d) true
          (iavg d) (screen d) (pm d) true, 0).

(** The work stays queued. *)
Definition bat_metrics_uninit (d : bat_metrics_data) : bat_metrics_data :=
  mkBat (is_top_off_mode d) false (fault_type_old d) (chg_sts_old d) (bcm_flag_old d) (aging_old d) (gm_set d)
    (iavg d) (screen d) (pm d) (queued d).

(** ** Specification *)

(** The screen's events, turning it on and off in turn, each with what the
    battery and the clock are then. *)
Fixpoint screen_run (on : bool) (d : bat_metrics_data) (ws : list world) : bat_metrics_data * list log_call :=
  match ws with
  | [] => (d, [])
  | w :: ws =>
    let '(d, logs) := pm_notifier_callback d w FB_EVENT_BLANK (Some (if on then FB_BLANK_UNBLANK else FB_BLANK_POWERDOWN)) in
    let '(d, logs') := screen_run (negb on) d ws in (d, logs ++ logs')
  end.

(** The drain from one event to the next: the charge lost and the time. *)
Record drain := mkDrain { d_key : string; d_soc : Z; d_msec : Z }.
Definition drain_of (on : bool) (w w' : world) : drain :=
  mkDrain (if on then "screen_off_drain" else "screen_on_drain") (soc (w_gm w) - soc (w_gm w'))
    (elaps_msec (timespec64_sub (w_now w') (w_now w))).
Fixpoint drains (on : bool) (w : world) (ws : list world) : list drain :=
  match ws with
  | [] => []
  | w' :: ws => drain_of on w w' :: drains (negb on) w' ws
  end.
Fixpoint logs_of (ds : list drain) : list log_call :=
  match ds with
  | [] => []
  | x :: ds => drain_logs (d_key x) (d_soc x) (d_msec x) ++ logs_of ds
  end.
Definition total_drain (ds : list drain) : Z := foldr (fun x acc => d_soc x + acc) 0 ds.

(** The elements different from the one before. *)
Fixpoint changes (old : Z) (l : list Z) : list Z :=
  match l with
  | [] => []
  | s :: l => if old =? s then changes old l else s :: changes s l
  end.

(** The charger's states reported one after the other. *)
Fixpoint chg_states (d : bat_metrics_data) (l : list (world * Z)) : outcome (list log_call) :=
  match l with
  | [] => Ret []
  | (w, s) :: l =>
    '(d, logs, _) ← bat_metrics_chg_state d w s;
    logs' ← chg_states d l; Ret (logs ++ logs')
  end.

(** ** Lemmas *)

(** Ready, both events seen. *)
Definition seen (d : bat_metrics_data) : Prop :=
  metrics_psy_ready d = true /\ screen_on_soc (screen d) <> -1 /\ screen_off_soc (screen d) <> -1.

(** The event last seen of the kind that is not [on]. *)
Definition opposite (on : bool) (d : bat_metrics_data) (w : world) : Prop :=
  if on then screen_off_soc (screen d) = soc (w_gm w) /\ screen_off_time (screen d) = w_now w
  else screen_on_soc (screen d) = soc (w_gm w) /\ screen_on_time (screen d) = w_now w.

Definition blank_of (on : bool) : option Z := Some (if on then FB_BLANK_UNBLANK else FB_BLANK_POWERDOWN).

Lemma screen_event_spec on d w w0 :
  seen d -> opposite on d w0 -> soc (w_gm w) <> -1 ->
  exists d', pm_notifier_callback d w FB_EVENT_BLANK (blank_of on) =
    (d', drain_logs (d_key (drain_of on w0 w)) (d_soc (drain_of on w0 w)) (d_msec (drain_of on w0 w))) /\
    seen d' /\ opposite on d' w0 /\ opposite (negb on) d' w.
Proof.
  intros (R & S1 & S2) Ho Hs. unfold pm_notifier_callback, blank_of, drain_of.
  destruct on; cbn [FB_BLANK_UNBLANK FB_BLANK_POWERDOWN FB_EVENT_BLANK Z.eqb Pos.eqb negb].
  - unfold bat_metrics_screen_on. rewrite R. cbn [negb]. rewrite (proj2 (Z.eqb_neq _ _) S1), (proj2 (Z.eqb_neq _ _) S2).
    destruct Ho as [E1 E2]. rewrite E1, E2. cbn [orb fst]. eexists. split; [reflexivity|]. unfold seen, opposite. cbn. rewrite ?E1, ?E2. split_and!; congruence.
  - unfold bat_metrics_screen_off. rewrite R. cbn [negb]. rewrite (proj2 (Z.eqb_neq _ _) S1), (proj2 (Z.eqb_neq _ _) S2).
    destruct Ho as [E1 E2]. rewrite E1, E2. cbn [orb fst]. eexists. split; [reflexivity|]. unfold seen, opposite. cbn. rewrite ?E1, ?E2. split_and!; congruence.
Qed.

(** An unblank, whatever came before. *)
Lemma unblank_logs d w w0 :
  seen d -> opposite true d w0 ->
  (pm_notifier_callback d w FB_EVENT_BLANK (blank_of true)).2 = logs_of [drain_of true w0 w].
Proof.
  intros (R & S1 & S2) [E1 E2]. unfold pm_notifier_callback, blank_of, drain_of.
  cbn [FB_BLANK_UNBLANK FB_BLANK_POWERDOWN FB_EVENT_BLANK Z.eqb Pos.eqb].
  unfold bat_metrics_screen_on. rewrite R. cbn [negb]. rewrite (proj2 (Z.eqb_neq _ _) S1), (proj2 (Z.eqb_neq _ _) S2).
  rewrite E1, E2. cbn [orb fst snd logs_of d_key d_soc d_msec]. by rewrite app_nil_r.
Qed.

Lemma screen_run_spec ws : forall on d w0,
  seen d -> opposite on d w0 -> Forall (fun w => soc (w_gm w) <> -1) ws ->
  (screen_run on d ws).2 = logs_of (drains on w0 ws).
Proof.
  induction ws as [|w ws IH]; intros on d w0 Hd Ho Hs; [done|]. apply list.Forall_cons in Hs as [Hw Hs].
  cbn [screen_run drains logs_of].
  destruct (screen_event_spec on d w w0 Hd Ho Hw) as (d' & E & Hd' & _ & Ho'). unfold blank_of in E. rewrite E.
  rewrite <- (IH _ d' w Hd' Ho' Hs). by destruct (screen_run (negb on) d' ws).
Qed.

Lemma total_drains ws : forall on w, total_drain (drains on w ws) = soc (w_gm w) - soc (w_gm (default w (list.last ws))).
Proof.
  induction ws as [|w' ws IH]; intros on w; cbn [drains total_drain foldr]; [cbn; lia|].
  fold (total_drain (drains (negb on) w' ws)). rewrite IH, list.last_cons. cbn [drain_of d_soc].
  destruct (list.last ws); cbn; lia.
Qed.

(** The two first events only record the charge. *)
Lemma screen_start on d w1 w2 :
  metrics_psy_ready d = true -> screen_on_soc (screen d) = -1 -> screen_off_soc (screen d) = -1 ->
  soc (w_gm w1) <> -1 -> soc (w_gm w2) <> -1 ->
  exists d1 d2, pm_notifier_callback d w1 FB_EVENT_BLANK (blank_of on) = (d1, []) /\
    pm_notifier_callback d1 w2 FB_EVENT_BLANK (blank_of (negb on)) = (d2, []) /\ seen d2 /\ opposite on d2 w2.
Proof.
  intros R S1 S2 H1 H2. unfold pm_notifier_callback, blank_of.
  destruct on; cbn [FB_BLANK_UNBLANK FB_BLANK_POWERDOWN FB_EVENT_BLANK Z.eqb Pos.eqb negb].
  - unfold bat_metrics_screen_on. rewrite R, S1. cbn [negb Z.eqb Pos.eqb orb fst]. eexists _, _. split; [reflexivity|].
    unfold bat_metrics_screen_off. cbn [metrics_psy_ready set_screen screen screen_on_soc screen_off_soc]. rewrite R, S2.
    cbn [negb]. rewrite Bool.orb_true_r. split; [reflexivity|]. repeat split; done.
  - unfold bat_metrics_screen_off. rewrite R, S1. cbn [negb Z.eqb Pos.eqb orb fst]. eexists _, _. split; [reflexivity|].
    unfold bat_metrics_screen_on. cbn [metrics_psy_ready set_screen screen screen_on_soc screen_off_soc]. rewrite R.
    cbn [negb]. change (-1 =? -1) with true. cbn [orb fst]. split; [reflexivity|]. repeat split; done.
Qed.

Lemma chg_states_count l : forall d, metrics_psy_ready d = true -> gm_set d = true ->
  exists logs, chg_states d l = Ret logs /\ length logs = (2 * length (changes (chg_sts_old d) (l.*2)))%nat.
Proof.
  induction l as [|[w s] l IH]; intros d R G; [by exists []|]. cbn [chg_states fmap list_fmap snd changes].
  unfold bat_metrics_chg_state at 1. rewrite R. cbn [negb]. destruct (Z.eqb_spec (chg_sts_old d) s) as [E|E].
  - cbn [mbind outcome_bind]. destruct (IH d R G) as (logs & -> & Hl). exists logs. by cbn.
  - unfold bat_minerva_log, bat_metrics_minerva_log. cbn [gm_set set_chg_sts]. rewrite G. cbn [mbind outcome_bind].
    destruct (IH (set_chg_sts d s) R G) as (logs & -> & Hl). eexists. split; [reflexivity|]. cbn in *. rewrite Hl. lia.
Qed.

(** A special mode's request on the running driver. *)
Lemma critical_serves {S} `{LcrRtc S} d w (l : driver (lcr_platform S)) : gm_set d = true ->
  exists logs, bat_metrics_critical_shutdown d w l = Ret (serve l (ReqSet SPECIAL LIFE_CYCLE_SMODE_LOW_BATTERY), logs) /\
    battery_shutdown d w l = Ret (foldl serve l [ReqSet SPECIAL LIFE_CYCLE_SMODE_LOW_BATTERY; ReqReboot SYS_POWER_OFF], logs).
Proof.
  intros G. unfold battery_shutdown, bat_metrics_critical_shutdown, bat_minerva_log, bat_metrics_minerva_log. rewrite G.
  cbn [mbind outcome_bind]. eexists. split; reflexivity.
Qed.

(** A text, in the table or not, for a record that faults. *)
Lemma text_then_oops {A} table i (k : list Z -> outcome A) :
  (forall t, k t = Oops) -> (t ← text_at table i; k t) = Oops.
Proof. intros Hk. unfold text_at. destruct (str <$> _); cbn; done. Qed.

(** ** Theorems *)

Definition example_world : world :=
  mkWorld (mkGm 50 50 25 3800 (-1200) 250 false) (Some (fun _ => Some 3800)) (100, 0).
Definition at_soc (c t : Z) : world := mkWorld (mkGm c c 25 3800 (-1200) 250 false) (Some (fun _ => Some 3800)) (t, 0).

(** C21. The drains telescope: after the initialisation, screen events that
    turn the screen on and off in turn are recorded, from the third on, as the
    charge lost and the time passed since the event before, under the key of the
    phase that ends; together they are the charge lost since the second event, so
    nothing is counted twice or left out. But two unblanks in a row (the framework
    does not drop the second) both count from the last screen-off: the charge of
    the first is counted again. *)
Theorem drains_telescope on (d : bat_metrics_data) w1 w2 ws :
  Forall (fun w => soc (w_gm w) <> -1) (w1 :: w2 :: ws) ->
  let d0 := (bat_metrics_init d true true).1 in
  (screen_run on d0 (w1 :: w2 :: ws)).2 = logs_of (drains on w2 ws) /\
  total_drain (drains on w2 ws) = soc (w_gm w2) - soc (w_gm (default w2 (list.last ws))) /\
  forall d1 w0 w w', seen d1 -> opposite true d1 w0 -> soc (w_gm w) <> -1 ->
    let '(d2, logs) := pm_notifier_callback d1 w FB_EVENT_BLANK (blank_of true) in
    logs ++ (pm_notifier_callback d2 w' FB_EVENT_BLANK (blank_of true)).2 =
    logs_of [drain_of true w0 w; drain_of true w0 w'].
Proof.
  intros Hs d0. apply list.Forall_cons in Hs as [H1 Hs]. apply list.Forall_cons in Hs as [H2 Hs].
  split; [|split; [apply total_drains|]].
  - destruct (screen_start on d0 w1 w2 eq_refl eq_refl eq_refl H1 H2) as (d1 & d2 & E1 & E2 & Hd & Ho).
    rewrite <- (screen_run_spec ws on d2 w2 Hd Ho Hs). unfold blank_of in *. cbn [screen_run]. rewrite E1, E2, negb_involutive.
    by destruct (screen_run on d2 ws).
  - intros d1 w0 w w' Hd Ho Hw. destruct (screen_event_spec true d1 w w0 Hd Ho Hw) as (d2 & -> & Hd2 & Ho2 & _).
    cbn [logs_of]. rewrite app_nil_r. f_equal. by apply unblank_logs.
Qed.

Lemma drains_telescope_witness :
  (screen_run true (bat_metrics_init bat_zero true true).1 [at_soc 80 10; at_soc 79 20; at_soc 77 50; at_soc 70 90]).2 =
  drain_logs "screen_off_drain" 2 30000 ++ drain_logs "screen_on_drain" 7 40000.
Proof.
  destruct (drains_telescope true bat_zero (at_soc 80 10) (at_soc 79 20) [at_soc 77 50; at_soc 70 90]) as (-> & _);
    [by repeat constructor|]. vm_compute. reflexivity.
Defined.

(** A critical battery, end to end: the mark the report leaves is what
    the next boot reports, if nothing else recorded a reason; but the shutdown
    that follows the report always records one, in a group that is looked at
    first, so that after it the boot reports a software shutdown and never the
    low battery. *)
Theorem low_battery_masked (d : bat_metrics_data) w (l : driver (lcr_platform mt6397_rtc)) sol charging cmd :
  gm_set d = true -> p_dev_sol l = Some sol -> sol_ops sol = life_cycle_platform_init ->
  check_sign_of_life_parity (plat_rtc (platform l)) = true ->
  (forall g, abs_store (plat_rtc (platform l)) g = LIFE_CYCLE_NOT_AVAILABLE) ->
  get_android_bootreason cmd LIFE_CYCLE_NOT_AVAILABLE = Some LIFE_CYCLE_NOT_AVAILABLE ->
  let boots (l : driver (lcr_platform mt6397_rtc)) r := exists l',
    dev_sol_init (mkDriver None false (mkPlat (plat_rtc (platform l)) LIFE_CYCLE_NOT_AVAILABLE)) true charging cmd = Some (l', 0) /\
    reported l' = Some r in
  (exists l1 logs, bat_metrics_critical_shutdown d w l = Ret (l1, logs) /\ boots l1 LIFE_CYCLE_SMODE_LOW_BATTERY) /\
  (exists l2 logs, battery_shutdown d w l = Ret (l2, logs) /\ boots l2 SHUTDOWN_BY_SW).
Proof.
  intros G H1 H2 H3 Hna Hcmd boots. destruct (critical_serves d w l G) as (logs & E1 & E2).
  assert (Hb : forall qs, boots (foldl serve l qs) (spec_report (spec_session (abs_store (plat_rtc (platform l))) qs) LIFE_CYCLE_NOT_AVAILABLE)).
  { intros qs. destruct (init_spec (plat_rtc (platform (foldl serve l qs))) charging cmd _ false None _ Hcmd) as (l' & Hi & Hr & _).
    exists l'. split; [done|]. rewrite Hr. f_equal. by apply (session_report l sol). }
  split; [exists (foldl serve l [ReqSet SPECIAL LIFE_CYCLE_SMODE_LOW_BATTERY]), logs|eexists _, logs]; (split; [eassumption|]).
  - generalize (Hb [ReqSet SPECIAL LIFE_CYCLE_SMODE_LOW_BATTERY]).
    unfold spec_report, spec_session. cbn [fmap list_fmap mjoin list_join request_op foldl app]. cbn. by rewrite !Hna.
  - generalize (Hb [ReqSet SPECIAL LIFE_CYCLE_SMODE_LOW_BATTERY; ReqReboot SYS_POWER_OFF]).
    unfold spec_report, spec_session. cbn. by rewrite !Hna.
Qed.

Lemma low_battery_masked_witness :
  exists l2 logs l', battery_shutdown (bat_metrics_init bat_zero true true).1 example_world (running example_regs) = Ret (l2, logs) /\
    dev_sol_init (mkDriver None false (mkPlat (plat_rtc (platform l2)) LIFE_CYCLE_NOT_AVAILABLE)) true false "quiet" = Some (l', 0) /\
    reported l' = Some SHUTDOWN_BY_SW.
Proof.
  destruct (low_battery_masked (bat_metrics_init bat_zero true true).1 example_world (running example_regs) _ false "quiet"
    eq_refl eq_refl eq_refl) as (_ & l2 & logs & E & l' & Hi & Hr);
    [vm_compute; reflexivity|intros []; vm_compute; reflexivity|reflexivity|].
  exists l2, logs, l'. split; [exact E|split; [exact Hi|exact Hr]].
Defined.

(** Before the initialisation, or after one that did not find the power
    supplies, the reports that need the battery fault on its NULL pointer; those
    that test for it first return -ENODEV, and the texts are never read. *)
Theorem reports_before_init_oops {S} `{LcrRtc S} (d : bat_metrics_data) w (l : driver (lcr_platform S)) :
  gm_set d = false -> metrics_psy_ready d = false ->
  forall gauge_psy battery_psy, gauge_psy && battery_psy = false ->
  let d := (bat_metrics_init d gauge_psy battery_psy).1 in
  (bat_metrics_init d gauge_psy battery_psy).2 = - ENODEV /\
  (forall f, f <> fault_type_old d -> f <> 0 -> bat_metrics_chg_fault d w f = Oops) /\
  (forall f, f <> bcm_flag_old d -> f = BCM_FLAG_CHARGE_TIMER \/ f = BCM_FLAG_SECONDARY_THERMAL -> bat_metrics_bcm_flag d w f = Oops) /\
  (forall t, 0 < t <= POWER_SUPPLY_TYPE_WIRELESS_10W -> bat_metrics_chrdet d w t = Oops) /\
  bat_metrics_invalid_charger d w = Oops /\ (forall v, bat_metrics_dpm_eoc_mode d w v = Oops) /\
  bat_metrics_critical_shutdown d w l = Oops /\
  (forall s, bat_metrics_chg_state d w s = Ret (d, [], - ENODEV)) /\ (forall b, bat_metrics_top_off_mode d w b = Ret (d, [], - ENODEV)) /\
  bat_metrics_screen_on d w = (d, [], - ENODEV) /\ bat_metrics_screen_off d w = (d, [], - ENODEV).
Proof.
  intros G R gp bp Hgb d'.
  assert (G' : gm_set d' = false /\ metrics_psy_ready d' = false /\ (bat_metrics_init d' gp bp).2 = - ENODEV)
    by (subst d'; destruct gp, bp; done).
  clearbody d'. destruct G' as (G' & R' & E). split; [done|].
  assert (M : forall d1 t, gm_set d1 = false -> bat_minerva_log d1 w t = Oops)
    by (intros d1 t G1; unfold bat_minerva_log, bat_metrics_minerva_log; by rewrite G1).
  split_and!.
  - intros f H1 H2. unfold bat_metrics_chg_fault. rewrite (proj2 (Z.eqb_neq _ _)), (proj2 (Z.eqb_neq f 0)) by congruence.
    apply text_then_oops. intros t. by rewrite M.
  - intros f H1 H2. unfold bat_metrics_bcm_flag. rewrite (proj2 (Z.eqb_neq _ _)) by congruence.
    destruct H2 as [-> | ->]; cbn [Z.eqb Pos.eqb BCM_FLAG_CHARGE_TIMER BCM_FLAG_SECONDARY_THERMAL]; by rewrite M.
  - intros t Ht. unfold bat_metrics_chrdet. rewrite (proj2 (Z.ltb_lt _ _)), (proj2 (Z.leb_le _ _)) by lia. cbn [andb].
    apply text_then_oops. intros t'. by rewrite M.
  - unfold bat_metrics_invalid_charger. by rewrite M.
  - intros v. unfold bat_metrics_dpm_eoc_mode. by rewrite G'.
  - unfold bat_metrics_critical_shutdown. by rewrite M.
  - intros s. unfold bat_metrics_chg_state. by rewrite R'.
  - intros b. unfold bat_metrics_top_off_mode. by rewrite R'.
  - unfold bat_metrics_screen_on. by rewrite R'.
  - unfold bat_metrics_screen_off. by rewrite R'.
Qed.

Lemma reports_before_init_oops_witness :
  bat_metrics_chg_fault (bat_metrics_init bat_zero true false).1 example_world 1 = Oops.
Proof.
  destruct (reports_before_init_oops bat_zero example_world (running example_regs) eq_refl eq_refl true false eq_refl)
    as (_ & H & _).
  apply H; discriminate.
Defined.

(** The charger's states reported one after the other leave two records
    per change of state, none for a repetition: the reports are as many as the
    reference [changes] of the sequence. *)
Theorem chg_state_reports_changes (d : bat_metrics_data) l :
  metrics_psy_ready d = true -> gm_set d = true ->
  exists logs, chg_states d l = Ret logs /\ length logs = (2 * length (changes (chg_sts_old d) (l.*2)))%nat.
Proof. apply chg_states_count. Qed.

Lemma chg_state_reports_changes_witness :
  exists logs, chg_states (bat_metrics_init bat_zero true true).1 ((fun s => (example_world, s)) <$> [1; 1; 3; 1]) = Ret logs /\
    length logs = 6%nat.
Proof.
  destruct (chg_state_reports_changes (bat_metrics_init bat_zero true true).1
    ((fun s => (example_world, s)) <$> [1; 1; 3; 1]) eq_refl eq_refl) as (logs & E & Hl).
  exists logs. split; [exact E|exact Hl].
Defined.
