(* ===== verification/Idme.v ===== *)
(** * Identity data of the device (drivers/misc/idme.c)

    The boot loader puts the identity fields into the device tree under /idme;
    the driver decodes some for other drivers and shows all of them in
    /proc/idme. The value of a field is read as a C string: a field without a
    value, or one whose string is not terminated, is read where there is
    nothing ([Oops]). *)

From Stdlib Require Import String.
From stdpp Require Import base tactics numbers list gmap strings option.
From S2P Require Import Prelude Kstrtox Printf Of.

(** ** Reading a field *)

(** The nodes of the device tree by their path. *)
Definition device_tree : Type := gmap string device_node.
Definition of_find_node_by_path (t : device_tree) (path : string) : option device_node := t !! path.

(** [of_get_property(of_find_node_by_path(path), "value", ...)]: [None] is the
    null pointer. *)
Definition field_value (t : device_tree) (path : string) : option (list Z) :=
  ap ← of_find_node_by_path t path; of_get_property ap "value".

(** The C string at the beginning of some memory. *)
Definition c_str (mem : list Z) : option (list Z) :=
  if (strnlen mem <? length mem)%nat then Some (take (strnlen mem) mem) else None.

(** [strlcpy(dest, src + off, size)] into a zeroed [dest] of [room] bytes. *)
Definition strlcpy (room : Z) (src : option (list Z)) (off size : Z) : outcome (list Z) :=
  match src with
  | None => Oops
  | Some mem =>
    if off <? 0 then Oops else
    match c_str (drop (Z.to_nat off) mem) with
    | None => Oops
    | Some s =>
      if size =? 0 then Ret [] else
      let t := take (Z.to_nat (size - 1)) s in
      if Z.of_nat (length t) + 1 <=? room then Ret t else Oops
    end
  end.

(** [rs] after [kstrtouint(s, 16, &rs)], 0 before. *)
Definition hex_or_0 (s : list Z) : Z := match kstrtouint s 16 with inl v => v | inr _ => 0 end.

(** ** Decoded fields *)

Definition IDME_OF_BOARD_ID : string := "/idme/board_id".
Definition IDME_OF_LCM_ID : string := "/idme/lcm_id".
Definition IDME_OF_PRODUCT_ID2 : string := "/idme/productid2".
Definition BOOT_MODE_IDME_PATH : string := "/idme/bootmode".
Definition IDME_OF_ALSCAL : string := "/idme/alscal".
Definition IDME_OF_DEV_FLAGS : string := "/idme/dev_flags".
Definition IDME_OF_SENSORCAL : string := "/idme/sensorcal".
Definition IDME_OF_TPCGCOLOR : string := "/idme/tp_cg_color".

(** [len] is not set when the property is missing: [garbage] is what it
    holds then. *)
Definition board_has_wan (t : device_tree) (garbage : Z) : outcome bool :=
  match of_find_node_by_path t IDME_OF_BOARD_ID with
  | None => Ret false
  | Some ap =>
    let boardid := of_get_property ap "value" in
    let len := match of_find_property ap "value" with
               | Some pp => Z.of_nat (length (default [] pp))
               | None => garbage
               end in
    if 2 <=? len then
      match boardid with
      | None => Oops
      | Some b =>
        match b !! 0%nat with
        | None => Oops
        | Some c =>
          if c =? 48 then match b !! 5%nat with None => Oops | Some c => Ret (c =? 49) end
          else Ret false
        end
      end
    else Ret false
  end.

Definition idme_get_board_type (t : device_tree) : outcome Z :=
  s ← strlcpy 5 (field_value t IDME_OF_BOARD_ID) 0 5; Ret (hex_or_0 s).

Definition idme_get_board_rev (t : device_tree) : outcome Z :=
  s ← strlcpy 3 (field_value t IDME_OF_BOARD_ID) 7 3; Ret (hex_or_0 s).

Definition idme_get_battery_info (t : device_tree) (index length : Z) : outcome Z :=
  s ← strlcpy 32 (field_value t IDME_OF_PRODUCT_ID2) (31 - index) (u64 (length + 1)); Ret (hex_or_0 s).

Definition idme_get_lcmid_info (t : device_tree) : outcome Z :=
  match of_find_node_by_path t IDME_OF_LCM_ID with
  | None => Ret 0
  | Some ap => s ← strlcpy 4 (of_get_property ap "value") 0 4; Ret (hex_or_0 s)
  end.

Definition idme_get_bootmode (t : device_tree) (garbage : Z) : outcome Z :=
  match of_find_node_by_path t BOOT_MODE_IDME_PATH with
  | None => Ret 0
  | Some ap =>
    let len := match of_find_property ap "value" with
               | Some pp => Z.of_nat (length (default [] pp))
               | None => garbage
               end in
    if 0 <? len then
      match of_get_property ap "value" with
      | Some (c :: _) => Ret (u32 (c - 48))
      | _ => Oops
      end
    else Ret 0
  end.

Definition idme_get_tp_cg_color (t : device_tree) : outcome Z :=
  match of_find_node_by_path t IDME_OF_TPCGCOLOR with
  | None => Ret 0
  | Some ap =>
    match mem ← of_get_property ap "value"; c_str mem with
    | None => Oops
    | Some [] => Ret 0
    | Some _ => s ← strlcpy 8 (of_get_property ap "value") 0 8; Ret (hex_or_0 s)
    end
  end.

Definition idme_get_dev_flags_value (t : device_tree) : outcome Z :=
  match mem ← field_value t IDME_OF_DEV_FLAGS; c_str mem with
  | None => Oops
  | Some s => Ret (match kstrtoull s 16 with inl v => v | inr _ => 0 end)
  end.

(** ** Calibration data *)

Definition SENSOR_CAL_SIZE : Z := 96.

Definition castChar (c : Z) : Z :=
  if (48 <=? c) && (c <=? 57) then c - 48
  else if (97 <=? c) && (c <=? 102) then c - 97 + 10
  else if (65 <=? c) && (c <=? 70) then c - 65 + 10
  else s8 255.

Fixpoint hex_pairs (s : list Z) : list Z :=
  match s with
  | c :: d :: s => s8 (Z.lor (Z.shiftl (castChar (s8 c)) 4) (castChar (s8 d))) :: hex_pairs s
  | _ => []
  end.

(** The static [gbuffer] after the call; it keeps what lies past the string's
    bytes and their terminator. *)
Definition hexToBytes (gbuffer : list Z) (inhex : list Z) : outcome (list Z) :=
  let len := (length inhex / 2)%nat in
  if Z.of_nat len <? SENSOR_CAL_SIZE
  then Ret (hex_pairs inhex ++ 0 :: drop (S len) gbuffer) else Oops.

(** The loop over [data]. *)
Definition sensor_word (retdata : list Z) (i : nat) : Z :=
  s16 (Z.lor (Z.land (retdata !!! (i * 2)%nat) 255) (Z.shiftl (retdata !!! (i * 2 + 1)%nat) 8)).

(** [gbuffer], [data] and the result. *)
Definition idme_get_sensorcal (gbuffer : list Z) (t : device_tree) (data : list Z) (size : Z)
  : outcome (list Z * list Z * Z) :=
  match field_value t IDME_OF_SENSORCAL with
  | None => Ret (gbuffer, data, u32 (-1))
  | Some mem =>
    s ← or_oops (c_str mem);
    gbuffer ← hexToBytes gbuffer s;
    let n := Z.to_nat (if 6 <? size then 6 else size) in
    if (length data <? n)%nat then Oops
    else Ret (gbuffer, (sensor_word gbuffer <$> seq 0 n) ++ drop n data, 0)
  end.

Definition idme_get_alscal_value (gbuffer : list Z) (t : device_tree) : outcome (list Z * Z) :=
  match field_value t IDME_OF_ALSCAL with
  | None => Oops
  | Some mem =>
    s ← or_oops (c_str mem);
    gbuffer ← hexToBytes gbuffer s;
    let byte i := Z.land (gbuffer !!! i) 255 in
    Ret (gbuffer, u32 (Z.lor (Z.lor (Z.lor (byte 0%nat) (Z.shiftl (byte 1%nat) 8))
                               (Z.shiftl (byte 2%nat) 16)) (u32 (Z.shiftl (byte 3%nat) 24))))
  end.

(** ** The files of /proc/idme *)

Definition S_IFMT : Z := 0xF000.
Definition S_IFREG : Z := 0x8000.
Definition S_IALLUGO : Z := 0xFFF.
Definition S_IRUGO : Z := 0x124.
Definition S_IWUGO : Z := 0x92.
Definition MAC_SEC_KEY : string := "mac_sec".
Definition MAC_SEC_OWNER : Z := 1000.

(** [struct proc_dir_entry], with the property shown through it. *)
Record proc_dir_entry := mkPde { pde_name : string; pde_mode : Z; pde_uid : Z; pde_data : property }.

(** [proc_create_data]; [ok] is whether the entry can be allocated and
    registered. *)
Definition proc_create_data (name : string) (mode : Z) (ok : bool) (data : property) : option proc_dir_entry :=
  let mode := if Z.land mode S_IFMT =? 0 then Z.lor mode S_IFREG else mode in
  let mode := if Z.land mode S_IALLUGO =? 0 then Z.lor mode S_IRUGO else mode in
  if negb (Z.land mode S_IFMT =? S_IFREG) then None
  else if ok then Some (mkPde name mode 0 data) else None.

(** One child of /idme: its entry, if one is made. *)
Definition idme_child (ok : bool) (name : string) (node : device_node) : option proc_dir_entry :=
  let access_restrict := String.eqb name MAC_SEC_KEY in
  pp ← of_find_property node "value";
  match of_property_read_u32 node "permission" with
  | inl _ => None
  | inr perm =>
    let perm := Z.land (s32 perm) (Z.lnot S_IWUGO) in
    let perm := if access_restrict then 0x100 else perm in
    pde ← proc_create_data name (u16 perm) ok pp;
    Some (if access_restrict then mkPde (pde_name pde) (pde_mode pde) MAC_SEC_OWNER (pde_data pde) else pde)
  end.

(** The children with the answers of the registrations; [root] is whether
    /idme exists, [mkdir] whether /proc/idme can be made. *)
Definition idme_init (root mkdir : bool) (children : list (string * device_node * bool))
  : list proc_dir_entry * Z :=
  if negb root then ([], - EINVAL) else
  if negb mkdir then ([], - ENOMEM) else
  (omap (fun '(name, node, ok) => idme_child ok name node) children, 0).

(** What reading a file writes to the seq buffer. *)
Definition idme_proc_show (pde : proc_dir_entry) : list Z := default [] (pde_data pde).

(** ** Specification *)

(** Bytes as the boot loader writes them: two hexadecimal digits each. *)
Definition hex_of (bs : list Z) : list Z := mjoin (pct_02x <$> bs).

(** Calibration words, low byte first. *)
Definition words_bytes (xs : list Z) : list Z := mjoin ((fun x => le_enc 2 (u16 x)) <$> xs).

Definition has_value (t : device_tree) (path : string) (mem : list Z) : Prop :=
  field_value t path = Some mem.

(** ** Lemmas *)

Lemma byte_s8 b : 0 <= b < 256 -> Z.land (s8 b) 255 = b.
Proof.
  intros Hb. change 255 with (Z.ones 8). rewrite Z.land_ones by lia. unfold wrapS.
  change (2 ^ (8 - 1)) with 128. change (2 ^ 8) with 256. rewrite Zminus_mod_idemp_l.
  replace (b + 128 - 128) with b by lia. by apply Z.mod_small.
Qed.

Lemma hex_digit_cast d : 0 <= d < 16 -> castChar (s8 (hex_digit d)) = d.
Proof.
  intros Hd. assert (Hc : d ∈ seqZ 0 16) by (apply elem_of_seqZ; lia). revert d Hd Hc.
  assert (Ha : forallb (fun d => castChar (s8 (hex_digit d)) =? d) (seqZ 0 16) = true) by (vm_compute; reflexivity).
  intros d _ Hd. rewrite forallb_forall in Ha. apply Z.eqb_eq, Ha. by apply list_elem_of_In.
Qed.

Lemma hex_digit_nonzero d : 0 <= d < 16 -> hex_digit d <> 0.
Proof. unfold hex_digit. intros. zcases; lia. Qed.

(** Two digits of a byte, and a word of its bytes. *)
Lemma hex_pair b : 0 <= b < 256 ->
  s8 (Z.lor (Z.shiftl (castChar (s8 (hex_digit (b / 16)))) 4) (castChar (s8 (hex_digit (b mod 16))))) = s8 b.
Proof.
  intros Hb. pose proof (Z.mod_pos_bound b 16 ltac:(lia)).
  assert (0 <= b / 16 < 16) by (split; [apply Z.div_pos; lia|apply Z.div_lt_upper_bound; lia]).
  rewrite !hex_digit_cast, (lor_shiftl 4) by lia. f_equal. change (2 ^ 4) with 16.
  pose proof (Z.div_mod b 16 ltac:(lia)). lia.
Qed.

Lemma hex_of_cons b bs : hex_of (b :: bs) = hex_digit (b / 16) :: hex_digit (b mod 16) :: hex_of bs.
Proof. done. Qed.

Lemma words_bytes_cons x xs : words_bytes (x :: xs) = u16 x mod 256 :: u16 x / 256 mod 256 :: words_bytes xs.
Proof. done. Qed.

Lemma hex_pairs_of bs : Forall (fun b => 0 <= b < 256) bs -> hex_pairs (hex_of bs) = s8 <$> bs.
Proof.
  induction 1 as [|b bs Hb _ IH]; [done|].
  rewrite hex_of_cons. cbn [hex_pairs]. by rewrite hex_pair, IH.
Qed.

Lemma length_hex_of bs : length (hex_of bs) = (2 * length bs)%nat.
Proof. induction bs as [|b bs IH]; [done|]. rewrite hex_of_cons. cbn [length]. lia. Qed.

Lemma hex_of_c_string bs : Forall (fun b => 0 <= b < 256) bs -> c_string (hex_of bs).
Proof.
  unfold c_string. induction 1 as [|b bs Hb _ IH]; [constructor|]. rewrite hex_of_cons.
  pose proof (Z.mod_pos_bound b 16 ltac:(lia)).
  assert (0 <= b / 16 < 16) by (split; [apply Z.div_pos; lia|apply Z.div_lt_upper_bound; lia]).
  by repeat (constructor; [apply hex_digit_nonzero; lia|]).
Qed.

Lemma c_str_ok s junk : c_string s -> c_str (s ++ 0 :: junk) = Some s.
Proof.
  intros Hs. unfold c_str. rewrite strnlen_app, length_app by done. cbn [length].
  destruct (Nat.ltb_spec (length s) (length s + S (length junk))); [|lia]. by rewrite take_app_length.
Qed.

(** The buffer after a conversion of the digits of [bs]. *)
Lemma hexToBytes_ok gbuffer bs :
  Forall (fun b => 0 <= b < 256) bs ->
  hexToBytes gbuffer (hex_of bs) =
    if Z.of_nat (length bs) <? SENSOR_CAL_SIZE
    then Ret ((s8 <$> bs) ++ 0 :: drop (S (length bs)) gbuffer) else Oops.
Proof.
  intros Hb. unfold hexToBytes. rewrite length_hex_of, hex_pairs_of by done.
  rewrite Nat.mul_comm, Nat.div_mul by lia. done.
Qed.

Lemma word_of_bytes x : -32768 <= x < 32768 ->
  s16 (Z.lor (Z.land (s8 (u16 x mod 256)) 255) (Z.shiftl (s8 (u16 x / 256 mod 256)) 8)) = x.
Proof.
  intros Hx. pose proof (Z.mod_pos_bound (u16 x) 256 ltac:(lia)).
  rewrite byte_s8 by lia. rewrite Z.lor_comm, (lor_shiftl 8) by lia.
  pose proof (wrapU_range 16 x ltac:(lia)). change (2 ^ 16) with 65536 in *.
  assert (Hh : 0 <= u16 x / 256 < 256) by (split; [apply Z.div_pos; lia|apply Z.div_lt_upper_bound; lia]).
  rewrite (Z.mod_small (u16 x / 256)) by lia.
  assert (E : exists k, s8 (u16 x / 256) = u16 x / 256 + 256 * k).
  { unfold wrapS. change (2 ^ (8 - 1)) with 128. change (2 ^ 8) with 256.
    exists (- ((u16 x / 256 + 128) / 256)). pose proof (Z.div_mod (u16 x / 256 + 128) 256 ltac:(lia)). lia. }
  destruct E as [k ->]. change (2 ^ 8) with 256. pose proof (Z.div_mod (u16 x) 256 ltac:(lia)).
  replace ((u16 x / 256 + 256 * k) * 256 + u16 x mod 256) with (u16 x + k * 65536) by lia.
  transitivity (s16 (u16 x)).
  - unfold wrapS. change (2 ^ (16 - 1)) with 32768. change (2 ^ 16) with 65536. f_equal.
    replace (u16 x + k * 65536 + 32768) with (u16 x + 32768 + k * 65536) by lia. by rewrite Z.mod_add by lia.
  - rewrite (wrapS_wrapU 16 16) by lia. by apply wrapS_id; lia.
Qed.

(** The bytes of the words, by index. *)
Lemma words_bytes_lookup xs : forall i x,
  xs !! i = Some x ->
  words_bytes xs !! (i * 2)%nat = Some (u16 x mod 256) /\
  words_bytes xs !! (i * 2 + 1)%nat = Some (u16 x / 256 mod 256).
Proof.
  induction xs as [|y xs IH]; intros [|i] x Hi; cbn in Hi; [done|done| |]; rewrite words_bytes_cons.
  - by simplify_eq.
  - destruct (IH i x Hi) as [H1 H2]. by split.
Qed.

Lemma words_bytes_range xs : Forall (fun b => 0 <= b < 256) (words_bytes xs).
Proof.
  induction xs as [|x xs IH]; [constructor|]. rewrite words_bytes_cons.
  constructor; [apply Z.mod_pos_bound; lia|]. constructor; [apply Z.mod_pos_bound; lia|exact IH].
Qed.

Lemma length_words_bytes xs : length (words_bytes xs) = (2 * length xs)%nat.
Proof. induction xs as [|x xs IH]; [done|]. rewrite words_bytes_cons. cbn [length]. lia. Qed.

(** The 32-bit word the four first bytes of a buffer make. *)
Lemma le_word b0 b1 b2 b3 :
  0 <= b0 < 256 -> 0 <= b1 < 256 -> 0 <= b2 < 256 -> 0 <= b3 < 256 ->
  u32 (Z.lor (Z.lor (Z.lor b0 (Z.shiftl b1 8)) (Z.shiftl b2 16)) (u32 (Z.shiftl b3 24))) =
  le_dec [b0; b1; b2; b3].
Proof.
  intros H0 H1 H2 H3. rewrite (u32_id (Z.shiftl b3 24)) by (rewrite Z.shiftl_mul_pow2 by lia; lia).
  rewrite (Z.lor_comm b0), (lor_shiftl 8) by lia. change (2 ^ 8) with 256.
  rewrite (Z.lor_comm (b1 * 256 + b0)), (lor_shiftl 16) by lia. change (2 ^ 16) with 65536.
  rewrite (Z.lor_comm (b2 * 65536 + _)), (lor_shiftl 24) by lia. change (2 ^ 24) with 16777216.
  rewrite u32_id by lia. cbn [le_dec]. lia.
Qed.

(** *** Modes *)

(** The mode a permission asks for, and the mode [proc_create_data] makes of it. *)
Definition wanted (perm : Z) : Z := Z.land perm (Z.lnot S_IWUGO).
Definition made (mode : Z) : Z := Z.lor S_IFREG (if mode =? 0 then S_IRUGO else mode).

Lemma wanted_no_write m : Z.land (u16 (wanted m)) S_IWUGO = 0.
Proof.
  unfold wanted, wrapU. rewrite <- Z.land_ones by lia. bits_by i.
  destruct (Z.testbit m i), (Z.testbit S_IWUGO i); cbn; by rewrite ?andb_false_r.
Qed.

(** Creating an entry only adds the type and, for want of any bit, reading. *)
Lemma create_mode name mode ok data pde :
  proc_create_data name mode ok data = Some pde ->
  pde = mkPde name (pde_mode pde) 0 data /\ Z.land (pde_mode pde) S_IFMT = S_IFREG /\
  (Z.land mode S_IWUGO = 0 -> Z.land (pde_mode pde) S_IWUGO = 0) /\
  (0 <= mode < 4096 -> pde_mode pde = made mode).
Proof.
  unfold proc_create_data. set (m1 := if Z.land mode S_IFMT =? 0 then Z.lor mode S_IFREG else mode).
  set (m2 := if Z.land m1 S_IALLUGO =? 0 then Z.lor m1 S_IRUGO else m1).
  destruct (Z.eqb_spec (Z.land m2 S_IFMT) S_IFREG) as [E|]; cbn [negb]; [|done].
  destruct ok; [|done]. intros [= <-]. cbn. split_and!; [done|done| |].
  - intros H0. subst m2 m1. destruct (_ =? 0), (_ =? 0); rewrite ?Z.land_lor_distr_l, H0; reflexivity.
  - intros Hm. assert (H1 : Z.land mode S_IFMT = 0).
    { bits_by i. destruct (Z.ltb_spec i 12); [|rewrite (testbit_above 12 mode i) by lia; done].
      change S_IFMT with (mask_of 4 12). rewrite mask_of_spec by lia.
      destruct (Z.leb_spec 12 i); [lia|]. apply andb_false_r. }
    assert (H2 : Z.land mode S_IALLUGO = mode).
    { change S_IALLUGO with (Z.ones 12). rewrite Z.land_ones by lia. apply Z.mod_small. lia. }
    subst m2. unfold m1 at 1 2 3. rewrite H1. cbn [Z.eqb]. rewrite Z.land_lor_distr_l, H2.
    change (Z.land S_IFREG S_IALLUGO) with 0. rewrite Z.lor_0_r. unfold made.
    destruct (Z.eqb_spec mode 0) as [->|]; [reflexivity|apply Z.lor_comm].
Qed.

Lemma wanted_range perm : 0 <= perm < 4096 -> 0 <= wanted perm < 4096.
Proof.
  intros Hp. unfold wanted. assert (0 <= Z.land perm (Z.lnot S_IWUGO)) by (apply Z.land_nonneg; lia).
  split; [done|]. apply (Z_bounded_bits 12); [lia|done|]. intros i Hi.
  rewrite Z.land_spec, (testbit_above 12 perm i) by lia. done.
Qed.

(** ** Properties *)

(** C27. Calibration arrives: if the boot loader wrote any 16-bit words (up to
    47) as hexadecimal digits, low byte first, the caller gets the first
    min(size, 6) of them with their signs, whatever the shared buffer held
    before, and the rest of its array is not touched. *)
Theorem sensorcal_roundtrip gbuffer t data size xs junk :
  has_value t IDME_OF_SENSORCAL (hex_of (words_bytes xs) ++ 0 :: junk) ->
  Forall (fun x => -32768 <= x < 32768) xs -> (length xs <= 47)%nat -> 0 <= size < 256 ->
  let n := Z.to_nat (Z.min size 6) in
  (n <= length xs)%nat -> (n <= length data)%nat ->
  exists gbuffer', idme_get_sensorcal gbuffer t data size = Ret (gbuffer', take n xs ++ drop n data, 0).
Proof.
  intros Hv Hx Hl Hs n Hn Hd. eexists. unfold idme_get_sensorcal. rewrite Hv.
  rewrite c_str_ok by apply hex_of_c_string, words_bytes_range. cbn [or_oops mbind outcome_bind].
  rewrite hexToBytes_ok by apply words_bytes_range. rewrite length_words_bytes.
  destruct (Z.ltb_spec (Z.of_nat (2 * length xs)) SENSOR_CAL_SIZE); [|unfold SENSOR_CAL_SIZE in *; lia].
  cbn [or_oops mbind outcome_bind].
  replace (Z.to_nat (if 6 <? size then 6 else size)) with n by (subst n; zcases; lia).
  destruct (Nat.ltb_spec (length data) n); [lia|]. do 3 f_equal. f_equal.
  apply list_eq. intros i. rewrite list_lookup_fmap. destruct (decide (i < n)%nat) as [Hi|Hi].
  - rewrite lookup_seq_lt, lookup_take_lt by done. cbn. destruct (lookup_lt_is_Some_2 xs i) as [x Hxi]; [lia|].
    rewrite Hxi. f_equal. destruct (words_bytes_lookup xs i x Hxi) as [H1 H2]. unfold sensor_word.
    rewrite !list_lookup_total_alt.
    assert (Hb : forall j b tl, words_bytes xs !! j = Some b ->
      ((s8 <$> words_bytes xs) ++ tl) !! j = Some (s8 b)).
    { intros j b tl Hj. rewrite lookup_app_l by (rewrite length_fmap; by apply lookup_lt_Some in Hj).
      by rewrite list_lookup_fmap, Hj. }
    rewrite (Hb _ _ _ H1), (Hb _ _ _ H2). cbn [default from_option id].
    apply word_of_bytes. by apply (Forall_lookup_1 _ _ _ _ Hx Hxi).
  - rewrite lookup_seq_ge, lookup_ge_None_2 by (rewrite ?length_take; lia). done.
Qed.

Lemma sensorcal_roundtrip_witness :
  let t : device_tree := {[ IDME_OF_SENSORCAL := {["value" := Some (str "12FFf501" ++ [0])]} ]} in
  let lower : device_tree := {[ IDME_OF_SENSORCAL := {["value" := Some (str "12fff501" ++ [0])]} ]} in
  idme_get_sensorcal (replicate 96 7) t [5; 5; 5] 2 = idme_get_sensorcal (replicate 96 7) lower [5; 5; 5] 2 /\
  exists g, idme_get_sensorcal (replicate 96 7) lower [5; 5; 5] 2 = Ret (g, [-238; 501; 5], 0).
Proof.
  intros t lower. split; [vm_compute; reflexivity|].
  destruct (sensorcal_roundtrip (replicate 96 7) lower [5; 5; 5] 2 [-238; 501] []) as [g Hg];
    [vm_compute; reflexivity|repeat constructor; lia|cbn; lia|lia|cbn; lia|cbn; lia|].
  exists g. exact Hg.
Defined.

(** The ambient-light calibration, exactly: for a value of n bytes in
    hexadecimal the result is the little-endian word of the first four bytes
    of the shared buffer after the conversion, that is, of the value, then a 0,
    then whatever an earlier conversion left there; and a value of 96 bytes or
    more is written past the end of the buffer. *)
Theorem alscal_exact gbuffer t bs junk :
  has_value t IDME_OF_ALSCAL (hex_of bs ++ 0 :: junk) ->
  Forall (fun b => 0 <= b < 256) bs -> length gbuffer = 96%nat ->
  (Z.of_nat (length bs) < 96 -> exists gbuffer', idme_get_alscal_value gbuffer t =
     Ret (gbuffer', le_dec (take 4 (bs ++ 0 :: drop (S (length bs)) ((fun b => Z.land b 255) <$> gbuffer))))) /\
  (96 <= Z.of_nat (length bs) -> idme_get_alscal_value gbuffer t = Oops).
Proof.
  intros Hv Hb Hg. unfold has_value in Hv. split; [intros Hlt; eexists|intros Hge]; unfold idme_get_alscal_value;
    rewrite Hv, c_str_ok by (by apply hex_of_c_string); cbn [or_oops mbind outcome_bind];
    rewrite hexToBytes_ok by done; unfold SENSOR_CAL_SIZE;
    destruct (Z.ltb_spec (Z.of_nat (length bs)) 96); try lia; [|done].
  cbn [mbind outcome_bind]. f_equal. f_equal.
  set (g := (s8 <$> bs) ++ 0 :: drop (S (length bs)) gbuffer).
  set (f := fun b => Z.land b 255).
  assert (Hf : f <$> g = bs ++ 0 :: drop (S (length bs)) (f <$> gbuffer)).
  { unfold g. rewrite fmap_app, fmap_cons, fmap_drop, <- list_fmap_compose. f_equal.
    rewrite <- (list_fmap_id bs) at 2. apply list_fmap_ext. intros i b Hi. cbn.
    by apply byte_s8, (Forall_lookup_1 _ _ _ _ Hb Hi). }
  rewrite <- Hf. assert (Hlen : length g = 96%nat).
  { unfold g. rewrite length_app, length_fmap. cbn [length]. rewrite length_drop. lia. }
  clearbody g. destruct g as [|b0 [|b1 [|b2 [|b3 g]]]]; try done. cbn [fmap list_fmap take].
  apply le_word; unfold f; change 255 with (Z.ones 8); rewrite Z.land_ones by lia; apply Z.mod_pos_bound; lia.
Qed.

Lemma alscal_exact_witness :
  let t : device_tree := {[ IDME_OF_ALSCAL := {["value" := Some (str "2a" ++ [0])]} ]} in
  exists g, idme_get_alscal_value (replicate 96 (-1)) t = Ret (g, 0xffff002a).
Proof.
  intros t. destruct (alscal_exact (replicate 96 (-1)) t [42] []) as [H _];
    [vm_compute; reflexivity|repeat constructor; lia|done|].
  destruct H as [g Hg]; [cbn; lia|]. exists g. exact Hg.
Defined.

(** The files of /proc/idme: every one shows the value of a field of the
    device tree and is a regular file nobody may write; mac_sec can be read by
    its owner only, user 1000, whatever the field's permission; another field
    has the field's permission bits without those for writing - unless these
    are none, when the file can be read by everyone. *)
Theorem idme_modes root mkdir children pde :
  pde ∈ (idme_init root mkdir children).1 ->
  exists name node ok pp perm, (name, node, ok) ∈ children /\ pde_name pde = name /\
    of_find_property node "value" = Some pp /\ idme_proc_show pde = default [] pp /\
    of_property_read_u32 node "permission" = inr perm /\
    Z.land (pde_mode pde) S_IWUGO = 0 /\ Z.land (pde_mode pde) S_IFMT = S_IFREG /\
    if bool_decide (name = MAC_SEC_KEY) then pde_mode pde = Z.lor S_IFREG 0x100 /\ pde_uid pde = 1000
    else pde_uid pde = 0 /\
         (0 <= perm < 4096 ->
          pde_mode pde = Z.lor S_IFREG (if wanted perm =? 0 then S_IRUGO else wanted perm)).
Proof.
  unfold idme_init. destruct root; cbn [negb]; [|intros H; by apply elem_of_nil in H].
  destruct mkdir; cbn [negb fst]; [|intros H; by apply elem_of_nil in H].
  rewrite list_elem_of_omap. intros ([[name node] ok] & Hin & Hc). unfold idme_child in Hc.
  destruct (of_find_property node "value") as [pp|] eqn:Hpp; cbn [mbind option_bind] in Hc; [|done].
  destruct (of_property_read_u32 node "permission") as [|perm] eqn:Hperm; [done|].
  destruct (proc_create_data _ _ _ _) as [e|] eqn:He; cbn [mbind option_bind] in Hc; [|done].
  destruct (create_mode _ _ _ _ _ He) as (E & Hreg & Hw & Hm). exists name, node, ok, pp, perm.
  destruct (String.eqb_spec name MAC_SEC_KEY) as [->|Hne].
  - injection Hc as <-. rewrite bool_decide_true by done. rewrite E. cbn. split_and!; try done.
    + by apply Hw.
    + rewrite Hm by (change (u16 0x100) with 0x100; lia). reflexivity.
  - injection Hc as <-. rewrite bool_decide_false by done. rewrite E. cbn. fold (wanted (s32 perm)) in *.
    split_and!; try done; [by apply Hw, wanted_no_write|]. intros Hp. rewrite s32_id in * by lia.
    pose proof (wanted_range perm Hp). rewrite u16_id in * by lia. by apply Hm.
Qed.

Lemma idme_modes_witness :
  exists e, (idme_init true true
    [("serial"%string, {["value" := Some (str "G0"); "permission" := Some (be32_bytes 0)]}, true)]).1 = [e] /\
    Z.land (pde_mode e) S_IWUGO = 0 /\ pde_mode e = Z.lor S_IFREG S_IRUGO.
Proof.
  eexists. split; [vm_compute; reflexivity|].
  split; [|reflexivity].
  destruct (idme_modes true true
    [("serial"%string, {["value" := Some (str "G0"); "permission" := Some (be32_bytes 0)]}, true)]
    (mkPde "serial" (Z.lor S_IFREG S_IRUGO) 0 (Some (str "G0"))))
    as (name & node & ok & pp & perm & _ & _ & _ & _ & _ & H & _).
  - vm_compute. left.
  - exact H.
Defined.

(** The fields of a board id of hexadecimal digits: its type is the number
    of the first four, its revision that of digits 7 and 8, and the device has
    a modem if digit 0 is '0' and digit 5 is '1'. *)
Theorem board_id_fields t ds junk garbage :
  has_value t IDME_OF_BOARD_ID (ds ++ 0 :: junk) -> digits 16 ds -> (9 <= length ds)%nat ->
  idme_get_board_type t = Ret (numeral 16 (take 4 ds)) /\
  idme_get_board_rev t = Ret (numeral 16 (take 2 (drop 7 ds))) /\
  board_has_wan t garbage = Ret ((char_at ds 0 =? 48) && (char_at ds 5 =? 49)).
Proof.
  intros Hv Hds Hl. unfold has_value in Hv.
  assert (Hnz : c_string ds).
  { destruct Hds as (_ & _ & Hd). eapply list.Forall_impl; [exact Hd|]. intros c. apply digit_nonzero. }
  assert (Hpart : forall n k, (0 < k <= 4)%nat -> (n + k <= length ds)%nat ->
    hex_or_0 (take k (drop n ds)) = numeral 16 (take k (drop n ds))).
  { intros n k Hk Hnk. unfold hex_or_0. rewrite kstrtouint_short; [done| |].
    - destruct Hds as (Hb & _ & Hd). split; [done|]. split; [|by apply Forall_take, Forall_drop].
      intros E. apply (f_equal length) in E. rewrite length_take, length_drop in E. cbn in E. lia.
    - rewrite length_take, length_drop. etransitivity; [apply (Z.pow_le_mono_r 16 _ 4); lia|done]. }
  assert (Hcp : forall room n k, (n <= length ds)%nat -> (0 < k)%nat -> Z.of_nat k < room ->
    strlcpy room (Some (ds ++ 0 :: junk)) (Z.of_nat n) (Z.of_nat (S k)) = Ret (take k (drop n ds))).
  { intros room n k Hn Hk Hroom. unfold strlcpy. destruct (Z.ltb_spec (Z.of_nat n) 0); [lia|].
    rewrite Nat2Z.id, drop_app_le, c_str_ok by (done || by apply Forall_drop).
    destruct (Z.eqb_spec (Z.of_nat (S k)) 0); [lia|].
    replace (Z.to_nat (Z.of_nat (S k) - 1)) with k by lia. rewrite length_take.
    destruct (Z.leb_spec (Z.of_nat (k `min` length (drop n ds)) + 1) room); [done|lia]. }
  split_and!.
  - unfold idme_get_board_type. rewrite Hv. change (strlcpy 5 _ 0 5) with (strlcpy 5 (Some (ds ++ 0 :: junk)) (Z.of_nat 0) (Z.of_nat 5)).
    rewrite Hcp by lia. cbn [mbind outcome_bind]. by rewrite (Hpart 0%nat) by lia.
  - unfold idme_get_board_rev. rewrite Hv. change (strlcpy 3 _ 7 3) with (strlcpy 3 (Some (ds ++ 0 :: junk)) (Z.of_nat 7) (Z.of_nat 3)).
    rewrite Hcp by lia. cbn [mbind outcome_bind]. by rewrite Hpart by lia.
  - unfold field_value in Hv. unfold board_has_wan.
    destruct (of_find_node_by_path t IDME_OF_BOARD_ID) as [ap|]; [|done]. cbn [mbind option_bind] in Hv.
    unfold of_get_property in *. destruct (of_find_property ap "value") as [pp|]; [|done].
    cbn [mbind option_bind] in *. rewrite Hv. cbn [default from_option id]. rewrite length_app. cbn [length].
    destruct (Z.leb_spec 2 (Z.of_nat (length ds + S (length junk)))); [|lia].
    rewrite !lookup_app_l by lia. unfold char_at.
    destruct (lookup_lt_is_Some_2 ds 0) as [c ->]; [lia|]. destruct (lookup_lt_is_Some_2 ds 5) as [c' ->]; [lia|].
    cbn. by destruct (c =? 48).
Qed.

Lemma board_id_fields_witness :
  let t : device_tree := {[ IDME_OF_BOARD_ID := {["value" := Some (str "00a4010200010018" ++ [0])]} ]} in
  idme_get_board_type t = Ret 0xa4 /\ idme_get_board_rev t = Ret 0x20 /\ board_has_wan t 0 = Ret true.
Proof.
  intros t.
  destruct (board_id_fields t (str "00a4010200010018") [] 0) as (H1 & H2 & H3);
    [vm_compute; reflexivity| |cbn; lia|].
  - split; [lia|]. split; [done|]. unfold is_digit. repeat constructor; by vm_compute.
  - rewrite H1, H2, H3. split_and!; vm_compute; reflexivity.
Defined.

(** A field that is not there: the readers of the screen, the touch colour,
    the boot mode, the modem and the calibration data answer 0 (no; -1), but
    those of the board type and revision, the battery, the light sensor and the
    flags go on with a null pointer. A node without a value is worse: only the
    calibration data survive it, and the boot mode and the modem depend on a
    variable that was never set. *)
Theorem missing_field gbuffer data size garbage index length :
  (let t : device_tree := ∅ in
   idme_get_lcmid_info t = Ret 0 /\ idme_get_tp_cg_color t = Ret 0 /\ idme_get_bootmode t garbage = Ret 0 /\
   board_has_wan t garbage = Ret false /\ idme_get_sensorcal gbuffer t data size = Ret (gbuffer, data, u32 (-1)) /\
   idme_get_board_type t = Oops /\ idme_get_board_rev t = Oops /\ idme_get_battery_info t index length = Oops /\
   idme_get_alscal_value gbuffer t = Oops /\ idme_get_dev_flags_value t = Oops) /\
  forall t : device_tree,
    (forall path node, t !! path = Some node -> of_find_property node "value" = None) ->
    idme_get_sensorcal gbuffer t data size = Ret (gbuffer, data, u32 (-1)) /\
    (is_Some (t !! IDME_OF_LCM_ID) -> idme_get_lcmid_info t = Oops) /\
    (is_Some (t !! IDME_OF_TPCGCOLOR) -> idme_get_tp_cg_color t = Oops) /\
    (is_Some (t !! BOOT_MODE_IDME_PATH) ->
     idme_get_bootmode t garbage = if 0 <? garbage then Oops else Ret 0) /\
    (is_Some (t !! IDME_OF_BOARD_ID) ->
     board_has_wan t garbage = if 2 <=? garbage then Oops else Ret false).
Proof.
  split; [cbn; split_and!; reflexivity|]. intros t Ht.
  assert (Hn : forall path, field_value t path = None).
  { intros path. unfold field_value, of_find_node_by_path. destruct (t !! path) as [node|] eqn:E; [|done].
    cbn. unfold of_get_property. by rewrite (Ht _ _ E). }
  split; [unfold idme_get_sensorcal; by rewrite Hn|].
  unfold idme_get_lcmid_info, idme_get_tp_cg_color, idme_get_bootmode, board_has_wan, of_find_node_by_path, of_get_property.
  split_and!; intros [node E]; rewrite E, (Ht _ _ E); cbn; by repeat case_match.
Qed.

Lemma missing_field_witness :
  board_has_wan {[ IDME_OF_BOARD_ID := ∅ ]} 6 = Oops /\ idme_get_board_type ∅ = Oops.
Proof.
  destruct (missing_field [] [] 6 6 0 2) as [(_ & _ & _ & _ & _ & H1 & _) H2].
  split; [|exact H1].
  destruct (H2 {[ IDME_OF_BOARD_ID := ∅ ]}) as (_ & _ & _ & _ & H3).
  - intros path node Hn. apply lookup_singleton_Some in Hn as [_ <-]. reflexivity.
  - apply H3. by eexists.
Defined.
