(* ===== verification/Fusb251.v ===== *)
(** * USB-C liquid detection with the FUSB251 (drivers/usb/typec/fusb251/fusb251.c)

    The chip reports over-voltage, floating SBU pins and the resistance of the
    SBU pins against a programmed threshold; the driver polls it, publishes
    dry, wet or wet-with-VBUS and, while wet, keeps the port a limited sink. *)

From Stdlib Require Import String.
From stdpp Require Import base tactics numbers list option gmap strings.
From S2P Require Import Prelude Kstrtox Printf Of LdPort.

(** ** Registers and constants (fusb251.h) *)

Definition FUSB251_DEVICE_ID : Z := 0x80.
Definition FUSB251_PRODUCT_ID : Z := 0x01.
Definition FUSB251_CONTROL : Z := 0x02.
Definition FUSB251_INT_MASK : Z := 0x04.
Definition FUSB251_STATUS : Z := 0x05.
Definition FUSB251_MOSSTATUS : Z := 0x06.
Definition FUSB251_THRESHOLD1 : Z := 0x08.
Definition FUSB251_THRESHOLD2 : Z := 0x09.
Definition FUSB251_RESET : Z := 0x0B.
Definition FUSB251_REG_NUM : Z := 12.
Definition MSK_I_MASK_ALL : Z := 0x3F.
Definition CTL_EN_SBU_DET : Z := 0x04.
Definition CTL_EN_SBUFT_DET : Z := 0x08.
Definition CTL_DISABLE_ALL : Z := 0x00.
Definition RESET_DEVICE : Z := 0x01.
Definition RESET_MOSSTURE : Z := 0x02.
Definition MAX_VOLTAGE : Z := 800.
Definition MAX_RESISTANCE : Z := 1280.

(** The voltage and resistance tables: a code of the chip is an index. *)
Definition sbuft_det_MV_table : list Z := [100; 200; 300; 400; 500; 600; 700; 800].
Definition mos_det_R_table : list Z :=
  [17; 36; 56; 80; 107; 137; 172; 213; 262; 320; 391; 480; 594; 747; 960; 1280].

Fixpoint index_from (table : list Z) (value i : Z) : Z :=
  match table with
  | [] => -1
  | x :: table => if x =? value then i else index_from table value (i + 1)
  end.
Definition fusb251_mos_det_R_convert_reg (value : Z) : Z := index_from mos_det_R_table value 0.
Definition fusb251_sbuft_MV_convert_reg (value : Z) : Z := index_from sbuft_det_MV_table value 0.

(** ** Register access: the shared code *)

Definition fusb251_i2c_read : hw -> Z -> Z -> Z * Z * hw := i2c_read.
Definition fusb251_i2c_write : hw -> Z -> Z -> Z * hw := i2c_write.
Definition fusb251_read_reg : hw -> Z -> Z -> Z * Z * hw := fusb251_i2c_read.
Definition fusb251_write_reg : hw -> Z -> Z -> Z * hw := fusb251_i2c_write.
Definition fusb251_read_interface : hw -> Z -> Z -> Z -> Z * hw := read_interface.
Definition fusb251_config_interface : hw -> Z -> Z -> Z -> Z -> hw := config_interface.

(** ** The device *)

(** [struct fusb251]: [threshold_sbu] is the pair (dry to wet, wet to dry). *)
Record fusb251 := mkFu {
  status_ovp_cc : Z; status_ovp_sbu : Z; mos_status_sbu1 : Z; mos_status_sbu2 : Z;
  mos_status_sbu1_ft : Z; mos_status_sbu2_ft : Z;
  threshold_sbu : Z * Z; threshold_sbuft : Z; work_interval : list Z; det_delay : list Z;
  st_switch : Z; event_ts : Z }.

Definition set_ovp d cc sbu : fusb251 :=
  mkFu cc sbu (mos_status_sbu1 d) (mos_status_sbu2 d) (mos_status_sbu1_ft d) (mos_status_sbu2_ft d)
    (threshold_sbu d) (threshold_sbuft d) (work_interval d) (det_delay d) (st_switch d) (event_ts d).
Definition set_mos_status d sbu1 sbu2 : fusb251 :=
  mkFu (status_ovp_cc d) (status_ovp_sbu d) sbu1 sbu2 (mos_status_sbu1_ft d) (mos_status_sbu2_ft d)
    (threshold_sbu d) (threshold_sbuft d) (work_interval d) (det_delay d) (st_switch d) (event_ts d).
Definition set_ft d sbu1 sbu2 : fusb251 :=
  mkFu (status_ovp_cc d) (status_ovp_sbu d) (mos_status_sbu1 d) (mos_status_sbu2 d) sbu1 sbu2
    (threshold_sbu d) (threshold_sbuft d) (work_interval d) (det_delay d) (st_switch d) (event_ts d).
Definition set_thresholds d sbu sbuft : fusb251 :=
  mkFu (status_ovp_cc d) (status_ovp_sbu d) (mos_status_sbu1 d) (mos_status_sbu2 d)
    (mos_status_sbu1_ft d) (mos_status_sbu2_ft d)
    sbu sbuft (work_interval d) (det_delay d) (st_switch d) (event_ts d).
Definition set_interval d l : fusb251 :=
  mkFu (status_ovp_cc d) (status_ovp_sbu d) (mos_status_sbu1 d) (mos_status_sbu2 d)
    (mos_status_sbu1_ft d) (mos_status_sbu2_ft d)
    (threshold_sbu d) (threshold_sbuft d) l (det_delay d) (st_switch d) (event_ts d).
Definition set_switch d st ts : fusb251 :=
  mkFu (status_ovp_cc d) (status_ovp_sbu d) (mos_status_sbu1 d) (mos_status_sbu2 d)
    (mos_status_sbu1_ft d) (mos_status_sbu2_ft d)
    (threshold_sbu d) (threshold_sbuft d) (work_interval d) (det_delay d) st ts.

#[export] Instance fusb251_ld : LdDevice fusb251 := {|
  ld_state := st_switch; ld_event_ts := event_ts; ld_publish := set_switch |}.
#[export] Instance fusb251_ld_laws : LdDeviceLaws fusb251.
Proof. by split. Qed.

(** ** Set-up *)

(** On a zeroed device. *)
Definition fusb251_parse_dt (np : device_node) : fusb251 :=
  mkFu 0 0 0 0 0 0
    (match of_property_read_u32_array np "threshold_sbu" 2 with
     | inr [a; b] => (s32 a, s32 b)
     | _ => (747, 960)
     end)
    (match of_property_read_u32 np "threshold_sbuft" with inr v => s32 v | inl _ => 100 end)
    (match of_property_read_u32_array np "work_interval" 3 with inr l => s32 <$> l | inl _ => [15; 30; 60] end)
    (match of_property_read_u32_array np "det_delay" 2 with inr l => s32 <$> l | inl _ => [100; 700] end)
    TYPE_DRY 0.

Definition dump_regs : list Z := seqZ 1 FUSB251_REG_NUM.
Definition fusb251_regdump (h : hw) : hw := (dump_loop dump_regs h 0).2.

(** The result and the hardware. *)
Definition fusb251_init (d : fusb251) (h : hw) : hw * Z :=
  let '(ret, h) := fusb251_write_reg h FUSB251_RESET RESET_MOSSTURE in
  if ret <? 0 then (h, -1) else
  let '(ret, h) := fusb251_write_reg h FUSB251_INT_MASK MSK_I_MASK_ALL in
  if ret <? 0 then (h, -1) else
  let h := fusb251_config_interface h FUSB251_THRESHOLD1 0x0F 4
             (fusb251_mos_det_R_convert_reg (threshold_sbu d).1) in
  let h := fusb251_config_interface h FUSB251_THRESHOLD2 0x07 4
             (fusb251_sbuft_MV_convert_reg (threshold_sbuft d)) in
  (fusb251_regdump h, 0).

(** ** Attributes *)

(** A [u32] parsed into an [int]. *)
Definition store_int d (buff : list Z) (set : Z -> option fusb251) : fusb251 * Z :=
  match kstrtouint buff 0 with
  | inl temp => match set (s32 temp) with Some d => (d, Z.of_nat (length buff)) | None => (d, - EINVAL) end
  | inr _ => (d, - EINVAL)
  end.

(** The converted value is kept in an unsigned char, so that [ret >= 0] holds
    whether the value is in the table or not. *)
Definition in_table (convert : Z -> Z) (temp : Z) : bool := 0 <=? u8 (convert temp).

Definition threshold1_sbu_dry2wet_store d buff : fusb251 * Z :=
  store_int d buff (fun temp =>
    if (0 <=? temp) && (temp <=? MAX_RESISTANCE) && in_table fusb251_mos_det_R_convert_reg temp
    then Some (set_thresholds d (temp, (threshold_sbu d).2) (threshold_sbuft d)) else None).
Definition threshold1_sbu_wet2dry_store d buff : fusb251 * Z :=
  store_int d buff (fun temp =>
    if (0 <=? temp) && (temp <=? MAX_RESISTANCE) && in_table fusb251_mos_det_R_convert_reg temp
    then Some (set_thresholds d ((threshold_sbu d).1, temp) (threshold_sbuft d)) else None).

(** This one also programs the chip. *)
Definition threshold2_sbuft_store d (h : hw) buff : fusb251 * hw * Z :=
  match kstrtouint buff 0 with
  | inl temp =>
    let temp := s32 temp in
    if (0 <=? temp) && (temp <=? MAX_VOLTAGE) && in_table fusb251_sbuft_MV_convert_reg temp then
      (set_thresholds d (threshold_sbu d) temp,
       fusb251_config_interface h FUSB251_THRESHOLD2 0x07 4 (u8 (fusb251_sbuft_MV_convert_reg temp)),
       Z.of_nat (length buff))
    else (d, h, - EINVAL)
  | inr _ => (d, h, - EINVAL)
  end.

Definition interval_store (i : nat) d buff : fusb251 * Z :=
  store_int d buff (fun temp => if 0 <=? temp then Some (set_interval d (<[i := temp]> (work_interval d))) else None).
Definition interval_dry_store := interval_store 0.
Definition interval_wet_store := interval_store 1.
Definition interval_wet_vbus_store := interval_store 2.

(** Enabling a detection by hand: one bit of CONTROL. *)
Definition det_store (shift : Z) (h : hw) (buff : list Z) : hw * Z :=
  match kstrtouint buff 0 with
  | inl temp =>
    (fusb251_config_interface h FUSB251_CONTROL 0x01 shift (if s32 temp =? 0 then 0 else 1), Z.of_nat (length buff))
  | inr _ => (h, - EINVAL)
  end.
Definition sbu_det_store := det_store 2.
Definition sbuft_det_store := det_store 3.

Definition show_bit (v : Z) : list Z := show_d (if v =? 0 then 0 else 1).
Definition det_show (reg_ shift : Z) (h : hw) : list Z * hw :=
  let '(temp, h) := fusb251_read_interface h reg_ 0x01 shift in (show_bit temp, h).
Definition sbu_det_show := det_show FUSB251_CONTROL 2.
Definition sbuft_det_show := det_show FUSB251_CONTROL 3.
Definition status_look4sbu_show := det_show FUSB251_STATUS 6.
Definition mos_status_sbu1_show d := show_bit (mos_status_sbu1 d).
Definition mos_status_sbu2_show d := show_bit (mos_status_sbu2 d).
Definition mos_status_sbu1ft_show d := show_bit (mos_status_sbu1_ft d).
Definition mos_status_sbu2ft_show d := show_bit (mos_status_sbu2_ft d).
Definition threshold1_sbu_dry2wet_show d := show_d (threshold_sbu d).1.
Definition threshold1_sbu_wet2dry_show d := show_d (threshold_sbu d).2.
Definition threshold2_sbuft_show d := show_d (threshold_sbuft d).
Definition interval_dry_show d := show_d (work_interval d !!! 0%nat).
Definition interval_wet_show d := show_d (work_interval d !!! 1%nat).
Definition interval_wet_vbus_show d := show_d (work_interval d !!! 2%nat).

Definition regdump_show (h : hw) : list Z * hw :=
  let '(l, h) := dump_loop dump_regs h 0 in (concat (dump_line <$> l), h).

Definition attr_names : list string :=
  ["reset"; "sbu_det"; "sbuft_det"; "status_look4sbu"; "mosstatus_sbu1"; "mosstatus_sbu2";
   "mosstatus_sbu1ft"; "mosstatus_sbu2ft"; "threshold_sbu_dry2wet"; "threshold_sbu_wet2dry";
   "threshold_sbuft"; "interval_dry"; "interval_wet"; "interval_wet_vbus"; "regdump"]%string.
Definition fusb251_create_attr (create : string -> Z) : list string * Z := create_files create attr_names [].
Definition fusb251_delete_attr : list string -> list string := delete_files attr_names.

(** The routine work is cancelled, the chip reset and set up again, the switch
    set to dry; then the work is queued. *)
Definition reset_store (reset_regs : gmap Z Z) (d : fusb251) (h : hw) : fusb251 * hw :=
  let '(ret, h) := fusb251_write_reg h FUSB251_RESET RESET_DEVICE in
  let h := sw_reset reset_regs h ret in
  let '(h, _) := fusb251_init d h in
  (set_switch d TYPE_DRY (event_ts d), h).

(** ** Events, supplies *)

Definition fusb251_report_event : fusb251 -> hw -> Z -> fusb251 * hw := report_event.
Definition fusb251_check_vbus_valid : hw -> bool := check_vbus_valid.
Definition fusb251_limit_charging_current : hw -> bool -> Z * hw := limit_charging_current.
Definition fusb251_select_interval (d : fusb251) (state : Z) : Z := select_interval (work_interval d) state.
Definition fusb251_vbus_detect : fusb251 -> hw -> fusb251 * hw := vbus_detect.

(** ** Detection *)

(** What the chip's registers hold when the driver reads them: STATUS, and
    MOSSTATUS after a floating-pin and after a resistance detection. *)
Record sample := mkSample { s_status : Z; s_float : Z; s_moist : Z }.

(** Two flags of a status register. *)
Definition read_flags (h : hw) (reg_ shift1 shift2 : Z) : Z * Z * hw :=
  let '(a, h) := fusb251_read_interface h reg_ 0x01 shift1 in
  let '(b, h) := fusb251_read_interface h reg_ 0x01 shift2 in
  (a, b, h).

Definition enter_wet (d : fusb251) (h : hw) (event : Z) : fusb251 * hw :=
  let '(d, h) := fusb251_report_event d h event in
  let h := tcpm_typec_change_role h TYPEC_ROLE_SNK in
  (d, (fusb251_limit_charging_current h true).2).
Definition leave_wet (d : fusb251) (h : hw) : fusb251 * hw :=
  let '(d, h) := fusb251_report_event d h TYPE_DRY in
  let h := tcpm_typec_change_role h TYPEC_ROLE_TRY_SNK in
  (d, (fusb251_limit_charging_current h false).2).
(** Still wet: only VBUS may have appeared. *)
Definition stay_wet (d : fusb251) (h : hw) (state : Z) : fusb251 * hw :=
  if fusb251_check_vbus_valid h && negb (state =? TYPE_WET_VBUS)
  then fusb251_report_event d h TYPE_WET_VBUS else fusb251_report_event d h state.

(** The floating-pin detection, up to its result. *)
Definition check_float (d : fusb251) (h : hw) (s : sample) : fusb251 * hw * bool :=
  let h := (fusb251_write_reg h FUSB251_CONTROL CTL_EN_SBUFT_DET).2 in
  let h := set_reg h FUSB251_MOSSTATUS (s_float s) in
  let '(a, b, h) := read_flags h FUSB251_MOSSTATUS 4 5 in
  (set_ft d a b, h, negb (a =? 0) || negb (b =? 0)).
(** The resistance detection. *)
Definition check_moist (d : fusb251) (h : hw) (s : sample) : fusb251 * hw * bool :=
  let h := (fusb251_write_reg h FUSB251_CONTROL CTL_EN_SBU_DET).2 in
  let h := set_reg h FUSB251_MOSSTATUS (s_moist s) in
  let '(a, b, h) := read_flags h FUSB251_MOSSTATUS 2 3 in
  (set_mos_status d a b, h, negb (a =? 0) || negb (b =? 0)).

Definition disable_all (h : hw) : hw := (fusb251_write_reg h FUSB251_CONTROL CTL_DISABLE_ALL).2.
Definition program_threshold (h : hw) (kohm : Z) : hw :=
  fusb251_config_interface h FUSB251_THRESHOLD1 0x0F 4 (fusb251_mos_det_R_convert_reg kohm).

(** The branch of the dry state and the one of the wet states. *)
Definition routine_dry (d : fusb251) (h : hw) (s : sample) (ovp : bool) : fusb251 * hw :=
  if ovp then enter_wet d h TYPE_WET_VBUS else
  let h := program_threshold (disable_all h) (threshold_sbu d).1 in
  let '(d, h, wet) := check_float d h s in
  if wet then enter_wet d h (if fusb251_check_vbus_valid h then TYPE_WET_VBUS else TYPE_WET)
  else fusb251_report_event d h TYPE_DRY.
Definition routine_wet (d : fusb251) (h : hw) (s : sample) (state : Z) (ovp : bool) : fusb251 * hw :=
  if ovp then fusb251_report_event d h TYPE_WET_VBUS else
  let '(d, h, wet) := check_float d (disable_all h) s in
  if wet then stay_wet d h state else
  let h := program_threshold (disable_all h) (threshold_sbu d).2 in
  let '(d, h, wet) := check_moist d h s in
  if negb wet then leave_wet d h else stay_wet d h state.

(** The device, the hardware and the seconds until the next run. *)
Definition fusb251_routine_work (running : bool) (d : fusb251) (h : hw) (s : sample) : fusb251 * hw * Z :=
  if negb running then (d, h, RECHECK_DELAY_SEC) else
  let h := set_reg h FUSB251_STATUS (s_status s) in
  let '(a, b, h) := read_flags h FUSB251_STATUS 0 1 in
  let d := set_ovp d a b in
  let ovp := negb (a =? 0) || negb (b =? 0) in
  let state := st_switch d in
  let '(d, h) := if state =? TYPE_DRY then routine_dry d h s ovp else routine_wet d h s state ovp in
  let h := disable_all h in
  (d, h, fusb251_select_interval d state).

(** ** Probe and shutdown *)

(** The answers of the kernel during a probe. *)
Record probe_env := mkEnv {
  functionality : bool; kzalloc_ok : bool; tcpc : bool; charger : bool; switch_ret : Z; create : string -> Z }.

Definition fusb251_i2c_probe (e : probe_env) (np : device_node) (h : hw) : attached fusb251 * hw * Z :=
  if negb (functionality e) then (detached, h, - ENODEV)
  else if negb (kzalloc_ok e) then (detached, h, - ENOMEM)
  else
    let '(_, id_val, h) := fusb251_read_reg h FUSB251_PRODUCT_ID 0 in
    if negb (id_val =? FUSB251_DEVICE_ID) then (detached, h, - ENODEV)
    else if negb (tcpc e) then (detached, h, - EPROBE_DEFER)
    else if negb (charger e) then (detached, h, - EPROBE_DEFER)
    else
      let d := fusb251_parse_dt np in
      let '(h, ret) := fusb251_init d h in
      if ret <? 0 then (detached, h, ret)
      else if negb (switch_ret e =? 0) then (detached, h, switch_ret e)
      else
        let '(files, ret) := fusb251_create_attr (create e) in
        if ret <? 0 then (detached, h, ret)
        else (mkAtt (Some (set_switch d TYPE_DRY (now h))) true true files true, h, 0).

Definition fusb251_i2c_shutdown : attached fusb251 -> attached fusb251 := ld_shutdown attr_names.
Definition fusb251_vbus_changed : attached fusb251 -> bool := vbus_changed.

(** ** Specification *)

(** One of two flags of a status register is set. *)
Definition flagged (v shift1 shift2 : Z) : bool :=
  negb (field_get (Z.shiftl 0x01 shift1) shift1 v =? 0) || negb (field_get (Z.shiftl 0x01 shift2) shift2 v =? 0).
Definition over_voltage (s : sample) : bool := flagged (s_status s) 0 1.
Definition floats_wet (s : sample) : bool := flagged (s_float s) 4 5.
Definition moist (s : sample) : bool := flagged (s_moist s) 2 3.

(** The published state after a run that starts in [state]. *)
Definition next_state (h : hw) (state : Z) (s : sample) : Z :=
  if over_voltage s then TYPE_WET_VBUS
  else if state =? TYPE_DRY then if floats_wet s then wet_state h else TYPE_DRY
  else if floats_wet s || moist s then if check_vbus_valid h then TYPE_WET_VBUS else state
  else TYPE_DRY.

(** The attributes' settings are the same. *)
Definition same_settings (d d' : fusb251) : Prop :=
  threshold_sbu d' = threshold_sbu d /\ threshold_sbuft d' = threshold_sbuft d /\
  work_interval d' = work_interval d.

(** ** Lemmas *)

(** Where a step of the routine ends: published state, outputs, and the rest
    as it was. *)
Record lands (d : fusb251) (h : hw) (x : fusb251 * hw) (st : Z) (out : option typec_role * option Z) : Prop := {
  la_state : st_switch x.1 = st;
  la_out : (role x.2, iusb x.2) = out;
  la_healthy : healthy x.2;
  la_chg : chg_psy x.2 = chg_psy h;
  la_settings : same_settings d x.1 }.

Lemma lands_from d h d1 h1 x st out :
  same_settings d d1 -> chg_psy h1 = chg_psy h -> lands d1 h1 x st out -> lands d h x st out.
Proof.
  intros (A & B & C) Hc [? ? ? ? (A' & B' & C')]. constructor; try done; [congruence|].
  split_and!; congruence.
Qed.

Lemma report_lands d h e : healthy h -> lands d h (fusb251_report_event d h e) e (role h, iusb h).
Proof.
  intros Hh. pose proof (report_event_state d h e) as E. destruct (report_event_hw d h e) as (_ & F & _ & R & I & C & B).
  unfold fusb251_report_event. constructor; [exact E|by rewrite R, I| |exact C|].
  - destruct Hh as [Hf (r & Hb & Hr)]. split; [congruence|]. exists r. by rewrite B.
  - unfold report_event. destruct (negb _); by split_and!.
Qed.

(** A report followed by a change of the role and of the limit. *)
Lemma switch_lands d h e r en :
  healthy h ->
  let x := (let '(d, h) := fusb251_report_event d h e in
            (d, (limit_charging_current (tcpm_typec_change_role h r) en).2)) in
  lands d h x e (Some r, Some (if en then IUSB_LIMITATION_UA else -1)).
Proof.
  intros Hh. destruct (report_lands d h e Hh) as [S O H1 C E].
  destruct (fusb251_report_event d h e) as [d1 h1]. cbn [fst snd] in *.
  assert (H2 : healthy (tcpm_typec_change_role h1 r)) by exact H1.
  rewrite (limit_healthy _ en H2). by constructor.
Qed.

Lemma stay_wet_lands d h st :
  healthy h -> lands d h (stay_wet d h st) (if check_vbus_valid h then TYPE_WET_VBUS else st) (role h, iusb h).
Proof.
  intros Hh. unfold stay_wet, fusb251_check_vbus_valid. destruct (check_vbus_valid h); cbn [andb].
  - destruct (Z.eqb_spec st TYPE_WET_VBUS) as [->|]; by apply report_lands.
  - by apply report_lands.
Qed.

Lemma read_flags_healthy h r a b :
  faults h = [] ->
  read_flags h r a b = (field_get (Z.shiftl 1 a) a (reg h r), field_get (Z.shiftl 1 b) b (reg h r), h).
Proof. intros Hf. unfold read_flags, fusb251_read_interface. by run_bus Hf. Qed.

(** The register accesses leave the port alone. *)
Lemma same_outside_healthy h h' : same_outside h h' -> healthy h -> healthy h' /\ check_vbus_valid h' = check_vbus_valid h.
Proof.
  intros (F & _ & _ & C & B & _) [Hf (r & Hb & Hr)]. unfold check_vbus_valid. rewrite C.
  split; [|done]. split; [congruence|]. exists r. by rewrite B.
Qed.

Lemma check_float_healthy d h s :
  faults h = [] ->
  exists d' h', check_float d h s = (d', h', floats_wet s) /\ same_settings d d' /\ same_outside h h'.
Proof.
  intros Hf. unfold check_float, fusb251_write_reg, fusb251_i2c_write. run_bus Hf. cbn [snd].
  rewrite read_flags_healthy by exact Hf. rewrite reg_set_eq.
  eexists _, _. split; [reflexivity|]. split; [by split_and!|repeat split].
Qed.

Lemma check_moist_healthy d h s :
  faults h = [] ->
  exists d' h', check_moist d h s = (d', h', moist s) /\ same_settings d d' /\ same_outside h h'.
Proof.
  intros Hf. unfold check_moist, fusb251_write_reg, fusb251_i2c_write. run_bus Hf. cbn [snd].
  rewrite read_flags_healthy by exact Hf. rewrite reg_set_eq.
  eexists _, _. split; [reflexivity|]. split; [by split_and!|repeat split].
Qed.

Lemma disable_all_healthy h :
  faults h = [] -> disable_all h = set_reg h FUSB251_CONTROL 0.
Proof. intros Hf. unfold disable_all, fusb251_write_reg, fusb251_i2c_write. by run_bus Hf. Qed.

Lemma program_healthy h k :
  faults h = [] -> same_outside h (program_threshold h k).
Proof. intros Hf. unfold program_threshold, fusb251_config_interface. run_bus Hf. repeat split. Qed.

Lemma routine_dry_lands d h s :
  healthy h ->
  let st := next_state h TYPE_DRY s in
  lands d h (routine_dry d h s (over_voltage s)) st (next_outputs (st =? TYPE_DRY) TYPE_DRY h).
Proof.
  intros Hh. unfold routine_dry, next_state. destruct (over_voltage s).
  { exact (switch_lands d h TYPE_WET_VBUS TYPEC_ROLE_SNK true Hh). }
  pose proof Hh as [Hf _]. rewrite disable_all_healthy by done.
  set (h1 := program_threshold _ _).
  assert (S1 : same_outside h h1) by (apply (same_outside_trans _ (set_reg h FUSB251_CONTROL 0)); [repeat split|by apply program_healthy]).
  destruct (check_float_healthy d h1 s) as (d2 & h2 & E & C2 & S2); [by destruct S1 as [-> _]|]. rewrite E.
  pose proof (same_outside_trans _ _ _ S1 S2) as S. destruct (same_outside_healthy _ _ S Hh) as [Hh2 Hv].
  destruct S as (_ & R & I & C & _ & _ & _). cbn [TYPE_DRY Z.eqb]. destruct (floats_wet s).
  - unfold fusb251_check_vbus_valid. rewrite Hv. apply (lands_from _ _ d2 h2); [done|done|].
    unfold wet_state. destruct (check_vbus_valid h); [exact (switch_lands d2 h2 TYPE_WET_VBUS TYPEC_ROLE_SNK true Hh2)|
      exact (switch_lands d2 h2 TYPE_WET TYPEC_ROLE_SNK true Hh2)].
  - apply (lands_from _ _ d2 h2); [done|done|]. cbn. rewrite <- R, <- I. by apply report_lands.
Qed.

Lemma routine_wet_lands d h s st :
  healthy h -> st <> TYPE_DRY ->
  let st' := next_state h st s in
  lands d h (routine_wet d h s st (over_voltage s)) st' (next_outputs (st' =? TYPE_DRY) st h).
Proof.
  intros Hh Hne. unfold routine_wet, next_state, next_outputs. destruct (Z.eqb_spec st TYPE_DRY) as [|_]; [done|].
  destruct (over_voltage s); [exact (report_lands d h TYPE_WET_VBUS Hh)|].
  assert (Hstay : forall h1 d1, same_outside h h1 -> same_settings d d1 ->
    lands d h (stay_wet d1 h1 st) (if check_vbus_valid h then TYPE_WET_VBUS else st)
      (if (if check_vbus_valid h then TYPE_WET_VBUS else st) =? TYPE_DRY
       then (Some TYPEC_ROLE_TRY_SNK, Some (-1)) else (role h, iusb h))).
  { intros h1 d1 S1 C1. destruct (same_outside_healthy _ _ S1 Hh) as [H1 Hv]. destruct S1 as (_ & R & I & C & _).
    apply (lands_from _ _ d1 h1); [done|done|]. rewrite <- Hv, <- R, <- I.
    replace ((if check_vbus_valid h1 then TYPE_WET_VBUS else st) =? TYPE_DRY) with false
      by (destruct (check_vbus_valid h1); [done|by symmetry; apply Z.eqb_neq]).
    by apply stay_wet_lands. }
  pose proof Hh as [Hf _]. rewrite disable_all_healthy by done.
  destruct (check_float_healthy d (set_reg h FUSB251_CONTROL 0) s) as (d2 & h2 & E & C2 & S2); [done|]. rewrite E.
  assert (S : same_outside h h2) by (eapply same_outside_trans; [|exact S2]; repeat split).
  destruct (floats_wet s); cbn [orb]; [by apply Hstay|].
  assert (Hf2 : faults h2 = []) by (destruct S as [-> _]; done). rewrite disable_all_healthy by done.
  set (h3 := program_threshold _ _).
  assert (S3 : same_outside h h3).
  { apply (same_outside_trans _ h2); [done|]. apply (same_outside_trans _ (set_reg h2 FUSB251_CONTROL 0)); [repeat split|by apply program_healthy]. }
  destruct (check_moist_healthy d2 h3 s) as (d4 & h4 & E4 & C4 & S4); [by destruct S3 as [-> _]|]. rewrite E4.
  pose proof (same_outside_trans _ _ _ S3 S4) as S5.
  assert (C5 : same_settings d d4) by (destruct C2 as (? & ? & ?), C4 as (? & ? & ?); split_and!; congruence).
  destruct (moist s); cbn [negb]; [by apply Hstay|].
  destruct (same_outside_healthy _ _ S5 Hh) as [H5 _]. destruct S5 as (_ & _ & _ & C & _).
  apply (lands_from _ _ d4 h4); [done|done|]. exact (switch_lands d4 h4 TYPE_DRY TYPEC_ROLE_TRY_SNK false H5).
Qed.

(** The whole run. *)
Lemma fusb_routine_spec d h s :
  healthy h -> valid_state (st_switch d) ->
  exists d' h', fusb251_routine_work true d h s = (d', h', fusb251_select_interval d (st_switch d)) /\
    let st := next_state h (st_switch d) s in
    lands d h (d', h') st (next_outputs (st =? TYPE_DRY) (st_switch d) h) /\ reg h' FUSB251_CONTROL = 0.
Proof.
  intros Hh Hst. pose proof Hh as [Hf _]. unfold fusb251_routine_work. cbn [negb].
  rewrite read_flags_healthy by exact Hf. rewrite reg_set_eq. fold (flagged (s_status s) 0 1) (over_voltage s).
  set (h0 := set_reg h FUSB251_STATUS (s_status s)). set (d0 := set_ovp d _ _).
  assert (H0 : healthy h0) by exact Hh. change (st_switch d0) with (st_switch d).
  assert (L : lands d0 h0 (if st_switch d =? TYPE_DRY then routine_dry d0 h0 s (over_voltage s)
                     else routine_wet d0 h0 s (st_switch d) (over_voltage s))
                (next_state h (st_switch d) s) (next_outputs (next_state h (st_switch d) s =? TYPE_DRY) (st_switch d) h)).
  { destruct (Z.eqb_spec (st_switch d) TYPE_DRY) as [E|N].
    - rewrite E. exact (routine_dry_lands d0 h0 s H0).
    - exact (routine_wet_lands d0 h0 s _ H0 N). }
  destruct (if st_switch d =? TYPE_DRY then _ else _) as [d1 h1].
  pose proof L as [S O H1 C (A1 & A2 & A3)]. cbn [fst snd] in *.
  rewrite disable_all_healthy by apply H1. eexists _, _. split.
  { f_equal. unfold fusb251_select_interval. by rewrite A3. }
  split; [|apply reg_set_eq]. constructor; cbn [fst snd]; [done|done|exact H1|done|by split_and!].
Qed.

(** ** Events *)

(** What can happen between two instants at which no handler is running. *)
Inductive event :=
| EvRoutine (running : bool) (s : sample)
| EvVbus
| EvSupply (v : option (Z + Z))
| EvDry2wet (buff : list Z)
| EvWet2dry (buff : list Z)
| EvSbuft (buff : list Z)
| EvInterval (i : nat) (buff : list Z)
| EvDet (shift : Z) (buff : list Z).

Definition handle (x : fusb251 * hw) (e : event) : fusb251 * hw :=
  let '(d, h) := x in
  match e with
  | EvRoutine running s => (fusb251_routine_work running d h s).1
  | EvVbus => fusb251_vbus_detect d h
  | EvSupply v => (d, set_chg h v)
  | EvDry2wet buff => ((threshold1_sbu_dry2wet_store d buff).1, h)
  | EvWet2dry buff => ((threshold1_sbu_wet2dry_store d buff).1, h)
  | EvSbuft buff => (threshold2_sbuft_store d h buff).1
  | EvInterval i buff => ((interval_store i d buff).1, h)
  | EvDet shift buff => (d, (det_store shift h buff).1)
  end.

Lemma fusb_next_state_valid h st s : valid_state st -> valid_state (next_state h st s).
Proof.
  intros Hst. unfold next_state. destruct (over_voltage s); [right; by right|].
  destruct (st =? TYPE_DRY); [destruct (floats_wet s); [apply wet_state_wet|by left]|].
  destruct (_ || _); [|by left]. destruct (check_vbus_valid h); [right; by right|done].
Qed.

Lemma fusb_handle_ok (x : fusb251 * hw) e :
  healthy x.2 -> valid_state (st_switch x.1) ->
  let y := handle x e in
  healthy y.2 /\ valid_state (st_switch y.1) /\
  (role y.2, iusb y.2) = next_outputs (st_switch y.1 =? TYPE_DRY) (st_switch x.1) x.2.
Proof.
  destruct x as [d h]. intros Hh Hst. cbn [fst snd] in *.
  assert (Hsame : forall d' h', st_switch d' = st_switch d -> healthy h' -> role h' = role h -> iusb h' = iusb h ->
    healthy h' /\ valid_state (st_switch d') /\
    (role h', iusb h') = next_outputs (st_switch d' =? TYPE_DRY) (st_switch d) h).
  { intros d' h' E H' R I. rewrite E. split_and!; [done|done|]. unfold next_outputs. rewrite R, I.
    by destruct (st_switch d =? TYPE_DRY). }
  assert (Hstore : forall buff set, (forall t d', set t = Some d' -> st_switch d' = st_switch d) ->
    st_switch (store_int d buff set).1 = st_switch d).
  { intros buff set Hset. unfold store_int. destruct (kstrtouint buff 0) as [t|]; [|done].
    destruct (set (s32 t)) as [d'|] eqn:E; [by apply Hset in E|done]. }
  destruct e as [running s| |v|buff|buff|buff|i buff|shift buff]; cbn [handle].
  - destruct running; [|by apply Hsame].
    destruct (fusb_routine_spec d h s Hh Hst) as (d' & h' & E & [S O H' _ _] & _). rewrite E. cbn [fst snd] in *.
    rewrite S. split_and!; [done|by apply fusb_next_state_valid|done].
  - exact (vbus_detect_ok d h Hh Hst).
  - by apply Hsame.
  - apply Hsame; [|done..]. apply Hstore. intros t d'. destruct (_ && _); [by intros [= <-]|done].
  - apply Hsame; [|done..]. apply Hstore. intros t d'. destruct (_ && _); [by intros [= <-]|done].
  - unfold threshold2_sbuft_store, fusb251_config_interface. destruct (kstrtouint buff 0); [|by apply Hsame].
    destruct (_ && _); [|by apply Hsame]. pose proof Hh as [Hf _]. run_bus Hf. by apply Hsame.
  - apply Hsame; [|done..]. apply Hstore. intros t d'. destruct (_ <=? _); [by intros [= <-]|done].
  - unfold det_store, fusb251_config_interface. destruct (kstrtouint buff 0); [|by apply Hsame].
    pose proof Hh as [Hf _]. run_bus Hf. by apply Hsame.
Qed.

#[export] Instance fusb251_driver : LdDriver fusb251 event := handle.
#[export] Instance fusb251_driver_laws : LdDriverLaws fusb251 event.
Proof. exact fusb_handle_ok. Qed.

(** ** A dead bus *)

(** At least the next [n] transfers fail. *)
Definition dead (n : nat) (h : hw) : Prop := Forall (fun r => r < 0) (faults h) /\ (n <= length (faults h))%nat.

(** What the port and the battery see. *)
Definition same_port (h h' : hw) : Prop := role h' = role h /\ iusb h' = iusb h /\ bat_psy h' = bat_psy h.

Lemma dead_transfer n h m : dead (S n) h -> exists r h', i2c_transfer h m = (r, h') /\ r < 0 /\ dead n h' /\ same_port h h'.
Proof.
  intros [Hall Hlen]. unfold i2c_transfer. destruct (faults h) as [|r f] eqn:E; [cbn in Hlen; lia|].
  apply list.Forall_cons in Hall as [Hr Hall]. eexists _, _. split; [reflexivity|]. split; [done|].
  split; [split; [done|cbn in *; lia]|by split_and!].
Qed.

Lemma same_port_trans h1 h2 h3 : same_port h1 h2 -> same_port h2 h3 -> same_port h1 h3.
Proof. intros (? & ? & ?) (? & ? & ?). split_and!; congruence. Qed.

Lemma dead_read n h r m s :
  dead (S (S n)) h -> exists h', read_interface h r m s = (0, h') /\ dead n h' /\ same_port h h'.
Proof.
  intros Hd. unfold read_interface, i2c_read, I2C_RETRIES. cbn [i2c_read_loop].
  destruct (dead_transfer _ _ 2 Hd) as (r1 & h1 & -> & Hr1 & Hd1 & S1). destruct (Z.eqb_spec r1 2); [lia|].
  destruct (dead_transfer _ _ 2 Hd1) as (r2 & h2 & -> & Hr2 & Hd2 & S2). destruct (Z.eqb_spec r2 2); [lia|].
  exists h2. unfold field_get. rewrite Z.land_0_l, Z.shiftr_0_l. split_and!; [done|done|by apply (same_port_trans _ h1)].
Qed.

Lemma dead_write n h r v : dead (S n) h -> dead n (i2c_write h r v).2 /\ same_port h (i2c_write h r v).2.
Proof.
  intros Hd. unfold i2c_write. destruct (dead_transfer _ _ 1 Hd) as (r1 & h1 & -> & Hr1 & Hd1 & S1).
  destruct (Z.eqb_spec r1 1); [lia|]. done.
Qed.

Lemma dead_config n h r m s v :
  dead (S (S (S n))) h -> dead n (config_interface h r m s v) /\ same_port h (config_interface h r m s v).
Proof.
  intros Hd. unfold config_interface, i2c_read, I2C_RETRIES. cbn [i2c_read_loop].
  destruct (dead_transfer _ _ 2 Hd) as (r1 & h1 & -> & Hr1 & Hd1 & S1). destruct (Z.eqb_spec r1 2); [lia|].
  destruct (dead_transfer _ _ 2 Hd1) as (r2 & h2 & -> & Hr2 & Hd2 & S2). destruct (Z.eqb_spec r2 2); [lia|].
  destruct (dead_write n h2 r (config_value 0 m s v) Hd2) as [Hd3 S3]. split; [done|].
  apply (same_port_trans _ h2); [by apply (same_port_trans _ h1)|done].
Qed.

Lemma dead_flags n h r a b :
  dead (4 + n) h -> exists h', read_flags h r a b = (0, 0, h') /\ dead n h' /\ same_port h h'.
Proof.
  intros Hd. unfold read_flags, fusb251_read_interface.
  destruct (dead_read (2 + n) h r 1 a Hd) as (h1 & -> & Hd1 & S1).
  destruct (dead_read n h1 r 1 b Hd1) as (h2 & -> & Hd2 & S2).
  exists h2. split_and!; [done|done|by apply (same_port_trans _ h1)].
Qed.

(** A detection whose transfers fail finds nothing. *)
Lemma dead_float n d h s :
  dead (5 + n) h -> exists d' h', check_float d h s = (d', h', false) /\ dead n h' /\ same_port h h' /\
    st_switch d' = st_switch d.
Proof.
  intros Hd. unfold check_float, fusb251_write_reg, fusb251_i2c_write.
  destruct (dead_write (4 + n) h FUSB251_CONTROL CTL_EN_SBUFT_DET Hd) as [Hd1 S1].
  set (h1 := set_reg (i2c_write h FUSB251_CONTROL CTL_EN_SBUFT_DET).2 FUSB251_MOSSTATUS (s_float s)).
  destruct (dead_flags n h1 FUSB251_MOSSTATUS 4 5 Hd1) as (h2 & -> & Hd2 & S2).
  eexists _, h2. split_and!; [reflexivity|done|by apply (same_port_trans _ h1)|done].
Qed.

Lemma dead_moist n d h s :
  dead (5 + n) h -> exists d' h', check_moist d h s = (d', h', false) /\ dead n h' /\ same_port h h' /\
    st_switch d' = st_switch d.
Proof.
  intros Hd. unfold check_moist, fusb251_write_reg, fusb251_i2c_write.
  destruct (dead_write (4 + n) h FUSB251_CONTROL CTL_EN_SBU_DET Hd) as [Hd1 S1].
  set (h1 := set_reg (i2c_write h FUSB251_CONTROL CTL_EN_SBU_DET).2 FUSB251_MOSSTATUS (s_moist s)).
  destruct (dead_flags n h1 FUSB251_MOSSTATUS 2 3 Hd1) as (h2 & -> & Hd2 & S2).
  eexists _, h2. split_and!; [reflexivity|done|by apply (same_port_trans _ h1)|done].
Qed.

(** With nothing read from the chip the detections of a wet state find none,
    and the state is left. *)
Lemma dead_run d h s :
  dead 20 h -> st_switch d <> TYPE_DRY ->
  exists d' h', same_port h h' /\ st_switch d' = st_switch d /\
    (fusb251_routine_work true d h s).1 = ((leave_wet d' h').1, disable_all (leave_wet d' h').2).
Proof.
  intros Hd Hs. unfold fusb251_routine_work. cbn [negb].
  destruct (dead_flags 16 (set_reg h FUSB251_STATUS (s_status s)) FUSB251_STATUS 0 1) as (h1 & -> & Hd1 & S1); [exact Hd|].
  cbn [Z.eqb negb orb]. set (d0 := set_ovp d 0 0). change (st_switch d0) with (st_switch d).
  destruct (Z.eqb_spec (st_switch d) TYPE_DRY) as [|_]; [done|]. unfold routine_wet. unfold disable_all at 1 2.
  unfold fusb251_write_reg, fusb251_i2c_write.
  destruct (dead_write 15 h1 FUSB251_CONTROL CTL_DISABLE_ALL Hd1) as [Hd2 S2].
  set (h2 := (i2c_write h1 FUSB251_CONTROL CTL_DISABLE_ALL).2) in *.
  destruct (dead_float 10 d0 h2 s Hd2) as (d3 & h3 & E3 & Hd3 & S3 & T3). rewrite E3.
  destruct (dead_write 9 h3 FUSB251_CONTROL CTL_DISABLE_ALL Hd3) as [Hd4 S4].
  set (h4 := (i2c_write h3 FUSB251_CONTROL CTL_DISABLE_ALL).2) in *.
  unfold program_threshold, fusb251_config_interface. set (v := fusb251_mos_det_R_convert_reg _).
  destruct (dead_config 6 h4 FUSB251_THRESHOLD1 0x0F 4 v Hd4) as [Hd5 S5].
  set (h5 := config_interface h4 _ _ _ _) in *.
  destruct (dead_moist 1 d3 h5 s Hd5) as (d6 & h6 & E6 & Hd6 & S6 & T6). rewrite E6. cbn [negb].
  exists d6, h6. split; [|split; [by rewrite T6, T3|by destruct (leave_wet d6 h6)]].
  do 5 (eapply same_port_trans; [eassumption|]). exact S6.
Qed.

Lemma leave_wet_outputs d h r :
  bat_psy h = Some r -> 0 <= r ->
  let x := leave_wet d h in
  st_switch x.1 = TYPE_DRY /\ role x.2 = Some TYPEC_ROLE_TRY_SNK /\ iusb x.2 = Some (-1).
Proof.
  intros Hb Hr. unfold leave_wet, fusb251_report_event, fusb251_limit_charging_current.
  pose proof (report_event_state d h TYPE_DRY) as E. destruct (report_event_hw d h TYPE_DRY) as (_ & _ & _ & _ & _ & _ & B).
  destruct (report_event d h TYPE_DRY) as [d1 h1]. cbn [fst snd] in *. unfold limit_charging_current.
  change (bat_psy (tcpm_typec_change_role h1 TYPEC_ROLE_TRY_SNK)) with (bat_psy h1). rewrite B, Hb. cbn [snd].
  destruct (Z.ltb_spec r 0); [lia|]. by split_and!.
Qed.

(** A write changes registers only. *)
Lemma disable_all_outputs h : role (disable_all h) = role h /\ iusb (disable_all h) = iusb h.
Proof.
  unfold disable_all, fusb251_write_reg, fusb251_i2c_write, i2c_write, i2c_transfer.
  destruct (faults h) as [|r f]; cbn; [done|]. by destruct (r =? 1).
Qed.

(** *** Thresholds *)

Lemma index_from_None table n i : n ∉ table -> index_from table n i = -1.
Proof.
  revert i. induction table as [|x table IH]; intros i Hn; cbn [index_from]; [done|].
  apply not_elem_of_cons in Hn as [Hx Hn]. destruct (Z.eqb_spec x n); [congruence|by apply IH].
Qed.

Lemma index_from_Some table n i k :
  NoDup table -> table !! k = Some n -> index_from table n i = i + Z.of_nat k.
Proof.
  revert i k. induction table as [|x table IH]; intros i k Hnd Hk; [done|]. apply NoDup_cons in Hnd as [Hx Hnd].
  cbn [index_from]. destruct k as [|k]; cbn in Hk.
  - injection Hk as ->. rewrite Z.eqb_refl. lia.
  - destruct (Z.eqb_spec x n) as [->|].
    + by apply list_elem_of_lookup_2 in Hk.
    + rewrite (IH (i + 1) k Hnd Hk). lia.
Qed.

Lemma written_bit rv m s v i :
  0 <= i -> Z.testbit (config_value rv m s v) i =
  (Z.testbit rv i && negb (Z.testbit (Z.shiftl m s) i) || Z.testbit (Z.shiftl v s) i) && (i <? 8).
Proof.
  intros Hi. unfold config_value, wrapU. rewrite Z.testbit_mod_pow2 by lia.
  rewrite Z.lor_spec, Z.land_spec, Z.lnot_spec by lia. by rewrite andb_comm.
Qed.

(** The field read back is the low nibble of the value written. *)
Lemma nibble_written rv v : field_get (Z.shiftl 0x0F 4) 4 (config_value rv 0x0F 4 v) = Z.land v 0x0F.
Proof.
  unfold field_get. apply Z.bits_inj'. intros i Hi.
  rewrite Z.shiftr_spec, !Z.land_spec, written_bit by lia. rewrite !Z.shiftl_spec by lia.
  replace (i + 4 - 4) with i by lia. change 0x0F with (Z.ones 4). rewrite Z.testbit_ones by lia.
  destruct (Z.leb_spec 0 i), (Z.ltb_spec i 4), (Z.ltb_spec (i + 4) 8); try lia; cbn; bool_cases.
Qed.

(** Writing an all-ones byte at bit 4 sets the whole upper nibble. *)
Lemma upper_nibble_set rv i : 4 <= i < 8 -> Z.testbit (config_value rv 0x07 4 255) i = true.
Proof.
  intros Hi. rewrite written_bit by lia. rewrite !Z.shiftl_spec by lia.
  change 255 with (Z.ones 8). rewrite (Z.testbit_ones 8) by lia.
  destruct (Z.leb_spec 0 (i - 4)), (Z.ltb_spec (i - 4) 8), (Z.ltb_spec i 8); try lia; bool_cases.
Qed.

(** ** Properties *)

(** C25. One run of the detection work, on a working bus and from any published
    state, publishes what the chip's flags decide: an over-voltage is
    wet-with-VBUS; a dry port becomes wet by its floating pins alone, a wet one
    becomes dry only if neither the floating pins nor the resistance against
    the second threshold is flagged. Role and limit change only on the way into
    and out of dry, every detection is left disabled, and the next run is due
    after the interval of the OLD state. *)
Theorem fusb251_refines d h s :
  healthy h -> valid_state (st_switch d) ->
  let x := fusb251_routine_work true d h s in
  let st := next_state h (st_switch d) s in
  st_switch x.1.1 = st /\
  (role x.1.2, iusb x.1.2) = next_outputs (st =? TYPE_DRY) (st_switch d) h /\
  reg x.1.2 FUSB251_CONTROL = 0 /\ same_settings d x.1.1 /\
  x.2 = fusb251_select_interval d (st_switch d).
Proof.
  intros Hh Hst. destruct (fusb_routine_spec d h s Hh Hst) as (d' & h' & E & [S O _ _ C] & R). cbv zeta. rewrite E.
  by split_and!.
Qed.

(** Whatever sequence of runs, VBUS works, supply changes and attribute
    writes the driver serves one after the other, the port is a limited sink
    exactly while a wet state is published. *)
Theorem fusb251_protection d h es :
  consistent (d, h) ->
  let x := foldl handle (d, h) es in
  valid_state (st_switch x.1) /\ (protected x.2 <-> st_switch x.1 <> TYPE_DRY).
Proof. intros Hc. exact (consistent_iff _ (driver_consistent es (d, h) Hc)). Qed.

(** A failing bus reads as dry: while a wet state is published and the
    next 20 transfers fail, a run publishes dry, makes the port a normal sink
    again and lifts the current limit, whatever the chip would have reported. *)
Theorem bus_failure_reads_dry d h s r :
  dead 20 h -> bat_psy h = Some r -> 0 <= r -> st_switch d <> TYPE_DRY ->
  let x := (fusb251_routine_work true d h s).1 in
  st_switch x.1 = TYPE_DRY /\ role x.2 = Some TYPEC_ROLE_TRY_SNK /\ iusb x.2 = Some (-1).
Proof.
  intros Hd Hb Hr Hs. destruct (dead_run d h s Hd Hs) as (d' & h' & (_ & _ & B) & _ & E). cbv zeta. rewrite E. cbn [fst snd].
  destruct (disable_all_outputs (leave_wet d' h').2) as [-> ->].
  apply (leave_wet_outputs d' h' r); [congruence|done].
Qed.

(** The threshold attributes accept every value up to the maximum, in the
    table or not: the code -1 of an unknown value is kept in an unsigned char,
    so the test for it never fires. The next dry run then programs the nibble
    15, the threshold of 1280 kOhm, and the floating-voltage attribute sets the
    bit above its field as well; a value of the table is programmed as its
    index. *)
Theorem thresholds_unchecked d h buff n :
  faults h = [] -> kstrtouint buff 0 = inl n -> 0 <= n <= MAX_RESISTANCE ->
  threshold1_sbu_dry2wet_store d buff =
    (set_thresholds d (n, (threshold_sbu d).2) (threshold_sbuft d), Z.of_nat (length buff)) /\
  field_get 0xF0 4 (reg (program_threshold h n) FUSB251_THRESHOLD1) =
    (if decide (n ∈ mos_det_R_table) then fusb251_mos_det_R_convert_reg n else 15) /\
  (forall i, mos_det_R_table !! i = Some n -> fusb251_mos_det_R_convert_reg n = Z.of_nat i) /\
  (n <= MAX_VOLTAGE -> n ∉ sbuft_det_MV_table ->
    let '(d', h', ret) := threshold2_sbuft_store d h buff in
    threshold_sbuft d' = n /\ ret = Z.of_nat (length buff) /\
    forall i, 4 <= i < 8 -> Z.testbit (reg h' FUSB251_THRESHOLD2) i = true).
Proof.
  intros Hf Hk Hn. unfold MAX_RESISTANCE, MAX_VOLTAGE in *.
  assert (Hs : s32 n = n) by (apply wrapS_id; lia).
  assert (Hu : forall c v, in_table c v = true) by (intros c v; by apply Z.leb_le, (wrapU_range 8)).
  assert (Hi : forall i, mos_det_R_table !! i = Some n -> fusb251_mos_det_R_convert_reg n = Z.of_nat i).
  { intros i Hi. apply (index_from_Some _ _ 0); [by apply (bool_decide_unpack _)|done]. }
  split; [|split; [|split; [exact Hi|]]].
  - unfold threshold1_sbu_dry2wet_store, store_int. rewrite Hk, Hs, Hu.
    unfold MAX_RESISTANCE. zcases; lia || done.
  - unfold program_threshold, fusb251_config_interface. run_bus Hf. rewrite reg_set_eq.
    change 0xF0 with (Z.shiftl 0x0F 4). rewrite nibble_written. destruct (decide _) as [Hin|Hout].
    + apply list_elem_of_lookup in Hin as [i Hl]. rewrite (Hi i Hl).
      apply lookup_lt_Some in Hl. cbn in Hl. rewrite <- (wrapU_id 4 (Z.of_nat i)) at 2 by lia.
      unfold wrapU. by rewrite <- Z.land_ones by lia.
    + unfold fusb251_mos_det_R_convert_reg. by rewrite index_from_None by done.
  - intros Hv Hout. unfold threshold2_sbuft_store, fusb251_config_interface. rewrite Hk. cbv zeta. rewrite Hs, Hu.
    unfold MAX_VOLTAGE. destruct (Z.leb_spec 0 n), (Z.leb_spec n 800); try lia. cbn [andb].
    run_bus Hf. split; [done|split; [done|]]. intros i Hi4. rewrite reg_set_eq.
    unfold fusb251_sbuft_MV_convert_reg. rewrite index_from_None by done. by apply upper_nibble_set.
Qed.

(** ** The properties at concrete inputs *)

Definition ex_fu (st : Z) : fusb251 := set_switch (mkFu 0 0 0 0 0 0 (747, 960) 100 [15; 30; 60] [100; 700] TYPE_DRY 0) st 0.
Definition ex_fu_hw (f : list Z) (r : option typec_role) (l : option Z) (vbus : Z) : hw :=
  mkHw {[ FUSB251_PRODUCT_ID := 0x80 ]} f (mos_init, mos_init) r l (Some (inl vbus)) (Some 0) 0 [].
Definition ex_floating : sample := mkSample 0 0x10 0.
Definition ex_moist : sample := mkSample 0 0 0x04.
Definition ex_dry : sample := mkSample 0 0 0.

Lemma ex_fu_healthy r l v : healthy (ex_fu_hw [] r l v).
Proof. split; [done|]. by exists 0. Qed.

(** Floating pins make a dry port wet; a resistance alone does not. *)
Lemma fusb251_refines_witness :
  let run s := fusb251_routine_work true (ex_fu TYPE_DRY) (ex_fu_hw [] None None 5000) s in
  st_switch (run ex_floating).1.1 = TYPE_WET_VBUS /\ (run ex_floating).2 = 15 /\
  st_switch (run ex_moist).1.1 = TYPE_DRY.
Proof.
  destruct (fusb251_refines (ex_fu TYPE_DRY) (ex_fu_hw [] None None 5000) ex_floating
              (ex_fu_healthy _ _ _) (or_introl eq_refl)) as (E & _ & _ & _ & I).
  destruct (fusb251_refines (ex_fu TYPE_DRY) (ex_fu_hw [] None None 5000) ex_moist
              (ex_fu_healthy _ _ _) (or_introl eq_refl)) as (E2 & _).
  cbv beta zeta. rewrite E, I, E2. by split_and!.
Defined.

Lemma fusb251_protection_witness :
  let es := [EvRoutine true ex_floating; EvSupply (Some (inr (-5))); EvVbus; EvDry2wet (str "700"); EvRoutine true ex_moist;
             EvRoutine true ex_dry; EvRoutine true ex_floating] in
  let x := foldl handle (ex_fu TYPE_DRY, ex_fu_hw [] None None 5000) es in
  st_switch x.1 = TYPE_WET /\ protected x.2.
Proof.
  intros es x.
  assert (Hc : consistent (ex_fu TYPE_DRY, ex_fu_hw [] None None 5000)).
  { split; [apply ex_fu_healthy|]. split; [by left|]. by split; [split|]. }
  destruct (fusb251_protection _ _ es Hc) as [_ P]. fold x in P.
  assert (E : st_switch x.1 = TYPE_WET) by (vm_compute; reflexivity).
  split; [exact E|]. apply P. by rewrite E.
Defined.

Lemma bus_failure_reads_dry_witness :
  let h := ex_fu_hw (replicate 20 (-5)) (Some TYPEC_ROLE_SNK) (Some IUSB_LIMITATION_UA) 5000 in
  protected h /\ iusb (fusb251_routine_work true (ex_fu TYPE_WET) h (mkSample 3 0x30 0x0C)).1.2 = Some (-1).
Proof.
  intros h. split; [done|].
  refine (proj2 (proj2 (bus_failure_reads_dry (ex_fu TYPE_WET) h (mkSample 3 0x30 0x0C) 0 _ eq_refl _ _))); [|done|done].
  split; [|cbn; lia]. by apply (bool_decide_unpack _).
Defined.

Lemma thresholds_unchecked_witness :
  let h := ex_fu_hw [] None None 0 in
  (threshold1_sbu_dry2wet_store (ex_fu TYPE_DRY) (str "500")).2 = 3 /\
  field_get 0xF0 4 (reg (program_threshold h 500) FUSB251_THRESHOLD1) = 15 /\
  (threshold2_sbuft_store (ex_fu TYPE_DRY) h (str "250")).2 = 3.
Proof.
  intros h.
  destruct (thresholds_unchecked (ex_fu TYPE_DRY) h (str "500") 500 eq_refl eq_refl ltac:(unfold MAX_RESISTANCE; lia))
    as (E & F & _). rewrite E, F. split; [reflexivity|]. split; [reflexivity|].
  destruct (thresholds_unchecked (ex_fu TYPE_DRY) h (str "250") 250 eq_refl eq_refl ltac:(unfold MAX_RESISTANCE; lia))
    as (_ & _ & _ & G). specialize (G ltac:(unfold MAX_VOLTAGE; lia) ltac:(by apply (bool_decide_unpack _))).
  destruct (threshold2_sbuft_store _ _ _) as [[? ?] ?]. apply G.
Defined.
