(* ===== verification/Pubadc.v ===== *)
(** * The shared ADC channel (drivers/usb/typec/pubadc_manage/pubadc_manage.c)

    One ADC channel serves the battery's identity pin and the liquid detection
    through a multiplexer. The manager remembers which of the two it last
    selected and switches only when another is asked for. *)

From Stdlib Require Import String.
From stdpp Require Import base tactics numbers list option strings.
From S2P Require Import Prelude Kstrtox Of LdPort.

(** [enum PUBADC_TYPE] (pubadc_manage.h). *)
Inductive PUBADC_TYPE := PUBADC_NONE | PUBADC_BAT_ID | PUBADC_LIQUID.
#[export] Instance pubadc_type_eq_dec : EqDecision PUBADC_TYPE.
Proof. solve_decision. Defined.

(** Where the multiplexer connects the channel, and the channel that is read:
    the manager's or the caller's own. *)
Inductive mux_input := MuxBattery | MuxLiquid.
Inductive adc_channel := ChPublic | ChOwn.

(** [struct public_adc] with the function's static, the position of the
    multiplexer and the results of the next [pinctrl_select_state] (after them
    every selection succeeds). *)
Record public_adc := mkPub {
  init_state : bool; last_pubadc_type : PUBADC_TYPE; mux : mux_input; pin_faults : list Z }.

Definition get_pubadc_init_state (p : public_adc) : bool := init_state p.

(** A failed selection leaves the multiplexer where it is. *)
Definition select_mux (p : public_adc) (m : mux_input) : public_adc :=
  match pin_faults p with
  | r :: f => mkPub (init_state p) (last_pubadc_type p) (if r <? 0 then mux p else m) f
  | [] => mkPub (init_state p) (last_pubadc_type p) m []
  end.
Definition set_last (p : public_adc) t : public_adc := mkPub (init_state p) t (mux p) (pin_faults p).

(** What the channels read at an instant: a value or an error. *)
Definition analog : Type := adc_channel -> mux_input -> Z + Z.

Definition pubadc_iio_read_channel (p : public_adc) (a : analog) (type : PUBADC_TYPE) : public_adc * (Z + Z) :=
  if init_state p then
    let p := if decide (last_pubadc_type p = type) then p
             else set_last (select_mux p (if decide (type = PUBADC_LIQUID) then MuxLiquid else MuxBattery)) type in
    (p, a ChPublic (mux p))
  else (p, a ChOwn (mux p)).

(** ** Identity *)

(** The GPIOs of a node: their numbers, and the result of requesting one and
    its level. *)
Record gpio_env := mkGpio { named_gpio : nat -> Z; gpio_request : Z -> Z; gpio_value : Z -> Z }.
Definition read_id_gpio (g : gpio_env) (i : nat) : option Z :=
  let n := named_gpio g i in
  if negb (gpio_is_valid n) then None
  else if negb (gpio_request g n =? 0) then None else Some (gpio_value g n).

(** 0 when one of the two cannot be read. *)
Definition pubadc_get_id (g : gpio_env) : Z :=
  match read_id_gpio g 0, read_id_gpio g 1 with
  | Some liquid_id0, Some liquid_id1 => u8 (Z.lor (Z.shiftl liquid_id1 1) liquid_id0)
  | _, _ => 0
  end.

Definition pubadc_check_id (np : device_node) (g : gpio_env) : bool :=
  match of_property_read_u8 np "pubadc_dts_id" with
  | inr pubadc_dts_id => pubadc_dts_id =? pubadc_get_id g
  | inl _ => false
  end.

(** ** Probe *)

(** The pin control, its two states and the channel are found. *)
Record pubadc_env := mkPubEnv { pinctrl_ok : bool; bat_id_ok : bool; liquid_ok : bool; channel_ok : bool }.

Definition pubadc_pinctrl_init (e : pubadc_env) (p : public_adc) : public_adc * Z :=
  if negb (pinctrl_ok e) then (p, -1)
  else if negb (bat_id_ok e) then (p, -1)
  else if negb (liquid_ok e) then (p, -1)
  else (select_mux p MuxBattery, 0).

Definition pubadc_get_auxadc_channel (e : pubadc_env) : Z := if channel_ok e then 0 else -1.

Definition set_init (p : public_adc) (b : bool) : public_adc := mkPub b (last_pubadc_type p) (mux p) (pin_faults p).

Definition pubadc_probe (e : pubadc_env) (np : device_node) (g : gpio_env) (p : public_adc) : public_adc * Z :=
  if negb (pubadc_check_id np g) then (set_init p false, - ENODEV) else
  let '(p, ret) := pubadc_pinctrl_init e p in
  if negb (ret =? 0) then (set_init p false, - ENODEV) else
  if negb (pubadc_get_auxadc_channel e =? 0) then (set_init p false, - ENODEV)
  else (set_init p true, 0).

(** The module as it is loaded, over a multiplexer left anywhere. *)
Definition pubadc_loaded (m : mux_input) (f : list Z) : public_adc := mkPub false PUBADC_BAT_ID m f.

(** Requests one after the other, with what the channels read at each. *)
Fixpoint pubadc_reads (p : public_adc) (rs : list (analog * PUBADC_TYPE)) : public_adc * list (Z + Z) :=
  match rs with
  | [] => (p, [])
  | (a, t) :: rs =>
    let '(p, v) := pubadc_iio_read_channel p a t in
    let '(p, vs) := pubadc_reads p rs in (p, v :: vs)
  end.

(** ** Specification: each kind of request has an input of its own *)

Definition input_of (t : PUBADC_TYPE) : mux_input := if decide (t = PUBADC_LIQUID) then MuxLiquid else MuxBattery.
Definition routed (p : public_adc) : Prop :=
  init_state p = true /\ mux p = input_of (last_pubadc_type p) /\ pin_faults p = [].

(** ** Lemmas *)

Lemma read_routed p a t :
  routed p -> exists p', pubadc_iio_read_channel p a t = (p', a ChPublic (input_of t)) /\ routed p'.
Proof.
  intros (I & M & F). unfold pubadc_iio_read_channel. rewrite I. destruct (decide _) as [<-|].
  - exists p. by rewrite M.
  - unfold select_mux. rewrite F. fold (input_of t). by eexists.
Qed.

Lemma reads_routed rs : forall p, routed p ->
  exists p', pubadc_reads p rs = (p', (fun r => r.1 ChPublic (input_of r.2)) <$> rs) /\ routed p'.
Proof.
  induction rs as [|[a t] rs IH]; intros p Hp; [by exists p|]. cbn [pubadc_reads fmap list_fmap fst snd].
  destruct (read_routed p a t Hp) as (p1 & -> & Hp1). destruct (IH p1 Hp1) as (p2 & -> & Hp2). by exists p2.
Qed.

Lemma pubadc_probe_ok e np g p :
  (pubadc_probe e np g p).2 = 0 ->
  (pubadc_probe e np g p).1 = set_init (select_mux p MuxBattery) true.
Proof.
  unfold pubadc_probe, pubadc_pinctrl_init, pubadc_get_auxadc_channel.
  destruct (pubadc_check_id np g); [cbn [negb]|done].
  destruct (pinctrl_ok e), (bat_id_ok e), (liquid_ok e), (channel_ok e); cbn; done.
Qed.

Lemma probe_failed e np g p :
  (pubadc_probe e np g p).2 <> 0 -> init_state (pubadc_probe e np g p).1 = false.
Proof.
  unfold pubadc_probe, pubadc_pinctrl_init, pubadc_get_auxadc_channel.
  destruct (pubadc_check_id np g); [cbn [negb]|done].
  destruct (pinctrl_ok e), (bat_id_ok e), (liquid_ok e), (channel_ok e); cbn; done.
Qed.

Lemma loaded_routed e np g m :
  (pubadc_probe e np g (pubadc_loaded m [])).2 = 0 -> routed (pubadc_probe e np g (pubadc_loaded m [])).1.
Proof. intros H. by rewrite (pubadc_probe_ok _ _ _ _ H). Qed.

(** The manager takes the multiplexer to be elsewhere than it is. *)
Definition misrouted (p : public_adc) : Prop :=
  init_state p = true /\ mux p = MuxBattery /\ last_pubadc_type p = PUBADC_LIQUID.

Lemma reads_misrouted l : forall p, misrouted p ->
  pubadc_reads p ((fun a => (a, PUBADC_LIQUID)) <$> l) = (p, (fun a => a ChPublic MuxBattery) <$> l).
Proof.
  induction l as [|a l IH]; intros p (I & M & L); [done|]. cbn [pubadc_reads fmap list_fmap].
  unfold pubadc_iio_read_channel. rewrite I, L, decide_True by done. rewrite M.
  rewrite IH by done. done.
Qed.

(** ** Properties *)

(** C28. On a freshly loaded module, once the manager is probed, the multiplexer
    is invisible as long as its selections succeed: whatever requests of the two users come in which order,
    each gets what its own input holds at that instant; and a probe that fails
    leaves every user on its own channel. *)
Theorem inputs_separate e np g m rs :
  let p := pubadc_probe e np g (pubadc_loaded m []) in
  (p.2 = 0 -> (pubadc_reads p.1 rs).2 = (fun r => r.1 ChPublic (input_of r.2)) <$> rs) /\
  (p.2 <> 0 -> (pubadc_reads p.1 rs).2 = (fun r => r.1 ChOwn (mux p.1)) <$> rs).
Proof.
  intros p. split; intros H.
  - destruct (reads_routed rs p.1 (loaded_routed _ _ _ _ H)) as (p' & -> & _). done.
  - assert (Hown : forall q, init_state q = false -> pubadc_reads q rs = (q, (fun r => r.1 ChOwn (mux q)) <$> rs)).
    { induction rs as [|[a t] rs IH]; intros q Hq; [done|]. cbn [pubadc_reads].
      unfold pubadc_iio_read_channel. rewrite Hq, IH by done. done. }
    by rewrite Hown by (by apply probe_failed).
Qed.

(** The memory of the last selection survives what it describes: after a
    liquid reading, probing the manager once more puts the multiplexer on the
    battery's pin but every further liquid reading, however many, is taken
    there; and so it is when the selection of a first liquid reading fails. *)
Theorem stale_selection_misreads e np g p a l :
  routed p ->
  (let q := pubadc_probe e np g (pubadc_iio_read_channel p a PUBADC_LIQUID).1 in
   q.2 = 0 ->
   (pubadc_reads q.1 ((fun a => (a, PUBADC_LIQUID)) <$> l)).2 = (fun a => a ChPublic MuxBattery) <$> l) /\
  (last_pubadc_type p <> PUBADC_LIQUID -> forall r f, r < 0 ->
   let q := mkPub true (last_pubadc_type p) (mux p) (r :: f) in
   (pubadc_reads q ((fun a => (a, PUBADC_LIQUID)) <$> l)).2 = (fun a => a ChPublic MuxBattery) <$> l).
Proof.
  intros (I & M & F). split.
  - intros q Hq. subst q. rewrite (pubadc_probe_ok _ _ _ _ Hq). rewrite reads_misrouted; [done|].
    unfold pubadc_iio_read_channel. rewrite I. destruct (decide _) as [E|N]; cbn [fst].
    + unfold select_mux. rewrite F. by split_and!.
    + rewrite decide_True by done. unfold select_mux. rewrite F. by split_and!.
  - intros Hl r f Hr q. destruct l as [|a' l]; [done|]. cbn [fmap list_fmap pubadc_reads].
    unfold pubadc_iio_read_channel at 1. cbn [q init_state last_pubadc_type]. rewrite decide_False by done.
    unfold select_mux. cbn [pin_faults q mux init_state last_pubadc_type]. destruct (Z.ltb_spec r 0); [|lia].
    cbn [set_last mux init_state pin_faults last_pubadc_type].
    assert (Mb : mux p = MuxBattery) by (rewrite M; unfold input_of; by rewrite decide_False).
    rewrite Mb, reads_misrouted by done. done.
Qed.

(** ** The properties at concrete inputs *)

Definition ex_gpio : gpio_env := mkGpio (fun i => 26 + 2 * Z.of_nat i) (fun _ => 0) (fun n => if n =? 28 then 1 else 0).
Definition ex_pub_node : device_node := {[ "pubadc_dts_id"%string := Some [2] ]}.
Definition ex_pub_env : pubadc_env := mkPubEnv true true true true.
Definition ex_analog (bat liq : Z) : analog := fun _ m => inl (match m with MuxBattery => bat | MuxLiquid => liq end).

Lemma inputs_separate_witness :
  (pubadc_reads (pubadc_probe ex_pub_env ex_pub_node ex_gpio (pubadc_loaded MuxLiquid [])).1
    [(ex_analog 400 5, PUBADC_LIQUID); (ex_analog 401 7, PUBADC_BAT_ID); (ex_analog 402 9, PUBADC_LIQUID)]).2
  = [inl 5; inl 401; inl 9].
Proof.
  rewrite (proj1 (inputs_separate ex_pub_env ex_pub_node ex_gpio MuxLiquid _)) by (vm_compute; reflexivity).
  reflexivity.
Defined.

Lemma stale_selection_misreads_witness :
  let p := (pubadc_probe ex_pub_env ex_pub_node ex_gpio (pubadc_loaded MuxLiquid [])).1 in
  let q := (pubadc_probe ex_pub_env ex_pub_node ex_gpio (pubadc_iio_read_channel p (ex_analog 400 5) PUBADC_LIQUID).1).1 in
  (pubadc_reads q [(ex_analog 400 5, PUBADC_LIQUID); (ex_analog 401 6, PUBADC_LIQUID)]).2 = [inl 400; inl 401].
Proof.
  intros p q.
  assert (Hp : routed p) by (apply loaded_routed; vm_compute; reflexivity).
  refine (proj1 (stale_selection_misreads ex_pub_env ex_pub_node ex_gpio p (ex_analog 400 5)
            [ex_analog 400 5; ex_analog 401 6] Hp) _).
  vm_compute. reflexivity.
Defined.
