(* ===== verification/AmznLd.v ===== *)
(** * USB-C liquid detection with the ADC (drivers/usb/typec/amzn_ld/amzn_ld.c)

    No chip: the SBU pins are switched onto an ADC channel, shared through
    [Pubadc], first as they are (step 1) and then pulled (step 2). A wet
    reading must repeat within a run and over several runs before the port is
    protected. Modelled as the shipped configuration builds it, with the
    public ADC manager and the Minerva metrics. *)

From Stdlib Require Import String Sorted.
From stdpp Require Import base tactics numbers list option gmap strings.
From S2P Require Import Prelude Kstrtox Printf Of LdPort Pubadc.

Definition CONFIG_PUBADC_MANAGE : bool := true.
Definition CONFIG_AMAZON_MINERVA_METRICS_LOG : bool := true.

Definition ADC_MAX_MV : Z := 1500.
Definition THRESHOLD_VAL_L : Z := 120.
Definition THRESHOLD_VAL_H : Z := 1450.
Definition STEP1_DEFAULT_VAL : Z := 0.
Definition STEP2_DEFAULT_VAL : Z := 1499.

Inductive LD_STATE_CHANGE := STATE_DRY | STATE_DRY_TO_WET | STATE_WET_TO_DRY | STATE_WET.
Inductive LD_DETECTION_SWITCH := DETECTION_SBU1 | DETECTION_SBU2.
Inductive LD_SBU_PULL := SBU1_PULL_UP | SBU1_PULL_DOWN | SBU2_PULL_UP | SBU2_PULL_DOWN.

(** ** The device and the board *)

Record adc_steps := mkSteps { sbu1_step1_val : Z; sbu1_step2_val : Z; sbu2_step1_val : Z; sbu2_step2_val : Z }.

(** [struct liquid]: [threshold] is the pair (low, high), [ld_detection1_low]
    whether that pin state was found (else it is an error pointer). *)
Record liquid := mkLiq {
  gpio_reverse_ctrl : bool; work_interval : list Z; threshold : Z * Z; adc_step_val : adc_steps;
  ld_detection1_low : bool; wet_count_threshold : Z; wet_count : Z; wet_adc : Z;
  falsepositive_event_ts : Z; st_switch : Z; event_ts : Z }.

Definition set_steps (d : liquid) s : liquid :=
  mkLiq (gpio_reverse_ctrl d) (work_interval d) (threshold d) s (ld_detection1_low d)
    (wet_count_threshold d) (wet_count d) (wet_adc d) (falsepositive_event_ts d) (st_switch d) (event_ts d).
Definition set_threshold (d : liquid) t : liquid :=
  mkLiq (gpio_reverse_ctrl d) (work_interval d) t (adc_step_val d) (ld_detection1_low d)
    (wet_count_threshold d) (wet_count d) (wet_adc d) (falsepositive_event_ts d) (st_switch d) (event_ts d).
Definition set_count (d : liquid) c : liquid :=
  mkLiq (gpio_reverse_ctrl d) (work_interval d) (threshold d) (adc_step_val d) (ld_detection1_low d)
    (wet_count_threshold d) c (wet_adc d) (falsepositive_event_ts d) (st_switch d) (event_ts d).
Definition set_wet_adc (d : liquid) v : liquid :=
  mkLiq (gpio_reverse_ctrl d) (work_interval d) (threshold d) (adc_step_val d) (ld_detection1_low d)
    (wet_count_threshold d) (wet_count d) v (falsepositive_event_ts d) (st_switch d) (event_ts d).
Definition set_fp (d : liquid) ts : liquid :=
  mkLiq (gpio_reverse_ctrl d) (work_interval d) (threshold d) (adc_step_val d) (ld_detection1_low d)
    (wet_count_threshold d) (wet_count d) (wet_adc d) ts (st_switch d) (event_ts d).
Definition set_st (d : liquid) st ts : liquid :=
  mkLiq (gpio_reverse_ctrl d) (work_interval d) (threshold d) (adc_step_val d) (ld_detection1_low d)
    (wet_count_threshold d) (wet_count d) (wet_adc d) (falsepositive_event_ts d) st ts.

(** The pins the driver sets: the switch and the two pulls. *)
Inductive pin_state := PinInit | PinLow | PinHigh.
Record ld_pins := mkPins { ctrl1 : pin_state; det1 : pin_state; det2 : pin_state }.

(** The device, its pins, the ADC manager, and the false positives reported
    (the reading and the second). *)
Record board := mkBoard { liq : liquid; pins : ld_pins; pub : public_adc; vitals : list (Z * Z) }.
Definition with_liq (b : board) d : board := mkBoard d (pins b) (pub b) (vitals b).
Definition with_pins (b : board) p : board := mkBoard (liq b) p (pub b) (vitals b).
Definition with_pub (b : board) p : board := mkBoard (liq b) (pins b) p (vitals b).

#[export] Instance board_ld : LdDevice board := {|
  ld_state := fun b => st_switch (liq b); ld_event_ts := fun b => event_ts (liq b);
  ld_publish := fun b st ts => with_liq b (set_st (liq b) st ts) |}.
#[export] Instance board_ld_laws : LdDeviceLaws board.
Proof. by split. Qed.

(** ** Attributes *)

Definition sbu1_step1_val_show (d : liquid) := show_d (sbu1_step1_val (adc_step_val d)).
Definition sbu2_step1_val_show (d : liquid) := show_d (sbu2_step1_val (adc_step_val d)).
Definition sbu1_step2_val_show (d : liquid) := show_d (sbu1_step2_val (adc_step_val d)).
Definition sbu2_step2_val_show (d : liquid) := show_d (sbu2_step2_val (adc_step_val d)).
Definition threshod_l_show (d : liquid) := show_d (s32 (threshold d).1).
Definition threshod_h_show (d : liquid) := show_d (s32 (threshold d).2).
Definition threshod_l_store (d : liquid) (buff : list Z) : liquid * Z :=
  match kstrtouint buff 0 with
  | inl temp => (set_threshold d (temp, (threshold d).2), Z.of_nat (length buff))
  | inr _ => (d, - EINVAL)
  end.
Definition threshod_h_store (d : liquid) (buff : list Z) : liquid * Z :=
  match kstrtouint buff 0 with
  | inl temp => (set_threshold d ((threshold d).1, temp), Z.of_nat (length buff))
  | inr _ => (d, - EINVAL)
  end.

Definition attr_names : list string :=
  ["sbu1_step1_val"; "sbu2_step1_val"; "sbu1_step2_val"; "sbu2_step2_val"; "threshod_l"; "threshod_h"]%string.
Definition liquid_create_attr (create : string -> Z) : list string * Z := create_files create attr_names [].
Definition liquid_delete_attr : list string -> list string := delete_files attr_names.

(** ** Supplies and events: the shared code *)

Definition liquid_report_event : board -> hw -> Z -> board * hw := report_event.
Definition liquid_check_vbus_valid : hw -> bool := check_vbus_valid.
Definition liquid_limit_charging_current : hw -> bool -> Z * hw := limit_charging_current.
Definition liquid_select_interval (d : liquid) (state : Z) : Z := select_interval (work_interval d) state.
Definition liquid_vbus_detect : board -> hw -> board * hw := vbus_detect.

(** ** Measuring *)

(** One reading: the requests of other users before it, and what the channels
    hold when it is taken, by the pins. Errors are negative. *)
Record reading := mkReading { others : list (analog * PUBADC_TYPE); sbu : ld_pins -> analog }.

Definition liquid_get_auxadc_value (b : board) (r : reading) : board * Z :=
  let b := with_pub b (pubadc_reads (pub b) (others r)).1 in
  let '(p, v) := if CONFIG_PUBADC_MANAGE then pubadc_iio_read_channel (pub b) (sbu r (pins b)) PUBADC_LIQUID
                 else (pub b, sbu r (pins b) ChOwn (mux (pub b))) in
  (with_pub b p, match v with inl auxadc_cali_mv => auxadc_cali_mv | inr ret => ret end).

Definition liquid_select_detection_switch (b : board) (s : LD_DETECTION_SWITCH) : board :=
  with_pins b (mkPins (match s with DETECTION_SBU1 => PinHigh | DETECTION_SBU2 => PinLow end)
                 (det1 (pins b)) (det2 (pins b))).

(** Selecting the state that was not found dereferences an error pointer. *)
Definition liquid_en_pull_sbu (b : board) (pull : LD_SBU_PULL) : outcome board :=
  let p := pins b in
  match pull with
  | SBU1_PULL_UP => Ret (with_pins b (mkPins (ctrl1 p) PinHigh (det2 p)))
  | SBU1_PULL_DOWN =>
    if ld_detection1_low (liq b) then Ret (with_pins b (mkPins (ctrl1 p) PinLow (det2 p))) else Oops
  | SBU2_PULL_UP => Ret (with_pins b (mkPins (ctrl1 p) (det1 p) PinHigh))
  | SBU2_PULL_DOWN => Ret (with_pins b (mkPins (ctrl1 p) (det1 p) PinLow))
  end.

Definition liquid_is_in_range (mv range_l range_h : Z) : bool := (range_l <=? mv) && (mv <=? range_h).

Definition put_step1 (b : board) (v1 v2 : Z) : board :=
  let s := adc_step_val (liq b) in
  with_liq b (set_steps (liq b) (mkSteps v1 (sbu1_step2_val s) v2 (sbu2_step2_val s))).
Definition put_step2 (b : board) (v1 v2 : Z) : board :=
  let s := adc_step_val (liq b) in
  with_liq b (set_steps (liq b) (mkSteps (sbu1_step1_val s) v1 (sbu2_step1_val s) v2)).

(** The two readings are returned as well. *)
Definition liquid_get_step1_adcval (b : board) (r1 r2 : reading) : board * Z * Z :=
  let b := liquid_select_detection_switch b DETECTION_SBU1 in
  let '(b, v1) := liquid_get_auxadc_value b r1 in
  let b := liquid_select_detection_switch b DETECTION_SBU2 in
  let '(b, v2) := liquid_get_auxadc_value b r2 in
  (put_step1 b v1 v2, v1, v2).

Definition liquid_get_step2_adcval (b : board) (r1 r2 : reading) : outcome (board * Z * Z) :=
  let reverse := gpio_reverse_ctrl (liq b) in
  let b := liquid_select_detection_switch b DETECTION_SBU1 in
  b ← liquid_en_pull_sbu b (if reverse then SBU1_PULL_DOWN else SBU1_PULL_UP);
  let '(b, v1) := liquid_get_auxadc_value b r1 in
  b ← liquid_en_pull_sbu b (if reverse then SBU1_PULL_UP else SBU1_PULL_DOWN);
  let b := liquid_select_detection_switch b DETECTION_SBU2 in
  b ← liquid_en_pull_sbu b (if reverse then SBU2_PULL_DOWN else SBU2_PULL_UP);
  let '(b, v2) := liquid_get_auxadc_value b r2 in
  b ← liquid_en_pull_sbu b (if reverse then SBU2_PULL_UP else SBU2_PULL_DOWN);
  Ret (put_step2 b v1 v2, v1, v2).

Definition liquid_clear_sbuval (b : board) (step1_val step2_val : Z) : board :=
  with_liq b (set_steps (liq b) (mkSteps step1_val step2_val step1_val step2_val)).

(** ** Reacting *)

Definition liquid_is_dry (b : board) (h : hw) : board * hw :=
  let '(b, h) := liquid_report_event b h TYPE_DRY in
  let h := tcpm_typec_change_role h TYPEC_ROLE_TRY_SNK in
  (b, (liquid_limit_charging_current h false).2).
Definition liquid_is_wet (b : board) (h : hw) : board * hw :=
  let h := tcpm_typec_change_role h TYPEC_ROLE_SNK in
  let h := (liquid_limit_charging_current h true).2 in
  liquid_report_event b h (if liquid_check_vbus_valid h then TYPE_WET_VBUS else TYPE_WET).

Definition metrics_log_report_falsepositive (b : board) (h : hw) : board :=
  if CONFIG_AMAZON_MINERVA_METRICS_LOG then
    let d := liq b in
    let duration_hour := s32 (Z.quot (now h - falsepositive_event_ts d) 3600) in
    if (falsepositive_event_ts d =? 0) || (2 <=? duration_hour)
    then mkBoard (set_fp d (now h)) (pins b) (pub b) (vitals b ++ [(wet_adc d, now h)])
    else b
  else b.

Definition debounce_report_event (b : board) (h : hw) (event : LD_STATE_CHANGE) : board * hw :=
  let d := liq b in
  match event with
  | STATE_DRY =>
    if negb (wet_count d =? 0) && (wet_count d <? wet_count_threshold d)
    then (metrics_log_report_falsepositive (with_liq b (set_count d 0)) h, h)
    else (b, h)
  | STATE_DRY_TO_WET =>
    let count := u32 (wet_count d + 1) in
    if wet_count_threshold d <=? count then liquid_is_wet (with_liq b (set_count d 0)) h
    else (with_liq b (set_count d count), h)
  | STATE_WET => (b, h)
  | STATE_WET_TO_DRY => liquid_is_dry b h
  end.

(** The readings of a run: the third and fourth are those of the repeated
    step 1 or of step 2. *)
Record sample := mkSample { rd1 : reading; rd2 : reading; rd3 : reading; rd4 : reading }.

(** The routine work up to the event it debounces. *)
Definition measure (b : board) (s : sample) (state : Z) : outcome (board * LD_STATE_CHANGE) :=
  let threshold_l := s32 (threshold (liq b)).1 in
  let threshold_h := s32 (threshold (liq b)).2 in
  let wet v1 v2 := liquid_is_in_range v1 threshold_l ADC_MAX_MV || liquid_is_in_range v2 threshold_l ADC_MAX_MV in
  let b := liquid_clear_sbuval b STEP1_DEFAULT_VAL STEP2_DEFAULT_VAL in
  let '(b, adc1_mv, adc2_mv) := liquid_get_step1_adcval b (rd1 s) (rd2 s) in
  if state =? TYPE_DRY then
    if wet adc1_mv adc2_mv then
      let '(b, adc1_mv, adc2_mv) := liquid_get_step1_adcval b (rd3 s) (rd4 s) in
      if wet adc1_mv adc2_mv
      then Ret (with_liq b (set_wet_adc (liq b) (if adc2_mv <? adc1_mv then adc1_mv else adc2_mv)), STATE_DRY_TO_WET)
      else Ret (b, STATE_DRY)
    else Ret (b, STATE_DRY)
  else if wet adc1_mv adc2_mv then Ret (b, STATE_WET)
  else
    '(b, adc1_mv, adc2_mv) ← liquid_get_step2_adcval b (rd3 s) (rd4 s);
    if liquid_is_in_range adc1_mv threshold_h ADC_MAX_MV && liquid_is_in_range adc2_mv threshold_h ADC_MAX_MV
    then Ret (b, STATE_WET_TO_DRY) else Ret (b, STATE_WET).

(** The board, the hardware and the seconds until the next run. *)
Definition liquid_routine_work (running : bool) (b : board) (h : hw) (s : sample) : outcome (board * hw * Z) :=
  if negb running then Ret (b, h, RECHECK_DELAY_SEC) else
  let state := st_switch (liq b) in
  '(b, event) ← measure b s state;
  let '(b, h) := debounce_report_event b h event in
  Ret (b, h, liquid_select_interval (liq b) state).

(** ** Set-up *)

(** The pin states looked up by name; the result of looking up
    "lddetection1_low" is not tested (the test after it repeats the previous
    one). The result, and whether that state was found. *)
Definition pin_names : list string :=
  ["ldctrl1_init"; "ldctrl1_low"; "ldctrl1_high"; "lddetection1_init"; "lddetection1_high";
   "lddetection2_init"; "lddetection2_low"; "lddetection2_high"]%string.
Definition ctrl2_names : list string := ["ldctrl2_init"; "ldctrl2_low"; "ldctrl2_high"]%string.
Definition liquid_pinctrl_init (found : bool) (lookup : string -> bool) (np : device_node) : Z * bool :=
  if negb found then (-1, false)
  else if negb (forallb lookup pin_names) then (-1, false)
  else
    let private_adc := of_property_read_bool np "private_adc" in
    if negb private_adc && negb CONFIG_PUBADC_MANAGE && negb (forallb lookup ctrl2_names) then (-1, false)
    else (0, lookup "lddetection1_low"%string).

(** On a zeroed device. *)
Definition liquid_parse_dt (np : device_node) (detection1_low : bool) : liquid :=
  mkLiq (of_property_read_bool np "gpio_reverse_ctrl")
    (match of_property_read_u32_array np "work_interval" 3 with inr l => l | inl _ => [15; 30; 60] end)
    (match of_property_read_u32_array np "threshold" 2 with
     | inr [l; h] => (l, h)
     | _ => (THRESHOLD_VAL_L, THRESHOLD_VAL_H)
     end)
    (mkSteps 0 0 0 0) detection1_low
    (match of_property_read_u32 np "wet_count_threshold" with inr v => v | inl _ => 2 end)
    0 0 0 TYPE_DRY 0.

Definition liquid_get_id (g : gpio_env) : Z :=
  match read_id_gpio g 0, read_id_gpio g 1 with
  | Some liquid_id0, Some liquid_id1 => u8 (Z.lor (Z.shiftl liquid_id1 1) liquid_id0)
  | _, _ => 0
  end.
Definition liquid_check_id (np : device_node) (g : gpio_env) : bool :=
  if of_property_read_bool np "ignore_id_check" then true
  else match of_property_read_u8 np "liquid_dts_id" with
       | inr liquid_dts_id => liquid_dts_id =? liquid_get_id g
       | inl _ => false
       end.

(** The answers of the kernel during a probe. *)
Record probe_env := mkEnv {
  kzalloc_ok : bool; ld_channel_ok : bool; tcpc : bool; charger : bool; pinctrl_found : bool;
  pin_lookup : string -> bool; switch_ret : Z; create : string -> Z }.
Definition liquid_get_auxadc_channel (e : probe_env) : Z := if ld_channel_ok e then 0 else -1.

(** The charger's notifier is registered before and unregistered after an
    error; only a complete probe leaves anything attached. *)
Definition liquid_probe (e : probe_env) (np : device_node) (g : gpio_env) (p : public_adc) (h : hw)
    : attached board * Z :=
  if negb (kzalloc_ok e) then (detached, - ENOMEM)
  else if negb (if CONFIG_PUBADC_MANAGE then get_pubadc_init_state p else liquid_check_id np g) then (detached, - ENODEV)
  else if negb (liquid_get_auxadc_channel e =? 0) then (detached, - EPROBE_DEFER)
  else if negb (tcpc e) then (detached, - EPROBE_DEFER)
  else if negb (charger e) then (detached, - EPROBE_DEFER)
  else
    let '(ret, detection1_low) := liquid_pinctrl_init (pinctrl_found e) (pin_lookup e) np in
    if negb (ret =? 0) then (detached, - ENODEV)
    else if negb (switch_ret e =? 0) then (detached, switch_ret e)
    else
      let '(files, ret) := liquid_create_attr (create e) in
      if ret <? 0 then (detached, ret)
      else
        let d := set_st (liquid_parse_dt np detection1_low) TYPE_DRY (now h) in
        (mkAtt (Some (mkBoard d (mkPins PinInit PinInit PinInit) p [])) true true files true, 0).

Definition liquid_shutdown : attached board -> attached board := ld_shutdown attr_names.
Definition liquid_vbus_changed : attached board -> bool := vbus_changed.

(** ** Specification *)

(** What the SBU pins hold, whoever else uses the ADC. *)
Definition sbu_value (r : reading) (p : ld_pins) : Z :=
  match sbu r p ChPublic MuxLiquid with inl v => v | inr e => e end.

Definition above (t : Z) (v : Z) : bool := liquid_is_in_range v (s32 t) ADC_MAX_MV.
(** Step 1 finds water on one of the pins. *)
Definition step1_wet (d : liquid) (p : ld_pins) (r1 r2 : reading) : bool :=
  above (threshold d).1 (sbu_value r1 (mkPins PinHigh (det1 p) (det2 p))) ||
  above (threshold d).1 (sbu_value r2 (mkPins PinLow (det1 p) (det2 p))).
(** Step 2 finds both pins pulled up to the high threshold. *)
Definition pull (d : liquid) : pin_state := if gpio_reverse_ctrl d then PinLow else PinHigh.
Definition rest (d : liquid) : pin_state := if gpio_reverse_ctrl d then PinHigh else PinLow.
Definition step2_dry (d : liquid) (p : ld_pins) (r1 r2 : reading) : bool :=
  above (threshold d).2 (sbu_value r1 (mkPins PinHigh (pull d) (det2 p))) &&
  above (threshold d).2 (sbu_value r2 (mkPins PinLow (rest d) (pull d))).

Definition wet_twice (d : liquid) (p : ld_pins) (s : sample) : bool :=
  step1_wet d p (rd1 s) (rd2 s) && step1_wet d p (rd3 s) (rd4 s).
Definition verdict (d : liquid) (p : ld_pins) (s : sample) (state : Z) : LD_STATE_CHANGE :=
  if state =? TYPE_DRY then if wet_twice d p s then STATE_DRY_TO_WET else STATE_DRY
  else if step1_wet d p (rd1 s) (rd2 s) then STATE_WET
  else if step2_dry d p (rd3 s) (rd4 s) then STATE_WET_TO_DRY else STATE_WET.

(** All of the device but the readings. *)
Definition core (d : liquid) :=
  (gpio_reverse_ctrl d, work_interval d, threshold d, ld_detection1_low d, wet_count_threshold d,
   wet_count d, falsepositive_event_ts d, st_switch d, event_ts d).

(** ** Lemmas *)

(** Measuring changes readings, pins and the manager. *)
Definition measured (b b' : board) : Prop := core (liq b') = core (liq b) /\ vitals b' = vitals b.
Lemma measured_refl b : measured b b.
Proof. done. Qed.
Lemma measured_trans b1 b2 b3 : measured b1 b2 -> measured b2 b3 -> measured b1 b3.
Proof. intros [? ?] [? ?]. split; congruence. Qed.
#[export] Hint Resolve measured_refl : core.

Lemma get_value_measured b r b' v : liquid_get_auxadc_value b r = (b', v) -> measured b b' /\ pins b' = pins b.
Proof. unfold liquid_get_auxadc_value. cbn [CONFIG_PUBADC_MANAGE]. destruct (pubadc_iio_read_channel _ _ _). by intros [= <- _]. Qed.

Lemma step1_measured b r1 r2 b' v1 v2 :
  liquid_get_step1_adcval b r1 r2 = (b', v1, v2) ->
  measured b b' /\ det1 (pins b') = det1 (pins b) /\ det2 (pins b') = det2 (pins b).
Proof.
  unfold liquid_get_step1_adcval.
  destruct (liquid_get_auxadc_value (liquid_select_detection_switch b DETECTION_SBU1) r1) as [b1 w1] eqn:E1.
  destruct (liquid_get_auxadc_value (liquid_select_detection_switch b1 DETECTION_SBU2) r2) as [b2 w2] eqn:E2.
  apply get_value_measured in E1 as [[M1 V1] P1]. apply get_value_measured in E2 as [[M2 V2] P2].
  intros [= <- _ _]. cbn in *. rewrite P2. cbn. rewrite P1. split; [|done]. split; cbn; [|congruence].
  change (core (liq b2) = core (liq b)). congruence.
Qed.

Lemma pull_measured b p b' : liquid_en_pull_sbu b p = Ret b' -> measured b b'.
Proof. destruct p; cbn; [by intros [= <-]|destruct (ld_detection1_low _); [by intros [= <-]|done]|by intros [= <-]..]. Qed.

Lemma step2_measured b r1 r2 b' v1 v2 :
  liquid_get_step2_adcval b r1 r2 = Ret (b', v1, v2) -> measured b b'.
Proof.
  unfold liquid_get_step2_adcval. set (b0 := liquid_select_detection_switch b DETECTION_SBU1).
  destruct (liquid_en_pull_sbu b0 _) as [b1| |] eqn:E1; cbn [mbind outcome_bind]; [|done..].
  destruct (liquid_get_auxadc_value b1 r1) as [b2 w1] eqn:E2.
  destruct (liquid_en_pull_sbu b2 _) as [b3| |] eqn:E3; cbn [mbind outcome_bind]; [|done..].
  destruct (liquid_en_pull_sbu (liquid_select_detection_switch b3 _) _) as [b4| |] eqn:E4; cbn [mbind outcome_bind]; [|done..].
  destruct (liquid_get_auxadc_value b4 r2) as [b5 w2] eqn:E5.
  destruct (liquid_en_pull_sbu b5 _) as [b6| |] eqn:E6; cbn [mbind outcome_bind]; [|done..].
  intros [= <- _ _]. apply pull_measured in E1, E3, E4, E6.
  apply get_value_measured in E2 as [E2 _], E5 as [E5 _].
  assert (M : measured b b6) by
    (do 5 (eapply measured_trans; [eassumption|]); exact E6).
  exact M.
Qed.

(** A run's event belongs to the state it started from. *)
Lemma measure_measured b s state b' ev :
  measure b s state = Ret (b', ev) ->
  measured b b' /\
  if state =? TYPE_DRY
  then (ev = STATE_DRY \/ ev = STATE_DRY_TO_WET) /\ det1 (pins b') = det1 (pins b) /\ det2 (pins b') = det2 (pins b)
  else ev = STATE_WET \/ ev = STATE_WET_TO_DRY.
Proof.
  unfold measure. set (b0 := liquid_clear_sbuval _ _ _). assert (M0 : measured b b0) by done.
  destruct (liquid_get_step1_adcval b0 _ _) as [[b1 v1] v2] eqn:E1. apply step1_measured in E1 as (M1 & D1 & D2).
  change (pins b0) with (pins b) in D1, D2. pose proof (measured_trans _ _ _ M0 M1) as M. destruct (state =? TYPE_DRY).
  - destruct (_ || _); [|intros [= <- <-]; by auto].
    destruct (liquid_get_step1_adcval b1 _ _) as [[b2 w1] w2] eqn:E2. apply step1_measured in E2 as (M2 & D1' & D2').
    pose proof (measured_trans _ _ _ M M2) as M'.
    destruct (_ || _); intros [= <- <-]; (split; [exact M'|split; [auto|cbn; split; congruence]]).
  - destruct (_ || _); [intros [= <- <-]; by auto|].
    destruct (liquid_get_step2_adcval b1 _ _) as [[[b2 w1] w2]| |] eqn:E2; cbn [mbind outcome_bind]; [|done..].
    apply step2_measured in E2. pose proof (measured_trans _ _ _ M E2).
    destruct (_ && _); intros [= <- <-]; auto.
Qed.

(** *** Measuring through a working manager *)

Lemma get_value_routed b r :
  routed (pub b) ->
  exists b', liquid_get_auxadc_value b r = (b', sbu_value r (pins b)) /\ routed (pub b') /\ measured b b' /\
    pins b' = pins b.
Proof.
  intros Hr. unfold liquid_get_auxadc_value. cbn [CONFIG_PUBADC_MANAGE].
  destruct (reads_routed (others r) (pub b) Hr) as (p1 & -> & H1). cbn [fst with_pub pub pins].
  destruct (read_routed p1 (sbu r (pins b)) PUBADC_LIQUID H1) as (p2 & -> & H2). by eexists.
Qed.

Lemma step1_routed b r1 r2 :
  routed (pub b) ->
  let p := pins b in
  exists b', liquid_get_step1_adcval b r1 r2 =
    (b', sbu_value r1 (mkPins PinHigh (det1 p) (det2 p)), sbu_value r2 (mkPins PinLow (det1 p) (det2 p))) /\
    routed (pub b') /\ measured b b' /\ det1 (pins b') = det1 p /\ det2 (pins b') = det2 p.
Proof.
  intros Hr. unfold liquid_get_step1_adcval.
  destruct (get_value_routed (liquid_select_detection_switch b DETECTION_SBU1) r1 Hr) as (b1 & E1 & H1 & M1 & P1). rewrite E1.
  destruct (get_value_routed (liquid_select_detection_switch b1 DETECTION_SBU2) r2 H1) as (b2 & E2 & H2 & M2 & P2). rewrite E2.
  eexists. split; [cbn; rewrite P1; reflexivity|]. split; [exact H2|]. split.
  - exact (measured_trans _ _ _ M1 M2).
  - cbn. rewrite P2. cbn. by rewrite P1.
Qed.

Lemma step2_routed b r1 r2 :
  routed (pub b) -> ld_detection1_low (liq b) = true ->
  let p := pins b in let d := liq b in
  exists b', liquid_get_step2_adcval b r1 r2 =
    Ret (b', sbu_value r1 (mkPins PinHigh (pull d) (det2 p)), sbu_value r2 (mkPins PinLow (rest d) (pull d))) /\
    routed (pub b').
Proof.
  intros Hr Hl. unfold liquid_get_step2_adcval, pull, rest, liquid_en_pull_sbu.
  cbn [liq liquid_select_detection_switch with_pins]. rewrite Hl.
  destruct (gpio_reverse_ctrl (liq b)); cbn [mbind outcome_bind].
  - set (b1 := with_pins _ _). destruct (get_value_routed b1 r1 Hr) as (b2 & E2 & H2 & [M2 _] & P2). rewrite E2.
    cbn [mbind outcome_bind]. set (b3 := with_pins _ _).
    destruct (get_value_routed b3 r2 H2) as (b4 & E4 & H4 & _ & P4). rewrite E4.
    eexists. split; [subst b3; cbn; by rewrite P2|exact H4].
  - set (b1 := with_pins _ _). destruct (get_value_routed b1 r1 Hr) as (b2 & E2 & H2 & [M2 _] & P2). rewrite E2.
    assert (Hl2 : ld_detection1_low (liq b2) = true) by (injection M2; congruence).
    rewrite Hl2. cbn [mbind outcome_bind]. set (b3 := with_pins _ _).
    destruct (get_value_routed b3 r2 H2) as (b4 & E4 & H4 & _ & P4). rewrite E4.
    eexists. split; [subst b3; cbn; by rewrite P2|exact H4].
Qed.

Lemma core_eq d d' : core d' = core d ->
  gpio_reverse_ctrl d' = gpio_reverse_ctrl d /\ work_interval d' = work_interval d /\ threshold d' = threshold d /\
  ld_detection1_low d' = ld_detection1_low d /\ wet_count_threshold d' = wet_count_threshold d /\
  wet_count d' = wet_count d /\ falsepositive_event_ts d' = falsepositive_event_ts d /\
  st_switch d' = st_switch d /\ event_ts d' = event_ts d.
Proof. unfold core. intros [= -> -> -> -> -> -> -> -> ->]. by split_and!. Qed.

(** A run gets to step 2: from a wet state when step 1 finds no water. *)
Definition reaches_step2 (d : liquid) (p : ld_pins) (s : sample) (state : Z) : bool :=
  negb (state =? TYPE_DRY) && negb (step1_wet d p (rd1 s) (rd2 s)).

(** A run measures what the SBU pins hold, whatever the battery's driver does
    in between. *)
Lemma measure_verdict b s state :
  routed (pub b) -> ld_detection1_low (liq b) = true \/ reaches_step2 (liq b) (pins b) s state = false ->
  exists b', measure b s state = Ret (b', verdict (liq b) (pins b) s state) /\ routed (pub b').
Proof.
  intros Hr Hl. unfold measure, verdict, wet_twice, reaches_step2, step1_wet, step2_dry in *.
  set (b0 := liquid_clear_sbuval _ _ _).
  destruct (step1_routed b0 (rd1 s) (rd2 s) Hr) as (b1 & E1 & H1 & [M1 _] & D1 & D2). rewrite E1.
  change (pins b0) with (pins b) in *. apply core_eq in M1 as (R1 & _ & _ & L1 & _).
  change (gpio_reverse_ctrl (liq b0)) with (gpio_reverse_ctrl (liq b)) in R1.
  change (ld_detection1_low (liq b0)) with (ld_detection1_low (liq b)) in L1.
  fold (above (threshold (liq b)).1 (sbu_value (rd1 s) (mkPins PinHigh (det1 (pins b)) (det2 (pins b))))).
  fold (above (threshold (liq b)).1 (sbu_value (rd2 s) (mkPins PinLow (det1 (pins b)) (det2 (pins b))))).
  destruct (state =? TYPE_DRY).
  - destruct (_ || _); cbn [andb]; [|by exists b1].
    destruct (step1_routed b1 (rd3 s) (rd4 s) H1) as (b2 & E2 & H2 & _). rewrite E2, D1, D2.
    fold (above (threshold (liq b)).1 (sbu_value (rd3 s) (mkPins PinHigh (det1 (pins b)) (det2 (pins b))))).
    fold (above (threshold (liq b)).1 (sbu_value (rd4 s) (mkPins PinLow (det1 (pins b)) (det2 (pins b))))).
    destruct (_ || _); by eexists.
  - destruct (_ || _); [by exists b1|]. destruct Hl as [Hl|Hl]; [|done].
    destruct (step2_routed b1 (rd3 s) (rd4 s) H1) as (b2 & E2 & H2); [congruence|]. rewrite E2.
    cbn [mbind outcome_bind].
    assert (Hp : pull (liq b1) = pull (liq b)) by (unfold pull; by rewrite R1).
    assert (Hq : rest (liq b1) = rest (liq b)) by (unfold rest; by rewrite R1).
    rewrite Hp, Hq, D2. unfold above. destruct (_ && _); by eexists.
Qed.

(** *** Reacting on a working battery *)

(** What an event makes of the published state and of the count. *)
Definition event_state (d : liquid) (h : hw) (ev : LD_STATE_CHANGE) : Z :=
  match ev with
  | STATE_DRY_TO_WET => if wet_count_threshold d <=? u32 (wet_count d + 1) then wet_state h else st_switch d
  | STATE_WET_TO_DRY => TYPE_DRY
  | _ => st_switch d
  end.
Definition event_count (d : liquid) (ev : LD_STATE_CHANGE) : Z :=
  match ev with
  | STATE_DRY_TO_WET =>
    let count := u32 (wet_count d + 1) in if wet_count_threshold d <=? count then 0 else count
  | STATE_DRY => if negb (wet_count d =? 0) && (wet_count d <? wet_count_threshold d) then 0 else wet_count d
  | _ => wet_count d
  end.

(** The settings of a device. *)
Definition settings (d : liquid) :=
  (gpio_reverse_ctrl d, work_interval d, threshold d, ld_detection1_low d, wet_count_threshold d).

(** Where a run ends. *)
Record lands (b : board) (h : hw) (x : board * hw) (st count : Z) (out : option typec_role * option Z) : Prop := {
  la_state : st_switch (liq x.1) = st;
  la_count : wet_count (liq x.1) = count;
  la_out : (role x.2, iusb x.2) = out;
  la_healthy : healthy x.2;
  la_chg : chg_psy x.2 = chg_psy h;
  la_settings : settings (liq x.1) = settings (liq b);
  la_pins : pins x.1 = pins b;
  la_pub : pub x.1 = pub b }.

Lemma report_board b h e :
  let x := report_event b h e in
  st_switch (liq x.1) = e /\ wet_count (liq x.1) = wet_count (liq b) /\ settings (liq x.1) = settings (liq b) /\
  pins x.1 = pins b /\ pub x.1 = pub b /\ vitals x.1 = vitals b /\
  falsepositive_event_ts (liq x.1) = falsepositive_event_ts (liq b).
Proof.
  pose proof (report_event_state b h e) as E. cbv zeta. split; [exact E|]. unfold report_event. by destruct (negb _).
Qed.

Lemma dry_lands b h :
  healthy h -> lands b h (liquid_is_dry b h) TYPE_DRY (wet_count (liq b)) (Some TYPEC_ROLE_TRY_SNK, Some (-1)).
Proof.
  intros Hh. unfold liquid_is_dry, liquid_report_event, liquid_limit_charging_current.
  destruct (report_board b h TYPE_DRY) as (S & C & T & P & U & _). destruct (report_event_hw b h TYPE_DRY) as (_ & F & _ & _ & _ & Ch & B).
  destruct (report_event b h TYPE_DRY) as [b1 h1]. cbn [fst snd] in *.
  assert (H1 : healthy (tcpm_typec_change_role h1 TYPEC_ROLE_TRY_SNK)).
  { destruct Hh as [Hf (r & Hb & Hr)]. split; [cbn; congruence|]. exists r. cbn. by rewrite B. }
  rewrite (limit_healthy _ false H1). constructor; try done.
Qed.

Lemma wet_lands b h :
  healthy h ->
  lands b h (liquid_is_wet b h) (wet_state h) (wet_count (liq b)) (Some TYPEC_ROLE_SNK, Some IUSB_LIMITATION_UA).
Proof.
  intros Hh. unfold liquid_is_wet, liquid_report_event, liquid_limit_charging_current, liquid_check_vbus_valid.
  rewrite (limit_healthy _ true) by exact Hh. set (h1 := set_iusb _ _). set (e := if check_vbus_valid h1 then _ else _).
  destruct (report_board b h1 e) as (S & C & T & P & U & _). destruct (report_event_hw b h1 e) as (_ & F & _ & R & I & Ch & B).
  destruct (report_event b h1 e) as [b1 h2]. cbn [fst snd] in *.
  constructor; try done; cbn [fst snd]; [by rewrite R, I|].
  destruct Hh as [Hf (r & Hb & Hr)]. split; [by rewrite F|]. exists r. by rewrite B.
Qed.

Lemma falsepositive_frame b h :
  let b' := metrics_log_report_falsepositive b h in
  st_switch (liq b') = st_switch (liq b) /\ wet_count (liq b') = wet_count (liq b) /\ settings (liq b') = settings (liq b) /\
  pins b' = pins b /\ pub b' = pub b.
Proof. unfold metrics_log_report_falsepositive. cbn [CONFIG_AMAZON_MINERVA_METRICS_LOG]. by destruct (_ || _). Qed.

(** The event must be one of the state's. *)
Definition event_of (state : Z) (ev : LD_STATE_CHANGE) : Prop :=
  if state =? TYPE_DRY then ev = STATE_DRY \/ ev = STATE_DRY_TO_WET else ev = STATE_WET \/ ev = STATE_WET_TO_DRY.

Lemma debounce_lands b h ev :
  healthy h -> valid_state (st_switch (liq b)) -> event_of (st_switch (liq b)) ev ->
  let st := event_state (liq b) h ev in
  valid_state st /\
  lands b h (debounce_report_event b h ev) st (event_count (liq b) ev)
    (next_outputs (st =? TYPE_DRY) (st_switch (liq b)) h).
Proof.
  intros Hh Hst Hev. unfold event_of, debounce_report_event, event_state, event_count, next_outputs in *.
  destruct (Z.eqb_spec (st_switch (liq b)) TYPE_DRY) as [E|N]; destruct Hev as [-> | ->]; cbn [fst snd].
  - rewrite E. split; [by left|]. cbn [TYPE_DRY Z.eqb]. destruct (_ && _); [|by constructor].
    destruct (falsepositive_frame (with_liq b (set_count (liq b) 0)) h) as (S & C & T & P & U).
    constructor; cbn [fst snd]; try done; cbn in *; congruence.
  - destruct (_ <=? _).
    + destruct (wet_state_wet h) as [W V]. split; [exact V|]. rewrite (proj2 (Z.eqb_neq _ _) W).
      destruct (wet_lands (with_liq b (set_count (liq b) 0)) h Hh). by constructor.
    + split; [done|]. rewrite E. by constructor.
  - split; [done|]. rewrite (proj2 (Z.eqb_neq _ _) N). by constructor.
  - split; [by left|]. by apply dry_lands.
Qed.

(** *** Runs *)

Lemma lands_measured b0 b h x st c out :
  measured b0 b -> lands b h x st c out -> settings (liq x.1) = settings (liq b0).
Proof.
  intros [M _] L. rewrite (la_settings _ _ _ _ _ _ L). apply core_eq in M as (A & B & C & D & E & _).
  unfold settings. by rewrite A, B, C, D, E.
Qed.

Lemma settings_eq d d' : settings d' = settings d ->
  gpio_reverse_ctrl d' = gpio_reverse_ctrl d /\ work_interval d' = work_interval d /\ threshold d' = threshold d /\
  ld_detection1_low d' = ld_detection1_low d /\ wet_count_threshold d' = wet_count_threshold d.
Proof. unfold settings. by intros [= -> -> -> -> ->]. Qed.

Lemma measured_event b b' h ev :
  measured b b' -> event_state (liq b') h ev = event_state (liq b) h ev /\ event_count (liq b') ev = event_count (liq b) ev /\
    st_switch (liq b') = st_switch (liq b).
Proof.
  intros [M _]. apply core_eq in M as (_ & _ & _ & _ & E & C & _ & S & _). unfold event_state, event_count.
  by rewrite E, C, S.
Qed.

(** The whole run, on a working manager. *)
Lemma liquid_routine_spec b h s :
  healthy h -> valid_state (st_switch (liq b)) -> routed (pub b) ->
  ld_detection1_low (liq b) = true \/ reaches_step2 (liq b) (pins b) s (st_switch (liq b)) = false ->
  let ev := verdict (liq b) (pins b) s (st_switch (liq b)) in
  let st := event_state (liq b) h ev in
  exists b' h', liquid_routine_work true b h s = Ret (b', h', liquid_select_interval (liq b) (st_switch (liq b))) /\
    st_switch (liq b') = st /\ valid_state st /\ wet_count (liq b') = event_count (liq b) ev /\
    (role h', iusb h') = next_outputs (st =? TYPE_DRY) (st_switch (liq b)) h /\
    healthy h' /\ chg_psy h' = chg_psy h /\ settings (liq b') = settings (liq b) /\ routed (pub b') /\
    (st_switch (liq b) = TYPE_DRY -> det1 (pins b') = det1 (pins b) /\ det2 (pins b') = det2 (pins b)).
Proof.
  intros Hh Hst Hr Hl ev st. unfold liquid_routine_work. cbn [negb].
  destruct (measure_verdict b s (st_switch (liq b)) Hr Hl) as (b1 & E1 & R1). fold ev in E1. rewrite E1.
  pose proof (measure_measured _ _ _ _ _ E1) as [M Hev]. destruct (measured_event b b1 h ev M) as (Se & Ce & S1).
  cbn [mbind outcome_bind].
  assert (He : event_of (st_switch (liq b1)) ev).
  { rewrite S1. unfold event_of. destruct (st_switch (liq b) =? TYPE_DRY); [apply Hev|exact Hev]. }
  destruct (debounce_lands b1 h ev Hh ltac:(by rewrite S1) He) as [V L].
  rewrite Se, S1 in L. rewrite Se in V. fold st in V, L. pose proof (lands_measured _ _ _ _ _ _ _ M L) as T.
  destruct (debounce_report_event b1 h ev) as [b2 h2] eqn:Ed. destruct L as [L1 L2 L3 L4 L5 L6 L7 L8]. cbn [fst snd] in *.
  exists b2, h2. split. { unfold liquid_select_interval. by rewrite (proj1 (proj2 (settings_eq _ _ T))). }
  rewrite L8, L7, L2, Ce. split_and!; try done. intros E. rewrite E in Hev. apply Hev.
Qed.

(** Without the pin state a run that gets to step 2 dereferences the error pointer. *)
Lemma step2_oops b h s :
  routed (pub b) -> ld_detection1_low (liq b) = false -> reaches_step2 (liq b) (pins b) s (st_switch (liq b)) = true ->
  liquid_routine_work true b h s = Oops.
Proof.
  intros Hr Hlow [Hst%negb_true_iff H1%negb_true_iff]%andb_true_iff.
  unfold liquid_routine_work, measure. cbn [negb]. set (b0 := liquid_clear_sbuval _ _ _).
  destruct (step1_routed b0 (rd1 s) (rd2 s) Hr) as (b1 & E1 & R1 & [M1 _] & _). rewrite E1, Hst.
  unfold step1_wet, above in H1. change (pins b0) with (pins b). rewrite H1.
  assert (Hlow1 : ld_detection1_low (liq b1) = false) by (apply core_eq in M1 as (_ & _ & _ & -> & _); exact Hlow).
  unfold liquid_get_step2_adcval, liquid_en_pull_sbu. cbn [liq liquid_select_detection_switch with_pins]. rewrite Hlow1.
  destruct (gpio_reverse_ctrl (liq b1)); cbn [mbind outcome_bind]; [done|].
  set (b2 := with_pins _ _). destruct (get_value_routed b2 (rd3 s) R1) as (b3 & E3 & _ & [M3 _] & _). rewrite E3.
  apply core_eq in M3 as (_ & _ & _ & -> & _). cbn [b2 liq with_pins liquid_select_detection_switch]. by rewrite Hlow1.
Qed.

(** What can happen between two instants at which no handler is running. *)
Inductive event :=
| EvRoutine (running : bool) (s : sample)
| EvVbus
| EvSupply (v : option (Z + Z))
| EvThreshodL (buff : list Z)
| EvThreshodH (buff : list Z)
| EvOthers (rs : list (analog * PUBADC_TYPE))
| EvTime (t : Z).

(** After an oops nothing changes any more. *)
Definition handle (x : board * hw) (e : event) : board * hw :=
  let '(b, h) := x in
  match e with
  | EvRoutine running s => match liquid_routine_work running b h s with Ret y => y.1 | _ => (b, h) end
  | EvVbus => liquid_vbus_detect b h
  | EvSupply v => (b, set_chg h v)
  | EvThreshodL buff => (with_liq b (threshod_l_store (liq b) buff).1, h)
  | EvThreshodH buff => (with_liq b (threshod_h_store (liq b) buff).1, h)
  | EvOthers rs => (with_pub b (pubadc_reads (pub b) rs).1, h)
  | EvTime t => (b, set_now h t)
  end.

Lemma liquid_handle_ok (x : board * hw) e :
  healthy x.2 -> valid_state (st_switch (liq x.1)) ->
  let y := handle x e in
  healthy y.2 /\ valid_state (st_switch (liq y.1)) /\
  (role y.2, iusb y.2) = next_outputs (st_switch (liq y.1) =? TYPE_DRY) (st_switch (liq x.1)) x.2.
Proof.
  destruct x as [b h]. intros Hh Hst. cbn [fst snd] in *.
  assert (Hsame : forall b' h', st_switch (liq b') = st_switch (liq b) -> healthy h' -> role h' = role h -> iusb h' = iusb h ->
    healthy h' /\ valid_state (st_switch (liq b')) /\
    (role h', iusb h') = next_outputs (st_switch (liq b') =? TYPE_DRY) (st_switch (liq b)) h).
  { intros b' h' E H' R I. rewrite E. split_and!; [done|done|]. unfold next_outputs. rewrite R, I.
    by destruct (st_switch (liq b) =? TYPE_DRY). }
  destruct e as [running s| |v|buff|buff|rs|t]; cbn [handle].
  - destruct running; [|by apply Hsame]. unfold liquid_routine_work. cbn [negb].
    destruct (measure b s (st_switch (liq b))) as [[b1 ev]| |] eqn:E1; cbn [mbind outcome_bind]; [|by apply Hsame..].
    apply measure_measured in E1 as [M Hev]. destruct (measured_event b b1 h ev M) as (_ & _ & S1).
    assert (He : event_of (st_switch (liq b1)) ev).
    { rewrite S1. unfold event_of. destruct (st_switch (liq b) =? TYPE_DRY); [apply Hev|exact Hev]. }
    destruct (debounce_lands b1 h ev Hh ltac:(by rewrite S1) He) as [V [L1 _ L3 L4 _ _ _ _]].
    destruct (debounce_report_event b1 h ev) as [b2 h2]. cbn [fst snd] in *.
    rewrite L1, L3, S1. by split_and!.
  - exact (vbus_detect_ok b h Hh Hst).
  - by apply Hsame.
  - apply Hsame; [|done..]. unfold threshod_l_store. by destruct (kstrtouint buff 0).
  - apply Hsame; [|done..]. unfold threshod_h_store. by destruct (kstrtouint buff 0).
  - by apply Hsame.
  - by apply Hsame.
Qed.

#[export] Instance board_driver : LdDriver board event := handle.
#[export] Instance board_driver_laws : LdDriverLaws board event.
Proof. exact liquid_handle_ok. Qed.

(** *** Debouncing *)

Definition runs (x : board * hw) (ss : list sample) : board * hw := foldl (fun x s => handle x (EvRoutine true s)) x ss.

(** The wet runs at the end of a list of runs. *)
Definition tail_count (f : sample -> bool) (ss : list sample) : nat := foldl (fun n s => if f s then S n else O) O ss.

(** [n] consecutive wet runs somewhere. *)
Definition streak (n : nat) (f : sample -> bool) (ss : list sample) : Prop :=
  exists l1 l2 l3, ss = l1 ++ l2 ++ l3 /\ length l2 = n /\ Forall (fun s => f s = true) l2.

Lemma tail_count_snoc f ss s : tail_count f (ss ++ [s]) = if f s then S (tail_count f ss) else O.
Proof. unfold tail_count. by rewrite foldl_app. Qed.

Lemma tail_count_suffix f ss : exists l1 l2, ss = l1 ++ l2 /\ length l2 = tail_count f ss /\ Forall (fun s => f s = true) l2.
Proof.
  induction ss as [|s ss IH] using rev_ind; [by exists [], []|]. rewrite tail_count_snoc. destruct (f s) eqn:E.
  - destruct IH as (l1 & l2 & -> & Hl & Hf). exists l1, (l2 ++ [s]). rewrite app_assoc, length_app, Hl. cbn.
    split_and!; [done|lia|]. apply Forall_app. split; [done|by constructor].
  - exists (ss ++ [s]), []. by rewrite app_nil_r.
Qed.

Lemma tail_count_ge f l1 l2 : Forall (fun s => f s = true) l2 -> (length l2 <= tail_count f (l1 ++ l2))%nat.
Proof.
  induction l2 as [|s l2 IH] using rev_ind; [cbn; lia|]. intros [H2 Hs]%Forall_app.
  apply list.Forall_cons in Hs as [Hs _]. rewrite app_assoc, tail_count_snoc, Hs, length_app. cbn. specialize (IH H2). lia.
Qed.

Lemma streak_prefix n f ss l : (n <= tail_count f l)%nat -> l `prefix_of` ss -> streak n f ss.
Proof.
  intros Hn [k ->]. destruct (tail_count_suffix f l) as (l1 & l2 & -> & Hl & Hf).
  exists l1, (take n l2), (drop n l2 ++ k). rewrite length_take. split_and!.
  - by rewrite (app_assoc (take n l2)), take_drop, app_assoc.
  - lia.
  - by apply Forall_take.
Qed.

Lemma wet_twice_ext d p d' p' s :
  settings d' = settings d -> det1 p' = det1 p -> det2 p' = det2 p -> wet_twice d' p' s = wet_twice d p s.
Proof.
  intros T D1 D2. apply settings_eq in T as (_ & _ & T & _). unfold wet_twice, step1_wet. by rewrite T, D1, D2.
Qed.

Section Debounce.
Context (b : board) (h : hw).
Let K : nat := Z.to_nat (Z.max 1 (wet_count_threshold (liq b))).
Let f (s : sample) : bool := wet_twice (liq b) (pins b) s.

(** Still dry, [n] wet runs counted. *)
Definition counting (x : board * hw) (n : nat) : Prop :=
  st_switch (liq x.1) = TYPE_DRY /\ wet_count (liq x.1) = Z.of_nat n /\ (n < K)%nat /\ healthy x.2 /\ routed (pub x.1) /\
  settings (liq x.1) = settings (liq b) /\ det1 (pins x.1) = det1 (pins b) /\ det2 (pins x.1) = det2 (pins b).

Lemma counting_step x n s :
  0 <= wet_count_threshold (liq b) < 2 ^ 32 -> ld_detection1_low (liq b) = true -> counting x n ->
  let y := handle x (EvRoutine true s) in
  if f s && (S n =? K)%nat then st_switch (liq y.1) <> TYPE_DRY else counting y (if f s then S n else O).
Proof.
  destruct x as [b1 h1]. intros Ht Hl (S1 & C1 & Hn & H1 & R1 & T1 & D1 & D2). cbn [fst snd] in *.
  destruct (settings_eq _ _ T1) as (_ & _ & _ & L1 & W1).
  destruct (liquid_routine_spec b1 h1 s H1 ltac:(by left) R1 ltac:(left; congruence)) as (b2 & h2 & E & S2 & _ & C2 & _ & H2 & _ & T2 & R2 & D).
  unfold handle. rewrite E. cbn [fst snd]. destruct (D S1) as [D3 D4].
  unfold verdict in S2, C2. rewrite S1 in S2, C2. cbn [TYPE_DRY Z.eqb] in S2, C2.
  rewrite (wet_twice_ext (liq b) (pins b)) in S2, C2 by done. fold (f s) in S2, C2.
  assert (Hu : u32 (wet_count (liq b1) + 1) = Z.of_nat (S n)).
  { rewrite C1. unfold K in *. rewrite wrapU_id; lia. }
  destruct (f s); cbn [andb event_state event_count] in *.
  - rewrite Hu, W1 in S2, C2. destruct (Nat.eqb_spec (S n) K) as [EK|NK].
    + destruct (Z.leb_spec (wet_count_threshold (liq b)) (Z.of_nat (S n))); [|unfold K in *; lia].
      rewrite S2. apply wet_state_wet.
    + destruct (Z.leb_spec (wet_count_threshold (liq b)) (Z.of_nat (S n))); [unfold K in *; lia|].
      split_and!; cbn [fst snd]; try done; try congruence. unfold K in *. lia.
  - assert (C0 : wet_count (liq b2) = 0).
    { rewrite C2, C1, W1. destruct (Z.eqb_spec (Z.of_nat n) 0); cbn [negb andb]; [lia|].
      destruct (Z.ltb_spec (Z.of_nat n) (wet_count_threshold (liq b))); unfold K in *; lia. }
    split_and!; cbn [fst snd]; try done; try congruence. unfold K in *. lia.
Qed.

(** As long as no streak was reached the count is that of the last runs. *)
Lemma counting_runs ss :
  0 <= wet_count_threshold (liq b) < 2 ^ 32 -> ld_detection1_low (liq b) = true -> counting (b, h) O ->
  (forall l, l `prefix_of` ss -> (tail_count f l < K)%nat) -> counting (runs (b, h) ss) (tail_count f ss).
Proof.
  intros Ht Hl H0 Hp. induction ss as [|s ss IH] using rev_ind; [exact H0|].
  assert (Hi : counting (runs (b, h) ss) (tail_count f ss)).
  { apply IH. intros l Hpre. apply Hp. by apply prefix_app_r. }
  pose proof (counting_step _ _ s Ht Hl Hi) as Hs. unfold runs in *. rewrite foldl_app. cbn [foldl].
  specialize (Hp (ss ++ [s]) ltac:(done)). rewrite tail_count_snoc in *. destruct (f s); cbn [andb] in Hs; [|exact Hs].
  destruct (Nat.eqb_spec (S (tail_count f ss)) K); [lia|exact Hs].
Qed.

Lemma dry_runs_count ss :
  0 <= wet_count_threshold (liq b) < 2 ^ 32 -> ld_detection1_low (liq b) = true -> counting (b, h) O ->
  (forall l, l `prefix_of` ss -> st_switch (liq (runs (b, h) l).1) = TYPE_DRY) ->
  forall l, l `prefix_of` ss -> (tail_count f l < K)%nat.
Proof.
  intros Ht Hl H0 Hd. induction ss as [|s ss IH] using rev_ind; intros l Hpre.
  { apply prefix_nil_inv in Hpre as ->. unfold tail_count, K. cbn. lia. }
  assert (Hp : forall l, l `prefix_of` ss -> (tail_count f l < K)%nat).
  { apply IH. intros k Hk. apply Hd. by apply prefix_app_r. }
  destruct Hpre as [k Hk]. destruct k as [|s' k' _] using rev_ind.
  - rewrite app_nil_r in Hk. subst l. pose proof (counting_runs ss Ht Hl H0 Hp) as Hi.
    pose proof (counting_step _ _ s Ht Hl Hi) as Hs. specialize (Hd (ss ++ [s]) ltac:(done)).
    unfold runs in *. rewrite foldl_app in Hd. cbn [foldl] in Hd. rewrite tail_count_snoc.
    destruct (f s); cbn [andb] in Hs; [|unfold K; lia]. destruct (Nat.eqb_spec (S (tail_count f ss)) K); [done|].
    destruct Hi as (_ & _ & Hlt & _). lia.
  - apply Hp. rewrite app_assoc in Hk. apply app_inj_tail in Hk as [-> _]. by apply prefix_app_r.
Qed.
End Debounce.

(** *** False positives *)

(** The clock of a sequence of events never goes back and stays below 2^42. *)
Fixpoint clock_ok (t : Z) (es : list event) : Prop :=
  match es with
  | [] => True
  | EvTime t' :: es => t <= t' < 2 ^ 42 /\ clock_ok t' es
  | _ :: es => clock_ok t es
  end.

(** Each report at least two hours after the one before, the last one being
    the time kept. *)
Definition spaced (v : list (Z * Z)) : Prop := StronglySorted (fun a b => a + 7200 <= b) v.*2.
Definition reports_ok (x : board * hw) : Prop :=
  let ts := falsepositive_event_ts (liq x.1) in
  spaced (vitals x.1) /\ 0 < now x.2 < 2 ^ 42 /\ 0 <= ts <= now x.2 /\
  (ts = 0 -> vitals x.1 = []) /\ Forall (fun r => r.2 <= ts) (vitals x.1).

Lemma spaced_snoc v a t ts : spaced v -> Forall (fun r => r.2 <= ts) v -> ts + 7200 <= t -> spaced (v ++ [(a, t)]).
Proof.
  unfold spaced. intros Hs Hl Ht. rewrite fmap_app. cbn. induction v as [|r v IH]; cbn in *; [repeat constructor|].
  apply StronglySorted_inv in Hs as [Hs Hf]. apply list.Forall_cons in Hl as [Hr Hl].
  constructor; [by apply IH|]. apply Forall_app. split; [done|]. constructor; [lia|done].
Qed.

Lemma falsepositive_spaced b h : reports_ok (b, h) -> reports_ok (metrics_log_report_falsepositive b h, h).
Proof.
  intros Hok. pose proof Hok as (Hs & Hn & Ht & H0 & Hl). unfold metrics_log_report_falsepositive. cbn [CONFIG_AMAZON_MINERVA_METRICS_LOG].
  destruct (Z.eqb_spec (falsepositive_event_ts (liq b)) 0) as [E|N]; cbn [orb fst snd liq] in *.
  - specialize (H0 E). split_and!; cbn; rewrite ?H0; cbn; try lia; try (repeat constructor; cbn; lia).
  - destruct (Z.leb_spec 2 (s32 (Z.quot (now h - falsepositive_event_ts (liq b)) 3600))) as [Hle|]; [|exact Hok].
    assert (Hq : falsepositive_event_ts (liq b) + 7200 <= now h).
    { rewrite Z.quot_div_nonneg in Hle by lia.
      pose proof (Z.div_le_upper_bound (now h - falsepositive_event_ts (liq b)) 3600 (2 ^ 31 - 1) ltac:(lia) ltac:(lia)).
      pose proof (Z.div_pos (now h - falsepositive_event_ts (liq b)) 3600 ltac:(lia) ltac:(lia)).
      rewrite wrapS_id in Hle by lia.
      pose proof (Z.mul_div_le (now h - falsepositive_event_ts (liq b)) 3600 ltac:(lia)). lia. }
    split_and!; cbn; try lia.
    + apply (spaced_snoc _ _ _ (falsepositive_event_ts (liq b))); [done..|lia].
    + apply Forall_app. split; [|by constructor]. eapply list.Forall_impl; [exact Hl|]. intros r Hr. cbn in *. lia.
Qed.

(** The reports, their time stamp and the clock are as they were. *)
Definition same_reports (x y : board * hw) : Prop :=
  vitals y.1 = vitals x.1 /\ falsepositive_event_ts (liq y.1) = falsepositive_event_ts (liq x.1) /\ now y.2 = now x.2.

Lemma same_reports_ok x y : same_reports x y -> reports_ok x -> reports_ok y.
Proof. unfold reports_ok. intros (-> & -> & ->). done. Qed.

Lemma report_reports b h e : same_reports (b, h) (report_event b h e).
Proof. unfold report_event. by destruct (negb _). Qed.

Lemma limit_now h en : now (limit_charging_current h en).2 = now h.
Proof. unfold limit_charging_current. destruct (bat_psy h) as [r|]; [|done]. cbn. by destruct (r <? 0). Qed.

Lemma debounce_reports b h ev : reports_ok (b, h) -> reports_ok (debounce_report_event b h ev).
Proof.
  intros Hok. destruct ev; cbn [debounce_report_event]; [| | |exact Hok].
  - destruct (_ && _); [|exact Hok]. apply falsepositive_spaced. exact Hok.
  - destruct (_ <=? _); [|exact Hok]. unfold liquid_is_wet, liquid_report_event, liquid_limit_charging_current.
    eapply same_reports_ok; [apply report_reports|]. revert Hok. apply same_reports_ok. split_and!; [done..|].
    etransitivity; [apply limit_now|done].
  - unfold liquid_is_dry, liquid_report_event, liquid_limit_charging_current.
    pose proof (same_reports_ok _ _ (report_reports b h TYPE_DRY) Hok) as H1. destruct (report_event b h TYPE_DRY) as [b1 h1].
    revert H1. apply same_reports_ok. split_and!; [done..|]. etransitivity; [apply limit_now|done].
Qed.

Lemma handle_reports x e :
  clock_ok (now x.2) [e] -> reports_ok x ->
  reports_ok (handle x e) /\ now (handle x e).2 = match e with EvTime t => t | _ => now x.2 end.
Proof.
  destruct x as [b h]. intros Hc Hok. cbn [fst snd] in *. destruct e as [running s| |v|buff|buff|rs|t]; cbn [handle].
  - destruct running; [|by split]. unfold liquid_routine_work. cbn [negb].
    destruct (measure b s (st_switch (liq b))) as [[b1 ev]| |] eqn:E1; cbn [mbind outcome_bind]; [|by split..].
    apply measure_measured in E1 as [[M V] _]. apply core_eq in M as (_ & _ & _ & _ & _ & _ & F & _).
    assert (H1 : reports_ok (b1, h)) by (revert Hok; apply same_reports_ok; by split_and!).
    pose proof (debounce_reports b1 h ev H1) as H2.
    assert (Hn : now (debounce_report_event b1 h ev).2 = now h).
    { destruct ev; cbn; [by destruct (_ && _)| | |done].
      - destruct (_ <=? _); [|done]. unfold liquid_is_wet, liquid_report_event, liquid_limit_charging_current.
        etransitivity; [apply report_reports|]. etransitivity; [apply limit_now|done].
      - unfold liquid_is_dry, liquid_report_event. pose proof (report_reports b1 h TYPE_DRY) as (_ & _ & R).
        destruct (report_event b1 h TYPE_DRY) as [b2 h2]. etransitivity; [apply limit_now|exact R]. }
    by destruct (debounce_report_event b1 h ev).
  - unfold liquid_vbus_detect, vbus_detect, vbus_report, vbus_read.
    assert (Hr : forall e, reports_ok (report_event b h e) /\ now (report_event b h e).2 = now h).
    { intros e. split; [exact (same_reports_ok _ _ (report_reports b h e) Hok)|apply report_reports]. }
    destruct (check_vbus_valid h), (ld_state b =? TYPE_WET), (ld_state b =? TYPE_WET_VBUS); auto.
  - split; [|done]. revert Hok. by apply same_reports_ok.
  - split; [|done]. revert Hok. apply same_reports_ok. unfold threshod_l_store. by destruct (kstrtouint buff 0).
  - split; [|done]. revert Hok. apply same_reports_ok. unfold threshod_h_store. by destruct (kstrtouint buff 0).
  - split; [|done]. revert Hok. by apply same_reports_ok.
  - split; [|done]. destruct Hc as [Ht _]. destruct Hok as (Hs & Hn & Hts & H0 & Hl). cbn in *. split_and!; cbn; try done; lia.
Qed.

Lemma clock_cons t e es : clock_ok t (e :: es) -> clock_ok t [e] /\ clock_ok (match e with EvTime t' => t' | _ => t end) es.
Proof. destruct e; cbn; tauto. Qed.

(** *** Set-up *)

(** Nothing changes whether the pin state was found. *)
Lemma handle_detection1_low x e : ld_detection1_low (liq (handle x e).1) = ld_detection1_low (liq x.1).
Proof.
  destruct x as [b h]. cbn [fst]. destruct e as [running s| |v|buff|buff|rs|t]; cbn [handle]; try done.
  - destruct running; [|done]. unfold liquid_routine_work. cbn [negb].
    destruct (measure b s (st_switch (liq b))) as [[b1 ev]| |] eqn:E1; cbn [mbind outcome_bind]; [|done..].
    apply measure_measured in E1 as [[M _] _]. apply core_eq in M as (_ & _ & _ & L & _).
    assert (Hd : ld_detection1_low (liq (debounce_report_event b1 h ev).1) = ld_detection1_low (liq b1)).
    { destruct ev; cbn [debounce_report_event]; [| | |done].
      - destruct (_ && _); [|done]. cbn [fst].
        destruct (falsepositive_frame (with_liq b1 (set_count (liq b1) 0)) h) as (_ & _ & T & _).
        apply settings_eq in T as (_ & _ & _ & T & _). exact T.
      - destruct (_ <=? _); [|done]. unfold liquid_is_wet, liquid_report_event.
        match goal with |- context [report_event ?b ?h ?e] => destruct (report_board b h e) as (_ & _ & T & _) end.
        apply settings_eq in T as (_ & _ & _ & T & _). exact T.
      - unfold liquid_is_dry, liquid_report_event. destruct (report_board b1 h TYPE_DRY) as (_ & _ & T & _).
        destruct (report_event b1 h TYPE_DRY) as [b2 h2]. apply settings_eq in T as (_ & _ & _ & T & _). exact T. }
    destruct (debounce_report_event b1 h ev). cbn [fst] in *. congruence.
  - unfold liquid_vbus_detect, vbus_detect, vbus_report, vbus_read, report_event.
    destruct (check_vbus_valid h), (_ =? _); try done; by destruct (negb _).
  - unfold threshod_l_store. by destruct (kstrtouint buff 0).
  - unfold threshod_h_store. by destruct (kstrtouint buff 0).
Qed.

Lemma handles_detection1_low es : forall x, ld_detection1_low (liq (foldl handle x es).1) = ld_detection1_low (liq x.1).
Proof. induction es as [|e es IH]; intros x; [done|]. cbn [foldl]. by rewrite IH, handle_detection1_low. Qed.

Lemma pinctrl_init_eq found lookup np :
  liquid_pinctrl_init found lookup np =
    if found && forallb lookup pin_names then (0, lookup "lddetection1_low"%string) else (-1, false).
Proof.
  unfold liquid_pinctrl_init. destruct found, (forallb lookup pin_names); cbn [negb andb]; try done.
  cbn [CONFIG_PUBADC_MANAGE negb]. by rewrite Bool.andb_false_r.
Qed.

(** A complete probe and what it keeps of the pin states. *)
Lemma probe_spec e np g p h a :
  liquid_probe e np g p h = (a, 0) ->
  init_state p = true /\
  exists b, a = mkAtt (Some b) true true attr_names true /\ pub b = p /\
    liq b = set_st (liquid_parse_dt np (pin_lookup e "lddetection1_low"%string)) TYPE_DRY (now h) /\ vitals b = [].
Proof.
  unfold liquid_probe, liquid_get_auxadc_channel, get_pubadc_init_state. rewrite pinctrl_init_eq.
  cbn [CONFIG_PUBADC_MANAGE negb andb].
  destruct (kzalloc_ok e); cbn [negb]; [|done]. destruct (init_state p); cbn [negb]; [|done].
  destruct (ld_channel_ok e); cbn [Z.eqb negb]; [|done]. destruct (tcpc e); cbn [negb]; [|done].
  destruct (charger e); cbn [negb]; [|done]. destruct (_ && _); [|done]. change (0 =? 0) with true. cbn [negb].
  destruct (Z.eqb_spec (switch_ret e) 0) as [|N]; cbn [negb]; [|by intros [= _ ?]].
  destruct (liquid_create_attr (create e)) as [files ret] eqn:Ha.
  destruct (Z.ltb_spec ret 0); [intros [= _ ?]; lia|]. intros [= <-].
  destruct (created_all _ _ _ _ _ Ha ltac:(done)) as [-> _]. split; [done|]. by eexists.
Qed.

(** *** Types *)

Definition is_u32 (v : Z) : Prop := 0 <= v < 2 ^ 32.
Definition is_int (v : Z) : Prop := - 2 ^ 31 <= v < 2 ^ 31.
Definition steps_int (s : adc_steps) : Prop :=
  is_int (sbu1_step1_val s) /\ is_int (sbu1_step2_val s) /\ is_int (sbu2_step1_val s) /\ is_int (sbu2_step2_val s).

(** The seconds of a boot time, which the kernel keeps as a signed 64-bit count
    of nanoseconds. *)
Definition is_secs (t : Z) : Prop := 0 <= t <= (2 ^ 63 - 1) / 1000000000.
Definition times_secs (d : liquid) : Prop := is_secs (falsepositive_event_ts d) /\ is_secs (event_ts d).

(** Every field of the device is in the range of its C type, the time stamps
    even in that of a boot time, so that their differences do not overflow;
    moreover the count is below the threshold (0 where that is 0), and 0 while
    wet. *)
Record typed (d : liquid) : Prop := {
  ty_times : times_secs d;
  ty_intervals : Forall is_u32 (work_interval d) /\ length (work_interval d) = 3%nat;
  ty_threshold : is_u32 (threshold d).1 /\ is_u32 (threshold d).2;
  ty_steps : steps_int (adc_step_val d) /\ is_int (wet_adc d);
  ty_count : is_u32 (wet_count_threshold d) /\ 0 <= wet_count d < Z.max 1 (wet_count_threshold d);
  ty_state : valid_state (st_switch d) /\ (st_switch d <> TYPE_DRY -> wet_count d = 0) }.

(** The ADC's driver returns ints, the clock boot times. *)
Definition reading_int (r : reading) : Prop :=
  forall p c m, is_int (match sbu r p c m with inl v => v | inr e => e end).
Definition event_int (e : event) : Prop :=
  match e with
  | EvRoutine _ s => reading_int (rd1 s) /\ reading_int (rd2 s) /\ reading_int (rd3 s) /\ reading_int (rd4 s)
  | EvTime t => is_secs t
  | _ => True
  end.

Lemma get_value_int b r b' v : reading_int r -> liquid_get_auxadc_value b r = (b', v) -> is_int v.
Proof.
  intros Hr. unfold liquid_get_auxadc_value, pubadc_iio_read_channel. cbn [CONFIG_PUBADC_MANAGE].
  destruct (init_state _); [destruct (decide _)|]; intros [= _ <-]; apply Hr.
Qed.

Lemma get_value_liq b r b' v : liquid_get_auxadc_value b r = (b', v) -> liq b' = liq b.
Proof.
  unfold liquid_get_auxadc_value. cbn [CONFIG_PUBADC_MANAGE]. destruct (pubadc_iio_read_channel _ _ _).
  by intros [= <- _].
Qed.

Lemma pull_liq b p b' : liquid_en_pull_sbu b p = Ret b' -> liq b' = liq b.
Proof. destruct p; cbn; [by intros [= <-]|destruct (ld_detection1_low _); [by intros [= <-]|done]|by intros [= <-]..]. Qed.

Lemma step1_int b r1 r2 b' v1 v2 :
  reading_int r1 -> reading_int r2 -> steps_int (adc_step_val (liq b)) ->
  liquid_get_step1_adcval b r1 r2 = (b', v1, v2) ->
  steps_int (adc_step_val (liq b')) /\ is_int v1 /\ is_int v2 /\ wet_adc (liq b') = wet_adc (liq b).
Proof.
  intros I1 I2 Hs. unfold liquid_get_step1_adcval.
  destruct (liquid_get_auxadc_value (liquid_select_detection_switch b DETECTION_SBU1) r1) as [b1 w1] eqn:E1.
  destruct (liquid_get_auxadc_value (liquid_select_detection_switch b1 DETECTION_SBU2) r2) as [b2 w2] eqn:E2.
  intros [= <- <- <-]. pose proof (get_value_int _ _ _ _ I1 E1). pose proof (get_value_int _ _ _ _ I2 E2).
  apply get_value_liq in E1, E2. cbn in *. rewrite E2, E1. destruct Hs as (? & ? & ? & ?). by split_and!.
Qed.

Lemma step2_int b r1 r2 b' v1 v2 :
  reading_int r1 -> reading_int r2 -> steps_int (adc_step_val (liq b)) ->
  liquid_get_step2_adcval b r1 r2 = Ret (b', v1, v2) ->
  steps_int (adc_step_val (liq b')) /\ wet_adc (liq b') = wet_adc (liq b).
Proof.
  intros I1 I2 Hs. unfold liquid_get_step2_adcval. set (b0 := liquid_select_detection_switch b DETECTION_SBU1).
  destruct (liquid_en_pull_sbu b0 _) as [b1| |] eqn:E1; cbn [mbind outcome_bind]; [|done..].
  destruct (liquid_get_auxadc_value b1 r1) as [b2 w1] eqn:E2.
  destruct (liquid_en_pull_sbu b2 _) as [b3| |] eqn:E3; cbn [mbind outcome_bind]; [|done..].
  destruct (liquid_en_pull_sbu (liquid_select_detection_switch b3 _) _) as [b4| |] eqn:E4; cbn [mbind outcome_bind]; [|done..].
  destruct (liquid_get_auxadc_value b4 r2) as [b5 w2] eqn:E5.
  destruct (liquid_en_pull_sbu b5 _) as [b6| |] eqn:E6; cbn [mbind outcome_bind]; [|done..].
  intros [= <- _ _]. pose proof (get_value_int _ _ _ _ I1 E2). pose proof (get_value_int _ _ _ _ I2 E5).
  apply pull_liq in E1, E3, E4, E6. apply get_value_liq in E2, E5. cbn in *.
  rewrite E6, E5, E4, E3, E2, E1. destruct Hs as (? & ? & ? & ?). by split_and!.
Qed.

Lemma measure_int b s state b' ev :
  event_int (EvRoutine true s) -> is_int (wet_adc (liq b)) -> measure b s state = Ret (b', ev) ->
  steps_int (adc_step_val (liq b')) /\ is_int (wet_adc (liq b')).
Proof.
  intros (I1 & I2 & I3 & I4) Hw. unfold measure. set (b0 := liquid_clear_sbuval _ _ _).
  assert (H0 : steps_int (adc_step_val (liq b0))) by (unfold steps_int, is_int; cbn; unfold STEP1_DEFAULT_VAL, STEP2_DEFAULT_VAL; lia).
  destruct (liquid_get_step1_adcval b0 _ _) as [[b1 v1] v2] eqn:E1.
  destruct (step1_int _ _ _ _ _ _ I1 I2 H0 E1) as (H1 & _ & _ & W1). change (wet_adc (liq b0)) with (wet_adc (liq b)) in W1.
  destruct (state =? TYPE_DRY).
  - destruct (_ || _); [|intros [= <- _]; split; [done|congruence]].
    destruct (liquid_get_step1_adcval b1 _ _) as [[b2 w1] w2] eqn:E2.
    destruct (step1_int _ _ _ _ _ _ I3 I4 H1 E2) as (H2 & J1 & J2 & W2).
    destruct (_ || _); intros [= <- _]; cbn; (split; [done|]); [by destruct (_ <? _)|congruence].
  - destruct (_ || _); [intros [= <- _]; split; [done|congruence]|].
    destruct (liquid_get_step2_adcval b1 _ _) as [[[b2 w1] w2]| |] eqn:E2; cbn [mbind outcome_bind]; [|done..].
    destruct (step2_int _ _ _ _ _ _ I3 I4 H1 E2) as (H2 & W2).
    destruct (_ && _); intros [= <- _]; (split; [done|congruence]).
Qed.

Lemma parse_dt_typed np low : node_bytes np -> typed (liquid_parse_dt np low).
Proof.
  intros Hn. constructor; [done|..]; cbn [liquid_parse_dt work_interval threshold adc_step_val wet_adc wet_count_threshold wet_count st_switch].
  - destruct (of_property_read_u32_array np "work_interval" 3) as [|l] eqn:E.
    + split; [|done]. repeat constructor; unfold is_u32; lia.
    + by eapply read_u32_array_range.
  - destruct (of_property_read_u32_array np "threshold" 2) as [|l] eqn:E; [split; by unfold is_u32|].
    apply read_u32_array_range in E as [Hf Hl]; [|done]. destruct l as [|a [|c [|]]]; try done.
    apply list.Forall_cons in Hf as [Ha Hf]. by apply list.Forall_cons in Hf as [Hc _].
  - unfold steps_int, is_int; cbn; lia.
  - destruct (of_property_read_u32 np "wet_count_threshold") as [|v] eqn:E; [unfold is_u32; lia|].
    apply read_u32_range in E; [|done]. unfold is_u32. lia.
  - split; [by left|done].
Qed.

(** All of [typed] but the readings depends on these. *)
Lemma typed_from d d' st c :
  typed d -> times_secs d' -> settings d' = settings d -> steps_int (adc_step_val d') /\ is_int (wet_adc d') ->
  st_switch d' = st -> wet_count d' = c -> valid_state st -> (st <> TYPE_DRY -> c = 0) ->
  0 <= c < Z.max 1 (wet_count_threshold d) -> typed d'.
Proof.
  intros [_ A B _ [D _] _] Ht T Hs S C Hv Hc Hr. apply settings_eq in T as (_ & T1 & T2 & _ & T3).
  constructor; rewrite ?T1, ?T2, ?T3, ?S, ?C; done.
Qed.

Lemma debounce_steps b h ev :
  adc_step_val (liq (debounce_report_event b h ev).1) = adc_step_val (liq b) /\
  wet_adc (liq (debounce_report_event b h ev).1) = wet_adc (liq b).
Proof.
  assert (Hr : forall b h e, adc_step_val (liq (report_event b h e).1) = adc_step_val (liq b) /\
    wet_adc (liq (report_event b h e).1) = wet_adc (liq b)) by (intros; unfold report_event; by destruct (negb _)).
  destruct ev; cbn [debounce_report_event]; [| | |done].
  - destruct (_ && _); [|done]. unfold metrics_log_report_falsepositive. cbn [CONFIG_AMAZON_MINERVA_METRICS_LOG].
    by destruct (_ || _).
  - destruct (_ <=? _); [|done]. unfold liquid_is_wet, liquid_report_event.
    match goal with |- context [report_event ?b ?h ?e] => exact (Hr b h e) end.
  - unfold liquid_is_dry, liquid_report_event. pose proof (Hr b h TYPE_DRY). by destruct (report_event b h TYPE_DRY).
Qed.

(** What reacting makes of the time stamps: they are kept or become the clock. *)
Lemma report_times b h e :
  times_secs (liq b) -> is_secs (now h) -> times_secs (liq (report_event b h e).1) /\ now (report_event b h e).2 = now h.
Proof. intros [? ?] ?. unfold report_event. by destruct (negb _). Qed.

Lemma debounce_times b h ev :
  times_secs (liq b) -> is_secs (now h) ->
  times_secs (liq (debounce_report_event b h ev).1) /\ now (debounce_report_event b h ev).2 = now h.
Proof.
  intros Ht Hn. destruct ev; cbn [debounce_report_event]; [| | |done].
  - destruct (_ && _); [|done]. unfold metrics_log_report_falsepositive. cbn [CONFIG_AMAZON_MINERVA_METRICS_LOG].
    destruct (_ || _); [|done]. by destruct Ht.
  - destruct (_ <=? _); [|done]. unfold liquid_is_wet, liquid_report_event, liquid_limit_charging_current.
    match goal with |- context [report_event ?b ?h ?e] => destruct (report_times b h e) as [A B]; [exact Ht|by rewrite limit_now|] end.
    split; [exact A|]. by rewrite B, limit_now.
  - unfold liquid_is_dry, liquid_report_event, liquid_limit_charging_current. pose proof (report_times b h TYPE_DRY Ht Hn) as [A B].
    destruct (report_event b h TYPE_DRY). split; [exact A|]. cbn [snd] in *. by rewrite limit_now.
Qed.

(** The count stays below the threshold. *)
Lemma event_count_typed d ev h :
  typed d -> event_of (st_switch d) ev ->
  0 <= event_count d ev < Z.max 1 (wet_count_threshold d) /\
  (event_state d h ev <> TYPE_DRY -> event_count d ev = 0) /\ valid_state (event_state d h ev).
Proof.
  intros [_ _ _ _ [D C] [V Z0]] He. unfold event_of, event_state, event_count, is_u32 in *.
  destruct (Z.eqb_spec (st_switch d) TYPE_DRY) as [E|N]; destruct He as [-> | ->].
  - split_and!; [..|done]; destruct (_ && _); try lia; done.
  - rewrite wrapU_id by lia. destruct (Z.leb_spec (wet_count_threshold d) (wet_count d + 1)).
    + split_and!; [lia..|apply wet_state_wet].
    + split_and!; [lia..|done|done].
  - split_and!; [lia..|auto|done].
  - split_and!; [lia..|done|by left].
Qed.

Lemma routine_typed b h s x :
  typed (liq b) -> healthy h -> is_secs (now h) -> event_int (EvRoutine true s) -> liquid_routine_work true b h s = Ret x ->
  typed (liq x.1.1) /\ now x.1.2 = now h.
Proof.
  intros Ht Hh Hn Hi. unfold liquid_routine_work. cbn [negb].
  destruct (measure b s (st_switch (liq b))) as [[b1 ev]| |] eqn:E1; cbn [mbind outcome_bind]; [|done..].
  destruct (measure_int b s _ b1 ev Hi (proj2 (ty_steps _ Ht)) E1) as [J1 J2].
  apply measure_measured in E1 as [M Hev]. destruct (measured_event b b1 h ev M) as (Se & Ce & S1).
  assert (He : event_of (st_switch (liq b)) ev).
  { unfold event_of. destruct (st_switch (liq b) =? TYPE_DRY); [apply Hev|exact Hev]. }
  destruct (event_count_typed (liq b) ev h Ht He) as (C1 & C2 & V).
  destruct (debounce_lands b1 h ev Hh) as [_ L]; [rewrite S1; apply Ht|by rewrite S1|].
  rewrite Se, Ce, S1 in L. pose proof (lands_measured _ _ _ _ _ _ _ M L) as T. destruct (debounce_steps b1 h ev) as [D1 D2].
  assert (H1 : times_secs (liq b1)).
  { destruct M as [(_ & _ & _ & _ & _ & _ & F & _ & G)%core_eq _]. unfold times_secs. rewrite F, G. apply Ht. }
  destruct (debounce_times b1 h ev H1 Hn) as [T1 N1].
  destruct (debounce_report_event b1 h ev) as [b2 h2]. intros [= <-]. destruct L as [L1 L2 _ L4 _ _ _ _]. cbn [fst snd] in *.
  split; [|exact N1]. eapply (typed_from (liq b)); try done. by rewrite D1, D2.
Qed.

Lemma handle_typed x e :
  typed (liq x.1) -> healthy x.2 -> is_secs (now x.2) -> event_int e ->
  typed (liq (handle x e).1) /\ is_secs (now (handle x e).2).
Proof.
  destruct x as [b h]. intros Ht Hh Hn Hi. cbn [fst snd] in *.
  destruct e as [running s| |v|buff|buff|rs|t]; cbn [handle]; try done.
  - destruct running; [|done]. destruct (liquid_routine_work true b h s) as [y| |] eqn:E; [|done..].
    destruct (routine_typed b h s y Ht Hh Hn Hi E) as [A B]. split; [exact A|by rewrite B].
  - unfold liquid_vbus_detect, vbus_detect, vbus_report, vbus_read.
    assert (Hr : forall e, e <> TYPE_DRY -> valid_state e -> st_switch (liq b) <> TYPE_DRY ->
      typed (liq (report_event b h e).1) /\ is_secs (now (report_event b h e).2)).
    { intros e Hne Hv Hs. destruct (report_times b h e (ty_times _ Ht) Hn) as [Hts ->]. split; [|done]. pose proof (ty_state _ Ht) as [_ Z0]. pose proof (ty_count _ Ht) as [_ C0].
      eapply (typed_from (liq b) _ e (wet_count (liq b))); try done; [by apply report_board| |by apply report_board|by apply report_board|by auto].
      pose proof (ty_steps _ Ht). unfold report_event. by destruct (negb _). }
    destruct (check_vbus_valid h).
    + destruct (Z.eqb_spec (ld_state b) TYPE_WET) as [E|]; [|done]. apply Hr; [done|right; by right|].
      change (st_switch (liq b)) with (ld_state b). by rewrite E.
    + destruct (Z.eqb_spec (ld_state b) TYPE_WET_VBUS) as [E|]; [|done]. apply Hr; [done|right; by left|].
      change (st_switch (liq b)) with (ld_state b). by rewrite E.
  - split; [|done]. unfold threshod_l_store. destruct (kstrtouint buff 0) as [v|] eqn:E; [|done].
    destruct Ht as [G A [_ B] C D F]. constructor; try done. split; [by eapply kstrtouint_range|done].
  - split; [|done]. unfold threshod_h_store. destruct (kstrtouint buff 0) as [v|] eqn:E; [|done].
    destruct Ht as [G A [B _] C D F]. constructor; try done. split; [done|by eapply kstrtouint_range].
Qed.

(** ** Properties *)

(** C26. One run, whatever other users of the ADC do between its readings, on a
    battery that accepts limits and with a working manager of the ADC. Where the
    pin state "lddetection1_low" was not found, which the driver never tests, a
    run that gets to step 2 faults. Otherwise it returns, and its readings of the
    SBU pins decide. From dry both of two measurements must be wet, and only after
    as many such runs as the threshold counts is wet published; from wet, step 1
    must find no water and step 2 both pins at the high threshold for dry. Role
    and limit change only on the way into and out of dry; the next run is due
    after the interval of the OLD state. *)
Theorem liquid_refines b h s :
  healthy h -> valid_state (st_switch (liq b)) -> routed (pub b) ->
  let state := st_switch (liq b) in
  let ev := verdict (liq b) (pins b) s state in
  let st := event_state (liq b) h ev in
  if negb (ld_detection1_low (liq b)) && reaches_step2 (liq b) (pins b) s state then liquid_routine_work true b h s = Oops else
  exists b' h', liquid_routine_work true b h s = Ret (b', h', liquid_select_interval (liq b) state) /\
    st_switch (liq b') = st /\ wet_count (liq b') = event_count (liq b) ev /\
    (role h', iusb h') = next_outputs (st =? TYPE_DRY) state h /\ settings (liq b') = settings (liq b).
Proof.
  intros Hh Hst Hr. cbv zeta. destruct (negb _ && _) eqn:E.
  - apply andb_true_iff in E as [Hl%negb_true_iff Hs]. by apply step2_oops.
  - assert (Hl : ld_detection1_low (liq b) = true \/ reaches_step2 (liq b) (pins b) s (st_switch (liq b)) = false)
      by (apply andb_false_iff in E as [?%negb_false_iff|?]; auto).
    destruct (liquid_routine_spec b h s Hh Hst Hr Hl) as (b' & h' & E' & S & _ & C & O & _ & _ & T & _).
    exists b', h'. by split_and!.
Qed.

(** Whatever sequence of runs, VBUS works, supply changes, attribute writes
    and other ADC requests the driver sees, the port is a limited sink exactly
    while a wet state is published. *)
Theorem liquid_protection b h es :
  consistent (b, h) ->
  let x := foldl handle (b, h) es in
  valid_state (st_switch (liq x.1)) /\ (protected x.2 <-> st_switch (liq x.1) <> TYPE_DRY).
Proof. intros Hc. exact (consistent_iff _ (driver_consistent es (b, h) Hc)). Qed.

(** The debouncing is exact: from dry with nothing counted, the port stays
    published dry throughout a sequence of runs if and only if nowhere in it
    as many consecutive runs as the threshold (at least one) measure wet. *)
Theorem debounce_exact b h ss :
  healthy h -> routed (pub b) -> ld_detection1_low (liq b) = true -> st_switch (liq b) = TYPE_DRY ->
  wet_count (liq b) = 0 -> 0 <= wet_count_threshold (liq b) < 2 ^ 32 ->
  (forall l, l `prefix_of` ss -> st_switch (liq (runs (b, h) l).1) = TYPE_DRY) <->
  ~ streak (Z.to_nat (Z.max 1 (wet_count_threshold (liq b)))) (wet_twice (liq b) (pins b)) ss.
Proof.
  intros Hh Hr Hl Hs Hc Ht. assert (H0 : counting b (b, h) O) by (unfold counting; split_and!; cbn [fst snd]; done || lia). split.
  - intros Hd (l1 & l2 & l3 & -> & Hlen & Hf).
    pose proof (dry_runs_count b h _ Ht Hl H0 Hd (l1 ++ l2)) as Hlt. pose proof (tail_count_ge (fun s => wet_twice (liq b) (pins b) s) l1 l2 Hf).
    specialize (Hlt ltac:(exists l3; by rewrite app_assoc)). lia.
  - intros Hns l Hpre. apply (counting_runs b h l Ht Hl H0). intros k Hk.
    apply Nat.nle_gt. intros Hge. apply Hns. apply (streak_prefix _ _ _ k Hge). by transitivity l.
Qed.

(** A failing ADC changes nothing: with thresholds that are not negative, a
    run whose readings are all errors keeps the published state, the role of
    the port and the current limit (unlike the FUSB251, whose failing bus reads
    as dry). *)
Theorem adc_failure_keeps_state b h s :
  healthy h -> valid_state (st_switch (liq b)) -> routed (pub b) -> ld_detection1_low (liq b) = true ->
  0 <= s32 (threshold (liq b)).1 -> 0 <= s32 (threshold (liq b)).2 ->
  (forall r p, r ∈ [rd1 s; rd2 s; rd3 s; rd4 s] -> exists e, sbu r p ChPublic MuxLiquid = inr e /\ e < 0) ->
  exists b' h' i, liquid_routine_work true b h s = Ret (b', h', i) /\
    st_switch (liq b') = st_switch (liq b) /\ role h' = role h /\ iusb h' = iusb h.
Proof.
  intros Hh Hst Hr Hl T1 T2 He.
  assert (Ha : forall t r p, 0 <= s32 t -> r ∈ [rd1 s; rd2 s; rd3 s; rd4 s] -> above t (sbu_value r p) = false).
  { intros t r p Ht Hin. destruct (He r p Hin) as (e & E & Hneg). unfold above, sbu_value, liquid_is_in_range. rewrite E.
    destruct (Z.leb_spec (s32 t) e); [lia|done]. }
  assert (Hv : verdict (liq b) (pins b) s (st_switch (liq b)) = if st_switch (liq b) =? TYPE_DRY then STATE_DRY else STATE_WET).
  { unfold verdict, wet_twice, step1_wet, step2_dry. rewrite !Ha by (assumption || (rewrite !elem_of_cons; tauto)). done. }
  destruct (liquid_routine_spec b h s Hh Hst Hr (or_introl Hl)) as (b' & h' & E & S & _ & _ & O & _). rewrite Hv in S, O.
  exists b', h', (liquid_select_interval (liq b) (st_switch (liq b))). split; [exact E|].
  assert (S' : event_state (liq b) h (if st_switch (liq b) =? TYPE_DRY then STATE_DRY else STATE_WET) = st_switch (liq b))
    by (by destruct (_ =? _)).
  rewrite S' in S, O. unfold next_outputs in O. split; [exact S|].
  destruct (st_switch (liq b) =? TYPE_DRY); by injection O.
Qed.

(** False positives are reported at most every two hours: while the clock
    does not go back, any two reports are at least 7200 seconds apart,
    whatever the driver serves. *)
Theorem false_positives_spaced b h es :
  falsepositive_event_ts (liq b) = 0 -> vitals b = [] -> 0 < now h < 2 ^ 42 -> clock_ok (now h) es ->
  spaced (vitals (foldl handle (b, h) es).1).
Proof.
  intros Hf Hv Hn Hc.
  assert (Hok : reports_ok (b, h)) by (split_and!; cbn; rewrite ?Hv, ?Hf; try done; try lia; constructor).
  change (now h) with (now (b, h).2) in Hc. revert Hok Hc. generalize (b, h). clear.
  induction es as [|e es IH]; intros x Hok Hc; [apply Hok|]. cbn [foldl].
  destruct (clock_cons _ _ _ Hc) as [H1 H2]. destruct (handle_reports x e H1 Hok) as [Hok' Hn].
  apply IH; [exact Hok'|]. rewrite Hn. by destruct e.
Qed.

(** C34. From a device tree of bytes, on a battery that accepts limits and with
    a clock of boot times, every field stays in the range of its C type through
    any events, the two time stamps included. In particular the debounce count
    stays below its threshold (and at 0 where the threshold is 0) and is 0 while
    a wet state is published, so that it cannot wrap and nothing counted before
    a wet period is left over after it. *)
Theorem liquid_stays_typed e np g p h b es :
  node_bytes np -> healthy h -> is_secs (now h) ->
  liquid_probe e np g p h = (mkAtt (Some b) true true attr_names true, 0) ->
  Forall event_int es ->
  typed (liq (foldl handle (b, h) es).1).
Proof.
  intros Hn Hh Hs Ha He. destruct (probe_spec _ _ _ _ _ _ Ha) as (_ & b0 & Eb & _ & Hl & _). injection Eb as <-.
  assert (H0 : typed (liq b)).
  { rewrite Hl. destruct (parse_dt_typed np (pin_lookup e "lddetection1_low"%string) Hn). by constructor. }
  change (typed (liq (b, h).1)) in H0. change (healthy (b, h).2) in Hh. change (is_secs (now (b, h).2)) in Hs.
  revert H0 Hh Hs. clear -He. generalize (b, h).
  induction He as [|ev es Hev _ IH]; intros x Ht Hh Hs; [done|]. cbn [foldl].
  destruct (handle_typed x ev Ht Hh Hs Hev) as [Ht' Hs']. apply IH; [exact Ht'| |exact Hs'].
  apply (liquid_handle_ok x ev Hh), Ht.
Qed.

(** A missing pin state is found too late: the probe succeeds although the
    state "lddetection1_low" does not exist, and whenever a wet port then
    passes step 1 of a run, the run dereferences the error pointer instead of
    finishing step 2. *)
Theorem missing_pin_state_oops e np g p h b es s :
  pin_lookup e "lddetection1_low"%string = false ->
  liquid_probe e np g p h = (mkAtt (Some b) true true attr_names true, 0) ->
  let x := foldl handle (b, h) es in
  st_switch (liq x.1) <> TYPE_DRY -> routed (pub x.1) -> step1_wet (liq x.1) (pins x.1) (rd1 s) (rd2 s) = false ->
  liquid_routine_work true x.1 x.2 s = Oops.
Proof.
  intros Hp Ha x Hst Hr H1. destruct (probe_spec _ _ _ _ _ _ Ha) as (_ & b0 & Eb & _ & Hl & _). injection Eb as <-.
  assert (Hlow : ld_detection1_low (liq x.1) = false).
  { subst x. rewrite handles_detection1_low. cbn [fst]. rewrite Hl. exact Hp. }
  apply step2_oops; [done..|]. unfold reaches_step2. destruct (Z.eqb_spec (st_switch (liq x.1)) TYPE_DRY) as [|_]; [done|]. by rewrite H1.
Qed.

(** ** The properties at concrete inputs *)

(** The SBU pins at [v] millivolts unpulled and at [w] pulled up. *)
Definition ex_read (v w : Z) : reading :=
  mkReading [(ex_analog 400 0, PUBADC_BAT_ID)]
    (fun p => ex_analog 400 (match ctrl1 p, det1 p, det2 p with
                             | PinHigh, PinHigh, _ | PinLow, _, PinHigh => w | _, _, _ => v end)).
Definition ex_sample (v w : Z) : sample := let r := ex_read v w in mkSample r r r r.
Definition ex_wet : sample := ex_sample 600 900.
Definition ex_dry : sample := ex_sample 3 1490.
Definition ex_broken : sample :=
  let r := mkReading [] (fun _ _ _ => inr (-110)) in mkSample r r r r.
Definition ex_pub : public_adc := (pubadc_probe ex_pub_env ex_pub_node ex_gpio (pubadc_loaded MuxLiquid [])).1.
Definition ex_board (st : Z) : board :=
  mkBoard (set_st (liquid_parse_dt ∅ true) st 0) (mkPins PinInit PinInit PinInit) ex_pub [].
Definition ex_ld_hw (r : option typec_role) (l : option Z) : hw :=
  mkHw ∅ [] (mos_init, mos_init) r l (Some (inl 5000)) (Some 0) 10 [].

Lemma ex_ld_healthy r l : healthy (ex_ld_hw r l).
Proof. split; [done|]. by exists 0. Qed.
Lemma ex_routed : routed ex_pub.
Proof. by apply loaded_routed. Qed.

Lemma liquid_refines_witness :
  exists b' h', liquid_routine_work true (ex_board TYPE_WET) (ex_ld_hw (Some TYPEC_ROLE_SNK) (Some 10000)) ex_dry = Ret (b', h', 30) /\
    st_switch (liq b') = TYPE_DRY /\ iusb h' = Some (-1).
Proof.
  destruct (liquid_refines (ex_board TYPE_WET) (ex_ld_hw (Some TYPEC_ROLE_SNK) (Some 10000)) ex_dry
              (ex_ld_healthy _ _) (or_intror (or_introl eq_refl)) ex_routed) as (b' & h' & E & S & _ & O & _).
  exists b', h'. split; [exact E|]. split; [exact S|]. exact (f_equal snd O).
Defined.

Lemma liquid_protection_witness :
  let es := [EvRoutine true ex_wet; EvOthers [(ex_analog 400 0, PUBADC_BAT_ID)]; EvRoutine true ex_wet; EvSupply None; EvVbus;
             EvRoutine true ex_wet] in
  let x := foldl handle (ex_board TYPE_DRY, ex_ld_hw None None) es in
  st_switch (liq x.1) = TYPE_WET /\ protected x.2.
Proof.
  intros es x.
  assert (Hc : consistent (ex_board TYPE_DRY, ex_ld_hw None None)).
  { split; [apply ex_ld_healthy|]. split; [by left|]. by split; [split|]. }
  destruct (liquid_protection _ _ es Hc) as [_ P]. fold x in P.
  assert (E : st_switch (liq x.1) = TYPE_WET) by (vm_compute; reflexivity).
  split; [exact E|]. apply P. by rewrite E.
Defined.

(** One wet run, a dry one and another wet one are no streak of two. *)
Lemma debounce_exact_witness :
  st_switch (liq (runs (ex_board TYPE_DRY, ex_ld_hw None None) [ex_wet; ex_dry; ex_wet]).1) = TYPE_DRY.
Proof.
  refine (proj2 (debounce_exact (ex_board TYPE_DRY) (ex_ld_hw None None) [ex_wet; ex_dry; ex_wet]
            (ex_ld_healthy _ _) ex_routed eq_refl eq_refl eq_refl _) _ _ _); [by vm_compute| |done].
  intros (l1 & l2 & l3 & E & Hl & Hf). change (Z.to_nat _) with 2%nat in Hl.
  assert (Hd : wet_twice (liq (ex_board TYPE_DRY)) (pins (ex_board TYPE_DRY)) ex_dry = false) by (vm_compute; reflexivity).
  destruct l2 as [|x [|y [|]]]; try discriminate. apply list.Forall_cons in Hf as [Hx Hf]. apply list.Forall_cons in Hf as [Hy _].
  cbn beta in *. destruct l1 as [|a [|c l1]].
  - cbn in E. injection E; intros; subst. congruence.
  - cbn in E. injection E; intros; subst. congruence.
  - apply (f_equal length) in E. rewrite !length_app in E. cbn in E. lia.
Defined.

Lemma adc_failure_keeps_state_witness :
  exists b' h' i, liquid_routine_work true (ex_board TYPE_WET) (ex_ld_hw (Some TYPEC_ROLE_SNK) (Some 10000)) ex_broken = Ret (b', h', i) /\
    st_switch (liq b') = TYPE_WET /\ role h' = Some TYPEC_ROLE_SNK /\ iusb h' = Some 10000.
Proof.
  apply (adc_failure_keeps_state (ex_board TYPE_WET) (ex_ld_hw (Some TYPEC_ROLE_SNK) (Some 10000)) ex_broken
           (ex_ld_healthy _ _) (or_intror (or_introl eq_refl)) ex_routed eq_refl); [by vm_compute..|].
  intros r p Hr. exists (-110). split; [|done]. repeat (apply elem_of_cons in Hr as [->|Hr]; [done|]).
  by apply elem_of_nil in Hr.
Defined.

Lemma false_positives_spaced_witness :
  let es := [EvRoutine true ex_wet; EvRoutine true ex_dry; EvTime 100; EvRoutine true ex_wet; EvRoutine true ex_dry;
             EvTime 7300; EvRoutine true ex_wet; EvRoutine true ex_dry] in
  let v := vitals (foldl handle (ex_board TYPE_DRY, ex_ld_hw None None) es).1 in
  v = [(600, 10); (600, 7300)] /\ spaced v.
Proof.
  intros es v. split; [vm_compute; reflexivity|].
  apply (false_positives_spaced (ex_board TYPE_DRY) (ex_ld_hw None None) es eq_refl eq_refl); cbn; lia.
Defined.

Definition ex_ld_env : probe_env :=
  mkEnv true true true true true (fun n => negb (String.eqb n "lddetection1_low")) 0 (fun _ => 0).
Lemma missing_pin_state_oops_witness :
  let b := mkBoard (set_st (liquid_parse_dt ∅ false) TYPE_DRY 10) (mkPins PinInit PinInit PinInit) ex_pub [] in
  let x := foldl handle (b, ex_ld_hw None None) [EvRoutine true ex_wet; EvRoutine true ex_wet] in
  liquid_routine_work true x.1 x.2 ex_dry = Oops.
Proof.
  intros b x.
  apply (missing_pin_state_oops ex_ld_env ∅ ex_gpio ex_pub (ex_ld_hw None None) b
           [EvRoutine true ex_wet; EvRoutine true ex_wet] ex_dry); try (vm_compute; reflexivity).
  - vm_compute. discriminate.
  - by vm_compute.
Defined.

Lemma liquid_stays_typed_witness :
  let np := {[ "wet_count_threshold"%string := Some [0; 0; 0; 3] ]} in
  let b := mkBoard (set_st (liquid_parse_dt np false) TYPE_DRY 10) (mkPins PinInit PinInit PinInit) ex_pub [] in
  let x := foldl handle (b, ex_ld_hw None None) [EvTime 4000; EvRoutine true ex_wet; EvRoutine true ex_wet; EvThreshodL (str "4294967295")] in
  wet_count (liq x.1) = 2 /\ typed (liq x.1).
Proof.
  intros np b x. split; [vm_compute; reflexivity|].
  assert (Hi : reading_int (ex_read 600 900)).
  { intros p c m. unfold is_int. destruct p as [[] [] []], m; cbn; lia. }
  apply (liquid_stays_typed ex_ld_env np ex_gpio ex_pub (ex_ld_hw None None) b);
    [apply (map_Forall_singleton (fun _ p => match p with Some v => Forall (fun c => 0 <= c < 256) v | None => True end)); by apply (bool_decide_unpack _)|apply ex_ld_healthy|by vm_compute|vm_compute; reflexivity|].
  rewrite !list.Forall_cons. cbn. by split_and!.
Defined.
