(* ===== verification/Workqueue.v ===== *)
(** * An ordered workqueue with delayed work items (kernel/workqueue.c)

    What the drivers rely on: an item is queued at most once at a time, a
    delayed item waits for its timer first, one worker runs the items in the
    order they were queued, and an item can be taken back until it runs. *)

From stdpp Require Import base tactics list.
From S2P Require Import Prelude.

Section Workqueue.
Context {W : Type} `{EqDecision W}.

(** The items whose timer is running, the queue and the item being run. *)
Record workqueue := mkWq { timers : list W; worklist : list W; running_work : option W }.

Definition idle_wq : workqueue := mkWq [] [] None.

(** [WORK_STRUCT_PENDING_BIT] of an item. *)
Definition work_pending (q : workqueue) (w : W) : bool :=
  bool_decide (w ∈ timers q) || bool_decide (w ∈ worklist q).

(** [__queue_work]. *)
Definition insert_work (q : workqueue) (w : W) : workqueue :=
  mkWq (timers q) (worklist q ++ [w]) (running_work q).

Definition queue_work (q : workqueue) (w : W) : workqueue * bool :=
  if work_pending q w then (q, false) else (insert_work q w, true).

Definition queue_delayed_work (q : workqueue) (w : W) (delay : Z) : workqueue * bool :=
  if work_pending q w then (q, false)
  else if delay =? 0 then (insert_work q w, true)
  else (mkWq (timers q ++ [w]) (worklist q) (running_work q), true).

(** [delayed_work_timer_fn], if the item's timer is running. *)
Definition timer_fires (q : workqueue) (w : W) : workqueue :=
  if bool_decide (w ∈ timers q)
  then insert_work (mkWq (filter (fun x => x <> w) (timers q)) (worklist q) (running_work q)) w
  else q.

(** A timer is stolen, a queued item is unlinked; a running one is neither. *)
Definition cancel_delayed_work (q : workqueue) (w : W) : workqueue * bool :=
  if bool_decide (w ∈ timers q)
  then (mkWq (filter (fun x => x <> w) (timers q)) (worklist q) (running_work q), true)
  else if bool_decide (w ∈ worklist q)
  then (mkWq (timers q) (filter (fun x => x <> w) (worklist q)) (running_work q), true)
  else (q, false).

(** The worker takes the first item when it runs none, and gives it back. *)
Definition worker_start (q : workqueue) : workqueue :=
  match running_work q, worklist q with
  | None, w :: l => mkWq (timers q) l (Some w)
  | _, _ => q
  end.
Definition worker_end (q : workqueue) : workqueue := mkWq (timers q) (worklist q) None.
End Workqueue.
Arguments workqueue W : clear implicits.
