(* ===== verification/Keycombo.v ===== *)
(** * Key combinations (drivers/input/keycombo.c)

    The handler counts the keys of the combination that are down and the
    forbidden ones that are; when exactly the combination is held it starts a
    delayed work, which calls [key_down_fn], and when it is released after
    that a second work, which calls [key_up_fn]. *)

From stdpp Require Import base tactics numbers list gmap.
From S2P Require Import Prelude Workqueue.

(** ** Data *)

Definition EV_KEY : Z := 1.
Definition KEY_MAX : Z := 0x2ff.
Definition KEY_CNT : Z := KEY_MAX + 1.

(** [struct keycombo_platform_data]: whether the two functions are given, the
    delay in milliseconds and the memory behind the two arrays of keys. *)
Record keycombo_platform_data := mkPd {
  key_down_fn : bool; key_up_fn : bool; key_down_delay : Z;
  keys_up : option (list Z); keys_down : list Z }.

Inductive work := KeyDownWork | KeyUpWork.
#[export] Instance work_eq_dec : EqDecision work.
Proof. solve_decision. Defined.

(** What happens to the two functions. *)
Inductive call := CallDown | RetDown | CallUp | RetUp.

(** [struct keycombo_state]: the three bit maps as sets of keys, the counters,
    the workqueue, the wakeup sources and the calls made so far. *)
Record keycombo_state := mkKs {
  keybit : gset Z; upbit : gset Z; key : gset Z;
  key_down_target : Z; key_down : Z; key_up : Z; key_is_down : bool;
  delay : Z; down_fn : bool; up_fn : bool;
  wq : workqueue work; combo_held_wake_source : bool; combo_up_wake_source : bool;
  calls : list call }.

Definition set_bits (s : keycombo_state) kb ub target : keycombo_state :=
  mkKs kb ub (key s) target (key_down s) (key_up s) (key_is_down s) (delay s) (down_fn s) (up_fn s)
    (wq s) (combo_held_wake_source s) (combo_up_wake_source s) (calls s).
Definition set_keys (s : keycombo_state) k down up : keycombo_state :=
  mkKs (keybit s) (upbit s) k (key_down_target s) down up (key_is_down s) (delay s) (down_fn s) (up_fn s)
    (wq s) (combo_held_wake_source s) (combo_up_wake_source s) (calls s).
Definition set_combo (s : keycombo_state) is_down q held up : keycombo_state :=
  mkKs (keybit s) (upbit s) (key s) (key_down_target s) (key_down s) (key_up s) is_down (delay s)
    (down_fn s) (up_fn s) q held up (calls s).
Definition set_work (s : keycombo_state) q up cs : keycombo_state :=
  mkKs (keybit s) (upbit s) (key s) (key_down_target s) (key_down s) (key_up s) (key_is_down s) (delay s)
    (down_fn s) (up_fn s) q (combo_held_wake_source s) up cs.

(** ** Probe *)

(** The two loops over a zero-terminated array; [Oops]: the scan leaves the
    array, or a negative key is set in the bit map. *)
Fixpoint scan_down (mem : list Z) (s : keycombo_state) : outcome keycombo_state :=
  match mem with
  | [] => Oops
  | k :: mem =>
    if k =? 0 then Ret s
    else if KEY_MAX <=? k then scan_down mem s
    else if k <? 0 then Oops
    else scan_down mem (set_bits s ({[k]} ∪ keybit s) (upbit s) (s32 (key_down_target s + 1)))
  end.
Fixpoint scan_up (mem : list Z) (s : keycombo_state) : outcome keycombo_state :=
  match mem with
  | [] => Oops
  | k :: mem =>
    if k =? 0 then Ret s
    else if KEY_MAX <=? k then scan_up mem s
    else if k <? 0 then Oops
    else scan_up mem (set_bits s ({[k]} ∪ keybit s) ({[k]} ∪ upbit s) (key_down_target s))
  end.

(** [kzalloc]'s state. *)
Definition zero_state : keycombo_state :=
  mkKs ∅ ∅ ∅ 0 0 0 false 0 false false idle_wq false false [].

(** [jiffies] is [msecs_to_jiffies]; [wq_ok] and [reg] are the answers of
    [alloc_ordered_workqueue] and [input_register_handler]. *)
Definition keycombo_probe (jiffies : Z -> Z) (pdata : option keycombo_platform_data)
    (kzalloc_ok wq_ok : bool) (reg : Z) : outcome (option keycombo_state * Z) :=
  match pdata with
  | None => Ret (None, - EINVAL)
  | Some pdata =>
    if negb kzalloc_ok then Ret (None, - ENOMEM) else
    s ← scan_down (keys_down pdata) zero_state;
    s ← (match keys_up pdata with Some mem => scan_up mem s | None => Ret s end);
    if negb wq_ok then Ret (None, - ENOMEM) else
    let s := mkKs (keybit s) (upbit s) (key s) (key_down_target s) 0 0 false
               (s32 (jiffies (u32 (key_down_delay pdata)))) (key_down_fn pdata) (key_up_fn pdata)
               (wq s) false false [] in
    if negb (reg =? 0) then Ret (None, reg) else Ret (Some s, 0)
  end.

(** [keycombo_connect]: a device with none of the keys is refused;
    [open_ret] is what opening the handle answers. *)
Definition keycombo_connect (s : keycombo_state) (dev_keybit : gset Z) (kzalloc_ok : bool)
    (register_ret open_ret : Z) : Z :=
  if bool_decide (filter (fun k => k < KEY_MAX) (keybit s ∩ dev_keybit) = ∅) then - ENODEV
  else if negb kzalloc_ok then - ENOMEM
  else if negb (register_ret =? 0) then register_ret
  else if negb (open_ret =? 0) then open_ret else 0.

(** ** Events *)

(** The bit and the counters after a change of key [code]. *)
Definition change_key (s : keycombo_state) (code value : Z) : keycombo_state :=
  let k := if bool_decide (code ∈ key s) then key s ∖ {[code]} else {[code]} ∪ key s in
  let d := if value =? 0 then -1 else 1 in
  if bool_decide (code ∈ upbit s) then set_keys s k (key_down s) (s32 (key_up s + d))
  else set_keys s k (s32 (key_down s + d)) (key_up s).

(** The combination is complete, or no longer. *)
Definition check_combo (s : keycombo_state) : keycombo_state :=
  if (key_down s =? key_down_target s) && (key_up s =? 0) then
    set_combo s true (queue_delayed_work (wq s) KeyDownWork (delay s)).1 true (combo_up_wake_source s)
  else if key_is_down s then
    let '(q, cancelled) := cancel_delayed_work (wq s) KeyDownWork in
    if negb cancelled
    then set_combo s false (queue_work q KeyUpWork).1 false true
    else set_combo s false q false (combo_up_wake_source s)
  else s.

Definition keycombo_event (s : keycombo_state) (type code value : Z) : keycombo_state :=
  if negb (type =? EV_KEY) then s
  else if KEY_MAX <=? code then s
  else if negb (bool_decide (code ∈ keybit s)) then s
  else if Bool.eqb (negb (bool_decide (code ∈ key s))) (value =? 0) then s
  else check_combo (change_key s code value).

(** ** The works *)

(** [do_key_down] and [do_key_up] up to the call, and from its return on. *)
Definition begin_work (s : keycombo_state) (w : work) (q : workqueue work) : keycombo_state :=
  match w with
  | KeyDownWork => set_work s q (combo_up_wake_source s) (calls s ++ if down_fn s then [CallDown] else [])
  | KeyUpWork => set_work s q (combo_up_wake_source s) (calls s ++ if up_fn s then [CallUp] else [])
  end.
Definition end_work (s : keycombo_state) (w : work) (q : workqueue work) : keycombo_state :=
  match w with
  | KeyDownWork => set_work s q (combo_up_wake_source s) (calls s ++ if down_fn s then [RetDown] else [])
  | KeyUpWork => set_work s q false (calls s ++ if up_fn s then [RetUp] else [])
  end.

(** What can happen, in any order: a key event, the expiry of the timer, the
    worker taking an item, the worker finishing it. *)
Inductive label :=
| LEvent (type code value : Z)
| LTimer
| LStart
| LEnd.

Definition kstep (s : keycombo_state) (l : label) : keycombo_state :=
  match l with
  | LEvent type code value => keycombo_event s type code value
  | LTimer => set_work s (timer_fires (wq s) KeyDownWork) (combo_up_wake_source s) (calls s)
  | LStart =>
    match running_work (wq s), worklist (wq s) with
    | None, w :: _ => begin_work s w (worker_start (wq s))
    | _, _ => s
    end
  | LEnd => match running_work (wq s) with Some w => end_work s w (worker_end (wq s)) | None => s end
  end.
Definition krun (s : keycombo_state) (ls : list label) : keycombo_state := foldl kstep s ls.

(** ** Specification *)

(** [n] complete rounds of calls: the header's guarantee. *)
Definition round : list call := [CallDown; RetDown; CallUp; RetUp].
Definition rounds (n : nat) : list call := mjoin (replicate n round).

(** The calls made of those of a round: a missing function is not called. *)
Definition given (down up : bool) (c : call) : Prop :=
  match c with CallDown | RetDown => down = true | CallUp | RetUp => up = true end.
#[export] Instance given_dec down up c : Decision (given down up c).
Proof. destruct c; unfold given; apply _. Defined.

(** The keys that are down, by the last event of each. *)
Definition pressed (ls : list label) (k : Z) : bool :=
  foldl (fun b l => match l with
                    | LEvent t c v => if (t =? EV_KEY) && (c =? k) then negb (v =? 0) else b
                    | _ => b
                    end) false ls.

(** Exactly the combination is held. *)
Definition combo_held (downs ups : list Z) (ls : list label) : Prop :=
  (forall k, k ∈ downs -> pressed ls k = true) /\ (forall k, k ∈ ups -> pressed ls k = false).

(** Proper arrays: keys of the range, none twice, none in both. *)
Definition keys_ok (downs ups : list Z) : Prop :=
  downs <> [] /\ NoDup downs /\ (forall k, k ∈ downs -> k ∈ ups -> False) /\
  (forall k, k ∈ downs \/ k ∈ ups -> 0 < k < KEY_MAX).

(** ** The counters *)

Definition cond (s : keycombo_state) : bool := (key_down s =? key_down_target s) && (key_up s =? 0).

(** The counters count, and only keys of the range are known. *)
Record counted (s : keycombo_state) : Prop := {
  co_key : key s ⊆ keybit s;
  co_range : forall k, k ∈ keybit s -> 0 < k < KEY_MAX;
  co_down : key_down s = Z.of_nat (size (key s ∖ upbit s));
  co_up : key_up s = Z.of_nat (size (key s ∩ upbit s)) }.

Lemma size_range (X : gset Z) : (forall k, k ∈ X -> 0 < k < KEY_MAX) -> Z.of_nat (size X) < KEY_MAX.
Proof.
  intros HX. assert (Hsub : X ⊆ list_to_set (seqZ 1 (KEY_MAX - 1))).
  { intros k Hk. apply HX in Hk. apply elem_of_list_to_set, elem_of_seqZ. lia. }
  apply subseteq_size in Hsub. rewrite size_list_to_set, length_seqZ in Hsub by apply NoDup_seqZ.
  unfold KEY_MAX in *. lia.
Qed.

Lemma counted_range s :
  counted s -> 0 <= key_down s < KEY_MAX /\ 0 <= key_up s < KEY_MAX.
Proof.
  intros [Hk Hr Hd Hu]. rewrite Hd, Hu.
  assert (Hs : forall X, X ⊆ key s -> Z.of_nat (size X) < KEY_MAX).
  { intros X HX. apply size_range. intros k Hin. by apply Hr, Hk, HX. }
  pose proof (Hs (key s ∖ upbit s) ltac:(set_solver)). pose proof (Hs (key s ∩ upbit s) ltac:(set_solver)). lia.
Qed.

Definition toggle (c : Z) (X : gset Z) : gset Z :=
  if bool_decide (c ∈ X) then X ∖ {[c]} else {[c]} ∪ X.

Lemma size_toggle c X :
  Z.of_nat (size (toggle c X)) = Z.of_nat (size X) + (if bool_decide (c ∈ X) then -1 else 1).
Proof.
  unfold toggle. destruct (bool_decide_reflect (c ∈ X)) as [Hin|Hin].
  - assert (E : size ({[c]} ∪ X ∖ {[c]}) = size X) by (f_equal; by rewrite <- union_difference_singleton_L).
    rewrite size_union, size_singleton in E by set_solver. lia.
  - rewrite size_union by set_solver. rewrite size_singleton. lia.
Qed.

Lemma toggle_in c X U :
  c ∈ U -> toggle c X ∩ U = toggle c (X ∩ U) /\ toggle c X ∖ U = X ∖ U /\
  bool_decide (c ∈ X ∩ U) = bool_decide (c ∈ X).
Proof.
  intros Hc. assert (E : bool_decide (c ∈ X ∩ U) = bool_decide (c ∈ X)) by (apply bool_decide_ext; set_solver).
  unfold toggle. rewrite E. destruct (bool_decide (c ∈ X)); split_and!; set_solver.
Qed.

Lemma toggle_out c X U :
  c ∉ U -> toggle c X ∖ U = toggle c (X ∖ U) /\ toggle c X ∩ U = X ∩ U /\
  bool_decide (c ∈ X ∖ U) = bool_decide (c ∈ X).
Proof.
  intros Hc. assert (E : bool_decide (c ∈ X ∖ U) = bool_decide (c ∈ X)) by (apply bool_decide_ext; set_solver).
  unfold toggle. rewrite E. destruct (bool_decide (c ∈ X)); split_and!; set_solver.
Qed.

Lemma toggle_subseteq c X K : c ∈ K -> X ⊆ K -> toggle c X ⊆ K.
Proof. unfold toggle. case_bool_decide; set_solver. Qed.

(** One change moves one counter by one, away from a complete combination. *)
Lemma change_key_counted s code value :
  counted s -> code ∈ keybit s -> negb (bool_decide (code ∈ key s)) <> (value =? 0) ->
  counted (change_key s code value) /\ (cond s = true -> cond (change_key s code value) = false).
Proof.
  intros Hc Hcode Hneq. pose proof (counted_range s Hc) as [Hd Hu]. destruct Hc as [Hk Hr Cd Cu].
  unfold KEY_MAX in *. pose proof (toggle_subseteq code (key s) (keybit s) Hcode Hk) as Hsub.
  assert (Hv : (if value =? 0 then -1 else 1) = (if bool_decide (code ∈ key s) then -1 else 1))
    by (destruct (value =? 0), (bool_decide _); done).
  unfold cond, change_key. fold (toggle code (key s)). rewrite Hv.
  set (d := if bool_decide (code ∈ key s) then -1 else 1).
  assert (Hd1 : d = -1 \/ d = 1) by (subst d; case_bool_decide; auto).
  destruct (bool_decide_reflect (code ∈ upbit s)) as [Hup|Hup];
    cbn [key_down key_down_target key_up set_keys]; rewrite s32_id by lia.
  - destruct (toggle_in code (key s) (upbit s) Hup) as (E1 & E2 & E3).
    split; [|zcases; cbn; lia || done].
    constructor; cbn; [done|done|by rewrite E2|]. rewrite E1, size_toggle, E3. fold d. lia.
  - destruct (toggle_out code (key s) (upbit s) Hup) as (E1 & E2 & E3).
    split; [|zcases; cbn; lia || done].
    constructor; cbn; [done|done| |by rewrite E2]. rewrite E1, size_toggle, E3. fold d. lia.
Qed.

(** ** The phases of a round *)

(** The down work of the current hold, not begun yet. *)
Inductive waiting : bool -> list work -> list work -> Prop :=
| waiting_none : waiting false [] []
| waiting_timer : waiting true [KeyDownWork] []
| waiting_queued : waiting true [] [KeyDownWork].

(** By [key_is_down]: the workqueue, whether the up work holds its wakeup
    source, and the calls made, after [n] rounds. *)
Inductive phase (n : nat) : bool -> workqueue work -> bool -> list call -> Prop :=
| ph_ready d ts q : waiting d ts q -> phase n d (mkWq ts q None) false (rounds n)
| ph_down : phase n true (mkWq [] [] (Some KeyDownWork)) false (rounds n ++ [CallDown])
| ph_held : phase n true (mkWq [] [] None) false (rounds n ++ [CallDown; RetDown])
| ph_released d ts q : waiting d ts q ->
    phase n d (mkWq ts (KeyUpWork :: q) (Some KeyDownWork)) true (rounds n ++ [CallDown])
| ph_up_due d ts q : waiting d ts q ->
    phase n d (mkWq ts (KeyUpWork :: q) None) true (rounds n ++ [CallDown; RetDown])
| ph_up d ts q : waiting d ts q ->
    phase n d (mkWq ts q (Some KeyUpWork)) true (rounds n ++ [CallDown; RetDown; CallUp]).
#[local] Hint Constructors waiting phase : core.

Lemma rounds_S n : rounds (S n) = rounds n ++ round.
Proof.
  unfold rounds. replace (S n) with (n + 1)%nat by lia.
  rewrite replicate_add, join_app. cbn. by rewrite ?app_nil_r.
Qed.

(** Evaluate the workqueue's operations on the items of a phase. *)
Ltac run_wq :=
  repeat match goal with
  | H : waiting _ _ _ |- _ => inversion H; subst; clear H
  end;
  unfold queue_work, queue_delayed_work, cancel_delayed_work, timer_fires, work_pending, insert_work; cbn [timers worklist running_work];
  repeat (cbn; match goal with
  | |- context [bool_decide ?P] =>
      let b := eval vm_compute in (bool_decide P) in change (bool_decide P) with b
  | |- context [decide (?x <> ?x)] => rewrite (decide_False (P := x <> x)) by tauto
  | |- context [decide (?x <> ?y)] => rewrite (decide_True (P := x <> y)) by done
  end); cbn; auto.

Lemma phase_press n q up cs delay :
  phase n false q up cs -> phase n true (queue_delayed_work q KeyDownWork delay).1 up cs.
Proof.
  unfold queue_delayed_work. destruct (delay =? 0);
    intros H; inversion H; subst; run_wq.
Qed.

Lemma phase_release n q up cs :
  phase n true q up cs ->
  let '(q', cancelled) := cancel_delayed_work q KeyDownWork in
  phase n false (if cancelled then q' else (queue_work q' KeyUpWork).1) (if cancelled then up else true) cs.
Proof. intros H; inversion H; subst; run_wq.
Qed.

Lemma phase_timer n d q up cs : phase n d q up cs -> phase n d (timer_fires q KeyDownWork) up cs.
Proof. intros H; inversion H; subst; run_wq. Qed.

Lemma app_cons_assoc {A} (l k : list A) x : l ++ k ++ [x] = (l ++ k) ++ [x].
Proof. by rewrite app_assoc. Qed.

Lemma phase_start n d q up cs w l :
  phase n d q up cs -> running_work q = None -> worklist q = w :: l ->
  phase n d (worker_start q) up (cs ++ [match w with KeyDownWork => CallDown | KeyUpWork => CallUp end]).
Proof.
  intros H; inversion H; subst; cbn; try done; intros _ E; simplify_eq; run_wq.
  - rewrite <- app_assoc. cbn. auto.
  - rewrite <- app_assoc. cbn. auto.
  - rewrite <- app_assoc. cbn. auto.
Qed.

Lemma phase_end n d q up cs w :
  phase n d q up cs -> running_work q = Some w ->
  exists n', phase n' d (worker_end q) (match w with KeyDownWork => up | KeyUpWork => false end)
               (cs ++ [match w with KeyDownWork => RetDown | KeyUpWork => RetUp end]).
Proof.
  unfold worker_end. intros H; inversion H; subst; cbn; try done; intros [= <-].
  - exists n. rewrite <- app_assoc. cbn. auto.
  - exists n. rewrite <- app_assoc. cbn. auto.
  - exists (S n). rewrite <- app_assoc. cbn. fold round. rewrite <- (rounds_S n). auto.
Qed.

(** Less than one round is in progress. *)
Lemma phase_prefix n d q up cs : phase n d q up cs -> exists k, cs = take k (rounds (S n)).
Proof.
  intros Hp. rewrite rounds_S. set (k0 := length (rounds n)).
  assert (Hk : forall l j, take j round = l -> exists k, rounds n ++ l = take k (rounds n ++ round)).
  { intros l j <-. exists (k0 + j)%nat. symmetry. apply take_app_add. }
  inversion Hp; subst; try (by apply (Hk _ 1%nat)); try (by apply (Hk _ 2%nat)); try (by apply (Hk _ 3%nat)).
  exists k0. symmetry. apply take_app_length.
Qed.

(** The invariant of every interleaving. *)
Record combo_inv (s : keycombo_state) : Prop := {
  ci_counted : counted s;
  ci_down : key_is_down s = cond s;
  ci_held : combo_held_wake_source s = key_is_down s;
  ci_phase : exists n cs, phase n (key_is_down s) (wq s) (combo_up_wake_source s) cs /\
                          calls s = filter (given (down_fn s) (up_fn s)) cs }.

Lemma event_inv s type code value : combo_inv s -> combo_inv (keycombo_event s type code value).
Proof.
  intros Hs. unfold keycombo_event. destruct (negb (type =? EV_KEY)); [done|].
  destruct (KEY_MAX <=? code); [done|].
  destruct (bool_decide_reflect (code ∈ keybit s)) as [Hin|]; cbn [negb]; [|done].
  destruct (Bool.eqb _ _) eqn:E; [done|]. apply Bool.eqb_false_iff in E.
  destruct Hs as [Hc Hd Hh (n & cs & Hp & Hcs)].
  destruct (change_key_counted s code value Hc Hin E) as [Hc' Hne].
  assert (Hsame : let s' := change_key s code value in key_is_down s' = key_is_down s /\ wq s' = wq s /\
     delay s' = delay s /\ combo_up_wake_source s' = combo_up_wake_source s /\
     combo_held_wake_source s' = combo_held_wake_source s /\
     calls s' = calls s /\ down_fn s' = down_fn s /\ up_fn s' = up_fn s)
    by (unfold change_key; destruct (bool_decide (code ∈ upbit s)); done).
  set (s' := change_key s code value) in *. clearbody s'. destruct Hsame as (E1 & E2 & E3 & E4 & E5 & E6 & E7 & E8).
  unfold check_combo. fold (cond s'). rewrite E1, E2, E3, E4. destruct (cond s') eqn:Ec'.
  - assert (Hup : key_is_down s = false) by (rewrite Hd; destruct (cond s); auto).
    rewrite Hup in Hp. constructor; cbn; [by destruct Hc'|done|done|].
    exists n, cs. rewrite E6, E7, E8. split; [by apply phase_press|done].
  - destruct (key_is_down s) eqn:Hdn.
    + pose proof (phase_release n _ _ _ Hp) as Hr.
      destruct (cancel_delayed_work (wq s) KeyDownWork) as [q []]; cbn [negb];
        (constructor; cbn; [by destruct Hc'|done|done|exists n, cs; by rewrite E6, E7, E8]).
    + constructor; rewrite ?E1, ?E2, ?E4, ?E5, ?E6, ?E7, ?E8; try done. by exists n, cs.
Qed.

Lemma kstep_inv s l : combo_inv s -> combo_inv (kstep s l).
Proof.
  intros Hs. destruct l as [type code value| | |]; [by apply event_inv| | |];
    destruct Hs as [Hc Hd Hh (n & cs & Hp & Hcs)]; cbn [kstep].
  - constructor; cbn; try done; [by destruct Hc|]. exists n, cs. split; [by apply phase_timer|done].
  - destruct (running_work (wq s)) eqn:Er; [constructor; try done; by exists n, cs|].
    destruct (worklist (wq s)) as [|w l] eqn:El; [constructor; try done; by exists n, cs|].
    pose proof (phase_start _ _ _ _ _ _ _ Hp Er El) as Hp'.
    constructor; destruct w; cbn; try done; try (by destruct Hc);
      (exists n; eexists; split; [exact Hp'|]); rewrite filter_app, <- Hcs, filter_cons, filter_nil;
      cbn; f_equal; by case_match; case_decide.
  - destruct (running_work (wq s)) as [w|] eqn:Er; [|constructor; try done; by exists n, cs].
    destruct (phase_end _ _ _ _ _ _ Hp Er) as [n' Hp'].
    constructor; destruct w; cbn; try done; try (by destruct Hc);
      (exists n'; eexists; split; [exact Hp'|]); rewrite filter_app, <- Hcs, filter_cons, filter_nil;
      cbn; f_equal; by case_match; case_decide.
Qed.

Lemma krun_inv ls : forall s, combo_inv s -> combo_inv (krun s ls).
Proof. induction ls as [|l ls IH]; intros s Hs; [done|]. by apply IH, kstep_inv. Qed.

(** Neither function changes, and the worker drains a released combination. *)
Lemma krun_fns s ls : down_fn (krun s ls) = down_fn s /\ up_fn (krun s ls) = up_fn s.
Proof.
  revert s. induction ls as [|l ls IH]; intros s; [done|]. destruct (IH (kstep s l)) as [E1 E2].
  unfold krun in *. cbn [foldl]. rewrite E1, E2. destruct l as [type code value| | |]; cbn [kstep].
  - unfold keycombo_event, check_combo, change_key. repeat case_match; done.
  - done.
  - repeat case_match; try done; by destruct w.
  - repeat case_match; try done; by destruct w.
Qed.

Lemma drained s : combo_inv s -> key_is_down s = false ->
  let e := krun s [LEnd; LStart; LEnd] in
  wq e = idle_wq /\ combo_held_wake_source e = false /\ combo_up_wake_source e = false.
Proof.
  destruct s as [kb ub ky tgt kd ku isd dl df uf q hw uw cs]. intros [_ _ Hh (n & cs' & Hph & _)].
  cbn in *. subst hw. intros ->. inversion Hph; subst; cbn;
    try (match goal with H : waiting _ _ _ |- _ => inversion H; subst; clear H end); done.
Qed.

(** ** The keys that are held *)

Definition tracks (ls : list label) (s : keycombo_state) : Prop :=
  forall k, k ∈ keybit s -> k ∈ key s <-> pressed ls k = true.

Lemma pressed_snoc ls l k :
  pressed (ls ++ [l]) k =
  match l with
  | LEvent t c v => if (t =? EV_KEY) && (c =? k) then negb (v =? 0) else pressed ls k
  | _ => pressed ls k
  end.
Proof. unfold pressed. by rewrite foldl_snoc. Qed.

Lemma check_combo_keys s :
  keybit (check_combo s) = keybit s /\ upbit (check_combo s) = upbit s /\ key (check_combo s) = key s /\
  key_down_target (check_combo s) = key_down_target s.
Proof.
  unfold check_combo. destruct (_ && _); [done|]. destruct (key_is_down s); [|done].
  destruct (cancel_delayed_work _ _) as [q []]; done.
Qed.

Lemma event_keys s type code value :
  let s' := keycombo_event s type code value in
  keybit s' = keybit s /\ upbit s' = upbit s /\ key_down_target s' = key_down_target s /\
  key s' = (if (type =? EV_KEY) && (code <? KEY_MAX) && bool_decide (code ∈ keybit s) &&
               negb (Bool.eqb (negb (bool_decide (code ∈ key s))) (value =? 0))
            then toggle code (key s) else key s).
Proof.
  unfold keycombo_event.
  destruct (type =? EV_KEY); cbn [negb andb]; [|done].
  destruct (Z.leb_spec KEY_MAX code), (Z.ltb_spec code KEY_MAX); try lia; [done|]. cbn [andb].
  destruct (bool_decide (code ∈ keybit s)); cbn [negb andb]; [|done].
  destruct (Bool.eqb _ _); cbn [negb]; [done|].
  destruct (check_combo_keys (change_key s code value)) as (-> & -> & -> & ->).
  unfold change_key. destruct (bool_decide (code ∈ upbit s)); done.
Qed.

Lemma kstep_keys s l :
  keybit (kstep s l) = keybit s /\ upbit (kstep s l) = upbit s /\
  key_down_target (kstep s l) = key_down_target s.
Proof.
  destruct l as [type code value| | |]; cbn [kstep].
  - by destruct (event_keys s type code value) as (? & ? & ? & _).
  - done.
  - destruct (running_work (wq s)); [done|]. destruct (worklist (wq s)) as [|[] ?]; done.
  - destruct (running_work (wq s)) as [[]|]; done.
Qed.

Lemma kstep_tracks s l ls :
  (forall k, k ∈ keybit s -> 0 < k < KEY_MAX) -> tracks ls s -> tracks (ls ++ [l]) (kstep s l).
Proof.
  intros Hr Ht k. rewrite (proj1 (kstep_keys s l)). intros Hk. rewrite pressed_snoc. specialize (Ht k Hk).
  destruct l as [type code value| | |]; cbn [kstep].
  - destruct (event_keys s type code value) as (_ & _ & _ & ->).
    destruct (Z.eqb_spec type EV_KEY); cbn [andb]; [|done].
    destruct (Z.eqb_spec code k) as [->|Hne].
    + destruct (Z.ltb_spec k KEY_MAX); [|apply Hr in Hk; lia]. rewrite bool_decide_true by done. cbn [andb].
      unfold toggle. destruct (bool_decide_reflect (k ∈ key s)), (value =? 0); cbn; set_solver.
    + destruct (_ && _ && _); [|done]. unfold toggle. destruct (bool_decide (code ∈ key s)); set_solver.
  - done.
  - destruct (running_work (wq s)); [done|]. destruct (worklist (wq s)) as [|[] ?]; done.
  - destruct (running_work (wq s)) as [[]|]; done.
Qed.

Lemma krun_tracks s ls :
  (forall k, k ∈ keybit s -> 0 < k < KEY_MAX) -> key s = ∅ ->
  tracks ls (krun s ls) /\ keybit (krun s ls) = keybit s /\ upbit (krun s ls) = upbit s /\
  key_down_target (krun s ls) = key_down_target s.
Proof.
  intros Hr H0. induction ls as [|l ls IH] using rev_ind.
  { split_and!; try done. intros k Hk. cbn. rewrite H0. set_solver. }
  destruct IH as (Ht & E1 & E2 & E3). unfold krun in *. rewrite foldl_snoc.
  destruct (kstep_keys (foldl kstep s ls) l) as (F1 & F2 & F3).
  split; [|split_and!; congruence]. apply kstep_tracks; [by rewrite E1|done].
Qed.

(** ** The probe *)

Lemma scan_down_ok downs junk : forall s,
  (forall k, k ∈ downs -> 0 < k < KEY_MAX) ->
  0 <= key_down_target s -> key_down_target s + Z.of_nat (length downs) < 2147483648 ->
  scan_down (downs ++ 0 :: junk) s =
    Ret (set_bits s (list_to_set downs ∪ keybit s) (upbit s) (key_down_target s + Z.of_nat (length downs))).
Proof.
  induction downs as [|k downs IH]; intros s Hr Ht Hl; cbn [app scan_down length list_to_set] in *.
  { rewrite Z.eqb_refl, union_empty_l_L, Z.add_0_r. by destruct s. }
  destruct (Hr k) as [H1 H2]; [set_solver|].
  destruct (Z.eqb_spec k 0), (Z.leb_spec KEY_MAX k), (Z.ltb_spec k 0); try lia.
  rewrite s32_id by lia. rewrite IH; [|set_solver|cbn; lia|cbn; lia].
  cbn. f_equal. unfold set_bits. cbn. f_equal; [set_solver|lia].
Qed.

Lemma scan_up_ok ups junk : forall s,
  (forall k, k ∈ ups -> 0 < k < KEY_MAX) ->
  scan_up (ups ++ 0 :: junk) s =
    Ret (set_bits s (list_to_set ups ∪ keybit s) (list_to_set ups ∪ upbit s) (key_down_target s)).
Proof.
  induction ups as [|k ups IH]; intros s Hr; cbn [app scan_up list_to_set] in *.
  { rewrite Z.eqb_refl, !union_empty_l_L. by destruct s. }
  destruct (Hr k) as [H1 H2]; [set_solver|].
  destruct (Z.eqb_spec k 0), (Z.leb_spec KEY_MAX k), (Z.ltb_spec k 0); try lia.
  rewrite IH by set_solver. cbn. f_equal. unfold set_bits. cbn. f_equal; set_solver.
Qed.

(** Platform data whose arrays hold these keys. *)
Definition pdata_for (pdata : keycombo_platform_data) (downs ups : list Z) : Prop :=
  (exists junk, keys_down pdata = downs ++ 0 :: junk) /\
  match keys_up pdata with
  | Some mem => exists junk, mem = ups ++ 0 :: junk
  | None => ups = []
  end.

Lemma NoDup_length_range downs :
  NoDup downs -> (forall k, k ∈ downs -> 0 < k < KEY_MAX) -> Z.of_nat (length downs) < KEY_MAX.
Proof.
  intros Hnd Hr. rewrite <- (size_list_to_set (C := gset Z)) by done.
  apply size_range. intros k Hk. apply Hr. by apply elem_of_list_to_set in Hk.
Qed.

Lemma probe_ok jiffies pdata downs ups :
  pdata_for pdata downs ups -> keys_ok downs ups ->
  exists s, keycombo_probe jiffies (Some pdata) true true 0 = Ret (Some s, 0) /\
    keybit s = list_to_set downs ∪ list_to_set ups /\ upbit s = list_to_set ups /\ key s = ∅ /\
    key_down_target s = Z.of_nat (length downs) /\ key_down s = 0 /\ key_up s = 0 /\
    key_is_down s = false /\ wq s = idle_wq /\ calls s = [] /\ combo_held_wake_source s = false /\
    combo_up_wake_source s = false /\ down_fn s = key_down_fn pdata /\ up_fn s = key_up_fn pdata.
Proof.
  intros [[j1 Hd] Hu] (_ & Hnd & _ & Hr). unfold keycombo_probe. cbn [negb].
  pose proof (NoDup_length_range downs Hnd ltac:(eauto)) as Hlen. unfold KEY_MAX in Hlen.
  rewrite Hd, scan_down_ok; [|eauto|cbn; lia|cbn; lia].
  cbn [mbind outcome_bind]. destruct (keys_up pdata) as [mem|].
  - destruct Hu as [j2 ->]. rewrite scan_up_ok by eauto. cbn [mbind outcome_bind negb Z.eqb].
    eexists. split; [reflexivity|]. cbn. split_and!; try done; set_solver.
  - subst ups. cbn [mbind outcome_bind negb Z.eqb]. eexists. split; [reflexivity|].
    cbn. split_and!; done || set_solver.
Qed.

(** The state the probe leaves satisfies the invariant. *)
Lemma probe_inv jiffies pdata downs ups s :
  pdata_for pdata downs ups -> keys_ok downs ups ->
  keycombo_probe jiffies (Some pdata) true true 0 = Ret (Some s, 0) -> combo_inv s.
Proof.
  intros Hp Hk Hs. destruct (probe_ok jiffies pdata downs ups Hp Hk)
    as (s' & Hs' & Ek & Eu & E0 & Et & Ed & Eup & Ei & Ew & Ec & Eh & Eu' & G1 & G2).
  rewrite Hs in Hs'. injection Hs' as <-. destruct Hk as (Hne & Hnd & Hx & Hr).
  assert (Hc : cond s = false).
  { unfold cond. rewrite Ed, Et. destruct downs; [done|]. cbn [length]. zcases; cbn; lia || done. }
  constructor.
  - constructor; rewrite ?E0, ?Ek, ?Eu, ?Ed, ?Eup.
    + set_solver.
    + intros k Hin. apply Hr. set_solver.
    + assert (E : ∅ ∖ list_to_set ups = (∅ : gset Z)) by set_solver. by rewrite E, size_empty.
    + by rewrite intersection_empty_l_L, size_empty.
  - by rewrite Ei, Hc.
  - by rewrite Eh, Ei.
  - exists O, []. rewrite Ei, Ew, Eu', Ec. split; [apply (ph_ready 0 false [] []), waiting_none|done].
Qed.

(** With [downs] and [ups] the keys of the platform data: the condition the
    counters stand for. *)
Lemma cond_held s downs ups ls :
  counted s -> tracks ls s -> keys_ok downs ups -> keybit s = list_to_set downs ∪ list_to_set ups ->
  upbit s = list_to_set ups -> key_down_target s = Z.of_nat (length downs) ->
  cond s = true <-> combo_held downs ups ls.
Proof.
  intros [Hk _ Hd Hu] Ht (_ & Hnd & Hx & _) Ek Eu Et. unfold cond. rewrite andb_true_iff, !Z.eqb_eq.
  rewrite Hd, Hu, Et, Eu in *. rewrite <- (size_list_to_set (C := gset Z) downs) by done.
  assert (Hdu : (list_to_set downs : gset Z) ## list_to_set ups).
  { intros k H1 H2. apply elem_of_list_to_set in H1, H2. by apply (Hx k). }
  assert (Hsub : key s ∖ list_to_set ups ⊆ list_to_set downs) by set_solver.
  split.
  - intros [E1 E2]. apply Nat2Z.inj in E1. change 0 with (Z.of_nat 0) in E2. apply Nat2Z.inj, size_empty_inv in E2.
    pose proof (set_subseteq_size_eq _ _ Hsub ltac:(lia)) as E.
    assert (Hin : forall k, k ∈ downs -> k ∈ key s).
    { intros k Hd'. assert (k ∈ key s ∖ list_to_set ups); [|set_solver]. rewrite E. by apply elem_of_list_to_set. }
    split; intros k Hkk.
    + apply Ht; [rewrite Ek; set_solver|]. by apply Hin.
    + apply not_true_is_false. intros Hp. apply (Ht k) in Hp; [|rewrite Ek; set_solver]. set_solver.
  - intros [H1 H2].
    assert (E : key s ∖ list_to_set ups = list_to_set downs).
    { apply set_eq. intros k. split; [by intros; apply Hsub|]. intros Hin. apply elem_of_difference.
      split; [|set_solver]. apply Ht; [rewrite Ek; set_solver|]. apply H1. by apply elem_of_list_to_set in Hin. }
    assert (E' : key s ∩ list_to_set ups = ∅).
    { apply set_eq. intros k. split; [|set_solver]. rewrite elem_of_intersection, elem_of_list_to_set.
      intros [Hin Hup]. apply Ht in Hin; [|rewrite Ek; set_solver]. by rewrite H2 in Hin. }
    rewrite E, E'. by rewrite size_empty.
Qed.

(** A running device counts its combination as down exactly when it is held. *)
Lemma run_held jiffies pdata downs ups s ls :
  pdata_for pdata downs ups -> keys_ok downs ups ->
  keycombo_probe jiffies (Some pdata) true true 0 = Ret (Some s, 0) ->
  key_is_down (krun s ls) = true <-> combo_held downs ups ls.
Proof.
  intros Hp Hk Hs. pose proof (krun_inv ls s (probe_inv _ _ _ _ _ Hp Hk Hs)) as Hi.
  destruct (probe_ok jiffies pdata downs ups Hp Hk) as (s' & Hs' & Ek & Eu & E0 & Et & _).
  rewrite Hs in Hs'. injection Hs' as <-. destruct Hi as [Hc Hd _ _]. rewrite Hd.
  destruct (krun_tracks s ls) as (Ht & G1 & G2 & G3); [|done|].
  { intros k Hin. apply Hk. rewrite Ek in Hin. set_solver. }
  apply cond_held; done || congruence.
Qed.

(** ** Properties *)

(** C10. For every combination of distinct keys and every interleaving of key
    events, timer expiries and steps of the worker: the calls so far are those
    of a prefix of complete rounds "down begins, down returns, up begins, up
    returns" (of the functions that are given); and once the keys are released,
    letting the worker finish what it runs and what is queued completes the
    round, empties the queue and drops both wakeup sources. *)
Theorem combo_calls_paired jiffies pdata downs ups s ls :
  pdata_for pdata downs ups -> keys_ok downs ups ->
  keycombo_probe jiffies (Some pdata) true true 0 = Ret (Some s, 0) ->
  let s' := krun s ls in
  let made := filter (given (key_down_fn pdata) (key_up_fn pdata)) in
  (exists n k, calls s' = made (take k (rounds n))) /\
  (key_is_down s' = false ->
   let e := krun s' [LEnd; LStart; LEnd] in
   exists n, wq e = idle_wq /\ combo_held_wake_source e = false /\ combo_up_wake_source e = false /\
             calls e = made (rounds n)).
Proof.
  intros Hp Hk Hs. cbn zeta. pose proof (krun_inv ls s (probe_inv _ _ _ _ _ Hp Hk Hs)) as Hi.
  destruct (krun_fns s ls) as [G1 G2]. destruct (probe_ok jiffies pdata downs ups Hp Hk) as (s0 & Hs0 & H0).
  rewrite Hs in Hs0. injection Hs0 as <-. destruct H0 as (_ & _ & _ & _ & _ & _ & _ & _ & _ & _ & _ & F1 & F2).
  rewrite <- F1, <- F2, <- G1, <- G2. split.
  - destruct Hi as [_ _ _ (n & cs & Hph & ->)]. destruct (phase_prefix _ _ _ _ _ Hph) as [k ->]. eauto.
  - intros Hup. pose proof (krun_inv [LEnd; LStart; LEnd] _ Hi) as [_ _ Hh (n & cs & Hph & Hcs)].
    destruct (krun_fns (krun s ls) [LEnd; LStart; LEnd]) as [G3 G4]. rewrite G3, G4 in Hcs.
    destruct (drained _ Hi Hup) as (D1 & D2 & D3). rewrite D1, D2, D3 in *.
    rewrite <- Hh in Hph. exists n. by inversion Hph; subst.
Qed.

Lemma combo_calls_paired_witness :
  let pdata := mkPd true true 3000 None [114; 116; 0] in
  exists s, keycombo_probe id (Some pdata) true true 0 = Ret (Some s, 0) /\
  let ls := [LEvent 1 114 1; LEvent 1 116 1; LTimer; LStart; LEvent 1 114 0] in
  calls (krun s ls) = [CallDown] /\ key_is_down (krun s ls) = false /\
  (exists n k, calls (krun s ls) = filter (given true true) (take k (rounds n))) /\
  (exists n, calls (krun (krun s ls) [LEnd; LStart; LEnd]) = filter (given true true) (rounds n)).
Proof.
  intros pdata.
  assert (Hp : pdata_for pdata [114; 116] []) by (split; [by exists []|done]).
  assert (Hk : keys_ok [114; 116] []).
  { split_and!; [done|by apply (bool_decide_unpack _)|set_solver|].
    unfold KEY_MAX. intros k [H|H]; [|set_solver].
    apply list_elem_of_In in H. destruct H as [<-|[<-|[]]]; lia. }
  eexists. split; [vm_compute; reflexivity|]. cbn zeta.
  split; [by vm_compute|]. split; [by vm_compute|].
  destruct (combo_calls_paired id pdata [114; 116] [] _
    [LEvent 1 114 1; LEvent 1 116 1; LTimer; LStart; LEvent 1 114 0] Hp Hk
    ltac:(vm_compute; reflexivity)) as [H1 H2].
  split; [exact H1|]. destruct H2 as (n & _ & _ & _ & E); [by vm_compute|by exists n].
Defined.

(** C13. The counters are exact: after every interleaving the combination counts
    as down exactly if, by the last event of each key, every key of keys_down
    is pressed and none of keys_up is. *)
Theorem combo_held_exact jiffies pdata downs ups s ls :
  pdata_for pdata downs ups -> keys_ok downs ups ->
  keycombo_probe jiffies (Some pdata) true true 0 = Ret (Some s, 0) ->
  key_is_down (krun s ls) = true <-> combo_held downs ups ls.
Proof. apply run_held. Qed.

Lemma combo_held_exact_witness :
  let pdata := mkPd true true 0 (Some [115; 0]) [114; 116; 0] in
  exists s, keycombo_probe id (Some pdata) true true 0 = Ret (Some s, 0) /\
  let ls := [LEvent 1 114 1; LEvent 1 116 1; LEvent 1 115 1; LEvent 1 114 1; LEvent 1 115 0] in
  key_is_down (krun s ls) = true /\ combo_held [114; 116] [115] ls.
Proof.
  intros pdata.
  assert (Hp : pdata_for pdata [114; 116] [115]) by (split; [by exists []|by exists []]).
  assert (Hk : keys_ok [114; 116] [115]).
  { split_and!; [done|by apply (bool_decide_unpack _)|set_solver|].
    unfold KEY_MAX. intros k H. rewrite !list_elem_of_In in H. cbn in H. lia. }
  eexists. split; [vm_compute; reflexivity|]. cbn zeta. split; [by vm_compute|].
  eapply (combo_held_exact id pdata [114; 116] [115]);
    [exact Hp|exact Hk|vm_compute; reflexivity|by vm_compute].
Defined.
