(* ===== verification/AmznKeycombo.v ===== *)
(** * Key combinations of the device tree (drivers/staging/amazon/amzn_keycombo.c)

    The driver translates a device-tree node into the platform data of a
    [Keycombo] device, whose function is a panic or a long-press power-off that
    records its reason through [LifeCycle]. *)

From Stdlib Require Import String.
From stdpp Require Import base tactics numbers list gmap strings option.
From S2P Require Import Prelude Kstrtox Printf Rtc SignOfLife LifeCycle Of Workqueue Keycombo.

(** ** Data *)

Definition COMBO_MSG_SIZE : Z := 100.
Definition COMBO_FUNC_PANIC : Z := 0.
Definition COMBO_FUNC_POWER_OFF : Z := 1.

(** The two handlers. *)
Inductive combo_handler := h_panic | h_power_off.

(** [struct function]; the terminator of a full [msg] lands in the padding
    that follows it. *)
Record function := mkFunction { fn : Z; handler : combo_handler; msg : list Z }.

(** The static array [funcs], whose messages the probe extends. *)
Definition funcs : list function :=
  [ mkFunction COMBO_FUNC_PANIC h_panic (str "Trigger panic by press ");
    mkFunction COMBO_FUNC_POWER_OFF h_power_off (str "Trigger power off by long press ") ].

(** [struct label] and the labels; [NULL] ends them. *)
Definition key_labels : list (list Z * Z) :=
  [ (str "KEY_VOLUMEDOWN", 114); (str "KEY_VOLUMEUP", 115); (str "KEY_POWER", 116) ].

(** [struct keys_config]: [func] points into [funcs]. *)
Record keys_config := mkCfg {
  pcombo_data : option keycombo_platform_data; combo_data_size : Z;
  pdev_keycombo : bool; func : option nat }.

(** ** Parsing *)

Fixpoint get_key_from (labels : list (list Z * Z)) (name : list Z) : Z :=
  match labels with
  | [] => - EINVAL
  | (l, v) :: labels => if bool_decide (name = l) then v else get_key_from labels name
  end.
Definition get_key_from_label (name : list Z) : Z := get_key_from key_labels name.

(** The index of a function, by its number. *)
Fixpoint get_func_from (fs : list function) (f : Z) (i : nat) : option nat :=
  match fs with
  | [] => None
  | x :: fs => if fn x =? f then Some i else get_func_from fs f (S i)
  end.
Definition get_func (fs : list function) (f : Z) : option nat := get_func_from fs f 0.

(** [strncat(msg + strlen(msg), s, COMBO_MSG_SIZE - strlen(msg))]. *)
Definition msg_cat (m s : list Z) : list Z :=
  m ++ take (Z.to_nat (COMBO_MSG_SIZE - Z.of_nat (length m))) s.
Definition add_key_name (name : list Z) (f : function) : function :=
  mkFunction (fn f) (handler f) (msg_cat (msg_cat (msg f) name) (str " ")).

(** The loop over [keys_down]: [n] names are left from [idx] on. *)
Fixpoint read_keys_down (node : device_node) (fs : list function) (f : nat) (keys : list Z)
    (idx : Z) (n : nat) : list function * option (list Z) :=
  match n with
  | O => (fs, Some (keys ++ [0]))
  | S n =>
    match of_property_read_string_index node "keys_down" idx with
    | (0, Some name) =>
      let key := get_key_from_label name in
      if key <? 0 then (fs, None)
      else read_keys_down node (alter (add_key_name name) f fs) f (keys ++ [key]) (idx + 1) n
    | _ => (fs, None)
    end
  end.

(** A write of [keys_up[idx]], a 4-byte integer in memory of [room] bytes. *)
Definition put_key (room : Z) (keys : list Z) (key : Z) : outcome (list Z) :=
  if 4 * (Z.of_nat (length keys) + 1) <=? room then Ret (keys ++ [key]) else Oops.

(** The loop over [keys_up]. *)
Fixpoint read_keys_up (node : device_node) (room : Z) (keys : list Z) (idx : Z) (n : nat)
  : outcome (list Z) :=
  match n with
  | O => put_key room keys 0
  | S n =>
    match of_property_read_string_index node "keys_up" idx with
    | (0, Some name) =>
      let key := get_key_from_label name in
      if key <? 0 then put_key room keys 0
      else keys ← put_key room keys key; read_keys_up node room keys (idx + 1) n
    | _ => put_key room keys 0
    end
  end.

(** [sizeof(struct keycombo_platform_data)]: two functions, [priv], the delay
    and the pointer [keys_up]. *)
Definition SIZEOF_PDATA : Z := 40.

Definition set_cfg (cfg : keys_config) (data : option keycombo_platform_data) (f : option nat) : keys_config :=
  mkCfg data (combo_data_size cfg) (pdev_keycombo cfg) f.

(** [usable n] bytes are there when [n] are allocated. The result is
    the size, 0 after an error (when [pcombo_data] is not set, so that the
    error path has nothing to free). *)
Definition dt_to_keycombo_data (usable : Z -> Z) (data_ok up_ok : bool) (node : device_node)
    (fs : list function) (cfg : keys_config) : outcome (list function * keys_config * Z) :=
  let down_size := of_property_count_strings node "keys_down" in
  if down_size <? 0 then Ret (fs, cfg, 0) else
  let size := SIZEOF_PDATA + 4 * (down_size + 1) in
  if negb data_ok then Ret (fs, cfg, 0) else
  match of_property_read_u32 node "keys_down_func" with
  | inl _ => Ret (fs, cfg, 0)
  | inr f =>
    match get_func fs f with
    | None => Ret (fs, set_cfg cfg (pcombo_data cfg) None, 0)
    | Some f =>
      let cfg := set_cfg cfg (pcombo_data cfg) (Some f) in
      let '(fs, keys) := read_keys_down node fs f [] 0 (Z.to_nat down_size) in
      match keys with
      | None => Ret (fs, cfg, 0)
      | Some keys =>
        match of_property_read_u32 node "keys_down_delay" with
        | inl _ => Ret (fs, cfg, 0)
        | inr delay =>
          let up_size := of_property_count_strings node "keys_up" in
          let finish up := Ret (fs, set_cfg cfg (Some (mkPd true false (s32 delay) up keys)) (Some f), size) in
          if 0 <? up_size then
            if negb up_ok then Ret (fs, cfg, 0)
            else up ← read_keys_up node (usable (up_size + 1)) [] 0 (Z.to_nat up_size); finish (Some up)
          else finish None
        end
      end
    end
  end.

(** ** Probe and removal *)

(** Frees through [pdev_keycombo->dev], which is not there before the device
    is allocated. (The memory belongs to the other device: [devm_kfree] only
    warns, and it is freed when the driver is unbound.) *)
Definition free_keycombo_platdata (cfg : keys_config) : outcome keys_config :=
  match pcombo_data cfg with
  | None => Ret cfg
  | Some _ => if pdev_keycombo cfg then Ret (set_cfg cfg None (func cfg)) else Oops
  end.

(** The messages, the driver data and the platform data of the keycombo device
    that was added, with the result; [add_data] and [add] are the answers of
    [platform_device_add_data] and [platform_device_add]. *)
Definition amzn_keycombo_probe (usable : Z -> Z) (cfg_ok data_ok up_ok pdev_ok : bool) (add_data add : Z)
    (node : device_node) (fs : list function)
  : outcome (list function * option keys_config * option keycombo_platform_data * Z) :=
  if negb cfg_ok then Ret (fs, None, None, - ENOMEM) else
  '(fs, cfg, size) ← dt_to_keycombo_data usable data_ok up_ok node fs (mkCfg None 0 false None);
  let cfg := mkCfg (pcombo_data cfg) size (pdev_keycombo cfg) (func cfg) in
  let error cfg ret := _ ← free_keycombo_platdata cfg; Ret (fs, None, None, ret) in
  if size =? 0 then error cfg (- ENOMEM) else
  if negb pdev_ok then error cfg (- ENOMEM) else
  let cfg := mkCfg (pcombo_data cfg) size true (func cfg) in
  if negb (add_data =? 0) then error cfg add_data else
  Ret (fs, Some cfg, (if add =? 0 then pcombo_data cfg else None), add).

(** The driver data after the removal. *)
Definition amzn_keycombo_remove (cfg : keys_config) : outcome (option keys_config * Z) :=
  _ ← free_keycombo_platdata cfg; Ret (None, 0).

(** ** The functions *)

(** What they do besides recording the reason. *)
Inductive combo_effect :=
| Panic (m : list Z)
| NotifyChain (event : Z)
| RunUserHelper
| Msleep (ms : Z)
| OrderlyReboot.

Definition do_panic (m : list Z) : list combo_effect := [NotifyChain COMBO_FUNC_PANIC; Panic m].

Definition log_long_press_power_key : list combo_effect := [RunUserHelper; Msleep 6000].

(** [pwrkey1] and [pwrkey2] are the two answers of [check_pwrkey_status]. *)
Definition do_power_off (pwrkey1 pwrkey2 : bool) (d : driver (lcr_platform mt6397_rtc))
  : driver (lcr_platform mt6397_rtc) * list combo_effect :=
  if negb pwrkey1 then (d, []) else
  let es := log_long_press_power_key in
  if negb pwrkey2 then (d, es) else
  let es := es ++ [NotifyChain COMBO_FUNC_POWER_OFF] in
  let p := platform d in
  let d := mkDriver (p_dev_sol d) (is_charger_mode d)
             (mkPlat (mtk_rtc_mark_sw_lprst (plat_rtc p)).1 (lcr_boot p)) in
  ((life_cycle_set_shutdown_reason d SHUTDOWN_BY_LONG_PWR_KEY_PRESS).1, es ++ [OrderlyReboot]).

(** ** Specification *)

(** The device-tree node of a combination. *)
Definition combo_node (downs : list (list Z)) (f delay : Z) (ups : list (list Z)) : device_node :=
  let node : device_node :=
    <["keys_down" := Some (strings_value downs)]> (<["keys_down_func" := Some (be32_bytes f)]>
      (<["keys_down_delay" := Some (be32_bytes delay)]> ∅)) in
  if bool_decide (ups = []) then node else <["keys_up" := Some (strings_value ups)]> node.

Definition is_label (name : list Z) : Prop := exists v, (name, v) ∈ key_labels.
Definition the_keys (names : list (list Z)) : list Z := get_key_from_label <$> names.

(** ** Labels *)

Lemma is_label_cases name :
  is_label name ->
  (name = str "KEY_VOLUMEDOWN" /\ get_key_from_label name = 114) \/
  (name = str "KEY_VOLUMEUP" /\ get_key_from_label name = 115) \/
  (name = str "KEY_POWER" /\ get_key_from_label name = 116).
Proof.
  intros [v Hv]. unfold key_labels in Hv. rewrite !elem_of_cons in Hv.
  destruct Hv as [E|[E|[E|E]]]; [..|by apply elem_of_nil in E]; injection E as -> ->;
    [left|right; left|right; right]; (split; [done|vm_compute; reflexivity]).
Qed.

Lemma is_label_c_string name : is_label name -> c_string name.
Proof. intros H. destruct (is_label_cases name H) as [[-> _]|[[-> _]|[-> _]]]; by apply str_nonzero_all. Qed.

Lemma labels_c_strings names : Forall is_label names -> Forall c_string names.
Proof. intros H. eapply list.Forall_impl; [exact H|apply is_label_c_string]. Qed.

Lemma label_key name : is_label name -> 114 <= get_key_from_label name <= 116.
Proof. intros H. destruct (is_label_cases name H) as [[_ ->]|[[_ ->]|[_ ->]]]; lia. Qed.

Lemma label_key_inj n m : is_label n -> is_label m -> get_key_from_label n = get_key_from_label m -> n = m.
Proof.
  intros Hn Hm. destruct (is_label_cases n Hn) as [[-> ->]|[[-> ->]|[-> ->]]],
    (is_label_cases m Hm) as [[-> ->]|[[-> ->]|[-> ->]]]; done.
Qed.

Lemma elem_of_keys names k :
  k ∈ the_keys names <-> exists n, n ∈ names /\ get_key_from_label n = k.
Proof. unfold the_keys. rewrite list_elem_of_fmap. naive_solver. Qed.

(** Distinct labels are a proper combination. *)
Lemma labels_keys_ok downs ups :
  Forall is_label downs -> Forall is_label ups -> downs <> [] -> NoDup downs ->
  (forall n, n ∈ downs -> n ∈ ups -> False) -> keys_ok (the_keys downs) (the_keys ups).
Proof.
  intros Hd Hu Hne Hnd Hx. rewrite list.Forall_forall in Hd, Hu. split_and!.
  - by destruct downs.
  - clear Hne Hx. induction Hnd as [|n l Hn _ IH]; [constructor|]. cbn. constructor.
    + rewrite elem_of_keys. intros (m & Hm & E). apply Hn.
      rewrite <- (label_key_inj m n); [done|apply Hd; by right|apply Hd; by left|done].
    + apply IH. intros m Hm. apply Hd. by right.
  - intros k. rewrite !elem_of_keys. intros (n & Hn & E1) (m & Hm & E2).
    apply (Hx n); [done|]. rewrite (label_key_inj n m); [done|by apply Hd|by apply Hu|congruence].
  - unfold KEY_MAX. intros k. rewrite !elem_of_keys.
    intros [(n & Hn & <-)|(n & Hn & <-)]; [apply Hd in Hn|apply Hu in Hn]; apply label_key in Hn; lia.
Qed.

(** ** Parsing a well-formed node *)

Lemma find_down downs f delay ups :
  of_find_property (combo_node downs f delay ups) "keys_down" = Some (Some (strings_value downs)) /\
  of_find_property (combo_node downs f delay ups) "keys_down_func" = Some (Some (be32_bytes f)) /\
  of_find_property (combo_node downs f delay ups) "keys_down_delay" = Some (Some (be32_bytes delay)) /\
  of_find_property (combo_node downs f delay ups) "keys_up" =
    if bool_decide (ups = []) then None else Some (Some (strings_value ups)).
Proof.
  unfold of_find_property, combo_node. destruct (bool_decide (ups = [])); split_and!; reflexivity.
Qed.

Lemma msg_cat_take m s :
  Z.of_nat (length m) <= COMBO_MSG_SIZE -> msg_cat m s = take 100 (m ++ s).
Proof.
  unfold msg_cat, COMBO_MSG_SIZE. intros Hm. rewrite take_app_ge by lia.
  by replace (Z.to_nat (100 - Z.of_nat (length m))) with (100 - length m)%nat by lia.
Qed.

(** The message is cut at its buffer. *)
Definition named (m : list Z) (names : list (list Z)) : list Z :=
  take 100 (m ++ mjoin ((fun n => n ++ str " ") <$> names)).

Lemma named_cons m name names :
  named (take 100 (take 100 (m ++ name) ++ str " ")) names = named m (name :: names).
Proof.
  unfold named. cbn [fmap list_fmap mjoin list_join].
  assert (Ht : forall l k : list Z, take 100 (take 100 l ++ k) = take 100 (l ++ k)).
  { intros l k. rewrite !take_app, take_take. f_equal. rewrite length_take.
    destruct (decide (100 <= length l)%nat); f_equal; lia. }
  by rewrite Ht, <- app_assoc, Ht, <- !app_assoc.
Qed.

Definition set_msg (m : list Z) (f : function) : function := mkFunction (fn f) (handler f) m.

(** The loops read the name they are at. *)
Lemma label_at node prop all idx name names :
  Forall is_label all -> of_find_property node prop = Some (Some (strings_value all)) ->
  drop idx all = name :: names ->
  of_property_read_string_index node prop (Z.of_nat idx) = (0, Some name) /\
  114 <= get_key_from_label name /\ drop (S idx) all = names.
Proof.
  intros Hall Hp Hd.
  assert (Hi : all !! idx = Some name) by (rewrite <- (Nat.add_0_r idx), <- lookup_drop, Hd; done).
  split_and!.
  - apply (read_string_index_ok _ _ all); [done|by apply labels_c_strings|done].
  - by apply label_key, (Forall_lookup_1 _ _ _ _ Hall Hi).
  - by rewrite <- Nat.add_1_r, <- drop_drop, Hd.
Qed.

Lemma read_keys_down_ok node f names : forall fs keys idx all g,
  Forall is_label all -> of_find_property node "keys_down" = Some (Some (strings_value all)) ->
  drop idx all = names -> fs !! f = Some g -> Z.of_nat (length (msg g)) <= COMBO_MSG_SIZE ->
  read_keys_down node fs f keys (Z.of_nat idx) (length names) =
    (<[f := set_msg (named (msg g) names) g]> fs, Some (keys ++ the_keys names ++ [0])).
Proof.
  induction names as [|name names IH]; intros fs keys idx all g Hall Hp Hd Hg Hm; cbn [length read_keys_down].
  { unfold named. cbn. rewrite app_nil_r, take_ge by (unfold COMBO_MSG_SIZE in Hm; lia).
    rewrite list_insert_id; [done|]. by destruct g. }
  destruct (label_at _ _ _ _ _ _ Hall Hp Hd) as (-> & Hk & Hd').
  destruct (Z.ltb_spec (get_key_from_label name) 0); [lia|].
  replace (Z.of_nat idx + 1) with (Z.of_nat (S idx)) by lia.
  assert (Hcat : add_key_name name g = set_msg (take 100 (take 100 (msg g ++ name) ++ str " ")) g).
  { unfold add_key_name, set_msg. rewrite (msg_cat_take (msg g)) by done.
    rewrite msg_cat_take by (rewrite length_take; unfold COMBO_MSG_SIZE; lia). done. }
  rewrite (IH _ _ _ all (add_key_name name g)); [|done|done|done| |].
  - rewrite Hcat. cbn [msg set_msg]. rewrite named_cons. f_equal; [|cbn; by rewrite <- app_assoc].
    apply list_eq. intros j. destruct (decide (j = f)) as [->|].
    + rewrite !list_lookup_insert_eq; [done|by apply lookup_lt_Some in Hg|].
      rewrite length_alter. by apply lookup_lt_Some in Hg.
    + by rewrite !list_lookup_insert_ne, list_lookup_alter_ne by done.
  - by rewrite list_lookup_alter_eq, Hg.
  - rewrite Hcat. cbn [msg set_msg]. rewrite length_take. unfold COMBO_MSG_SIZE. lia.
Qed.

Lemma read_keys_up_ok node room names : forall keys idx all,
  Forall is_label all -> of_find_property node "keys_up" = Some (Some (strings_value all)) ->
  drop idx all = names ->
  read_keys_up node room keys (Z.of_nat idx) (length names) =
    if (4 * (Z.of_nat (length keys + length names) + 1) <=? room) then Ret (keys ++ the_keys names ++ [0]) else Oops.
Proof.
  induction names as [|name names IH]; intros keys idx all Hall Hp Hd; cbn [length read_keys_up].
  { unfold put_key. by rewrite Nat.add_0_r. }
  destruct (label_at _ _ _ _ _ _ Hall Hp Hd) as (-> & Hk & Hd').
  destruct (Z.ltb_spec (get_key_from_label name) 0); [lia|].
  unfold put_key at 1. destruct (Z.leb_spec (4 * (Z.of_nat (length keys) + 1)) room).
  - cbn [mbind outcome_bind]. replace (Z.of_nat idx + 1) with (Z.of_nat (S idx)) by lia.
    rewrite (IH _ _ all) by done.
    rewrite length_app. cbn [length the_keys fmap list_fmap]. rewrite <- app_assoc. cbn.
    replace (length keys + 1 + length names)%nat with (length keys + S (length names))%nat by lia. done.
  - cbn. destruct (Z.leb_spec (4 * (Z.of_nat (length keys + S (length names)) + 1)) room); [lia|done].
Qed.

(** A node of distinct labels. *)
Record good_node (downs : list (list Z)) (f delay : Z) (ups : list (list Z)) : Prop := {
  gn_downs : Forall is_label downs;
  gn_ups : Forall is_label ups;
  gn_some : downs <> [];
  gn_nodup : NoDup downs;
  gn_apart : forall n, n ∈ downs -> n ∈ ups -> False;
  gn_func : f = COMBO_FUNC_PANIC \/ f = COMBO_FUNC_POWER_OFF;
  gn_delay : 0 <= delay < 2147483648 }.

(** The messages after the probe, and the platform data it makes. *)
Definition probed_funcs (downs : list (list Z)) (f : Z) : list function :=
  alter (fun g => set_msg (named (msg g) downs) g) (Z.to_nat f) funcs.
Definition probed_data (downs : list (list Z)) (delay : Z) (ups : list (list Z)) : keycombo_platform_data :=
  mkPd true false delay (if bool_decide (ups = []) then None else Some (the_keys ups ++ [0])) (the_keys downs ++ [0]).

(** Does the array [keys_up] fit the memory allocated for it? *)
Definition ups_fit (usable : Z -> Z) (ups : list (list Z)) : bool :=
  bool_decide (ups = []) ||
  (4 * (Z.of_nat (length ups) + 1) <=? usable (Z.of_nat (length ups) + 1)).

Lemma dt_good usable downs f delay ups :
  good_node downs f delay ups ->
  dt_to_keycombo_data usable true true (combo_node downs f delay ups) funcs (mkCfg None 0 false None) =
  if ups_fit usable ups then
    Ret (probed_funcs downs f,
         mkCfg (Some (probed_data downs delay ups)) 0 false (Some (Z.to_nat f)),
         SIZEOF_PDATA + 4 * (Z.of_nat (length downs) + 1))
  else Oops.
Proof.
  intros [Hd Hu Hne _ _ Hf Hdl]. destruct (find_down downs f delay ups) as (F1 & F2 & F3 & F4).
  set (node := combo_node downs f delay ups) in *. clearbody node. unfold dt_to_keycombo_data.
  rewrite (count_strings_ok _ _ downs) by (done || by apply labels_c_strings).
  destruct (Z.ltb_spec (Z.of_nat (length downs)) 0); [lia|]. cbn [negb].
  rewrite (read_u32_ok _ _ f) by (done || (destruct Hf as [-> | ->]; by vm_compute)).
  rewrite (read_u32_ok _ _ delay) by (done || lia). rewrite Nat2Z.id.
  assert (Hg : exists g, get_func funcs f = Some (Z.to_nat f) /\ funcs !! Z.to_nat f = Some g /\
                         Z.of_nat (length (msg g)) <= COMBO_MSG_SIZE).
  { destruct Hf as [-> | ->]; (eexists; split; [reflexivity|]; split; [reflexivity|by vm_compute]). }
  destruct Hg as (g & -> & Hg & Hm).
  rewrite (read_keys_down_ok node _ downs funcs [] 0 downs g) by done. cbn [app].
  assert (Ef : <[Z.to_nat f := set_msg (named (msg g) downs) g]> funcs = probed_funcs downs f).
  { apply list_eq. intros j. unfold probed_funcs. rewrite list_lookup_alter.
    destruct (decide (Z.to_nat f = j)) as [<-|].
    - rewrite list_lookup_insert_eq by (by apply lookup_lt_Some in Hg). by rewrite Hg.
    - by rewrite list_lookup_insert_ne. }
  rewrite Ef. rewrite s32_id by lia. unfold ups_fit, probed_data.
  destruct (bool_decide_reflect (ups = [])) as [->|Hups].
  - unfold of_property_count_strings, of_property_read_string_helper. rewrite F4. done.
  - rewrite (count_strings_ok _ _ ups) by (done || by apply labels_c_strings).
    destruct ups as [|u ups]; [done|]. destruct (Z.ltb_spec 0 (Z.of_nat (length (u :: ups)))); [|cbn in *; lia].
    rewrite Nat2Z.id, (read_keys_up_ok node _ (u :: ups) [] 0 (u :: ups)) by done. cbn [app length orb].
    rewrite Nat.add_0_l. by destruct (_ <=? _).
Qed.

(** ** The reason in the registers *)

(** Marking the reset sets bit 9 of RTC_SPAR0, which the store does not own. *)
Lemma mark_read r a :
  lcr_rtc_read (mtk_rtc_mark_sw_lprst r).1 a =
  lcr_rtc_read (set_reg_field r RTC_SPAR0 RTC_SPAR0_LPRST 9 1) a.
Proof.
  rewrite set_reg_field_read by (unfold RTC_SPAR0_LPRST; lia).
  assert (E : forall r b, lcr_rtc_read r b = u16 (default 0 (regmap r !! b))) by done.
  rewrite !E. unfold mtk_rtc_mark_sw_lprst, regmap_write, regmap_read. cbn [regmap fst].
  destruct (Z.eqb_spec RTC_SPAR0 a) as [<-|Hne]; [|by rewrite lookup_insert_ne].
  rewrite lookup_insert_eq. cbn [default from_option id]. rewrite u16_id by (apply (wrapU_range 16); lia).
  unfold field_set. change (Z.land (Z.shiftl 1 9) RTC_SPAR0_LPRST) with RTC_SPAR0_LPRST.
  apply Z.bits_inj'. intros i Hi. unfold wrapU. rewrite <- !Z.land_ones by lia.
  autorewrite with bits. rewrite !Z.testbit_ones_nonneg by lia.
  destruct (Z.ltb_spec i 16); [|rewrite (testbit_above 16 RTC_SPAR0_LPRST i) by (unfold RTC_SPAR0_LPRST; lia)]; bool_cases.
Qed.

Lemma store_of_reads (r r' : mt6397_rtc) :
  (forall a, lcr_rtc_read r a = lcr_rtc_read r' a) ->
  (forall g, abs_store r g = abs_store r' g) /\
  check_sign_of_life_parity r = check_sign_of_life_parity r'.
Proof.
  intros H. assert (Hc : forall g, code r g = code r' g) by (intros g; unfold code; by rewrite H).
  split; [intros g; unfold abs_store; by rewrite Hc|].
  rewrite !check_parity_codes, !Hc. unfold parity_bit. by rewrite H.
Qed.

Lemma mark_store (r : mt6397_rtc) :
  (forall g, abs_store (mtk_rtc_mark_sw_lprst r).1 g = abs_store r g) /\
  check_sign_of_life_parity (mtk_rtc_mark_sw_lprst r).1 = check_sign_of_life_parity r.
Proof.
  destruct (store_of_reads _ _ (mark_read r)) as [H1 H2].
  destruct (set_reg_outside r RTC_SPAR0 RTC_SPAR0_LPRST 9 1) as [Hc Hp]; [by cbv|reflexivity|].
  split; [intros g; rewrite H1; unfold abs_store; by rewrite Hc|].
  by rewrite H2, !check_parity_codes, !Hc, Hp.
Qed.

(** ** Properties *)

(** C15. End to end from the device tree to the keys, for every node of distinct
    labels. Without keys_up, whatever the allocator, the probe adds a keycombo
    device with the function the node names, whose message lists the labels
    (cut at its buffer), and which after every interleaving of key events and
    works counts its combination as down exactly if all keys of keys_down are
    pressed and none of keys_up, with the node's delay. With keys_up the same
    holds exactly where the memory that the allocator gives for the up_size + 1
    bytes that are asked for has room for up_size + 1 integers (as the rounding of
    small blocks may provide); otherwise the probe writes outside of it. *)
Theorem dt_combo_fires usable jiffies downs f delay ups :
  good_node downs f delay ups ->
  let n := Z.of_nat (length ups) + 1 in
  let probe := amzn_keycombo_probe usable true true true true 0 0 (combo_node downs f delay ups) funcs in
  (ups <> [] -> usable n < 4 * n -> probe = Oops) /\
  (ups = [] \/ 4 * n <= usable n ->
   exists fs cfg pd s, probe = Ret (fs, Some cfg, Some pd, 0) /\
    (exists i g g0, func cfg = Some i /\ fs !! i = Some g /\ funcs !! i = Some g0 /\ fn g = f /\
       handler g = handler g0 /\ msg g = take 100 (msg g0 ++ mjoin ((fun n => n ++ str " ") <$> downs))) /\
    keycombo_probe jiffies (Some pd) true true 0 = Ret (Some s, 0) /\
    Keycombo.delay s = s32 (jiffies delay) /\ down_fn s = true /\
    forall ls, key_is_down (krun s ls) = true <-> combo_held (the_keys downs) (the_keys ups) ls).
Proof.
  intros Hg. cbv zeta. split.
  { intros Hne Hlt. unfold amzn_keycombo_probe. cbn [negb]. rewrite (dt_good _ _ _ _ _ Hg). unfold ups_fit. rewrite bool_decide_false by done. cbn [orb].
    by destruct (Z.leb_spec (4 * (Z.of_nat (length ups) + 1)) (usable (Z.of_nat (length ups) + 1))); [lia|]. }
  intros Hroom. assert (Hfit : ups_fit usable ups = true).
  { unfold ups_fit. destruct Hroom as [-> | Hroom]; [done|]. apply Z.leb_le in Hroom. by rewrite Hroom, orb_true_r. }
  pose proof Hg as [Hd Hu Hne Hnd Hx Hf Hdl].
  pose proof (labels_keys_ok downs ups Hd Hu Hne Hnd Hx) as Hk.
  assert (Hp : pdata_for (probed_data downs delay ups) (the_keys downs) (the_keys ups)).
  { split; [by exists []|]. cbn. destruct (bool_decide_reflect (ups = [])) as [->|]; [done|by exists []]. }
  destruct (probe_ok jiffies _ _ _ Hp Hk) as (s & Hs & _).
  do 3 eexists. exists s. split; [|split; [|split; [exact Hs|]]].
  - unfold amzn_keycombo_probe. cbn [negb]. rewrite (dt_good _ _ _ _ _ Hg), Hfit. cbn [mbind outcome_bind].
    destruct (Z.eqb_spec (SIZEOF_PDATA + 4 * (Z.of_nat (length downs) + 1)) 0); [unfold SIZEOF_PDATA in *; lia|].
    reflexivity.
  - destruct Hf as [-> | ->]; do 3 eexists; (split; [reflexivity|]); split_and!; reflexivity.
  - assert (Hds : Keycombo.delay s = s32 (jiffies delay) /\ down_fn s = true).
    { rewrite <- (u32_id delay) by lia. destruct Hp as [[j1 E1] E2]. unfold keycombo_probe in Hs. cbn [negb] in Hs.
      destruct (scan_down _ _) as [s1| |]; cbn [mbind outcome_bind] in Hs; try done.
      destruct (match keys_up _ with Some mem => _ | None => _ end) as [s2| |]; cbn in Hs; try done.
      by simplify_eq. }
    destruct Hds as [H1 H2]. split; [done|]. split; [done|]. intros ls.
    exact (run_held jiffies _ _ _ s ls Hp Hk Hs).
Qed.

Lemma dt_combo_fires_witness :
  let downs := [str "KEY_VOLUMEDOWN"; str "KEY_POWER"] in
  exists s, (forall ls, key_is_down (krun s ls) = true <-> combo_held [114; 116] [115] ls) /\
    Keycombo.delay s = 6000.
Proof.
  intros downs.
  destruct (dt_combo_fires (fun n => 2 * n + 128) id downs 1 6000 [str "KEY_VOLUMEUP"]) as [_ H].
  - constructor; [| |done| | |by right|lia].
    + constructor; [exists 114; by left|constructor; [exists 116; by right; right; left|constructor]].
    + constructor; [exists 115; by right; left|constructor].
    + by apply (bool_decide_unpack _).
    + intros n Hn Hn'. apply list_elem_of_singleton in Hn'. subst n. revert Hn. by apply (bool_decide_unpack _).
  - destruct H as (fs & cfg & pd & s & _ & _ & _ & Hd & _ & H); [right; cbn; lia|]. exists s. split; [exact H|]. rewrite Hd. reflexivity.
Defined.

(** [keys_up] is allocated as up_size + 1 bytes and written as
    up_size + 1 integers of 4 bytes: whenever the allocator gives less than
    that (as it may: it was asked for a quarter), probing a node with keys_up
    writes outside of the memory, whatever the later steps would answer. *)
Theorem keys_up_overflow usable downs f delay ups pdev_ok add_data add :
  good_node downs f delay ups -> ups <> [] ->
  usable (Z.of_nat (length ups) + 1) < 4 * (Z.of_nat (length ups) + 1) ->
  amzn_keycombo_probe usable true true true pdev_ok add_data add (combo_node downs f delay ups) funcs = Oops.
Proof.
  intros Hg Hne Hlt. unfold amzn_keycombo_probe. cbn [negb]. rewrite (dt_good _ _ _ _ _ Hg).
  unfold ups_fit. rewrite bool_decide_false by done. cbn [orb].
  destruct (Z.leb_spec (4 * (Z.of_nat (length ups) + 1)) (usable (Z.of_nat (length ups) + 1))); [lia|done].
Qed.

Lemma keys_up_overflow_witness :
  amzn_keycombo_probe id true true true true 0 0
    (combo_node [str "KEY_POWER"] 0 3000 [str "KEY_VOLUMEUP"]) funcs = Oops.
Proof.
  apply keys_up_overflow; [|done|cbn; lia].
  constructor; [| |done| | |by left|lia].
  - constructor; [exists 116; by right; right; left|constructor].
  - constructor; [exists 115; by right; left|constructor].
  - by apply (bool_decide_unpack _).
  - intros n Hn Hn'. apply list_elem_of_singleton in Hn, Hn'. by subst n.
Defined.

(** The long press, end to end: if the power key is still down at both
    checks, the handler marks the reset, records its reason and reboots, and
    whatever the rest of the session records (no shutdown or thermal shutdown
    reason), the next boot reports the long press and the mark is in the
    register; if the key is released before, the driver does not reboot and the
    registers are as they were. *)
Theorem long_press_reported pwrkey1 pwrkey2 (d : driver (lcr_platform mt6397_rtc)) sol qs charging cmd lcr :
  p_dev_sol d = Some sol -> sol_ops sol = life_cycle_platform_init ->
  check_sign_of_life_parity (plat_rtc (platform d)) = true ->
  abs_store (plat_rtc (platform d)) THERMAL_SHUTDOWN = LIFE_CYCLE_NOT_AVAILABLE ->
  Forall (fun q => spares SHUTDOWN q = true /\ spares THERMAL_SHUTDOWN q = true) qs ->
  get_android_bootreason cmd LIFE_CYCLE_NOT_AVAILABLE = Some lcr ->
  let '(d1, es) := do_power_off pwrkey1 pwrkey2 d in
  if pwrkey1 && pwrkey2 then
    list.last es = Some OrderlyReboot /\
    let r := plat_rtc (platform (foldl serve d1 qs)) in
    Z.testbit (lcr_rtc_read r RTC_SPAR0) 9 = true /\
    exists d', dev_sol_init (mkDriver None false (mkPlat r LIFE_CYCLE_NOT_AVAILABLE)) true charging cmd
               = Some (d', 0) /\ reported d' = Some SHUTDOWN_BY_LONG_PWR_KEY_PRESS
  else d1 = d /\ OrderlyReboot ∉ es.
Proof.
  intros H1 H2 H3 Ht Hqs Hcmd. unfold do_power_off.
  destruct pwrkey1, pwrkey2; cbn [negb andb];
    [|by (split; [done|]; unfold log_long_press_power_key; set_solver)..].
  split; [done|]. set (r0 := (mtk_rtc_mark_sw_lprst (plat_rtc (platform d))).1).
  set (d0 := mkDriver (p_dev_sol d) (is_charger_mode d) (mkPlat r0 (lcr_boot (platform d)))).
  destruct (mark_store (plat_rtc (platform d))) as [Hst Hpar]. fold r0 in Hst, Hpar.
  set (qs' := ReqSet SHUTDOWN SHUTDOWN_BY_LONG_PWR_KEY_PRESS :: qs).
  change (foldl serve _ qs) with (foldl serve d0 qs'). split.
  - rewrite (serve_frame d0 sol) by done. cbn [d0 platform plat_rtc]. unfold r0.
    rewrite mark_read, set_reg_field_read by (unfold RTC_SPAR0_LPRST; lia).
    cbn [Z.eqb RTC_SPAR0 Pos.eqb]. unfold field_set. rewrite Z.lor_spec. apply orb_true_iff. by right.
  - destruct (init_spec (plat_rtc (platform (foldl serve d0 qs'))) charging cmd lcr false None _ Hcmd)
      as (d' & Hi & Hr & _).
    exists d'. split; [done|]. rewrite Hr. f_equal.
    rewrite (session_report d0 sol) by (done || exact (eq_trans Hpar H3)).
    unfold qs'. change (ReqSet SHUTDOWN SHUTDOWN_BY_LONG_PWR_KEY_PRESS :: qs)
      with ([ReqSet SHUTDOWN SHUTDOWN_BY_LONG_PWR_KEY_PRESS] ++ qs). rewrite spec_session_app.
    unfold spec_report. rewrite (session_spares THERMAL_SHUTDOWN), (session_spares SHUTDOWN)
      by (eapply list.Forall_impl; [exact Hqs|naive_solver]).
    unfold spec_session. cbn. by rewrite Hst, Ht.
Qed.

Lemma long_press_reported_witness :
  let d := (do_power_off true true (running example_regs)).1 in
  exists d', dev_sol_init (mkDriver None false (mkPlat (plat_rtc (platform (foldl serve d [ReqReboot SYS_RESTART])))
      LIFE_CYCLE_NOT_AVAILABLE)) true false "quiet" = Some (d', 0) /\
    reported d' = Some SHUTDOWN_BY_LONG_PWR_KEY_PRESS.
Proof.
  destruct (long_press_reported true true (running example_regs) _ [ReqReboot SYS_RESTART] false "quiet"
    LIFE_CYCLE_NOT_AVAILABLE eq_refl eq_refl) as (_ & _ & d' & H1 & H2);
    [vm_compute; reflexivity|vm_compute; reflexivity|by repeat constructor|reflexivity|].
  exists d'. split; [exact H1|exact H2].
Defined.

(** When the keycombo device cannot be allocated the error path frees the
    platform data through the device that is not there. *)
Lemma pdev_failure_faults usable downs f delay ups add_data add :
  good_node downs f delay ups ->
  amzn_keycombo_probe usable true true true false add_data add (combo_node downs f delay ups) funcs = Oops.
Proof.
  intros Hg. unfold amzn_keycombo_probe. cbn [negb]. rewrite (dt_good _ _ _ _ _ Hg).
  destruct (ups_fit usable ups); [|done]. cbn [mbind outcome_bind].
  destruct (Z.eqb_spec (SIZEOF_PDATA + 4 * (Z.of_nat (length downs) + 1)) 0); [unfold SIZEOF_PDATA in *; lia|done].
Qed.
