(* ===== verification/P922x.v ===== *)
(** * The wireless charging receiver (drivers/power/supply/idtp922x_wireless_power.c)

    The transport, the measurements, the current calibration, the two firmware
    updates (of the one-time-programmable memory, through a boot loader the chip
    runs, and of the SRAM) and the stores of the register attributes. *)

From Stdlib Require Import String.
From stdpp Require Import base tactics numbers list gmap option.
From S2P Require Import Prelude Kstrtox Printf.

Definition I2C_BYTES_MAX : Z := 255.
Definition REG_ADC_NTC : Z := 0x0010.
Definition REG_CHIP_REV : Z := 0x001c.
Definition REG_VOUT_SET : Z := 0x003E.
Definition REG_CHIP_ID : Z := 0x5870.
Definition REG_DUMP_MAX : Z := 0x007B.
Definition SET_VOUT_MIN : Z := 3500.
Definition SET_VOUT_MAX : Z := 12500.
Definition DEFAULT_NTC_ADC : Z := 2741.
Definition IOUT_CAL_IDME_SIZE : nat := 14.
Definition IOUT_CAL_AREA_MAX : nat := 5.
Definition IOUT_CAL_THR_MAX : nat := 4.
Definition READ_BUF_LENGTH : Z := 255.
Definition SRAM_PROGRAM_RETRY : nat := 3.

(** ** The chip and the bus *)

(** The chip behind the bus: its bytes as they are read, what a write makes of
    it, and what it does while the driver waits. *)
Class Chip (C : Type) := {
  chip_read : C -> Z -> Z;
  chip_write : C -> Z -> Z -> C;
  chip_wait : C -> C }.

(** The chip with the outcome of the transfers to come: [Some e] fails with the
    error [e]; beyond the list none does. *)
Record bus (C : Type) := mkBus { chip : C; faults : list (option Z) }.
Arguments mkBus {C} _ _.
Arguments chip {C} _.
Arguments faults {C} _.

Section Transport.
Context {C : Type} `{Chip C}.

Definition next_fault (b : bus C) : option Z := mjoin (faults b !! 0%nat).
Definition after (b : bus C) (c : C) : bus C := mkBus c (drop 1 (faults b)).
Definition wait (b : bus C) : bus C := mkBus (chip_wait (chip b)) (faults b).

Definition p922x_read (b : bus C) (reg : Z) : bus C * (Z + Z) :=
  match next_fault b with
  | Some e => (after b (chip b), inr e)
  | None => (after b (chip b), inl (u8 (chip_read (chip b) reg)))
  end.
Definition p922x_write (b : bus C) (reg val : Z) : bus C * Z :=
  match next_fault b with
  | Some e => (after b (chip b), e)
  | None => (after b (chip_write (chip b) reg (u8 val)), 0)
  end.

(** Bytes of consecutive registers. *)
Fixpoint chip_bytes (c : C) (reg : Z) (n : nat) : list Z :=
  match n with
  | O => []
  | S n => chip_read c reg :: chip_bytes c (reg + 1) n
  end.
Fixpoint chip_fill (c : C) (reg : Z) (data : list Z) : C :=
  match data with
  | [] => c
  | v :: data => chip_fill (chip_write c reg v) (reg + 1) data
  end.

(** One bulk transfer; a read of no bytes is an error. *)
Definition regmap_bulk_read (b : bus C) (reg : Z) (n : nat) : bus C * (list Z + Z) :=
  if (n =? 0)%nat then (b, inr (- EINVAL)) else
  match next_fault b with
  | Some e => (after b (chip b), inr e)
  | None => (after b (chip b), inl (chip_bytes (chip b) reg n))
  end.
Definition regmap_bulk_write (b : bus C) (reg : Z) (data : list Z) : bus C * Z :=
  match next_fault b with
  | Some e => (after b (chip b), e)
  | None => (after b (chip_fill (chip b) reg data), 0)
  end.

(** The transfers of up to [I2C_BYTES_MAX] bytes: one at least, then as long as
    bytes are left; [rounds] is the size, each round moves a byte or more. The
    result and the bytes read before an error. *)
Definition chunk (size : Z) : Z := if negb (size / I2C_BYTES_MAX =? 0) then I2C_BYTES_MAX else size mod I2C_BYTES_MAX.
Fixpoint read_chunks (rounds : nat) (b : bus C) (reg size : Z) : bus C * Z * list Z :=
  match regmap_bulk_read b reg (Z.to_nat (chunk size)) with
  | (b, inr e) => (b, e, [])
  | (b, inl data) =>
    let size' := size - chunk size in
    if 0 <? size' then
      match rounds with
      | O => (b, 0, data)
      | S rounds => let '(b, ret, data') := read_chunks rounds b (reg + chunk size) size' in (b, ret, data ++ data')
      end
    else (b, 0, data)
  end.
Definition p922x_read_buffer (b : bus C) (reg size : Z) : bus C * Z * list Z := read_chunks (Z.to_nat size) b reg size.

Fixpoint write_chunks (rounds : nat) (b : bus C) (reg : Z) (data : list Z) : bus C * Z :=
  let size := Z.of_nat (length data) in
  let n := Z.to_nat (chunk size) in
  let '(b, ret) := regmap_bulk_write b reg (take n data) in
  if negb (ret =? 0) then (b, ret)
  else if 0 <? size - chunk size then
    match rounds with
    | O => (b, 0)
    | S rounds => write_chunks rounds b (reg + chunk size) (drop n data)
    end
  else (b, 0).
Definition p922x_write_buffer (b : bus C) (reg : Z) (data : list Z) : bus C * Z := write_chunks (length data) b reg data.

(** ** Measurements *)

(** [buf[0] | (buf[1] << 8)] of a buffer that held zeros. *)
Definition le16 (buf : list Z) : Z := Z.lor (buf !!! 0%nat) (Z.shiftl (buf !!! 1%nat) 8).

Definition p922x_get_vout (b : bus C) : bus C * Z :=
  let '(b, r) := p922x_read b REG_VOUT_SET in
  let value := match r with inl v => v | inr _ => 0 end in (b, u16 (value * 100 + 3500)).
Definition p922x_set_vout (b : bus C) (vout : Z) : bus C * Z :=
  if (SET_VOUT_MIN <=? vout) && (vout <=? SET_VOUT_MAX) then p922x_write b REG_VOUT_SET (Z.quot vout 100 - 35)
  else (b, - EINVAL).

Definition p922x_get_ntc_adc (b : bus C) : bus C * Z :=
  let '(b, ret, buf) := p922x_read_buffer b REG_ADC_NTC 2 in
  if negb (ret =? 0) then (b, DEFAULT_NTC_ADC)
  else let adc := le16 buf in (b, if adc =? 0 then DEFAULT_NTC_ADC else adc).
End Transport.

(** The voltages of -40 to 125 degrees, in order. *)
Definition ntc_voltages : list Z :=
  [1759; 1756; 1753; 1749; 1746; 1742; 1738; 1734; 1730; 1725; 1720; 1715; 1709; 1704; 1697; 1691; 1684; 1677; 1670; 1662;
   1654; 1646; 1637; 1628; 1618; 1608; 1598; 1587; 1575; 1564; 1551; 1539; 1526; 1512; 1498; 1484; 1469; 1454; 1438; 1422;
   1405; 1388; 1371; 1353; 1335; 1316; 1297; 1278; 1258; 1238; 1218; 1198; 1177; 1156; 1136; 1114; 1093; 1072; 1050; 1029;
   1007; 986; 964; 943; 921; 900; 879; 858; 837; 816; 796; 775; 755; 736; 716; 697; 678; 659; 641; 623; 605; 588; 571; 555;
   538; 522; 507; 492; 477; 463; 449; 435; 422; 409; 396; 384; 372; 360; 349; 338; 327; 317; 307; 297; 288; 279; 270; 261;
   253; 245; 237; 230; 222; 215; 209; 202; 196; 189; 183; 178; 172; 167; 162; 156; 152; 147; 142; 138; 134; 130; 126; 122;
   118; 114; 111; 108; 104; 101; 98; 95; 92; 90; 87; 84; 82; 80; 77; 75; 73; 71; 69; 67; 65; 63; 61; 59; 58; 56; 55; 53;
   52; 50; 49; 47; 46; 45].
Definition ntc_temperature_table : list (Z * Z) := imap (fun i v => (Z.of_nat i - 40, v)) ntc_voltages.

(** The binary search over a table: the last middle. An interval shrinks in
    every round, so a round per entry is enough ([None]: out of rounds). *)
Fixpoint ntc_search (table : list (Z * Z)) (rounds : nat) (volt low mid high : Z) : option Z :=
  if negb (low <=? high) then Some mid else
  match rounds with
  | O => None
  | S rounds =>
    let mid := Z.quot (low + high) 2 in
    let v := (table !!! Z.to_nat mid).2 in
    if v <? volt then ntc_search table rounds volt low mid (mid - 1)
    else if volt <? v then ntc_search table rounds volt (mid + 1) mid high
    else Some mid
  end.
Definition ntc_temp_of (adc : Z) : option Z :=
  mid ← ntc_search ntc_temperature_table (length ntc_temperature_table) (Z.quot (2100 * adc) 4096) 0 0
          (Z.of_nat (length ntc_temperature_table) - 1);
  Some (ntc_temperature_table !!! Z.to_nat mid).1.
Definition p922x_get_ntc_temp {C} `{Chip C} (b : bus C) : bus C * option Z :=
  let '(b, adc) := p922x_get_ntc_adc b in (b, ntc_temp_of adc).

(** ** Current calibration *)

(** Registers (address and value) of the calibration; the flags of the
    device; the window of the register attributes. *)
Record p922x_dev := mkDev {
  threshold : list (Z * Z); gain : list (Z * Z); offset : list (Z * Z);
  is_cal_data_ready : bool; is_sram_updated : bool; reg_addr : Z; reg_size : Z }.

Definition cal_data : p922x_dev :=
  mkDev [(0x0c, 0x00c8); (0x0e, 0x0190); (0x2c, 0x0258); (0x2e, 0x0320)]
        [(0x12, 0); (0x16, 0); (0x1A, 0); (0x28, 0); (0x64, 0)]
        [(0x14, 0); (0x18, 0); (0x0A, 0); (0x42, 0); (0x66, 0)] false false 0 0.

Definition castChar (c : Z) : Z :=
  if (48 <=? c) && (c <=? 57) then c - 48
  else if (97 <=? c) && (c <=? 102) then c - 97 + 10
  else if (65 <=? c) && (c <=? 70) then c - 65 + 10
  else s8 255.

(** The bytes of a hex string; [out] bytes fit. *)
Fixpoint hex_bytes (s : list Z) : list Z :=
  match s with
  | a :: b :: s => s8 (Z.lor (Z.shiftl (castChar a) 4) (castChar b)) :: hex_bytes s
  | _ => []
  end.
Definition hexToBytes (inhex : list Z) (out : list Z) : outcome (list Z) :=
  let l := hex_bytes inhex in
  if (length out <? length l)%nat then Oops else Ret (l ++ drop (length l) out).

(** [(s16)((retdata[i*2] & 0x00FF) | (retdata[i*2+1] << 8))]. *)
Definition cal_word (l : list Z) (i : nat) : Z :=
  s16 (Z.lor (Z.land (l !!! (2 * i)%nat) 0xFF) (Z.shiftl (l !!! (2 * i + 1)%nat) 8)).

(** [node]: the idme node of the calibration, with its value if it has one. *)
Definition idme_get_wpc_iout_cal (alloc : bool) (node : option (option (list Z))) : outcome (list Z + Z) :=
  if negb alloc then Ret (inr (- ENOMEM)) else
  match node with
  | None | Some None => Ret (inr (- EINVAL))
  | Some (Some value) =>
    retdata ← hexToBytes value (replicate (2 * IOUT_CAL_IDME_SIZE) 0);
    Ret (inl (cal_word retdata <$> seq 0 IOUT_CAL_IDME_SIZE))
  end.

Definition set_val (r : Z * Z) (v : Z) : Z * Z := (r.1, u16 v).

Definition p922x_get_iout_cal_data (d : p922x_dev) (alloc : bool) (node : option (option (list Z))) : outcome (p922x_dev * Z) :=
  r ← idme_get_wpc_iout_cal alloc node;
  match r with
  | inr ret => Ret (d, ret)
  | inl idmedata =>
    Ret (mkDev (imap (fun i r => set_val r (idmedata !!! (IOUT_CAL_AREA_MAX * 2 + i)%nat)) (threshold d))
               (imap (fun i r => set_val r (idmedata !!! (2 * i)%nat)) (gain d))
               (imap (fun i r => set_val r (idmedata !!! (2 * i + 1)%nat)) (offset d))
               true (is_sram_updated d) (reg_addr d) (reg_size d), 0)
  end.

Section Calibration.
Context {C : Type} `{Chip C}.

(** Words written one after the other up to the first failure. *)
Fixpoint write_words (b : bus C) (l : list (Z * Z)) : bus C * Z :=
  match l with
  | [] => (b, 0)
  | (a, v) :: l =>
    let '(b, ret) := p922x_write_buffer b a (le_enc 2 (u16 v)) in
    if negb (ret =? 0) then (b, ret) else write_words b l
  end.

Definition p922x_mask_iout_cal_data (b : bus C) (d : p922x_dev) : bus C * Z :=
  write_words b ((fun r => (r.1, 0)) <$> threshold d).

(** The gain and offset of each area, then the thresholds. *)
Definition cal_writes (d : p922x_dev) : list (Z * Z) :=
  mjoin (zip_with (fun g o => [g; o]) (gain d) (offset d)) ++ threshold d.

(** A failure masks the calibration, whose result is returned. *)
Definition p922x_update_iout_cal_data (b : bus C) (d : p922x_dev) : bus C * Z :=
  if negb (is_cal_data_ready d) || negb (is_sram_updated d) then (b, - EINVAL) else
  let '(b, ret) := write_words b (cal_writes d) in
  if negb (ret =? 0) then p922x_mask_iout_cal_data b d else (b, 0).

Definition p922x_iout_cal_data_store (b : bus C) (d : p922x_dev) (alloc : bool) (node : option (option (list Z))) (buf : list Z)
    : outcome (bus C * p922x_dev * Z) :=
  match kstrtoint buf 10 with
  | inr ret => Ret (b, d, ret)
  | inl val =>
    let count := Z.of_nat (length buf) in
    if val =? 0 then
      let '(b, ret) := p922x_mask_iout_cal_data b d in Ret (b, d, if negb (ret =? 0) then ret else count)
    else if val =? 1 then
      '(d, ret) ← p922x_get_iout_cal_data d alloc node;
      if negb (ret =? 0) then Ret (b, d, ret) else
      let '(b, ret) := p922x_update_iout_cal_data b d in Ret (b, d, if negb (ret =? 0) then ret else count)
    else Ret (b, d, - EINVAL)
  end.

(** ** Firmware *)

(** Single bytes from an address on, up to the first failure. *)
Fixpoint write_seq (b : bus C) (addr : Z) (l : list Z) : bus C * Z :=
  match l with
  | [] => (b, 0)
  | v :: l => let '(b, rc) := p922x_write b addr v in if negb (rc =? 0) then (b, rc) else write_seq b (addr + 1) l
  end.

(** [bootloader] is the array of the header. *)
Definition program_bootloader (b : bus C) (bootloader : list Z) : bus C * Z := write_seq b 0x1c00 bootloader.

Definition fw_ver_list : list Z := [0x0303].

(** The versions are read over 0xff; the index of the version, or the length of
    the list, is compared with the length - 1. *)
Definition read_over (n : nat) (r : bus C * Z * list Z) : bus C * list Z :=
  (r.1.1, r.2 ++ drop (length r.2) (replicate n 0xff)).
Definition check_fwver (b : bus C) : bus C * bool :=
  let '(b, id) := read_over 8 (p922x_read_buffer b REG_CHIP_ID 8) in
  let '(b, ver) := read_over 4 (p922x_read_buffer b REG_CHIP_REV 4) in
  let chip_id := Z.lor (id !!! 4%nat) (Z.shiftl (id !!! 0%nat) 8) in
  if negb (chip_id =? 0x9220) then (b, false) else
  let fw_ver := le16 ver in
  let i := match list_find (fun v => v = fw_ver) fw_ver_list with Some (i, _) => i | None => length fw_ver_list end in
  (b, negb (i <? length fw_ver_list - 1)%nat).

(** The packet of a page: without its trailing zeros; 8 bytes of header. *)
Fixpoint drop_zeros (l : list Z) : list Z :=
  match l with
  | v :: l => if v =? 0 then drop_zeros l else v :: l
  | [] => []
  end.
Definition page_code (page : list Z) : list Z := rev (drop_zeros (rev page)).
Definition check_sum (start : Z) (code : list Z) : Z :=
  u16 (foldl (fun acc v => u16 (acc + v)) start (rev code) + Z.of_nat (length code)).
Definition packet (start : Z) (code : list Z) : list Z :=
  [0; 0] ++ le_enc 2 start ++ le_enc 2 (Z.of_nat (length code)) ++ le_enc 2 (check_sum start code) ++ code.

(** The status after at most [S more] readings 100 ms apart; a reading that
    fails leaves the last one. *)
Fixpoint poll_status (more : nat) (b : bus C) (status : Z) : bus C * Z :=
  let '(b, r) := p922x_read (wait b) 0x400 in
  let status := match r with inl v => v | inr _ => status end in
  match more with
  | O => (b, status)
  | S more => if status =? 1 then poll_status more b status else (b, status)
  end.

(** The pages from the address [i] on; [src] is what is left of the array, of
    which a page takes 128 bytes whether it has them or not. *)
Fixpoint program_pages (pages : nat) (b : bus C) (i : Z) (src : list Z) : outcome (bus C * bool) :=
  match pages with
  | O => Ret (b, true)
  | S pages =>
    if (length src <? 128)%nat then Oops else
    let code := page_code (take 128 src) in
    let src := drop 128 src in
    if (length code =? 0)%nat then program_pages pages b (i + 128) src else
    let '(b, rc) := write_seq b 0x400 (packet (u16 i) code) in
    if negb (rc =? 0) then Ret (b, false) else
    let '(b, rc) := p922x_write b 0x400 1 in
    if negb (rc =? 0) then Ret (b, false) else
    let '(b, status) := poll_status 6 b 0 in
    if negb (status =? 2) then Ret (b, false) else program_pages pages b (i + 128) src
  end.

(** The writes of a list of registers, up to the first failure. *)
Fixpoint write_regs (b : bus C) (l : list (Z * Z)) : bus C * Z :=
  match l with
  | [] => (b, 0)
  | (a, v) :: l => let '(b, rc) := p922x_write b a v in if negb (rc =? 0) then (b, rc) else write_regs b l
  end.

Definition program_fw (b : bus C) (bootloader : list Z) (destAddr : Z) (src : list Z) : outcome (bus C * bool) :=
  let '(b, _) := p922x_read b 0x5870 in
  let '(b, _) := p922x_read b 0x5874 in
  let '(b, rc) := write_regs b [(0x3000, 0x5a); (0x3040, 0x10)] in
  if negb (rc =? 0) then Ret (b, false) else
  let '(b, rc) := program_bootloader b bootloader in
  if negb (rc =? 0) then Ret (b, false) else
  let '(b, rc) := p922x_write b 0x3048 0x80 in
  if negb (rc =? 0) then Ret (b, false) else
  let b := wait (p922x_write b 0x3040 0x80).1 in
  '(b, ok) ← program_pages (Z.to_nat ((Z.of_nat (length src) + 127) / 128)) b destAddr src;
  if negb ok then Ret (b, false) else
  let '(b, rc) := write_regs b [(0x3000, 0x5a); (0x3048, 0x00)] in
  Ret (b, rc =? 0).

(** Whether the chip's SRAM holds [src], in chunks of [READ_BUF_LENGTH]. *)
Fixpoint compare_chunks (rounds : nat) (b : bus C) (reg : Z) (src : list Z) : bus C * bool :=
  let size := Z.of_nat (length src) in
  let n := Z.to_nat (if negb (size / READ_BUF_LENGTH =? 0) then READ_BUF_LENGTH else size mod READ_BUF_LENGTH) in
  let '(b, ret, data) := p922x_read_buffer b reg (Z.of_nat n) in
  if negb (ret =? 0) then (b, false)
  else if negb (bool_decide (take n src = data)) then (b, false)
  else if (n <? length src)%nat then
    match rounds with
    | O => (b, true)
    | S rounds => compare_chunks rounds b (reg + Z.of_nat n) (drop n src)
    end
  else (b, true).
Definition sram_compare_fw (b : bus C) (src : list Z) : bus C * bool := compare_chunks (length src) b 0x600 src.

(** Program and compare, [S retries] times at most. *)
Fixpoint load_sram (retries : nat) (b : bus C) (src : list Z) : bus C * bool :=
  let '(b, ret) := p922x_write_buffer b 0x600 src in
  if negb (ret =? 0) then (b, false) else
  let '(b, ok) := sram_compare_fw b src in
  if (ok : bool) then (b, true) else
  match retries with O => (b, false) | S retries => load_sram retries b src end.

Fixpoint start_sram (retries : nat) (b : bus C) : bus C * bool :=
  let '(b, rc) := write_regs b [(0x4c, 0x5a); (0x4e, 0x40)] in
  if negb (rc =? 0) then (b, false) else
  let '(b, r) := p922x_read (wait b) 0x4d in
  match r with
  | inr _ => (b, false)
  | inl val =>
    if val =? 0x41 then (b, true) else
    match retries with O => (b, false) | S retries => start_sram retries b end
  end.

Definition sram_program_fw (b : bus C) (d : p922x_dev) (src : list Z) : bus C * p922x_dev * bool :=
  let '(b, ok) := load_sram SRAM_PROGRAM_RETRY b src in
  if negb ok then (b, d, false) else
  let '(b, ok) := start_sram SRAM_PROGRAM_RETRY b in
  if negb ok then (b, d, false) else
  (b, mkDev (threshold d) (gain d) (offset d) (is_cal_data_ready d) true (reg_addr d) (reg_size d), true).

Definition chip_prog_fw_show (b : bus C) (bootloader idtp9220_rx_fw : list Z) : outcome (bus C * list Z) :=
  let '(b, ok) := check_fwver b in
  if negb ok then Ret (b, str "IDTP922x check firmware version failed!" ++ [10]) else
  '(b, ok) ← program_fw b bootloader 0 idtp9220_rx_fw;
  if negb ok then Ret (b, str "IDTP922x program firmware failed!" ++ [10])
  else Ret ((p922x_read_buffer (p922x_read_buffer b REG_CHIP_ID 8).1.1 REG_CHIP_REV 4).1.1,
            str "IDTP922x program firmware successfully" ++ [10]).

Definition sram_prog_fw_show (b : bus C) (d : p922x_dev) (idt_sram_firmware : list Z) : bus C * p922x_dev * list Z :=
  let '(b, ok) := check_fwver b in
  if negb ok then (b, d, str "IDTP922x check firmware version failed!" ++ [10]) else
  let '(b, d, ok) := sram_program_fw b d idt_sram_firmware in
  if negb ok then (b, d, str "IDTP922x program sram firmware failed!" ++ [10])
  else ((p922x_read_buffer (p922x_read_buffer b REG_CHIP_ID 8).1.1 REG_CHIP_REV 4).1.1, d,
        str "IDTP922x program sram fw successfully!" ++ [10]).
End Calibration.

(** ** Register attributes *)

(** The [%x] of [vsscanf] and [sscanf(buf, "%x %x", ...) == 2]. *)
Definition scan_x (s : list Z) : option (Z * list Z) :=
  let s := skip_spaces s in
  if negb (isxdigit (char_at s 0)) then None
  else let '(v, r) := simple_strtoull s 16 in Some (u32 v, r).
Definition sscanf_x_x (s : list Z) : option (Z * Z) :=
  '(a, r) ← scan_x s; '(b, _) ← scan_x (skip_spaces r); Some (a, b).

Definition p922x_addr_store (d : p922x_dev) (buf : list Z) : p922x_dev * Z :=
  match sscanf_x_x buf with
  | None => (d, - EINVAL)
  | Some (a, n) =>
    (mkDev (threshold d) (gain d) (offset d) (is_cal_data_ready d) (is_sram_updated d) (u16 a) (u8 n), Z.of_nat (length buf))
  end.

(** [%04x]. *)
Definition pct_04x (v : Z) : list Z := (if 65536 <=? v then [49] else []) ++ pct_02x (v / 256 mod 256) ++ pct_02x (v mod 256).

(** [strsep(&s, " ")]: the token and what follows its separator. *)
Fixpoint strsep (s : list Z) : list Z * option (list Z) :=
  match s with
  | [] => ([], None)
  | c :: s => if c =? 32 then ([], Some s) else let '(t, r) := strsep s in (c :: t, r)
  end.

(** The loop of the store: what is left of the text, the values and the last
    result. A round takes a token off the text, so a round per byte and one more
    are enough. *)
Fixpoint parse_regs (rounds : nat) (tmp_data : option (list Z)) (size : Z) (vals : list Z) : option (list Z) * list Z * Z :=
  match tmp_data with
  | None => (None, vals, 0)
  | Some s =>
    if size <=? Z.of_nat (length vals) then (Some s, vals, 0) else
    match rounds with
    | O => (Some s, vals, 0)
    | S rounds =>
      let '(reg_data, rest) := strsep s in
      match reg_data with
      | [] => parse_regs rounds rest size vals
      | _ => match kstrtou8 reg_data 0 with
             | inr ret => (rest, vals, ret)
             | inl v => parse_regs rounds rest size (vals ++ [v])
             end
      end
    end
  end.

Section Attributes.
Context {C : Type} `{Chip C}.

Definition p922x_vout_set_store (b : bus C) (buf : list Z) : bus C * Z :=
  match kstrtoint buf 10 with
  | inr _ => (b, Z.of_nat (length buf))
  | inl vout => ((p922x_set_vout b vout).1, Z.of_nat (length buf))
  end.

(** The buffer on the stack holds [REG_DUMP_MAX] bytes; [pg]: the receiver is
    powered. *)
Definition p922x_reg_show (b : bus C) (d : p922x_dev) (pg : bool) : outcome (bus C * (list Z + Z)) :=
  if negb pg then Ret (b, inr (- ENODEV)) else
  let '(b, ret, buf) := p922x_read_buffer b (reg_addr d) (reg_size d) in
  if REG_DUMP_MAX <? Z.of_nat (length buf) then Oops
  else if negb (ret =? 0) then Ret (b, inr ret)
  else Ret (b, inl (snprintf PAGE_SIZE (mjoin (imap (fun i v =>
         str "addr:0x" ++ pct_04x (reg_addr d + Z.of_nat i) ++ str " = 0x" ++ pct_02x v ++ [10]) buf)))).

(** [kfree(tmp_data)] frees what [strsep] left in the pointer: NULL, with the
    buffer lost (the flag), or a pointer into the buffer. *)
Definition p922x_reg_store (b : bus C) (d : p922x_dev) (pg alloc : bool) (buf : list Z) : outcome (bus C * Z * bool) :=
  if (REG_DUMP_MAX <? reg_size d + reg_addr d) || (reg_size d =? 0) then Ret (b, - EINVAL, false)
  else if negb pg then Ret (b, - ENODEV, false)
  else if negb alloc then Ret (b, - ENOMEM, false)
  else
    let '(tmp_data, regs_data, ret) := parse_regs (S (length buf)) (Some buf) (reg_size d) [] in
    let '(b, ret) :=
      if negb (Z.of_nat (length regs_data) =? reg_size d) || negb (ret =? 0) then (b, - EINVAL)
      else let '(b, ret) := p922x_write_buffer b (reg_addr d) regs_data in
           (b, if negb (ret =? 0) then ret else Z.of_nat (length buf)) in
    match tmp_data with
    | None => Ret (b, ret, true)
    | Some _ => Oops
    end.
End Attributes.

(** ** Specification *)

(** A transfer without failures moves all bytes at once. *)
Definition no_faults {C} (b : bus C) : Prop := faults b = [].

(** Memory of the chip: bytes written there are read back, and stay. *)
Class PlainMemory (C : Type) `{Chip C} (plain : Z -> bool) : Prop := {
  plain_read (c : C) a v a' : plain a = true -> plain a' = true -> 0 <= v < 256 ->
    chip_read (chip_write c a v) a' = if a' =? a then v else chip_read c a' }.

(** What the boot loader promises: it runs once it is in its place and the chip
    was reset with the SRAM mapped to the OTP; then a packet with a right checksum
    whose status is 1 is programmed into blank cells and answered with the status
    2; without one nothing changes; writes to the packet's buffer and the key and
    control registers leave the OTP alone. *)
Definition buffer_cell (a : Z) : bool := (0x400 <=? a) && (a <? 0x488).
Definition loader_cell (a : Z) : bool := (0x1c00 <=? a) && (a <? 0x2000).
Definition cells (a : Z) : bool := buffer_cell a || loader_cell a.
Definition control_reg (a : Z) : bool := (a =? 0x3000) || (a =? 0x3040) || (a =? 0x3048).

Definition packet_in {C} `{Chip C} (c : C) (start : Z) (code : list Z) : Prop :=
  chip_bytes c 0x402 (6 + length code) =
    le_enc 2 start ++ le_enc 2 (Z.of_nat (length code)) ++ le_enc 2 (start + foldr Z.add 0 code + Z.of_nat (length code)) ++ code.

Class BootLoader (C : Type) `{Chip C} (bootloader : list Z) := {
  otp : C -> Z -> Z;
  booted : C -> Prop;
  bl_plain :: PlainMemory C cells;
  bl_size : (length bootloader <= 1024)%nat /\ Forall (fun v => 0 <= v < 256) bootloader;
  bl_otp c a v a' : cells a || control_reg a = true -> otp (chip_write c a v) a' = otp c a';
  bl_control c a v a' : control_reg a = true -> cells a' = true -> chip_read (chip_write c a v) a' = chip_read c a';
  bl_booted c a v : buffer_cell a = true -> booted c -> booted (chip_write c a v);
  bl_start c : chip_bytes c 0x1c00 (length bootloader) = bootloader -> chip_read c 0x400 <> 1 ->
    let c' := chip_wait (chip_write (chip_write c 0x3048 0x80) 0x3040 0x80) in
    booted c' /\ forall a, otp c' a = otp c a;
  bl_program c start code :
    booted c -> chip_read c 0x400 = 1 -> packet_in c start code -> (0 < length code <= 128)%nat -> 0 <= start < 65536 ->
    (forall i, (i < length code)%nat -> otp c (start + Z.of_nat i) = 0) ->
    let c' := chip_wait c in
    booted c' /\ chip_read c' 0x400 = 2 /\
    forall a, otp c' a = if (start <=? a) && (a <? start + Z.of_nat (length code)) then code !!! Z.to_nat (a - start) else otp c a }.

(** The SRAM's cells keep what other registers are written and while the
    firmware starts. *)
Class SramLaws (C : Type) `{Chip C} : Prop := {
  sram_kept c a v x : a = 0x4c \/ a = 0x4e -> 0x600 <= x -> chip_read (chip_write c a v) x = chip_read c x;
  sram_wait c x : 0x600 <= x -> chip_read (chip_wait c) x = chip_read c x }.

(** A chip: plain memory, but a register that tells whether the SRAM's firmware
    was started; the boot loader is run by the reset if its bytes are in place. *)
Record demo := mkDemo { dmem : Z -> Z; dotp : Z -> Z; dboot : bool }.
Definition demo_read (c : demo) (a : Z) : Z :=
  if a =? 0x4d then (if (dmem c 0x4c =? 0x5a) && (dmem c 0x4e =? 0x40) then 0x41 else 0) else dmem c a.
Definition demo_write (bl : list Z) (c : demo) (a v : Z) : demo :=
  mkDemo (fun x => if x =? a then v else dmem c x) (dotp c)
    (if (a =? 0x3040) && (v =? 0x80) && (dmem c 0x3048 =? 0x80)
     then forallb (fun i => dmem c (0x1c00 + Z.of_nat i) =? bl !!! i) (seq 0 (length bl)) else dboot c).
Definition demo_wait (c : demo) : demo :=
  let m := dmem c in
  if dboot c && (m 0x400 =? 1)
  then let start := m 0x402 + 256 * m 0x403 in let len := m 0x404 + 256 * m 0x405 in
       mkDemo (fun x => if x =? 0x400 then 2 else m x)
         (fun a => if (start <=? a) && (a <? start + len) then m (0x408 + (a - start)) else dotp c a) true
  else c.
Definition demo_chip (bl : list Z) : Chip demo := {|
  chip_read := demo_read; chip_write := demo_write bl; chip_wait := demo_wait |}.

(** ** Lemmas *)

Section Memory.
Context {C : Type} `{Chip C}.

Lemma next_fault_none (b : bus C) : no_faults b -> next_fault b = None /\ forall c, after b c = mkBus c [].
Proof. intros E. unfold next_fault, after, no_faults in *. by rewrite E. Qed.

Lemma write_ok (b : bus C) reg val : no_faults b -> p922x_write b reg val = (mkBus (chip_write (chip b) reg (u8 val)) [], 0).
Proof. intros E. destruct (next_fault_none b E) as [E1 E2]. unfold p922x_write. by rewrite E1, E2. Qed.

Lemma read_ok (b : bus C) reg : no_faults b -> p922x_read b reg = (mkBus (chip b) [], inl (u8 (chip_read (chip b) reg))).
Proof. intros E. destruct (next_fault_none b E) as [E1 E2]. unfold p922x_read. by rewrite E1, E2. Qed.

Lemma u8_bytes l : Forall (fun v => 0 <= v < 256) l -> u8 <$> l = l.
Proof. induction 1 as [|v l Hv _ IH]; [done|]. cbn. by rewrite u8_id, IH by done. Qed.

Lemma write_seq_ok l : forall (b : bus C) a, no_faults b -> Forall (fun v => 0 <= v < 256) l ->
  write_seq b a l = (mkBus (chip_fill (chip b) a l) [], 0).
Proof.
  induction l as [|v l IH]; intros b a Hb Hl; cbn [write_seq chip_fill]; [unfold no_faults in Hb; by destruct b; cbn in *; subst|].
  apply list.Forall_cons in Hl as [Hv Hl]. rewrite write_ok, u8_id by done. cbn [Z.eqb negb]. by rewrite IH.
Qed.

Context (plain : Z -> bool) `{!PlainMemory C plain}.

Lemma fill_read l : forall (c : C) a a',
  (forall k, a <= k < a + Z.of_nat (length l) -> plain k = true) -> Forall (fun v => 0 <= v < 256) l -> plain a' = true ->
  chip_read (chip_fill c a l) a' = if (a <=? a') && (a' <? a + Z.of_nat (length l)) then l !!! Z.to_nat (a' - a) else chip_read c a'.
Proof.
  induction l as [|v l IH]; intros c a a' Hp Hl Ha'; cbn [chip_fill length] in *.
  - destruct (Z.leb_spec a a'), (Z.ltb_spec a' (a + Z.of_nat 0)); cbn [andb]; done || lia.
  - apply list.Forall_cons in Hl as [Hv Hl]. rewrite IH; [|intros; apply Hp; lia|done|done].
    rewrite plain_read by (done || apply Hp; lia).
    destruct (Z.eqb_spec a' a) as [->|Hne].
    + destruct (Z.leb_spec (a + 1) a); [lia|]. cbn [andb]. destruct (Z.leb_spec a a); [|lia].
      destruct (Z.ltb_spec a (a + Z.of_nat (S (length l)))); [|lia]. cbn [andb]. by rewrite Z.sub_diag.
    + destruct (Z.leb_spec (a + 1) a'), (Z.leb_spec a a'); try lia; cbn [andb]; [|done].
      destruct (Z.ltb_spec a' (a + 1 + Z.of_nat (length l))), (Z.ltb_spec a' (a + Z.of_nat (S (length l)))); try lia.
      replace (Z.to_nat (a' - a)) with (S (Z.to_nat (a' - (a + 1)))) by lia. done.
Qed.

Lemma bytes_lookup n : forall (c : C) a k, (k < n)%nat -> chip_bytes c a n !!! k = chip_read c (a + Z.of_nat k).
Proof.
  induction n as [|n IH]; intros c a k Hk; [lia|]. destruct k as [|k]; cbn; [by rewrite Z.add_0_r|].
  rewrite IH by lia. f_equal. lia.
Qed.
Lemma length_chip_bytes n : forall (c : C) a, length (chip_bytes c a n) = n.
Proof. induction n as [|n IH]; intros c a; cbn; [done|]. by rewrite IH. Qed.

Lemma bytes_of (c : C) a l : (forall k, (k < length l)%nat -> chip_read c (a + Z.of_nat k) = l !!! k) -> chip_bytes c a (length l) = l.
Proof.
  intros Hl. apply (list_eq_same_length _ _ (length l)); [done|by rewrite length_chip_bytes|].
  intros k x y Hk Hx Hy. rewrite <- (list_lookup_total_correct _ _ _ Hx), <- (list_lookup_total_correct _ _ _ Hy).
  rewrite bytes_lookup by done. by apply Hl.
Qed.

Lemma fill_bytes (c : C) a l :
  (forall k, a <= k < a + Z.of_nat (length l) -> plain k = true) -> Forall (fun v => 0 <= v < 256) l ->
  chip_bytes (chip_fill c a l) a (length l) = l.
Proof.
  intros Hp Hl. apply bytes_of. intros k Hk. rewrite fill_read by (done || apply Hp; lia).
  destruct (Z.leb_spec a (a + Z.of_nat k)), (Z.ltb_spec (a + Z.of_nat k) (a + Z.of_nat (length l))); try lia. cbn [andb].
  f_equal. lia.
Qed.
End Memory.

Lemma le_enc_bytes n : forall v, Forall (fun v => 0 <= v < 256) (le_enc n v).
Proof. induction n as [|n IH]; intros v; cbn; constructor; [apply Z.mod_pos_bound; lia|apply IH]. Qed.

(** The checksum adds the start, the bytes and the length. *)
Lemma sum_wraps l : forall acc, u16 (foldl (fun acc v => u16 (acc + v)) acc l) = u16 (acc + foldr Z.add 0 l).
Proof.
  induction l as [|v l IH]; intros acc; cbn [foldl foldr]; [by rewrite Z.add_0_r|].
  rewrite IH. unfold u16, wrapU. rewrite Zplus_mod_idemp_l. f_equal. lia.
Qed.
Lemma sum_rev l : foldr Z.add 0 (rev l) = foldr Z.add 0 l.
Proof.
  induction l as [|v l IH]; [done|]. cbn [rev foldr]. rewrite foldr_app. cbn [foldr]. rewrite <- IH, Z.add_0_r. clear IH.
  induction (rev l) as [|x r IHr]; cbn [foldr]; lia.
Qed.
Lemma le_enc_u16 v : le_enc 2 (u16 v) = le_enc 2 v.
Proof.
  unfold u16, wrapU. change (2 ^ 16) with 65536. pose proof (Z.div_mod v 65536 ltac:(lia)) as E. set (r := v mod 65536) in *.
  replace v with (r + (256 * (v / 65536)) * 256) by lia. cbn [le_enc]. rewrite Z.div_add, !Z_mod_plus_full by lia.
  by replace (r / 256 + 256 * (v / 65536)) with (r / 256 + (v / 65536) * 256) by lia; rewrite Z_mod_plus_full.
Qed.
Lemma check_sum_bytes start code : le_enc 2 (check_sum start code) = le_enc 2 (start + foldr Z.add 0 code + Z.of_nat (length code)).
Proof.
  unfold check_sum. rewrite le_enc_u16, <- (le_enc_u16 (_ + Z.of_nat _)), <- (le_enc_u16 (start + _ + _)). f_equal.
  rewrite <- (sum_rev code). unfold u16 at 1 3, wrapU. rewrite Zplus_mod, (Zplus_mod (start + _)). f_equal. f_equal.
  apply (sum_wraps (rev code) start).
Qed.

(** A page is its code and zeros. *)
Lemma page_code_zeros page : exists k, page = page_code page ++ replicate k 0.
Proof.
  unfold page_code. induction page as [|v l IH] using rev_ind; [by exists 0%nat|]. rewrite rev_app_distr. cbn [rev app drop_zeros].
  destruct (Z.eqb_spec v 0) as [->|Hv].
  - destruct IH as [k IH]. exists (S k). rewrite IH at 1. rewrite <- app_assoc. f_equal. by rewrite <- replicate_cons_app.
  - exists 0%nat. cbn [replicate]. rewrite app_nil_r. cbn [rev]. by rewrite rev_involutive.
Qed.

Section Otp.
Context {C : Type} `{Chip C} (bootloader : list Z) `{!BootLoader C bootloader}.

Lemma buffer_range a : 0x400 <= a < 0x488 -> buffer_cell a = true.
Proof. intros Ha. unfold buffer_cell. destruct (Z.leb_spec 0x400 a), (Z.ltb_spec a 0x488); done || lia. Qed.
Lemma loader_range a : 0x1c00 <= a < 0x2000 -> loader_cell a = true.
Proof. intros Ha. unfold loader_cell. destruct (Z.leb_spec 0x1c00 a), (Z.ltb_spec a 0x2000); done || lia. Qed.

Lemma otp_fill l : forall (c : C) a a', (forall k, a <= k < a + Z.of_nat (length l) -> cells k = true) ->
  otp (chip_fill c a l) a' = otp c a'.
Proof.
  induction l as [|v l IH]; intros c a a' Hc; cbn [chip_fill length] in *; [done|].
  rewrite IH by (intros; apply Hc; lia). apply bl_otp. rewrite (Hc a) by lia. done.
Qed.
Lemma booted_fill l : forall (c : C) a, (forall k, a <= k < a + Z.of_nat (length l) -> buffer_cell k = true) ->
  booted c -> booted (chip_fill c a l).
Proof.
  induction l as [|v l IH]; intros c a Hc Hb; cbn [chip_fill length] in *; [done|].
  apply IH; [intros; apply Hc; lia|]. apply bl_booted; [apply Hc; lia|done].
Qed.

(** One page: the packet is programmed. *)
Lemma page_ok (b : bus C) i code :
  no_faults b -> booted (chip b) -> (0 < length code <= 128)%nat -> Forall (fun v => 0 <= v < 256) code -> 0 <= i < 65536 ->
  (forall k, (k < length code)%nat -> otp (chip b) (i + Z.of_nat k) = 0) ->
  exists c1 c, write_seq b 0x400 (packet i code) = (mkBus c1 [], 0) /\ p922x_write (mkBus c1 []) 0x400 1 = (mkBus (chip_write c1 0x400 1) [], 0) /\
    poll_status 6 (mkBus (chip_write c1 0x400 1) []) 0 = (mkBus c [], 2) /\ booted c /\
    forall a, otp c a = if (i <=? a) && (a <? i + Z.of_nat (length code)) then code !!! Z.to_nat (a - i) else otp (chip b) a.
Proof.
  intros Hb Hboot Hlen Hcode Hi Hblank. set (p := packet i code).
  assert (Hpl : length p = (8 + length code)%nat).
  { unfold p, packet. rewrite !length_app, !length_le_enc. cbn [length]. lia. }
  assert (Hpb : Forall (fun v => 0 <= v < 256) p).
  { unfold p, packet. apply Forall_app. split; [by repeat constructor|]. apply Forall_app. split; [apply le_enc_bytes|].
    apply Forall_app. split; [apply le_enc_bytes|]. apply Forall_app. split; [apply le_enc_bytes|done]. }
  assert (Hcells : forall k, 0x400 <= k < 0x400 + Z.of_nat (length p) -> buffer_cell k = true) by (intros; apply buffer_range; lia).
  set (c1 := chip_fill (chip b) 0x400 p). set (c2 := chip_write c1 0x400 1).
  assert (Hall : forall k, 0x400 <= k < 0x400 + Z.of_nat (length p) -> cells k = true) by (intros k Hk; unfold cells; by rewrite (Hcells k Hk)).
  assert (R1 : forall k, (k < length p)%nat -> chip_read c1 (0x400 + Z.of_nat k) = p !!! k).
  { intros k Hk. unfold c1. rewrite (fill_read cells) by (done || apply Hall; lia).
    destruct (Z.leb_spec 0x400 (0x400 + Z.of_nat k)), (Z.ltb_spec (0x400 + Z.of_nat k) (0x400 + Z.of_nat (length p))); try lia.
    cbn [andb]. f_equal. lia. }
  assert (R2 : chip_read c2 0x400 = 1) by (unfold c2; rewrite (plain_read (plain := cells)) by (done || lia); done).
  assert (Hpk : packet_in c2 i code).
  { unfold packet_in. rewrite <- check_sum_bytes. set (tl := le_enc 2 i ++ le_enc 2 (Z.of_nat (length code)) ++ le_enc 2 (check_sum i code) ++ code).
    assert (Htl : (6 + length code)%nat = length tl) by (unfold tl; rewrite !length_app, !length_le_enc; lia).
    rewrite Htl. apply bytes_of. intros k Hk. unfold c2. rewrite (plain_read (plain := cells)); [|done| |lia].
    2: { unfold cells. rewrite buffer_range by (rewrite <- Htl in Hk; lia). done. }
    destruct (Z.eqb_spec (0x402 + Z.of_nat k) 0x400); [lia|].
    replace (0x402 + Z.of_nat k) with (0x400 + Z.of_nat (S (S k))) by lia. rewrite R1 by (rewrite Hpl; rewrite <- Htl in Hk; lia). done. }
  assert (Ho2 : forall a, otp c2 a = otp (chip b) a).
  { intros a. unfold c2. rewrite bl_otp by done. unfold c1. by apply otp_fill. }
  assert (Hb2 : booted c2) by (apply bl_booted; [done|]; by apply booted_fill).
  destruct (bl_program c2 i code Hb2 R2 Hpk Hlen Hi) as (B1 & B2 & B3); [intros; rewrite Ho2; by apply Hblank|].
  exists c1, (chip_wait c2). rewrite write_seq_ok by done. split; [done|]. split; [by rewrite write_ok|].
  split; [|split; [exact B1|]].
  - cbn [poll_status]. rewrite read_ok by done. cbn [wait chip]. fold c2. rewrite B2. done.
  - intros a. rewrite B3. destruct (_ && _); [done|]. apply Ho2.
Qed.

Lemma pages_ok n : forall (b : bus C) i src,
  no_faults b -> booted (chip b) -> length src = (128 * n)%nat -> Forall (fun v => 0 <= v < 256) src ->
  0 <= i -> i + 128 * Z.of_nat n <= 65536 -> (forall a, i <= a < i + 128 * Z.of_nat n -> otp (chip b) a = 0) ->
  exists b', program_pages n b i src = Ret (b', true) /\ no_faults b' /\
    forall a, otp (chip b') a = if (i <=? a) && (a <? i + 128 * Z.of_nat n) then src !!! Z.to_nat (a - i) else otp (chip b) a.
Proof.
  induction n as [|n IH]; intros b i src Hb Hboot Hlen Hsrc Hi Hmax Hblank; cbn [program_pages].
  { exists b. split; [done|]. split; [done|]. intros a. destruct (Z.leb_spec i a), (Z.ltb_spec a (i + 128 * Z.of_nat 0)); cbn [andb]; done || lia. }
  destruct (Nat.ltb_spec (length src) 128); [lia|]. set (page := take 128 src). set (rest := drop 128 src).
  assert (Hpage : length page = 128%nat) by (unfold page; rewrite length_take; lia).
  assert (Hrest : length rest = (128 * n)%nat) by (unfold rest; rewrite length_drop; lia).
  assert (Esrc : src = page ++ rest) by (symmetry; apply take_drop).
  destruct (page_code_zeros page) as [z Ez]. set (code := page_code page) in *.
  assert (Hz : (length code + z = 128)%nat) by (rewrite <- Hpage, Ez, length_app, length_replicate; lia).
  assert (Hpb : Forall (fun v => 0 <= v < 256) page) by (by apply Forall_take).
  assert (Hrb : Forall (fun v => 0 <= v < 256) rest) by (by apply Forall_drop).
  assert (Hcb : Forall (fun v => 0 <= v < 256) code) by (rewrite Ez in Hpb; by apply Forall_app in Hpb as [? _]).
  (* the page's content, cell by cell *)
  assert (Hcell : forall k, (k < 128)%nat -> src !!! k = if (k <? length code)%nat then code !!! k else 0).
  { intros k Hk. rewrite Esrc, lookup_total_app_l by lia. rewrite Ez. destruct (Nat.ltb_spec k (length code)).
    - by rewrite lookup_total_app_l by done.
    - rewrite lookup_total_app_r by done. apply lookup_total_replicate_2. lia. }
  assert (Hnext : forall k, (128 <= k < 128 * S n)%nat -> src !!! k = rest !!! (k - 128)%nat).
  { intros k Hk. rewrite Esrc, lookup_total_app_r by lia. by rewrite Hpage. }
  assert (Hstep : exists b1, no_faults b1 /\ booted (chip b1) /\
    (forall a, otp (chip b1) a = if (i <=? a) && (a <? i + Z.of_nat (length code)) then code !!! Z.to_nat (a - i) else otp (chip b) a) /\
    (if (length code =? 0)%nat then program_pages n b (i + 128) rest
     else let '(b, rc) := write_seq b 0x400 (packet (u16 i) code) in
          if negb (rc =? 0) then Ret (b, false) else
          let '(b, rc) := p922x_write b 0x400 1 in
          if negb (rc =? 0) then Ret (b, false) else
          let '(b, status) := poll_status 6 b 0 in
          if negb (status =? 2) then Ret (b, false) else program_pages n b (i + 128) rest) = program_pages n b1 (i + 128) rest).
  { destruct (Nat.eqb_spec (length code) 0) as [E0|E0].
    - exists b. split; [done|]. split; [done|]. split; [|done]. intros a. rewrite E0.
      destruct (Z.leb_spec i a), (Z.ltb_spec a (i + Z.of_nat 0)); cbn [andb]; done || lia.
    - rewrite u16_id by lia. destruct (page_ok b i code Hb Hboot) as (c1 & c & E1 & E2 & E3 & B1 & B2);
        [lia|done|lia|intros; apply Hblank; lia|].
      exists (mkBus c []). split; [done|]. split; [done|]. split; [exact B2|]. rewrite E1. cbn [Z.eqb negb]. rewrite E2.
      cbn [Z.eqb negb]. rewrite E3. done. }
  destruct Hstep as (b1 & F1 & B1 & O1 & ->).
  destruct (IH b1 (i + 128) rest F1 B1 Hrest Hrb ltac:(lia) ltac:(lia)) as (b' & E & F' & O').
  { intros a Ha. rewrite O1. destruct (Z.ltb_spec a (i + Z.of_nat (length code))); [lia|]. rewrite andb_false_r. apply Hblank. lia. }
  exists b'. split; [exact E|]. split; [exact F'|]. intros a. rewrite O', O1.
  destruct (Z.leb_spec (i + 128) a), (Z.ltb_spec a (i + 128 + 128 * Z.of_nat n)), (Z.leb_spec i a),
    (Z.ltb_spec a (i + 128 * Z.of_nat (S n))), (Z.ltb_spec a (i + Z.of_nat (length code))); try lia; cbn [andb]; try done.
  - rewrite Hnext by lia. f_equal. lia.
  - rewrite Hcell by lia. destruct (Nat.ltb_spec (Z.to_nat (a - i)) (length code)); [done|lia].
  - rewrite Hcell by lia. destruct (Nat.ltb_spec (Z.to_nat (a - i)) (length code)); [lia|]. apply Hblank. lia.
Qed.
End Otp.

Section Buffers.
Context {C : Type} `{Chip C}.

Lemma chip_bytes_app n m : forall (c : C) a, chip_bytes c a (n + m) = chip_bytes c a n ++ chip_bytes c (a + Z.of_nat n) m.
Proof.
  induction n as [|n IH]; intros c a; cbn [Nat.add chip_bytes app]; [by rewrite Z.add_0_r|]. rewrite IH. do 3 f_equal. lia.
Qed.
Lemma chip_fill_app l l' : forall (c : C) a, chip_fill c a (l ++ l') = chip_fill (chip_fill c a l) (a + Z.of_nat (length l)) l'.
Proof.
  induction l as [|v l IH]; intros c a; cbn [app chip_fill length]; [by rewrite Z.add_0_r|]. rewrite IH. f_equal. lia.
Qed.

Lemma chunk_range size : 0 < size -> 0 < chunk size <= size /\ chunk size <= 255 /\ (size <= 255 -> chunk size = size).
Proof.
  intros Hs. unfold chunk, I2C_BYTES_MAX. pose proof (Z.div_mod size 255 ltac:(lia)). pose proof (Z.mod_pos_bound size 255 ltac:(lia)).
  destruct (Z.eqb_spec (size / 255) 0) as [E|E]; cbn [negb]; [lia|].
  assert (0 < size / 255) by (pose proof (Z.div_pos size 255); lia). lia.
Qed.

(** A buffer written in chunks is written whole. *)
Lemma write_chunks_ok rounds : forall (b : bus C) reg data, no_faults b -> (length data <= rounds)%nat -> data <> [] ->
  write_chunks rounds b reg data = (mkBus (chip_fill (chip b) reg data) [], 0).
Proof.
  induction rounds as [|rounds IH]; intros b reg data Hb Hr Hne; [destruct data; [done|cbn in Hr; lia]|].
  assert (Hpos : 0 < Z.of_nat (length data)) by (destruct data; [done|cbn; lia]).
  destruct (chunk_range _ Hpos) as (Hc1 & _ & _). cbn [write_chunks]. unfold regmap_bulk_write.
  destruct (next_fault_none b Hb) as [E1 E2]. rewrite E1, E2. cbn [Z.eqb negb].
  set (n := Z.to_nat (chunk (Z.of_nat (length data)))).
  destruct (Z.ltb_spec 0 (Z.of_nat (length data) - chunk (Z.of_nat (length data)))) as [Hl|Hl].
  - rewrite IH; [|done|rewrite length_drop; lia|intros E; apply (f_equal length) in E; rewrite length_drop in E; cbn in E; lia].
    cbn [chip].
    replace (chip_fill (chip b) reg data) with (chip_fill (chip b) reg (take n data ++ drop n data)) by (by rewrite take_drop).
    rewrite chip_fill_app, length_take. do 3 f_equal. lia.
  - rewrite take_ge by lia. done.
Qed.
Lemma write_buffer_ok (b : bus C) reg data : no_faults b -> data <> [] ->
  p922x_write_buffer b reg data = (mkBus (chip_fill (chip b) reg data) [], 0).
Proof. intros Hb Hne. by apply write_chunks_ok. Qed.

(** A buffer that fits a transfer is read by one. *)
Lemma read_buffer_short (b b' : bus C) reg n data : (0 < n <= 255)%nat ->
  p922x_read_buffer b reg (Z.of_nat n) = (b', 0, data) -> next_fault b <> Some 0 -> chip b' = chip b /\ data = chip_bytes (chip b) reg n.
Proof.
  intros Hn. unfold p922x_read_buffer. rewrite Nat2Z.id. destruct n as [|n]; [lia|]. cbn [read_chunks].
  destruct (chunk_range (Z.of_nat (S n))) as (_ & _ & E); [lia|]. rewrite E by lia. rewrite Nat2Z.id. unfold regmap_bulk_read.
  cbn [Nat.eqb]. destruct (next_fault b); [intros [= _ ->]; done|]. rewrite Z.sub_diag. cbn [Z.ltb Z.compare]. by intros [= <- <-].
Qed.
Lemma read_buffer_ok (b : bus C) reg n : (0 < n <= 255)%nat -> no_faults b ->
  p922x_read_buffer b reg (Z.of_nat n) = (mkBus (chip b) [], 0, chip_bytes (chip b) reg n).
Proof.
  intros Hn Hb. unfold p922x_read_buffer. rewrite Nat2Z.id. destruct n as [|n]; [lia|]. cbn [read_chunks].
  destruct (chunk_range (Z.of_nat (S n))) as (_ & _ & E); [lia|]. rewrite E by lia. rewrite Nat2Z.id. unfold regmap_bulk_read.
  destruct (next_fault_none b Hb) as [E1 E2]. rewrite E1, E2. cbn [Nat.eqb]. rewrite Z.sub_diag. done.
Qed.

(** Failed transfers report an error, never 0. *)
Definition errors_nonzero (b : bus C) : Prop := Forall (fun f => f <> Some 0) (faults b).
Lemma next_fault_nonzero (b : bus C) : errors_nonzero b -> next_fault b <> Some 0 /\ forall c, errors_nonzero (after b c).
Proof.
  intros Hb. unfold next_fault, after, errors_nonzero in *. destruct (faults b) as [|f l]; [by split|].
  apply list.Forall_cons in Hb as [Hf Hl]. split; [by destruct f|intros c; exact Hl].
Qed.
Lemma write_nonzero (b : bus C) a v : errors_nonzero b -> errors_nonzero (p922x_write b a v).1.
Proof. intros Hb. unfold p922x_write. destruct (next_fault b); by apply next_fault_nonzero. Qed.
Lemma read_nonzero (b : bus C) a : errors_nonzero b -> errors_nonzero (p922x_read b a).1.
Proof. intros Hb. unfold p922x_read. destruct (next_fault b); by apply next_fault_nonzero. Qed.
Lemma write_chunks_nonzero rounds : forall (b : bus C) reg data, errors_nonzero b -> errors_nonzero (write_chunks rounds b reg data).1.
Proof.
  induction rounds as [|rounds IH]; intros b reg data Hb; cbn [write_chunks]; unfold regmap_bulk_write;
    destruct (next_fault b) as [e|]; cbn [fst]; destruct (negb _); try (by apply next_fault_nonzero);
    destruct (0 <? _); try (by apply next_fault_nonzero); apply IH; by apply next_fault_nonzero.
Qed.
Lemma read_chunks_nonzero rounds : forall (b : bus C) reg size, errors_nonzero b -> errors_nonzero (read_chunks rounds b reg size).1.1.
Proof.
  induction rounds as [|rounds IH]; intros b reg size Hb; cbn [read_chunks]; unfold regmap_bulk_read; destruct (_ =? 0)%nat; try done;
    destruct (next_fault b) as [e|]; cbn [fst]; try (by apply next_fault_nonzero);
    destruct (0 <? _); cbn [fst]; try (by apply next_fault_nonzero).
  specialize (IH (after b (chip b)) (reg + chunk size) (size - chunk size)). destruct (read_chunks rounds _ _ _) as [[? ?] ?].
  cbn [fst] in *. apply IH. by apply next_fault_nonzero.
Qed.

Definition compare_size (src : list Z) : nat :=
  Z.to_nat (if negb (Z.of_nat (length src) / READ_BUF_LENGTH =? 0) then READ_BUF_LENGTH else Z.of_nat (length src) mod READ_BUF_LENGTH).
Lemma compare_size_range src : src <> [] -> (0 < compare_size src <= length src)%nat /\ (compare_size src <= 255)%nat.
Proof.
  intros Hne. destruct (chunk_range (Z.of_nat (length src))) as (H1 & H2 & _); [destruct src; [done|cbn; lia]|].
  change (compare_size src) with (Z.to_nat (chunk (Z.of_nat (length src)))). lia.
Qed.

(** The comparison answers yes only for what the chip holds. *)
Lemma compare_true rounds : forall (b b' : bus C) reg src, errors_nonzero b -> (length src <= rounds)%nat -> src <> [] ->
  compare_chunks rounds b reg src = (b', true) -> chip b' = chip b /\ chip_bytes (chip b) reg (length src) = src.
Proof.
  induction rounds as [|rounds IH]; intros b b' reg src Hb Hr Hne; [destruct src; [done|cbn in Hr; lia]|]. cbn [compare_chunks]. fold (compare_size src).
  destruct (compare_size_range src Hne) as [Hn1 Hn2]. set (n := compare_size src) in *.
  pose proof (read_chunks_nonzero (Z.to_nat (Z.of_nat n)) b reg (Z.of_nat n) Hb) as Hb1.
  destruct (p922x_read_buffer b reg (Z.of_nat n)) as [[b1 ret] data] eqn:Er. unfold p922x_read_buffer in Er. rewrite Er in Hb1. cbn [fst] in Hb1.
  destruct (Z.eqb_spec ret 0) as [->|]; cbn [negb]; [|done]. case_bool_decide as Hd; cbn [negb]; [|done].
  destruct (read_buffer_short b b1 reg n data) as [Ec Ed]; [lia|exact Er|by apply next_fault_nonzero|]. rewrite Ed in Hd.
  destruct (Nat.ltb_spec n (length src)).
  - intros E.
    assert (Hd1 : (length (drop n src) <= rounds)%nat) by (rewrite length_drop; lia).
    assert (Hd2 : drop n src <> []) by (intros E0; apply (f_equal length) in E0; rewrite length_drop in E0; cbn in E0; lia).
    destruct (IH b1 b' _ _ Hb1 Hd1 Hd2 E) as [E1 E2].
    split; [congruence|]. rewrite Ec in E2. rewrite length_drop in E2. replace (length src) with (n + (length src - n))%nat by lia.
    rewrite chip_bytes_app, E2, <- Hd. apply take_drop.
  - intros [= <-]. split; [done|]. rewrite take_ge in Hd by lia. rewrite Hd at 2. f_equal. lia.
Qed.
Lemma compare_nonzero rounds : forall (b : bus C) reg src, errors_nonzero b -> errors_nonzero (compare_chunks rounds b reg src).1.
Proof.
  induction rounds as [|rounds IH]; intros b reg src Hb; cbn [compare_chunks]; fold (compare_size src);
    pose proof (read_chunks_nonzero (Z.to_nat (Z.of_nat (compare_size src))) b reg (Z.of_nat (compare_size src)) Hb) as Hr;
    unfold p922x_read_buffer; destruct (read_chunks _ _ _ _) as [[b1 ret] data]; cbn [fst] in Hr;
    destruct (negb (ret =? 0)); try done; destruct (negb _); try done; destruct (_ <? _)%nat; try done.
  by apply IH.
Qed.
Lemma compare_ok rounds : forall (b : bus C) reg src, no_faults b -> (length src <= rounds)%nat -> src <> [] ->
  chip_bytes (chip b) reg (length src) = src -> compare_chunks rounds b reg src = (mkBus (chip b) [], true).
Proof.
  induction rounds as [|rounds IH]; intros b reg src Hb Hr Hne Hs; [destruct src; [done|cbn in Hr; lia]|]. cbn [compare_chunks]. fold (compare_size src).
  destruct (compare_size_range src Hne) as [Hn1 Hn2]. set (n := compare_size src) in *.
  rewrite read_buffer_ok by (done || lia). cbn [Z.eqb negb].
  replace (length src) with (n + (length src - n))%nat in Hs by lia. rewrite chip_bytes_app in Hs.
  assert (Ht : take n src = chip_bytes (chip b) reg n) by (rewrite <- Hs, take_app_length' by (by rewrite length_chip_bytes); done).
  assert (Hdr : drop n src = chip_bytes (chip b) (reg + Z.of_nat n) (length src - n))
    by (rewrite <- Hs at 1; rewrite drop_app_length' by (by rewrite length_chip_bytes); done).
  rewrite bool_decide_true by done. cbn [negb]. destruct (Nat.ltb_spec n (length src)); [|done].
  apply (IH (mkBus (chip b) [])); [done|rewrite length_drop; lia|intros E0; apply (f_equal length) in E0; rewrite length_drop in E0; cbn in E0; lia|].
  cbn [chip]. rewrite length_drop. by rewrite <- Hdr.
Qed.
End Buffers.

Section Sram.
Context {C : Type} `{Chip C}.

Lemma load_sram_true n : forall (b b' : bus C) src, errors_nonzero b -> src <> [] -> load_sram n b src = (b', true) ->
  errors_nonzero b' /\ chip_bytes (chip b') 0x600 (length src) = src.
Proof.
  induction n as [|n IH]; intros b b' src Hb Hne; cbn [load_sram];
    pose proof (write_chunks_nonzero (length src) b 0x600 src Hb) as Hw; unfold p922x_write_buffer;
    destruct (write_chunks _ _ _ _) as [b1 ret]; cbn [fst] in Hw; destruct (negb _); try done;
    pose proof (compare_true (length src) b1) as Hc; unfold sram_compare_fw;
    destruct (compare_chunks (length src) b1 0x600 src) as [b2 ok] eqn:E.
  all: assert (Hn2 : errors_nonzero b2) by (pose proof (compare_nonzero (length src) b1 0x600 src Hw) as Hx; by rewrite E in Hx).
  all: destruct ok; [intros [= <-]; destruct (Hc b2 _ _ Hw (Nat.le_refl _) Hne E) as [E1 E2]; split; [done|by rewrite E1]|].
  - done.
  - by apply IH.
Qed.

Context `{!SramLaws C}.

Lemma write_sram (b : bus C) a v x : a = 0x4c \/ a = 0x4e -> 0x600 <= x ->
  chip_read (chip (p922x_write b a v).1) x = chip_read (chip b) x.
Proof. intros Ha Hx. unfold p922x_write. destruct (next_fault b); cbn; [done|by apply sram_kept]. Qed.

Lemma start_sram_keeps n : forall (b : bus C) x, 0x600 <= x -> chip_read (chip (start_sram n b).1) x = chip_read (chip b) x.
Proof.
  induction n as [|n IH]; intros b x Hx; cbn [start_sram write_regs];
    pose proof (write_sram b 0x4c 0x5a x ltac:(by left) Hx) as W1; destruct (p922x_write b _ _) as [b1 r1]; cbn [fst] in W1;
    (destruct (negb (r1 =? 0)) eqn:E1; [by rewrite E1; cbn; congruence|]);
    pose proof (write_sram b1 0x4e 0x40 x ltac:(by right) Hx) as W2; destruct (p922x_write b1 _ _) as [b2 r2]; cbn [fst] in W2;
    (destruct (negb (r2 =? 0)) eqn:E2; [by rewrite E2; cbn; congruence|]); cbn [Z.eqb negb];
    unfold p922x_read, wait; (destruct (next_fault _) as [e|]; [by cbn; rewrite sram_wait, W2|]);
    (destruct (_ =? 65); [by cbn; rewrite sram_wait, W2|]).
  - cbn. by rewrite sram_wait, W2.
  - rewrite IH by done. cbn. by rewrite sram_wait, W2.
Qed.
End Sram.

(** The demonstration chip keeps the promises. *)
Section Demo.
Context (bl : list Z).

Lemma demo_plain (plain : Z -> bool) : plain 0x4d = false -> PlainMemory (H := demo_chip bl) demo plain.
Proof.
  intros Hp. constructor. intros c a v a' Ha Ha' _. cbn [chip_read chip_write demo_chip]. unfold demo_read, demo_write. cbn [dmem].
  destruct (Z.eqb_spec a' 0x4d) as [->|]; [congruence|done].
Qed.

Lemma demo_sram : SramLaws (H := demo_chip bl) demo.
Proof.
  constructor.
  - intros c a v x Ha Hx. cbn [chip_read chip_write demo_chip]. unfold demo_read, demo_write. cbn [dmem].
    destruct (Z.eqb_spec x 0x4d), (Z.eqb_spec x a); done || lia.
  - intros c x Hx. cbn [chip_read chip_wait demo_chip]. unfold demo_read, demo_wait.
    destruct (dboot c && _); [|done]. cbn [dmem]. destruct (Z.eqb_spec x 0x4d), (Z.eqb_spec x 0x400); done || lia.
Qed.

Lemma demo_start c : (length bl <= 1024)%nat -> chip_bytes (H := demo_chip bl) c 0x1c00 (length bl) = bl -> demo_read c 0x400 <> 1 ->
  let c' := demo_wait (demo_write bl (demo_write bl c 0x3048 0x80) 0x3040 0x80) in
  dboot c' = true /\ forall a, dotp c' a = dotp c a.
Proof.
  intros Hl Hb Hs c'. unfold demo_read in Hs. change (0x400 =? 0x4d) with false in Hs. cbv iota in Hs.
  subst c'. unfold demo_wait. cbn [demo_write dmem dboot dotp]. change (0x400 =? 0x3040) with false. change (0x400 =? 0x3048) with false. cbv iota.
  destruct (Z.eqb_spec (dmem c 0x400) 1); [done|]. rewrite andb_false_r. split; [|done]. cbn [demo_write dboot].
  change ((0x3040 =? 0x3040) && (0x80 =? 0x80) && _) with true. cbv iota. apply forallb_forall. intros i Hi. apply in_seq in Hi.
  cbn [dmem]. destruct (Z.eqb_spec (0x1c00 + Z.of_nat i) 0x3048); [|]. 
  - exfalso. lia.
  - apply Z.eqb_eq. pose proof (f_equal (fun l => l !!! i) Hb) as E. cbv beta in E. rewrite (bytes_lookup (H := demo_chip bl)) in E by lia.
    rewrite <- E. cbn [chip_read demo_chip]. unfold demo_read, demo_write. cbn [dmem].
    destruct (Z.eqb_spec (0x1c00 + Z.of_nat i) 0x4d), (Z.eqb_spec (0x1c00 + Z.of_nat i) 0x3048); done || lia.
Qed.

Lemma demo_program c start code : dboot c = true -> demo_read c 0x400 = 1 -> packet_in (H := demo_chip bl) c start code ->
  (0 < length code <= 128)%nat -> 0 <= start < 65536 ->
  let c' := demo_wait c in
  dboot c' = true /\ demo_read c' 0x400 = 2 /\
  forall a, dotp c' a = if (start <=? a) && (a <? start + Z.of_nat (length code)) then code !!! Z.to_nat (a - start) else dotp c a.
Proof.
  intros Hb Hs Hp Hn Hst c'. unfold packet_in in Hp.
  assert (Hr : forall k, (k < 6 + length code)%nat -> dmem c (0x402 + Z.of_nat k) =
            (le_enc 2 start ++ le_enc 2 (Z.of_nat (length code)) ++ le_enc 2 (start + foldr Z.add 0 code + Z.of_nat (length code)) ++ code) !!! k).
  { intros k Hk. rewrite <- Hp, (bytes_lookup (H := demo_chip bl)) by done. cbn [chip_read demo_chip]. unfold demo_read.
    destruct (Z.eqb_spec (0x402 + Z.of_nat k) 0x4d); [lia|done]. }
  assert (E : dmem c 0x402 + 256 * dmem c 0x403 = start /\ dmem c 0x404 + 256 * dmem c 0x405 = Z.of_nat (length code)).
  { assert (H0 : dmem c 0x402 = start mod 256) by exact (Hr 0%nat ltac:(lia)).
    assert (H1 : dmem c 0x403 = (start / 256) mod 256) by exact (Hr 1%nat ltac:(lia)).
    assert (H2 : dmem c 0x404 = Z.of_nat (length code) mod 256) by exact (Hr 2%nat ltac:(lia)).
    assert (H3 : dmem c 0x405 = (Z.of_nat (length code) / 256) mod 256) by exact (Hr 3%nat ltac:(lia)).
    rewrite H0, H1, H2, H3. split; Z.div_mod_to_equations; lia. }
  destruct E as [E1 E2]. unfold demo_read in Hs. change (0x400 =? 0x4d) with false in Hs. cbv iota in Hs.
  subst c'. unfold demo_wait. rewrite Hb, Hs, E1, E2. cbn [andb]. change (1 =? 1) with true. cbv iota. split_and!; [done|done|].
  intros a. cbn [dotp]. destruct (Z.leb_spec start a), (Z.ltb_spec a (start + Z.of_nat (length code))); cbn [andb]; try done.
  replace (0x408 + (a - start)) with (0x402 + Z.of_nat (6 + Z.to_nat (a - start))) by lia. rewrite Hr by lia. done.
Qed.
End Demo.

Program Definition demo_loader (bl : list Z) (Hbl : (length bl <= 1024)%nat /\ Forall (fun v => 0 <= v < 256) bl) :
    BootLoader (H := demo_chip bl) demo bl := {|
  otp := dotp; booted c := dboot c = true; bl_plain := demo_plain bl cells eq_refl; bl_size := Hbl |}.
Next Obligation. done. Qed.
Next Obligation.
  intros bl Hbl c a v a' Ha Ha'. cbn [chip_read chip_write demo_chip]. unfold demo_read, demo_write. cbn [dmem].
  destruct (Z.eqb_spec a' a) as [->|]; [|].
  - exfalso. unfold control_reg in Ha. rewrite !orb_true_iff, !Z.eqb_eq in Ha. by destruct Ha as [[->| ->]| ->].
  - destruct (Z.eqb_spec a' 0x4d) as [->|]; done.
Qed.
Next Obligation.
  intros bl Hbl c a v Ha Hc. cbn [chip_write demo_chip]. unfold demo_write. cbn [dboot].
  unfold buffer_cell in Ha. destruct (Z.eqb_spec a 0x3040) as [->|]; done.
Qed.
Next Obligation. intros bl [Hl Hbl] c Hc Hs. by apply demo_start. Qed.
Next Obligation. intros bl Hbl c start code Hb Hs Hp Hn Hst _. by apply (demo_program bl). Qed.

(** ** Theorems *)

Section OtpTheorems.
Context {C : Type} `{Chip C} (bootloader : list Z).

(** Pages that take more than the array has never come to success. *)
Lemma pages_overread n : forall (b b' : bus C) i src, (length src < 128 * n)%nat -> program_pages n b i src <> Ret (b', true).
Proof.
  induction n as [|n IH]; intros b b' i src Hl; [lia|]. cbn [program_pages].
  destruct (Nat.ltb_spec (length src) 128); [done|].
  assert (Hd : (length (drop 128 src) < 128 * n)%nat) by (rewrite length_drop; lia).
  destruct (_ =? 0)%nat; [by apply IH|]. destruct (write_seq _ _ _) as [b1 rc]. destruct (negb _); [done|].
  destruct (p922x_write _ _ _) as [b2 rc2]. destruct (negb _); [done|]. destruct (poll_status _ _ _) as [b3 st].
  destruct (negb _); [done|by apply IH].
Qed.

(** C11. The one-time-programmable memory: on a bus without failures, a chip
    whose boot loader keeps its promise and whose memory is blank there holds the
    image after the update, at its address and nowhere else, and the update
    reports success: the pages, their checksums, the pages of zeros that are
    skipped and the trailing zeros that are not sent add up. An image whose length
    is no multiple of the page (the shipped one has 9664 bytes, 75 pages and a
    half) never succeeds without reading past its end: the bytes behind the array
    would be programmed for ever. *)
Theorem otp_programs_image `{!BootLoader C bootloader} (b : bus C) dest src n :
  Forall (fun v => 0 <= v < 256) src -> 0 <= dest ->
  (length src = (128 * n)%nat -> no_faults b -> chip_read (chip b) 0x400 <> 1 -> dest + Z.of_nat (length src) <= 65536 ->
   (forall a, dest <= a < dest + Z.of_nat (length src) -> otp (chip b) a = 0) ->
   exists b', program_fw b bootloader dest src = Ret (b', true) /\
     forall a, otp (chip b') a = if (dest <=? a) && (a <? dest + Z.of_nat (length src)) then src !!! Z.to_nat (a - dest) else otp (chip b) a) /\
  (Z.of_nat (length src) mod 128 <> 0 -> forall b', program_fw b bootloader dest src <> Ret (b', true)).
Proof.
  intros Hsrc Hdest. split.
  - intros Hn Hb Hst Hmax Hblank. unfold program_fw. rewrite !read_ok by done. cbn [chip]. unfold write_regs at 1.
    rewrite !write_ok by done. cbn [Z.eqb negb chip]. destruct (bl_size (bootloader := bootloader)) as [Hbl Hbb].
    unfold program_bootloader. rewrite write_seq_ok by done. cbn [Z.eqb negb chip]. rewrite !write_ok by done. cbn [Z.eqb negb chip fst].
    change (u8 90) with 90. change (u8 16) with 16. change (u8 128) with 128.
    set (c0 := chip_write (chip_write (chip b) 12288 90) 12352 16). set (c1 := chip_fill c0 0x1c00 bootloader).
    assert (Hcl : forall k, 0x1c00 <= k < 0x1c00 + Z.of_nat (length bootloader) -> cells k = true).
    { intros k Hk. unfold cells. rewrite loader_range by lia. apply orb_true_r. }
    assert (R0 : chip_read c0 0x400 = chip_read (chip b) 0x400) by (unfold c0; by rewrite !bl_control).
    assert (R1 : chip_read c1 0x400 <> 1).
    { unfold c1. rewrite (fill_read cells) by done. destruct (Z.leb_spec 0x1c00 0x400); [lia|]. cbn [andb]. by rewrite R0. }
    destruct (bl_start c1) as [B1 B2]; [apply (fill_bytes cells); done|done|]. set (c2 := chip_wait _) in *.
    assert (O2 : forall a, otp c2 a = otp (chip b) a).
    { intros a. rewrite B2. unfold c1. rewrite (otp_fill bootloader) by done. unfold c0. by rewrite !bl_otp. }
    replace (Z.to_nat ((Z.of_nat (length src) + 127) / 128)) with n.
    2: { rewrite Hn. replace (Z.of_nat (128 * n) + 127) with (127 + Z.of_nat n * 128) by lia. rewrite Z.div_add by lia. change (127 / 128) with 0. lia. }
    destruct (pages_ok bootloader n (mkBus c2 []) dest src) as (b' & E & F & O); [done|done|done|done|done|lia| |].
    { intros a Ha. cbn [chip]. rewrite O2. apply Hblank. lia. }
    unfold wait. cbn [chip faults]. change (mkBus (chip_wait (chip_write (chip_write c1 12360 128) 12352 128)) []) with (mkBus c2 []).
    rewrite E. cbn [mbind outcome_bind negb]. unfold write_regs. rewrite write_ok by done. cbn [Z.eqb negb chip].
    rewrite write_ok by done. cbn [Z.eqb negb chip]. eexists. split; [reflexivity|]. intros a. cbn [chip].
    rewrite !bl_otp by done. rewrite O. cbn [chip]. rewrite O2. by replace (128 * Z.of_nat n) with (Z.of_nat (length src)) by lia.
  - intros Hm b' E. unfold program_fw in E. destruct (p922x_read b _) as [b1 r1]. destruct (p922x_read b1 _) as [b2 r2].
    destruct (write_regs b2 _) as [b3 r3]. destruct (negb _); [done|]. destruct (program_bootloader _ _) as [b4 r4].
    destruct (negb _); [done|]. destruct (p922x_write b4 _ _) as [b5 r5]. destruct (negb _); [done|].
    destruct (program_pages _ _ _ _) as [[b6 ok]| |] eqn:Ep; [|done..]. cbn [mbind outcome_bind] in E.
    destruct ok; [|done]. revert Ep. apply pages_overread.
    pose proof (Z.div_mod (Z.of_nat (length src)) 128 ltac:(lia)). pose proof (Z.mod_pos_bound (Z.of_nat (length src)) 128 ltac:(lia)).
    assert ((Z.of_nat (length src) + 127) / 128 = Z.of_nat (length src) / 128 + 1); [|lia].
    symmetry. apply (Z.div_unique _ _ _ (Z.of_nat (length src) mod 128 - 1)); lia.
Qed.
End OtpTheorems.

(** A page of 1, 2, ..., 20 in an image of two, behind a boot loader of four bytes. *)
Lemma otp_programs_image_witness :
  let bl := [1; 2; 3; 4] in let src := (Z.of_nat <$> seq 1 20) ++ replicate 236 0 in
  let c := mkDemo (fun _ => 0) (fun _ => 0) false in
  exists b', program_fw (H := demo_chip bl) (mkBus c []) bl 0x100 src = Ret (b', true) /\ dotp (chip b') 0x102 = 3.
Proof.
  intros bl src c.
  assert (Hbl : (length bl <= 1024)%nat /\ Forall (fun v => 0 <= v < 256) bl) by (split; [cbn; lia|by repeat constructor]).
  assert (Hsrc : Forall (fun v => 0 <= v < 256) src) by (apply (bool_decide_unpack _); vm_compute; exact I).
  pose proof (otp_programs_image (H := demo_chip bl) bl (BootLoader0 := demo_loader bl Hbl) (mkBus c []) 0x100 src 2 Hsrc ltac:(lia)) as [Hok _].
  destruct Hok as (b' & E & O); [done|done|done|cbn; lia|done|]. exists b'. split; [exact E|]. exact (O 0x102).
Defined.

Section SramTheorems.
Context {C : Type} `{Chip C} `{!SramLaws C}.

(** The SRAM: whatever transfers fail on the way, an update that reports
    success leaves the firmware in the SRAM, compared byte for byte, and marks it
    as updated; any other leaves the mark as it was. On a bus without failures, a
    chip whose SRAM is plain memory and that answers the start with 0x41 is
    updated at the first try. *)
Theorem sram_success_means_loaded (b b' : bus C) d d' src ok :
  errors_nonzero b -> src <> [] ->
  (sram_program_fw b d src = (b', d', ok) ->
   if ok then chip_bytes (chip b') 0x600 (length src) = src /\ is_sram_updated d' = true else d' = d) /\
  (no_faults b -> PlainMemory C (fun a => (0x600 <=? a) && (a <? 0x600 + Z.of_nat (length src))) ->
   Forall (fun v => 0 <= v < 256) src ->
   (forall c, chip_read (chip_wait (chip_write (chip_write c 0x4c 0x5a) 0x4e 0x40)) 0x4d = 0x41) ->
   (sram_program_fw b d src).2 = true).
Proof.
  intros He Hne. split.
  - unfold sram_program_fw. destruct (load_sram _ b src) as [b1 ok1] eqn:E1. destruct ok1; cbn [negb]; [|by intros [= _ <- <-]].
    destruct (load_sram_true _ b b1 src He Hne E1) as [_ H1].
    pose proof (fun x Hx => start_sram_keeps SRAM_PROGRAM_RETRY b1 x Hx) as Hk.
    destruct (start_sram _ b1) as [b2 ok2]. cbn [fst] in Hk. destruct ok2; cbn [negb]; [|by intros [= _ <- <-]].
    intros [= <- <- <-]. split; [|done]. apply bytes_of. intros k Hlt. rewrite Hk by lia.
    rewrite <- (bytes_lookup (length src)) by done. by rewrite H1.
  - intros Hf Hp Hb Hready. unfold sram_program_fw, SRAM_PROGRAM_RETRY. cbn [load_sram]. rewrite write_buffer_ok by done.
    cbn [Z.eqb negb]. unfold sram_compare_fw. rewrite compare_ok; [|done|lia|done|].
    2: { apply (fill_bytes (fun a => (0x600 <=? a) && (a <? 0x600 + Z.of_nat (length src)))); [|done].
         intros k Hk. destruct (Z.leb_spec 0x600 k), (Z.ltb_spec k (0x600 + Z.of_nat (length src))); done || lia. }
    cbn [negb start_sram write_regs]. rewrite write_ok by done. cbn [Z.eqb negb chip]. rewrite write_ok by done. cbn [Z.eqb negb chip].
    rewrite read_ok by done. cbn [wait chip]. change (u8 90) with 90. change (u8 64) with 64. rewrite Hready. done.
Qed.
End SramTheorems.

(** Three bytes, with a comparison that cannot be read at first. *)
Lemma sram_success_means_loaded_witness :
  let c := mkDemo (fun _ => 0) (fun _ => 0) false in
  (exists b' d', sram_program_fw (H := demo_chip []) (mkBus c [None; Some (-5)]) cal_data [7; 8; 9] = (b', d', true) /\
     chip_bytes (H := demo_chip []) (chip b') 0x600 3 = [7; 8; 9] /\ is_sram_updated d' = true) /\
  (sram_program_fw (H := demo_chip []) (mkBus c []) cal_data [7; 8; 9]).2 = true.
Proof.
  intros c. split.
  - destruct (sram_program_fw (H := demo_chip []) (mkBus c [None; Some (-5)]) cal_data [7; 8; 9]) as [[b' d'] ok] eqn:E.
    assert (Hok : ok = true) by (apply (f_equal snd) in E; vm_compute in E; by subst). subst ok. exists b', d'. split; [done|].
    apply (sram_success_means_loaded (H := demo_chip []) (SramLaws0 := demo_sram []) (mkBus c [None; Some (-5)]) b' cal_data d' [7; 8; 9] true);
      [by repeat constructor|done|exact E].
  - apply (sram_success_means_loaded (H := demo_chip []) (SramLaws0 := demo_sram []) (mkBus c []) (mkBus c []) cal_data cal_data [7; 8; 9] true);
      [constructor|done|done|apply demo_plain; done|by repeat constructor|]. intros c'.
    cbn [chip_read chip_write chip_wait demo_chip]. unfold demo_read, demo_wait. destruct (dboot _ && _); done.
Defined.
