(* ===== verification/P922xCal.v ===== *)
(** * The wireless receiver: temperature, calibration, register attributes

    What holds of the binary search over the temperature table, of the current
    calibration from the identity data to the chip, and of the register
    attributes of [P922x]. *)

From Stdlib Require Import String.
From stdpp Require Import base tactics numbers list gmap option.
From S2P Require Import Prelude Kstrtox Printf P922x.

(** ** Specification *)

(** Hexadecimal text of bytes; the words of the calibration, low byte first. *)
Fixpoint hex_text (l : list Z) : list Z :=
  match l with
  | [] => []
  | b :: l => pct_02x b ++ hex_text l
  end.
Fixpoint word_bytes (ws : list Z) : list Z :=
  match ws with
  | [] => []
  | w :: ws => le_enc 2 (u16 w) ++ word_bytes ws
  end.

(** The registers in the order of the identity data. *)
Definition cal_addrs : list Z := [0x12; 0x14; 0x16; 0x18; 0x1A; 0x0A; 0x28; 0x42; 0x64; 0x66; 0x0c; 0x0e; 0x2c; 0x2e].
Definition updated_dev : p922x_dev :=
  mkDev (threshold cal_data) (gain cal_data) (offset cal_data) false true 0 0.

(** Registers of two bytes that do not overlap. *)
Fixpoint apart (l : list Z) : bool :=
  match l with
  | [] => true
  | a :: l => forallb (fun x => 2 <=? Z.abs (x - a)) l && apart l
  end.
Fixpoint words_fill {C} `{Chip C} (c : C) (l : list (Z * Z)) : C :=
  match l with
  | [] => c
  | (a, v) :: l => words_fill (chip_fill c a (le_enc 2 (u16 v))) l
  end.

Definition register (a : Z) : bool := (0 <=? a) && (a <? 0x80).

(** A chip that is memory. *)
Definition ram_chip : Chip (Z -> Z) := {|
  chip_read := fun c a => c a; chip_write := fun c a v x => if x =? a then v else c x; chip_wait := fun c => c |}.

(** The voltage of an entry of the table. *)
Definition volt_at (table : list (Z * Z)) (i : Z) : Z := (table !!! Z.to_nat i).2.
Definition falling (table : list (Z * Z)) : Prop :=
  forall i j, 0 <= i < j -> j < Z.of_nat (length table) -> volt_at table j < volt_at table i.

(** Tokens joined with blanks. *)
Fixpoint join (ts : list (list Z)) : list Z :=
  match ts with
  | [] => []
  | [t] => t
  | t :: ts => t ++ 32 :: join ts
  end.
Definition token (t : list Z) : Prop := t <> [] /\ Forall (fun c => c <> 32) t.

(** ** Lemmas *)

Lemma ram_plain plain : PlainMemory (H := ram_chip) (Z -> Z) plain.
Proof. by constructor. Qed.

Lemma search_spec table volt : falling table -> forall rounds low mid high,
  0 <= low <= high + 1 -> high < Z.of_nat (length table) -> high - low < Z.of_nat rounds ->
  (forall j, 0 <= j < low -> volt < volt_at table j) ->
  (forall j, high < j < Z.of_nat (length table) -> volt_at table j < volt) ->
  (low <= high \/ (mid = high \/ mid = low) /\ 0 <= mid < Z.of_nat (length table)) ->
  exists m, ntc_search table rounds volt low mid high = Some m /\ 0 <= m < Z.of_nat (length table) /\
    forall j, 0 <= j < Z.of_nat (length table) -> (j < m -> volt < volt_at table j) /\ (m < j -> volt_at table j < volt).
Proof.
  intros Hf. induction rounds as [|rounds IH]; intros low mid high Hl Hh Hr Hlo Hhi Hm; cbn [ntc_search].
  { destruct (Z.leb_spec low high); [lia|]. cbn [negb]. destruct Hm as [|[Hm Hm']]; [lia|]. exists mid. split; [done|]. split; [done|].
    intros j Hj. split; intros Hjm; [apply Hlo|apply Hhi]; lia. }
  destruct (Z.leb_spec low high) as [Hlh|Hlh]; cbn [negb].
  2: { destruct Hm as [|[Hm Hm']]; [lia|]. exists mid. split; [done|]. split; [done|].
       intros j Hj. split; intros Hjm; [apply Hlo|apply Hhi]; lia. }
  rewrite Z.quot_div_nonneg by lia. set (m := (low + high) / 2).
  assert (Hmr : low <= m <= high).
  { unfold m. split; [apply Z.div_le_lower_bound; lia|apply Z.div_le_upper_bound; lia]. }
  fold (volt_at table m). destruct (Z.ltb_spec (volt_at table m) volt) as [Hv|Hv].
  - apply IH; [lia|lia|lia|exact Hlo| |].
    + intros j Hj. destruct (Z.eq_dec j m) as [->|Hne]; [done|]. etransitivity; [|exact Hv]. apply Hf; lia.
    + destruct (Z.le_gt_cases low (m - 1)); [by left|right]. lia.
  - destruct (Z.ltb_spec volt (volt_at table m)) as [Hv'|Hv'].
    + apply IH; [lia|lia|lia| |exact Hhi|].
      * intros j Hj. destruct (Z.eq_dec j m) as [->|Hne]; [done|]. etransitivity; [exact Hv'|]. apply Hf; lia.
      * destruct (Z.le_gt_cases (m + 1) high); [by left|right]. lia.
    + exists m. split; [done|]. split; [lia|]. intros j Hj. assert (E : volt = volt_at table m) by lia. rewrite E.
      split; intros Hjm; apply Hf; lia.
Qed.

Lemma table_falling : falling ntc_temperature_table.
Proof.
  assert (Hc : forallb (fun i => forallb (fun j => negb (i <? j)%nat || (volt_at ntc_temperature_table (Z.of_nat j) <? volt_at ntc_temperature_table (Z.of_nat i)))
            (seq 0 166)) (seq 0 166) = true) by (vm_compute; reflexivity).
  intros i j Hi Hj. change (Z.of_nat (length ntc_temperature_table)) with 166 in Hj. rewrite forallb_forall in Hc.
  specialize (Hc (Z.to_nat i) ltac:(apply in_seq; lia)). rewrite forallb_forall in Hc.
  specialize (Hc (Z.to_nat j) ltac:(apply in_seq; lia)). rewrite !Z2Nat.id in Hc by lia.
  destruct (Nat.ltb_spec (Z.to_nat i) (Z.to_nat j)); [|lia]. cbn [negb orb] in Hc. by apply Z.ltb_lt in Hc.
Qed.

Lemma table_entry i : 0 <= i < 166 -> (ntc_temperature_table !!! Z.to_nat i).1 = i - 40.
Proof.
  intros Hi. unfold ntc_temperature_table.
  destruct (lookup_lt_is_Some_2 ntc_voltages (Z.to_nat i)) as [v Hv]; [change (length ntc_voltages) with 166%nat; lia|].
  rewrite (list_lookup_total_correct _ _ (Z.of_nat (Z.to_nat i) - 40, v)) by (by rewrite list_lookup_imap, Hv). cbn. lia.
Qed.

(** Hexadecimal digits. *)
Lemma castChar_hex d : 0 <= d < 16 -> castChar (hex_digit d) = d.
Proof. intros Hd. unfold castChar, hex_digit. zcases; cbn [andb]; try lia. Qed.

Lemma hex_bytes_text l : Forall (fun b => 0 <= b < 256) l -> hex_bytes (hex_text l) = s8 <$> l.
Proof.
  induction 1 as [|b l Hb _ IH]; [done|]. cbn [hex_text pct_02x app hex_bytes].
  assert (Hd : 0 <= b / 16 < 16) by (split; [apply Z.div_pos; lia|apply Z.div_lt_upper_bound; lia]).
  assert (Hm : 0 <= b mod 16 < 16) by (apply Z.mod_pos_bound; lia). rewrite !castChar_hex by done.
  rewrite IH. cbn. f_equal. rewrite lor_shiftl by (done || lia).
  change (2 ^ 4) with 16. f_equal. pose proof (Z.div_mod b 16 ltac:(lia)). lia.
Qed.

Lemma length_word_bytes ws : length (word_bytes ws) = (2 * length ws)%nat.
Proof. induction ws as [|w ws IH]; [done|]. cbn [word_bytes length]. rewrite length_app, IH, length_le_enc. lia. Qed.
Lemma word_bytes_range ws : Forall (fun b => 0 <= b < 256) (word_bytes ws).
Proof. induction ws as [|w ws IH]; [constructor|]. cbn [word_bytes]. apply Forall_app. split; [apply le_enc_bytes|done]. Qed.
Lemma length_hex_bytes_text l : Forall (fun b => 0 <= b < 256) l -> length (hex_bytes (hex_text l)) = length l.
Proof. intros Hl. by rewrite hex_bytes_text, length_fmap. Qed.

Lemma length_hex_bytes_ge n : forall l, (2 * n <= length l)%nat -> (n <= length (hex_bytes l))%nat.
Proof.
  induction n as [|n IH]; intros l Hn; [lia|]. destruct l as [|x [|y l]]; cbn [length] in Hn; try lia.
  cbn [hex_bytes length]. specialize (IH l ltac:(lia)). lia.
Qed.

Lemma cal_word_at ws : forall i w, ws !! i = Some w -> -32768 <= w < 32768 -> cal_word (s8 <$> word_bytes ws) i = w.
Proof.
  induction ws as [|x ws IH]; intros i w Hi Hw; [done|].
  destruct i as [|i].
  - injection Hi as ->. unfold cal_word. cbn [word_bytes le_enc app fmap list_fmap Nat.mul Nat.add].
    change ((s8 (u16 w mod 256) :: s8 (u16 w / 256 mod 256) :: (s8 <$> word_bytes ws)) !!! 0%nat) with (s8 (u16 w mod 256)).
    change ((s8 (u16 w mod 256) :: s8 (u16 w / 256 mod 256) :: (s8 <$> word_bytes ws)) !!! 1%nat) with (s8 (u16 w / 256 mod 256)).
    set (lo := u16 w mod 256). set (hi := u16 w / 256 mod 256).
    pose proof (wrapU_range 16 w ltac:(lia)) as Hu. change (2 ^ 16) with 65536 in Hu.
    assert (Hlo : 0 <= lo < 256) by (apply Z.mod_pos_bound; lia).
    assert (Hhi : 0 <= hi < 256) by (apply Z.mod_pos_bound; lia).
    assert (Hsum : hi * 256 + lo = u16 w).
    { unfold hi, lo. rewrite (Z.mod_small (u16 w / 256)) by (split; [apply Z.div_pos; lia|apply Z.div_lt_upper_bound; lia]).
      pose proof (Z.div_mod (u16 w) 256 ltac:(lia)). lia. }
    assert (Hand : forall b, 0 <= b < 256 -> Z.land (s8 b) 255 = b).
    { intros b Hb. change 255 with (Z.ones 8). rewrite Z.land_ones by lia. unfold s8, wrapS. change (2 ^ (8 - 1)) with 128. change (2 ^ 8) with 256.
      rewrite Zminus_mod_idemp_l. rewrite <- (Z.mod_small b 256) at 2 by lia. f_equal. lia. }
    rewrite Hand, Z.lor_comm, lor_shiftl by lia. change (2 ^ 8) with 256.
    assert (E : s16 (s8 hi * 256 + lo) = s16 (u16 w)).
    { change (s8 hi) with ((hi + 128) mod 256 - 128).
      pose proof (Z.div_mod (hi + 128) 256 ltac:(lia)). pose proof (Z.mod_pos_bound (hi + 128) 256 ltac:(lia)).
      assert (Hq : (hi + 128) / 256 = 0 \/ (hi + 128) / 256 = 1) by lia.
      unfold s16, wrapS. f_equal. rewrite <- Hsum. change (2 ^ (16 - 1)) with 32768. change (2 ^ 16) with 65536.
      destruct Hq as [Hq|Hq]; [f_equal; lia|].
      replace (((hi + 128) mod 256 - 128) * 256 + lo + 32768) with (hi * 256 + lo + 32768 + (-1) * 65536) by lia.
      apply Z.mod_add. lia. }
    etransitivity; [exact E|]. etransitivity; [apply (wrapS_wrapU 16 16 w); lia|]. apply wrapS_id; [lia|]. change (2 ^ (16 - 1)) with 32768. lia.
  - rewrite <- (IH i w Hi Hw). unfold cal_word. cbn [word_bytes le_enc app fmap list_fmap].
    replace (2 * S i)%nat with (S (S (2 * i))) by lia. replace (S (S (2 * i)) + 1)%nat with (S (S (2 * i + 1))) by lia. done.
Qed.

Section Words.
Context {C : Type} `{Chip C} (plain : Z -> bool) `{!PlainMemory C plain}.

Lemma write_words_ok l : forall b : bus C, no_faults b ->
  write_words b l = (mkBus (words_fill (chip b) l) [], 0).
Proof.
  induction l as [|[a v] l IH]; intros b Hb; cbn [write_words words_fill]; [unfold no_faults in Hb; by destruct b; cbn in *; subst|].
  rewrite write_buffer_ok by done. cbn [Z.eqb negb]. by rewrite IH.
Qed.

Lemma words_fill_other l : forall (c : C) x,
  Forall (fun p => plain p.1 = true /\ plain (p.1 + 1) = true) l -> plain x = true ->
  Forall (fun p => x <> p.1 /\ x <> p.1 + 1) l -> chip_read (words_fill c l) x = chip_read c x.
Proof.
  induction l as [|[a v] l IH]; intros c x Hp Hx Hne; [done|]. apply list.Forall_cons in Hp as [[P1 P2] Hp]. apply list.Forall_cons in Hne as [[N1 N2] Hne].
  cbn [words_fill fst] in *. rewrite IH by done. rewrite (fill_read plain); [|intros k Hk|apply le_enc_bytes|done].
  - rewrite length_le_enc. destruct (Z.leb_spec a x), (Z.ltb_spec x (a + Z.of_nat 2)); cbn [andb]; try done. lia.
  - rewrite length_le_enc in Hk. assert (k = a \/ k = a + 1) as [-> | ->] by lia; done.
Qed.

Lemma words_fill_word l : forall c : C,
  Forall (fun p => plain p.1 = true /\ plain (p.1 + 1) = true) l -> apart (l.*1) = true ->
  Forall (fun p => chip_bytes (words_fill c l) p.1 2 = le_enc 2 (u16 p.2)) l.
Proof.
  induction l as [|[a v] l IH]; intros c Hp Ha; [constructor|]. apply list.Forall_cons in Hp as [[P1 P2] Hp].
  cbn [fmap list_fmap fst apart] in Ha. apply andb_true_iff in Ha as [Ha1 Ha2]. constructor; [|by apply IH]. cbn [fst snd words_fill].
  assert (Hfar : Forall (fun p => a <> p.1 /\ a <> p.1 + 1 /\ a + 1 <> p.1 /\ a + 1 <> p.1 + 1) l).
  { apply list.Forall_forall. intros p Hin. rewrite forallb_forall in Ha1.
    specialize (Ha1 p.1 ltac:(apply list_elem_of_In, list_elem_of_fmap; eauto)). apply Z.leb_le in Ha1. lia. }
  change (chip_bytes ?c a 2) with [chip_read c a; chip_read c (a + 1)].
  rewrite !words_fill_other; [|done|done|eapply list.Forall_impl; [exact Hfar|naive_solver]..|done|done|eapply list.Forall_impl; [exact Hfar|naive_solver]].
  assert (Hc : forall k, a <= k < a + Z.of_nat (length (le_enc 2 (u16 v))) -> plain k = true).
  { intros k Hk. rewrite length_le_enc in Hk. assert (k = a \/ k = a + 1) as [-> | ->] by lia; done. }
  exact (fill_bytes plain c a _ Hc (le_enc_bytes 2 _)).
Qed.
End Words.

Section Failing.
Context {C : Type} `{Chip C}.

Lemma write_word_fault (b : bus C) a v f fs : faults b = f :: fs ->
  p922x_write_buffer b a (le_enc 2 (u16 v)) =
    match f with
    | Some e => (mkBus (chip b) fs, e)
    | None => (mkBus (chip_fill (chip b) a (le_enc 2 (u16 v))) fs, 0)
    end.
Proof.
  intros Hf. unfold p922x_write_buffer. rewrite length_le_enc. cbn [write_chunks]. rewrite length_le_enc.
  change (chunk (Z.of_nat 2)) with 2. unfold regmap_bulk_write, next_fault, after. rewrite Hf. cbn [lookup list_lookup mjoin option_join drop].
  destruct f as [e|]; [|done]. destruct (Z.eqb_spec e 0) as [->|]; done.
Qed.

(** A failure somewhere among the words. *)
Lemma write_words_fail k e l : forall b : bus C,
  e <> 0 -> (k < length l)%nat -> faults b = replicate k None ++ [Some e] ->
  exists c, write_words b l = (mkBus c [], e).
Proof.
  revert l. induction k as [|k IH]; intros l b He Hk Hf; (destruct l as [|[a v] l]; [cbn in Hk; lia|]); cbn [write_words replicate app length] in *;
    rewrite (write_word_fault b a v _ _ Hf).
  - destruct (Z.eqb_spec e 0); [done|]. by eexists.
  - cbn [Z.eqb negb]. apply (IH l _ He); [lia|done].
Qed.
End Failing.

Lemma join_token t ts : token t -> strsep (join (t :: ts)) = (t, match ts with [] => None | _ => Some (join ts) end).
Proof.
  intros [_ Ht]. destruct ts as [|t' ts]; cbn [join].
  - induction Ht as [|c t Hc _ IH]; [done|]. cbn [strsep]. destruct (Z.eqb_spec c 32); [done|]. by rewrite IH.
  - set (r := match ts with [] => t' | _ => _ end). clearbody r. induction Ht as [|c t Hc _ IH]; [done|]. cbn [app strsep].
    destruct (Z.eqb_spec c 32); [done|]. by rewrite IH.
Qed.

Lemma length_join_tail t t' ts : (length (join (t' :: ts)) < length (join (t :: t' :: ts)))%nat.
Proof. cbn [join]. rewrite length_app. cbn [length]. lia. Qed.

(** The loop over tokens that are numbers. *)
Lemma parse_join vs : forall ts rounds size acc,
  Forall2 (fun t v => token t /\ kstrtou8 t 0 = inl v) ts vs -> ts <> [] -> (length (join ts) < rounds)%nat ->
  Z.of_nat (length acc) < size ->
  let n := (Z.to_nat size - length acc)%nat in
  parse_regs rounds (Some (join ts)) size acc =
    (if (n <? length ts)%nat then Some (join (drop n ts)) else None, acc ++ take n vs, 0).
Proof.
  induction vs as [|v vs IH]; intros ts rounds size acc Hts Hne Hr Hacc n; [by apply Forall2_nil_inv_r in Hts|].
  apply Forall2_cons_inv_r in Hts as (t & ts' & [Ht Hk] & Hts & ->). destruct rounds as [|rounds]; [lia|].
  cbn [parse_regs]. destruct (Z.leb_spec size (Z.of_nat (length acc))); [lia|]. rewrite join_token by done.
  pose proof Ht as [Hn _]. destruct t as [|c t]; [done|]. rewrite Hk.
  replace n with (S (Z.to_nat size - S (length acc))) by (unfold n; lia). cbn [take drop length].
  destruct ts' as [|t' ts'].
  - apply Forall2_nil_inv_l in Hts as ->. destruct rounds; cbn [parse_regs]; destruct (Nat.ltb_spec (S (Z.to_nat size - S (length acc))) 1); try lia; by rewrite take_nil.
  - assert (Hl : length (acc ++ [v]) = S (length acc)) by (rewrite length_app; cbn; lia).
    destruct (Z.leb_spec size (Z.of_nat (length (acc ++ [v])))) as [Hd|Hd].
    + replace (Z.to_nat size - S (length acc))%nat with O by lia. cbn [Nat.ltb Nat.leb drop take].
      destruct rounds; cbn [parse_regs]; destruct (Z.leb_spec size (Z.of_nat (length (acc ++ [v])))); try lia; done.
    + rewrite IH; [|done|done|pose proof (length_join_tail (c :: t) t' ts'); lia|lia].
      rewrite Hl, <- app_assoc. cbn [app]. done.
Qed.

Lemma u16_u16 v : u16 (u16 v) = u16 v.
Proof. apply u16_id, (wrapU_range 16). lia. Qed.

(** The calibration read from the identity data. *)
Lemma get_cal_spec ws : length ws = 14%nat -> Forall (fun w => -32768 <= w < 32768) ws ->
  exists d, p922x_get_iout_cal_data updated_dev true (Some (Some (hex_text (word_bytes ws)))) = Ret (d, 0) /\
    cal_writes d = zip cal_addrs (u16 <$> ws) /\ is_cal_data_ready d = true /\ is_sram_updated d = true /\ (threshold d).*1 = [0x0c; 0x0e; 0x2c; 0x2e].
Proof.
  intros Hl Hr. unfold p922x_get_iout_cal_data, idme_get_wpc_iout_cal, hexToBytes. cbn [negb].
  rewrite length_hex_bytes_text by apply word_bytes_range. rewrite length_replicate, length_word_bytes, Hl. cbn [Nat.mul Nat.add Nat.ltb Nat.leb IOUT_CAL_IDME_SIZE mbind outcome_bind].
  rewrite drop_ge by (rewrite length_replicate; lia). rewrite app_nil_r, hex_bytes_text by apply word_bytes_range.
  assert (E : cal_word (s8 <$> word_bytes ws) <$> seq 0 14 = ws).
  { apply (list_eq_same_length _ _ 14); [done|by rewrite length_fmap|]. intros i x y Hi Hx Hy.
    rewrite list_lookup_fmap, lookup_seq_lt in Hx by done. injection Hx as <-. cbn [Nat.add].
    apply cal_word_at; [done|]. by apply (list.Forall_lookup_1 _ _ _ _ Hr Hy). }
  change IOUT_CAL_IDME_SIZE with 14%nat. rewrite E. do 14 (destruct ws as [|? ws]; [done|]). destruct ws; [|done].
  eexists. split; [reflexivity|]. done.
Qed.

Lemma cal_registers ws : length ws = 14%nat ->
  Forall (fun p : Z * Z => register p.1 = true /\ register (p.1 + 1) = true) (zip cal_addrs (u16 <$> ws)) /\ apart ((zip cal_addrs (u16 <$> ws)).*1) = true.
Proof.
  intros Hl. assert (E : (zip cal_addrs (u16 <$> ws)).*1 = cal_addrs) by (rewrite fst_zip; [done|rewrite length_fmap, Hl; cbn; lia]).
  split; [|by rewrite E]. rewrite <- (Forall_fmap fst (fun a => register a = true /\ register (a + 1) = true)), E. by repeat constructor.
Qed.

(** ** Theorems *)

(** The temperature of the receiver: for every ADC value the binary
    search ends within as many rounds as the table has entries, with a temperature
    of the table such that every colder entry has a higher voltage than the one
    measured and every warmer entry a lower one; so a voltage of the table gives
    its temperature, and any other one of its two neighbours. *)
Theorem ntc_search_ends adc :
  0 <= adc < 65536 ->
  let volt := Z.quot (2100 * adc) 4096 in
  exists t, ntc_temp_of adc = Some t /\ -40 <= t <= 125 /\
    forall i, 0 <= i < 166 -> (i - 40 < t -> volt < volt_at ntc_temperature_table i) /\ (t < i - 40 -> volt_at ntc_temperature_table i < volt).
Proof.
  intros Ha volt.
  destruct (search_spec ntc_temperature_table volt table_falling 166 0 0 165) as (m & E & Hm & Hs);
    change (Z.of_nat (length ntc_temperature_table)) with 166 in *; [lia|lia|lia|lia|lia|by left|].
  exists (m - 40). split; [|split; [lia|]].
  - unfold ntc_temp_of. change (length ntc_temperature_table) with 166%nat. change (Z.of_nat 166 - 1) with 165. fold volt. rewrite E. cbn [mbind option_bind].
    by rewrite table_entry.
  - intros i Hi. destruct (Hs i Hi) as [H1 H2]. split; intros; [apply H1|apply H2]; lia.
Qed.

Lemma ntc_search_ends_witness : exists t, ntc_temp_of 2741 = Some t /\ t = 0.
Proof.
  destruct (ntc_search_ends 2741 ltac:(lia)) as (t & E & Ht & Hs). exists t. split; [exact E|].
  pose proof (Hs 40 ltac:(lia)) as [H1 H2]. change (volt_at ntc_temperature_table 40) with 1405 in *. change (Z.quot (2100 * 2741) 4096) with 1405 in *. lia.
Defined.

(** The current calibration from the identity data to the chip: for every
    14 words, their hexadecimal text in the device tree is read, written to the
    chip's registers and found there, each word under its address, low byte first.
    A text of more than 56 digits is decoded past the end of its buffer. *)
Theorem cal_data_roundtrip {C} `{Chip C} `{!PlainMemory C register} (b : bus C) ws value :
  length ws = 14%nat -> Forall (fun w => -32768 <= w < 32768) ws -> no_faults b -> (56 < length value)%nat -> Z.Even (Z.of_nat (length value)) ->
  (exists d b', p922x_get_iout_cal_data updated_dev true (Some (Some (hex_text (word_bytes ws)))) = Ret (d, 0) /\
     p922x_update_iout_cal_data b d = (b', 0) /\
     Forall (fun p => chip_bytes (chip b') p.1 2 = le_enc 2 (u16 p.2)) (zip cal_addrs ws)) /\
  forall d, p922x_get_iout_cal_data d true (Some (Some value)) = Oops.
Proof.
  intros Hl Hr Hb Hv Hev. split.
  - destruct (get_cal_spec ws Hl Hr) as (d & E & Hw & R1 & R2 & _). destruct (cal_registers ws Hl) as [Hp Ha].
    eexists d, _. split; [exact E|]. unfold p922x_update_iout_cal_data. rewrite R1, R2, Hw. cbn [negb orb].
    rewrite write_words_ok by done. cbn [Z.eqb negb]. split; [reflexivity|]. cbn [chip].
    pose proof (words_fill_word register (zip cal_addrs (u16 <$> ws)) (chip b) Hp Ha) as Hx. set (c' := words_fill _ _) in *. clearbody c'.
    rewrite zip_with_fmap_r, (zip_with_zip (fun x z => (x, u16 z))), Forall_fmap in Hx.
    eapply list.Forall_impl; [exact Hx|]. intros [a w]. unfold compose. cbn [uncurry fst snd]. by rewrite u16_u16.
  - intros d. unfold p922x_get_iout_cal_data, idme_get_wpc_iout_cal, hexToBytes. cbn [negb]. rewrite length_replicate.
    assert (H29 : (29 <= length (hex_bytes value))%nat).
    { apply length_hex_bytes_ge. destruct Hev as [k Hk]. lia. }
    destruct (Nat.ltb_spec (2 * IOUT_CAL_IDME_SIZE) (length (hex_bytes value))); [done|]. unfold IOUT_CAL_IDME_SIZE in *. lia.
Qed.

(** The words 0, 1, ..., 13, and a text of 58 digits. *)
Lemma cal_data_roundtrip_witness :
  let c := (fun _ => 0) : Z -> Z in let ws := Z.of_nat <$> seq 0 14 in
  (exists d b', p922x_get_iout_cal_data updated_dev true (Some (Some (hex_text (word_bytes ws)))) = Ret (d, 0) /\
     p922x_update_iout_cal_data (H := ram_chip) (mkBus c []) d = (b', 0) /\
     Forall (fun p => chip_bytes (H := ram_chip) (chip b') p.1 2 = le_enc 2 (u16 p.2)) (zip cal_addrs ws)) /\
  p922x_get_iout_cal_data updated_dev true (Some (Some (replicate 58 48))) = Oops.
Proof.
  intros c ws. edestruct (cal_data_roundtrip (H := ram_chip) (PlainMemory0 := ram_plain register) (mkBus c []) ws (replicate 58 48)) as [H1 H2];
    [done|by apply (bool_decide_unpack _); vm_compute|done|cbn; lia|by exists 29|].
  split; [exact H1|apply H2].
Defined.

(** A calibration that could not be written is reported as one that was:
    if a transfer fails among the fourteen, the update masks the calibration (all
    thresholds are 0, none of it is applied) and returns the result of the
    masking, 0, and the attribute's write succeeds. *)
Theorem failed_update_reports_success {C} `{Chip C} `{!PlainMemory C register} (b : bus C) k e ws :
  length ws = 14%nat -> Forall (fun w => -32768 <= w < 32768) ws -> (k < 14)%nat -> e <> 0 -> faults b = replicate k None ++ [Some e] ->
  exists b' d, p922x_iout_cal_data_store b updated_dev true (Some (Some (hex_text (word_bytes ws)))) (str "1") = Ret (b', d, 1) /\
    Forall (fun a => chip_bytes (chip b') a 2 = [0; 0]) [0x0c; 0x0e; 0x2c; 0x2e].
Proof.
  intros Hl Hr Hk He Hf. destruct (get_cal_spec ws Hl Hr) as (d & E & Hw & R1 & R2 & Ht).
  unfold p922x_iout_cal_data_store. replace (kstrtoint (str "1") 10) with (inl 1 : Z + Z) by (vm_compute; reflexivity).
  cbn [Z.eqb]. change (1 =? 1) with true. cbv iota. rewrite E. cbn [mbind outcome_bind Z.eqb negb].
  unfold p922x_update_iout_cal_data. rewrite R1, R2, Hw. cbn [negb orb].
  destruct (write_words_fail k e (zip cal_addrs (u16 <$> ws)) b He) as [c ->]; [by rewrite length_zip, length_fmap, Hl|done|].
  destruct (Z.eqb_spec e 0); [done|]. cbn [negb]. unfold p922x_mask_iout_cal_data.
  set (l := (fun r : Z * Z => (r.1, 0)) <$> threshold d).
  assert (El : l = [(0x0c, 0); (0x0e, 0); (0x2c, 0); (0x2e, 0)]).
  { unfold l. transitivity ((fun a => (a, 0)) <$> (threshold d).*1); [by rewrite <- list_fmap_compose|by rewrite Ht]. }
  rewrite write_words_ok by done. cbn [Z.eqb negb]. eexists _, d. split; [reflexivity|]. cbn [chip]. rewrite El.
  pose proof (words_fill_word register [(0x0c, 0); (0x0e, 0); (0x2c, 0); (0x2e, 0)] c) as Hx.
  assert (Hy : Forall (fun p : Z * Z => chip_bytes (words_fill c [(0x0c, 0); (0x0e, 0); (0x2c, 0); (0x2e, 0)]) p.1 2 = le_enc 2 (u16 p.2))
                 [(0x0c, 0); (0x0e, 0); (0x2c, 0); (0x2e, 0)]) by (apply Hx; [by repeat constructor|done]).
  inversion Hy as [|? ? H1 Hy1]; subst. inversion Hy1 as [|? ? H2 Hy2]; subst. inversion Hy2 as [|? ? H3 Hy3]; subst.
  inversion Hy3 as [|? ? H4 _]; subst. by repeat constructor.
Qed.

(** The third transfer fails. *)
Lemma failed_update_reports_success_witness :
  let c := (fun _ => 0) : Z -> Z in let ws := Z.of_nat <$> seq 0 14 in
  exists b' d, p922x_iout_cal_data_store (H := ram_chip) (mkBus c [None; None; Some (-5)]) updated_dev true (Some (Some (hex_text (word_bytes ws)))) (str "1") = Ret (b', d, 1) /\
    Forall (fun a => chip_bytes (H := ram_chip) (chip b') a 2 = [0; 0]) [0x0c; 0x0e; 0x2c; 0x2e].
Proof.
  intros c ws. apply (failed_update_reports_success (H := ram_chip) (PlainMemory0 := ram_plain register) _ 2 (-5));
    [done|by apply (bool_decide_unpack _); vm_compute|lia|lia|done].
Defined.

(** The register attributes. The store parses the text by moving the
    pointer it frees at the end: it never frees its buffer. With as many numbers as the window
    has registers they are written and the buffer is lost; with more, the free is
    of an address inside the buffer; with fewer, the write is refused and the
    buffer lost. The show reads the window into 123 bytes on the stack, but the
    window's size, written through another attribute, is any byte: with more than
    123 it writes past the end. *)
Theorem register_attributes {C} `{Chip C} (b : bus C) d ts vs :
  no_faults b -> 0 < reg_size d < 256 ->
  ts <> [] -> Forall2 (fun t v => token t /\ kstrtou8 t 0 = inl v) ts vs ->
  let n := Z.to_nat (reg_size d) in
  (reg_addr d + reg_size d <= 123 ->
   p922x_reg_store b d true true (join ts) =
     if (n <? length ts)%nat then Oops
     else if (length ts <? n)%nat then Ret (b, - EINVAL, true)
     else Ret (mkBus (chip_fill (chip b) (reg_addr d) vs) [], Z.of_nat (length (join ts)), true)) /\
  (p922x_reg_show b d true = Oops <-> 123 < reg_size d) /\
  (forall buf a m, sscanf_x_x buf = Some (a, m) -> 0 <= m < 256 -> (p922x_addr_store d buf).1.(reg_size) = m).
Proof.
  intros Hb Hs Hne Hts n. split; [|split].
  - intros Hw. unfold p922x_reg_store, REG_DUMP_MAX.
    destruct (Z.ltb_spec 123 (reg_size d + reg_addr d)); [lia|]. destruct (Z.eqb_spec (reg_size d) 0); [lia|]. cbn [orb negb].
    rewrite (parse_join vs) by (done || cbn; lia). cbn [length app]. rewrite Nat.sub_0_r. fold n.
    assert (Hlen : length ts = length vs) by (by apply Forall2_length in Hts).
    rewrite length_take. destruct (Nat.ltb_spec n (length ts)).
    + destruct (negb _ || _); [done|]. by destruct (p922x_write_buffer _ _ _).
    + destruct (Nat.ltb_spec (length ts) n).
      * destruct (Z.eqb_spec (Z.of_nat (n `min` length vs)) (reg_size d)); [lia|]. done.
      * destruct (Z.eqb_spec (Z.of_nat (n `min` length vs)) (reg_size d)); [|lia]. cbn [negb orb Z.eqb].
        rewrite take_ge by lia. rewrite write_buffer_ok; [done|done|]. intros ->. by apply Forall2_length in Hts as ?; destruct ts.
  - unfold p922x_reg_show, REG_DUMP_MAX. cbn [negb]. replace (reg_size d) with (Z.of_nat n) by lia. rewrite read_buffer_ok by (done || lia).
    rewrite length_chip_bytes. destruct (Z.ltb_spec 123 (Z.of_nat n)); [done|]. cbn [Z.eqb negb]. split; [done|lia].
  - intros buf a m E Hm. unfold p922x_addr_store. rewrite E. cbn [fst reg_size]. by apply u8_id.
Qed.

(** Two registers at 0x10, written with three numbers; then a window of 200. *)
Lemma register_attributes_witness :
  let c := (fun _ => 0) : Z -> Z in
  let d n := mkDev (threshold cal_data) (gain cal_data) (offset cal_data) false true 0x10 n in
  p922x_reg_store (H := ram_chip) (mkBus c []) (d 2) true true (str "1 2 3") = Oops /\
  p922x_reg_show (H := ram_chip) (mkBus c []) (d 200) true = Oops.
Proof.
  intros c d. split.
  - destruct (register_attributes (H := ram_chip) (mkBus c []) (d 2) [str "1"; str "2"; str "3"] [1; 2; 3]) as (H1 & _ & _);
      [done|cbn; lia|done| |exact (H1 ltac:(cbn; lia))].
    repeat constructor; try (by vm_compute); done.
  - destruct (register_attributes (H := ram_chip) (mkBus c []) (d 200) [str "1"] [1]) as (_ & H2 & _);
      [done|cbn; lia|done| |by apply H2].
    repeat constructor; try (by vm_compute); done.
Defined.
