(* ===== verification/P922xFlow.v ===== *)
(** * The wireless receiver: the charging flow (idtp922x_wireless_power.c)

    What the driver does when the receiver is put on a charger and taken off:
    authentication, the choice between 5 W and 10 W, the works that watch the
    voltage and adapt the current, the locks, the interrupts and the hooks the
    charger driver calls. Each handler is one atomic step ([irq_lock] serialises
    those that take it; the works run beside it), in a monad over the state of the
    driver and of what it acts on; what the environment answers in a step is part
    of the state. The battery's power supply, whose listeners are told of changes,
    is taken to be there (the probe also accepts an error pointer for it). *)

From Stdlib Require Import String.
From stdpp Require Import base tactics numbers list gmap option countable.
From S2P Require Import Prelude Kstrtox Printf P922x.

Definition POWER_SUPPLY_TYPE_UNKNOWN : Z := 0.
Definition POWER_SUPPLY_TYPE_WIRELESS : Z := 12.
Definition POWER_SUPPLY_TYPE_WIRELESS_5W : Z := 17.
Definition POWER_SUPPLY_TYPE_WIRELESS_10W : Z := 18.
Definition REG_STATUS : Z := 0x0034.
Definition REG_INTR : Z := 0x0036.
Definition REG_CHG_STATUS : Z := 0x003A.
Definition REG_EPT : Z := 0x003B.
Definition REG_ADC_VOUT : Z := 0x003C.
Definition REG_ADC_TEMP : Z := 0x0046.
Definition REG_SS : Z := 0x004B.
Definition REG_COMMAND : Z := 0x004E.
Definition REG_PROPPKT_ADDR : Z := 0x0050.
Definition REG_INT_CLEAR : Z := 0x0056.
Definition REG_BCHEADER_ADDR : Z := 0x0058.
Definition REG_BCDATA_ADDR : Z := 0x005A.
Definition REG_CM_CAP_EN_ADDR : Z := 0x0063.
Definition REG_FOD_COEF_ADDR : Z := 0x0068.
Definition REG_FC_VOLTAGE : Z := 0x0078.
Definition DIS_CM_CAP : Z := 0x00.
Definition EN_CM_CAP : Z := 0x30.
Definition VSWITCH : Z := 0x80.
Definition CLRINT : Z := 0x20.
Definition CHARGE_STAT : Z := 0x10.
Definition SENDEOP : Z := 0x08.
Definition SEND_DEVICE_AUTH : Z := 0x04.
Definition SENDPROPP : Z := 0x01.
Definition P922X_INT_ID_AUTH_SUCCESS : Z := 0x2000.
Definition P922X_INT_ID_AUTH_FAIL : Z := 0x1000.
Definition P922X_INT_DEVICE_AUTH_SUCCESS : Z := 0x200.
Definition P922X_INT_DEVICE_AUTH_FAIL : Z := 0x100.
Definition P922X_INT_TX_DATA_RECV : Z := 0x10.
Definition P922X_INT_OV_TEMP : Z := 0x04.
Definition P922X_INT_OV_VOLT : Z := 0x02.
Definition P922X_INT_OV_CURRENT : Z := 0x01.
Definition P922X_INT_LIMIT_MASK : Z := Z.lor (Z.lor P922X_INT_OV_TEMP P922X_INT_OV_VOLT) P922X_INT_OV_CURRENT.
Definition PROPRIETARY18 : Z := 0x18.
Definition BC_ADAPTER_TYPE : Z := 0x0b.
Definition SET_VOUT_VAL : Z := 6500.
Definition EOP_OVER_TEMP : Z := 0x03.
Definition EOP_OVER_VOLT : Z := 0x04.
Definition EOP_OVER_CURRENT : Z := 0x05.
Definition FOD_COEF_PARAM_LENGTH : nat := 16.
Definition P922X_DIE_TEMP_DEFAULT : Z := -273.
Definition DOCK_ADAPTER_UNKNOWN : Z := 0.
Definition DOCK_ADAPTER_QC20 : Z := 5.
Definition DOCK_ADAPTER_QC30 : Z := 6.
Definition DOCK_ADAPTER_PD : Z := 7.
Definition IBUS_BUFFER_SIZE : nat := 6.
Definition FILTER_THRESHOLD : Z := 200.
Definition TYPE_DOCKED : Z := 7.
Definition TYPE_UNDOCKED : Z := 8.
Definition LED_CONSTANT_ON : Z := 99.
Definition LED_CONSTANT_OFF : Z := 100.
Definition WPC_COOLER_NAME : string := "wpc_bcct2".
Definition KERNEL_POWER_OFF_CHARGING_BOOT : Z := 8.
Definition LOW_POWER_OFF_CHARGING_BOOT : Z := 9.

(** ** State *)

Inductive work := PowerSwitchWork | AdaptiveWork | StepChargingWork | EPTWork | InitWork.
#[export] Instance work_eq_dec : EqDecision work.
Proof. solve_decision. Defined.
#[export] Instance work_countable : Countable work.
Proof.
  refine (inj_countable' (fun w => match w with PowerSwitchWork => 0 | AdaptiveWork => 1 | StepChargingWork => 2 | EPTWork => 3 | InitWork => 4 end)%nat
    (fun n => match n with 0 => PowerSwitchWork | 1 => AdaptiveWork | 2 => StepChargingWork | 3 => EPTWork | _ => InitWork end)%nat _).
  by intros [].
Defined.

(** The transmitter: what is known of it. *)
Record auth := mkAuth {
  tx_id_authen_status : bool; tx_dev_authen_status : bool; tx_authen_complete : bool;
  dev_auth_retry : Z; is_hv_adapter : bool; tx_adapter_type : Z; over_reason : Z }.

(** The voltage switch, with the work's static counter. *)
Record vswitch := mkSwitch {
  force_switch : bool; chr_type : Z; switch_vth_low : Z; switch_vth_high : Z; switch_detct_count : Z }.

(** The 10 W input current and what moves it: the adaptive limit (with the
    work's static average) and the step charging. *)
Record current := mkCurrent {
  wireless_10w_ua : Z; prev_input_current : Z;
  on_adaptive : bool; current_index : nat; fill_count : Z; ibus : list Z; avg : Z;
  on_step_charging : bool }.

Record status := mkStatus {
  irq_lock : bool; online : bool; is_enabled : bool; cm_cap_en : bool; ovp_en : bool;
  get_status_done : bool; sw_fod_count : Z; pg_time : Z * Z }.

(** The configuration: device tree, charger data, firmware; [voltage_low],
    [voltage_target] and [voltage_high] of a mode. *)
Record config := mkConfig {
  use_buck : bool; support_ovp_en : bool; has_algo : bool;
  switch_5w : Z * Z * Z; switch_10w : Z * Z * Z; wpc_mivr : Z * Z;
  bpp_5w_fod : list Z; bpp_5w_fod_num : Z; bpp_10w_fod : list Z; bpp_10w_fod_num : Z;
  start_soc : Z; margin : Z; max_current_limit : Z; min_current_limit : Z; adaptive_start_ma : Z;
  bpp_10w_default_input_current : Z; wireless_default_ua : Z; wireless_5w_ua : Z;
  step_start_ma : Z; step_ma : Z; step_max_ua : Z; step_load_en : bool;
  idt_sram_firmware : list Z }.

(** A cooler of the thermal zone (its name, target, state and the result of
    reading its state) and the zone: its mode, whether it has [set_mode]. *)
Record instance := mkInstance { cdev_type : string; target : Z; cur_state : Z; state_ret : Z }.
Record tzone := mkZone { tz_enabled : bool; tz_set_mode : bool; instances : list instance }.

Inductive effect :=
| PowerSupplyChanged
| BatteryChanged
| ApplySetting (wireless_10w input_limit charging_limit : Z)
| LogSignalStrength (ss : Z)
| LogReconnection (ms : Z)
| EnableIrqs
| DisableIntIrq
| SelectState (state : string)
| PowerOff.

(** What the driver acts on: the charger (power path, minimum input voltage),
    its power supply's type, the dock switch, the zone "Wireless", the works that
    are scheduled, and the rest as a log. *)
Record world := mkWorld {
  psy_type : Z; powerpath : bool; mivr : Z; dock_state : Z; zone : option tzone;
  pending : gset work; effects : list effect }.

(** What the environment answers in a step: the power-good pin's samples (the
    last one stays), the results of the power-supply calls (then 0), of the power
    path query, the readings of the bus current (then an error), the charge, the
    boot mode, the time since boot, whether the charger is set up and done, and
    the input and charging limits that the charger driver's own algorithm
    ([change_current_setting]) leaves in [chg_data], as a function of the one
    datum of its that the driver changes, the 10 W input current. *)
Record inputs := mkInputs {
  pg_gpio : list bool; psy_ret : list Z; powerpath_ret : Z; ibus_in : list (Z + Z); uisoc : Z;
  boot_mode : Z; boottime : Z; is_mtk_charger_init_done : bool; chg_done : bool;
  limits : Z -> Z * Z }.

Record flow (C : Type) := mkFlow {
  f_bus : bus C; f_dev : p922x_dev; f_auth : auth; f_sw : vswitch; f_cur : current; f_st : status;
  f_cfg : config; f_world : world; f_in : inputs }.
Arguments mkFlow {C} _ _ _ _ _ _ _ _ _.
Arguments f_bus {C} _.
Arguments f_dev {C} _.
Arguments f_auth {C} _.
Arguments f_sw {C} _.
Arguments f_cur {C} _.
Arguments f_st {C} _.
Arguments f_cfg {C} _.
Arguments f_world {C} _.
Arguments f_in {C} _.

(** Field updates. *)
Definition set_online b s := mkStatus (irq_lock s) b (is_enabled s) (cm_cap_en s) (ovp_en s) (get_status_done s) (sw_fod_count s) (pg_time s).
Definition set_irq_lock b s := mkStatus b (online s) (is_enabled s) (cm_cap_en s) (ovp_en s) (get_status_done s) (sw_fod_count s) (pg_time s).
Definition set_is_enabled b s := mkStatus (irq_lock s) (online s) b (cm_cap_en s) (ovp_en s) (get_status_done s) (sw_fod_count s) (pg_time s).
Definition set_cm_cap_en b s := mkStatus (irq_lock s) (online s) (is_enabled s) b (ovp_en s) (get_status_done s) (sw_fod_count s) (pg_time s).
Definition set_ovp_en b s := mkStatus (irq_lock s) (online s) (is_enabled s) (cm_cap_en s) b (get_status_done s) (sw_fod_count s) (pg_time s).
Definition set_status_done b s := mkStatus (irq_lock s) (online s) (is_enabled s) (cm_cap_en s) (ovp_en s) b (sw_fod_count s) (pg_time s).
Definition set_sw_fod n s := mkStatus (irq_lock s) (online s) (is_enabled s) (cm_cap_en s) (ovp_en s) (get_status_done s) n (pg_time s).
Definition set_pg_time t s := mkStatus (irq_lock s) (online s) (is_enabled s) (cm_cap_en s) (ovp_en s) (get_status_done s) (sw_fod_count s) t.

Definition set_id b a := mkAuth b (tx_dev_authen_status a) (tx_authen_complete a) (dev_auth_retry a) (is_hv_adapter a) (tx_adapter_type a) (over_reason a).
Definition set_dev_auth b a := mkAuth (tx_id_authen_status a) b (tx_authen_complete a) (dev_auth_retry a) (is_hv_adapter a) (tx_adapter_type a) (over_reason a).
Definition set_complete b a := mkAuth (tx_id_authen_status a) (tx_dev_authen_status a) b (dev_auth_retry a) (is_hv_adapter a) (tx_adapter_type a) (over_reason a).
Definition set_retry n a := mkAuth (tx_id_authen_status a) (tx_dev_authen_status a) (tx_authen_complete a) n (is_hv_adapter a) (tx_adapter_type a) (over_reason a).
Definition set_adapter hv t a := mkAuth (tx_id_authen_status a) (tx_dev_authen_status a) (tx_authen_complete a) (dev_auth_retry a) hv t (over_reason a).
Definition set_over_reason r a := mkAuth (tx_id_authen_status a) (tx_dev_authen_status a) (tx_authen_complete a) (dev_auth_retry a) (is_hv_adapter a) (tx_adapter_type a) r.

Definition set_force b w := mkSwitch b (chr_type w) (switch_vth_low w) (switch_vth_high w) (switch_detct_count w).
Definition set_chr_type t w := mkSwitch (force_switch w) t (switch_vth_low w) (switch_vth_high w) (switch_detct_count w).
Definition set_window (v : Z * Z * Z) t w := mkSwitch (force_switch w) t v.1.1 v.2 (switch_detct_count w).
Definition set_count n w := mkSwitch (force_switch w) (chr_type w) (switch_vth_low w) (switch_vth_high w) n.

Definition set_10w ua c := mkCurrent ua (prev_input_current c) (on_adaptive c) (current_index c) (fill_count c) (ibus c) (avg c) (on_step_charging c).
Definition set_prev ua c := mkCurrent (wireless_10w_ua c) ua (on_adaptive c) (current_index c) (fill_count c) (ibus c) (avg c) (on_step_charging c).
Definition set_on_adaptive b c := mkCurrent (wireless_10w_ua c) (prev_input_current c) b (current_index c) (fill_count c) (ibus c) (avg c) (on_step_charging c).
Definition set_ring i n l c := mkCurrent (wireless_10w_ua c) (prev_input_current c) (on_adaptive c) i n l (avg c) (on_step_charging c).
Definition set_avg v c := mkCurrent (wireless_10w_ua c) (prev_input_current c) (on_adaptive c) (current_index c) (fill_count c) (ibus c) v (on_step_charging c).
Definition set_on_step b c := mkCurrent (wireless_10w_ua c) (prev_input_current c) (on_adaptive c) (current_index c) (fill_count c) (ibus c) (avg c) b.

Definition set_psy_type t w := mkWorld t (powerpath w) (mivr w) (dock_state w) (zone w) (pending w) (effects w).
Definition set_powerpath b w := mkWorld (psy_type w) b (mivr w) (dock_state w) (zone w) (pending w) (effects w).
Definition set_mivr v w := mkWorld (psy_type w) (powerpath w) v (dock_state w) (zone w) (pending w) (effects w).
Definition set_dock v w := mkWorld (psy_type w) (powerpath w) (mivr w) v (zone w) (pending w) (effects w).
Definition set_zone z w := mkWorld (psy_type w) (powerpath w) (mivr w) (dock_state w) z (pending w) (effects w).
Definition set_pending p w := mkWorld (psy_type w) (powerpath w) (mivr w) (dock_state w) (zone w) p (effects w).
Definition set_effects l w := mkWorld (psy_type w) (powerpath w) (mivr w) (dock_state w) (zone w) (pending w) l.
Definition add_effect e w := set_effects (effects w ++ [e]) w.

Definition set_pg l i := mkInputs l (psy_ret i) (powerpath_ret i) (ibus_in i) (uisoc i) (boot_mode i) (boottime i) (is_mtk_charger_init_done i) (chg_done i) (limits i).
Definition set_psy_ret l i := mkInputs (pg_gpio i) l (powerpath_ret i) (ibus_in i) (uisoc i) (boot_mode i) (boottime i) (is_mtk_charger_init_done i) (chg_done i) (limits i).
Definition set_ibus_in l i := mkInputs (pg_gpio i) (psy_ret i) (powerpath_ret i) l (uisoc i) (boot_mode i) (boottime i) (is_mtk_charger_init_done i) (chg_done i) (limits i).

Definition on_bus {C} (b : bus C) (s : flow C) := mkFlow b (f_dev s) (f_auth s) (f_sw s) (f_cur s) (f_st s) (f_cfg s) (f_world s) (f_in s).
Definition on_dev {C} (d : p922x_dev) (s : flow C) := mkFlow (f_bus s) d (f_auth s) (f_sw s) (f_cur s) (f_st s) (f_cfg s) (f_world s) (f_in s).
Definition on_auth {C} (f : auth -> auth) (s : flow C) := mkFlow (f_bus s) (f_dev s) (f (f_auth s)) (f_sw s) (f_cur s) (f_st s) (f_cfg s) (f_world s) (f_in s).
Definition on_sw {C} (f : vswitch -> vswitch) (s : flow C) := mkFlow (f_bus s) (f_dev s) (f_auth s) (f (f_sw s)) (f_cur s) (f_st s) (f_cfg s) (f_world s) (f_in s).
Definition on_cur {C} (f : current -> current) (s : flow C) := mkFlow (f_bus s) (f_dev s) (f_auth s) (f_sw s) (f (f_cur s)) (f_st s) (f_cfg s) (f_world s) (f_in s).
Definition on_st {C} (f : status -> status) (s : flow C) := mkFlow (f_bus s) (f_dev s) (f_auth s) (f_sw s) (f_cur s) (f (f_st s)) (f_cfg s) (f_world s) (f_in s).
Definition on_world {C} (f : world -> world) (s : flow C) := mkFlow (f_bus s) (f_dev s) (f_auth s) (f_sw s) (f_cur s) (f_st s) (f_cfg s) (f (f_world s)) (f_in s).
Definition on_in {C} (f : inputs -> inputs) (s : flow C) := mkFlow (f_bus s) (f_dev s) (f_auth s) (f_sw s) (f_cur s) (f_st s) (f_cfg s) (f_world s) (f (f_in s)).

(** ** The monad *)

Definition M (C A : Type) : Type := flow C -> outcome (flow C * A).
#[export] Instance M_ret {C} : MRet (M C) := fun A a s => Ret (s, a).
#[export] Instance M_bind {C} : MBind (M C) := fun A B k m s => '(s, a) ← m s; k a s.

Section Handlers.
Context {C : Type} `{Chip C}.

Definition gets {A} (f : flow C -> A) : M C A := fun s => Ret (s, f s).
Definition modify (f : flow C -> flow C) : M C unit := fun s => Ret (f s, tt).
Definition when (b : bool) (m : M C unit) : M C unit := if b then m else mret tt.
(** An access to the chip. *)
Definition io {A} (f : bus C -> bus C * A) : M C A := fun s => let '(b, a) := f (f_bus s) in Ret (on_bus b s, a).
Definition log (e : effect) : M C unit := modify (on_world (add_effect e)).

Definition mutex_lock : M C unit := fun s =>
  if irq_lock (f_st s) then Blocks else Ret (on_st (set_irq_lock true) s, tt).
Definition mutex_unlock : M C unit := modify (on_st (set_irq_lock false)).

(** [schedule_delayed_work] and [cancel_delayed_work]. *)
Definition schedule (w : work) : M C unit := modify (on_world (fun x => set_pending ({[w]} ∪ pending x) x)).
Definition cancel (w : work) : M C unit := modify (on_world (fun x => set_pending (pending x ∖ {[w]}) x)).

(** ** The environment *)

Definition p922x_get_pg_irq_status : M C bool := fun s =>
  match pg_gpio (f_in s) with
  | [] => Ret (s, false)
  | [b] => Ret (s, b)
  | b :: l => Ret (on_in (set_pg l) s, b)
  end.
Definition next_psy : M C Z := fun s =>
  match psy_ret (f_in s) with
  | [] => Ret (s, 0)
  | r :: l => Ret (on_in (set_psy_ret l) s, r)
  end.
Definition power_supply_get_property : M C (Z * Z) :=
  ret ← next_psy; t ← gets (fun s => psy_type (f_world s)); mret (ret, t).
Definition power_supply_set_property (type : Z) : M C Z :=
  ret ← next_psy; when (0 <=? ret) (modify (on_world (set_psy_type type)));; mret ret.
Definition charger_dev_get_ibus : M C (Z + Z) := fun s =>
  match ibus_in (f_in s) with
  | [] => Ret (s, inr (- EINVAL))
  | r :: l => Ret (on_in (set_ibus_in l) s, r)
  end.

(** ** The chip *)

(** Two bytes over a buffer of zeros. *)
Definition read16 (reg : Z) (b : bus C) : bus C * (Z * Z) :=
  let '(b, ret, buf) := p922x_read_buffer b reg 2 in (b, (ret, le16 buf)).

Definition p922x_get_vout_adc : M C Z :=
  r ← io (read16 REG_ADC_VOUT); mret (u16 (Z.quot (s32 (r.2 * 6 * 21 * 1000)) 40950)).

Definition p922x_get_temp_adc : M C Z :=
  pg ← p922x_get_pg_irq_status;
  if negb pg then mret P922X_DIE_TEMP_DEFAULT else
  r ← io (read16 REG_ADC_TEMP);
  mret (if negb (r.1 =? 0) then P922X_DIE_TEMP_DEFAULT else Z.quot ((r.2 - 1350) * 83) 444 - 273).

Definition p922x_get_tx_signal_strength : M C Z :=
  r ← io (fun b => p922x_read b REG_SS); mret (match r with inl ss => ss | inr _ => 0 end).
Definition p922x_metrics_tx_signal_strength : M C unit :=
  ss ← p922x_get_tx_signal_strength; when (negb (ss =? 0)) (log (LogSignalStrength ss)).
Definition p922x_metrics_abnormal_reconnection : M C unit :=
  t ← gets (fun s => pg_time (f_st s));
  let disconnect_duration := t.2 - t.1 in
  when (disconnect_duration <? 5000) (log (LogReconnection disconnect_duration)).

Definition p922x_power_switch (mv : Z) : M C unit :=
  io (fun b => p922x_write_buffer b REG_FC_VOLTAGE (le_enc 2 (u16 mv)));;
  io (fun b => p922x_write b REG_COMMAND VSWITCH);; mret tt.

Definition p922x_extract_packet_size (hdr : Z) : Z :=
  if hdr <? 0x20 then 1
  else if hdr <? 0x80 then 2 + Z.shiftr (hdr - 0x20) 4
  else if hdr <? 0xe0 then 8 + Z.shiftr (hdr - 0x80) 3
  else 20 + Z.shiftr (hdr - 0xe0) 2.

(** The coefficients of a charger type, if the device tree has all 16; what is
    read back is compared for the console only. *)
Definition fod_data (cfg : config) (type : Z) : option (list Z) :=
  if (type =? POWER_SUPPLY_TYPE_WIRELESS_10W) && (bpp_10w_fod_num cfg =? 16) then Some (bpp_10w_fod cfg)
  else if ((type =? POWER_SUPPLY_TYPE_WIRELESS_5W) || (type =? POWER_SUPPLY_TYPE_WIRELESS)) && (bpp_5w_fod_num cfg =? 16)
  then Some (bpp_5w_fod cfg) else None.
Definition p922x_write_fod (type : Z) : M C unit :=
  cfg ← gets f_cfg;
  match fod_data cfg type with
  | None => mret tt
  | Some l =>
    ret ← io (fun b => p922x_write_buffer b REG_FOD_COEF_ADDR l);
    when (ret =? 0) (io (fun b => let '(b, ret, _) := p922x_read_buffer b REG_FOD_COEF_ADDR 16 in (b, ret));; mret tt)
  end.

Definition p922x_device_auth_req : M C unit := io (fun b => p922x_write b REG_COMMAND SEND_DEVICE_AUTH);; mret tt.

Definition p922x_get_tx_adapter_type : M C unit :=
  r ← io (fun b => p922x_read b REG_BCHEADER_ADDR);
  match r with
  | inr _ => mret tt
  | inl header =>
    r ← io (fun b => let '(b, ret, l) := p922x_read_buffer b REG_BCDATA_ADDR (p922x_extract_packet_size header) in (b, (ret, l)));
    if negb (r.1 =? 0) then mret tt else
    let t := (r.2 : list Z) !!! 0%nat in
    modify (on_auth (fun a => set_adapter
      (if (t =? DOCK_ADAPTER_QC20) || (t =? DOCK_ADAPTER_QC30) || (t =? DOCK_ADAPTER_PD) then true else is_hv_adapter a) t a))
  end.

(** The header tells how many bytes follow it; here the command alone. *)
Definition p922x_sendpkt (pkt : list Z) : M C unit :=
  ret ← io (fun b => p922x_write_buffer b REG_PROPPKT_ADDR (take (Z.to_nat (p922x_extract_packet_size (pkt !!! 0%nat) + 1)) pkt));
  when (ret =? 0) (io (fun b => p922x_write b REG_COMMAND SENDPROPP);; mret tt).
Definition p922x_detect_tx_adapter_type : M C unit := p922x_sendpkt [PROPRIETARY18; BC_ADAPTER_TYPE].

Definition p922x_send_eop (reason : Z) : M C Z :=
  ret ← io (fun b => p922x_write b REG_EPT reason);
  if negb (ret =? 0) then mret ret else io (fun b => p922x_write b REG_COMMAND SENDEOP).

Definition p922x_over_handle (irq_src : Z) : M C unit :=
  let reason := if negb (Z.land irq_src P922X_INT_OV_TEMP =? 0) then EOP_OVER_TEMP
                else if negb (Z.land irq_src P922X_INT_OV_VOLT =? 0) then EOP_OVER_VOLT else EOP_OVER_CURRENT in
  modify (on_auth (set_over_reason reason));; p922x_send_eop reason;; mret tt.

Definition p922x_set_cm_cap_enable (en : bool) : M C unit :=
  cur ← gets (fun s => cm_cap_en (f_st s));
  if Bool.eqb cur en then mret tt else
  modify (on_st (set_cm_cap_en en));;
  io (fun b => p922x_write b REG_CM_CAP_EN_ADDR (if en then EN_CM_CAP else DIS_CM_CAP));; mret tt.

Definition p922x_set_tx_led_mode (mode : Z) : M C unit :=
  ret ← io (fun b => p922x_write b REG_CHG_STATUS mode);
  when (ret =? 0) (io (fun b => p922x_write b REG_COMMAND CHARGE_STAT);; mret tt).

Definition p922x_set_ovp_en (en : bool) : M C Z :=
  cfg ← gets f_cfg;
  if negb (support_ovp_en cfg) then mret (- EINVAL) else
  cur ← gets (fun s => ovp_en (f_st s));
  if Bool.eqb cur en then mret 0 else
  modify (on_st (set_ovp_en en));; log (SelectState (if en then "ovp_en0" else "ovp_en1")%string);; mret 0.

(** ** Charger type and current *)

(** The power path is on for every type but UNKNOWN. *)
Definition p922x_set_charger_mivr_by_type (type : Z) : M C Z :=
  ret ← gets (fun s => powerpath_ret (f_in s));
  if ret <? 0 then mret ret else
  modify (on_world (set_powerpath (negb (type =? POWER_SUPPLY_TYPE_UNKNOWN))));;
  cfg ← gets f_cfg;
  when ((type =? POWER_SUPPLY_TYPE_WIRELESS) || (type =? POWER_SUPPLY_TYPE_WIRELESS_5W)) (modify (on_world (set_mivr (u32 (wpc_mivr cfg).1))));;
  when (type =? POWER_SUPPLY_TYPE_WIRELESS_10W) (modify (on_world (set_mivr (u32 (wpc_mivr cfg).2))));;
  mret ret.

Definition p922x_update_charge_type (type : Z) : M C Z :=
  r ← power_supply_get_property;
  let ret := r.1 in
  let intval := r.2 in
  if ret <? 0 then mret ret
  else if intval =? type then mret ret
  else
    p922x_set_charger_mivr_by_type type;;
    modify (on_sw (set_chr_type type));;
    ret ← power_supply_set_property type;
    log PowerSupplyChanged;; mret ret.

(** The input current of the charger's type, if it has one. *)
Definition input_current_of (cfg : config) (c : current) (type : Z) : option Z :=
  if type =? POWER_SUPPLY_TYPE_WIRELESS then Some (wireless_default_ua cfg)
  else if type =? POWER_SUPPLY_TYPE_WIRELESS_5W then Some (wireless_5w_ua cfg)
  else if type =? POWER_SUPPLY_TYPE_WIRELESS_10W then Some (wireless_10w_ua c)
  else None.

(** [change_current_setting] is the charger driver's: it makes its limits of its
    own data, of which this driver changes the 10 W input current; the charger is
    told what it left. *)
Definition p922x_update_current_setting : M C unit :=
  s ← gets id;
  match input_current_of (f_cfg s) (f_cur s) (chr_type (f_sw s)) with
  | None => mret tt
  | Some input_current =>
    if input_current =? prev_input_current (f_cur s) then mret tt else
    let ua := wireless_10w_ua (f_cur s) in
    let pdata := limits (f_in s) ua in
    when (has_algo (f_cfg s)) (log (ApplySetting ua pdata.1 pdata.2));;
    log BatteryChanged;; modify (on_cur (set_prev input_current))
  end.

(** ** The works *)

Definition p922x_init_adaptive_current_limit_work : M C unit :=
  modify (on_cur (set_ring 0 0 (replicate IBUS_BUFFER_SIZE 0)));; schedule AdaptiveWork.

Definition p922x_power_switch_work : M C unit :=
  cancel PowerSwitchWork;;
  vout ← p922x_get_vout_adc;
  s ← gets id;
  let w := f_sw s in
  let cfg := f_cfg s in
  if 2 <? switch_detct_count w then modify (on_sw (set_count 0))
  else if (switch_vth_low w <=? vout) && (vout <=? switch_vth_high w) then
    modify (on_sw (set_count 0));;
    when (chr_type w =? POWER_SUPPLY_TYPE_WIRELESS_10W)
      ((if start_soc cfg <=? uisoc (f_in s) then modify (on_cur (set_10w (s32 (adaptive_start_ma cfg * 1000))))
        else when (step_load_en cfg)
          (modify (on_cur (set_10w (s32 (step_start_ma cfg * 1000))));;
           modify (on_cur (set_on_step true));; schedule StepChargingWork));;
       p922x_metrics_abnormal_reconnection);;
    p922x_update_charge_type (chr_type w);;
    p922x_update_current_setting;;
    type ← gets (fun s => chr_type (f_sw s));
    p922x_write_fod type;;
    when (type =? POWER_SUPPLY_TYPE_WIRELESS_10W) p922x_init_adaptive_current_limit_work
  else
    modify (on_sw (set_count (s32 (switch_detct_count w + 1))));;
    schedule PowerSwitchWork;;
    p922x_power_switch (if chr_type w =? POWER_SUPPLY_TYPE_WIRELESS_10W then (switch_10w cfg).1.2 else (switch_5w cfg).1.2).

Definition p922x_EPT_work : M C unit :=
  pg ← p922x_get_pg_irq_status; when pg (p922x_send_eop EOP_OVER_TEMP;; mret tt).

Definition p922x_is_need_adaptive_current_limit : M C bool :=
  pg ← p922x_get_pg_irq_status;
  type ← gets (fun s => chr_type (f_sw s));
  mret (negb (negb pg || negb (type =? POWER_SUPPLY_TYPE_WIRELESS_10W))).

Definition p922x_skip_adaptive_work : M C bool :=
  s ← gets id;
  if on_adaptive (f_cur s) then mret false
  else if on_step_charging (f_cur s) then mret true
  else if start_soc (f_cfg s) <=? uisoc (f_in s) then modify (on_cur (set_on_adaptive true));; mret false
  else mret true.

(** The sum of the buffer, an int. *)
Definition sum32 (l : list Z) : Z := foldl (fun sum x => s32 (sum + x)) 0 l.
Definition clamp (lo hi t : Z) : Z :=
  let t := if hi <? t then hi else t in if t <? lo then lo else t.

(** From the first reading to the label [done]: the target, -1 if there is none.
    The index is one of the buffer (it is taken modulo its size). *)
Definition adaptive_target : M C Z :=
  r ← charger_dev_get_ibus;
  match r with
  | inr _ => mret (-1)
  | inl v =>
    let i := Z.quot v 1000 in
    c ← gets f_cur;
    let idx := current_index c in
    modify (on_cur (set_ring ((idx + 1) mod IBUS_BUFFER_SIZE)%nat (fill_count c) (<[idx := i]> (ibus c))));;
    if fill_count c <? Z.of_nat IBUS_BUFFER_SIZE - 1 then
      modify (on_cur (fun c => set_ring (current_index c) (fill_count c + 1) (ibus c) c));; mret (-1)
    else
      when (negb (avg c =? 0) && (FILTER_THRESHOLD <? Z.abs (s32 (i - avg c))))
        (r ← charger_dev_get_ibus;
         match r with
         | inl v => modify (on_cur (fun c => set_ring (current_index c) (fill_count c) (<[idx := Z.quot v 1000]> (ibus c)) c))
         | inr _ => mret tt
         end);;
      s ← gets id;
      let a := Z.quot (sum32 (ibus (f_cur s))) (Z.of_nat IBUS_BUFFER_SIZE) in
      modify (on_cur (set_avg a));;
      mret (clamp (min_current_limit (f_cfg s)) (max_current_limit (f_cfg s)) (s32 (Z.quot a 100 * 100 + margin (f_cfg s))))
  end.

Definition p922x_adaptive_current_limit_work : M C unit :=
  need ← p922x_is_need_adaptive_current_limit;
  if negb need then mret tt else
  modify (on_cur (fun c => if fill_count c =? 0 then set_avg 0 c else c));;
  skip ← p922x_skip_adaptive_work;
  target ← (if skip : bool then mret (-1) else adaptive_target);
  pg ← p922x_get_pg_irq_status;
  cfg ← gets f_cfg;
  if pg : bool then
    when (0 <? target) (modify (on_cur (set_10w (s32 (target * 1000))));; p922x_update_current_setting);;
    schedule AdaptiveWork
  else
    modify (on_cur (set_10w (s32 (adaptive_start_ma cfg * 1000))));; modify (on_cur (set_on_adaptive false)).

Definition p922x_step_charging_work : M C unit :=
  s ← gets id;
  let ua_now := wireless_10w_ua (f_cur s) in
  let ua_max := step_max_ua (f_cfg s) in
  if ua_now <? ua_max then
    let ua_target := s32 (ua_now + s32 (step_ma (f_cfg s) * 1000)) in
    modify (on_cur (set_10w (if ua_max <? ua_target then ua_max else ua_target)));;
    p922x_update_current_setting;;
    pg ← p922x_get_pg_irq_status;
    when pg (schedule StepChargingWork)
  else modify (on_cur (set_on_step false)).

(** ** Attaching and detaching *)

(** All of a session but the static counter, the average and the retries. *)
Definition p922x_clear_fast_charge_switch : M C unit :=
  cancel PowerSwitchWork;; cancel AdaptiveWork;; cancel StepChargingWork;; cancel EPTWork;;
  modify (on_auth (fun a => mkAuth false false false (dev_auth_retry a) false DOCK_ADAPTER_UNKNOWN (over_reason a)));;
  modify (on_st (set_cm_cap_en false));;
  cfg ← gets f_cfg;
  modify (on_cur (fun c => set_on_step false (set_10w (s32 (bpp_10w_default_input_current cfg * 1000)) (set_prev (-1) (set_on_adaptive false c)))));;
  modify (on_sw (fun w => set_force false (set_chr_type POWER_SUPPLY_TYPE_UNKNOWN w))).

Definition p922x_switch_set_state (set_state : Z) : M C unit := modify (on_world (set_dock set_state)).

(** The first instance of the wireless cooler. *)
Fixpoint reset_instances (l : list instance) : list instance :=
  match l with
  | [] => []
  | i :: l =>
    if String.eqb (cdev_type i) WPC_COOLER_NAME then
      (if (state_ret i =? 0) && (0 <? cur_state i) then mkInstance (cdev_type i) 0 0 (state_ret i) else i) :: l
    else i :: reset_instances l
  end.
Definition reset_wpc_cooler (tz : tzone) : tzone := mkZone (tz_enabled tz) (tz_set_mode tz) (reset_instances (instances tz)).

Definition p922x_enable_charge_flow (en : bool) : M C Z :=
  s ← gets id;
  if Bool.eqb (is_enabled (f_st s)) en then mret 0 else
  modify (on_st (set_is_enabled en));;
  (if en then
     p922x_set_cm_cap_enable true;;
     p922x_switch_set_state TYPE_DOCKED;;
     p922x_update_charge_type POWER_SUPPLY_TYPE_WIRELESS;;
     p922x_update_current_setting;;
     p922x_write_fod POWER_SUPPLY_TYPE_WIRELESS
   else
     p922x_switch_set_state TYPE_UNDOCKED;;
     p922x_clear_fast_charge_switch;;
     modify (on_st (set_online false));;
     p922x_update_charge_type POWER_SUPPLY_TYPE_UNKNOWN;;
     modify (fun s => let d := f_dev s in
       on_dev (mkDev (threshold d) (gain d) (offset d) (is_cal_data_ready d) false (reg_addr d) (reg_size d)) s));;
  modify (on_world (fun w => set_zone ((fun tz =>
    let tz := if en then reset_wpc_cooler tz else tz in
    if tz_set_mode tz then mkZone en true (instances tz) else tz) <$> zone w) w));;
  mret 0.

Definition p922x_attached_vbus : M C Z :=
  modify (on_st (set_online true));;
  modify (fun s => on_st (set_pg_time ((pg_time (f_st s)).1, boottime (f_in s))) s);;
  cfg ← gets f_cfg;
  when (support_ovp_en cfg) (p922x_set_ovp_en true;; mret tt);;
  (fun s => let '(b, d, _) := sram_program_fw (f_bus s) (f_dev s) (idt_sram_firmware (f_cfg s)) in Ret (on_dev d (on_bus b s), tt));;
  d ← gets f_dev;
  ret ← io (fun b => p922x_update_iout_cal_data b d);
  ret ← (if use_buck cfg then io (fun b => p922x_set_vout b SET_VOUT_VAL) else mret ret);
  if use_buck cfg && negb (ret =? 0) then p922x_enable_charge_flow false;; mret ret
  else p922x_enable_charge_flow true;; mret ret.

Definition p922x_detached_vbus : M C unit :=
  modify (fun s => on_st (set_pg_time (boottime (f_in s), (pg_time (f_st s)).2)) s);;
  p922x_enable_charge_flow false;;
  cfg ← gets f_cfg;
  when (support_ovp_en cfg) (p922x_set_ovp_en false;; mret tt);;
  mode ← gets (fun s => boot_mode (f_in s));
  when ((mode =? KERNEL_POWER_OFF_CHARGING_BOOT) || (mode =? LOW_POWER_OFF_CHARGING_BOOT)) (log PowerOff).

Definition p922x_pg_thread : M C unit :=
  mutex_lock;;
  vbus_en ← p922x_get_pg_irq_status;
  (if vbus_en : bool then p922x_attached_vbus;; mret tt else p922x_detached_vbus);;
  mutex_unlock.

(** ** The interrupt *)

(** Clears what the chip reports: the sources and whether all went well. The
    status is written back with the sources that were cleared. *)
Definition int_sources : M C (option Z) :=
  st ← io (read16 REG_STATUS);
  if negb (st.1 =? 0) then mret None else
  src ← io (read16 REG_INTR);
  if negb (src.1 =? 0) then mret None else
  ret ← io (fun b => p922x_write_buffer b REG_INT_CLEAR (le_enc 2 src.2));
  if negb (ret =? 0) then mret None else
  ret ← io (fun b => p922x_write b REG_COMMAND CLRINT);
  if negb (ret =? 0) then mret None else
  ret ← io (fun b => p922x_write_buffer b REG_INTR [0; 0]);
  if negb (ret =? 0) then mret None else
  ret ← io (fun b => p922x_write_buffer b REG_STATUS (le_enc 2 (Z.lor st.2 src.2)));
  if negb (ret =? 0) then mret None else mret (Some src.2).

Definition has_int (src bit : Z) : bool := negb (Z.land src bit =? 0).

Definition auth_fail : M C unit :=
  a ← gets f_auth;
  modify (on_auth (set_retry (u8 (dev_auth_retry a + 1))));;
  if dev_auth_retry a <? 3 then p922x_device_auth_req else modify (on_auth (set_complete true)).

(** What the sources ask for, in the order of the tests. *)
Definition handle_sources (irq_src : Z) : M C unit :=
  when (has_int irq_src P922X_INT_TX_DATA_RECV) p922x_get_tx_adapter_type;;
  when (has_int irq_src P922X_INT_DEVICE_AUTH_FAIL) auth_fail;;
  when (has_int irq_src P922X_INT_DEVICE_AUTH_SUCCESS)
    (modify (on_auth (fun a => set_complete true (set_dev_auth true a)));; p922x_detect_tx_adapter_type);;
  when (has_int irq_src P922X_INT_ID_AUTH_FAIL) (modify (on_auth (set_complete true)));;
  when (has_int irq_src P922X_INT_ID_AUTH_SUCCESS)
    (modify (on_auth (fun a => set_retry 0 (set_id true a)));; p922x_device_auth_req);;
  when (has_int irq_src P922X_INT_LIMIT_MASK) (p922x_over_handle irq_src).

Definition p922x_int_thread : M C unit :=
  s ← gets id;
  if negb (get_status_done (f_st s)) then mret tt else
  src ← int_sources;
  match src with
  | None => mret tt
  | Some irq_src => if irq_src =? 0 then mret tt else handle_sources irq_src
  end.

(** ** The charger's hooks *)

Definition p922x_fast_charge_enable (en : bool) : M C unit :=
  s ← gets id;
  if negb (online (f_st s)) then mret tt else
  cancel PowerSwitchWork;;
  if negb (tx_id_authen_status (f_auth s)) || negb (tx_dev_authen_status (f_auth s)) then mret tt else
  let v := if en then switch_10w (f_cfg s) else switch_5w (f_cfg s) in
  p922x_power_switch v.1.2;;
  modify (on_sw (set_window v (if en then POWER_SUPPLY_TYPE_WIRELESS_10W else POWER_SUPPLY_TYPE_WIRELESS_5W)));;
  schedule PowerSwitchWork.

(** A property that cannot be read: the return keeps the lock. *)
Definition p922x_do_algorithm : M C Z :=
  mutex_lock;;
  s ← gets id;
  if negb (online (f_st s)) || force_switch (f_sw s) || negb (tx_authen_complete (f_auth s)) then mutex_unlock;; mret 0 else
  r ← power_supply_get_property;
  if r.1 <? 0 then mret r.1 else
  when (r.2 =? POWER_SUPPLY_TYPE_WIRELESS)
    ((if tx_id_authen_status (f_auth s) && tx_dev_authen_status (f_auth s) then p922x_fast_charge_enable true
      else p922x_update_charge_type POWER_SUPPLY_TYPE_WIRELESS_5W;; p922x_update_current_setting);;
     p922x_metrics_tx_signal_strength);;
  when (r.2 =? POWER_SUPPLY_TYPE_WIRELESS_10W)
    (p922x_set_tx_led_mode (if chg_done (f_in s) then LED_CONSTANT_OFF else LED_CONSTANT_ON));;
  mutex_unlock;; mret 0.

Definition p922x_force_enable_charge (en : bool) : M C Z :=
  mutex_lock;; p922x_enable_charge_flow en;; mutex_unlock;; mret 0.

(** So does the return after a number that is no power. *)
Definition p922x_power_switch_store (buf : list Z) : M C Z :=
  mutex_lock;;
  let count := Z.of_nat (length buf) in
  match kstrtoint buf 10 with
  | inr _ => mutex_unlock;; mret count
  | inl power =>
    if negb ((power =? 5) || (power =? 10) || (power =? 0)) then mret (- EINVAL) else
    modify (on_sw (set_force (negb (power =? 0))));;
    s ← gets id;
    when (tx_authen_complete (f_auth s)) (p922x_fast_charge_enable (power =? 10));;
    mutex_unlock;; mret count
  end.

(** ** Set-up *)

(** The interrupt sources the chip kept, cleared: [None] if a transfer fails. *)
Definition kept_sources : M C (option Z) :=
  src ← io (read16 REG_INTR);
  if negb (src.1 =? 0) then mret None
  else if src.2 =? 0 then mret (Some 0)
  else
    ret ← io (fun b => p922x_write_buffer b REG_INT_CLEAR (le_enc 2 src.2));
    if negb (ret =? 0) then mret None else
    ret ← io (fun b => p922x_write b REG_COMMAND CLRINT);
    if negb (ret =? 0) then mret None else
    ret ← io (fun b => p922x_write_buffer b REG_STATUS (le_enc 2 src.2));
    if negb (ret =? 0) then mret None else mret (Some src.2).

Definition restore_auth (irq_status : Z) (a : auth) : auth :=
  let a := if has_int irq_status P922X_INT_ID_AUTH_FAIL then set_complete true a else a in
  let a := if has_int irq_status P922X_INT_ID_AUTH_SUCCESS then set_id true a else a in
  if has_int irq_status P922X_INT_DEVICE_AUTH_SUCCESS then set_complete true (set_dev_auth true a) else a.

Definition p922x_get_attach_status : M C bool :=
  pg ← p922x_get_pg_irq_status;
  r ← (if pg : bool then kept_sources else mret None);
  match r with
  | None => modify (on_st (set_online false));; mret false
  | Some irq_status => modify (on_auth (restore_auth irq_status));; modify (on_st (set_online true));; mret true
  end.

Definition p922x_determine_init_status : M C unit :=
  i ← gets f_in;
  let kpoc := (boot_mode i =? KERNEL_POWER_OFF_CHARGING_BOOT) || (boot_mode i =? LOW_POWER_OFF_CHARGING_BOOT) in
  absent ← (if kpoc : bool then pg ← p922x_get_pg_irq_status; mret (negb pg) else mret false);
  if absent : bool then mret tt else
  pg ← p922x_get_pg_irq_status;
  modify (on_st (set_online pg));;
  if negb (is_mtk_charger_init_done i) then schedule InitWork else
  attached ← p922x_get_attach_status;
  when attached (p922x_attached_vbus;; mret tt);;
  modify (on_st (set_status_done true));;
  log EnableIrqs;;
  pg ← p922x_get_pg_irq_status;
  a ← gets f_auth;
  when (pg && negb (tx_authen_complete a)) p922x_device_auth_req.

(** ** Power supply and thermal sensors *)

(** [n] coefficients are overwritten, whatever the transfers come to. *)
Fixpoint spoil_fod (n : nat) (idx : Z) (b : bus C) : bus C :=
  match n with
  | O => b
  | S n => spoil_fod n (idx + 1) (p922x_write b (REG_FOD_COEF_ADDR + idx) 0x10).1
  end.
(** The times of the simulated objects are kept for the console. *)
Definition p922x_simulate_fod : M C unit :=
  s ← gets id;
  if negb (online (f_st s)) then mret tt else
  io (fun b => (spoil_fod FOD_COEF_PARAM_LENGTH 0 b, tt));;
  modify (on_st (fun x => set_sw_fod (s32 (sw_fod_count x + 1)) x));;
  schedule EPTWork.

Inductive power_supply_property := PROP_INPUT_CURRENT_LIMIT | PROP_ONLINE | PROP_TEMP | PROP_OTHER.

Definition p922x_psy_set_property (psp : power_supply_property) (intval : Z) : M C Z :=
  match psp with
  | PROP_INPUT_CURRENT_LIMIT =>
    pg ← p922x_get_pg_irq_status; when (pg && (intval =? 0)) p922x_simulate_fod;; mret 0
  | _ => mret (- EINVAL)
  end.

Definition ntc_temp : M C Z := fun s =>
  match p922x_get_ntc_temp (f_bus s) with
  | (b, Some t) => Ret (on_bus b s, t)
  | (b, None) => Blocks
  end.

Definition p922x_psy_get_property (psp : power_supply_property) : M C (Z + Z) :=
  s ← gets id;
  match psp with
  | PROP_ONLINE => mret (inl (Z.b2z (online (f_st s))))
  | PROP_TEMP =>
    if negb (online (f_st s)) || negb (is_sram_updated (f_dev s)) then mret (inr (- ENODEV)) else
    t ← ntc_temp; mret (inl t)
  | _ => mret (inr (- EINVAL))
  end.

Definition wpc_get_temp (id : Z) : M C (Z + Z) :=
  s ← gets (fun s => s);
  if negb (online (f_st s)) || negb (is_sram_updated (f_dev s)) then mret (inr (- EINVAL))
  else if id =? 0 then t ← p922x_get_temp_adc; mret (inl (s32 (t * 1000)))
  else if id =? 1 then t ← ntc_temp; mret (inl (s32 (t * 1000)))
  else mret (inr (- EINVAL)).

(** ** Shutdown *)

(** The outcome of the authentication as the interrupt sources that gave it. *)
Definition auth_sources (a : auth) : Z :=
  if tx_authen_complete a then
    if tx_dev_authen_status a then Z.lor P922X_INT_ID_AUTH_SUCCESS P922X_INT_DEVICE_AUTH_SUCCESS else P922X_INT_ID_AUTH_FAIL
  else if tx_id_authen_status a then P922X_INT_ID_AUTH_SUCCESS else 0.

Definition p922x_shutdown : M C unit :=
  i ← gets f_in;
  let kpoc := (boot_mode i =? KERNEL_POWER_OFF_CHARGING_BOOT) || (boot_mode i =? LOW_POWER_OFF_CHARGING_BOOT) in
  absent ← (if kpoc : bool then pg ← p922x_get_pg_irq_status; mret (negb pg) else mret false);
  if absent : bool then mret tt else
  mutex_lock;;
  s ← gets id;
  when (online (f_st s))
    (modify (on_sw (set_force true));;
     cancel PowerSwitchWork;;
     when (chr_type (f_sw s) =? POWER_SUPPLY_TYPE_WIRELESS_10W)
       (p922x_power_switch (switch_5w (f_cfg s)).1.2;; p922x_write_fod POWER_SUPPLY_TYPE_WIRELESS_5W);;
     log DisableIntIrq;;
     let irq_status := auth_sources (f_auth s) in
     when (negb (irq_status =? 0))
       (src ← io (read16 REG_INTR);
        io (fun b => p922x_write_buffer b REG_INTR (le_enc 2 (Z.lor src.2 irq_status)));; mret tt));;
  mutex_unlock.

(** ** Events *)

Inductive event :=
| EvPg
| EvInt
| EvWork (w : work)
| EvAlgorithm
| EvForce (en : bool)
| EvStore (buf : list Z)
| EvSetProperty (psp : power_supply_property) (intval : Z)
| EvGetProperty (psp : power_supply_property)
| EvTemp (id : Z)
| EvShutdown.

Definition run_work (w : work) : M C unit :=
  p ← gets (fun s => pending (f_world s));
  if negb (bool_decide (w ∈ p)) then mret tt else
  cancel w;;
  match w with
  | PowerSwitchWork => p922x_power_switch_work
  | AdaptiveWork => p922x_adaptive_current_limit_work
  | StepChargingWork => p922x_step_charging_work
  | EPTWork => p922x_EPT_work
  | InitWork => p922x_determine_init_status
  end.

Definition handle (e : event) : M C unit :=
  match e with
  | EvPg => p922x_pg_thread
  | EvInt => p922x_int_thread
  | EvWork w => run_work w
  | EvAlgorithm => p922x_do_algorithm;; mret tt
  | EvForce en => p922x_force_enable_charge en;; mret tt
  | EvStore buf => p922x_power_switch_store buf;; mret tt
  | EvSetProperty psp v => p922x_psy_set_property psp v;; mret tt
  | EvGetProperty psp => p922x_psy_get_property psp;; mret tt
  | EvTemp id => wpc_get_temp id;; mret tt
  | EvShutdown => p922x_shutdown
  end.

(** An event with what the environment answers meanwhile. *)
Definition step (s : flow C) (e : inputs * event) : outcome (flow C) :=
  r ← handle e.2 (on_in (fun _ => e.1) s); Ret r.1.
Fixpoint steps (s : flow C) (es : list (inputs * event)) : outcome (flow C) :=
  match es with
  | [] => Ret s
  | e :: es => s ← step s e; steps s es
  end.
End Handlers.
