(* ===== verification/P922xSession.v ===== *)
(** * The wireless receiver: sessions, locks and authentication

    What holds of the handlers of [P922xFlow] in every order of events: a logic of
    triples over its monad, the lock, the dock and the thermal zone, detaching, the
    authentication across a reboot and its retries. *)

From Stdlib Require Import String.
From stdpp Require Import base tactics numbers list gmap option.
From S2P Require Import Prelude Kstrtox Printf P922x P922xCal P922xFlow.

(** ** Specification *)

(** From states of [I] the computation returns, in [I], with a result of [P]. *)
Definition keeps {C A} (I : flow C -> Prop) (m : M C A) (P : A -> Prop) : Prop :=
  forall s, I s -> exists s' a, m s = Ret (s', a) /\ I s' /\ P a.
Definition any {A} (a : A) : Prop := True.
(** From states of [I] it returns in a state of [J]. *)
Definition moves {C A} (I : flow C -> Prop) (m : M C A) (J : flow C -> Prop) : Prop :=
  forall s, I s -> exists s' a, m s = Ret (s', a) /\ J s'.

(** The effect that tells the charger a current. *)
Definition is_setting (e : effect) : bool := match e with ApplySetting _ _ _ => true | _ => false end.

(** An assertion on the lock, on whether the flow is enabled, on the dock, the
    zone, the current, what the charger is told of it, the configuration and on whether the set-up is still to
    come: what else changes does not matter. *)
Class Quiet {C} (I : flow C -> Prop) : Prop := {
  quiet_bus b s : I s -> I (on_bus b s);
  quiet_in f s : I s -> I (on_in f s);
  quiet_dev d s : I s -> I (on_dev d s);
  quiet_auth f s : I s -> I (on_auth f s);
  quiet_sw f s : I s -> I (on_sw f s);
  quiet_log e s : is_setting e = false -> I s -> I (on_world (add_effect e) s);
  quiet_psy t s : I s -> I (on_world (set_psy_type t) s);
  quiet_path b s : I s -> I (on_world (set_powerpath b) s);
  quiet_mivr v s : I s -> I (on_world (set_mivr v) s);
  quiet_schedule w s : w <> InitWork -> I s -> I (on_world (fun x => set_pending ({[w]} ∪ pending x) x) s);
  quiet_cancel w s : I s -> I (on_world (fun x => set_pending (pending x ∖ {[w]}) x) s);
  quiet_online b s : I s -> I (on_st (set_online b) s);
  quiet_cm b s : I s -> I (on_st (set_cm_cap_en b) s);
  quiet_ovp b s : I s -> I (on_st (set_ovp_en b) s);
  quiet_done b s : I s -> I (on_st (set_status_done b) s);
  quiet_fod f s : I s -> I (on_st (fun x => set_sw_fod (f x) x) s);
  quiet_time t s : I s -> I (on_st (set_pg_time t) s) }.
(** One that does not speak of the current either. *)
Class NoCurrent {C} (I : flow C -> Prop) : Prop := {
  quiet_cur f s : I s -> I (on_cur f s);
  quiet_setting ua il cl s : I s -> I (on_world (add_effect (ApplySetting ua il cl)) s) }.

(** One that the flow and the works keep, which change what [Quiet] speaks of. *)
Class Kept {C} `{Chip C} (I : flow C -> Prop) : Prop := {
  kept_enable en : keeps I (p922x_enable_charge_flow en) any;
  kept_setting : keeps I p922x_update_current_setting any;
  kept_power_switch : keeps I p922x_power_switch_work any;
  kept_adaptive : keeps I p922x_adaptive_current_limit_work any;
  kept_step : keeps I p922x_step_charging_work any;
  kept_schedule s : I s -> I (on_world (fun x => set_pending ({[InitWork]} ∪ pending x) x) s) }.

(** The events that return with the lock held: the algorithm when it runs and
    the charger's type cannot be read, and a write of a number that is no power. *)
Definition leaks {C} (s : flow C) (i : inputs) (e : event) : bool :=
  match e with
  | EvAlgorithm =>
    online (f_st s) && negb (force_switch (f_sw s)) && tx_authen_complete (f_auth s) &&
    match psy_ret i with r :: _ => r <? 0 | [] => false end
  | EvStore buf =>
    match kstrtoint buf 10 with inl p => negb ((p =? 5) || (p =? 10) || (p =? 0)) | inr _ => false end
  | _ => false
  end.
Definition takes_lock (e : event) : bool :=
  match e with EvPg | EvAlgorithm | EvForce _ | EvStore _ => true | _ => false end.

(** The dock and the zone follow the flow. *)
Definition docked {C} (s : flow C) : Prop :=
  exists tz, zone (f_world s) = Some tz /\ tz_set_mode tz = true /\ tz_enabled tz = is_enabled (f_st s) /\
    dock_state (f_world s) = if is_enabled (f_st s) then TYPE_DOCKED else TYPE_UNDOCKED.

(** What the end of a session leaves: the flow, the authentication, the charger's
    type, the currents and the works as before the first one, and the type the
    charger's power supply has where it can be read and set; untouched, for later
    events to overwrite, the counter of the voltage switch, the average of the
    current, the retries of the authentication and the last limit that was
    exceeded. *)
Definition ended {C} (s s' : flow C) : Prop :=
  is_enabled (f_st s') = false /\ online (f_st s') = false /\ cm_cap_en (f_st s') = false /\
  pending (f_world s') = pending (f_world s) ∖ {[PowerSwitchWork]} ∖ {[AdaptiveWork]} ∖ {[StepChargingWork]} ∖ {[EPTWork]} /\
  f_auth s' = mkAuth false false false (dev_auth_retry (f_auth s)) false DOCK_ADAPTER_UNKNOWN (over_reason (f_auth s)) /\
  force_switch (f_sw s') = false /\ chr_type (f_sw s') = POWER_SUPPLY_TYPE_UNKNOWN /\
  switch_detct_count (f_sw s') = switch_detct_count (f_sw s) /\
  wireless_10w_ua (f_cur s') = s32 (bpp_10w_default_input_current (f_cfg s) * 1000) /\ prev_input_current (f_cur s') = -1 /\
  on_adaptive (f_cur s') = false /\ on_step_charging (f_cur s') = false /\ avg (f_cur s') = avg (f_cur s) /\
  is_sram_updated (f_dev s') = false /\ f_bus s' = f_bus s /\
  (psy_ret (f_in s) = [] -> 0 <= powerpath_ret (f_in s) ->
   psy_type (f_world s') = POWER_SUPPLY_TYPE_UNKNOWN /\
   (psy_type (f_world s) <> POWER_SUPPLY_TYPE_UNKNOWN -> powerpath (f_world s') = false)).

(** The chip keeps its interrupt sources while other registers are written, but
    for the command that clears them, and holds those it is given. *)
Class KeepsSources (C : Type) `{Chip C} : Prop := {
  sources_other (c : C) a v x : x = REG_INTR \/ x = REG_INTR + 1 -> a <> x -> a <> REG_COMMAND \/ v = VSWITCH ->
    chip_read (chip_write c a v) x = chip_read c x;
  sources_given (c : C) a v : a = REG_INTR \/ a = REG_INTR + 1 -> 0 <= v < 256 -> chip_read (chip_write c a v) a = v }.
Definition fresh_auth : auth := mkAuth false false false 0 false DOCK_ADAPTER_UNKNOWN 0.
Definition AUTH_MASK : Z := 0x3300.

(** The lock is held or free; a handler frees it. *)
Definition locked {C} (l : bool) (s : flow C) : Prop := irq_lock (f_st s) = l.
Definition unlocks {C A} (m : M C A) : Prop := moves (locked true) m (locked false).

(** An assertion kept by whatever the driver does without the lock, once it is
    set up. *)
Definition deaf {C} (b : bool) (s : flow C) : Prop :=
  irq_lock (f_st s) = true /\ is_enabled (f_st s) = b /\ InitWork ∉ pending (f_world s).
(** The flow's flag, the dock's state (if it is to be right) and a zone that can
    be switched. *)
Definition docks {C} (en : bool) (d : option Z) (s : flow C) : Prop :=
  is_enabled (f_st s) = en /\ (exists tz, zone (f_world s) = Some tz /\ tz_set_mode tz = true) /\
  (forall v, d = Some v -> dock_state (f_world s) = v).

(** The chip's interrupt sources, and a state that differs in the bus alone. *)
Definition sources {C} `{Chip C} (s : flow C) : list Z := chip_bytes (chip (f_bus s)) REG_INTR 2.
Definition only_bus {C} `{Chip C} (s s' : flow C) : Prop := exists b, s' = on_bus b s /\ no_faults b /\ sources s' = sources s.

(** A tablet with the receiver, on no charger: a chip of plain memory, a dock and
    a zone with the wireless cooler, the currents and voltages of a device tree. *)
Definition demo_config : config :=
  mkConfig true true true (4500, 5000, 5500) (8000, 9000, 9500) (4200000, 4400000) (replicate 16 7) 16 (replicate 16 9) 16
    95 150 1200 500 1000 1000 500000 1000000 700 100 1100000 true [].
Definition demo_dev : p922x_dev := mkDev [] [] [] false false 0 0.
Definition demo_current : current := mkCurrent 1000000 (-1) false 0 0 (replicate 6 0) 0 false.
Definition demo_status : status := mkStatus false false false false false true 0 (0, 0).
Definition demo_inputs (pg : bool) (psy : list Z) (mode : Z) : inputs := mkInputs [pg] psy 0 [] 50 mode 0 true false (fun ua => (ua, 2000000)).
Definition demo_flow (st : status) (a : auth) (x : world) : flow (Z -> Z) :=
  mkFlow (mkBus (fun _ => 0) []) demo_dev a (mkSwitch false POWER_SUPPLY_TYPE_UNKNOWN 0 0 0) demo_current st demo_config x
    (demo_inputs true [] 0).
Definition demo_world (en : bool) : world :=
  mkWorld POWER_SUPPLY_TYPE_UNKNOWN false 0 (if en then TYPE_DOCKED else TYPE_UNDOCKED)
    (Some (mkZone en true [mkInstance WPC_COOLER_NAME 2 2 0])) ∅ [].

(** ** Lemmas *)

Section Triples.
Context {C : Type} `{Chip C} (I : flow C -> Prop).

Lemma bind_eq {A B} (m : M C A) (k : A -> M C B) s s1 a : m s = Ret (s1, a) -> (m ≫= k) s = k a s1.
Proof. intros E. unfold mbind, M_bind, mbind, outcome_bind. by rewrite E. Qed.
Lemma keeps_weaken {A} (m : M C A) (P Q : A -> Prop) : keeps I m P -> (forall a, P a -> Q a) -> keeps I m Q.
Proof. intros Hm HPQ s Hs. destruct (Hm s Hs) as (s' & a & E & Hs' & Ha). eauto 6. Qed.
Lemma keeps_any {A} (m : M C A) (P : A -> Prop) : keeps I m P -> keeps I m any.
Proof. intros Hm. by apply (keeps_weaken _ P). Qed.
Lemma keeps_ret {A} (a : A) : keeps I (mret a) (fun x => x = a).
Proof. intros s Hs. by exists s, a. Qed.
Lemma keeps_bind {A B} (m : M C A) (k : A -> M C B) P Q :
  keeps I m P -> (forall a, P a -> keeps I (k a) Q) -> keeps I (m ≫= k) Q.
Proof.
  intros Hm Hk s Hs. destruct (Hm s Hs) as (s1 & a & E & Hs1 & Ha). destruct (Hk a Ha s1 Hs1) as (s2 & b & E2 & Hs2 & Hb).
  exists s2, b. split; [|done]. by rewrite (bind_eq _ _ _ _ _ E).
Qed.
Lemma keeps_gets {A} (f : flow C -> A) : keeps I (gets f) (fun a => exists s, I s /\ a = f s).
Proof. intros s Hs. exists s, (f s). eauto. Qed.
Lemma keeps_modify (f : flow C -> flow C) : (forall s, I s -> I (f s)) -> keeps I (modify f) any.
Proof. intros Hf s Hs. exists (f s), tt. split; [done|]. split; [by apply Hf|done]. Qed.
Lemma keeps_when b m : (b = true -> keeps I m any) -> keeps I (when b m) any.
Proof. intros Hm. destruct b; [by apply Hm|]. eapply keeps_any, keeps_ret. Qed.

Lemma moves_keeps {A} (m : M C A) P : keeps I m P -> moves I m I.
Proof. intros Hm s Hs. destruct (Hm s Hs) as (s' & a & E & Hs' & _). eauto. Qed.
Lemma keeps_moves {A} (m : M C A) : moves I m I -> keeps I m any.
Proof. intros Hm s Hs. destruct (Hm s Hs) as (s' & a & E & Hs'). exists s', a. done. Qed.
Lemma moves_bind {A B} (m : M C A) (k : A -> M C B) J K : moves I m J -> (forall a, moves J (k a) K) -> moves I (m ≫= k) K.
Proof.
  intros Hm Hk s Hs. destruct (Hm s Hs) as (s1 & a & E & Hs1). destruct (Hk a s1 Hs1) as (s2 & b & E2 & Hs2).
  exists s2, b. split; [|done]. by rewrite (bind_eq _ _ _ _ _ E).
Qed.
Lemma moves_modify (f : flow C -> flow C) J : (forall s, I s -> J (f s)) -> moves I (modify f) J.
Proof. intros Hf s Hs. exists (f s), tt. split; [done|by apply Hf]. Qed.

Context `{!Quiet I}.
Lemma keeps_io {A} (f : bus C -> bus C * A) : keeps I (io f) any.
Proof.
  intros s Hs. unfold io. destruct (f (f_bus s)) as [b a]. exists (on_bus b s), a. split; [done|]. split; [by apply quiet_bus|done].
Qed.
Lemma keeps_log e : is_setting e = false -> keeps I (log e) any.
Proof. intros He. apply keeps_modify. intros s. by apply quiet_log. Qed.
Lemma keeps_pg : keeps I p922x_get_pg_irq_status any.
Proof.
  intros s Hs. unfold p922x_get_pg_irq_status. destruct (pg_gpio (f_in s)) as [|b [|b' l]]; eexists _, _;
    (split; [reflexivity|]); (split; [|done]); try done. by apply quiet_in.
Qed.
Lemma keeps_next_psy : keeps I next_psy any.
Proof.
  intros s Hs. unfold next_psy. destruct (psy_ret (f_in s)) as [|b l]; eexists _, _;
    (split; [reflexivity|]); (split; [|done]); try done. by apply quiet_in.
Qed.
Lemma keeps_ibus : keeps I charger_dev_get_ibus any.
Proof.
  intros s Hs. unfold charger_dev_get_ibus. destruct (ibus_in (f_in s)) as [|b l]; eexists _, _;
    (split; [reflexivity|]); (split; [|done]); try done. by apply quiet_in.
Qed.
End Triples.

Lemma ntc_temp_total adc : is_Some (ntc_temp_of adc).
Proof.
  unfold ntc_temp_of. change (Z.of_nat (length ntc_temperature_table) - 1) with 165.
  destruct (search_spec ntc_temperature_table (Z.quot (2100 * adc) 4096) table_falling 166 0 0 165) as (m & E & _);
    change (Z.of_nat (length ntc_temperature_table)) with 166; [lia|lia|lia|lia|lia|by left|].
  change (length ntc_temperature_table) with 166%nat. rewrite E. by eexists.
Qed.

Lemma keeps_ntc {C} `{Chip C} (I : flow C -> Prop) `{!Quiet I} : keeps I ntc_temp any.
Proof.
  intros s Hs. unfold ntc_temp, p922x_get_ntc_temp. destruct (p922x_get_ntc_adc (f_bus s)) as [b adc].
  destruct (ntc_temp_total adc) as [t ->]. eexists _, _. split; [reflexivity|]. split; [by apply quiet_bus|done].
Qed.

(** Goes through a handler, down to the updates. *)
Ltac keep_leaf := first [eassumption | eapply keeps_io; apply _ | (apply keeps_log; [apply _|reflexivity]) | apply keeps_pg; apply _
  | apply keeps_next_psy; apply _ | apply keeps_ibus; apply _ | apply keeps_ntc; apply _].
Ltac keep_step :=
  lazymatch goal with
  | |- keeps _ (mbind _ (gets _)) _ => eapply keeps_bind; [apply keeps_gets|intros ? ?]
  | |- keeps _ (mbind _ _) _ => apply (keeps_bind _ _ _ any); [|intros ? ?]
  | |- keeps _ (when _ _) _ => eapply keeps_when; intros ?
  | |- keeps _ (mret _) any => eapply keeps_any, keeps_ret
  | |- keeps _ (mret _) _ => eapply keeps_ret
  | |- keeps _ (gets _) any => eapply keeps_any, keeps_gets
  | |- keeps _ (gets _) _ => eapply keeps_gets
  | |- keeps _ (modify _) _ => apply keeps_modify; intros ? ?
  | |- keeps _ (if ?b then _ else _) _ => destruct b eqn:?
  | |- keeps _ (match ?x with _ => _ end) _ => destruct x eqn:?
  | |- keeps _ (let '_ := ?x in _) _ => destruct x eqn:?
  end.
Ltac quiet := first [assumption | apply quiet_bus | apply quiet_in | apply quiet_dev | apply quiet_auth | apply quiet_sw | (apply quiet_log; [reflexivity|])
  | apply quiet_psy | apply quiet_path | apply quiet_mivr | apply quiet_schedule; [done|] | apply quiet_cancel | apply quiet_online | apply quiet_cm | apply quiet_ovp
  | apply quiet_done | apply quiet_fod | apply quiet_time | apply quiet_cur].
Create HintDb keeps discriminated.
#[export] Hint Extern 1 (_ <> _) => discriminate : keeps.
Ltac keep := repeat first [keep_leaf | solve [eauto 3 with keeps nocore typeclass_instances] | keep_step | progress quiet].

Section Handlers.
Context {C : Type} `{Chip C} (I : flow C -> Prop) `{!Quiet I}.
#[local] Abbreviation keeps m := (keeps I m any).

Lemma schedule_keeps w : w <> InitWork -> keeps (schedule w).
Proof. intros Hw. unfold schedule. keep. Qed.
Lemma cancel_keeps w : keeps (cancel w).
Proof. unfold cancel. keep. Qed.
#[local] Hint Resolve schedule_keeps cancel_keeps : keeps.
Lemma get_property_keeps : keeps power_supply_get_property.
Proof. unfold power_supply_get_property. keep. Qed.
Lemma set_property_keeps t : keeps (power_supply_set_property t).
Proof. unfold power_supply_set_property. keep. Qed.
Lemma vout_adc_keeps : keeps p922x_get_vout_adc.
Proof. unfold p922x_get_vout_adc. keep. Qed.
Lemma temp_adc_keeps : keeps p922x_get_temp_adc.
Proof. unfold p922x_get_temp_adc. keep. Qed.
Lemma signal_keeps : keeps p922x_metrics_tx_signal_strength.
Proof. unfold p922x_metrics_tx_signal_strength, p922x_get_tx_signal_strength. keep. Qed.
Lemma reconnection_keeps : keeps p922x_metrics_abnormal_reconnection.
Proof. unfold p922x_metrics_abnormal_reconnection. keep. Qed.
Lemma power_switch_keeps mv : keeps (p922x_power_switch mv).
Proof. unfold p922x_power_switch. keep. Qed.
Lemma write_fod_keeps t : keeps (p922x_write_fod t).
Proof. unfold p922x_write_fod. keep. Qed.
Lemma auth_req_keeps : keeps p922x_device_auth_req.
Proof. unfold p922x_device_auth_req. keep. Qed.
Lemma adapter_keeps : keeps p922x_get_tx_adapter_type.
Proof. unfold p922x_get_tx_adapter_type. keep. Qed.
Lemma detect_keeps : keeps p922x_detect_tx_adapter_type.
Proof. unfold p922x_detect_tx_adapter_type, p922x_sendpkt. keep. Qed.
Lemma eop_keeps r : keeps (p922x_send_eop r).
Proof. unfold p922x_send_eop. keep. Qed.
#[local] Hint Resolve eop_keeps auth_req_keeps adapter_keeps detect_keeps power_switch_keeps get_property_keeps set_property_keeps : keeps.
Lemma over_keeps r : keeps (p922x_over_handle r).
Proof. unfold p922x_over_handle. keep. Qed.
Lemma cm_cap_keeps b : keeps (p922x_set_cm_cap_enable b).
Proof. unfold p922x_set_cm_cap_enable. keep. Qed.
Lemma led_keeps m : keeps (p922x_set_tx_led_mode m).
Proof. unfold p922x_set_tx_led_mode. keep. Qed.
Lemma set_ovp_keeps b : keeps (p922x_set_ovp_en b).
Proof. unfold p922x_set_ovp_en. keep. Qed.
Lemma mivr_keeps t : keeps (p922x_set_charger_mivr_by_type t).
Proof. unfold p922x_set_charger_mivr_by_type. keep. Qed.
#[local] Hint Resolve mivr_keeps over_keeps : keeps.
Lemma charge_type_keeps t : keeps (p922x_update_charge_type t).
Proof. unfold p922x_update_charge_type. keep. Qed.
Lemma sources_keeps : keeps int_sources.
Proof. unfold int_sources. keep. Qed.
Lemma auth_fail_keeps : keeps auth_fail.
Proof. unfold auth_fail. keep. Qed.
#[local] Hint Resolve sources_keeps auth_fail_keeps : keeps.
Lemma handle_sources_keeps r : keeps (handle_sources r).
Proof. unfold handle_sources. keep. Qed.
#[local] Hint Resolve handle_sources_keeps : keeps.
Lemma int_thread_keeps : keeps p922x_int_thread.
Proof. unfold p922x_int_thread. keep. Qed.
Lemma fast_charge_keeps b : keeps (p922x_fast_charge_enable b).
Proof. unfold p922x_fast_charge_enable. keep. Qed.
Lemma kept_sources_keeps : keeps kept_sources.
Proof. unfold kept_sources. keep. Qed.
#[local] Hint Resolve kept_sources_keeps : keeps.
Lemma attach_status_keeps : keeps p922x_get_attach_status.
Proof. unfold p922x_get_attach_status. keep. Qed.
Lemma simulate_fod_keeps : keeps p922x_simulate_fod.
Proof. unfold p922x_simulate_fod. keep. Qed.
#[local] Hint Resolve simulate_fod_keeps temp_adc_keeps : keeps.
Lemma psy_set_keeps p v : keeps (p922x_psy_set_property p v).
Proof. unfold p922x_psy_set_property. keep. Qed.
Lemma psy_get_keeps p : keeps (p922x_psy_get_property p).
Proof. unfold p922x_psy_get_property. keep. Qed.
Lemma get_temp_keeps i : keeps (wpc_get_temp i).
Proof. unfold wpc_get_temp. keep. Qed.
Lemma ept_keeps : keeps p922x_EPT_work.
Proof. unfold p922x_EPT_work. keep. Qed.
End Handlers.
#[export] Hint Resolve schedule_keeps cancel_keeps get_property_keeps set_property_keeps vout_adc_keeps temp_adc_keeps signal_keeps reconnection_keeps
  power_switch_keeps write_fod_keeps auth_req_keeps cm_cap_keeps led_keeps set_ovp_keeps charge_type_keeps int_thread_keeps fast_charge_keeps
  attach_status_keeps psy_set_keeps psy_get_keeps get_temp_keeps ept_keeps : keeps.

Section CurrentHandlers.
Context {C : Type} `{Chip C} (I : flow C -> Prop) `{!Quiet I} `{!NoCurrent I}.
#[local] Abbreviation keeps m := (keeps I m any).

Lemma setting_keeps : keeps p922x_update_current_setting.
Proof. unfold p922x_update_current_setting, log. keep; by apply quiet_setting. Qed.
#[local] Hint Resolve setting_keeps : keeps.
Lemma init_adaptive_keeps : keeps p922x_init_adaptive_current_limit_work.
Proof. unfold p922x_init_adaptive_current_limit_work. keep. Qed.
#[local] Hint Resolve init_adaptive_keeps : keeps.
Lemma power_switch_work_keeps : keeps p922x_power_switch_work.
Proof. unfold p922x_power_switch_work. keep. Qed.
Lemma need_keeps : keeps p922x_is_need_adaptive_current_limit.
Proof. unfold p922x_is_need_adaptive_current_limit. keep. Qed.
Lemma skip_keeps : keeps p922x_skip_adaptive_work.
Proof. unfold p922x_skip_adaptive_work. keep. Qed.
Lemma target_keeps : keeps adaptive_target.
Proof. unfold adaptive_target. keep. Qed.
#[local] Hint Resolve need_keeps skip_keeps target_keeps : keeps.
Lemma adaptive_keeps : keeps p922x_adaptive_current_limit_work.
Proof. unfold p922x_adaptive_current_limit_work. keep. Qed.
Lemma step_keeps : keeps p922x_step_charging_work.
Proof. unfold p922x_step_charging_work. keep. Qed.
Lemma clear_keeps : keeps p922x_clear_fast_charge_switch.
Proof. unfold p922x_clear_fast_charge_switch. keep. Qed.
End CurrentHandlers.
#[export] Hint Resolve setting_keeps init_adaptive_keeps power_switch_work_keeps adaptive_keeps step_keeps clear_keeps : keeps.

(** ** The handlers above the flow and the works *)

Section KeptHandlers.
Context {C : Type} `{Chip C} (I : flow C -> Prop) `{!Quiet I} `{!Kept I}.
#[local] Hint Resolve kept_enable kept_power_switch kept_adaptive kept_step kept_setting : keeps.

Lemma attached_keeps : keeps I p922x_attached_vbus any.
Proof.
  unfold p922x_attached_vbus. keep. intros s Hs.
  destruct (sram_program_fw _ _ _) as [[b d] ok]. eexists _, _. split; [reflexivity|]. split; [|done]. by apply quiet_dev, quiet_bus.
Qed.
Lemma detached_keeps : keeps I p922x_detached_vbus any.
Proof. unfold p922x_detached_vbus. keep. Qed.
#[local] Hint Resolve attached_keeps detached_keeps : keeps.
Lemma init_keeps : keeps I p922x_determine_init_status any.
Proof. unfold p922x_determine_init_status, schedule. keep. by apply kept_schedule. Qed.
#[local] Hint Resolve init_keeps : keeps.
Lemma work_keeps w : keeps I (run_work w) any.
Proof. unfold run_work. keep. Qed.
Lemma algorithm_body_keeps (r : Z * Z) b :
  keeps I (when (r.2 =? POWER_SUPPLY_TYPE_WIRELESS)
    ((if b : bool then p922x_fast_charge_enable true
      else p922x_update_charge_type POWER_SUPPLY_TYPE_WIRELESS_5W;; p922x_update_current_setting);;
     p922x_metrics_tx_signal_strength)) any.
Proof. keep. Qed.
End KeptHandlers.
#[export] Hint Resolve attached_keeps detached_keeps init_keeps work_keeps kept_enable kept_setting kept_power_switch kept_adaptive kept_step : keeps.

(** Whatever event returns keeps it, with a free lock or not. *)
Section KeptSteps.
Context {C : Type} `{Chip C} (I : flow C -> Prop) `{!Quiet I} `{!Kept I}.
Hypothesis kept_lock : forall b s, I s -> I (on_st (set_irq_lock b) s).

Lemma unlock_keeps : keeps I mutex_unlock any.
Proof. apply keeps_modify. intros s. apply kept_lock. Qed.
#[local] Hint Resolve unlock_keeps : keeps.
Lemma lock_keeps {A} (m : M C A) s s' a : keeps I m any -> I s -> (mutex_lock;; m) s = Ret (s', a) -> I s'.
Proof.
  intros Hm Hs. unfold mbind, M_bind, mbind, outcome_bind, mutex_lock. destruct (irq_lock (f_st s)); [done|].
  destruct (Hm (on_st (set_irq_lock true) s)) as (s1 & b & -> & Hs1 & _); [by apply kept_lock|]. by intros [= <- <-].
Qed.

Lemma bind_Ret {A B} (m : M C A) (k : A -> M C B) s s' b : (m ≫= k) s = Ret (s', b) -> exists s1 a, m s = Ret (s1, a) /\ k a s1 = Ret (s', b).
Proof. unfold mbind, M_bind, mbind, outcome_bind. destruct (m s) as [[s1 a]| |]; [eauto|done..]. Qed.

Lemma step_keeps_all s e s' : I s -> step s e = Ret s' -> I s'.
Proof.
  destruct e as [i e]. intros Hs. set (s0 := on_in (fun _ => i) s). assert (Hs0 : I s0) by (by apply quiet_in).
  unfold step. cbn [fst snd]. fold s0. destruct (handle e s0) as [[s1 u]| |] eqn:E; [|done..]. intros [= <-]. cbn [fst].
  assert (Hk : forall m : M C unit, keeps I m any -> m s0 = Ret (s1, u) -> I s1).
  { intros m Hm E'. destruct (Hm s0 Hs0) as (s2 & a & E2 & Hs2 & _). rewrite E' in E2. by injection E2 as -> _. }
  destruct e; cbn [handle] in E.
  - revert E. apply lock_keeps; [|done]. keep.
  - revert E. apply Hk. keep.
  - revert E. apply Hk. keep.
  - apply bind_Ret in E as (s2 & a & E & E2). injection E2 as <- _. revert E. apply lock_keeps; [|done]. keep.
  - apply bind_Ret in E as (s2 & a & E & E2). injection E2 as <- _. revert E. apply lock_keeps; [|done]. keep.
  - apply bind_Ret in E as (s2 & a & E & E2). injection E2 as <- _. revert E. apply lock_keeps; [|done]. cbv zeta. keep.
  - revert E. apply Hk. keep.
  - revert E. apply Hk. keep.
  - revert E. apply Hk. keep.
  - unfold p922x_shutdown in E. rewrite (bind_eq (gets f_in) _ s0 s0 (f_in s0) eq_refl) in E. cbv zeta in E.
    apply bind_Ret in E as (s2 & b & E1 & E).
    assert (Hs2 : I s2).
    { match type of E1 with ?m s0 = _ => destruct (fun Hm : keeps I m any => Hm s0 Hs0) as (s3 & b' & E3 & Hs3 & _) end.
      { destruct (_ || _); keep. }
      rewrite E1 in E3. by injection E3 as -> _. }
    destruct b; [by injection E as <- _|]. revert E. apply lock_keeps; [|done]. keep.
Qed.

Lemma steps_keep_all es : forall s s', I s -> steps s es = Ret s' -> I s'.
Proof.
  induction es as [|e es IH]; intros s s' Hs E; cbn [steps] in E; [by injection E as <-|].
  destruct (step s e) as [s1| |] eqn:E1; try done. apply (IH s1); [by apply (step_keeps_all s e)|exact E].
Qed.
End KeptSteps.

(** ** The lock *)

#[export] Instance locked_quiet {C} l : Quiet (C := C) (locked l).
Proof. by split. Qed.
#[export] Instance locked_no_current {C} l : NoCurrent (C := C) (locked l).
Proof. by split. Qed.

Lemma enable_locked {C} `{Chip C} l en : keeps (C := C) (locked l) (p922x_enable_charge_flow en) any.
Proof. unfold p922x_enable_charge_flow, p922x_switch_set_state. keep; done. Qed.
#[export] Instance locked_kept {C} `{Chip C} l : Kept (C := C) (locked l).
Proof. split; [apply enable_locked|keep..|done]. Qed.

(** ** What leaks the lock *)

Section Leak.
Context {C : Type} `{Chip C}.

Lemma unlocks_now {A} (a : A) : unlocks (C := C) (mutex_unlock;; mret a).
Proof. intros s _. by exists (on_st (set_irq_lock false) s), a. Qed.
Lemma unlocks_bind {A B} (m : M C A) (k : A -> M C B) : keeps (locked true) m any -> (forall a, unlocks (k a)) -> unlocks (m ≫= k).
Proof. intros Hm Hk. eapply moves_bind; [exact (moves_keeps _ _ _ Hm)|exact Hk]. Qed.
Lemma lock_eq {A} (m : M C A) s : locked false s -> (mutex_lock;; m) s = m (on_st (set_irq_lock true) s).
Proof. intros Hs. apply (bind_eq mutex_lock (fun _ => m) s _ tt). unfold mutex_lock. unfold locked in Hs. by rewrite Hs. Qed.
Lemma lock_blocks {A} (m : M C A) s : irq_lock (f_st s) = true -> (mutex_lock;; m) s = Blocks.
Proof. intros Hs. unfold mbind, M_bind, mbind, outcome_bind, mutex_lock. by rewrite Hs. Qed.
Lemma bind_blocks {A B} (m : M C A) (k : A -> M C B) s : m s = Blocks -> (m ≫= k) s = Blocks.
Proof. intros E. unfold mbind, M_bind, mbind, outcome_bind. by rewrite E. Qed.
Lemma under_lock {A} (m : M C A) s : locked false s -> unlocks m -> exists s' a, (mutex_lock;; m) s = Ret (s', a) /\ locked false s'.
Proof.
  intros Hs Hm. destruct (Hm (on_st (set_irq_lock true) s) eq_refl) as (s' & a & E & Hs'). exists s', a. split; [|done]. by rewrite lock_eq.
Qed.
Ltac unlocking s :=
  match goal with |- exists s' a, ?m s = Ret _ /\ _ => cut (unlocks m); [intros Hu; by apply Hu|] end.

Lemma algorithm_unlocks (s : flow C) i :
  locked false s -> exists s' a, p922x_do_algorithm (on_in (fun _ => i) s) = Ret (s', a) /\ irq_lock (f_st s') = leaks s i EvAlgorithm.
Proof.
  intros Hs. unfold p922x_do_algorithm. set (s0 := on_in (fun _ => i) s).
  rewrite (lock_eq _ s0 Hs). cbn [leaks]. set (s1 := on_st (set_irq_lock true) s0).
  rewrite (bind_eq (gets id) _ s1 s1 s1 eq_refl). cbv beta.
  change (online (f_st s1)) with (online (f_st s)). change (force_switch (f_sw s1)) with (force_switch (f_sw s)).
  change (tx_authen_complete (f_auth s1)) with (tx_authen_complete (f_auth s)).
  destruct (online (f_st s)); cbn [negb orb andb]; [|by eexists _, _].
  destruct (force_switch (f_sw s)); cbn [negb orb andb]; [by eexists _, _|].
  destruct (tx_authen_complete (f_auth s)); cbn [negb orb andb]; [|by eexists _, _].
  assert (E2 : exists s2 r t, power_supply_get_property s1 = Ret (s2, (r, t)) /\ irq_lock (f_st s2) = true /\
            (r <? 0) = match psy_ret i with r :: _ => r <? 0 | [] => false end).
  { unfold power_supply_get_property, next_psy, mbind, M_bind, mbind, outcome_bind. change (psy_ret (f_in s1)) with (psy_ret i).
    destruct (psy_ret i); by eexists _, _, _. }
  destruct E2 as (s2 & r & t & E2 & Hs2 & <-). rewrite (bind_eq _ _ _ _ _ E2). cbn [fst snd].
  destruct (r <? 0); [by eexists _, _|]. unlocking s2.
  apply unlocks_bind; [keep|]. intros _. apply unlocks_bind; [keep|]. intros _. apply unlocks_now.
Qed.

Lemma store_unlocks (s : flow C) i buf :
  locked false s -> exists s' a, p922x_power_switch_store buf (on_in (fun _ => i) s) = Ret (s', a) /\ irq_lock (f_st s') = leaks s i (EvStore buf).
Proof.
  intros Hs. unfold p922x_power_switch_store. set (s0 := on_in (fun _ => i) s).
  rewrite (lock_eq _ s0 Hs). cbn [leaks]. set (s1 := on_st (set_irq_lock true) s0). destruct (kstrtoint buf 10) as [p|e]; [|by eexists _, _].
  destruct (negb _); [by eexists _, _|].
  unlocking s1. apply unlocks_bind; [keep|]. intros _.
  apply unlocks_bind; [eapply keeps_any, keeps_gets|]. intros x. apply unlocks_bind; [keep|]. intros _. apply unlocks_now.
Qed.

(** Every event, from a free lock. *)
Lemma handle_lock (s : flow C) i e :
  locked false s -> exists s', step s (i, e) = Ret s' /\ irq_lock (f_st s') = leaks s i e.
Proof.
  intros Hs. set (s0 := on_in (fun _ => i) s).
  assert (Hk : forall m : M C unit, keeps (locked false) m any -> exists s', (r ← m s0; Ret r.1) = Ret s' /\ irq_lock (f_st s') = false).
  { intros m Hm. destruct (Hm s0 Hs) as (s' & a & -> & Hs' & _). by exists s'. }
  assert (Hr : forall A (m : M C A) b, (exists s' a, m s0 = Ret (s', a) /\ irq_lock (f_st s') = b) ->
            exists s', (r ← (m;; mret tt) s0; Ret r.1) = Ret s' /\ irq_lock (f_st s') = b).
  { intros A m b (s' & a & E & Hb). exists s'. split; [|done]. unfold mbind at 2, M_bind. by rewrite E. }
  unfold step. cbn [fst snd]. fold s0. destruct e; cbn [handle leaks].
  - assert (Hu : unlocks (vbus_en ← p922x_get_pg_irq_status; (if vbus_en : bool then p922x_attached_vbus;; mret tt else p922x_detached_vbus);; mutex_unlock)).
    { apply unlocks_bind; [keep|]. intros b. apply unlocks_bind; [destruct b; keep|].
      intros _ s1 _. by eexists _, _. }
    destruct (under_lock _ s0 Hs Hu) as (s' & a & E & Hs'). exists s'. unfold p922x_pg_thread. by rewrite E.
  - apply Hk. keep.
  - apply Hk; keep.
  - apply Hr. by apply algorithm_unlocks.
  - apply Hr. unfold p922x_force_enable_charge. apply under_lock; [exact Hs|].
    apply unlocks_bind; [apply enable_locked|]. intros _. apply unlocks_now.
  - apply Hr. by apply store_unlocks.
  - apply Hk. keep.
  - apply Hk. keep.
  - apply Hk. keep.
  - unfold p922x_shutdown. rewrite (bind_eq (gets f_in) _ s0 s0 (f_in s0) eq_refl). cbv zeta.
    match goal with |- context [mbind ?k ?m s0] => destruct (fun Hm : keeps (locked false) m any => Hm s0 Hs) as (s1 & b & E & Hs1 & _) end.
    { destruct (_ || _); keep. }
    rewrite (bind_eq _ _ _ _ _ E). clear E. destruct b; [by exists s1|].
    match goal with |- context [mbind ?k mutex_lock s1] => destruct (under_lock (k tt) s1 Hs1) as (s' & a & E & Hs') end.
    { apply unlocks_bind; [eapply keeps_any, keeps_gets|]. intros x. apply unlocks_bind; [keep|]. intros _ s2 _. by eexists _, _. }
    exists s'. by rewrite E.
Qed.

#[export] Instance deaf_quiet b : Quiet (C := C) (deaf b).
Proof.
  split; try (intros; done).
  - intros w s Hw (H1 & H2 & H3). split_and!; [done|done|]. cbn. set_solver.
  - intros w s (H1 & H2 & H3). split_and!; [done|done|]. cbn. set_solver.
Qed.
#[export] Instance deaf_no_current b : NoCurrent (C := C) (deaf b).
Proof. by split. Qed.

Lemma deaf_step b (s : flow C) e s' : deaf b s -> step s e = Ret s' -> deaf b s'.
Proof.
  destruct e as [i e]. intros Hs. set (s0 := on_in (fun _ => i) s). assert (Hs0 : deaf b s0) by exact Hs.
  assert (Hk : forall m : M C unit, keeps (deaf b) m any -> (r ← m s0; Ret r.1) = Ret s' -> deaf b s').
  { intros m Hm. destruct (Hm s0 Hs0) as (s1 & a & -> & Hs1 & _). by intros [= <-]. }
  assert (Hb : forall A (m : M C A) s1, deaf b s1 -> (mutex_lock;; m) s1 = Blocks) by (intros A m s1 [Hl _]; by apply lock_blocks).
  unfold step. cbn [fst snd]. fold s0. destruct e; cbn [handle].
  - unfold p922x_pg_thread. by rewrite Hb.
  - apply Hk. keep.
  - apply Hk. unfold run_work. intros s1 Hs1. rewrite (bind_eq (gets _) _ s1 s1 _ eq_refl).
    destruct (bool_decide_reflect (w ∈ pending (f_world s1))) as [Hw|]; cbn [negb]; [|by eexists _, _].
    assert (w <> InitWork) by (intros ->; by destruct Hs1 as (_ & _ & ?)).
    revert s1 Hs1 Hw. cut (keeps (deaf b) (cancel w;; match w with
      | PowerSwitchWork => p922x_power_switch_work | AdaptiveWork => p922x_adaptive_current_limit_work
      | StepChargingWork => p922x_step_charging_work | EPTWork => p922x_EPT_work | InitWork => p922x_determine_init_status end) any); [auto|]. keep. done.
  - by rewrite bind_blocks by apply (Hb _ _ s0 Hs0).
  - by rewrite bind_blocks by apply (Hb _ _ s0 Hs0).
  - by rewrite bind_blocks by apply (Hb _ _ s0 Hs0).
  - apply Hk. keep.
  - apply Hk. keep.
  - apply Hk. keep.
  - unfold p922x_shutdown. rewrite (bind_eq (gets f_in) _ s0 s0 (f_in s0) eq_refl). cbv zeta.
    match goal with |- context [mbind ?k ?m s0] => destruct (fun Hm : keeps (deaf b) m any => Hm s0 Hs0) as (s1 & x & E & Hs1 & _) end.
    { destruct (_ || _); keep. }
    rewrite (bind_eq _ _ _ _ _ E). destruct x; [by intros [= <-]|]. by rewrite Hb.
Qed.

Lemma deaf_steps b es : forall (s : flow C) s', deaf b s -> steps s es = Ret s' -> deaf b s'.
Proof.
  induction es as [|e es IH]; intros s s' Hs E; cbn [steps] in E; [by injection E as <-|].
  destruct (step s e) as [s1| |] eqn:E1; try done. apply (IH s1); [by apply (deaf_step b s e)|exact E].
Qed.

Lemma deaf_blocks b (s : flow C) i e : deaf b s -> takes_lock e = true -> step s (i, e) = Blocks.
Proof.
  intros Hs He. set (s0 := on_in (fun _ => i) s).
  assert (Hb : forall A (m : M C A), (mutex_lock;; m) s0 = Blocks) by (intros A m; apply lock_blocks, Hs).
  unfold step. cbn [fst snd]. fold s0. destruct e; try done; cbn [handle].
  - unfold p922x_pg_thread. by rewrite Hb.
  - by rewrite bind_blocks by apply Hb.
  - by rewrite bind_blocks by apply Hb.
  - by rewrite bind_blocks by apply Hb.
Qed.

(** ** The dock and the thermal zone *)

#[export] Instance docks_quiet en d : Quiet (C := C) (docks en d).
Proof. by split. Qed.
#[export] Instance docks_no_current en d : NoCurrent (C := C) (docks en d).
Proof. by split. Qed.
#[export] Instance docked_quiet : Quiet (C := C) docked.
Proof. by split. Qed.
#[export] Instance docked_no_current : NoCurrent (C := C) docked.
Proof. by split. Qed.

Lemma enable_docked en : keeps (C := C) docked (p922x_enable_charge_flow en) any.
Proof.
  apply keeps_moves. intros s (tz & Hz & Hm & Ht & Hd). unfold p922x_enable_charge_flow.
  rewrite (bind_eq (gets id) _ s s s eq_refl). destruct (Bool.eqb_spec (is_enabled (f_st s)) en) as [He|He].
  { exists s, 0. split; [done|]. by exists tz. }
  revert s Hz Hm Ht Hd He. intros s Hz Hm _ _ _.
  match goal with |- exists s' a, ?m s = _ /\ _ => cut (moves (fun s => exists tz, zone (f_world s) = Some tz /\ tz_set_mode tz = true) m docked) end.
  { intros Hx. apply Hx. eauto. }
  clear. eapply (moves_bind _ _ _ (docks en None)); [by apply moves_modify|]. intros _.
  eapply (moves_bind _ _ _ (docks en (Some (if en then TYPE_DOCKED else TYPE_UNDOCKED)))).
  - destruct en.
    + eapply moves_bind; [eapply moves_keeps; keep|]. intros _.
      eapply moves_bind; [apply (moves_modify _ _ (docks true (Some TYPE_DOCKED))); intros s (? & ? & _); split_and!; [done|done|by intros v [= <-]]|].
      intros _. eapply moves_keeps. keep.
    + eapply moves_bind; [apply (moves_modify _ _ (docks false (Some TYPE_UNDOCKED))); intros s (? & ? & _); split_and!; [done|done|by intros v [= <-]]|].
      intros _. eapply moves_keeps. keep.
  - intros _. eapply moves_bind; [|intros _; eapply moves_keeps, keeps_ret].
    apply moves_modify. intros s (He & (tz & Hz & Hm) & Hd). unfold docked. cbn. rewrite Hz. cbn [fmap option_fmap option_map].
    destruct en; cbn [reset_wpc_cooler tz_set_mode]; rewrite Hm; eexists; (split; [reflexivity|]); cbn; rewrite He; (split_and!; [done|done|by apply Hd]).
Qed.
#[export] Instance docked_kept : Kept (C := C) docked.
Proof. split; [apply enable_docked|keep..|done]. Qed.
End Leak.

(** ** The end of a session *)

Section Ends.
Context {C : Type} `{Chip C}.

(** The parts of the state an update of the charger's type changes. *)
Lemma mivr_eq t (s : flow C) : exists p v r, p922x_set_charger_mivr_by_type t s = Ret (on_world (fun x => set_mivr v (set_powerpath p x)) s, r) /\
  (0 <= powerpath_ret (f_in s) -> p = negb (t =? POWER_SUPPLY_TYPE_UNKNOWN)).
Proof.
  destruct s as [b d a w c st cfg x i]. unfold p922x_set_charger_mivr_by_type. rewrite (bind_eq (gets _) _ _ _ _ eq_refl).
  cbn [f_in]. destruct (Z.ltb_spec (powerpath_ret i) 0).
  { exists (powerpath x), (mivr x), (powerpath_ret i). split; [by destruct x|lia]. }
  eexists _, (if t =? POWER_SUPPLY_TYPE_WIRELESS_10W then u32 (wpc_mivr cfg).2
     else if (t =? POWER_SUPPLY_TYPE_WIRELESS) || (t =? POWER_SUPPLY_TYPE_WIRELESS_5W) then u32 (wpc_mivr cfg).1 else mivr x), _.
  split; [|done]. destruct (Z.eqb_spec t POWER_SUPPLY_TYPE_WIRELESS_10W) as [->|]; [done|]. by destruct (_ || _).
Qed.

Lemma next_psy_eq (s : flow C) : next_psy s = Ret (on_in (set_psy_ret (tl (psy_ret (f_in s)))) s, hd 0 (psy_ret (f_in s))).
Proof. destruct s as [b d a w c st cfg x i]. unfold next_psy. cbn [f_in]. destruct i as [pg [|r psy] pp ib so bm bt mi cd]; done. Qed.

Lemma charge_type_eq t (s : flow C) : exists s' r, p922x_update_charge_type t s = Ret (s', r) /\
  exists i x, boot_mode i = boot_mode (f_in s) /\ pg_gpio i = pg_gpio (f_in s) /\
    zone x = zone (f_world s) /\ dock_state x = dock_state (f_world s) /\ pending x = pending (f_world s) /\
    (s' = mkFlow (f_bus s) (f_dev s) (f_auth s) (f_sw s) (f_cur s) (f_st s) (f_cfg s) x i \/
     s' = mkFlow (f_bus s) (f_dev s) (f_auth s) (set_chr_type t (f_sw s)) (f_cur s) (f_st s) (f_cfg s) x i) /\
    (psy_ret (f_in s) = [] -> 0 <= powerpath_ret (f_in s) ->
     psy_type x = t /\ (psy_type (f_world s) <> t -> powerpath x = negb (t =? POWER_SUPPLY_TYPE_UNKNOWN))).
Proof.
  unfold p922x_update_charge_type. set (s1 := on_in (set_psy_ret (tl (psy_ret (f_in s)))) s).
  rewrite (bind_eq _ _ _ s1 (hd 0 (psy_ret (f_in s)), psy_type (f_world s))).
  2: { unfold power_supply_get_property. by rewrite (bind_eq _ _ _ _ _ (next_psy_eq s)). }
  cbv beta zeta. cbn [fst snd]. destruct (Z.ltb_spec (hd 0 (psy_ret (f_in s))) 0) as [Hr|Hr].
  { eexists _, _. split; [reflexivity|]. exists (f_in s1), (f_world s). split_and!; try done; [by left|]. by intros E; rewrite E in Hr. }
  destruct (Z.eqb_spec (psy_type (f_world s)) t) as [Ht|Ht].
  { eexists _, _. split; [reflexivity|]. exists (f_in s1), (f_world s). split_and!; try done. by left. }
  destruct (mivr_eq t s1) as (pp & v & r & E & Hpp). rewrite (bind_eq _ _ _ _ _ E). rewrite (bind_eq (modify _) _ _ _ _ eq_refl).
  set (s2 := on_sw _ _). unfold power_supply_set_property. 
  set (r2 := hd 0 (psy_ret (f_in s2))). set (s3 := on_in (set_psy_ret (tl (psy_ret (f_in s2)))) s2).
  rewrite (bind_eq _ _ s2 (if 0 <=? r2 then on_world (set_psy_type t) s3 else s3) r2).
  2: { rewrite (bind_eq _ _ _ _ _ (next_psy_eq s2)). fold r2 s3. clearbody r2 s3. by destruct (0 <=? r2). }
  destruct (Z.leb_spec 0 r2) as [E2|E2]; (eexists _, _; split; [reflexivity|]; eexists (f_in s3), _; split_and!; [done|done| | | |right; reflexivity|]; try done).
  - intros _ Hp. split; [done|]. intros _. by apply Hpp.
  - intros E3. exfalso. unfold r2 in E2. change (psy_ret (f_in s2)) with (tl (psy_ret (f_in s))) in E2. rewrite E3 in E2. done.
Qed.

Lemma disable_eq (s : flow C) : is_enabled (f_st s) = true ->
  exists s', p922x_enable_charge_flow false s = Ret (s', 0) /\ ended s s' /\ boot_mode (f_in s') = boot_mode (f_in s) /\
    irq_lock (f_st s') = irq_lock (f_st s).
Proof.
  intros He. unfold p922x_enable_charge_flow. rewrite (bind_eq (gets id) _ s s s eq_refl). rewrite He. cbn [Bool.eqb].
  rewrite (bind_eq (modify _) _ _ _ _ eq_refl).
  match goal with |- context [mbind _ ?m ?s1] => set (block := m); set (s1' := s1) end.
  assert (E : exists s2, block s1' = Ret (s2, tt) /\ ended s s2 /\ boot_mode (f_in s2) = boot_mode (f_in s) /\ irq_lock (f_st s2) = irq_lock (f_st s)).
  { unfold block. rewrite (bind_eq (p922x_switch_set_state _) _ _ _ _ eq_refl).
    rewrite (bind_eq p922x_clear_fast_charge_switch _ _ _ _ eq_refl). rewrite (bind_eq (modify _) _ _ _ _ eq_refl).
    match goal with |- context [mbind _ (p922x_update_charge_type _) ?s1] => set (s2 := s1) end.
    destruct (charge_type_eq POWER_SUPPLY_TYPE_UNKNOWN s2) as (s3 & r & E & i & x & Hi & _ & _ & _ & Hp & Hs & Hpsy).
    rewrite (bind_eq _ _ _ _ _ E). eexists. split; [reflexivity|].
    assert (Hx : psy_ret (f_in s) = [] -> 0 <= powerpath_ret (f_in s) ->
      psy_type x = POWER_SUPPLY_TYPE_UNKNOWN /\ (psy_type (f_world s) <> POWER_SUPPLY_TYPE_UNKNOWN -> powerpath x = false)) by exact Hpsy.
    destruct Hs as [-> | ->]; (split; [|by split]); unfold ended; cbn; (split_and!; try done; exact Hp). }
  destruct E as (s2 & E & Hend & Hb & Hl). rewrite (bind_eq _ _ _ _ _ E). eexists. split; [reflexivity|]. done.
Qed.
(** The handler of the power-good interrupt when the charger is gone. *)
Lemma detach_eq (s : flow C) i l : irq_lock (f_st s) = false -> pg_gpio i = false :: l ->
  exists s', step s (i, EvPg) = Ret s' /\ irq_lock (f_st s') = false /\ is_enabled (f_st s') = false /\
    (is_enabled (f_st s) = true -> ended (on_in (fun _ => i) s) s') /\
    ((boot_mode i = KERNEL_POWER_OFF_CHARGING_BOOT \/ boot_mode i = LOW_POWER_OFF_CHARGING_BOOT) -> list.last (effects (f_world s')) = Some PowerOff).
Proof.
  intros Hs Hpg. unfold step. cbn [fst snd handle]. set (s0 := on_in (fun _ => i) s). unfold p922x_pg_thread.
  rewrite (lock_eq _ s0 Hs). set (s1 := on_st (set_irq_lock true) s0).
  assert (E1 : exists i', p922x_get_pg_irq_status s1 = Ret (on_in (fun _ => i') s1, false) /\ psy_ret i' = psy_ret i /\
            powerpath_ret i' = powerpath_ret i /\ boot_mode i' = boot_mode i).
  { unfold p922x_get_pg_irq_status. change (pg_gpio (f_in s1)) with (pg_gpio i). rewrite Hpg. destruct l; by eexists. }
  destruct E1 as (i' & E1 & Hpsy & Hpp & Hbm). rewrite (bind_eq _ _ _ _ _ E1). cbv iota. unfold p922x_detached_vbus.
  assert (E2 : exists s2, p922x_enable_charge_flow false
      (on_st (set_pg_time (boottime i', (pg_time (f_st s)).2)) (on_in (fun _ => i') s1)) = Ret (s2, 0) /\
      irq_lock (f_st s2) = true /\ is_enabled (f_st s2) = false /\ boot_mode (f_in s2) = boot_mode i /\
      (is_enabled (f_st s) = true -> ended s0 s2)).
  { set (s1' := on_st _ _). destruct (is_enabled (f_st s)) eqn:He.
    - destruct (disable_eq s1' He) as (s2 & E & Hend & Hb & Hl). exists s2. split_and!; [done|done|by destruct Hend|by rewrite Hb|].
      intros _. unfold ended in *. cbn in *. by rewrite Hpsy, Hpp in Hend.
    - exists s1'. unfold p922x_enable_charge_flow. rewrite (bind_eq (gets id) _ s1' s1' s1' eq_refl).
      change (is_enabled (f_st s1')) with (is_enabled (f_st s)). rewrite He. done. }
  destruct E2 as (s2 & E2 & Hl2 & He2 & Hb2 & Hend).
  assert (E3 : exists s3, p922x_detached_vbus (on_in (fun _ => i') s1) = Ret (s3, tt) /\ is_enabled (f_st s3) = false /\
    (is_enabled (f_st s) = true -> ended s0 s3) /\
    ((boot_mode i = KERNEL_POWER_OFF_CHARGING_BOOT \/ boot_mode i = LOW_POWER_OFF_CHARGING_BOOT) -> list.last (effects (f_world s3)) = Some PowerOff)).
  { unfold p922x_detached_vbus. rewrite (bind_eq (modify _) _ _ _ _ eq_refl). rewrite (bind_eq _ _ _ _ _ E2).
    rewrite (bind_eq (gets f_cfg) _ _ _ _ eq_refl).
    assert (E4 : exists o l, when (support_ovp_en (f_cfg s2)) (p922x_set_ovp_en false;; mret tt) s2 =
      Ret (on_world (set_effects l) (on_st (set_ovp_en o) s2), tt)).
    { unfold p922x_set_ovp_en. assert (Hid : s2 = on_world (set_effects (effects (f_world s2))) (on_st (set_ovp_en (ovp_en (f_st s2))) s2)).
      { by destruct s2 as [? ? ? ? ? [] ? [] ?]. }
      destruct (support_ovp_en (f_cfg s2)) eqn:Eo; cbn [when]; [|by eexists _, _; rewrite <- Hid].
      rewrite (bind_eq _ _ s2 (if Bool.eqb (ovp_en (f_st s2)) false then s2 else
        on_world (add_effect (SelectState "ovp_en1")) (on_st (set_ovp_en false) s2)) 0).
      2: { rewrite (bind_eq (gets f_cfg) _ s2 s2 _ eq_refl). rewrite Eo. cbn [negb]. rewrite (bind_eq (gets _) _ s2 s2 _ eq_refl).
        by destruct (ovp_en (f_st s2)). }
      destruct (Bool.eqb _ false); [by eexists _, _; rewrite <- Hid|]. by exists false, (effects (f_world s2) ++ [SelectState "ovp_en1"]). }
    destruct E4 as (o & l' & E4). rewrite (bind_eq _ _ _ _ _ E4). rewrite (bind_eq (gets _) _ _ _ _ eq_refl). cbn [f_in on_st on_world]. rewrite Hb2.
    destruct (Z.eqb_spec (boot_mode i) KERNEL_POWER_OFF_CHARGING_BOOT), (Z.eqb_spec (boot_mode i) LOW_POWER_OFF_CHARGING_BOOT); cbn [orb when];
      eexists; (split; [reflexivity|]); (split_and!; [done|exact Hend|intros Hk; try (by destruct Hk); cbn; by rewrite list.last_snoc]). }
  destruct E3 as (s3 & E3 & He3 & Hend3 & Hoff). unfold p922x_detached_vbus in E3. rewrite (bind_eq _ _ _ _ _ E3).
  eexists. split; [reflexivity|]. split_and!; [done|exact He3|exact Hend3|exact Hoff].
Qed.
End Ends.

(** ** The authentication across a reboot *)

Section Reboot.
Context {C : Type} `{Chip C} `{!KeepsSources C}.
Lemma sources_fill l : forall (c : C) a, 0x37 < a -> a + Z.of_nat (length l) <= REG_COMMAND \/ REG_COMMAND < a ->
  chip_bytes (chip_fill c a l) REG_INTR 2 = chip_bytes c REG_INTR 2.
Proof.
  induction l as [|v l IH]; intros c a Ha Hc; cbn [chip_fill length] in *; [done|]. rewrite IH by (unfold REG_COMMAND in *; lia). cbn [chip_bytes].
  by rewrite !sources_other by (unfold REG_INTR, REG_COMMAND in *; lia).
Qed.
Lemma sources_switch (c : C) : chip_bytes (chip_write c REG_COMMAND VSWITCH) REG_INTR 2 = chip_bytes c REG_INTR 2.
Proof. cbn [chip_bytes]. by rewrite !sources_other by (unfold REG_INTR, REG_COMMAND in *; lia). Qed.

Lemma only_bus_refl (s : flow C) : no_faults (f_bus s) -> only_bus s s.
Proof. intros Hb. exists (f_bus s). by destruct s. Qed.

Lemma switch_only_bus mv (s : flow C) : no_faults (f_bus s) -> exists s', p922x_power_switch mv s = Ret (s', tt) /\ only_bus s s'.
Proof.
  intros Hb. unfold p922x_power_switch, io, mbind, M_bind, mbind, outcome_bind, mret, M_ret.
  rewrite write_buffer_ok by (done || by unfold le_enc). cbn [on_bus f_bus]. rewrite write_ok by done.
  eexists. split; [reflexivity|]. eexists. split; [reflexivity|]. split; [done|]. unfold sources. cbn [on_bus f_bus chip].
  change (u8 VSWITCH) with VSWITCH. rewrite sources_switch. apply sources_fill; unfold REG_FC_VOLTAGE, REG_COMMAND; lia.
Qed.

Lemma fod_only_bus t (s : flow C) : no_faults (f_bus s) -> fod_data (f_cfg s) t <> Some [] -> exists s', p922x_write_fod t s = Ret (s', tt) /\ only_bus s s'.
Proof.
  intros Hb Hf. unfold p922x_write_fod. rewrite (bind_eq (gets f_cfg) _ _ _ _ eq_refl). destruct (fod_data (f_cfg s) t) as [l|].
  2: { exists s. split; [done|by apply only_bus_refl]. }
  unfold io, mbind, M_bind, mbind, outcome_bind, mret, M_ret. rewrite write_buffer_ok by (done || congruence). cbn [Z.eqb when on_bus f_bus].
  change 16 with (Z.of_nat 16). rewrite read_buffer_ok by (done || lia). eexists. split; [reflexivity|]. eexists. split; [reflexivity|].
  split; [done|]. unfold sources. cbn [on_bus f_bus chip]. apply sources_fill; unfold REG_FOD_COEF_ADDR, REG_COMMAND; lia.
Qed.

Lemma has_int_lor v w bit : Z.land v AUTH_MASK = 0 -> Z.land AUTH_MASK bit = bit -> has_int (Z.lor v w) bit = has_int w bit.
Proof.
  intros Hv Hb. unfold has_int. rewrite Z.land_lor_distr_l. rewrite <- Hb at 1. by rewrite Z.land_assoc, Hv.
Qed.
Lemma read16_ok (b : bus C) reg : no_faults b -> read16 reg b = (mkBus (chip b) [], (0, le16 (chip_bytes (chip b) reg 2))).
Proof. intros Hb. unfold read16. change 2 with (Z.of_nat 2). by rewrite read_buffer_ok by (done || lia). Qed.

Lemma sources_written (c : C) v : 0 <= v < 65536 -> le16 (chip_bytes (chip_fill c REG_INTR (le_enc 2 v)) REG_INTR 2) = v.
Proof.
  intros Hv. cbn [le_enc chip_fill chip_bytes].
  rewrite (sources_other _ (REG_INTR + 1) _ REG_INTR) by (unfold REG_INTR, REG_COMMAND; lia).
  rewrite !sources_given by (unfold REG_INTR; lia || (apply Z.mod_pos_bound; lia)). unfold le16. cbn.
  rewrite Z.lor_comm, lor_shiftl by (lia || (apply Z.mod_pos_bound; lia)). Z.div_mod_to_equations. lia.
Qed.

(** What a shutdown leaves in the sources. *)
Lemma shutdown_sources (s : flow C) i :
  no_faults (f_bus s) -> irq_lock (f_st s) = false -> online (f_st s) = true -> pg_gpio i = [true] -> bpp_5w_fod (f_cfg s) <> [] ->
  0 <= le16 (sources s) < 65536 ->
  exists s', step s (i, EvShutdown) = Ret s' /\ no_faults (f_bus s') /\ le16 (sources s') = Z.lor (le16 (sources s)) (auth_sources (f_auth s)).
Proof.
  intros Hb Hs Ho Hpg Hfod Hr. unfold step. cbn [fst snd handle]. set (s0 := on_in (fun _ => i) s). unfold p922x_shutdown.
  rewrite (bind_eq (gets f_in) _ s0 s0 (f_in s0) eq_refl). cbv zeta.
  match goal with |- context [mbind _ ?m s0] => assert (E : m s0 = Ret (s0, false)) end.
  { destruct (_ || _); [|done]. unfold p922x_get_pg_irq_status, mbind, M_bind, mbind, outcome_bind, mret, M_ret.
    change (pg_gpio (f_in s0)) with (pg_gpio i). by rewrite Hpg. }
  rewrite (bind_eq _ _ _ _ _ E). clear E. rewrite (lock_eq _ s0 Hs). set (s1 := on_st (set_irq_lock true) s0).
  rewrite (bind_eq (gets id) _ s1 s1 s1 eq_refl). change (online (f_st s1)) with (online (f_st s)). rewrite Ho. cbn [when].
  match goal with |- context [mbind _ ?m s1] => assert (E : exists s2, m s1 = Ret (s2, tt) /\ no_faults (f_bus s2) /\
     le16 (sources s2) = Z.lor (le16 (sources s)) (auth_sources (f_auth s))) end.
  2: { destruct E as (s2 & E & Hb2 & Hs2). rewrite (bind_eq _ _ _ _ _ E). eexists. split; [reflexivity|]. done. }
  rewrite (bind_eq (modify _) _ _ _ _ eq_refl), (bind_eq (cancel _) _ _ _ _ eq_refl).
  match goal with |- context [mbind _ (when ?c ?m) ?x] => set (s2 := x); assert (E : exists s3, when c m s2 = Ret (s3, tt) /\ only_bus s2 s3) end.
  { destruct (_ =? _); cbn [when]; [|exists s2; split; [done|by apply only_bus_refl]].
    destruct (switch_only_bus ((switch_5w (f_cfg s1)).1.2) s2) as (s3 & E3 & b3 & -> & Hb3 & Hs3); [done|]. rewrite (bind_eq _ _ _ _ _ E3).
    destruct (fod_only_bus POWER_SUPPLY_TYPE_WIRELESS_5W (on_bus b3 s2)) as (s4 & E4 & b4 & -> & Hb4 & Hs4); [done| |].
    { change (fod_data (f_cfg (on_bus b3 s2)) POWER_SUPPLY_TYPE_WIRELESS_5W) with
        (if bpp_5w_fod_num (f_cfg s) =? 16 then Some (bpp_5w_fod (f_cfg s)) else None).
      destruct (_ =? _); [|done]. intros [= E]. by apply Hfod. }
    rewrite E4. eexists. split; [reflexivity|]. exists b4. split; [done|]. split; [done|]. by rewrite Hs4, Hs3. }
  destruct E as (s3 & E & b3 & -> & Hb3 & Hs3). rewrite (bind_eq _ _ _ _ _ E), (bind_eq (log _) _ _ _ _ eq_refl).
  change (f_auth s1) with (f_auth s). destruct (Z.eqb_spec (auth_sources (f_auth s)) 0) as [Ha|Ha]; cbn [negb when].
  { eexists. split; [reflexivity|]. split; [done|]. rewrite Ha, Z.lor_0_r. f_equal. exact Hs3. }
  unfold io, mbind, M_bind, mbind, outcome_bind, mret, M_ret. rewrite read16_ok by done. cbn [on_bus f_bus snd].
  rewrite write_buffer_ok by (done || by unfold le_enc). eexists. split; [reflexivity|]. split; [done|].
  unfold sources at 1. cbn [on_bus f_bus chip on_world].
  assert (Hl : le16 (chip_bytes (chip b3) REG_INTR 2) = le16 (sources s)) by (f_equal; exact Hs3). rewrite Hl.
  apply sources_written. assert (Hq : 0 <= auth_sources (f_auth s) < 65536).
  { unfold auth_sources. destruct (tx_authen_complete (f_auth s)), (tx_dev_authen_status (f_auth s)), (tx_id_authen_status (f_auth s)); done. }
  split; [apply Z.lor_nonneg; lia|]. change 65536 with (2 ^ 16). apply Z_bounded_bits; [lia|apply Z.lor_nonneg; lia|].
  intros k Hk. rewrite Z.lor_spec, !(testbit_above 16) by lia. done.
Qed.

Lemma attach_status_eq (s : flow C) : no_faults (f_bus s) -> pg_gpio (f_in s) = [true] ->
  exists s', p922x_get_attach_status s = Ret (s', true) /\ f_auth s' = restore_auth (le16 (sources s)) (f_auth s).
Proof.
  intros Hb Hpg. unfold p922x_get_attach_status.
  assert (E : p922x_get_pg_irq_status s = Ret (s, true)) by (unfold p922x_get_pg_irq_status; by rewrite Hpg). rewrite (bind_eq _ _ _ _ _ E). clear E.
  assert (E : exists b, kept_sources s = Ret (on_bus b s, Some (le16 (sources s)))).
  { unfold kept_sources, io, mbind, M_bind, mbind, outcome_bind, mret, M_ret. rewrite read16_ok by done. cbn [fst snd Z.eqb negb on_bus f_bus].
    fold (sources s). destruct (Z.eqb_spec (le16 (sources s)) 0) as [->|]; [by eexists|].
    rewrite write_buffer_ok by (done || by unfold le_enc). cbn [Z.eqb negb on_bus f_bus]. rewrite write_ok by done. cbn [Z.eqb negb on_bus f_bus].
    rewrite write_buffer_ok by (done || by unfold le_enc). by eexists. }
  destruct E as [b E]. rewrite (bind_eq _ _ _ _ _ E). eexists. split; [reflexivity|]. done.
Qed.
End Reboot.

(** ** Properties *)

Section LockTheorem.
Context {C : Type} `{Chip C}.

(** C14. The lock of the charging flow: from a free lock every event returns, and
    it frees the lock unless it is one of the two that leak it: an algorithm run
    that cannot read the charger's type, and a write of a number that is no power
    to the attribute. After a leak (once the driver is set up), and through
    whatever follows, the flow stays as it is (enabled, if it was): the removal of
    the charger, the algorithm and the attribute wait for ever. *)
Theorem lock_leak (s : flow C) i e :
  irq_lock (f_st s) = false ->
  exists s', step s (i, e) = Ret s' /\ irq_lock (f_st s') = leaks s i e /\
    (leaks s i e = true -> InitWork ∉ pending (f_world s') ->
     forall es s'', steps s' es = Ret s'' ->
       is_enabled (f_st s'') = is_enabled (f_st s') /\
       forall i' e', takes_lock e' = true -> step s'' (i', e') = Blocks).
Proof.
  intros Hs. destruct (handle_lock s i e Hs) as (s' & E & Hl). exists s'. split; [exact E|]. split; [exact Hl|].
  intros Hk Hp es s'' Es. rewrite Hk in Hl.
  assert (Hd : deaf (is_enabled (f_st s')) s'') by (by apply (deaf_steps _ es s')).
  split; [by destruct Hd as (_ & ? & _)|]. intros i' e' He. by apply (deaf_blocks _ s'' i' e' Hd).
Qed.

(** C6. The dock, the thermal zone and the flow agree through every sequence of
    events, whatever the transfers and calls come to; and when the charger is
    gone (and the lock is free) all three are off. What a flow that was enabled
    leaves is exactly [ended]: none of the session's works is scheduled; the
    authentication, the adapter, the switch that was forced, the charger's type of
    the driver, the 10 W and the previous input current, the adaptive limit and
    the step charging are as a probe or a first end leaves them; the type and the
    power path of the charger's supply too, provided the supply can be read and
    set and the path can be queried. It leaves alone, for later events to
    overwrite: the counter of the voltage switch, the average of the current, the
    retries of the authentication and the last limit that was exceeded. *)
Theorem session_ends (s0 s : flow C) es i l :
  docked s0 -> steps s0 es = Ret s ->
  docked s /\
  (irq_lock (f_st s) = false -> pg_gpio i = false :: l ->
   exists s', step s (i, EvPg) = Ret s' /\ docked s' /\ irq_lock (f_st s') = false /\ is_enabled (f_st s') = false /\
     (is_enabled (f_st s) = true -> ended (on_in (fun _ => i) s) s')).
Proof.
  intros H0 E. assert (Hd : docked s) by (by apply (steps_keep_all docked ltac:(done) es s0)). split; [exact Hd|]. intros Hl Hpg.
  destruct (detach_eq s i l Hl Hpg) as (s' & E' & Hl' & He' & Hend & _). exists s'. split_and!; try done.
  by apply (step_keeps_all docked ltac:(done) s (i, EvPg)).
Qed.
End LockTheorem.

(** A charger driver whose supply does not answer, with the authentication
    complete: the charger is taken off and its interrupt waits. *)
Lemma lock_leak_witness :
  let s := demo_flow (set_is_enabled true (set_online true demo_status)) (set_complete true fresh_auth) (demo_world true) in
  exists s', step (H := ram_chip) s (demo_inputs true [-19] 0, EvAlgorithm) = Ret s' /\ is_enabled (f_st s') = true /\
    step (H := ram_chip) s' (demo_inputs false [] 0, EvPg) = Blocks.
Proof.
  intros s. destruct (lock_leak (H := ram_chip) s (demo_inputs true [-19] 0) EvAlgorithm eq_refl) as (s' & E & _ & Hl).
  exists s'. assert (Hp : (InitWork ∉ pending (f_world s')) /\ is_enabled (f_st s') = true).
  { vm_compute in E. injection E as <-. split; [|done]. apply (bool_decide_unpack _). reflexivity. }
  destruct Hp as [Hp He]. split; [exact E|]. split; [exact He|].
  destruct (Hl eq_refl Hp [] s' eq_refl) as [_ Hb]. by apply Hb.
Defined.

(** Put on a charger and taken off again. *)
Lemma session_ends_witness :
  let s0 := demo_flow demo_status fresh_auth (demo_world false) in
  exists s s', steps (H := ram_chip) s0 [(demo_inputs true [] 0, EvPg)] = Ret s /\ is_enabled (f_st s) = true /\
    step (H := ram_chip) s (demo_inputs false [] 0, EvPg) = Ret s' /\ docked s' /\ ended (on_in (fun _ => demo_inputs false [] 0) s) s'.
Proof.
  intros s0. destruct (steps (H := ram_chip) s0 [(demo_inputs true [] 0, EvPg)]) as [s| |] eqn:E; [|vm_compute in E; done..].
  exists s. edestruct (session_ends (H := ram_chip) s0 s [(demo_inputs true [] 0, EvPg)] (demo_inputs false [] 0) []) as [_ Hd];
    [exists (mkZone false true [mkInstance WPC_COOLER_NAME 2 2 0]); by repeat split|exact E|].
  assert (Hs : irq_lock (f_st s) = false /\ is_enabled (f_st s) = true) by (vm_compute in E; injection E as <-; done).
  destruct Hs as [Hl He]. destruct (Hd Hl eq_refl) as (s' & E' & Hd' & _ & _ & Hend). exists s'.
  exact (conj eq_refl (conj He (conj E' (conj Hd' (Hend He))))).
Defined.

Section RebootTheorem.
Context {C : Type} `{Chip C} `{!KeepsSources C}.

(** C32. The authentication across a reboot: the shutdown writes its outcome into
    the chip's interrupt register, where the next boot finds it. Without failing
    transfers, and with no authentication interrupt that was not handled, the boot
    knows whether it is complete and whether the device passed, and fast charging
    is allowed after the reboot exactly if the device had passed; of a complete
    authentication that only the identity passed it forgets the identity. *)
Theorem auth_survives_reboot (s fresh : flow C) i :
  no_faults (f_bus s) -> irq_lock (f_st s) = false -> online (f_st s) = true -> pg_gpio i = [true] -> bpp_5w_fod (f_cfg s) <> [] ->
  0 <= le16 (sources s) < 65536 -> Z.land (le16 (sources s)) AUTH_MASK = 0 ->
  f_auth fresh = fresh_auth -> pg_gpio (f_in fresh) = [true] ->
  exists s', step s (i, EvShutdown) = Ret s' /\
    (f_bus fresh = f_bus s' ->
     exists s'', p922x_get_attach_status fresh = Ret (s'', true) /\
       tx_authen_complete (f_auth s'') = tx_authen_complete (f_auth s) /\
       tx_dev_authen_status (f_auth s'') = tx_authen_complete (f_auth s) && tx_dev_authen_status (f_auth s) /\
       tx_id_authen_status (f_auth s'') = if tx_authen_complete (f_auth s) then tx_dev_authen_status (f_auth s) else tx_id_authen_status (f_auth s)).
Proof.
  intros Hb Hs Ho Hpg Hfod Hr Hm Hf Hpg'. destruct (shutdown_sources s i Hb Hs Ho Hpg Hfod Hr) as (s' & E & Hb' & Hs').
  exists s'. split; [exact E|]. intros Hbus. destruct (attach_status_eq fresh) as (s'' & E'' & Ea); [by rewrite Hbus|done|].
  exists s''. split; [exact E''|]. rewrite Ea. replace (sources fresh) with (sources s') by (unfold sources; by rewrite Hbus).
  rewrite Hs', Hf. unfold restore_auth. rewrite !(has_int_lor _ _ _ Hm) by done. unfold auth_sources, fresh_auth.
  by destruct (tx_authen_complete (f_auth s)), (tx_dev_authen_status (f_auth s)), (tx_id_authen_status (f_auth s)).
Qed.
End RebootTheorem.

Lemma ram_sources : KeepsSources (Z -> Z) (H := ram_chip).
Proof.
  constructor.
  - intros c a v x _ Ha _. cbn. by destruct (Z.eqb_spec x a); [congruence|].
  - intros c a v _ _. cbn. by rewrite Z.eqb_refl.
Qed.

(** The device has passed; after the reboot the driver knows it. *)
Lemma auth_survives_reboot_witness :
  let s := demo_flow (set_online true demo_status) (mkAuth true true true 0 false 0 0) (demo_world false) in
  let fresh b := on_bus b (demo_flow demo_status fresh_auth (demo_world false)) in
  exists s' s'', step (H := ram_chip) s (demo_inputs true [] 0, EvShutdown) = Ret s' /\
    p922x_get_attach_status (H := ram_chip) (fresh (f_bus s')) = Ret (s'', true) /\
    tx_dev_authen_status (f_auth s'') = true /\ tx_id_authen_status (f_auth s'') = true /\ tx_authen_complete (f_auth s'') = true.
Proof.
  intros s fresh. destruct (step (H := ram_chip) s (demo_inputs true [] 0, EvShutdown)) as [s'| |] eqn:E; [|vm_compute in E; done..].
  exists s'. destruct (auth_survives_reboot (H := ram_chip) (KeepsSources0 := ram_sources) s (fresh (f_bus s')) (demo_inputs true [] 0))
    as (s1 & E1 & Hr); try reflexivity; [done|vm_compute; split; congruence|]. rewrite E in E1. injection E1 as <-.
  destruct (Hr eq_refl) as (s'' & E2 & Hc & Hd & Hi). exists s''. by split_and!.
Defined.
