(* ===== verification/P922xCharge.v ===== *)
(** * The wireless receiver: the input current and the works

    What the works of [P922xFlow] do with the 10 W input current: the bounds it
    keeps through every order of events, the adaptive limit against the average of
    the last readings, the steps up to the maximum, and the retries of the voltage
    switch. *)

From Stdlib Require Import String.
From stdpp Require Import base tactics numbers list gmap option.
From S2P Require Import Prelude Kstrtox Printf P922x P922xCal P922xFlow P922xSession.

(** ** Specification *)

(** A configuration whose 10 W currents are all between [lo] and [hi], in
    microamperes; the step does not leave the int. *)
Record sane (cfg : config) (lo hi : Z) : Prop := {
  sane_lo : 0 <= lo;
  sane_hi : hi < 2147483648;
  sane_default : lo <= bpp_10w_default_input_current cfg * 1000 <= hi;
  sane_adaptive : lo <= adaptive_start_ma cfg * 1000 <= hi;
  sane_step_start : lo <= step_start_ma cfg * 1000 <= hi;
  sane_step_max : lo <= step_max_ua cfg <= hi;
  sane_step : 0 <= step_ma cfg * 1000 /\ hi + step_ma cfg * 1000 < 2147483648;
  sane_limit : min_current_limit cfg <= max_current_limit cfg;
  sane_min : lo <= min_current_limit cfg * 1000;
  sane_max : max_current_limit cfg * 1000 <= hi }.

(** The charger driver's algorithm is asked for its limits with a 10 W current
    within the bounds. *)
Definition allowed (lo hi : Z) (e : effect) : Prop :=
  match e with
  | ApplySetting ua _ _ => lo <= ua <= hi
  | _ => True
  end.
Definition bounded {C} (cfg : config) (lo hi : Z) (s : flow C) : Prop :=
  f_cfg s = cfg /\ lo <= wireless_10w_ua (f_cur s) <= hi /\ Forall (allowed lo hi) (effects (f_world s)).

(** What the adaptive limit is meant to be, of the readings accepted so far (the
    newest first): [None] until there are six, then 100 mA steps of their
    average and the margin, within the limits. A reading far from the last
    average is taken again; one that fails is none. *)
Definition average (l : list Z) : Z := Z.quot (foldr Z.add 0 (take IBUS_BUFFER_SIZE l)) (Z.of_nat IBUS_BUFFER_SIZE).
Definition limit_of (cfg : config) (a : Z) : Z :=
  clamp (min_current_limit cfg) (max_current_limit cfg) (Z.quot a 100 * 100 + margin cfg).
Definition milli (r : Z + Z) : option Z := match r with inl v => Some (Z.quot v 1000) | inr _ => None end.
Definition next_reading (rs : list (Z + Z)) : option Z * list (Z + Z) :=
  match rs with [] => (None, []) | r :: rs => (milli r, rs) end.
Definition far (a i : Z) : bool := negb (a =? 0) && (FILTER_THRESHOLD <? Z.abs (i - a)).

(** A reading of the current: the accepted readings and their last average after
    it (0 if there is none), and the target. *)
Definition adaptive_spec (cfg : config) (h : list Z) (a : Z) (rs : list (Z + Z)) : list Z * Z * option Z :=
  match next_reading rs with
  | (None, _) => (h, a, None)
  | (Some i, rs) =>
    if Nat.ltb (length h) (IBUS_BUFFER_SIZE - 1) then (i :: h, a, None)
    else
      let i := if far a i then default i (next_reading rs).1 else i in
      (i :: h, average (i :: h), Some (limit_of cfg (average (i :: h))))
  end.

(** The limit is adapted from the first run on that finds the charge at its start
    and no step charging; before, a run changes nothing. *)
Definition gate_open (cfg : config) (step on : bool) (i : inputs) : bool := on || (negb step && (start_soc cfg <=? uisoc i)).

(** The 10 W current after a run of the work for each of the inputs: a positive
    target sets it. *)
Fixpoint adaptive_run (cfg : config) (step on : bool) (h : list Z) (a ua : Z) (ins : list inputs) : Z :=
  match ins with
  | [] => ua
  | i :: ins =>
    let on := gate_open cfg step on i in
    let '(h, a, t) := if on then adaptive_spec cfg h a (ibus_in i) else (h, a, None) in
    adaptive_run cfg step on h a (match t with Some t => if 0 <? t then t * 1000 else ua | None => ua end) ins
  end.

(** A reading of a current below 100 A. *)
Definition plausible (r : Z + Z) : Prop := match r with inl v => 0 <= v < 100000000 | inr _ => True end.

(** A run of the work with the charger there. *)
Definition powered (i : inputs) : Prop := pg_gpio i = [true] /\ Forall plausible (ibus_in i).
Definition runs_of (w : work) (ins : list inputs) : list (inputs * event) := map (fun i => (i, EvWork w)) ins.

(** Limits that fit an int. *)
Definition fits (cfg : config) : Prop :=
  -1000000 <= margin cfg < 1000000 /\ min_current_limit cfg < 2000000 /\ max_current_limit cfg < 2000000.

(** The ring holds the newest of the accepted readings, ending before the index. *)
Definition ring_holds (c : current) (h : list Z) : Prop :=
  length (ibus c) = IBUS_BUFFER_SIZE /\ (current_index c < IBUS_BUFFER_SIZE)%nat /\
  fill_count c = Z.of_nat (Nat.min (IBUS_BUFFER_SIZE - 1) (length h)) /\
  (forall k, (k < length h)%nat -> (k < IBUS_BUFFER_SIZE)%nat ->
     ibus c !! ((current_index c + (IBUS_BUFFER_SIZE - 1 - k)) mod IBUS_BUFFER_SIZE)%nat = h !! k).

(** A target that is a current within the bounds. *)
Definition target_ok (lo hi t : Z) : Prop := 0 < t -> lo <= t * 1000 <= hi.

(** All the rest of the state that the work looks at. *)
Definition but_ring {C} (s s' : flow C) : Prop :=
  f_cfg s' = f_cfg s /\ f_sw s' = f_sw s /\ f_world s' = f_world s /\ pg_gpio (f_in s') = pg_gpio (f_in s) /\ uisoc (f_in s') = uisoc (f_in s) /\
  wireless_10w_ua (f_cur s') = wireless_10w_ua (f_cur s) /\ on_adaptive (f_cur s') = on_adaptive (f_cur s) /\
  on_step_charging (f_cur s') = on_step_charging (f_cur s).
Definition small (x : Z) : Prop := 0 <= x < 100000.
(** The state after the accepted readings [h] with the average [a]. *)
Definition adapting {C} (h : list Z) (a : Z) (s : flow C) : Prop :=
  ring_holds (f_cur s) h /\ avg (f_cur s) = a /\ Forall small h /\ small a.

(** The work is scheduled, in a session at 10 W whose limit is adapted ([on]) or
    will be. *)
Definition ready {C} (step on : bool) (h : list Z) (a : Z) (s : flow C) : Prop :=
  ring_holds (f_cur s) h /\ (h = [] /\ a = 0 \/ h <> [] /\ avg (f_cur s) = a) /\ Forall small h /\ small a /\
  chr_type (f_sw s) = POWER_SUPPLY_TYPE_WIRELESS_10W /\ on_adaptive (f_cur s) = on /\ on_step_charging (f_cur s) = step /\
  AdaptiveWork ∈ pending (f_world s).

(** A step and a maximum that fit an int. *)
Definition steps_fit (cfg : config) : Prop :=
  0 <= step_max_ua cfg /\ 0 < step_ma cfg * 1000 /\ step_max_ua cfg + step_ma cfg * 1000 < 2147483648.

(** How many runs the step charging takes from [ua] to the maximum: one for each
    step, and one to find it there. *)
Definition step_runs (cfg : config) (ua : Z) : nat :=
  S (Z.to_nat ((step_max_ua cfg - ua + step_ma cfg * 1000 - 1) / (step_ma cfg * 1000))).
Definition ramp (cfg : config) (ua : Z) (k : nat) : Z :=
  Z.max ua (Z.min (step_max_ua cfg) (ua + Z.of_nat k * (step_ma cfg * 1000))).

(** The voltage the work finds, and that it is outside the window in each of its
    runs. *)
Definition measured {C} `{Chip C} (s : flow C) : Z :=
  match p922x_get_vout_adc s with Ret (_, vout) => vout | _ => 0 end.
Definition in_window {C} `{Chip C} (s : flow C) : bool :=
  (switch_vth_low (f_sw s) <=? measured s) && (measured s <=? switch_vth_high (f_sw s)).
Fixpoint outside {C} `{Chip C} (s : flow C) (ins : list inputs) : Prop :=
  match ins with
  | [] => True
  | i :: ins => in_window s = false /\ forall s', step s (i, EvWork PowerSwitchWork) = Ret s' -> outside s' ins
  end.

(** ** Bounds *)

Section Bounds.
Context {C : Type} `{Chip C} (cfg : config) (lo hi : Z).
Hypothesis Hsane : sane cfg lo hi.
#[local] Abbreviation I := (bounded (C := C) cfg lo hi).

#[local] Instance bounded_quiet : Quiet I.
Proof.
  split; try done. intros e s He (Hc & Hu & Hl). split; [done|split; [done|]]. apply Forall_app. split; [done|].
  constructor; [by destruct e; cbn in *|constructor].
Qed.

Lemma bounded_cur f s : (lo <= wireless_10w_ua (f_cur s) <= hi -> lo <= wireless_10w_ua (f (f_cur s)) <= hi) -> I s -> I (on_cur f s).
Proof. intros Hf (Hc & Hu & Hl). split; [done|split; [by apply Hf|done]]. Qed.
Lemma bounded_10w f ua s : lo <= ua <= hi -> (forall c, wireless_10w_ua (f c) = ua) -> I s -> I (on_cur f s).
Proof. intros Hu Hf. apply bounded_cur. intros _. by rewrite Hf. Qed.
Lemma bounded_same f s : (forall c, wireless_10w_ua (f c) = wireless_10w_ua c) -> I s -> I (on_cur f s).
Proof. intros Hf. apply bounded_cur. by rewrite Hf. Qed.

Lemma setting_bounded : keeps I p922x_update_current_setting any.
Proof.
  unfold p922x_update_current_setting. eapply keeps_bind; [apply keeps_gets|]. intros x (s & (Hc & Hu & _) & ->). cbn [id].
  destruct (input_current_of _ _ _) as [ua|]; [|keep]. destruct (ua =? _); [keep|]. cbv zeta.
  apply (keeps_bind _ _ _ any); [|intros _ _; keep; by apply bounded_same].
  apply keeps_when. intros _. apply keeps_modify. intros s' (Hc' & Hu' & Hl'). split; [done|split; [done|]]. apply Forall_app. split; [done|].
  by constructor.
Qed.
#[local] Hint Resolve setting_bounded : keeps.

(** A configured number of milliamperes, a target that is a limit. *)
Lemma bounded_ma f ma s : lo <= ma * 1000 <= hi -> (forall c, wireless_10w_ua (f c) = s32 (ma * 1000)) -> I s -> I (on_cur f s).
Proof.
  intros Hm Hf. apply (bounded_10w _ (ma * 1000)); [done|]. intros c. rewrite Hf. apply s32_id. destruct Hsane. lia.
Qed.
Lemma clamp_between a b t : a <= b -> a <= clamp a b t <= b.
Proof. intros Hab. unfold clamp. zcases; lia. Qed.

Lemma init_adaptive_bounded : keeps I p922x_init_adaptive_current_limit_work any.
Proof. unfold p922x_init_adaptive_current_limit_work. keep. Qed.
Lemma clear_bounded : keeps I p922x_clear_fast_charge_switch any.
Proof.
  unfold p922x_clear_fast_charge_switch. keep.
  match goal with Hx : (fun _ : config => _) _ |- _ => destruct Hx as (s1 & (Hc & _) & ->); rewrite Hc end.
  eapply bounded_ma; [apply (sane_default _ _ _ Hsane)|done|done].
Qed.
#[local] Hint Resolve init_adaptive_bounded clear_bounded : keeps.
Lemma enable_bounded en : keeps I (p922x_enable_charge_flow en) any.
Proof. unfold p922x_enable_charge_flow, p922x_switch_set_state. keep; done. Qed.
Lemma power_switch_bounded : keeps I p922x_power_switch_work any.
Proof.
  unfold p922x_power_switch_work. apply (keeps_bind _ _ _ any); [keep|]. intros _ _. apply (keeps_bind _ _ _ any); [keep|]. intros v _.
  eapply keeps_bind; [apply keeps_gets|]. intros x (s & (Hc & _) & ->). cbv zeta. cbn [id]. rewrite Hc. keep.
  - eapply bounded_ma; [apply (sane_adaptive _ _ _ Hsane)|done|done].
  - eapply bounded_ma; [apply (sane_step_start _ _ _ Hsane)|done|done].
Qed.

Lemma target_bounded : keeps I adaptive_target (target_ok lo hi).
Proof.
  assert (Hno : forall t, t = -1 -> target_ok lo hi t) by (intros t ->; by unfold target_ok).
  unfold adaptive_target. apply (keeps_bind _ _ _ any); [keep|]. intros [v|e] _.
  2: { eapply keeps_weaken; [apply keeps_ret|exact Hno]. }
  cbv zeta. eapply keeps_bind; [apply keeps_gets|]. intros c _. apply (keeps_bind _ _ _ any); [keep|]. intros _ _.
  destruct (_ <? _).
  { apply (keeps_bind _ _ _ any); [keep|]. intros _ _. eapply keeps_weaken; [apply keeps_ret|exact Hno]. }
  apply (keeps_bind _ _ _ any); [keep|]. intros _ _.
  eapply keeps_bind; [apply keeps_gets|]. intros x (s & (Hc & _) & ->). cbv zeta. cbn [id].
  apply (keeps_bind _ _ _ any); [keep|]. intros _ _. eapply keeps_weaken; [apply keeps_ret|]. intros t -> _.
  rewrite Hc. pose proof (clamp_between _ _ (s32 (Z.quot (Z.quot (sum32 (ibus (f_cur s))) (Z.of_nat IBUS_BUFFER_SIZE)) 100 * 100 + margin cfg))
    (sane_limit _ _ _ Hsane)). destruct Hsane. lia.
Qed.

Lemma adaptive_bounded : keeps I p922x_adaptive_current_limit_work any.
Proof.
  unfold p922x_adaptive_current_limit_work. apply (keeps_bind _ _ _ any); [unfold p922x_is_need_adaptive_current_limit; keep|].
  intros need _. destruct (negb need); [keep|].
  apply (keeps_bind _ _ _ any); [keep; apply bounded_same; [|done]; intros c; by destruct (_ =? 0)|]. intros _ _.
  apply (keeps_bind _ _ _ any); [unfold p922x_skip_adaptive_work; keep|]. intros skip _.
  apply (keeps_bind _ _ _ (target_ok lo hi)).
  { destruct skip; [|apply target_bounded]. eapply keeps_weaken; [apply keeps_ret|]. intros t -> Ht. lia. }
  intros t Ht. apply (keeps_bind _ _ _ any); [keep|]. intros pg _. eapply keeps_bind; [apply keeps_gets|]. intros x (s & (Hc & _) & ->). rewrite Hc.
  destruct pg.
  - apply (keeps_bind _ _ _ any); [|intros _ _; keep]. apply keeps_when. intros Hp%Z.ltb_lt. keep.
    eapply bounded_ma; [by apply Ht|done|done].
  - keep. eapply bounded_ma; [apply (sane_adaptive _ _ _ Hsane)|done|done].
Qed.

Lemma step_bounded : keeps I p922x_step_charging_work any.
Proof.
  unfold p922x_step_charging_work. eapply keeps_bind; [apply keeps_gets|]. intros x (s & (Hc & Hu & _) & ->). cbv zeta. cbn [id]. rewrite Hc.
  destruct Hsane as [? ? _ _ _ ? [? ?] _ _ _]. destruct (Z.ltb_spec (wireless_10w_ua (f_cur s)) (step_max_ua cfg)); [|keep; by apply bounded_same].
  rewrite (s32_id (step_ma cfg * 1000)), s32_id by lia.
  keep.
  match goal with |- bounded _ _ _ (on_cur (set_10w ?ua) _) => apply (bounded_10w _ ua); [|done..] end. zcases; lia.
Qed.
#[local] Instance bounded_kept : Kept I.
Proof. split; [apply enable_bounded|apply setting_bounded|apply power_switch_bounded|apply adaptive_bounded|apply step_bounded|done]. Qed.

Lemma steps_bounded es (s s' : flow C) : I s -> steps s es = Ret s' -> I s'.
Proof. apply (steps_keep_all I); done. Qed.
End Bounds.

(** ** The adaptive limit *)

Ltac six l := do 6 (destruct l as [|? l]; [try done|]); try (destruct l; [|try done]).

Lemma ring_push c h i : ring_holds c h ->
  ring_holds (set_ring ((current_index c + 1) mod IBUS_BUFFER_SIZE)%nat (Z.of_nat (Nat.min (IBUS_BUFFER_SIZE - 1) (S (length h))))
    (<[current_index c := i]> (ibus c)) c) (i :: h).
Proof.
  intros (Hl & Hi & Hf & Hk). unfold IBUS_BUFFER_SIZE in *. split_and!; cbn [ibus current_index fill_count set_ring].
  - by rewrite length_insert.
  - by apply Nat.mod_upper_bound.
  - done.
  - intros k Hk1 Hk2. destruct k as [|k].
    + change ((i :: h) !! 0%nat) with (Some i). unfold IBUS_BUFFER_SIZE.
      assert (E : (((current_index c + 1) mod 6 + (6 - 1 - 0)) mod 6 = current_index c)%nat).
      { clear - Hi. revert Hi. generalize (current_index c). intros n Hn. do 6 (destruct n as [|n]; [done|]). lia. }
      rewrite E. apply list_lookup_insert_eq. lia.
    + unfold IBUS_BUFFER_SIZE in *. cbn [length] in Hk1. change ((i :: h) !! S k) with (h !! k). rewrite <- Hk by lia.
      assert (E : ((current_index c + 1) mod 6 + (6 - 1 - S k) = (current_index c + (6 - 1 - k)) \/
                   (current_index c + 1) mod 6 + (6 - 1 - S k) + 6 = current_index c + (6 - 1 - k))%nat).
      { destruct (Nat.eq_dec (current_index c) 5%nat) as [->|]; [right; cbn; lia|left; rewrite Nat.mod_small; lia]. }
      assert (E2 : (((current_index c + 1) mod 6 + (6 - 1 - S k)) mod 6 = (current_index c + (6 - 1 - k)) mod 6)%nat).
      { destruct E as [-> | <-]; [done|]. by rewrite <- (Nat.Div0.add_mod_idemp_r _ 6), Nat.Div0.mod_same, Nat.add_0_r. }
      rewrite E2. apply list_lookup_insert_ne. intros E3.
      destruct (Nat.lt_ge_cases (current_index c + (6 - 1 - k)) 6); [rewrite Nat.mod_small in E3 by lia; lia|].
      rewrite (Nat.Div0.mod_eq _ 6) in E3. replace ((current_index c + (6 - 1 - k)) / 6)%nat with 1%nat in E3; [lia|].
      apply Nat.div_unique with (current_index c + (6 - 1 - k) - 6)%nat; lia.
Qed.

Lemma sum32_eq l : forall acc, 0 <= acc -> Forall (fun x => 0 <= x < 100000) l -> acc + 100000 * Z.of_nat (length l) < 2147483648 ->
  foldl (fun sum x => s32 (sum + x)) acc l = acc + foldr Z.add 0 l.
Proof.
  induction l as [|x l IH]; intros acc Ha Hl Hb; cbn [foldl foldr]; [lia|]. apply list.Forall_cons in Hl as [Hx Hl]. cbn [length] in Hb.
  rewrite s32_id, IH by (done || lia). lia.
Qed.

(** The buffer of a full ring has the sum of the six newest readings. *)
Lemma ring_sum c h : ring_holds c h -> (IBUS_BUFFER_SIZE <= length h)%nat -> Forall (fun x => 0 <= x < 100000) h ->
  sum32 (ibus c) = foldr Z.add 0 (take IBUS_BUFFER_SIZE h) /\ 0 <= foldr Z.add 0 (take IBUS_BUFFER_SIZE h) < 600000.
Proof.
  intros (Hl & Hi & _ & Hk) Hn Hb. unfold IBUS_BUFFER_SIZE in *.
  destruct (ibus c) as [|x0 [|x1 [|x2 [|x3 [|x4 [|x5 [|? ?]]]]]]]; try done.
  destruct h as [|h0 [|h1 [|h2 [|h3 [|h4 [|h5 h]]]]]]; cbn [length] in Hn; try lia.
  rewrite !list.Forall_cons in Hb. destruct Hb as (B0 & B1 & B2 & B3 & B4 & B5 & _).
  pose proof (Hk 0%nat ltac:(cbn; lia) ltac:(lia)) as K0. pose proof (Hk 1%nat ltac:(cbn; lia) ltac:(lia)) as K1.
  pose proof (Hk 2%nat ltac:(cbn; lia) ltac:(lia)) as K2. pose proof (Hk 3%nat ltac:(cbn; lia) ltac:(lia)) as K3.
  pose proof (Hk 4%nat ltac:(cbn; lia) ltac:(lia)) as K4. pose proof (Hk 5%nat ltac:(cbn; lia) ltac:(lia)) as K5. clear Hk.
  revert Hi K0 K1 K2 K3 K4 K5. generalize (current_index c). intros n Hi K0 K1 K2 K3 K4 K5.
  do 6 (destruct n as [|n]; [cbn in K0, K1, K2, K3, K4, K5; injection K0 as ->; injection K1 as ->; injection K2 as ->;
    injection K3 as ->; injection K4 as ->; injection K5 as ->; unfold sum32; rewrite sum32_eq by (lia || (cbn [length]; lia) || (rewrite !list.Forall_cons, list.Forall_nil; lia)); cbn [foldr take]; rewrite take_0; cbn [foldr]; lia|]).
  lia.
Qed.

Section Adaptive.
Context {C : Type} `{Chip C}.

#[local] Instance but_ring_refl : Reflexive (but_ring (C := C)).
Proof. by intros s. Qed.
#[local] Instance but_ring_trans : Transitive (but_ring (C := C)).
Proof. intros s s1 s2 (? & ? & ? & ? & ? & ? & ? & ?) (? & ? & ? & ? & ? & ? & ? & ?). unfold but_ring. split_and!; congruence. Qed.

Lemma ibus_eq (s : flow C) : exists i', charger_dev_get_ibus s = Ret (on_in (fun _ => i') s, hd (inr (- EINVAL)) (ibus_in (f_in s))) /\
  ibus_in i' = tl (ibus_in (f_in s)) /\ but_ring s (on_in (fun _ => i') s).
Proof.
  unfold charger_dev_get_ibus. destruct (ibus_in (f_in s)) as [|r l] eqn:E.
  - exists (f_in s). split; [by destruct s|done].
  - by exists (set_ibus_in l (f_in s)).
Qed.

Lemma quot_thousand v : 0 <= v < 100000000 -> 0 <= Z.quot v 1000 < 100000.
Proof. intros Hv. rewrite Z.quot_div_nonneg by lia. Z.div_mod_to_equations. lia. Qed.
Lemma average_small h : 0 <= foldr Z.add 0 (take IBUS_BUFFER_SIZE h) < 600000 -> 0 <= average h < 100000.
Proof.
  unfold average. change (Z.of_nat IBUS_BUFFER_SIZE) with 6. intros Hs. rewrite Z.quot_div_nonneg by lia. Z.div_mod_to_equations. lia.
Qed.

(** The reading that counts, written over a far one. *)
Lemma reread_eq b idx i (s : flow C) :
  ibus (f_cur s) !! idx = Some i ->
  exists s', when b (r ← charger_dev_get_ibus;
         match r with
         | inl v => modify (on_cur (fun c => set_ring (current_index c) (fill_count c) (<[idx := Z.quot v 1000]> (ibus c)) c))
         | inr _ => mret tt
         end) s = Ret (s', tt) /\ but_ring s s' /\ avg (f_cur s') = avg (f_cur s) /\
    f_cur s' = set_ring (current_index (f_cur s)) (fill_count (f_cur s))
      (<[idx := if b then default i (next_reading (ibus_in (f_in s))).1 else i]> (ibus (f_cur s))) (f_cur s).
Proof.
  intros Hi. assert (Hs : forall c, f_cur s = c -> c = set_ring (current_index c) (fill_count c) (<[idx := i]> (ibus c)) c).
  { intros c <-. rewrite list_insert_id by done. by destruct (f_cur s). }
  destruct b; cbn [when]; [|exists s; split_and!; try done; by apply Hs].
  destruct (ibus_eq s) as (i' & E & Hl & Hr). rewrite (bind_eq _ _ _ _ _ E).
  destruct (ibus_in (f_in s)) as [|[v|e] l]; cbn [hd next_reading milli fst default]; eexists; (split; [reflexivity|]); (split; [exact Hr|]);
    (split; [done|]); try done; by apply Hs.
Qed.

Lemma target_eq h a (s : flow C) : adapting h a s -> -1000000 <= margin (f_cfg s) < 1000000 -> Forall plausible (ibus_in (f_in s)) ->
  exists s', adaptive_target s = Ret (s', default (-1) (adaptive_spec (f_cfg s) h a (ibus_in (f_in s))).2) /\ but_ring s s' /\
    adapting (adaptive_spec (f_cfg s) h a (ibus_in (f_in s))).1.1 (adaptive_spec (f_cfg s) h a (ibus_in (f_in s))).1.2 s'.
Proof.
  intros (Hr & Ha & Hh & Hsm) Hm Hp. unfold adaptive_target. destruct (ibus_eq s) as (i' & E & Hl & Hs). rewrite (bind_eq _ _ _ _ _ E). clear E.
  unfold adaptive_spec. destruct (ibus_in (f_in s)) as [|[v|e] l]; cbn [hd next_reading milli default fst snd];
    [eexists; split; [reflexivity|]; by split|  |eexists; split; [reflexivity|]; by split].
  apply list.Forall_cons in Hp as [Hv Hp]. apply quot_thousand in Hv. cbv zeta. set (i := Z.quot v 1000) in *.
  set (s1 := on_in (fun _ => i') s) in *. rewrite (bind_eq (gets f_cur) _ s1 s1 (f_cur s) eq_refl).
  pose proof (fun j => ring_push _ _ j Hr) as Hpush. destruct Hr as (Hlen & Hidx & Hf & _).
  rewrite (bind_eq (modify _) _ _ _ _ eq_refl). set (s2 := on_cur _ s1). rewrite Hf.
  destruct (Nat.ltb_spec (length h) (IBUS_BUFFER_SIZE - 1)) as [Hn|Hn]; destruct (Z.ltb_spec (Z.of_nat (Nat.min (IBUS_BUFFER_SIZE - 1) (length h))) (Z.of_nat IBUS_BUFFER_SIZE - 1));
    try (unfold IBUS_BUFFER_SIZE in *; lia); cbn [fst snd default].
  { rewrite (bind_eq (modify _) _ _ _ _ eq_refl). eexists. split; [reflexivity|]. split; [exact Hs|].
    split_and!; [|done|by apply list.Forall_cons|done..]. cbn [f_cur on_cur s2 set_ring current_index fill_count ibus].
    replace (Z.of_nat (Nat.min (IBUS_BUFFER_SIZE - 1) (S (length h)))) with (fill_count (f_cur s) + 1) in Hpush; [exact (Hpush i)|].
    rewrite Hf. unfold IBUS_BUFFER_SIZE in *. lia. }
  rewrite Ha, (s32_id (i - a)) by (unfold small in *; lia). fold (far a i).
  destruct (reread_eq (far a i) (current_index (f_cur s)) i s2) as (s3 & E & Hs3 & Ha3 & Hc3).
  { cbn. apply list_lookup_insert_eq. by rewrite Hlen. }
  rewrite (bind_eq _ _ _ _ _ E). clear E. rewrite (bind_eq (gets id) _ s3 s3 s3 eq_refl). cbv zeta. cbn [id].
  change (ibus_in (f_in s2)) with (ibus_in i') in Hc3. rewrite Hl in Hc3. cbn [tl] in Hc3.
  set (j := if far a i then _ else i) in *.
  assert (Hj : small j).
  { unfold j. destruct (far a i); [|done]. destruct l as [|[w|e] l]; cbn; [done| |done]. apply list.Forall_cons in Hp as [Hw _]. by apply quot_thousand. }
  clearbody j. assert (Hr3 : ring_holds (f_cur s3) (j :: h)).
  { rewrite Hc3. cbn [f_cur on_cur s2 set_ring current_index fill_count ibus].
    rewrite list_insert_insert_eq. replace (Z.of_nat (Nat.min (IBUS_BUFFER_SIZE - 1) (S (length h)))) with (fill_count (f_cur s)) in Hpush;
      [exact (Hpush j)|]. rewrite Hf. unfold IBUS_BUFFER_SIZE in *. lia. }
  destruct (ring_sum _ _ Hr3) as [Hsum Hlt]; [cbn [length]; unfold IBUS_BUFFER_SIZE in *; lia|by apply list.Forall_cons|].
  assert (Hav : Z.quot (sum32 (ibus (f_cur s3))) (Z.of_nat IBUS_BUFFER_SIZE) = average (j :: h)) by (unfold average; by rewrite Hsum).
  rewrite Hav. apply average_small in Hlt. rewrite (bind_eq (modify _) _ _ _ _ eq_refl). unfold limit_of.
  assert (Hcfg : f_cfg s3 = f_cfg s) by (destruct Hs3 as (-> & _); by destruct Hs). rewrite Hcfg.
  rewrite s32_id. 2: { rewrite Z.quot_div_nonneg by lia. Z.div_mod_to_equations. lia. }
  eexists. split; [reflexivity|]. split; [by transitivity s2; [exact Hs|]; transitivity s3; [exact Hs3|]|].
  split_and!; [exact Hr3|done|by apply list.Forall_cons|unfold small; lia..].
Qed.

Lemma pg_eq (s : flow C) b : pg_gpio (f_in s) = [b] -> p922x_get_pg_irq_status s = Ret (s, b).
Proof. intros E. unfold p922x_get_pg_irq_status. by rewrite E. Qed.

Lemma setting_eq (s : flow C) : exists s' p, p922x_update_current_setting s = Ret (s', tt) /\ f_cur s' = set_prev p (f_cur s) /\
  f_sw s' = f_sw s /\ f_cfg s' = f_cfg s /\ f_in s' = f_in s /\ pending (f_world s') = pending (f_world s).
Proof.
  unfold p922x_update_current_setting. rewrite (bind_eq (gets id) _ s s s eq_refl). cbn [id].
  assert (Hs : f_cur s = set_prev (prev_input_current (f_cur s)) (f_cur s)) by (by destruct (f_cur s)).
  destruct (input_current_of _ _ _) as [ua|]; [|by exists s, (prev_input_current (f_cur s))].
  destruct (_ =? _); [by exists s, (prev_input_current (f_cur s))|]. by destruct (has_algo (f_cfg s)); eexists _, ua.
Qed.

Lemma spec_readings cfg h a rs : forall h' a' t, adaptive_spec cfg h a rs = (h', a', t) -> h' = h /\ a' = a /\ t = None \/ h' <> [].
Proof.
  unfold adaptive_spec. intros h' a' t. destruct (next_reading rs) as [[i|] l]; [|intros [= <- <- <-]; by left].
  destruct (Nat.ltb _ _); intros [= <- <- <-]; by right.
Qed.

Lemma spec_limit cfg h a rs h' a' t : fits cfg -> adaptive_spec cfg h a rs = (h', a', Some t) -> t < 2000000.
Proof.
  unfold adaptive_spec. intros (_ & Hmin & Hmax). destruct (next_reading rs) as [[i|] l]; [|done]. destruct (Nat.ltb _ _); [done|].
  intros [= _ _ <-]. unfold limit_of, clamp. zcases; lia.
Qed.

(** The gate: a run that is let through has the flag set. *)
Lemma skip_eq step on (s : flow C) i : on_step_charging (f_cur s) = step -> on_adaptive (f_cur s) = on -> uisoc (f_in s) = uisoc i ->
  p922x_skip_adaptive_work s = Ret (on_cur (set_on_adaptive (gate_open (f_cfg s) step on i)) s, negb (gate_open (f_cfg s) step on i)).
Proof.
  intros Hs Ho Hu. unfold p922x_skip_adaptive_work, gate_open. rewrite (bind_eq (gets id) _ s s s eq_refl). cbn [id]. rewrite Ho, Hs, Hu.
  assert (E : on_cur (set_on_adaptive on) s = s) by (destruct s as [? ? ? ? [] ? ? ? ?]; cbn in *; by subst).
  destruct on; cbn [orb negb]; [by rewrite E|]. destruct step; cbn [negb andb]; [by rewrite E|]. destruct (_ <=? _); [done|by rewrite E].
Qed.

Lemma work_eq step on h a (s : flow C) i h' a' t : ready step on h a s -> powered i -> fits (f_cfg s) ->
  (if gate_open (f_cfg s) step on i then adaptive_spec (f_cfg s) h a (ibus_in i) else (h, a, None)) = (h', a', t) ->
  exists s', P922xFlow.step s (i, EvWork AdaptiveWork) = Ret s' /\ ready step (gate_open (f_cfg s) step on i) h' a' s' /\ f_cfg s' = f_cfg s /\
    wireless_10w_ua (f_cur s') = match t with Some t => if 0 <? t then t * 1000 else wireless_10w_ua (f_cur s) | None => wireless_10w_ua (f_cur s) end.
Proof.
  intros (Hr & Ha & Hh & Hsm & Ht & Ho & Hst & Hp) [Hpg Hpl] (Hm & Hmin & Hmax) Hspec.
  unfold P922xFlow.step. cbn [fst snd handle]. set (s0 := on_in (fun _ => i) s). unfold run_work. rewrite (bind_eq (gets _) _ s0 s0 (pending (f_world s)) eq_refl).
  rewrite bool_decide_true by done. cbn [negb]. rewrite (bind_eq (cancel _) _ _ _ _ eq_refl). set (s1 := on_world _ s0).
  unfold p922x_adaptive_current_limit_work.
  assert (E : p922x_is_need_adaptive_current_limit s1 = Ret (s1, true)).
  { unfold p922x_is_need_adaptive_current_limit. rewrite (bind_eq _ _ _ _ _ (pg_eq s1 true Hpg)). rewrite (bind_eq (gets _) _ s1 s1 _ eq_refl).
    change (chr_type (f_sw s1)) with (chr_type (f_sw s)). by rewrite Ht. }
  rewrite (bind_eq _ _ _ _ _ E). clear E. cbn [negb]. rewrite (bind_eq (modify _) _ _ _ _ eq_refl). set (s2 := on_cur _ s1).
  assert (H2 : f_cur s2 = set_avg a (f_cur s)).
  { cbn. destruct Hr as (_ & _ & Hf & _). rewrite Hf. destruct Ha as [[-> ->]|[Hn <-]]; [done|].
    destruct (Z.eqb_spec (Z.of_nat (Nat.min (IBUS_BUFFER_SIZE - 1) (length h))) 0) as [E|]; [destruct h; unfold IBUS_BUFFER_SIZE in E; cbn in E; [done|lia]|].
    by destruct (f_cur s). }
  rewrite (bind_eq _ _ _ _ _ (skip_eq step on s2 i ltac:(by rewrite H2) ltac:(by rewrite H2) eq_refl)). change (f_cfg s2) with (f_cfg s).
  set (g := gate_open (f_cfg s) step on i) in *. set (s2' := on_cur (set_on_adaptive g) s2).
  assert (Hc2 : f_cur s2' = set_on_adaptive g (set_avg a (f_cur s))) by (cbn; unfold s2 in H2; cbn in H2; by rewrite H2).
  assert (Htail : forall s3, but_ring s2' s3 -> ring_holds (f_cur s3) h' -> (h' = [] /\ a' = 0 \/ h' <> [] /\ avg (f_cur s3) = a') ->
    Forall small h' -> small a' -> (forall t', t = Some t' -> t' < 2000000) ->
    exists s', (pg ← p922x_get_pg_irq_status; cfg ← gets f_cfg;
       if pg : bool then when (0 <? default (-1) t) (modify (on_cur (set_10w (s32 (default (-1) t * 1000))));; p922x_update_current_setting);; schedule AdaptiveWork
       else modify (on_cur (set_10w (s32 (adaptive_start_ma cfg * 1000))));; modify (on_cur (set_on_adaptive false))) s3 = Ret (s', tt) /\
      ready step g h' a' s' /\ f_cfg s' = f_cfg s /\
      wireless_10w_ua (f_cur s') = match t with Some t => if 0 <? t then t * 1000 else wireless_10w_ua (f_cur s) | None => wireless_10w_ua (f_cur s) end).
  { clear Hspec. intros s3 (Hc3 & Hw3 & Hx3 & Hg3 & _ & Hu3 & Ho3 & Hst3) Hr3 Hn Hh3 Hsm3 Hlim. rewrite Hc2 in Hu3, Ho3, Hst3. cbn in Hu3, Ho3, Hst3. rewrite Hst in Hst3.
    change (pg_gpio (f_in s2')) with (pg_gpio i) in Hg3. rewrite Hpg in Hg3. rewrite (bind_eq _ _ _ _ _ (pg_eq s3 true Hg3)).
    rewrite (bind_eq (gets f_cfg) _ s3 s3 _ eq_refl). assert (Ht3 : chr_type (f_sw s3) = POWER_SUPPLY_TYPE_WIRELESS_10W) by (by rewrite Hw3).
    assert (Hpend : forall w x, AdaptiveWork ∈ pending (set_pending ({[AdaptiveWork]} ∪ pending w) x)) by (intros w x; cbn; set_solver).
    destruct (Z.ltb_spec 0 (default (-1) t)) as [Hpos|Hpos]; cbn [when].
    - destruct t as [t|]; [|cbn in Hpos; lia]. change (default (-1) (Some t)) with t in *. rewrite (s32_id (t * 1000)) by (specialize (Hlim t eq_refl); lia).
      set (s4 := on_cur (set_10w (t * 1000)) s3). destruct (setting_eq s4) as (s5 & p & E & Hc5 & Hw5 & Hf5 & _ & Hp5).
      assert (E' : (modify (on_cur (set_10w (t * 1000)));; p922x_update_current_setting) s3 = Ret (s5, tt)) by exact E.
      rewrite (bind_eq _ _ _ _ _ E'). eexists. split; [reflexivity|]. destruct (Z.ltb_spec 0 t); [|lia].
      unfold ready. cbn [fst f_cur f_sw f_cfg f_world on_world]. rewrite Hc5, Hw5, Hf5.
      split; [exact (conj Hr3 (conj Hn (conj Hh3 (conj Hsm3 (conj Ht3 (conj Ho3 (conj Hst3 (Hpend _ _))))))))|]. by split.
    - rewrite (bind_eq (mret tt) _ s3 s3 tt eq_refl). eexists. split; [reflexivity|]. unfold ready. cbn [fst f_cur f_sw f_cfg f_world on_world].
      split; [exact (conj Hr3 (conj Hn (conj Hh3 (conj Hsm3 (conj Ht3 (conj Ho3 (conj Hst3 (Hpend _ _))))))))|]. split; [exact Hc3|].
      destruct t as [t|]; [|done]. change (default (-1) (Some t)) with t in Hpos. destruct (Z.ltb_spec 0 t); [lia|done]. }
  destruct g; cbn [negb].
  - destruct (target_eq h a s2') as (s3 & E & Hs3 & Had); [unfold adapting; by rewrite Hc2|done|exact Hpl|].
    change (ibus_in (f_in s2')) with (ibus_in i) in *. change (f_cfg s2') with (f_cfg s) in *. rewrite Hspec in E, Had. cbn [fst snd] in E, Had.
    rewrite (bind_eq _ _ _ _ _ E). destruct Had as (Hr3 & Ha3 & Hh3 & Hsm3).
    destruct (Htail s3) as (s' & E' & Hs'); [done|done| |done|done| |].
    { destruct (spec_readings _ _ _ _ _ _ _ Hspec) as [(-> & -> & _)|]; [|by right]. destruct Ha as [Ha|[? _]]; [by left|by right]. }
    { intros t' ->. by apply spec_limit in Hspec. }
    exists s'. split; [by rewrite E'|exact Hs'].
  - injection Hspec as <- <- <-. rewrite (bind_eq (mret (-1)) _ s2' s2' (-1) eq_refl).
    destruct (Htail s2') as (s' & E' & Hs'); [done|by rewrite Hc2|rewrite Hc2; destruct Ha as [Ha|[? _]]; [by left|by right]|done|done|done|].
    exists s'. split; [|exact Hs']. cbn [default] in E'. by rewrite E'.
Qed.

Lemma adaptive_runs step ins : forall on h a (s : flow C), ready step on h a s -> Forall powered ins -> fits (f_cfg s) ->
  exists s', steps s (runs_of AdaptiveWork ins) = Ret s' /\ AdaptiveWork ∈ pending (f_world s') /\
    wireless_10w_ua (f_cur s') = adaptive_run (f_cfg s) step on h a (wireless_10w_ua (f_cur s)) ins.
Proof.
  induction ins as [|i ins IH]; intros on h a s Hs Hp Hf; cbn [runs_of map steps adaptive_run].
  { exists s. split; [done|]. split; [apply Hs|done]. }
  apply list.Forall_cons in Hp as [Hi Hp].
  destruct (if gate_open (f_cfg s) step on i then adaptive_spec (f_cfg s) h a (ibus_in i) else (h, a, None)) as [[h' a'] t] eqn:E.
  destruct (work_eq step on h a s i h' a' t Hs Hi Hf E) as (s1 & E1 & Hs1 & Hc1 & <-). rewrite E1. cbn [mbind outcome_bind]. rewrite <- Hc1. rewrite <- Hc1 in Hs1.
  apply IH; [done|done|by rewrite Hc1].
Qed.
End Adaptive.

(** ** The other works *)

Section Works.
Context {C : Type} `{Chip C}.

Lemma idle_run w (s : flow C) i : w ∉ pending (f_world s) -> step s (i, EvWork w) = Ret (on_in (fun _ => i) s).
Proof.
  intros Hw. unfold step. cbn [fst snd handle]. set (s0 := on_in (fun _ => i) s). unfold run_work.
  rewrite (bind_eq (gets _) _ s0 s0 (pending (f_world s)) eq_refl). by rewrite bool_decide_false by done.
Qed.
Lemma idle_runs w ins : forall s : flow C, w ∉ pending (f_world s) ->
  exists i, steps s (runs_of w ins) = Ret (on_in (fun _ => i) s).
Proof.
  induction ins as [|i ins IH]; intros s Hw; cbn [runs_of map steps].
  - exists (f_in s). by destruct s.
  - rewrite idle_run by done. cbn [mbind outcome_bind]. destruct (IH (on_in (fun _ => i) s)) as [i' E]; [done|]. exists i'. exact E.
Qed.
Lemma busy_run w (s : flow C) i : w ∈ pending (f_world s) -> step s (i, EvWork w) =
  r ← match w with PowerSwitchWork => p922x_power_switch_work | AdaptiveWork => p922x_adaptive_current_limit_work
      | StepChargingWork => p922x_step_charging_work | EPTWork => p922x_EPT_work | InitWork => p922x_determine_init_status end
    (on_world (fun x => set_pending (pending x ∖ {[w]}) x) (on_in (fun _ => i) s)); Ret r.1.
Proof.
  intros Hw. unfold step. cbn [fst snd handle]. set (s0 := on_in (fun _ => i) s). unfold run_work.
  rewrite (bind_eq (gets _) _ s0 s0 (pending (f_world s)) eq_refl). rewrite bool_decide_true by done. cbn [negb].
  by rewrite (bind_eq (cancel _) _ _ _ _ eq_refl).
Qed.

(** A run of the step charging. *)
Lemma step_run (s : flow C) i :
  StepChargingWork ∈ pending (f_world s) -> pg_gpio i = [true] ->
  steps_fit (f_cfg s) -> -2147483648 <= wireless_10w_ua (f_cur s) ->
  exists s', step s (i, EvWork StepChargingWork) = Ret s' /\ f_cfg s' = f_cfg s /\
    wireless_10w_ua (f_cur s') = ramp (f_cfg s) (wireless_10w_ua (f_cur s)) 1 /\
    if wireless_10w_ua (f_cur s) <? step_max_ua (f_cfg s) then StepChargingWork ∈ pending (f_world s') /\ on_step_charging (f_cur s') = on_step_charging (f_cur s)
    else (StepChargingWork ∉ pending (f_world s')) /\ on_step_charging (f_cur s') = false.
Proof.
  intros Hp Hpg (Hm & Hd & Hd') Hu. rewrite busy_run by done. set (s1 := on_world _ _). unfold p922x_step_charging_work.
  rewrite (bind_eq (gets id) _ s1 s1 s1 eq_refl). cbv zeta. cbn [id].
  change (f_cur s1) with (f_cur s). change (f_cfg s1) with (f_cfg s). unfold ramp.
  destruct (Z.ltb_spec (wireless_10w_ua (f_cur s)) (step_max_ua (f_cfg s))) as [Hlt|Hge].
  - rewrite (s32_id (step_ma _ * 1000)), s32_id by lia. rewrite (bind_eq (modify _) _ _ _ _ eq_refl).
    set (s2 := on_cur _ s1). destruct (setting_eq s2) as (s3 & p & E & Hc3 & Hw3 & Hf3 & Hi3 & Hp3).
    rewrite (bind_eq _ _ _ _ _ E). rewrite (bind_eq _ _ _ _ _ (pg_eq s3 true ltac:(by rewrite Hi3))). cbn [when].
    eexists. split; [reflexivity|]. split; [exact Hf3|]. split; [|split].
    + cbn [fst f_cur on_world]. rewrite Hc3. cbn. zcases; lia.
    + cbn. set_solver.
    + cbn [fst f_cur on_world]. by rewrite Hc3.
  - eexists. split; [reflexivity|]. split; [done|]. split; [cbn; lia|]. split; [cbn; set_solver|done].
Qed.

Lemma ramp_next cfg ua k : steps_fit cfg -> ramp cfg (ramp cfg ua 1) k = ramp cfg ua (S k).
Proof. intros (_ & Hd & _). unfold ramp. set (d := step_ma cfg * 1000) in *. nia. Qed.
Lemma step_runs_next cfg ua : steps_fit cfg -> ua < step_max_ua cfg -> step_runs cfg ua = S (step_runs cfg (ramp cfg ua 1)).
Proof.
  intros (_ & Hd & _) Hu. unfold step_runs, ramp. set (d := step_ma cfg * 1000) in *. f_equal. rewrite Z.max_r by lia.
  destruct (Z.le_gt_cases (step_max_ua cfg) (ua + Z.of_nat 1 * d)).
  - rewrite Z.min_l by lia. replace (step_max_ua cfg - step_max_ua cfg + d - 1) with (d - 1) by lia. rewrite (Z.div_small (d - 1) d) by lia.
    replace ((step_max_ua cfg - ua + d - 1) / d) with 1; [done|]. apply (Z.div_unique_pos _ _ _ (step_max_ua cfg - ua - 1)); [lia|]. lia.
  - rewrite Z.min_r by lia. replace (step_max_ua cfg - ua + d - 1) with (step_max_ua cfg - (ua + Z.of_nat 1 * d) + d - 1 + 1 * d) by lia.
    rewrite Z.div_add by lia. rewrite Z2Nat.inj_add by (apply Z.div_pos || done; lia). cbn. lia.
Qed.
Lemma ramp_end cfg ua k : steps_fit cfg -> (step_runs cfg ua <= k)%nat -> ramp cfg ua k = Z.max ua (step_max_ua cfg).
Proof.
  intros (_ & Hd & _). unfold step_runs, ramp. set (d := step_ma cfg * 1000) in *. intros Hk. destruct (Z.le_gt_cases (step_max_ua cfg) ua); [nia|].
  assert (Hq : step_max_ua cfg - ua <= d * ((step_max_ua cfg - ua + d - 1) / d)).
  { pose proof (Z.div_mod (step_max_ua cfg - ua + d - 1) d ltac:(lia)). pose proof (Z.mod_pos_bound (step_max_ua cfg - ua + d - 1) d Hd). lia. }
  set (q := (step_max_ua cfg - ua + d - 1) / d) in *. assert (q <= Z.of_nat k) by lia. rewrite Z.min_l by nia. lia.
Qed.
Lemma step_runs_last cfg ua : steps_fit cfg -> step_max_ua cfg <= ua -> step_runs cfg ua = 1%nat.
Proof.
  intros (_ & Hd & _) Hu. unfold step_runs. set (d := step_ma cfg * 1000) in *. f_equal.
  assert ((step_max_ua cfg - ua + d - 1) / d < 1) by (apply Z.div_lt_upper_bound; lia). lia.
Qed.

(** A run of the voltage switch outside the window. *)
Lemma switch_run (s : flow C) i : PowerSwitchWork ∈ pending (f_world s) -> in_window s = false -> 0 <= switch_detct_count (f_sw s) <= 3 ->
  exists s', step s (i, EvWork PowerSwitchWork) = Ret s' /\ f_cur s' = f_cur s /\ chr_type (f_sw s') = chr_type (f_sw s) /\
    psy_type (f_world s') = psy_type (f_world s) /\
    if switch_detct_count (f_sw s) <? 3 then PowerSwitchWork ∈ pending (f_world s') /\ switch_detct_count (f_sw s') = switch_detct_count (f_sw s) + 1
    else (PowerSwitchWork ∉ pending (f_world s')) /\ switch_detct_count (f_sw s') = 0.
Proof.
  intros Hp Hw Hc. rewrite busy_run by done. set (s1 := on_world _ _). unfold p922x_power_switch_work.
  rewrite (bind_eq (cancel _) _ _ _ _ eq_refl). set (s2 := on_world _ s1).
  assert (E : exists b, p922x_get_vout_adc s2 = Ret (on_bus b s2, measured s)).
  { unfold measured, p922x_get_vout_adc, io, mbind, M_bind, mbind, outcome_bind. change (f_bus s2) with (f_bus s).
    destruct (read16 REG_ADC_VOUT (f_bus s)) as [b r]. by exists b. }
  destruct E as [b E]. rewrite (bind_eq _ _ _ _ _ E). set (s3 := on_bus b s2). rewrite (bind_eq (gets id) _ s3 s3 s3 eq_refl). cbv zeta. cbn [id].
  change (f_sw s3) with (f_sw s). unfold in_window in Hw. rewrite Hw. clear Hw.
  destruct (Z.ltb_spec 2 (switch_detct_count (f_sw s))), (Z.ltb_spec (switch_detct_count (f_sw s)) 3); try lia.
  - eexists. split; [reflexivity|]. split_and!; try done. cbn. set_solver.
  - rewrite s32_id by lia. rewrite (bind_eq (modify _) _ _ _ _ eq_refl), (bind_eq (schedule _) _ _ _ _ eq_refl). set (s4 := on_world _ _).
    assert (E' : forall mv, exists b, p922x_power_switch mv s4 = Ret (on_bus b s4, tt)).
    { intros mv. unfold p922x_power_switch, io, mbind, M_bind, mbind, outcome_bind. destruct (p922x_write_buffer _ _ _) as [b1 r1].
      destruct (p922x_write _ _ _) as [b2 r2]. by exists b2. }
    match goal with |- context [p922x_power_switch ?mv] => destruct (E' mv) as [b' ->] end.
    eexists. split; [reflexivity|]. split_and!; try done. cbn. set_solver.
Qed.

Lemma switch_runs ins : forall s : flow C, PowerSwitchWork ∈ pending (f_world s) -> outside s ins -> 0 <= switch_detct_count (f_sw s) <= 3 ->
  exists s', steps s (runs_of PowerSwitchWork ins) = Ret s' /\ f_cur s' = f_cur s /\ chr_type (f_sw s') = chr_type (f_sw s) /\
    psy_type (f_world s') = psy_type (f_world s) /\
    if Z.of_nat (length ins) <? 4 - switch_detct_count (f_sw s)
    then PowerSwitchWork ∈ pending (f_world s') /\ switch_detct_count (f_sw s') = switch_detct_count (f_sw s) + Z.of_nat (length ins)
    else (PowerSwitchWork ∉ pending (f_world s')) /\ switch_detct_count (f_sw s') = 0.
Proof.
  induction ins as [|i ins IH]; intros s Hp Ho Hc; cbn [runs_of map steps length].
  { exists s. split_and!; try done. destruct (Z.ltb_spec (Z.of_nat 0) (4 - switch_detct_count (f_sw s))); [split; [done|lia]|lia]. }
  destruct Ho as [Hw Ho]. destruct (switch_run s i Hp Hw Hc) as (s1 & E1 & Hu1 & Ht1 & Hx1 & H1). rewrite E1. cbn [mbind outcome_bind].
  destruct (Z.ltb_spec (switch_detct_count (f_sw s)) 3) as [Hlt|Hge]; destruct H1 as [Hp1 Hc1].
  - destruct (IH s1 Hp1 (Ho _ E1)) as (s2 & E2 & Hu2 & Ht2 & Hx2 & H2); [lia|]. exists s2. split; [exact E2|]. rewrite Hu2, Ht2, Hx2.
    split_and!; try done. rewrite Hc1 in H2. revert H2. zcases; intros []; (split; [done|lia]) || lia.
  - destruct (idle_runs PowerSwitchWork ins s1 Hp1) as [i' E2]. eexists. split; [exact E2|]. split_and!; try done.
    destruct (Z.ltb_spec (Z.of_nat (S (length ins))) (4 - switch_detct_count (f_sw s))); [lia|by split].
Qed.

Lemma charging_runs ins : forall s : flow C, StepChargingWork ∈ pending (f_world s) -> Forall (fun i => pg_gpio i = [true]) ins ->
  steps_fit (f_cfg s) -> -2147483648 <= wireless_10w_ua (f_cur s) ->
  exists s', steps s (runs_of StepChargingWork ins) = Ret s' /\
    wireless_10w_ua (f_cur s') = ramp (f_cfg s) (wireless_10w_ua (f_cur s)) (length ins) /\
    if (length ins <? step_runs (f_cfg s) (wireless_10w_ua (f_cur s)))%nat
    then StepChargingWork ∈ pending (f_world s') /\ on_step_charging (f_cur s') = on_step_charging (f_cur s)
    else (StepChargingWork ∉ pending (f_world s')) /\ on_step_charging (f_cur s') = false.
Proof.
  induction ins as [|i ins IH]; intros s Hp Hi Hf Hu; cbn [runs_of map steps length].
  { exists s. split; [done|]. split; [unfold ramp; lia|done]. }
  apply list.Forall_cons in Hi as [Hi His]. destruct (step_run s i Hp Hi Hf Hu) as (s1 & E1 & Hc1 & Hu1 & H1). rewrite E1. cbn [mbind outcome_bind].
  destruct (Z.ltb_spec (wireless_10w_ua (f_cur s)) (step_max_ua (f_cfg s))) as [Hlt|Hge]; destruct H1 as [Hp1 Ho1].
  - destruct (IH s1 Hp1 His) as (s2 & E2 & Hu2 & H2); [by rewrite Hc1|rewrite Hu1; unfold ramp; lia|].
    rewrite Hc1, Hu1 in Hu2, H2. rewrite ramp_next in Hu2 by done. rewrite Ho1 in H2. exists s2. split; [exact E2|]. split; [exact Hu2|].
    by rewrite (step_runs_next (f_cfg s)) by done.
  - rewrite step_runs_last by done. destruct (idle_runs StepChargingWork ins s1 Hp1) as [i' E2]. eexists. split; [exact E2|].
    split; [|done]. cbn [f_cur on_in]. rewrite Hu1. destruct Hf as (_ & Hd & _). unfold ramp. nia.
Qed.
End Works.

(** ** Properties *)

Section Theorems.
Context {C : Type} `{Chip C}.

(** C8. The 10 W input current stays within the bounds of the configuration
    through every sequence of events, whatever the readings, transfers and calls
    come to, and each time the charger driver's algorithm is asked for the limits
    the charger is then told, the 10 W current it finds is within them. What it
    makes of that current is its own. *)
Theorem input_current_bounded (s s' : flow C) lo hi es :
  sane (f_cfg s) lo hi -> lo <= wireless_10w_ua (f_cur s) <= hi -> effects (f_world s) = [] -> steps s es = Ret s' ->
  lo <= wireless_10w_ua (f_cur s') <= hi /\ f_cfg s' = f_cfg s /\ Forall (allowed lo hi) (effects (f_world s')).
Proof.
  intros Hs Hu He E. destruct (steps_bounded (f_cfg s) lo hi Hs es s s') as (Hc & Hu' & Hl); [|exact E|done].
  split; [done|]. split; [done|]. by rewrite He.
Qed.

(** C16. The adaptive limit does what it is meant to: from the start of its work in
    a session at 10 W, and however many times the work runs with the charger there
    (and no other event in between), the work stays scheduled; the 10 W current is
    left alone while step charging is on or the charge is below the start, and
    from the first run on that finds neither it is that of the last positive
    target, a target being the average of the last six accepted readings in steps
    of 100 mA and the margin, within the limits; the ring buffer, its index and
    its count are not seen. Readings are of less than 100 A and the limits fit an
    int. *)
Theorem adaptive_follows_average (s0 s : flow C) ins :
  p922x_init_adaptive_current_limit_work s0 = Ret (s, tt) -> chr_type (f_sw s) = POWER_SUPPLY_TYPE_WIRELESS_10W ->
  fits (f_cfg s) -> Forall powered ins ->
  exists s', steps s (runs_of AdaptiveWork ins) = Ret s' /\ AdaptiveWork ∈ pending (f_world s') /\
    wireless_10w_ua (f_cur s') =
      adaptive_run (f_cfg s) (on_step_charging (f_cur s)) (on_adaptive (f_cur s)) [] 0 (wireless_10w_ua (f_cur s)) ins.
Proof.
  intros [= <-] Ht Hf Hi. apply adaptive_runs; [|done..]. unfold ready. split; [|split; [by left|]]; [|split; [by constructor|]].
  - split; [done|]. split; [cbn; unfold IBUS_BUFFER_SIZE; lia|]. split; [done|]. cbn. intros k Hk. lia.
  - split; [done|]. split; [done|]. split; [done|]. split; [done|]. cbn. set_solver.
Qed.

(** Step charging ends: with the charger there and a positive step, each run
    raises the current by the step, never over the maximum nor down, until after
    as many runs as the distance has steps, and one more, it is at the maximum (or
    where it was above it), the work is no longer scheduled and the flag that
    holds back the adaptive limit is off. *)
Theorem step_charging_ends (s : flow C) ins :
  StepChargingWork ∈ pending (f_world s) -> Forall (fun i => pg_gpio i = [true]) ins -> steps_fit (f_cfg s) ->
  -2147483648 <= wireless_10w_ua (f_cur s) ->
  exists s', steps s (runs_of StepChargingWork ins) = Ret s' /\
    wireless_10w_ua (f_cur s') = ramp (f_cfg s) (wireless_10w_ua (f_cur s)) (length ins) /\
    (if (length ins <? step_runs (f_cfg s) (wireless_10w_ua (f_cur s)))%nat then StepChargingWork ∈ pending (f_world s')
     else wireless_10w_ua (f_cur s') = Z.max (wireless_10w_ua (f_cur s)) (step_max_ua (f_cfg s)) /\
          (StepChargingWork ∉ pending (f_world s')) /\ on_step_charging (f_cur s') = false).
Proof.
  intros Hp Hi Hf Hu. destruct (charging_runs ins s Hp Hi Hf Hu) as (s' & E & Hu' & Hr). exists s'. split; [exact E|]. split; [exact Hu'|].
  destruct (Nat.ltb_spec (length ins) (step_runs (f_cfg s) (wireless_10w_ua (f_cur s)))); destruct Hr as [Hp' Ho]; [done|].
  split; [|by split]. rewrite Hu'. apply ramp_end; [exact Hf|lia].
Qed.

(** The voltage switch gives up: while the rectified voltage stays outside the
    window of the power that was asked for, the work asks again three times (less
    what the counter, which nothing but the work resets, holds), and then is no
    longer scheduled; the charger's type and current are as before. *)
Theorem switch_gives_up (s : flow C) ins :
  PowerSwitchWork ∈ pending (f_world s) -> outside s ins -> 0 <= switch_detct_count (f_sw s) <= 3 ->
  exists s', steps s (runs_of PowerSwitchWork ins) = Ret s' /\ f_cur s' = f_cur s /\ psy_type (f_world s') = psy_type (f_world s) /\
    if Z.of_nat (length ins) <? 4 - switch_detct_count (f_sw s)
    then PowerSwitchWork ∈ pending (f_world s') /\ switch_detct_count (f_sw s') = switch_detct_count (f_sw s) + Z.of_nat (length ins)
    else (PowerSwitchWork ∉ pending (f_world s')) /\ switch_detct_count (f_sw s') = 0.
Proof.
  intros Hp Ho Hc. destruct (switch_runs ins s Hp Ho Hc) as (s' & E & Hu & _ & Ht & Hr). by exists s'.
Qed.
End Theorems.

(** A session: attached, allowed to charge fast, switched to 10 W and three steps
    up. *)
Definition demo_session : flow (Z -> Z) :=
  on_bus (mkBus (fun a => if a =? 0x3C then 0x6D else if a =? 0x3D then 0x0B else 0) [])
    (demo_flow demo_status (mkAuth true true true 0 false 0 0) (demo_world false)).
Definition demo_events : list (inputs * event) :=
  map (pair (demo_inputs true [] 0)) [EvPg; EvAlgorithm; EvWork PowerSwitchWork; EvWork StepChargingWork; EvWork StepChargingWork; EvWork StepChargingWork].

Lemma input_current_bounded_witness :
  exists s', steps (H := ram_chip) demo_session demo_events = Ret s' /\ wireless_10w_ua (f_cur s') = 1000000 /\
    500000 <= wireless_10w_ua (f_cur s') <= 1200000.
Proof.
  destruct (steps (H := ram_chip) demo_session demo_events) as [s'| |] eqn:E; [|vm_compute in E; done..].
  exists s'. split; [reflexivity|]. split; [vm_compute in E; by injection E as <-|].
  exact (proj1 (input_current_bounded (H := ram_chip) demo_session s' 500000 1200000 demo_events
    ltac:(split; cbn; lia) ltac:(cbn; lia) eq_refl E)).
Defined.

(** At 10 W, with the works that are scheduled. *)
Definition demo_10w (w : work) (c : current) : flow (Z -> Z) :=
  on_sw (fun _ => mkSwitch false POWER_SUPPLY_TYPE_WIRELESS_10W 8000 9500 0)
    (on_cur (fun _ => c) (demo_flow demo_status fresh_auth (set_pending {[w]} (demo_world true)))).
Definition demo_reading (soc i : Z) : inputs := mkInputs [true] [] 0 [inl (i * 1000)] soc 0 0 true false (fun ua => (ua, 2000000)).

(** A run below the start of the charge, which is skipped; then six readings, and
    the limit follows their average. *)
Lemma adaptive_follows_average_witness :
  let s0 := demo_10w AdaptiveWork demo_current in
  exists s s', p922x_init_adaptive_current_limit_work s0 = Ret (s, tt) /\ on_adaptive (f_cur s) = false /\
    steps (H := ram_chip) s (runs_of AdaptiveWork (demo_reading 90 300 :: map (demo_reading 96) [700; 710; 720; 730; 740; 750])) = Ret s' /\
    wireless_10w_ua (f_cur s') = 850000.
Proof.
  intros s0. eexists. edestruct (adaptive_follows_average (H := ram_chip) s0) as (s' & E & _ & Hu); [reflexivity|done|..].
  3: { exists s'. split; [reflexivity|]. split; [reflexivity|]. split; [exact E|]. rewrite Hu. reflexivity. }
  - by split; [|split].
  - repeat (apply list.Forall_cons; split; [split; [done|by repeat constructor]|]). by apply list.Forall_nil.
Defined.

(** From 900 mA to the maximum of 1100 mA: two steps and the run that ends it. *)
Lemma step_charging_ends_witness :
  let s := demo_10w StepChargingWork (set_on_step true (set_10w 900000 demo_current)) in
  exists s', steps (H := ram_chip) s (runs_of StepChargingWork (replicate 3 (demo_inputs true [] 0))) = Ret s' /\
    wireless_10w_ua (f_cur s') = 1100000 /\ on_step_charging (f_cur s') = false.
Proof.
  intros s. destruct (step_charging_ends (H := ram_chip) s (replicate 3 (demo_inputs true [] 0))) as (s' & E & _ & Hr).
  - cbn. set_solver.
  - by repeat constructor.
  - by split.
  - done.
  - exists s'. split; [exact E|]. destruct Hr as (Hu & _ & Ho). by split.
Defined.

(** A charger that stays at 0 V. *)
Lemma switch_gives_up_witness :
  let s := demo_10w PowerSwitchWork demo_current in
  exists s', steps (H := ram_chip) s (runs_of PowerSwitchWork (replicate 4 (demo_inputs true [] 0))) = Ret s' /\
    psy_type (f_world s') = POWER_SUPPLY_TYPE_UNKNOWN /\ PowerSwitchWork ∉ pending (f_world s').
Proof.
  intros s. destruct (switch_gives_up (H := ram_chip) s (replicate 4 (demo_inputs true [] 0))) as (s' & E & _ & Ht & Hp & _).
  - cbn. set_solver.
  - cbn [replicate outside]. do 4 (split; [reflexivity|intros ? E; vm_compute in E; injection E as <-]). done.
  - done.
  - exists s'. exact (conj E (conj Ht Hp)).
Defined.
