(* ===== verification/P922xProbe.v ===== *)
(** * The wireless receiver: device tree, probe and removal

    The configuration from the device tree, the pin states, and what the probe of
    idtp922x_wireless_power.c acquires, releases when it fails and leaves to the
    removal. *)

From Stdlib Require Import String.
From stdpp Require Import base tactics numbers list gmap option countable.
From S2P Require Import Prelude Kstrtox Printf Of P922x P922xCal P922xFlow P922xSession P922xCharge.

Definition CHARGER_VOUT_10W : Z := 9000.
Definition CHARGER_VOUT_5W : Z := 6500.
Definition SWITCH_10W_VTH_L : Z := 8500.
Definition SWITCH_10W_VTH_H : Z := 9500.
Definition SWITCH_5W_VTH_L : Z := 6000.
Definition SWITCH_5W_VTH_H : Z := 7000.
Definition SWITCH_VOLTAGE_COUNT : nat := 6.
Definition THERMAL_SENSOR_NUM : nat := 2.

(** ** Pins *)

(** The states of the pin controller: which the driver may switch, what it last
    asked for, and the states it selected, the last one at the end. *)
Record pins := mkPins {
  support_wpc_en : bool; wpc_en : bool; support_sleep_en : bool; sleep_en : bool; support_ovp : bool; selected : list string }.

(** [pinctrl]: the states that can be looked up, if there is a controller. *)
Definition p922x_pinctrl_parse_dt (pinctrl : option (string -> bool)) : pins :=
  match pinctrl with
  | None => mkPins false false false false false []
  | Some has =>
    let wpc := has "wpc_en0"%string && has "wpc_en1"%string in
    let sleep := has "sleep_en0"%string && has "sleep_en1"%string in
    let ovp := has "ovp_en0"%string && has "ovp_en1"%string in
    mkPins wpc wpc sleep false ovp
      ((if wpc then ["wpc_en0"%string] else []) ++ (if sleep then ["sleep_en0"%string] else []) ++ (if ovp then ["ovp_en1"%string] else []))
  end.

Definition p922x_set_wpc_en (p : pins) (en : bool) : pins * Z :=
  if negb (support_wpc_en p) then (p, - EINVAL)
  else if Bool.eqb (wpc_en p) en then (p, 0)
  else (mkPins (support_wpc_en p) en (support_sleep_en p) (sleep_en p) (support_ovp p)
          (selected p ++ [if en then "wpc_en0" else "wpc_en1"]%string), 0).
Definition p922x_set_sleep_en (p : pins) (en : bool) : pins * Z :=
  if negb (support_sleep_en p) then (p, - EINVAL)
  else if Bool.eqb (sleep_en p) en then (p, 0)
  else (mkPins (support_wpc_en p) (wpc_en p) (support_sleep_en p) en (support_ovp p)
          (selected p ++ [if en then "sleep_en1" else "sleep_en0"]%string), 0).

(** ** Device tree *)

(** The windows of 5 W and 10 W. *)
Definition p922x_init_switch_voltage (data : option (list Z)) : (Z * Z * Z) * (Z * Z * Z) :=
  match data with
  | None => ((SWITCH_5W_VTH_L, CHARGER_VOUT_5W, SWITCH_5W_VTH_H), (SWITCH_10W_VTH_L, CHARGER_VOUT_10W, SWITCH_10W_VTH_H))
  | Some data => ((data !!! 0%nat, data !!! 1%nat, data !!! 2%nat), (data !!! 3%nat, data !!! 4%nat, data !!! 5%nat))
  end.

(** A number that stays at its default when it cannot be read. *)
Definition s32_or (np : device_node) (name : string) (d : Z) : Z :=
  match of_property_read_s32 np name with inr v => v | inl _ => d end.

(** The coefficients and their number, a byte. *)
Definition fod_of (np : device_node) (name : string) : list Z * Z :=
  if u8 (of_property_count_elems_of_size np name 1) =? Z.of_nat FOD_COEF_PARAM_LENGTH then
    (match of_property_read_u8_array np name FOD_COEF_PARAM_LENGTH with inr l => l | inl _ => replicate FOD_COEF_PARAM_LENGTH 0 end,
     Z.of_nat FOD_COEF_PARAM_LENGTH)
  else (replicate FOD_COEF_PARAM_LENGTH 0, 0).

(** What the driver reads of the charger's: whether it has an algorithm, and the
    currents of the powers. *)
Record charger_data := mkCharger { ci_algo : bool; ci_default_ua : Z; ci_5w_ua : Z; ci_10w_ua : Z }.

(** [None]: the device tree has no minimum input voltages. What is the charger's
    is not known yet. *)
Definition p922x_parse_dt (np : device_node) (p : pins) (idt_sram_firmware : list Z) : option config :=
  match of_property_read_u32_array np "wpc-mivr" 2 with
  | inl _ => None
  | inr mivr =>
    let volts := p922x_init_switch_voltage
      (match of_property_read_u32_array np "wpc-switch-voltage" SWITCH_VOLTAGE_COUNT with
       | inr data =>
         if of_property_count_elems_of_size np "wpc-switch-voltage" 4 =? Z.of_nat SWITCH_VOLTAGE_COUNT then Some (s32 <$> data) else None
       | inl _ => None
       end) in
    let fod5 := fod_of np "bpp-5w-fod" in
    let fod10 := fod_of np "bpp-10w-fod" in
    Some (mkConfig (of_property_read_bool np "use-buck") (support_ovp p) false volts.1 volts.2
      (s32 (mivr !!! 0%nat), s32 (mivr !!! 1%nat)) fod5.1 fod5.2 fod10.1 fod10.2
      (s32_or np "adaptive_start_soc" 90) (s32_or np "adaptive_margin" 200)
      (s32_or np "adaptive_max_current_limit_ma" 1100) (s32_or np "adaptive_min_current_limit" 300) (s32_or np "adaptive_start_ma" 500)
      (s32_or np "bpp_10w_default_input_current" 1100) 0 0
      (s32_or np "start_ma" 500) (s32_or np "step_ma" 200) (s32_or np "step_max_ua" 1100000) true idt_sram_firmware)
  end.

Definition with_charger (ci : charger_data) (c : config) : config :=
  mkConfig (use_buck c) (support_ovp_en c) (ci_algo ci) (switch_5w c) (switch_10w c) (wpc_mivr c) (bpp_5w_fod c) (bpp_5w_fod_num c)
    (bpp_10w_fod c) (bpp_10w_fod_num c) (start_soc c) (margin c) (max_current_limit c) (min_current_limit c) (adaptive_start_ma c)
    (bpp_10w_default_input_current c) (ci_default_ua ci) (ci_5w_ua ci) (step_start_ma c) (step_ma c) (step_max_ua c) (step_load_en c)
    (P922xFlow.idt_sram_firmware c).

(** ** Resources *)

Inductive res := ChipMem | Regmap | Wakeup | WpcPsy | DockSwitch | IntGpio | PgGpio | IntIrq | PgIrq | ChargerDev | SysfsGroup
  | Sensor (i : nat).
#[export] Instance res_eq_dec : EqDecision res.
Proof. solve_decision. Defined.
(** What is held, in the order in which it was acquired, what was released without
    being held, the works that are scheduled. *)
Record kernel := mkKernel { held : list res; misfreed : list res; works : gset work }.
Definition acquire (r : res) (k : kernel) : kernel := mkKernel (held k ++ [r]) (misfreed k) (works k).
Definition release (r : res) (k : kernel) : kernel :=
  if existsb (fun x => bool_decide (x = r)) (held k) then mkKernel (filter (fun x => x <> r) (held k)) (misfreed k) (works k)
  else mkKernel (held k) (misfreed k ++ [r]) (works k).
Definition release_if (b : bool) (r : res) (k : kernel) : kernel := if b then release r k else k.
Definition schedule_work (w : work) (k : kernel) : kernel := mkKernel (held k) (misfreed k) ({[w]} ∪ works k).

(** [devm_power_supply_get_by_phandle]: an error pointer, NULL or a supply. *)
Inductive psy_ref := NoPhandle | NotRegistered | Supply.
(** [regmap_init_i2c]: NULL, which is tested (and which it never is), an error
    pointer, which is taken for a map, or a map. *)
Inductive regmap_ref := NullRegmap | ErrorRegmap | GoodRegmap.

(** What the environment answers: the command line, the allocations, the device
    node (and whether it matches), the pin controller, the registrations (0 or an
    error; of the charger device NULL or an error pointer), the interrupts of the
    GPIOs, the partners; of each thermal sensor whether it has memory and is
    registered. *)
Record probe_env := mkProbe {
  saved_command_line : list Z; chip_alloc : bool; regmap_init : regmap_ref; idme_alloc : bool; idme_node : option (option (list Z));
  of_node : option device_node; of_match : bool; pinctrl : option (string -> bool); int_gpio : Z; pg_gpio_num : Z;
  psy_register : Z; switch_register : Z; gpio_request : Z -> Z; gpio_to_irq : Z -> Z; request_irq : Z -> Z;
  charger_register : Z + bool; chg1_dev : bool; gauge : psy_ref; charger : psy_ref; chg_info : option charger_data;
  sysfs_create : Z; firmware : list Z; tz_alloc : nat -> bool; tz_register : nat -> bool }.

(** What a probe that succeeds leaves: the configuration, the calibration, the
    pins, whether there is a charger device, whether the battery's supply is one,
    and the charger's 10 W current. *)
Record probed := mkProbed {
  pr_cfg : config; pr_dev : p922x_dev; pr_pins : pins; chg_dev : bool; bat_psy : bool; pr_10w_ua : Z }.

(** [strstr]. *)
Fixpoint starts_with (p s : list Z) : bool :=
  match p, s with
  | [], _ => true
  | a :: p, b :: s => (a =? b) && starts_with p s
  | _, [] => false
  end.
Fixpoint strstr (s p : list Z) : bool :=
  starts_with p s || match s with [] => false | _ :: s => strstr s p end.
Definition p922x_get_wpc_support (cmdline : list Z) : bool := strstr cmdline (str "androidboot.wpc.support=1").

(** ** Probe *)

Section Probe.
Context {C : Type} `{Chip C} (e : probe_env).

Definition p922x_request_io_port (k : kernel) : kernel * Z :=
  if gpio_request e (int_gpio e) <? 0 then (k, - ENODEV) else
  let k := acquire IntGpio k in
  if gpio_request e (pg_gpio_num e) <? 0 then (release_if (gpio_is_valid (int_gpio e)) IntGpio k, - ENODEV)
  else (acquire PgGpio k, 0).

(** The result of the first request is overwritten. *)
Definition p922x_register_irq (k : kernel) : kernel * Z :=
  let k := if request_irq e (gpio_to_irq e (int_gpio e)) =? 0 then acquire IntIrq k else k in
  let ret := request_irq e (gpio_to_irq e (pg_gpio_num e)) in
  (if ret =? 0 then acquire PgIrq k else k, ret).

(** [IS_ERR_OR_NULL]: of NULL [PTR_ERR] is 0. *)
Definition p922x_charger_device_register (k : kernel) : kernel * Z * bool :=
  match charger_register e with
  | inl err => (k, err, false)
  | inr ok => (if ok then acquire ChargerDev k else k, 0, ok)
  end.

(** The labels. *)
Definition out_kfree (k : kernel) : kernel := release ChipMem k.
Definition out_regmap (k : kernel) : kernel := out_kfree (release Wakeup (release Regmap k)).
Definition out_wpc_psy (k : kernel) : kernel := out_regmap (release WpcPsy k).
Definition out_switch (k : kernel) : kernel := out_wpc_psy (release DockSwitch k).
Definition out_gpio (k : kernel) : kernel :=
  out_switch (release_if (gpio_is_valid (pg_gpio_num e)) PgGpio (release_if (gpio_is_valid (int_gpio e)) IntGpio k)).
Definition out_irq (k : kernel) : kernel :=
  out_gpio (release_if (negb (gpio_to_irq e (pg_gpio_num e) =? 0)) PgIrq (release_if (negb (gpio_to_irq e (int_gpio e) =? 0)) IntIrq k)).
Definition out_charger (chg_dev : bool) (k : kernel) : kernel := out_irq (release_if chg_dev ChargerDev k).

(** The loop from sensor [i]: whether it has memory for all of them. *)
Fixpoint register_sensors (n i : nat) (k : kernel) : kernel * bool :=
  match n with
  | O => (k, true)
  | S n =>
    if negb (tz_alloc e i) then (k, false)
    else register_sensors n (S i) (if tz_register e i then acquire (Sensor i) k else k)
  end.

Definition p922x_fwver (b : bus C) : bus C :=
  let '(b, _, _) := p922x_read_buffer b REG_CHIP_ID 8 in
  let '(b, _, _) := p922x_read_buffer b REG_CHIP_REV 4 in b.

(** The map is accessed: by a transfer, or by [regmap_exit] on the way out. *)
Definition with_regmap {A} (x : outcome A) : outcome A := match regmap_init e with GoodRegmap => x | _ => Oops end.
Definition fail (b : bus C) (k : kernel) (ret : Z) : outcome (bus C * kernel * Z * option probed) := with_regmap (Ret (b, k, ret, None)).

(** From [get_charger_by_name] on; [ret] is the result of the last call. An error
    pointer for the charger's supply is dereferenced. *)
Definition find_partners (b : bus C) (k : kernel) (ret : Z) (chg_dev : bool) (mk : charger_data -> probed)
    : outcome (bus C * kernel * Z * option probed) :=
  if negb (chg1_dev e) then fail b (out_charger chg_dev k) ret else
  match gauge e with
  | NotRegistered => fail b (out_charger chg_dev k) ret
  | _ =>
    match charger e with
    | NotRegistered => fail b (out_charger chg_dev k) ret
    | NoPhandle => Oops
    | Supply =>
      match chg_info e with
      | None => fail b (out_charger chg_dev k) ret
      | Some ci =>
        with_regmap (
        let b := (p922x_read b 0x5870).1 in
        let b := (p922x_read b 0x5874).1 in
        let b := p922x_fwver b in
        let ret := sysfs_create e in
        if negb (ret =? 0) then fail b (out_charger chg_dev k) ret else
        let '(k, ok) := register_sensors THERMAL_SENSOR_NUM 0 (schedule_work InitWork (acquire SysfsGroup k)) in
        if negb ok then fail b (out_charger chg_dev k) ret else Ret (b, k, 0, Some (mk ci)))
      end
    end
  end.

(** From [p922x_request_io_port] to the charger device. *)
Definition register_lines (k : kernel) : kernel * Z * option bool :=
  let '(k, ret) := p922x_request_io_port k in
  if ret <? 0 then (out_switch k, ret, None) else
  let '(k, ret) := p922x_register_irq k in
  if ret <? 0 then (out_gpio k, ret, None) else
  let '(k, ret, chg_dev) := p922x_charger_device_register k in
  if ret <? 0 then (out_irq k, ret, None) else (k, ret, Some chg_dev).

(** The configuration, if there is a node that matches and can be parsed. *)
Definition parsed_config (p : pins) : option config :=
  match of_node e with
  | Some np => if of_match e then p922x_parse_dt np p (firmware e) else None
  | None => None
  end.

(** From [device_init_wakeup] on. *)
Definition probe_from (b : bus C) (k : kernel) (d : p922x_dev) : outcome (bus C * kernel * Z * option probed) :=
  let k := acquire Wakeup k in
  let p := p922x_pinctrl_parse_dt (pinctrl e) in
  match parsed_config p with
  | None => fail b (out_regmap k) (- EINVAL)
  | Some cfg =>
    let ret := psy_register e in
    if ret <? 0 then fail b (out_regmap k) ret else
    let k := acquire WpcPsy k in
    let ret := switch_register e in
    if negb (ret =? 0) then fail b (out_wpc_psy k) ret else
    let '(k, ret, o) := register_lines (acquire DockSwitch k) in
    match o with
    | None => fail b k ret
    | Some chg_dev =>
      find_partners b k ret chg_dev
        (fun ci => mkProbed (with_charger ci cfg) d p chg_dev (match gauge e with Supply => true | _ => false end) (ci_10w_ua ci))
    end
  end.

Definition p922x_probe (b : bus C) : outcome (bus C * kernel * Z * option probed) :=
  let k := mkKernel [] [] ∅ in
  if negb (p922x_get_wpc_support (saved_command_line e)) then Ret (b, k, - ENODEV, None)
  else if negb (chip_alloc e) then Ret (b, k, - ENOMEM, None) else
  let k := acquire ChipMem k in
  match regmap_init e with NullRegmap => Ret (b, out_kfree k, - EINVAL, None) | m =>
  let k := match m with GoodRegmap => acquire Regmap k | _ => k end in
  '(d, _) ← p922x_get_iout_cal_data (mkDev (threshold cal_data) (gain cal_data) (offset cal_data) false false 0 1) (idme_alloc e) (idme_node e);
  probe_from b k d
  end.

Definition p922x_remove (p : probed) (k : kernel) : kernel :=
  let k := release_if (negb (gpio_to_irq e (int_gpio e) =? 0)) IntIrq k in
  let k := release_if (negb (gpio_to_irq e (pg_gpio_num e) =? 0)) PgIrq k in
  let k := release_if (gpio_is_valid (int_gpio e)) IntGpio k in
  let k := release_if (gpio_is_valid (pg_gpio_num e)) PgGpio k in
  let k := release_if (chg_dev p) ChargerDev k in
  release WpcPsy (release DockSwitch (release Regmap (release Wakeup (release SysfsGroup k)))).
End Probe.

(** What the device core releases after a removal: the memory of the device and
    its thermal sensors. *)
Definition managed (r : res) : bool := match r with ChipMem | Sensor _ => true | _ => false end.
Definition devres_release_all (k : kernel) : kernel :=
  mkKernel (filter (fun r => managed r = false) (held k)) (misfreed k) (works k).


(** ** Specification *)

(** What a probe finds missing first; [Crash]: an error pointer that is taken for
    the map or for the charger's supply. *)
Inductive stage := NoSupport | NoMemory | NoRegmap | Crash | BadTree | NoPsy | NoSwitch | NoLines | NoPgIrq | NoCharger | NoPartner | NoSysfs
  | NoSensorMem.

Section Table.
Context (e : probe_env).
Definition int_ok : bool := request_irq e (gpio_to_irq e (int_gpio e)) =? 0.
Definition partner_failure : option stage :=
  if negb (chg1_dev e) then Some NoPartner else
  match gauge e, charger e, chg_info e with
  | NotRegistered, _, _ | _, NotRegistered, _ | _, Supply, None => Some NoPartner
  | _, NoPhandle, _ => Some Crash
  | _, Supply, Some _ => None
  end.
Definition first_failure : option stage :=
  if negb (p922x_get_wpc_support (saved_command_line e)) then Some NoSupport
  else if negb (chip_alloc e) then Some NoMemory
  else match regmap_init e with NullRegmap => Some NoRegmap | ErrorRegmap => Some Crash | GoodRegmap =>
  match parsed_config e (p922x_pinctrl_parse_dt (pinctrl e)) with None => Some BadTree | Some _ =>
  if psy_register e <? 0 then Some NoPsy
  else if negb (switch_register e =? 0) then Some NoSwitch
  else if (gpio_request e (int_gpio e) <? 0) || (gpio_request e (pg_gpio_num e) <? 0) then Some NoLines
  else if request_irq e (gpio_to_irq e (pg_gpio_num e)) <? 0 then Some NoPgIrq
  else match charger_register e with inl _ => Some NoCharger | inr _ =>
  match partner_failure with Some st => Some st | None =>
  if negb (sysfs_create e =? 0) then Some NoSysfs
  else if negb (tz_alloc e 0 && tz_alloc e 1) then Some NoSensorMem
  else None end end end end.

(** What is returned then, and what is left behind: held, released without being
    held, scheduled. *)
Definition error_of (st : stage) : Z :=
  match st with
  | NoSupport | NoLines => - ENODEV
  | NoMemory => - ENOMEM
  | NoRegmap | BadTree => - EINVAL
  | NoPsy => psy_register e
  | NoSwitch => switch_register e
  | NoPgIrq => request_irq e (gpio_to_irq e (pg_gpio_num e))
  | NoCharger => match charger_register e with inl err => err | inr _ => 0 end
  | NoPartner | NoSensorMem | Crash => 0
  | NoSysfs => sysfs_create e
  end.
Definition left_by (st : stage) : kernel :=
  match st with
  | NoPgIrq => mkKernel (if int_ok then [IntIrq] else []) [] ∅
  | NoCharger | NoPartner | NoSysfs => mkKernel [] (if int_ok then [] else [IntIrq]) ∅
  | NoSensorMem =>
    mkKernel (SysfsGroup :: if tz_alloc e 0 && tz_register e 0 then [Sensor 0] else []) (if int_ok then [] else [IntIrq]) {[InitWork]}
  | _ => mkKernel [] [] ∅
  end.

(** What a probe that succeeds holds. *)
Definition all_held (chg_dev : bool) : list res :=
  [ChipMem; Regmap; Wakeup; WpcPsy; DockSwitch; IntGpio; PgGpio] ++ (if int_ok then [IntIrq] else []) ++ [PgIrq] ++
  (if chg_dev then [ChargerDev] else []) ++ [SysfsGroup] ++ (if tz_register e 0 then [Sensor 0] else []) ++
  (if tz_register e 1 then [Sensor 1] else []).

(** What the kernel's calls promise: a GPIO that could be requested is valid, its
    interrupt is not 0, and the results are 0 or errors. *)
Record env_ok : Prop := {
  ok_gpio n : 0 <= gpio_request e n -> gpio_is_valid n = true;
  ok_irq n : gpio_to_irq e n <> 0;
  ok_request n : request_irq e n <= 0;
  ok_charger err : charger_register e = inl err -> err < 0 }.
End Table.

(** The last state of a pair that was selected. *)
Definition shown (en0 en1 : string) (p : pins) : option string :=
  list.last (filter (fun x => x = en0 \/ x = en1) (selected p)).
Inductive pin_op := SetWpc (en : bool) | SetSleep (en : bool).
Definition run_pin (p : pins) (o : pin_op) : pins :=
  match o with SetWpc en => (p922x_set_wpc_en p en).1 | SetSleep en => (p922x_set_sleep_en p en).1 end.


(** ** Lemmas *)

Lemma last_filter_snoc {A} (P : A -> Prop) `{forall x, Decision (P x)} l x :
  list.last (filter P (l ++ [x])) = if decide (P x) then Some x else list.last (filter P l).
Proof.
  rewrite list.filter_app. destruct (decide (P x)).
  - by rewrite filter_cons_True, filter_nil, list.last_snoc.
  - by rewrite filter_cons_False, filter_nil, app_nil_r.
Qed.

Lemma run_pin_follows p o :
  let shows p := shown "wpc_en0" "wpc_en1" p = (if support_wpc_en p then Some (if wpc_en p then "wpc_en0" else "wpc_en1") else None)%string /\
    shown "sleep_en0" "sleep_en1" p = (if support_sleep_en p then Some (if sleep_en p then "sleep_en1" else "sleep_en0") else None)%string in
  shows p -> shows (run_pin p o).
Proof.
  destruct p as [sw w ss s so l]. unfold shown. cbn [selected support_wpc_en wpc_en support_sleep_en sleep_en]. intros [Hw Hs].
  destruct o as [en|en]; cbn [run_pin]; unfold p922x_set_wpc_en, p922x_set_sleep_en; cbn [selected support_wpc_en wpc_en support_sleep_en sleep_en].
  - destruct sw; cbn [negb]; [|by split]. destruct (Bool.eqb w en); [by split|]. cbn [fst selected support_wpc_en wpc_en support_sleep_en sleep_en].
    rewrite !last_filter_snoc. by destruct en.
  - destruct ss; cbn [negb]; [|by split]. destruct (Bool.eqb s en); [by split|]. cbn [fst selected support_wpc_en wpc_en support_sleep_en sleep_en].
    rewrite !last_filter_snoc. by destruct en.
Qed.


Section ProbeLemmas.
Context {C : Type} `{Chip C} (e : probe_env) (He : env_ok e).

Definition upto_switch : list res := [ChipMem; Regmap; Wakeup; WpcPsy; DockSwitch].

Lemma lines_eq :
  register_lines e (mkKernel upto_switch [] ∅) =
    if (gpio_request e (int_gpio e) <? 0) || (gpio_request e (pg_gpio_num e) <? 0) then (left_by e NoLines, - ENODEV, None)
    else if request_irq e (gpio_to_irq e (pg_gpio_num e)) <? 0 then (left_by e NoPgIrq, error_of e NoPgIrq, None)
    else match charger_register e with
         | inl err => (left_by e NoCharger, err, None)
         | inr cd => (mkKernel (upto_switch ++ [IntGpio; PgGpio] ++ (if int_ok e then [IntIrq] else []) ++ [PgIrq] ++ (if cd then [ChargerDev] else []))
                        [] ∅, 0, Some cd)
         end.
Proof.
  unfold register_lines, p922x_request_io_port, p922x_register_irq, p922x_charger_device_register, int_ok, left_by, error_of.
  destruct (Z.ltb_spec (gpio_request e (int_gpio e)) 0) as [|Hi]; [reflexivity|].
  pose proof (ok_gpio e He _ Hi) as Vi. rewrite Vi. cbn [orb].
  destruct (Z.ltb_spec (gpio_request e (pg_gpio_num e)) 0) as [|Hp]; [reflexivity|]. pose proof (ok_gpio e He _ Hp) as Vp.
  unfold out_irq, out_gpio. rewrite Vi, Vp.
  destruct (Z.eqb_spec (gpio_to_irq e (int_gpio e)) 0) as [E|_]; [by apply (ok_irq e He) in E|].
  destruct (Z.eqb_spec (gpio_to_irq e (pg_gpio_num e)) 0) as [E|_]; [by apply (ok_irq e He) in E|]. cbn [negb].
  pose proof (ok_request e He (gpio_to_irq e (pg_gpio_num e))).
  destruct (Z.ltb_spec (request_irq e (gpio_to_irq e (pg_gpio_num e))) 0) as [Hr|Hr];
    destruct (Z.eqb_spec (request_irq e (gpio_to_irq e (pg_gpio_num e))) 0); try lia; unfold int_ok;
    destruct (request_irq e (gpio_to_irq e (int_gpio e)) =? 0); try reflexivity;
    (destruct (charger_register e) as [err|[]] eqn:Ec; [|reflexivity..]); apply (ok_charger e He) in Ec;
    change (0 <? 0) with false; cbv iota beta; (destruct (Z.ltb_spec err 0); [|lia]); reflexivity.
Qed.

(** What a probe comes to at a stage. *)
Definition failed (b : bus C) (st : stage) : outcome (bus C * kernel * Z * option probed) :=
  match st with Crash => Oops | _ => Ret (b, left_by e st, error_of e st, None) end.

Lemma partners_eq (b : bus C) (l bad : list res) (cd : bool) mk : regmap_init e = GoodRegmap ->
  l = upto_switch ++ [IntGpio; PgGpio] ++ (if int_ok e then [IntIrq] else []) ++ [PgIrq] ++ (if cd then [ChargerDev] else []) ->
  gpio_is_valid (int_gpio e) = true -> gpio_is_valid (pg_gpio_num e) = true -> bad = [] ->
  exists b', find_partners e b (mkKernel l bad ∅) 0 cd mk =
    match partner_failure e with
    | Some st => failed b' st
    | None =>
      if negb (sysfs_create e =? 0) then failed b' NoSysfs
      else if negb (tz_alloc e 0 && tz_alloc e 1) then failed b' NoSensorMem
      else Ret (b', mkKernel (all_held e cd) [] {[InitWork]}, 0, match chg_info e with Some ci => Some (mk ci) | None => None end)
    end.
Proof.
  intros Hm -> Vi Vp ->. unfold find_partners, partner_failure, fail, with_regmap, out_charger, out_irq, out_gpio. rewrite Hm, Vi, Vp.
  destruct (Z.eqb_spec (gpio_to_irq e (int_gpio e)) 0) as [E|_]; [by apply (ok_irq e He) in E|].
  destruct (Z.eqb_spec (gpio_to_irq e (pg_gpio_num e)) 0) as [E|_]; [by apply (ok_irq e He) in E|]. cbn [negb].
  unfold all_held, failed, left_by, error_of.
  destruct (chg1_dev e), (gauge e), (charger e), (chg_info e) as [ci|]; cbn [negb]; try done;
    try (exists b; by destruct (int_ok e), cd).
  all: exists (p922x_fwver (p922x_read (p922x_read b 0x5870).1 0x5874).1);
    (destruct (Z.eqb_spec (sysfs_create e) 0) as [->|]; cbn [negb]; [|by destruct (int_ok e), cd]).
  all: cbn [register_sensors THERMAL_SENSOR_NUM].
  all: destruct (tz_alloc e 0), (tz_register e 0), (tz_alloc e 1), (tz_register e 1), (int_ok e), cd; reflexivity.
Qed.

Lemma probe_from_eq (b : bus C) d :
  p922x_get_wpc_support (saved_command_line e) = true -> chip_alloc e = true -> regmap_init e = GoodRegmap ->
  exists b' p, probe_from e b (mkKernel [ChipMem; Regmap] [] ∅) d =
    match first_failure e with
    | Some st => failed b' st
    | None => Ret (b', mkKernel (all_held e (chg_dev p)) [] {[InitWork]}, 0, Some p)
    end /\ (first_failure e = None -> pr_dev p = d /\
      (forall ci, chg_info e = Some ci -> pr_10w_ua p = ci_10w_ua ci /\
        exists cfg, parsed_config e (p922x_pinctrl_parse_dt (pinctrl e)) = Some cfg /\ pr_cfg p = with_charger ci cfg)).
Proof.
  intros Hs Ha Hm. unfold first_failure. rewrite Hs, Ha, Hm. cbn [negb]. unfold probe_from, fail, with_regmap. rewrite Hm.
  set (dummy := mkProbed demo_config d (mkPins false false false false false []) false false 0).
  destruct (parsed_config e (p922x_pinctrl_parse_dt (pinctrl e))) as [cfg|]; [|by exists b, dummy].
  destruct (psy_register e <? 0); [by exists b, dummy|]. destruct (negb (switch_register e =? 0)); [by exists b, dummy|].
  change (acquire DockSwitch _) with (mkKernel upto_switch [] ∅). rewrite lines_eq.
  destruct ((gpio_request e (int_gpio e) <? 0) || (gpio_request e (pg_gpio_num e) <? 0)) eqn:Eg; [by exists b, dummy|].
  destruct (request_irq e (gpio_to_irq e (pg_gpio_num e)) <? 0); [by exists b, dummy|].
  destruct (charger_register e) as [err|cd] eqn:Ec; [exists b, dummy; unfold failed; cbn [error_of]; by rewrite Ec|].
  apply orb_false_iff in Eg as [Vi%Z.ltb_ge Vp%Z.ltb_ge]. apply (ok_gpio e He) in Vi, Vp.
  match goal with |- context [find_partners _ _ _ _ _ ?mk] => destruct (partners_eq b _ [] cd mk Hm eq_refl Vi Vp eq_refl) as [b' Ep]; rewrite Ep; clear Ep end.
  destruct (partner_failure e) as [st|] eqn:Epf; [by exists b', dummy|].
  destruct (chg_info e) as [ci|] eqn:Ei; [|exfalso; revert Epf; unfold partner_failure; rewrite Ei; by destruct (chg1_dev e), (gauge e), (charger e)].
  destruct (negb (sysfs_create e =? 0)); [by exists b', dummy|]. destruct (negb _); [by exists b', dummy|].
  exists b', (mkProbed (with_charger ci cfg) d (p922x_pinctrl_parse_dt (pinctrl e)) cd (match gauge e with Supply => true | _ => false end) (ci_10w_ua ci)).
  split; [reflexivity|]. intros _. split; [done|]. intros ci' [= <-]. split; [done|]. by exists cfg.
Qed.

(** With an error pointer for the map every way out faults. *)
Lemma bad_regmap (b : bus C) k d : regmap_init e = ErrorRegmap -> probe_from e b k d = Oops.
Proof.
  intros Hm. unfold probe_from, find_partners, fail, with_regmap. rewrite Hm. destruct (parsed_config _ _); [|done]. destruct (_ <? 0); [done|].
  destruct (negb _); [done|]. destruct (register_lines _ _) as [[k1 r1] [cd|]]; [|done]. destruct (chg1_dev e), (gauge e), (charger e), (chg_info e); done.
Qed.

(** What the probe comes to, and the configuration and current of one that succeeds. *)
Lemma probe_eq (b : bus C) d r :
  p922x_get_iout_cal_data (mkDev (threshold cal_data) (gain cal_data) (offset cal_data) false false 0 1) (idme_alloc e) (idme_node e) = Ret (d, r) ->
  exists b' p, p922x_probe e b =
    match first_failure e with
    | Some st => failed b' st
    | None => Ret (b', mkKernel (all_held e (chg_dev p)) [] {[InitWork]}, 0, Some p)
    end /\ (first_failure e = None -> pr_dev p = d /\
      (forall ci, chg_info e = Some ci -> pr_10w_ua p = ci_10w_ua ci /\
        exists cfg, parsed_config e (p922x_pinctrl_parse_dt (pinctrl e)) = Some cfg /\ pr_cfg p = with_charger ci cfg)).
Proof.
  intros Hd. unfold p922x_probe. rewrite Hd. cbn [mbind outcome_bind].
  set (dummy := mkProbed demo_config d (mkPins false false false false false []) false false 0).
  destruct (p922x_get_wpc_support (saved_command_line e)) eqn:Es; cbn [negb]; [|exists b, dummy; unfold first_failure; by rewrite Es].
  destruct (chip_alloc e) eqn:Ea; cbn [negb]; [|exists b, dummy; unfold first_failure; by rewrite Es, Ea].
  destruct (regmap_init e) eqn:Em.
  - exists b, dummy. unfold first_failure. by rewrite Es, Ea, Em.
  - rewrite bad_regmap by done. exists b, dummy. unfold first_failure. by rewrite Es, Ea, Em.
  - by apply probe_from_eq.
Qed.

Lemma no_failure_valid : first_failure e = None -> gpio_is_valid (int_gpio e) = true /\ gpio_is_valid (pg_gpio_num e) = true /\ exists ci, chg_info e = Some ci.
Proof.
  unfold first_failure. repeat (destruct (negb _); [done|]). destruct (regmap_init e); [done..|].
  destruct (parsed_config _ _); [|done]. destruct (psy_register e <? 0); [done|].
  destruct (negb _); [done|].
  destruct (Z.ltb_spec (gpio_request e (int_gpio e)) 0) as [|Vi]; [done|].
  destruct (Z.ltb_spec (gpio_request e (pg_gpio_num e)) 0) as [|Vp]; [done|]. cbn [orb]. destruct (_ <? 0); [done|]. destruct (charger_register e); [done|].
  destruct (partner_failure e) eqn:Ep; [done|]. intros _. split; [by apply (ok_gpio e He)|]. split; [by apply (ok_gpio e He)|].
  revert Ep. unfold partner_failure. destruct (chg1_dev e), (gauge e), (charger e), (chg_info e) as [ci|]; try done; by exists ci.
Qed.


(** The removal of what a probe acquired. *)
Lemma remove_eq p w : gpio_is_valid (int_gpio e) = true -> gpio_is_valid (pg_gpio_num e) = true ->
  devres_release_all (p922x_remove e p (mkKernel (all_held e (chg_dev p)) [] w)) = mkKernel [] (if int_ok e then [] else [IntIrq]) w.
Proof.
  intros Vi Vp. unfold p922x_remove. rewrite Vi, Vp.
  destruct (Z.eqb_spec (gpio_to_irq e (int_gpio e)) 0) as [E|_]; [by apply (ok_irq e He) in E|].
  destruct (Z.eqb_spec (gpio_to_irq e (pg_gpio_num e)) 0) as [E|_]; [by apply (ok_irq e He) in E|]. cbn [negb].
  unfold all_held. by destruct (int_ok e), (chg_dev p), (tz_register e 0), (tz_register e 1).
Qed.
End ProbeLemmas.

(** ** Properties *)

(** C9. The probe does what its table says, whatever is missing first. An error
    pointer for the register map (which is not tested) or for the charger's supply
    (whose phandle is missing) is dereferenced: it faults. Otherwise it returns
    its error (0 for a missing partner and a sensor without memory, so that the
    driver stays bound to memory that was freed) and leaves nothing behind, but
    for three cases: the interrupt line that is kept when the power-good line
    cannot be requested; the one that is freed without being held when its own
    request failed, which is overlooked; the attributes and the scheduled set-up
    that survive a sensor without memory. A probe that succeeds is undone by the
    removal, but for that interrupt line and the works that stay scheduled. *)
Theorem probe_balanced {C} `{Chip C} (e : probe_env) (b : bus C) d r :
  env_ok e ->
  p922x_get_iout_cal_data (mkDev (threshold cal_data) (gain cal_data) (offset cal_data) false false 0 1) (idme_alloc e) (idme_node e) = Ret (d, r) ->
  match first_failure e with
  | Some Crash => p922x_probe e b = Oops
  | Some st => exists b', p922x_probe e b = Ret (b', left_by e st, error_of e st, None)
  | None => exists b' p k, p922x_probe e b = Ret (b', k, 0, Some p) /\ held k = all_held e (chg_dev p) /\ misfreed k = [] /\ works k = {[InitWork]} /\
      devres_release_all (p922x_remove e p k) = mkKernel [] (if int_ok e then [] else [IntIrq]) {[InitWork]}
  end.
Proof.
  intros He Hd. destruct (probe_eq e He b d r Hd) as (b' & p & E & _). rewrite E.
  destruct (first_failure e) as [st|] eqn:Ef; [destruct st; by try exists b'|].
  exists b', p, (mkKernel (all_held e (chg_dev p)) [] {[InitWork]}). split_and!; try done.
  destruct (no_failure_valid e He Ef) as (Vi & Vp & _). by apply remove_eq.
Qed.


(** The pins show what was asked for: after the probe and any calls of the
    charger's hooks, the last state selected of a pair the board has is that of
    the flag; of a pair it does not have none was selected. *)
Theorem pins_follow (pinctrl : option (string -> bool)) ops :
  let p := foldl run_pin (p922x_pinctrl_parse_dt pinctrl) ops in
  shown "wpc_en0" "wpc_en1" p = (if support_wpc_en p then Some (if wpc_en p then "wpc_en0" else "wpc_en1") else None)%string /\
  shown "sleep_en0" "sleep_en1" p = (if support_sleep_en p then Some (if sleep_en p then "sleep_en1" else "sleep_en0") else None)%string.
Proof.
  induction ops as [|o ops IH] using rev_ind; intros p.
  - subst p. cbn [foldl]. destruct pinctrl as [has|]; [|done]. unfold p922x_pinctrl_parse_dt, shown.
    destruct (has "wpc_en0"%string && has "wpc_en1"%string), (has "sleep_en0"%string && has "sleep_en1"%string), (has "ovp_en0"%string && has "ovp_en1"%string);
      by split.
  - subst p. rewrite foldl_snoc. by apply run_pin_follows.
Qed.

(** ** Witnesses *)

(** A board with everything the receiver needs; [sensors] have memory and
    [int] is the answer to the request of its interrupt. *)
Definition demo_node : device_node :=
  {[ "wpc-mivr" := Some (cells_value [4500000; 8000000]); "use-buck" := None ]}%string.
Definition demo_env (sensors : nat -> bool) (int : Z) : probe_env := {|
  saved_command_line := str "console=tty0 androidboot.wpc.support=1 quiet"; chip_alloc := true; regmap_init := GoodRegmap;
  idme_alloc := true; idme_node := None; of_node := Some demo_node; of_match := true;
  pinctrl := Some (fun name => String.prefix "wpc" name); int_gpio := 7; pg_gpio_num := 8; psy_register := 0; switch_register := 0;
  gpio_request := fun n => if (0 <=? n) && (n <? 512) then 0 else - EINVAL; gpio_to_irq := fun n => if n =? 7 then 307 else 308;
  request_irq := fun n => if n =? 307 then int else 0; charger_register := inr true; chg1_dev := true; gauge := Supply; charger := Supply;
  chg_info := Some (mkCharger false 500000 500000 1800000); sysfs_create := 0; firmware := []; tz_alloc := sensors; tz_register := fun _ => true |}.

Lemma demo_env_ok sensors int : int <= 0 -> env_ok (demo_env sensors int).
Proof.
  intros Hi. split; cbn.
  - intros n. unfold gpio_is_valid. by destruct (_ && _).
  - intros n. by destruct (n =? 7).
  - intros n. destruct (n =? 307); lia.
  - done.
Qed.

(** The second sensor has no memory and the interrupt was refused: the probe
    returns 0. *)
Lemma probe_balanced_witness :
  let e := demo_env (fun i => Nat.eqb i 0) (- EINVAL) in
  exists b', p922x_probe (H := ram_chip) e (mkBus (fun _ => 0) []) =
    Ret (b', mkKernel [SysfsGroup; Sensor 0] [IntIrq] {[InitWork]}, 0, None).
Proof.
  intros e. exact (probe_balanced (H := ram_chip) e (mkBus (fun _ => 0) []) _ _ ltac:(by apply demo_env_ok) eq_refl).
Defined.

