(* ===== verification/P922xAttr.v ===== *)
(** * The wireless receiver: the attributes that read it, suspend and resume

    What the attributes of idtp922x_wireless_power.c print of the chip and of the
    driver's state, the stores of the foreign-object coefficients, of a calibration
    by hand and of the step-load switch, and the nesting of the interrupt lines over
    suspend, resume and firmware updates. [sys_lock], [fod_lock] and [lock] are
    taken and released by straight-line code and are not state of the model. *)

From Stdlib Require Import String.
From stdpp Require Import base tactics numbers list gmap option.
From S2P Require Import Prelude Kstrtox Printf P922x P922xCal P922xFlow P922xSession.

Definition REG_PRX : Z := 0x0026.
Definition REG_ADC_VRECT : Z := 0x0040.
Definition REG_RX_LOUT : Z := 0x0044.
Definition REG_IOUT_RAW : Z := 0x007A.
Definition REG_FOD_DUMP_MAX : Z := 0x0077.
Definition FOD_COEF_ARRY_LENGTH : nat := 8.
Definition IOUT_CAL_CHAR_SIZE : nat := 56.
Definition TYPE_BPP : Z := 1.
Definition TYPE_BPP_PLUS : Z := 2.

(** ** Texts *)

Definition number_line (v : Z) : list Z := pct_d v ++ [10].
Definition regs_line (reg v : Z) : list Z := str "reg:0x" ++ pct_02x reg ++ str "=0x" ++ pct_02x v ++ [10].
Definition fod_reg_line (reg v : Z) : list Z := str "FOD REG[0x" ++ pct_02x reg ++ str "]=0x" ++ pct_02x v ++ [10].
Definition fod_line (idx gain offs : Z) : list Z := str "FOD" ++ pct_d idx ++ str ":0x" ++ pct_02x offs ++ pct_02x gain ++ [10].
Definition area_line (i : nat) (p : Z * Z) : list Z :=
  str "area[" ++ pct_d (Z.of_nat i) ++ str "], gain = 0x" ++ pct_04x p.1 ++ str ", offset = 0x" ++ pct_04x p.2 ++ [10].
Definition threshold_line (i : nat) (v : Z) : list Z := str "threshold[" ++ pct_d (Z.of_nat i) ++ str "] = 0x" ++ pct_04x v ++ [10].

(** The coefficients of a table, a line for each. *)
Definition fod_lines (l : list Z) : list Z :=
  mjoin ((fun i => fod_line (Z.of_nat i) (l !!! (2 * i)%nat) (l !!! (2 * i + 1)%nat)) <$> seq 0 FOD_COEF_ARRY_LENGTH).

(** ** Scanning *)

(** The [%u] of [vsscanf], and up to [n] times [%x]. *)
Definition scan_u (s : list Z) : option (Z * list Z) :=
  let s := skip_spaces s in
  if negb (isdigit (char_at s 0)) then None
  else let '(v, r) := simple_strtoull s 10 in Some (u32 v, r).
Fixpoint scan_xs (n : nat) (s : list Z) : list Z :=
  match n with
  | O => []
  | S n => match scan_x s with Some (v, r) => v :: scan_xs n r | None => [] end
  end.

(** What [%x] makes of an array of 16-bit words: four bytes at each one's
    address, one after the other. *)
Fixpoint put_u32 (fod : list Z) (i : nat) (vs : list Z) : list Z :=
  match vs with
  | [] => fod
  | v :: vs => put_u32 (<[S i := u16 (Z.shiftr v 16)]> (<[i := u16 v]> fod)) (S i) vs
  end.

(** The bytes of words, low byte first, over a calibration. *)
Definition force_words (retdata : list Z) (d : p922x_dev) : p922x_dev :=
  mkDev (imap (fun i r => set_val r (cal_word retdata (IOUT_CAL_AREA_MAX * 2 + i))) (threshold d))
        (imap (fun i r => set_val r (cal_word retdata (2 * i))) (gain d))
        (imap (fun i r => set_val r (cal_word retdata (2 * i + 1))) (offset d))
        (is_cal_data_ready d) (is_sram_updated d) (reg_addr d) (reg_size d).

Definition set_5w_fod l c := mkConfig (use_buck c) (support_ovp_en c) (has_algo c) (switch_5w c) (switch_10w c) (wpc_mivr c)
  l (bpp_5w_fod_num c) (bpp_10w_fod c) (bpp_10w_fod_num c) (start_soc c) (margin c) (max_current_limit c) (min_current_limit c)
  (adaptive_start_ma c) (bpp_10w_default_input_current c) (wireless_default_ua c) (wireless_5w_ua c) (step_start_ma c) (step_ma c)
  (step_max_ua c) (step_load_en c) (P922xFlow.idt_sram_firmware c).
Definition set_10w_fod l c := mkConfig (use_buck c) (support_ovp_en c) (has_algo c) (switch_5w c) (switch_10w c) (wpc_mivr c)
  (bpp_5w_fod c) (bpp_5w_fod_num c) l (bpp_10w_fod_num c) (start_soc c) (margin c) (max_current_limit c) (min_current_limit c)
  (adaptive_start_ma c) (bpp_10w_default_input_current c) (wireless_default_ua c) (wireless_5w_ua c) (step_start_ma c) (step_ma c)
  (step_max_ua c) (step_load_en c) (P922xFlow.idt_sram_firmware c).
Definition set_step_load b c := mkConfig (use_buck c) (support_ovp_en c) (has_algo c) (switch_5w c) (switch_10w c) (wpc_mivr c)
  (bpp_5w_fod c) (bpp_5w_fod_num c) (bpp_10w_fod c) (bpp_10w_fod_num c) (start_soc c) (margin c) (max_current_limit c) (min_current_limit c)
  (adaptive_start_ma c) (bpp_10w_default_input_current c) (wireless_default_ua c) (wireless_5w_ua c) (step_start_ma c) (step_ma c)
  (step_max_ua c) b (P922xFlow.idt_sram_firmware c).
Definition on_cfg {C} (f : config -> config) (s : flow C) :=
  mkFlow (f_bus s) (f_dev s) (f_auth s) (f_sw s) (f_cur s) (f_st s) (f (f_cfg s)) (f_world s) (f_in s).

Section Attributes.
Context {C : Type} `{Chip C}.

(** What a show prints, or its error. *)
Definition shows : Type := M C (list Z + Z).
Definition prints (text : list Z) : shows := mret (inl text).

(** ** Readings *)

Definition p922x_get_iout_adc : M C Z := r ← io (read16 REG_RX_LOUT); mret r.2.
Definition p922x_get_iout_raw : M C Z := r ← io (read16 REG_IOUT_RAW); mret (if negb (r.1 =? 0) then 0 else r.2).
Definition p922x_get_vrect_adc : M C Z :=
  r ← io (fun b => let '(b, _, buf) := p922x_read_buffer b REG_ADC_VRECT 2 in (b, buf));
  mret (u16 (Z.quot (Z.lor (r !!! 0%nat) (Z.shiftl (Z.land (r !!! 1%nat) 0xf) 8) * 10 * 21 * 1000) 40950)).
Definition p922x_get_prx : M C Z := r ← io (read16 REG_PRX); mret r.2.

Definition version_of (ver : list Z) : list Z :=
  pct_02x (ver !!! 3%nat) ++ str "." ++ pct_02x (ver !!! 2%nat) ++ str "." ++ pct_02x (ver !!! 1%nat) ++ str "." ++ pct_02x (ver !!! 0%nat) ++ [10].
Definition p922x_version_show : shows :=
  io (fun b => read_over 8 (p922x_read_buffer b REG_CHIP_ID 8));;
  ver ← io (fun b => read_over 4 (p922x_read_buffer b REG_CHIP_REV 4)); prints (version_of ver).
Definition p922x_id_show : shows :=
  id ← io (fun b => read_over 8 (p922x_read_buffer b REG_CHIP_ID 8));
  prints (pct_04x (Z.lor (id !!! 4%nat) (Z.shiftl (id !!! 0%nat) 8)) ++ [10]).

Definition p922x_id_authen_status_show : shows := v ← gets (fun s => tx_id_authen_status (f_auth s)); prints (number_line (Z.b2z v)).
Definition p922x_dev_authen_status_show : shows := v ← gets (fun s => tx_dev_authen_status (f_auth s)); prints (number_line (Z.b2z v)).
Definition p922x_is_hv_adapter_show : shows := v ← gets (fun s => is_hv_adapter (f_auth s)); prints (number_line (Z.b2z v)).
Definition p922x_tx_adapter_type_show : shows := v ← gets (fun s => tx_adapter_type (f_auth s)); prints (number_line v).
Definition p922x_over_reason_show : shows := v ← gets (fun s => over_reason (f_auth s)); prints (number_line v).
Definition p922x_dock_state_show : shows :=
  v ← gets (fun s => dock_state (f_world s)); prints (number_line (if v =? TYPE_UNDOCKED then 0 else 1)).
Definition p922x_step_load_en_show : shows := v ← gets (fun s => step_load_en (f_cfg s)); prints (number_line (Z.b2z v)).
Definition p922x_addr_show : shows :=
  d ← gets f_dev; prints (str "addr:0x" ++ pct_04x (reg_addr d) ++ str " size:" ++ pct_d (reg_size d) ++ [10]).

Definition p922x_power_rx_mw_show : shows := v ← p922x_get_prx; prints (number_line v).
Definition p922x_vout_adc_show : shows := v ← p922x_get_vout_adc; prints (number_line v).
Definition p922x_vrect_adc_show : shows := v ← p922x_get_vrect_adc; prints (number_line v).
Definition p922x_vout_set_show : shows := v ← io p922x_get_vout; prints (number_line v).
Definition p922x_iout_show : shows := v ← p922x_get_iout_adc; prints (number_line v).
Definition p922x_iout_raw_show : shows := v ← p922x_get_iout_raw; prints (number_line v).
Definition p922x_temp_adc_show : shows := v ← p922x_get_temp_adc; prints (number_line v).
Definition p922x_tx_signal_strength_show : shows := v ← p922x_get_tx_signal_strength; prints (number_line v).
Definition p922x_ntc_temp_show : shows := v ← io p922x_get_ntc_temp; prints (number_line (default 0 v)).

Definition p922x_irq_stat_show : shows :=
  r ← io (read16 REG_STATUS);
  if negb (r.1 =? 0) then mret (inr r.1) else prints (str "0x" ++ pct_04x r.2 ++ [10]).

Definition p922x_power_switch_show : shows :=
  '(ret, chr_type) ← power_supply_get_property;
  if ret <? 0 then mret (inr ret)
  else prints (number_line (if chr_type =? POWER_SUPPLY_TYPE_WIRELESS_10W then 10 else if chr_type =? POWER_SUPPLY_TYPE_WIRELESS_5W then 5
                            else if chr_type =? POWER_SUPPLY_TYPE_WIRELESS then 1 else 0)).

(** [n] registers from [reg] on; a reading that fails leaves the last value. *)
Fixpoint dump_regs (n : nat) (b : bus C) (reg val : Z) : bus C * list Z :=
  match n with
  | O => (b, [])
  | S n =>
    let '(b, r) := p922x_read b reg in
    let val := match r with inl v => v | inr _ => val end in
    let '(b, text) := dump_regs n b (reg + 1) val in (b, regs_line reg val ++ text)
  end.
Definition p922x_regs_dump_show : shows :=
  text ← io (fun b => dump_regs (Z.to_nat (REG_DUMP_MAX + 1)) b 0 0); prints text.

(** ** Foreign-object coefficients *)

(** Up to the first failure. *)
Fixpoint fod_regs (n : nat) (b : bus C) (reg : Z) : bus C * (list Z + Z) :=
  match n with
  | O => (b, inl [])
  | S n =>
    match p922x_read b reg with
    | (b, inr ret) => (b, inr ret)
    | (b, inl val) =>
      let '(b, r) := fod_regs n b (reg + 1) in
      (b, match r with inl text => inl (fod_reg_line reg val ++ text) | inr ret => inr ret end)
    end
  end.
Definition p922x_fod_regs_show : shows :=
  r ← io (fun b => fod_regs (Z.to_nat (REG_FOD_DUMP_MAX + 1 - REG_FOD_COEF_ADDR)) b REG_FOD_COEF_ADDR);
  cfg ← gets f_cfg;
  match r with
  | inr ret => mret (inr ret)
  | inl regs =>
    prints (snprintf PAGE_SIZE (str "P922X:" ++ [10] ++ regs ++ str "BPP:" ++ [10] ++ fod_lines (bpp_5w_fod cfg) ++
                                str "BPP Plus:" ++ [10] ++ fod_lines (bpp_10w_fod cfg)))
  end.

(** The loop over the coefficients, from [idx] on; [upd] changes the table. *)
Fixpoint store_coefs (upd : (list Z -> list Z) -> config -> config) (fod : list Z) (n idx : nat) : M C Z :=
  match n with
  | O => mret 0
  | S n =>
    let w := fod !!! idx in
    modify (on_cfg (upd (fun l => <[(2 * idx + 1)%nat := Z.land (Z.shiftr w 8) 0xFF]> (<[(2 * idx)%nat := Z.land w 0xFF]> l))));;
    ret ← io (fun b => p922x_write_buffer b (REG_FOD_COEF_ADDR + Z.of_nat idx * 2) (le_enc 2 w));
    if negb (ret =? 0) then mret ret else store_coefs upd fod n (S idx)
  end.
Definition on_5w (f : list Z -> list Z) (c : config) : config := set_5w_fod (f (bpp_5w_fod c)) c.
Definition on_10w (f : list Z -> list Z) (c : config) : config := set_10w_fod (f (bpp_10w_fod c)) c.
Definition p922x_fod_regs_store (buf : list Z) : M C Z :=
  match scan_u buf with
  | None => mret (- EINVAL)
  | Some (type, r) =>
    let vs := scan_xs FOD_COEF_ARRY_LENGTH r in
    let fod := put_u32 (replicate FOD_COEF_PARAM_LENGTH 0) 0 vs in
    let store upd :=
      ret ← store_coefs upd fod FOD_COEF_ARRY_LENGTH 0; mret (if negb (ret =? 0) then ret else Z.of_nat (length buf)) in
    if negb (S (length vs) =? FOD_COEF_ARRY_LENGTH + 1)%nat then mret (- EINVAL)
    else if type =? TYPE_BPP then store on_5w
    else if type =? TYPE_BPP_PLUS then store on_10w
    else mret (- EINVAL)
  end.

(** ** Calibration by hand *)

(** The words of the areas and the thresholds on the chip, up to the first
    failure. *)
Fixpoint read_words (b : bus C) (addrs : list Z) : bus C * (list Z + Z) :=
  match addrs with
  | [] => (b, inl [])
  | a :: addrs =>
    let '(b, (ret, v)) := read16 a b in
    if negb (ret =? 0) then (b, inr ret) else
    let '(b, r) := read_words b addrs in (b, match r with inl vs => inl (v :: vs) | inr ret => inr ret end)
  end.
Fixpoint pairs (ws : list Z) : list (Z * Z) :=
  match ws with
  | g :: o :: ws => (g, o) :: pairs ws
  | _ => []
  end.
Definition cal_lines (ws : list Z) : list Z :=
  mjoin (imap area_line (pairs (take (2 * IOUT_CAL_AREA_MAX) ws))) ++ mjoin (imap threshold_line (drop (2 * IOUT_CAL_AREA_MAX) ws)).
Definition cal_show (title : list Z) : shows :=
  d ← gets f_dev;
  r ← io (fun b => read_words b ((cal_writes d).*1));
  match r with
  | inr ret => mret (inr ret)
  | inl ws => prints (snprintf PAGE_SIZE (title ++ [10] ++ cal_lines (u16 <$> (cal_writes d).*2) ++ str "p9221 dump:" ++ [10] ++ cal_lines ws))
  end.
Definition p922x_iout_cal_data_show : shows := cal_show (str "idme dump:").
Definition p922x_force_iout_cal_data_show : shows := cal_show (str "cal data dump:").

(** The text is copied into an array that it fills, without a terminator:
    [stack] is what follows the array up to the first NUL. *)
Definition p922x_force_iout_cal_data_store (alloc : bool) (stack buf : list Z) : M C Z := fun s =>
  let size := Z.of_nat (length buf) - 1 in
  if negb (size =? Z.of_nat IOUT_CAL_CHAR_SIZE) then Ret (s, - EINVAL)
  else if negb alloc then Ret (s, - ENOMEM) else
  retdata ← hexToBytes (take (Z.to_nat size) buf ++ stack) (replicate (2 * IOUT_CAL_IDME_SIZE) 0);
  let d := force_words retdata (f_dev s) in
  let '(b, ret) := p922x_update_iout_cal_data (f_bus s) d in
  Ret (on_dev d (on_bus b s), if negb (ret =? 0) then ret else Z.of_nat (length buf)).

Definition p922x_step_load_en_store (buf : list Z) : M C Z :=
  (match kstrtoint buf 10 with
   | inr _ => mret tt
   | inl val => if val =? 0 then modify (on_cfg (set_step_load false)) else when (val =? 1) (modify (on_cfg (set_step_load true)))
   end);;
  mret (Z.of_nat (length buf)).

(** ** Hooks of the charger that only read *)

Definition p922x_get_online : M C bool := gets (fun s => online (f_st s)).
Definition p922x_get_temp : M C Z := p922x_get_temp_adc.
End Attributes.

(** ** Interrupt lines over suspend and resume *)

(** The nesting of a line: disabled while [depth] is not 0, a wake-up source
    while [wake_depth] is not 0, and whether it was ever undone once too often. *)
Record irq_desc := mkIrq { depth : nat; wake_depth : nat; warned : bool }.
Definition __disable_irq (d : irq_desc) : irq_desc := mkIrq (S (depth d)) (wake_depth d) (warned d).
Definition __enable_irq (d : irq_desc) : irq_desc :=
  match depth d with
  | O => mkIrq O (wake_depth d) true
  | S n => mkIrq n (wake_depth d) (warned d)
  end.
Definition irq_set_irq_wake (on : bool) (d : irq_desc) : irq_desc :=
  if on then mkIrq (depth d) (S (wake_depth d)) (warned d)
  else match wake_depth d with
       | O => mkIrq (depth d) O true
       | S n => mkIrq (depth d) n (warned d)
       end.

(** The lines of the power-good pin and of the chip. *)
Record lines := mkLines { pg_num : irq_desc; int_num : irq_desc }.
Definition both (f : irq_desc -> irq_desc) (l : lines) : lines := mkLines (f (pg_num l)) (f (int_num l)).
Definition on_pg (f : irq_desc -> irq_desc) (l : lines) : lines := mkLines (f (pg_num l)) (int_num l).
Definition on_int (f : irq_desc -> irq_desc) (l : lines) : lines := mkLines (pg_num l) (f (int_num l)).

(** [wakeup]: [device_may_wakeup]. *)
Definition p922x_pm_suspend (wakeup : bool) (l : lines) : lines :=
  both __disable_irq (if wakeup then on_pg (irq_set_irq_wake true) l else l).
Definition p922x_pm_resume (wakeup : bool) (l : lines) : lines :=
  let l := both __enable_irq l in if wakeup then on_pg (irq_set_irq_wake false) l else l.

(** ** Specification *)

(** A table of coefficients, a word of offset and gain for each; the page of the
    attribute: the words on the chip, and the two tables. *)
Definition coef_lines (ws : list Z) : list Z :=
  mjoin (imap (fun i w => str "FOD" ++ pct_d (Z.of_nat i) ++ str ":0x" ++ pct_04x w ++ [10]) ws).
Definition fod_page (on_chip w5 w10 : list Z) : list Z :=
  str "P922X:" ++ [10] ++ mjoin (imap (fun i v => fod_reg_line (REG_FOD_COEF_ADDR + Z.of_nat i) v) (word_bytes on_chip)) ++
  str "BPP:" ++ [10] ++ coef_lines w5 ++ str "BPP Plus:" ++ [10] ++ coef_lines w10.
(** What is written to the attribute. *)
Definition fod_command (type : Z) (ws : list Z) : list Z := pct_d type ++ mjoin ((fun w => 32 :: pct_04x w) <$> ws) ++ [10].
Definition word (w : Z) : Prop := 0 <= w < 65536.

Definition addresses (d : p922x_dev) : Prop :=
  (threshold d).*1 = (threshold cal_data).*1 /\ (gain d).*1 = (gain cal_data).*1 /\ (offset d).*1 = (offset cal_data).*1.

(** What the lines go through: the set-up done once, suspended or not, the
    updates that run, shut down or not. *)
Record phase := mkPhase { inited : bool; suspended : bool; updates : nat; off : bool }.
Inductive line_op := InitDone | Suspend | Resume | UpdateStarts | UpdateEnds | ShutDown.
Definition line_step (p : phase) (o : line_op) : option phase :=
  match o with
  | InitDone => if inited p then None else Some (mkPhase true (suspended p) (updates p) (off p))
  | Suspend => if suspended p then None else Some (mkPhase (inited p) true (updates p) (off p))
  | Resume => if suspended p then Some (mkPhase (inited p) false (updates p) (off p)) else None
  | UpdateStarts => Some (mkPhase (inited p) (suspended p) (S (updates p)) (off p))
  | UpdateEnds => match updates p with O => None | S n => Some (mkPhase (inited p) (suspended p) n (off p)) end
  | ShutDown => if off p then None else Some (mkPhase (inited p) (suspended p) (updates p) true)
  end.
Definition line_steps (ops : list line_op) : option phase :=
  foldl (fun o op => p ← o; line_step p op) (Some (mkPhase false false 0 false)) ops.
(** The lines the probe requested and disabled. *)
Definition requested : lines := both __disable_irq (mkLines (mkIrq 0 0 false) (mkIrq 0 0 false)).
Definition run_line (wakeup : bool) (l : lines) (o : line_op) : lines :=
  match o with
  | InitDone | UpdateEnds => both __enable_irq l
  | UpdateStarts => both __disable_irq l
  | Suspend => p922x_pm_suspend wakeup l
  | Resume => p922x_pm_resume wakeup l
  | ShutDown => on_int __disable_irq l
  end.
Definition nested (wakeup : bool) (p : phase) (l : lines) : Prop :=
  let n := ((if inited p then 0 else 1) + (if suspended p then 1 else 0) + updates p)%nat in
  pg_num l = mkIrq n (if wakeup && suspended p then 1 else 0) false /\
  int_num l = mkIrq (n + if off p then 1 else 0) 0 false.

(** ** Lemmas *)

Lemma hex_digit_spec d : 0 <= d < 16 ->
  digit_value (hex_digit d) = d /\ isxdigit (hex_digit d) = true /\ isspace (hex_digit d) = false.
Proof.
  intros Hd. assert (Ha : forallb (fun d => (digit_value (hex_digit d) =? d) && isxdigit (hex_digit d) && negb (isspace (hex_digit d))) (seqZ 0 16) = true)
    by (vm_compute; reflexivity).
  assert (Hin : d ∈ seqZ 0 16) by (apply elem_of_seqZ; lia).
  rewrite forallb_forall in Ha. specialize (Ha d (proj1 (list_elem_of_In _ _) Hin)).
  apply andb_true_iff in Ha as [[H1 H2]%andb_true_iff H3]. apply Z.eqb_eq in H1. apply negb_true_iff in H3. by split_and!.
Qed.

(** The four digits of a word. *)
Lemma pct_04x_digits w : word w ->
  exists a b c d, pct_04x w = [hex_digit a; hex_digit b; hex_digit c; hex_digit d] /\
    0 <= a < 16 /\ 0 <= b < 16 /\ 0 <= c < 16 /\ 0 <= d < 16 /\ ((a * 16 + b) * 16 + c) * 16 + d = w.
Proof.
  intros Hw. unfold word, pct_04x, pct_02x in *. destruct (Z.leb_spec 65536 w); [lia|].
  exists (w / 256 mod 256 / 16), ((w / 256 mod 256) mod 16), (w mod 256 / 16), ((w mod 256) mod 16). split; [done|].
  pose proof (Z.mod_pos_bound w 256 ltac:(lia)). pose proof (Z.mod_pos_bound (w / 256) 256 ltac:(lia)).
  assert (Hq : forall x, 0 <= x < 256 -> 0 <= x / 16 < 16) by (intros x Hx; split; [apply Z.div_pos; lia|apply Z.div_lt_upper_bound; lia]).
  do 4 (split; [first [by apply Hq|by apply Z.mod_pos_bound]|]).
  rewrite (Z.mod_small (w / 256) 256) by (split; [apply Z.div_pos; lia|apply Z.div_lt_upper_bound; lia]).
  pose proof (Z.div_mod (w / 256) 16 ltac:(lia)). pose proof (Z.div_mod (w mod 256) 16 ltac:(lia)). pose proof (Z.div_mod w 256 ltac:(lia)). lia.
Qed.

(** A word printed with [%04x] is scanned back with [%x]. *)
Lemma scan_x_word w tl : word w -> number_end tl -> scan_x (32 :: pct_04x w ++ tl) = Some (w, tl).
Proof.
  intros Hw Htl. destruct (pct_04x_digits w Hw) as (a & b & c & d & -> & Ha & Hb & Hc & Hd & E). unfold word in Hw.
  destruct (hex_digit_spec a Ha) as (Va & Xa & Sa), (hex_digit_spec b Hb) as (Vb & _ & _), (hex_digit_spec c Hc) as (Vc & _ & _),
    (hex_digit_spec d Hd) as (Vd & _ & _).
  unfold scan_x. cbn [skip_spaces app]. change (isspace 32) with true. cbv iota. rewrite Sa. cbv zeta.
  change (char_at (hex_digit a :: ?l) 0) with (hex_digit a). rewrite Xa. cbn [negb].
  set (ds := [hex_digit a; hex_digit b; hex_digit c; hex_digit d]).
  assert (Hds : digits 16 ds).
  { split; [lia|]. split; [done|]. repeat constructor; unfold is_digit; rewrite ?Va, ?Vb, ?Vc, ?Vd; lia. }
  assert (Hn : numeral 16 ds = w).
  { unfold numeral, ds. cbn [foldl]. rewrite Va, Vb, Vc, Vd. lia. }
  change (hex_digit a :: hex_digit b :: hex_digit c :: hex_digit d :: tl) with (ds ++ tl).
  rewrite strtoull_base; [|done|exact (digits_no_prefix 16 ds Hds)|done|lia]. by rewrite Hn, u32_id by lia.
Qed.

Lemma scan_words ws : Forall word ws -> scan_xs (length ws) (mjoin ((fun w => 32 :: pct_04x w) <$> ws) ++ [10]) = ws.
Proof.
  induction 1 as [|w ws Hw Hws IH]; [done|]. rewrite fmap_cons. change (mjoin (?x :: ?l)) with (x ++ mjoin l). rewrite <- app_assoc.
  cbn [length scan_xs]. change ((32 :: pct_04x w) ++ ?l) with (32 :: pct_04x w ++ l).
  rewrite scan_x_word; [by rewrite IH|done|]. destruct ws; done.
Qed.

Lemma scan_u_command type ws : type = 1 \/ type = 2 ->
  scan_u (fod_command type ws) = Some (type, mjoin ((fun w => 32 :: pct_04x w) <$> ws) ++ [10]).
Proof.
  intros Ht. unfold fod_command. set (tl := mjoin _ ++ [10]). assert (Hd : pct_d type = [48 + type]) by (by destruct Ht as [-> | ->]). rewrite Hd.
  assert (E : simple_strtoull ([48 + type] ++ tl) 10 = (type, tl)).
  { rewrite strtoull_digits; [by destruct Ht as [-> | ->]|..].
    - split; [lia|]. split; [done|]. constructor; [|done]. destruct Ht as [-> | ->]; by split.
    - subst tl. by destruct ws.
    - by destruct Ht as [-> | ->]. }
  unfold scan_u. replace (skip_spaces ([48 + type] ++ tl)) with ([48 + type] ++ tl) by (by destruct Ht as [-> | ->]).
  cbv zeta. rewrite E. destruct Ht as [-> | ->]; reflexivity.
Qed.

(** Words that follow one another: their registers, and their bytes in a table
    from the coefficient [idx] on. *)
Fixpoint word_regs (a : Z) (ws : list Z) : list (Z * Z) :=
  match ws with
  | [] => []
  | w :: ws => (a, w) :: word_regs (a + 2) ws
  end.
Fixpoint coef_fill (ws : list Z) (idx : nat) (l : list Z) : list Z :=
  match ws with
  | [] => l
  | w :: ws => coef_fill ws (S idx) (<[(2 * idx + 1)%nat := w / 256 mod 256]> (<[(2 * idx)%nat := w mod 256]> l))
  end.

Lemma word_regs_bytes {C} `{Chip C} (c : C) ws : forall a,
  Forall (fun p => chip_bytes c p.1 2 = le_enc 2 (u16 p.2)) (word_regs a ws) -> chip_bytes c a (2 * length ws) = word_bytes ws.
Proof.
  induction ws as [|w ws IH]; intros a Hw; [done|]. cbn [word_regs] in Hw. apply list.Forall_cons in Hw as [Hw Hws]. cbn [fst snd] in Hw.
  cbn [length word_bytes]. replace (2 * S (length ws))%nat with (2 + 2 * length ws)%nat by lia. rewrite chip_bytes_app, Hw.
  change (Z.of_nat 2) with 2. by rewrite IH.
Qed.

Lemma coef_fill_words ws l : length ws = 8%nat -> Forall word ws -> length l = 16%nat -> coef_fill ws 0 l = word_bytes ws.
Proof.
  intros Hn Hw Hl. do 8 (destruct ws as [|? ws]; [done|]). destruct ws; [|done]. do 16 (destruct l as [|? l]; [done|]). destruct l; [|done].
  repeat (apply list.Forall_cons in Hw as [? Hw]). unfold word in *. cbn [coef_fill word_bytes]. rewrite !u16_id by done. reflexivity.
Qed.

Lemma put_u32_words ws : length ws = 8%nat -> Forall word ws ->
  forall i w, ws !! i = Some w -> put_u32 (replicate FOD_COEF_PARAM_LENGTH 0) 0 ws !!! (0 + i)%nat = w.
Proof.
  intros Hn Hw i w Hi. do 8 (destruct ws as [|? ws]; [done|]). destruct ws; [|done].
  repeat (apply list.Forall_cons in Hw as [? Hw]). unfold word in *. do 8 (destruct i as [|i]; [injection Hi as <-; by apply u16_id|]). done.
Qed.

Lemma word_land w : word w -> Z.land w 0xFF = w mod 256 /\ Z.land (Z.shiftr w 8) 0xFF = w / 256 mod 256.
Proof. intros Hw. change 0xFF with (Z.ones 8). rewrite !Z.land_ones, Z.shiftr_div_pow2 by lia. done. Qed.

Section AttrLemmas.
Context {C : Type} `{Chip C}.

Lemma store_coefs_ok (upd : (list Z -> list Z) -> config -> config) fod :
  (forall f g c, upd f (upd g c) = upd (fun l => f (g l)) c) -> (forall c, upd (fun l => l) c = c) ->
  forall ws idx (s : flow C), no_faults (f_bus s) -> Forall word ws -> (forall i w, ws !! i = Some w -> fod !!! (idx + i)%nat = w) ->
  store_coefs upd fod (length ws) idx s =
    Ret (on_cfg (upd (coef_fill ws idx)) (on_bus (mkBus (words_fill (chip (f_bus s)) (word_regs (REG_FOD_COEF_ADDR + Z.of_nat idx * 2) ws)) []) s), 0).
Proof.
  intros Hu Hid. induction ws as [|w ws IH]; intros idx s Hb Hw Hf.
  - cbn [length store_coefs word_regs words_fill coef_fill]. unfold on_cfg, on_bus. cbn. rewrite Hid. unfold no_faults in Hb. by destruct s as [[] ? ? ? ? ? ? ? ?]; cbn in *; subst.
  - apply list.Forall_cons in Hw as [Hw Hws]. assert (E : fod !!! idx = w) by (rewrite <- (Hf 0%nat w eq_refl); f_equal; lia).
    cbn [length store_coefs]. rewrite E. destruct (word_land w Hw) as [-> ->]. cbv zeta.
    erewrite bind_eq by reflexivity. erewrite bind_eq.
    2: { unfold io. cbn [f_bus on_cfg]. rewrite write_buffer_ok by done. reflexivity. }
    cbn [Z.eqb negb]. rewrite IH; [|done|done|].
    + cbn [f_bus on_bus chip word_regs words_fill]. unfold on_cfg, on_bus. cbn [f_cfg f_dev f_auth f_sw f_cur f_st f_world f_in].
      rewrite Hu. unfold word in Hw. rewrite (u16_id w Hw). replace (REG_FOD_COEF_ADDR + Z.of_nat (S idx) * 2) with (REG_FOD_COEF_ADDR + Z.of_nat idx * 2 + 2) by lia.
      reflexivity.
    + intros i v Hi. rewrite <- (Hf (S i) v Hi). f_equal. lia.
Qed.

Lemma fod_regs_ok n : forall (b : bus C) reg, no_faults b ->
  fod_regs n b reg = (b, inl (mjoin (imap (fun i v => fod_reg_line (reg + Z.of_nat i) (u8 v)) (chip_bytes (chip b) reg n)))).
Proof.
  induction n as [|n IH]; intros b reg Hb; [done|]. cbn [fod_regs chip_bytes]. rewrite read_ok by done.
  assert (E : mkBus (chip b) [] = b) by (unfold no_faults in Hb; destruct b; cbn in *; by subst). rewrite E, IH by done.
  rewrite imap_cons. change (mjoin (?x :: ?l)) with (x ++ mjoin l). rewrite Z.add_0_r. do 4 f_equal. apply imap_ext. intros i v _. unfold compose.
  by replace (reg + Z.of_nat (S i)) with (reg + 1 + Z.of_nat i) by lia.
Qed.

Lemma read_words_ok addrs : forall b : bus C, no_faults b ->
  read_words b addrs = (b, inl ((fun a => le16 (chip_bytes (chip b) a 2)) <$> addrs)).
Proof.
  induction addrs as [|a addrs IH]; intros b Hb; [done|]. cbn [read_words]. unfold read16. rewrite (read_buffer_ok b a 2) by (done || lia).
  assert (E : mkBus (chip b) [] = b) by (unfold no_faults in Hb; destruct b; cbn in *; by subst). rewrite E. cbn [Z.eqb negb]. by rewrite IH.
Qed.
End AttrLemmas.

Lemma coef_lines_of ws : length ws = 8%nat -> Forall word ws ->
  fod_lines (word_bytes ws) = coef_lines ws /\ length (coef_lines ws) = 96%nat.
Proof.
  intros Hn Hw. do 8 (destruct ws as [|? ws]; [done|]). destruct ws; [|done]. repeat (apply list.Forall_cons in Hw as [? Hw]).
  split.
  - assert (Hx : forall v, word v -> pct_04x v = pct_02x (u16 v / 256 mod 256) ++ pct_02x (u16 v mod 256)).
    { intros v Hv. unfold word in Hv. rewrite u16_id by done. unfold pct_04x. by destruct (Z.leb_spec 65536 v); [lia|]. }
    unfold coef_lines. cbn [imap]. unfold compose. rewrite !Hx by done. reflexivity.
  - unfold coef_lines. cbn [imap]. unfold compose. repeat match goal with Hv : word ?v |- _ =>
      destruct (pct_04x_digits v Hv) as (? & ? & ? & ? & -> & _); clear Hv end. reflexivity.
Qed.

Lemma length_fod_page ws w5 w10 : length ws = 8%nat -> length w5 = 8%nat -> Forall word w5 -> length w10 = 8%nat -> Forall word w10 ->
  (length (fod_page ws w5 w10) <= 4095)%nat.
Proof.
  intros Hn H5 W5 H10 W10. unfold fod_page. rewrite !length_app. rewrite (proj2 (coef_lines_of w5 H5 W5)), (proj2 (coef_lines_of w10 H10 W10)).
  do 8 (destruct ws as [|? ws]; [done|]). destruct ws; [|done]. vm_compute. lia.
Qed.

(** The page of the attribute, from the chip and the tables. *)
Lemma fod_shown {C} `{Chip C} (s : flow C) ws w5 w10 : no_faults (f_bus s) ->
  length ws = 8%nat -> length w5 = 8%nat -> Forall word w5 -> length w10 = 8%nat -> Forall word w10 ->
  chip_bytes (chip (f_bus s)) REG_FOD_COEF_ADDR 16 = word_bytes ws ->
  bpp_5w_fod (f_cfg s) = word_bytes w5 -> bpp_10w_fod (f_cfg s) = word_bytes w10 ->
  p922x_fod_regs_show s = Ret (s, inl (fod_page ws w5 w10)).
Proof.
  intros Hb Hn H5 W5 H10 W10 Hc E5 E10. unfold p922x_fod_regs_show. erewrite bind_eq.
  2: { unfold io. rewrite fod_regs_ok by done. change (Z.to_nat _) with 16%nat. rewrite Hc. reflexivity. }
  erewrite bind_eq by reflexivity. cbn [f_cfg on_bus]. rewrite E5, E10. rewrite (proj1 (coef_lines_of w5 H5 W5)), (proj1 (coef_lines_of w10 H10 W10)).
  replace (imap (fun i v => fod_reg_line (REG_FOD_COEF_ADDR + Z.of_nat i) (u8 v)) (word_bytes ws))
    with (imap (fun i v => fod_reg_line (REG_FOD_COEF_ADDR + Z.of_nat i) v) (word_bytes ws)).
  - unfold snprintf. fold (fod_page ws w5 w10). rewrite take_ge by (change (Z.to_nat (PAGE_SIZE - 1)) with 4095%nat; by apply length_fod_page).
    unfold prints. by destruct s.
  - apply imap_ext. intros i v Hv. rewrite u8_id; [done|]. exact (list.Forall_lookup_1 _ _ _ _ (word_bytes_range ws) Hv).
Qed.

(** The words of a text in the registers and on the page. *)
Lemma length_hex_text l : length (hex_text l) = (2 * length l)%nat.
Proof. induction l as [|b l IH]; [done|]. cbn [hex_text]. rewrite length_app, IH. cbn [pct_02x length]. lia. Qed.

Lemma u16_word w : word (u16 w).
Proof. apply (wrapU_range 16). lia. Qed.

Lemma le16_enc w : word w -> le16 (le_enc 2 w) = w.
Proof.
  intros Hw. unfold word in Hw. unfold le16. cbn [le_enc]. change ([?a; ?b] !!! 0%nat) with a. change ([?a; ?b] !!! 1%nat) with b.
  rewrite Z.lor_comm, lor_shiftl by (lia || apply Z.mod_pos_bound; lia). change (2 ^ 8) with 256.
  rewrite (Z.mod_small (w / 256)) by (split; [apply Z.div_pos; lia|apply Z.div_lt_upper_bound; lia]). pose proof (Z.div_mod w 256 ltac:(lia)). lia.
Qed.

Lemma force_words_writes d ws : length ws = 14%nat -> Forall (fun w => -32768 <= w < 32768) ws -> addresses d ->
  cal_writes (force_words (s8 <$> word_bytes ws) d) = zip cal_addrs (u16 <$> ws).
Proof.
  intros Hl Hr (Ht & Hg & Ho). assert (Hw : forall i w, ws !! i = Some w -> cal_word (s8 <$> word_bytes ws) i = w).
  { intros i w Hi. apply cal_word_at; [done|]. exact (list.Forall_lookup_1 _ _ _ _ Hr Hi). }
  generalize dependent (s8 <$> word_bytes ws). intros l Hw. do 14 (destruct ws as [|? ws]; [done|]). destruct ws; [|done]. clear Hl Hr.
  destruct d as [t g o ? ? ? ?]. cbn [threshold gain offset cal_data fmap list_fmap fst] in *.
  do 4 (destruct t as [|[? ?] t]; [done|]). destruct t; [|done]. do 5 (destruct g as [|[? ?] g]; [done|]). destruct g; [|done].
  do 5 (destruct o as [|[? ?] o]; [done|]). destruct o; [|done]. cbn [fmap list_fmap fst] in *. injection Ht as -> -> -> ->.
  injection Hg as -> -> -> -> ->. injection Ho as -> -> -> -> ->.
  unfold cal_writes, force_words. cbn [threshold gain offset imap set_val fst zip_with mjoin list_join app]. unfold compose, IOUT_CAL_AREA_MAX.
  cbn [Nat.mul Nat.add]. repeat match goal with |- context [cal_word l ?k] => rewrite (Hw k _ eq_refl) end. reflexivity.
Qed.

Lemma length_cal_lines ws : length ws = 14%nat -> Forall word ws -> (length (cal_lines ws) <= 400)%nat.
Proof.
  intros Hl Hw. do 14 (destruct ws as [|? ws]; [done|]). destruct ws; [|done]. repeat (apply list.Forall_cons in Hw as [? Hw]).
  unfold cal_lines, IOUT_CAL_AREA_MAX. cbn [Nat.mul Nat.add take drop pairs imap]. unfold compose, area_line, threshold_line. cbn [fst snd].
  repeat match goal with Hv : word ?v |- _ => destruct (pct_04x_digits v Hv) as (? & ? & ? & ? & -> & _); clear Hv end. vm_compute. lia.
Qed.

Lemma cal_show_words {C} `{Chip C} (s : flow C) title ws : length ws = 14%nat -> Forall word ws -> (length title <= 20)%nat -> no_faults (f_bus s) ->
  cal_writes (f_dev s) = zip cal_addrs ws -> Forall (fun p => chip_bytes (chip (f_bus s)) p.1 2 = le_enc 2 (u16 p.2)) (zip cal_addrs ws) ->
  cal_show title s = Ret (s, inl (title ++ [10] ++ cal_lines ws ++ str "p9221 dump:" ++ [10] ++ cal_lines ws)).
Proof.
  intros Hl Hw Ht Hb Hc Hx. unfold cal_show. erewrite bind_eq by reflexivity. rewrite Hc.
  assert (H1 : (zip cal_addrs ws).*1 = cal_addrs) by (rewrite fst_zip; [done|rewrite Hl; cbn; lia]).
  assert (H2 : (zip cal_addrs ws).*2 = ws) by (rewrite snd_zip; [done|rewrite Hl; cbn; lia]).
  assert (Hr : (fun a => le16 (chip_bytes (chip (f_bus s)) a 2)) <$> cal_addrs = ws).
  { rewrite <- H1. rewrite <- H2 at 2. rewrite <- list_fmap_compose. apply list_fmap_ext. intros i [a w] Hi. unfold compose. cbn [fst snd].
    pose proof (list.Forall_lookup_1 _ _ _ _ Hx Hi) as E. cbn [fst snd] in E. rewrite E, le16_enc by apply u16_word. apply u16_id.
    refine (list.Forall_lookup_1 _ _ i _ Hw _). rewrite <- H2, list_lookup_fmap, Hi. done. }
  erewrite bind_eq.
  2: { unfold io. rewrite read_words_ok, H1, Hr by done. reflexivity. }
  rewrite H2. assert (Hu : u16 <$> ws = ws).
  { rewrite <- (list_fmap_id ws) at 2. apply list_fmap_ext. intros i w Hi. apply u16_id. exact (list.Forall_lookup_1 _ _ _ _ Hw Hi). }
  rewrite Hu. unfold snprintf. rewrite take_ge.
  - unfold prints. by destruct s.
  - change (Z.to_nat (PAGE_SIZE - 1)) with 4095%nat. rewrite !length_app. pose proof (length_cal_lines ws Hl Hw).
    change (length [10]) with 1%nat. change (length (str "p9221 dump:")) with 11%nat. lia.
Qed.

(** The product of the output voltage wraps from 17044 on. *)
Lemma vout_exact v : 0 <= v < 65536 -> u16 (Z.quot (s32 (v * 6 * 21 * 1000)) 40950) = v * 126000 / 40950 <-> v <= 17043.
Proof.
  intros Hv. replace (v * 6 * 21 * 1000) with (v * 126000) by lia. set (x := v * 126000).
  pose proof (Z.div_mod x 40950 ltac:(lia)). pose proof (Z.mod_pos_bound x 40950 ltac:(lia)). set (q := x / 40950) in *.
  destruct (Z.le_gt_cases v 17043) as [Hs|Hb].
  - rewrite s32_id, Z.quot_div_nonneg, u16_id by lia. done.
  - split; [|lia]. intros E. exfalso. set (y := s32 x) in *.
    assert (Hy : exists k, 1 <= k <= 2 /\ y = x - k * 2 ^ 32).
    { subst y. unfold s32, wrapS. change (2 ^ (32 - 1)) with 2147483648. change (2 ^ 32) with 4294967296.
      pose proof (Z.div_mod (x + 2147483648) 4294967296 ltac:(lia)). pose proof (Z.mod_pos_bound (x + 2147483648) 4294967296 ltac:(lia)).
      exists ((x + 2147483648) / 4294967296). lia. }
    destruct Hy as (k & Hk & Hy). pose proof (Z.quot_rem' y 40950). pose proof (Z.rem_bound_abs y 40950 ltac:(lia)).
    set (z := Z.quot y 40950) in *. set (r := Z.rem y 40950) in *. change (u16 z) with (z mod 65536) in E.
    pose proof (Z.div_mod z 65536 ltac:(lia)). assert (k = 1 \/ k = 2) as [-> | ->] by lia; lia.
Qed.

(** ** Properties *)

(** What is written to the coefficients is what is read back: a type and
    eight words, as hexadecimal text, are accepted, end up in the chip's registers
    and in the table of their type, low byte first, and the page of the attribute
    shows them in both places, next to the other table, not truncated. *)
Theorem fod_store_shown {C} `{Chip C} `{!PlainMemory C register} (s : flow C) type ws w5 w10 :
  type = TYPE_BPP \/ type = TYPE_BPP_PLUS -> no_faults (f_bus s) ->
  Forall (fun l => length l = 8%nat /\ Forall word l) [ws; w5; w10] ->
  bpp_5w_fod (f_cfg s) = word_bytes w5 -> bpp_10w_fod (f_cfg s) = word_bytes w10 ->
  exists s', p922x_fod_regs_store (fod_command type ws) s = Ret (s', Z.of_nat (length (fod_command type ws))) /\
    chip_bytes (chip (f_bus s')) REG_FOD_COEF_ADDR 16 = word_bytes ws /\
    f_cfg s' = (if type =? TYPE_BPP then set_5w_fod else set_10w_fod) (word_bytes ws) (f_cfg s) /\
    p922x_fod_regs_show s' = Ret (s', inl (if type =? TYPE_BPP then fod_page ws ws w10 else fod_page ws w5 ws)).
Proof.
  intros Ht Hb Hl E5 E10. repeat (apply list.Forall_cons in Hl as [[? ?] Hl]). unfold TYPE_BPP, TYPE_BPP_PLUS in Ht.
  assert (Hs : forall upd, (forall f g c, upd f (upd g c) = upd (fun l => f (g l)) c) -> (forall c, upd (fun l => l) c = c) ->
    let s' := on_cfg (upd (coef_fill ws 0)) (on_bus (mkBus (words_fill (chip (f_bus s)) (word_regs REG_FOD_COEF_ADDR ws)) []) s) in
    store_coefs upd (put_u32 (replicate FOD_COEF_PARAM_LENGTH 0) 0 ws) FOD_COEF_ARRY_LENGTH 0 s = Ret (s', 0)).
  { intros upd Hu Hid s'. change FOD_COEF_ARRY_LENGTH with 8%nat. replace 8%nat with (length ws) by done.
    rewrite (store_coefs_ok upd _ Hu Hid) by (done || by apply put_u32_words). by change (REG_FOD_COEF_ADDR + Z.of_nat 0 * 2) with REG_FOD_COEF_ADDR. }
  assert (Hc : chip_bytes (words_fill (chip (f_bus s)) (word_regs REG_FOD_COEF_ADDR ws)) REG_FOD_COEF_ADDR 16 = word_bytes ws).
  { replace 16%nat with (2 * length ws)%nat by lia. apply word_regs_bytes, (words_fill_word register);
      (do 8 (destruct ws as [|? ws]; [done|]); destruct ws; [|done]); [by repeat constructor|done]. }
  unfold p922x_fod_regs_store. rewrite scan_u_command by done.
  assert (Hx : scan_xs FOD_COEF_ARRY_LENGTH (mjoin ((fun w => 32 :: pct_04x w) <$> ws) ++ [10]) = ws).
  { change FOD_COEF_ARRY_LENGTH with 8%nat. replace 8%nat with (length ws) by done. by apply scan_words. }
  cbv zeta. rewrite Hx. clear Hx. replace (S (length ws) =? FOD_COEF_ARRY_LENGTH + 1)%nat with true by (by replace (length ws) with 8%nat).
  cbn [negb]. destruct Ht as [-> | ->]; [change (1 =? TYPE_BPP) with true|change (2 =? TYPE_BPP) with false; change (2 =? TYPE_BPP_PLUS) with true]; cbv iota.
  - eexists. split; [erewrite bind_eq by (apply (Hs on_5w); [done|by intros []]); reflexivity|]. split; [exact Hc|].
    split; [cbn [f_cfg on_cfg on_bus]; unfold on_5w; rewrite E5, coef_fill_words by (done || rewrite length_word_bytes; lia); reflexivity|].
    apply fod_shown; try done. cbn [f_cfg on_cfg on_bus]. unfold on_5w. cbn [bpp_5w_fod set_5w_fod]. rewrite E5. apply coef_fill_words; [done..|rewrite length_word_bytes; lia].
  - eexists. split; [erewrite bind_eq by (apply (Hs on_10w); [done|by intros []]); reflexivity|]. split; [exact Hc|].
    split; [cbn [f_cfg on_cfg on_bus]; unfold on_10w; rewrite E10, coef_fill_words by (done || rewrite length_word_bytes; lia); reflexivity|].
    apply fod_shown; try done. cbn [f_cfg on_cfg on_bus]. unfold on_10w. cbn [bpp_10w_fod set_10w_fod]. rewrite E10. apply coef_fill_words; [done..|rewrite length_word_bytes; lia].
Qed.

(** A calibration by hand: fourteen words, as a line of 56 hexadecimal digits,
    are written to the chip and shown on both halves of the page; but only on a
    device whose identity data held a calibration: on any other the words replace
    those of the driver and the write fails. And the digits fill an array without
    a terminator: two bytes that happen to follow it on the stack are enough for
    the conversion to leave its buffer. *)
Theorem forced_calibration_shown {C} `{Chip C} `{!PlainMemory C register} (s : flow C) ws :
  length ws = 14%nat -> Forall (fun w => -32768 <= w < 32768) ws -> no_faults (f_bus s) -> addresses (f_dev s) -> is_sram_updated (f_dev s) = true ->
  let buf := hex_text (word_bytes ws) ++ [10] in
  (is_cal_data_ready (f_dev s) = true -> exists s', p922x_force_iout_cal_data_store true [] buf s = Ret (s', 57) /\
     p922x_force_iout_cal_data_show s' =
       Ret (s', inl (str "cal data dump:" ++ [10] ++ cal_lines (u16 <$> ws) ++ str "p9221 dump:" ++ [10] ++ cal_lines (u16 <$> ws)))) /\
  (is_cal_data_ready (f_dev s) = false -> exists s', p922x_force_iout_cal_data_store true [] buf s = Ret (s', - EINVAL) /\
     f_bus s' = f_bus s /\ cal_writes (f_dev s') = zip cal_addrs (u16 <$> ws)) /\
  (forall stack, (2 <= length stack)%nat -> p922x_force_iout_cal_data_store true stack buf s = Oops).
Proof.
  intros Hl Hr Hb Ha Hs buf. pose proof (force_words_writes (f_dev s) ws Hl Hr Ha) as Hc. destruct (cal_registers ws Hl) as [Hp Hap].
  assert (Ht : length (hex_text (word_bytes ws)) = 56%nat) by (rewrite length_hex_text, length_word_bytes, Hl; done).
  assert (E : forall stack, p922x_force_iout_cal_data_store true stack buf s =
    (retdata ← hexToBytes (hex_text (word_bytes ws) ++ stack) (replicate (2 * IOUT_CAL_IDME_SIZE) 0);
     let d := force_words retdata (f_dev s) in let '(b, ret) := p922x_update_iout_cal_data (f_bus s) d in
     Ret (on_dev d (on_bus b s), if negb (ret =? 0) then ret else 57))).
  { intros stack. unfold p922x_force_iout_cal_data_store, buf. rewrite length_app, Ht. change (length [10]) with 1%nat.
    change (Z.of_nat (56 + 1) - 1 =? Z.of_nat IOUT_CAL_CHAR_SIZE) with true. cbn [negb]. change (Z.to_nat (Z.of_nat (56 + 1) - 1)) with 56%nat.
    rewrite take_app_le, take_ge by lia. done. }
  assert (Eb : hexToBytes (hex_text (word_bytes ws) ++ []) (replicate (2 * IOUT_CAL_IDME_SIZE) 0) = Ret (s8 <$> word_bytes ws)).
  { rewrite app_nil_r. unfold hexToBytes. rewrite length_hex_bytes_text, length_replicate, length_word_bytes, Hl by apply word_bytes_range.
    change (2 * IOUT_CAL_IDME_SIZE <? 2 * 14)%nat with false. cbv iota.
    rewrite drop_ge by (rewrite length_replicate; done). by rewrite app_nil_r, hex_bytes_text by apply word_bytes_range. }
  split; [|split].
  - intros Hd. eexists. rewrite E, Eb. cbn [mbind outcome_bind]. unfold p922x_update_iout_cal_data. cbn [is_cal_data_ready is_sram_updated force_words].
    rewrite Hd, Hs. cbn [negb orb]. fold (force_words (s8 <$> word_bytes ws) (f_dev s)). rewrite Hc, write_words_ok by done. cbn [Z.eqb negb].
    split; [reflexivity|]. apply cal_show_words; [by rewrite length_fmap|apply Forall_fmap, list.Forall_true; intros; apply u16_word|cbn; lia|done|exact Hc|].
    exact (words_fill_word register _ (chip (f_bus s)) Hp Hap).
  - intros Hd. eexists. rewrite E, Eb. cbn [mbind outcome_bind]. unfold p922x_update_iout_cal_data. cbn [is_cal_data_ready force_words].
    rewrite Hd. cbn [negb orb Z.eqb]. change (- EINVAL =? 0) with false. cbn [negb]. split; [reflexivity|]. by split.
  - intros stack Hk. rewrite E. unfold hexToBytes. rewrite length_replicate.
    pose proof (length_hex_bytes_ge 29 (hex_text (word_bytes ws) ++ stack)) as Hx. rewrite length_app, Ht in Hx.
    destruct (Nat.ltb_spec (2 * IOUT_CAL_IDME_SIZE) (length (hex_bytes (hex_text (word_bytes ws) ++ stack)))); [done|].
    unfold IOUT_CAL_IDME_SIZE in *. lia.
Qed.

(** The two voltages, on a chip whose registers hold bytes: the rectifier's is
    the exact fraction of its twelve bits, 21 V at most, whatever the upper four
    hold; the output's, which is not masked, is exact up to a reading of 17043 and
    wrong, by the overflow of the product, for every greater one. *)
Theorem readings_exact {C} `{Chip C} (s : flow C) lo hi :
  no_faults (f_bus s) -> 0 <= lo < 256 -> 0 <= hi < 256 ->
  (chip_bytes (chip (f_bus s)) REG_ADC_VRECT 2 = [lo; hi] ->
   p922x_get_vrect_adc s = Ret (s, (lo + 256 * hi) mod 4096 * 210000 / 40950) /\ (lo + 256 * hi) mod 4096 * 210000 / 40950 <= 21000) /\
  (chip_bytes (chip (f_bus s)) REG_ADC_VOUT 2 = [lo; hi] ->
   exists v, p922x_get_vout_adc s = Ret (s, v) /\ (v = (lo + 256 * hi) * 126000 / 40950 <-> lo + 256 * hi <= 17043)).
Proof.
  intros Hb Hlo Hhi. assert (Es : on_bus (mkBus (chip (f_bus s)) []) s = s) by (unfold no_faults in Hb; destruct s as [[] ? ? ? ? ? ? ? ?]; cbn in *; by subst).
  split; intros Hc.
  - assert (Hm : Z.lor lo (Z.shiftl (Z.land hi 0xf) 8) = (lo + 256 * hi) mod 4096).
    { change 0xf with (Z.ones 4). rewrite Z.land_ones, Z.lor_comm, lor_shiftl by lia. change (2 ^ 4) with 16. change (2 ^ 8) with 256.
      pose proof (Z.div_mod hi 16 ltac:(lia)). pose proof (Z.mod_pos_bound hi 16 ltac:(lia)).
      symmetry. rewrite (Z.mod_unique (lo + 256 * hi) 4096 (hi / 16) (hi mod 16 * 256 + lo)) by lia. done. }
    pose proof (Z.mod_pos_bound (lo + 256 * hi) 4096 ltac:(lia)). set (v := (lo + 256 * hi) mod 4096) in *.
    assert (Hq : 0 <= v * 210000 / 40950 <= 21000).
    { split; [apply Z.div_pos; lia|]. apply Z.div_le_upper_bound; lia. }
    split; [|lia]. unfold p922x_get_vrect_adc. erewrite bind_eq.
    2: { unfold io. rewrite (read_buffer_ok (f_bus s) REG_ADC_VRECT 2), Hc, Es by (done || lia). reflexivity. }
    change ([lo; hi] !!! 0%nat) with lo. change ([lo; hi] !!! 1%nat) with hi. rewrite Hm.
    replace (v * 10 * 21 * 1000) with (v * 210000) by lia. rewrite Z.quot_div_nonneg, u16_id by lia. done.
  - assert (Hm : le16 [lo; hi] = lo + 256 * hi).
    { unfold le16. change ([lo; hi] !!! 0%nat) with lo. change ([lo; hi] !!! 1%nat) with hi. rewrite Z.lor_comm, lor_shiftl by lia. change (2 ^ 8) with 256. lia. }
    eexists. split.
    { unfold p922x_get_vout_adc. erewrite bind_eq; [reflexivity|]. unfold io, read16.
      rewrite (read_buffer_ok (f_bus s) REG_ADC_VOUT 2), Hc, Es by (done || lia). reflexivity. }
    cbn [snd]. rewrite Hm. apply vout_exact. lia.
Qed.

(** The interrupt lines: in whatever order the set-up, suspends and resumes,
    firmware updates (several at once) and the shutdown come, no line is enabled
    once too often, the power-good line is live exactly when the driver is set
    up, not suspended and no update runs, the chip's line when it is not shut down
    either, and the power-good line wakes the tablet exactly while it is suspended
    with wake-up allowed. *)
Theorem lines_follow (wakeup : bool) ops p :
  line_steps ops = Some p ->
  let l := foldl (run_line wakeup) requested ops in
  (warned (pg_num l) = false /\ warned (int_num l) = false) /\
  (depth (pg_num l) = 0%nat <-> inited p = true /\ suspended p = false /\ updates p = 0%nat) /\
  (depth (int_num l) = 0%nat <-> inited p = true /\ suspended p = false /\ updates p = 0%nat /\ off p = false) /\
  (wake_depth (pg_num l) = 0%nat <-> wakeup && suspended p = false).
Proof.
  intros Hp l. cut (nested wakeup p l).
  { intros [-> ->]. cbn [depth wake_depth warned]. destruct (inited p), (suspended p), (off p), wakeup; cbn [andb]; naive_solver lia. }
  subst l. revert p Hp. induction ops as [|o ops IH] using rev_ind; intros p Hp.
  - injection Hp as <-. by destruct wakeup.
  - unfold line_steps in Hp. rewrite foldl_snoc in Hp. fold (line_steps ops) in Hp. destruct (line_steps ops) as [p0|] eqn:E; [|done].
    cbn [mbind option_bind] in Hp. rewrite foldl_snoc. destruct (IH p0 eq_refl) as [Hpg Hint]. set (l := foldl _ _ _) in *. clearbody l.
    destruct l as [pg int]. cbn [pg_num int_num] in Hpg, Hint. subst pg int. destruct p0 as [i su n sd]. unfold nested in *.
    destruct o; cbn [line_step inited suspended updates off] in Hp.
    + destruct i; [done|]. injection Hp as <-. cbn. by destruct su, sd, wakeup, n.
    + destruct su; [done|]. injection Hp as <-. destruct i, sd, wakeup; cbn; unfold __disable_irq, __enable_irq; cbn; split; f_equal; lia.
    + destruct su; [|done]. injection Hp as <-. destruct i, sd, wakeup; cbn; unfold __disable_irq, __enable_irq; cbn; split; f_equal; lia.
    + injection Hp as <-. destruct i, su, sd, wakeup; cbn; unfold __disable_irq, __enable_irq; cbn; split; f_equal; lia.
    + destruct n as [|n]; [done|]. injection Hp as <-. destruct i, su, sd, wakeup; cbn; unfold __disable_irq, __enable_irq; cbn; split; f_equal; lia.
    + destruct sd; [done|]. injection Hp as <-. destruct i, su, wakeup; cbn; unfold __disable_irq, __enable_irq; cbn; split; f_equal; lia.
Qed.

(** ** Witnesses *)

Definition demo_tablet (d : p922x_dev) : flow (Z -> Z) := on_dev d (demo_flow demo_status fresh_auth (demo_world false)).
Definition demo_words : list Z := [0x9064; 0x5f7d; 0x0c9f; 0xff00; 1; 2; 3; 0xffff].

(** Eight words for 10 W. *)
Lemma fod_store_shown_witness :
  exists s', p922x_fod_regs_store (H := ram_chip) (str "2 9064 5f7d 0c9f ff00 0001 0002 0003 ffff" ++ [10]) (demo_tablet demo_dev) = Ret (s', 42) /\
    chip_bytes (H := ram_chip) (chip (f_bus s')) 0x68 4 = [0x64; 0x90; 0x7d; 0x5f].
Proof.
  destruct (fod_store_shown (H := ram_chip) (PlainMemory0 := ram_plain register) (demo_tablet demo_dev) 2 demo_words (replicate 8 0x0707) (replicate 8 0x0909))
    as (s' & E & Hc & _).
  - by right.
  - done.
  - repeat constructor; unfold word; lia.
  - done.
  - done.
  - exists s'. split; [exact E|]. change 16%nat with (4 + 12)%nat in Hc. rewrite chip_bytes_app in Hc.
    change (word_bytes demo_words) with ([0x64; 0x90; 0x7d; 0x5f] ++ drop 4 (word_bytes demo_words)) in Hc.
    by apply app_inj_1 in Hc as [Hc _].
Defined.

(** The words 0, 1, ..., 13 on a device with a calibration; on one without it,
    and with two bytes behind the array. *)
Lemma forced_calibration_shown_witness :
  let dev ready := mkDev (threshold cal_data) (gain cal_data) (offset cal_data) ready true 0 0 in
  let buf := hex_text (word_bytes (Z.of_nat <$> seq 0 14)) ++ [10] in
  (exists s', p922x_force_iout_cal_data_store (H := ram_chip) true [] buf (demo_tablet (dev true)) = Ret (s', 57)) /\
  (exists s', p922x_force_iout_cal_data_store (H := ram_chip) true [] buf (demo_tablet (dev false)) = Ret (s', - EINVAL)) /\
  p922x_force_iout_cal_data_store (H := ram_chip) true [1; 2] buf (demo_tablet (dev true)) = Oops.
Proof.
  intros dev buf.
  pose proof (fun ready => forced_calibration_shown (H := ram_chip) (PlainMemory0 := ram_plain register) (demo_tablet (dev ready)) (Z.of_nat <$> seq 0 14)
    eq_refl ltac:(repeat constructor; lia) eq_refl ltac:(by split_and!) eq_refl) as Hx.
  destruct (Hx true) as (H1 & _ & H3), (Hx false) as (_ & H2 & _). split; [|split].
  - destruct (H1 eq_refl) as (s' & E & _). by exists s'.
  - destruct (H2 eq_refl) as (s' & E & _). by exists s'.
  - apply H3. cbn. lia.
Defined.

(** A reading of 0x9000, with bits above the twelve. *)
Lemma readings_exact_witness :
  let s := on_bus (mkBus (fun a => if (a =? 0x41) || (a =? 0x3D) then 0x90 else 0) []) (demo_tablet demo_dev) in
  p922x_get_vrect_adc (H := ram_chip) s = Ret (s, 0) /\
  exists v, p922x_get_vout_adc (H := ram_chip) s = Ret (s, v) /\ v <> 0x9000 * 126000 / 40950.
Proof.
  intros s. destruct (readings_exact (H := ram_chip) s 0 0x90) as [H1 H2]; [done|lia|lia|]. split; [exact (proj1 (H1 eq_refl))|].
  destruct (H2 eq_refl) as (v & E & Hv). exists v. split; [exact E|]. intros Hx. apply Hv in Hx. lia.
Defined.

(** Set up, suspended during an update, resumed. *)
Lemma lines_follow_witness :
  let l := foldl (run_line true) requested [UpdateStarts; InitDone; Suspend; Resume] in
  warned (pg_num l) = false /\ depth (pg_num l) <> 0%nat.
Proof.
  intros l. destruct (lines_follow true [UpdateStarts; InitDone; Suspend; Resume] (mkPhase true false 1 false) eq_refl) as ((Hw & _) & Hd & _).
  split; [exact Hw|]. intros E. by apply Hd in E as (_ & _ & E).
Defined.
