(* ===== verification/VsProbe.v ===== *)
(** * Virtual-sensor zones and coolers from the device tree
      (drivers/thermal/virtual_sensor_tablet, with the binding of drivers/thermal/thermal_core.c)

    The probes of the four cooler drivers and of the zones, the data they read
    from the device tree, and the thermal core that binds coolers to the trips of
    zones when either is registered. The allocations, files and links the core
    makes on its way are granted; those of the drivers are answers to the probe. *)

From Stdlib Require Import String.
From stdpp Require Import base tactics numbers list gmap strings option.
From S2P Require Import Prelude Kstrtox Printf Of VsCooler VsGov VsZone VsSensor.

Definition NAME_LENGTH : nat := 20.
Definition MAX_TRIPS : Z := 12.
Definition MASK : Z := 0x0FFF.

(** ** Data from the device tree *)

(** [strncpy(dst, string, strlen(string))] at [off] of an array: no terminator
    is written. *)
Definition strncpy_at (buf : list Z) (off : nat) (s : list Z) : outcome (list Z) :=
  if (length buf <? off + length s)%nat then Oops else Ret (take off buf ++ s ++ drop (off + length s) buf).

Definition virtual_sensor_thermal_parse_node_string_index (np : device_node) (node_name : string) (index : Z) (buf : list Z) (off : nat)
    : outcome (list Z) :=
  match of_property_read_string_index np node_name index with
  | (rc, Some s) => if rc =? 0 then strncpy_at buf off s else Ret buf
  | _ => Ret buf
  end.

Definition cooler_parse_node_int_array (np : device_node) (node_name : string) (tripsdata : list Z) : list Z :=
  match of_property_read_u32_array np node_name (Z.to_nat MAX_TRIPS) with inr l => s32 <$> l | inl _ => tripsdata end.

(** What a cooler's node gives: the bytes of [type] and the rest, whose [type] is
    the C string they hold; the longs are written through pointers to int. *)
Definition of_bytes (l : list Z) : string := fold_right (fun c s => String (Ascii.ascii_of_nat (Z.to_nat c)) s) EmptyString l.
Definition cstr (l : list Z) : list Z := take (strnlen l) l.
Definition cooler_init_cust_data_from_dt (np : device_node) : outcome (list Z * vs_cooler_platform_data) :=
  name ← virtual_sensor_thermal_parse_node_string_index np "type" 0 (replicate NAME_LENGTH 0) 0;
  let int n := thermal_parse_node_int np n 0 in
  Ret (name, mkPdata (of_bytes (cstr name)) (u32 (int "state"%string)) (u32 (int "max_state"%string)) (int "level"%string)
               (int "thermal_cooler_id"%string) (cooler_parse_node_int_array np "levels" (replicate (Z.to_nat MAX_TRIPS) 0))).

(** A zone's platform data: [cdevs] is the two-dimensional array of names, [tbps]
    the devices of the bind parameters. *)
Record zone_data := mkZd {
  zd_num_trips : Z; zd_mode : Z; zd_polling_delay : Z; governor_name : list Z; num_tbps : Z;
  zd_trips : list trip_t * list thermal_trip_type; num_cdevs : Z; cdevs : list Z; tbps : list (option nat) }.
Definition set_tbps (d : zone_data) l : zone_data :=
  mkZd (zd_num_trips d) (zd_mode d) (zd_polling_delay d) (governor_name d) (num_tbps d) (zd_trips d) (num_cdevs d) (cdevs d) l.
Definition set_zd_mode (d : zone_data) m : zone_data :=
  mkZd (zd_num_trips d) m (zd_polling_delay d) (governor_name d) (num_tbps d) (zd_trips d) (num_cdevs d) (cdevs d) (tbps d).
(** As [kcalloc] makes it. *)
Definition zeroed : zone_data :=
  mkZd 0 0 0 (replicate NAME_LENGTH 0) 0 (replicate (Z.to_nat MAX_TRIPS) (mkTrip 0 0), replicate (Z.to_nat MAX_TRIPS) THERMAL_TRIP_ACTIVE) 0
    (replicate (Z.to_nat MAX_TRIPS * NAME_LENGTH) 0) [].

(** A negative number of parameters is a size no allocation grants. *)
Definition virtual_sensor_thermal_init_tbp (alloc : bool) (d : zone_data) : zone_data * Z :=
  if (num_tbps d <? 0) || negb alloc then (d, - ENOMEM) else (set_tbps d (replicate (Z.to_nat (num_tbps d)) None), 0).

(** The loop over the names of cooling devices. *)
Fixpoint parse_cdevs (np : device_node) (n i : nat) (buf : list Z) : outcome (list Z) :=
  match n with
  | O => Ret buf
  | S n =>
    buf ← virtual_sensor_thermal_parse_node_string_index np "cdev_names" (Z.of_nat i) buf (NAME_LENGTH * i);
    parse_cdevs np n (S i) buf
  end.
Definition u32_cells (np : device_node) (name : string) : option (list Z) :=
  match of_property_read_u32_array np name (Z.to_nat MAX_TRIPS) with inr l => Some l | inl _ => None end.

(** The identity and the zones' data; the comparison of the identity with the
    number of zones is unsigned. *)
Definition virtual_sensor_thermal_init_cust_data_from_dt (ds : list zone_data) (np : device_node) (alloc : bool)
    : outcome (list zone_data * Z * Z) :=
  let id := thermal_parse_node_int np "dev_id" 0 in
  if negb (u32 id <? Z.of_nat (length ds)) then Ret (ds, id, -1) else
  d ← or_oops (ds !! Z.to_nat id);
  let int n old := thermal_parse_node_int np n old in
  gov ← virtual_sensor_thermal_parse_node_string_index np "governor_name" 0 (governor_name d) 0;
  let trips := virtual_sensor_thermal_init_trips (u32_cells np "temp") (u32_cells np "type") (u32_cells np "hyst") (zd_trips d) in
  let n := int "num_cdevs"%string (num_cdevs d) in
  let n := if MAX_TRIPS <? n then MAX_TRIPS else n in
  names ← parse_cdevs np (Z.to_nat n) 0 (cdevs d);
  let d := mkZd (int "num_trips"%string (zd_num_trips d)) (int "mode"%string (zd_mode d)) (int "polling_delay"%string (zd_polling_delay d)) gov
             (int "num_tbps"%string (num_tbps d)) trips n names (tbps d) in
  let '(d, ret) := virtual_sensor_thermal_init_tbp alloc d in
  Ret (<[Z.to_nat id := d]> ds, id, ret).

(** ** The thermal core *)

Inductive cooler_driver := Bcct | WpcBcct | Backlight | Budget.
#[export] Instance cooler_driver_eq_dec : EqDecision cooler_driver.
Proof. solve_decision. Defined.

(** A cooling device (its type, and the driver's cooler behind it) and a zone: the
    instances are the pairs of a device and a trip. *)
Record cooling_device := mkCd { cd_type : list Z; cd_driver : cooler_driver; cd_index : nat }.
Record thermal_zone := mkTz { tz_type : list Z; tz_trips : Z; tz_data : nat; tz_delay : Z; thermal_instances : list (nat * Z) }.

(** All cooling devices that ever were, the list of those that are registered (a
    new one in front), the zones in the order of their registration and the
    platform data. *)
Record thermal_core := mkCore {
  cooling_devices : list cooling_device; thermal_cdev_list : list nat; thermal_tz_list : list thermal_zone; datas : list zone_data }.
Definition set_instances (z : thermal_zone) l : thermal_zone := mkTz (tz_type z) (tz_trips z) (tz_data z) (tz_delay z) l.
Definition set_zone (k : thermal_core) (i : nat) (z : thermal_zone) (d : zone_data) : thermal_core :=
  mkCore (cooling_devices k) (thermal_cdev_list k) (<[i := z]> (thermal_tz_list k)) (<[tz_data z := d]> (datas k)).

Definition thermal_zone_bind_cooling_device (z : thermal_zone) (trip : Z) (c : nat) : thermal_zone * Z :=
  if (tz_trips z <=? trip) || (trip <? 0) then (z, - EINVAL)
  else if bool_decide ((c, trip) ∈ thermal_instances z) then (z, - EEXIST)
  else (set_instances z (thermal_instances z ++ [(c, trip)]), 0).
Definition thermal_zone_unbind_cooling_device (z : thermal_zone) (trip : Z) (c : nat) : thermal_zone :=
  set_instances z (filter (fun p => p <> (c, trip)) (thermal_instances z)).

Definition __bind (z : thermal_zone) (mask : Z) (c : nat) : thermal_zone :=
  foldl (fun z i => if Z.testbit mask i then (thermal_zone_bind_cooling_device z i c).1 else z) z (seqZ 0 (tz_trips z)).
Definition __unbind (z : thermal_zone) (mask : Z) (c : nat) : thermal_zone :=
  foldl (fun z i => if Z.testbit mask i then thermal_zone_unbind_cooling_device z i c else z) z (seqZ 0 (tz_trips z)).

(** [strncmp(cdevs[i], type, strlen(type)) == 0]. *)
Definition name_fits (names : list Z) (type : list Z) (i : nat) : bool :=
  bool_decide (take (length type) (drop (NAME_LENGTH * i) names) = type).
Definition type_of (cds : list cooling_device) (c : nat) : list Z := default [] (cd_type <$> cds !! c).
(** The callback [match]. *)
Definition zone_match (cds : list cooling_device) (z : thermal_zone) (d : zone_data) (type : list Z) : Z :=
  if negb (bool_decide (take 14 (tz_type z) = str "virtual_sensor")) then - EINVAL
  else if existsb (fun o => match o with Some c => bool_decide (type_of cds c = type) | None => false end) (tbps d) then - EEXIST
  else if existsb (name_fits (cdevs d) type) (seq 0 (Z.to_nat (num_cdevs d))) then 0 else - EINVAL.

(** The inner loop of [bind_tz] and [bind_cdev]: one zone and one device. *)
Definition bind_slot (cds : list cooling_device) (c : nat) (zd : thermal_zone * zone_data) (i : nat) : thermal_zone * zone_data :=
  match tbps zd.2 !! i with
  | Some None =>
    if zone_match cds zd.1 zd.2 (type_of cds c) =? 0 then (__bind zd.1 MASK c, set_tbps zd.2 (<[i := Some c]> (tbps zd.2))) else zd
  | _ => zd
  end.
Definition bind_zone (cds : list cooling_device) (c : nat) (zd : thermal_zone * zone_data) : thermal_zone * zone_data :=
  foldl (bind_slot cds c) zd (seq 0 (length (tbps zd.2))).
Definition at_zone (f : thermal_zone * zone_data -> thermal_zone * zone_data) (k : thermal_core) (i : nat) : thermal_core :=
  match thermal_tz_list k !! i with
  | None => k
  | Some z => match datas k !! tz_data z with None => k | Some d => let '(z, d) := f (z, d) in set_zone k i z d end
  end.
Definition bind_tz (k : thermal_core) (i : nat) : thermal_core := foldl (fun k c => at_zone (bind_zone (cooling_devices k) c) k i) k (thermal_cdev_list k).
Definition bind_cdev (k : thermal_core) (c : nat) : thermal_core :=
  foldl (fun k i => at_zone (bind_zone (cooling_devices k) c) k i) k (seq 0 (length (thermal_tz_list k))).

(** The device entered in front of the list and bound; its number. *)
Definition thermal_cooling_device_register (k : thermal_core) (cd : cooling_device) : thermal_core * nat :=
  let c := length (cooling_devices k) in
  (bind_cdev (mkCore (cooling_devices k ++ [cd]) (c :: thermal_cdev_list k) (thermal_tz_list k) (datas k)) c, c).

Definition unbind_slot (c : nat) (zd : thermal_zone * zone_data) (i : nat) : thermal_zone * zone_data :=
  match tbps zd.2 !! i with
  | Some (Some c') => if (c' =? c)%nat then (__unbind zd.1 MASK c, set_tbps zd.2 (<[i := None]> (tbps zd.2))) else zd
  | _ => zd
  end.
Definition unbind_zone (c : nat) (zd : thermal_zone * zone_data) : thermal_zone * zone_data :=
  foldl (unbind_slot c) zd (seq 0 (length (tbps zd.2))).
Definition thermal_cooling_device_unregister (k : thermal_core) (c : nat) : thermal_core :=
  if negb (bool_decide (c ∈ thermal_cdev_list k)) then k else
  foldl (at_zone (unbind_zone c)) (mkCore (cooling_devices k) (filter (fun x => x <> c) (thermal_cdev_list k)) (thermal_tz_list k) (datas k))
    (seq 0 (length (thermal_tz_list k))).

(** ** The drivers *)

(** The core, and the coolers of each driver. *)
Record system := mkSystem { k_core : thermal_core; k_coolers : cooler_driver -> coolers }.

(** The common text of [bcct_probe] (of both drivers of that name),
    [backlight_probe] and [budget_cooler_probe]. A type without a terminator, or
    another failure of the registration, is an error pointer, which the test for
    NULL lets pass: the file is then created in it. *)
Definition cooler_driver_probe (drv : cooler_driver) (s : system) (np : device_node) (alloc registered list_alloc : bool) : outcome (system * Z) :=
  if negb alloc then Ret (s, - ENOMEM) else
  '(name, p) ← cooler_init_cust_data_from_dt np;
  if (length name <=? strnlen name)%nat || negb registered then (if list_alloc then Oops else Ret (s, - ENOMEM)) else
  let '(k, c) := thermal_cooling_device_register (k_core s) (mkCd (cstr name) drv (length (pdatas (k_coolers s drv)))) in
  if negb list_alloc then Ret (mkSystem (thermal_cooling_device_unregister k c) (k_coolers s), - ENOMEM) else
  Ret (mkSystem k (fun d => if decide (d = drv) then (cooler_probe (k_coolers s drv) p true true).1 else k_coolers s d), 0).
Definition bcct_probe : system -> device_node -> bool -> bool -> bool -> outcome (system * Z) := cooler_driver_probe Bcct.
Definition wpc_bcct_probe : system -> device_node -> bool -> bool -> bool -> outcome (system * Z) := cooler_driver_probe WpcBcct.
Definition backlight_probe : system -> device_node -> bool -> bool -> bool -> outcome (system * Z) := cooler_driver_probe Backlight.
Definition budget_cooler_probe : system -> device_node -> bool -> bool -> bool -> outcome (system * Z) := cooler_driver_probe Budget.

(** The removal of the device [c]. *)
Definition cooler_driver_remove (s : system) (c : nat) : system :=
  match cooling_devices (k_core s) !! c with
  | None => s
  | Some cd =>
    mkSystem (thermal_cooling_device_unregister (k_core s) c)
      (fun d => if decide (d = cd_driver cd) then cooler_remove (k_coolers s d) (cd_index cd) else k_coolers s d)
  end.
Definition bcct_remove : system -> nat -> system := cooler_driver_remove.
Definition wpc_bcct_remove : system -> nat -> system := cooler_driver_remove.
Definition backlight_remove : system -> nat -> system := cooler_driver_remove.
Definition budget_cooler_remove : system -> nat -> system := cooler_driver_remove.

(** The type of a zone: its name and its number, from 1. *)
Definition zone_type (id : Z) : list Z := snprintf (Z.of_nat NAME_LENGTH) (str "virtual_sensor" ++ pct_d (id + 1)).
(** The registration's success: the zone, of all trips, at the end of the list and
    bound. *)
Definition thermal_zone_device_register (k : thermal_core) (z : thermal_zone) : thermal_core * nat :=
  let i := length (thermal_tz_list k) in
  (bind_tz (mkCore (cooling_devices k) (thermal_cdev_list k) (thermal_tz_list k ++ [z]) (datas k)) i, i).

(** [tbp], [tzone]: the allocations; a registration that fails frees managed
    memory by hand. The result is the last one of the files'. *)
Definition virtual_sensor_thermal_probe (s : system) (np : device_node) (tbp tzone registered : bool) (files : Z) : outcome (system * Z) :=
  let k := k_core s in
  '(ds, id, ret) ← virtual_sensor_thermal_init_cust_data_from_dt (datas k) np tbp;
  let k := mkCore (cooling_devices k) (thermal_cdev_list k) (thermal_tz_list k) ds in
  if negb (ret =? 0) then Ret (mkSystem k (k_coolers s), ret)
  else if negb tzone then Ret (mkSystem k (k_coolers s), - ENOMEM)
  else if negb registered then Oops else
  d ← or_oops (ds !! Z.to_nat id);
  let '(k, i) := thermal_zone_device_register k (mkTz (zone_type id) MAX_TRIPS (Z.to_nat id) (zd_polling_delay d) []) in
  z ← or_oops (thermal_tz_list k !! i);
  d ← or_oops (datas k !! Z.to_nat id);
  let z := mkTz (tz_type z) (zd_num_trips d) (tz_data z) (tz_delay z) (thermal_instances z) in
  let d := set_zd_mode d (if tz_delay z =? 0 then 0 else 1) in
  Ret (mkSystem (set_zone k i z d) (k_coolers s), files).

(** The removal unregisters the zone, then frees managed memory by hand. *)
Definition virtual_sensor_thermal_remove (s : system) (tzone : bool) : outcome (system * Z) := if tzone then Oops else Ret (s, 0).

(** ** A sequence of probes *)

(** All answers granted. *)
Inductive event := ProbeCooler (drv : cooler_driver) (np : device_node) | ProbeZone (np : device_node).
Definition probe_event (s : system) (e : event) : outcome (system * Z) :=
  match e with
  | ProbeCooler drv np => cooler_driver_probe drv s np true true true
  | ProbeZone np => virtual_sensor_thermal_probe s np true true true 0
  end.
Fixpoint probe_all (s : system) (es : list event) : outcome system :=
  match es with [] => Ret s | e :: es => '(s, _) ← probe_event s e; probe_all s es end.
(** As the modules' initialisation leaves it, with [n] zones in the device tree. *)
Definition start (n : nat) : system := mkSystem (mkCore [] [] [] (replicate n zeroed)) (fun _ => mkCoolers [] []).

(** What a device tree declares, and the nodes that declare it. *)
Inductive device := ACooler (drv : cooler_driver) (type : list Z) | AZone (id : nat) (trips tbps : Z) (names : list (list Z)).
Definition cooler_types (devs : list device) : list (list Z) :=
  omap (fun v => match v with ACooler _ ty => Some ty | _ => None end) devs.
Definition zone_of (v : device) : option (nat * Z * Z * list (list Z)) :=
  match v with AZone id trips tbps names => Some (id, trips, tbps, names) | _ => None end.
Definition zones (devs : list device) : list (nat * Z * Z * list (list Z)) := omap zone_of devs.
Definition zone_ids (devs : list device) : list nat := (fun q => q.1.1.1) <$> zones devs.
Definition holds (np : device_node) (name : string) (value : list Z) : Prop := of_find_property np name = Some (Some value).
Definition describes (e : event) (v : device) : Prop :=
  match e, v with
  | ProbeCooler drv np, ACooler drv' ty => drv = drv' /\ holds np "type" (strings_value [ty]) /\ c_string ty /\ (length ty < NAME_LENGTH)%nat
  | ProbeZone np, AZone id trips tbps names =>
    holds np "dev_id" (be32_bytes (Z.of_nat id)) /\ Z.of_nat id < 2 ^ 31 /\
    holds np "num_trips" (be32_bytes trips) /\ 0 <= trips <= MAX_TRIPS /\
    holds np "num_tbps" (be32_bytes tbps) /\ 0 <= tbps < 2 ^ 31 /\
    holds np "num_cdevs" (be32_bytes (Z.of_nat (length names))) /\ Z.of_nat (length names) <= MAX_TRIPS /\
    holds np "cdev_names" (strings_value names) /\ Forall (fun s => c_string s /\ (length s <= NAME_LENGTH)%nat) names /\
    (exists gov, holds np "governor_name" (strings_value [gov]) /\ c_string gov /\ (length gov <= NAME_LENGTH)%nat)
  | _, _ => False
  end.

(** The zone of names [names] asks for coolers whose type begins one of them. *)
Definition asks (names : list (list Z)) (ty : list Z) : bool := existsb (fun s => bool_decide (ty `prefix_of` s)) names.

(** ** Binding one device to one zone *)

Definition wants (d : zone_data) (ty : list Z) : bool := existsb (name_fits (cdevs d) ty) (seq 0 (Z.to_nat (num_cdevs d))).
Definition virtual (z : thermal_zone) : Prop := take 14 (tz_type z) = str "virtual_sensor".

Lemma mask_bit i : 0 <= i < MAX_TRIPS -> Z.testbit MASK i = true.
Proof.
  unfold MAX_TRIPS. intros H. replace MASK with (mask_of 12 0) by reflexivity.
  rewrite mask_of_spec by lia. zcases; lia || done.
Qed.

Lemma set_instances_same z : set_instances z (thermal_instances z) = z.
Proof. by destruct z. Qed.

Lemma bind_fold c l : forall z,
  NoDup l -> (forall t, t ∈ l -> 0 <= t < tz_trips z /\ t < MAX_TRIPS /\ (c, t) ∉ thermal_instances z) ->
  foldl (fun z i => if Z.testbit MASK i then (thermal_zone_bind_cooling_device z i c).1 else z) z l =
    set_instances z (thermal_instances z ++ ((fun t => (c, t)) <$> l)).
Proof.
  induction l as [|t l IH]; intros z Hnd Hl; cbn [foldl fmap list_fmap].
  { by rewrite app_nil_r, set_instances_same. }
  apply list.NoDup_cons in Hnd as [Ht Hnd]. destruct (Hl t ltac:(left)) as (H0 & H1 & H2).
  rewrite mask_bit by lia. unfold thermal_zone_bind_cooling_device at 2.
  destruct (Z.leb_spec (tz_trips z) t); [lia|]. destruct (Z.ltb_spec t 0); [lia|]. cbn [orb].
  rewrite bool_decide_false by done. cbn [fst]. rewrite IH; [|done|].
  { cbn. unfold set_instances. by rewrite <- app_assoc. }
  intros u Hu. destruct (Hl u ltac:(by right)) as (? & ? & ?). cbn. split_and!; try lia.
  rewrite elem_of_app, list_elem_of_singleton. intros [?|[= ->]]; done.
Qed.

Lemma __bind_new z c :
  tz_trips z <= MAX_TRIPS -> (forall t, (c, t) ∉ thermal_instances z) ->
  __bind z MASK c = set_instances z (thermal_instances z ++ ((fun t => (c, t)) <$> seqZ 0 (tz_trips z))).
Proof.
  intros Ht Hc. apply bind_fold; [apply NoDup_seqZ|]. intros t Hi. apply elem_of_seqZ in Hi. split_and!; [lia..|done].
Qed.

Lemma zone_match_zero cds z d ty :
  virtual z -> (forall c, Some c ∈ tbps d -> type_of cds c <> ty) ->
  (zone_match cds z d ty =? 0) = wants d ty.
Proof.
  intros Hv Hd. unfold zone_match, wants. rewrite bool_decide_true by done. cbn [negb].
  destruct (existsb _ (tbps d)) eqn:E.
  - apply existsb_exists in E as ([c|] & Hin & Hc); [|done]. apply bool_decide_eq_true in Hc.
    by destruct (Hd c ltac:(by apply list_elem_of_In)).
  - by destruct (existsb _ (seq _ _)).
Qed.

Lemma zone_match_bound cds z d c : virtual z -> Some c ∈ tbps d -> (zone_match cds z d (type_of cds c) =? 0) = false.
Proof.
  intros Hv Hd. unfold zone_match. rewrite bool_decide_true by done. cbn [negb].
  replace (existsb _ (tbps d)) with true; [done|]. symmetry. apply existsb_exists.
  exists (Some c). split; [by apply list_elem_of_In|]. by apply bool_decide_eq_true.
Qed.

(** A device is bound once. *)
Lemma bound_stays cds c l : forall z d, virtual z -> Some c ∈ tbps d -> foldl (bind_slot cds c) (z, d) l = (z, d).
Proof.
  induction l as [|i l IH]; intros z d Hv Hd; [done|]. cbn [foldl]. unfold bind_slot at 2. cbn [fst snd].
  rewrite zone_match_bound by done. destruct (tbps d !! i) as [[]|]; by apply IH.
Qed.

Lemma slots_spec cds c l : forall z d,
  virtual z -> (forall c', Some c' ∈ tbps d -> type_of cds c' <> type_of cds c) ->
  foldl (bind_slot cds c) (z, d) l = (z, d) /\
    (wants d (type_of cds c) = false \/ forall i, i ∈ l -> tbps d !! i <> Some None) \/
  wants d (type_of cds c) = true /\ exists i, tbps d !! i = Some None /\
    foldl (bind_slot cds c) (z, d) l = (__bind z MASK c, set_tbps d (<[i := Some c]> (tbps d))).
Proof.
  induction l as [|i l IH]; intros z d Hv Hd.
  { left. split; [done|]. right. intros i Hi. by apply not_elem_of_nil in Hi. }
  assert (Hs : bind_slot cds c (z, d) i = match tbps d !! i with
    | Some None => if wants d (type_of cds c) then (__bind z MASK c, set_tbps d (<[i := Some c]> (tbps d))) else (z, d)
    | _ => (z, d) end) by (unfold bind_slot; cbn [fst snd]; by rewrite zone_match_zero).
  cbn [foldl]. rewrite Hs. clear Hs.
  destruct (tbps d !! i) as [[c'|]|] eqn:E.
  - destruct (IH z d Hv Hd) as [(? & [?|Hn])|?]; [left; eauto|left|right; done]. split; [done|]. right.
    intros j [->|?]%elem_of_cons; [congruence|eauto].
  - destruct (wants d (type_of cds c)) eqn:W.
    + right. split; [done|]. exists i. split; [done|]. apply bound_stays.
      * unfold virtual, __bind. generalize (seqZ 0 (tz_trips z)). intros l'. revert z Hv.
        induction l' as [|t l' IH']; intros z Hv; [done|]. cbn [foldl]. apply IH'. unfold thermal_zone_bind_cooling_device.
        repeat case_match; done.
      * cbn. apply list_elem_of_insert. by eapply lookup_lt_Some.
    + left. split; [|by left]. destruct (IH z d Hv Hd) as [[? ?]|[? ?]]; congruence.
  - destruct (IH z d Hv Hd) as [(? & [?|Hn])|?]; [left; eauto|left|right; done]. split; [done|]. right.
    intros j [->|?]%elem_of_cons; [congruence|eauto].
Qed.

(** The devices bound to a zone are those of [reg] it asks for, each with an
    instance for every trip. *)
Record bound (cds : list cooling_device) (reg : list nat) (z : thermal_zone) (d : zone_data) : Prop := mkBound {
  b_virtual : virtual z;
  b_trips : 0 <= tz_trips z <= MAX_TRIPS;
  b_devices : forall c, Some c ∈ tbps d <-> c ∈ reg /\ wants d (type_of cds c) = true;
  b_once : NoDup (omap id (tbps d));
  b_instances : forall c t, (c, t) ∈ thermal_instances z -> Some c ∈ tbps d;
  b_every_trip : forall c t, Some c ∈ tbps d -> 0 <= t < tz_trips z -> (c, t) ∈ thermal_instances z }.

Lemma elem_of_bound (l : list (option nat)) c : c ∈ omap id l <-> Some c ∈ l.
Proof. rewrite list_elem_of_omap. split; [|by exists (Some c)]. by intros ([x|] & ? & [= ->]). Qed.

Lemma insert_free (l : list (option nat)) i c : l !! i = Some None -> omap id (<[i := Some c]> l) ≡ₚ c :: omap id l.
Proof.
  revert i. induction l as [|x l IH]; intros [|i]; cbn; [done..| |].
  - intros [= ->]. done.
  - intros Hi. destruct x as [x|]; cbn; rewrite IH by done; [apply Permutation_swap|done].
Qed.

(** A slot is free while fewer devices are bound than there are slots. *)
Lemma free_slot (l : list (option nat)) : (length (omap id l) < length l)%nat -> exists i, l !! i = Some None.
Proof.
  induction l as [|[x|] l IH]; cbn; intros Hl; [lia| |by exists O].
  destruct IH as [i Hi]; [lia|]. by exists (S i).
Qed.

Lemma existsb_false_forall {A} (f : A -> bool) l : existsb f l = false -> forall x, x ∈ l -> f x = false.
Proof.
  intros H x Hx. destruct (f x) eqn:E; [|done]. rewrite <- H. symmetry. apply existsb_exists. exists x. split; [by apply list_elem_of_In|done].
Qed.

(** Room for every type of [all] the zone asks for is room for one more of them. *)
Lemma room_free cds reg z d c all :
  bound cds reg z d -> NoDup (type_of cds <$> c :: reg) -> (type_of cds <$> c :: reg) ⊆ all ->
  wants d (type_of cds c) = true -> (length (filter (fun ty => wants d ty = true) all) <= length (tbps d))%nat ->
  exists i, tbps d !! i = Some None.
Proof.
  intros Hb Hnd Hsub Hw Hroom. apply free_slot. eapply Nat.lt_le_trans; [|exact Hroom].
  assert (Hb' : forall c', c' ∈ omap id (tbps d) -> c' ∈ reg /\ wants d (type_of cds c') = true)
    by (intros c'; rewrite elem_of_bound; apply Hb).
  assert (Hn : NoDup (type_of cds <$> c :: omap id (tbps d))).
  { rewrite fmap_cons in Hnd |- *. apply list.NoDup_cons in Hnd as [Hc Hreg]. apply list.NoDup_cons. split.
    - intros (c' & Ht & Hc')%list_elem_of_fmap. apply Hc. rewrite Ht. apply list_elem_of_fmap_2. by apply Hb'.
    - apply NoDup_fmap_2_strong; [|apply Hb]. intros x y Hx Hy Hxy.
      apply Hb' in Hx as [Hx _]. apply Hb' in Hy as [Hy _].
      apply list_elem_of_lookup in Hx as [i Hi]. apply list_elem_of_lookup in Hy as [j Hj].
      assert (i = j) as ->; [|congruence]. apply (NoDup_lookup _ i j (type_of cds x) Hreg);
        [by rewrite list_lookup_fmap, Hi|by rewrite list_lookup_fmap, Hj, Hxy]. }
  assert (Hs : (type_of cds <$> c :: omap id (tbps d)) ⊆ filter (fun ty => wants d ty = true) all).
  { intros ty. rewrite fmap_cons, elem_of_cons. intros [->|(c' & -> & Hc')%list_elem_of_fmap]; apply list_elem_of_filter.
    - split; [done|]. apply Hsub. left.
    - apply Hb' in Hc' as [? ?]. split; [done|]. apply Hsub. right. by apply list_elem_of_fmap_2. }
  pose proof (submseteq_length _ _ (NoDup_submseteq _ _ Hn Hs)) as Hl. rewrite length_fmap in Hl. cbn [length] in Hl. lia.
Qed.

Lemma bound_extend cds reg z d c all :
  bound cds reg z d -> NoDup (type_of cds <$> c :: reg) -> (type_of cds <$> c :: reg) ⊆ all ->
  (length (filter (fun ty => wants d ty = true) all) <= length (tbps d))%nat ->
  exists z' l, bind_zone cds c (z, d) = (z', set_tbps d l) /\ length l = length (tbps d) /\
    tz_type z' = tz_type z /\ tz_trips z' = tz_trips z /\ tz_data z' = tz_data z /\ tz_delay z' = tz_delay z /\
    bound cds (c :: reg) z' (set_tbps d l).
Proof.
  intros Hb Hnd Hsub Hroom.
  assert (Hnew : forall c', Some c' ∈ tbps d -> type_of cds c' <> type_of cds c).
  { intros c' [Hc' _]%(b_devices _ _ _ _ Hb) Ht. rewrite fmap_cons in Hnd. apply list.NoDup_cons in Hnd as [Hnd _].
    apply Hnd. rewrite <- Ht. by apply list_elem_of_fmap_2. }
  assert (Hnot : forall c', Some c' ∈ tbps d -> c' <> c) by (intros c' Hc' ->; by apply (Hnew c)).
  unfold bind_zone. cbn [snd].
  destruct (slots_spec cds c (seq 0 (length (tbps d))) z d (b_virtual _ _ _ _ Hb) Hnew) as [[-> Hno]|(W & i & Hi & ->)].
  - exists z, (tbps d). assert (Hd : set_tbps d (tbps d) = d) by by destruct d. rewrite Hd. split_and!; try done.
    destruct Hb as [Hv Ht Hdev Ho Hi He]. split; try done. intros c'. rewrite Hdev, elem_of_cons.
    assert (W : wants d (type_of cds c) = false).
    { destruct Hno as [?|Hno]; [done|]. destruct (wants d (type_of cds c)) eqn:W; [|done].
      destruct (room_free cds reg z d c all) as [i Hi']; [by constructor|done..|]. exfalso. apply (Hno i); [|done].
      apply elem_of_seq. apply lookup_lt_Some in Hi'. lia. }
    split; [by intros [? ?]; eauto|]. intros [[->|?] ?]; [congruence|done].
  - rewrite __bind_new; [|apply Hb|].
    2: { intros t Ht%(b_instances _ _ _ _ Hb). by apply (Hnot c). }
    eexists _, _. split; [done|]. rewrite length_insert. split_and!; try done.
    assert (Hel : forall c', Some c' ∈ <[i := Some c]> (tbps d) <-> c' = c \/ Some c' ∈ tbps d).
    { intros c'. rewrite <- !elem_of_bound, (insert_free _ _ _ Hi). by rewrite elem_of_cons. }
    destruct Hb as [Hv Ht Hdev Ho Hin He]. split; cbn; try done.
    + intros c'. rewrite Hel, Hdev, elem_of_cons. change (wants (set_tbps d _)) with (wants d). naive_solver.
    + rewrite (insert_free _ _ _ Hi). apply list.NoDup_cons. split; [|done]. rewrite elem_of_bound. intros Hc. by apply (Hnot c).
    + intros c' t. rewrite Hel, elem_of_app, list_elem_of_fmap. intros [?|(? & [= -> ->] & _)]; [right; by eapply Hin|by left].
    + intros c' t. rewrite Hel, elem_of_app, list_elem_of_fmap. intros [->|?] Htt; [right|left; by apply He].
      exists t. split; [done|]. apply elem_of_seqZ. lia.
Qed.

Lemma bound_devices_grow cds reg z d x :
  (forall c, c ∈ reg -> (c < length cds)%nat) -> bound cds reg z d -> bound (cds ++ [x]) reg z d.
Proof.
  intros Hreg [Hv Ht Hdev Ho Hin He]. split; try done. intros c. rewrite Hdev. unfold type_of.
  split; intros [Hc W]; (split; [done|]); rewrite lookup_app_l in *; auto.
Qed.
Lemma bound_same cds reg reg' z d : reg ≡ₚ reg' -> bound cds reg z d -> bound cds reg' z d.
Proof. intros Hr [Hv Ht Hdev Ho Hin He]. split; try done. intros c. by rewrite Hdev, Hr. Qed.

(** What is read of a zone and its data. *)
Lemma bound_view cds reg z d z' d' :
  tz_type z' = tz_type z -> thermal_instances z' = thermal_instances z -> 0 <= tz_trips z' <= tz_trips z ->
  tbps d' = tbps d -> cdevs d' = cdevs d -> num_cdevs d' = num_cdevs d -> bound cds reg z d -> bound cds reg z' d'.
Proof.
  intros E1 E2 E3 E4 E5 E6 [Hv Ht Hdev Ho Hin He].
  assert (W : forall ty, wants d' ty = wants d ty) by (intros; unfold wants; by rewrite E5, E6).
  split; unfold virtual in *; rewrite ?E1, ?E2, ?E4 in *; try done; [lia| |].
  - intros c. rewrite W. apply Hdev.
  - intros c t Hc Ht'. apply He; [done|lia].
Qed.

(** ** The zones of the core *)

(** A zone with its data; no two zones share data. *)
Definition zone_at (k : thermal_core) (i : nat) : option (thermal_zone * zone_data) :=
  z ← thermal_tz_list k !! i; d ← datas k !! tz_data z; Some (z, d).
Definition apart (k : thermal_core) : Prop := NoDup (tz_data <$> thermal_tz_list k).
Definition keeps_data (f : thermal_zone * zone_data -> thermal_zone * zone_data) : Prop := forall p, tz_data (f p).1 = tz_data p.1.

Lemma fmap_insert_same {A B} (g : A -> B) (l : list A) i x y : l !! i = Some x -> g y = g x -> g <$> <[i := y]> l = g <$> l.
Proof. intros Hi Hg. rewrite list_fmap_insert, Hg. apply list_insert_id. by rewrite list_lookup_fmap, Hi. Qed.

Lemma zone_at_Some k i z d : zone_at k i = Some (z, d) <-> thermal_tz_list k !! i = Some z /\ datas k !! tz_data z = Some d.
Proof.
  unfold zone_at. destruct (thermal_tz_list k !! i) as [z'|]; cbn; [|naive_solver].
  destruct (datas k !! tz_data z') as [d'|] eqn:E; cbn; naive_solver.
Qed.

Section at_zone.
Context (f : thermal_zone * zone_data -> thermal_zone * zone_data) (Hf : keeps_data f).

Lemma at_zone_frame k i :
  cooling_devices (at_zone f k i) = cooling_devices k /\ thermal_cdev_list (at_zone f k i) = thermal_cdev_list k /\
  tz_data <$> thermal_tz_list (at_zone f k i) = tz_data <$> thermal_tz_list k /\
  length (datas (at_zone f k i)) = length (datas k) /\
  forall x, x ∉ tz_data <$> thermal_tz_list k -> datas (at_zone f k i) !! x = datas k !! x.
Proof.
  unfold at_zone. destruct (thermal_tz_list k !! i) as [z|] eqn:Hz; [|done].
  destruct (datas k !! tz_data z) as [d|] eqn:Hd; [|done]. pose proof (Hf (z, d)) as Hk. destruct (f (z, d)) as [z' d'].
  cbn in *. split_and!; try done.
  - by eapply fmap_insert_same.
  - apply length_insert.
  - intros x Hx. apply list_lookup_insert_ne. intros E. apply Hx. rewrite <- E, Hk. apply list_elem_of_fmap_2.
    by eapply list_elem_of_lookup_2.
Qed.

Lemma at_zone_zone k i j : apart k -> zone_at (at_zone f k i) j = if decide (i = j) then f <$> zone_at k j else zone_at k j.
Proof.
  intros Hk. unfold at_zone. destruct (thermal_tz_list k !! i) as [z|] eqn:Hz.
  2: { destruct (decide (i = j)) as [->|]; [|done]. unfold zone_at. by rewrite Hz. }
  destruct (datas k !! tz_data z) as [d|] eqn:Hd.
  2: { destruct (decide (i = j)) as [->|]; [|done]. unfold zone_at. rewrite Hz. cbn. by rewrite Hd. }
  pose proof (Hf (z, d)) as Hk'. destruct (f (z, d)) as [z' d'] eqn:E. cbn in Hk'. unfold zone_at, set_zone. cbn.
  pose proof (lookup_lt_Some _ _ _ Hz). pose proof (lookup_lt_Some _ _ _ Hd).
  destruct (decide (i = j)) as [<-|Hij].
  - rewrite list_lookup_insert_eq, Hz by done. cbn. rewrite Hd, list_lookup_insert_eq by lia. cbn. by rewrite E.
  - rewrite list_lookup_insert_ne by done. destruct (thermal_tz_list k !! j) as [zj|] eqn:Hj; [|done]. cbn.
    rewrite list_lookup_insert_ne; [done|]. rewrite Hk'. intros Heq. apply Hij.
    apply (NoDup_lookup _ i j (tz_data z) Hk); rewrite list_lookup_fmap; [by rewrite Hz|by rewrite Hj, Heq].
Qed.

(** Over several zones. *)
Lemma at_zones l : forall k, apart k -> NoDup l -> let k' := foldl (at_zone f) k l in
  cooling_devices k' = cooling_devices k /\ thermal_cdev_list k' = thermal_cdev_list k /\
  tz_data <$> thermal_tz_list k' = tz_data <$> thermal_tz_list k /\ length (datas k') = length (datas k) /\
  (forall x, x ∉ tz_data <$> thermal_tz_list k -> datas k' !! x = datas k !! x) /\
  forall j, zone_at k' j = if decide (j ∈ l) then f <$> zone_at k j else zone_at k j.
Proof.
  induction l as [|i l IH]; intros k Hk Hl; cbn [foldl]; cbv zeta.
  { by split_and!. }
  apply list.NoDup_cons in Hl as [Hi Hl]. destruct (at_zone_frame k i) as (E1 & E2 & E3 & E4 & E5).
  destruct (IH (at_zone f k i)) as (F1 & F2 & F3 & F4 & F5 & F6); [unfold apart; by rewrite E3|done|].
  rewrite F1, F2, F3, F4, E1, E2, E3, E4. split_and!; try done.
  - intros x Hx. rewrite F5 by by rewrite E3. auto.
  - intros j. rewrite F6, at_zone_zone by done. destruct (decide (i = j)) as [->|Hij].
    + rewrite decide_False by done. by rewrite decide_True by left.
    + destruct (decide (j ∈ l)); [by rewrite decide_True by by right|].
      rewrite decide_False; [done|]. rewrite elem_of_cons. naive_solver.
Qed.
End at_zone.

Lemma bind_fold_data (g : thermal_zone -> Z -> thermal_zone) l : (forall z t, tz_data (g z t) = tz_data z) ->
  forall z, tz_data (foldl g z l) = tz_data z.
Proof. intros Hg. induction l as [|t l IH]; intros z; [done|]. cbn [foldl]. by rewrite IH. Qed.

Lemma bind_zone_keeps cds c : keeps_data (bind_zone cds c).
Proof.
  intros [z d]. unfold bind_zone. cbn [snd fst]. generalize (seq 0 (length (tbps d))). intros l. revert z d.
  induction l as [|i l IH]; intros z d; [done|]. cbn [foldl].
  assert (Hs : tz_data (bind_slot cds c (z, d) i).1 = tz_data z).
  { unfold bind_slot. cbn [fst snd]. repeat case_match; try done. cbn. apply bind_fold_data. intros z' t.
    unfold thermal_zone_bind_cooling_device. by repeat case_match. }
  destruct (bind_slot cds c (z, d) i) as [z' d']. by rewrite IH.
Qed.

Lemma bind_devices_fixed c cds l : forall k, cooling_devices k = cds ->
  foldl (fun k i => at_zone (bind_zone (cooling_devices k) c) k i) k l = foldl (at_zone (bind_zone cds c)) k l.
Proof.
  induction l as [|i l IH]; intros k Hc; [done|]. cbn [foldl]. rewrite Hc. apply IH. rewrite <- Hc.
  by apply at_zone_frame, bind_zone_keeps.
Qed.
Lemma bind_cdev_eq k c :
  bind_cdev k c = foldl (at_zone (bind_zone (cooling_devices k) c)) k (seq 0 (length (thermal_tz_list k))).
Proof. by apply bind_devices_fixed. Qed.

(** ** Binding all devices to a zone *)

Lemma set_tbps_twice d l l' : set_tbps (set_tbps d l) l' = set_tbps d l'.
Proof. done. Qed.

Lemma bound_all cds all l : forall done z d,
  bound cds done z d -> NoDup (type_of cds <$> l ++ done) -> (type_of cds <$> l ++ done) ⊆ all ->
  (length (filter (fun ty => wants d ty = true) all) <= length (tbps d))%nat ->
  exists z' t, foldl (fun p c => bind_zone cds c p) (z, d) l = (z', set_tbps d t) /\ length t = length (tbps d) /\
    tz_type z' = tz_type z /\ tz_trips z' = tz_trips z /\ tz_data z' = tz_data z /\ tz_delay z' = tz_delay z /\
    bound cds (l ++ done) z' (set_tbps d t).
Proof.
  induction l as [|c l IH]; intros done z d Hb Hnd Hsub Hroom.
  { exists z, (tbps d). assert (Hd : set_tbps d (tbps d) = d) by by destruct d. by rewrite Hd. }
  assert (Hp : c :: l ++ done ≡ₚ l ++ c :: done) by by rewrite Permutation_middle.
  assert (Hnd' : NoDup (type_of cds <$> l ++ c :: done)) by by rewrite <- Hp.
  assert (Hsub' : (type_of cds <$> l ++ c :: done) ⊆ all) by (intros ty; rewrite <- Hp; apply Hsub).
  destruct (bound_extend cds done z d c all Hb) as (z1 & t1 & E & L & H1 & H2 & H3 & H4 & Hb1); [..|done|].
  { rewrite fmap_app in Hnd'. by apply list.NoDup_app in Hnd' as (_ & _ & ?). }
  { intros ty Hty. apply Hsub'. rewrite fmap_app. apply elem_of_app. by right. }
  cbn [foldl]. rewrite E.
  destruct (IH (c :: done) z1 (set_tbps d t1) Hb1 Hnd' Hsub') as (z2 & t2 & E2 & L2 & G1 & G2 & G3 & G4 & Hb2).
  { cbn [tbps set_tbps]. rewrite L. exact Hroom. }
  exists z2, t2. rewrite E2, set_tbps_twice. cbn [tbps set_tbps] in L2. rewrite L2, G1, G2, G3, G4.
  split_and!; try done. by eapply bound_same.
Qed.

Lemma bind_tz_zone i cds l : forall k, apart k -> cooling_devices k = cds ->
  let k' := foldl (fun k c => at_zone (bind_zone (cooling_devices k) c) k i) k l in
  cooling_devices k' = cds /\ thermal_cdev_list k' = thermal_cdev_list k /\
  tz_data <$> thermal_tz_list k' = tz_data <$> thermal_tz_list k /\ length (datas k') = length (datas k) /\
  (forall x, x ∉ tz_data <$> thermal_tz_list k -> datas k' !! x = datas k !! x) /\
  forall j, zone_at k' j = if decide (i = j) then (fun p => foldl (fun p c => bind_zone cds c p) p l) <$> zone_at k j else zone_at k j.
Proof.
  induction l as [|c l IH]; intros k Hk Hc; cbn [foldl]; cbv zeta.
  { split_and!; try done. intros j. destruct (decide (i = j)); [|done]. by destruct (zone_at k j). }
  rewrite Hc. destruct (at_zone_frame _ (bind_zone_keeps cds c) k i) as (E1 & E2 & E3 & E4 & E5).
  destruct (IH (at_zone (bind_zone cds c) k i)) as (F1 & F2 & F3 & F4 & F5 & F6); [unfold apart; by rewrite E3|by rewrite E1|].
  rewrite F1, F2, F3, F4, E2, E3, E4. split_and!; try done.
  - intros x Hx. rewrite F5 by by rewrite E3. auto.
  - intros j. rewrite F6, (at_zone_zone _ (bind_zone_keeps cds c)) by done. destruct (decide (i = j)); [|done].
    by destruct (zone_at k j).
Qed.

(** ** The names of cooling devices *)

Definition pad (s : list Z) : list Z := s ++ replicate (NAME_LENGTH - length s) 0.
Lemma length_pad s : (length s <= NAME_LENGTH)%nat -> length (pad s) = NAME_LENGTH.
Proof. intros. unfold pad. rewrite length_app, length_replicate. lia. Qed.

Lemma length_pads l : Forall (fun s => (length s <= NAME_LENGTH)%nat) l -> length (mjoin (pad <$> l)) = (NAME_LENGTH * length l)%nat.
Proof.
  induction 1 as [|s l Hs _ IH]; [done|]. rewrite fmap_cons. change (mjoin (?x :: ?y)) with (x ++ mjoin y).
  rewrite length_app, length_pad, IH by done. cbn [length]. lia.
Qed.

Lemma strncpy_padded a m s : (length s <= NAME_LENGTH)%nat ->
  strncpy_at (a ++ replicate (NAME_LENGTH * S m) 0) (length a) s = Ret ((a ++ pad s) ++ replicate (NAME_LENGTH * m) 0).
Proof.
  intros Hs. unfold strncpy_at. rewrite length_app, length_replicate.
  destruct (Nat.ltb_spec (length a + NAME_LENGTH * S m) (length a + length s)); [lia|]. f_equal.
  rewrite take_app_length, drop_app_ge by lia. rewrite drop_replicate. unfold pad.
  rewrite <- !app_assoc. do 2 f_equal. rewrite <- replicate_add. f_equal. lia.
Qed.

Lemma parse_cdevs_ok np names : holds np "cdev_names" (strings_value names) ->
  Forall (fun s => c_string s /\ (length s <= NAME_LENGTH)%nat) names ->
  forall rest done, done ++ rest = names -> forall m, (length rest <= m)%nat ->
  parse_cdevs np (length rest) (length done) (mjoin (pad <$> done) ++ replicate (NAME_LENGTH * m) 0) =
    Ret (mjoin (pad <$> names) ++ replicate (NAME_LENGTH * (m - length rest)) 0).
Proof.
  intros Hnp Hn. assert (Hc : Forall c_string names) by (eapply list.Forall_impl; [exact Hn|by intros ? []]).
  induction rest as [|s rest IH]; intros don Hd m Hm.
  { rewrite app_nil_r in Hd. subst. cbn. by rewrite Nat.sub_0_r. }
  destruct m as [|m]; [cbn in Hm; lia|]. cbn [length parse_cdevs].
  assert (Hdn := Hn). rewrite <- Hd in Hdn. apply list.Forall_app in Hdn as [Hdn Hs]. apply list.Forall_cons in Hs as [[_ Hs] _].
  unfold virtual_sensor_thermal_parse_node_string_index.
  rewrite (read_string_index_ok np "cdev_names" names (length don) s) by (done || by rewrite <- Hd, list_lookup_middle).
  cbn [Z.eqb]. rewrite <- (length_pads don (ltac:(eapply list.Forall_impl; [exact Hdn|by intros ? []]))), strncpy_padded by done. 
  specialize (IH (don ++ [s])). rewrite length_app, Nat.add_1_r in IH. cbn [length] in *.
  rewrite fmap_app in IH. cbn [fmap list_fmap] in IH. rewrite join_app in IH. cbn [mjoin list_join] in IH. rewrite app_nil_r in IH.
  cbn [mbind outcome_bind]. apply IH; [by rewrite <- app_assoc|lia].
Qed.

(** A type is compared up to its length with the padded name. *)
Lemma fits_padded ty s r : c_string ty -> (length ty < NAME_LENGTH)%nat -> (length s <= NAME_LENGTH)%nat ->
  take (length ty) (pad s ++ r) = ty <-> ty `prefix_of` s.
Proof.
  intros Hty Hl Hs. split.
  - intros H. destruct (Nat.le_gt_cases (length ty) (length s)) as [Hle|Hgt].
    + exists (drop (length ty) s). rewrite <- (take_drop (length ty) s) at 1. f_equal.
      rewrite <- H at 2. unfold pad. rewrite <- app_assoc, take_app_le by done. done.
    + exfalso. unfold c_string in Hty. rewrite list.Forall_lookup in Hty. apply (Hty (length s) 0); [|done].
      rewrite <- H, lookup_take_lt by done. unfold pad. rewrite <- app_assoc, lookup_app_r by done.
      rewrite Nat.sub_diag, lookup_app_l by (rewrite length_replicate; lia). apply lookup_replicate_2. lia.
  - intros [k ->]. unfold pad. by rewrite <- !app_assoc, take_app_length.
Qed.

Lemma existsb_map_agree {A B} (f : A -> bool) (g : B -> bool) (l : list B) : forall (h : nat -> A) k,
  (forall i x, l !! i = Some x -> f (h (k + i)%nat) = g x) -> existsb f (h <$> seq k (length l)) = existsb g l.
Proof.
  induction l as [|x l IH]; intros h k H; [done|]. cbn [length seq]. rewrite fmap_cons. cbn [existsb].
  rewrite <- (H O x eq_refl), Nat.add_0_r. f_equal. apply IH. intros i y Hi.
  rewrite Nat.add_succ_comm. by apply (H (S i)).
Qed.

Lemma wants_asks d names rest ty :
  Forall (fun s => (length s <= NAME_LENGTH)%nat) names -> c_string ty -> (length ty < NAME_LENGTH)%nat ->
  cdevs d = mjoin (pad <$> names) ++ rest -> num_cdevs d = Z.of_nat (length names) -> wants d ty = asks names ty.
Proof.
  intros Hn Hty Hl Hc Hm. unfold wants, asks. rewrite Hm, Nat2Z.id, Hc.
  rewrite <- (list_fmap_id (seq 0 (length names))). apply existsb_map_agree. intros i s Hi. cbn [Nat.add].
  unfold name_fits. apply bool_decide_ext. pose proof (list_elem_of_split_length _ _ _ Hi) as (a & b & -> & Hab).
  apply list.Forall_app in Hn as [Ha Hs]. apply list.Forall_cons in Hs as [Hs _].
  rewrite fmap_app, join_app, fmap_cons. change (mjoin (?x :: ?y)) with (x ++ mjoin y).
  rewrite <- !app_assoc, drop_app_length' by (rewrite length_pads, Hab by done; done). by apply fits_padded.
Qed.

(** ** What the nodes give *)

Lemma parse_int np name v old : holds np name (be32_bytes v) -> 0 <= v < 2 ^ 31 -> thermal_parse_node_int np name old = v.
Proof. intros H Hv. unfold thermal_parse_node_int. rewrite (read_u32_ok _ _ v H) by lia. apply s32_id. lia. Qed.

Lemma parse_string np name s : holds np name (strings_value [s]) -> c_string s -> (length s <= NAME_LENGTH)%nat ->
  virtual_sensor_thermal_parse_node_string_index np name 0 (replicate NAME_LENGTH 0) 0 = Ret (pad s).
Proof.
  intros H Hs Hl. unfold virtual_sensor_thermal_parse_node_string_index. change 0 with (Z.of_nat 0) at 1.
  rewrite (read_string_index_ok np name [s] O s H) by (done || by constructor). cbn [Z.eqb].
  pose proof (strncpy_padded [] O s Hl) as E. rewrite app_nil_r in E. exact E.
Qed.

Lemma strnlen_pad s : c_string s -> (length s < NAME_LENGTH)%nat -> strnlen (pad s) = length s.
Proof.
  intros Hs Hl. unfold pad. destruct (NAME_LENGTH - length s)%nat eqn:E; [lia|]. cbn [replicate]. by apply strnlen_app.
Qed.
Lemma cstr_pad s : c_string s -> (length s < NAME_LENGTH)%nat -> cstr (pad s) = s.
Proof. intros Hs Hl. unfold cstr. rewrite strnlen_pad by done. unfold pad. apply take_app_length. Qed.

(** The data a zone's node gives, from zeroed data. *)
Lemma zone_data_ok ds np id trips tbps' names :
  describes (ProbeZone np) (AZone id trips tbps' names) -> ds !! id = Some zeroed ->
  exists d, virtual_sensor_thermal_init_cust_data_from_dt ds np true = Ret (<[id := d]> ds, Z.of_nat id, 0) /\
    zd_num_trips d = trips /\ tbps d = replicate (Z.to_nat tbps') None /\
    forall ty, c_string ty -> (length ty < NAME_LENGTH)%nat -> wants d ty = asks names ty.
Proof.
  intros (Hid & Hid' & Ht & Ht' & Hb & Hb' & Hn & Hn' & Hc & Hcs & gov & Hg & Hgs & Hgl) Hd.
  assert (Hs : Forall (fun s => (length s <= NAME_LENGTH)%nat) names) by (eapply list.Forall_impl; [exact Hcs|by intros ? []]).
  unfold MAX_TRIPS in *. pose proof (lookup_lt_Some _ _ _ Hd).
  unfold virtual_sensor_thermal_init_cust_data_from_dt.
  rewrite (parse_int _ _ _ _ Hid), u32_id by lia. destruct (Z.ltb_spec (Z.of_nat id) (Z.of_nat (length ds))); [|lia].
  cbn [negb]. rewrite Nat2Z.id, Hd. cbn [or_oops mbind outcome_bind].
  cbn [governor_name zeroed]. rewrite (parse_string _ _ gov Hg Hgs Hgl). cbn [mbind outcome_bind].
  rewrite (parse_int _ _ _ _ Hn), (parse_int _ _ _ _ Ht), (parse_int _ _ _ _ Hb) by lia. unfold MAX_TRIPS.
  destruct (Z.ltb_spec 12 (Z.of_nat (length names))); [lia|]. rewrite Nat2Z.id.
  pose proof (parse_cdevs_ok np names Hc Hcs names [] eq_refl 12 ltac:(lia)) as E.
  change (cdevs zeroed) with (mjoin (pad <$> []) ++ replicate (NAME_LENGTH * 12) 0). cbn [length] in E. rewrite E. clear E.
  unfold virtual_sensor_thermal_init_tbp. cbn [num_tbps negb orb]. destruct (Z.ltb_spec tbps' 0); [lia|]. cbn [orb].
  eexists. split; [done|]. split; [done|]. split; [done|]. intros ty Hty Hl.
  eapply wants_asks; [exact Hs|done|done|cbn; done|done].
Qed.

(** ** The system after a sequence of probes *)

Definition short (ty : list Z) : Prop := c_string ty /\ (length ty < NAME_LENGTH)%nat.
(** A zone as it is declared, bound to the devices it asks for. *)
Definition serves (cds : list cooling_device) (reg : list nat) (q : nat * Z * Z * list (list Z)) (p : thermal_zone * zone_data) : Prop :=
  let '(id, trips, tbps', names) := q in
  tz_data p.1 = id /\ tz_trips p.1 = trips /\ length (tbps p.2) = Z.to_nat tbps' /\
  (forall ty, short ty -> wants p.2 ty = asks names ty) /\ bound cds reg p.1 p.2.

Definition roomy (n : nat) (all : list (list Z)) (q : nat * Z * Z * list (list Z)) : Prop :=
  let '(id, trips, tbps', names) := q in
  (id < n)%nat /\ (length (filter (fun ty => asks names ty = true) all) <= Z.to_nat tbps')%nat.

Record good (n : nat) (all : list (list Z)) (devs : list device) : Prop := mkGood {
  g_short : Forall short all;
  g_types : NoDup (cooler_types devs);
  g_all : cooler_types devs ⊆ all;
  g_ids : NoDup (zone_ids devs);
  g_roomy : Forall (roomy n all) (zones devs) }.

Record probed (n : nat) (done : list device) (s : system) : Prop := mkProbed {
  p_datas : length (datas (k_core s)) = n;
  p_types : type_of (cooling_devices (k_core s)) <$> thermal_cdev_list (k_core s) = rev (cooler_types done);
  p_reg : Forall (fun c => (c < length (cooling_devices (k_core s)))%nat) (thermal_cdev_list (k_core s));
  p_ids : tz_data <$> thermal_tz_list (k_core s) = zone_ids done;
  p_zones : forall i q, zones done !! i = Some q ->
    exists p, zone_at (k_core s) i = Some p /\ serves (cooling_devices (k_core s)) (thermal_cdev_list (k_core s)) q p;
  p_fresh : forall id, (id < n)%nat -> id ∉ zone_ids done -> datas (k_core s) !! id = Some zeroed }.

Lemma filter_agree {A} (P Q : A -> Prop) `{!forall x, Decision (P x), !forall x, Decision (Q x)} (l : list A) :
  (forall x, x ∈ l -> P x <-> Q x) -> filter P l = filter Q l.
Proof.
  intros Hpq. induction l as [|x l IH]; [done|]. rewrite !filter_cons, IH by (intros; apply Hpq; by right).
  destruct (Hpq x ltac:(left)). destruct (decide (P x)), (decide (Q x)); naive_solver.
Qed.

Lemma start_probed n : probed n [] (start n).
Proof.
  split; cbn; try done; [apply length_replicate|]. intros id Hid _. by apply lookup_replicate_2.
Qed.

Lemma cooler_types_app l l' : cooler_types (l ++ l') = cooler_types l ++ cooler_types l'.
Proof. apply omap_app. Qed.
Lemma zones_app l l' : zones (l ++ l') = zones l ++ zones l'.
Proof. apply omap_app. Qed.
Lemma zone_ids_app l l' : zone_ids (l ++ l') = zone_ids l ++ zone_ids l'.
Proof. unfold zone_ids. by rewrite zones_app, fmap_app. Qed.

Lemma good_prefix n all l l' : good n all (l ++ l') -> good n all l.
Proof.
  intros [H1 H2 H3 H4 H5]. rewrite cooler_types_app in *. rewrite zone_ids_app in H4. rewrite zones_app in H5.
  split; [done| | | |].
  - by apply list.NoDup_app in H2 as (? & _).
  - intros ty Hty. apply H3. apply elem_of_app. by left.
  - by apply list.NoDup_app in H4 as (? & _).
  - by apply list.Forall_app in H5 as [? _].
Qed.

Lemma room_of n all names id trips tbps' (d : zone_data) :
  Forall short all -> roomy n all (id, trips, tbps', names) -> (forall ty, short ty -> wants d ty = asks names ty) ->
  length (tbps d) = Z.to_nat tbps' -> (length (filter (fun ty => wants d ty = true) all) <= length (tbps d))%nat.
Proof.
  intros Hs [_ Hr] Hw ->. erewrite filter_agree; [exact Hr|]. intros ty Hty. cbn. rewrite Hw; [done|].
  rewrite list.Forall_forall in Hs. auto.
Qed.

Lemma type_of_app cds x c : (c < length cds)%nat -> type_of (cds ++ [x]) c = type_of cds c.
Proof. intros. unfold type_of. by rewrite lookup_app_l. Qed.
Lemma types_grow cds x l : Forall (fun c => (c < length cds)%nat) l -> type_of (cds ++ [x]) <$> l = type_of cds <$> l.
Proof. intros H. apply list_fmap_ext. intros i c Hc. apply type_of_app. by eapply list.Forall_lookup_1 in H. Qed.
Lemma type_of_new cds x : type_of (cds ++ [x]) (length cds) = cd_type x.
Proof. unfold type_of. by rewrite list_lookup_middle. Qed.

(** A cooler is registered and bound. *)
Lemma probe_cooler n all done s drv np ty :
  good n all (done ++ [ACooler drv ty]) -> probed n done s -> describes (ProbeCooler drv np) (ACooler drv ty) ->
  exists s', probe_event s (ProbeCooler drv np) = Ret (s', 0) /\ probed n (done ++ [ACooler drv ty]) s'.
Proof.
  intros Hg [P1 P2 P3 P4 P5 P6] (_ & Hty & Hc & Hl). cbn [probe_event]. unfold cooler_driver_probe. cbn [negb].
  unfold cooler_init_cust_data_from_dt. rewrite (parse_string _ _ ty Hty Hc) by lia. cbn [mbind outcome_bind].
  rewrite strnlen_pad, length_pad by (done || lia).
  destruct (Nat.leb_spec NAME_LENGTH (length ty)); [lia|]. cbn [orb]. rewrite cstr_pad by done.
  unfold thermal_cooling_device_register. rewrite bind_cdev_eq. cbn [cooling_devices thermal_tz_list].
  set (k := k_core s) in *. set (cd := mkCd _ _ _). set (k1 := mkCore _ _ _ _).
  set (k2 := foldl _ _ _). eexists. split; [done|]. cbn [k_core].
  assert (Hap : apart k1) by (unfold apart; cbn; rewrite P4; by apply good_prefix in Hg as [_ _ _ ? _]).
  destruct (at_zones _ (bind_zone_keeps (cooling_devices k ++ [cd]) (length (cooling_devices k)))
              (seq 0 (length (thermal_tz_list k))) k1 Hap (NoDup_seq _ _)) as (E1 & E2 & E3 & E4 & E5 & E6).
  fold k2 in E1, E2, E3, E4, E5, E6. cbn [k1 cooling_devices thermal_cdev_list thermal_tz_list datas] in E1, E2, E3, E4, E5.
  assert (Hids : zone_ids (done ++ [ACooler drv ty]) = zone_ids done) by (rewrite zone_ids_app; apply app_nil_r).
  assert (Hzs : zones (done ++ [ACooler drv ty]) = zones done) by (rewrite zones_app; apply app_nil_r).
  assert (Hct : cooler_types (done ++ [ACooler drv ty]) = cooler_types done ++ [ty]) by (by rewrite cooler_types_app).
  assert (Hnt : type_of (cooling_devices k ++ [cd]) <$> length (cooling_devices k) :: thermal_cdev_list k = rev (cooler_types done ++ [ty])).
  { rewrite fmap_cons, type_of_new, types_grow, P2, rev_app_distr by done. done. }
  split; cbn [k_core].
  - by rewrite E4.
  - by rewrite E1, E2, Hnt, Hct.
  - rewrite E1, E2, length_app. cbn [length]. constructor; [lia|]. eapply list.Forall_impl; [exact P3|]. cbn. intros; lia.
  - by rewrite E3, P4, Hids.
  - intros i q. rewrite Hzs. intros Hq. destruct (P5 i q Hq) as ([z d] & Hz & Hser).
    assert (Hi : i ∈ seq 0 (length (thermal_tz_list k))).
    { apply elem_of_seq. apply lookup_lt_Some in Hq. unfold zone_ids in P4. apply (f_equal length) in P4.
      rewrite !length_fmap in P4. lia. }
    rewrite E6, decide_True by done. change (zone_at k1 i) with (zone_at k i). rewrite Hz, E1, E2. cbn [fmap option_fmap option_map].
    eexists. split; [done|]. destruct q as [[[id trips] tbps'] names]. destruct Hser as (S1 & S2 & S3 & S4 & S5). cbn [fst snd] in *.
    destruct Hg as [G1 G2 G3 G4 G5]. rewrite Hct in G2, G3. rewrite Hzs in G5.
    destruct (bound_extend (cooling_devices k ++ [cd]) (thermal_cdev_list k) z d (length (cooling_devices k)) all)
      as (z' & l & -> & L & T1 & T2 & T3 & T4 & Hb).
    + apply bound_devices_grow; [|done]. intros c Hc'. rewrite list.Forall_forall in P3. auto.
    + rewrite Hnt. by rewrite <- Permutation_rev.
    + rewrite Hnt. intros x Hx. apply G3. by rewrite (Permutation_rev (cooler_types done ++ [ty])).
    + eapply room_of; [exact G1| |exact S4|exact S3]. eapply list.Forall_lookup_1 in G5; [exact G5|exact Hq].
    + cbn [serves fst snd]. rewrite T2, T3. split_and!; try done. cbn. by rewrite L.
  - intros id Hid Hn. rewrite Hids in Hn. rewrite E5 by by rewrite P4. auto.
Qed.

Lemma zone_type_virtual id z : tz_type z = zone_type id -> virtual z.
Proof. unfold virtual. by intros ->. Qed.

(** A zone with nothing bound. *)
Lemma bound_none cds z d n :
  virtual z -> 0 <= tz_trips z <= MAX_TRIPS -> thermal_instances z = [] -> tbps d = replicate n None -> bound cds [] z d.
Proof.
  intros Hv Ht Hi Hd. assert (Hn : omap id (replicate n (@None nat)) = []) by (clear; induction n as [|n IH]; [done|exact IH]).
  assert (Hno : forall c, Some c ∈ tbps d -> False).
  { intros c. rewrite <- elem_of_bound, Hd, Hn. apply not_elem_of_nil. }
  split; try done.
  - intros c. split; [by intros []%Hno|]. intros [[]%not_elem_of_nil _].
  - rewrite Hd, Hn. constructor.
  - intros c t. rewrite Hi. by intros []%not_elem_of_nil.
  - intros c t []%Hno.
Qed.

(** A new zone at the end of the list, bound to all registered devices. *)
Lemma register_zone n all done k z d :
  good n all done -> apart k -> type_of (cooling_devices k) <$> thermal_cdev_list k = rev (cooler_types done) ->
  tz_data z ∉ tz_data <$> thermal_tz_list k -> datas k !! tz_data z = Some d -> bound (cooling_devices k) [] z d ->
  (length (filter (fun ty => wants d ty = true) all) <= length (tbps d))%nat ->
  let i := length (thermal_tz_list k) in let k' := (thermal_zone_device_register k z).1 in
  (thermal_zone_device_register k z).2 = i /\
  cooling_devices k' = cooling_devices k /\ thermal_cdev_list k' = thermal_cdev_list k /\
  tz_data <$> thermal_tz_list k' = (tz_data <$> thermal_tz_list k) ++ [tz_data z] /\ length (datas k') = length (datas k) /\
  (forall x, x ∉ (tz_data <$> thermal_tz_list k) ++ [tz_data z] -> datas k' !! x = datas k !! x) /\
  (forall j, (j < i)%nat -> zone_at k' j = zone_at k j) /\
  exists z' t, zone_at k' i = Some (z', set_tbps d t) /\ length t = length (tbps d) /\ tz_trips z' = tz_trips z /\
    tz_data z' = tz_data z /\ bound (cooling_devices k) (thermal_cdev_list k) z' (set_tbps d t).
Proof.
  intros [G1 G2 G3 G4 G5] Hap Ht Hz Hd Hb Hroom. cbv zeta. split; [done|]. unfold thermal_zone_device_register. cbn [fst].
  set (i := length (thermal_tz_list k)). set (k1 := mkCore _ _ _ _).
  assert (Hap1 : apart k1).
  { unfold apart. cbn. rewrite fmap_app. apply list.NoDup_app. split; [done|]. split; [|apply NoDup_singleton].
    intros x Hx Hx'. cbn in Hx'. apply list_elem_of_singleton in Hx'. by subst. }
  destruct (bind_tz_zone i (cooling_devices k) (thermal_cdev_list k) k1 Hap1 eq_refl) as (E1 & E2 & E3 & E4 & E5 & E6).
  unfold bind_tz. cbn [k1 thermal_cdev_list thermal_tz_list datas] in *. rewrite fmap_app in E3, E5. cbn [fmap list_fmap] in E3, E5.
  rewrite E1, E2, E3, E4. split_and!; try done.
  - intros j Hj. rewrite E6, decide_False by lia. unfold zone_at, k1. cbn. by rewrite lookup_app_l.
  - rewrite E6, decide_True by done. unfold zone_at at 1. cbn [k1 thermal_tz_list datas]. unfold i.
    rewrite list_lookup_middle by done. cbn [mbind option_bind]. rewrite Hd. cbn [mbind option_bind fmap option_fmap option_map].
    destruct (bound_all (cooling_devices k) all (thermal_cdev_list k) [] z d Hb) as (z' & t & E & L & T1 & T2 & T3 & T4 & Hb').
    + rewrite app_nil_r, Ht. by rewrite <- Permutation_rev.
    + rewrite app_nil_r, Ht. intros x Hx. apply G3. by rewrite (Permutation_rev (cooler_types done)).
    + done.
    + rewrite E. exists z', t. rewrite app_nil_r in Hb'. by split_and!.
Qed.

Lemma serves_later cds reg q z d z' d' :
  tz_type z' = tz_type z -> tz_data z' = tz_data z -> thermal_instances z' = thermal_instances z -> 0 <= tz_trips z' <= tz_trips z ->
  tbps d' = tbps d -> cdevs d' = cdevs d -> num_cdevs d' = num_cdevs d -> bound cds reg z d ->
  (q.1.1.1 = tz_data z /\ q.1.1.2 = tz_trips z' /\ length (tbps d) = Z.to_nat q.1.2 /\ forall ty, short ty -> wants d ty = asks q.2 ty) ->
  serves cds reg q (z', d').
Proof.
  intros E1 E2 E3 E4 E5 E6 E7 Hb. destruct q as [[[id trips] tbps'] names]. cbn. intros (-> & -> & L & W).
  rewrite E5. split_and!; try done; [|by eapply bound_view].
  intros ty Hty. etransitivity; [|by apply W]. unfold wants. by rewrite E6, E7.
Qed.

(** A zone is registered, bound and left with the trips declared. *)
Lemma probe_zone n all done s np id trips tbps' names :
  good n all (done ++ [AZone id trips tbps' names]) -> probed n done s -> describes (ProbeZone np) (AZone id trips tbps' names) ->
  exists s', probe_event s (ProbeZone np) = Ret (s', 0) /\ probed n (done ++ [AZone id trips tbps' names]) s'.
Proof.
  intros Hg [P1 P2 P3 P4 P5 P6] Hdesc. pose proof (good_prefix _ _ _ _ Hg) as Hg0.
  assert (Hids : zone_ids (done ++ [AZone id trips tbps' names]) = zone_ids done ++ [id]) by by rewrite zone_ids_app.
  assert (Hzs : zones (done ++ [AZone id trips tbps' names]) = zones done ++ [(id, trips, tbps', names)]) by by rewrite zones_app.
  assert (Hct : cooler_types (done ++ [AZone id trips tbps' names]) = cooler_types done) by (rewrite cooler_types_app; apply app_nil_r).
  destruct Hg as [G1 G2 G3 G4 G5]. rewrite Hids in G4. rewrite Hzs in G5. apply list.Forall_app in G5 as [_ G5].
  apply list.Forall_cons in G5 as [G5 _]. apply list.NoDup_app in G4 as (G4 & G4' & _).
  assert (Hnew : id ∉ zone_ids done) by (intros H; by apply (G4' id H), list_elem_of_singleton).
  assert (Hid : (id < n)%nat) by by destruct G5.
  destruct (zone_data_ok (datas (k_core s)) np id trips tbps' names Hdesc (P6 id Hid Hnew)) as (d & Ed & Hdt & Hdb & Hdw).
  assert (Htr : 0 <= trips <= MAX_TRIPS) by (destruct Hdesc as (_ & _ & _ & ? & _); done). unfold MAX_TRIPS in Htr.
  cbn [probe_event]. unfold virtual_sensor_thermal_probe. rewrite Ed. cbn [mbind outcome_bind Z.eqb negb]. rewrite Nat2Z.id.
  rewrite list_lookup_insert_eq by lia. cbn [or_oops mbind outcome_bind].
  set (k := mkCore _ _ _ _). set (z := mkTz _ _ _ _ _).
  assert (Hk : bound (cooling_devices k) [] z d).
  { apply (bound_none _ _ _ (Z.to_nat tbps')); [by eapply zone_type_virtual|cbn; unfold MAX_TRIPS; lia|done|done]. }
  destruct (register_zone n all done k z d Hg0) as (E0 & E1 & E2 & E3 & E4 & E5 & E6 & z' & t & Hz & L & T1 & T2 & Hb);
    [unfold apart; cbn; by rewrite P4; destruct Hg0|done|cbn; by rewrite P4|cbn; apply list_lookup_insert_eq; lia|done|
     eapply room_of; [exact G1|exact G5|intros ty [? ?]; by apply Hdw|by rewrite Hdb, length_replicate]|].
  destruct (thermal_zone_device_register k z) as [k' i]. cbn [fst snd] in *. subst i.
  apply zone_at_Some in Hz as [Hz Hzd]. rewrite T2 in Hzd. cbn [z tz_data] in Hzd. rewrite Hz. cbn [or_oops mbind outcome_bind]. rewrite Hzd.
  cbn [or_oops mbind outcome_bind]. eexists. split; [done|]. change (zd_num_trips (set_tbps d t)) with (zd_num_trips d). rewrite Hdt.
  pose proof (lookup_lt_Some _ _ _ Hz) as Hlt. pose proof (lookup_lt_Some _ _ _ Hzd) as Hltd.
  set (zf := mkTz _ _ _ _ _). set (df := set_zd_mode _ _).
  assert (Hdf : tz_data zf = id) by by cbn; rewrite T2.
  assert (Hlk : length (thermal_tz_list k) = length (zones done)).
  { cbn. apply (f_equal length) in P4. unfold zone_ids in P4. by rewrite !length_fmap in P4. }
  assert (Hz' : forall j q, zones done !! j = Some q -> (j < length (thermal_tz_list k))%nat) by (intros j q Hj; apply lookup_lt_Some in Hj; lia).
  split; cbn [k_core set_zone cooling_devices thermal_cdev_list thermal_tz_list datas].
  - rewrite length_insert, E4. cbn. by rewrite length_insert.
  - by rewrite E1, E2, Hct.
  - by rewrite E1, E2.
  - rewrite (fmap_insert_same _ _ _ _ zf Hz) by (rewrite Hdf; cbn in T2; done). by rewrite E3, Hids, <- P4.
  - intros j q. rewrite Hzs. intros Hj. rewrite E1, E2. destruct (decide (j = length (thermal_tz_list k))) as [->|Hne].
    + rewrite Hlk, list_lookup_middle in Hj by done. injection Hj as <-. exists (zf, df). split.
      { apply zone_at_Some. cbn [set_zone thermal_tz_list datas]. rewrite list_lookup_insert_eq by done.
        split; [done|]. rewrite Hdf. apply list_lookup_insert_eq. done. }
      eapply (serves_later _ _ _ z' (set_tbps d t)); try done; [cbn; rewrite T1; cbn; unfold MAX_TRIPS; lia|].
      cbn [fst snd]. split_and!; [done|done| |]; cbn.
      * by rewrite L, Hdb, length_replicate.
      * intros ty [? ?]. by apply Hdw.
    + assert (Hq : zones done !! j = Some q).
      { rewrite lookup_app in Hj. destruct (zones done !! j) eqn:E; [done|]. apply list_lookup_singleton_Some in Hj as [Hj _].
        apply lookup_ge_None in E. lia. }
      destruct (P5 j q Hq) as (p & Hp & Hser). exists p. split; [|exact Hser].
      destruct p as [zj dj]. apply zone_at_Some in Hp as [Hpz Hpd].
      assert (Hja : tz_data zj <> id).
      { intros E. apply Hnew. rewrite <- P4, <- E. apply list_elem_of_fmap_2. by eapply list_elem_of_lookup_2. }
      assert (Hkj : zone_at k j = Some (zj, dj)).
      { apply zone_at_Some. cbn. split; [done|]. by rewrite list_lookup_insert_ne. }
      rewrite <- E6 in Hkj by by eapply Hz'. apply zone_at_Some in Hkj as [Hkz Hkd]. apply zone_at_Some.
      cbn [set_zone thermal_tz_list datas]. rewrite list_lookup_insert_ne by done. split; [done|].
      rewrite Hdf, list_lookup_insert_ne by done. done.
  - intros x Hx Hxn. rewrite Hids in Hxn. assert (Hxi : x <> id) by (intros ->; apply Hxn, elem_of_app; right; by left).
    rewrite Hdf, list_lookup_insert_ne by done. rewrite E5 by (cbn; by rewrite P4). cbn.
    rewrite list_lookup_insert_ne by done. apply P6; [done|]. intros H. apply Hxn, elem_of_app. by left.
Qed.

Lemma probes_all n all es : forall vs done s,
  Forall2 describes es vs -> good n all (done ++ vs) -> probed n done s ->
  exists s', probe_all s es = Ret s' /\ probed n (done ++ vs) s'.
Proof.
  induction es as [|e es IH]; intros vs done s Hd Hg Hp.
  { apply Forall2_nil_inv_l in Hd as ->. exists s. by rewrite app_nil_r. }
  apply Forall2_cons_inv_l in Hd as (v & vs' & Hv & Hd & ->). rewrite cons_middle, app_assoc in Hg |- *.
  assert (Hs : exists s', probe_event s e = Ret (s', 0) /\ probed n (done ++ [v]) s').
  { apply good_prefix in Hg. destruct e as [drv np|np], v as [drv' ty|id trips tbps' names]; try done.
    - destruct (Hv) as [<- _]. by eapply probe_cooler.
    - by eapply probe_zone. }
  destruct Hs as (s' & Hs & Hp'). cbn [probe_all]. rewrite Hs. cbn [mbind outcome_bind]. by apply IH.
Qed.

(** ** What probing guarantees *)

Lemma described_short es vs : Forall2 describes es vs -> Forall short (cooler_types vs).
Proof.
  induction 1 as [|e v es vs Hd _ IH]; [constructor|]. destruct v as [drv ty|]; [|exact IH].
  change (cooler_types (ACooler drv ty :: vs)) with (ty :: cooler_types vs). constructor; [|done].
  destruct e; [|done]. destruct Hd as (_ & _ & ? & ?). done.
Qed.

Lemma elem_of_zones devs id trips tbps' names :
  AZone id trips tbps' names ∈ devs -> (id, trips, tbps', names) ∈ zones devs.
Proof. intros H. apply list_elem_of_omap. by exists (AZone id trips tbps' names). Qed.

(** C33. Whatever the order in which coolers and zones are probed, every probe
    succeeds and each zone ends with its own trips, and an instance at a trip for
    exactly those coolers of the device tree whose type begins one of its names:
    which devices a zone cools with depends on what is declared, not on who came
    first. The types are distinct, as are the zones, and a zone has bind
    parameters for the types it asks for. *)
Theorem binding_as_declared (n : nat) (es : list event) (devs : list device)
    (Hd : Forall2 describes es devs) (Ht : NoDup (cooler_types devs)) (Hi : NoDup (zone_ids devs))
    (Hr : Forall (roomy n (cooler_types devs)) (zones devs)) :
  exists s, probe_all (start n) es = Ret s /\
    forall id trips tbps names, AZone id trips tbps names ∈ devs ->
      exists z, z ∈ thermal_tz_list (k_core s) /\ tz_data z = id /\ tz_trips z = trips /\
        forall ty t, 0 <= t < trips ->
          (exists c, (c, t) ∈ thermal_instances z /\ c ∈ thermal_cdev_list (k_core s) /\ type_of (cooling_devices (k_core s)) c = ty) <->
          ty ∈ cooler_types devs /\ asks names ty = true.
Proof.
  pose proof (described_short _ _ Hd) as Hs.
  assert (Hg : good n (cooler_types devs) ([] ++ devs)) by by split.
  destruct (probes_all n _ es devs [] (start n) Hd Hg (start_probed n)) as (s & Hp & [P1 P2 P3 P4 P5 P6]).
  cbn [app] in *. exists s. split; [done|]. intros id trips tbps' names Hz%elem_of_zones.
  apply list_elem_of_lookup in Hz as [i Hz]. destruct (P5 i _ Hz) as ([z d] & Hzd & S1 & S2 & S3 & S4 & Hb). cbn [fst snd] in *.
  apply zone_at_Some in Hzd as [Hzi _]. exists z. split; [by eapply list_elem_of_lookup_2|]. do 2 (split; [done|]).
  rewrite list.Forall_forall in Hs. destruct Hb as [Hv Htr Hdev Ho Hin He].
  assert (Hel : forall ty, ty ∈ cooler_types devs <->
    ty ∈ type_of (cooling_devices (k_core s)) <$> thermal_cdev_list (k_core s)).
  { intros ty. rewrite P2. by rewrite <- Permutation_rev. }
  intros ty t Htt. split.
  - intros (c & Hc & Hreg & <-). assert (Hty : type_of (cooling_devices (k_core s)) c ∈ cooler_types devs)
      by by apply Hel, list_elem_of_fmap_2.
    split; [done|]. rewrite <- S4 by auto. by apply Hin, Hdev in Hc as [_ ?].
  - intros [Hty Ha]. pose proof (Hs _ Hty) as Hsh. apply Hel, list_elem_of_fmap in Hty as (c & -> & Hc). exists c.
    split; [|done]. apply He; [|lia]. apply Hdev. split; [done|]. by rewrite S4.
Qed.

(** A device tree of one zone and three coolers, two of which it names. *)
Definition cooler_dt (ty : string) : device_node := {["type"%string := Some (strings_value [str ty])]}.
Definition zone_dt (id trips tbps : Z) (names : list string) : device_node :=
  list_to_map [("dev_id", Some (be32_bytes id)); ("num_trips", Some (be32_bytes trips)); ("num_tbps", Some (be32_bytes tbps));
               ("num_cdevs", Some (be32_bytes (Z.of_nat (length names)))); ("cdev_names", Some (strings_value (str <$> names)));
               ("governor_name", Some (strings_value [str "virtual_sensor"]))]%string.

Lemma described_cooler drv ty : forallb (fun c => negb (c =? 0)) (str ty) = true -> (length (str ty) < NAME_LENGTH)%nat ->
  describes (ProbeCooler drv (cooler_dt ty)) (ACooler drv (str ty)).
Proof. intros H Hl. split; [done|]. split; [apply lookup_singleton_eq|]. split; [by apply str_nonzero_all|done]. Qed.

Lemma described_zone id trips tbps names :
  Z.of_nat id < 2 ^ 31 -> 0 <= trips <= 12 -> 0 <= tbps < 2 ^ 31 -> Z.of_nat (length names) <= 12 ->
  forallb (fun s => forallb (fun c => negb (c =? 0)) (str s) && (length (str s) <=? NAME_LENGTH)%nat) names = true ->
  describes (ProbeZone (zone_dt (Z.of_nat id) trips tbps names)) (AZone id trips tbps (str <$> names)).
Proof.
  intros H1 H2 H3 H4 H5. cbn [describes]. rewrite length_fmap. unfold MAX_TRIPS.
  split; [done|]. split; [done|]. split; [done|]. split; [done|]. split; [done|]. split; [done|]. split; [done|]. split; [done|].
  split; [done|]. split.
  - apply list.Forall_forall. intros s (x & -> & Hx)%list_elem_of_fmap. rewrite forallb_forall in H5.
    apply list_elem_of_In, H5, andb_true_iff in Hx as [Ha Hb]. split; [by apply str_nonzero_all|by apply Nat.leb_le].
  - exists (str "virtual_sensor"). split; [done|]. split; [by apply str_nonzero_all|]. vm_compute. lia.
Qed.

Lemma binding_as_declared_witness :
  exists s, probe_all (start 1) [ProbeCooler Bcct (cooler_dt "bcct0"); ProbeZone (zone_dt 0 6 3 ["bcct0"; "backlight0"]%string);
                                 ProbeCooler Budget (cooler_dt "budget0"); ProbeCooler Backlight (cooler_dt "backlight")] = Ret s /\
  exists z, z ∈ thermal_tz_list (k_core s) /\ forall ty t, 0 <= t < 6 ->
    (exists c, (c, t) ∈ thermal_instances z /\ c ∈ thermal_cdev_list (k_core s) /\ type_of (cooling_devices (k_core s)) c = ty) <->
    ty ∈ [str "bcct0"; str "budget0"; str "backlight"] /\ asks [str "bcct0"; str "backlight0"] ty = true.
Proof.
  set (es := [ProbeCooler Bcct _; _; _; _]).
  set (devs := [ACooler Bcct (str "bcct0"); AZone 0 6 3 (str <$> ["bcct0"; "backlight0"]%string); ACooler Budget (str "budget0");
                ACooler Backlight (str "backlight")]).
  assert (Hd : Forall2 describes es devs).
  { constructor; [by apply described_cooler; [|vm_compute; lia]|]. constructor; [apply (described_zone 0); [cbn; lia..|reflexivity]|].
    constructor; [by apply described_cooler; [|vm_compute; lia]|]. constructor; [by apply described_cooler; [|vm_compute; lia]|]. constructor. }
  destruct (binding_as_declared 1 es devs Hd) as (s & Hs & H); [apply (bool_decide_eq_true_1 _); reflexivity..| |].
  { constructor; [|constructor]. split; [lia|]. vm_compute. lia. }
  exists s. split; [exact Hs|]. destruct (H 0%nat 6 3 _ ltac:(right; left)) as (z & Hz & _ & _ & Hb). exists z. split; [exact Hz|exact Hb].
Defined.

(** ** What removal leaves *)

Lemma unbind_fold c l : forall z, (forall t, t ∈ l -> Z.testbit MASK t = true) ->
  foldl (fun z i => if Z.testbit MASK i then thermal_zone_unbind_cooling_device z i c else z) z l =
    set_instances z (filter (fun p => ~ (p.1 = c /\ p.2 ∈ l)) (thermal_instances z)).
Proof.
  induction l as [|t l IH]; intros z Hl; cbn [foldl].
  { rewrite list_filter_all; [by rewrite set_instances_same|]. apply list.Forall_forall. by intros p _ [_ []%not_elem_of_nil]. }
  rewrite Hl by left. rewrite IH by (intros; apply Hl; by right). unfold thermal_zone_unbind_cooling_device, set_instances. cbn.
  f_equal. rewrite list_filter_filter. apply list_filter_iff. intros [c' t']. cbn. rewrite elem_of_cons.
  split.
  - intros [H1 H2] [-> [->|?]]; [by apply H2|by apply H1].
  - intros H. split; [intros [-> ?]; apply H; eauto|intros [= -> ->]; apply H; eauto].
Qed.

Lemma __unbind_filter z c : tz_trips z <= MAX_TRIPS ->
  __unbind z MASK c = set_instances z (filter (fun p => ~ (p.1 = c /\ p.2 ∈ seqZ 0 (tz_trips z))) (thermal_instances z)).
Proof. intros Ht. apply unbind_fold. intros t Hi. apply elem_of_seqZ in Hi. apply mask_bit. lia. Qed.

Lemma unbind_none c l z d : (forall j, j ∈ l -> tbps d !! j <> Some (Some c)) -> foldl (unbind_slot c) (z, d) l = (z, d).
Proof.
  induction l as [|i l IH]; intros H; [done|]. cbn [foldl]. unfold unbind_slot at 2. cbn [fst snd].
  assert (Hi := H i ltac:(left)). destruct (tbps d !! i) as [[c'|]|]; [|apply IH; intros; apply H; by right..].
  destruct (Nat.eqb_spec c' c) as [->|]; [done|]. apply IH. intros. apply H. by right.
Qed.

(** A slot cleared leaves the other devices. *)
Lemma cleared_others (l : list (option nat)) i c : NoDup (omap id l) -> l !! i = Some (Some c) ->
  forall c', Some c' ∈ <[i := None]> l <-> Some c' ∈ l /\ c' <> c.
Proof.
  intros Hnd Hi c'. revert i Hi. induction l as [|x l IH]; intros [|i] Hi; cbn in Hi; [done..| |].
  - injection Hi as ->. cbn in Hnd |- *. apply list.NoDup_cons in Hnd as [Hc _]. rewrite elem_of_bound in Hc.
    rewrite !elem_of_cons. split; [intros [?|?]; [done|]; split; [by right|by intros ->]|]. intros [[[= ->]|?] ?]; [done|by right].
  - cbn [insert list_insert]. assert (Hl : NoDup (omap id l)) by (destruct x; cbn in Hnd; [by apply list.NoDup_cons in Hnd as [_ ?]|exact Hnd]).
    rewrite !elem_of_cons, (IH Hl i Hi). split; [|naive_solver]. intros [<-|[? ?]]; [|by eauto].
    split; [by left|]. intros ->. cbn in Hnd. apply list.NoDup_cons in Hnd as [Hc _]. apply Hc.
    rewrite elem_of_bound. by eapply list_elem_of_lookup_2.
Qed.

Lemma unbind_zone_spec c z d : NoDup (omap id (tbps d)) -> tz_trips z <= MAX_TRIPS ->
  exists z' d', unbind_zone c (z, d) = (z', d') /\
    (forall c', Some c' ∈ tbps d' <-> Some c' ∈ tbps d /\ c' <> c) /\
    forall c' t, (c', t) ∈ thermal_instances z' <->
      (c', t) ∈ thermal_instances z /\ ~ (c' = c /\ Some c ∈ tbps d /\ 0 <= t < tz_trips z).
Proof.
  intros Hnd Ht. unfold unbind_zone. cbn [snd]. destruct (decide (Some c ∈ tbps d)) as [Hin|Hout].
  - pose proof Hin as Hin'. apply list_elem_of_lookup in Hin as [i Hi]. pose proof (lookup_lt_Some _ _ _ Hi) as Hlt.
    assert (Hone : forall j, j <> i -> tbps d !! j <> Some (Some c)).
    { intros j Hj Hc. assert (Hc' : Some c ∈ <[i := None]> (tbps d)); [|by apply (cleared_others _ i c Hnd Hi) in Hc' as [_ ?]].
      apply (list_elem_of_lookup_2 _ j). by rewrite list_lookup_insert_ne. }
    replace (length (tbps d)) with (i + S (length (tbps d) - S i))%nat by lia. rewrite seq_app, foldl_app, unbind_none.
    2: { intros j Hj%elem_of_seq. apply Hone. lia. }
    cbn [seq foldl Nat.add]. unfold unbind_slot at 2. cbn [fst snd]. rewrite Hi, Nat.eqb_refl, unbind_none.
    2: { intros j Hj%elem_of_seq. cbn. rewrite list_lookup_insert_ne by lia. apply Hone. lia. }
    eexists _, _. split; [done|]. split; [by apply cleared_others|]. rewrite __unbind_filter by done.
    intros c' t. cbn. rewrite list_elem_of_filter, elem_of_seqZ. cbn. split.
    + intros [H1 H2]. split; [done|]. intros (-> & _ & ?). apply H1. split; [done|lia].
    + intros [H1 H2]. split; [|done]. intros [-> ?]. apply H2. split; [done|]. split; [done|lia].
  - rewrite unbind_none. 2: { intros j _ Hc. by apply Hout, (list_elem_of_lookup_2 _ j). }
    exists z, d. split; [done|]. split; [|naive_solver]. intros c'. split; [|by intros []]. intros Hc. split; [done|]. by intros ->.
Qed.

Lemma unbind_zone_keeps c : keeps_data (unbind_zone c).
Proof.
  intros [z d]. unfold unbind_zone. cbn [snd fst]. generalize (seq 0 (length (tbps d))). intros l. revert z d.
  induction l as [|i l IH]; intros z d; [done|]. cbn [foldl].
  assert (Hs : tz_data (unbind_slot c (z, d) i).1 = tz_data z).
  { unfold unbind_slot. cbn [fst snd]. repeat case_match; try done. cbn. apply bind_fold_data. intros z' t. by case_match. }
  destruct (unbind_slot c (z, d) i) as [z' d']. by rewrite IH.
Qed.

(** Unregistering a cooling device takes it off the list and out of every
    zone's bind parameters, and of its instances in a zone that bound it exactly
    those at the trips the zone has now: as the zones' driver lowers the number of
    trips after the zone was bound at all twelve, the instances beyond stay, of a
    device that is freed. *)
Theorem removal_leaves (k : thermal_core) (c i : nat) (z : thermal_zone) (d : zone_data)
    (Hk : apart k) (Hc : c ∈ thermal_cdev_list k) (Hz : zone_at k i = Some (z, d))
    (Hd : NoDup (omap id (tbps d))) (Ht : tz_trips z <= MAX_TRIPS) :
  let k' := thermal_cooling_device_unregister k c in
  (forall c', c' ∈ thermal_cdev_list k' <-> c' ∈ thermal_cdev_list k /\ c' <> c) /\
  exists z' d', zone_at k' i = Some (z', d') /\
    (forall c', Some c' ∈ tbps d' <-> Some c' ∈ tbps d /\ c' <> c) /\
    forall c' t, (c', t) ∈ thermal_instances z' <->
      (c', t) ∈ thermal_instances z /\ ~ (c' = c /\ Some c ∈ tbps d /\ 0 <= t < tz_trips z).
Proof.
  cbv zeta. unfold thermal_cooling_device_unregister. rewrite bool_decide_true by done. cbn [negb].
  set (k1 := mkCore _ _ _ _).
  destruct (at_zones _ (unbind_zone_keeps c) (seq 0 (length (thermal_tz_list k))) k1 Hk (NoDup_seq _ _)) as (_ & E2 & _ & _ & _ & E6).
  rewrite E2. split; [intros c'; cbn; rewrite list_elem_of_filter; naive_solver|].
  rewrite E6, decide_True. 2: { apply elem_of_seq. apply zone_at_Some in Hz as [Hz _]. apply lookup_lt_Some in Hz. lia. }
  change (zone_at k1 i) with (zone_at k i). rewrite Hz. cbn [fmap option_fmap option_map].
  destruct (unbind_zone_spec c z d Hd Ht) as (z' & d' & -> & H). by exists z', d'.
Qed.

(** A cooler, then a zone of six trips that names it, then the cooler's removal:
    the instances at the first six trips are gone, those at the other six stay. *)
Lemma removal_leaves_witness :
  exists s, probe_all (start 1) [ProbeCooler Bcct (cooler_dt "bcct0"); ProbeZone (zone_dt 0 6 1 ["bcct0"%string])] = Ret s /\
  exists z d, zone_at (thermal_cooling_device_unregister (k_core s) 0) 0 = Some (z, d) /\ (Some 0%nat ∉ tbps d) /\
    (forall t, 0 <= t < 6 -> (0%nat, t) ∉ thermal_instances z) /\ (0%nat, 6) ∈ thermal_instances z.
Proof.
  destruct (probe_all _ _) as [s| |] eqn:E; [|vm_compute in E; discriminate E..]. exists s. split; [reflexivity|].
  vm_compute in E. injection E as <-.
  match goal with |- context [thermal_cooling_device_unregister (k_core ?s) 0] => set (k := k_core s) end.
  destruct (zone_at k 0) as [[z d]|] eqn:Ez; [|vm_compute in Ez; discriminate Ez].
  destruct (removal_leaves k 0 0 z d) as (_ & z' & d' & Hz & Hb & Hin).
  - apply (bool_decide_eq_true_1 _). vm_compute. reflexivity.
  - left.
  - exact Ez.
  - vm_compute in Ez. injection Ez as <- <-. apply (bool_decide_eq_true_1 _). vm_compute. reflexivity.
  - vm_compute in Ez. injection Ez as <- <-. vm_compute. discriminate.
  - exists z', d'. split; [exact Hz|]. split; [rewrite Hb; intros [_ H]; by apply H|].
    vm_compute in Ez. injection Ez as <- <-. split.
    + intros t H6. rewrite Hin. intros [_ H]. apply H. split; [reflexivity|]. split; [left|exact H6].
    + apply Hin. split; [apply (bool_decide_eq_true_1 _); vm_compute; reflexivity|]. cbn. lia.
Defined.

(** ** Types of coolers *)

Lemma strnlen_whole s : c_string s -> strnlen s = length s.
Proof. induction 1 as [|c s Hc _ IH]; [done|]. cbn. destruct (Z.eqb_spec c 0); [done|]. by rewrite IH. Qed.

Lemma unterminated ty : c_string ty -> (length ty <= NAME_LENGTH)%nat ->
  (NAME_LENGTH <=? strnlen (pad ty))%nat = (length ty =? NAME_LENGTH)%nat.
Proof.
  intros Hc Hl. destruct (Nat.eqb_spec (length ty) NAME_LENGTH) as [E|E].
  - apply Nat.leb_le. unfold pad. rewrite E, Nat.sub_diag. cbn [replicate]. rewrite app_nil_r, strnlen_whole by done. lia.
  - rewrite strnlen_pad by (done || lia). apply Nat.leb_gt. lia.
Qed.

(** A cooler's type of twenty bytes or more is never refused: a longer one is
    written past the end of its array, and one of twenty bytes, left without a
    terminator, makes the registration return an error pointer, which passes the
    test for NULL and is used, as after any failure of the registration, unless
    the next allocation fails first. *)
Theorem cooler_type_errors (drv : cooler_driver) (s : system) (np : device_node) (ty : list Z) (registered list_alloc : bool)
    (Hn : holds np "type" (strings_value [ty])) (Hc : c_string ty) :
  (cooler_driver_probe drv s np true registered list_alloc = Oops <->
     (NAME_LENGTH < length ty)%nat \/ list_alloc = true /\ (length ty = NAME_LENGTH \/ registered = false)) /\
  ((length ty <= NAME_LENGTH)%nat -> list_alloc = false -> length ty = NAME_LENGTH \/ registered = false ->
     cooler_driver_probe drv s np true registered list_alloc = Ret (s, - ENOMEM)).
Proof.
  unfold cooler_driver_probe. cbn [negb]. unfold cooler_init_cust_data_from_dt.
  destruct (Nat.le_gt_cases (length ty) NAME_LENGTH) as [Hl|Hl].
  - rewrite (parse_string _ _ ty Hn Hc Hl). cbn [mbind outcome_bind]. rewrite length_pad, unterminated by done.
    destruct (Nat.eqb_spec (length ty) NAME_LENGTH), registered, list_alloc; cbn; split; intuition (congruence || lia).
  - assert (E : virtual_sensor_thermal_parse_node_string_index np "type" 0 (replicate NAME_LENGTH 0) 0 = Oops).
    { unfold virtual_sensor_thermal_parse_node_string_index. change 0 with (Z.of_nat 0) at 1.
      rewrite (read_string_index_ok np "type" [ty] O ty Hn) by (done || by constructor). cbn [Z.eqb].
      unfold strncpy_at. rewrite length_replicate. destruct (Nat.ltb_spec NAME_LENGTH (0 + length ty)); [done|lia]. }
    rewrite E. cbn [mbind outcome_bind]. split; [|lia]. split; [by left|done].
Qed.

Lemma cooler_type_errors_witness :
  length (str "twentytwentytwenty20") = NAME_LENGTH /\
  cooler_driver_probe Bcct (start 1) (cooler_dt "twentytwentytwenty20") true true true = Oops.
Proof.
  split; [reflexivity|]. apply (cooler_type_errors Bcct (start 1) (cooler_dt "twentytwentytwenty20") (str "twentytwentytwenty20") true true).
  - apply lookup_singleton_eq.
  - apply str_nonzero_all. reflexivity.
  - right. split; [reflexivity|]. left. reflexivity.
Defined.
