(* ===== verification/Holdings.v ===== *)
(** * Resources held by a driver

    What a driver has acquired and not released, newest first, and what it
    released without holding it. *)

From stdpp Require Import base tactics list.
From S2P Require Import Prelude.

(** [wrong]: what was released without being held, for the kernel to warn of or
    to take from another owner. *)
Record holdings (R : Type) := mkHoldings { held : list R; wrong : list R }.
Arguments mkHoldings {R} _ _.
Arguments held {R} _.
Arguments wrong {R} _.

Section with_resources.
Context {R : Type} `{EqDecision R}.
Implicit Types (r : R) (l x : list R).

Definition acquire r (k : holdings R) : holdings R := mkHoldings (r :: held k) (wrong k).
Fixpoint remove_one r l : list R :=
  match l with [] => [] | y :: l => if decide (y = r) then l else y :: remove_one r l end.
Definition release r (k : holdings R) : holdings R :=
  if bool_decide (r ∈ held k) then mkHoldings (remove_one r (held k)) (wrong k) else mkHoldings (held k) (wrong k ++ [r]).
Definition release_when (b : bool) r (k : holdings R) : holdings R := if b then release r k else k.

Lemma acquire_eq r l x : acquire r (mkHoldings l x) = mkHoldings (r :: l) x.
Proof. done. Qed.
Lemma release_in r l x : r ∈ l -> release r (mkHoldings l x) = mkHoldings (remove_one r l) x.
Proof. intros H. unfold release. by rewrite bool_decide_true. Qed.
Lemma release_out r l x : r ∉ l -> release r (mkHoldings l x) = mkHoldings l (x ++ [r]).
Proof. intros H. unfold release. by rewrite bool_decide_false. Qed.
Lemma remove_one_eq r l : remove_one r (r :: l) = l.
Proof. cbn. by rewrite decide_True. Qed.
Lemma remove_one_ne r y l : y <> r -> remove_one r (y :: l) = y :: remove_one r l.
Proof. intros H. cbn. by rewrite decide_False. Qed.
End with_resources.

(** Follows acquisitions and releases of resources that are known. *)
Ltac follow_holdings :=
  first
    [ rewrite acquire_eq
    | rewrite release_in by (rewrite ?elem_of_cons; tauto)
    | rewrite release_out by (rewrite ?elem_of_cons, ?elem_of_nil; intuition discriminate)
    | rewrite remove_one_eq | rewrite remove_one_ne by discriminate ].
