(* ===== verification/Acenna.v ===== *)
(** * The memory and registers of the neural accelerator (drivers/misc/amazon/acenna_kmod.c)

    The file through which clients of the accelerator allocate its buffers, map
    them and reach its registers, and the interrupt that ends a run. The build is
    the one for ARM64 with plat_acenna.h (no clocks). *)

From Stdlib Require Import String.
From stdpp Require Import base tactics numbers list option.
From S2P Require Import Prelude Kstrtox Printf.

Definition NNA_MAX_CLIENTS : Z := 16.
Definition NNA_MAX_ALLOCATED_MEMAREAS_PER_CLIENT : Z := 128.
Definition NNA_MAX_MEMAREA_SIZE : Z := 128 * 1024 * 1024.
Definition PAGE_SHIFT : Z := 12.
Definition ENXIO : Z := 6.
Definition ENOTTY : Z := 25.
Definition EIO : Z := 5.
Definition ERESTARTSYS : Z := 512.

(** ** Coherent DMA memory *)

(** A block given out: kernel address, bus address and size. *)
Definition block : Type := Z * Z * Z.
Definition b_kvirt (b : block) : Z := b.1.1.
Definition b_phys (b : block) : Z := b.1.2.
Definition b_size (b : block) : Z := b.2.
(** The bus ranges [p, p + n) and that of a block do not meet. *)
Definition apart_from (p n : Z) (b : block) : Prop := p + n <= b_phys b \/ b_phys b + b_size b <= p.

(** What [dma_alloc_coherent] promises of a size in whole pages, next to the
    blocks it has given out: pages of its own. *)
Class DmaCoherent := {
  dma_alloc_coherent : list block -> Z -> option (Z * Z);
  dma_alloc_own bs n k p : dma_alloc_coherent bs n = Some (k, p) -> 0 < n -> n mod PAGE_SIZE = 0 ->
    0 < k /\ (k ∉ b_kvirt <$> bs) /\ 0 <= p /\ p mod PAGE_SIZE = 0 /\ p + n <= 2 ^ 48 /\ Forall (apart_from p n) bs }.

(** ** State *)

(** [struct stAllocatedMemArea] *)
Record mem_area := mkArea {
  phy_addr : Z; kvirt_addr : Z; size : Z; vm_start : Z; vm_end : Z; area_sync_mode : Z }.
Definition no_area : mem_area := mkArea 0 0 0 0 0 0.
Definition give (a : mem_area) (k p n mode : Z) : mem_area := mkArea p k n (vm_start a) (vm_end a) mode.
Definition taken (a : mem_area) : mem_area := mkArea 0 0 0 (vm_start a) (vm_end a) (area_sync_mode a).
Definition set_vm (a : mem_area) (s e : Z) : mem_area := mkArea (phy_addr a) (kvirt_addr a) (size a) s e (area_sync_mode a).

(** [dev->dma_mask]: a null pointer, its own word, or the coherent mask. *)
Inductive mask_pointer := NullMask | OwnMask (m : Z) | CoherentMask.

(** What is asked of the hardware and of the DMA layer: register accesses by their
    byte offset, synchronisations with address, size and direction. *)
Inductive hw_event := RegRead (off : Z) | RegWrite (off v : Z) | SyncDevice (p n dir : Z) | SyncCpu (p n dir : Z).

(** [struct nna_device_data], with the blocks of DMA memory it holds, the size of
    the register resource and the trace. The areas are the rows of the clients one
    after the other. *)
Record nna := mkNna {
  areas : list mem_area; blocks : list block; buffers_allocated : Z; mem_allocated : Z;
  dev_lock : bool; is_open : bool; nna_halt : bool; irq_ts : Z * Z; sync_mode : Z;
  dma_mask : mask_pointer; coherent_dma_mask : Z; res_size : Z; trace : list hw_event }.

Definition set_areas (s : nna) l bs n m : nna :=
  mkNna l bs n m (dev_lock s) (is_open s) (nna_halt s) (irq_ts s) (sync_mode s) (dma_mask s) (coherent_dma_mask s) (res_size s) (trace s).
Definition set_open (s : nna) b : nna :=
  mkNna (areas s) (blocks s) (buffers_allocated s) (mem_allocated s) b b (nna_halt s) (irq_ts s) (sync_mode s) (dma_mask s) (coherent_dma_mask s) (res_size s) (trace s).
Definition set_halt (s : nna) h ts : nna :=
  mkNna (areas s) (blocks s) (buffers_allocated s) (mem_allocated s) (dev_lock s) (is_open s) h ts (sync_mode s) (dma_mask s) (coherent_dma_mask s) (res_size s) (trace s).
Definition set_masks (s : nna) m c : nna :=
  mkNna (areas s) (blocks s) (buffers_allocated s) (mem_allocated s) (dev_lock s) (is_open s) (nna_halt s) (irq_ts s) (sync_mode s) m c (res_size s) (trace s).
Definition emit (s : nna) e : nna :=
  mkNna (areas s) (blocks s) (buffers_allocated s) (mem_allocated s) (dev_lock s) (is_open s) (nna_halt s) (irq_ts s) (sync_mode s) (dma_mask s) (coherent_dma_mask s) (res_size s) (trace s ++ [e]).
Definition set_sync_mode (s : nna) m : nna :=
  mkNna (areas s) (blocks s) (buffers_allocated s) (mem_allocated s) (dev_lock s) (is_open s) (nna_halt s) (irq_ts s) m (dma_mask s) (coherent_dma_mask s) (res_size s) (trace s).

Definition in_range (clientid memid : Z) : bool :=
  (0 <=? clientid) && (clientid <? NNA_MAX_CLIENTS) && (0 <=? memid) && (memid <? NNA_MAX_ALLOCATED_MEMAREAS_PER_CLIENT).
Definition slot (clientid memid : Z) : nat := Z.to_nat (clientid * NNA_MAX_ALLOCATED_MEMAREAS_PER_CLIENT + memid).
(** [allocatedMemAreas[clientid][memid]], in the bounds of both dimensions. *)
Definition area_at (s : nna) (clientid memid : Z) : outcome mem_area :=
  if in_range clientid memid then or_oops (areas s !! slot clientid memid) else Oops.
Definition put_area (s : nna) (i : nat) (a : mem_area) : nna :=
  set_areas s (<[i := a]> (areas s)) (blocks s) (buffers_allocated s) (mem_allocated s).

(** A register access, of four bytes: the pages of the resource are mapped. *)
Definition PAGE_ALIGN (n : Z) : Z := Z.shiftl (Z.shiftr (n + (PAGE_SIZE - 1)) PAGE_SHIFT) PAGE_SHIFT.
Definition reg_access (s : nna) (off : Z) (e : hw_event) : outcome nna :=
  if (0 <=? off) && (off + 4 <=? PAGE_ALIGN (res_size s)) then Ret (emit s e) else Oops.

Definition block_of (a : mem_area) : block := (kvirt_addr a, phy_addr a, size a).
(** [dma_free_coherent]: of a block that was given out. *)
Definition dma_free_coherent (s : nna) (b : block) : outcome nna :=
  if bool_decide (b ∈ blocks s) then
    Ret (set_areas s (areas s) (filter (fun x => x <> b) (blocks s)) (buffers_allocated s) (mem_allocated s))
  else Oops.

(** ** The buffers *)

Fixpoint cleanup_loop (s : nna) (i : nat) (l : list mem_area) : outcome nna :=
  match l with
  | [] => Ret s
  | a :: l =>
    if kvirt_addr a =? 0 then cleanup_loop s (S i) l else
    s ← dma_free_coherent s (block_of a);
    cleanup_loop (set_areas s (<[i := taken a]> (areas s)) (blocks s) (s32 (buffers_allocated s - 1)) (s32 (mem_allocated s - size a))) (S i) l
  end.
Definition buffers_cleanup (s : nna) : outcome nna := cleanup_loop s 0 (areas s).

(** ** Opening and closing *)

Definition nna_device_file_open (s : nna) : nna * Z := if dev_lock s then (s, - ERESTARTSYS) else (set_open s true, 0).
Definition HALT_STATUS : Z := 0x44.
Definition nna_device_file_release (s : nna) : outcome (nna * Z) :=
  s ← buffers_cleanup s;
  s ← reg_access s HALT_STATUS (RegRead HALT_STATUS);
  Ret (set_open (set_halt s false (irq_ts s)) false, 0).

(** ** Requests *)

(** The numbers of the requests: [_IO], [_IOR], [_IOW] with the sizes of their
    structures. *)
Definition _IOC (dir nr size : Z) : Z := Z.lor (Z.shiftl dir 30) (Z.lor (Z.shiftl size 16) (Z.lor (Z.shiftl 97 8) nr)).
Definition sizeof_stMemAreaRequest : Z := 32.
Definition sizeof_stMemAreaSync : Z := 20.
Definition sizeof_regAccessRequest : Z := 8.
Definition sizeof_timeval_exch : Z := 16.
Definition NNA_IOCTL_ALLOC : Z := _IOC 1 1 sizeof_stMemAreaRequest.
Definition NNA_IOCTL_DEALLOC : Z := _IOC 1 2 sizeof_stMemAreaRequest.
Definition NNA_IOCTL_TRIGGER : Z := _IOC 0 3 0.
Definition NNA_IOCTL_HW_INT_TIME : Z := _IOC 2 4 sizeof_timeval_exch.
Definition NNA_IOCTL_REG_WRITE : Z := _IOC 1 5 sizeof_regAccessRequest.
Definition NNA_IOCTL_REG_READ : Z := _IOC 2 6 sizeof_regAccessRequest.
Definition NNA_IOCTL_CLEAR_POLL : Z := _IOC 0 7 0.
Definition NNA_IOCTL_SYNC_FOR_DEVICE : Z := _IOC 1 8 sizeof_stMemAreaSync.
Definition NNA_IOCTL_SYNC_FOR_CPU : Z := _IOC 1 9 sizeof_stMemAreaSync.

(** Fields of the structures, little-endian. *)
Definition int_at (u : list Z) (off : nat) : Z := s32 (le_dec (take 4 (drop off u))).
Definition u32_at (u : list Z) (off : nat) : Z := le_dec (take 4 (drop off u)).
Record stMemAreaRequest := mkReq { r_clientid : Z; r_memid : Z; r_size : Z; r_sync_mode : Z }.
Definition get_request (u : list Z) : stMemAreaRequest := mkReq (int_at u 0) (int_at u 4) (int_at u 8) (int_at u 24).
Record stMemAreaSync := mkSync { y_clientid : Z; y_memid : Z; y_size : Z; y_offset : Z; y_direction : Z }.
Definition get_sync (u : list Z) : stMemAreaSync := mkSync (int_at u 0) (int_at u 4) (int_at u 8) (int_at u 12) (int_at u 16).
Record regAccessRequest_t := mkReg { g_offset : Z; g_value : Z }.
Definition get_reg (u : list Z) : regAccessRequest_t := mkReg (int_at u 0) (u32_at u 4).
Definition store_at (u : list Z) (off : nat) (d : list Z) : list Z := take off u ++ d ++ drop (off + length d) u.

(** The answers to a call: whether the user's memory can be written, the file's
    [O_SYNC], the DMA masks the bus supports, the registers. *)
Record answers := mkAnswers { writable : bool; o_sync : bool; dma_supported : Z -> bool; readl : Z -> Z }.

Definition short_of (u : list Z) (n : Z) : bool := Z.of_nat (length u) <? n.

(** The checks before the switch; [Some] is an early return. *)
Definition pre_area (cmd : Z) (u : list Z) : option Z :=
  if (cmd =? NNA_IOCTL_ALLOC) || (cmd =? NNA_IOCTL_DEALLOC) then
    if short_of u sizeof_stMemAreaRequest then Some (- EFAULT) else None
  else None.
Definition pre_sync (e : answers) (s : nna) (cmd : Z) (u : list Z) : outcome (option Z) :=
  if (cmd =? NNA_IOCTL_SYNC_FOR_DEVICE) || (cmd =? NNA_IOCTL_SYNC_FOR_CPU) then
    if short_of u sizeof_stMemAreaSync then Ret (Some (- EFAULT)) else
    let y := get_sync u in
    a ← area_at s (y_clientid y) (y_memid y);
    if (phy_addr a =? 0) || (kvirt_addr a =? 0) || (size a =? 0) then Ret (Some (- ENXIO))
    else if size a <? s32 (y_offset y + y_size y) then Ret (Some (- EINVAL))
    else if (area_sync_mode a =? 1) || o_sync e || (y_size y =? 0) then Ret (Some 0)
    else Ret None
  else Ret None.
Definition pre_reg (s : nna) (cmd : Z) (u : list Z) : option Z :=
  if (cmd =? NNA_IOCTL_REG_READ) || (cmd =? NNA_IOCTL_REG_WRITE) then
    if short_of u sizeof_regAccessRequest then Some (- EFAULT) else
    let g := get_reg u in
    if (g_offset g <? 0) || (res_size s / 4 <? g_offset g) then Some (- EINVAL) else None
  else None.

Definition DMA_BIT_MASK (n : Z) : Z := Z.ones n.
Definition dma_mask_bit : Z := 32.
Definition mask_value (s : nna) : Z := match dma_mask s with NullMask => 0 | OwnMask m => m | CoherentMask => coherent_dma_mask s end.
Definition write_mask (s : nna) (m : Z) : nna :=
  match dma_mask s with NullMask => s | OwnMask _ => set_masks s (OwnMask m) (coherent_dma_mask s) | CoherentMask => set_masks s CoherentMask m end.
Definition dma_set_mask (e : answers) (s : nna) (m : Z) : nna * Z :=
  match dma_mask s with NullMask => (s, - EIO) | _ => if dma_supported e m then (write_mask s m, 0) else (s, - EIO) end.
Definition dma_set_coherent_mask (e : answers) (s : nna) (m : Z) : nna :=
  if dma_supported e m then set_masks s (dma_mask s) m else s.
Definition ensure_dma_mask (e : answers) (s : nna) : nna :=
  let s := match dma_mask s with NullMask => set_masks s CoherentMask (coherent_dma_mask s) | _ => s end in
  if mask_value s =? 0 then
    let '(s1, ret) := dma_set_mask e s (DMA_BIT_MASK dma_mask_bit) in
    if ret =? 0 then dma_set_coherent_mask e s1 (DMA_BIT_MASK dma_mask_bit)
    else dma_set_coherent_mask e (dma_set_mask e s (DMA_BIT_MASK 32)).1 (DMA_BIT_MASK 32)
  else s.

Section with_dma.
Context `{DmaCoherent}.

(** [NNA_IOCTL_ALLOC]: the guards up to the allocation, and the allocation with
    what is recorded of it; nothing serialises the requests of one file. *)
Definition alloc_check (e : answers) (s : nna) (r : stMemAreaRequest) : outcome (nna * option Z) :=
  if negb (in_range (r_clientid r) (r_memid r) && (0 <? r_size r) && (r_size r <? NNA_MAX_MEMAREA_SIZE)) then Ret (s, Some (- EFAULT)) else
  let s := ensure_dma_mask e s in
  a ← area_at s (r_clientid r) (r_memid r);
  Ret (s, if negb (kvirt_addr a =? 0) then Some (- EFAULT) else None).
Definition alloc_store (e : answers) (s : nna) (r : stMemAreaRequest) (u : list Z) : outcome (nna * list Z * Z) :=
  let alloc_size := PAGE_ALIGN (r_size r) in
  let i := slot (r_clientid r) (r_memid r) in
  a ← area_at s (r_clientid r) (r_memid r);
  match dma_alloc_coherent (blocks s) alloc_size with
  | None => Ret (put_area s i (taken a), u, - ENOMEM)
  | Some (k, p) =>
    let s := set_areas s (<[i := give a k p alloc_size (r_sync_mode r)]> (areas s)) (blocks s ++ [(k, p, alloc_size)])
               (s32 (buffers_allocated s + 1)) (s32 (mem_allocated s + alloc_size)) in
    if writable e then Ret (s, store_at u 16 (le_enc 8 p), 0) else Ret (s, u, - EFAULT)
  end.
Definition do_alloc (e : answers) (s : nna) (u : list Z) : outcome (nna * list Z * Z) :=
  let r := get_request u in
  '(s, ret) ← alloc_check e s r;
  match ret with Some ret => Ret (s, u, ret) | None => alloc_store e s r u end.

Definition do_dealloc (s : nna) (u : list Z) : outcome (nna * list Z * Z) :=
  let r := get_request u in
  if negb (in_range (r_clientid r) (r_memid r)) then Ret (s, u, - EFAULT) else
  a ← area_at s (r_clientid r) (r_memid r);
  if negb (kvirt_addr a =? 0) && (0 <? size a) then
    s ← dma_free_coherent s (block_of a);
    Ret (set_areas s (<[slot (r_clientid r) (r_memid r) := taken a]> (areas s)) (blocks s)
           (s32 (buffers_allocated s - 1)) (s32 (mem_allocated s - size a)), u, 0)
  else Ret (s, u, - EFAULT).

Definition do_sync (s : nna) (u : list Z) (ev : Z -> Z -> Z -> hw_event) : outcome (nna * list Z * Z) :=
  let y := get_sync u in
  a ← area_at s (y_clientid y) (y_memid y);
  Ret (emit s (ev (phy_addr a) (size a) (y_direction y)), u, 0).

(** [arg] is null, or what can be read from it on. *)
Definition nna_device_file_ioctl (e : answers) (s : nna) (cmd : Z) (arg : option (list Z)) : outcome (nna * list Z * Z) :=
  let u := default [] arg in
  if negb (cmd =? NNA_IOCTL_CLEAR_POLL) && bool_decide (arg = None) then Ret (s, u, - EFAULT) else
  match pre_area cmd u with Some ret => Ret (s, u, ret) | None =>
  ret ← pre_sync e s cmd u;
  match ret with Some ret => Ret (s, u, ret) | None =>
  match pre_reg s cmd u with Some ret => Ret (s, u, ret) | None =>
  if cmd =? NNA_IOCTL_ALLOC then do_alloc e s u
  else if cmd =? NNA_IOCTL_DEALLOC then do_dealloc s u
  else if cmd =? NNA_IOCTL_TRIGGER then Ret (s, u, 0)
  else if cmd =? NNA_IOCTL_HW_INT_TIME then
    if short_of u sizeof_timeval_exch || negb (writable e) then Ret (s, u, - EFAULT)
    else Ret (s, store_at u 0 (le_enc 8 (u64 (irq_ts s).1) ++ le_enc 8 (u64 (Z.quot (irq_ts s).2 1000))), 0)
  else if cmd =? NNA_IOCTL_REG_READ then
    let off := 4 * g_offset (get_reg u) in
    s ← reg_access s off (RegRead off);
    if writable e then Ret (s, store_at u 4 (le_enc 4 (readl e off)), 0) else Ret (s, u, - EFAULT)
  else if cmd =? NNA_IOCTL_REG_WRITE then
    let off := 4 * g_offset (get_reg u) in
    s ← reg_access s off (RegWrite off (g_value (get_reg u)));
    Ret (s, u, 0)
  else if cmd =? NNA_IOCTL_CLEAR_POLL then Ret (set_halt s false (irq_ts s), u, 0)
  else if cmd =? NNA_IOCTL_SYNC_FOR_DEVICE then do_sync s u SyncDevice
  else if cmd =? NNA_IOCTL_SYNC_FOR_CPU then do_sync s u SyncCpu
  else Ret (s, u, - ENOTTY)
  end end end.
End with_dma.

(** ** Mapping *)

(** A [struct vm_area_struct]: its addresses, the page offset asked for,
    [VM_IO] with write combining, and whether its pages come from the driver's
    fault handler or were mapped at once. *)
Record vma := mkVma { v_start : Z; v_end : Z; v_pgoff : Z; v_io : bool; v_ops : bool }.

Definition SYNC_MODE_MASK : Z := 0x03.
Definition SYNC_ALWAYS : Z := 0x04.
(** Every mode but 0 maps with write combining on ARM64. *)
Definition mode_io (mode : Z) : bool := negb (Z.land mode SYNC_MODE_MASK =? 0).

(** [pfn_valid]: the frames with a page; [ret] is the answer of
    [dma_mmap_coherent] where there is none. *)
Definition nna_device_file_mmap (e : answers) (pfn_valid : Z -> bool) (ret : Z) (s : nna) (v : vma) : outcome (nna * vma * Z) :=
  let clientid := s32 (v_pgoff v / 1000) in
  let memid := s32 (v_pgoff v mod 1000) in
  if negb (in_range clientid memid) then Ret (s, v, - EFAULT) else
  a ← area_at s clientid memid;
  if (kvirt_addr a =? 0) || (size a =? 0) then Ret (s, v, - EFAULT) else
  let io := if (o_sync e || negb (Z.land (sync_mode s) SYNC_ALWAYS =? 0)) && (area_sync_mode a =? 0)
            then mode_io (sync_mode s) else mode_io (area_sync_mode a) in
  let i := slot clientid memid in
  let mapped ops := mkVma (v_start v) (v_end v) 0 (v_io v || io) ops in
  let s1 := put_area s i (set_vm a (v_start v) (v_end v)) in
  if pfn_valid (Z.shiftr (phy_addr a) PAGE_SHIFT) then Ret (s1, mapped true, 0)
  else if ret =? 0 then Ret (s1, mapped false, 0)
  else Ret (put_area s i (set_vm a 0 0), mapped false, ret).

(** The area of a mapping: the inner loop stops at the first match, the outer one
    goes on. *)
Definition matches (start : Z) (a : mem_area) : bool := (vm_start a =? start) && negb (size a =? 0).
Definition client_areas (s : nna) (c : nat) : list mem_area :=
  take (Z.to_nat NNA_MAX_ALLOCATED_MEMAREAS_PER_CLIENT) (drop (Z.to_nat NNA_MAX_ALLOCATED_MEMAREAS_PER_CLIENT * c) (areas s)).
Fixpoint first_match (start : Z) (l : list mem_area) : option mem_area :=
  match l with [] => None | a :: l => if matches start a then Some a else first_match start l end.
Definition mapping_of (s : nna) (start : Z) : option mem_area :=
  foldl (fun found c => match first_match start (client_areas s c) with Some a => Some a | None => found end)
    None (seq 0 (Z.to_nat NNA_MAX_CLIENTS)).

Inductive fault_result := Page (frame : Z) | Sigbus.
Definition _nna_device_vma_fault (pfn_valid : Z -> bool) (s : nna) (start pgoff : Z) : fault_result :=
  match mapping_of s start with
  | None => Sigbus
  | Some a =>
    let offset := u64 (Z.shiftl pgoff PAGE_SHIFT) in
    let frame := Z.shiftr (u64 (phy_addr a + offset)) PAGE_SHIFT in
    let available := u64 (size a - offset) in
    if available <? PAGE_SIZE then Sigbus else if negb (pfn_valid frame) then Sigbus else Page frame
  end.

(** ** The interrupt and polling *)

Definition nna_halt_interrupt (s : nna) (now : Z * Z) : outcome nna :=
  s ← reg_access s HALT_STATUS (RegRead HALT_STATUS);
  Ret (set_halt s true now).
Definition POLLIN : Z := 1.
Definition nna_device_file_poll (halt_irq : Z) (s : nna) : Z := if halt_irq <? 0 then 0 else if nna_halt s then POLLIN else 0.

(** ** A history of a file *)

Inductive op :=
| OpOpen | OpRelease
| OpIoctl (e : answers) (cmd : Z) (arg : option (list Z))
| OpMmap (e : answers) (pfn_valid : Z -> bool) (ret : Z) (v : vma)
| OpInterrupt (now : Z * Z)
| OpSyncMode (m : Z).
(** What each does to the device; [OpSyncMode] is the attribute. *)
Definition step `{DmaCoherent} (s : nna) (o : op) : outcome nna :=
  match o with
  | OpOpen => Ret (nna_device_file_open s).1
  | OpRelease => '(s, _) ← nna_device_file_release s; Ret s
  | OpIoctl e cmd arg => '(s, _, _) ← nna_device_file_ioctl e s cmd arg; Ret s
  | OpMmap e pfn ret v => '(s, _, _) ← nna_device_file_mmap e pfn ret s v; Ret s
  | OpInterrupt now => nna_halt_interrupt s now
  | OpSyncMode m => Ret (set_sync_mode s m)
  end.
Fixpoint history `{DmaCoherent} (s : nna) (os : list op) : outcome nna :=
  match os with [] => Ret s | o :: os => s ← step s o; history s os end.
(** As the probe leaves it. *)
Definition fresh (res : Z) (m : mask_pointer) (coherent : Z) : nna :=
  mkNna (replicate (Z.to_nat (NNA_MAX_CLIENTS * NNA_MAX_ALLOCATED_MEMAREAS_PER_CLIENT)) no_area) [] 0 0 false false false (0, 0) 1 m coherent res [].

(** ** What is allocated *)

Definition live (l : list mem_area) : list block := block_of <$> filter (fun a => kvirt_addr a <> 0) l.
Definition total (bs : list block) : Z := foldr (fun b t => b_size b + t) 0 bs.
Definition sound_block (b : block) : Prop :=
  0 < b_kvirt b /\ 0 <= b_phys b /\ b_phys b mod PAGE_SIZE = 0 /\ 0 < b_size b <= NNA_MAX_MEMAREA_SIZE /\ b_size b mod PAGE_SIZE = 0 /\
  b_phys b + b_size b <= 2 ^ 48.

(** The blocks the device holds are those of the areas in use, and [lost], each
    with pages of its own, and the counters count them. *)
Record tidy (lost : list block) (s : nna) : Prop := mkTidy {
  t_len : Z.of_nat (length (areas s)) = NNA_MAX_CLIENTS * NNA_MAX_ALLOCATED_MEMAREAS_PER_CLIENT;
  t_blocks : blocks s ≡ₚ live (areas s) ++ lost;
  t_keys : NoDup (b_kvirt <$> blocks s);
  t_apart : forall b c, b ∈ blocks s -> c ∈ blocks s -> b <> c -> apart_from (b_phys b) (b_size b) c;
  t_sound : Forall sound_block (blocks s);
  t_dead : Forall (fun a => kvirt_addr a = 0 -> size a = 0 /\ phy_addr a = 0) (areas s);
  t_count : buffers_allocated s = s32 (Z.of_nat (length (blocks s)));
  t_mem : mem_allocated s = s32 (total (blocks s)) }.

Lemma s32_plus x y : s32 (s32 x + y) = s32 (x + y).
Proof.
  unfold wrapS. change (32 - 1) with 31. f_equal.
  replace ((x + 2 ^ 31) mod 2 ^ 32 - 2 ^ 31 + y + 2 ^ 31) with ((x + 2 ^ 31) mod 2 ^ 32 + y) by lia.
  rewrite Z.add_mod_idemp_l by lia. f_equal. lia.
Qed.

#[export] Instance total_proper : Proper ((≡ₚ) ==> (=)) total.
Proof. intros l l' Hl. unfold total. induction Hl; cbn [foldr]; lia. Qed.
Lemma total_app l l' : total (l ++ l') = total l + total l'.
Proof. unfold total. induction l as [|b l IH]; cbn; lia. Qed.

Lemma live_app l l' : live (l ++ l') = live l ++ live l'.
Proof. unfold live. by rewrite list.filter_app, fmap_app. Qed.
Definition live1 (a : mem_area) : list block := if kvirt_addr a =? 0 then [] else [block_of a].
Lemma live_cons a l : live (a :: l) = live1 a ++ live l.
Proof. unfold live, live1. rewrite filter_cons. destruct (Z.eqb_spec (kvirt_addr a) 0); by case_decide. Qed.
Lemma live_at l i a : l !! i = Some a -> live l ≡ₚ live1 a ++ live (delete i l).
Proof.
  intros Hi. rewrite <- (take_drop_middle l i a Hi) at 1. rewrite delete_take_drop, !live_app, live_cons.
  rewrite !app_assoc. by rewrite (Permutation_app_comm (live1 a)).
Qed.
Lemma delete_insert_same {A} (l : list A) i x : delete i (<[i := x]> l) = delete i l.
Proof.
  rewrite !delete_take_drop. by rewrite take_insert_ge, drop_insert_lt by lia.
Qed.
Lemma live_put l i a b : l !! i = Some a -> live (<[i := b]> l) ≡ₚ live1 b ++ live (delete i l).
Proof.
  intros Hi. rewrite (live_at _ i b); [by rewrite delete_insert_same|]. apply list_lookup_insert_eq. by eapply lookup_lt_Some.
Qed.


(** A change of an area that leaves its block alone. *)
Lemma tidy_same lost s s' i a b :
  tidy lost s -> areas s !! i = Some a -> areas s' = <[i := b]> (areas s) -> block_of b = block_of a ->
  blocks s' = blocks s -> buffers_allocated s' = buffers_allocated s -> mem_allocated s' = mem_allocated s -> tidy lost s'.
Proof.
  intros [T1 T2 T3 T4 T5 T6 T7 T8] Hi Ea Hb Eb En Em. injection Hb as E1 E2 E3.
  assert (Hl : live1 b = live1 a) by (unfold live1, block_of; by rewrite E1, E2, E3).
  constructor; rewrite ?Ea, ?Eb, ?En, ?Em; try done.
  - by rewrite length_insert.
  - rewrite (live_put _ _ _ _ Hi), Hl. by rewrite <- live_at by exact Hi.
  - apply Forall_insert; [done|]. rewrite E1, E2, E3. by eapply list.Forall_lookup_1 in T6.
Qed.
Lemma tidy_view lost s s' :
  tidy lost s -> areas s' = areas s -> blocks s' = blocks s -> buffers_allocated s' = buffers_allocated s -> mem_allocated s' = mem_allocated s -> tidy lost s'.
Proof. intros [T1 T2 T3 T4 T5 T6 T7 T8] E1 E2 E3 E4. constructor; rewrite ?E1, ?E2, ?E3, ?E4; done. Qed.

Lemma fresh_tidy res m c : tidy [] (fresh res m c).
Proof.
  assert (Hl : forall n, live (replicate n no_area) = []) by (induction n as [|n IH]; [done|exact IH]).
  unfold fresh. set (n := Z.to_nat _). assert (Hn : Z.of_nat n = NNA_MAX_CLIENTS * NNA_MAX_ALLOCATED_MEMAREAS_PER_CLIENT) by done.
  clearbody n. constructor; cbn [areas blocks buffers_allocated mem_allocated].
  - by rewrite length_replicate.
  - by rewrite Hl.
  - constructor.
  - intros b c' []%not_elem_of_nil.
  - constructor.
  - by apply Forall_replicate.
  - done.
  - done.
Qed.

(** ** Giving and taking *)

Lemma filter_other (b : block) l rest : NoDup (b_kvirt <$> l) -> l ≡ₚ b :: rest -> filter (fun x => x <> b) l ≡ₚ rest.
Proof.
  intros Hn Hp. rewrite Hp. rewrite filter_cons, decide_False by tauto.
  assert (Hb : b ∉ rest).
  { rewrite Hp in Hn. cbn in Hn. apply list.NoDup_cons in Hn as [Hn _]. intros H. apply Hn. by apply list_elem_of_fmap_2. }
  rewrite list_filter_all; [done|]. apply list.Forall_forall. by intros x Hx ->.
Qed.

Lemma free_slot_tidy lost s i a :
  tidy lost s -> areas s !! i = Some a -> kvirt_addr a <> 0 ->
  exists bs, dma_free_coherent s (block_of a) = Ret (set_areas s (areas s) bs (buffers_allocated s) (mem_allocated s)) /\
    bs ≡ₚ live (delete i (areas s)) ++ lost /\
    tidy lost (set_areas s (<[i := taken a]> (areas s)) bs (s32 (buffers_allocated s - 1)) (s32 (mem_allocated s - size a))).
Proof.
  intros [T1 T2 T3 T4 T5 T6 T7 T8] Hi Hk. pose proof (live_at _ _ _ Hi) as Hl. unfold live1 in Hl at 1.
  destruct (Z.eqb_spec (kvirt_addr a) 0); [done|]. cbn [app] in Hl.
  assert (Hp : blocks s ≡ₚ block_of a :: live (delete i (areas s)) ++ lost) by by rewrite T2, Hl.
  pose proof (filter_other _ _ _ T3 Hp) as Hf. eexists. split.
  { unfold dma_free_coherent. rewrite bool_decide_true; [done|]. rewrite Hp. left. }
  split; [exact Hf|]. set (bs := filter _ _) in *.
  assert (Hsub : forall b, b ∈ bs -> b ∈ blocks s) by (intros b; unfold bs; rewrite list_elem_of_filter; tauto).
  assert (Hlen : length (blocks s) = S (length bs)) by (rewrite Hp, Hf; done).
  constructor; cbn [set_areas areas blocks buffers_allocated mem_allocated].
  - by rewrite length_insert.
  - rewrite (live_put _ _ _ _ Hi). exact Hf.
  - rewrite Hp in T3. cbn in T3. apply list.NoDup_cons in T3 as [_ T3]. by rewrite Hf.
  - intros b c Hb Hc. apply T4; auto.
  - apply list.Forall_forall. rewrite list.Forall_forall in T5. auto.
  - apply Forall_insert; done.
  - rewrite T7. unfold Z.sub. rewrite s32_plus, Hlen. f_equal. lia.
  - rewrite T8. unfold Z.sub. rewrite s32_plus. f_equal. rewrite Hp, Hf.
    change (total (block_of a :: ?l)) with (size a + total l). lia.
Qed.

Lemma page_align_spec n : 0 < n -> let m := PAGE_ALIGN n in 0 < m /\ m mod PAGE_SIZE = 0 /\ n <= m < n + PAGE_SIZE.
Proof.
  intros Hn. unfold PAGE_ALIGN, PAGE_SIZE, PAGE_SHIFT. rewrite Z.shiftl_mul_pow2, Z.shiftr_div_pow2 by lia. change (2 ^ 12) with 4096.
  cbv zeta. pose proof (Z.div_mod (n + (4096 - 1)) 4096 ltac:(lia)). pose proof (Z.mod_pos_bound (n + (4096 - 1)) 4096 ltac:(lia)).
  rewrite Z.mod_mul by lia. lia.
Qed.

Lemma in_range_spec c m : in_range c m = true <-> 0 <= c < 16 /\ 0 <= m < 128.
Proof. unfold in_range, NNA_MAX_CLIENTS, NNA_MAX_ALLOCATED_MEMAREAS_PER_CLIENT. rewrite !andb_true_iff, !Z.leb_le, !Z.ltb_lt. lia. Qed.

Lemma area_at_ok lost s c m : tidy lost s -> in_range c m = true -> exists a, areas s !! slot c m = Some a /\ area_at s c m = Ret a.
Proof.
  intros [T1 _ _ _ _ _ _ _] Hr. unfold area_at. rewrite Hr. apply in_range_spec in Hr.
  unfold NNA_MAX_CLIENTS, NNA_MAX_ALLOCATED_MEMAREAS_PER_CLIENT in *.
  destruct (lookup_lt_is_Some_2 (areas s) (slot c m)) as [a Ha].
  { unfold slot, NNA_MAX_ALLOCATED_MEMAREAS_PER_CLIENT. lia. }
  exists a. by rewrite Ha.
Qed.

Lemma cleanup_loop_ok lost l : forall s i, tidy lost s -> drop i (areas s) = l -> (forall j a, (j < i)%nat -> areas s !! j = Some a -> kvirt_addr a = 0) ->
  exists s', cleanup_loop s i l = Ret s' /\ tidy lost s' /\ Forall (fun a => kvirt_addr a = 0) (areas s') /\
    s' = set_areas s (areas s') (blocks s') (buffers_allocated s') (mem_allocated s').
Proof.
  induction l as [|a l IH]; intros s i Ht Hd Hb.
  { exists s. split; [done|]. split; [done|]. split; [|by destruct s]. apply list.Forall_lookup. intros j a Hj. eapply Hb; [|exact Hj].
    apply lookup_lt_Some in Hj. apply (f_equal length) in Hd. rewrite length_drop in Hd. cbn in Hd. lia. }
  assert (Hi : areas s !! i = Some a) by (rewrite <- (Nat.add_0_r i), <- lookup_drop, Hd; done).
  assert (Hd' : drop (S i) (areas s) = l) by (rewrite <- Nat.add_1_r, <- drop_drop, Hd; done).
  cbn [cleanup_loop]. destruct (Z.eqb_spec (kvirt_addr a) 0) as [E|E].
  { apply IH; [done|done|]. intros j a' Hj Ha. destruct (decide (j = i)) as [->|]; [congruence|]. eapply Hb; [|exact Ha]. lia. }
  destruct (free_slot_tidy lost s i a Ht Hi E) as (bs & -> & _ & Ht'). cbn [mbind outcome_bind set_areas areas buffers_allocated mem_allocated blocks].
  destruct (IH _ (S i) Ht') as (s' & Hs & Hs' & Hz & Hf).
  - cbn. by rewrite drop_insert_lt by lia.
  - intros j a' Hj. cbn. destruct (decide (j = i)) as [->|Hne].
    + rewrite list_lookup_insert_eq by by eapply lookup_lt_Some. by intros [= <-].
    + rewrite list_lookup_insert_ne by done. intros Ha. eapply Hb; [|exact Ha]. lia.
  - exists s'. split; [exact Hs|]. split; [done|]. split; [done|]. rewrite Hf. done.
Qed.

(** Everything is given back but what is lost. *)
Lemma cleanup_ok lost s : tidy lost s -> exists s', buffers_cleanup s = Ret s' /\ tidy lost s' /\ blocks s' ≡ₚ lost /\
  Forall (fun a => kvirt_addr a = 0) (areas s') /\ s' = set_areas s (areas s') (blocks s') (buffers_allocated s') (mem_allocated s').
Proof.
  intros Ht. destruct (cleanup_loop_ok lost (areas s) s 0 Ht eq_refl) as (s' & Hs & Ht' & Hz & Hf); [lia|].
  exists s'. split; [done|]. split; [done|]. split; [|done]. rewrite (t_blocks _ _ Ht'). unfold live.
  assert (E : filter (fun a => kvirt_addr a <> 0) (areas s') = []); [|by rewrite E].
  clear -Hz. induction Hz as [|a l Ha _ IH]; [done|]. rewrite filter_cons, decide_False; [exact IH|]. by intros H.
Qed.

(** ** Every step *)

Lemma set_masks_id s : s = set_masks s (dma_mask s) (coherent_dma_mask s).
Proof. by destruct s. Qed.
(** A step that changes the masks at most. *)
Definition masks_only (s s' : nna) : Prop := exists m c, s' = set_masks s m c.
Lemma masks_only_id s : masks_only s s.
Proof. eexists _, _. apply set_masks_id. Qed.
Lemma masks_only_trans s1 s2 s3 : masks_only s1 s2 -> masks_only s2 s3 -> masks_only s1 s3.
Proof. intros (? & ? & ->) (m & c & ->). by exists m, c. Qed.
Lemma set_coherent_masks e s m : masks_only s (dma_set_coherent_mask e s m).
Proof. unfold dma_set_coherent_mask. destruct (dma_supported e m); [by eexists _, _|apply masks_only_id]. Qed.
Lemma set_mask_masks e s m : masks_only s (dma_set_mask e s m).1.
Proof.
  unfold dma_set_mask, write_mask. destruct (dma_mask s); [apply masks_only_id|destruct (dma_supported e m); [|apply masks_only_id]..]; by eexists _, _.
Qed.
Lemma ensure_masks e s : masks_only s (ensure_dma_mask e s).
Proof.
  unfold ensure_dma_mask. set (x := match dma_mask s with NullMask => _ | _ => s end).
  apply (masks_only_trans _ x); [unfold x; destruct (dma_mask s); [by eexists _, _|apply masks_only_id..]|].
  destruct (mask_value x =? 0); [|apply masks_only_id].
  pose proof (set_mask_masks e x (DMA_BIT_MASK dma_mask_bit)) as H1. pose proof (set_mask_masks e x (DMA_BIT_MASK 32)) as H2.
  destruct (dma_set_mask e x (DMA_BIT_MASK dma_mask_bit)) as [s1 ret].
  destruct (ret =? 0); (eapply masks_only_trans; [|apply set_coherent_masks]); [exact H1|exact H2].
Qed.

(** What a step keeps. *)
Definition kept (lost : list block) (s s' : nna) : Prop := tidy lost s' /\ res_size s' = res_size s.

(** A step that leaves the areas alone. *)
Ltac keeps := split; [eapply tidy_view; [eassumption|reflexivity..]|reflexivity].

Lemma alloc_check_ok lost e s r : tidy lost s -> exists s' ret, alloc_check e s r = Ret (s', ret) /\ kept lost s s' /\
  (ret = None -> in_range (r_clientid r) (r_memid r) = true /\ 0 < r_size r < NNA_MAX_MEMAREA_SIZE /\
     exists a, areas s' !! slot (r_clientid r) (r_memid r) = Some a /\ kvirt_addr a = 0).
Proof.
  intros Ht. unfold alloc_check. destruct (in_range _ _) eqn:Hr, (Z.ltb_spec 0 (r_size r)), (Z.ltb_spec (r_size r) NNA_MAX_MEMAREA_SIZE);
    cbn [andb negb]; try (exists s, (Some (- EFAULT)); done).
  destruct (ensure_masks e s) as (m & c & ->). assert (Ht' : tidy lost (set_masks s m c)) by by eapply tidy_view.
  destruct (area_at_ok _ _ _ _ Ht' Hr) as (a & Ha & ->). cbn [mbind outcome_bind]. eexists _, _. split; [done|]. split; [done|].
  destruct (Z.eqb_spec (kvirt_addr a) 0); [|done]. intros _. split; [done|]. split; [lia|]. by exists a.
Qed.

Ltac is_cmd a :=
  first [constr_eq a NNA_IOCTL_ALLOC | constr_eq a NNA_IOCTL_DEALLOC | constr_eq a NNA_IOCTL_TRIGGER | constr_eq a NNA_IOCTL_HW_INT_TIME
    | constr_eq a NNA_IOCTL_REG_READ | constr_eq a NNA_IOCTL_REG_WRITE | constr_eq a NNA_IOCTL_CLEAR_POLL
    | constr_eq a NNA_IOCTL_SYNC_FOR_DEVICE | constr_eq a NNA_IOCTL_SYNC_FOR_CPU].
(** The comparisons of two requests. *)
Ltac eval_cmds :=
  repeat match goal with
  | |- context [?a =? ?b] => is_cmd a; is_cmd b; let r := eval vm_compute in (a =? b) in change (a =? b) with r
  end; cbn [orb andb negb].

Section steps.
Context `{DmaCoherent}.

(** What an allocation records; an area that was in use is lost. *)
Lemma alloc_store_ok lost e s r u a :
  tidy lost s -> in_range (r_clientid r) (r_memid r) = true -> 0 < r_size r < NNA_MAX_MEMAREA_SIZE ->
  areas s !! slot (r_clientid r) (r_memid r) = Some a ->
  exists s' u' ret, alloc_store e s r u = Ret (s', u', ret) /\ kept (live1 a ++ lost) s s' /\
    forall k p, dma_alloc_coherent (blocks s) (PAGE_ALIGN (r_size r)) = Some (k, p) ->
      areas s' = <[slot (r_clientid r) (r_memid r) := give a k p (PAGE_ALIGN (r_size r)) (r_sync_mode r)]> (areas s).
Proof.
  intros Ht Hr Hsz Ha. unfold alloc_store. destruct (area_at_ok _ _ _ _ Ht Hr) as (a' & Ha' & ->).
  rewrite Ha in Ha'. injection Ha' as <-. cbn [mbind outcome_bind].
  destruct (page_align_spec (r_size r) ltac:(lia)) as (P1 & P2 & P3). set (n := PAGE_ALIGN (r_size r)) in *. clearbody n.
  assert (Hn : n <= NNA_MAX_MEMAREA_SIZE).
  { unfold NNA_MAX_MEMAREA_SIZE, PAGE_SIZE in *. pose proof (Z.div_mod n 4096 ltac:(lia)). lia. }
  destruct Ht as [T1 T2 T3 T4 T5 T6 T7 T8]. pose proof (live_at _ _ _ Ha) as Hl.
  destruct (dma_alloc_coherent (blocks s) n) as [[k p]|] eqn:E.
  - destruct (dma_alloc_own _ _ _ _ E P1 P2) as (D1 & D2 & D3 & D4 & D5 & D6).
    set (s1 := set_areas _ _ _ _ _).
    assert (Hs : kept (live1 a ++ lost) s s1); [|destruct (writable e); (eexists _, _, _; split; [done|]; split; [done|]); by intros ? ? [= <- <-]].
    split; [|done].
    assert (Hlk : live1 (give a k p n (r_sync_mode r)) = [(k, p, n)]).
    { unfold live1. cbn. destruct (Z.eqb_spec k 0); [lia|done]. }
    constructor; cbn [s1 set_areas areas blocks buffers_allocated mem_allocated].
    + by rewrite length_insert.
    + rewrite (live_put _ _ _ _ Ha), Hlk, T2, Hl. rewrite (Permutation_app_comm _ [(k, p, n)]). cbn. apply Permutation_skip.
      by rewrite !app_assoc, (Permutation_app_comm (live1 a)).
    + rewrite fmap_app. cbn. rewrite Permutation_app_comm. cbn. by apply list.NoDup_cons.
    + rewrite list.Forall_forall in D6.
      intros b c [Hb|Hb%list_elem_of_singleton]%elem_of_app [Hc|Hc%list_elem_of_singleton]%elem_of_app Hne; subst.
      * by apply T4.
      * destruct (D6 b Hb) as [?|?]; unfold apart_from, b_phys, b_size in *; cbn; [right|left]; done.
      * by apply D6.
      * done.
    + apply list.Forall_app. split; [done|]. constructor; [|constructor]. unfold sound_block, b_kvirt, b_phys, b_size. cbn. lia.
    + apply Forall_insert; [done|]. cbn. lia.
    + rewrite length_app, T7, s32_plus. cbn [length]. f_equal. lia.
    + rewrite T8, s32_plus, total_app. f_equal. cbn. lia.
  - eexists _, _, _. split; [done|]. split; [|done]. split; [|done].
    constructor; cbn [put_area set_areas areas blocks buffers_allocated mem_allocated]; try done.
    + by rewrite length_insert.
    + rewrite (live_put _ _ _ _ Ha), T2, Hl. unfold live1 at 2. cbn. by rewrite !app_assoc, (Permutation_app_comm (live1 a)).
    + by apply Forall_insert.
Qed.

(** The requests that leave what is mapped: a synchronisation of an area that does
    not exist, and the register behind the last one where the resource ends with a
    page. *)
Definition wild (s : nna) (cmd : Z) (arg : option (list Z)) : bool :=
  match arg with
  | None => false
  | Some u =>
    if (cmd =? NNA_IOCTL_SYNC_FOR_DEVICE) || (cmd =? NNA_IOCTL_SYNC_FOR_CPU) then
      negb (short_of u sizeof_stMemAreaSync) && negb (in_range (y_clientid (get_sync u)) (y_memid (get_sync u)))
    else if (cmd =? NNA_IOCTL_REG_READ) || (cmd =? NNA_IOCTL_REG_WRITE) then
      negb (short_of u sizeof_regAccessRequest) && (4 * g_offset (get_reg u) =? res_size s) && (res_size s mod PAGE_SIZE =? 0)
    else false
  end.

Lemma reg_access_exact s off e : 0 < res_size s -> 0 <= off <= res_size s / 4 ->
  reg_access s (4 * off) e = if (4 * off =? res_size s) && (res_size s mod PAGE_SIZE =? 0) then Oops else Ret (emit s e).
Proof.
  intros Hs Ho. unfold reg_access. destruct (page_align_spec _ Hs) as (P1 & P2 & P3). unfold PAGE_SIZE in *.
  pose proof (Z.div_mod (PAGE_ALIGN (res_size s)) 4096 ltac:(lia)). pose proof (Z.div_mod (res_size s) 4 ltac:(lia)).
  pose proof (Z.mod_pos_bound (res_size s) 4 ltac:(lia)). pose proof (Z.div_mod (res_size s) 4096 ltac:(lia)).
  pose proof (Z.mod_pos_bound (res_size s) 4096 ltac:(lia)).
  destruct (Z.leb_spec 0 (4 * off)), (Z.leb_spec (4 * off + 4) (PAGE_ALIGN (res_size s))), (Z.eqb_spec (4 * off) (res_size s)),
    (Z.eqb_spec (res_size s mod 4096) 0); cbn [andb]; try done; lia.
Qed.

Definition answered (lost : list block) (s : nna) (w : bool) (x : outcome (nna * list Z * Z)) : Prop :=
  match x with Ret (s', _, _) => kept lost s s' /\ w = false | Oops => w = true | Blocks => False end.

Lemma do_alloc_ok lost e s u : tidy lost s -> answered lost s false (do_alloc e s u).
Proof.
  intros Ht. unfold do_alloc. destruct (alloc_check_ok lost e s (get_request u) Ht) as (s1 & [ret|] & -> & Hk & Hn); cbn [mbind outcome_bind]; [done|].
  destruct (Hn eq_refl) as (Hr & Hsz & a & Ha & Hz).
  destruct (alloc_store_ok lost e s1 (get_request u) u a (proj1 Hk) Hr Hsz Ha) as (s2 & u' & ret & -> & Hk2 & _).
  assert (Hl : live1 a = []) by (unfold live1; by rewrite Hz). rewrite Hl in Hk2.
  split; [|done]. split; [apply Hk2|]. rewrite (proj2 Hk2). apply Hk.
Qed.
Lemma do_dealloc_ok lost s u : tidy lost s -> answered lost s false (do_dealloc s u).
Proof.
  intros Ht. unfold do_dealloc. destruct (in_range _ _) eqn:Hr; cbn [negb]; [|done].
  destruct (area_at_ok _ _ _ _ Ht Hr) as (a & Ha & ->). cbn [mbind outcome_bind].
  destruct (Z.eqb_spec (kvirt_addr a) 0); cbn [negb andb]; [done|]. destruct (Z.ltb_spec 0 (size a)); [|done].
  destruct (free_slot_tidy lost s _ a Ht Ha) as (bs & -> & _ & Ht'); [done|]. cbn [mbind outcome_bind]. done.
Qed.
Lemma pre_sync_ok lost e s cmd u : tidy lost s -> cmd = NNA_IOCTL_SYNC_FOR_DEVICE \/ cmd = NNA_IOCTL_SYNC_FOR_CPU ->
  match pre_sync e s cmd u with
  | Ret ret => short_of u sizeof_stMemAreaSync = true \/ in_range (y_clientid (get_sync u)) (y_memid (get_sync u)) = true
  | Oops => short_of u sizeof_stMemAreaSync = false /\ in_range (y_clientid (get_sync u)) (y_memid (get_sync u)) = false
  | Blocks => False
  end /\ (pre_sync e s cmd u = Ret None -> in_range (y_clientid (get_sync u)) (y_memid (get_sync u)) = true).
Proof.
  intros Ht Hc. unfold pre_sync. assert (E : (cmd =? NNA_IOCTL_SYNC_FOR_DEVICE) || (cmd =? NNA_IOCTL_SYNC_FOR_CPU) = true) by by destruct Hc as [-> | ->].
  rewrite E. destruct (short_of _ _); [by split; [left|]|]. destruct (in_range _ _) eqn:Hr.
  - destruct (area_at_ok _ _ _ _ Ht Hr) as (a & Ha & ->). cbn [mbind outcome_bind]. repeat case_match; simplify_eq; auto.
  - unfold area_at. by rewrite Hr.
Qed.

Lemma ioctl_answered lost e s cmd arg : tidy lost s -> 0 < res_size s -> answered lost s (wild s cmd arg) (nna_device_file_ioctl e s cmd arg).
Proof.
  intros Ht Hres. assert (Hk : kept lost s s) by done. unfold nna_device_file_ioctl, wild.
  destruct arg as [u|]; cbv zeta; [change (default [] (Some u)) with u; rewrite bool_decide_false by done; rewrite andb_false_r|
    rewrite bool_decide_true by done; rewrite andb_true_r; destruct (Z.eqb_spec cmd NNA_IOCTL_CLEAR_POLL) as [->|];
    [unfold pre_area, pre_sync, pre_reg; eval_cmds; cbn [mbind outcome_bind]; split; [by split; [eapply tidy_view|]|done]|done]].
  unfold pre_area, pre_reg.
  destruct (decide (cmd = NNA_IOCTL_ALLOC)) as [->|H1].
  { unfold pre_sync. eval_cmds. destruct (short_of u _); [done|]. by apply do_alloc_ok. }
  destruct (decide (cmd = NNA_IOCTL_DEALLOC)) as [->|H2].
  { unfold pre_sync. eval_cmds. destruct (short_of u _); [done|]. by apply do_dealloc_ok. }
  destruct (decide (cmd = NNA_IOCTL_SYNC_FOR_DEVICE \/ cmd = NNA_IOCTL_SYNC_FOR_CPU)) as [Hy|H3].
  { destruct (pre_sync_ok lost e s cmd u Ht Hy) as [Hp Hin].
    assert (E : (cmd =? NNA_IOCTL_SYNC_FOR_DEVICE) || (cmd =? NNA_IOCTL_SYNC_FOR_CPU) = true) by by destruct Hy as [-> | ->].
    rewrite E. destruct (pre_sync e s cmd u) as [[ret|]| |]; cbn [mbind outcome_bind].
    - destruct Hy as [-> | ->]; eval_cmds; (split; [done|]); destruct Hp as [-> | ->]; cbn [negb]; auto using andb_false_r.
    - destruct (area_at_ok lost s _ _ Ht (Hin eq_refl)) as (a & _ & Ha).
      destruct Hy as [-> | ->]; eval_cmds; unfold do_sync; rewrite Ha; (split; [keeps|]); rewrite (Hin eq_refl); apply andb_false_r.
    - done.
    - destruct Hp as [-> ->]. destruct Hy as [-> | ->]; by eval_cmds. }
  assert (H4 : cmd <> NNA_IOCTL_SYNC_FOR_DEVICE) by tauto. assert (H5 : cmd <> NNA_IOCTL_SYNC_FOR_CPU) by tauto. clear H3.
  apply Z.eqb_neq in H1, H2, H4, H5. unfold pre_sync. rewrite H1, H2, H4, H5. cbn [orb mbind outcome_bind].
  destruct (Z.eqb_spec cmd NNA_IOCTL_REG_READ) as [->|H6]; [|destruct (Z.eqb_spec cmd NNA_IOCTL_REG_WRITE) as [->|H7]]; cbn [orb].
  1-2: eval_cmds; destruct (short_of u _); cbn [negb andb]; [done|];
    destruct (Z.ltb_spec (g_offset (get_reg u)) 0), (Z.ltb_spec (res_size s / 4) (g_offset (get_reg u))); cbn [orb];
    try (split; [done|]; destruct (Z.eqb_spec (4 * g_offset (get_reg u)) (res_size s)); cbn [andb]; [exfalso|done];
      pose proof (Z.div_mod (res_size s) 4 ltac:(lia)); pose proof (Z.mod_pos_bound (res_size s) 4 ltac:(lia)); lia);
    rewrite reg_access_exact by lia; destruct ((_ =? res_size s) && _); cbn [mbind outcome_bind]; [done|]; repeat case_match; simplify_eq; (split; [keeps|done]).
  repeat case_match; simplify_eq; (split; [keeps|done]).
Qed.

Definition wild_op (s : nna) (o : op) : bool := match o with OpIoctl _ cmd arg => wild s cmd arg | _ => false end.

Lemma halt_access s : 0 < res_size s -> reg_access s HALT_STATUS (RegRead HALT_STATUS) = Ret (emit s (RegRead HALT_STATUS)).
Proof.
  intros Hs. unfold reg_access, HALT_STATUS. destruct (page_align_spec _ Hs) as (P1 & P2 & P3). unfold PAGE_SIZE in *.
  pose proof (Z.div_mod (PAGE_ALIGN (res_size s)) 4096 ltac:(lia)). destruct (Z.leb_spec (0x44 + 4) (PAGE_ALIGN (res_size s))); [done|lia].
Qed.

Lemma step_ok lost s o : tidy lost s -> 0 < res_size s ->
  match step s o with Ret s' => kept lost s s' /\ wild_op s o = false | Oops => wild_op s o = true | Blocks => False end.
Proof.
  intros Ht Hres. destruct o as [| |e cmd arg|e pfn ret v|now|m]; cbn [step wild_op].
  - split; [|done]. unfold nna_device_file_open. destruct (dev_lock s); [done|keeps].
  - unfold nna_device_file_release. destruct (cleanup_ok lost s Ht) as (s' & -> & Ht' & _ & _ & Hf). cbn [mbind outcome_bind].
    assert (Hr : res_size s' = res_size s) by by rewrite Hf. rewrite halt_access by (by rewrite Hr). cbn [mbind outcome_bind].
    by split; [split; [eapply tidy_view; [exact Ht'|..]|]|].
  - pose proof (ioctl_answered lost e s cmd arg Ht Hres) as Ha. destruct (nna_device_file_ioctl e s cmd arg) as [[[s' u] ret]| |]; exact Ha.
  - unfold nna_device_file_mmap. destruct (in_range _ _) eqn:Hr; cbn [negb]; [|done].
    destruct (area_at_ok _ _ _ _ Ht Hr) as (a & Ha & ->). cbn [mbind outcome_bind].
    destruct ((kvirt_addr a =? 0) || (size a =? 0)); [done|].
    assert (Hv : forall x y, kept lost s (put_area s (slot (s32 (v_pgoff v / 1000)) (s32 (v_pgoff v mod 1000))) (set_vm a x y)))
      by (intros x y; split; [by eapply tidy_same|done]).
    cbv zeta. destruct (pfn _); [|destruct (ret =? 0)]; cbn [mbind outcome_bind]; auto.
  - unfold nna_halt_interrupt. rewrite halt_access by done. cbn [mbind outcome_bind]. split; [keeps|done].
  - split; [keeps|done].
Qed.
End steps.

(** ** Buffers *)

Lemma history_ok `{DmaCoherent} lost os : forall s, tidy lost s -> 0 < res_size s ->
  match history s os with
  | Ret s' => kept lost s s'
  | Oops => exists os1 o os2 s1, os = os1 ++ o :: os2 /\ history s os1 = Ret s1 /\ wild_op s1 o = true
  | Blocks => False
  end.
Proof.
  induction os as [|o os IH]; intros s Ht Hres; [done|]. cbn [history].
  pose proof (step_ok lost s o Ht Hres) as Ho. destruct (step s o) as [s1| |] eqn:E; cbn [mbind outcome_bind].
  - destruct Ho as [[Ht1 Hr1] _]. rewrite <- Hr1 in Hres. specialize (IH s1 Ht1 Hres). destruct (history s1 os) as [s'| |].
    + split; [apply IH|]. rewrite (proj2 IH). done.
    + done.
    + destruct IH as (os1 & o' & os2 & s2 & -> & Hh & Hw). exists (o :: os1), o', os2, s2. split; [done|]. split; [|done].
      cbn [history]. rewrite E. exact Hh.
  - done.
  - by exists [], o, os, s.
Qed.


(** ** The pages of a mapping *)

Lemma first_match_Some start l a : first_match start l = Some a -> a ∈ l /\ matches start a = true.
Proof.
  induction l as [|b l IH]; [done|]. cbn. destruct (matches start b) eqn:E; [intros [= ->]; split; [left|done]|].
  intros Ha. destruct (IH Ha). split; [by right|done].
Qed.
Lemma first_match_None start l : first_match start l = None <-> forall a, a ∈ l -> matches start a = false.
Proof.
  induction l as [|b l IH]; cbn; [split; [by intros _ a ?%not_elem_of_nil|done]|]. destruct (matches start b) eqn:E.
  - split; [done|]. intros H. rewrite (H b) in E by left. done.
  - rewrite IH. split; [intros H a [->|?]%elem_of_cons; auto|intros H a Ha; apply H; by right].
Qed.
Lemma first_match_at start l i a : l !! i = Some a -> matches start a = true ->
  (forall j b, (j < i)%nat -> l !! j = Some b -> matches start b = false) -> first_match start l = Some a.
Proof.
  revert i. induction l as [|b l IH]; intros [|i] Hi Hm Hb; cbn in Hi; [done..| |].
  - injection Hi as ->. cbn. by rewrite Hm.
  - cbn. rewrite (Hb O b) by (lia || done). apply (IH i); [done..|]. intros j x Hj Hx. apply (Hb (S j)); [lia|done].
Qed.

Definition pick (s : nna) (start : Z) (found : option mem_area) (c : nat) : option mem_area :=
  match first_match start (client_areas s c) with Some a => Some a | None => found end.
Lemma mapping_of_pick s start : mapping_of s start = foldl (pick s start) None (seq 0 (Z.to_nat NNA_MAX_CLIENTS)).
Proof. done. Qed.
Lemma pick_none s start l : (forall c, c ∈ l -> first_match start (client_areas s c) = None) -> forall o, foldl (pick s start) o l = o.
Proof.
  induction l as [|c l IH]; intros H o; [done|]. cbn [foldl]. unfold pick at 2. rewrite (H c) by left. apply IH. intros c' Hc. apply H. by right.
Qed.
(** The last client with a match decides. *)
Lemma mapping_of_last s start c a : (c < Z.to_nat NNA_MAX_CLIENTS)%nat -> first_match start (client_areas s c) = Some a ->
  (forall c', (c < c' < Z.to_nat NNA_MAX_CLIENTS)%nat -> first_match start (client_areas s c') = None) -> mapping_of s start = Some a.
Proof.
  intros Hc Ha Hn. rewrite mapping_of_pick. replace (Z.to_nat NNA_MAX_CLIENTS) with (c + S (Z.to_nat NNA_MAX_CLIENTS - S c))%nat by lia.
  rewrite seq_app, foldl_app. cbn [seq foldl Nat.add]. unfold pick at 2. rewrite Ha. apply pick_none.
  intros c' Hc'%elem_of_seq. apply Hn. lia.
Qed.

Lemma client_area s c m : in_range c m = true -> client_areas s (Z.to_nat c) !! Z.to_nat m = areas s !! slot c m.
Proof.
  intros Hr%in_range_spec. unfold client_areas, slot, NNA_MAX_ALLOCATED_MEMAREAS_PER_CLIENT.
  rewrite lookup_take_lt, lookup_drop by lia. f_equal. lia.
Qed.
Lemma client_area_slot s c j a : client_areas s c !! j = Some a -> (c < 16)%nat ->
  in_range (Z.of_nat c) (Z.of_nat j) = true /\ areas s !! slot (Z.of_nat c) (Z.of_nat j) = Some a.
Proof.
  intros Hj Hc. assert (Hr : in_range (Z.of_nat c) (Z.of_nat j) = true).
  { apply in_range_spec. apply lookup_lt_Some in Hj. unfold client_areas, NNA_MAX_ALLOCATED_MEMAREAS_PER_CLIENT in Hj. rewrite length_take in Hj. lia. }
  split; [done|]. by rewrite <- (client_area _ _ _ Hr), !Nat2Z.id.
Qed.

(** Which of the areas that carry an address serves it. *)
Lemma mapping_serves s start c m a :
  in_range c m = true -> areas s !! slot c m = Some a -> matches start a = true ->
  (forall c' m' b, in_range c' m' = true -> areas s !! slot c' m' = Some b -> matches start b = true -> c' < c \/ c' = c /\ m <= m') ->
  mapping_of s start = Some a.
Proof.
  intros Hr Ha Hm Hlast. assert (Hr' := Hr). apply in_range_spec in Hr'. apply (mapping_of_last s start (Z.to_nat c)).
  - unfold NNA_MAX_CLIENTS. lia.
  - apply (first_match_at _ _ (Z.to_nat m)); [by rewrite client_area|done|]. intros j b Hj Hb.
    destruct (client_area_slot s (Z.to_nat c) j b Hb ltac:(lia)) as [Hrb Hsb]. destruct (matches start b) eqn:E; [|done].
    destruct (Hlast _ _ _ Hrb Hsb E) as [?|[? ?]]; lia.
  - intros c' Hc'. apply first_match_None. intros b Hb. apply list_elem_of_lookup in Hb as [j Hj]. unfold NNA_MAX_CLIENTS in Hc'.
    destruct (client_area_slot s c' j b Hj ltac:(lia)) as [Hrb Hsb]. destruct (matches start b) eqn:E; [|done].
    destruct (Hlast _ _ _ Hrb Hsb E) as [?|[? ?]]; lia.
Qed.

(** The frame a fault gives: the one right behind the area is refused, for the
    size left is 0; behind it the size left is a huge unsigned number. *)
Lemma fault_value pfn s start a pgoff : mapping_of s start = Some a -> sound_block (block_of a) -> 0 <= pgoff < 2 ^ 40 ->
  _nna_device_vma_fault pfn s start pgoff =
    let f := phy_addr a / PAGE_SIZE + pgoff in
    if (pgoff * PAGE_SIZE =? size a) || negb (pfn f) then Sigbus else Page f.
Proof.
  intros Hm (K1 & K2 & K3 & K4 & K5 & K6) Hp. unfold block_of, b_kvirt, b_phys, b_size in *. cbn in K1, K2, K3, K4, K5, K6.
  unfold _nna_device_vma_fault. rewrite Hm. unfold PAGE_SHIFT, PAGE_SIZE, NNA_MAX_MEMAREA_SIZE in *.
  rewrite Z.shiftl_mul_pow2, Z.shiftr_div_pow2 by lia. change (2 ^ 12) with 4096. cbv zeta.
  assert (Hu : u64 (pgoff * 4096) = pgoff * 4096) by (apply wrapU_id; lia). rewrite Hu.
  assert (Hu2 : u64 (phy_addr a + pgoff * 4096) = phy_addr a + pgoff * 4096) by (apply wrapU_id; lia). rewrite Hu2, Z.div_add by lia.
  pose proof (Z.div_mod (size a) 4096 ltac:(lia)) as Hs. rewrite K5 in Hs.
  destruct (Z.eqb_spec (pgoff * 4096) (size a)) as [E|E]; cbn [orb].
  - rewrite <- E, Z.sub_diag. done.
  - assert (Ha : 4096 <= u64 (size a - pgoff * 4096)).
    { destruct (Z.le_gt_cases 0 (size a - pgoff * 4096)) as [Hge|Hlt].
      - rewrite wrapU_id by lia. lia.
      - unfold wrapU. rewrite <- (Z.mod_add _ 1) by lia. rewrite Z.mod_small by lia. lia. }
    destruct (Z.ltb_spec (u64 (size a - pgoff * 4096)) 4096); [lia|]. by destruct (pfn _).
Qed.

Lemma block_sound lost s i a : tidy lost s -> areas s !! i = Some a -> kvirt_addr a <> 0 ->
  block_of a ∈ blocks s /\ sound_block (block_of a).
Proof.
  intros Ht Hi Hk. assert (Hb : block_of a ∈ blocks s).
  { rewrite (t_blocks _ _ Ht), (live_at _ _ _ Hi). unfold live1. destruct (Z.eqb_spec (kvirt_addr a) 0); [done|]. left. }
  split; [done|]. pose proof (t_sound _ _ Ht) as Hs. rewrite list.Forall_forall in Hs. auto.
Qed.

(** A mapping of the area (c, m) by the fault handler. *)
Lemma mmap_ok lost e pfn ret s v c m a :
  tidy lost s -> in_range c m = true -> areas s !! slot c m = Some a -> kvirt_addr a <> 0 ->
  v_pgoff v = 1000 * c + m -> pfn (phy_addr a / PAGE_SIZE) = true ->
  exists io, nna_device_file_mmap e pfn ret s v =
    Ret (put_area s (slot c m) (set_vm a (v_start v) (v_end v)), mkVma (v_start v) (v_end v) 0 io true, 0).
Proof.
  intros Ht Hr Ha Hk Hv Hp. assert (Hr' := Hr). apply in_range_spec in Hr'.
  assert (E1 : s32 (v_pgoff v / 1000) = c).
  { rewrite Hv, Z.add_comm, Z.mul_comm, Z.div_add, Z.div_small by lia. apply s32_id. lia. }
  assert (E2 : s32 (v_pgoff v mod 1000) = m).
  { rewrite Hv, Z.add_comm, Z.mul_comm, Z.mod_add, Z.mod_small by lia. apply s32_id. lia. }
  unfold nna_device_file_mmap. rewrite E1, E2, Hr. cbn [negb]. unfold area_at. rewrite Hr, Ha. cbn [or_oops mbind outcome_bind].
  destruct (block_sound _ _ _ _ Ht Ha Hk) as [_ (_ & _ & _ & Hs & _)]. unfold block_of, b_size in Hs. cbn in Hs.
  destruct (Z.eqb_spec (kvirt_addr a) 0); [done|]. destruct (Z.eqb_spec (size a) 0); [lia|]. cbn [orb].
  unfold PAGE_SHIFT. rewrite Z.shiftr_div_pow2 by lia. change (2 ^ 12) with PAGE_SIZE. rewrite Hp. by eexists.
Qed.

Lemma slot_inj c m c' m' : in_range c m = true -> in_range c' m' = true -> slot c m = slot c' m' -> c = c' /\ m = m'.
Proof. intros Hr%in_range_spec Hr'%in_range_spec. unfold slot, NNA_MAX_ALLOCATED_MEMAREAS_PER_CLIENT. lia. Qed.

(** No other area carries the address. *)
Definition unmatched (s : nna) (start : Z) (but : list (Z * Z)) : Prop :=
  forall c m b, in_range c m = true -> areas s !! slot c m = Some b -> (c, m) ∉ but -> matches start b = false.

Lemma mapped_alone lost s c m a start stop : tidy lost s -> in_range c m = true -> areas s !! slot c m = Some a -> kvirt_addr a <> 0 ->
  unmatched s start [(c, m)] -> mapping_of (put_area s (slot c m) (set_vm a start stop)) start = Some (set_vm a start stop).
Proof.
  intros Ht Hr Ha Hk Hu. destruct (block_sound _ _ _ _ Ht Ha Hk) as [_ (_ & _ & _ & Hs & _)]. unfold block_of, b_size in Hs. cbn in Hs.
  apply (mapping_serves _ _ c m); [done| | |].
  - apply list_lookup_insert_eq. by eapply lookup_lt_Some.
  - unfold matches. cbn. rewrite Z.eqb_refl. destruct (Z.eqb_spec (size a) 0); [lia|done].
  - intros c' m' b Hr' Hb Hm. cbn in Hb. destruct (decide ((c', m') = (c, m))) as [[= -> ->]|Hne]; [lia|].
    rewrite list_lookup_insert_ne in Hb.
    + rewrite (Hu c' m' b Hr' Hb) in Hm; [done|]. by rewrite list_elem_of_singleton.
    + intros E. apply Hne. destruct (slot_inj _ _ _ _ Hr Hr' E) as [-> ->]. done.
Qed.




(** C7. The length of a mapping is never compared with its buffer: in a mapping that
    is longer, a fault one page behind the buffer is refused, and every later one
    is served with the memory that lies there, whatever it is used for. *)
Theorem fault_beyond_buffer (s : nna) (e : answers) (pfn : Z -> bool) (ret : Z) (v : vma) (c m : Z) (a : mem_area)
    (Ht : tidy [] s) (Hr : in_range c m = true) (Ha : areas s !! slot c m = Some a) (Hk : kvirt_addr a <> 0)
    (Hv : v_pgoff v = 1000 * c + m) (Hu : unmatched s (v_start v) [(c, m)]) (Hp : pfn (phy_addr a / PAGE_SIZE) = true) :
  exists s' v', nna_device_file_mmap e pfn ret s v = Ret (s', v', 0) /\ v_start v' = v_start v /\ v_end v' = v_end v /\
    _nna_device_vma_fault pfn s' (v_start v) (size a / PAGE_SIZE) = Sigbus /\
    forall f, (phy_addr a + size a) / PAGE_SIZE < f < 2 ^ 40 -> pfn f = true ->
      _nna_device_vma_fault pfn s' (v_start v) (f - phy_addr a / PAGE_SIZE) = Page f.
Proof.
  destruct (block_sound _ _ _ _ Ht Ha Hk) as [Hb Hs]. pose proof Hs as (K1 & K2 & K3 & K4 & K5 & K6).
  unfold block_of, b_kvirt, b_phys, b_size in K1, K2, K3, K4, K5, K6. cbn in K1, K2, K3, K4, K5, K6. unfold NNA_MAX_MEMAREA_SIZE, PAGE_SIZE in *.
  pose proof (Z.div_mod (size a) 4096 ltac:(lia)) as Hsz. pose proof (Z.div_mod (phy_addr a) 4096 ltac:(lia)) as Hph. rewrite K5 in Hsz. rewrite K3 in Hph.
  assert (Hq : (phy_addr a + size a) / 4096 = phy_addr a / 4096 + size a / 4096).
  { rewrite Hsz at 1. rewrite Z.add_0_r, (Z.mul_comm 4096), Z.div_add by lia. done. }
  destruct (mmap_ok _ e pfn ret s v c m a Ht Hr Ha Hk Hv Hp) as [io ->].
  eexists _, _. split; [done|]. split; [done|]. split; [done|].
  assert (Hm := mapped_alone _ s c m a (v_start v) (v_end v) Ht Hr Ha Hk Hu). split.
  - rewrite (fault_value _ _ _ _ _ Hm) by (done || lia). cbn [set_vm phy_addr size]. unfold PAGE_SIZE.
    destruct (Z.eqb_spec (size a / 4096 * 4096) (size a)); [done|lia].
  - intros f Hf Hpf. rewrite (fault_value _ _ _ _ _ Hm) by (done || lia). cbn [set_vm phy_addr size]. unfold PAGE_SIZE. cbv zeta.
    destruct (Z.eqb_spec ((f - phy_addr a / 4096) * 4096) (size a)); [lia|]. replace (phy_addr a / 4096 + (f - phy_addr a / 4096)) with f by lia.
    by rewrite Hpf.
Qed.

(** Unmapping leaves the address in its area: when a second buffer is mapped
    where a first one was, the faults of the second mapping are served with the
    pages of the first buffer if its client is higher, or of the same client its
    number lower. *)
Theorem stale_address_serves (s : nna) (e : answers) (pfn : Z -> bool) (ret : Z) (v1 v2 : vma) (c1 m1 c2 m2 pgoff : Z) (a1 a2 : mem_area)
    (Ht : tidy [] s) (Hr1 : in_range c1 m1 = true) (Ha1 : areas s !! slot c1 m1 = Some a1) (Hk1 : kvirt_addr a1 <> 0)
    (Hr2 : in_range c2 m2 = true) (Ha2 : areas s !! slot c2 m2 = Some a2) (Hk2 : kvirt_addr a2 <> 0)
    (Hv1 : v_pgoff v1 = 1000 * c1 + m1) (Hv2 : v_pgoff v2 = 1000 * c2 + m2) (Hv : v_start v1 = v_start v2)
    (Hu : unmatched s (v_start v1) [(c1, m1); (c2, m2)]) (Hp : forall f, pfn f = true)
    (Hord : c2 < c1 \/ c1 = c2 /\ m1 < m2) (Hin : 0 <= pgoff * PAGE_SIZE < size a1) :
  exists s1 w1 s2 w2 f, nna_device_file_mmap e pfn ret s v1 = Ret (s1, w1, 0) /\ nna_device_file_mmap e pfn ret s1 v2 = Ret (s2, w2, 0) /\
    _nna_device_vma_fault pfn s2 (v_start v2) pgoff = Page f /\
    phy_addr a1 <= f * PAGE_SIZE < phy_addr a1 + size a1 /\ apart_from (f * PAGE_SIZE) PAGE_SIZE (block_of a2).
Proof.
  assert (Hne : slot c2 m2 <> slot c1 m1) by (intros E; destruct (slot_inj _ _ _ _ Hr2 Hr1 E); lia).
  destruct (block_sound _ _ _ _ Ht Ha1 Hk1) as [Hb1 Hs1]. destruct (block_sound _ _ _ _ Ht Ha2 Hk2) as [Hb2 Hs2].
  assert (Hbne : block_of a1 <> block_of a2).
  { intros E. pose proof (t_keys _ _ Ht) as Hn. rewrite (t_blocks _ _ Ht), app_nil_r, (live_at _ _ _ Ha1) in Hn. unfold live1 in Hn.
    destruct (Z.eqb_spec (kvirt_addr a1) 0); [done|]. cbn in Hn. apply list.NoDup_cons in Hn as [Hn _]. apply Hn.
    change (b_kvirt (block_of a1) ∈ b_kvirt <$> live (delete (slot c1 m1) (areas s))).
    rewrite E. apply list_elem_of_fmap_2. unfold live. apply list_elem_of_fmap_2. apply list_elem_of_filter. split; [done|].
    rewrite delete_take_drop. apply elem_of_app. destruct (decide (slot c2 m2 < slot c1 m1)%nat).
    - left. apply (list_elem_of_lookup_2 _ (slot c2 m2)). by rewrite lookup_take_lt.
    - right. apply (list_elem_of_lookup_2 _ (slot c2 m2 - S (slot c1 m1))%nat). rewrite lookup_drop. rewrite <- Ha2. f_equal. lia. }
  destruct (mmap_ok _ e pfn ret s v1 c1 m1 a1 Ht Hr1 Ha1 Hk1 Hv1 (Hp _)) as [io1 E1].
  set (s1 := put_area s (slot c1 m1) _) in E1. assert (Ht1 : tidy [] s1) by (eapply (tidy_same _ s _ _ a1); [exact Ht|exact Ha1|reflexivity..]).
  assert (Ha2' : areas s1 !! slot c2 m2 = Some a2) by (cbn; by rewrite list_lookup_insert_ne).
  destruct (mmap_ok _ e pfn ret s1 v2 c2 m2 a2 Ht1 Hr2 Ha2' Hk2 Hv2 (Hp _)) as [io2 E2].
  set (s2 := put_area s1 (slot c2 m2) _) in E2.
  pose proof Hs1 as (K1 & K2 & K3 & K4 & K5 & K6). unfold block_of, b_kvirt, b_phys, b_size in K1, K2, K3, K4, K5, K6. cbn in K1, K2, K3, K4, K5, K6.
  assert (Hm : mapping_of s2 (v_start v2) = Some (set_vm a1 (v_start v1) (v_end v1))).
  { apply (mapping_serves _ _ c1 m1); [done| | |].
    - cbn. rewrite list_lookup_insert_ne by done. apply list_lookup_insert_eq. by eapply lookup_lt_Some.
    - unfold matches. cbn. rewrite Hv, Z.eqb_refl. destruct (Z.eqb_spec (size a1) 0); [lia|done].
    - intros c' m' b Hr' Hb Hmb. destruct (decide ((c', m') = (c1, m1))) as [[= -> ->]|Hn1]; [lia|].
      destruct (decide ((c', m') = (c2, m2))) as [[= -> ->]|Hn2]; [lia|]. exfalso. cbn in Hb.
      rewrite list_lookup_insert_ne in Hb by (intros E; apply Hn2; by destruct (slot_inj _ _ _ _ Hr2 Hr' E) as [<- <-]).
      rewrite list_lookup_insert_ne in Hb by (intros E; apply Hn1; by destruct (slot_inj _ _ _ _ Hr1 Hr' E) as [<- <-]).
      rewrite <- Hv in Hmb. rewrite (Hu c' m' b Hr' Hb) in Hmb; [done|]. rewrite !elem_of_cons. intros [?|[?|[]%not_elem_of_nil]]; done. }
  unfold NNA_MAX_MEMAREA_SIZE, PAGE_SIZE in *.
  pose proof (Z.div_mod (size a1) 4096 ltac:(lia)) as Hsz. pose proof (Z.div_mod (phy_addr a1) 4096 ltac:(lia)) as Hph. rewrite K5 in Hsz. rewrite K3 in Hph.
  exists s1. eexists _, s2, _, (phy_addr a1 / 4096 + pgoff). split; [exact E1|]. split; [exact E2|].
  rewrite (fault_value _ _ _ _ _ Hm) by (done || lia). cbn [set_vm phy_addr size]. unfold PAGE_SIZE. cbv zeta.
  destruct (Z.eqb_spec (pgoff * 4096) (size a1)); [lia|]. rewrite Hp. cbn [orb negb]. split; [done|]. split; [lia|].
  destruct (t_apart _ _ Ht _ _ Hb1 Hb2 Hbne) as [?|?]; unfold apart_from, block_of, b_phys, b_size in *; cbn [fst snd] in *; lia.
Qed.








(** ** Requests that overlap *)

(** Requests of one file are not serialised: when two threads ask for the same
    area at once, both find it free, and the block of the first is overwritten by
    that of the second. It is never freed, not even when the file is closed, and
    stays counted. *)
Theorem alloc_race_leaks `{DmaCoherent} (e : answers) (s s1 s2 : nna) (r1 r2 : stMemAreaRequest) (u1 u2 : list Z) (k1 p1 : Z)
    (Ht : tidy [] s) (Hres : 0 < res_size s) (Hsame : slot (r_clientid r1) (r_memid r1) = slot (r_clientid r2) (r_memid r2))
    (Hc1 : alloc_check e s r1 = Ret (s1, None)) (Hc2 : alloc_check e s1 r2 = Ret (s2, None))
    (Hd1 : dma_alloc_coherent (blocks s2) (PAGE_ALIGN (r_size r1)) = Some (k1, p1)) :
  exists s3 w1 ret1 s4 w2 ret2 s5, alloc_store e s2 r1 u1 = Ret (s3, w1, ret1) /\ alloc_store e s3 r2 u2 = Ret (s4, w2, ret2) /\
    step s4 OpRelease = Ret s5 /\ blocks s5 = [(k1, p1, PAGE_ALIGN (r_size r1))] /\ buffers_allocated s5 = 1.
Proof.
  destruct (alloc_check_ok [] e s r1 Ht) as (x1 & y1 & E1 & [Ht1 Hr1] & Hn1). rewrite Hc1 in E1. injection E1 as <- <-.
  destruct (Hn1 eq_refl) as (Hin1 & Hsz1 & _).
  destruct (alloc_check_ok [] e s1 r2 Ht1) as (x2 & y2 & E2 & [Ht2 Hr2] & Hn2). rewrite Hc2 in E2. injection E2 as <- <-.
  destruct (Hn2 eq_refl) as (Hin2 & Hsz2 & a & Ha & Hk). rewrite <- Hsame in Ha.
  destruct (alloc_store_ok [] e s2 r1 u1 a Ht2 Hin1 Hsz1 Ha) as (s3 & w1 & ret1 & Es & [Ht3 Hr3] & Ha3).
  specialize (Ha3 _ _ Hd1). assert (Hl : live1 a = []) by (unfold live1; by rewrite Hk). rewrite Hl in Ht3. cbn [app] in Ht3.
  set (b := give a k1 p1 _ _) in Ha3. assert (Hb : areas s3 !! slot (r_clientid r2) (r_memid r2) = Some b).
  { rewrite Ha3, <- Hsame. apply list_lookup_insert_eq. by eapply lookup_lt_Some. }
  destruct (alloc_store_ok [] e s3 r2 u2 b Ht3 Hin2 Hsz2 Hb) as (s4 & w2 & ret2 & Es4 & [Ht4 Hr4] & _).
  destruct (page_align_spec (r_size r1) ltac:(lia)) as (Q1 & Q2 & _).
  destruct (dma_alloc_own _ _ _ _ Hd1 Q1 Q2) as (D1 & _).
  assert (Hlb : live1 b = [(k1, p1, PAGE_ALIGN (r_size r1))]) by (unfold live1; cbn; destruct (Z.eqb_spec k1 0); [lia|done]).
  rewrite Hlb in Ht4. cbn [app] in Ht4. destruct (cleanup_ok _ s4 Ht4) as (s5 & Hc & Ht5 & Hp & _ & Hf).
  apply Permutation_singleton_r in Hp.
  exists s3, w1, ret1, s4, w2, ret2. eexists. split; [done|]. split; [done|]. cbn [step]. unfold nna_device_file_release. rewrite Hc.
  cbn [mbind outcome_bind]. rewrite halt_access by (rewrite Hf; cbn; lia). cbn [mbind outcome_bind]. split; [done|]. cbn.
  split; [done|]. rewrite (t_count _ _ Ht5), Hp. done.
Qed.

(** ** Synchronisation *)

(** A synchronisation within bounds: the sum of offset and size, which may wrap
    or be negative, is compared with the size of the buffer; then nothing is done
    for an uncached buffer, a file opened for synchronous writes or a size of 0,
    and otherwise the whole buffer is synchronised, whatever the range. *)
Theorem sync_exact `{DmaCoherent} (e : answers) (s : nna) (dev : bool) (u : list Z) (a : mem_area)
    (Ht : tidy [] s) (Hu : short_of u sizeof_stMemAreaSync = false)
    (Hr : in_range (y_clientid (get_sync u)) (y_memid (get_sync u)) = true)
    (Ha : areas s !! slot (y_clientid (get_sync u)) (y_memid (get_sync u)) = Some a) (Hk : kvirt_addr a <> 0) (Hp : phy_addr a <> 0) :
  let y := get_sync u in
  nna_device_file_ioctl e s (if dev then NNA_IOCTL_SYNC_FOR_DEVICE else NNA_IOCTL_SYNC_FOR_CPU) (Some u) =
    if size a <? s32 (y_offset y + y_size y) then Ret (s, u, - EINVAL)
    else if (area_sync_mode a =? 1) || o_sync e || (y_size y =? 0) then Ret (s, u, 0)
    else Ret (emit s ((if dev then SyncDevice else SyncCpu) (phy_addr a) (size a) (y_direction y)), u, 0).
Proof.
  destruct (block_sound _ _ _ _ Ht Ha Hk) as [_ (_ & _ & _ & Hs & _)]. unfold block_of, b_size in Hs. cbn [snd] in Hs.
  cbv zeta. unfold nna_device_file_ioctl. cbv zeta. change (default [] (Some u)) with u. rewrite bool_decide_false, andb_false_r by done.
  assert (Hat : area_at s (y_clientid (get_sync u)) (y_memid (get_sync u)) = Ret a) by (unfold area_at; by rewrite Hr, Ha).
  unfold pre_area, pre_sync, pre_reg, do_sync. destruct dev; eval_cmds; rewrite Hu, Hat; cbn [mbind outcome_bind];
    destruct (Z.eqb_spec (phy_addr a) 0), (Z.eqb_spec (kvirt_addr a) 0), (Z.eqb_spec (size a) 0); try lia; cbn [orb];
    (destruct (size a <? _); [done|]); by destruct (_ || _).
Qed.

(** ** The end of a run *)

(** What leaves the flag and the time of the last interrupt alone. *)
Definition quiet (o : op) : bool :=
  match o with
  | OpRelease | OpInterrupt _ => false
  | OpIoctl _ cmd _ => negb (cmd =? NNA_IOCTL_CLEAR_POLL)
  | _ => true
  end.
Definition same_halt (s s' : nna) : Prop := nna_halt s' = nna_halt s /\ irq_ts s' = irq_ts s.
Definition same_halt_after {A} (s : nna) (f : A -> nna) (x : outcome A) : Prop := match x with Ret y => same_halt s (f y) | _ => True end.

Lemma reg_access_same s off ev : same_halt_after s id (reg_access s off ev).
Proof. unfold reg_access. by destruct (_ && _). Qed.
Lemma do_alloc_same `{DmaCoherent} e s u : same_halt_after s (fun y => y.1.1) (do_alloc e s u).
Proof.
  unfold do_alloc, alloc_check. destruct (negb _); [done|]. destruct (ensure_masks e s) as (m & c & ->).
  unfold area_at. cbn [set_masks areas]. destruct (in_range _ _) eqn:Hr; [|done].
  destruct (areas s !! _) as [a|] eqn:Ha; [|done]. cbn [or_oops mbind outcome_bind]. destruct (negb (kvirt_addr a =? 0)); [done|].
  unfold alloc_store, area_at. rewrite Hr. cbn [set_masks areas]. rewrite Ha. cbn [or_oops mbind outcome_bind].
  destruct (dma_alloc_coherent _ _) as [[k p]|]; [|done]. by destruct (writable e).
Qed.
Lemma do_dealloc_same s u : same_halt_after s (fun y => y.1.1) (do_dealloc s u).
Proof.
  unfold do_dealloc. destruct (negb _); [done|]. destruct (area_at _ _ _) as [a| |]; [|done..]. cbn [mbind outcome_bind].
  destruct (_ && _); [|done]. unfold dma_free_coherent. by destruct (bool_decide _).
Qed.
Lemma do_sync_same s u ev : same_halt_after s (fun y => y.1.1) (do_sync s u ev).
Proof. unfold do_sync. by destruct (area_at _ _ _). Qed.

Lemma ioctl_same `{DmaCoherent} e s cmd arg : cmd <> NNA_IOCTL_CLEAR_POLL ->
  same_halt_after s (fun y => y.1.1) (nna_device_file_ioctl e s cmd arg).
Proof.
  intros Hc%Z.eqb_neq. unfold nna_device_file_ioctl. rewrite Hc. cbv zeta. set (u := default [] arg).
  destruct (_ && _); [done|]. destruct (pre_area cmd u); [done|]. destruct (pre_sync e s cmd u) as [[ret|]| |]; [done| |done..].
  cbn [mbind outcome_bind]. destruct (pre_reg s cmd u); [done|].
  destruct (cmd =? NNA_IOCTL_ALLOC); [apply do_alloc_same|]. destruct (cmd =? NNA_IOCTL_DEALLOC); [apply do_dealloc_same|].
  destruct (cmd =? NNA_IOCTL_TRIGGER); [done|]. destruct (cmd =? NNA_IOCTL_HW_INT_TIME); [by destruct (_ || _)|].
  destruct (cmd =? NNA_IOCTL_REG_READ).
  { pose proof (reg_access_same s (4 * g_offset (get_reg u)) (RegRead (4 * g_offset (get_reg u)))) as Hr.
    destruct (reg_access _ _ _) as [s'| |]; [|done..]. cbn [mbind outcome_bind]. by destruct (writable e). }
  destruct (cmd =? NNA_IOCTL_REG_WRITE).
  { pose proof (reg_access_same s (4 * g_offset (get_reg u)) (RegWrite (4 * g_offset (get_reg u)) (g_value (get_reg u)))) as Hr.
    destruct (reg_access _ _ _) as [s'| |]; done. }
  destruct (cmd =? NNA_IOCTL_SYNC_FOR_DEVICE); [apply do_sync_same|]. by destruct (cmd =? NNA_IOCTL_SYNC_FOR_CPU); [apply do_sync_same|].
Qed.

Lemma quiet_same `{DmaCoherent} s o : quiet o = true -> same_halt_after s id (step s o).
Proof.
  destruct o as [| |e cmd arg|e pfn ret v|now|m]; cbn [quiet step]; try done; intros Hq.
  - unfold nna_device_file_open. by destruct (dev_lock s).
  - apply negb_true_iff, Z.eqb_neq in Hq. pose proof (ioctl_same e s cmd arg Hq) as Hi.
    destruct (nna_device_file_ioctl e s cmd arg) as [[[s' u] ret]| |]; done.
  - unfold nna_device_file_mmap. destruct (negb _); [done|]. destruct (area_at _ _ _) as [a| |]; [|done..]. cbn [mbind outcome_bind].
    destruct (_ || _); [done|]. cbv zeta. destruct (pfn _); [done|]. by destruct (ret =? 0).
Qed.

(** After the accelerator's interrupt a poll reports its end, and the time of the
    interrupt in microseconds can be read, whatever else is done, until the event
    is cleared or the file closed; clearing ends it. *)
Theorem halt_reported `{DmaCoherent} (s s' s'' : nna) (e : answers) (sec nsec irq : Z) (os : list op) (u : list Z)
    (Hi : nna_halt_interrupt s (sec, nsec) = Ret s') (Hq : forallb quiet os = true) (Hh : history s' os = Ret s'')
    (Hirq : 0 <= irq) (Ht : 0 <= sec < 2 ^ 63 /\ 0 <= nsec < 1000000000) (Hu : (16 <= length u)%nat) (Hw : writable e = true) :
  nna_device_file_poll irq s'' = POLLIN /\
  nna_device_file_ioctl e s'' NNA_IOCTL_HW_INT_TIME (Some u) =
    Ret (s'', le_enc 8 sec ++ le_enc 8 (nsec / 1000) ++ drop 16 u, 0) /\
  exists s3, nna_device_file_ioctl e s'' NNA_IOCTL_CLEAR_POLL None = Ret (s3, [], 0) /\ nna_device_file_poll irq s3 = 0.
Proof.
  assert (Hs : forall os x y, forallb quiet os = true -> history x os = Ret y -> same_halt x y).
  { clear. induction os as [|o os IH]; intros x y; cbn [forallb history]; [by intros _ [= ->]|].
    intros [Ho Hos]%andb_true_iff. pose proof (quiet_same x o Ho) as Hx. destruct (step x o) as [z| |]; [|done..].
    cbn [mbind outcome_bind]. intros Hh. destruct (IH z y Hos Hh) as [E1 E2].
    split; [rewrite E1; apply Hx|rewrite E2; apply Hx]. }
  unfold nna_halt_interrupt in Hi. destruct (reg_access s _ _) as [s0| |]; [|done..]. cbn [mbind outcome_bind] in Hi. injection Hi as <-.
  destruct (Hs _ _ _ Hq Hh) as [H1 H2]. cbn [set_halt nna_halt irq_ts] in H1, H2.
  unfold nna_device_file_poll. destruct (Z.ltb_spec irq 0); [lia|]. rewrite H1. split; [done|]. split.
  - unfold nna_device_file_ioctl. cbv zeta. change (default [] (Some u)) with u. rewrite bool_decide_false, andb_false_r by done.
    unfold pre_area, pre_sync, pre_reg. eval_cmds. cbn [mbind outcome_bind]. rewrite Hw. unfold short_of, sizeof_timeval_exch.
    destruct (Z.ltb_spec (Z.of_nat (length u)) 16); [lia|]. cbn [orb negb]. rewrite H2. cbn [fst snd].
    rewrite Z.quot_div_nonneg by lia. assert (Hn : 0 <= nsec / 1000 < 2 ^ 64) by (split; [apply Z.div_pos; lia|apply Z.div_lt_upper_bound; lia]).
    rewrite (wrapU_id 64 sec), (wrapU_id 64 (nsec / 1000)) by lia. unfold store_at.
    rewrite length_app, !length_le_enc, <- app_assoc. done.
  - unfold nna_device_file_ioctl, pre_area, pre_sync, pre_reg. eval_cmds. eexists. split; [done|]. done.
Qed.

(** ** An allocator, and a device that was used *)

Definition bump_phys (bs : list block) : Z := PAGE_ALIGN (1 + foldr (fun b t => Z.max (b_phys b + b_size b) t) 0 bs).
Definition bump_kvirt (bs : list block) : Z := 1 + foldr (fun b t => Z.max (b_kvirt b) t) 0 bs.
Definition bump (bs : list block) (n : Z) : option (Z * Z) :=
  if bump_phys bs + n <=? 2 ^ 48 then Some (bump_kvirt bs, bump_phys bs) else None.

Lemma foldr_max (f : block -> Z) bs : 0 <= foldr (fun b t => Z.max (f b) t) 0 bs /\ forall b, b ∈ bs -> f b <= foldr (fun b t => Z.max (f b) t) 0 bs.
Proof.
  induction bs as [|c bs [IH0 IH]]; cbn [foldr]; [split; [lia|by intros b []%not_elem_of_nil]|]. split; [lia|].
  intros b [->|Hb]%elem_of_cons; [lia|]. specialize (IH b Hb). lia.
Qed.

#[export] Program Instance bump_coherent : DmaCoherent := {| dma_alloc_coherent := bump |}.
Next Obligation.
  unfold bump. intros bs n k p. destruct (Z.leb_spec (bump_phys bs + n) (2 ^ 48)) as [Hle|]; [|done]. intros [= <- <-] Hn Hm.
  destruct (foldr_max b_kvirt bs) as [K0 K]. destruct (foldr_max (fun b => b_phys b + b_size b) bs) as [P0 P].
  destruct (page_align_spec (1 + foldr (fun b t => Z.max (b_phys b + b_size b) t) 0 bs) ltac:(lia)) as (Q1 & Q2 & Q3).
  unfold bump_kvirt. split; [lia|]. split; [|split; [unfold bump_phys; lia|split; [exact Q2|split; [done|]]]].
  - intros (b & E & Hb)%list_elem_of_fmap. specialize (K b Hb). lia.
  - apply list.Forall_forall. intros b Hb. right. specialize (P b Hb). unfold bump_phys. cbn in P. lia.
Qed.

Definition request (clientid memid size mode : Z) : list Z :=
  le_enc 4 clientid ++ le_enc 4 memid ++ le_enc 4 size ++ replicate 4 0 ++ le_enc 8 0 ++ le_enc 4 mode ++ replicate 4 0.
Definition sync_request (clientid memid size offset dir : Z) : list Z :=
  le_enc 4 clientid ++ le_enc 4 memid ++ le_enc 4 size ++ le_enc 4 offset ++ le_enc 4 dir.
Definition all_yes : answers := mkAnswers true false (fun _ => true) (fun _ => 0).
Definition used_ops : list op :=
  [OpOpen; OpIoctl all_yes NNA_IOCTL_ALLOC (Some (request 3 0 5000 2)); OpIoctl all_yes NNA_IOCTL_ALLOC (Some (request 1 7 4096 0))].
(** Two buffers: of client 3, two pages; of client 1, one. *)
Definition used : nna := match history (fresh 0x1000 NullMask 0) used_ops with Ret s => s | _ => fresh 0x1000 NullMask 0 end.
Lemma used_history : history (fresh 0x1000 NullMask 0) used_ops = Ret used.
Proof. unfold used. vm_compute. reflexivity. Qed.
Lemma used_tidy : tidy [] used.
Proof.
  pose proof (history_ok [] used_ops (fresh 0x1000 NullMask 0) (fresh_tidy _ _ _) ltac:(cbn; lia)) as Hh.
  rewrite used_history in Hh. apply Hh.
Qed.
Lemma unmatched_new s start but : forallb (fun b => negb (vm_start b =? start)) (areas s) = true -> unmatched s start but.
Proof.
  intros Hf c m b _ Hb _. rewrite forallb_forall in Hf. apply list_elem_of_lookup_2, list_elem_of_In, Hf, negb_true_iff in Hb.
  unfold matches. by rewrite Hb.
Qed.




Lemma fault_beyond_buffer_witness :
  exists s' v', nna_device_file_mmap all_yes (fun _ => true) 0 used (mkVma 0x10000 0x100000 3000 false false) = Ret (s', v', 0) /\
    _nna_device_vma_fault (fun _ => true) s' 0x10000 2 = Sigbus /\ _nna_device_vma_fault (fun _ => true) s' 0x10000 4 = Page 5.
Proof.
  destruct (areas used !! slot 3 0) as [a|] eqn:Ha; [|vm_compute in Ha; discriminate Ha].
  assert (E : a = mkArea 4096 1 8192 0 0 2) by (vm_compute in Ha; injection Ha as <-; reflexivity).
  destruct (fault_beyond_buffer used all_yes (fun _ => true) 0 (mkVma 0x10000 0x100000 3000 false false) 3 0 a used_tidy)
    as (s' & v' & Hm & _ & _ & H2 & H4).
  - reflexivity.
  - exact Ha.
  - rewrite E. cbn. lia.
  - reflexivity.
  - apply unmatched_new. vm_compute. reflexivity.
  - reflexivity.
  - exists s', v'. split; [exact Hm|]. rewrite E in H2, H4. split; [exact H2|].
    refine (H4 5 _ eq_refl). split; [vm_compute; reflexivity|lia].
Defined.

Lemma stale_address_serves_witness :
  exists s1 w1 s2 w2 f, let v pgoff := mkVma 0x10000 0x11000 pgoff false false in
    nna_device_file_mmap all_yes (fun _ => true) 0 used (v 3000) = Ret (s1, w1, 0) /\
    nna_device_file_mmap all_yes (fun _ => true) 0 s1 (v 1007) = Ret (s2, w2, 0) /\
    _nna_device_vma_fault (fun _ => true) s2 0x10000 0 = Page f /\ 4096 <= f * PAGE_SIZE < 12288.
Proof.
  destruct (areas used !! slot 3 0) as [a|] eqn:Ha; [|vm_compute in Ha; discriminate Ha].
  assert (E : a = mkArea 4096 1 8192 0 0 2) by (vm_compute in Ha; injection Ha as <-; reflexivity).
  destruct (areas used !! slot 1 7) as [b|] eqn:Hb; [|vm_compute in Hb; discriminate Hb].
  assert (Eb : b = mkArea 16384 2 4096 0 0 0) by (vm_compute in Hb; injection Hb as <-; reflexivity).
  destruct (stale_address_serves used all_yes (fun _ => true) 0 (mkVma 0x10000 0x11000 3000 false false) (mkVma 0x10000 0x11000 1007 false false)
    3 0 1 7 0 a b used_tidy) as (s1 & w1 & s2 & w2 & f & H1 & H2 & Hf & Hin & _).
  - reflexivity.
  - exact Ha.
  - rewrite E. cbn. lia.
  - reflexivity.
  - exact Hb.
  - rewrite Eb. cbn. lia.
  - reflexivity.
  - reflexivity.
  - reflexivity.
  - apply unmatched_new. vm_compute. reflexivity.
  - reflexivity.
  - lia.
  - rewrite E. cbn. lia.
  - exists s1, w1, s2, w2, f. cbv zeta. split; [exact H1|]. split; [exact H2|]. split; [exact Hf|]. rewrite E in Hin. cbn [phy_addr size] in Hin. lia.
Defined.


Lemma alloc_race_leaks_witness :
  exists s3 w1 ret1 s4 w2 ret2 s5, let r := mkReq 0 0 4096 0 in
    alloc_store all_yes (ensure_dma_mask all_yes used) r [] = Ret (s3, w1, ret1) /\ alloc_store all_yes s3 r [] = Ret (s4, w2, ret2) /\
    step s4 OpRelease = Ret s5 /\ length (blocks s5) = 1%nat.
Proof.
  destruct (alloc_race_leaks all_yes used (ensure_dma_mask all_yes used) (ensure_dma_mask all_yes used) (mkReq 0 0 4096 0) (mkReq 0 0 4096 0)
    [] [] 3 24576 used_tidy) as (s3 & w1 & ret1 & s4 & w2 & ret2 & s5 & H1 & H2 & H3 & H4 & _).
  - vm_compute. reflexivity.
  - reflexivity.
  - vm_compute. reflexivity.
  - vm_compute. reflexivity.
  - vm_compute. reflexivity.
  - exists s3, w1, ret1, s4, w2, ret2, s5. cbv zeta. split; [exact H1|]. split; [exact H2|]. split; [exact H3|]. rewrite H4. reflexivity.
Defined.

(** A range far behind the buffer, whose end wraps. *)
Lemma sync_exact_witness :
  nna_device_file_ioctl all_yes used NNA_IOCTL_SYNC_FOR_DEVICE (Some (sync_request 3 0 2147483647 2147483647 1)) =
    Ret (emit used (SyncDevice 4096 8192 1), sync_request 3 0 2147483647 2147483647 1, 0).
Proof.
  destruct (areas used !! slot 3 0) as [a|] eqn:Ha; [|vm_compute in Ha; discriminate Ha].
  assert (E : a = mkArea 4096 1 8192 0 0 2) by (vm_compute in Ha; injection Ha as <-; reflexivity).
  pose proof (sync_exact all_yes used true (sync_request 3 0 2147483647 2147483647 1) a used_tidy) as Hs.
  cbv zeta in Hs. rewrite Hs.
  - rewrite E. reflexivity.
  - reflexivity.
  - reflexivity.
  - exact Ha.
  - rewrite E. cbn. lia.
  - rewrite E. cbn. lia.
Defined.

Lemma halt_reported_witness :
  exists s' s'', nna_halt_interrupt used (7, 5000) = Ret s' /\
    history s' [OpIoctl all_yes NNA_IOCTL_DEALLOC (Some (request 1 7 0 0))] = Ret s'' /\ nna_device_file_poll 40 s'' = POLLIN.
Proof.
  destruct (nna_halt_interrupt used (7, 5000)) as [s'| |] eqn:E; [|vm_compute in E; discriminate E..].
  destruct (history s' [OpIoctl all_yes NNA_IOCTL_DEALLOC (Some (request 1 7 0 0))]) as [s''| |] eqn:Eh;
    [|vm_compute in E; injection E as <-; vm_compute in Eh; discriminate Eh..].
  exists s', s''. split; [reflexivity|]. split; [exact Eh|].
  apply (halt_reported used s' s'' all_yes 7 5000 40 [OpIoctl all_yes NNA_IOCTL_DEALLOC (Some (request 1 7 0 0))] (replicate 16 0) E eq_refl Eh).
  - lia.
  - lia.
  - cbn. lia.
  - reflexivity.
Defined.
