(* ===== verification/AcennaProbe.v ===== *)
(** * Life cycle and attributes of the neural accelerator (drivers/misc/amazon/acenna_kmod.c)

    Creation and destruction of the device, the probe with its way out, the
    removal, the module's initialisation, and the attributes of the device. *)

From Stdlib Require Import String.
From stdpp Require Import base tactics numbers list option gmap strings.
From S2P Require Import Prelude Kstrtox Printf Of Holdings Acenna.

Definition DEVICE_MAX_NUM : Z := 256.
Definition DRIVER_VERSION : string := "1.6.0".
Definition SYNC_MODE_NONCACHED : Z := 0x01.
Definition SYNC_MODE_MIN : Z := 0x01.
Definition SYNC_MODE_MAX : Z := 0x03.

(** ** What the driver holds *)

Inductive resource :=
| Minor (n : Z) | DeviceData | SysDevice (n : Z) | CharDevice (n : Z)
| Region | Mapping | Interrupt | ReservedMemory | RuntimePm
| ChrdevRegion | SysClass | PlatformDriver.
#[export] Instance resource_eq_dec : EqDecision resource.
Proof. solve_decision. Defined.

(** [ida_simple_get]: the first number of the range that is not taken. *)
Definition ida_simple_get (taken : list Z) (start stop : Z) : option Z := head (filter (fun n => n ∉ taken) (seqZ start (stop - start))).

(** ** The device *)

(** [struct nna_device_data], as far as the life cycle sets it. *)
Record device_data := mkDevice {
  d_minor : Z; d_halt_irq : Z; d_reg_base : bool; d_of_reserved_mem : bool; d_sync_mode : Z }.
Definition set_irq (d : device_data) n : device_data := mkDevice (d_minor d) n (d_reg_base d) (d_of_reserved_mem d) (d_sync_mode d).
Definition set_base (d : device_data) b : device_data := mkDevice (d_minor d) (d_halt_irq d) b (d_of_reserved_mem d) (d_sync_mode d).
Definition set_reserved (d : device_data) b : device_data := mkDevice (d_minor d) (d_halt_irq d) (d_reg_base d) b (d_sync_mode d).
Definition set_mode (d : device_data) m : device_data := mkDevice (d_minor d) (d_halt_irq d) (d_reg_base d) (d_of_reserved_mem d) m.

(** The devices' minor numbers taken, what is held, and the platform device's
    driver data. *)
Record platform := mkPlatform { minors : list Z; holds : holdings resource; drvdata : option device_data }.
Definition on_holds (f : holdings resource -> holdings resource) (w : platform) : platform := mkPlatform (minors w) (f (holds w)) (drvdata w).
Definition set_minors (w : platform) l : platform := mkPlatform l (holds w) (drvdata w).
Definition set_drvdata (w : platform) d : platform := mkPlatform (minors w) (holds w) d.

(** The answers of the kernel to a probe: results are 0 or an error, pointers are
    there or not. *)
Record probe_answers := mkProbe {
  a_match : bool; a_kzalloc : bool; a_device_create : bool; a_cdev_add : Z;
  a_address : Z; a_region : bool; a_iomap : bool; a_irq : Z; a_request_irq : Z;
  a_reserved : Z; a_dma_configure : Z }.

Definition get_minor (w : platform) (minor : Z) : option Z :=
  if (0 <=? minor) && (minor <? DEVICE_MAX_NUM) then ida_simple_get (minors w) minor (minor + 1)
  else if minor =? -1 then ida_simple_get (minors w) 0 DEVICE_MAX_NUM
  else None.
Definition ida_simple_remove (n : Z) (w : platform) : platform :=
  on_holds (release (Minor n)) (set_minors w (filter (fun x => x <> n) (minors w))).

(** The way out undoes what is done, newest first. *)
Definition nna_device_create (a : probe_answers) (w : platform) (minor : Z) : platform * option device_data :=
  match get_minor w minor with
  | None => (w, None)
  | Some n =>
    let w := on_holds (acquire (Minor n)) (set_minors w (n :: minors w)) in
    if negb (a_kzalloc a) then (ida_simple_remove n w, None) else
    let w := on_holds (acquire DeviceData) w in
    if negb (a_device_create a) then (on_holds (release DeviceData) (ida_simple_remove n w), None) else
    let w := on_holds (acquire (SysDevice n)) w in
    if negb (a_cdev_add a =? 0) then
      (on_holds (release DeviceData) (ida_simple_remove n (on_holds (release (SysDevice n)) w)), None)
    else
    let w := on_holds (acquire (CharDevice n)) w in
    (w, Some (mkDevice n 0 false false SYNC_MODE_NONCACHED))
  end.

(** The buffers are given back by [buffers_cleanup]. *)
Definition nna_device_destroy (w : platform) (d : device_data) : platform * Z :=
  let n := d_minor d in
  let w := on_holds (release (CharDevice n)) w in
  let w := on_holds (release (SysDevice n)) w in
  let w := ida_simple_remove n w in
  (on_holds (release DeviceData) w, 0).

Definition nna_platform_driver_cleanup (w : platform) (d : option device_data) : platform * Z :=
  match d with
  | None => (w, - ENODEV)
  | Some d =>
    let w := if bool_decide (RuntimePm ∈ held (holds w)) then on_holds (release RuntimePm) w else w in
    let w := if 0 <? d_halt_irq d then on_holds (release Interrupt) w else w in
    let w := if d_reg_base d then on_holds (release Mapping) w else w in
    let w := on_holds (release Region) w in
    let '(w, ret) := nna_device_destroy w d in
    let w := set_drvdata w None in
    (if d_of_reserved_mem d then on_holds (release ReservedMemory) w else w, ret)
  end.

(** The probe; every [goto failed] cleans up and returns what [retval] holds, 0
    where no call has set it. The clocks of plat_acenna.h do nothing. *)
Definition nna_platform_driver_probe (a : probe_answers) (np : device_node) (w : platform) : platform * Z :=
  if negb (a_match a) then (w, - EINVAL) else
  let minor := match of_property_read_u32 np "minor-number" with inr v => s32 v | inl _ => -1 end in
  let failed (w : platform) (d : option device_data) (retval : Z) := ((nna_platform_driver_cleanup w d).1, retval) in
  match nna_device_create a w minor with
  | (w, None) => failed w None (- EINVAL)
  | (w, Some d) =>
    let w := set_drvdata w (Some d) in
    if negb (a_address a =? 0) then failed w (Some d) (a_address a) else
    if negb (a_region a) then failed w (Some d) 0 else
    let w := on_holds (acquire Region) w in
    if negb (a_iomap a) then failed w (Some d) 0 else
    let w := on_holds (acquire Mapping) w in
    let d := set_base d true in
    let d := set_irq d (a_irq a) in
    if a_irq a <? 0 then failed w (Some d) 0 else
    let w := if a_request_irq a =? 0 then on_holds (acquire Interrupt) w else w in
    if negb (a_reserved a =? 0) && negb (a_reserved a =? - ENODEV) then failed w (Some d) (a_reserved a) else
    let w := if a_reserved a =? 0 then on_holds (acquire ReservedMemory) w else w in
    let d := set_reserved d (a_reserved a =? 0) in
    if negb (d_of_reserved_mem d) && negb (a_dma_configure a =? 0) then failed w (Some d) (a_dma_configure a) else
    let bad_mode := match of_property_read_u32 np "sync-mode" with
                    | inr v => (v <? SYNC_MODE_MIN) || (SYNC_MODE_MAX <? v) | inl _ => false end in
    if bad_mode then failed w (Some d) 0 else
    let d := match of_property_read_u32 np "sync-mode" with
             | inr v => set_mode d (Z.lor (Z.land (d_sync_mode d) (Z.lnot SYNC_MODE_MASK)) (s32 v)) | inl _ => d end in
    (set_drvdata (on_holds (acquire RuntimePm) w) (Some d), 0)
  end.

Definition nna_platform_driver_remove (w : platform) : platform * Z := nna_platform_driver_cleanup w (drvdata w).

(** ** The module *)

(** What of the module is there: the numbers, the class, the driver. *)
Record module := mkModule { m_holds : holdings resource; device_number : bool; sys_class : bool; registered : bool }.
Definition nna_module_cleanup (m : module) : module :=
  let k := release_when (registered m) PlatformDriver (m_holds m) in
  let k := release_when (sys_class m) SysClass k in
  let k := release_when (device_number m) ChrdevRegion k in
  mkModule k (device_number m) (sys_class m) (registered m).
(** The answers: the numbers, the class (an error pointer, or null as 0) and the
    driver; the interrupt wrapper of plat_acenna.h always succeeds. *)
Definition nna_module_init (m : module) (numbers : Z) (class : option Z) (driver : Z) : module * Z :=
  if negb (numbers =? 0) then (nna_module_cleanup (mkModule (m_holds m) false (sys_class m) (registered m)), numbers) else
  let m := mkModule (acquire ChrdevRegion (m_holds m)) true (sys_class m) (registered m) in
  match class with
  | Some err => (nna_module_cleanup (mkModule (m_holds m) true false (registered m)), if err =? 0 then - ENOMEM else err)
  | None =>
    let m := mkModule (acquire SysClass (m_holds m)) true true (registered m) in
    if negb (driver =? 0) then (nna_module_cleanup (mkModule (m_holds m) true true false), driver)
    else (mkModule (acquire PlatformDriver (m_holds m)) true true true, 0)
  end.
Definition nna_module_exit (m : module) : module := nna_module_cleanup m.

(** ** Attributes *)

(** [DEF_ATTR_SHOW]; [intr] interrupts the wait for the lock. *)
Definition attr_show (intr : bool) (text : list Z) : list Z + Z := if intr then inr (- ERESTARTSYS) else inl (text ++ str (String (Ascii.ascii_of_nat 10) EmptyString)).
Definition nna_show_driver_version (intr : bool) : list Z + Z := attr_show intr (str DRIVER_VERSION).
Definition nna_show_sync_mode (intr : bool) (s : nna) : list Z + Z := attr_show intr (pct_d (sync_mode s)).
Definition nna_show_buffers_allocated (intr : bool) (s : nna) : list Z + Z := attr_show intr (pct_d (buffers_allocated s)).
Definition nna_show_mem_allocated (intr : bool) (s : nna) : list Z + Z := attr_show intr (pct_d (mem_allocated s)).

(** [DEF_ATTR_SET]: the value parsed and in range, or the error. *)
Definition attr_set (intr : bool) (buf : list Z) (lo hi : Z) : Z + Z :=
  if intr then inr (- ERESTARTSYS) else
  match kstrtoull buf 0 with
  | inr err => inr err
  | inl v => if (v <? lo) || (hi <? v) then inr (- EINVAL) else inl v
  end.
Definition nna_set_sync_mode (intr : bool) (s : nna) (buf : list Z) : nna * Z :=
  match attr_set intr buf 0 7 with
  | inr err => (s, err)
  | inl v => (set_sync_mode s v, Z.of_nat (length buf))
  end.
(** The clock of plat_acenna.h refuses, after the value is stored. *)
Definition acenna_clk_set_rate : Z := - EPERM.
Definition acenna_clk_get_rate : Z := - EPERM.
Definition nna_set_clk_freq (intr : bool) (clk_freq : Z) (buf : list Z) : Z * Z :=
  match attr_set intr buf 1000000 800000000 with
  | inr err => (clk_freq, err)
  | inl v => (v, if acenna_clk_set_rate =? 0 then Z.of_nat (length buf) else acenna_clk_set_rate)
  end.
Definition nna_get_clock_frequency (intr : bool) (clk_freq : Z) : list Z + Z :=
  if intr then inr (- ERESTARTSYS) else if acenna_clk_get_rate =? 0 then attr_show false (pct_d clk_freq) else inr acenna_clk_get_rate.

(** ** What a probe leaves *)

(** Where a probe first fails, what it then returns, and what it releases without
    holding it. *)
Inductive stage := NoMatch | NoDevice | NoAddress | NoRegion | NoMapping | NoIrq | NoReserved | NoDma | BadMode.
Definition dt_minor (np : device_node) : Z := match of_property_read_u32 np "minor-number" with inr v => s32 v | inl _ => -1 end.
Definition mode_refused (np : device_node) : bool :=
  match of_property_read_u32 np "sync-mode" with inr v => (v <? 1) || (3 <? v) | inl _ => false end.
Definition first_failure (a : probe_answers) (np : device_node) (w : platform) : option stage :=
  if negb (a_match a) then Some NoMatch
  else if negb (bool_decide (is_Some (get_minor w (dt_minor np))) && a_kzalloc a && a_device_create a && (a_cdev_add a =? 0)) then Some NoDevice
  else if negb (a_address a =? 0) then Some NoAddress
  else if negb (a_region a) then Some NoRegion
  else if negb (a_iomap a) then Some NoMapping
  else if a_irq a <? 0 then Some NoIrq
  else if negb (a_reserved a =? 0) && negb (a_reserved a =? - ENODEV) then Some NoReserved
  else if (a_reserved a =? - ENODEV) && negb (a_dma_configure a =? 0) then Some NoDma
  else if mode_refused np then Some BadMode
  else None.
Definition code (a : probe_answers) (st : stage) : Z :=
  match st with
  | NoMatch | NoDevice => - EINVAL
  | NoAddress => a_address a
  | NoReserved => a_reserved a
  | NoDma => a_dma_configure a
  | NoRegion | NoMapping | NoIrq | BadMode => 0
  end.
Definition not_held (a : probe_answers) (st : stage) : list resource :=
  match st with
  | NoAddress | NoRegion => [Region]
  | NoReserved | NoDma | BadMode => if a_request_irq a =? 0 then [] else [Interrupt]
  | _ => []
  end.

Lemma on_holds_eq f ms k d : on_holds f (mkPlatform ms k d) = mkPlatform ms (f k) d.
Proof. done. Qed.
Lemma set_minors_eq ms k d l : set_minors (mkPlatform ms k d) l = mkPlatform l k d.
Proof. done. Qed.
Lemma set_drvdata_eq ms k d e : set_drvdata (mkPlatform ms k d) e = mkPlatform ms k e.
Proof. done. Qed.
Lemma ida_remove_eq n ms k d : ida_simple_remove n (mkPlatform ms k d) = mkPlatform (filter (fun x => x <> n) ms) (release (Minor n) k) d.
Proof. done. Qed.

(** Follows the acquisitions and releases of a run whose list of resources is
    known, from the inside. *)
Ltac follow :=
  repeat first
    [ progress cbn [minors holds drvdata held wrong negb andb orb fst snd d_minor d_halt_irq d_reg_base d_of_reserved_mem d_sync_mode]
    | rewrite set_minors_eq | rewrite set_drvdata_eq | rewrite ida_remove_eq | follow_holdings
    | rewrite on_holds_eq
    | rewrite bool_decide_true by (rewrite ?elem_of_cons; tauto)
    | rewrite bool_decide_false by (rewrite ?elem_of_cons, ?elem_of_nil; intuition discriminate) ].

Lemma ida_simple_get_free taken a b n : ida_simple_get taken a b = Some n -> (n ∉ taken) /\ a <= n < b.
Proof.
  unfold ida_simple_get. intros H. apply head_Some_elem_of in H. apply list_elem_of_filter in H as [H1 H2%elem_of_seqZ]. split; [done|lia].
Qed.
Lemma get_minor_free w m n : get_minor w m = Some n -> (n ∉ minors w) /\ 0 <= n < DEVICE_MAX_NUM.
Proof.
  unfold get_minor, DEVICE_MAX_NUM. destruct (Z.leb_spec 0 m), (Z.ltb_spec m 256); cbn [andb];
    try (destruct (m =? -1); [|done]); intros [Hf Hr]%ida_simple_get_free; split; done || lia.
Qed.
Lemma filter_new (n : Z) l : n ∉ l -> filter (fun x => x <> n) (n :: l) = l.
Proof.
  intros Hn. rewrite filter_cons, decide_False by tauto. apply list_filter_all, list.Forall_forall. by intros x Hx ->.
Qed.

(** A platform device that is not bound. *)
Definition unbound (w : platform) : Prop := held (holds w) = [] /\ drvdata w = None.

Lemma create_spec a w m : unbound w ->
  nna_device_create a w m =
    match get_minor w m with
    | Some n => if a_kzalloc a && a_device_create a && (a_cdev_add a =? 0)
                then (mkPlatform (n :: minors w) (mkHoldings [CharDevice n; SysDevice n; DeviceData; Minor n] (wrong (holds w))) None,
                      Some (mkDevice n 0 false false 1))
                else (w, None)
    | None => (w, None)
    end.
Proof.
  intros [Hh Hd]. destruct w as [ms [h x] dd]. cbn in Hh, Hd. subst. unfold nna_device_create.
  destruct (get_minor _ _) as [n|] eqn:Hn; [|done]. apply get_minor_free in Hn as [Hn _]. cbn in Hn.
  destruct (a_kzalloc a); follow; [|by rewrite filter_new].
  destruct (a_device_create a); follow; [|by rewrite filter_new].
  destruct (a_cdev_add a =? 0); follow; [done|by rewrite filter_new].
Qed.

(** What is held by a bound device. *)
Definition bound_holdings (a : probe_answers) (n : Z) : list resource :=
  RuntimePm :: (if a_reserved a =? 0 then [ReservedMemory] else []) ++ (if a_request_irq a =? 0 then [Interrupt] else []) ++
  [Mapping; Region; CharDevice n; SysDevice n; DeviceData; Minor n].
Definition bound_data (a : probe_answers) (np : device_node) (n : Z) : device_data :=
  mkDevice n (a_irq a) true (a_reserved a =? 0)
    (match of_property_read_u32 np "sync-mode" with inr v => v | inl _ => 1 end).

Lemma bound_mode np v : of_property_read_u32 np "sync-mode" = inr v -> mode_refused np = false ->
  Z.lor (Z.land 1 (Z.lnot SYNC_MODE_MASK)) (s32 v) = v.
Proof.
  unfold mode_refused. intros ->. destruct (Z.ltb_spec v 1), (Z.ltb_spec 3 v); try done. intros _.
  change (Z.land 1 (Z.lnot SYNC_MODE_MASK)) with 0. rewrite Z.lor_0_l. apply s32_id. lia.
Qed.

(** The way out from each point that is reached. *)
Lemma cleanup_spec ms l x d dd n : n ∉ ms -> RuntimePm ∉ l -> d_minor d = n ->
  let irq := 0 <? d_halt_irq d in
  nna_platform_driver_cleanup (mkPlatform (n :: ms) (mkHoldings l x) dd) (Some d) =
    let k := mkHoldings l x in
    let k := if irq then release Interrupt k else k in
    let k := if d_reg_base d then release Mapping k else k in
    let k := release Region k in
    let k := release DeviceData (release (Minor n) (release (SysDevice n) (release (CharDevice n) k))) in
    (mkPlatform ms (if d_of_reserved_mem d then release ReservedMemory k else k) None, 0).
Proof.
  intros Hn Hp <-. cbv zeta. unfold nna_platform_driver_cleanup, nna_device_destroy. cbn [holds held].
  rewrite (bool_decide_false (RuntimePm ∈ l)) by done.
  destruct (0 <? d_halt_irq d), (d_reg_base d), (d_of_reserved_mem d); rewrite ?on_holds_eq, ida_remove_eq, filter_new, ?on_holds_eq, set_drvdata_eq, ?on_holds_eq by done; done.
Qed.

(** One way out: the cleanup, followed. *)
Ltac way_out Hf :=
  rewrite ?on_holds_eq, ?acquire_eq;
  rewrite (cleanup_spec _ _ _ _ _ _ Hf) by (rewrite ?elem_of_cons, ?elem_of_nil; cbn; intuition discriminate);
  cbv zeta; cbn [d_minor d_halt_irq d_reg_base d_of_reserved_mem d_sync_mode fst];
  repeat match goal with |- context [0 <? ?n] => destruct (Z.ltb_spec 0 n); try lia end;
  follow; rewrite ?app_nil_r; reflexivity.

(** C3. A probe binds the device with all it needs, or fails at the first answer that
    is not as wished and gives back everything it took, the minor number included.
    But four of the failures (the register region, its mapping, the interrupt, an
    invalid mode) return 0, so that the driver core takes the device for bound; and
    the way out releases the register region also when it was never obtained, and
    the interrupt also when its request failed. The removal of a bound device gives
    back everything. *)
Theorem probe_exact (a : probe_answers) (np : device_node) (w : platform) (Hw : unbound w) (Hirq : a_irq a <> 0) :
  match first_failure a np w with
  | Some st => nna_platform_driver_probe a np w =
      (mkPlatform (minors w) (mkHoldings [] (wrong (holds w) ++ not_held a st)) None, code a st)
  | None => exists n, get_minor w (dt_minor np) = Some n /\
      nna_platform_driver_probe a np w =
        (mkPlatform (n :: minors w) (mkHoldings (bound_holdings a n) (wrong (holds w))) (Some (bound_data a np n)), 0) /\
      nna_platform_driver_remove (nna_platform_driver_probe a np w).1 =
        (mkPlatform (minors w) (mkHoldings [] (wrong (holds w) ++ if a_request_irq a =? 0 then [] else [Interrupt])) None, 0)
  end.
Proof.
  assert (Hid : w = mkPlatform (minors w) (mkHoldings [] (wrong (holds w) ++ [])) None).
  { destruct Hw as [Hh Hd]. destruct w as [ms [h x] dd]. cbn in *. subst. by rewrite app_nil_r. }
  unfold nna_platform_driver_probe, first_failure, dt_minor. destruct (a_match a); cbn [negb]; [|by rewrite Hid at 1].
  rewrite create_spec by done. set (m := match of_property_read_u32 np "minor-number" with inr v => s32 v | inl _ => -1 end).
  destruct (get_minor w m) as [n|] eqn:Hn; cbn [andb negb].
  2: { rewrite bool_decide_false by (by intros [? ?]). cbn. by rewrite Hid at 1. }
  rewrite bool_decide_true by by eexists. cbn [andb]. destruct (a_kzalloc a && a_device_create a && (a_cdev_add a =? 0)); cbn [negb].
  2: { cbn. by rewrite Hid at 1. }
  apply get_minor_free in Hn as [Hf _]. clear Hid Hw. set (ms := minors w) in *. set (x := wrong (holds w)). clearbody ms x.
  unfold code, not_held, set_mode, set_reserved, set_irq, set_base. rewrite set_drvdata_eq.
  destruct (Z.eqb_spec (a_address a) 0); cbn [negb]; [|way_out Hf].
  destruct (a_region a); cbn [negb]; [|way_out Hf].
  rewrite on_holds_eq, acquire_eq. destruct (a_iomap a); cbn [negb]; [|way_out Hf].
  rewrite on_holds_eq, acquire_eq. cbn [d_minor d_halt_irq d_reg_base d_of_reserved_mem d_sync_mode].
  destruct (Z.ltb_spec (a_irq a) 0); cbn [negb].
  { way_out Hf. }
  assert (Hirq' : (0 <? a_irq a) = true) by (apply Z.ltb_lt; lia).
  unfold bound_holdings, bound_data.
  change (match of_property_read_u32 np "sync-mode" with
          | inr v => (v <? SYNC_MODE_MIN) || (SYNC_MODE_MAX <? v) | inl _ => false end) with (mode_refused np).
  assert (Hmode : mode_refused np = false ->
    match of_property_read_u32 np "sync-mode" with inr v => Z.lor (Z.land 1 (Z.lnot SYNC_MODE_MASK)) (s32 v) | inl _ => 1 end =
    match of_property_read_u32 np "sync-mode" with inr v => v | inl _ => 1 end).
  { intros Hm. destruct (of_property_read_u32 np "sync-mode") as [|v] eqn:E; [done|]. by apply (bound_mode np). }
  destruct (Z.eqb_spec (a_request_irq a) 0), (Z.eqb_spec (a_reserved a) 0), (Z.eqb_spec (a_reserved a) (- ENODEV));
    try (unfold ENODEV in *; lia); cbn [negb andb]; try (way_out Hf);
    destruct (a_dma_configure a =? 0); cbn [negb andb]; try (way_out Hf);
    (destruct (mode_refused np) eqn:Em; [way_out Hf|]); exists n; (split; [reflexivity|]);
    rewrite <- (Hmode eq_refl); (match goal with |- ?p = ?q /\ _ => assert (E : p = q) by (destruct (of_property_read_u32 np "sync-mode"); reflexivity) end);
    (split; [exact E|]); rewrite E; unfold nna_platform_driver_remove; cbn [fst drvdata app];
    unfold nna_platform_driver_cleanup, nna_device_destroy; cbn [d_minor d_halt_irq d_reg_base d_of_reserved_mem d_sync_mode];
    rewrite Hirq'; follow; rewrite filter_new, ?app_nil_r by exact Hf; reflexivity.
Qed.


(** A region that another driver holds: the probe releases it and returns 0. *)
Lemma probe_exact_witness :
  nna_platform_driver_probe (mkProbe true true true 0 0 false true 5 0 0 0) ∅ (mkPlatform [4] (mkHoldings [] []) None) =
    (mkPlatform [4] (mkHoldings [] [Region]) None, 0).
Proof.
  pose proof (probe_exact (mkProbe true true true 0 0 false true 5 0 0 0) ∅ (mkPlatform [4] (mkHoldings [] []) None)) as Hp.
  assert (E : first_failure (mkProbe true true true 0 0 false true 5 0 0 0) ∅ (mkPlatform [4] (mkHoldings [] []) None) = Some NoRegion)
    by (vm_compute; reflexivity).
  rewrite E in Hp. apply Hp.
  - split; reflexivity.
  - cbn. lia.
Defined.

(** ** The module *)

(** The module's initialisation holds the device numbers, the class and the
    driver exactly when it succeeds, which is when every call does, and nothing
    otherwise; its exit gives them back, each once. *)
Theorem module_balanced (numbers driver : Z) (class : option Z) :
  let m0 := mkModule (mkHoldings [] []) false false false in
  let '(m, ret) := nna_module_init m0 numbers class driver in
  (ret = 0 <-> numbers = 0 /\ class = None /\ driver = 0) /\
  m_holds m = mkHoldings (if ret =? 0 then [PlatformDriver; SysClass; ChrdevRegion] else []) [] /\
  (ret = 0 -> m_holds (nna_module_exit m) = mkHoldings [] []).
Proof.
  cbv zeta. unfold nna_module_init, nna_module_exit, nna_module_cleanup.
  destruct (Z.eqb_spec numbers 0); [|cbn; destruct (Z.eqb_spec numbers 0); tauto]. cbn [negb].
  destruct class as [err|].
  - assert (Hr : (if err =? 0 then - ENOMEM else err) <> 0) by by destruct (Z.eqb_spec err 0).
    destruct (Z.eqb_spec (if err =? 0 then - ENOMEM else err) 0); [done|]. split; [|done]. by split; [|intros (_ & ? & _)].
  - destruct (Z.eqb_spec driver 0); cbn [negb]; [split; [tauto|done]|]. split; [tauto|]. split; [|done].
    destruct (Z.eqb_spec driver 0); [done|reflexivity].
Qed.

(** ** The mode of mappings *)

Lemma stored_mode s v : 0 <= v <= 7 ->
  nna_set_sync_mode false s (pct_d v ++ [10]) = (set_sync_mode s v, Z.of_nat (length (pct_d v ++ [10]))).
Proof.
  intros Hv. assert (H : v = 0 \/ v = 1 \/ v = 2 \/ v = 3 \/ v = 4 \/ v = 5 \/ v = 6 \/ v = 7) by lia.
  unfold nna_set_sync_mode, attr_set. repeat destruct H as [->|H]; [reflexivity..|subst v; reflexivity].
Qed.

(** A mode from 0 to 7 that is written to the attribute is shown again, and
    governs the mappings made from then on of buffers allocated without a mode of
    their own: they are write-combined when the low two bits are not all 0 and
    either the third bit or the file's O_SYNC asks for it; the mappings of other
    buffers follow the buffer's mode alone. *)
Theorem mode_governs_mappings (s : nna) (mode : Z) (e : answers) (pfn : Z -> bool) (ret : Z) (v : vma) (c m : Z) (a : mem_area)
    (Hm : 0 <= mode <= 7) (Hr : in_range c m = true) (Ha : areas s !! slot c m = Some a)
    (Hk : kvirt_addr a <> 0) (Hs : size a <> 0) (Hv : v_pgoff v = 1000 * c + m) :
  exists s1 n, nna_set_sync_mode false s (pct_d mode ++ [10]) = (s1, n) /\ nna_show_sync_mode false s1 = inl (pct_d mode ++ [10]) /\
    exists s2 v' r, nna_device_file_mmap e pfn ret s1 v = Ret (s2, v', r) /\
      v_io v' = v_io v || (if area_sync_mode a =? 0 then (o_sync e || (4 <=? mode)) && negb (mode mod 4 =? 0)
                           else negb (area_sync_mode a mod 4 =? 0)).
Proof.
  rewrite stored_mode by done. eexists _, _. split; [done|]. split; [done|].
  assert (Hr' := Hr). apply in_range_spec in Hr'.
  assert (E1 : s32 (v_pgoff v / 1000) = c).
  { rewrite Hv, Z.add_comm, Z.mul_comm, Z.div_add, Z.div_small by lia. apply s32_id. lia. }
  assert (E2 : s32 (v_pgoff v mod 1000) = m).
  { rewrite Hv, Z.add_comm, Z.mul_comm, Z.mod_add, Z.mod_small by lia. apply s32_id. lia. }
  assert (Hland : forall x, Z.land x SYNC_MODE_MASK = x mod 4) by (intros x; apply (Z.land_ones x 2); lia).
  unfold nna_device_file_mmap. rewrite E1, E2, Hr. cbn [negb]. unfold area_at. cbn [set_sync_mode areas sync_mode]. rewrite Hr, Ha.
  cbn [or_oops mbind outcome_bind]. destruct (Z.eqb_spec (kvirt_addr a) 0); [done|]. destruct (Z.eqb_spec (size a) 0); [done|].
  cbn [orb]. cbv zeta. unfold mode_io. rewrite !Hland.
  assert (Hb : negb (Z.land mode SYNC_ALWAYS =? 0) = (4 <=? mode)).
  { assert (H : mode = 0 \/ mode = 1 \/ mode = 2 \/ mode = 3 \/ mode = 4 \/ mode = 5 \/ mode = 6 \/ mode = 7) by lia.
    repeat destruct H as [->|H]; [reflexivity..|subst mode; reflexivity]. }
  rewrite Hb. set (io := if _ && _ then _ else _).
  assert (Hio : io = if area_sync_mode a =? 0 then (o_sync e || (4 <=? mode)) && negb (mode mod 4 =? 0) else negb (area_sync_mode a mod 4 =? 0)).
  { unfold io. destruct (Z.eqb_spec (area_sync_mode a) 0) as [->|]; [|by rewrite andb_false_r].
    rewrite andb_true_r. by destruct (o_sync e || (4 <=? mode)). }
  rewrite <- Hio. destruct (pfn _); [by eexists _, _, _|]. destruct (ret =? 0); by eexists _, _, _.
Qed.

Lemma mode_governs_mappings_witness :
  exists s1 n, nna_set_sync_mode false used (pct_d 6 ++ [10]) = (s1, n) /\
    exists s2 v' r, nna_device_file_mmap all_yes (fun _ => true) 0 s1 (mkVma 0x10000 0x11000 1007 false false) = Ret (s2, v', r) /\ v_io v' = true.
Proof.
  destruct (areas used !! slot 1 7) as [a|] eqn:Ha; [|vm_compute in Ha; discriminate Ha].
  assert (E : a = mkArea 16384 2 4096 0 0 0) by (vm_compute in Ha; injection Ha as <-; reflexivity).
  destruct (mode_governs_mappings used 6 all_yes (fun _ => true) 0 (mkVma 0x10000 0x11000 1007 false false) 1 7 a)
    as (s1 & n & H1 & _ & s2 & v' & r & H2 & H3).
  - lia.
  - reflexivity.
  - exact Ha.
  - rewrite E. cbn. lia.
  - rewrite E. cbn. lia.
  - reflexivity.
  - exists s1, n. split; [exact H1|]. exists s2, v', r. split; [exact H2|]. rewrite H3, E. reflexivity.
Defined.
