(* ===== verification/Dstsblt.v ===== *)
(** * The boot-log transfer (drivers/misc/dsts/dstsblt.c)

    Regions of reserved memory in which the boot loader leaves its log, read
    through a device until a client locks them. The build is the one of
    dstsblt.h: regions are cleared when they are locked, neither mapped nor
    written, and there is one region. A call is one step: a read that passed the
    test of the lock before a lock is in the steps before it. *)

From Stdlib Require Import String.
From stdpp Require Import base tactics numbers list option gmap strings.
From S2P Require Import Prelude Kstrtox Printf Of Holdings.

Definition EACCES : Z := 13.
Definition EIO : Z := 5.
Definition UINT_MAX : Z := 2 ^ 32 - 1.
Definition PAGE_SIZE : Z := 4096.

Definition NUM_BLT_REGIONS : nat := 1.
Definition DRIVER_VERSION_INT : Z := 0x02000000.
Definition BLT_OF_BASENODE : string := "reserved-memory".

(** ** State *)

(** [dstsblt_statistics_t], [dstsblt_nvm_t] *)
Record statistics := mkStats { num_access : Z; num_read : Z; num_write : Z; num_ioctl : Z; num_mmap : Z }.
Record nvm_info := mkNvm { partname : list Z; offset : Z; entrysize : Z }.

(** [dstsblt_priv_data_t]: [mapped_va] is what the mapping shows. *)
Record priv_data := mkPriv {
  rmem_base : Z; rmem_size : Z; mapped_va : option (list Z); id : Z;
  valid : bool; used : bool; locked : bool; stats : statistics; nvm : nvm_info }.

Definition no_stats : statistics := mkStats 0 0 0 0 0.
Definition no_priv : priv_data := mkPriv 0 0 None 0 false false false no_stats (mkNvm (replicate 16 0) 0 0).

Definition set_stats (p : priv_data) s : priv_data :=
  mkPriv (rmem_base p) (rmem_size p) (mapped_va p) (id p) (valid p) (used p) (locked p) s (nvm p).
Definition set_locked (p : priv_data) b : priv_data :=
  mkPriv (rmem_base p) (rmem_size p) (mapped_va p) (id p) (valid p) (used p) b (stats p) (nvm p).
Definition set_mapped (p : priv_data) m : priv_data :=
  mkPriv (rmem_base p) (rmem_size p) m (id p) (valid p) (used p) (locked p) (stats p) (nvm p).
Definition set_valid (p : priv_data) b : priv_data :=
  mkPriv (rmem_base p) (rmem_size p) (mapped_va p) (id p) b (used p) (locked p) (stats p) (nvm p).
Definition set_nvm (p : priv_data) n : priv_data :=
  mkPriv (rmem_base p) (rmem_size p) (mapped_va p) (id p) (valid p) (used p) (locked p) (stats p) n.

(** A counter that stops at the largest [u32]. *)
Definition count (n : Z) : Z := if n <? UINT_MAX then n + 1 else n.
Definition count_access (s : statistics) := mkStats (count (num_access s)) (num_read s) (num_write s) (num_ioctl s) (num_mmap s).
Definition count_read (s : statistics) := mkStats (num_access s) (count (num_read s)) (num_write s) (num_ioctl s) (num_mmap s).
Definition count_write (s : statistics) := mkStats (num_access s) (num_read s) (count (num_write s)) (num_ioctl s) (num_mmap s).
Definition count_ioctl (s : statistics) := mkStats (num_access s) (num_read s) (num_write s) (count (num_ioctl s)) (num_mmap s).

(** ** The device *)

Definition dstsblt_dev_open (p : priv_data) : priv_data * Z :=
  (set_stats p (count_access (stats p)), if valid p then 0 else - EIO).

(** A read at the file's offset: what reaches the user's buffer, of which [room]
    bytes can be written (the result of the copy is ignored), the new offset and
    the result. *)
Definition dstsblt_dev_read (p : priv_data) (room : nat) (len off : Z) : outcome (priv_data * list Z * Z * Z) :=
  let p := set_stats p (count_read (stats p)) in
  if locked p then Ret (p, [], off, - EPERM)
  else if off <? 0 then Ret (p, [], off, - EINVAL)
  else if rmem_size p <=? off then Ret (p, [], off, 0)
  else
    let rlen := rmem_size p - off in
    let rlen := if len <? rlen then len else rlen in
    m ← or_oops (mapped_va p);
    d ← or_oops (mem_get m off rlen);
    Ret (p, take room d, s64 (off + rlen), s64 rlen).

Definition dstsblt_dev_write (p : priv_data) : priv_data * Z := (set_stats p (count_write (stats p)), - EACCES).

Definition dstsblt_clear_region (p : priv_data) : outcome priv_data :=
  if negb (valid p) then Ret p else
  m ← or_oops (mapped_va p);
  m ← or_oops (mem_put m 0 (replicate (Z.to_nat (rmem_size p)) 0));
  Ret (set_mapped p (Some m)).

(** [_IOR], [_IO] with the character of the driver. *)
Definition _IOC (dir nr size : Z) : Z := Z.lor (Z.shiftl dir 30) (Z.lor (Z.shiftl size 16) (Z.lor (Z.shiftl 66 8) nr)).
Definition sizeof_dstsblt_info_t : Z := 80.
Definition DSTSBLT_IOCTL_GETVERS : Z := _IOC 2 0x00 4.
Definition DSTSBLT_IOCTL_LOCK : Z := _IOC 0 0x10 0.
Definition DSTSBLT_IOCTL_GETINFO : Z := _IOC 2 0x15 sizeof_dstsblt_info_t.

(** [dstsblt_info_t] in memory; [tail] is what the kernel's stack holds behind its
    last member, up to its alignment. *)
Definition b2z (b : bool) : Z := if b then 1 else 0.
Definition statistics_bytes (s : statistics) : list Z :=
  le_enc 4 (num_access s) ++ le_enc 4 (num_read s) ++ le_enc 4 (num_write s) ++ le_enc 4 (num_ioctl s) ++ le_enc 4 (num_mmap s).
Definition nvm_bytes (n : nvm_info) : list Z := partname n ++ le_enc 4 (offset n) ++ le_enc 4 (entrysize n).
Definition info_bytes (p : priv_data) (tail : list Z) : list Z :=
  le_enc 4 (id p) ++ le_enc 4 (b2z (locked p)) ++ le_enc 4 DRIVER_VERSION_INT ++ le_enc 4 0 ++
  le_enc 8 (rmem_base p) ++ le_enc 8 (rmem_size p) ++ statistics_bytes (stats p) ++ nvm_bytes (nvm p) ++ tail.

(** What reaches the user, and the result. *)
Definition dstsblt_dev_ioctl (p : priv_data) (room : nat) (tail : list Z) (cmd : Z) : outcome (priv_data * list Z * Z) :=
  let p := set_stats p (count_ioctl (stats p)) in
  if cmd =? DSTSBLT_IOCTL_LOCK then p ← dstsblt_clear_region (set_locked p true); Ret (p, [], 0)
  else if cmd =? DSTSBLT_IOCTL_GETINFO then Ret (p, take room (info_bytes p tail), 0)
  else if cmd =? DSTSBLT_IOCTL_GETVERS then Ret (p, take room (le_enc 4 DRIVER_VERSION_INT), 0)
  else Ret (p, [], - EINVAL).

Definition dstsblt_dev_mmap : Z := - EIO.

(** ** A history of the device *)

Inductive op :=
| OpOpen
| OpRead (room : nat) (len off : Z)
| OpWrite
| OpIoctl (room : nat) (tail : list Z) (cmd : Z)
| OpMmap.
(** The state after, what the client sees: bytes and the result. *)
Definition step (p : priv_data) (o : op) : outcome (priv_data * (list Z * Z)) :=
  match o with
  | OpOpen => let '(p, r) := dstsblt_dev_open p in Ret (p, ([], r))
  | OpRead room len off => '(p, d, _, r) ← dstsblt_dev_read p room len off; Ret (p, (d, r))
  | OpWrite => let '(p, r) := dstsblt_dev_write p in Ret (p, ([], r))
  | OpIoctl room tail cmd => '(p, d, r) ← dstsblt_dev_ioctl p room tail cmd; Ret (p, (d, r))
  | OpMmap => Ret (p, ([], dstsblt_dev_mmap))
  end.
Fixpoint history (p : priv_data) (os : list op) : outcome (priv_data * list (list Z * Z)) :=
  match os with
  | [] => Ret (p, [])
  | o :: os => '(p, x) ← step p o; '(p, xs) ← history p os; Ret (p, x :: xs)
  end.

(** A client that reads on from where it is, with buffers of the given lengths. *)
Fixpoint read_on (p : priv_data) (off : Z) (lens : list Z) : outcome (priv_data * list Z * Z) :=
  match lens with
  | [] => Ret (p, [], off)
  | len :: lens =>
    '(p, d, off, _) ← dstsblt_dev_read p (Z.to_nat len) len off;
    '(p, d', off) ← read_on p off lens;
    Ret (p, d ++ d', off)
  end.

(** A region that was set up. *)
Record ready (p : priv_data) (m : list Z) : Prop := mkReady {
  r_map : mapped_va p = Some m; r_len : Z.of_nat (length m) = rmem_size p; r_valid : valid p = true; r_size : rmem_size p < 2 ^ 63 }.

(** ** Reading the log *)

Lemma mem_get_take (m : list Z) off n :
  0 <= off -> 0 <= n -> off + n <= Z.of_nat (length m) -> mem_get m off n = Some (take (Z.to_nat n) (drop (Z.to_nat off) m)).
Proof.
  intros. unfold mem_get. destruct (Z.leb_spec 0 off), (Z.leb_spec 0 n), (Z.leb_spec (off + n) (Z.of_nat (length m))); done || lia.
Qed.

Lemma read_ready p m room len off : ready p m -> locked p = false -> 0 <= len -> 0 <= off <= rmem_size p ->
  let rlen := Z.min len (rmem_size p - off) in
  dstsblt_dev_read p room len off =
    Ret (set_stats p (count_read (stats p)), take room (take (Z.to_nat rlen) (drop (Z.to_nat off) m)), off + rlen, rlen).
Proof.
  intros [R1 R2 R3 R4] Hl Hn Ho. cbv zeta. unfold dstsblt_dev_read. cbn [set_stats locked rmem_size mapped_va]. rewrite Hl, R1.
  destruct (Z.ltb_spec off 0); [lia|]. destruct (Z.leb_spec (rmem_size p) off).
  - rewrite Z.min_r by lia. replace off with (rmem_size p) by lia. rewrite Z.sub_diag, Z.add_0_r. by destruct room.
  - replace (if len <? rmem_size p - off then len else rmem_size p - off) with (Z.min len (rmem_size p - off))
      by (destruct (Z.ltb_spec len (rmem_size p - off)); lia).
    cbn [or_oops mbind outcome_bind]. rewrite mem_get_take by lia. cbn [or_oops mbind outcome_bind]. by rewrite !s64_id by lia.
Qed.

Lemma ready_stats p m s : ready p m -> ready (set_stats p s) m.
Proof. by intros []. Qed.

Lemma read_on_ready lens : forall p m off, ready p m -> locked p = false -> Forall (fun n => 0 <= n) lens -> 0 <= off <= rmem_size p ->
  let sum := foldr Z.add 0 lens in
  exists s, read_on p off lens = Ret (set_stats p s, take (Z.to_nat sum) (drop (Z.to_nat off) m), Z.min (off + sum) (rmem_size p)).
Proof.
  induction lens as [|n lens IH]; intros p m off Hr Hl Hn Ho; cbv zeta; cbn [foldr read_on].
  - exists (stats p). rewrite Z.add_0_r, Z.min_l by lia. by destruct p.
  - apply list.Forall_cons in Hn as [Hn Hs]. rewrite (read_ready p m) by done. cbn [mbind outcome_bind].
    set (r := Z.min n (rmem_size p - off)).
    assert (Hsum : 0 <= foldr Z.add 0 lens) by (clear - Hs; induction Hs; cbn; lia).
    destruct (IH (set_stats p (count_read (stats p))) m (off + r)) as [s ->]; [by apply ready_stats|done|done|cbn; lia|].
    exists s. cbn [mbind outcome_bind set_stats rmem_size]. f_equal. f_equal; [f_equal|lia].
    rewrite take_take, Nat.min_r by lia. destruct Hr as [_ R2 _ _].
    rewrite (Z2Nat.inj_add n) by lia. destruct (Z.le_ge_cases n (rmem_size p - off)).
    + assert (r = n) as -> by lia. rewrite (Z2Nat.inj_add off n) by lia. by rewrite <- drop_drop, take_take_drop.
    + assert (r = rmem_size p - off) as -> by lia.
      rewrite (drop_ge _ (Z.to_nat (off + _))), take_nil, app_nil_r by lia. by rewrite !take_ge by (rewrite length_drop; lia).
Qed.

(** A client that reads on with buffers of any lengths gets the log from its
    first byte, in order and without a gap, as far as its buffers reach; when they
    reach to the end it has the whole log, and further reads return 0. *)
Theorem log_read_exact (p : priv_data) (m : list Z) (lens : list Z) (room : nat) (len : Z)
    (Hr : ready p m) (Hl : locked p = false) (Hn : Forall (fun n => 0 <= n) lens) (Hlen : 0 <= len) :
  let sum := foldr Z.add 0 lens in
  exists p' off, read_on p 0 lens = Ret (p', take (Z.to_nat sum) m, off) /\
    (rmem_size p <= sum -> read_on p 0 lens = Ret (p', m, off) /\
      exists p'', dstsblt_dev_read p' room len off = Ret (p'', [], off, 0)).
Proof.
  cbv zeta. assert (H0 : 0 <= rmem_size p) by (destruct Hr; lia).
  destruct (read_on_ready lens p m 0 Hr Hl Hn ltac:(lia)) as [s Hs]. cbv zeta in Hs. rewrite Hs. change (Z.to_nat 0) with 0%nat. rewrite drop_0.
  eexists _, _. split; [done|]. intros Hsum. rewrite take_ge by (destruct Hr; lia). split; [done|].
  rewrite Z.min_r by lia. eexists. rewrite (read_ready _ m) by (cbn; done || lia || by apply ready_stats).
  cbn [set_stats rmem_size]. rewrite Z.sub_diag, Z.min_r by lia. rewrite Z.add_0_r. by destruct room.
Qed.

(** ** Locking *)

(** Regions that differ in nothing but what they hold. *)
Definition indistinguishable (p q : priv_data) : Prop := set_mapped p None = set_mapped q None.
#[export] Instance indistinguishable_equiv : Equivalence indistinguishable.
Proof. unfold indistinguishable. split; [done|intros ??; congruence|intros ???; congruence]. Qed.

Definition is_lock (o : op) : bool := match o with OpIoctl _ _ cmd => cmd =? DSTSBLT_IOCTL_LOCK | _ => false end.
Definition is_read (o : op) : bool := match o with OpRead _ _ _ => true | _ => false end.
(** Offsets are not negative: the file system sees to it. *)
Definition sane (o : op) : bool := match o with OpRead _ len off => (0 <=? len) && (0 <=? off) | _ => true end.

Lemma indist_eq p q m : indistinguishable p q -> mapped_va q = Some m -> q = set_mapped p (Some m).
Proof. destruct p, q. unfold indistinguishable, set_mapped. cbn. intros [= <- <- <- <- <- <- <- <-] ->. done. Qed.

Lemma clear_ready p m : ready p m -> forall b, dstsblt_clear_region (set_locked p b) = Ret (set_mapped (set_locked p b) (Some (replicate (length m) 0))).
Proof.
  intros [R1 R2 R3 _] b. unfold dstsblt_clear_region. cbn [set_locked valid mapped_va rmem_size]. rewrite R3, R1, <- R2, Nat2Z.id.
  cbn [negb or_oops mbind outcome_bind]. unfold mem_put. rewrite length_replicate.
  destruct (Z.leb_spec (0 + Z.of_nat (length m)) (Z.of_nat (length m))); [|lia]. cbn [Z.leb Z.compare andb or_oops mbind outcome_bind].
  change (Z.to_nat 0) with 0%nat. by rewrite take_0, Nat.add_0_l, drop_all, app_nil_r.
Qed.

(** What an operation counts: each its own call, but for a mapping. *)
Definition counted (s : statistics) (o : op) : statistics :=
  match o with
  | OpOpen => count_access s | OpRead _ _ _ => count_read s | OpWrite => count_write s | OpIoctl _ _ _ => count_ioctl s | OpMmap => s
  end.
Definition zeros (m : list Z) : list Z := replicate (length m) 0.
(** A region that held [m], after operations that counted [s]; [l] if one of them
    was a lock. *)
Definition after (p : priv_data) (m : list Z) (s : statistics) (l : bool) : priv_data :=
  set_mapped (set_locked (set_stats p s) (locked p || l)) (Some (if l then zeros m else m)).
Ltac now_ends := eexists; split; [reflexivity|done].

(** What a step does to a region that was set up. *)
Lemma step_ready p m o : ready p m -> sane o = true ->
  exists x, step p o = Ret (after p m (counted (stats p) o) (is_lock o), x) /\
    (locked p = true -> is_read o = true -> x = ([], - EPERM)).
Proof.
  intros Hr Hs. pose proof Hr as [R1 R2 R3 R4].
  assert (Hid : forall s, set_stats p s = after p m s false).
  { intros s. unfold after. rewrite orb_false_r, <- R1. done. }
  destruct o as [|room len off| |room tail cmd|]; cbn [step is_lock is_read counted].
  - unfold dstsblt_dev_open. rewrite R3, Hid. now_ends.
  - cbn [sane] in Hs. apply andb_true_iff in Hs as [Hn%Z.leb_le Ho%Z.leb_le]. destruct (locked p) eqn:El.
    + unfold dstsblt_dev_read. cbn [set_stats locked]. rewrite El. cbn [mbind outcome_bind]. rewrite Hid. now_ends.
    + destruct (Z.le_ge_cases off (rmem_size p)).
      * rewrite (read_ready p m) by done. cbn [mbind outcome_bind]. rewrite Hid. now_ends.
      * unfold dstsblt_dev_read. cbn [set_stats locked rmem_size]. rewrite El. destruct (Z.ltb_spec off 0); [lia|].
        destruct (Z.leb_spec (rmem_size p) off); [|lia]. cbn [mbind outcome_bind]. rewrite Hid. now_ends.
  - unfold dstsblt_dev_write. rewrite Hid. now_ends.
  - unfold dstsblt_dev_ioctl. destruct (Z.eqb_spec cmd DSTSBLT_IOCTL_LOCK) as [->|].
    + rewrite (clear_ready _ m) by by apply ready_stats. cbn [mbind outcome_bind]. unfold after. rewrite orb_true_r. now_ends.
    + destruct (cmd =? DSTSBLT_IOCTL_GETINFO); [|destruct (cmd =? DSTSBLT_IOCTL_GETVERS)];
        cbn [mbind outcome_bind]; rewrite Hid; now_ends.
  - rewrite <- Hid. exists ([], dstsblt_dev_mmap). split; [by destruct p|done].
Qed.

Lemma after_ready p m s l : ready p m -> ready (after p m s l) (if l then zeros m else m).
Proof.
  intros [R1 R2 R3 R4]. constructor; cbn; try done. destruct l; [|done]. unfold zeros. by rewrite length_replicate.
Qed.
Lemma after_after p m s l s' l' : after (after p m s l) (if l then zeros m else m) s' l' = after p m s' (l || l').
Proof.
  unfold after, set_mapped, set_locked, set_stats. cbn. rewrite orb_assoc. repeat f_equal.
  destruct l, l'; try done. unfold zeros. by rewrite length_replicate.
Qed.

Lemma history_ready os : forall p m, ready p m -> forallb sane os = true ->
  exists xs, history p os = Ret (after p m (foldl counted (stats p) os) (existsb is_lock os), xs) /\ length xs = length os /\
    (locked p = true -> forall i o, os !! i = Some o -> is_read o = true -> xs !! i = Some ([], - EPERM)).
Proof.
  induction os as [|o os IH]; intros p m Hr Hs.
  - exists []. cbn. split; [|done]. unfold after. rewrite orb_false_r, <- (r_map _ _ Hr). by destruct p.
  - cbn in Hs. apply andb_true_iff in Hs as [Ho Hs]. destruct (step_ready p m o Hr Ho) as (x & E & Hx).
    destruct (IH _ _ (after_ready _ _ (counted (stats p) o) (is_lock o) Hr) Hs) as (xs & Eh & Hl & Hxs).
    exists (x :: xs). cbn [history]. rewrite E. cbn [mbind outcome_bind]. rewrite Eh, after_after. cbn [mbind outcome_bind length].
    split; [done|]. split; [by rewrite Hl|]. intros L [|i] o' [=] Hi; [subst o'; cbn; by rewrite Hx|].
    cbn. apply (Hxs ltac:(cbn; by rewrite L) i o'); done.
Qed.

Lemma history_app a b : forall p, history p (a ++ b) = ('(p, xs) ← history p a; '(p, ys) ← history p b; Ret (p, xs ++ ys)).
Proof.
  induction a as [|o a IH]; intros p; cbn [app history mbind outcome_bind].
  - by destruct (history p b) as [[q ys]| |].
  - destruct (step p o) as [[q x]| |]; [|done..]. cbn [mbind outcome_bind]. rewrite IH.
    destruct (history q a) as [[r xs]| |]; [|done..]. cbn [mbind outcome_bind]. by destruct (history r b) as [[t ys]| |].
Qed.

(** C5. A lock is for good, and forgets: after it nothing that a client can do,
    whatever was done before, tells one log from another. Two regions that hold
    different logs answer every later operation alike and are the same region,
    which holds zeros; the answer to every read is EPERM, without a byte. *)
Theorem locked_forgets (p q : priv_data) (m1 m2 : list Z) (os1 os2 : list op) (room : nat) (tail : list Z)
    (Hp : ready p m1) (Hq : ready q m2) (Hi : indistinguishable p q) (H1 : forallb sane os1 = true) (H2 : forallb sane os2 = true) :
  let lock := OpIoctl room tail DSTSBLT_IOCTL_LOCK in
  exists r xs ys zs, history p (os1 ++ lock :: os2) = Ret (r, xs ++ zs) /\ history q (os1 ++ lock :: os2) = Ret (r, ys ++ zs) /\
    length xs = S (length os1) /\ length ys = S (length os1) /\ mapped_va r = Some (zeros m1) /\
    (forall i o, os2 !! i = Some o -> is_read o = true -> zs !! i = Some ([], - EPERM)).
Proof.
  cbv zeta. set (lock := OpIoctl _ _ _). change (lock :: os2) with ([lock] ++ os2). rewrite app_assoc, !(history_app (os1 ++ [lock])).
  assert (Hs : forallb sane (os1 ++ [lock]) = true) by (rewrite forallb_app, H1; done).
  assert (Hk : existsb is_lock (os1 ++ [lock]) = true) by (rewrite existsb_app; cbn [existsb is_lock lock]; by rewrite orb_true_r).
  assert (Hz : zeros m2 = zeros m1).
  { unfold zeros. f_equal. assert (rmem_size p = rmem_size q) by (by injection Hi). destruct Hp, Hq. lia. }
  pose proof (indist_eq p q m2 Hi (r_map _ _ Hq)) as Eq.
  destruct (history_ready _ p m1 Hp Hs) as (xs & -> & Lx & _). destruct (history_ready _ q m2 Hq Hs) as (ys & -> & Ly & _).
  rewrite Hk. set (s := foldl counted (stats p) _). set (r0 := after p m1 s true).
  assert (Er : after q m2 (foldl counted (stats q) (os1 ++ [lock])) true = r0).
  { rewrite Eq. unfold r0, after. rewrite Hz. done. }
  rewrite Er. cbn [mbind outcome_bind]. destruct (history_ready os2 r0 _ (after_ready _ _ s true Hp) H2) as (zs & -> & _ & Hr).
  cbn [mbind outcome_bind]. exists (after r0 (zeros m1) (foldl counted (stats r0) os2) (existsb is_lock os2)), xs, ys, zs.
  rewrite Lx, Ly, length_app. cbn [length]. split; [done|]. split; [done|]. split; [lia|]. split; [lia|]. split.
  - cbn. destruct (existsb is_lock os2); [|done]. unfold zeros. by rewrite length_replicate.
  - apply Hr. cbn. apply orb_true_r.
Qed.

(** ** The statistics *)

Definition calls (f : op -> bool) (os : list op) : Z := Z.of_nat (length (filter (fun o => f o = true) os)).
Definition is_open (o : op) : bool := match o with OpOpen => true | _ => false end.
Definition is_write (o : op) : bool := match o with OpWrite => true | _ => false end.
Definition is_ioctl (o : op) : bool := match o with OpIoctl _ _ _ => true | _ => false end.
Definition capped (n : Z) : Z := Z.min n UINT_MAX.

Lemma count_capped n k : n <= UINT_MAX -> 0 <= k -> capped (count n + k) = capped (n + 1 + k).
Proof. unfold count, capped. destruct (Z.ltb_spec n UINT_MAX); lia. Qed.
Lemma count_le n : n <= UINT_MAX -> count n <= UINT_MAX.
Proof. unfold count. destruct (Z.ltb_spec n UINT_MAX); lia. Qed.

Lemma calls_cons f o os : calls f (o :: os) = b2z (f o) + calls f os.
Proof. unfold calls. rewrite filter_cons. destruct (f o); cbn [b2z]; case_decide; try done. cbn [length]. lia. Qed.
Lemma calls_pos f os : 0 <= calls f os.
Proof. unfold calls. lia. Qed.

Lemma counted_all os : forall s,
  num_access s <= UINT_MAX -> num_read s <= UINT_MAX -> num_write s <= UINT_MAX -> num_ioctl s <= UINT_MAX ->
  foldl counted s os =
    mkStats (capped (num_access s + calls is_open os)) (capped (num_read s + calls is_read os))
      (capped (num_write s + calls is_write os)) (capped (num_ioctl s + calls is_ioctl os)) (num_mmap s).
Proof.
  induction os as [|o os IH]; intros s H1 H2 H3 H4.
  - cbn [foldl]. change (calls _ []) with 0. unfold capped. rewrite !Z.add_0_r, !Z.min_l by done. by destruct s.
  - cbn [foldl]. rewrite !calls_cons.
    assert (Hc : forall n k, n <= UINT_MAX -> capped (count n + calls k os) = capped (n + (1 + calls k os))).
    { intros n k Hn. rewrite count_capped by (done || apply calls_pos). f_equal. lia. }
    destruct o; rewrite IH by (cbn; auto using count_le); cbn; rewrite ?Hc by done; reflexivity.
Qed.

Lemma statistics_length s : length (statistics_bytes s) = 20%nat.
Proof. unfold statistics_bytes. by rewrite !length_app, !length_le_enc. Qed.

(** The information that a client asks for counts the calls since the region was
    set up, each counter up to the largest 32-bit number, this one included; the
    calls that map it are not counted, whatever their counter is for. Its last
    four bytes are not the driver's: what was on the stack reaches the client. *)
Theorem info_exact (p q : priv_data) (m tail : list Z) (os : list op) (xs : list (list Z * Z)) (room : nat)
    (Hp : ready p m) (Hs : forallb sane os = true) (H0 : stats p = no_stats) (Hl : length (partname (nvm p)) = 16%nat)
    (Hh : history p os = Ret (q, xs)) (Ht : length tail = 4%nat) (Hroom : (80 <= room)%nat) :
  exists q' d, dstsblt_dev_ioctl q room tail DSTSBLT_IOCTL_GETINFO = Ret (q', d, 0) /\ length d = 80%nat /\
    take 20 (drop 32 d) = statistics_bytes (mkStats (capped (calls is_open os)) (capped (calls is_read os))
      (capped (calls is_write os)) (capped (1 + calls is_ioctl os)) 0) /\
    drop 76 d = tail.
Proof.
  destruct (history_ready os p m Hp Hs) as (ys & E & _). rewrite E in Hh. injection Hh as <- <-. rewrite H0.
  rewrite counted_all by (cbn; unfold UINT_MAX; lia). cbn [num_access num_read num_write num_ioctl num_mmap no_stats]. rewrite !Z.add_0_l.
  unfold dstsblt_dev_ioctl.
  change (DSTSBLT_IOCTL_GETINFO =? DSTSBLT_IOCTL_LOCK) with false. change (DSTSBLT_IOCTL_GETINFO =? DSTSBLT_IOCTL_GETINFO) with true.
  cbn iota. eexists _, _. split; [reflexivity|].
  set (w := set_stats _ _). assert (Hn : length (partname (nvm w)) = 16%nat) by exact Hl.
  assert (Hw : stats w = mkStats (capped (calls is_open os)) (capped (calls is_read os)) (capped (calls is_write os)) (capped (1 + calls is_ioctl os)) 0).
  { cbn. unfold count_ioctl. cbn. f_equal. unfold count, capped. pose proof (calls_pos is_ioctl os).
    destruct (Z.ltb_spec (Z.min (calls is_ioctl os) UINT_MAX) UINT_MAX); lia. }
  clearbody w. unfold info_bytes. rewrite Hw. set (st := statistics_bytes _). assert (Hst : length st = 20%nat) by apply statistics_length. clearbody st.
  assert (E1 : forall r, le_enc 4 (id w) ++ le_enc 4 (b2z (locked w)) ++ le_enc 4 DRIVER_VERSION_INT ++ le_enc 4 0 ++ le_enc 8 (rmem_base w) ++ le_enc 8 (rmem_size w) ++ r
    = (le_enc 4 (id w) ++ le_enc 4 (b2z (locked w)) ++ le_enc 4 DRIVER_VERSION_INT ++ le_enc 4 0 ++ le_enc 8 (rmem_base w) ++ le_enc 8 (rmem_size w)) ++ r)
    by (intros; by rewrite <- !app_assoc).
  rewrite E1. set (hd := le_enc 4 (id w) ++ _). assert (Hd : length hd = 32%nat) by (unfold hd; rewrite !length_app, !length_le_enc; done). clearbody hd.
  assert (Hv : length (nvm_bytes (nvm w)) = 24%nat) by (unfold nvm_bytes; rewrite !length_app, !length_le_enc; lia).
  rewrite take_ge by (rewrite !length_app; lia). split; [rewrite !length_app; lia|]. split.
  - rewrite drop_app_length' by done. by rewrite take_app_length'.
  - rewrite !app_assoc. rewrite drop_app_length' by (rewrite !length_app; lia). done.
Qed.

(** ** The device tree *)

(** What the driver looks at of a compatible node. *)
Record blt_node := mkNode { available : bool; parent_name : option string; props : device_node }.

(** A property's bytes: none where it has no value. *)
Definition prop_bytes (n : blt_node) (name : string) : option (list Z) :=
  match of_find_property (props n) name with Some v => Some (default [] v) | None => None end.
Definition be64 (w : list Z) : Z := le_dec (rev (take 8 w)).
Definition of_size (n : nat) (o : option (list Z)) : option (list Z) :=
  match o with Some w => if bool_decide (length w = n) then Some w else None | None => None end.

Definition read_nvm (n : blt_node) (v : nvm_info) : nvm_info :=
  mkNvm
    (match prop_bytes n "nvmpart" with
     | Some w => if bool_decide (length w < 16)%nat then w ++ drop (length w) (partname v) else partname v | None => partname v end)
    (match of_size 4 (prop_bytes n "nvmoffset") with Some w => be32 w | None => offset v end)
    (match of_size 4 (prop_bytes n "metricsize") with Some w => be32 w | None => entrysize v end).

(** One round of the loop over the nodes: the regions and their number. *)
Definition init_node (st : list priv_data * Z) (n : blt_node) : list priv_data * Z :=
  if negb (available n) then st else
  if negb (bool_decide (parent_name n = Some BLT_OF_BASENODE)) then st else
  match of_size 16 (prop_bytes n "reg"), of_size 4 (prop_bytes n "region-ident") with
  | Some reg, Some ident =>
    let region_id := be32 ident in
    if Z.of_nat NUM_BLT_REGIONS <=? region_id then st else
    match st.1 !! Z.to_nat region_id with
    | Some p =>
      if used p then st else
      let p := mkPriv (be64 reg) (be64 (drop 8 reg)) (mapped_va p) region_id (valid p) true (locked p) (stats p) (read_nvm n (nvm p)) in
      (<[Z.to_nat region_id := p]> st.1, u32 (st.2 + 1))
    | None => st
    end
  | _, _ => st
  end.

(** ** The module *)

Inductive resource := ChrdevRegion | SysClass | Mapping (i : Z) | CharDevice (i : Z) | SysDevice (i : Z).
#[export] Instance resource_eq_dec : EqDecision resource.
Proof. solve_decision. Defined.

Record blt := mkBlt { privs : list priv_data; blt_num_regions : Z; holds : holdings resource }.

(** The answers of the kernel: 0 or an error; the class or its error (a null
    pointer as 0); what a mapping of a range shows. *)
Record init_answers := mkInit {
  a_chrdev : Z; a_class : option Z; a_ioremap : Z -> Z -> option (list Z); a_cdev_add : Z; a_device_create : Z }.

(** [device_create] of a class that is an error is an error. *)
Definition dstsblt_setup_device (a : init_answers) (k : holdings resource) (index : Z) : holdings resource * Z :=
  if negb (a_cdev_add a =? 0) then (k, a_cdev_add a) else
  let k := acquire (CharDevice index) k in
  let ret := match a_class a with Some _ => - ENODEV | None => a_device_create a end in
  if negb (ret =? 0) then (release (CharDevice index) k, ret) else (acquire (SysDevice index) k, 0).

Definition misaligned (n : Z) : bool := negb (Z.land n (PAGE_SIZE - 1) =? 0).
Definition dstsblt_register_region (a : init_answers) (k : holdings resource) (p : priv_data) : holdings resource * priv_data * Z :=
  if misaligned (rmem_base p) || misaligned (rmem_size p) then (k, p, - 1)
  else if (rmem_base p =? 0) || (rmem_size p =? 0) then (k, p, - 1)
  else match a_ioremap a (rmem_base p) (rmem_size p) with
  | None => (k, p, - 1)
  | Some m =>
    let p := set_mapped p (Some m) in
    let '(k, err) := dstsblt_setup_device a (acquire (Mapping (id p)) k) (id p) in
    if negb (err =? 0) then (release (Mapping (id p)) k, p, - 1) else (k, set_valid p true, 0)
  end.

Fixpoint register_regions (a : init_answers) (k : holdings resource) (l : list priv_data) : holdings resource * list priv_data * Z :=
  match l with
  | [] => (k, [], 0)
  | p :: l =>
    let '(k, p, failed) := if used p then let '(k, p, err) := dstsblt_register_region a k p in (k, p, if err =? 0 then 0 else 1) else (k, p, 0) in
    let '(k, l, n) := register_regions a k l in
    (k, p :: l, failed + n)
  end.

Definition dstsblt_init (a : init_answers) (nodes : list blt_node) : blt * Z :=
  let '(l, num) := foldl init_node (replicate NUM_BLT_REGIONS no_priv, 0) nodes in
  let k := mkHoldings [] [] in
  if num =? 0 then (mkBlt l num k, - EIO) else
  if a_chrdev a <? 0 then (mkBlt l num k, a_chrdev a) else
  let k := acquire ChrdevRegion k in
  if bool_decide (a_class a = Some 0) then (mkBlt l num (release ChrdevRegion k), - EIO) else
  let k := match a_class a with None => acquire SysClass k | Some _ => k end in
  let '(k, l, regions_failed) := register_regions a k l in
  if regions_failed =? num then
    (mkBlt l num (release ChrdevRegion (release_when (bool_decide (a_class a = None)) SysClass k)), - EIO)
  else (mkBlt l num k, 0).

Fixpoint exit_regions (k : holdings resource) (l : list priv_data) : outcome (holdings resource * list priv_data) :=
  match l with
  | [] => Ret (k, [])
  | p :: l =>
    if valid p then
      p ← dstsblt_clear_region p;
      '(k, l) ← exit_regions (release (Mapping (id p)) (release (CharDevice (id p)) (release (SysDevice (id p)) k))) l;
      Ret (k, set_valid p false :: l)
    else '(k, l) ← exit_regions k l; Ret (k, p :: l)
  end.
Definition dstsblt_exit (b : blt) : outcome blt :=
  '(k, l) ← exit_regions (holds b) (take (Z.to_nat (blt_num_regions b)) (privs b));
  Ret (mkBlt (l ++ drop (Z.to_nat (blt_num_regions b)) (privs b)) (blt_num_regions b) (release ChrdevRegion (release SysClass k))).

(** ** What the device tree declares *)

(** The region a node declares, if it is one: base, size and where it is stored
    after a crash. *)
Definition declared (n : blt_node) : option (Z * Z * nvm_info) :=
  if available n && bool_decide (parent_name n = Some "reserved-memory") then
    reg ← of_size 16 (prop_bytes n "reg");
    ident ← of_size 4 (prop_bytes n "region-ident");
    if be32 ident <=? 0 then Some (be64 reg, be64 (drop 8 reg), read_nvm n (mkNvm (replicate 16 0) 0 0)) else None
  else None.
Definition region_of (d : Z * Z * nvm_info) : priv_data := mkPriv d.1.1 d.1.2 None 0 false true false no_stats d.2.

(** A range that is whole pages, and the kernel's answers all as wished. *)
Definition usable (base size : Z) : bool :=
  (base mod PAGE_SIZE =? 0) && (size mod PAGE_SIZE =? 0) && negb (base =? 0) && negb (size =? 0).
Definition answered (a : init_answers) : bool :=
  (0 <=? a_chrdev a) && bool_decide (a_class a = None) && (a_cdev_add a =? 0) && (a_device_create a =? 0).

Lemma misaligned_mod n : misaligned n = negb (n mod PAGE_SIZE =? 0).
Proof. unfold misaligned. change (PAGE_SIZE - 1) with (Z.ones 12). by rewrite Z.land_ones by lia. Qed.
Lemma be32_pos w : Forall (fun c => 0 <= c < 256) w -> 0 <= be32 w.
Proof. intros H. pose proof (be32_range w H). lia. Qed.

Lemma init_node_first n : node_bytes (props n) ->
  init_node ([no_priv], 0) n = match declared n with Some d => ([region_of d], 1) | None => ([no_priv], 0) end.
Proof.
  intros Hb. unfold init_node, declared. destruct (available n); [|done]. cbn [negb andb].
  change BLT_OF_BASENODE with "reserved-memory"%string. destruct (bool_decide _); [|done]. cbn [negb].
  destruct (of_size 16 _) as [reg|]; [|done]. destruct (of_size 4 _) as [ident|] eqn:E; [|done]. cbn [mbind option_bind].
  assert (Hi : 0 <= be32 ident).
  { apply be32_pos. unfold of_size, prop_bytes, of_find_property in E. destruct (props n !! "region-ident"%string) as [v|] eqn:Ev; [|done].
    specialize (Hb _ _ Ev). destruct (bool_decide _); [|done]. injection E as <-. by destruct v. }
  change (Z.of_nat NUM_BLT_REGIONS) with 1. destruct (Z.leb_spec 1 (be32 ident)), (Z.leb_spec (be32 ident) 0); try lia; [done|].
  assert (be32 ident = 0) as -> by lia. done.
Qed.
Lemma init_node_used p n : used p = true -> init_node ([p], 1) n = ([p], 1).
Proof.
  intros Hu. unfold init_node. destruct (negb (available n)); [done|]. destruct (negb (bool_decide _)); [done|].
  destruct (of_size 16 _) as [reg|]; [|done]. destruct (of_size 4 _) as [ident|]; [|done].
  destruct (_ <=? _); [done|]. cbn [fst]. destruct (Z.to_nat (be32 ident)) as [|[|k]]; cbn; [by rewrite Hu|done|done].
Qed.
Lemma init_nodes_spec nodes : Forall (fun n => node_bytes (props n)) nodes ->
  foldl init_node ([no_priv], 0) nodes = match head (omap declared nodes) with Some d => ([region_of d], 1) | None => ([no_priv], 0) end.
Proof.
  induction 1 as [|n nodes Hn _ IH]; [done|]. cbn [foldl]. rewrite init_node_first by done. cbn [omap list_omap].
  destruct (declared n) as [d|]; [|exact IH]. cbn [head]. clear IH.
  induction nodes as [|x nodes IH]; [done|]. cbn [foldl]. by rewrite init_node_used.
Qed.

Ltac follow := repeat first [progress cbn [negb andb orb fst snd release_when mbind outcome_bind or_oops] | follow_holdings].

(** The registration of a region, from any holdings. *)
Definition granted (a : init_answers) : bool := bool_decide (a_class a = None) && (a_cdev_add a =? 0) && (a_device_create a =? 0).
Lemma register_region_spec a l p :
  if usable (rmem_base p) (rmem_size p) && granted a && bool_decide (is_Some (a_ioremap a (rmem_base p) (rmem_size p))) then
    exists m, a_ioremap a (rmem_base p) (rmem_size p) = Some m /\
      dstsblt_register_region a (mkHoldings l []) p =
        (mkHoldings (SysDevice (id p) :: CharDevice (id p) :: Mapping (id p) :: l) [], set_valid (set_mapped p (Some m)) true, 0)
  else exists p', dstsblt_register_region a (mkHoldings l []) p = (mkHoldings l [], p', - 1).
Proof.
  unfold dstsblt_register_region, usable, granted. rewrite !misaligned_mod.
  destruct (rmem_base p mod PAGE_SIZE =? 0); cbn [negb andb orb]; [|by eexists].
  destruct (rmem_size p mod PAGE_SIZE =? 0); cbn [negb andb orb]; [|by eexists].
  destruct (rmem_base p =? 0); cbn [negb andb orb]; [by eexists|]. destruct (rmem_size p =? 0); cbn [negb andb orb]; [by eexists|].
  destruct (a_ioremap a _ _) as [m|] eqn:Em.
  2: { rewrite andb_false_r. by eexists. }
  rewrite (bool_decide_true (is_Some (Some m))) by by eexists. rewrite andb_true_r. unfold dstsblt_setup_device.
  assert (Hf : forall q e, e <> 0 -> (if negb (e =? 0) then (release (Mapping (id p)) (acquire (Mapping (id p)) (mkHoldings l [])), q, - 1)
    else (acquire (Mapping (id p)) (mkHoldings l []), set_valid q true, 0)) = (mkHoldings l [], q, -1)).
  { intros q e He. destruct (Z.eqb_spec e 0); [done|]. by follow. }
  change (id (set_mapped p (Some m))) with (id p).
  destruct (Z.eqb_spec (a_cdev_add a) 0); cbn [negb andb].
  2: { rewrite andb_false_r. cbn [andb]. rewrite Hf by done. by eexists. }
  assert (Hd : forall e, release (CharDevice (id p)) (acquire (CharDevice (id p)) (acquire (Mapping (id p)) (mkHoldings l e))) = acquire (Mapping (id p)) (mkHoldings l e))
    by (intros; by follow).
  destruct (a_class a) as [c|].
  { rewrite (bool_decide_false (Some c = None)) by done. cbn [andb]. change (- ENODEV =? 0) with false. cbn [negb]. rewrite Hd, Hf by done. by eexists. }
  rewrite (bool_decide_true (None = None)) by done. cbn [andb]. destruct (Z.eqb_spec (a_device_create a) 0) as [->|]; cbn [negb].
  - exists m. by split.
  - rewrite Hd, Hf by done. by eexists.
Qed.

(** The exit of the one region. *)
Lemma exit_one l p m : ready p m ->
  exit_regions (mkHoldings (SysDevice (id p) :: CharDevice (id p) :: Mapping (id p) :: l) []) [p] =
    Ret (mkHoldings l [], [set_valid (set_mapped p (Some (zeros m))) false]).
Proof.
  intros Hr. cbn [exit_regions]. rewrite (r_valid _ _ Hr).
  assert (Hp : set_locked p (locked p) = p) by by destruct p. rewrite <- Hp at 1. rewrite (clear_ready _ m) by done. rewrite Hp.
  cbn [mbind outcome_bind]. change (id (set_mapped p _)) with (id p). by follow.
Qed.

(** C37. The driver serves the first node that declares its region, whatever nodes
    surround it, when the range is whole pages and the kernel grants what is
    asked: then it holds the numbers, the class, the mapping and the two devices,
    each once, and its exit clears the log and gives all of them back. Otherwise
    it fails and holds nothing. *)
Theorem init_exact (a : init_answers) (nodes : list blt_node)
    (Hb : Forall (fun n => node_bytes (props n)) nodes) (Hm : forall b n m, a_ioremap a b n = Some m -> Z.of_nat (length m) = n /\ n < 2 ^ 63) :
  match head (omap declared nodes) with
  | None => exists b, dstsblt_init a nodes = (b, - EIO) /\ holds b = mkHoldings [] []
  | Some d =>
    if usable d.1.1 d.1.2 && answered a && bool_decide (is_Some (a_ioremap a d.1.1 d.1.2)) then
      exists b p m, dstsblt_init a nodes = (b, 0) /\ privs b = [p] /\ a_ioremap a d.1.1 d.1.2 = Some m /\
        ready p m /\ locked p = false /\ stats p = no_stats /\ nvm p = d.2 /\
        holds b = mkHoldings [SysDevice 0; CharDevice 0; Mapping 0; SysClass; ChrdevRegion] [] /\
        exists b' p', dstsblt_exit b = Ret b' /\ privs b' = [p'] /\ mapped_va p' = Some (zeros m) /\ valid p' = false /\
          holds b' = mkHoldings [] []
    else exists b ret, dstsblt_init a nodes = (b, ret) /\ ret < 0 /\ holds b = mkHoldings [] []
  end.
Proof.
  unfold dstsblt_init. change (replicate NUM_BLT_REGIONS no_priv) with [no_priv]. rewrite init_nodes_spec by done.
  destruct (head _) as [[[base sz] v]|]; [|by eexists]. cbn [fst snd]. change (1 =? 0) with false. cbn iota.
  unfold answered. rewrite Z.leb_antisym. destruct (Z.ltb_spec (a_chrdev a) 0); cbn [negb andb].
  { rewrite andb_false_r. eexists _, _. split; [reflexivity|done]. }
  destruct (bool_decide_reflect (a_class a = Some 0)) as [E0|E0].
  { rewrite E0, (bool_decide_false (Some 0 = None)) by done. cbn [andb]. rewrite andb_false_r. cbn [andb].
    eexists _, _. split; [reflexivity|]. split; [done|]. cbn [holds]. by follow. }
  cbn [register_regions region_of used fst snd].
  set (l := match a_class a with None => [SysClass; ChrdevRegion] | Some _ => [ChrdevRegion] end).
  assert (El : match a_class a with Some _ => acquire ChrdevRegion (mkHoldings [] []) | None => acquire SysClass (acquire ChrdevRegion (mkHoldings [] [])) end
    = mkHoldings l []) by (unfold l; by destruct (a_class a)).
  rewrite El. fold (granted a). pose proof (register_region_spec a l (region_of (base, sz, v))) as Hr.
  unfold region_of in Hr |- *. cbn [rmem_base rmem_size id fst snd] in Hr |- *. destruct (_ && _) eqn:Eg.
  - destruct Hr as (m & Em & Hr). rewrite Hr. cbn [Z.eqb]. change (0 + 0 =? 1) with false. cbn iota.
    apply andb_true_iff in Eg as [[_ Eg]%andb_true_iff _]. unfold granted in Eg. apply andb_true_iff in Eg as [[Ec%bool_decide_eq_true _]%andb_true_iff _].
    destruct (Hm _ _ _ Em) as [Hlen Hlt]. eexists _, _, m. split; [reflexivity|]. cbn [privs]. split; [reflexivity|]. split; [exact Em|].
    assert (Hready : ready (set_valid (set_mapped (mkPriv base sz None 0 false true false no_stats v) (Some m)) true) m) by by constructor.
    split; [exact Hready|]. split; [done|]. split; [done|]. split; [done|]. unfold l. rewrite Ec. split; [done|].
    unfold dstsblt_exit. cbn [privs blt_num_regions holds]. change (Z.to_nat 1) with 1%nat. cbn [take drop].
    pose proof (exit_one [SysClass; ChrdevRegion] _ m Hready) as He. unfold set_valid, set_mapped in He |- *.
    cbn [id rmem_base rmem_size mapped_va valid used locked stats nvm] in He |- *. rewrite He. cbn [mbind outcome_bind app]. eexists _, _. split; [reflexivity|]. split; [reflexivity|].
    split; [reflexivity|]. split; [reflexivity|]. cbn [holds]. by follow.
  - destruct Hr as (p' & Hr). rewrite Hr. change (-1 =? 0) with false. cbn iota. change (1 + 0 =? 1) with true. cbn iota.
    eexists _, _. split; [reflexivity|]. split; [done|]. cbn [holds]. unfold l. destruct (a_class a) as [e|].
    + rewrite bool_decide_false by done. by follow.
    + rewrite bool_decide_true by done. by follow.
Qed.

(** ** Examples *)

Definition region_with (m : list Z) : priv_data :=
  mkPriv 0x40000000 (Z.of_nat (length m)) (Some m) 0 true true false no_stats (mkNvm (replicate 16 0) 0 0).
Lemma region_ready m : Z.of_nat (length m) < 2 ^ 63 -> ready (region_with m) m.
Proof. by constructor. Qed.

Lemma log_read_exact_witness :
  exists p' off p'', read_on (region_with [10; 20; 30; 40; 50]) 0 [2; 0; 7] = Ret (p', [10; 20; 30; 40; 50], off) /\
    dstsblt_dev_read p' 8 8 off = Ret (p'', [], off, 0).
Proof.
  destruct (log_read_exact (region_with [10; 20; 30; 40; 50]) [10; 20; 30; 40; 50] [2; 0; 7] 8 8) as (p' & off & _ & H).
  - apply region_ready. reflexivity.
  - reflexivity.
  - repeat constructor; discriminate.
  - discriminate.
  - destruct H as [H (p'' & H')]; [discriminate|]. exists p', off, p''. split; [exact H|exact H'].
Defined.

(** Two logs, read in part before the lock: afterwards a read, the information and
    an unknown request answer alike. *)
Lemma locked_forgets_witness :
  let before := [OpOpen; OpRead 2 2 0] in
  let behind := [OpRead 8 8 0; OpIoctl 80 [1; 2; 3; 4] DSTSBLT_IOCTL_GETINFO; OpIoctl 0 [] 7] in
  exists r xs ys zs,
    history (region_with [10; 20]) (before ++ OpIoctl 0 [] DSTSBLT_IOCTL_LOCK :: behind) = Ret (r, xs ++ zs) /\
    history (region_with [30; 40]) (before ++ OpIoctl 0 [] DSTSBLT_IOCTL_LOCK :: behind) = Ret (r, ys ++ zs) /\
    xs <> ys /\ zs !! 0%nat = Some ([], - EPERM).
Proof.
  cbv zeta. destruct (locked_forgets (region_with [10; 20]) (region_with [30; 40]) [10; 20] [30; 40] [OpOpen; OpRead 2 2 0]
    [OpRead 8 8 0; OpIoctl 80 [1; 2; 3; 4] DSTSBLT_IOCTL_GETINFO; OpIoctl 0 [] 7] 0 [])
    as (r & xs & ys & zs & H1 & H2 & Lx & Ly & _ & Hz).
  - apply region_ready. reflexivity.
  - apply region_ready. reflexivity.
  - reflexivity.
  - reflexivity.
  - reflexivity.
  - exists r, xs, ys, zs. split; [exact H1|]. split; [exact H2|]. split.
    + intros ->. vm_compute in H1. vm_compute in H2. injection H1 as _ H1. injection H2 as _ H2. rewrite <- H1 in H2. discriminate H2.
    + exact (Hz 0%nat _ eq_refl eq_refl).
Defined.

Lemma info_exact_witness :
  exists q xs q' d, history (region_with [10; 20]) [OpOpen; OpRead 2 2 0; OpMmap; OpWrite; OpRead 2 2 2] = Ret (q, xs) /\
    dstsblt_dev_ioctl q 80 [0xde; 0xad; 0xbe; 0xef] DSTSBLT_IOCTL_GETINFO = Ret (q', d, 0) /\
    take 20 (drop 32 d) = statistics_bytes (mkStats 1 2 1 1 0) /\ drop 76 d = [0xde; 0xad; 0xbe; 0xef].
Proof.
  destruct (history (region_with [10; 20]) [OpOpen; OpRead 2 2 0; OpMmap; OpWrite; OpRead 2 2 2]) as [[q xs]| |] eqn:E;
    [|vm_compute in E; discriminate E..].
  destruct (info_exact (region_with [10; 20]) q [10; 20] [0xde; 0xad; 0xbe; 0xef] [OpOpen; OpRead 2 2 0; OpMmap; OpWrite; OpRead 2 2 2] xs 80)
    as (q' & d & H1 & _ & H2 & H3).
  - apply region_ready. reflexivity.
  - reflexivity.
  - reflexivity.
  - reflexivity.
  - exact E.
  - reflexivity.
  - lia.
  - exists q, xs, q', d. split; [reflexivity|]. split; [exact H1|]. split; [exact H2|exact H3].
Defined.

Definition blt_dt (base size : Z) : blt_node :=
  mkNode true (Some "reserved-memory"%string)
    (<["reg"%string := Some (rev (le_enc 8 base) ++ rev (le_enc 8 size))]> (<["region-ident"%string := Some [0; 0; 0; 0]]> ∅)).
Lemma blt_dt_bytes base size : node_bytes (props (blt_dt base size)).
Proof.
  assert (Hb : forall n v, Forall (fun c => 0 <= c < 256) (rev (le_enc n v))).
  { intros n v. apply list.Forall_forall. intros c Hc%list_elem_of_In. apply in_rev, list_elem_of_In in Hc.
    revert c Hc. apply list.Forall_forall. revert v. induction n as [|n IH]; intros v; cbn [le_enc]; constructor; [apply Z.mod_pos_bound; lia|apply IH]. }
  apply map_Forall_insert_2; [apply Forall_app; split; apply Hb|]. apply map_Forall_insert_2; [|apply map_Forall_empty].
  repeat constructor; lia.
Qed.
Definition page_of (b : Z) (base size : Z) : option (list Z) := if size =? PAGE_SIZE then Some (replicate (Z.to_nat PAGE_SIZE) b) else None.

Lemma init_exact_witness :
  let a := mkInit 0 None (page_of 65) 0 0 in
  exists b p, dstsblt_init a [blt_dt 0x40000000 0x1000; blt_dt 0x50000000 0x1000] = (b, 0) /\ privs b = [p] /\
    rmem_base p = 0x40000000 /\ exists b', dstsblt_exit b = Ret b' /\ holds b' = mkHoldings [] [].
Proof.
  cbv zeta. set (a := mkInit 0 None (page_of 65) 0 0). set (nodes := [_; _]).
  pose proof (init_exact a nodes) as H.
  assert (E : head (omap declared nodes) = Some (0x40000000, 0x1000, mkNvm (replicate 16 0) 0 0)) by (vm_compute; reflexivity).
  rewrite E in H. replace (usable _ _ && _ && _) with true in H by (vm_compute; reflexivity).
  destruct H as (b & p & m & H1 & H2 & _ & _ & _ & _ & _ & _ & b' & p' & H3 & _ & _ & _ & H4).
  - repeat constructor; apply blt_dt_bytes.
  - intros b n m. cbn. unfold page_of. destruct (Z.eqb_spec n PAGE_SIZE) as [->|]; [|discriminate]. intros [= <-].
    split; vm_compute; reflexivity.
  - exists b, p. split; [exact H1|]. split; [exact H2|]. split; [|exists b'; split; [exact H3|exact H4]].
    vm_compute in H1. injection H1 as <-. vm_compute in H2. injection H2 as <-. reflexivity.
Defined.
