(* ===== verification/Mdump.v ===== *)
(** * The memory dump's record of why the device went down (drivers/misc/mdump.c)

    A buffer at a fixed physical address, shared with the boot loader, that
    survives a warm reset: the driver marks in it why it goes down, the boot
    loader backs the mark up and leaves its own messages. The build is the one of
    raspite_defconfig, without compressed dumps. *)

From Stdlib Require Import String.
From stdpp Require Import base tactics numbers list option.
From S2P Require Import Prelude Kstrtox Printf Of.

Definition ERANGE : Z := 34.

Definition MDUMP_COLD_RESET : Z := 0x00.
Definition MDUMP_REBOOT_WATCHDOG : Z := 0x2D.
Definition MDUMP_REBOOT_PANIC : Z := 0x3C.
Definition MDUMP_REBOOT_NORMAL : Z := 0xC3.
Definition MDUMP_REBOOT_HARDWARE : Z := 0xE1.
Definition MDUMP_BUFFER_SIG : Z := 0x4842444d.
Definition CONFIG_MDUMP_MESSAGE_SIZE : Z := 0x1C000.

(** ** State *)

(** [struct mdump_buffer]: the header, and the bytes from [stage1_messages] to
    the end, padding included. *)
Record mdump_buffer := mkBuf { signature : Z; reboot_reason : Z; backup_reason : Z; enable_flags : Z; messages : list Z }.
Definition set_reason (b : mdump_buffer) r := mkBuf (signature b) r (backup_reason b) (enable_flags b) (messages b).
Definition set_flags (b : mdump_buffer) f := mkBuf (signature b) (reboot_reason b) (backup_reason b) f (messages b).
(** Where the messages begin in those bytes. *)
Definition stage1_messages : Z := 0.
Definition stage2_messages : Z := CONFIG_MDUMP_MESSAGE_SIZE - 8.
Definition messages_size : Z := 2 * CONFIG_MDUMP_MESSAGE_SIZE - 8.

(** [struct mdbinattr]: size, address and whether writes are ignored. *)
Record mdbinattr := mkBin { b_size : Z; address : option Z; readonly : bool }.

(** The module's state: whether [s_mdump_buffer] is set, the two files with
    whether they are there, and whether the notifiers are registered. *)
Record mdump := mkMdump {
  buffer : mdump_buffer; s_mdump_buffer : bool; s_mdump_pblmsg : mdbinattr; s_mdump_lkmsg : mdbinattr;
  pbl_file : bool; lk_file : bool; notifiers : bool }.
Definition set_buffer (d : mdump) b := mkMdump b (s_mdump_buffer d) (s_mdump_pblmsg d) (s_mdump_lkmsg d) (pbl_file d) (lk_file d) (notifiers d).

(** ** The messages *)

(** Offsets and sizes are compared as unsigned 64-bit numbers. *)
Definition mdump_binary_read (d : mdump) (a : mdbinattr) (off count : Z) : outcome (list Z * Z) :=
  let o := u64 off in
  if b_size a <? o then Ret ([], - ERANGE) else
  let count := if b_size a <? u64 (o + count) then u64 (b_size a - o) else count in
  if count =? 0 then Ret ([], count) else
  addr ← or_oops (address a);
  m ← or_oops (mem_get (messages (buffer d)) (addr + o) count);
  Ret (m, count).

Definition mdump_binary_write (d : mdump) (a : mdbinattr) (data : list Z) (off : Z) : outcome (mdump * Z) :=
  let count := Z.of_nat (length data) in
  if readonly a then Ret (d, count) else
  let o := u64 off in
  if b_size a <? o then Ret (d, - ERANGE) else
  let count := if b_size a <? u64 (o + count) then u64 (b_size a - o) else count in
  if count =? 0 then Ret (d, count) else
  addr ← or_oops (address a);
  m ← or_oops (mem_put (messages (buffer d)) (addr + o) (take (Z.to_nat count) data));
  let b := buffer d in
  Ret (set_buffer d (mkBuf (signature b) (reboot_reason b) (backup_reason b) (enable_flags b) m), count).

(** ** The text attributes *)

(** [strncmp] of what was written with a word of its length. *)
Definition begins (word : string) (data : list Z) : bool :=
  (Z.of_nat (length (str word)) <=? Z.of_nat (length data)) && bool_decide (take (length (str word)) data = str word).

Definition mdump_enable_show (b : mdump_buffer) : list Z := if enable_flags b =? 0 then str "OFF" else str "ON".
Definition mdump_enable_store (b : mdump_buffer) (data : list Z) : mdump_buffer * Z :=
  let flags :=
    if begins "OFF" data then 0 else if begins "off" data then 0
    else if begins "ON" data then 1 else if begins "on" data then 1 else enable_flags b in
  (if negb (flags =? enable_flags b) then set_flags b flags else b, Z.of_nat (length data)).

Definition reason_mesg (r : Z) : string :=
  if r =? MDUMP_COLD_RESET then "Cold reset"
  else if r =? MDUMP_REBOOT_WATCHDOG then "Watchdog"
  else if r =? MDUMP_REBOOT_PANIC then "Kernel Panic"
  else if r =? MDUMP_REBOOT_NORMAL then "Warm Reboot"
  else if r =? MDUMP_REBOOT_HARDWARE then "Hardware reset"
  else "Unknown reason".
Definition mdump_reason_show (b : mdump_buffer) : list Z := str (reason_mesg (backup_reason b)).

Inductive mdtxtattr := s_mdump_enable | s_mdump_reason | s_mdump_list.
Definition mdump_text_show (d : mdump) (a : mdtxtattr) : list Z * Z :=
  let text := match a with
              | s_mdump_enable => mdump_enable_show (buffer d) | s_mdump_reason => mdump_reason_show (buffer d) | s_mdump_list => []
              end in
  (text, Z.of_nat (length text)).
Definition mdump_text_store (d : mdump) (a : mdtxtattr) (data : list Z) : mdump * Z :=
  match a with
  | s_mdump_enable => let '(b, r) := mdump_enable_store (buffer d) data in (set_buffer d b, r)
  | s_mdump_reason | s_mdump_list => (d, Z.of_nat (length data))
  end.

(** ** Marking *)

Definition mdump_mark_reboot_reason (d : mdump) (reason : Z) : mdump :=
  if s_mdump_buffer d && (reason <? reboot_reason (buffer d)) then set_buffer d (set_reason (buffer d) (u8 reason)) else d.
Definition mdump_panic_notify (d : mdump) : mdump := mdump_mark_reboot_reason d MDUMP_REBOOT_PANIC.
Definition mdump_reboot_notify (d : mdump) : mdump := mdump_mark_reboot_reason d MDUMP_REBOOT_NORMAL.

(** ** Start *)

(** [strlen] in the buffer; without a terminator it leaves it. *)
Definition strlen_at (l : list Z) (off : Z) : outcome Z :=
  let s := drop (Z.to_nat off) l in
  if bool_decide (0 ∈ s) then Ret (Z.of_nat (strnlen s)) else Oops.

(** The buffer as the driver finds it, or a new one. *)
Definition found_or_new (b : mdump_buffer) : mdump_buffer :=
  if negb (signature b =? MDUMP_BUFFER_SIG) then
    mkBuf MDUMP_BUFFER_SIG 0 MDUMP_COLD_RESET 0 (replicate (Z.to_nat messages_size) 0)
  else b.

(** The answers: of [kobject_init_and_add], and of the two files' creation. *)
Record init_answers := mkInit { a_kobject : Z; a_pbl : Z; a_lk : Z }.
Definition mdump_init (a : init_answers) (b : mdump_buffer) : outcome (mdump * Z) :=
  let b := set_flags (set_reason (found_or_new b) MDUMP_REBOOT_HARDWARE) 1 in
  let none := mkBin 0 None true in
  if negb (a_kobject a =? 0) then Ret (mkMdump b true none none false false false, - ENOMEM) else
  n1 ← strlen_at (messages b) stage1_messages;
  n2 ← strlen_at (messages b) stage2_messages;
  Ret (mkMdump b true (mkBin n1 (Some stage1_messages) true) (mkBin n2 (Some stage2_messages) true) (a_pbl a =? 0) (a_lk a =? 0) true, 0).

(** ** A session *)

(** What happens while the kernel runs: its notifiers, marks that other drivers
    leave, and what is written to the attributes. *)
Inductive event := Panic | Reboot | Mark (reason : Z) | Write (a : mdtxtattr) (data : list Z).
Definition happen (d : mdump) (e : event) : mdump :=
  match e with
  | Panic => if notifiers d then mdump_panic_notify d else d
  | Reboot => if notifiers d then mdump_reboot_notify d else d
  | Mark r => mdump_mark_reboot_reason d r
  | Write a data => (mdump_text_store d a data).1
  end.
Definition session (d : mdump) (es : list event) : mdump := foldl happen d es.

(** ** What a session leaves *)

Definition mark_of (e : event) : option Z :=
  match e with Panic => Some MDUMP_REBOOT_PANIC | Reboot => Some MDUMP_REBOOT_NORMAL | Mark r => Some r | Write _ _ => None end.
Definition byte_mark (e : event) : Prop := match mark_of e with Some r => 0 <= r < 256 | None => True end.
(** The most urgent of the marks, which are the smaller the more urgent. *)
Definition least (r : Z) (es : list event) : Z := foldl Z.min r (omap mark_of es).

Record running (d : mdump) : Prop := mkRunning { u_set : s_mdump_buffer d = true; u_nb : notifiers d = true; u_sig : signature (buffer d) = MDUMP_BUFFER_SIG }.

Lemma least_spec es r : let x := least r es in x <= r /\ (forall e y, e ∈ es -> mark_of e = Some y -> x <= y) /\ (x = r \/ exists e, e ∈ es /\ mark_of e = Some x).
Proof.
  cbv zeta. unfold least. revert r. induction es as [|e es IH]; intros r; cbn [omap list_omap foldl].
  { split; [lia|]. split; [by intros e y []%not_elem_of_nil|by left]. }
  assert (Hn : forall r', (foldl Z.min r' (omap mark_of es) = r' \/ exists e', e' ∈ es /\ mark_of e' = Some (foldl Z.min r' (omap mark_of es))) ->
    foldl Z.min r' (omap mark_of es) = r' \/ exists e', e' ∈ e :: es /\ mark_of e' = Some (foldl Z.min r' (omap mark_of es))).
  { intros r' [H|(e' & H1 & H2)]; [by left|right; exists e'; split; [by right|done]]. }
  destruct (mark_of e) as [m|] eqn:Em; cbn [foldl].
  - destruct (IH (Z.min r m)) as (H1 & H2 & H3). split; [lia|]. split.
    + intros e' y [->|He]%elem_of_cons E; [rewrite Em in E; injection E as <-; lia|by eapply H2].
    + apply Hn in H3 as [H3|H3]; [|by right]. rewrite H3. destruct (Z.min_spec r m) as [[_ ->]|[_ ->]]; [by left|].
      right. exists e. split; [by left|done].
  - destruct (IH r) as (H1 & H2 & H3). split; [done|]. split; [|by apply Hn].
    intros e' y [->|He]%elem_of_cons E; [by rewrite Em in E|by eapply H2].
Qed.
Lemma least_eq r es x : x <= r -> (forall e y, e ∈ es -> mark_of e = Some y -> x <= y) -> (x = r \/ exists e, e ∈ es /\ mark_of e = Some x) -> least r es = x.
Proof.
  intros H1 H2 H3. destruct (least_spec es r) as (I1 & I2 & I3). apply Z.le_antisymm.
  - destruct H3 as [->|(e & He & E)]; [done|by eapply I2].
  - destruct I3 as [->|(e & He & E)]; [done|by eapply H2].
Qed.

(** ** Starting *)

(** A terminator is where the second message can end. *)
Definition padded (b : mdump_buffer) : Prop := 0 ∈ drop (Z.to_nat stage2_messages) (messages b).
Lemma strlen_padded l off : 0 ∈ drop (Z.to_nat off) l -> strlen_at l off = Ret (Z.of_nat (strnlen (drop (Z.to_nat off) l))).
Proof. intros H. unfold strlen_at. by rewrite bool_decide_true. Qed.
Lemma padded_found b : (signature b = MDUMP_BUFFER_SIG -> padded b) -> padded (found_or_new b).
Proof.
  unfold found_or_new. destruct (Z.eqb_spec (signature b) MDUMP_BUFFER_SIG); cbn [negb]; [auto|]. intros _. unfold padded. cbn [messages].
  set (sz := Z.to_nat messages_size). set (k := Z.to_nat stage2_messages). assert (Hn : (k < sz)%nat) by (unfold sz, k; apply Z2Nat.inj_lt; done).
  clearbody sz k. rewrite drop_replicate. destruct (sz - k)%nat eqn:E; [lia|]. by left.
Qed.

Lemma init_ok a b : a_kobject a = 0 -> padded (found_or_new b) ->
  let m := messages (found_or_new b) in
  mdump_init a b = Ret (mkMdump (set_flags (set_reason (found_or_new b) MDUMP_REBOOT_HARDWARE) 1) true
    (mkBin (Z.of_nat (strnlen m)) (Some stage1_messages) true)
    (mkBin (Z.of_nat (strnlen (drop (Z.to_nat stage2_messages) m))) (Some stage2_messages) true) (a_pbl a =? 0) (a_lk a =? 0) true, 0).
Proof.
  intros Ha Hp. cbv zeta. unfold mdump_init. rewrite Ha. cbn [negb Z.eqb set_flags set_reason messages].
  assert (H0 : 0 ∈ drop (Z.to_nat stage1_messages) (messages (found_or_new b))) by by eapply subseteq_drop.
  unfold padded in Hp. by rewrite !strlen_padded by done.
Qed.

(** A mark is taken when it is below the one kept, as a byte. *)
Definition taken (cur r : Z) : Z := if r <? cur then u8 r else cur.
Definition marked (r : Z) (es : list event) : Z := foldl taken r (omap mark_of es).

Lemma mark_exact d r : s_mdump_buffer d = true ->
  mdump_mark_reboot_reason d r = set_buffer d (set_reason (buffer d) (taken (reboot_reason (buffer d)) r)).
Proof.
  intros H. unfold mdump_mark_reboot_reason, taken. rewrite H. cbn [andb].
  destruct (r <? reboot_reason (buffer d)); [done|]. by destruct d as [[] ? ? ? ? ? ?].
Qed.

(** What a session keeps: the state of the driver, and of the buffer all but the
    mark and the switch of the dump. *)
Definition kept (d : mdump) :=
  (s_mdump_buffer d, notifiers d, signature (buffer d), backup_reason (buffer d), messages (buffer d)).

Lemma happen_exact d e : running d ->
  running (happen d e) /\ kept (happen d e) = kept d /\
  reboot_reason (buffer (happen d e)) = match mark_of e with Some r => taken (reboot_reason (buffer d)) r | None => reboot_reason (buffer d) end.
Proof.
  intros Hd. pose proof Hd as [H1 H2 H3]. destruct e as [| |r|a data]; cbn [happen mark_of]; rewrite ?H2.
  - unfold mdump_panic_notify. rewrite mark_exact by done. by repeat split.
  - unfold mdump_reboot_notify. rewrite mark_exact by done. by repeat split.
  - rewrite mark_exact by done. by repeat split.
  - destruct a; cbn [mdump_text_store fst]; [|by repeat split..]. unfold mdump_enable_store.
    set (f := if begins _ _ then _ else _). destruct (negb (f =? _)); by repeat split.
Qed.

Lemma session_exact es : forall d, running d ->
  kept (session d es) = kept d /\ reboot_reason (buffer (session d es)) = marked (reboot_reason (buffer d)) es.
Proof.
  induction es as [|e es IH]; intros d Hd; [done|].
  destruct (happen_exact d e Hd) as (H1 & H2 & H3). destruct (IH _ H1) as (I2 & I3).
  unfold session in *. cbn [foldl]. split; [congruence|]. rewrite I3, H3.
  unfold marked. cbn [omap list_omap]. by destruct (mark_of e).
Qed.

Lemma marked_least es : forall r, 0 <= r -> Forall byte_mark es -> marked r es = least r es.
Proof.
  unfold marked, least. induction es as [|e es IH]; intros r Hr Hes; [done|]. apply list.Forall_cons in Hes as [He Hes].
  cbn [omap list_omap]. unfold byte_mark in He. destruct (mark_of e) as [m|]; [|by apply IH]. cbn [foldl].
  assert (E : taken r m = Z.min r m).
  { unfold taken. destruct (Z.ltb_spec m r); [rewrite u8_id by lia|]; lia. }
  rewrite E. apply IH; [lia|done].
Qed.

(** A negative mark is taken whatever is kept, and does not last: it is kept as
    a byte, which the next smaller mark replaces. *)
Example negative_mark : marked MDUMP_REBOOT_HARDWARE [Panic; Mark (-1); Reboot] = MDUMP_REBOOT_NORMAL.
Proof. reflexivity. Qed.

(** The session after a start, with the marks all bytes: the least of them. *)
Lemma least_cases es :
  (Panic ∈ es -> (forall r, Mark r ∈ es -> MDUMP_REBOOT_PANIC <= r) -> least MDUMP_REBOOT_HARDWARE es = MDUMP_REBOOT_PANIC) /\
  (Reboot ∈ es -> Panic ∉ es -> (forall r, Mark r ∉ es) -> least MDUMP_REBOOT_HARDWARE es = MDUMP_REBOOT_NORMAL) /\
  (Reboot ∉ es -> Panic ∉ es -> (forall r, Mark r ∉ es) -> least MDUMP_REBOOT_HARDWARE es = MDUMP_REBOOT_HARDWARE).
Proof.
  split_and!.
  - intros Hi Hm. apply least_eq; [done| |right; by exists Panic].
    intros [| |r|w l] y He [= <-]; [done..|by apply Hm].
  - intros Hi Hn Hm. apply least_eq; [done| |right; by exists Reboot].
    intros [| |r|w l] y He [= <-]; [done..|by destruct (Hm r)].
  - intros Hi Hn Hm. apply least_eq; [done| |by left].
    intros [| |r|w l] y He [= <-]; [done..|by destruct (Hm r)].
Qed.

(** C29. The reason a session leaves for the boot loader, and what a start makes of
    the buffer it finds. A start that succeeds marks a hardware reset and shows
    the reason in [backup_reason], which the boot loader writes, or a cold reset
    when the buffer is not there. Then whatever happens and in whatever order,
    what stands in [reboot_reason] is the least of the marks, a byte each: the
    panic, though the reboot notifier ran before or after it, unless another driver
    marked something more urgent; the reboot, if nothing else was marked; the
    hardware reset, if nothing was. A mark that is no byte is taken when it is
    smaller, cut to a byte. Nothing else that is kept changes. *)
Theorem reason_left_and_shown (a : init_answers) (b : mdump_buffer) (es : list event)
    (Ha : a_kobject a = 0) (Hb : signature b = MDUMP_BUFFER_SIG -> padded b) :
  exists d, mdump_init a b = Ret (d, 0) /\
    (mdump_text_show d s_mdump_reason).1 =
      str (reason_mesg (if signature b =? MDUMP_BUFFER_SIG then backup_reason b else MDUMP_COLD_RESET)) /\
    kept (session d es) = kept d /\
    let left := reboot_reason (buffer (session d es)) in
    left = marked MDUMP_REBOOT_HARDWARE es /\
    (Forall byte_mark es ->
      left = least MDUMP_REBOOT_HARDWARE es /\
      (Panic ∈ es -> (forall r, Mark r ∈ es -> MDUMP_REBOOT_PANIC <= r) -> left = MDUMP_REBOOT_PANIC) /\
      (Reboot ∈ es -> Panic ∉ es -> (forall r, Mark r ∉ es) -> left = MDUMP_REBOOT_NORMAL) /\
      (Reboot ∉ es -> Panic ∉ es -> (forall r, Mark r ∉ es) -> left = MDUMP_REBOOT_HARDWARE)).
Proof.
  rewrite (init_ok a b) by (done || by apply padded_found). set (d := mkMdump _ _ _ _ _ _ _). exists d.
  assert (Hs : signature (found_or_new b) = MDUMP_BUFFER_SIG) by (unfold found_or_new; by destruct (Z.eqb_spec (signature b) MDUMP_BUFFER_SIG)).
  assert (Hd : running d) by (by constructor). destruct (session_exact es d Hd) as [S1 S2].
  split; [reflexivity|]. split.
  { subst d. cbn [mdump_text_show fst buffer]. unfold mdump_reason_show, found_or_new. by destruct (signature b =? MDUMP_BUFFER_SIG). }
  split; [exact S1|]. cbv zeta. rewrite S2. change (reboot_reason (buffer d)) with MDUMP_REBOOT_HARDWARE.
  split; [done|]. intros Hes. rewrite marked_least by done. split; [done|apply least_cases].
Qed.

(** ** The files *)

Lemma binary_read_exact d a addr s off count :
  address a = Some addr -> 0 <= addr -> b_size a = Z.of_nat (length s) ->
  (exists rest, drop (Z.to_nat addr) (messages (buffer d)) = s ++ rest) -> 0 <= off < 2 ^ 62 -> 0 <= count < 2 ^ 62 -> Z.of_nat (length s) < 2 ^ 62 ->
  mdump_binary_read d a off count =
    if Z.of_nat (length s) <? off then Ret ([], - ERANGE)
    else Ret (take (Z.to_nat count) (drop (Z.to_nat off) s), Z.min count (Z.of_nat (length s) - off)).
Proof.
  intros Ea Hn Es (rest & Er) Ho Hc Hs. unfold mdump_binary_read. rewrite Es, Ea.
  rewrite (wrapU_id 64 off), (wrapU_id 64 (off + count)) by lia. destruct (Z.ltb_spec (Z.of_nat (length s)) off); [done|].
  rewrite (wrapU_id 64 (_ - off)) by lia.
  replace (if _ <? off + count then Z.of_nat (length s) - off else count) with (Z.min count (Z.of_nat (length s) - off))
    by (destruct (Z.ltb_spec (Z.of_nat (length s)) (off + count)); lia).
  set (n := Z.min count _). assert (Ht : take (Z.to_nat count) (drop (Z.to_nat off) s) = take (Z.to_nat n) (drop (Z.to_nat off) s)).
  { destruct (Z.le_ge_cases count (Z.of_nat (length s) - off)); [by replace n with count by lia|].
    rewrite !take_ge by (rewrite length_drop; lia). done. }
  rewrite Ht. destruct (Z.eqb_spec n 0) as [->|]; [done|]. cbn [or_oops mbind outcome_bind].
  assert (Hl : (Z.to_nat addr + length s <= length (messages (buffer d)))%nat).
  { assert (H1 : (0 < length s)%nat) by lia. apply (f_equal length) in Er. rewrite length_drop, length_app in Er. lia. }
  unfold mem_get. destruct (Z.leb_spec 0 (addr + off)), (Z.leb_spec 0 n), (Z.leb_spec (addr + off + n) (Z.of_nat (length (messages (buffer d))))); try lia.
  cbn [andb or_oops mbind outcome_bind]. f_equal. f_equal.
  rewrite Z2Nat.inj_add by lia. rewrite <- drop_drop, Er, drop_app_le by lia. by rewrite take_app_le by (rewrite length_drop; lia).
Qed.

(** The two files are the messages of the boot loader's stages, each up to its
    terminator and nothing behind it: a read at any place gives their bytes, one
    at the end gives none, one behind it fails, and a write changes nothing. *)
Theorem messages_served (a : init_answers) (b : mdump_buffer) (s1 r1 s2 r2 data : list Z) (off count : Z)
    (Ha : a_kobject a = 0) (Hs : signature b = MDUMP_BUFFER_SIG) (Hm : messages b = (s1 ++ 0 :: r1) ++ s2 ++ 0 :: r2)
    (H1 : c_string s1) (H2 : c_string s2) (Hl : Z.of_nat (length (s1 ++ 0 :: r1)) = stage2_messages) (Hb : Z.of_nat (length (messages b)) = messages_size)
    (Ho : 0 <= off < 2 ^ 62) (Hc : 0 <= count < 2 ^ 62) :
  exists d, mdump_init a b = Ret (d, 0) /\
    (let served f s := mdump_binary_read d f off count =
       if Z.of_nat (length s) <? off then Ret ([], - ERANGE)
       else Ret (take (Z.to_nat count) (drop (Z.to_nat off) s), Z.min count (Z.of_nat (length s) - off)) in
     served (s_mdump_pblmsg d) s1 /\ served (s_mdump_lkmsg d) s2) /\
    mdump_binary_write d (s_mdump_pblmsg d) data off = Ret (d, Z.of_nat (length data)) /\
    mdump_binary_write d (s_mdump_lkmsg d) data off = Ret (d, Z.of_nat (length data)).
Proof.
  assert (Hf : found_or_new b = b) by (unfold found_or_new; by rewrite Hs).
  assert (Ed : drop (Z.to_nat stage2_messages) (messages b) = s2 ++ 0 :: r2) by (rewrite Hm, <- Hl, Nat2Z.id; apply drop_app_length).
  assert (Hp : padded b) by (unfold padded; rewrite Ed; apply elem_of_app; right; left).
  rewrite (init_ok a b) by (done || by rewrite Hf). rewrite Hf, Ed. eexists. split; [reflexivity|].
  rewrite Hm, <- app_assoc. cbn [app]. rewrite !strnlen_app by done.
  assert (Hz : Z.of_nat (length s1) < 2 ^ 62 /\ Z.of_nat (length s2) < 2 ^ 62).
  { rewrite Hm, !length_app in Hb. cbn [length] in Hb. unfold messages_size, CONFIG_MDUMP_MESSAGE_SIZE in Hb. lia. }
  cbv zeta. cbn [s_mdump_pblmsg s_mdump_lkmsg]. split; [|by split]. split; eapply binary_read_exact; cbn; try done; try apply Hz.
  - rewrite Hm, <- app_assoc. by eexists.
  - change (drop (Z.to_nat stage2_messages) (messages b)) with (drop (Z.to_nat stage2_messages) (messages b)). by exists (0 :: r2).
Qed.

(** ** Examples *)

Definition granted : init_answers := mkInit 0 0 0.

(** After a panic was backed up: the dump is switched off, and the kernel panics
    again on its way down. *)
Lemma reason_left_and_shown_witness :
  let es := [Write s_mdump_enable (str "OFF"); Reboot; Panic; Mark 200] in
  exists d, mdump_init granted (mkBuf MDUMP_BUFFER_SIG 7 0x3C 7 (replicate (Z.to_nat messages_size) 0)) = Ret (d, 0) /\
    (mdump_text_show d s_mdump_reason).1 = str "Kernel Panic" /\ reboot_reason (buffer (session d es)) = MDUMP_REBOOT_PANIC.
Proof.
  set (b := mkBuf _ _ _ _ _).
  destruct (reason_left_and_shown granted b [Write s_mdump_enable (str "OFF"); Reboot; Panic; Mark 200])
    as (d & H1 & H2 & _ & _ & H3).
  - reflexivity.
  - intros _. change (padded (found_or_new (mkBuf 0 0 0 0 []))). by apply padded_found.
  - exists d. split; [exact H1|]. split; [exact H2|]. apply H3; [repeat constructor; discriminate|right; right; left|].
    intros r Hr. set (urgent e := match e with Mark r => MDUMP_REBOOT_PANIC <= r | _ => True end).
    assert (Hu : Forall urgent [Write s_mdump_enable (str "OFF"); Reboot; Panic; Mark 200]) by (repeat constructor; discriminate).
    exact (proj1 (list.Forall_forall urgent _) Hu (Mark r) Hr).
Defined.

Lemma messages_served_witness :
  exists d b, mdump_init granted b = Ret (d, 0) /\ mdump_binary_read d (s_mdump_pblmsg d) 1 4096 = Ret (str "bl up", 5) /\
    mdump_binary_read d (s_mdump_lkmsg d) 1 4096 = Ret (str "k", 1).
Proof.
  set (n1 := Z.to_nat (stage2_messages - 7)). set (n2 := Z.to_nat (messages_size - stage2_messages - 3)).
  assert (E1 : Z.of_nat n1 = stage2_messages - 7) by (unfold n1; rewrite Z2Nat.id; [reflexivity|discriminate]).
  assert (E2 : Z.of_nat n2 = messages_size - stage2_messages - 3) by (unfold n2; rewrite Z2Nat.id; [reflexivity|discriminate]).
  clearbody n1 n2. set (m := (str "pbl up" ++ 0 :: replicate n1 0) ++ str "lk" ++ 0 :: replicate n2 0).
  destruct (messages_served granted (mkBuf MDUMP_BUFFER_SIG 0 0 0 m) (str "pbl up") (replicate n1 0) (str "lk") (replicate n2 0) [] 1 4096)
    as (d & H1 & (H2 & H3) & _).
  - reflexivity.
  - reflexivity.
  - reflexivity.
  - apply str_nonzero_all. reflexivity.
  - apply str_nonzero_all. reflexivity.
  - rewrite length_app. cbn [length]. rewrite length_replicate. change (length (str "pbl up")) with 6%nat. lia.
  - cbn [messages]. unfold m. rewrite !length_app. cbn [length]. rewrite !length_replicate.
    change (length (str "pbl up")) with 6%nat. change (length (str "lk")) with 2%nat. lia.
  - split; [discriminate|reflexivity].
  - split; [discriminate|reflexivity].
  - exists d, (mkBuf MDUMP_BUFFER_SIG 0 0 0 m). split; [exact H1|]. split; [exact H2|exact H3].
Defined.
