(* ===== verification/Hall.v ===== *)
(** * The hall sensor of the cover (drivers/input/misc/hall/bu520.c)

    The lid switch follows the level of a pin: the interrupt of an edge asks for
    the next edge of the other direction and queues the work that reads the pin
    again, after a delay, and reports it. *)

From Stdlib Require Import String.
From stdpp Require Import base tactics numbers list option gmap strings.
From S2P Require Import Prelude Kstrtox Printf Of Holdings.

Definition COVER_CLOSED : Z := 0.
Definition COVER_OPENED : Z := 1.
Definition IRQF_TRIGGER_RISING : Z := 1.
Definition IRQF_TRIGGER_FALLING : Z := 2.

(** ** State *)

(** [struct hall_sensor_data] *)
Record hall_sensor_data := mkSensor { gpio_pin : Z; irq : Z; name : list Z; gpio_state : Z }.
Definition set_state (s : hall_sensor_data) v := mkSensor (gpio_pin s) (irq s) (name s) v.

(** How far a handler has come: its line is acknowledged, it has read the pin, it
    has set the trigger. And the work: it waits out its delay, it has read the
    pin, it has set the cover. *)
Inductive isr_phase := Acknowledged | PinRead | TriggerSet.
Inductive work_phase := Idle | Delayed | WorkRead | CoverSet.
#[export] Instance isr_phase_eq_dec : EqDecision isr_phase.
Proof. solve_decision. Defined.
#[export] Instance work_phase_eq_dec : EqDecision work_phase.
Proof. solve_decision. Defined.

(** [struct hall_priv], whose work may be queued and may run, the handlers that run
    (threads, one for each interrupt line), and what they act on: the levels of
    the pins (0 or 1), of each line the trigger type and whether an edge is
    pending, the lid switch that was reported and the metrics. *)
Record hall := mkHall {
  sensor_data : list hall_sensor_data; cover : Z; level : Z -> Z; lines : gmap Z (Z * bool); isrs : gmap Z isr_phase;
  queued : bool; working : work_phase; lid : Z; logs : list (list Z) }.
Definition set_sensors (w : hall) l := mkHall l (cover w) (level w) (lines w) (isrs w) (queued w) (working w) (lid w) (logs w).
Definition set_cover (w : hall) c m := mkHall (sensor_data w) c (level w) (lines w) (isrs w) (queued w) (working w) (lid w) (logs w ++ [m]).
Definition set_level (w : hall) f := mkHall (sensor_data w) (cover w) f (lines w) (isrs w) (queued w) (working w) (lid w) (logs w).
Definition set_lines (w : hall) l := mkHall (sensor_data w) (cover w) (level w) l (isrs w) (queued w) (working w) (lid w) (logs w).
Definition set_isrs (w : hall) m := mkHall (sensor_data w) (cover w) (level w) (lines w) m (queued w) (working w) (lid w) (logs w).
Definition set_work (w : hall) q r := mkHall (sensor_data w) (cover w) (level w) (lines w) (isrs w) q r (lid w) (logs w).
Definition set_lid (w : hall) v := mkHall (sensor_data w) (cover w) (level w) (lines w) (isrs w) (queued w) (working w) v (logs w).

(** The edge to wait for at a level, and the type a sensor's state asks for. *)
Definition trigger_of (state : Z) : Z := if negb (state =? 0) then IRQF_TRIGGER_FALLING else IRQF_TRIGGER_RISING.
Definition irq_set_irq_type (i t : Z) (l : gmap Z (Z * bool)) : gmap Z (Z * bool) := alter (fun x => (t, x.2)) i l.

(** ** The interrupt *)

(** The sensor of an interrupt: the first with its number. *)
Fixpoint sensor_of (l : list hall_sensor_data) (i : Z) : option nat :=
  match l with [] => None | s :: l => if i =? irq s then Some O else S <$> sensor_of l i end.

(** The handler in three parts, between which anything may happen: the reading of
    the pin, the setting of the trigger, and the queueing of the work. *)
Definition isr_read (w : hall) (i : Z) : hall :=
  match sensor_of (sensor_data w) i with
  | Some k => set_sensors w (alter (fun s => set_state s (level w (gpio_pin s))) k (sensor_data w))
  | None => w
  end.
Definition isr_set (w : hall) (i : Z) : hall :=
  match sensor_of (sensor_data w) i ≫= (fun k => sensor_data w !! k) with
  | Some s => set_lines w (irq_set_irq_type i (trigger_of (gpio_state s)) (lines w))
  | None => w
  end.
Definition isr_queue (w : hall) (i : Z) : hall :=
  match sensor_of (sensor_data w) i with
  | Some _ => set_work w true (working w)
  | None => w
  end.
Definition hall_sensor_isr (w : hall) (i : Z) : hall := isr_queue (isr_set (isr_read w i) i) i.

(** ** The work *)

Definition metrics_text (c : Z) : list Z := str "bu520:TIMEOUT:COVER=" ++ pct_d c ++ str ";CT;1,DISPLAY=" ++ pct_d 0 ++ str ";CT;1:NR".
(** From the end of the delay on, in three parts; without a sensor its first is
    accessed out of bounds. *)
Definition work_read (w : hall) : outcome hall :=
  match sensor_data w with
  | [] => Oops
  | s :: l => Ret (set_sensors w (set_state s (level w (gpio_pin s)) :: l))
  end.
Definition work_cover (w : hall) : outcome hall :=
  match sensor_data w with
  | [] => Oops
  | s :: l => let c := if negb (gpio_state s =? 0) then COVER_OPENED else COVER_CLOSED in Ret (set_cover w c (snprintf 128 (metrics_text c)))
  end.
Definition work_report (w : hall) : outcome hall :=
  match sensor_data w with
  | [] => Oops
  | s :: l => Ret (set_lid w (if negb (gpio_state s =? 0) then 0 else 1))
  end.
Definition hall_work_func (w : hall) : outcome hall := w ← work_read w; w ← work_cover w; work_report w.

(** The number in the proc file: a bit for each sensor, eight of them. *)
Definition hall_show (w : hall) : Z :=
  foldl (fun reg '(i, s) => u8 (Z.lor reg (Z.shiftl (gpio_state s) (Z.of_nat i)))) 0 (imap pair (sensor_data w)).

(** ** What happens *)

(** [wire]: the pin of an interrupt line. A pin changes, and the lines that wait
    for its edge remember it, also while their handler runs; a handler or the
    work goes one part on, or starts. *)
Definition edge (v : Z) : Z := if v =? 0 then IRQF_TRIGGER_FALLING else IRQF_TRIGGER_RISING.
Definition change (wire : Z -> Z) (w : hall) (p v : Z) : hall :=
  if level w p =? v then w else
  set_lines (set_level w (fun x => if x =? p then v else level w x))
    (map_imap (fun i '(t, pending) => Some (t, pending || ((wire i =? p) && (t =? edge v)))) (lines w)).
Definition acknowledge (w : hall) (i : Z) : hall := set_lines w (alter (fun x => (x.1, false)) i (lines w)).
Definition is_pending (w : hall) (i : Z) : bool := match lines w !! i with Some (_, b) => b | None => false end.

Definition at_phase (w : hall) (i : Z) (ph : isr_phase) : hall := set_isrs w (<[i := ph]> (isrs w)).
Definition isr_step (w : hall) (i : Z) : hall :=
  match isrs w !! i with
  | None => if is_pending w i then at_phase (acknowledge w i) i Acknowledged else w
  | Some Acknowledged => at_phase (isr_read w i) i PinRead
  | Some PinRead => at_phase (isr_set w i) i TriggerSet
  | Some TriggerSet => let w := isr_queue w i in set_isrs w (delete i (isrs w))
  end.
Definition work_step (w : hall) : outcome hall :=
  match working w with
  | Idle => Ret (if queued w then set_work w false Delayed else w)
  | Delayed => w ← work_read w; Ret (set_work w (queued w) WorkRead)
  | WorkRead => w ← work_cover w; Ret (set_work w (queued w) CoverSet)
  | CoverSet => w ← work_report w; Ret (set_work w (queued w) Idle)
  end.

Inductive op := Change (p v : Z) | Isr (i : Z) | Work.
Definition step (wire : Z -> Z) (w : hall) (o : op) : outcome hall :=
  match o with
  | Change p v => Ret (change wire w p v)
  | Isr i => Ret (isr_step w i)
  | Work => work_step w
  end.
Fixpoint history (wire : Z -> Z) (w : hall) (os : list op) : outcome hall :=
  match os with [] => Ret w | o :: os => w ← step wire w o; history wire w os end.

(** Whether the trigger that the handler of [i] set last is for another level than
    the pin had then: the pin, or what another thread read of it, moved between
    the reading and the setting. *)
Definition set_stale (i : Z) (w : hall) (o : op) (b : bool) : bool :=
  match o, isrs w !! i, sensor_of (sensor_data w) i ≫= (fun k => sensor_data w !! k) with
  | Isr j, Some PinRead, Some s => if j =? i then negb (gpio_state s =? level w (gpio_pin s)) else b
  | _, _, _ => b
  end.
Fixpoint stale (wire : Z -> Z) (i : Z) (b : bool) (w : hall) (os : list op) : bool :=
  match os with
  | [] => b
  | o :: os => match step wire w o with Ret w' => stale wire i (set_stale i w o b) w' os | _ => b end
  end.

(** ** The life cycle *)

Inductive resource := SensorData | PrivData | InputDev | WorkQueue | WakeLock | IrqWake (i : Z) | IrqHandler (i : Z) | ProcFile.
#[export] Instance resource_eq_dec : EqDecision resource.
Proof. solve_decision. Defined.

(** The kernel's answers: the pin of the first GPIO, the interrupts of the node,
    allocations, and the registrations, by interrupt. *)
Record probe_answers := mkProbe {
  a_gpio : Z; a_irq : nat -> Z; a_data : bool; a_priv : bool; a_input_alloc : bool; a_input_register : Z;
  a_workqueue : bool; a_request_irq : Z -> Z; a_proc : bool }.

Fixpoint parse_sensors (a : probe_answers) (np : device_node) (n i : nat) : list hall_sensor_data * option Z :=
  match n with
  | O => ([], None)
  | S n =>
    if negb (gpio_is_valid (a_gpio a)) then ([], Some 0) else
    let '(rc, s) := of_property_read_string_index np "sensor-name" (Z.of_nat i) in
    if negb (rc =? 0) then ([], Some rc) else
    if a_irq a i <=? 0 then ([], Some (- EINVAL)) else
    let '(l, r) := parse_sensors a np n (S i) in
    (mkSensor (a_gpio a) (a_irq a i) (default [] s) (-1) :: l, r)
  end.

Fixpoint configure_irqs (a : probe_answers) (k : holdings resource) (w : hall) (todo : list hall_sensor_data) (done : list hall_sensor_data)
    : holdings resource * hall * Z :=
  match todo with
  | [] => (k, w, 0)
  | s :: todo =>
    let v := level w (gpio_pin s) in
    let s := set_state s v in
    let w := mkHall (done ++ s :: todo) (if negb (v =? 0) then COVER_OPENED else COVER_CLOSED) (level w) (lines w) (isrs w) (queued w) (working w) (lid w) (logs w) in
    let k := acquire (IrqWake (irq s)) k in
    let ret := a_request_irq a (irq s) in
    if ret <? 0 then (k, w, ret) else
    configure_irqs a (acquire (IrqHandler (irq s)) k) (set_lines w (<[irq s := (trigger_of v, false)]> (lines w))) todo (done ++ [s])
  end.

Definition hall_input_device_create (a : probe_answers) (k : holdings resource) : holdings resource * bool :=
  if negb (a_input_alloc a) then (k, false) else if negb (a_input_register a =? 0) then (k, false) else (acquire InputDev k, true).

(** What is held, the driver's data once set, and the result. *)
Definition hall_probe (a : probe_answers) (np : device_node) (lev : Z -> Z) : holdings resource * option hall * Z :=
  let k := mkHoldings [] [] in
  match of_property_read_u32 np "sensor-num" with
  | inl err => (k, None, err)
  | inr num =>
    if negb (a_data a) then (k, None, - ENOMEM) else
    let k := acquire SensorData k in
    let '(l, r) := parse_sensors a np (Z.to_nat (s32 num)) 0 in
    match r with
    | Some error => (release SensorData k, None, error)
    | None =>
      if negb (a_priv a) then (release SensorData k, None, - ENOMEM) else
      let k := acquire PrivData k in
      let '(k, ok) := hall_input_device_create a k in
      if negb ok then (release SensorData (release PrivData k), None, - ENOMEM) else
      if negb (a_workqueue a) then (release SensorData (release PrivData (release InputDev k)), None, 0) else
      let k := acquire WakeLock (acquire WorkQueue k) in
      let w := mkHall l COVER_CLOSED lev ∅ ∅ false Idle 0 [] in
      let '(k, w, error) := configure_irqs a k w l [] in
      if negb (error =? 0) then (release SensorData (release PrivData (release InputDev (release WorkQueue k))), Some w, error)
      else (if a_proc a then acquire ProcFile k else k, Some w, 0)
    end
  end.

(** [drv]: the driver's data, null when a probe returned 0 without setting it. *)
Definition hall_remove (k : holdings resource) (drv : option hall) : outcome (holdings resource) :=
  match drv with
  | None => Oops
  | Some w =>
    let k := foldl (fun k s => release (IrqHandler (irq s)) k) k (sensor_data w) in
    let k := release PrivData (release SensorData (release WakeLock (release InputDev (release WorkQueue k)))) in
    Ret (release ProcFile k)
  end.

(** ** The lid follows the pin *)

Definition binary (v : Z) : Prop := v = 0 \/ v = 1.
(** The first sensor, at whose pin the work looks. *)
Definition first_sensor (w : hall) (p i : Z) (s : hall_sensor_data) : Prop :=
  gpio_pin s = p /\ irq s = i /\ exists l, sensor_data w = s :: l.
(** The handler of [i] runs and will set the trigger. *)
Definition early (w : hall) (i : Z) : Prop := isrs w !! i = Some Acknowledged \/ isrs w !! i = Some PinRead.
(** What the work has done is about the level [v]; at rest, so is what was reported. *)
Definition going (w : hall) (s : hall_sensor_data) (v : Z) : Prop :=
  match working w with
  | Delayed => True
  | WorkRead => gpio_state s = v
  | CoverSet => gpio_state s = v /\ cover w = v
  | Idle => gpio_state s = v /\ cover w = v /\ lid w = 1 - v
  end.

(** The line waits for the edge that is to come, or the handler has one to serve;
    and what was reported is the level, or something is under way to report it;
    unless the trigger that was last set is stale ([b]). *)
Definition in_step (w : hall) (i : Z) (s : hall_sensor_data) (v t : Z) (pending : bool) : Prop :=
  (early w i \/ pending = true \/ t = trigger_of v) /\
  (isrs w !! i <> None \/ pending = true \/ queued w = true \/ going w s v).
Record follows (wire : Z -> Z) (p i : Z) (b : bool) (w : hall) : Prop := mkFollows {
  f_wire : wire i = p;
  f_level : binary (level w p);
  f_inv : exists s t pending, first_sensor w p i s /\ lines w !! i = Some (t, pending) /\
    (b = false -> in_step w i s (level w p) t pending) }.

Definition sane (o : op) : Prop := match o with Change _ v => binary v | _ => True end.

Lemma trigger_edge v v' : binary v -> binary v' -> v <> v' -> trigger_of v = edge v'.
Proof. by intros [-> | ->] [-> | ->]. Qed.

Lemma change_follows wire p i b w q v : follows wire p i b w -> binary v -> follows wire p i b (change wire w q v).
Proof.
  intros [H1 H2 (s & t & pd & Hs & Hl & Ht)] Hv. unfold change. destruct (Z.eqb_spec (level w q) v) as [|Hn]; [by constructor; eauto 15|].
  assert (Hl' : lines (set_lines (set_level w (fun x => if x =? q then v else level w x))
    (map_imap (fun i '(t, pending) => Some (t, pending || ((wire i =? q) && (t =? edge v)))) (lines w))) !! i =
    Some (t, pd || ((wire i =? q) && (t =? edge v)))) by (cbn; by rewrite map_lookup_imap, Hl).
  constructor; [done|cbn; by destruct (p =? q)|]. exists s, t, (pd || ((wire i =? q) && (t =? edge v))).
  split; [done|]. split; [done|]. intros Hb. specialize (Ht Hb). unfold in_step, going, early in *. cbn.
  destruct (Z.eqb_spec p q) as [<-|Hpq].
  - rewrite H1, Z.eqb_refl. cbn [andb]. destruct Ht as [[He|[->|Ht]] Hr].
    + split; [by left|]. left. by destruct He as [-> | ->].
    + split; [|right; left]; auto.
    + rewrite (trigger_edge _ v H2 Hv Hn) in Ht. rewrite Ht, Z.eqb_refl, orb_true_r. auto.
  - rewrite H1. destruct (Z.eqb_spec p q); [done|]. cbn [andb]. by rewrite orb_false_r.
Qed.

(** A handler of another line does not touch what matters for [i]. *)
Lemma other_sensor w p i s j : first_sensor w p i s -> j <> i ->
  sensor_of (sensor_data w) j = None \/ exists k, sensor_of (sensor_data w) j = Some (S k).
Proof.
  intros (_ & Hi & l & ->) Hj. cbn [sensor_of]. destruct (Z.eqb_spec j (irq s)); [congruence|]. destruct (sensor_of l j); eauto.
Qed.
Lemma own_sensor w p i s : first_sensor w p i s -> sensor_of (sensor_data w) i = Some O.
Proof. intros (_ & Hi & l & ->). cbn [sensor_of]. by rewrite Hi, Z.eqb_refl. Qed.

Lemma other_isr wire p i b w j : follows wire p i b w -> j <> i -> follows wire p i b (isr_step w j).
Proof.
  intros [H1 H2 (s & t & pd & Hs & Hl & Ht)] Hj.
  assert (Hq : forall w', level w' = level w -> lines w' !! i = lines w !! i -> isrs w' !! i = isrs w !! i -> (queued w = true -> queued w' = true) ->
    working w' = working w -> cover w' = cover w -> lid w' = lid w -> (exists l, sensor_data w' = s :: l) -> follows wire p i b w').
  { intros w' E1 E2 E3 E4 E5 E6 E7 E8. constructor; [done|by rewrite E1|]. exists s, t, pd. rewrite E1, E2. destruct Hs as (Hp & Hi & _).
    split; [done|]. split; [done|]. unfold in_step, early, going. rewrite E3, E5, E6, E7. intros Hb. destruct (Ht Hb) as [Ha Hc]. split; [done|]. tauto. }
  pose proof (other_sensor w p i s j Hs Hj) as Ho. destruct Hs as (Hp & Hi & l & Hs). unfold isr_step, isr_read, isr_set, isr_queue, at_phase, acknowledge, irq_set_irq_type.
  destruct (isrs w !! j) as [[]|].
  - destruct Ho as [-> | [k ->]]; apply Hq; cbn; try done; try (by rewrite lookup_insert_ne); rewrite Hs; cbn; eauto.
  - destruct (sensor_of (sensor_data w) j ≫= _); apply Hq; cbn; try done; try (by rewrite lookup_insert_ne); eauto. by rewrite lookup_alter_ne.
  - destruct (sensor_of (sensor_data w) j); apply Hq; cbn; try done; try (by rewrite lookup_delete_ne); eauto.
  - destruct (is_pending w j); [|by apply Hq; eauto]. apply Hq; cbn; try done; eauto; [by rewrite lookup_alter_ne|by rewrite lookup_insert_ne].
Qed.

Lemma own_isr wire p i b w : follows wire p i b w -> follows wire p i (set_stale i w (Isr i) b) (isr_step w i).
Proof.
  intros [H1 H2 (s & t & pd & Hs & Hl & Ht)]. pose proof (own_sensor w p i s Hs) as Ho. destruct Hs as (Hp & Hi & l & Hs).
  unfold set_stale, isr_step, isr_read, isr_set, isr_queue, at_phase, acknowledge. rewrite Ho, Hs. cbn [mbind option_bind lookup list_lookup].
  rewrite Z.eqb_refl. unfold in_step, early, going in Ht. destruct (isrs w !! i) as [[]|] eqn:Ei.
  - constructor; [done|done|]. exists (set_state s (level w (gpio_pin s))), t, pd. split; [split; [done|]; split; [done|]; cbn; eauto|].
    split; [done|]. intros _. unfold in_step, early. cbn. rewrite lookup_insert_eq. auto.
  - constructor; [done|done|]. exists s, (trigger_of (gpio_state s)), pd. split; [split; [done|]; split; [done|]; cbn; eauto|].
    split; [cbn; unfold irq_set_irq_type; by rewrite lookup_alter_eq, Hl|]. intros Hb%negb_false_iff%Z.eqb_eq. rewrite Hp in Hb.
    unfold in_step, early. cbn. rewrite lookup_insert_eq, Hb. split; [auto|by left].
  - constructor; [done|done|]. exists s, t, pd. split; [split; [done|]; split; [done|]; cbn; eauto|]. split; [done|]. intros Hb.
    destruct (Ht Hb) as [[[|]|Ha] _]; [done..|]. unfold in_step, early. cbn. auto.
  - unfold is_pending. rewrite Hl. destruct pd.
    + constructor; [done|done|]. exists s, t, false. split; [split; [done|]; split; [done|]; cbn; eauto|].
      split; [cbn; by rewrite lookup_alter_eq, Hl|]. intros _. unfold in_step, early. cbn. rewrite lookup_insert_eq. auto.
    + constructor; [done|done|]. exists s, t, false. split; [split; [done|]; split; [done|]; cbn; eauto|]. split; [done|].
      unfold in_step, early, going. rewrite Ei. done.
Qed.

Lemma other_stale i w j b : j <> i -> set_stale i w (Isr j) b = b.
Proof.
  intros Hj. unfold set_stale. destruct (isrs w !! i) as [[]|]; try done. destruct (_ ≫= _); [|done]. by destruct (Z.eqb_spec j i).
Qed.

Lemma work_follows wire p i b w : follows wire p i b w -> exists w', work_step w = Ret w' /\ follows wire p i b w'.
Proof.
  intros [H1 H2 (s & t & pd & (Hp & Hi & l & Hs) & Hl & Ht)]. unfold work_step, work_read, work_cover, work_report. rewrite Hs.
  unfold in_step, early, going in Ht. destruct (working w) eqn:Ew; cbn [mbind outcome_bind].
  - exists (if queued w then set_work w false Delayed else w). split; [done|]. destruct (queued w) eqn:Eq;
      (constructor; [done|done|]); exists s, t, pd; unfold first_sensor; (split; [cbn; eauto|]); (split; [done|]); unfold in_step, early, going; cbn; intros Hb;
      destruct (Ht Hb) as [Ha Hc]; (split; [done|]); rewrite ?Ew, ?Eq; auto.
  - eexists. split; [done|]. constructor; [done|done|]. exists (set_state s (level w (gpio_pin s))), t, pd. unfold first_sensor. split; [cbn; eauto|]. split; [done|].
    unfold in_step, early, going. cbn. intros Hb. destruct (Ht Hb) as [Ha Hc]. rewrite Hp. tauto.
  - eexists. split; [done|]. constructor; [done|done|]. exists s, t, pd. unfold first_sensor. split; [cbn; eauto|]. split; [done|].
    unfold in_step, early, going. cbn. intros Hb. destruct (Ht Hb) as [Ha Hc]. split; [done|]. destruct Hc as [|[|[|Hc]]]; [tauto..|].
    do 3 right. split; [done|]. rewrite Hc. by destruct H2 as [-> | ->].
  - eexists. split; [done|]. constructor; [done|done|]. exists s, t, pd. unfold first_sensor. split; [cbn; eauto|]. split; [done|].
    unfold in_step, early, going. cbn. intros Hb. destruct (Ht Hb) as [Ha Hc]. split; [done|]. destruct Hc as [|[|[|[Hc Hd]]]]; [tauto..|].
    do 3 right. split; [done|]. split; [done|]. rewrite Hc. by destruct H2 as [-> | ->].
Qed.

Lemma step_follows wire p i b w o : follows wire p i b w -> sane o ->
  exists w', step wire w o = Ret w' /\ follows wire p i (set_stale i w o b) w'.
Proof.
  intros Hf Ho. destruct o as [q v|j|]; cbn [step].
  - eexists. split; [done|]. by apply change_follows.
  - eexists. split; [done|]. destruct (decide (j = i)) as [->|Hj]; [by apply own_isr|]. rewrite other_stale by done. by apply other_isr.
  - by apply work_follows.
Qed.

Lemma history_follows wire p i os : forall b w, follows wire p i b w -> Forall sane os ->
  exists w', history wire w os = Ret w' /\ follows wire p i (stale wire i b w os) w'.
Proof.
  induction os as [|o os IH]; intros b w Hf Ho; [by exists w|]. apply list.Forall_cons in Ho as [Ho Hos].
  destruct (step_follows wire p i b w o Hf Ho) as (w1 & E & H1). cbn [history stale]. rewrite E. cbn [mbind outcome_bind]. by apply IH.
Qed.

Lemma hall_history_app wire a b : forall w, history wire w (a ++ b) = (w ← history wire w a; history wire w b).
Proof.
  induction a as [|o a IH]; intros w; [done|]. cbn [app history]. destruct (step wire w o) as [w1| |]; [|done..]. cbn [mbind outcome_bind]. apply IH.
Qed.

(** ** What is under way comes to an end *)

(** Nothing is under way for the line [i]. *)
Definition settled (w : hall) (i : Z) : bool :=
  negb (is_pending w i) && bool_decide (isrs w !! i = None) && negb (queued w) && bool_decide (working w = Idle).
(** What the kernel does when the pin rests: the handler ends, and runs for what is
    pending; the work ends, and runs for what is queued. *)
Definition drain (i : Z) : list op := replicate 7 (Isr i) ++ replicate 7 Work.

(** The parts the handler and the work have left. *)
Definition isr_left (w : hall) (i : Z) : nat :=
  match isrs w !! i with None => 0 | Some Acknowledged => 3 | Some PinRead => 2 | Some TriggerSet => 1 end + (if is_pending w i then 4 else 0).
Definition work_left (w : hall) : nat :=
  match working w with Idle => 0 | Delayed => 3 | WorkRead => 2 | CoverSet => 1 end + (if queued w then 4 else 0).

Lemma isr_left_step w i : isr_left (isr_step w i) i = pred (isr_left w i) /\ level (isr_step w i) = level w.
Proof.
  unfold isr_left, isr_step, isr_read, isr_set, isr_queue, at_phase, acknowledge, is_pending, irq_set_irq_type. destruct (isrs w !! i) as [[]|] eqn:E.
  - destruct (sensor_of _ _); cbn; by rewrite lookup_insert_eq.
  - destruct (_ ≫= _); cbn; rewrite lookup_insert_eq; [|done]. rewrite lookup_alter_eq. by destruct (lines w !! i) as [[]|].
  - destruct (sensor_of _ _); cbn; by rewrite lookup_delete_eq.
  - destruct (lines w !! i) as [[? []]|] eqn:El; cbn; rewrite ?lookup_insert_eq, ?lookup_alter_eq, ?El, ?E; done.
Qed.
Lemma work_left_step wire p i b w w' : follows wire p i b w -> work_step w = Ret w' ->
  work_left w' = pred (work_left w) /\ isr_left w' i = isr_left w i /\ level w' = level w.
Proof.
  intros [_ _ (s & _ & _ & (_ & _ & l & Hs) & _)]. unfold work_step, work_read, work_cover, work_report, work_left, isr_left, is_pending. rewrite Hs.
  destruct (working w) eqn:Ew; cbn [mbind outcome_bind]; intros [= <-]; [destruct (queued w) eqn:Eq|..]; cbn; rewrite ?Ew, ?Eq; done.
Qed.

Lemma isr_drains wire i n : forall w, exists w', history wire w (replicate n (Isr i)) = Ret w' /\ isr_left w' i = (isr_left w i - n)%nat /\ level w' = level w.
Proof.
  induction n as [|n IH]; intros w; [exists w; split; [done|]; split; [lia|done]|]. cbn [replicate history step mbind outcome_bind].
  destruct (isr_left_step w i) as [E1 E2]. destruct (IH (isr_step w i)) as (w' & E & E3 & E4). exists w'. split; [done|]. split; [lia|congruence].
Qed.
Lemma work_drains wire p i n : forall b w, follows wire p i b w ->
  exists w', history wire w (replicate n Work) = Ret w' /\ work_left w' = (work_left w - n)%nat /\ isr_left w' i = isr_left w i /\ level w' = level w.
Proof.
  induction n as [|n IH]; intros b w Hf; [exists w; split; [done|]; split; [lia|done]|]. cbn [replicate history step].
  destruct (work_follows wire p i b w Hf) as (w1 & E & H1). destruct (work_left_step wire p i b w w1 Hf E) as (E1 & E2 & E3).
  rewrite E. cbn [mbind outcome_bind]. destruct (IH b w1 H1) as (w' & E' & E4 & E5 & E6). exists w'. split; [done|]. split; [lia|]. split; congruence.
Qed.
Lemma nothing_left w i : isr_left w i = 0%nat -> work_left w = 0%nat -> settled w i = true.
Proof.
  unfold isr_left, work_left, settled. destruct (isrs w !! i) as [[]|], (is_pending w i), (working w), (queued w); try (intros; lia). done.
Qed.
Lemma left_bounds w i : (isr_left w i <= 7 /\ work_left w <= 7)%nat.
Proof. unfold isr_left, work_left. destruct (isrs w !! i) as [[]|], (is_pending w i), (working w), (queued w); lia. Qed.

Lemma drain_settles wire p i b w : follows wire p i b w ->
  exists w', history wire w (drain i) = Ret w' /\ settled w' i = true /\ level w' = level w.
Proof.
  intros Hf. unfold drain. rewrite hall_history_app. destruct (isr_drains wire i 7 w) as (w1 & E1 & L1 & V1).
  destruct (history_follows wire p i (replicate 7 (Isr i)) b w Hf) as (w1' & E1' & H1); [by apply Forall_replicate|].
  rewrite E1 in E1' |- *. injection E1' as <-. cbn [mbind outcome_bind]. destruct (work_drains wire p i 7 _ w1 H1) as (w2 & E2 & L2 & L3 & V2).
  exists w2. split; [exact E2|]. split; [|congruence]. destruct (left_bounds w i) as [B1 _], (left_bounds w1 i) as [_ B2].
  apply nothing_left; lia.
Qed.

(** Nothing more happens then. *)
Lemma idle_history wire w o n : step wire w o = Ret w -> history wire w (replicate n o) = Ret w.
Proof. intros E. induction n as [|n IH]; [done|]. cbn [replicate history]. rewrite E. exact IH. Qed.
Lemma settled_rests wire w i : settled w i = true -> history wire w (drain i) = Ret w.
Proof.
  unfold settled. rewrite !andb_true_iff, !negb_true_iff, !bool_decide_eq_true. intros [[[Hp Hi] Hq] Hk]. unfold drain. rewrite hall_history_app.
  rewrite idle_history by (cbn [step]; unfold isr_step; by rewrite Hi, Hp). cbn [mbind outcome_bind]. apply idle_history. cbn [step]. unfold work_step. by rewrite Hk, Hq.
Qed.

(** ** The probe *)

Lemma parse_sensors_all a np n : forall i l, parse_sensors a np n i = (l, None) ->
  Forall (fun s => gpio_pin s = a_gpio a) l /\ (n <> 0%nat -> exists s l', l = s :: l' /\ irq s = a_irq a i).
Proof.
  induction n as [|n IH]; intros i l; cbn [parse_sensors]; [intros [= <-]; by split|].
  destruct (negb (gpio_is_valid _)); [done|]. destruct (of_property_read_string_index _ _ _) as [rc nm].
  destruct (negb (rc =? 0)); [done|]. destruct (_ <=? 0); [done|]. destruct (parse_sensors a np n (S i)) as [l' r] eqn:E. intros [= <- ->].
  destruct (IH _ _ E) as [H _]. split; [by constructor|]. intros _. eauto.
Qed.

(** What [configure_irqs] leaves: every sensor has the level of the pin, and the
    lines wait for it to change. *)
Lemma configure_exact a p i todo : forall k w done k' w', Forall (fun s => gpio_pin s = p) todo -> configure_irqs a k w todo done = (k', w', 0) ->
  let v := level w p in
  (level w' = level w /\ isrs w' = isrs w /\ queued w' = queued w /\ working w' = working w /\ lid w' = lid w) /\
  (match todo with
   | [] => w' = w
   | _ => sensor_data w' = done ++ ((fun s => set_state s v) <$> todo) /\ cover w' = if negb (v =? 0) then COVER_OPENED else COVER_CLOSED
   end) /\
  (lines w !! i = Some (trigger_of v, false) \/ Exists (fun s => irq s = i) todo -> lines w' !! i = Some (trigger_of v, false)).
Proof.
  induction todo as [|s todo IH]; intros k w done k' w' Hf E; cbv zeta.
  - cbn in E. injection E as <- <-. split; [done|]. split; [done|]. intros [H|H]; [done|]. by apply Exists_nil in H.
  - apply list.Forall_cons in Hf as [Hp Hf]. cbn [configure_irqs set_state irq] in E. destruct (Z.ltb_spec (a_request_irq a (irq s)) 0).
    + injection E as _ _ E. lia.
    + apply IH in E; [|done]. cbv zeta in E. cbn [set_lines set_state level sensor_data isrs queued working lid lines cover irq] in E.
      rewrite Hp in E. destruct E as (E1 & E2 & E3). split; [exact E1|]. split.
      * destruct todo; [rewrite E2; by split|]. destruct E2 as [-> ->]. by rewrite <- app_assoc.
      * intros H1. apply E3. destruct (decide (irq s = i)) as [->|Hi]; [left; by rewrite lookup_insert_eq|].
        rewrite lookup_insert_ne by done. rewrite List.Exists_cons in H1. tauto.
Qed.

(** The first sensor of a probe that succeeds. *)
Lemma probed_world a np lev k w num : of_property_read_u32 np "sensor-num" = inr num -> (0 < Z.to_nat (s32 num))%nat ->
  hall_probe a np lev = (k, Some w, 0) -> let p := a_gpio a in let i := a_irq a 0%nat in let v := lev p in
  exists s, first_sensor w p i s /\ gpio_state s = v /\ level w = lev /\ isrs w = ∅ /\ queued w = false /\ working w = Idle /\ lid w = 0 /\
    cover w = (if negb (v =? 0) then COVER_OPENED else COVER_CLOSED) /\ lines w !! i = Some (trigger_of v, false).
Proof.
  intros Hn Hc. unfold hall_probe. rewrite Hn. destruct (negb (a_data a)); [done|].
  destruct (parse_sensors a np (Z.to_nat (s32 num)) 0) as [l [r|]] eqn:Ep; [done|]. apply parse_sensors_all in Ep as [Hl Hs].
  destruct Hs as (s & l' & -> & Hi); [lia|].
  destruct (negb (a_priv a)); [done|]. destruct (hall_input_device_create _ _) as [k1 [|]]; cbn [negb]; [|done].
  destruct (negb (a_workqueue a)); [done|]. destruct (configure_irqs _ _ _ _ _) as [[k2 w2] e] eqn:E.
  destruct (Z.eqb_spec e 0) as [->|He]; cbn [negb]; [|intros [=]; done]. intros [= _ <-].
  eapply (configure_exact a (a_gpio a) (a_irq a 0%nat)) in E; [|exact Hl]. cbn in E. destruct E as ((E1 & E2 & E3 & E4 & E5) & [E6 E7] & E8).
  rewrite list.Forall_cons in Hl. exists (set_state s (lev (a_gpio a))). unfold first_sensor. rewrite E1, E2, E3, E4, E5, E6, E7.
  repeat split; try done; [by apply Hl|by eexists|]. apply E8. right. by left.
Qed.

Lemma probed_follows wire a np lev k w num : of_property_read_u32 np "sensor-num" = inr num -> (0 < Z.to_nat (s32 num))%nat ->
  hall_probe a np lev = (k, Some w, 0) ->
  wire (a_irq a 0%nat) = a_gpio a -> lev (a_gpio a) = 1 -> follows wire (a_gpio a) (a_irq a 0%nat) false w.
Proof.
  intros Hn Hc Hp Hw Hl. destruct (probed_world a np lev k w num Hn Hc Hp) as (s & H1 & H2 & H3 & H4 & H5 & H6 & H7 & H8 & H9).
  rewrite Hl in *. constructor; [done|rewrite H3, Hl; by right|]. exists s, (trigger_of 1), false. rewrite H3, Hl. split; [done|]. split; [done|].
  intros _. unfold in_step, going. rewrite H6. split; [by do 2 right|]. do 3 right. by rewrite H2, H7, H8.
Qed.

(** Bit 0 of the number in the proc file is the state of the first sensor. *)
Lemma show_rest (l : list hall_sensor_data) : forall f r, (forall k, (0 < f k)%nat) ->
  Z.odd (foldl (fun reg '(i, s) => u8 (Z.lor reg (Z.shiftl (gpio_state s) (Z.of_nat i)))) r (imap (fun k s => (f k, s)) l)) = Z.odd r.
Proof.
  induction l as [|s l IH]; intros f r Hf; [done|]. cbn [imap foldl]. change (imap ((fun k s => (f k, s)) ∘ S) l) with (imap (fun k s => ((f ∘ S) k, s)) l).
  pose proof (Hf 0%nat) as H0. rewrite (IH (f ∘ S)) by (intros k; apply Hf). rewrite <- !Z.bit0_odd. unfold u8. change 256 with (2 ^ 8). rewrite Z.mod_pow2_bits_low by lia.
  rewrite Z.lor_spec, Z.shiftl_spec by lia. rewrite (Z.testbit_neg_r (gpio_state s)) by lia. by rewrite orb_false_r.
Qed.
Lemma show_first w p i s : first_sensor w p i s -> binary (gpio_state s) -> Z.odd (hall_show w) = (gpio_state s =? 1).
Proof.
  intros (_ & _ & l & Hs) Hb. unfold hall_show. rewrite Hs. cbn [imap foldl]. change (imap (pair ∘ S) l) with (imap (fun k s => (S k, s)) l).
  rewrite show_rest by lia. by destruct Hb as [-> | ->].
Qed.

(** C2. For any number of sensors. From a probe with an open cover on, whatever
    the pin does and however the parts of the handlers and of the work are
    interleaved with it: once the pin rests and what is pending has run, the lid
    switch and the cover state are the level of the pin, and so is the bit of the
    first sensor in the proc file, and nothing is under way; provided the trigger
    that the handler of the first sensor set last was for the level the pin had
    then (otherwise see [missed_edge]). A cover that is closed at the probe is not
    reported: the switch says open until the cover is moved. *)
Theorem lid_follows (wire : Z -> Z) (a : probe_answers) (np : device_node) (lev : Z -> Z) (k : holdings resource) (w : hall) (os : list op) (num : Z)
    (Hn : of_property_read_u32 np "sensor-num" = inr num) (Hc : (0 < Z.to_nat (s32 num))%nat) (Hp : hall_probe a np lev = (k, Some w, 0))
    (Hw : wire (a_irq a 0%nat) = a_gpio a) (Hos : Forall sane os) :
  let p := a_gpio a in
  let i := a_irq a 0%nat in
  (lev p = 1 -> exists w', history wire w (os ++ drain i) = Ret w' /\ settled w' i = true /\
    (stale wire i false w (os ++ drain i) = false ->
     let v := level w' p in lid w' = 1 - v /\ cover w' = v /\ Z.odd (hall_show w') = (v =? 1))) /\
  (lev p = 0 -> cover w = COVER_CLOSED /\ lid w = 0 /\ history wire w (drain i) = Ret w).
Proof.
  cbv zeta. split; intros Hl.
  - pose proof (probed_follows wire a np lev k w num Hn Hc Hp Hw Hl) as Hf.
    destruct (history_follows wire _ _ os false w Hf Hos) as (w1 & E1 & H1).
    destruct (drain_settles wire _ _ _ w1 H1) as (w2 & E2 & Hs & _).
    assert (E : history wire w (os ++ drain (a_irq a 0%nat)) = Ret w2) by (by rewrite hall_history_app, E1).
    exists w2. split; [exact E|]. split; [exact Hs|]. intros Hst.
    destruct (history_follows wire _ _ (os ++ drain (a_irq a 0%nat)) false w Hf) as (w2' & E' & H2).
    { apply Forall_app. split; [done|]. apply Forall_app. split; by apply Forall_replicate. }
    assert (w2' = w2) as -> by congruence. rewrite Hst in H2. destruct H2 as [_ Hb (s & t & pd & Hfs & El & Hr)].
    destruct (Hr eq_refl) as [_ Hg]. unfold settled, is_pending in Hs. rewrite El in Hs. rewrite !andb_true_iff, !negb_true_iff, !bool_decide_eq_true in Hs.
    destruct Hs as [[[-> Hi] Hq] Hk]. unfold going in Hg. rewrite Hk in Hg. destruct Hg as [|[|[|(G1 & G2 & G3)]]]; [congruence..|].
    split; [done|]. split; [done|]. rewrite <- G1. apply (show_first _ _ _ _ Hfs). by rewrite G1.
  - destruct (probed_world a np lev k w num Hn Hc Hp) as (s & H1 & H2 & H3 & H4 & H5 & H6 & H7 & H8 & H9). rewrite Hl in *.
    split; [done|]. split; [done|]. apply settled_rests. unfold settled, is_pending. by rewrite H4, H5, H6, H9.
Qed.

(** ** A change that is missed *)

Definition one_wire (i : Z) : Z := 77.
Definition probed : hall :=
  mkHall [mkSensor 77 40 (str "lid") 1] COVER_OPENED (fun _ => 1) {[ 40 := (IRQF_TRIGGER_FALLING, false) ]} ∅ false Idle 0 [].

(** The handler reads the pin and only then asks for the next edge. When the cover
    is closed for a moment and the pin goes back in between, that edge is not seen
    and the line waits for one that cannot come: the work still reports the right
    level, but the next movement of the cover is lost, and the lid switch stays
    wrong while nothing is under way. *)
Definition flicker : list op := [Change 77 0; Isr 40; Isr 40; Change 77 1] ++ drain 40.
Theorem missed_edge :
  match history one_wire probed flicker with
  | Ret w => settled w 40 = true /\ level w 77 = 1 /\ lid w = 0 /\ stale one_wire 40 false probed flicker = true /\
    match history one_wire w (Change 77 0 :: drain 40) with
    | Ret w => settled w 40 = true /\ level w 77 = 0 /\ lid w = 0 /\ cover w = COVER_OPENED
    | _ => False
    end
  | _ => False
  end.
Proof. vm_compute. by repeat split. Qed.

(** ** What a probe leaves *)

(** The first answer that ends the probe of one sensor before its interrupt is
    requested, and what is then returned. *)
Definition first_failure (a : probe_answers) (np : device_node) : option Z :=
  let rc := (of_property_read_string_index np "sensor-name" 0).1 in
  if negb (a_data a) then Some (- ENOMEM)
  else if negb (gpio_is_valid (a_gpio a)) then Some 0
  else if negb (rc =? 0) then Some rc
  else if a_irq a 0%nat <=? 0 then Some (- EINVAL)
  else if negb (a_priv a && a_input_alloc a && (a_input_register a =? 0)) then Some (- ENOMEM)
  else if negb (a_workqueue a) then Some 0
  else None.

(** A probe of one sensor that fails before it requests the interrupt gives back
    everything; but an invalid GPIO, also one that is only not there yet, and a
    work queue that cannot be had make it return 0, and the removal of the device
    that seems bound faults. A refused interrupt leaves the wake-up source and the
    wake-up mark of the line behind; so does a removal the latter. *)
Theorem hall_probe_exact (a : probe_answers) (np : device_node) (lev : Z -> Z) (Hn : of_property_read_u32 np "sensor-num" = inr 1) :
  let i := a_irq a 0%nat in
  match first_failure a np with
  | Some e => hall_probe a np lev = (mkHoldings [] [], None, e) /\ hall_remove (mkHoldings [] []) None = Oops
  | None =>
    exists w, if a_request_irq a i <? 0 then hall_probe a np lev = (mkHoldings [IrqWake i; WakeLock] [], Some w, a_request_irq a i)
    else
      let k := mkHoldings ((if a_proc a then [ProcFile] else []) ++ [IrqHandler i; IrqWake i; WakeLock; WorkQueue; InputDev; PrivData; SensorData]) [] in
      hall_probe a np lev = (k, Some w, 0) /\
      hall_remove k (Some w) = Ret (mkHoldings [IrqWake i] (if a_proc a then [] else [ProcFile]))
  end.
Proof.
  cbv zeta. unfold hall_probe, first_failure. rewrite Hn. change (Z.to_nat (s32 1)) with 1%nat.
  destruct (a_data a); cbn [negb]; [|by split]. cbn [parse_sensors]. change (Z.of_nat 0) with 0.
  destruct (gpio_is_valid (a_gpio a)); cbn [negb]; [|split; [by repeat follow_holdings|done]].
  destruct (of_property_read_string_index np "sensor-name" 0) as [rc n]. cbn [fst].
  destruct (rc =? 0); cbn [negb]; [|split; [by repeat follow_holdings|done]].
  destruct (a_irq a 0%nat <=? 0); [split; [by repeat follow_holdings|done]|]. unfold hall_input_device_create.
  destruct (a_priv a); cbn [negb andb]; [|split; [by repeat follow_holdings|done]].
  destruct (a_input_alloc a); cbn [negb andb]; [|split; [by repeat follow_holdings|done]].
  destruct (a_input_register a =? 0); cbn [negb andb]; [|split; [by repeat follow_holdings|done]].
  destruct (a_workqueue a); cbn [negb]; [|split; [by repeat follow_holdings|done]].
  cbn [configure_irqs set_state irq]. destruct (Z.ltb_spec (a_request_irq a (a_irq a 0%nat)) 0); eexists.
  - destruct (Z.eqb_spec (a_request_irq a (a_irq a 0%nat)) 0); [lia|]. cbn [negb]. by repeat follow_holdings.
  - change (0 =? 0) with true. cbn [negb]. split; [by destruct (a_proc a); repeat follow_holdings|].
    unfold hall_remove. cbn [set_lines sensor_data app foldl irq]. by destruct (a_proc a); cbn [app]; repeat follow_holdings.
Qed.

(** ** Examples *)

Definition hall_dt : device_node :=
  <["sensor-num"%string := Some (be32_bytes 1)]> (<["sensor-name"%string := Some (str "lid" ++ [0])]> ∅).
Definition willing : probe_answers := mkProbe 77 (fun _ => 40) true true true 0 true (fun _ => 0) true.
Lemma hall_dt_one : of_property_read_u32 hall_dt "sensor-num" = inr 1.
Proof. vm_compute. reflexivity. Qed.
Definition probed_holdings : holdings resource :=
  mkHoldings [ProcFile; IrqHandler 40; IrqWake 40; WakeLock; WorkQueue; InputDev; PrivData; SensorData] [].
Lemma probed_eq : hall_probe willing hall_dt (fun _ => 1) = (probed_holdings, Some probed, 0).
Proof. vm_compute. reflexivity. Qed.

(** The cover is closed, opened again while the handler runs, after it has set the
    trigger, and closed while the work has read the pin and not reported it. *)
Definition busy : list op :=
  [Change 77 0; Isr 40; Isr 40; Isr 40; Change 77 1; Isr 40; Work; Work; Isr 40; Isr 40; Work; Isr 40; Change 77 0; Work].
Lemma lid_follows_witness :
  exists w', history one_wire probed (busy ++ drain 40) = Ret w' /\ lid w' = 1 /\ cover w' = COVER_CLOSED /\ Z.odd (hall_show w') = false.
Proof.
  destruct (lid_follows one_wire willing hall_dt (fun _ => 1) probed_holdings probed busy 1) as [H _].
  - exact hall_dt_one.
  - vm_compute. lia.
  - exact probed_eq.
  - reflexivity.
  - repeat constructor; solve [by left | by right].
  - destruct (H eq_refl) as (w' & E & _ & H1). exists w'. split; [exact E|]. destruct H1 as (H1 & H2 & H3); [vm_compute; reflexivity|].
    assert (Hv : level w' 77 = 0) by (vm_compute in E; injection E as <-; reflexivity).
    cbn [willing a_gpio] in H1, H2, H3. rewrite Hv in H1, H2, H3. split; [exact H1|]. split; [exact H2|exact H3].
Defined.

(** A GPIO whose controller is not there yet. *)
Lemma hall_probe_exact_witness :
  hall_probe (mkProbe (- EPROBE_DEFER) (fun _ => 40) true true true 0 true (fun _ => 0) true) hall_dt (fun _ => 1) = (mkHoldings [] [], None, 0) /\
  hall_remove (mkHoldings [] []) None = Oops.
Proof.
  pose proof (hall_probe_exact (mkProbe (- EPROBE_DEFER) (fun _ => 40) true true true 0 true (fun _ => 0) true) hall_dt (fun _ => 1) hall_dt_one) as H.
  cbv zeta in H. assert (E : first_failure (mkProbe (- EPROBE_DEFER) (fun _ => 40) true true true 0 true (fun _ => 0) true) hall_dt = Some 0)
    by (vm_compute; reflexivity).
  rewrite E in H. exact H.
Defined.
